(* ===== verification/_CoqProject ===== *)
-Q . S2P
Prelude.v
RemovingIndexes.v
WebStateListModel.v
OrderController.v
WebStateListOps.v
WebStateListProofs.v
WebStateListTheorems.v
WebStateListTracking.v
SessionMetrics.v
SessionMetricsTheorems.v
WebTypes.v
WkNavigationUtil.v
NavigationItem.v
NavigationStates.v
SessionStorage.v
SessionBuilder.v
SessionWindow.v
WebStateListSerialization.v
SerializationProofs.v
SerializationTheorems.v
SerializationRoundTrip.v
SessionRestoration.v
SessionRestorationTheorems.v
SessionService.v
SessionServiceTheorems.v
SessionSaving.v
SessionSavingTheorems.v
NavigationManagerState.v
NavigationManager.v
NavigationManagerProofs.v
NavigationManagerTheorems.v
NavigationManagerSafety.v
FirstUserActionRecorder.v
BaseValues.v
BrowserStateInfoCache.v
NotificationPromo.v
WebThread.v
ChunkedDataStreamUploader.v
NetCaches.v
FreFieldTrial.v
PolicyDecisions.v
WebFramesManager.v
CertPolicies.v
CertVerification.v
NavigationManagerRestore.v
WebStateImplState.v
RealizedWebState.v
WebStateImpl.v
WebStateImplProofs.v
WebStateImplTheorems.v
WebStateImplRestore.v
OverlayState.v
OverlayOps.v
OverlayProofs.v
OverlayDismissal.v
OverlayInvariant.v
OverlayCalls.v
OverlayWindow.v
OverlayRequests.v
OverlayContext.v
OverlayCallsAll.v
OverlayOwnership.v
OverlayTheorems.v
