(* ===== verification/Prelude.v ===== *)
(** * Verification library for the iOS port of Chromium

    This library models the core logic of the iOS port (the directories web/,
    chrome/browser/ and net/ of src/) and proves what makes it correct. Each
    definition is a translation of the C++ or Objective-C++ it names; what the
    program takes from elsewhere (base, url, net, UIKit, WebKit) is an argument of
    the definitions, a class of operations with the documented laws it relies on.

    ** The program and its parts

    A window of the browser is a list of tabs. A tab is a [web::WebState]: a
    WKWebView, its history and what is attached to it.

    - [WebStateList] (chrome/browser/web_state_list/) keeps the WebStates of a
      window in order, the active one and who opened whom; the order controller
      decides where a WebState is inserted and which one is active next. Observers
      are notified of every change. web_state_list_serialization.mm saves a list
      and restores it.
    - [NavigationManagerImpl] (web/navigation/) is the history of a WebState: the
      committed items, which WebKit keeps, the pending item, and the restoration
      of a saved session. It makes and shows [NavigationItemImpl]s;
      [CRWWKNavigationStates] tracks the navigations that are under way, each with
      a [NavigationContextImpl].
    - The session storages (web/session/ and the storage builders of web/navigation/) are what is
      archived of a WebState; [SessionWindowIOS] archives a window.
    - The sessions on disk (chrome/browser/sessions/): a [SessionIOSFactory] makes the
      session of a window, [SessionServiceIOS] writes it to files, at once or after
      a delay, and reads it; [SessionRestorationBrowserAgent] asks for a save when
      the tabs change, and restores what was saved.
    - [WebStateImpl] (web/web_state/) owns the manager, the frames and the policy
      deciders; a restored one is only its saved session until it is used.
    - The certificates: the exceptions the user allowed, those of a session
      (web/security/), and the verification of the certificates of a page
      (web/net/crw_cert_verification_controller.mm) on several threads.
    - The overlays (chrome/browser/overlays/, chrome/browser/ui/overlays/) are the
      dialogs of the tabs: a queue of requests for each WebState, a presenter that
      shows the front request of the active one, and the context that runs the UI.
    - The metrics of the tabs: an agent of each browser counts what the WebStateList
      tells it, and observes the WebStates of the list through a forwarder.
    - Services: the recorder of the first user action, the cache of the browser
      states, the promotions, the named threads, the uploads in chunks, the caches
      of the network, the field trial of the first run.

    ** Conventions

    A handler of a component with state [S] is a function of type [M S A] below: it
    returns a value and the new state, or a [fault]: a DCHECK or CHECK that fails,
    an access out of range, NOTREACHED, an exception, the use of a destroyed
    object. A theorem that says [m s = Ok (a, s')] thus says that the code returns
    and that nothing is asserted in vain. A pointer is an identity (a [positive],
    or the constructor of an interface), null is [None]. An [int] or [size_t] is a
    [Z], with its wrap-around or its overflow (a fault where it is undefined)
    written out. A container is a list or a [gmap]; the order of a container
    with an unspecified order is an argument. What is sent to observers, delegates
    and histograms is recorded in the state, in order; a posted task is an
    explicit step. Classes of operations ([GURLOps], [WebStateEnv], [ItemEnv],
    [OverlayEnv]...) are the interfaces between the components and to the code that
    is not part of the repository; each has an instance in an [Example...] module,
    on which the witnesses and the examples are evaluated.

    ** The files

    - Prelude.v (this one): the monad and its rules, vectors, integers, options,
      frames ([keeps], [never]).
    - RemovingIndexes.v, WebStateListModel.v, OrderController.v, WebStateListOps.v:
      the data and the operations of [WebStateList] and of the classes it uses,
      each with its queries; WebStateListProofs.v has the invariant, the abstract
      tab strip and the promises to observers, WebStateListTheorems.v the theorems
      on sequences of calls; WebStateListTracking.v replays the notifications.
    - SessionMetrics.v, SessionMetricsTheorems.v: two observers of the list, the
      metrics agent and its forwarder of WebState notifications.
    - WebTypes.v, WkNavigationUtil.v, NavigationItem.v: the values of the web
      layer, the URLs of restored sessions and error pages, the items and contexts.
    - NavigationStates.v: [CRWWKNavigationStates].
    - SessionStorage.v, SessionBuilder.v, SessionWindow.v: archives, the storages of
      items and sessions, the builders.
    - WebStateListSerialization.v: the two functions; SerializationProofs.v,
      SerializationTheorems.v, SerializationRoundTrip.v: what they guarantee.
    - SessionRestoration.v, SessionRestorationTheorems.v: [RestoreSessionWindow];
      SessionService.v, SessionServiceTheorems.v: the sessions on disk;
      SessionSaving.v, SessionSavingTheorems.v: the agent that saves and restores them.
    - NavigationManagerState.v, NavigationManager.v: the manager and its cache of
      the web view; NavigationManagerProofs.v, NavigationManagerTheorems.v,
      NavigationManagerSafety.v, NavigationManagerRestore.v: what it guarantees, and
      what restoring a session into a new manager does.
    - FirstUserActionRecorder.v, BaseValues.v, BrowserStateInfoCache.v,
      NotificationPromo.v, WebThread.v, ChunkedDataStreamUploader.v, NetCaches.v,
      FreFieldTrial.v: the services, each with its specification and theorems.
    - PolicyDecisions.v, WebFramesManager.v: the policy deciders of a WebState, its
      frames.
    - CertPolicies.v, CertVerification.v: the certificates.
    - WebStateImplState.v, RealizedWebState.v, WebStateImpl.v: the WebState, saved and
      realized; WebStateImplProofs.v, WebStateImplTheorems.v, WebStateImplRestore.v:
      what its methods keep, the theorems on its life, its realization.
    - OverlayState.v, OverlayOps.v: the overlays of a window; OverlayProofs.v to
      OverlayCallsAll.v: every call keeps their invariant; OverlayOwnership.v: who
      owns the requests; OverlayTheorems.v: what the user sees.

    ** What the theorems show

    - Tabs: every legal sequence of calls and batches on a list returns, keeps the
      invariant and the observers informed, and does to it what it does to an
      abstract tab strip ([exec_refines_strip], [reachable_observers_in_sync]); a
      mutation by an observer is refused, but for that of an opener
      ([reentrant_calls_fail]). The two decisions of the order controller are those
      of reference definitions ([DetermineNewActiveIndex_refines],
      [DetermineInsertionIndex_correct]), and the set of removed indexes agrees with
      the removal from a list.
    - Sessions: archiving and reading back gives the same data (the round trips of
      items, sessions and windows); a saved list that is restored has copies of its
      WebStates, of their openers and of the active one ([serialization_roundtrip]),
      and any archive, tampered with or not, is restored by legal calls
      ([DeserializeWebStateList_correct]). A window adds a tab for each of its
      sessions with history and closes a lone new tab page
      ([RestoreSessionWindow_correct]), and the metrics do not see it
      ([restoration_counts_nothing]). The tabs of a window that is saved come back when
      the session is restored ([tabs_come_back]), and what the agent is told of is
      saved in the end ([change_reaches_disk]): a delayed save is done
      ([delayed_save_reaches_disk]), unless another session is saved immediately
      before it, and then it never is ([immediate_save_strands_others]).
    - Navigation: loads end ([LoadURLWithParams_terminates]); a page can neither
      have an item with an URL of the application made nor have an uncommitted
      URL shown ([CreateNavigationItemWithRewriters_safe], [GetVisibleItem_safe]);
      restoration URLs encode the items of a bounded range, each of them; a session
      is restored only into a manager without history ([Restore_needs_no_history]);
      in-flight navigations are numbered as the order in which they were added.
    - Overlays: a request is alive exactly while it is queued or kept until its UI is
      dismissed ([Overlays_requests_owned]), whatever the coordinators do. When those
      that are hidden or cancelled finish at once ([FinishAtOnce]) no call fails, the
      UI on screen is that of the front request of the active WebState
      ([Overlays_safe]), and it is shown whenever it can be
      ([Overlays_active_request_shown]).
    - WebStates: an unrealized WebState answers as the realized one would, but for
      its history and favicon, which are empty while WebKit restores the session
      ([ForceRealized_transparent]); over its whole life a WebState is well formed, its
      observers are told of its changes in pairs and its saved session is kept until an
      item is committed ([reachable_well_formed], [observers_protocol],
      [session_survives]).
    - Certificates: a bad certificate is accepted only after the user allowed it for
      the host ([certificate_decisions]). The set of exceptions of a restored session
      is enumerated in any order.
    - Metrics of the tabs: the observers of a list can replay each of its calls
      (WebStateListTracking.v), the forwarder observes exactly the WebStates of the list
      ([observers_follow_lists]), and the counters and samples account for every tab
      ([tabs_accounted_for]).
    - Services: each implements its specification over every sequence of calls; in any
      sequence of launches on one channel a client of the field trial keeps the group
      its first run gave it, unless another trial has its features
      ([launches_keep_group]).

    ** Fuel and bounds

    Where the recursion of the code is not structural the definition takes fuel and
    a theorem or lemma shows that it is enough. The search for the next child of
    the order controller has one turn for each WebState and two more, the closing
    of all WebStates one for each and one more. [GetLastCommittedItem_loop] and
    [LoadURLWithParams_loop] have fuel 2: a load nests at most one restoration and
    the search for the last committed item at most one item creation
    ([LoadURLWithParams_terminates] shows that more fuel changes nothing).
    [CancelAllRequests] has the size of its queue. The loops over containers are
    structural. Overflow is treated where the code computes with values it does not
    control: the indexes of offsets, the saved opener indexes, the identifiers of
    items, the counters of records, the microseconds of [base::Time].

    ** What is not modelled

    What only calls UIKit or WebKit, file and network I/O, generated code, tables of
    constants, tests; the registration of observers ([base::ObserverList] is not
    code of the repository); histograms, except where they are what a class is for.
    The manifest lists these components one by one. Reentrancy is modelled where
    the code handles it (the lock of the list, the callbacks of the overlays, the
    callbacks of a restoration); an observer is otherwise one that does not call
    back before it returns. *)

From stdpp Require Import base tactics option list numbers gmap.
From Stdlib Require Import ZArith Lia.

Declare Scope ios_scope.
Delimit Scope ios_scope with ios.
Open Scope ios_scope.

(** ** Failing, state-passing computations

    A DCHECK or CHECK of the source that does not hold, an out-of-range access,
    a NOTREACHED, an Objective-C exception and the use of a destroyed object are
    values of [fault]; a handler of a component with state [S] is a function of
    type [M S A]. *)

Inductive fault : Type :=
| DCheckFailed
| CheckFailed
| NotReached
| OutOfRange
| SignedOverflow
| NSException
| UseAfterFree
| OutOfFuel.

Inductive res (A : Type) : Type :=
| Ok (a : A)
| Fault (f : fault).
Arguments Ok {A} a.
Arguments Fault {A} f.

#[global] Instance fault_eq_dec : EqDecision fault.
Proof. solve_decision. Defined.

Definition M (S A : Type) : Type := S -> res (A * S).

Definition mreturn {S A} (a : A) : M S A := fun s => Ok (a, s).

Definition mbind {S A B} (m : M S A) (k : A -> M S B) : M S B :=
  fun s => match m s with
           | Ok (a, s') => k a s'
           | Fault f => Fault f
           end.

Definition mget {S} : M S S := fun s => Ok (s, s).
Definition mgets {S A} (f : S -> A) : M S A := fun s => Ok (f s, s).
Definition mmodify {S} (f : S -> S) : M S unit := fun s => Ok (tt, f s).
Definition mfail {S A} (f : fault) : M S A := fun _ => Fault f.

(** [DCHECK(b)], [CHECK(b)] *)
Definition dcheck {S} (b : bool) : M S unit :=
  fun s => if b then Ok (tt, s) else Fault DCheckFailed.
Definition check {S} (b : bool) : M S unit :=
  fun s => if b then Ok (tt, s) else Fault CheckFailed.

(** Reading an element that the source reads without a guard. *)
Definition of_option {S A} (o : option A) : M S A :=
  fun s => match o with Some a => Ok (a, s) | None => Fault OutOfRange end.

(** Following a pointer to an object that may have been destroyed. *)
Definition deref {S A} (o : option A) : M S A :=
  fun s => match o with Some a => Ok (a, s) | None => Fault UseAfterFree end.

(** [if (b) m;] *)
Definition mwhen {S} (b : bool) (m : M S unit) : M S unit :=
  if b then m else mreturn tt.

(** [for (auto& x : l) f(x);] *)
Fixpoint mfor {S A} (l : list A) (f : A -> M S unit) : M S unit :=
  match l with
  | [] => mreturn tt
  | x :: l' => mbind (f x) (fun _ => mfor l' f)
  end.

(** The results of [f] on the elements of a list, in order. *)
Fixpoint mmap {S A B} (l : list A) (f : A -> M S B) : M S (list B) :=
  match l with
  | [] => mreturn []
  | x :: l' => mbind (f x) (fun y => mbind (mmap l' f) (fun ys => mreturn (y :: ys)))
  end.

Notation "'let!' x ':=' m 'in' k" := (mbind m (fun x => k))
  (at level 10, x pattern, m at level 100, k at level 200,
   format "'[v' 'let!'  x  ':='  m  'in' '/' k ']'") : ios_scope.
Notation "m ';;;' k" := (mbind m (fun _ => k))
  (at level 199, right associativity, format "'[v' m  ';;;' '/' k ']'") : ios_scope.

(** The result of a computation, and its final state. *)
Definition run {S A} (m : M S A) (s : S) : res (A * S) := m s.

Definition final_state {S A} (r : res (A * S)) : option S :=
  match r with Ok (_, s) => Some s | Fault _ => None end.
Definition result_of {S A} (r : res (A * S)) : option A :=
  match r with Ok (a, _) => Some a | Fault _ => None end.

(** ** Total weakest preconditions

    [wp m Q s]: run from [s], [m] returns without any fault, and the result and
    the final state satisfy [Q]. *)

Definition wp {S A} (m : M S A) (Q : A -> S -> Prop) (s : S) : Prop :=
  match m s with
  | Ok (a, s') => Q a s'
  | Fault _ => False
  end.

Section WpRules.
Context {S A B : Type}.
Implicit Types (s : S) (Q : A -> S -> Prop).

Lemma wp_ok (m : M S A) Q s a s' : m s = Ok (a, s') -> Q a s' -> wp m Q s.
Proof. unfold wp. by intros ->. Qed.

Lemma wp_inv (m : M S A) Q s : wp m Q s -> exists a s', m s = Ok (a, s') /\ Q a s'.
Proof. unfold wp. destruct (m s) as [[a s']|f]; [eauto | done]. Qed.

Lemma wp_return (a : A) Q s : Q a s -> wp (mreturn a) Q s.
Proof. done. Qed.

Lemma wp_bind (m : M S B) (k : B -> M S A) Q s :
  wp m (fun b s' => wp (k b) Q s') s -> wp (mbind m k) Q s.
Proof. unfold wp, mbind. by destruct (m s) as [[b s']|f]. Qed.

Lemma wp_conseq (m : M S A) Q Q' s :
  wp m Q' s -> (forall a s', Q' a s' -> Q a s') -> wp m Q s.
Proof. unfold wp. destruct (m s) as [[a s']|f]; auto. Qed.

Lemma wp_gets (f : S -> A) Q s : Q (f s) s -> wp (mgets f) Q s.
Proof. done. Qed.

Lemma wp_of_option (o : option A) a Q s : o = Some a -> Q a s -> wp (of_option o) Q s.
Proof. intros -> H. done. Qed.
End WpRules.

Section WpUnitRules.
Context {S : Type}.
Implicit Types (s : S) (Q : unit -> S -> Prop).

Lemma wp_get (Q : S -> S -> Prop) s : Q s s -> wp mget Q s.
Proof. done. Qed.

Lemma wp_modify (f : S -> S) Q s : Q tt (f s) -> wp (mmodify f) Q s.
Proof. done. Qed.

Lemma wp_dcheck (b : bool) Q s : b = true -> Q tt s -> wp (dcheck b) Q s.
Proof. intros ->. done. Qed.

Lemma wp_check (b : bool) Q s : b = true -> Q tt s -> wp (check b) Q s.
Proof. intros ->. done. Qed.

Lemma wp_when (b : bool) (m : M S unit) Q s :
  (b = true -> wp m Q s) -> (b = false -> Q tt s) -> wp (mwhen b m) Q s.
Proof. unfold mwhen. destruct b; intros H1 H2; [by apply H1 | by apply H2]. Qed.

(** The loop rule: an invariant indexed by the elements already visited. *)
Lemma wp_for {A} (Inv : list A -> S -> Prop) (l : list A) (f : A -> M S unit) Q s :
  Inv [] s ->
  (forall done x todo s', l = done ++ x :: todo -> Inv done s' ->
     wp (f x) (fun _ s'' => Inv (done ++ [x]) s'') s') ->
  (forall s', Inv l s' -> Q tt s') ->
  wp (mfor l f) Q s.
Proof.
  intros H0 Hstep Hend.
  assert (forall todo done s', l = done ++ todo -> Inv done s' -> wp (mfor todo f) Q s')
    as H; [| by apply (H l [] s)].
  induction todo as [| x todo IH]; intros done s' El HI; cbn [mfor].
  - apply wp_return, Hend. by rewrite El, app_nil_r.
  - apply wp_bind. eapply wp_conseq; [by eapply Hstep|]. intros [] s'' HI'. cbn.
    apply (IH (done ++ [x])); [| done]. by rewrite <- app_assoc.
Qed.
End WpUnitRules.

(** One step of the weakest-precondition calculus on the goal. *)
Ltac wp_step :=
  lazymatch goal with
  | |- wp (mbind _ _) _ _ => apply wp_bind
  | |- wp (mreturn _) _ _ => apply wp_return
  | |- wp mget _ _ => apply wp_get
  | |- wp (mgets _) _ _ => apply wp_gets
  | |- wp (mmodify _) _ _ => apply wp_modify
  | |- wp (dcheck _) _ _ => apply wp_dcheck
  | |- wp (check _) _ _ => apply wp_check
  | |- wp (mwhen _ _) _ _ => apply wp_when
  | |- wp (of_option _) _ _ => eapply wp_of_option
  end.

(** One statement of the code: the head of a sequence, or the last one. *)
Ltac wp_next :=
  lazymatch goal with
  | |- wp (mbind _ _) _ _ => apply wp_bind; wp_step
  | |- wp _ _ _ => wp_step
  end.

(** Uses the specification [H] of a call at the head of a sequence. *)
Ltac wp_call H :=
  lazymatch goal with
  | |- wp (mbind _ _) _ _ => apply wp_bind; eapply wp_conseq; [eapply H|]
  | |- wp _ _ _ => eapply wp_conseq; [eapply H|]
  end.

(** Inversion of a successful monadic computation. *)
Lemma mbind_ok {S A B} (m : M S A) (k : A -> M S B) s b s'' :
  mbind m k s = Ok (b, s'') ->
  exists a s', m s = Ok (a, s') /\ k a s' = Ok (b, s'').
Proof. unfold mbind. destruct (m s) as [[a s']|]; [eauto | done]. Qed.

(** Two sequences with the same head. *)
Lemma mbind_eq {S A B} (m : M S A) (k k' : A -> M S B) s :
  (forall a s', m s = Ok (a, s') -> k a s' = k' a s') -> mbind m k s = mbind m k' s.
Proof. unfold mbind. destruct (m s) as [[a s']|]; auto. Qed.

Lemma mbind_eq_head {S A B} (m m' : M S A) (k : A -> M S B) s :
  m s = m' s -> mbind m k s = mbind m' k s.
Proof. unfold mbind. by intros ->. Qed.

(** Running the head of a sequence. *)
Lemma mbind_run {S A B} (m : M S A) (k : A -> M S B) s a s' :
  m s = Ok (a, s') -> mbind m k s = k a s'.
Proof. unfold mbind. by intros ->. Qed.

Lemma dcheck_ok {S} b (s s' : S) u : dcheck b s = Ok (u, s') -> s' = s /\ b = true.
Proof. unfold dcheck. by destruct b; [intros [= _ ->]|]. Qed.

Lemma mreturn_bind {S A B} (a : A) (k : A -> M S B) s : mbind (mreturn a) k s = k a s.
Proof. done. Qed.

Lemma mbind_assoc {S A B C} (m : M S A) (k : A -> M S B) (k' : B -> M S C) s :
  mbind (mbind m k) k' s = mbind m (fun a => mbind (k a) k') s.
Proof. unfold mbind. by destruct (m s) as [[? ?]|]. Qed.

(** ** Vectors

    [std::vector::insert] and [std::vector::erase] at an index in range, and
    reading a vector at a machine integer. *)

Section Vectors.
Context {A : Type}.
Implicit Types (l : list A) (i j : nat) (x y : A).

Definition insert_at (i : nat) (x : A) (l : list A) : list A := take i l ++ x :: drop i l.

Definition erase_at (i : nat) (l : list A) : list A := take i l ++ drop (S i) l.

Definition zlookup (l : list A) (i : Z) : option A :=
  if (0 <=? i)%Z then l !! Z.to_nat i else None.

Lemma length_insert_at i x l : i <= length l -> length (insert_at i x l) = S (length l).
Proof. intros. unfold insert_at. rewrite length_app, length_take; cbn. rewrite length_drop. lia. Qed.

Lemma length_erase_at i l : i < length l -> length (erase_at i l) = length l - 1.
Proof. intros. unfold erase_at. rewrite length_app, length_take, length_drop. lia. Qed.

Lemma insert_at_split l1 l2 x : insert_at (length l1) x (l1 ++ l2) = l1 ++ x :: l2.
Proof. unfold insert_at. by rewrite take_app_length, drop_app_length. Qed.

Lemma erase_at_split l1 l2 x : erase_at (length l1) (l1 ++ x :: l2) = l1 ++ l2.
Proof.
  unfold erase_at. rewrite take_app_length, drop_app_ge by lia.
  replace (S (length l1) - length l1) with 1 by lia. done.
Qed.

Lemma split_at l i x : l !! i = Some x ->
  exists l1 l2, l = l1 ++ x :: l2 /\ length l1 = i.
Proof.
  intros H. exists (take i l), (drop (S i) l). split; [by rewrite take_drop_middle|].
  apply lookup_lt_Some in H. rewrite length_take. lia.
Qed.

Lemma erase_insert_at i x l : i <= length l -> erase_at i (insert_at i x l) = l.
Proof.
  intros H. rewrite <- (take_drop i l) at 2. unfold insert_at.
  assert (length (take i l) = i) as E by (rewrite length_take; lia).
  rewrite <- E at 1. apply erase_at_split.
Qed.

Lemma lookup_insert_at_lt i j x l : i <= length l -> j < i -> insert_at i x l !! j = l !! j.
Proof.
  intros. unfold insert_at. rewrite lookup_app_l by (rewrite length_take; lia).
  by rewrite lookup_take_lt.
Qed.

Lemma lookup_insert_at_eq i x l : i <= length l -> insert_at i x l !! i = Some x.
Proof.
  intros. unfold insert_at.
  rewrite lookup_app_r by (rewrite length_take; lia).
  rewrite length_take. by replace (i - min i (length l)) with 0 by lia.
Qed.

Lemma lookup_insert_at_gt i j x l :
  i <= length l -> i <= j -> insert_at i x l !! S j = l !! j.
Proof.
  intros. unfold insert_at.
  rewrite lookup_app_r by (rewrite length_take; lia).
  rewrite length_take. replace (S j - min i (length l)) with (S (j - i)) by lia.
  change ((x :: drop i l) !! S (j - i)) with (drop i l !! (j - i)).
  rewrite lookup_drop. f_equal. lia.
Qed.

Lemma lookup_erase_at_lt i j l : j < i -> erase_at i l !! j = l !! j.
Proof.
  intros. unfold erase_at. destruct (decide (j < length l)) as [Hj|Hj].
  - rewrite lookup_app_l by (rewrite length_take; lia). by rewrite lookup_take_lt.
  - rewrite (lookup_ge_None_2 l) by lia. apply lookup_ge_None_2.
    rewrite length_app, length_take, length_drop. lia.
Qed.

Lemma lookup_erase_at_ge i j l : i <= j -> erase_at i l !! j = l !! S j.
Proof.
  intros. unfold erase_at. destruct (decide (i <= length l)) as [Hi|Hi].
  - rewrite lookup_app_r by (rewrite length_take; lia).
    rewrite lookup_drop, length_take. f_equal. lia.
  - rewrite (lookup_ge_None_2 l) by lia. apply lookup_ge_None_2.
    rewrite length_app, length_take, length_drop. lia.
Qed.

Lemma insert_at_Permutation i x l : insert_at i x l ≡ₚ x :: l.
Proof.
  unfold insert_at. rewrite <- Permutation_middle. by rewrite take_drop.
Qed.

Lemma erase_at_Permutation i x l : l !! i = Some x -> l ≡ₚ x :: erase_at i l.
Proof.
  intros (l1 & l2 & -> & <-)%split_at. rewrite erase_at_split.
  by rewrite Permutation_middle.
Qed.

Lemma insert_insert_at i x y l : i <= length l -> <[i := y]> (insert_at i x l) = insert_at i y l.
Proof.
  intros Hi. unfold insert_at. replace i with (length (take i l) + 0) at 1 by (rewrite length_take; lia).
  by rewrite insert_app_r.
Qed.

Lemma zlookup_Some l (z : Z) x :
  zlookup l z = Some x <-> (0 <= z)%Z /\ l !! Z.to_nat z = Some x.
Proof. unfold zlookup. destruct (Z.leb_spec 0 z); split; [done|by intros []|done|lia]. Qed.

Lemma zlookup_lt_is_Some l (z : Z) :
  is_Some (zlookup l z) <-> (0 <= z < Z.of_nat (length l))%Z.
Proof.
  unfold zlookup. destruct (Z.leb_spec 0 z).
  - rewrite lookup_lt_is_Some. lia.
  - split; [by intros [? ?] | lia].
Qed.

Lemma zlookup_of_nat l i : zlookup l (Z.of_nat i) = l !! i.
Proof. unfold zlookup. destruct (Z.leb_spec 0 (Z.of_nat i)); [by rewrite Nat2Z.id | lia]. Qed.

Lemma zlookup_nonneg l (z : Z) : (0 <= z)%Z -> zlookup l z = l !! Z.to_nat z.
Proof. unfold zlookup. destruct (Z.leb_spec 0 z); [done | lia]. Qed.

Lemma zlookup_neg l (z : Z) : (z < 0)%Z -> zlookup l z = None.
Proof. intros Hz. unfold zlookup. by rewrite (proj2 (Z.leb_gt 0 z)). Qed.

Lemma zlookup_insert_at l x (i z : Z) :
  (0 <= i <= Z.of_nat (length l))%Z ->
  zlookup (insert_at (Z.to_nat i) x l) z =
    if (z <? i)%Z then zlookup l z
    else if (z =? i)%Z then Some x else zlookup l (z - 1).
Proof.
  intros Hi. destruct (Z.ltb_spec z i) as [Hlt|Hge].
  - destruct (decide (z < 0)%Z); [by rewrite !zlookup_neg by lia|].
    rewrite !zlookup_nonneg by lia. apply lookup_insert_at_lt; lia.
  - rewrite zlookup_nonneg by lia. destruct (Z.eqb_spec z i) as [->|Hne].
    + apply lookup_insert_at_eq. lia.
    + rewrite zlookup_nonneg by lia.
      replace (Z.to_nat z) with (S (Z.to_nat (z - 1))) by lia.
      apply lookup_insert_at_gt; lia.
Qed.

Lemma zlookup_erase_at l (i z : Z) :
  (0 <= i)%Z ->
  zlookup (erase_at (Z.to_nat i) l) z =
    if (z <? i)%Z then zlookup l z else zlookup l (z + 1).
Proof.
  intros Hi. destruct (Z.ltb_spec z i) as [Hlt|Hge].
  - destruct (decide (z < 0)%Z); [by rewrite !zlookup_neg by lia|].
    rewrite !zlookup_nonneg by lia. apply lookup_erase_at_lt; lia.
  - rewrite !zlookup_nonneg by lia.
    replace (Z.to_nat (z + 1)) with (S (Z.to_nat z)) by lia.
    apply lookup_erase_at_ge; lia.
Qed.

Lemma zlookup_insert l x (i z : Z) :
  (0 <= i < Z.of_nat (length l))%Z ->
  zlookup (<[Z.to_nat i := x]> l) z = if (z =? i)%Z then Some x else zlookup l z.
Proof.
  intros Hi. destruct (Z.eqb_spec z i) as [->|Hne].
  - rewrite zlookup_nonneg by lia. apply list_lookup_insert_eq. lia.
  - destruct (decide (z < 0)%Z); [by rewrite !zlookup_neg by lia|].
    rewrite !zlookup_nonneg by lia. apply list_lookup_insert_ne. lia.
Qed.

Lemma zlookup_elem l (z : Z) x : zlookup l z = Some x -> x ∈ l.
Proof. intros [_ H]%zlookup_Some. by eapply list_elem_of_lookup_2. Qed.

Lemma zlookup_inj l (i j : Z) x :
  NoDup l -> zlookup l i = Some x -> zlookup l j = Some x -> i = j.
Proof.
  intros Hnd [Hi Hx]%zlookup_Some [Hj Hy]%zlookup_Some.
  pose proof (NoDup_lookup l _ _ _ Hnd Hx Hy). lia.
Qed.

Lemma NoDup_insert_at i x l : NoDup l -> x ∉ l -> NoDup (insert_at i x l).
Proof. intros. rewrite insert_at_Permutation. by constructor. Qed.

Lemma elem_of_insert_at i x y l : y ∈ insert_at i x l <-> y = x \/ y ∈ l.
Proof. rewrite insert_at_Permutation. apply elem_of_cons. Qed.

Lemma NoDup_erase_at i x l :
  NoDup l -> l !! i = Some x -> NoDup (erase_at i l) /\ x ∉ erase_at i l.
Proof. intros Hnd Hx. rewrite (erase_at_Permutation i x l Hx) in Hnd. by apply NoDup_cons in Hnd as []. Qed.

Lemma elem_of_erase_at i x y l :
  NoDup l -> l !! i = Some x -> y ∈ erase_at i l <-> y ∈ l /\ y <> x.
Proof.
  intros Hnd Hx. destruct (NoDup_erase_at i x l Hnd Hx) as [_ Hn].
  rewrite (erase_at_Permutation i x l Hx) at 2. rewrite elem_of_cons.
  split; [|tauto]. intros Hy. split; [by right|]. by intros ->.
Qed.

(** The index of the first element satisfying a test: a [for] loop that returns
    the index, or [kInvalidIndex] (-1) after the loop. *)
Fixpoint first_index (p : A -> bool) (l : list A) : option nat :=
  match l with
  | [] => None
  | x :: l' => if p x then Some 0 else S <$> first_index p l'
  end.

Definition index_or_invalid (o : option nat) : Z :=
  match o with Some i => Z.of_nat i | None => (-1)%Z end.

Lemma first_index_Some p l i :
  first_index p l = Some i <->
  exists x, l !! i = Some x /\ p x = true /\
            forall j y, j < i -> l !! j = Some y -> p y = false.
Proof.
  revert i. induction l as [| a l IH]; intros i; cbn.
  { split; [done|]. intros (x & H & _). done. }
  destruct (p a) eqn:Ha.
  - split.
    + intros [= <-]. exists a. split_and!; [done..|lia].
    + intros (x & Hx & Hp & Hmin). destruct i as [| i]; [done|].
      specialize (Hmin 0 a ltac:(lia) eq_refl). congruence.
  - rewrite fmap_Some. split.
    + intros (k & Hk & ->). apply IH in Hk as (x & Hx & Hp & Hmin).
      exists x. split_and!; [done..|]. intros [| j] y Hj Hy; [cbn in Hy; congruence|].
      apply (Hmin j); [lia | done].
    + intros (x & Hx & Hp & Hmin). destruct i as [| i]; [cbn in Hx; congruence|].
      exists i. split; [|done]. apply IH. exists x. split_and!; [done..|].
      intros j y Hj Hy. apply (Hmin (S j)); [lia | done].
Qed.

Lemma first_index_None p l :
  first_index p l = None <-> forall x, x ∈ l -> p x = false.
Proof.
  induction l as [| a l IH]; cbn.
  - split; [|done]. intros _ x Hx. by apply elem_of_nil in Hx.
  - destruct (p a) eqn:Ha.
    + split; [done|]. intros H. specialize (H a ltac:(left)). congruence.
    + rewrite fmap_None, IH. split.
      * intros H x [->|Hx]%elem_of_cons; auto.
      * intros H x Hx. apply H. by right.
Qed.

Lemma first_index_lt p l i : first_index p l = Some i -> i < length l.
Proof. intros (x & Hx & _)%first_index_Some. by eapply lookup_lt_Some. Qed.
End Vectors.

Lemma insert_at_fmap {A B} (f : A -> B) i x (l : list A) :
  f <$> insert_at i x l = insert_at i (f x) (f <$> l).
Proof. unfold insert_at. by rewrite fmap_app, fmap_cons, fmap_take, fmap_drop. Qed.

Lemma erase_at_fmap {A B} (f : A -> B) i (l : list A) :
  f <$> erase_at i l = erase_at i (f <$> l).
Proof. unfold erase_at. by rewrite fmap_app, fmap_take, fmap_drop. Qed.

Lemma zlookup_fmap {A B} (f : A -> B) (l : list A) z :
  zlookup (f <$> l) z = f <$> zlookup l z.
Proof. unfold zlookup. destruct (0 <=? z)%Z; [apply list_lookup_fmap | done]. Qed.

Lemma lookup_app_plus {A} (l1 l2 : list A) i : (l1 ++ l2) !! (length l1 + i) = l2 !! i.
Proof. rewrite lookup_app_r by lia. f_equal. lia. Qed.

(** Filters and counts. *)
Lemma filter_none {A} (P : A -> Prop) `{!forall x, Decision (P x)} (l : list A) :
  (forall x, x ∈ l -> ~ P x) -> filter P l = [].
Proof.
  induction l as [| a l IH]; intros Hn; [done|].
  rewrite filter_cons_False by (apply Hn; left). apply IH. intros x Hx. apply Hn. by right.
Qed.

Lemma filter_all {A} (P : A -> Prop) `{!forall x, Decision (P x)} (l : list A) :
  (forall x, x ∈ l -> P x) -> filter P l = l.
Proof.
  induction l as [| a l IH]; intros Hp; [done|].
  rewrite filter_cons_True by (apply Hp; left). f_equal. apply IH. intros x Hx. apply Hp. by right.
Qed.

Lemma filter_ext_elem {A} (P Q : A -> Prop) `{!forall x, Decision (P x), !forall x, Decision (Q x)}
  (l : list A) : (forall x, x ∈ l -> P x <-> Q x) -> filter P l = filter Q l.
Proof.
  induction l as [| a l IH]; intros Hn; [done|].
  assert (filter P l = filter Q l) as E by (apply IH; intros; apply Hn; by right).
  assert (P a <-> Q a) as Ha by (apply Hn; left).
  destruct (decide (P a)).
  - rewrite !filter_cons_True by tauto. by rewrite E.
  - rewrite !filter_cons_False by tauto. done.
Qed.

(** The first element of a filtered list splits the list. *)
Lemma filter_first_split {A} (p : A -> bool) (l : list A) x m :
  filter (fun y => p y = true) l = x :: m ->
  exists m1 m2, l = m1 ++ x :: m2 /\ p x = true /\
    (forall y, y ∈ m1 -> p y = false) /\ m = filter (fun y => p y = true) m2.
Proof.
  induction l as [| z l IH]; [done|]. rewrite filter_cons. case_decide as Hz.
  - intros [= -> <-]. exists [], l. split_and!; [done..| | done].
    intros y Hy. by apply elem_of_nil in Hy.
  - intros Ef. destruct (IH Ef) as (m1 & m2 & -> & ? & Hm1 & ->). exists (z :: m1), m2.
    split_and!; [done..| | done]. intros y [->|Hy]%elem_of_cons; [|auto].
    by destruct (p z).
Qed.

(** Taking one possible element out of a duplicate-free count. *)
Lemma length_filter_remove `{EqDecision A} (P : A -> Prop) `{!forall x, Decision (P x)}
  (l : list A) (a : A) :
  NoDup l -> P a ->
  length (filter P l) =
    (if bool_decide (a ∈ l) then 1 else 0) + length (filter (fun y => P y /\ y <> a) l).
Proof.
  intros Hnd Ha. induction Hnd as [| b l Hb Hnd IH]; [done|].
  destruct (decide (b = a)) as [->|Hab].
  - rewrite bool_decide_eq_true_2 by left.
    rewrite filter_cons_True by done. rewrite filter_cons_False by tauto.
    rewrite (filter_ext_elem P (fun y => P y /\ y <> a) l); [done|].
    intros y Hy. split; [|tauto]. split; [done|]. by intros ->.
  - assert (bool_decide (a ∈ b :: l) = bool_decide (a ∈ l)) as Hbd.
    { apply bool_decide_ext. rewrite elem_of_cons. split; [intros [->|?]; done | by right]. }
    rewrite Hbd.
    destruct (decide (P b)).
    + rewrite !filter_cons_True by done. cbn. rewrite IH. lia.
    + rewrite !filter_cons_False by tauto. done.
Qed.

(** ** What a computation keeps, and the faults it never has

    [keeps R m]: the states before and after a run of [m] that returns are
    related; [never f m]: no run of [m] ends with the fault [f]. Both go through
    the code by [code_step], a hint for each function that was done before. *)

Create HintDb code discriminated.

Definition keeps {S A} (R : relation S) (m : M S A) : Prop :=
  forall s a s', m s = Ok (a, s') -> R s s'.

Definition never {S A} (f : fault) (m : M S A) : Prop := forall s, m s <> Fault f.

Section Keeps.
Context {S A B : Type} (R : relation S) `{!PreOrder R}.

Lemma keeps_return (a : A) : keeps R (mreturn a).
Proof. by intros s a' s' [= _ <-]. Qed.
Lemma keeps_get : keeps R mget.
Proof. by intros s a' s' [= _ <-]. Qed.
Lemma keeps_gets (f : S -> A) : keeps R (mgets f).
Proof. by intros s a' s' [= _ <-]. Qed.
Lemma keeps_fail f : keeps R (@mfail S A f).
Proof. done. Qed.
Lemma keeps_dcheck b : keeps R (dcheck b).
Proof. intros s a s'. unfold dcheck. by destruct b; intros [= _ <-]. Qed.
Lemma keeps_of_option (o : option A) : keeps R (of_option o).
Proof. intros s a s'. unfold of_option. by destruct o; intros [= _ <-]. Qed.
Lemma keeps_modify (f : S -> S) : (forall s, R s (f s)) -> keeps R (mmodify f).
Proof. intros Hf s a s' [= _ <-]. apply Hf. Qed.

Lemma keeps_bind (m : M S A) (k : A -> M S B) :
  keeps R m -> (forall a, keeps R (k a)) -> keeps R (mbind m k).
Proof. intros Hm Hk s b s'' (a & s' & H1 & H2)%mbind_ok. etransitivity; [by eapply Hm|by eapply Hk]. Qed.

Lemma keeps_when b (m : M S unit) : keeps R m -> keeps R (mwhen b m).
Proof. intros Hm. destruct b; [exact Hm|by intros s a s' [= _ <-]]. Qed.
End Keeps.

Lemma keeps_for {S A} (R : relation S) `{!PreOrder R} (l : list A) (f : A -> M S unit) :
  (forall x, keeps R (f x)) -> keeps R (mfor l f).
Proof.
  intros Hf. induction l as [| x l IH]; [by apply keeps_return|]. by apply keeps_bind.
Qed.
Lemma keeps_map {S A B} (R : relation S) `{!PreOrder R} (l : list A) (f : A -> M S B) :
  (forall x, keeps R (f x)) -> keeps R (mmap l f).
Proof.
  intros Hf. induction l as [| x l IH]; [by apply keeps_return|].
  apply keeps_bind; [done..|]. intros y. apply keeps_bind; [done..|]. intros ys. by apply keeps_return.
Qed.

Lemma keeps_weaken {S A} (R R' : relation S) (m : M S A) :
  subrelation R R' -> keeps R m -> keeps R' m.
Proof. intros Hr Hm s a s' E. by eapply Hr, Hm. Qed.

Lemma length_mmap {S A B} (l : list A) (f : A -> M S B) s ys s' :
  mmap l f s = Ok (ys, s') -> length ys = length l.
Proof.
  revert s ys s'. induction l as [| x l IH]; intros s ys s'; cbn [mmap]; [by intros [= <- _]|].
  intros (y & s1 & _ & (ys' & s2 & E & [= <- _])%mbind_ok)%mbind_ok. cbn. f_equal. by eapply IH.
Qed.

Section Never.
Context {S A B : Type} (f : fault).

Lemma never_return (a : A) : never f (@mreturn S A a).
Proof. done. Qed.
Lemma never_get : never f (@mget S).
Proof. done. Qed.
Lemma never_gets (g : S -> A) : never f (mgets g).
Proof. done. Qed.
Lemma never_modify (g : S -> S) : never f (mmodify g).
Proof. done. Qed.
Lemma never_fail f' : f' <> f -> never f (@mfail S A f').
Proof. by intros Hf s [= ?]. Qed.
Lemma never_dcheck b : DCheckFailed <> f -> never f (@dcheck S b).
Proof. intros Hf s. unfold dcheck. destruct b; [done|]. by intros [= ?]. Qed.
Lemma never_of_option (o : option A) : OutOfRange <> f -> never f (@of_option S A o).
Proof. intros Hf s. unfold of_option. destruct o; [done|]. by intros [= ?]. Qed.
Lemma never_bind (m : M S A) (k : A -> M S B) :
  never f m -> (forall a, never f (k a)) -> never f (mbind m k).
Proof.
  intros Hm Hk s. unfold mbind. specialize (Hm s).
  destruct (m s) as [[a s']|f']; [apply Hk|congruence].
Qed.
Lemma never_when b (m : M S unit) : never f m -> never f (mwhen b m).
Proof. intros Hm. by destruct b. Qed.
End Never.

Lemma never_for {S A} f (l : list A) (g : A -> M S unit) : (forall x, never f (g x)) -> never f (mfor l g).
Proof. intros Hg. induction l as [| x l IH]; [done|]. by apply never_bind. Qed.
Lemma never_map {S A B} f (l : list A) (g : A -> M S B) : (forall x, never f (g x)) -> never f (mmap l g).
Proof.
  intros Hg. induction l as [| x l IH]; [done|].
  apply never_bind; [done|]. intros y. by apply never_bind.
Qed.

#[export] Hint Resolve keeps_return keeps_get keeps_gets keeps_fail keeps_dcheck keeps_of_option : code.
#[export] Hint Resolve never_return never_get never_gets never_modify : code.
#[export] Hint Extern 2 (never _ (mfail _)) => apply never_fail; discriminate : code.
#[export] Hint Extern 2 (never _ (dcheck _)) => apply never_dcheck; discriminate : code.
#[export] Hint Extern 2 (never _ (of_option _)) => apply never_of_option; discriminate : code.

(** Through one statement of the code. *)
Ltac code_step :=
  first
    [ solve [auto with code typeclass_instances]
    | lazymatch goal with
      | |- forall _, _ => intro
      | |- keeps _ (mbind _ _) => apply keeps_bind
      | |- keeps _ (mwhen _ _) => apply keeps_when
      | |- keeps _ (mfor _ _) => apply keeps_for
      | |- keeps _ (mmap _ _) => apply keeps_map
      | |- keeps _ (mmodify _) => apply keeps_modify
      | |- never _ (mbind _ _) => apply never_bind
      | |- never _ (mwhen _ _) => apply never_when
      | |- never _ (mfor _ _) => apply never_for
      | |- never _ (mmap _ _) => apply never_map
      | |- keeps _ (match ?x with _ => _ end) => destruct x
      | |- never _ (match ?x with _ => _ end) => destruct x
      end ].

(** Through the code of a function. *)
Ltac through f := unfold f; repeat first [code_step | done | by split].

(** ** Machine integers *)

Definition INT_MAX : Z := 2 ^ 31 - 1.
Definition INT_MIN : Z := - 2 ^ 31.
Definition in_int (z : Z) : bool := (INT_MIN <=? z)%Z && (z <=? INT_MAX)%Z.
Definition uint32 (z : Z) : Z := (z mod 2 ^ 32)%Z.
Definition size_t (z : Z) : Z := (z mod 2 ^ 64)%Z.

(** The conversion of a wider integer to [int]. *)
Definition to_int (z : Z) : Z := ((z - INT_MIN) mod 2 ^ 32 + INT_MIN)%Z.

Lemma to_int_id z : in_int z = true -> to_int z = z.
Proof.
  unfold in_int, to_int, INT_MIN, INT_MAX. intros [? ?]%andb_true_iff.
  rewrite Z.mod_small by lia. lia.
Qed.

Lemma in_int_spec z : in_int z = true <-> (INT_MIN <= z <= INT_MAX)%Z.
Proof. unfold in_int. rewrite andb_true_iff, !Z.leb_le. done. Qed.

(** ** Hint databases and shared tactics *)

Create HintDb ios discriminated.
Create Rewrite HintDb ios_rw.

#[export] Hint Rewrite @length_insert_at @length_erase_at using lia : ios_rw.
#[export] Hint Rewrite @zlookup_of_nat @zlookup_fmap @insert_at_fmap @erase_at_fmap
  @length_fmap : ios_rw.

(** Decidable equality of an inductive type whose arguments have one. *)
Ltac solve_eqdec :=
  unfold EqDecision, Decision; intros; decide equality; try solve_trivial_decision.

(** Turns the boolean tests of the code into propositions. *)
Ltac bool_to_prop :=
  repeat match goal with
  | H : _ && _ = true |- _ => apply andb_true_iff in H as [? ?]
  | H : _ || _ = false |- _ => apply orb_false_iff in H as [? ?]
  | H : negb _ = true |- _ => apply negb_true_iff in H
  | H : negb _ = false |- _ => apply negb_false_iff in H
  | H : bool_decide _ = true |- _ => apply bool_decide_eq_true in H
  | H : bool_decide _ = false |- _ => apply bool_decide_eq_false in H
  | H : (_ =? _)%Z = true |- _ => apply Z.eqb_eq in H
  | H : (_ =? _)%Z = false |- _ => apply Z.eqb_neq in H
  | H : (_ <=? _)%Z = true |- _ => apply Z.leb_le in H
  | H : (_ <=? _)%Z = false |- _ => apply Z.leb_gt in H
  | H : (_ <? _)%Z = true |- _ => apply Z.ltb_lt in H
  | H : (_ <? _)%Z = false |- _ => apply Z.ltb_ge in H
  end.
