(* ===== verification/RemovingIndexes.v ===== *)
(** * WebStateListRemovingIndexes

    The set of indexes about to be closed in a [WebStateList]
    (src/chrome/browser/web_state_list/web_state_list_removing_indexes.{h,mm}):
    the variant that stores it, its construction from a vector, and the three
    visitors [count], [Contains] and [IndexAfterRemoval], with their agreement
    with the plain set of indexes and with the actual removal from a list. *)

From stdpp Require Import base tactics option list numbers sorting gmap.
From Stdlib Require Import ZArith Lia.
From S2P Require Import Prelude.

Module WebStateListRemovingIndexes.

(** [using Storage = absl::variant<Empty, int, std::vector<int>>] *)
Inductive Storage : Type :=
| Empty
| One (index : Z)
| Many (indexes : list Z).

#[global] Instance Storage_eq_dec : EqDecision Storage.
Proof. solve_decision. Defined.

(** [WebStateList::kInvalidIndex] *)
Definition kInvalidIndex : Z := -1.

(** [std::unique]: drops every element equal to its predecessor. *)
Fixpoint unique (l : list Z) : list Z :=
  match l with
  | x :: ((y :: _) as l') => if (x =? y)%Z then unique l' else x :: unique l'
  | _ => l
  end.

(** [std::lower_bound] on a sorted range: the distance from its beginning to
    the first element that is not smaller than [x]. *)
Fixpoint lower_bound (l : list Z) (x : Z) : nat :=
  match l with
  | [] => 0
  | y :: l' => if (y <? x)%Z then S (lower_bound l' x) else 0
  end.

Definition StorageFromVector (indexes : list Z) : Storage :=
  let indexes := unique (merge_sort Z.le indexes) in
  match indexes with
  | [] => Empty
  | [index] => One index
  | _ => Many indexes
  end.

Definition StorageFromInitializerList (indexes : list Z) : Storage :=
  match indexes with
  | [] => Empty
  | [index] => One index
  | _ => StorageFromVector indexes
  end.

Definition count (removing : Storage) : Z :=
  match removing with
  | Empty => 0
  | One _ => 1
  | Many indexes => Z.of_nat (length indexes)
  end.

(** [std::binary_search] is [lower_bound] followed by the equality test. *)
Definition Contains (removing : Storage) (index_ : Z) : bool :=
  match removing with
  | Empty => false
  | One index => (index_ =? index)%Z
  | Many indexes =>
      match indexes !! lower_bound indexes index_ with
      | Some y => (y =? index_)%Z
      | None => false
      end
  end.

Definition IndexAfterRemoval (removing : Storage) (index_ : Z) : Z :=
  match removing with
  | Empty => index_
  | One index =>
      if (index_ =? index)%Z then kInvalidIndex
      else if (index_ >? index)%Z then index_ - 1 else index_
  | Many indexes =>
      let lb := lower_bound indexes index_ in
      match indexes !! lb with
      | None => index_ - Z.of_nat lb
      | Some y => if (y =? index_)%Z then kInvalidIndex else index_ - Z.of_nat lb
      end
  end.

(** ** The set of indexes a storage stands for *)

Definition elems (removing : Storage) : list Z :=
  match removing with
  | Empty => []
  | One index => [index]
  | Many indexes => indexes
  end.

Definition wf (removing : Storage) : Prop := StronglySorted Z.lt (elems removing).

(** The list left once the elements at the indexes chosen by [rm] are gone. *)
Fixpoint survivors {A} (rm : Z -> bool) (k : Z) (l : list A) : list A :=
  match l with
  | [] => []
  | x :: l' =>
      if rm k then survivors rm (k + 1) l' else x :: survivors rm (k + 1) l'
  end.

(** How many indexes of [k, k+n) are chosen by [rm]. *)
Fixpoint chosen_below (rm : Z -> bool) (k : Z) (n : nat) : nat :=
  match n with
  | 0 => 0
  | S n' => (if rm k then 1 else 0) + chosen_below rm (k + 1) n'
  end.

(** *** Sorting and deduplication *)

Lemma elem_of_unique l x : x ∈ unique l <-> x ∈ l.
Proof.
  induction l as [| a l IH]; [done|]. destruct l as [| b l]; [done|].
  change (unique (a :: b :: l)) with
    (if (a =? b)%Z then unique (b :: l) else a :: unique (b :: l)).
  destruct (Z.eqb_spec a b) as [->|Hab].
  - rewrite IH, !elem_of_cons. tauto.
  - rewrite !(elem_of_cons _ _ a), IH. done.
Qed.

Lemma unique_sorted l : StronglySorted Z.le l -> StronglySorted Z.lt (unique l).
Proof.
  induction l as [| a l IH]; intros Hs; [constructor|].
  inversion Hs as [|? ? Hs' Hall]; subst.
  destruct l as [| b l]; [by repeat constructor|].
  change (unique (a :: b :: l)) with
    (if (a =? b)%Z then unique (b :: l) else a :: unique (b :: l)).
  destruct (Z.eqb_spec a b) as [->|Hab]; [by apply IH|].
  constructor; [by apply IH|]. apply Forall_forall. intros x Hx.
  rewrite elem_of_unique in Hx.
  assert (a <= b)%Z by (by inversion Hall).
  apply elem_of_cons in Hx as [->|Hx]; [lia|].
  inversion Hs' as [|? ? _ Hb]; subst. rewrite Forall_forall in Hb.
  specialize (Hb _ Hx). lia.
Qed.

Lemma sort_unique_sorted l : StronglySorted Z.lt (unique (merge_sort Z.le l)).
Proof. apply unique_sorted, StronglySorted_merge_sort; apply _. Qed.

Lemma elem_of_sort_unique l x : x ∈ unique (merge_sort Z.le l) <-> x ∈ l.
Proof. rewrite elem_of_unique. by rewrite merge_sort_Permutation. Qed.

Lemma elems_StorageFromVector l :
  elems (StorageFromVector l) = unique (merge_sort Z.le l).
Proof. unfold StorageFromVector. by destruct (unique _) as [| a [| b l']]. Qed.

Lemma wf_StorageFromVector l : wf (StorageFromVector l).
Proof. unfold wf. rewrite elems_StorageFromVector. apply sort_unique_sorted. Qed.

Lemma elem_of_elems_StorageFromVector l x : x ∈ elems (StorageFromVector l) <-> x ∈ l.
Proof. rewrite elems_StorageFromVector. apply elem_of_sort_unique. Qed.

Lemma wf_StorageFromInitializerList l : wf (StorageFromInitializerList l).
Proof.
  destruct l as [| a [| b l]]; [by constructor | by repeat constructor |].
  apply (wf_StorageFromVector (a :: b :: l)).
Qed.

Lemma elem_of_elems_StorageFromInitializerList l x :
  x ∈ elems (StorageFromInitializerList l) <-> x ∈ l.
Proof.
  destruct l as [| a [| b l]]; [done | done |].
  apply (elem_of_elems_StorageFromVector (a :: b :: l)).
Qed.

Lemma count_elems r : count r = Z.of_nat (length (elems r)).
Proof. by destruct r. Qed.

Lemma wf_NoDup r : wf r -> NoDup (elems r).
Proof.
  unfold wf. generalize (elems r) as l. induction 1 as [| a l Hs IH Hall]; constructor; auto.
  intros Ha. rewrite Forall_forall in Hall. specialize (Hall _ Ha). lia.
Qed.

(** *** lower_bound on a strictly sorted range *)

Lemma lower_bound_lookup l x y :
  StronglySorted Z.lt l -> l !! lower_bound l x = Some y -> (x <= y)%Z.
Proof.
  induction 1 as [| a l Hs IH Hall]; cbn; [done|].
  destruct (Z.ltb_spec a x); cbn; [auto|]. intros [= <-]. done.
Qed.

Lemma lower_bound_mem l x :
  StronglySorted Z.lt l -> l !! lower_bound l x = Some x <-> x ∈ l.
Proof.
  induction 1 as [| a l Hs IH Hall]; cbn.
  { split; [done|]. by intros ?%elem_of_nil. }
  destruct (Z.ltb_spec a x) as [Hlt|Hge]; cbn.
  - rewrite IH, elem_of_cons. split; [auto|]. intros [->|?]; [lia|done].
  - split; [intros [= ->]; left|]. intros [->|Hx]%elem_of_cons; [done|].
    rewrite Forall_forall in Hall. specialize (Hall _ Hx). lia.
Qed.

Lemma lower_bound_count l x :
  StronglySorted Z.lt l -> lower_bound l x = length (filter (fun y => y < x)%Z l).
Proof.
  induction 1 as [| a l Hs IH Hall]; cbn [lower_bound]; [done|].
  destruct (Z.ltb_spec a x) as [Hlt|Hge].
  - rewrite filter_cons_True by done. cbn. by rewrite IH.
  - rewrite filter_cons_False by lia. rewrite filter_none; [done|].
    intros y Hy. rewrite Forall_forall in Hall. specialize (Hall _ Hy). lia.
Qed.

(** *** The visitors in terms of the set of indexes *)

Lemma Contains_spec r i : wf r -> Contains r i = bool_decide (i ∈ elems r).
Proof.
  unfold wf. destruct r as [| j | l]; cbn; intros Hwf.
  - symmetry. apply bool_decide_eq_false. by intros ?%elem_of_nil.
  - apply eq_true_iff_eq. rewrite Z.eqb_eq, bool_decide_eq_true. by rewrite list_elem_of_singleton.
  - apply eq_true_iff_eq. rewrite bool_decide_eq_true, <- lower_bound_mem by done.
    destruct (l !! _) as [y|]; [|done]. rewrite Z.eqb_eq. naive_solver.
Qed.

Lemma IndexAfterRemoval_spec r i :
  wf r ->
  IndexAfterRemoval r i =
    if bool_decide (i ∈ elems r) then kInvalidIndex
    else (i - Z.of_nat (length (filter (fun y => y < i)%Z (elems r))))%Z.
Proof.
  unfold wf. destruct r as [| j | l]; cbn [elems IndexAfterRemoval]; intros Hwf.
  - rewrite bool_decide_eq_false_2 by (by intros ?%elem_of_nil). cbn. lia.
  - destruct (Z.eqb_spec i j) as [->|Hij].
    + by rewrite bool_decide_eq_true_2 by left.
    + rewrite bool_decide_eq_false_2 by (by rewrite list_elem_of_singleton).
      rewrite Z.gtb_ltb. destruct (Z.ltb_spec j i).
      * rewrite filter_cons_True by lia. done.
      * rewrite filter_cons_False by lia. cbn. lia.
  - rewrite <- (lower_bound_count l i Hwf).
    destruct (l !! lower_bound l i) as [y|] eqn:Hy.
    + destruct (Z.eqb_spec y i) as [->|Hne].
      * by rewrite bool_decide_eq_true_2 by (by apply lower_bound_mem).
      * rewrite bool_decide_eq_false_2; [done|].
        intros Hi%(lower_bound_mem _ _ Hwf). naive_solver.
    + rewrite bool_decide_eq_false_2; [done|].
      intros Hi%(lower_bound_mem _ _ Hwf). naive_solver.
Qed.

Lemma IndexAfterRemoval_removed r i :
  wf r -> i ∈ elems r -> IndexAfterRemoval r i = kInvalidIndex.
Proof. intros Hwf Hi. rewrite IndexAfterRemoval_spec by done. by rewrite bool_decide_eq_true_2. Qed.

(** *** The visitors in terms of the list after the removal *)

Lemma chosen_below_le rm k n : chosen_below rm k n <= n.
Proof. revert k. induction n as [| n IH]; intros k; cbn; [lia|]. specialize (IH (k + 1)%Z). destruct (rm k); lia. Qed.

Lemma chosen_below_filter v k n :
  NoDup v ->
  chosen_below (fun z => bool_decide (z ∈ v)) k n =
    length (filter (fun y => k <= y < k + Z.of_nat n)%Z v).
Proof.
  intros Hnd. revert k. induction n as [| n IH]; intros k; cbn [chosen_below].
  - rewrite filter_none; [done|]. intros; lia.
  - rewrite IH. rewrite (length_filter_remove (fun y => k <= y < k + Z.of_nat (S n))%Z v k);
      [|done|lia].
    f_equal. f_equal. apply filter_ext_elem. intros; lia.
Qed.

Lemma survivors_lookup {A} rm k (l : list A) i x :
  l !! i = Some x -> rm (k + Z.of_nat i)%Z = false ->
  survivors rm k l !! (i - chosen_below rm k i) = Some x.
Proof.
  revert k i. induction l as [| a l IH]; intros k i Hx Hrm; [done|].
  destruct i as [| i]; cbn [chosen_below survivors] in *.
  - rewrite Z.add_0_r in Hrm. rewrite Hrm. done.
  - replace (k + Z.of_nat (S i))%Z with (k + 1 + Z.of_nat i)%Z in Hrm by lia.
    specialize (IH _ _ Hx Hrm). pose proof (chosen_below_le rm (k + 1) i).
    destruct (rm k); cbn [Nat.add].
    + by replace (S i - S (chosen_below rm (k + 1) i)) with (i - chosen_below rm (k + 1) i) by lia.
    + by replace (S i - chosen_below rm (k + 1) i) with (S (i - chosen_below rm (k + 1) i)) by lia.
Qed.

Lemma length_survivors {A} rm k (l : list A) :
  length (survivors rm k l) = length l - chosen_below rm k (length l).
Proof.
  revert k. induction l as [| a l IH]; intros k; cbn; [done|].
  pose proof (chosen_below_le rm (k + 1) (length l)).
  destruct (rm k); cbn; rewrite IH; lia.
Qed.

(** The list without the elements whose index is in the storage. *)
Definition remaining {A} (r : Storage) (l : list A) : list A :=
  survivors (fun z => bool_decide (z ∈ elems r)) 0 l.

Definition in_range (r : Storage) (n : Z) : Prop :=
  forall z, z ∈ elems r -> (0 <= z < n)%Z.

Lemma length_remaining {A} r (l : list A) :
  wf r -> in_range r (Z.of_nat (length l)) ->
  Z.of_nat (length (remaining r l)) = (Z.of_nat (length l) - count r)%Z.
Proof.
  intros Hwf Hin. unfold remaining.
  pose proof (chosen_below_le (fun z => bool_decide (z ∈ elems r)) 0 (length l)) as Hle.
  rewrite length_survivors, count_elems.
  rewrite (chosen_below_filter (elems r) 0 (length l)) in * by (by apply wf_NoDup).
  assert (filter (fun y => 0 <= y < 0 + Z.of_nat (length l))%Z (elems r) = elems r) as E.
  { rewrite (filter_ext_elem _ (fun _ => True)).
    - clear. induction (elems r) as [| a l' IH]; [done|]. rewrite filter_cons_True by done. by f_equal.
    - intros y Hy. specialize (Hin y Hy). lia. }
  rewrite E in *. lia.
Qed.

Lemma IndexAfterRemoval_kept {A} r (l : list A) i x :
  wf r -> in_range r (Z.of_nat (length l)) ->
  zlookup l i = Some x -> i ∉ elems r ->
  (0 <= IndexAfterRemoval r i)%Z /\ zlookup (remaining r l) (IndexAfterRemoval r i) = Some x.
Proof.
  intros Hwf Hin [Hi Hx]%zlookup_Some Hni.
  rewrite IndexAfterRemoval_spec, bool_decide_eq_false_2 by done.
  pose proof (survivors_lookup (fun z => bool_decide (z ∈ elems r)) 0 l (Z.to_nat i) x Hx) as Hl.
  cbn in Hl. rewrite Z2Nat.id in Hl by done.
  rewrite bool_decide_eq_false_2 in Hl by done. specialize (Hl eq_refl).
  pose proof (chosen_below_le (fun z => bool_decide (z ∈ elems r)) 0 (Z.to_nat i)) as Hle.
  rewrite chosen_below_filter in Hl, Hle by (by apply wf_NoDup).
  rewrite Z2Nat.id in Hl, Hle by done.
  rewrite (filter_ext_elem (fun y => 0 <= y < 0 + i)%Z (fun y => y < i)%Z) in Hl, Hle
    by (intros y Hy; specialize (Hin y Hy); lia).
  split; [lia|]. rewrite zlookup_nonneg by lia. rewrite <- Hl. f_equal. lia.
Qed.

Lemma IndexAfterRemoval_bounds r n i :
  wf r -> in_range r (Z.of_nat n) -> (0 <= i < Z.of_nat n)%Z -> i ∉ elems r ->
  (0 <= IndexAfterRemoval r i < Z.of_nat n - count r)%Z.
Proof.
  intros Hwf Hin Hi Hni.
  destruct (proj2 (zlookup_lt_is_Some (replicate n tt) i)) as [x Hx];
    [by rewrite length_replicate|].
  destruct (IndexAfterRemoval_kept r (replicate n tt) i x) as [Hge Hl];
    rewrite ?length_replicate; [done..|].
  split; [done|].
  rewrite <- (length_replicate n tt), <- length_remaining at 1
    by (rewrite ?length_replicate; done).
  assert (is_Some (zlookup (remaining r (replicate n tt)) (IndexAfterRemoval r i))) as Hs by eauto.
  apply zlookup_lt_is_Some in Hs. lia.
Qed.

(** ** Properties *)

(** for every vector of indexes, the storage built from it holds exactly
    these indexes, once each: [count] is the number of distinct indexes and
    [Contains] is membership; an index that is not removed is lowered by the
    number of distinct removed indexes below it. *)
Theorem StorageFromVector_correct v i :
  let r := StorageFromVector v in
  count r = Z.of_nat (size (list_to_set v : gset Z)) /\
  Contains r i = bool_decide (i ∈ v) /\
  IndexAfterRemoval r i =
    (if bool_decide (i ∈ v) then kInvalidIndex
     else (i - Z.of_nat (size (filter (fun y => y < i)%Z (list_to_set v : gset Z))))%Z).
Proof.
  cbn. pose proof (wf_StorageFromVector v) as Hwf.
  pose proof (wf_NoDup _ Hwf) as Hnd.
  assert (list_to_set v = list_to_set (elems (StorageFromVector v)) :> gset Z) as Ev.
  { apply set_eq. intros x. by rewrite !elem_of_list_to_set, elem_of_elems_StorageFromVector. }
  split_and!.
  - by rewrite count_elems, Ev, size_list_to_set.
  - rewrite Contains_spec by done. apply bool_decide_ext, elem_of_elems_StorageFromVector.
  - rewrite IndexAfterRemoval_spec by done.
    rewrite (bool_decide_ext _ _ (elem_of_elems_StorageFromVector v i)).
    case_bool_decide; [done|]. do 2 f_equal. rewrite Ev.
    rewrite <- (size_list_to_set (C := gset Z)) by (by apply NoDup_filter).
    f_equal. apply set_eq. intros x.
    by rewrite elem_of_filter, !elem_of_list_to_set, list_elem_of_filter.
Qed.

(** [IndexAfterRemoval] is the new position: for distinct indexes in range
    of a list, the element at a kept index is found at the returned index of
    the list without the removed elements, which has [count] fewer elements. *)
Theorem IndexAfterRemoval_is_new_position {A} v (l : list A) i x :
  (forall z, z ∈ v -> (0 <= z < Z.of_nat (length l))%Z) ->
  zlookup l i = Some x -> i ∉ v ->
  let r := StorageFromVector v in
  zlookup (remaining r l) (IndexAfterRemoval r i) = Some x /\
  Z.of_nat (length (remaining r l)) = (Z.of_nat (length l) - count r)%Z.
Proof.
  intros Hv Hx Hi. cbn. pose proof (wf_StorageFromVector v) as Hwf.
  assert (in_range (StorageFromVector v) (Z.of_nat (length l))) as Hr.
  { intros z Hz. rewrite elem_of_elems_StorageFromVector in Hz. by apply Hv. }
  split; [|by apply length_remaining].
  eapply IndexAfterRemoval_kept; [done..|]. by rewrite elem_of_elems_StorageFromVector.
Qed.

Lemma IndexAfterRemoval_is_new_position_witness :
  zlookup (remaining (StorageFromVector [3; 1; 3]%Z) [10; 11; 12; 13; 14])
          (IndexAfterRemoval (StorageFromVector [3; 1; 3]%Z) 4) = Some 14 /\
  Z.of_nat (length (remaining (StorageFromVector [3; 1; 3]%Z) [10; 11; 12; 13; 14])) =
    (Z.of_nat (length [10; 11; 12; 13; 14]) - count (StorageFromVector [3; 1; 3]%Z))%Z.
Proof.
  apply (IndexAfterRemoval_is_new_position [3; 1; 3]%Z [10; 11; 12; 13; 14] 4%Z 14).
  - apply Forall_forall. repeat (apply Forall_cons; split; [cbn; lia|]). by apply Forall_nil.
  - reflexivity.
  - apply (bool_decide_unpack (4%Z ∉ [3; 1; 3]%Z)). reflexivity.
Defined.

End WebStateListRemovingIndexes.
