(* ===== verification/WebStateListModel.v ===== *)
(** * WebStateList: data model and queries

    The state of [WebStateList] and of its [WebStateWrapper]s, the opener of a
    WebState, the notifications sent to the observers, and the read-only
    operations (src/chrome/browser/web_state_list/web_state_list.{h,mm},
    web_state_opener.{h,mm}, web_state_list_observer.h).

    A [web::WebState*] is a [WebStateId]; [nullptr] is [None]. What the list
    reads of a WebState is the interface [WebStateEnv]. *)

From stdpp Require Import base tactics option list numbers strings gmap.
From Stdlib Require Import ZArith Lia.
From S2P Require Import Prelude RemovingIndexes.

Definition WebStateId : Type := positive.

#[global] Instance WebStateId_eq_dec : EqDecision WebStateId := Pos.eq_dec.
#[global] Instance WebStateId_countable : Countable WebStateId := pos_countable.

(** What the WebStateList reads of the WebStates: the visible URL and the index
    of the last committed item of the navigation manager. *)
Class WebStateEnv : Type := {
  env_visible_url : WebStateId -> string;
  env_last_committed_index : WebStateId -> Z
}.

Module WebStateOpener.

(** [struct WebStateOpener] *)
Record t : Type := mk {
  opener : option WebStateId;
  navigation_index : Z
}.

#[global] Instance t_eq_dec : EqDecision t.
Proof. solve_decision. Defined.

Section Ctors.
Context `{WebStateEnv}.

Definition NavigationIndexFromWebState (web_state : option WebStateId) : Z :=
  match web_state with
  | None => -1
  | Some ws => env_last_committed_index ws
  end.

(** [explicit WebStateOpener(web::WebState* opener)] *)
Definition from_web_state (o : option WebStateId) : t :=
  mk o (NavigationIndexFromWebState o).
End Ctors.

(** [WebStateOpener()]: a null opener. *)
Definition null : t := mk None (-1).

End WebStateOpener.

(** [enum class ActiveWebStateChangeReason] *)
Inductive ActiveWebStateChangeReason : Type := Replaced | Activated | Closed | Inserted.

(** The notifications of [WebStateListObserver]. *)
Inductive WebStateListEvent : Type :=
| WebStateInsertedAt (web_state : WebStateId) (index : Z) (activating : bool)
| WebStateMoved (web_state : WebStateId) (from_index to_index : Z)
| WebStateReplacedAt (old_web_state new_web_state : WebStateId) (index : Z)
| WillDetachWebStateAt (web_state : WebStateId) (index : Z)
| WebStateDetachedAt (web_state : WebStateId) (index : Z)
| WillCloseWebStateAt (web_state : WebStateId) (index : Z) (user_action : bool)
| WebStateActivatedAt (old_web_state new_web_state : option WebStateId)
    (active_index : Z) (reason : ActiveWebStateChangeReason)
| WillBeginBatchOperation
| BatchOperationEnded.

(** What the list does to the outside: one broadcast to its observers, with the
    WebStates and the active index an observer can read at that moment; a call
    of its delegate; a call on a WebState; the destruction of a WebState. *)
Inductive Effect : Type :=
| Notify (event : WebStateListEvent) (seen : list WebStateId) (seen_active : Z)
| WillAddWebState (web_state : WebStateId)
| WebStateDetached (web_state : WebStateId)
| ForceRealized (web_state : WebStateId)
| Destroyed (web_state : WebStateId).

#[global] Instance reason_eq_dec : EqDecision ActiveWebStateChangeReason.
Proof. solve_decision. Defined.
#[global] Instance event_eq_dec : EqDecision WebStateListEvent.
Proof. solve_decision. Defined.
#[global] Instance effect_eq_dec : EqDecision Effect.
Proof. solve_decision. Defined.

Module WebStateWrapper.

(** [class WebStateList::WebStateWrapper] *)
Record t : Type := mk {
  web_state_ : WebStateId;
  opener_ : WebStateOpener.t;
  should_reset_opener_ : bool
}.

#[global] Instance t_eq_dec : EqDecision t.
Proof. solve_decision. Defined.

(** The constructor. *)
Definition create (web_state : WebStateId) : t := mk web_state WebStateOpener.null false.

(** [ReplaceWebState]: keeps the flag, clears the opener; the old WebState is
    the [web_state_] of the argument. *)
Definition ReplaceWebState (w : t) (web_state : WebStateId) : t :=
  mk web_state WebStateOpener.null (should_reset_opener_ w).

(** [SetOpener], without its DCHECK (see [WebStateList.SetOpener_at]). *)
Definition SetOpener (w : t) (opener : WebStateOpener.t) : t :=
  mk (web_state_ w) opener false.

Definition WasOpenedBy (w : t) (opener : WebStateId) (opener_navigation_index : Z)
    (use_group : bool) : bool :=
  if negb (bool_decide (WebStateOpener.opener (opener_ w) = Some opener)) then false
  else if negb use_group then true
  else (WebStateOpener.navigation_index (opener_ w) =? opener_navigation_index)%Z.

Definition SetShouldResetOpenerOnActiveWebStateChange (w : t) (should_reset : bool) : t :=
  mk (web_state_ w) (opener_ w) should_reset.

End WebStateWrapper.

Module WebStateList.

(** [enum InsertionFlags], [enum ClosingFlags] *)
Definition INSERT_NO_FLAGS : Z := 0.
Definition INSERT_ACTIVATE : Z := Z.shiftl 1 0.
Definition INSERT_FORCE_INDEX : Z := Z.shiftl 1 1.
Definition INSERT_INHERIT_OPENER : Z := Z.shiftl 1 2.
Definition CLOSE_NO_FLAGS : Z := 0.
Definition CLOSE_USER_ACTION : Z := Z.shiftl 1 0.

Definition kInvalidIndex : Z := -1.

Definition IsInsertionFlagSet (flagset flag : Z) : bool := (Z.land flagset flag =? flag)%Z.
Definition IsClosingFlagSet (flagset flag : Z) : bool := (Z.land flagset flag =? flag)%Z.

(** The data members of [WebStateList]; [log] records the effects, oldest
    first. *)
Record t : Type := mk {
  web_state_wrappers_ : list WebStateWrapper.t;
  active_index_ : Z;
  locked_ : bool;
  batch_operation_in_progress_ : bool;
  log : list Effect
}.

(** The list a constructor leaves. *)
Definition create : t := mk [] kInvalidIndex false false [].

Definition with_wrappers (l : list WebStateWrapper.t) (s : t) : t :=
  mk l (active_index_ s) (locked_ s) (batch_operation_in_progress_ s) (log s).
Definition with_active (i : Z) (s : t) : t :=
  mk (web_state_wrappers_ s) i (locked_ s) (batch_operation_in_progress_ s) (log s).
Definition with_locked (b : bool) (s : t) : t :=
  mk (web_state_wrappers_ s) (active_index_ s) b (batch_operation_in_progress_ s) (log s).
Definition with_batch (b : bool) (s : t) : t :=
  mk (web_state_wrappers_ s) (active_index_ s) (locked_ s) b (log s).
Definition emit (e : Effect) (s : t) : t :=
  mk (web_state_wrappers_ s) (active_index_ s) (locked_ s) (batch_operation_in_progress_ s)
     (log s ++ [e]).

(** The WebStates of the list, in order. *)
Definition web_states (s : t) : list WebStateId :=
  WebStateWrapper.web_state_ <$> web_state_wrappers_ s.

(** [for (auto& observer : observers_) observer.<event>(...)] *)
Definition notify (event : WebStateListEvent) (s : t) : t :=
  emit (Notify event (web_states s) (active_index_ s)) s.

(** ** Queries *)

Definition empty (s : t) : bool :=
  match web_state_wrappers_ s with [] => true | _ => false end.

Definition count (s : t) : Z := Z.of_nat (length (web_state_wrappers_ s)).

Definition active_index (s : t) : Z := active_index_ s.

Definition ContainsIndex (s : t) (index : Z) : bool :=
  (0 <=? index)%Z && (index <? count s)%Z.

Definition IsMutating (s : t) : bool := locked_ s.

Definition IsBatchInProgress (s : t) : bool := batch_operation_in_progress_ s.

Definition GetWebStateWrapperAt (index : Z) : M t WebStateWrapper.t :=
  let! s := mget in
  dcheck (ContainsIndex s index) ;;;
  of_option (zlookup (web_state_wrappers_ s) index).

Definition GetActiveWebStateWrapper : M t (option WebStateWrapper.t) :=
  let! s := mget in
  if negb (active_index_ s =? kInvalidIndex)%Z
  then let! w := GetWebStateWrapperAt (active_index_ s) in mreturn (Some w)
  else mreturn None.

Definition GetActiveWebState : M t (option WebStateId) :=
  let! wrapper := GetActiveWebStateWrapper in
  mreturn (WebStateWrapper.web_state_ <$> wrapper).

Definition GetWebStateAt (index : Z) : M t WebStateId :=
  let! w := GetWebStateWrapperAt index in
  mreturn (WebStateWrapper.web_state_ w).

Definition GetIndexOfWebState (s : t) (web_state : option WebStateId) : Z :=
  index_or_invalid
    (first_index (fun w => bool_decide (Some (WebStateWrapper.web_state_ w) = web_state))
       (web_state_wrappers_ s)).

Section WithEnv.
Context `{WebStateEnv}.

Definition GetIndexOfWebStateWithURL (s : t) (url : string) : Z :=
  index_or_invalid
    (first_index (fun w => bool_decide (env_visible_url (WebStateWrapper.web_state_ w) = url))
       (web_state_wrappers_ s)).

Definition GetIndexOfInactiveWebStateWithURL (s : t) (url : string) : Z :=
  index_or_invalid
    (first_index (fun p : nat * WebStateWrapper.t =>
        negb (Z.of_nat (fst p) =? active_index_ s)%Z &&
        bool_decide (env_visible_url (WebStateWrapper.web_state_ (snd p)) = url))
       (imap pair (web_state_wrappers_ s))).

Definition GetOpenerOfWebStateAt (index : Z) : M t WebStateOpener.t :=
  let! s := mget in
  dcheck (ContainsIndex s index) ;;;
  let! w := of_option (zlookup (web_state_wrappers_ s) index) in
  mreturn (WebStateWrapper.opener_ w).

(** The loop of [GetIndexOfNthWebStateOpenedBy] over the values of [i]. *)
Fixpoint nth_opened_loop (opener : WebStateId) (opener_navigation_index : Z)
    (use_group : bool) (start_index list_length : Z) (todo : list Z)
    (n found_index : Z) : M t Z :=
  match todo with
  | [] => mreturn found_index
  | i :: todo' =>
      let index := Z.rem (start_index + i) list_length in
      dcheck (negb (index =? start_index)%Z) ;;;
      let! s := mget in
      let! wrapper := of_option (zlookup (web_state_wrappers_ s) index) in
      if negb (WebStateWrapper.WasOpenedBy wrapper opener opener_navigation_index use_group)
      then nth_opened_loop opener opener_navigation_index use_group start_index
             list_length todo' n found_index
      else if (n - 1 =? 0)%Z then mreturn index
      else nth_opened_loop opener opener_navigation_index use_group start_index
             list_length todo' (n - 1) index
  end.

Definition GetIndexOfNthWebStateOpenedBy (opener : option WebStateId) (start_index : Z)
    (use_group : bool) (n : Z) : M t Z :=
  let! s := mget in
  dcheck (0 <? n)%Z ;;;
  match opener with
  | None => mreturn kInvalidIndex
  | Some o =>
      if negb (ContainsIndex s start_index) then mreturn kInvalidIndex
      else
        let opener_navigation_index :=
          if use_group then env_last_committed_index o else (-1)%Z in
        let list_length := count s in
        nth_opened_loop o opener_navigation_index use_group start_index list_length
          (seqZ 1 (list_length - 1)) n kInvalidIndex
  end.

Definition GetIndexOfNextWebStateOpenedBy (opener : option WebStateId) (start_index : Z)
    (use_group : bool) : M t Z :=
  GetIndexOfNthWebStateOpenedBy opener start_index use_group 1.

Definition GetIndexOfLastWebStateOpenedBy (opener : option WebStateId) (start_index : Z)
    (use_group : bool) : M t Z :=
  GetIndexOfNthWebStateOpenedBy opener start_index use_group INT_MAX.

End WithEnv.

(** ** The representation invariant *)

(** Every WebState is owned once; an opener is another WebState of the list;
    and the reset flag is only set on a wrapper without an opener. *)
Record wf_wrappers (l : list WebStateWrapper.t) : Prop := {
  wfw_nodup : NoDup (WebStateWrapper.web_state_ <$> l);
  wfw_opener : forall w o, w ∈ l ->
    WebStateOpener.opener (WebStateWrapper.opener_ w) = Some o ->
    o ∈ WebStateWrapper.web_state_ <$> l /\ o <> WebStateWrapper.web_state_ w;
  wfw_reset : forall w, w ∈ l ->
    WebStateWrapper.should_reset_opener_ w = true ->
    WebStateOpener.opener (WebStateWrapper.opener_ w) = None
}.

(** The active index of the list is valid. *)
Definition valid_index (s : t) (i : Z) : Prop :=
  i = kInvalidIndex \/ (0 <= i < count s)%Z.

Record wf (s : t) : Prop := {
  wf_list : wf_wrappers (web_state_wrappers_ s);
  wf_active : valid_index s (active_index_ s)
}.

Lemma wf_nodup s : wf s -> NoDup (web_states s).
Proof. by intros [[] _]. Qed.

(** The invariant as a test, to evaluate it on concrete lists. *)
Definition wf_b (s : t) : bool :=
  bool_decide (NoDup (web_states s)) &&
  ((active_index_ s =? kInvalidIndex)%Z || ContainsIndex s (active_index_ s)) &&
  forallb (fun w =>
    match WebStateOpener.opener (WebStateWrapper.opener_ w) with
    | None => true
    | Some o => bool_decide (o ∈ web_states s) &&
                bool_decide (o <> WebStateWrapper.web_state_ w) &&
                negb (WebStateWrapper.should_reset_opener_ w)
    end) (web_state_wrappers_ s).

Lemma wf_b_sound s : wf_b s = true -> wf s.
Proof.
  unfold wf_b. intros [[H1 H2]%andb_true_iff H3]%andb_true_iff.
  rewrite forallb_forall in H3. split; [split|].
  - by apply bool_decide_eq_true in H1.
  - intros w o Hw%list_elem_of_In Ho. specialize (H3 w Hw). rewrite Ho in H3.
    apply andb_true_iff in H3 as [[H3 H4]%andb_true_iff _].
    by apply bool_decide_eq_true in H3, H4.
  - intros w Hw%list_elem_of_In Hr. specialize (H3 w Hw).
    destruct (WebStateOpener.opener _); [|done].
    apply andb_true_iff in H3 as [_ H3]. by rewrite Hr in H3.
  - unfold ContainsIndex in H2. unfold valid_index.
    apply orb_true_iff in H2 as [?%Z.eqb_eq|[?%Z.leb_le ?%Z.ltb_lt]%andb_true_iff]; auto.
Qed.

(** Between two public calls the list is neither locked nor in a batch. *)
Definition idle (s : t) : Prop := locked_ s = false /\ batch_operation_in_progress_ s = false.

(** The active WebState, as a function of the state. *)
Definition active_web_state (s : t) : option WebStateId :=
  zlookup (web_states s) (active_index_ s).

Lemma ContainsIndex_spec s i : ContainsIndex s i = true <-> (0 <= i < count s)%Z.
Proof. unfold ContainsIndex. rewrite andb_true_iff, Z.leb_le, Z.ltb_lt. done. Qed.

Lemma ContainsIndex_lookup s i :
  ContainsIndex s i = true <-> is_Some (zlookup (web_state_wrappers_ s) i).
Proof. by rewrite ContainsIndex_spec, zlookup_lt_is_Some. Qed.

Lemma length_web_states s : length (web_states s) = length (web_state_wrappers_ s).
Proof. apply length_fmap. Qed.

(** ** Evaluation of the queries: none of them changes the list *)

Lemma GetWebStateWrapperAt_ok i w s :
  zlookup (web_state_wrappers_ s) i = Some w -> GetWebStateWrapperAt i s = Ok (w, s).
Proof.
  intros Hw. unfold GetWebStateWrapperAt, mbind, mget, dcheck, of_option.
  rewrite (proj2 (ContainsIndex_lookup s i)) by eauto. by rewrite Hw.
Qed.

Lemma GetActiveWebStateWrapper_ok s :
  valid_index s (active_index_ s) ->
  GetActiveWebStateWrapper s = Ok (zlookup (web_state_wrappers_ s) (active_index_ s), s).
Proof.
  unfold GetActiveWebStateWrapper, mbind at 1, mget at 1. cbn.
  destruct (Z.eqb_spec (active_index_ s) kInvalidIndex) as [->|Hne]; cbn; [done|].
  intros [?|Hv]; [done|]. rewrite <- ContainsIndex_spec in Hv.
  apply ContainsIndex_lookup in Hv as [w Hw].
  unfold mbind. by rewrite (GetWebStateWrapperAt_ok _ w), Hw.
Qed.

Lemma GetActiveWebState_ok s :
  valid_index s (active_index_ s) ->
  GetActiveWebState s = Ok (active_web_state s, s).
Proof.
  intros Ha. unfold GetActiveWebState, mbind. rewrite GetActiveWebStateWrapper_ok by done.
  unfold active_web_state, web_states. by rewrite zlookup_fmap.
Qed.

Lemma GetWebStateAt_ok i ws s :
  zlookup (web_states s) i = Some ws -> GetWebStateAt i s = Ok (ws, s).
Proof.
  unfold web_states. rewrite zlookup_fmap, fmap_Some. intros (w & Hw & ->).
  unfold GetWebStateAt, mbind. by rewrite (GetWebStateWrapperAt_ok _ w).
Qed.

Lemma GetOpenerOfWebStateAt_ok i w s :
  zlookup (web_state_wrappers_ s) i = Some w ->
  GetOpenerOfWebStateAt i s = Ok (WebStateWrapper.opener_ w, s).
Proof.
  intros Hw. unfold GetOpenerOfWebStateAt, mbind, mget, dcheck, of_option.
  rewrite (proj2 (ContainsIndex_lookup s i)) by eauto. by rewrite Hw.
Qed.

Lemma GetIndexOfWebState_member s ws i :
  NoDup (web_states s) -> zlookup (web_states s) i = Some ws ->
  GetIndexOfWebState s (Some ws) = i.
Proof.
  intros Hnd [Hi Hws]%zlookup_Some. unfold GetIndexOfWebState.
  assert (first_index (fun w => bool_decide (Some (WebStateWrapper.web_state_ w) = Some ws))
            (web_state_wrappers_ s) = Some (Z.to_nat i)) as ->; [| cbn; lia].
  apply first_index_Some. unfold web_states in *.
  rewrite list_lookup_fmap, fmap_Some in Hws. destruct Hws as (w & Hw & ->).
  exists w. split_and!; [done | by apply bool_decide_eq_true |].
  intros j y Hj Hy. apply bool_decide_eq_false. intros [= E].
  enough (j = Z.to_nat i) by lia.
  eapply (NoDup_lookup (WebStateWrapper.web_state_ <$> web_state_wrappers_ s)); [done|..];
    rewrite list_lookup_fmap; [by rewrite Hy | by rewrite Hw, E].
Qed.

Lemma GetIndexOfWebState_elem s ws :
  NoDup (web_states s) -> ws ∈ web_states s ->
  (0 <= GetIndexOfWebState s (Some ws) < count s)%Z /\
  zlookup (web_states s) (GetIndexOfWebState s (Some ws)) = Some ws.
Proof.
  intros Hnd [i Hi]%list_elem_of_lookup.
  rewrite <- zlookup_of_nat in Hi.
  rewrite (GetIndexOfWebState_member s ws (Z.of_nat i)) by done. split; [|done].
  assert (is_Some (zlookup (web_states s) (Z.of_nat i))) as Hs by eauto.
  rewrite zlookup_lt_is_Some, length_web_states in Hs. done.
Qed.

Lemma GetIndexOfWebState_not_elem s ws :
  ws ∉ web_states s -> GetIndexOfWebState s (Some ws) = kInvalidIndex.
Proof.
  intros Hn. unfold GetIndexOfWebState.
  rewrite (proj2 (first_index_None _ _)); [done|].
  intros w Hw. apply bool_decide_eq_false. intros [= <-]. apply Hn.
  unfold web_states. by apply list_elem_of_fmap_2.
Qed.

End WebStateList.
