(* ===== verification/OrderController.v ===== *)
(** * WebStateListOrderController

    Where a new WebState is inserted and which WebState becomes active when
    some are removed
    (src/chrome/browser/web_state_list/web_state_list_order_controller.{h,mm}).

    The two decisions are compared with reference definitions: an ordered list
    of candidate indexes, of which the first one that is not removed wins. *)

From stdpp Require Import base tactics option list numbers strings gmap.
From Stdlib Require Import ZArith Lia.
From S2P Require Import Prelude RemovingIndexes WebStateListModel.

Module WebStateListOrderController.
Import WebStateListRemovingIndexes(IndexAfterRemoval, elems, in_range).
Abbreviation kInvalidIndex := WebStateList.kInvalidIndex.
Abbreviation Removing := WebStateListRemovingIndexes.Storage.

Section Code.
Context `{WebStateEnv}.

(** The [for (;;)] loop of [FindIndexOfNextNonRemovedWebStateOpenedBy]; each
    turn that does not leave the loop adds an index to [children]. *)
Fixpoint find_loop (fuel : nat) (removing_indexes : Removing) (web_state : option WebStateId)
    (starting_index : Z) (children : gset Z) : M WebStateList.t Z :=
  match fuel with
  | 0 => mfail OutOfFuel
  | S fuel' =>
      let! child_index :=
        WebStateList.GetIndexOfNextWebStateOpenedBy web_state starting_index false in
      if (child_index =? kInvalidIndex)%Z then mreturn kInvalidIndex
      else if bool_decide (child_index ∈ children) then mreturn kInvalidIndex
      else
        let child_index_after_removal := IndexAfterRemoval removing_indexes child_index in
        if negb (child_index_after_removal =? kInvalidIndex)%Z
        then mreturn child_index_after_removal
        else find_loop fuel' removing_indexes web_state child_index ({[child_index]} ∪ children)
  end.

Definition FindIndexOfNextNonRemovedWebStateOpenedBy (removing_indexes : Removing)
    (web_state : option WebStateId) (starting_index : Z) : M WebStateList.t Z :=
  let! s := mget in
  find_loop (length (WebStateList.web_state_wrappers_ s) + 2)
    removing_indexes web_state starting_index ∅.

Definition DetermineInsertionIndex (opener : option WebStateId) : M WebStateList.t Z :=
  let! s := mget in
  match opener with
  | None => mreturn (WebStateList.count s)
  | Some _ =>
      let opener_index := WebStateList.GetIndexOfWebState s opener in
      dcheck (negb (opener_index =? kInvalidIndex)%Z) ;;;
      let! list_child_index :=
        WebStateList.GetIndexOfLastWebStateOpenedBy opener opener_index true in
      let reference_index :=
        if negb (list_child_index =? kInvalidIndex)%Z then list_child_index else opener_index in
      dcheck (reference_index <? INT_MAX)%Z ;;;
      mreturn (reference_index + 1)%Z
  end.

(** [for (index : l) if (IndexAfterRemoval(index) != kInvalidIndex) return it] *)
Fixpoint first_kept (removing_indexes : Removing) (l : list Z) : Z :=
  match l with
  | [] => kInvalidIndex
  | index :: l' =>
      let index_after_removal := IndexAfterRemoval removing_indexes index in
      if negb (index_after_removal =? kInvalidIndex)%Z then index_after_removal
      else first_kept removing_indexes l'
  end.

Definition DetermineNewActiveIndex (active_index : Z) (removing_indexes : Removing) :
    M WebStateList.t Z :=
  let! s := mget in
  if (active_index =? kInvalidIndex)%Z then mreturn kInvalidIndex else
  dcheck (WebStateList.ContainsIndex s active_index) ;;;
  let count := WebStateList.count s in
  if (count =? WebStateListRemovingIndexes.count removing_indexes)%Z then mreturn kInvalidIndex else
  let active_index_after_removal := IndexAfterRemoval removing_indexes active_index in
  if negb (active_index_after_removal =? kInvalidIndex)%Z
  then mreturn active_index_after_removal else
  let! active_web_state := WebStateList.GetWebStateAt active_index in
  let! child_index_after_removal :=
    FindIndexOfNextNonRemovedWebStateOpenedBy removing_indexes (Some active_web_state)
      active_index in
  if negb (child_index_after_removal =? kInvalidIndex)%Z
  then mreturn child_index_after_removal else
  let! opener := WebStateList.GetOpenerOfWebStateAt active_index in
  let! sibling_or_opener :=
    match WebStateOpener.opener opener with
    | None => mreturn kInvalidIndex
    | Some o =>
        let! sibling_index_after_removal :=
          FindIndexOfNextNonRemovedWebStateOpenedBy removing_indexes (Some o) active_index in
        if negb (sibling_index_after_removal =? kInvalidIndex)%Z
        then mreturn sibling_index_after_removal
        else mreturn (IndexAfterRemoval removing_indexes
                        (WebStateList.GetIndexOfWebState s (Some o)))
    end in
  if negb (sibling_or_opener =? kInvalidIndex)%Z then mreturn sibling_or_opener else
  let next := first_kept removing_indexes (seqZ (active_index + 1) (count - (active_index + 1))) in
  if negb (next =? kInvalidIndex)%Z then mreturn next else
  let previous := first_kept removing_indexes (reverse (seqZ 0 active_index)) in
  if negb (previous =? kInvalidIndex)%Z then mreturn previous else
  mfail NotReached.

End Code.

(** ** Reference definitions *)

Section Reference.
Context `{WebStateEnv}.

(** The other indexes of a list of [n] elements, going up from [start] and
    round to the indexes below it. *)
Definition cyc (n start : Z) : list Z := seqZ (start + 1) (n - (start + 1)) ++ seqZ 0 start.

(** Whether the WebState at [index] was opened by [o]. *)
Definition opened (s : WebStateList.t) (o : WebStateId) (use_group : bool) (index : Z) : bool :=
  match zlookup (WebStateList.web_state_wrappers_ s) index with
  | Some w =>
      WebStateWrapper.WasOpenedBy w o
        (if use_group then env_last_committed_index o else (-1)%Z) use_group
  | None => false
  end.

Definition children_of (s : WebStateList.t) (o : WebStateId) (use_group : bool) (start : Z) :
    list Z :=
  filter (fun index => opened s o use_group index = true) (cyc (WebStateList.count s) start).

(** The indexes that may become active once [active_index] is removed, in
    order of preference: the WebStates the active one opened, the WebStates
    opened by its opener, its opener, those after it, those before it. *)
Definition candidates (s : WebStateList.t) (active_index : Z) : list Z :=
  match zlookup (WebStateList.web_state_wrappers_ s) active_index with
  | None => []
  | Some w =>
      children_of s (WebStateWrapper.web_state_ w) false active_index ++
      match WebStateOpener.opener (WebStateWrapper.opener_ w) with
      | None => []
      | Some o =>
          children_of s o false active_index ++ [WebStateList.GetIndexOfWebState s (Some o)]
      end ++
      seqZ (active_index + 1) (WebStateList.count s - (active_index + 1)) ++
      reverse (seqZ 0 active_index)
  end.

Definition new_active_ref (s : WebStateList.t) (active_index : Z) (r : Removing) : Z :=
  if (active_index =? kInvalidIndex)%Z then kInvalidIndex
  else if (WebStateList.count s =? WebStateListRemovingIndexes.count r)%Z then kInvalidIndex
  else first_kept r (active_index :: candidates s active_index).

End Reference.

(** ** Lemmas on the cyclic order *)

Lemma fmap_seqZ_shift (f : Z -> Z) a b n :
  (forall i, (0 <= i < n)%Z -> f (a + i)%Z = (b + i)%Z) -> f <$> seqZ a n = seqZ b n.
Proof.
  intros Hf. apply list_eq. intros i. rewrite list_lookup_fmap.
  destruct (decide (Z.of_nat i < n)%Z).
  - rewrite !lookup_seqZ_lt by done. cbn. f_equal. apply Hf. lia.
  - by rewrite !lookup_seqZ_ge by lia.
Qed.

Lemma cyc_rem n start :
  (0 <= start < n)%Z -> (fun i => Z.rem (start + i) n) <$> seqZ 1 (n - 1) = cyc n start.
Proof.
  intros Hs. unfold cyc.
  replace (n - 1)%Z with ((n - (start + 1)) + start)%Z by lia.
  rewrite seqZ_app, fmap_app by lia. f_equal; apply fmap_seqZ_shift; intros i Hi.
  - rewrite Z.rem_small by lia. lia.
  - replace (start + (1 + (n - (start + 1)) + i))%Z with (i + 1 * n)%Z by lia.
    rewrite Z.rem_add by nia. rewrite Z.rem_small by lia. lia.
Qed.

Lemma elem_of_cyc n start i :
  (0 <= start < n)%Z -> i ∈ cyc n start <-> (0 <= i < n)%Z /\ i <> start.
Proof. intros Hs. unfold cyc. rewrite elem_of_app, !elem_of_seqZ. lia. Qed.

Lemma NoDup_cyc n start : NoDup (start :: cyc n start).
Proof.
  constructor.
  - unfold cyc. rewrite elem_of_app, !elem_of_seqZ. lia.
  - apply NoDup_app. split_and!; [apply NoDup_seqZ | | apply NoDup_seqZ].
    intros x. rewrite !elem_of_seqZ. lia.
Qed.

(** Going round from any index of the round visits the rest in the same order. *)
Lemma cyc_rotate n a c l1 l2 :
  (0 <= a < n)%Z -> a :: cyc n a = l1 ++ c :: l2 -> cyc n c = l2 ++ l1.
Proof.
  intros Ha E.
  assert (a :: cyc n a = seqZ a (n - a) ++ seqZ 0 a) as E'.
  { rewrite (seqZ_cons a) by lia. unfold cyc.
    by replace (Z.pred (n - a)) with (n - (a + 1))%Z by lia. }
  rewrite E' in E. clear E'.
  assert (forall z len m1 m2, seqZ z len = m1 ++ c :: m2 ->
    m1 = seqZ z (c - z) /\ m2 = seqZ (c + 1) (z + len - (c + 1)) /\ (z <= c < z + len)%Z) as Hsplit.
  { clear. intros z len m1 m2 E.
    assert (seqZ z len !! length m1 = Some c) as Hc by (by rewrite E, list_lookup_middle).
    apply lookup_seqZ in Hc as [Hc Hlt].
    assert (seqZ z len = seqZ z (c - z) ++ c :: seqZ (c + 1) (z + len - (c + 1))) as E2.
    { replace len with ((c - z) + (z + len - c))%Z at 1 by lia.
      rewrite seqZ_app by lia. f_equal. replace (z + (c - z))%Z with c by lia.
      rewrite seqZ_cons by lia. f_equal; f_equal; lia. }
    rewrite E2 in E. apply app_inj_1 in E; [|rewrite length_seqZ; lia].
    destruct E as [-> [= ->]]. split_and!; [done | done | lia | lia]. }
  apply app_eq_app in E as (k & [[E1 E2]|[E1 E2]]).
  - destruct k as [| c' k]; cbn in E2.
    + rewrite app_nil_r in E1. destruct (Hsplit 0%Z a [] l2 (eq_sym E2)) as (H1 & -> & Hr).
      assert (c = 0%Z) as ->.
      { apply (f_equal length) in H1. rewrite length_seqZ in H1. cbn in H1. lia. }
      subst l1. unfold cyc. rewrite (seqZ_nil 0 0), app_nil_r by lia.
      replace (n - (0 + 1))%Z with ((0 + a - (0 + 1)) + (n - a))%Z by lia.
      rewrite seqZ_app by lia. do 2 f_equal; lia.
    + injection E2 as <- ->. destruct (Hsplit a (n - a)%Z l1 k E1) as (-> & -> & Hr).
      unfold cyc. rewrite <- app_assoc. f_equal; [f_equal; lia|].
      replace c with (a + (c - a))%Z at 1 by lia. by rewrite seqZ_app by lia.
  - subst l1. destruct (Hsplit 0%Z a k l2 E2) as (-> & -> & Hr).
    unfold cyc. rewrite app_assoc. f_equal; [|f_equal; lia].
    replace (n - (c + 1))%Z with ((0 + a - (c + 1)) + (n - a))%Z by lia.
    rewrite seqZ_app by lia. do 2 f_equal; lia.
Qed.

(** ** The queries by opener *)

Section Queries.
Context `{WebStateEnv}.
Implicit Types (s : WebStateList.t) (o : WebStateId).

(** The [n]-th element of [l], or the last one when [l] is shorter. *)
Fixpoint nth_or_last (l : list Z) (n found : Z) : Z :=
  match l with
  | [] => found
  | x :: l' => if (n - 1 =? 0)%Z then x else nth_or_last l' (n - 1) x
  end.

Lemma nth_or_last_last l n found :
  (Z.of_nat (length l) < n)%Z -> nth_or_last l n found = default found (last l).
Proof.
  revert n found. induction l as [| x l IH]; intros n found Hn; [done|].
  cbn [nth_or_last length] in *. destruct (Z.eqb_spec (n - 1) 0); [lia|].
  rewrite IH by lia. rewrite last_cons. by destruct (last l).
Qed.

Lemma nth_opened_loop_ok s o (use_group : bool) start todo n found :
  (forall i, i ∈ todo ->
     (0 <= Z.rem (start + i) (WebStateList.count s) < WebStateList.count s)%Z /\
     Z.rem (start + i) (WebStateList.count s) <> start) ->
  WebStateList.nth_opened_loop o (if use_group then env_last_committed_index o else (-1)%Z)
    use_group start (WebStateList.count s) todo n found s =
  Ok (nth_or_last
        (filter (fun index => opened s o use_group index = true)
           ((fun i => Z.rem (start + i) (WebStateList.count s)) <$> todo)) n found, s).
Proof.
  revert n found. induction todo as [| i todo IH]; intros n found Hin; [done|].
  cbn [WebStateList.nth_opened_loop]. rewrite fmap_cons.
  destruct (Hin i ltac:(left)) as [Hr Hne].
  pose proof (fun i' Hi' => Hin i' (list_elem_of_further i' i todo Hi')) as Hin'. clear Hin.
  set (index := Z.rem (start + i) (WebStateList.count s)) in *.
  apply WebStateList.ContainsIndex_spec, WebStateList.ContainsIndex_lookup in Hr as [w Hw].
  unfold dcheck, mbind, mget, of_option. rewrite (proj2 (Z.eqb_neq index start) Hne).
  cbn -[filter fmap]. rewrite Hw.
  destruct (WebStateWrapper.WasOpenedBy w o _ use_group) eqn:Hop; cbn -[filter fmap].
  - rewrite filter_cons_True by (unfold opened; by rewrite Hw). cbn [nth_or_last].
    destruct (n - 1 =? 0)%Z; [done|]. by apply IH.
  - rewrite filter_cons_False by (unfold opened; rewrite Hw, Hop; done). by apply IH.
Qed.

Lemma GetIndexOfNthWebStateOpenedBy_ok s o start use_group n :
  (0 <= start < WebStateList.count s)%Z -> (0 < n)%Z ->
  WebStateList.GetIndexOfNthWebStateOpenedBy (Some o) start use_group n s =
    Ok (nth_or_last (children_of s o use_group start) n kInvalidIndex, s).
Proof.
  intros Hs Hn. unfold WebStateList.GetIndexOfNthWebStateOpenedBy, mbind, mget, dcheck.
  rewrite (proj2 (Z.ltb_lt 0 n) Hn). rewrite (proj2 (WebStateList.ContainsIndex_spec s start) Hs).
  cbn. rewrite nth_opened_loop_ok.
  - unfold children_of. by rewrite <- cyc_rem.
  - intros i Hi. pose proof (list_elem_of_fmap_2
      (fun i => Z.rem (start + i) (WebStateList.count s)) _ _ Hi) as Hc.
    cbn in Hc. rewrite cyc_rem in Hc by done. by apply elem_of_cyc in Hc.
Qed.

Lemma GetIndexOfNextWebStateOpenedBy_ok s o start use_group :
  (0 <= start < WebStateList.count s)%Z ->
  WebStateList.GetIndexOfNextWebStateOpenedBy (Some o) start use_group s =
    Ok (default kInvalidIndex (head (children_of s o use_group start)), s).
Proof.
  intros Hs. unfold WebStateList.GetIndexOfNextWebStateOpenedBy.
  rewrite GetIndexOfNthWebStateOpenedBy_ok by (done || lia).
  by destruct (children_of s o use_group start).
Qed.

Lemma length_children_of s o use_group start :
  (0 <= start < WebStateList.count s)%Z ->
  (Z.of_nat (length (children_of s o use_group start)) < WebStateList.count s)%Z.
Proof.
  intros Hs. unfold children_of.
  pose proof (length_filter (fun index => opened s o use_group index = true)
                (cyc (WebStateList.count s) start)).
  unfold cyc in *. rewrite length_app, !length_seqZ in *. lia.
Qed.

Lemma GetIndexOfLastWebStateOpenedBy_ok s o start use_group :
  (0 <= start < WebStateList.count s)%Z -> (WebStateList.count s <= INT_MAX)%Z ->
  WebStateList.GetIndexOfLastWebStateOpenedBy (Some o) start use_group s =
    Ok (default kInvalidIndex (last (children_of s o use_group start)), s).
Proof.
  intros Hs Hc. unfold WebStateList.GetIndexOfLastWebStateOpenedBy.
  pose proof (length_children_of s o use_group start Hs).
  rewrite GetIndexOfNthWebStateOpenedBy_ok by (done || (unfold INT_MAX; lia)).
  by rewrite nth_or_last_last by lia.
Qed.

Lemma children_of_range s o use_group start c :
  (0 <= start < WebStateList.count s)%Z -> c ∈ children_of s o use_group start ->
  (0 <= c < WebStateList.count s)%Z /\ c <> start /\ opened s o use_group c = true.
Proof.
  intros Hs. unfold children_of. rewrite list_elem_of_filter. intros [Ho Hc].
  apply elem_of_cyc in Hc; [|done]. tauto.
Qed.

(** ** The search among the WebStates opened by another *)

Lemma first_kept_removed r l :
  (forall i, i ∈ l -> IndexAfterRemoval r i = kInvalidIndex) -> first_kept r l = kInvalidIndex.
Proof.
  induction l as [| i l IH]; intros Hl; [done|]. cbn. rewrite (Hl i) by left. cbn.
  apply IH. intros j Hj. apply Hl. by right.
Qed.

Lemma first_kept_app r l1 l2 :
  first_kept r (l1 ++ l2) =
    if negb (first_kept r l1 =? kInvalidIndex)%Z then first_kept r l1 else first_kept r l2.
Proof.
  induction l1 as [| i l1 IH]; [done|]. cbn.
  destruct (IndexAfterRemoval r i =? kInvalidIndex)%Z eqn:E; cbn; [apply IH|]. by rewrite E.
Qed.

Lemma first_kept_app_removed r l1 l2 :
  (forall i, i ∈ l1 -> IndexAfterRemoval r i = kInvalidIndex) ->
  first_kept r (l1 ++ l2) = first_kept r l2.
Proof. intros Hl. rewrite first_kept_app. by rewrite first_kept_removed. Qed.

(** Once every WebState of the round was seen, the loop finds nothing more. *)
Lemma find_loop_exhausted fuel r s o c children :
  (0 <= c < WebStateList.count s)%Z ->
  (forall i, i ∈ children_of s o false c -> i ∈ children) ->
  find_loop (S fuel) r (Some o) c children s = Ok (kInvalidIndex, s).
Proof.
  intros Hc Hall. cbn [find_loop]. unfold mbind.
  rewrite GetIndexOfNextWebStateOpenedBy_ok by done.
  destruct (children_of s o false c) as [| i l] eqn:E; cbn; [done|].
  destruct (i =? kInvalidIndex)%Z; [done|].
  by rewrite bool_decide_eq_true_2 by (apply Hall; left).
Qed.

(** The loop at an index [c] of the round that starts at [a]: [l1] was visited,
    [l2] is still ahead. *)
Section Round.
Variables (r : Removing) (s : WebStateList.t) (o : WebStateId) (a : Z).
Hypothesis Ha : (0 <= a < WebStateList.count s)%Z.
Hypothesis Hra : IndexAfterRemoval r a = kInvalidIndex.

Record at_round (c : Z) (l1 l2 : list Z) (children : gset Z) : Prop := {
  ar_round : a :: cyc (WebStateList.count s) a = l1 ++ c :: l2;
  ar_removed : forall i, i ∈ l1 ++ [c] -> opened s o false i = true ->
    IndexAfterRemoval r i = kInvalidIndex;
  ar_children : forall i, i ∈ children <->
    i ∈ l1 ++ [c] /\ i <> a /\ opened s o false i = true
}.

Lemma round_range c l1 l2 children i :
  at_round c l1 l2 children -> i ∈ l1 ++ c :: l2 -> (0 <= i < WebStateList.count s)%Z.
Proof.
  intros [Eq _ _]. rewrite <- Eq, elem_of_cons. intros [->|Hi]; [done|].
  by apply elem_of_cyc in Hi as [? _].
Qed.

Lemma round_NoDup c l1 l2 children :
  at_round c l1 l2 children -> NoDup (l1 ++ c :: l2).
Proof. intros [Eq _ _]. rewrite <- Eq. apply NoDup_cyc. Qed.

(** Nothing is ahead: the search wraps around and ends. *)
Lemma find_loop_wrap fuel c l1 l2 children :
  at_round c l1 l2 children ->
  filter (fun i => opened s o false i = true) l2 = [] ->
  find_loop (S (S fuel)) r (Some o) c children s = Ok (kInvalidIndex, s).
Proof.
  intros Har Ef. pose proof (round_range c l1 l2 children) as Hrange.
  specialize (fun i => Hrange i Har). destruct Har as [Eq Hrem Hch].
  cbn [find_loop]. unfold mbind. rewrite GetIndexOfNextWebStateOpenedBy_ok
    by (apply Hrange; set_solver).
  unfold children_of. rewrite (cyc_rotate _ a c l1 l2 Ha Eq), filter_app, Ef.
  destruct (filter _ l1) as [| y m] eqn:Ef1; cbn -[find_loop]; [done|].
  assert (y ∈ l1 /\ opened s o false y = true) as [Hy1 Hyo].
  { apply filter_first_split in Ef1 as (m1 & m2 & -> & ? & _). split; [set_solver|done]. }
  assert (0 <= y)%Z by (apply Hrange; set_solver).
  rewrite (proj2 (Z.eqb_neq y kInvalidIndex)) by (unfold WebStateList.kInvalidIndex; lia).
  destruct (decide (y = a)) as [->|Hya].
  2: { by rewrite bool_decide_eq_true_2 by (apply Hch; set_solver). }
  case_bool_decide; [done|]. rewrite Hra. cbn -[find_loop].
  apply find_loop_exhausted; [done|].
  intros i Hi. unfold children_of in Hi. apply list_elem_of_filter in Hi as [Hio Hi].
  apply elem_of_union_r, Hch. apply elem_of_cyc in Hi as Hi'; [|done].
  assert (i ∈ l1 ++ c :: l2) as Hil by (rewrite <- Eq; by right).
  assert (i ∉ l2) as Hnl2; [|set_solver].
  by apply (filter_nil_not_elem_of _ _ _ Ef).
Qed.

(** The next child [x] is ahead: it was not seen yet, and the round goes on
    from it. *)
Lemma round_next c l1 m1 x m2 children :
  at_round c l1 (m1 ++ x :: m2) children ->
  (forall i, i ∈ m1 -> opened s o false i = false) ->
  opened s o false x = true ->
  (x ∉ children) /\
  (IndexAfterRemoval r x = kInvalidIndex ->
   at_round x (l1 ++ c :: m1) m2 ({[x]} ∪ children)).
Proof.
  intros Har Hm1 Hxo. pose proof (round_NoDup _ _ _ _ Har) as Hnd.
  destruct Har as [Eq Hrem Hch].
  apply NoDup_app in Hnd as (Hnd1 & Hnd2 & [Hnc Hnd3]%NoDup_cons).
  assert (x ∉ l1 ++ [c]) as Hxn.
  { intros [Hx|Hx]%elem_of_app; [apply (Hnd2 x Hx); set_solver|].
    apply list_elem_of_singleton in Hx as ->. apply Hnc. set_solver. }
  assert (x <> a) as Hxa.
  { intros ->. apply Hxn. destruct l1 as [| b l1]; injection Eq as <- Eq; set_solver. }
  split; [rewrite Hch; tauto|]. intros Hrx. split.
  - by rewrite Eq, <- app_assoc.
  - intros i Hi Hio. assert (i ∈ l1 ++ [c] \/ i ∈ m1 \/ i = x) as [Hi'|[Hi'| ->]] by set_solver.
    + by apply Hrem.
    + by rewrite Hm1 in Hio.
    + done.
  - intros i. rewrite elem_of_union, elem_of_singleton, Hch. split.
    + intros [->|(Hi & ? & ?)]; set_solver.
    + intros (Hi & Hia & Hio).
      assert (i ∈ l1 ++ [c] \/ i ∈ m1 \/ i = x) as [Hi'|[Hi'| ->]] by set_solver; [auto| |auto].
      by rewrite Hm1 in Hio.
Qed.

Lemma find_loop_round fuel c l1 l2 children :
  at_round c l1 l2 children ->
  length l2 + 2 <= fuel ->
  find_loop fuel r (Some o) c children s =
    Ok (first_kept r (filter (fun i => opened s o false i = true) l2), s).
Proof.
  revert c l1 l2 children. induction fuel as [| fuel IH]; intros c l1 l2 children Har Hf; [lia|].
  destruct (filter _ l2) as [| x m] eqn:Ef.
  { destruct fuel as [| fuel]; [lia|]. by eapply find_loop_wrap. }
  pose proof Ef as Ef'.
  apply filter_first_split in Ef' as (m1 & m2 & -> & Hxo & Hm1 & ->).
  destruct (round_next _ _ _ _ _ _ Har Hm1 Hxo) as [Hxn Hnext].
  pose proof (fun i => round_range _ _ _ _ i Har) as Hrange.
  cbn [find_loop]. unfold mbind. rewrite GetIndexOfNextWebStateOpenedBy_ok
    by (apply Hrange; set_solver).
  unfold children_of. rewrite (cyc_rotate _ a c _ _ Ha (ar_round _ _ _ _ Har)), filter_app, Ef.
  cbn [app head default first_kept id].
  assert (0 <= x)%Z by (apply Hrange; set_solver).
  rewrite (proj2 (Z.eqb_neq x kInvalidIndex)) by (unfold WebStateList.kInvalidIndex; lia).
  rewrite bool_decide_eq_false_2 by done.
  destruct (Z.eqb_spec (IndexAfterRemoval r x) kInvalidIndex) as [Hrx|Hrx]; cbn -[find_loop];
    [|done].
  apply (IH x (l1 ++ c :: m1) m2); [by apply Hnext|].
  rewrite length_app in Hf. cbn in Hf. lia.
Qed.
End Round.

Lemma FindIndexOfNext_ok r s o a :
  (0 <= a < WebStateList.count s)%Z -> IndexAfterRemoval r a = kInvalidIndex ->
  FindIndexOfNextNonRemovedWebStateOpenedBy r (Some o) a s =
    Ok (first_kept r (children_of s o false a), s).
Proof.
  intros Ha Hra. unfold FindIndexOfNextNonRemovedWebStateOpenedBy, mbind at 1, mget.
  apply (find_loop_round r s o a Ha Hra _ a []).
  - split; cbn [app]; [done | by intros i ->%list_elem_of_singleton _ |].
    intros i. split; [by intros ?%elem_of_empty|].
    intros (->%list_elem_of_singleton & ? & _). done.
  - unfold cyc, WebStateList.count in *. rewrite length_app, !length_seqZ. lia.
Qed.

(** ** The two decisions *)

Lemma DetermineInsertionIndex_ok s o i :
  NoDup (WebStateList.web_states s) -> (WebStateList.count s < INT_MAX)%Z ->
  zlookup (WebStateList.web_states s) i = Some o ->
  DetermineInsertionIndex (Some o) s =
    Ok (default i (last (children_of s o true i)) + 1, s)%Z.
Proof.
  intros Hnd Hc Hi. assert (is_Some (zlookup (WebStateList.web_states s) i)) as Hr by eauto.
  rewrite zlookup_lt_is_Some, WebStateList.length_web_states in Hr.
  change (0 <= i < WebStateList.count s)%Z in Hr.
  unfold DetermineInsertionIndex, mbind, mget, dcheck.
  rewrite (WebStateList.GetIndexOfWebState_member s o i) by done.
  rewrite (proj2 (Z.eqb_neq i kInvalidIndex)) by (unfold WebStateList.kInvalidIndex; lia).
  cbn [negb]. cbv beta iota. rewrite GetIndexOfLastWebStateOpenedBy_ok by (done || lia).
  destruct (last (children_of s o true i)) as [c|] eqn:El; cbn.
  - assert (0 <= c < WebStateList.count s)%Z as Hcr.
    { apply last_Some in El as [l' El].
      eapply (children_of_range s o true i c Hr). rewrite El. set_solver. }
    rewrite (proj2 (Z.eqb_neq c kInvalidIndex)) by (unfold WebStateList.kInvalidIndex; lia).
    cbn. by rewrite (proj2 (Z.ltb_lt c INT_MAX)) by lia.
  - by rewrite (proj2 (Z.ltb_lt i INT_MAX)) by lia.
Qed.

(** Some index of the list is kept, and it is a candidate. *)
Lemma exists_kept s r :
  WebStateListRemovingIndexes.wf r -> in_range r (WebStateList.count s) ->
  WebStateList.count s <> WebStateListRemovingIndexes.count r ->
  exists i, (0 <= i < WebStateList.count s)%Z /\ i ∉ elems r.
Proof.
  intros Hwf Hin Hne. rewrite WebStateListRemovingIndexes.count_elems in Hne.
  destruct (decide (Exists (fun i => i ∉ elems r) (seqZ 0 (WebStateList.count s)))) as [He|Hn].
  { apply Exists_exists in He as (i & Hi%elem_of_seqZ & Hni). exists i. split; [lia|done]. }
  exfalso. apply Hne.
  assert (length (seqZ 0 (WebStateList.count s)) = length (elems r)) as E.
  { apply Permutation_length, NoDup_Permutation;
      [apply NoDup_seqZ | by apply WebStateListRemovingIndexes.wf_NoDup |].
    intros i. rewrite elem_of_seqZ. split; [|intros Hi; specialize (Hin i Hi); lia].
    intros Hi. destruct (decide (i ∈ elems r)) as [|Hni]; [done|]. exfalso. apply Hn.
    apply Exists_exists. exists i. rewrite elem_of_seqZ. done. }
  rewrite length_seqZ in E. unfold WebStateList.count in *. lia.
Qed.

Lemma first_kept_bounds r n l :
  WebStateListRemovingIndexes.wf r -> in_range r (Z.of_nat n) ->
  (forall i, i ∈ l -> (0 <= i < Z.of_nat n)%Z) ->
  first_kept r l = kInvalidIndex /\ (forall i, i ∈ l -> i ∈ elems r) \/
  (0 <= first_kept r l < Z.of_nat n - WebStateListRemovingIndexes.count r)%Z.
Proof.
  intros Hwf Hin. induction l as [| i l IH]; intros Hl; [by left; split; [|intros ? ?%elem_of_nil]|].
  cbn. destruct (decide (i ∈ elems r)) as [Hi|Hni].
  - rewrite WebStateListRemovingIndexes.IndexAfterRemoval_removed by done. cbn.
    destruct IH as [[-> Hall]|Hb]; [intros; apply Hl; by right | left | by right].
    split; [done|]. intros j [->|Hj]%elem_of_cons; auto.
  - right. pose proof (WebStateListRemovingIndexes.IndexAfterRemoval_bounds r n i Hwf Hin
      (Hl i ltac:(left)) Hni) as Hb.
    rewrite (proj2 (Z.eqb_neq _ kInvalidIndex)) by (unfold WebStateList.kInvalidIndex; lia).
    done.
Qed.

Lemma candidates_range s a i :
  WebStateList.wf s -> (0 <= a < WebStateList.count s)%Z ->
  i ∈ candidates s a -> (0 <= i < WebStateList.count s)%Z.
Proof.
  intros Hwf Ha. unfold candidates.
  destruct (zlookup _ a) as [w|] eqn:Hw; [|by intros ?%elem_of_nil].
  rewrite !elem_of_app, elem_of_reverse, !elem_of_seqZ.
  intros [Hi|[Hi|[Hi|Hi]]]; [apply children_of_range in Hi; tauto | | lia | lia].
  destruct (WebStateOpener.opener _) as [o|] eqn:Ho; [|by apply elem_of_nil in Hi].
  apply elem_of_app in Hi as [Hi|Hi]; [apply children_of_range in Hi; tauto|].
  apply list_elem_of_singleton in Hi as ->.
  apply WebStateList.GetIndexOfWebState_elem; [by apply WebStateList.wf_nodup|].
  eapply (WebStateList.wfw_opener _ (WebStateList.wf_list s Hwf) w); [|done].
  apply zlookup_Some in Hw as [_ Hw]. by eapply list_elem_of_lookup_2.
Qed.

Lemma candidates_complete s a i :
  (0 <= a < WebStateList.count s)%Z -> (0 <= i < WebStateList.count s)%Z -> i <> a ->
  i ∈ candidates s a.
Proof.
  intros Ha Hi Hne. unfold candidates.
  assert (is_Some (zlookup (WebStateList.web_state_wrappers_ s) a)) as [w ->]
    by (by apply zlookup_lt_is_Some).
  rewrite !elem_of_app, elem_of_reverse, !elem_of_seqZ. lia.
Qed.

(** The two loops at the end: one of them finds a kept index. *)
Definition nearest (s : WebStateList.t) (a : Z) : list Z :=
  seqZ (a + 1) (WebStateList.count s - (a + 1)) ++ reverse (seqZ 0 a).

Lemma nearest_kept s a r :
  WebStateListRemovingIndexes.wf r -> in_range r (WebStateList.count s) ->
  (0 <= a < WebStateList.count s)%Z -> IndexAfterRemoval r a = kInvalidIndex ->
  WebStateList.count s <> WebStateListRemovingIndexes.count r ->
  (0 <= first_kept r (nearest s a) <
     WebStateList.count s - WebStateListRemovingIndexes.count r)%Z.
Proof.
  intros Hr Hin Ha Hra Hne.
  destruct (exists_kept s r) as (k & Hk & Hnk); [done..|].
  assert (k <> a) as Hka.
  { intros ->. pose proof (WebStateListRemovingIndexes.IndexAfterRemoval_bounds r _ a Hr Hin Ha Hnk).
    rewrite Hra in *. unfold WebStateList.kInvalidIndex in *. lia. }
  assert (forall i, i ∈ nearest s a <-> (0 <= i < WebStateList.count s)%Z /\ i <> a) as Hel.
  { intros i. unfold nearest. rewrite elem_of_app, elem_of_reverse, !elem_of_seqZ. lia. }
  destruct (first_kept_bounds r (length (WebStateList.web_state_wrappers_ s)) (nearest s a))
    as [[_ Hall]|Hb]; [done | done | intros i; rewrite Hel; tauto | | done].
  exfalso. apply Hnk, Hall, Hel. done.
Qed.

Lemma nearest_code s a r :
  WebStateListRemovingIndexes.wf r -> in_range r (WebStateList.count s) ->
  (0 <= a < WebStateList.count s)%Z -> IndexAfterRemoval r a = kInvalidIndex ->
  WebStateList.count s <> WebStateListRemovingIndexes.count r ->
  (let next := first_kept r (seqZ (a + 1) (WebStateList.count s - (a + 1))) in
   if negb (next =? kInvalidIndex)%Z then mreturn next else
   let previous := first_kept r (reverse (seqZ 0 a)) in
   if negb (previous =? kInvalidIndex)%Z then mreturn previous else mfail NotReached) s =
  Ok (first_kept r (nearest s a), s).
Proof.
  intros Hr Hin Ha Hra Hne. pose proof (nearest_kept s a r Hr Hin Ha Hra Hne) as Hb.
  unfold nearest in *. rewrite first_kept_app in *. cbn zeta.
  destruct (negb (first_kept r (seqZ _ _) =? _)%Z); [done|].
  rewrite (proj2 (Z.eqb_neq _ kInvalidIndex)) by (unfold WebStateList.kInvalidIndex; lia).
  done.
Qed.

Lemma DetermineNewActiveIndex_eq s a r :
  WebStateListRemovingIndexes.wf r -> in_range r (WebStateList.count s) ->
  a = kInvalidIndex \/ (0 <= a < WebStateList.count s)%Z ->
  DetermineNewActiveIndex a r s = Ok (new_active_ref s a r, s).
Proof.
  intros Hr Hin Ha. unfold DetermineNewActiveIndex, new_active_ref, mbind, mget, dcheck.
  destruct (Z.eqb_spec a kInvalidIndex) as [->|Hne]; [done|]. destruct Ha as [?|Ha]; [done|].
  rewrite (proj2 (WebStateList.ContainsIndex_spec s a) Ha).
  destruct (Z.eqb_spec (WebStateList.count s) (WebStateListRemovingIndexes.count r)) as [|Hc];
    [done|].
  cbn [first_kept].
  destruct (Z.eqb_spec (IndexAfterRemoval r a) kInvalidIndex) as [Hra|Hra]; cbn [negb]; [|done].
  assert (is_Some (zlookup (WebStateList.web_state_wrappers_ s) a)) as [w Hw]
    by (by apply zlookup_lt_is_Some).
  rewrite (WebStateList.GetWebStateAt_ok a (WebStateWrapper.web_state_ w))
    by (unfold WebStateList.web_states; by rewrite zlookup_fmap, Hw).
  rewrite FindIndexOfNext_ok by done. unfold candidates. rewrite Hw, first_kept_app.
  destruct (negb _); [done|].
  rewrite (WebStateList.GetOpenerOfWebStateAt_ok a w) by done.
  pose proof (nearest_code s a r Hr Hin Ha Hra Hc) as Hnear. unfold nearest in Hnear.
  destruct (WebStateOpener.opener _) as [o|]; [|exact Hnear].
  rewrite FindIndexOfNext_ok, <- app_assoc, first_kept_app by done.
  destruct (negb (first_kept r (children_of s o false a) =? _)%Z) eqn:Esib;
    cbn [mreturn]; [by rewrite Esib|].
  cbn [app first_kept]. destruct (negb (IndexAfterRemoval _ _ =? _)%Z); [done|]. exact Hnear.
Qed.

Lemma new_active_ref_bounds s a r :
  WebStateList.wf s -> WebStateListRemovingIndexes.wf r ->
  in_range r (WebStateList.count s) ->
  (0 <= a < WebStateList.count s)%Z ->
  WebStateList.count s <> WebStateListRemovingIndexes.count r ->
  (0 <= new_active_ref s a r < WebStateList.count s - WebStateListRemovingIndexes.count r)%Z.
Proof.
  intros Hwf Hr Hin Ha Hc. unfold new_active_ref.
  rewrite (proj2 (Z.eqb_neq a kInvalidIndex)) by (unfold WebStateList.kInvalidIndex; lia).
  rewrite (proj2 (Z.eqb_neq _ _) Hc).
  destruct (exists_kept s r) as (k & Hk & Hnk); [done..|].
  destruct (first_kept_bounds r (length (WebStateList.web_state_wrappers_ s))
              (a :: candidates s a)) as [[_ Hall]|Hb]; [done | done | | | done].
  - intros i [->|Hi]%elem_of_cons; [done|]. by apply (candidates_range s a).
  - exfalso. apply Hnk, Hall. destruct (decide (k = a)) as [->|]; [left|].
    right. by apply candidates_complete.
Qed.

End Queries.

(** ** Properties *)

Section Properties.
Context `{WebStateEnv}.

(** C25: [DetermineNewActiveIndex] implements its reference: with removed
    indexes in range and a valid or invalid active index it returns (no DCHECK,
    no NOTREACHED, and the search among the opened WebStates ends), the list is
    unchanged, and the value is the new index of the active WebState when it is
    kept, and else of the first kept candidate among its children, its
    siblings, its opener, the WebStates after it and those before it. *)
Theorem DetermineNewActiveIndex_refines s a v :
  (forall z, z ∈ v -> (0 <= z < WebStateList.count s)%Z) ->
  a = kInvalidIndex \/ WebStateList.ContainsIndex s a = true ->
  let r := WebStateListRemovingIndexes.StorageFromVector v in
  DetermineNewActiveIndex a r s = Ok (new_active_ref s a r, s).
Proof.
  intros Hv Ha. cbn. apply DetermineNewActiveIndex_eq.
  - apply WebStateListRemovingIndexes.wf_StorageFromVector.
  - intros z Hz. rewrite WebStateListRemovingIndexes.elem_of_elems_StorageFromVector in Hz.
    by apply Hv.
  - destruct Ha as [->|Ha]; [by left | right]. by apply WebStateList.ContainsIndex_spec.
Qed.

(** the result of [DetermineNewActiveIndex] is an index of the list after
    the removal whenever a WebState was active and one remains, and
    [kInvalidIndex] otherwise. *)
Theorem DetermineNewActiveIndex_in_range s a v :
  WebStateList.wf s ->
  (forall z, z ∈ v -> (0 <= z < WebStateList.count s)%Z) ->
  a = kInvalidIndex \/ WebStateList.ContainsIndex s a = true ->
  let r := WebStateListRemovingIndexes.StorageFromVector v in
  exists i, DetermineNewActiveIndex a r s = Ok (i, s) /\
    if bool_decide (a = kInvalidIndex \/
                    WebStateList.count s = WebStateListRemovingIndexes.count r)
    then i = kInvalidIndex
    else (0 <= i < WebStateList.count s - WebStateListRemovingIndexes.count r)%Z.
Proof.
  intros Hwf Hv Ha. cbn. set (r := WebStateListRemovingIndexes.StorageFromVector v).
  assert (WebStateListRemovingIndexes.wf r) as Hr
    by apply WebStateListRemovingIndexes.wf_StorageFromVector.
  assert (in_range r (WebStateList.count s)) as Hin.
  { intros z Hz. apply Hv. unfold r in Hz.
    by rewrite WebStateListRemovingIndexes.elem_of_elems_StorageFromVector in Hz. }
  assert (a = kInvalidIndex \/ (0 <= a < WebStateList.count s)%Z) as Ha'
    by (destruct Ha as [->|Ha]; [by left | right; by apply WebStateList.ContainsIndex_spec]).
  exists (new_active_ref s a r). split; [by apply DetermineNewActiveIndex_eq|].
  case_bool_decide as Hc.
  - unfold new_active_ref. destruct Hc as [->| ->]; [done|]. rewrite Z.eqb_refl.
    by destruct (a =? kInvalidIndex)%Z.
  - apply new_active_ref_bounds; tauto.
Qed.

(** C26: [DetermineInsertionIndex] places a WebState right after the last
    WebState its opener opened in the same session, going round the list from
    the opener, or right after the opener, and at the end without opener. *)
Theorem DetermineInsertionIndex_correct s o i :
  WebStateList.wf s -> (WebStateList.count s < INT_MAX)%Z ->
  zlookup (WebStateList.web_states s) i = Some o ->
  DetermineInsertionIndex None s = Ok (WebStateList.count s, s) /\
  exists k, DetermineInsertionIndex (Some o) s = Ok (k + 1, s)%Z /\
    (0 <= k < WebStateList.count s)%Z /\
    (k = i /\ children_of s o true i = [] \/
     exists l, children_of s o true i = l ++ [k]).
Proof.
  intros Hwf Hc Hi. split; [done|].
  exists (default i (last (children_of s o true i))).
  split; [apply DetermineInsertionIndex_ok; [by apply WebStateList.wf_nodup | done | done]|].
  assert (is_Some (zlookup (WebStateList.web_states s) i)) as Hr by eauto.
  rewrite zlookup_lt_is_Some, WebStateList.length_web_states in Hr.
  destruct (last (children_of s o true i)) as [k|] eqn:El; cbn.
  - apply last_Some in El as [l El]. split; [|by right; exists l].
    eapply (children_of_range s o true i k Hr). rewrite El. set_solver.
  - apply last_None in El. auto.
Qed.

End Properties.

(** A list of four WebStates: 2 and 4 were opened by 1, 3 by 2. *)
Definition example_env : WebStateEnv :=
  {| env_visible_url := fun _ => "about:blank"; env_last_committed_index := fun _ => 0%Z |}.

Definition example_list : WebStateList.t :=
  WebStateList.mk
    [WebStateWrapper.mk 1 WebStateOpener.null false;
     WebStateWrapper.mk 2 (WebStateOpener.mk (Some 1%positive) 0) false;
     WebStateWrapper.mk 3 (WebStateOpener.mk (Some 2%positive) 0) false;
     WebStateWrapper.mk 4 (WebStateOpener.mk (Some 1%positive) 0) false]%positive
    1 false false [].

Lemma example_removed z : z ∈ [1; 2]%Z -> (0 <= z < WebStateList.count example_list)%Z.
Proof. revert z. apply Forall_forall. repeat (apply Forall_cons; split; [unfold WebStateList.count; cbn; lia|]). by apply Forall_nil. Qed.

(** Closing 2 (active) and 3, the sibling 4 becomes active, at its new index. *)
Lemma DetermineNewActiveIndex_refines_witness :
  @DetermineNewActiveIndex example_env 1
    (WebStateListRemovingIndexes.StorageFromVector [1; 2]%Z) example_list = Ok (1%Z, example_list).
Proof.
  exact (@DetermineNewActiveIndex_refines example_env example_list 1 [1; 2]%Z
           example_removed (or_intror eq_refl)).
Defined.

Lemma DetermineNewActiveIndex_in_range_witness :
  exists i, @DetermineNewActiveIndex example_env 1
    (WebStateListRemovingIndexes.StorageFromVector [1; 2]%Z) example_list = Ok (i, example_list) /\
    (0 <= i < 2)%Z.
Proof.
  exact (@DetermineNewActiveIndex_in_range example_env example_list 1 [1; 2]%Z
           (WebStateList.wf_b_sound example_list eq_refl) example_removed (or_intror eq_refl)).
Defined.

Lemma DetermineInsertionIndex_correct_witness :
  @DetermineInsertionIndex example_env None example_list = Ok (4%Z, example_list) /\
  exists k, @DetermineInsertionIndex example_env (Some 1%positive) example_list =
      Ok (k + 1, example_list)%Z /\
    (0 <= k < 4)%Z /\
    (k = 0%Z /\ @children_of example_env example_list 1%positive true 0 = [] \/
     exists l, @children_of example_env example_list 1%positive true 0 = l ++ [k]).
Proof.
  exact (@DetermineInsertionIndex_correct example_env example_list 1%positive 0
           (WebStateList.wf_b_sound example_list eq_refl) eq_refl eq_refl).
Defined.

End WebStateListOrderController.
