(* ===== verification/WebStateListOps.v ===== *)
(** * WebStateList: the mutating operations

    [InsertWebState], [MoveWebStateAt], [ReplaceWebStateAt], [DetachWebStateAt],
    [CloseWebStateAt], [CloseAllWebStates], [ActivateWebStateAt],
    [SetOpenerOfWebStateAt] and [PerformBatchOperation], each with its
    [...Impl], the lock, and every notification
    (src/chrome/browser/web_state_list/web_state_list.mm). *)

From stdpp Require Import base tactics option list numbers strings gmap.
From Stdlib Require Import ZArith Lia.
From S2P Require Import Prelude RemovingIndexes WebStateListModel OrderController.

Module WebStateListOps.
Import WebStateList.

Section Code.
Context `{WebStateEnv}.

(** [auto lock = LockForMutation(); return m;]: [base::AutoReset] gives
    [locked_] its old value back at the end of the scope. *)
Definition LockForMutation {A} (m : M t A) : M t A :=
  let! s := mget in
  check (negb (locked_ s)) ;;;
  mmodify (with_locked true) ;;;
  let! a := m in
  mmodify (with_locked (locked_ s)) ;;;
  mreturn a.

(** [wrapper->SetOpener(opener)] on the wrapper at [index], with its DCHECK. *)
Definition SetOpener_at (index : Z) (opener : WebStateOpener.t) : M t unit :=
  let! s := mget in
  let! w := of_option (zlookup (web_state_wrappers_ s) index) in
  dcheck (negb (bool_decide (Some (WebStateWrapper.web_state_ w) = WebStateOpener.opener opener))) ;;;
  mmodify (with_wrappers
    (<[Z.to_nat index := WebStateWrapper.SetOpener w opener]> (web_state_wrappers_ s))).

Definition SetOpenerOfWebStateAt (index : Z) (opener : WebStateOpener.t) : M t unit :=
  let! s := mget in
  dcheck (ContainsIndex s index) ;;;
  dcheck (ContainsIndex s (GetIndexOfWebState s (WebStateOpener.opener opener))) ;;;
  SetOpener_at index opener.

(** [SetOpener(WebStateOpener())] on every wrapper chosen by [p]; its DCHECK
    compares the WebState with a null opener. *)
Definition clear_openers (p : WebStateWrapper.t -> bool) (s : t) : t :=
  with_wrappers
    ((fun w => if p w then WebStateWrapper.SetOpener w WebStateOpener.null else w)
       <$> web_state_wrappers_ s) s.

Definition ClearOpenersReferencing (index : Z) : M t unit :=
  let! s := mget in
  let! old := of_option (zlookup (web_state_wrappers_ s) index) in
  mmodify (clear_openers (fun w =>
    bool_decide (WebStateOpener.opener (WebStateWrapper.opener_ w) =
                 Some (WebStateWrapper.web_state_ old)))).

Definition NotifyIfActiveWebStateChanged (old_web_state : option WebStateId)
    (reason : ActiveWebStateChangeReason) : M t unit :=
  let! new_web_state := GetActiveWebState in
  if bool_decide (old_web_state = new_web_state) then mreturn tt else
  match new_web_state with
  | Some ws => mmodify (emit (ForceRealized ws))
  | None => mreturn tt
  end ;;;
  let! s := mget in
  mmodify (notify (WebStateActivatedAt old_web_state new_web_state (active_index_ s) reason)).

Definition ActivateWebStateAtImpl (index : Z) (reason : ActiveWebStateChangeReason) : M t unit :=
  let! s := mget in
  dcheck (locked_ s) ;;;
  dcheck (ContainsIndex s index || (index =? kInvalidIndex)%Z) ;;;
  let! old_web_state_wrapper := GetActiveWebStateWrapper in
  match old_web_state_wrapper with
  | Some w =>
      if WebStateWrapper.should_reset_opener_ w
      then SetOpener_at (active_index_ s) WebStateOpener.null
      else mreturn tt
  | None => mreturn tt
  end ;;;
  mmodify (with_active index) ;;;
  NotifyIfActiveWebStateChanged (WebStateWrapper.web_state_ <$> old_web_state_wrapper) reason.

Definition InsertWebStateImpl (index : Z) (web_state : WebStateId) (insertion_flags : Z)
    (opener : WebStateOpener.t) : M t Z :=
  let! s := mget in
  dcheck (locked_ s) ;;;
  let activating := IsInsertionFlagSet insertion_flags INSERT_ACTIVATE in
  let inherit := IsInsertionFlagSet insertion_flags INSERT_INHERIT_OPENER in
  let! opener :=
    if inherit then
      mmodify (clear_openers (fun _ => true)) ;;;
      let! active := GetActiveWebState in
      mreturn (WebStateOpener.from_web_state active)
    else mreturn opener in
  let! index :=
    if negb (IsInsertionFlagSet insertion_flags INSERT_FORCE_INDEX) then
      let! index :=
        WebStateListOrderController.DetermineInsertionIndex (WebStateOpener.opener opener) in
      let! s := mget in
      mreturn (if (index <? 0)%Z || (count s <? index)%Z then count s else index)
    else mreturn index in
  let! s := mget in
  dcheck (ContainsIndex s index || (index =? count s)%Z) ;;;
  mmodify (emit (WillAddWebState web_state)) ;;;
  mmodify (fun s => with_wrappers
    (insert_at (Z.to_nat index) (WebStateWrapper.create web_state) (web_state_wrappers_ s)) s) ;;;
  mmodify (fun s => if (active_index_ s >=? index)%Z
                    then with_active (active_index_ s + 1) s else s) ;;;
  mwhen inherit
    (let! s := mget in
     let! w := of_option (zlookup (web_state_wrappers_ s) index) in
     mmodify (with_wrappers
       (<[Z.to_nat index := WebStateWrapper.SetShouldResetOpenerOnActiveWebStateChange w true]>
          (web_state_wrappers_ s)))) ;;;
  mmodify (notify (WebStateInsertedAt web_state index activating)) ;;;
  mwhen (bool_decide (is_Some (WebStateOpener.opener opener)))
    (SetOpenerOfWebStateAt index opener) ;;;
  mwhen activating (ActivateWebStateAtImpl index Inserted) ;;;
  mreturn index.

Definition MoveWebStateAtImpl (from_index to_index : Z) : M t unit :=
  let! s := mget in
  dcheck (locked_ s) ;;;
  dcheck (ContainsIndex s from_index) ;;;
  dcheck (ContainsIndex s to_index) ;;;
  if (from_index =? to_index)%Z then mreturn tt else
  let! wrapper := of_option (zlookup (web_state_wrappers_ s) from_index) in
  mmodify (fun s => with_wrappers
    (insert_at (Z.to_nat to_index) wrapper
       (erase_at (Z.to_nat from_index) (web_state_wrappers_ s))) s) ;;;
  mmodify (fun s =>
    if (active_index_ s =? from_index)%Z then with_active to_index s
    else
      let min := Z.min from_index to_index in
      let max := Z.max from_index to_index in
      let delta := if (from_index <? to_index)%Z then (-1)%Z else 1%Z in
      if (min <=? active_index_ s)%Z && (active_index_ s <=? max)%Z
      then with_active (active_index_ s + delta) s else s) ;;;
  mmodify (notify (WebStateMoved (WebStateWrapper.web_state_ wrapper) from_index to_index)).

Definition ReplaceWebStateAtImpl (index : Z) (web_state : WebStateId) : M t WebStateId :=
  let! s := mget in
  dcheck (locked_ s) ;;;
  dcheck (ContainsIndex s index) ;;;
  mmodify (emit (WillAddWebState web_state)) ;;;
  ClearOpenersReferencing index ;;;
  let! s := mget in
  let! w := of_option (zlookup (web_state_wrappers_ s) index) in
  dcheck (negb (bool_decide (web_state = WebStateWrapper.web_state_ w))) ;;;
  let old_web_state := WebStateWrapper.web_state_ w in
  mmodify (with_wrappers
    (<[Z.to_nat index := WebStateWrapper.ReplaceWebState w web_state]> (web_state_wrappers_ s))) ;;;
  mmodify (notify (WebStateReplacedAt old_web_state web_state index)) ;;;
  NotifyIfActiveWebStateChanged (Some old_web_state) Replaced ;;;
  mmodify (emit (WebStateDetached old_web_state)) ;;;
  mreturn old_web_state.

Definition DetachWebStateAtImpl (index : Z) : M t WebStateId :=
  let! s := mget in
  dcheck (locked_ s) ;;;
  dcheck (ContainsIndex s index) ;;;
  let! w := of_option (zlookup (web_state_wrappers_ s) index) in
  let web_state := WebStateWrapper.web_state_ w in
  mmodify (notify (WillDetachWebStateAt web_state index)) ;;;
  let active_web_state_was_closed := (index =? active_index_ s)%Z in
  let! new_active := WebStateListOrderController.DetermineNewActiveIndex (active_index_ s)
    (WebStateListRemovingIndexes.StorageFromInitializerList [index]) in
  mmodify (with_active new_active) ;;;
  ClearOpenersReferencing index ;;;
  mmodify (fun s => with_wrappers (erase_at (Z.to_nat index) (web_state_wrappers_ s)) s) ;;;
  let! s := mget in
  dcheck ((active_index_ s =? kInvalidIndex)%Z || ContainsIndex s (active_index_ s)) ;;;
  mmodify (notify (WebStateDetachedAt web_state index)) ;;;
  mwhen active_web_state_was_closed
    (NotifyIfActiveWebStateChanged (Some web_state) Closed) ;;;
  mmodify (emit (WebStateDetached web_state)) ;;;
  mreturn web_state.

Definition CloseWebStateAtImpl (index : Z) (close_flags : Z) : M t unit :=
  let! s := mget in
  dcheck (locked_ s) ;;;
  let! detached_web_state := DetachWebStateAtImpl index in
  let user_action := IsClosingFlagSet close_flags CLOSE_USER_ACTION in
  mmodify (notify (WillCloseWebStateAt detached_web_state index user_action)) ;;;
  mmodify (emit (Destroyed detached_web_state)).

Definition PerformBatchOperation (operation : option (M t unit)) : M t unit :=
  let! s := mget in
  dcheck (negb (batch_operation_in_progress_ s)) ;;;
  mmodify (with_batch true) ;;;
  mmodify (notify WillBeginBatchOperation) ;;;
  match operation with
  | Some op => op
  | None => mreturn tt
  end ;;;
  mmodify (notify BatchOperationEnded) ;;;
  mmodify (with_batch (batch_operation_in_progress_ s)).

(** [while (!web_state_list->empty()) CloseWebStateAtImpl(count() - 1, flags)] *)
Fixpoint close_loop (fuel : nat) (close_flags : Z) : M t unit :=
  match fuel with
  | 0 => mfail OutOfFuel
  | S fuel' =>
      let! s := mget in
      if empty s then mreturn tt
      else CloseWebStateAtImpl (count s - 1) close_flags ;;; close_loop fuel' close_flags
  end.

Definition CloseAllWebStatesImpl (close_flags : Z) : M t unit :=
  let! s := mget in
  dcheck (locked_ s) ;;;
  PerformBatchOperation (Some
    (ActivateWebStateAtImpl kInvalidIndex Closed ;;;
     let! s := mget in
     close_loop (S (length (web_state_wrappers_ s))) close_flags)).

(** The public operations. *)
Definition InsertWebState (index : Z) (web_state : WebStateId) (insertion_flags : Z)
    (opener : WebStateOpener.t) : M t Z :=
  LockForMutation (InsertWebStateImpl index web_state insertion_flags opener).

Definition MoveWebStateAt (from_index to_index : Z) : M t unit :=
  LockForMutation (MoveWebStateAtImpl from_index to_index).

Definition ReplaceWebStateAt (index : Z) (web_state : WebStateId) : M t WebStateId :=
  LockForMutation (ReplaceWebStateAtImpl index web_state).

Definition DetachWebStateAt (index : Z) : M t WebStateId :=
  LockForMutation (DetachWebStateAtImpl index).

Definition CloseWebStateAt (index : Z) (close_flags : Z) : M t unit :=
  LockForMutation (CloseWebStateAtImpl index close_flags).

Definition CloseAllWebStates (close_flags : Z) : M t unit :=
  LockForMutation (CloseAllWebStatesImpl close_flags).

Definition ActivateWebStateAt (index : Z) : M t unit :=
  let! s := mget in
  dcheck (ContainsIndex s index) ;;;
  LockForMutation (ActivateWebStateAtImpl index Activated).

End Code.

(** ** What an observer is promised

    The comments of [WebStateListObserver] as a predicate on a notification:
    the active index an observer reads is valid, and the WebState it is told
    about is in the list, or gone from it, as the comment of the method says. *)
Definition effect_ok (e : Effect) : Prop :=
  match e with
  | Notify event seen seen_active =>
      (seen_active = kInvalidIndex \/ (0 <= seen_active < Z.of_nat (length seen))%Z) /\
      match event with
      | WebStateInsertedAt ws index _ => zlookup seen index = Some ws
      | WebStateMoved ws _ to_index => zlookup seen to_index = Some ws
      | WebStateReplacedAt old new index => zlookup seen index = Some new /\ old ∉ seen
      | WillDetachWebStateAt ws index => zlookup seen index = Some ws
      | WebStateDetachedAt ws _ => ws ∉ seen
      | WillCloseWebStateAt ws _ _ => ws ∉ seen
      | WebStateActivatedAt old new active_index _ =>
          active_index = seen_active /\ zlookup seen seen_active = new /\ old <> new
      | WillBeginBatchOperation | BatchOperationEnded => True
      end
  | _ => True
  end.

Definition log_ok (s : t) : Prop := Forall effect_ok (log s).

(** What an observer knows of the list when it only listens: the WebStates and
    the active one, recomputed from the notifications. *)
Record Mirror : Type := mkMirror {
  mirror_states : list WebStateId;
  mirror_active : option WebStateId
}.

Definition mirror_event (m : Mirror) (e : WebStateListEvent) : Mirror :=
  match e with
  | WebStateInsertedAt ws index _ =>
      mkMirror (insert_at (Z.to_nat index) ws (mirror_states m)) (mirror_active m)
  | WebStateMoved ws from_index to_index =>
      mkMirror (insert_at (Z.to_nat to_index) ws
                  (erase_at (Z.to_nat from_index) (mirror_states m))) (mirror_active m)
  | WebStateReplacedAt _ new index =>
      mkMirror (<[Z.to_nat index := new]> (mirror_states m)) (mirror_active m)
  | WebStateDetachedAt _ index =>
      mkMirror (erase_at (Z.to_nat index) (mirror_states m)) (mirror_active m)
  | WebStateActivatedAt _ new _ _ => mkMirror (mirror_states m) new
  | WillDetachWebStateAt _ _ | WillCloseWebStateAt _ _ _
  | WillBeginBatchOperation | BatchOperationEnded => m
  end.

Definition mirror_effect (m : Mirror) (e : Effect) : Mirror :=
  match e with
  | Notify event _ _ => mirror_event m event
  | _ => m
  end.

Definition mirror (s : t) : Mirror := foldl mirror_effect (mkMirror [] None) (log s).

(** The invariant between two statements of the code, and the one between two
    calls, where the listening observer is up to date. *)
Definition inv (s : t) : Prop := wf s /\ log_ok s.

Definition synced (s : t) : Prop := mirror s = mkMirror (web_states s) (active_web_state s).

End WebStateListOps.
