(* ===== verification/WebStateListProofs.v ===== *)
(** * WebStateList: invariant, refinement and observer contract

    The representation invariant is kept by every public operation, no DCHECK
    or CHECK fails on legal arguments, the operations implement those of an
    abstract tab strip (a list of WebStates and the active one), and every
    notification keeps the promises of [WebStateListObserver]. *)

From stdpp Require Import base tactics option list numbers strings gmap.
From Stdlib Require Import ZArith Lia.
From S2P Require Import Prelude RemovingIndexes WebStateListModel OrderController WebStateListOps.

Module WebStateListProofs.
Import WebStateList WebStateListOps.

(** ** Framing *)

(** Everything but the flags and the effects is the same. *)
Record same_list (s s' : t) : Prop := {
  same_list_wrappers : web_state_wrappers_ s' = web_state_wrappers_ s;
  same_list_active : active_index_ s' = active_index_ s
}.

(** The two states differ at most by their effects. *)
Record same (s s' : t) : Prop := {
  same_wrappers : web_state_wrappers_ s' = web_state_wrappers_ s;
  same_active : active_index_ s' = active_index_ s;
  same_locked : locked_ s' = locked_ s;
  same_batch : batch_operation_in_progress_ s' = batch_operation_in_progress_ s
}.

Lemma same_refl s : same s s.
Proof. done. Qed.

Lemma same_trans s1 s2 s3 : same s1 s2 -> same s2 s3 -> same s1 s3.
Proof. intros [] []. split; congruence. Qed.

Lemma same_emit e s : same s (emit e s).
Proof. done. Qed.

Lemma same_notify e s : same s (notify e s).
Proof. done. Qed.

#[local] Hint Resolve same_refl same_emit same_notify : ios.

Lemma same_web_states s s' : same s s' -> web_states s' = web_states s.
Proof. intros []. unfold web_states. congruence. Qed.

Lemma same_active_web_state s s' : same s s' -> active_web_state s' = active_web_state s.
Proof. intros Hs. unfold active_web_state. rewrite (same_web_states _ _ Hs). by destruct Hs as [_ -> _ _]. Qed.

Lemma same_ContainsIndex s s' i : same s s' -> ContainsIndex s' i = ContainsIndex s i.
Proof. intros []. unfold ContainsIndex, count. congruence. Qed.

Lemma same_list_wf s s' : same_list s s' -> wf s -> wf s'.
Proof.
  intros [E1 E2] [H1 H2]. unfold valid_index, count in *.
  split; unfold valid_index, count; by rewrite ?E1, ?E2.
Qed.

Lemma log_ok_emit e s : log_ok s -> effect_ok e -> log_ok (emit e s).
Proof. intros Hl He. apply Forall_app. split; [done|]. by apply Forall_singleton. Qed.

Lemma valid_active s :
  wf s -> active_index_ s = kInvalidIndex \/ (0 <= active_index_ s < Z.of_nat (length (web_states s)))%Z.
Proof. intros [_ Hv]. rewrite length_web_states. exact Hv. Qed.

Lemma inv_emit e s : inv s -> effect_ok e -> inv (emit e s).
Proof. intros [Hwf Hl] He. split; [by apply (same_list_wf s)|by apply log_ok_emit]. Qed.

Lemma inv_flags s s' : same_list s s' -> log s' = log s -> inv s -> inv s'.
Proof. intros Hs El [Hw Hl]. split; [by apply (same_list_wf s)|]. unfold log_ok. by rewrite El. Qed.

(** A notification that keeps its promise. *)
Lemma inv_notify ev s :
  inv s -> (wf s -> effect_ok (Notify ev (web_states s) (active_index_ s))) -> inv (notify ev s).
Proof. intros Hi He. apply inv_emit; [done|]. apply He, Hi. Qed.

Lemma active_web_state_kInvalid s : active_index_ s = kInvalidIndex -> active_web_state s = None.
Proof. unfold active_web_state. intros ->. done. Qed.

Lemma active_web_state_inj s i ws :
  wf s -> zlookup (web_states s) i = Some ws ->
  active_web_state s = Some ws <-> active_index_ s = i.
Proof.
  intros Hwf Hi. unfold active_web_state. split; [|by intros ->].
  intros Ha. eapply zlookup_inj; [by apply wf_nodup | done | done].
Qed.

Lemma zlookup_web_states s i ws :
  zlookup (web_states s) i = Some ws ->
  exists w, zlookup (web_state_wrappers_ s) i = Some w /\ WebStateWrapper.web_state_ w = ws.
Proof. unfold web_states. rewrite zlookup_fmap, fmap_Some. intros (w & ? & ->). eauto. Qed.

Lemma zlookup_wrappers s i w :
  zlookup (web_state_wrappers_ s) i = Some w ->
  zlookup (web_states s) i = Some (WebStateWrapper.web_state_ w).
Proof. intros Hw. unfold web_states. by rewrite zlookup_fmap, Hw. Qed.

(** ** The invariant of the wrappers under list surgery *)

Abbreviation ids := (fmap WebStateWrapper.web_state_).
Abbreviation opener_of w := (WebStateOpener.opener (WebStateWrapper.opener_ w)).

Lemma elem_of_ids w (l : list WebStateWrapper.t) : w ∈ l -> WebStateWrapper.web_state_ w ∈ ids l.
Proof. apply list_elem_of_fmap_2. Qed.

Lemma wfw_insert l i w :
  wf_wrappers l -> WebStateWrapper.web_state_ w ∉ ids l ->
  (forall o, opener_of w = Some o -> o ∈ ids l) ->
  (WebStateWrapper.should_reset_opener_ w = true -> opener_of w = None) ->
  wf_wrappers (insert_at i w l).
Proof.
  intros [H1 H2 H3] Hn Ho Hr. split.
  - rewrite insert_at_fmap. by apply NoDup_insert_at.
  - intros x o Hx Hxo. rewrite insert_at_fmap, elem_of_insert_at.
    apply elem_of_insert_at in Hx as [->|Hx].
    + specialize (Ho o Hxo). split; [by right|]. by intros ->.
    + destruct (H2 x o Hx Hxo). auto.
  - intros x [->|Hx]%elem_of_insert_at; auto.
Qed.

Lemma wfw_erase l i w :
  wf_wrappers l -> l !! i = Some w ->
  (forall x, x ∈ l -> opener_of x <> Some (WebStateWrapper.web_state_ w)) ->
  wf_wrappers (erase_at i l).
Proof.
  intros [H1 H2 H3] Hw Hno.
  assert (ids l !! i = Some (WebStateWrapper.web_state_ w)) as Hid
    by (by rewrite list_lookup_fmap, Hw).
  assert (forall x, x ∈ erase_at i l -> x ∈ l) as Hsub.
  { intros x Hx. rewrite (erase_at_Permutation i w l Hw). by right. }
  split.
  - rewrite erase_at_fmap. by eapply NoDup_erase_at.
  - intros x o Hx Hxo. destruct (H2 x o (Hsub x Hx) Hxo) as [Hoi Hne]. split; [|done].
    rewrite erase_at_fmap. apply (elem_of_erase_at i (WebStateWrapper.web_state_ w)); [done..|].
    split; [done|]. intros ->. by apply (Hno x (Hsub x Hx)).
  - intros x Hx. auto.
Qed.

Lemma wfw_permutation l l' : l ≡ₚ l' -> wf_wrappers l -> wf_wrappers l'.
Proof.
  intros Hp [H1 H2 H3].
  assert (ids l ≡ₚ ids l') as Hpi by (by apply fmap_Permutation).
  split.
  - by rewrite <- Hpi.
  - intros w o Hw. rewrite <- Hp in Hw. rewrite <- Hpi. auto.
  - intros w Hw. rewrite <- Hp in Hw. auto.
Qed.

Lemma elem_of_update (l : list WebStateWrapper.t) (i : nat) w x :
  x ∈ <[i := w]> l -> x = w \/ x ∈ l.
Proof.
  intros [j Hj]%list_elem_of_lookup. apply list_lookup_insert_Some in Hj as [(_ & -> & _)|[_ Hj]];
    [by left | right; by eapply list_elem_of_lookup_2].
Qed.

(** Changing the opener part of a wrapper to a legal one. *)
Lemma wfw_update l i w w' :
  wf_wrappers l -> l !! i = Some w ->
  WebStateWrapper.web_state_ w' = WebStateWrapper.web_state_ w ->
  (forall o, opener_of w' = Some o -> o ∈ ids l /\ o <> WebStateWrapper.web_state_ w') ->
  (WebStateWrapper.should_reset_opener_ w' = true -> opener_of w' = None) ->
  wf_wrappers (<[i := w']> l) /\ ids (<[i := w']> l) = ids l.
Proof.
  intros [H1 H2 H3] Hw Eid Ho Hr.
  assert (ids (<[i := w']> l) = ids l) as Ei.
  { rewrite list_fmap_insert, Eid. apply list_insert_id. by rewrite list_lookup_fmap, Hw. }
  split; [|done]. split.
  - by rewrite Ei.
  - intros x o Hx Hxo. rewrite Ei. apply elem_of_update in Hx as [->|Hx]; eauto.
  - intros x Hx Hxr. apply elem_of_update in Hx as [->|Hx]; eauto.
Qed.

(** Replacing a WebState nobody refers to by a fresh one without opener. *)
Lemma wfw_replace l i w w' :
  wf_wrappers l -> l !! i = Some w ->
  (forall x, x ∈ l -> opener_of x <> Some (WebStateWrapper.web_state_ w)) ->
  WebStateWrapper.web_state_ w' ∉ ids l -> opener_of w' = None ->
  wf_wrappers (<[i := w']> l).
Proof.
  intros Hwf Hw Hno Hn Hnone.
  pose proof (lookup_lt_Some _ _ _ Hw) as Hi.
  assert (<[i := w']> l ≡ₚ insert_at i w' (erase_at i l)) as Hp.
  { rewrite insert_at_Permutation. rewrite (erase_at_Permutation i w' (<[i:=w']> l))
      by (by apply list_lookup_insert_eq). unfold erase_at.
    rewrite take_insert_ge by lia. by rewrite drop_insert_lt by lia. }
  apply (wfw_permutation (insert_at i w' (erase_at i l))); [done|].
  apply wfw_insert; [by eapply wfw_erase | | intros o; by rewrite Hnone | done].
  intros Hin. apply Hn. apply list_elem_of_fmap in Hin as (x & -> & Hx). apply elem_of_ids.
  rewrite (erase_at_Permutation i w l Hw). by right.
Qed.

(** [SetOpener(WebStateOpener())] on some wrappers. *)
Definition clear (p : WebStateWrapper.t -> bool) (l : list WebStateWrapper.t) :
    list WebStateWrapper.t :=
  (fun w => if p w then WebStateWrapper.SetOpener w WebStateOpener.null else w) <$> l.

Lemma ids_clear p l : ids (clear p l) = ids l.
Proof.
  unfold clear. rewrite <- list_fmap_compose. apply list_fmap_ext.
  intros i w _. cbn. by destruct (p w).
Qed.

Lemma elem_of_clear p l x :
  x ∈ clear p l -> opener_of x = None /\ WebStateWrapper.should_reset_opener_ x = false \/
                   x ∈ l /\ p x = false.
Proof.
  unfold clear. intros (w & -> & Hw)%list_elem_of_fmap. destruct (p w) eqn:Hp; [by left | by right].
Qed.

Lemma wfw_clear p l : wf_wrappers l -> wf_wrappers (clear p l).
Proof.
  intros [H1 H2 H3]. split.
  - by rewrite ids_clear.
  - intros w o Hw Ho. rewrite ids_clear.
    apply elem_of_clear in Hw as [[Hn _]|[Hw _]]; [congruence | eauto].
  - intros w Hw Hr. apply elem_of_clear in Hw as [[Hn _]|[Hw _]]; [done | eauto].
Qed.

(** ** The mirror of the notifications *)

Lemma mirror_emit e s : mirror (emit e s) = mirror_effect (mirror s) e.
Proof. unfold mirror. cbn. by rewrite foldl_app. Qed.

Lemma mirror_notify e s : mirror (notify e s) = mirror_event (mirror s) e.
Proof. apply mirror_emit. Qed.

(** What every operation promises: the list is well formed, its WebStates are
    [l] and the active one is [a], the observers that listen know it, and the
    lock and the batch flag are as before. *)
Record post (s : t) (l : list WebStateId) (a : option WebStateId) (s' : t) : Prop := {
  post_inv : inv s';
  post_states : web_states s' = l;
  post_active : active_web_state s' = a;
  post_mirror : mirror s' = mkMirror l a;
  post_locked : locked_ s' = locked_ s;
  post_batch : batch_operation_in_progress_ s' = batch_operation_in_progress_ s
}.

Lemma post_emit s l a s' e :
  post s l a s' -> effect_ok e -> (forall m, mirror_effect m e = m) -> post s l a (emit e s').
Proof.
  intros [] He Hm. split; try done; [by apply inv_emit|]. by rewrite mirror_emit, Hm.
Qed.

Lemma post_notify s l a s' e :
  post s l a s' -> (wf s' -> effect_ok (Notify e (web_states s') (active_index_ s'))) ->
  (forall m, mirror_event m e = m) -> post s l a (notify e s').
Proof. intros Hp He Hm. apply post_emit; [done| |done]. apply He, (post_inv _ _ _ _ Hp). Qed.

Lemma post_trans s l a s' l' a' s'' : post s l a s' -> post s' l' a' s'' -> post s l' a' s''.
Proof. intros [] []. split; try done; congruence. Qed.

Lemma post_flags s s1 l a s' :
  post s1 l a s' -> locked_ s1 = locked_ s ->
  batch_operation_in_progress_ s1 = batch_operation_in_progress_ s -> post s l a s'.
Proof. intros [] ? ?. split; try done; congruence. Qed.

Lemma post_refl s : inv s -> synced s -> post s (web_states s) (active_web_state s) s.
Proof. done. Qed.

(** Only the openers changed, and nobody was told. *)
Record quiet (s s' : t) : Prop := {
  quiet_inv : inv s';
  quiet_states : web_states s' = web_states s;
  quiet_active : active_index_ s' = active_index_ s;
  quiet_locked : locked_ s' = locked_ s;
  quiet_batch : batch_operation_in_progress_ s' = batch_operation_in_progress_ s;
  quiet_log : log s' = log s
}.

Lemma quiet_count s s' : quiet s s' -> count s' = count s.
Proof. intros []. unfold count. by rewrite <- !length_web_states, quiet_states0. Qed.

Lemma quiet_active_web_state s s' : quiet s s' -> active_web_state s' = active_web_state s.
Proof. intros []. unfold active_web_state. congruence. Qed.

Lemma quiet_mirror s s' : quiet s s' -> mirror s' = mirror s.
Proof. intros []. unfold mirror. congruence. Qed.

Lemma quiet_synced s s' : quiet s s' -> synced s -> synced s'.
Proof.
  intros Hq. unfold synced. rewrite (quiet_mirror _ _ Hq), (quiet_active_web_state _ _ Hq).
  by destruct Hq as [_ -> _ _ _ _].
Qed.

Lemma quiet_post s s' : quiet s s' -> synced s -> post s (web_states s) (active_web_state s) s'.
Proof.
  intros Hq Hs. pose proof Hq as []. split; try done; [by apply quiet_active_web_state|].
  by rewrite (quiet_mirror _ _ Hq).
Qed.

Lemma post_quiet s s1 s' l a : quiet s s1 -> post s1 l a s' -> post s l a s'.
Proof. intros [] []. split; try done; congruence. Qed.

Lemma quiet_refl s : inv s -> quiet s s.
Proof. done. Qed.

(** Wrappers with the same WebStates in the same places. *)
Lemma quiet_with_wrappers l s :
  inv s -> wf_wrappers l -> ids l = web_states s -> quiet s (with_wrappers l s).
Proof.
  intros [[_ Ha] Hl] Hw Ei. split; try done. split; [split|done]; [done|].
  unfold valid_index, count in *. cbn. rewrite <- (length_fmap WebStateWrapper.web_state_ l), Ei.
  by rewrite length_web_states.
Qed.

(** ** Specifications of the internal operations *)

Abbreviation inherits flags := (IsInsertionFlagSet flags INSERT_INHERIT_OPENER).
Abbreviation forces flags := (IsInsertionFlagSet flags INSERT_FORCE_INDEX).
Abbreviation activates flags := (IsInsertionFlagSet flags INSERT_ACTIVATE).

Section Specs.
Context `{WebStateEnv}.

(** What [NotifyIfActiveWebStateChanged] does to the outside. *)
Definition activation_effects (s : t) (old : option WebStateId)
    (reason : ActiveWebStateChangeReason) : list Effect :=
  if bool_decide (old = active_web_state s) then []
  else (match active_web_state s with Some ws => [ForceRealized ws] | None => [] end) ++
       [Notify (WebStateActivatedAt old (active_web_state s) (active_index_ s) reason)
          (web_states s) (active_index_ s)].

Lemma wp_NotifyIfActiveWebStateChanged old reason s :
  inv s -> mirror_states (mirror s) = web_states s ->
  (old = active_web_state s -> mirror_active (mirror s) = active_web_state s) ->
  wp (NotifyIfActiveWebStateChanged old reason)
     (fun _ s' => post s (web_states s) (active_web_state s) s' /\ same s s' /\
        log s' = log s ++ activation_effects s old reason) s.
Proof.
  intros Hi Hm Hact. unfold NotifyIfActiveWebStateChanged. apply wp_bind.
  eapply wp_ok; [apply GetActiveWebState_ok, Hi|]. cbv beta. unfold activation_effects.
  case_bool_decide as Ho.
  { wp_next. split_and!; [|done|by rewrite app_nil_r]. split; try done.
    rewrite <- Hm, <- Hact by done. by destruct (mirror s). }
  set (ev := WebStateActivatedAt _ _ _ _).
  assert (forall s', same s s' -> inv s' -> mirror s' = mirror s ->
            post s (web_states s) (active_web_state s) (notify ev s') /\ same s (notify ev s')) as Hfin.
  { intros s' Hs Hi' Hms. pose proof Hs as []. split; [|done]. split; try done.
    - apply inv_notify; [done|]. intros Hwf. split; [by apply valid_active|].
      rewrite (same_web_states s) by done. rewrite same_active0. by split_and!.
    - by apply same_web_states.
    - change (active_web_state s' = active_web_state s). by apply same_active_web_state.
    - rewrite mirror_notify, Hms. cbn. by rewrite Hm. }
  destruct (active_web_state s) as [ws|] eqn:Ea.
  - repeat wp_next. destruct (Hfin (emit (ForceRealized ws) s)); [done|by apply inv_emit|apply mirror_emit|].
    split_and!; [done..|]. cbn. by rewrite <- app_assoc.
  - repeat wp_next. by destruct (Hfin s).
Qed.

(** The opener of every wrapper. *)
Definition openers (s : t) : list (option WebStateId) :=
  (fun w => opener_of w) <$> web_state_wrappers_ s.

Lemma wp_SetOpener_at i o w s :
  inv s -> zlookup (web_state_wrappers_ s) i = Some w ->
  (forall x, WebStateOpener.opener o = Some x ->
     x ∈ web_states s /\ x <> WebStateWrapper.web_state_ w) ->
  wp (SetOpener_at i o)
     (fun _ s' => quiet s s' /\
        openers s' = <[Z.to_nat i := WebStateOpener.opener o]> (openers s)) s.
Proof.
  intros Hi Hw Ho. unfold SetOpener_at. repeat wp_next; [done| |].
  { apply negb_true_iff, bool_decide_eq_false. intros E. symmetry in E.
    by destruct (Ho _ E) as [_ []]. }
  apply zlookup_Some in Hw as [_ Hw].
  destruct (wfw_update (web_state_wrappers_ s) (Z.to_nat i) w (WebStateWrapper.SetOpener w o))
    as [Hwf Ei]; [by apply Hi|done..|]. split; [by apply quiet_with_wrappers|].
  unfold openers. cbn. by rewrite list_fmap_insert.
Qed.

(** Resetting the opener of a wrapper with the flag changes no opener. *)
Lemma wp_reset_opener i w s :
  inv s -> zlookup (web_state_wrappers_ s) i = Some w ->
  WebStateWrapper.should_reset_opener_ w = true ->
  wp (SetOpener_at i WebStateOpener.null) (fun _ s' => quiet s s' /\ openers s' = openers s) s.
Proof.
  intros Hi Hw Hr. eapply wp_conseq; [by apply (wp_SetOpener_at _ _ w)|].
  intros _ s' [Hq ->]. split; [done|]. apply list_insert_id. apply zlookup_Some in Hw as [_ Hw].
  unfold openers. rewrite list_lookup_fmap, Hw. cbn. f_equal.
  destruct Hi as [[[_ _ Hwr] _] _]. eapply Hwr; [|done]. by eapply list_elem_of_lookup_2.
Qed.

Lemma quiet_clear_openers p s : inv s -> quiet s (clear_openers p s).
Proof.
  intros Hi. apply quiet_with_wrappers; [done| |apply ids_clear].
  apply wfw_clear, Hi.
Qed.

Lemma wp_ClearOpenersReferencing i w s :
  inv s -> zlookup (web_state_wrappers_ s) i = Some w ->
  wp (ClearOpenersReferencing i)
     (fun _ s' => quiet s s' /\
        (forall x, x ∈ web_state_wrappers_ s' -> opener_of x <> Some (WebStateWrapper.web_state_ w)))
     s.
Proof.
  intros Hi Hw. unfold ClearOpenersReferencing. repeat wp_next; [done|].
  split; [by apply quiet_clear_openers|]. intros x Hx. apply elem_of_clear in Hx as [[Hn _]|[_ Hp]].
  - by rewrite Hn.
  - by bool_to_prop.
Qed.

Lemma wp_ActivateWebStateAtImpl i reason s :
  inv s -> synced s -> locked_ s = true -> valid_index s i ->
  wp (ActivateWebStateAtImpl i reason)
     (fun _ s' => post s (web_states s) (zlookup (web_states s) i) s' /\ active_index_ s' = i /\
        openers s' = openers s) s.
Proof.
  intros Hi Hs Hl Hv. unfold ActivateWebStateAtImpl. repeat wp_next; [done| |].
  { destruct Hv as [->|Hv]; [apply orb_true_r|]. by rewrite (proj2 (ContainsIndex_spec s i) Hv). }
  apply wp_bind. eapply wp_ok; [apply GetActiveWebStateWrapper_ok, Hi|]. cbv beta.
  apply wp_bind. eapply (wp_conseq _ _ (fun _ s1 => quiet s s1 /\ openers s1 = openers s)).
  { destruct (zlookup _ (active_index_ s)) as [w|] eqn:Ew; [|by wp_next].
    destruct (WebStateWrapper.should_reset_opener_ w) eqn:Er; [|by wp_next].
    by apply (wp_reset_opener _ w). }
  intros [] s1 [Hq Ho]. cbv beta. wp_next.
  assert (inv (with_active i s1)) as Hi1.
  { destruct (quiet_inv _ _ Hq) as [[Hwl _] Hlog]. split; [split|]; [done| |done].
    unfold valid_index in *. cbn. change (count (with_active i s1)) with (count s1).
    by rewrite (quiet_count s s1). }
  eapply wp_conseq; [apply (wp_NotifyIfActiveWebStateChanged _ reason (with_active i s1)); [done|..]|].
  - change (mirror (with_active i s1)) with (mirror s1). rewrite (quiet_mirror s s1) by done.
    rewrite Hs. symmetry. apply Hq.
  - change (mirror (with_active i s1)) with (mirror s1). rewrite (quiet_mirror s s1) by done.
    rewrite Hs. intros <-. unfold active_web_state, web_states. by rewrite zlookup_fmap.
  - intros [] s' [Hp [[Hwr Ha _ _] _]]. split; [|split; [done|]]; [|unfold openers; by rewrite Hwr]. apply (post_quiet s s1); [done|].
    change (active_web_state (with_active i s1)) with (zlookup (web_states s1) i) in Hp.
    change (web_states (with_active i s1)) with (web_states s1) in Hp.
    rewrite (quiet_states s s1) in Hp by done. by destruct Hp.
Qed.

(** Where the WebState at [a] is once the one at [from] was moved to [to]. *)
Definition moved_index (a from to : Z) : Z :=
  if (a =? from)%Z then to
  else if (Z.min from to <=? a)%Z && (a <=? Z.max from to)%Z
  then a + (if (from <? to)%Z then -1 else 1) else a.

Lemma zlookup_move {A} (l : list A) x a from to :
  (0 <= from < Z.of_nat (length l))%Z -> (0 <= to < Z.of_nat (length l))%Z -> from <> to ->
  zlookup l from = Some x ->
  zlookup (insert_at (Z.to_nat to) x (erase_at (Z.to_nat from) l)) (moved_index a from to) =
    zlookup l a.
Proof.
  intros Hf Ht Hne Hx.
  rewrite zlookup_insert_at by (rewrite length_erase_at by lia; lia).
  rewrite !zlookup_erase_at by lia. unfold moved_index.
  destruct (Z.eqb_spec a from) as [->|Ha]; [by rewrite Z.ltb_irrefl, Z.eqb_refl|].
  destruct (Z.leb_spec (Z.min from to) a), (Z.leb_spec a (Z.max from to)),
    (Z.ltb_spec from to); cbn [andb];
  repeat match goal with
  | |- context [(?x <? ?y)%Z] => destruct (Z.ltb_spec x y)
  | |- context [(?x =? ?y)%Z] => destruct (Z.eqb_spec x y)
  end; try lia; f_equal; lia.
Qed.

Lemma moved_index_valid a from to n :
  (0 <= from < n)%Z -> (0 <= to < n)%Z -> from <> to ->
  a = kInvalidIndex \/ (0 <= a < n)%Z ->
  moved_index a from to = kInvalidIndex \/ (0 <= moved_index a from to < n)%Z.
Proof.
  unfold moved_index, kInvalidIndex. intros.
  repeat case_match; bool_to_prop; lia.
Qed.

(** A list rebuilt with other wrappers and another active index. *)
Lemma inv_rebuilt s s' :
  inv s -> wf_wrappers (web_state_wrappers_ s') ->
  active_index_ s' = kInvalidIndex \/
    (0 <= active_index_ s' < Z.of_nat (length (web_states s')))%Z ->
  log s' = log s -> inv s'.
Proof.
  intros [_ Hl] Hw Ha El. split; [split; [done|]|].
  - unfold valid_index, count. by rewrite <- length_web_states.
  - unfold log_ok. by rewrite El.
Qed.

(** Telling the observers of a rebuilt list brings their mirror up to date. *)
Lemma post_notified s s1 l a e :
  inv s1 -> web_states s1 = l -> active_web_state s1 = a ->
  locked_ s1 = locked_ s -> batch_operation_in_progress_ s1 = batch_operation_in_progress_ s ->
  effect_ok (Notify e l (active_index_ s1)) ->
  mirror_event (mirror s1) e = mkMirror l a -> post s l a (notify e s1).
Proof.
  intros Hi El Ea Elk Eb He Em. split; try done.
  - apply inv_notify; [done|]. intros _. by rewrite El.
  - by rewrite mirror_notify.
Qed.

Lemma wp_MoveWebStateAtImpl from to ws s :
  inv s -> synced s -> locked_ s = true ->
  zlookup (web_states s) from = Some ws -> ContainsIndex s to = true ->
  wp (MoveWebStateAtImpl from to)
     (fun _ s' => post s (insert_at (Z.to_nat to) ws (erase_at (Z.to_nat from) (web_states s)))
                       (active_web_state s) s') s.
Proof.
  intros Hi Hs Hl Hws Hto. unfold MoveWebStateAtImpl.
  pose proof Hws as (w & Hw & Ew)%zlookup_web_states.
  assert (ContainsIndex s from = true) as Hfrom by (apply ContainsIndex_lookup; eauto).
  do 4 first [wp_next; [done|] | wp_next]. pose proof Hto as Ht. pose proof Hfrom as Hf.
  rewrite ContainsIndex_spec in Ht, Hf. unfold count in *.
  destruct (Z.eqb_spec from to) as [<-|Hne].
  { wp_next. enough (insert_at (Z.to_nat from) ws (erase_at (Z.to_nat from) (web_states s)) =
                      web_states s) as -> by by apply post_refl.
    apply zlookup_Some in Hws as [_ (l1 & l2 & -> & <-)%split_at].
    by rewrite erase_at_split, insert_at_split. }
  repeat wp_next; [done|].
  set (l := insert_at (Z.to_nat to) w (erase_at (Z.to_nat from) (web_state_wrappers_ s))).
  match goal with |- post _ _ _ (notify _ ?x) =>
    replace x with (with_active (moved_index (active_index_ s) from to) (with_wrappers l s))
      by (unfold moved_index; cbn [active_index_ with_wrappers]; by repeat case_match; destruct s)
  end.
  assert (ids l = insert_at (Z.to_nat to) ws (erase_at (Z.to_nat from) (web_states s))) as El.
  { unfold l, web_states. by rewrite insert_at_fmap, erase_at_fmap, Ew. }
  assert (l ≡ₚ web_state_wrappers_ s) as Hp.
  { unfold l. rewrite insert_at_Permutation. symmetry. apply erase_at_Permutation.
    by apply zlookup_Some in Hw as [_ ?]. }
  rewrite <- !length_web_states in Ht, Hf. apply post_notified; try done.
  - apply (inv_rebuilt s); [done| |cbn|done].
    + eapply wfw_permutation; [symmetry; apply Hp|]. apply Hi.
    + unfold web_states. cbn. rewrite length_fmap, Hp, <- length_web_states.
      apply moved_index_valid; [done..|]. apply valid_active, Hi.
  - unfold active_web_state, web_states. cbn. rewrite El. by apply zlookup_move.
  - cbn. rewrite Ew. split.
    + rewrite length_insert_at; rewrite length_erase_at by lia; [|lia].
      replace (S (length (web_states s) - 1)) with (length (web_states s)) by lia.
      apply moved_index_valid; [done..|]. apply valid_active, Hi.
    + rewrite zlookup_insert_at by (rewrite length_erase_at by lia; lia).
      by rewrite Z.ltb_irrefl, Z.eqb_refl.
  - change (mirror (with_active _ _)) with (mirror s). rewrite Hs. cbn. by rewrite Ew.
Qed.

(** The active index once the WebState at [i] is detached. *)
Definition next_active (s : t) (i : Z) : Z :=
  WebStateListOrderController.new_active_ref s (active_index_ s)
    (WebStateListRemovingIndexes.StorageFromInitializerList [i]).

Lemma removing_one i n :
  (0 <= i < n)%Z ->
  let r := WebStateListRemovingIndexes.StorageFromInitializerList [i] in
  WebStateListRemovingIndexes.wf r /\ WebStateListRemovingIndexes.in_range r n /\
  WebStateListRemovingIndexes.count r = 1%Z.
Proof.
  intros Hi. split_and!; [by repeat constructor| |done].
  intros z Hz. by apply list_elem_of_singleton in Hz as ->.
Qed.

Lemma next_active_valid s i :
  wf s -> (0 <= i < count s)%Z ->
  next_active s i = kInvalidIndex /\
    (active_index_ s = kInvalidIndex \/ count s = 1%Z) \/
  (0 <= next_active s i < count s - 1)%Z /\ active_index_ s <> kInvalidIndex.
Proof.
  intros Hwf Hi. destruct (removing_one i (count s) Hi) as (Hr & Hin & Hc).
  pose proof (wf_active s Hwf) as Ha. unfold next_active.
  destruct (decide (active_index_ s = kInvalidIndex)) as [Ea|Hne].
  { left. unfold WebStateListOrderController.new_active_ref. rewrite Ea. auto. }
  destruct (decide (count s = 1%Z)) as [E1|Hn1].
  { left. unfold WebStateListOrderController.new_active_ref. rewrite Hc, E1.
    rewrite (proj2 (Z.eqb_neq _ _) Hne). auto. }
  right. split; [|done]. rewrite <- Hc. destruct Ha as [?|Ha]; [done|].
  apply WebStateListOrderController.new_active_ref_bounds; [done..|]. by rewrite Hc.
Qed.

(** Detaching another WebState does not change the active one. *)
Lemma next_active_other s i :
  wf s -> (0 <= i < count s)%Z -> active_index_ s <> i ->
  zlookup (erase_at (Z.to_nat i) (web_states s)) (next_active s i) = active_web_state s.
Proof.
  intros Hwf Hi Hne. unfold active_web_state.
  destruct (next_active_valid s i Hwf Hi) as [[-> [->|Hc]]|[Hn Ha]]; [done|..].
  { pose proof (wf_active s Hwf) as [->|?]; [done|lia]. }
  unfold next_active, WebStateListOrderController.new_active_ref in *.
  rewrite (proj2 (Z.eqb_neq _ _) Ha) in *. pose proof (wf_active s Hwf) as [?|Ha2]; [done|].
  replace (WebStateListRemovingIndexes.count _) with 1%Z in * by done.
  destruct (Z.eqb_spec (count s) 1); [lia|].
  cbn [WebStateListOrderController.first_kept] in *.
  change (WebStateListRemovingIndexes.IndexAfterRemoval
            (WebStateListRemovingIndexes.StorageFromInitializerList [i]) (active_index_ s))
    with (if (active_index_ s =? i)%Z then kInvalidIndex
          else if (active_index_ s >? i)%Z then (active_index_ s - 1)%Z else active_index_ s) in *.
  rewrite (proj2 (Z.eqb_neq _ _) Hne) in *. rewrite zlookup_erase_at by lia.
  rewrite Z.gtb_ltb in *. destruct (Z.ltb_spec i (active_index_ s)).
  - rewrite (proj2 (Z.eqb_neq (active_index_ s - 1) kInvalidIndex)) by (unfold kInvalidIndex; lia).
    cbn [negb]. rewrite (proj2 (Z.ltb_ge _ _)) by lia. f_equal. lia.
  - rewrite (proj2 (Z.eqb_neq (active_index_ s) kInvalidIndex)) by done.
    cbn [negb]. by rewrite (proj2 (Z.ltb_lt _ _)) by lia.
Qed.

(** The list without the WebState at [i], when nobody refers to it. *)
Lemma inv_erased s i ws :
  inv s -> zlookup (web_states s) i = Some ws ->
  (forall x, x ∈ web_state_wrappers_ s -> opener_of x <> Some ws) ->
  active_index_ s = kInvalidIndex \/ (0 <= active_index_ s < count s - 1)%Z ->
  let s' := with_wrappers (erase_at (Z.to_nat i) (web_state_wrappers_ s)) s in
  inv s' /\ web_states s' = erase_at (Z.to_nat i) (web_states s) /\ ws ∉ web_states s'.
Proof.
  intros Hi Hws Hno Ha s'. pose proof Hws as (w & Hw & <-)%zlookup_web_states.
  assert (web_states s' = erase_at (Z.to_nat i) (web_states s)) as Es
    by (unfold s', web_states; cbn; by rewrite erase_at_fmap).
  apply zlookup_Some in Hw as [Hi0 Hw]. split_and!; [|done|].
  - apply (inv_rebuilt s); [done| | |done].
    + eapply wfw_erase; [apply Hi|done..].
    + rewrite Es, length_erase_at
        by (rewrite length_web_states; by eapply lookup_lt_Some).
      rewrite length_web_states. cbn. unfold count in Ha. lia.
  - rewrite Es. apply (NoDup_erase_at _ (WebStateWrapper.web_state_ w)); [apply wf_nodup, Hi|].
    by apply zlookup_Some in Hws as [_ ?].
Qed.

(** The WebState that is active once the one at [i] is detached. *)
Definition next_active_web_state (s : t) (i : Z) : option WebStateId :=
  zlookup (erase_at (Z.to_nat i) (web_states s)) (next_active s i).

Lemma inv_with_active s i :
  inv s -> i = kInvalidIndex \/ (0 <= i < count s)%Z -> inv (with_active i s).
Proof. intros [[H1 _] H3] Hv. by split; [split|]. Qed.

(** The end of [DetachWebStateAtImpl], once the WebState left the list. *)
Lemma wp_detach_notifications i ws s sD :
  inv s -> synced s -> zlookup (web_states s) i = Some ws ->
  inv sD -> web_states sD = erase_at (Z.to_nat i) (web_states s) -> ws ∉ web_states sD ->
  active_index_ sD = next_active s i -> mirror sD = mirror s ->
  locked_ sD = locked_ s -> batch_operation_in_progress_ sD = batch_operation_in_progress_ s ->
  wp (mwhen (i =? active_index_ s)%Z (NotifyIfActiveWebStateChanged (Some ws) Closed) ;;;
      mmodify (emit (WebStateDetached ws)) ;;; mreturn ws)
     (fun r s' => r = ws /\
        post s (erase_at (Z.to_nat i) (web_states s)) (next_active_web_state s i) s')
     (notify (WebStateDetachedAt ws i) sD).
Proof.
  intros Hi Hs Hws HiD HsD HnD EaD EmD El Eb.
  assert (active_web_state sD = next_active_web_state s i) as EawD
    by (unfold active_web_state, next_active_web_state; by rewrite HsD, EaD).
  assert (inv (notify (WebStateDetachedAt ws i) sD)) as HiE
    by (apply inv_notify; [done|]; intros; split; [by apply valid_active|done]).
  assert (mirror (notify (WebStateDetachedAt ws i) sD) =
            mkMirror (erase_at (Z.to_nat i) (web_states s)) (active_web_state s)) as EmE
    by (rewrite mirror_notify, EmD, Hs; done).
  apply wp_bind, wp_when; intros Hb; bool_to_prop.
  - eapply wp_conseq; [apply wp_NotifyIfActiveWebStateChanged; [done|..]|].
    + rewrite EmE. by rewrite <- HsD.
    + change (active_web_state (notify _ sD)) with (active_web_state sD). intros E. destruct HnD.
      symmetry in E. by apply zlookup_elem in E.
    + intros [] s' [Hp _]. cbv beta. repeat wp_next. split; [done|]. apply post_emit; [|done..].
      rewrite <- HsD, <- EawD. by apply (post_flags s _ _ _ _ Hp).
  - repeat wp_next. split; [done|]. apply post_emit; [|done..]. rewrite <- HsD, <- EawD.
    split; try done. rewrite EmE, HsD, EawD. f_equal. symmetry. apply next_active_other; [apply Hi| |done].
    rewrite <- ContainsIndex_spec. apply ContainsIndex_lookup.
    apply zlookup_web_states in Hws as (w & Hw & _). eauto.
Qed.

Lemma wp_DetachWebStateAtImpl i ws s :
  inv s -> synced s -> locked_ s = true -> zlookup (web_states s) i = Some ws ->
  wp (DetachWebStateAtImpl i)
     (fun r s' => r = ws /\
        post s (erase_at (Z.to_nat i) (web_states s)) (next_active_web_state s i) s') s.
Proof.
  intros Hi Hs Hl Hws. unfold DetachWebStateAtImpl.
  pose proof Hws as (w & Hw & Ew)%zlookup_web_states.
  assert (ContainsIndex s i = true) as Hc by (apply ContainsIndex_lookup; eauto).
  repeat wp_next; [done..|]. rewrite Ew. pose proof Hc as Hc'. rewrite ContainsIndex_spec in Hc'.
  set (sA := notify _ s).
  assert (inv sA) as HiA by (apply inv_notify; [done|]; intros; split; [by apply valid_active|done]).
  destruct (removing_one i (count s) Hc') as (Hr & Hin & _).
  apply wp_bind. eapply wp_ok.
  { apply WebStateListOrderController.DetermineNewActiveIndex_eq; [done..|]. apply HiA. }
  cbv beta. wp_next. change (WebStateListOrderController.new_active_ref _ _ _) with (next_active s i).
  pose proof (next_active_valid s i (proj1 Hi) Hc') as Hna.
  assert (inv (with_active (next_active s i) sA)) as HiB.
  { apply inv_with_active; [done|]. change (count sA) with (count s).
    destruct Hna as [[-> _]|[? _]]; [by left|right; lia]. }
  wp_call (wp_ClearOpenersReferencing i w); [done..|]. rewrite Ew.
  intros [] sC [Hq Hno]. cbv beta. do 2 wp_next.
  destruct (inv_erased sC i ws) as (HiD & HsD & HnD); [apply Hq| |done| |].
  { by rewrite (quiet_states _ _ Hq). }
  { rewrite (quiet_active _ _ Hq), (quiet_count _ _ Hq). destruct Hna as [[? _]|[? _]]; auto. }
  set (sD := with_wrappers _ sC) in *.
  rewrite (quiet_states _ _ Hq) in HsD. change (web_states (with_active _ _)) with (web_states s) in HsD.
  assert (active_index_ sD = next_active s i) as EaD by apply (quiet_active _ _ Hq).
  assert (mirror sD = mirror s) as EmD
    by (change (mirror sC = mirror s); rewrite (quiet_mirror _ _ Hq); apply mirror_notify).
  wp_next.
  { destruct HiD as [[_ [->|Hv]] _]; [done|].
    rewrite (proj2 (ContainsIndex_spec _ _) Hv). apply orb_true_r. }
  wp_next. apply wp_detach_notifications; try done.
  - apply (quiet_locked _ _ Hq).
  - apply (quiet_batch _ _ Hq).
Qed.

Lemma wp_CloseWebStateAtImpl i ws flags s :
  inv s -> synced s -> locked_ s = true -> zlookup (web_states s) i = Some ws ->
  wp (CloseWebStateAtImpl i flags)
     (fun _ s' => post s (erase_at (Z.to_nat i) (web_states s)) (next_active_web_state s i) s') s.
Proof.
  intros Hi Hs Hl Hws. unfold CloseWebStateAtImpl. do 2 wp_next; [done|].
  wp_call (wp_DetachWebStateAtImpl i ws); [done..|]. intros r s' [-> Hp]. cbv beta. repeat wp_next.
  apply post_emit; [|done..]. apply post_notify; [done| |done]. intros Hwf.
  split; [by apply valid_active|]. rewrite (post_states _ _ _ _ Hp).
  apply (NoDup_erase_at _ ws); [apply wf_nodup, Hi|]. by apply zlookup_Some in Hws as [_ ?].
Qed.

(** The loop of [CloseAllWebStatesImpl] ends with an empty list. *)
Lemma wp_close_loop fuel flags s :
  length (web_state_wrappers_ s) < fuel -> inv s -> synced s -> locked_ s = true ->
  wp (close_loop fuel flags) (fun _ s' => post s [] None s') s.
Proof.
  revert s. induction fuel as [| fuel IH]; intros s Hf Hi Hs Hl; [lia|].
  cbn [close_loop]. wp_next. unfold empty, count. destruct (web_state_wrappers_ s) as [|w l] eqn:El.
  { wp_next. pose proof (post_refl s Hi Hs) as Hp.
    assert (web_states s = []) as Es by (unfold web_states; by rewrite El).
    assert (active_web_state s = None) as Ea
      by (unfold active_web_state; rewrite Es; by unfold zlookup; destruct (0 <=? _)%Z).
    by rewrite Es, Ea in Hp. }
  rewrite <- El in *.
  assert (is_Some (zlookup (web_states s) (Z.of_nat (length (web_state_wrappers_ s)) - 1))) as [ws Hws].
  { apply zlookup_lt_is_Some. rewrite length_web_states, El. cbn. lia. }
  wp_call (fun i => wp_CloseWebStateAtImpl i ws flags); [done..|]. intros [] s1 Hp. cbv beta.
  pose proof (post_states _ _ _ _ Hp) as Es1.
  eapply wp_conseq; [apply IH|].
  - rewrite <- length_web_states, Es1, length_erase_at.
    + rewrite length_web_states, El in *. cbn in *. lia.
    + rewrite length_web_states, El. cbn. lia.
  - apply Hp.
  - unfold synced. by destruct Hp as [_ -> -> -> _ _].
  - by rewrite (post_locked _ _ _ _ Hp).
  - intros [] s' Hp'. by eapply post_trans.
Qed.

Lemma post_synced s l a s' : post s l a s' -> synced s'.
Proof. intros []. unfold synced. by rewrite post_states0, post_active0. Qed.

(** A batch: the observers hear its two ends, around the operation. *)
Lemma wp_PerformBatchOperation op (R : t -> Prop) s :
  inv s -> synced s -> batch_operation_in_progress_ s = false ->
  let s1 := notify WillBeginBatchOperation (with_batch true s) in
  (inv s1 -> synced s1 ->
   wp op (fun _ s' => post s1 (web_states s') (active_web_state s') s' /\ R s') s1) ->
  wp (PerformBatchOperation (Some op))
     (fun _ s' => exists s2, post s (web_states s2) (active_web_state s2) s' /\ R s2) s.
Proof.
  intros Hi Hs Hb s1 Hop. unfold PerformBatchOperation. do 2 wp_next; [by rewrite Hb|]. do 2 wp_next.
  change (notify _ _) with s1. apply wp_bind. eapply wp_conseq; [apply Hop|].
  - apply inv_notify; [by apply (inv_flags s)|]. intros Hwf. split; [by apply valid_active|done].
  - unfold synced, s1. by rewrite mirror_notify.
  - intros [] s2 [Hp HR]. cbv beta. repeat wp_next. exists s2. split; [|done].
    assert (post s1 (web_states s2) (active_web_state s2) (notify BatchOperationEnded s2)) as [].
    { apply post_notify; [done| |done]. intros Hwf. split; [by apply valid_active|done]. }
    split; try done. by apply (inv_flags (notify BatchOperationEnded s2)).
Qed.

Lemma post_self s l a s' : post s l a s' -> post s (web_states s') (active_web_state s') s'.
Proof. intros Hp. by rewrite (post_states _ _ _ _ Hp), (post_active _ _ _ _ Hp). Qed.

Lemma wp_CloseAllWebStatesImpl flags s :
  inv s -> synced s -> locked_ s = true -> batch_operation_in_progress_ s = false ->
  wp (CloseAllWebStatesImpl flags) (fun _ s' => post s [] None s') s.
Proof.
  intros Hi Hs Hl Hb. unfold CloseAllWebStatesImpl. do 2 wp_next; [done|].
  eapply wp_conseq; [apply (wp_PerformBatchOperation _ (fun s2 => web_states s2 = [] /\
    active_web_state s2 = None)); [done..|]|]; [|by intros [] s' (s2 & Hp & E1 & E2); rewrite E1, E2 in Hp].
  intros Hi1 Hs1. set (s1 := notify _ _) in *.
  wp_call wp_ActivateWebStateAtImpl; [done..|by left|]. intros [] s2 [Hp _]. cbv beta. wp_next.
  eapply wp_conseq; [apply wp_close_loop; [lia|apply Hp|by eapply post_synced|]|].
  - by rewrite (post_locked _ _ _ _ Hp).
  - intros [] s' Hp'. split; [|by destruct Hp']. eapply post_trans; [done|]. by eapply post_self.
Qed.

Lemma not_elem_of_replaced (l : list WebStateId) (i : Z) new old :
  NoDup l -> zlookup l i = Some old -> new ∉ l -> old ∉ <[Z.to_nat i := new]> l.
Proof.
  intros Hnd Hold Hn [j Hj]%list_elem_of_lookup. rewrite <- zlookup_of_nat in Hj.
  rewrite zlookup_insert in Hj by (apply zlookup_lt_is_Some; eauto).
  destruct (Z.eqb_spec (Z.of_nat j) i) as [|Hne].
  - injection Hj as ->. apply Hn. by eapply zlookup_elem.
  - apply Hne. by eapply zlookup_inj.
Qed.

(** The end of [ReplaceWebStateAtImpl]: the activation is announced even when
    another WebState is active. *)
Lemma wp_replace_notifications i new old s sD :
  inv s -> synced s -> zlookup (web_states s) i = Some old -> new ∉ web_states s ->
  inv sD -> web_states sD = <[Z.to_nat i := new]> (web_states s) ->
  active_index_ sD = active_index_ s -> mirror sD = mirror s ->
  locked_ sD = locked_ s -> batch_operation_in_progress_ sD = batch_operation_in_progress_ s ->
  wp (mmodify (notify (WebStateReplacedAt old new i)) ;;;
      NotifyIfActiveWebStateChanged (Some old) Replaced ;;;
      mmodify (emit (WebStateDetached old)) ;;; mreturn old)
     (fun r s' => r = old /\
        post s (<[Z.to_nat i := new]> (web_states s))
               (zlookup (<[Z.to_nat i := new]> (web_states s)) (active_index_ s)) s' /\
        log s' = log sD ++ Notify (WebStateReplacedAt old new i) (web_states sD) (active_index_ sD) ::
                 activation_effects sD (Some old) Replaced ++ [WebStateDetached old]) sD.
Proof.
  intros Hi Hs Hold Hn HiD EsD EaD EmD El Eb. wp_next.
  assert (0 <= i < Z.of_nat (length (web_states s)))%Z as Hr
    by (apply zlookup_lt_is_Some; eauto).
  assert (old ∉ web_states sD) as Ho
    by (rewrite EsD; by apply not_elem_of_replaced; [apply wf_nodup, Hi|..]).
  set (sE := notify _ sD).
  assert (inv sE) as HiE.
  { apply inv_notify; [done|]. intros. split; [by apply valid_active|]. split; [|done].
    by rewrite EsD, zlookup_insert, Z.eqb_refl by done. }
  wp_call (wp_NotifyIfActiveWebStateChanged (Some old) Replaced sE); [done|..].
  - unfold sE. rewrite mirror_notify, EmD, Hs. cbn. by rewrite <- EsD.
  - change (active_web_state sE) with (active_web_state sD). intros E. destruct Ho.
    symmetry in E. by apply zlookup_elem in E.
  - intros [] s' (Hp & _ & Hlog). cbv beta. repeat wp_next. split_and!; [done| |].
    + apply post_emit; [|done..]. rewrite <- EsD, <- EaD. by apply (post_flags s _ _ _ _ Hp).
    + cbn. rewrite Hlog. cbn. by rewrite <- !app_assoc.
Qed.

(** All a replacement does to the outside. *)
Definition replace_effects (s : t) (i : Z) (new old : WebStateId) : list Effect :=
  let l := <[Z.to_nat i := new]> (web_states s) in
  let active := zlookup l (active_index_ s) in
  [WillAddWebState new; Notify (WebStateReplacedAt old new i) l (active_index_ s)] ++
  (match active with Some ws => [ForceRealized ws] | None => [] end) ++
  [Notify (WebStateActivatedAt (Some old) active (active_index_ s) Replaced) l (active_index_ s);
   WebStateDetached old].

Lemma replaced_effects i new old s sD :
  web_states sD = <[Z.to_nat i := new]> (web_states s) -> active_index_ sD = active_index_ s ->
  old ∉ web_states sD ->
  (log s ++ [WillAddWebState new]) ++
    Notify (WebStateReplacedAt old new i) (web_states sD) (active_index_ sD) ::
    activation_effects sD (Some old) Replaced ++ [WebStateDetached old] =
  log s ++ replace_effects s i new old.
Proof.
  intros EsD EaD Ho. unfold activation_effects, replace_effects. rewrite <- EsD, <- EaD.
  rewrite bool_decide_eq_false_2 by (intros E; symmetry in E; by apply zlookup_elem in E).
  unfold active_web_state. rewrite <- app_assoc. cbn. by destruct (zlookup _ _).
Qed.

Lemma wp_ReplaceWebStateAtImpl i new old s :
  inv s -> synced s -> locked_ s = true -> zlookup (web_states s) i = Some old ->
  new ∉ web_states s ->
  wp (ReplaceWebStateAtImpl i new)
     (fun r s' => r = old /\
        post s (<[Z.to_nat i := new]> (web_states s))
               (zlookup (<[Z.to_nat i := new]> (web_states s)) (active_index_ s)) s' /\
        log s' = log s ++ replace_effects s i new old) s.
Proof.
  intros Hi Hs Hl Hold Hn. unfold ReplaceWebStateAtImpl.
  pose proof Hold as (w & Hw & Ew)%zlookup_web_states.
  assert (ContainsIndex s i = true) as Hc by (apply ContainsIndex_lookup; eauto).
  do 2 wp_next; [done|]. wp_next; [done|]. wp_next.
  assert (inv (emit (WillAddWebState new) s)) as Hi0 by by apply inv_emit.
  wp_call (wp_ClearOpenersReferencing i w); [done..|]. rewrite Ew.
  intros [] sC [Hq Hno]. cbv beta. wp_next.
  assert (web_states sC = web_states s) as EsC by apply (quiet_states _ _ Hq).
  rewrite <- EsC in Hold. destruct (zlookup_web_states _ _ _ Hold) as (w' & Hw' & Ew').
  wp_next; [done|]. rewrite Ew'. wp_next.
  { apply negb_true_iff, bool_decide_eq_false. intros ->. apply Hn. rewrite <- EsC. by eapply zlookup_elem. }
  set (w2 := WebStateWrapper.ReplaceWebState w' new). wp_next.
  set (sD := with_wrappers (<[_:=w2]> _) sC).
  assert (web_states sD = <[Z.to_nat i := new]> (web_states s)) as EsD
    by (rewrite <- EsC; unfold web_states, sD; cbn; by rewrite list_fmap_insert).
  pose proof Hw' as [Hi0' Hw2]%zlookup_Some.
  assert (inv sD) as HiD.
  { apply (inv_rebuilt sC); [apply Hq| | |done].
    - eapply wfw_replace; [apply Hq|done| |by change (new ∉ web_states sC); rewrite EsC|done]. by rewrite Ew'.
    - rewrite EsD, length_insert, <- EsC. apply (valid_active sC), Hq. }
  assert (log sD = log s ++ [WillAddWebState new]) as ElD by apply (quiet_log _ _ Hq).
  assert (active_index_ sD = active_index_ s) as EaD by apply Hq.
  eapply wp_conseq; [apply (wp_replace_notifications i new old s sD); try done|].
  - by rewrite EsC in Hold.
  - unfold sD. change (mirror sC = mirror s). rewrite (quiet_mirror _ _ Hq). apply mirror_emit.
  - apply (quiet_locked _ _ Hq).
  - apply (quiet_batch _ _ Hq).
  - intros r s' (-> & Hp & Hlog). split_and!; [done..|]. rewrite Hlog, ElD.
    apply replaced_effects; [done..|]. rewrite EsD. rewrite EsC in Hold.
    by apply not_elem_of_replaced; [apply wf_nodup, Hi|..].
Qed.

(** ** Insertion *)

(** The opener the inserted WebState gets, and the index it gets. *)
Definition insertion_opener (s : t) (flags : Z) (opener : WebStateOpener.t) : option WebStateId :=
  if inherits flags then active_web_state s else WebStateOpener.opener opener.

Definition insertion_index (s : t) (index flags : Z) (opener : WebStateOpener.t) : Z :=
  if forces flags then index
  else if inherits flags then
    if (active_index_ s =? kInvalidIndex)%Z then count s else active_index_ s + 1
  else
    match WebStateOpener.opener opener with
    | None => count s
    | Some o =>
        let i := GetIndexOfWebState s (Some o) in
        default i (last (WebStateListOrderController.children_of s o true i)) + 1
    end.

(** The arguments [InsertWebState] documents as legal. *)
Record legal_insert (s : t) (index : Z) (ws : WebStateId) (flags : Z)
    (opener : WebStateOpener.t) : Prop := {
  li_fresh : ws ∉ web_states s;
  li_count : (count s < INT_MAX)%Z;
  li_index : forces flags = true -> (0 <= index <= count s)%Z;
  li_opener : forall o, inherits flags = false -> WebStateOpener.opener opener = Some o ->
    o ∈ web_states s
}.

(** The openers left by the first statement of [InsertWebStateImpl]. *)
Definition openers_before_insert (s : t) (flags : Z) : list (option WebStateId) :=
  if inherits flags then (fun _ => None) <$> openers s else openers s.

Lemma wp_insert_opener flags opener s :
  inv s ->
  wp (if inherits flags then
        mmodify (clear_openers (fun _ => true)) ;;;
        let! active := GetActiveWebState in
        mreturn (WebStateOpener.from_web_state active)
      else mreturn opener)
     (fun o s1 => quiet s s1 /\ WebStateOpener.opener o = insertion_opener s flags opener /\
        openers s1 = openers_before_insert s flags /\
        (inherits flags = false -> s1 = s)) s.
Proof.
  intros Hi. unfold insertion_opener, openers_before_insert. destruct (inherits flags); [|by wp_next].
  wp_next. pose proof (quiet_clear_openers (fun _ => true) s Hi) as Hq.
  apply wp_bind. eapply wp_ok; [apply GetActiveWebState_ok, Hq|]. wp_next. split_and!; [done| | |done].
  - by apply quiet_active_web_state.
  - unfold openers, clear_openers. cbn. by rewrite <- !list_fmap_compose.
Qed.

Lemma children_of_no_openers s o i :
  (forall x, x ∈ openers s -> x = None) -> WebStateListOrderController.children_of s o true i = [].
Proof.
  intros Hn. apply filter_none. intros k _. unfold WebStateListOrderController.opened.
  destruct (zlookup _ k) as [w|] eqn:Hw; [|done]. unfold WebStateWrapper.WasOpenedBy.
  rewrite (Hn (opener_of w)); [done|]. apply zlookup_elem in Hw.
  by apply (list_elem_of_fmap_2 (fun w => opener_of w)).
Qed.

Lemma no_openers_inherit s flags x :
  inherits flags = true -> x ∈ openers_before_insert s flags -> x = None.
Proof.
  unfold openers_before_insert. intros ->. by intros (? & -> & _)%list_elem_of_fmap.
Qed.

(** The check of [DetermineInsertionIndex]'s result never changes it. *)
Lemma clamp_noop i n :
  (0 <= i <= n)%Z -> (if (i <? 0)%Z || (n <? i)%Z then n else i) = i.
Proof. intros Hi. by rewrite (proj2 (Z.ltb_ge i 0)), (proj2 (Z.ltb_ge n i)) by lia. Qed.

Lemma insertion_child_range s o i :
  (0 <= i < count s)%Z ->
  (0 <= default i (last (WebStateListOrderController.children_of s o true i)) < count s)%Z.
Proof.
  intros Hi. destruct (last _) as [c|] eqn:Ec; [|done]. cbn.
  apply (WebStateListOrderController.children_of_range s o true i c); [done|].
  apply last_Some in Ec as [l ->]. apply elem_of_app. right. by left.
Qed.

Lemma wp_insert_index index flags opener o s s1 :
  inv s -> quiet s s1 -> (count s < INT_MAX)%Z ->
  WebStateOpener.opener o = insertion_opener s flags opener ->
  openers s1 = openers_before_insert s flags -> (inherits flags = false -> s1 = s) ->
  (forall x, insertion_opener s flags opener = Some x -> x ∈ web_states s) ->
  wp (if negb (forces flags) then
        let! index := WebStateListOrderController.DetermineInsertionIndex (WebStateOpener.opener o) in
        let! s := mget in
        mreturn (if (index <? 0)%Z || (count s <? index)%Z then count s else index)
      else mreturn index)
     (fun i s2 => s2 = s1 /\ i = insertion_index s index flags opener /\
        (forces flags = false -> (0 <= i <= count s)%Z)) s1.
Proof.
  intros Hi Hq Hc -> Eo Hs1 Hin. unfold insertion_index. destruct (forces flags); cbn [negb]; [by wp_next|].
  pose proof (quiet_count s s1 Hq) as Ec. pose proof (quiet_states s s1 Hq) as Es.
  destruct (insertion_opener s flags opener) as [x|] eqn:Ex.
  - destruct (GetIndexOfWebState_elem s x) as [Hr Hx]; [apply wf_nodup, Hi|by apply Hin|].
    set (k := GetIndexOfWebState s (Some x)) in *.
    apply wp_bind. eapply wp_ok.
    { apply (WebStateListOrderController.DetermineInsertionIndex_ok s1 x k);
        [by rewrite Es; apply wf_nodup, Hi|lia|by rewrite Es]. }
    cbv beta. wp_next. wp_next.
    pose proof (insertion_child_range s1 x k ltac:(lia)) as Hch. rewrite Ec in *.
    rewrite clamp_noop by lia. split_and!; [done| |lia].
    unfold insertion_opener in Ex. destruct (inherits flags) eqn:Ef.
    + rewrite children_of_no_openers by (by rewrite Eo; intros y; apply no_openers_inherit). cbn.
      apply active_web_state_inj in Hx; [|apply Hi]. apply Hx in Ex. rewrite Ex.
      rewrite (proj2 (Z.eqb_neq k kInvalidIndex)) by (unfold kInvalidIndex; lia). done.
    + rewrite Hs1, Ex by done. done.
  - apply wp_bind. eapply wp_ok; [done|]. cbv beta. do 2 wp_next. rewrite Ec, clamp_noop by (unfold count; lia).
    split_and!; [done| |unfold count; lia]. unfold insertion_opener in Ex.
    destruct (inherits flags); [|by rewrite Ex].
    destruct (wf_active s (proj1 Hi)) as [->|Hv]; [done|].
    unfold active_web_state in Ex. unfold count in Hv. rewrite <- length_web_states in Hv.
    apply zlookup_lt_is_Some in Hv as [? Hv]. congruence.
Qed.

(** The list once the wrapper is in place, before the observers know. *)
Definition inserted (s : t) (i : Z) (ws : WebStateId) (reset : bool) : t :=
  with_wrappers (insert_at (Z.to_nat i) (WebStateWrapper.mk ws WebStateOpener.null reset)
                   (web_state_wrappers_ s))
    (with_active (if (active_index_ s >=? i)%Z then active_index_ s + 1 else active_index_ s)
       (emit (WillAddWebState ws) s)).

Lemma bumped_index a i n :
  (0 <= i <= n)%Z -> a = kInvalidIndex \/ (0 <= a < n)%Z ->
  let a' := (if (a >=? i)%Z then a + 1 else a)%Z in
  a' = kInvalidIndex \/ (0 <= a' < n + 1)%Z.
Proof. unfold kInvalidIndex. cbn. rewrite Z.geb_leb. case_match; bool_to_prop; lia. Qed.

Lemma zlookup_bumped {A} (l : list A) x a i :
  (0 <= i <= Z.of_nat (length l))%Z ->
  zlookup (insert_at (Z.to_nat i) x l) (if (a >=? i)%Z then a + 1 else a)%Z = zlookup l a.
Proof.
  intros Hi. rewrite Z.geb_leb, zlookup_insert_at by done. destruct (Z.leb_spec i a).
  - rewrite (proj2 (Z.ltb_ge _ _)), (proj2 (Z.eqb_neq _ _)) by lia. f_equal. lia.
  - by rewrite (proj2 (Z.ltb_lt _ _)).
Qed.

Lemma post_inserted s i ws reset activating :
  inv s -> synced s -> ws ∉ web_states s -> (0 <= i <= count s)%Z ->
  let s' := notify (WebStateInsertedAt ws i activating) (inserted s i ws reset) in
  post s (insert_at (Z.to_nat i) ws (web_states s)) (active_web_state s) s' /\
  openers s' = insert_at (Z.to_nat i) None (openers s).
Proof.
  intros Hi Hs Hn Hr s'. split; [|unfold openers; cbn; by rewrite insert_at_fmap].
  unfold count in Hr. pose proof Hr as Hr'. rewrite <- length_web_states in Hr'.
  assert (web_states (inserted s i ws reset) = insert_at (Z.to_nat i) ws (web_states s)) as Es
    by (unfold web_states; cbn; by rewrite insert_at_fmap).
  assert (Z.of_nat (length (web_states (inserted s i ws reset))) =
          Z.of_nat (length (web_states s)) + 1)%Z as El by (rewrite Es, length_insert_at by lia; lia).
  assert (active_index_ (inserted s i ws reset) = kInvalidIndex \/
          0 <= active_index_ (inserted s i ws reset) <
            Z.of_nat (length (web_states (inserted s i ws reset))))%Z as Ha.
  { rewrite El. apply bumped_index; [done|]. by apply valid_active, Hi. }
  apply post_notified; try done.
  - apply (inv_rebuilt (emit (WillAddWebState ws) s)); [by apply inv_emit| |done|done].
    apply wfw_insert; [apply Hi|done..].
  - unfold active_web_state. rewrite Es. cbn. by apply zlookup_bumped.
  - split; [by rewrite <- Es|]. rewrite zlookup_insert_at by done.
    by rewrite Z.ltb_irrefl, Z.eqb_refl.
  - change (mirror (inserted s i ws reset)) with (mirror (emit (WillAddWebState ws) s)).
    rewrite mirror_emit, Hs. done.
Qed.

Lemma inserted_reset s i ws :
  (0 <= i <= count s)%Z ->
  zlookup (web_state_wrappers_ (inserted s i ws false)) i = Some (WebStateWrapper.create ws) /\
  with_wrappers (<[Z.to_nat i := WebStateWrapper.SetShouldResetOpenerOnActiveWebStateChange
                      (WebStateWrapper.create ws) true]> (web_state_wrappers_ (inserted s i ws false)))
    (inserted s i ws false) = inserted s i ws true.
Proof.
  unfold count. intros Hi. cbn. split.
  - rewrite zlookup_insert_at by done. by rewrite Z.ltb_irrefl, Z.eqb_refl.
  - unfold inserted. rewrite insert_insert_at by lia. done.
Qed.

(** The end of [InsertWebStateImpl]: the opener, then the activation. *)
Lemma wp_insert_tail (i : Z) ws opener (activating : bool) l a s :
  inv s -> post s l a s -> locked_ s = true -> zlookup l i = Some ws ->
  (forall o, WebStateOpener.opener opener = Some o -> o ∈ l /\ o <> ws) ->
  zlookup (openers s) i = Some None ->
  wp (mwhen (bool_decide (is_Some (WebStateOpener.opener opener))) (SetOpenerOfWebStateAt i opener) ;;;
      mwhen activating (ActivateWebStateAtImpl i Inserted) ;;;
      mreturn i)
     (fun r s' => r = i /\ post s l (if activating then Some ws else a) s' /\
        openers s' = <[Z.to_nat i := WebStateOpener.opener opener]> (openers s)) s.
Proof.
  intros Hi Hp Hl Hws Ho Hnone. pose proof (post_states _ _ _ _ Hp) as El.
  assert (zlookup (web_states s) i = Some ws) as Hws' by by rewrite El.
  pose proof Hws' as (w & Hw & Ew)%zlookup_web_states.
  apply wp_bind. eapply (wp_conseq _ _ (fun _ s1 => quiet s s1 /\
    openers s1 = <[Z.to_nat i := WebStateOpener.opener opener]> (openers s))).
  { apply wp_when; intros Hb; bool_to_prop.
    - destruct Hb as [o Eo]. destruct (Ho o Eo) as [Hin Hne]. unfold SetOpenerOfWebStateAt.
      do 2 wp_next; [apply ContainsIndex_lookup; eauto|]. wp_next.
      { rewrite Eo. apply ContainsIndex_spec. apply GetIndexOfWebState_elem; [apply wf_nodup, Hi|by rewrite El]. }
      apply (wp_SetOpener_at _ _ w); [done..|]. intros x Ex. rewrite Ew, El. by apply Ho.
    - split; [done|]. symmetry. apply list_insert_id.
      apply zlookup_Some in Hnone as [_ Hnone]. rewrite Hnone. f_equal.
      by destruct (WebStateOpener.opener opener); [destruct Hb; eauto|]. }
  intros [] s1 [Hq Eop]. cbv beta.
  assert (synced s) as Hs by by eapply post_synced.
  pose proof (quiet_post s s1 Hq Hs) as Hp1. apply wp_bind, wp_when; intros ->.
  - eapply wp_conseq; [apply wp_ActivateWebStateAtImpl; [apply Hq|by eapply quiet_synced| |]|].
    + by rewrite (quiet_locked _ _ Hq).
    + right. rewrite (quiet_count _ _ Hq). apply ContainsIndex_spec, ContainsIndex_lookup. eauto.
    + intros [] s' (Hp2 & _ & Eop2). cbv beta. wp_next. split_and!; [done| |by rewrite Eop2].
      rewrite (quiet_states _ _ Hq), Hws', El in Hp2. by apply (post_quiet s s1).
  - wp_next. split_and!; [done| |done]. by rewrite <- El, <- (post_active _ _ _ _ Hp).
Qed.

(** The statements that put the wrapper in place. *)
Lemma wp_insert_wrapper {A} (i : Z) ws (reset activating : bool) (k : M t A) Q s :
  (0 <= i <= count s)%Z ->
  wp k Q (notify (WebStateInsertedAt ws i activating) (inserted s i ws reset)) ->
  wp (mmodify (emit (WillAddWebState ws)) ;;;
      mmodify (fun s => with_wrappers
        (insert_at (Z.to_nat i) (WebStateWrapper.create ws) (web_state_wrappers_ s)) s) ;;;
      mmodify (fun s => if (active_index_ s >=? i)%Z then with_active (active_index_ s + 1) s else s) ;;;
      mwhen reset
        (let! s := mget in
         let! w := of_option (zlookup (web_state_wrappers_ s) i) in
         mmodify (with_wrappers
           (<[Z.to_nat i := WebStateWrapper.SetShouldResetOpenerOnActiveWebStateChange w true]>
              (web_state_wrappers_ s)))) ;;;
      mmodify (notify (WebStateInsertedAt ws i activating)) ;;; k) Q s.
Proof.
  intros Hi Hk. do 3 wp_next. match goal with |- wp _ _ ?x =>
    replace x with (inserted s i ws false)
      by (unfold inserted; cbn [active_index_ with_wrappers emit]; by destruct (_ >=? _)%Z) end.
  apply wp_bind. eapply (wp_conseq _ _ (fun _ s2 => s2 = inserted s i ws reset)).
  - apply wp_when; intros ->; [|done]. wp_next.
    destruct (inserted_reset s i ws Hi) as [Hz He]. wp_next; [exact Hz|]. by wp_next.
  - intros [] s2 ->. cbv beta. by wp_next.
Qed.

Lemma wp_InsertWebStateImpl index ws flags opener s :
  inv s -> synced s -> locked_ s = true -> legal_insert s index ws flags opener ->
  let i := insertion_index s index flags opener in
  wp (InsertWebStateImpl index ws flags opener)
     (fun r s' => r = i /\ (0 <= i <= count s)%Z /\
        post s (insert_at (Z.to_nat i) ws (web_states s))
               (if activates flags then Some ws else active_web_state s) s' /\
        openers s' = insert_at (Z.to_nat i) (insertion_opener s flags opener)
                       (openers_before_insert s flags)) s.
Proof.
  intros Hi Hs Hl [Hn Hc Hidx Hop] i. unfold InsertWebStateImpl. do 2 wp_next; [done|].
  wp_call wp_insert_opener; [done|]. intros o s1 (Hq & Eo & Eop & Hs1). cbv beta.
  assert (forall x, insertion_opener s flags opener = Some x -> x ∈ web_states s) as Hin.
  { unfold insertion_opener. intros x. destruct (inherits flags) eqn:Ef; [|by apply Hop].
    apply zlookup_elem. }
  wp_call (wp_insert_index index flags opener o s s1); [done..|].
  intros r s2 (-> & -> & Hr). cbv beta. fold i in Hr |- *.
  assert (0 <= i <= count s)%Z as Hir.
  { destruct (forces flags) eqn:Ef; [|by apply Hr]. unfold i, insertion_index. rewrite Ef. by apply Hidx. }
  clear Hr. wp_next. wp_next.
  { rewrite <- (quiet_count _ _ Hq) in Hir.
    destruct (decide (i = count s1)) as [->|]; [rewrite Z.eqb_refl; apply orb_true_r|].
    apply orb_true_iff. left. apply ContainsIndex_spec. lia. }
  assert (0 <= i <= count s1)%Z as Hir1 by by rewrite (quiet_count _ _ Hq).
  apply wp_insert_wrapper; [done|].
  assert (synced s1) as Hsy by by eapply quiet_synced.
  destruct (post_inserted s1 i ws (inherits flags) (activates flags)) as [HpD HoD];
    [apply Hq|done|by rewrite (quiet_states _ _ Hq)|done|]. cbv zeta in HpD, HoD.
  rewrite (quiet_states _ _ Hq), (quiet_active_web_state _ _ Hq) in HpD.
  assert (i <= Z.of_nat (length (web_states s)))%Z as Hlen by (rewrite length_web_states; apply Hir).
  assert (Z.to_nat i <= length (openers s1)) as Hlo
    by (unfold openers, count in *; rewrite length_fmap; lia).
  eapply wp_conseq; [eapply wp_insert_tail|].
  - apply HpD.
  - by apply (post_flags _ _ _ _ _ HpD).
  - rewrite (post_locked _ _ _ _ HpD). by rewrite (quiet_locked _ _ Hq).
  - rewrite zlookup_insert_at by lia. by rewrite Z.ltb_irrefl, Z.eqb_refl.
  - rewrite Eo. intros x Hx. specialize (Hin x Hx). split; [|by intros ->].
    apply elem_of_insert_at. by right.
  - rewrite HoD, zlookup_insert_at by lia. by rewrite Z.ltb_irrefl, Z.eqb_refl.
  - intros r s' (-> & Hp & HoF). do 2 (split; [done|]). split.
    + apply (post_flags _ _ _ _ _ Hp); rewrite ?(post_locked _ _ _ _ HpD), ?(post_batch _ _ _ _ HpD);
        apply Hq.
    + by rewrite HoF, HoD, insert_insert_at, Eo, Eop.
Qed.

End Specs.

End WebStateListProofs.
