(* ===== verification/WebStateListTheorems.v ===== *)
(** * WebStateList: the theorems

    A client of the list makes public calls ([Call]), possibly grouped in
    batches. Every legal call returns without a DCHECK or CHECK failing, keeps
    the invariant and the observers informed, and does to the list what it does
    to an abstract tab strip. *)

From stdpp Require Import base tactics option list numbers strings gmap relations.
From Stdlib Require Import ZArith Lia.
From S2P Require Import Prelude RemovingIndexes WebStateListModel OrderController.
From S2P Require Import WebStateListOps WebStateListProofs.

Module WebStateListTheorems.
Import WebStateList WebStateListOps WebStateListProofs.

Section Calls.
Context `{WebStateEnv}.

(** ** The public calls *)

Inductive Call : Type :=
| Insert (index : Z) (web_state : WebStateId) (flags : Z) (opener : WebStateOpener.t)
| Move (from_index to_index : Z)
| Replace (index : Z) (web_state : WebStateId)
| Detach (index : Z)
| Close (index close_flags : Z)
| CloseAll (close_flags : Z)
| Activate (index : Z)
| SetOpener (index : Z) (opener : WebStateOpener.t)
| Batch (calls : list Call).

(** [list.Call(...);], the result dropped. *)
Fixpoint exec (c : Call) : M t unit :=
  match c with
  | Insert index ws flags opener => let! _ := InsertWebState index ws flags opener in mreturn tt
  | Move from to => MoveWebStateAt from to
  | Replace index ws => let! _ := ReplaceWebStateAt index ws in mreturn tt
  | Detach index => let! _ := DetachWebStateAt index in mreturn tt
  | Close index flags => CloseWebStateAt index flags
  | CloseAll flags => CloseAllWebStates flags
  | Activate index => ActivateWebStateAt index
  | SetOpener index opener => SetOpenerOfWebStateAt index opener
  | Batch calls =>
      PerformBatchOperation (Some
        ((fix exec_all (l : list Call) : M t unit :=
            match l with
            | [] => mreturn tt
            | c' :: l' => exec c' ;;; exec_all l'
            end) calls))
  end.

Fixpoint exec_all (l : list Call) : M t unit :=
  match l with
  | [] => mreturn tt
  | c :: l' => exec c ;;; exec_all l'
  end.

(** What the documentation of the calls asks of their arguments; the calls of
    a batch are legal when their turn comes. *)
Fixpoint legal (c : Call) (s : t) : Prop :=
  match c with
  | Insert index ws flags opener => legal_insert s index ws flags opener
  | Move from to => ContainsIndex s from = true /\ ContainsIndex s to = true
  | Replace index ws => ContainsIndex s index = true /\ ws ∉ web_states s
  | Detach index | Close index _ | Activate index => ContainsIndex s index = true
  | CloseAll _ => batch_operation_in_progress_ s = false
  | SetOpener index opener =>
      ContainsIndex s index = true /\
      exists o, WebStateOpener.opener opener = Some o /\ o ∈ web_states s /\
                zlookup (web_states s) index <> Some o
  | Batch calls =>
      batch_operation_in_progress_ s = false /\
      (fix legal_all (l : list Call) (s : t) : Prop :=
         match l with
         | [] => True
         | c' :: l' => legal c' s /\ forall s', exec c' s = Ok (tt, s') -> legal_all l' s'
         end) calls (notify WillBeginBatchOperation (with_batch true s))
  end.

Fixpoint legal_all (l : list Call) (s : t) : Prop :=
  match l with
  | [] => True
  | c :: l' => legal c s /\ forall s', exec c s = Ok (tt, s') -> legal_all l' s'
  end.

(** Induction on calls, through the batches. *)
Lemma Call_rect' (P : Call -> Prop) :
  (forall calls, Forall P calls -> P (Batch calls)) ->
  (forall c, (forall calls, c <> Batch calls) -> P c) -> forall c, P c.
Proof.
  intros Hb Ho. fix IH 1. intros [| | | | | | | |calls]; try (by apply Ho).
  apply Hb. induction calls as [| c calls IHl]; constructor; [apply IH | apply IHl].
Qed.

(** ** The abstract tab strip *)

Record Strip : Type := mkStrip { tabs : list WebStateId; selected : option WebStateId }.

Definition strip (s : t) : Strip := mkStrip (web_states s) (active_web_state s).

(** What is selected once the tab [x] left the strip, leaving [l]: the
    selection does not change when it is another tab; otherwise some remaining
    tab is selected, if there is one. *)
Definition reselected (old : option WebStateId) (x : WebStateId) (l : list WebStateId)
    (new : option WebStateId) : Prop :=
  if bool_decide (old = Some x)
  then match l with [] => new = None | _ => exists y, new = Some y /\ y ∈ l end
  else new = old.

(** A removal of the tab at [i]. *)
Definition removed (i : Z) (p q : Strip) : Prop :=
  exists x, zlookup (tabs p) i = Some x /\
    tabs q = erase_at (Z.to_nat i) (tabs p) /\ reselected (selected p) x (tabs q) (selected q).

Fixpoint spec (c : Call) (p q : Strip) : Prop :=
  match c with
  | Insert index ws flags opener =>
      exists i, (0 <= i <= Z.of_nat (length (tabs p)))%Z /\
        (forces flags = true -> i = index) /\
        q = mkStrip (insert_at (Z.to_nat i) ws (tabs p))
                    (if activates flags then Some ws else selected p)
  | Move from to =>
      exists x, zlookup (tabs p) from = Some x /\
        q = mkStrip (insert_at (Z.to_nat to) x (erase_at (Z.to_nat from) (tabs p))) (selected p)
  | Replace index ws =>
      exists x, zlookup (tabs p) index = Some x /\
        q = mkStrip (<[Z.to_nat index := ws]> (tabs p))
              (if bool_decide (selected p = Some x) then Some ws else selected p)
  | Detach index | Close index _ => removed index p q
  | CloseAll _ => q = mkStrip [] None
  | Activate index => q = mkStrip (tabs p) (zlookup (tabs p) index) /\ is_Some (selected q)
  | SetOpener _ _ => q = p
  | Batch calls =>
      (fix spec_all (l : list Call) (p q : Strip) : Prop :=
         match l with
         | [] => q = p
         | c' :: l' => exists r, spec c' p r /\ spec_all l' r q
         end) calls p q
  end.

(** ** The public operations on a list nobody is mutating *)

(** Between two public calls, maybe inside a batch. *)
Record stable (s : t) : Prop := {
  stable_inv : inv s;
  stable_synced : synced s;
  stable_unlocked : locked_ s = false
}.

Lemma wp_LockForMutation {A} (m : M t A) Q s :
  locked_ s = false ->
  wp m (fun a s' => Q a (with_locked false s')) (with_locked true s) ->
  wp (LockForMutation m) Q s.
Proof.
  intros Hl Hm. unfold LockForMutation. wp_next. wp_next; [by rewrite Hl|]. wp_next.
  apply wp_bind. eapply wp_conseq; [exact Hm|]. intros a s' HQ. cbv beta. wp_next. rewrite Hl. by wp_next.
Qed.

Lemma inv_locked b s : inv s -> inv (with_locked b s).
Proof. by apply inv_flags. Qed.

Lemma post_unlock s l a s' :
  locked_ s = false -> post (with_locked true s) l a s' -> post s l a (with_locked false s').
Proof.
  intros Hl [Hi Hs Ha Hm _ Hb]. split; try done. by apply inv_locked.
Qed.

Lemma stable_post s l a s' : stable s -> post s l a s' -> stable s'.
Proof.
  intros Hst Hp. split; [apply Hp|by eapply post_synced|].
  rewrite (post_locked _ _ _ _ Hp). apply Hst.
Qed.

Lemma strip_post s l a s' : post s l a s' -> strip s' = mkStrip l a.
Proof. intros []. unfold strip. congruence. Qed.

Lemma wp_public {A} (m : M t A) (l : list WebStateId) a (R : A -> t -> Prop) s :
  stable s ->
  (inv (with_locked true s) -> synced (with_locked true s) ->
   wp m (fun r s' => post (with_locked true s) l a s' /\ R r (with_locked false s'))
     (with_locked true s)) ->
  wp (LockForMutation m) (fun r s' => post s l a s' /\ R r s') s.
Proof.
  intros [Hi Hs Hl] Hm. apply wp_LockForMutation; [done|].
  eapply wp_conseq; [apply Hm; [by apply inv_locked|done]|].
  intros r s' [Hp HR]. split; [by apply post_unlock|done].
Qed.

Lemma ContainsIndex_web_state s i :
  ContainsIndex s i = true <-> is_Some (zlookup (web_states s) i).
Proof. by rewrite ContainsIndex_spec, zlookup_lt_is_Some, length_web_states. Qed.

Lemma wp_InsertWebState index ws flags opener s :
  stable s -> legal_insert s index ws flags opener ->
  let i := insertion_index s index flags opener in
  wp (InsertWebState index ws flags opener)
     (fun r s' => post s (insert_at (Z.to_nat i) ws (web_states s))
                    (if activates flags then Some ws else active_web_state s) s' /\
        r = i /\ (0 <= i <= count s)%Z /\
        openers s' = insert_at (Z.to_nat i) (insertion_opener s flags opener)
                       (openers_before_insert s flags)) s.
Proof.
  intros Hst Hli i. apply wp_public; [done|]. intros Hi Hs.
  assert (legal_insert (with_locked true s) index ws flags opener) as Hli' by (by destruct Hli).
  eapply wp_conseq; [by apply wp_InsertWebStateImpl|]. intros r s' (-> & Hr & Hp & Ho).
  split; [done|]. split; [done|]. by split.
Qed.

Lemma wp_MoveWebStateAt from to ws s :
  stable s -> zlookup (web_states s) from = Some ws -> ContainsIndex s to = true ->
  wp (MoveWebStateAt from to)
     (fun _ s' => post s (insert_at (Z.to_nat to) ws (erase_at (Z.to_nat from) (web_states s)))
                       (active_web_state s) s' /\ True) s.
Proof.
  intros Hst Hws Hto. apply wp_public; [done|]. intros Hi Hs.
  eapply wp_conseq; [by apply (wp_MoveWebStateAtImpl from to ws)|]. done.
Qed.

Lemma wp_ReplaceWebStateAt i new old s :
  stable s -> zlookup (web_states s) i = Some old -> new ∉ web_states s ->
  wp (ReplaceWebStateAt i new)
     (fun r s' => post s (<[Z.to_nat i := new]> (web_states s))
                    (zlookup (<[Z.to_nat i := new]> (web_states s)) (active_index_ s)) s' /\
        r = old /\ log s' = log s ++ replace_effects s i new old) s.
Proof.
  intros Hst Hold Hn. apply wp_public; [done|]. intros Hi Hs.
  eapply wp_conseq; [by apply (wp_ReplaceWebStateAtImpl i new old)|].
  intros r s' (-> & Hp & Hlog). by split_and!.
Qed.

Lemma wp_DetachWebStateAt i ws s :
  stable s -> zlookup (web_states s) i = Some ws ->
  wp (DetachWebStateAt i)
     (fun r s' => post s (erase_at (Z.to_nat i) (web_states s)) (next_active_web_state s i) s' /\
        r = ws) s.
Proof.
  intros Hst Hws. apply wp_public; [done|]. intros Hi Hs.
  eapply wp_conseq; [by apply (wp_DetachWebStateAtImpl i ws)|]. by intros r s' [-> Hp].
Qed.

Lemma wp_CloseWebStateAt i ws flags s :
  stable s -> zlookup (web_states s) i = Some ws ->
  wp (CloseWebStateAt i flags)
     (fun _ s' => post s (erase_at (Z.to_nat i) (web_states s)) (next_active_web_state s i) s' /\
        True) s.
Proof.
  intros Hst Hws. apply wp_public; [done|]. intros Hi Hs.
  eapply wp_conseq; [by apply (wp_CloseWebStateAtImpl i ws flags)|]. done.
Qed.

Lemma wp_CloseAllWebStates flags s :
  stable s -> batch_operation_in_progress_ s = false ->
  wp (CloseAllWebStates flags) (fun _ s' => post s [] None s' /\ True) s.
Proof.
  intros Hst Hb. apply wp_public; [done|]. intros Hi Hs.
  eapply wp_conseq; [by apply wp_CloseAllWebStatesImpl|]. done.
Qed.

Lemma wp_ActivateWebStateAt i s :
  stable s -> ContainsIndex s i = true ->
  wp (ActivateWebStateAt i)
     (fun _ s' => post s (web_states s) (zlookup (web_states s) i) s' /\
        active_index_ s' = i /\ openers s' = openers s) s.
Proof.
  intros Hst Hc. unfold ActivateWebStateAt. wp_next. wp_next; [done|].
  apply wp_public; [done|]. intros Hi Hs.
  eapply wp_conseq; [apply (wp_ActivateWebStateAtImpl i Activated (with_locked true s)); try done|].
  - right. by apply ContainsIndex_spec.
  - done.
Qed.

Lemma wp_SetOpenerOfWebStateAt i opener o s :
  stable s -> ContainsIndex s i = true -> WebStateOpener.opener opener = Some o ->
  o ∈ web_states s -> zlookup (web_states s) i <> Some o ->
  wp (SetOpenerOfWebStateAt i opener)
     (fun _ s' => post s (web_states s) (active_web_state s) s' /\
        openers s' = <[Z.to_nat i := Some o]> (openers s)) s.
Proof.
  intros [Hi Hs Hl] Hc Ho Hin Hne. unfold SetOpenerOfWebStateAt. wp_next. wp_next; [done|]. wp_next.
  { rewrite Ho. apply ContainsIndex_spec, GetIndexOfWebState_elem; [apply wf_nodup, Hi|done]. }
  pose proof Hc as [w Hw]%ContainsIndex_lookup.
  eapply wp_conseq; [apply (wp_SetOpener_at i opener w); [done..|]|].
  - rewrite Ho. intros x [= <-]. split; [done|]. intros ->. by rewrite (zlookup_wrappers _ _ _ Hw) in Hne.
  - intros [] s' [Hq Eo]. rewrite Ho in Eo. split; [by apply quiet_post|done].
Qed.

(** ** Refinement *)

Lemma next_active_reselected s i ws :
  wf s -> zlookup (web_states s) i = Some ws ->
  reselected (active_web_state s) ws (erase_at (Z.to_nat i) (web_states s))
    (next_active_web_state s i).
Proof.
  intros Hwf Hws. assert (0 <= i < count s)%Z as Hi
    by (apply ContainsIndex_spec, ContainsIndex_web_state; eauto).
  pose proof Hi as Hi'. unfold count in Hi'. rewrite <- length_web_states in Hi'.
  assert (Z.of_nat (length (erase_at (Z.to_nat i) (web_states s))) = count s - 1)%Z as El.
  { unfold count. rewrite length_erase_at, <- length_web_states by lia. lia. }
  unfold reselected. case_bool_decide as Ha.
  - rewrite (active_web_state_inj s i ws) in Ha by done. unfold next_active_web_state.
    destruct (next_active_valid s i Hwf Hi) as [[-> [E|E]]|[Hn _]].
    + rewrite E in Ha. unfold kInvalidIndex in Ha. lia.
    + destruct (erase_at _ _); [done|]. cbn in El. lia.
    + rewrite <- El in Hn. apply zlookup_lt_is_Some in Hn as [y Hy]. rewrite Hy.
      apply zlookup_elem in Hy as Hy'. destruct (erase_at _ _); [by apply elem_of_nil in Hy'|]. eauto.
  - apply next_active_other; [done..|]. by rewrite <- (active_web_state_inj s i ws).
Qed.

(** What a call does: it does not fail, the list stays stable and the batch
    flag is as before, and the strip changes as specified. *)
Definition call_ok (c : Call) (s : t) : Prop :=
  wp (exec c) (fun _ s' => post s (web_states s') (active_web_state s') s' /\
                 spec c (strip s) (strip s')) s.

Lemma call_ok_post c s l a :
  wp (exec c) (fun _ s' => post s l a s') s -> spec c (strip s) (mkStrip l a) -> call_ok c s.
Proof.
  intros Hw Hs. eapply wp_conseq; [exact Hw|]. intros [] s' Hp.
  split; [by eapply post_self|]. by rewrite (strip_post _ _ _ _ Hp).
Qed.

Lemma wp_drop {A} (m : M t A) (Q : t -> Prop) s :
  wp m (fun _ s' => Q s') s -> wp (let! _ := m in mreturn tt) (fun _ s' => Q s') s.
Proof. intros Hm. apply wp_bind. eapply wp_conseq; [exact Hm|]. done. Qed.

Lemma removed_next s i ws :
  wf s -> zlookup (web_states s) i = Some ws ->
  removed i (strip s)
    (mkStrip (erase_at (Z.to_nat i) (web_states s)) (next_active_web_state s i)).
Proof. intros Hwf Hws. exists ws. split_and!; [done..|]. by apply next_active_reselected. Qed.

Lemma replaced_selection s i new old :
  wf s -> zlookup (web_states s) i = Some old ->
  zlookup (<[Z.to_nat i := new]> (web_states s)) (active_index_ s) =
    if bool_decide (active_web_state s = Some old) then Some new else active_web_state s.
Proof.
  intros Hwf Hold. rewrite zlookup_insert by (apply zlookup_lt_is_Some; eauto).
  destruct (active_web_state_inj s i old Hwf Hold) as [H1 H2].
  destruct (Z.eqb_spec (active_index_ s) i) as [E|E]; case_bool_decide as Ha; tauto.
Qed.

(** Every call but a batch. *)
Lemma call_ok_single c s :
  (forall calls, c <> Batch calls) -> stable s -> legal c s -> call_ok c s.
Proof.
  intros Hnb Hst Hl. pose proof Hst as [[Hwf _] _ _].
  destruct c as [index ws flags o|from to|i ws|i|i flags|flags|i|i o|calls]; cbn [legal] in Hl.
  - destruct (wp_inv _ _ _ (wp_InsertWebState _ _ _ _ _ Hst Hl)) as (r & s' & Hr & Hp & -> & Hb & _).
    eapply call_ok_post; [apply wp_drop; eapply wp_ok; [exact Hr|exact Hp]|].
    exists (insertion_index s index flags o). split_and!; [| |intros Ef|done].
    1-2: cbn; rewrite ?length_web_states; apply Hb.
    unfold insertion_index. by rewrite Ef.
  - destruct Hl as [[ws Hws]%ContainsIndex_web_state Hto].
    eapply call_ok_post; [|exists ws; done].
    eapply wp_conseq; [by apply (wp_MoveWebStateAt _ _ ws)|]. by intros ? ? [].
  - destruct Hl as [[old Hold]%ContainsIndex_web_state Hn]. eapply call_ok_post.
    + apply wp_drop. eapply wp_conseq; [by apply (wp_ReplaceWebStateAt _ _ old)|]. by intros ? ? [].
    + exists old. split; [done|]. cbn [tabs selected strip]. f_equal. by apply replaced_selection.
  - apply ContainsIndex_web_state in Hl as [ws Hws]. eapply call_ok_post; [|by eapply removed_next].
    apply wp_drop. eapply wp_conseq; [by apply (wp_DetachWebStateAt _ ws)|]. by intros ? ? [].
  - apply ContainsIndex_web_state in Hl as [ws Hws]. eapply call_ok_post; [|by eapply removed_next].
    eapply wp_conseq; [by apply (wp_CloseWebStateAt _ ws)|]. by intros ? ? [].
  - eapply call_ok_post; [|done].
    eapply wp_conseq; [by apply wp_CloseAllWebStates|]. by intros ? ? [].
  - eapply call_ok_post; [|by split; [done|]; apply ContainsIndex_web_state].
    eapply wp_conseq; [by apply wp_ActivateWebStateAt|]. by intros ? ? [].
  - destruct Hl as (Hc & x & Ho & Hin & Hne). eapply call_ok_post; [|done].
    eapply wp_conseq; [by apply (wp_SetOpenerOfWebStateAt _ _ x)|]. by intros ? ? [].
  - by destruct (Hnb calls).
Qed.

Fixpoint spec_all (l : list Call) (p q : Strip) : Prop :=
  match l with
  | [] => q = p
  | c :: l' => exists r, spec c p r /\ spec_all l' r q
  end.

Lemma calls_ok calls s :
  Forall (fun c => forall s, stable s -> legal c s -> call_ok c s) calls ->
  stable s -> legal_all calls s ->
  wp (exec_all calls) (fun _ s' => post s (web_states s') (active_web_state s') s' /\
                        spec_all calls (strip s) (strip s')) s.
Proof.
  intros Hall. revert s. induction Hall as [| c calls Hc Hall IH]; intros s Hst Hl;
    cbn [exec_all legal_all spec_all] in *.
  { wp_next. split; [|done]. apply post_refl; apply Hst. }
  destruct Hl as [Hlc Hla]. destruct (wp_inv _ _ _ (Hc s Hst Hlc)) as ([] & s1 & He & Hp & Hs1).
  apply wp_bind. eapply wp_ok; [exact He|]. cbv beta.
  eapply wp_conseq; [apply IH; [by eapply stable_post|by apply Hla]|].
  intros [] s' [Hp' Hs']. split; [by eapply post_trans|]. eauto.
Qed.

Lemma call_ok_legal c : forall s, stable s -> legal c s -> call_ok c s.
Proof.
  induction c as [calls IH|c Hc] using Call_rect'; intros s Hst Hl; [|by apply call_ok_single].
  destruct Hl as [Hb Hl]. unfold call_ok.
  change (exec (Batch calls)) with (PerformBatchOperation (Some (exec_all calls))).
  eapply wp_conseq; [apply (wp_PerformBatchOperation _
    (fun s2 => spec_all calls (strip s) (strip s2))); [apply Hst..|done|]|].
  - intros Hi1 Hs1. refine (wp_conseq _ _ _ _ (calls_ok calls _ IH _ Hl) _); [|done].
    split; [done..|]. apply Hst.
  - intros [] s' (s2 & Hp & Hs). split; [by eapply post_self|]. by rewrite (strip_post _ _ _ _ Hp).
Qed.

(** The states a client can bring a new list to. *)
Definition step (s s' : t) : Prop := exists c, legal c s /\ exec c s = Ok (tt, s').

Definition reachable (s : t) : Prop := rtc step create s.

Lemma stable_create : stable create.
Proof. split; [split; [by apply wf_b_sound|constructor]|done..]. Qed.

Lemma step_stable s s' :
  stable s -> step s s' ->
  stable s' /\ batch_operation_in_progress_ s' = batch_operation_in_progress_ s.
Proof.
  intros Hst (c & Hl & He). pose proof (call_ok_legal c s Hst Hl) as Hok.
  destruct (wp_inv _ _ _ Hok) as ([] & s1 & He' & Hp & _). rewrite He in He'. injection He' as <-.
  split; [by eapply stable_post|]. apply Hp.
Qed.

Lemma reachable_stable s : reachable s -> stable s /\ batch_operation_in_progress_ s = false.
Proof.
  revert s. apply (rtc_ind_r (R := step)
    (fun s => stable s /\ batch_operation_in_progress_ s = false) create).
  - by split; [apply stable_create|].
  - intros s1 s2 _ Hstep [H1 <-]. by apply step_stable.
Qed.

(** ** The properties *)

(** C1: a legal public call on a reachable list returns (no DCHECK or CHECK
    fails, and the loops end), leaves a list that is again reachable, idle and
    well formed, and changes the tab strip as the abstract specification of the
    call says. *)
Theorem exec_refines_strip c s :
  reachable s -> legal c s ->
  exists s', exec c s = Ok (tt, s') /\ reachable s' /\ idle s' /\ wf s' /\
    spec c (strip s) (strip s').
Proof.
  intros Hr Hl. destruct (reachable_stable s Hr) as [Hst Hb].
  destruct (wp_inv _ _ _ (call_ok_legal c s Hst Hl)) as ([] & s' & He & Hp & Hs).
  assert (reachable s') as Hr' by (eapply rtc_r; [exact Hr|]; by exists c).
  destruct (reachable_stable s' Hr') as [[[Hwf' _] _ Hl'] Hb']. by exists s'.
Qed.

(** C19: in every reachable state, each WebState is in the list once, the active
    index and the openers are valid, every notification sent so far kept the
    promises of [WebStateListObserver], and an observer that only listens knows
    the WebStates and the active one. *)
Theorem reachable_observers_in_sync s :
  reachable s ->
  wf s /\ log_ok s /\ mirror s = mkMirror (web_states s) (active_web_state s).
Proof. intros Hr. by destruct (reachable_stable s Hr) as [[[] ? _] _]. Qed.

(** C24: [InsertWebState] puts the WebState at the index of the reference
    [insertion_index], returns that index, activates it when asked, and gives
    it the opener asked for, or the active WebState with
    [INSERT_INHERIT_OPENER]. *)
Theorem InsertWebState_correct index ws flags opener s :
  reachable s -> legal_insert s index ws flags opener ->
  let i := insertion_index s index flags opener in
  exists s', InsertWebState index ws flags opener s = Ok (i, s') /\
    (0 <= i <= count s)%Z /\
    web_states s' = insert_at (Z.to_nat i) ws (web_states s) /\
    active_web_state s' = (if activates flags then Some ws else active_web_state s) /\
    openers s' = insert_at (Z.to_nat i) (insertion_opener s flags opener)
      (if inherits flags then ((fun _ => None) <$> openers s) else openers s).
Proof.
  intros Hr Hl i. destruct (reachable_stable s Hr) as [Hst _].
  destruct (wp_inv _ _ _ (wp_InsertWebState _ _ _ _ _ Hst Hl)) as (r & s' & He & Hp & -> & Hi & Ho).
  exists s'. split; [done|]. split; [done|]. by destruct Hp.
Qed.

(** C23: [DetachWebStateAt] returns the WebState at the index and takes it out;
    the WebState that becomes active is the one at the index that the reference
    search for a new active WebState chooses. *)
Theorem DetachWebStateAt_correct i s :
  reachable s -> ContainsIndex s i = true ->
  exists ws s', zlookup (web_states s) i = Some ws /\ DetachWebStateAt i s = Ok (ws, s') /\
    web_states s' = erase_at (Z.to_nat i) (web_states s) /\ (ws ∉ web_states s') /\
    active_web_state s' = zlookup (web_states s')
      (WebStateListOrderController.new_active_ref s (active_index_ s)
         (WebStateListRemovingIndexes.StorageFromInitializerList [i])).
Proof.
  intros Hr [ws Hws]%ContainsIndex_web_state. destruct (reachable_stable s Hr) as [Hst _].
  destruct (wp_inv _ _ _ (wp_DetachWebStateAt _ _ _ Hst Hws)) as (r & s' & He & Hp & ->).
  exists ws, s'. pose proof Hp as [_ Es Ea _ _ _]. split_and!; [done..| |].
  - rewrite Es. apply (NoDup_erase_at _ ws); [apply wf_nodup, Hst|]. by apply zlookup_Some in Hws as [_ ?].
  - by rewrite Ea, Es.
Qed.

(** The calls that lock the list: all but [SetOpenerOfWebStateAt]; a batch does
    when one of its calls does. *)
Fixpoint locks (c : Call) : bool :=
  match c with
  | SetOpener _ _ => false
  | Batch calls => existsb locks calls
  | _ => true
  end.

(** What does not lock a list leaves it as locked as it was. *)
Definition as_locked : relation t := fun s s' => locked_ s' = locked_ s.
#[local] Instance as_locked_preorder : PreOrder as_locked.
Proof. split; [done|]. intros s1 s2 s3 H1 H2. unfold as_locked in *. congruence. Qed.

Lemma exec_as_locked c : locks c = false -> keeps as_locked (exec c).
Proof.
  induction c as [calls IH|c Hc] using Call_rect'; intros Hl; cbn [locks] in Hl.
  - assert (keeps as_locked (exec_all calls)) as Hall.
    { induction IH as [|c calls IHc IHcs IH]; cbn [exec_all]; [apply keeps_return; apply _|].
      cbn [existsb] in Hl. apply orb_false_iff in Hl as [Hl1 Hl2]. apply keeps_bind; [apply _|by apply IHc|intros _; by apply IH]. }
    change (exec (Batch calls)) with (PerformBatchOperation (Some (exec_all calls))).
    unfold PerformBatchOperation. repeat first [exact Hall | code_step | by split | done].
  - destruct c as [| | | | | | |i o|calls]; try done; [|by destruct (Hc calls)].
    cbn [exec]. unfold SetOpenerOfWebStateAt, SetOpener_at. repeat first [code_step | by split | done].
Qed.

Lemma LockForMutation_locked A (m : M t A) s : locked_ s = true -> LockForMutation m s = Fault CheckFailed.
Proof. intros Hl. unfold LockForMutation, mbind, mget, check. by rewrite Hl. Qed.

Lemma locked_call_fails c : (forall calls, c <> Batch calls) -> forall s, locked_ s = true -> locks c = true ->
  exec c s = Fault (match c with Activate index => if ContainsIndex s index then CheckFailed else DCheckFailed | _ => CheckFailed end).
Proof.
  intros Hb s Hl Hc. destruct c; try done; [..|by edestruct Hb].
  all: cbn [exec]; try by apply LockForMutation_locked.
  all: try by unfold mbind, InsertWebState, ReplaceWebStateAt, DetachWebStateAt; rewrite LockForMutation_locked.
  unfold ActivateWebStateAt, mbind, mget, dcheck. destruct (ContainsIndex s index); [by apply LockForMutation_locked|done].
Qed.

Lemma locking_call_fails c : forall s, locked_ s = true -> locks c = true -> exists f, exec c s = Fault f.
Proof.
  induction c as [calls IH|c Hb] using Call_rect'; intros s Hl Hc; [|eexists; by apply locked_call_fails].
  assert (forall s, locked_ s = true -> exists f, exec_all calls s = Fault f) as Hall.
  { clear s Hl. cbn [locks] in Hc. induction IH as [|c calls IHc IHcs IH]; [done|]. intros s Hl. cbn [existsb] in Hc. cbn [exec_all]. unfold mbind.
    destruct (locks c) eqn:Ec; [destruct (IHc s Hl eq_refl) as [f E]; rewrite E; by exists f|].
    destruct (exec c s) as [[[] s1]|f] eqn:E; [|by exists f]. apply (IH Hc). by rewrite (exec_as_locked c Ec s tt s1 E). }
  change (exec (Batch calls)) with (PerformBatchOperation (Some (exec_all calls))).
  unfold PerformBatchOperation, mbind, mget, dcheck, mmodify. destruct (negb _); [|by eexists].
  match goal with |- context [exec_all calls ?s1] => destruct (Hall s1) as [f E]; [done|] end. rewrite E. by exists f.
Qed.

Lemma SetOpener_locked index opener s s' : locked_ s = true ->
  exec (SetOpener index opener) (with_locked false s) = Ok (tt, s') -> exec (SetOpener index opener) s = Ok (tt, with_locked true s').
Proof.
  intros Hl. destruct s as [ws i l bt lg]. cbn in Hl. subst l. cbn [exec].
  change (with_locked false (mk ws i true bt lg)) with (mk ws i false bt lg).
  unfold SetOpenerOfWebStateAt, SetOpener_at, mbind, mget, dcheck, of_option, mmodify. cbn [web_state_wrappers_].
  change (ContainsIndex (mk ws i true bt lg)) with (ContainsIndex (mk ws i false bt lg)).
  change (GetIndexOfWebState (mk ws i true bt lg)) with (GetIndexOfWebState (mk ws i false bt lg)).
  destruct (ContainsIndex _ index); [|done]. destruct (ContainsIndex _ _); [|done]. cbn [web_state_wrappers_]. destruct (zlookup ws index); [|done].
  destruct (negb _); [|done]. by intros [= <-].
Qed.

(** C33: a list that is being mutated refuses every call that locks it, whatever
    the arguments: the CHECK of [LockForMutation] fails ([ActivateWebStateAt] first
    checks the index), and a batch fails that has such a call, at any depth.
    [SetOpenerOfWebStateAt] takes no lock, and is not refused: it does to a locked
    list what it does to another. *)
Theorem reentrant_calls_fail c s : locked_ s = true ->
  (if locks c then
     exists f, exec c s = Fault f /\
       match c with
       | Batch _ => True
       | Activate index => f = if ContainsIndex s index then CheckFailed else DCheckFailed
       | _ => f = CheckFailed
       end
   else keeps as_locked (exec c)) /\
  forall index opener s', exec (SetOpener index opener) (with_locked false s) = Ok (tt, s') ->
    exec (SetOpener index opener) s = Ok (tt, with_locked true s').
Proof.
  intros Hl. split.
  - destruct (locks c) eqn:Hc; [|by apply exec_as_locked].
    destruct c as [| | | | | | | |calls]; [..|destruct (locking_call_fails _ s Hl Hc) as [f E]; by exists f].
    all: eexists; split; [by apply locked_call_fails|done].
  - intros index opener s'. by apply SetOpener_locked.
Qed.

(** in every reachable list a wrapper whose opener is to be reset has no
    opener, so that activating another WebState never clears an opener: the
    reset of [ActivateWebStateAtImpl] is without effect. *)
Theorem ActivateWebStateAt_keeps_openers i s :
  reachable s -> ContainsIndex s i = true ->
  (forall w, w ∈ web_state_wrappers_ s -> WebStateWrapper.should_reset_opener_ w = true ->
     WebStateOpener.opener (WebStateWrapper.opener_ w) = None) /\
  exists s', ActivateWebStateAt i s = Ok (tt, s') /\ active_index_ s' = i /\
    web_states s' = web_states s /\ openers s' = openers s.
Proof.
  intros Hr Hi. destruct (reachable_stable s Hr) as [Hst _]. split; [apply Hst|].
  destruct (wp_inv _ _ _ (wp_ActivateWebStateAt i s Hst Hi)) as ([] & s' & He & Hp & Ha & Ho).
  exists s'. by destruct Hp.
Qed.

(** the effects of [ReplaceWebStateAt], in order. The observers are told
    that the active WebState changed from the replaced one to the active one
    even when another WebState than the replaced one is active. *)
Theorem ReplaceWebStateAt_effects i new old s :
  reachable s -> zlookup (web_states s) i = Some old -> new ∉ web_states s ->
  exists s', ReplaceWebStateAt i new s = Ok (old, s') /\
    log s' = log s ++ replace_effects s i new old /\
    (active_index_ s <> i -> active_web_state s' = active_web_state s /\
       Notify (WebStateActivatedAt (Some old) (active_web_state s) (active_index_ s) Replaced)
         (web_states s') (active_index_ s) ∈ replace_effects s i new old).
Proof.
  intros Hr Hold Hn. destruct (reachable_stable s Hr) as [Hst _].
  destruct (wp_inv _ _ _ (wp_ReplaceWebStateAt i new old s Hst Hold Hn)) as (r & s' & He & Hp & -> & Hlog).
  exists s'. split_and!; [done..|]. intros Hne. destruct Hp as [_ Es Ea _ _ _].
  assert (zlookup (<[Z.to_nat i := new]> (web_states s)) (active_index_ s) = active_web_state s) as E.
  { rewrite zlookup_insert by (apply zlookup_lt_is_Some; eauto). by rewrite (proj2 (Z.eqb_neq _ _) Hne). }
  split; [by rewrite Ea|]. unfold replace_effects. rewrite Es, E, !elem_of_app. right. right. by left.
Qed.

End Calls.

(** ** Examples *)

Section Examples.

(** Three tabs: 1, active, opened 2; 3 was opened by nobody. *)
Definition example_calls : list Call :=
  [Insert 0 1%positive INSERT_ACTIVATE WebStateOpener.null;
   Insert 0 2%positive INSERT_NO_FLAGS (WebStateOpener.mk (Some 1%positive) 0);
   Insert 0 3%positive INSERT_NO_FLAGS WebStateOpener.null].

Definition example_state : t :=
  default create (final_state (@exec_all WebStateListOrderController.example_env example_calls create)).

#[local] Existing Instance WebStateListOrderController.example_env.

Lemma example_step c s :
  legal c s -> final_state (exec c s) <> None -> step s (default create (final_state (exec c s))).
Proof.
  intros Hl Hf. exists c. split; [done|]. destruct (exec c s) as [[[] s']|]; [done|]. by destruct Hf.
Qed.

Lemma example_legal_insert s index ws flags opener :
  bool_decide (ws ∉ web_states s) && (count s <? INT_MAX)%Z && (0 <=? index)%Z &&
    (index <=? count s)%Z &&
    match WebStateOpener.opener opener with Some o => bool_decide (o ∈ web_states s) | None => true end
  = true -> legal_insert s index ws flags opener.
Proof.
  intros Hb. bool_to_prop. split; try done. intros o _ Ho. rewrite Ho in *. by bool_to_prop.
Qed.

Lemma example_reachable : reachable example_state.
Proof.
  eapply rtc_l; [apply (example_step (Insert 0 1%positive INSERT_ACTIVATE WebStateOpener.null));
    [by apply example_legal_insert|by vm_compute]|].
  eapply rtc_l; [apply (example_step (Insert 0 2%positive INSERT_NO_FLAGS
                                        (WebStateOpener.mk (Some 1%positive) 0)));
    [by apply example_legal_insert|by vm_compute]|].
  eapply rtc_l; [apply (example_step (Insert 0 3%positive INSERT_NO_FLAGS WebStateOpener.null));
    [by apply example_legal_insert|by vm_compute]|].
  match goal with |- rtc _ ?x ?y => assert (x = y) as -> by (vm_compute; reflexivity) end.
  apply rtc_refl.
Qed.

Example example_state_strip :
  strip example_state = mkStrip [1; 2; 3]%positive (Some 1%positive).
Proof. reflexivity. Qed.

(** Closing 1 in a batch and then all tabs. *)
Lemma exec_refines_strip_witness :
  exists s', exec (Batch [Close 0 CLOSE_USER_ACTION]) example_state = Ok (tt, s') /\
    strip s' = mkStrip [2; 3]%positive (Some 2%positive).
Proof.
  assert (legal (Batch [Close 0 CLOSE_USER_ACTION]) example_state) as Hl by (by vm_compute).
  destruct (exec_refines_strip _ _ example_reachable Hl) as (s' & He & _).
  exists s'. split; [exact He|]. vm_compute in He. by injection He as <-.
Defined.

Lemma reachable_observers_in_sync_witness :
  mirror example_state = mkMirror [1; 2; 3]%positive (Some 1%positive).
Proof. exact (proj2 (proj2 (reachable_observers_in_sync _ example_reachable))). Defined.

Lemma InsertWebState_correct_witness :
  exists s', InsertWebState 0 4%positive INSERT_INHERIT_OPENER WebStateOpener.null example_state =
      Ok (1%Z, s') /\ web_states s' = [1; 4; 2; 3]%positive /\
    openers s' = [None; Some 1%positive; None; None].
Proof.
  destruct (InsertWebState_correct 0 4%positive INSERT_INHERIT_OPENER WebStateOpener.null example_state
              example_reachable) as (s' & He & _ & Hw & _ & Ho); [by apply example_legal_insert|].
  exists s'. by split_and!.
Defined.

Lemma DetachWebStateAt_correct_witness :
  exists ws s', DetachWebStateAt 0 example_state = Ok (ws, s') /\ web_states s' = [2; 3]%positive.
Proof.
  destruct (DetachWebStateAt_correct 0 example_state example_reachable eq_refl)
    as (ws & s' & _ & He & Hw & _).
  exists ws, s'. split; [exact He|]. rewrite Hw. vm_compute. reflexivity.
Defined.

(** [CloseAllWebStates] is refused, and a batch that moves a WebState after it set
    an opener; setting the opener of the WebState at 2 is not. *)
Lemma reentrant_calls_fail_witness :
  exec (CloseAll 0) (with_locked true example_state) = Fault CheckFailed /\
  (exists f, exec (Batch [SetOpener 2 (WebStateOpener.mk (Some 1%positive) 0); Move 0 1]) (with_locked true example_state) = Fault f) /\
  exists s', exec (SetOpener 2 (WebStateOpener.mk (Some 1%positive) 0)) (with_locked true example_state) = Ok (tt, with_locked true s').
Proof.
  split; [|split].
  - destruct (reentrant_calls_fail (CloseAll 0) (with_locked true example_state) eq_refl) as [(f & E & ->) _]. exact E.
  - destruct (reentrant_calls_fail (Batch [SetOpener 2 (WebStateOpener.mk (Some 1%positive) 0); Move 0 1])
      (with_locked true example_state) eq_refl) as [(f & E & _) _]. by exists f.
  - destruct (reentrant_calls_fail (CloseAll 0) (with_locked true example_state) eq_refl) as [_ Ho].
    eexists. apply Ho. vm_compute. reflexivity.
Defined.

Lemma ActivateWebStateAt_keeps_openers_witness :
  exists s', ActivateWebStateAt 2 example_state = Ok (tt, s') /\
    openers s' = [None; Some 1%positive; None].
Proof.
  destruct (ActivateWebStateAt_keeps_openers 2 example_state example_reachable eq_refl)
    as [_ (s' & He & _ & _ & Ho)].
  exists s'. split; [exact He|]. rewrite Ho. vm_compute. reflexivity.
Defined.

(** Replacing the inactive 3 announces that 3 was active and 1 is. *)
Lemma ReplaceWebStateAt_effects_witness :
  exists s', ReplaceWebStateAt 2 5%positive example_state = Ok (3%positive, s') /\
    active_web_state s' = Some 1%positive /\
    Notify (WebStateActivatedAt (Some 3%positive) (Some 1%positive) 0 Replaced)
      (web_states s') 0 ∈ replace_effects example_state 2 5%positive 3%positive.
Proof.
  destruct (ReplaceWebStateAt_effects 2 5%positive 3%positive example_state example_reachable eq_refl)
    as (s' & He & _ & Hne); [by apply (bool_decide_eq_true _)|].
  exists s'. split; [exact He|]. by apply Hne.
Defined.

End Examples.

End WebStateListTheorems.
