(* ===== verification/WebStateListTracking.v ===== *)
(** * WebStateList: what the observers are told, event by event

    Every call of a list tells its observers each change of the list, once and
    in order: the notifications a call adds to the log can be replayed from the
    WebStates it started with, and end with the WebStates it leaves. The
    observers of a list (SessionMetrics.v) build on it. *)

From stdpp Require Import base tactics option list numbers strings gmap.
From Stdlib Require Import ZArith Lia.
From S2P Require Import Prelude RemovingIndexes WebStateListModel OrderController.
From S2P Require Import WebStateListOps WebStateListProofs WebStateListTheorems.

Module WebStateListTracking.
Import WebStateList WebStateListOps WebStateListProofs WebStateListTheorems.

(** ** Replaying the notifications *)

(** The event is a change of the list [l]. *)
Definition applies (l : list WebStateId) (e : WebStateListEvent) : Prop :=
  match e with
  | WebStateInsertedAt ws index _ => (ws ∉ l) /\ (0 <= index <= Z.of_nat (length l))%Z
  | WebStateMoved ws from_index to_index =>
      zlookup l from_index = Some ws /\ is_Some (zlookup l to_index)
  | WebStateReplacedAt old new index => zlookup l index = Some old /\ (new ∉ l)
  | WebStateDetachedAt ws index => zlookup l index = Some ws
  | WillDetachWebStateAt _ _ | WillCloseWebStateAt _ _ _ | WebStateActivatedAt _ _ _ _
  | WillBeginBatchOperation | BatchOperationEnded => True
  end.

(** The list after the event. *)
Definition after (l : list WebStateId) (e : WebStateListEvent) : list WebStateId :=
  mirror_states (mirror_event (mkMirror l None) e).

(** The effects bring the WebStates from [l] to [l']. *)
Fixpoint told (l : list WebStateId) (effects : list Effect) (l' : list WebStateId) : Prop :=
  match effects with
  | [] => l' = l
  | Notify e _ _ :: rest => applies l e /\ told (after l e) rest l'
  | _ :: rest => told l rest l'
  end.

Lemma told_app l es1 l1 es2 l2 : told l es1 l1 -> told l1 es2 l2 -> told l (es1 ++ es2) l2.
Proof.
  revert l. induction es1 as [| e es1 IH]; intros l; cbn; [by intros ->|].
  destruct e; [intros [? ?]; split|..]; auto.
Qed.

(** What a part of the code does to the list, its observers are told. *)
Definition tells (s s' : t) : Prop :=
  exists effects, log s' = log s ++ effects /\ told (web_states s) effects (web_states s').

(** It does nothing an observer could see. *)
Definition silent (s s' : t) : Prop := log s' = log s /\ web_states s' = web_states s.

#[global] Instance silent_preorder : PreOrder silent.
Proof. split; [by split|]. intros s1 s2 s3 [E1 E1'] [E2 E2']. split; congruence. Qed.

#[global] Instance tells_preorder : PreOrder tells.
Proof.
  split.
  - intros s. exists []. by rewrite app_nil_r.
  - intros s1 s2 s3 (es1 & E1 & H1) (es2 & E2 & H2). exists (es1 ++ es2).
    split; [by rewrite E2, E1, app_assoc|by eapply told_app].
Qed.

#[global] Instance silent_tells : subrelation silent tells.
Proof. intros s s' [E E']. exists []. rewrite app_nil_r. by rewrite E'. Qed.

Lemma tells_notify e s s' :
  silent s s' -> applies (web_states s) e -> after (web_states s) e = web_states s ->
  tells s (notify e s').
Proof.
  intros [El Ew] Ha Hn. eexists. split; [cbn; by rewrite El|]. cbn. split; [done|].
  by rewrite Hn, <- Ew.
Qed.

(** One change, and the notification of it. *)
Lemma tells_change e s s' :
  log s' = log s -> applies (web_states s) e -> web_states s' = after (web_states s) e ->
  tells s (notify e s').
Proof. intros El Ha Ew. eexists. split; [cbn; by rewrite El|]. by split. Qed.

(** ** The code *)

Section Code.
Context `{WebStateEnv}.

(** The queries. *)
Lemma check_silent b : keeps silent (check b).
Proof. intros s a s'. unfold check. by destruct b; intros [= _ <-]. Qed.

Lemma nth_opened_loop_silent o navigation_index use_group start n todo k found :
  keeps silent (nth_opened_loop o navigation_index use_group start n todo k found).
Proof.
  revert k found. induction todo as [| i todo IH]; intros k found; cbn [nth_opened_loop];
    repeat first [apply IH | code_step].
Qed.
Hint Resolve check_silent nth_opened_loop_silent : code.

Lemma GetIndexOfNthWebStateOpenedBy_silent o start use_group n :
  keeps silent (GetIndexOfNthWebStateOpenedBy o start use_group n).
Proof. through @GetIndexOfNthWebStateOpenedBy. Qed.
Hint Resolve GetIndexOfNthWebStateOpenedBy_silent : code.

Lemma find_loop_silent fuel removing ws start children :
  keeps silent (WebStateListOrderController.find_loop fuel removing ws start children).
Proof.
  revert start children. induction fuel as [| fuel IH]; intros start children;
    cbn [WebStateListOrderController.find_loop]; unfold GetIndexOfNextWebStateOpenedBy;
    repeat first [apply IH | code_step].
Qed.
Hint Resolve find_loop_silent : code.

Lemma FindIndex_silent removing ws start :
  keeps silent (WebStateListOrderController.FindIndexOfNextNonRemovedWebStateOpenedBy removing ws start).
Proof. through @WebStateListOrderController.FindIndexOfNextNonRemovedWebStateOpenedBy. Qed.

Lemma DetermineInsertionIndex_silent o :
  keeps silent (WebStateListOrderController.DetermineInsertionIndex o).
Proof.
  through @WebStateListOrderController.DetermineInsertionIndex. apply GetIndexOfNthWebStateOpenedBy_silent.
Qed.

Lemma GetWebStateWrapperAt_silent i : keeps silent (GetWebStateWrapperAt i).
Proof. through @GetWebStateWrapperAt. Qed.
Hint Resolve FindIndex_silent DetermineInsertionIndex_silent GetWebStateWrapperAt_silent : code.

Lemma GetActiveWebStateWrapper_silent : keeps silent GetActiveWebStateWrapper.
Proof. through @GetActiveWebStateWrapper. Qed.
Hint Resolve GetActiveWebStateWrapper_silent : code.
Lemma GetActiveWebState_silent : keeps silent GetActiveWebState.
Proof. through @GetActiveWebState. Qed.
Lemma GetWebStateAt_silent i : keeps silent (GetWebStateAt i).
Proof. through @GetWebStateAt. Qed.
Lemma GetOpenerOfWebStateAt_silent i : keeps silent (GetOpenerOfWebStateAt i).
Proof. through @GetOpenerOfWebStateAt. Qed.
Hint Resolve GetActiveWebState_silent GetWebStateAt_silent GetOpenerOfWebStateAt_silent : code.

Lemma DetermineNewActiveIndex_silent i removing :
  keeps silent (WebStateListOrderController.DetermineNewActiveIndex i removing).
Proof. through @WebStateListOrderController.DetermineNewActiveIndex. Qed.
Hint Resolve DetermineNewActiveIndex_silent : code.

(** The parts of the operations. *)
Lemma set_wrapper_silent s i w w' :
  zlookup (web_state_wrappers_ s) i = Some w ->
  WebStateWrapper.web_state_ w' = WebStateWrapper.web_state_ w ->
  silent s (with_wrappers (<[Z.to_nat i := w']> (web_state_wrappers_ s)) s).
Proof.
  intros [_ Hw]%zlookup_Some E. split; [done|]. unfold web_states. cbn.
  rewrite list_fmap_insert, E. apply list_insert_id. by rewrite list_lookup_fmap, Hw.
Qed.

Lemma clear_openers_silent p s : silent s (clear_openers p s).
Proof. split; [done|]. apply ids_clear. Qed.
Hint Resolve clear_openers_silent : code.

Lemma SetOpener_at_silent i opener : keeps silent (SetOpener_at i opener).
Proof.
  intros s a s'. unfold SetOpener_at. rewrite (mbind_run _ _ s s s) by done. unfold of_option.
  destruct (zlookup _ i) as [w|] eqn:Hw; [|done].
  intros (? & ? & [= -> ->] & (? & ? & [-> _]%dcheck_ok & [= <- <-])%mbind_ok)%mbind_ok.
  by eapply set_wrapper_silent.
Qed.
Hint Resolve SetOpener_at_silent : code.

Lemma SetOpenerOfWebStateAt_silent i opener : keeps silent (SetOpenerOfWebStateAt i opener).
Proof. through @SetOpenerOfWebStateAt. Qed.

Lemma ClearOpenersReferencing_silent i : keeps silent (ClearOpenersReferencing i).
Proof. through @ClearOpenersReferencing. Qed.
Hint Resolve SetOpenerOfWebStateAt_silent ClearOpenersReferencing_silent : code.

Lemma silent_keeps_tells {A} (m : M t A) : keeps silent m -> keeps tells m.
Proof. apply keeps_weaken, silent_tells. Qed.

Lemma tells_emit e s : (forall event seen i, e <> Notify event seen i) -> tells s (emit e s).
Proof. intros He. exists [e]. split; [done|]. destruct e; try done. by edestruct He. Qed.

Lemma tells_told e s :
  applies (web_states s) e -> after (web_states s) e = web_states s -> tells s (notify e s).
Proof. by apply tells_notify. Qed.

Hint Extern 1 (tells _ (emit _ _)) => apply tells_emit; discriminate : code.
Hint Extern 1 (tells _ (notify _ _)) => by apply tells_told : code.
Hint Extern 3 (keeps tells _) => apply silent_keeps_tells; solve [auto with code typeclass_instances] : code.

Lemma with_active_tells i s : tells s (with_active i s).
Proof. by apply silent_tells. Qed.
Hint Resolve with_active_tells : code.

Lemma NotifyIfActiveWebStateChanged_tells old reason :
  keeps tells (NotifyIfActiveWebStateChanged old reason).
Proof. through @NotifyIfActiveWebStateChanged. Qed.
Hint Resolve NotifyIfActiveWebStateChanged_tells : code.

Lemma ActivateWebStateAtImpl_tells i reason : keeps tells (ActivateWebStateAtImpl i reason).
Proof. through @ActivateWebStateAtImpl. Qed.
Hint Resolve ActivateWebStateAtImpl_tells : code.

(** The changes of the WebStates. *)
Lemma of_option_ok {S A} (o : option A) (s s' : S) a : of_option o s = Ok (a, s') -> s' = s /\ o = Some a.
Proof. unfold of_option. destruct o; [|done]. by intros [= -> ->]. Qed.

(** Opens the statements of the code one by one. *)
Ltac open_code H :=
  repeat first
    [ rewrite (mbind_run mget _ _ _ _ eq_refl) in H
    | let E := fresh in
      apply mbind_ok in H; destruct H as (? & ? & E & H);
      first [ apply dcheck_ok in E; destruct E as [-> ?]
            | apply of_option_ok in E; destruct E as [-> ?]
            | injection E as <- <- ] ].

Lemma in_wrappers s i w :
  zlookup (web_state_wrappers_ s) i = Some w ->
  zlookup (web_states s) i = Some (WebStateWrapper.web_state_ w).
Proof. intros Hw. unfold web_states. by rewrite zlookup_fmap, Hw. Qed.

Lemma MoveWebStateAtImpl_tells from to : keeps tells (MoveWebStateAtImpl from to).
Proof.
  intros s a s' He. unfold MoveWebStateAtImpl in He. open_code He.
  destruct (from =? to)%Z; [by injection He as <- <-|]. open_code He. injection He as <- <-.
  apply tells_change.
  - cbn. by repeat case_match.
  - split; [by apply in_wrappers|]. apply zlookup_lt_is_Some. rewrite length_web_states.
    by apply ContainsIndex_spec.
  - transitivity (ids (insert_at (Z.to_nat to) x2
      (erase_at (Z.to_nat from) (web_state_wrappers_ s)))); [by repeat case_match|].
    cbn. unfold web_states. by rewrite insert_at_fmap, erase_at_fmap.
Qed.

Lemma ReplaceWebStateAtImpl_tells i ws s old s' :
  ws ∉ web_states s -> ReplaceWebStateAtImpl i ws s = Ok (old, s') -> tells s s'.
Proof.
  intros Hf He. unfold ReplaceWebStateAtImpl in He. open_code He.
  apply mbind_ok in He as ([] & s1 & [El Ew]%ClearOpenersReferencing_silent & He).
  change (web_states (emit _ s)) with (web_states s) in Ew.
  transitivity (emit (WillAddWebState ws) s); [by apply tells_emit|].
  transitivity s1; [by apply silent_tells|]. open_code He.
  match goal with Hw : zlookup _ i = Some ?w |- _ => apply in_wrappers in Hw as Hold end.
  apply mbind_ok in He as ([] & s2 & Hn%NotifyIfActiveWebStateChanged_tells & He).
  injection He as _ <-. etransitivity; [|apply tells_emit; discriminate].
  etransitivity; [|exact Hn]. apply tells_change; [done|by rewrite Ew in *|].
  unfold web_states. cbn. by rewrite list_fmap_insert.
Qed.

Lemma DetachWebStateAtImpl_tells i : keeps tells (DetachWebStateAtImpl i).
Proof.
  intros s ws s' He. unfold DetachWebStateAtImpl in He. open_code He.
  match goal with Hw : zlookup _ i = Some ?x |- _ => apply in_wrappers in Hw as Hold; rename x into w end.
  set (ev := WillDetachWebStateAt (WebStateWrapper.web_state_ w) i) in *.
  transitivity (notify ev s); [by apply tells_told|].
  apply mbind_ok in He as (j & s1 & Hs1%DetermineNewActiveIndex_silent & He). open_code He.
  apply mbind_ok in He as ([] & s2 & Hs2%ClearOpenersReferencing_silent & He).
  assert (silent (notify ev s) s2) as [El Ew]
    by (etransitivity; [exact Hs1|exact Hs2]).
  open_code He. apply mbind_ok in He as ([] & s3 & Hn & He). injection He as _ <-.
  etransitivity; [|apply tells_emit; discriminate].
  assert (keeps tells (mwhen (i =? active_index_ s)%Z
    (NotifyIfActiveWebStateChanged (Some (WebStateWrapper.web_state_ w)) Closed))) as Hk
    by (by apply keeps_when; [typeclasses eauto|apply NotifyIfActiveWebStateChanged_tells]).
  apply Hk in Hn. etransitivity; [|exact Hn]. apply tells_change; [done..|].
  change (ids (erase_at (Z.to_nat i) (web_state_wrappers_ s2)) = erase_at (Z.to_nat i) (web_states s)).
  change (web_states s) with (web_states (notify ev s)).
  rewrite <- Ew. unfold web_states. by rewrite erase_at_fmap.
Qed.

Hint Resolve MoveWebStateAtImpl_tells DetachWebStateAtImpl_tells : code.

Lemma CloseWebStateAtImpl_tells i flags : keeps tells (CloseWebStateAtImpl i flags).
Proof. through @CloseWebStateAtImpl. Qed.

Lemma close_loop_tells fuel flags : keeps tells (close_loop fuel flags).
Proof.
  induction fuel as [| fuel IH]; cbn [close_loop];
    repeat first [apply IH | apply CloseWebStateAtImpl_tells | code_step].
Qed.
Hint Resolve CloseWebStateAtImpl_tells close_loop_tells : code.

Lemma with_batch_tells b s : tells s (with_batch b s).
Proof. by apply silent_tells. Qed.
Lemma with_locked_tells b s : tells s (with_locked b s).
Proof. by apply silent_tells. Qed.
Hint Resolve with_batch_tells with_locked_tells : code.

(** A batch tells what its operation tells. *)
Lemma PerformBatchOperation_tells op s s' :
  (forall s1 s2, s1 = notify WillBeginBatchOperation (with_batch true s) ->
     op s1 = Ok (tt, s2) -> tells s1 s2) ->
  PerformBatchOperation (Some op) s = Ok (tt, s') -> tells s s'.
Proof.
  intros Hop He. unfold PerformBatchOperation in He. open_code He.
  apply mbind_ok in He as ([] & s2 & Hs2 & He). apply Hop in Hs2; [|done]. injection He as <-.
  transitivity (with_batch true s); [by apply silent_tells|].
  transitivity (notify WillBeginBatchOperation (with_batch true s)); [by apply tells_told|].
  transitivity s2; [done|]. transitivity (notify BatchOperationEnded s2); [by apply tells_told|].
  by apply silent_tells.
Qed.

Lemma CloseAllWebStatesImpl_tells flags : keeps tells (CloseAllWebStatesImpl flags).
Proof.
  intros s [] s' He. unfold CloseAllWebStatesImpl in He.
  rewrite (mbind_run mget _ _ _ _ eq_refl) in He.
  apply mbind_ok in He as (? & ? & [-> _]%dcheck_ok & He).
  eapply PerformBatchOperation_tells; [|exact He]. intros s1 s2 _ Hs.
  cut (keeps tells (ActivateWebStateAtImpl kInvalidIndex Closed ;;;
     let! s := mget in close_loop (S (length (web_state_wrappers_ s))) flags));
    [intros Hk; exact (Hk _ _ _ Hs)|].
  repeat code_step.
Qed.

Lemma LockForMutation_ok {A} (m : M t A) s a s' :
  LockForMutation m s = Ok (a, s') ->
  exists s1, m (with_locked true s) = Ok (a, s1) /\ s' = with_locked (locked_ s) s1.
Proof.
  unfold LockForMutation. intros He. rewrite (mbind_run mget _ _ _ _ eq_refl) in He.
  apply mbind_ok in He as ([] & s0 & Hc & He). unfold check in Hc.
  destruct (negb (locked_ s)); [|done]. injection Hc as <-.
  rewrite (mbind_run (mmodify _) _ _ tt _ eq_refl) in He.
  apply mbind_ok in He as (x & s1 & Hm & [= -> <-]). by exists s1.
Qed.

Lemma LockForMutation_tells {A} (m : M t A) s a s' :
  (forall s1, m (with_locked true s) = Ok (a, s1) -> tells (with_locked true s) s1) ->
  LockForMutation m s = Ok (a, s') -> tells s s'.
Proof.
  intros Hm (s1 & He & ->)%LockForMutation_ok. apply Hm in He.
  transitivity (with_locked true s); [by apply silent_tells|].
  transitivity s1; [done|]. by apply silent_tells.
Qed.

(** The insertion. *)
Lemma set_should_reset_silent i (inherit : bool) :
  keeps silent (mwhen inherit
    (let! s := mget in
     let! w := of_option (zlookup (web_state_wrappers_ s) i) in
     mmodify (with_wrappers
       (<[Z.to_nat i := WebStateWrapper.SetShouldResetOpenerOnActiveWebStateChange w true]>
          (web_state_wrappers_ s))))).
Proof.
  apply keeps_when; [typeclasses eauto|]. intros s [] s' He. open_code He. injection He as <-.
  by eapply set_wrapper_silent.
Qed.

Lemma InsertWebStateImpl_tells index ws flags opener s i s' :
  ws ∉ web_states s -> InsertWebStateImpl index ws flags opener s = Ok (i, s') -> tells s s'.
Proof.
  intros Hf He. unfold InsertWebStateImpl in He. open_code He.
  apply mbind_ok in He as (o & s1 & Ho & He). apply mbind_ok in He as (j & s2 & Hj & He).
  assert (silent s s2) as Hs.
  { transitivity s1; [revert Ho|revert Hj].
    - match goal with |- ?m _ = _ -> _ => cut (keeps silent m); [intros Hk; apply Hk|] end.
      repeat code_step.
    - match goal with |- ?m _ = _ -> _ => cut (keeps silent m); [intros Hk; apply Hk|] end.
      repeat code_step. }
  clear Ho Hj. transitivity s2; [by apply silent_tells|].
  assert (ws ∉ web_states s2) as Hf2 by (by destruct Hs as [_ ->]). clear Hf.
  open_code He. apply mbind_ok in He as ([] & s3 & [El Ew]%set_should_reset_silent & He).
  open_code He. apply mbind_ok in He as ([] & s4 & H4 & He).
  apply mbind_ok in He as ([] & s5 & H5 & He). injection He as _ <-.
  transitivity (emit (WillAddWebState ws) s2); [by apply tells_emit|].
  assert (0 <= j <= Z.of_nat (length (web_states s2)))%Z as Hj.
  { rewrite length_web_states. match goal with Hc : _ || _ = true |- _ => revert Hc end.
    rewrite orb_true_iff, ContainsIndex_spec, Z.eqb_eq. unfold count. lia. }
  transitivity (notify (WebStateInsertedAt ws j (IsInsertionFlagSet flags INSERT_ACTIVATE)) s3).
  - apply tells_change; [rewrite El; by case_match|done|]. rewrite Ew.
    transitivity (ids (insert_at (Z.to_nat j) (WebStateWrapper.create ws) (web_state_wrappers_ s2)));
      [by case_match|]. by rewrite insert_at_fmap.
  - transitivity s4; [revert H4|revert H5];
      (match goal with |- ?m _ = _ -> _ => cut (keeps tells m); [intros Hk; apply Hk|] end);
      repeat code_step.
Qed.

(** ** Every legal call tells its observers what it does *)

Lemma exec_tells_single c s s' :
  (forall calls, c <> Batch calls) -> legal c s -> exec c s = Ok (tt, s') -> tells s s'.
Proof.
  intros Hnb Hl He. destruct c as [i ws flags o|from to|i ws|i|i flags|flags|i|i o|calls];
    cbn [exec legal] in He, Hl;
    try (apply mbind_ok in He as (x & s1 & He & [= <-]); revert He; apply LockForMutation_tells;
         intros s2 H2; revert H2);
    try (revert He; apply LockForMutation_tells; intros s2 H2; revert H2).
  - apply InsertWebStateImpl_tells, Hl.
  - apply MoveWebStateAtImpl_tells.
  - apply ReplaceWebStateAtImpl_tells, Hl.
  - apply DetachWebStateAtImpl_tells.
  - apply CloseWebStateAtImpl_tells.
  - apply CloseAllWebStatesImpl_tells.
  - unfold ActivateWebStateAt in He. rewrite (mbind_run mget _ _ _ _ eq_refl) in He.
    apply mbind_ok in He as (? & ? & [-> _]%dcheck_ok & He). revert He.
    apply LockForMutation_tells. intros s2. apply ActivateWebStateAtImpl_tells.
  - by apply silent_tells, (SetOpenerOfWebStateAt_silent _ _ _ _ _ He).
  - by edestruct Hnb.
Qed.

Lemma exec_tells c : forall s s', legal c s -> exec c s = Ok (tt, s') -> tells s s'.
Proof.
  induction c as [calls IH|c Hc] using Call_rect'; intros s s' Hl He;
    [|by eapply exec_tells_single].
  destruct Hl as [_ Hl]. eapply (PerformBatchOperation_tells (exec_all calls)); [|exact He].
  intros s1 s2 -> H2. change (legal_all calls (notify WillBeginBatchOperation (with_batch true s))) in Hl.
  revert Hl H2. generalize (notify WillBeginBatchOperation (with_batch true s)).
  clear He s s'. induction IH as [| c calls Hc _ IHl]; intros s Hla H2; [by injection H2 as <-|]. destruct Hla as [Hlc Hla].
  apply mbind_ok in H2 as ([] & s1 & Hs1 & H2). transitivity s1; eauto.
Qed.

End Code.

End WebStateListTracking.
