(* ===== verification/SessionMetrics.v ===== *)
(** * The metrics of the tabs

    How many tabs were opened, closed and activated
    (src/chrome/browser/web_state_list/session_metrics.{h,cc}), counted for each
    browser state by an observer of the WebStateLists of its browsers
    (web_state_list_metrics_browser_agent.{h,mm}), which also observes the
    WebStates of the list through a forwarder
    (all_web_state_observation_forwarder.{h,mm}). The lists are those of
    WebStateListOps.v: an observer handles the notifications of a call. *)

From stdpp Require Import base tactics option list numbers strings gmap.
From Stdlib Require Import ZArith Lia.
From S2P Require Import Prelude WebStateListModel WebStateListOps WebStateListProofs.
From S2P Require Import WebStateListTheorems WebStateListTracking.

(** The identity of a [ChromeBrowserState], and that of the [SessionMetrics]
    attached to it; the identity of a [Browser]. *)
Definition BrowserStateId : Type := positive.
Definition BrowserId : Type := positive.

Module SessionMetrics.

(** [enum class MetricsToRecordFlags], a set of them is a number. *)
Inductive MetricsToRecordFlags : Type :=
| kNoMetrics | kClosedTabCount | kOpenedTabCount | kActivatedTabCount.

Definition flag_value (flag : MetricsToRecordFlags) : Z :=
  match flag with
  | kNoMetrics => 0
  | kClosedTabCount => Z.shiftl 1 0
  | kOpenedTabCount => Z.shiftl 1 1
  | kActivatedTabCount => Z.shiftl 1 2
  end.

Definition MetricsToRecordFlagSet : Type := Z.

Definition flag_and (set : MetricsToRecordFlagSet) (flag : MetricsToRecordFlags) : bool :=
  negb (Z.land set (flag_value flag) =? 0)%Z.
Definition flag_or (set : MetricsToRecordFlagSet) (flag : MetricsToRecordFlags) :
    MetricsToRecordFlagSet := Z.lor set (flag_value flag).
Definition flags_or (lhs rhs : MetricsToRecordFlags) : MetricsToRecordFlagSet :=
  Z.lor (flag_value lhs) (flag_value rhs).

(** The counters are [unsigned int]. *)
Record t : Type := mk {
  inserted_web_state_counter_ : Z;
  detached_web_state_counter_ : Z;
  activated_web_state_counter_ : Z
}.

Definition create : t := mk 0 0 0.

Definition OnWebStateInserted (m : t) : t :=
  mk (uint32 (inserted_web_state_counter_ m + 1)) (detached_web_state_counter_ m)
     (activated_web_state_counter_ m).
Definition OnWebStateDetached (m : t) : t :=
  mk (inserted_web_state_counter_ m) (uint32 (detached_web_state_counter_ m + 1))
     (activated_web_state_counter_ m).
Definition OnWebStateActivated (m : t) : t :=
  mk (inserted_web_state_counter_ m) (detached_web_state_counter_ m)
     (uint32 (activated_web_state_counter_ m + 1)).

Definition ResetSessionMetrics (m : t) : t := mk 0 0 0.

(** A call of [UMA_HISTOGRAM_CUSTOM_COUNTS]. *)
Record Sample : Type := mkSample {
  histogram : string; sample : Z; minimum : Z; maximum : Z; bucket_count : Z
}.

(** The samples it records, and the counters it leaves. *)
Definition RecordAndClearSessionMetrics (flag_set : MetricsToRecordFlagSet) (m : t) :
    list Sample * t :=
  ((if flag_and flag_set kOpenedTabCount
    then [mkSample "Session.NewTabCounts" (inserted_web_state_counter_ m) 1 200 50] else []) ++
   (if flag_and flag_set kClosedTabCount
    then [mkSample "Session.ClosedTabCounts" (detached_web_state_counter_ m) 1 200 50] else []) ++
   (if flag_and flag_set kActivatedTabCount
    then [mkSample "Session.OpenedTabCounts" (activated_web_state_counter_ m) 1 200 50] else []),
   ResetSessionMetrics m).

(** The overload with one flag. *)
Definition RecordAndClearSessionMetrics_flag (flag : MetricsToRecordFlags) :
    t -> list Sample * t := RecordAndClearSessionMetrics (flag_value flag).

End SessionMetrics.

Module AllWebStateObservationForwarder.
Import WebStateListOps WebStateListTracking.

(** [web_state_observations_], a [base::ScopedMultiSourceObservation]: the
    sources observed. *)
Definition t : Type := list WebStateId.

(** An observer is added to a source once, and removed only when it was added. *)
Definition AddObservation (web_state : WebStateId) : M t unit :=
  let! sources := mget in
  dcheck (negb (bool_decide (web_state ∈ sources))) ;;;
  mmodify (fun sources => sources ++ [web_state]).

Definition RemoveObservation (web_state : WebStateId) : M t unit :=
  let! sources := mget in
  dcheck (bool_decide (web_state ∈ sources)) ;;;
  mmodify (filter (fun x => x <> web_state)).

(** The constructor, on a list with the WebStates [web_states]. *)
Definition create (web_states : list WebStateId) : M t unit :=
  mfor web_states AddObservation.

(** The observer of the list. *)
Definition handle (e : WebStateListEvent) : M t unit :=
  match e with
  | WebStateInsertedAt web_state _ _ => AddObservation web_state
  | WebStateReplacedAt old_web_state new_web_state _ =>
      RemoveObservation old_web_state ;;; AddObservation new_web_state
  | WebStateDetachedAt web_state _ => RemoveObservation web_state
  | WebStateMoved _ _ _ | WillDetachWebStateAt _ _ | WillCloseWebStateAt _ _ _
  | WebStateActivatedAt _ _ _ _ | WillBeginBatchOperation | BatchOperationEnded => mreturn tt
  end.

End AllWebStateObservationForwarder.

Module WebStateListMetricsBrowserAgent.
Import WebStateList WebStateListOps WebStateListTheorems WebStateListTracking.

(** ** The state

    The agent of a browser: whether it has its [web_state_list_], the
    SessionMetrics it points to, and its forwarder. *)
Record Agent : Type := mkAgent {
  web_state_list_ : bool;
  session_metrics_ : BrowserStateId;
  metric_collection_paused_ : bool;
  web_state_forwarder_ : option AllWebStateObservationForwarder.t
}.

(** A [Browser]: the browser state it was made for, its list and its agent. *)
Record Browser : Type := mkBrowser {
  browser_state : BrowserStateId;
  web_state_list : WebStateList.t;
  user_data : option Agent
}.

(** What is reported: a user action, a sample with the SessionMetrics it comes
    from, the number of tabs when a page is loaded, the main frame navigations,
    the orientation, and the reset of the count of failed startups. *)
Inductive Report : Type :=
| RecordAction (action : string)
| SessionSample (source : BrowserStateId) (s : SessionMetrics.Sample)
| TabCountPerLoad (s : SessionMetrics.Sample)
| RecordPrimaryMainFrameNavigation (url : string) (is_same_document is_off_the_record : bool)
    (profile_type : Z)
| PageLoadInPortrait (yes : bool)
| ResetFailedStartupAttemptCount.

(** The application: the SessionMetrics attached to each browser state, the
    browsers, the reports (oldest first), and the [dispatch_once_t] of
    [DidStartNavigation]. *)
Record World : Type := mkWorld {
  metrics : gmap BrowserStateId SessionMetrics.t;
  browsers : gmap BrowserId Browser;
  reports : list Report;
  dispatch_once_token : bool
}.

Definition empty_world : World := mkWorld ∅ ∅ [] false.

Definition with_metrics (v : gmap BrowserStateId SessionMetrics.t) (w : World) : World :=
  mkWorld v (browsers w) (reports w) (dispatch_once_token w).
Definition with_browser (a : BrowserId) (b : Browser) (w : World) : World :=
  mkWorld (metrics w) (<[a := b]> (browsers w)) (reports w) (dispatch_once_token w).
Definition report (r : list Report) (w : World) : World :=
  mkWorld (metrics w) (browsers w) (reports w ++ r) (dispatch_once_token w).
Definition with_dispatch_once_token (v : bool) (w : World) : World :=
  mkWorld (metrics w) (browsers w) (reports w) v.

Definition with_paused (v : bool) (g : Agent) : Agent :=
  mkAgent (web_state_list_ g) (session_metrics_ g) v (web_state_forwarder_ g).
Definition with_forwarder (v : option AllWebStateObservationForwarder.t) (g : Agent) : Agent :=
  mkAgent (web_state_list_ g) (session_metrics_ g) (metric_collection_paused_ g) v.
Definition with_user_data (v : option Agent) (b : Browser) : Browser :=
  mkBrowser (browser_state b) (web_state_list b) v.
Definition with_web_state_list (v : WebStateList.t) (b : Browser) : Browser :=
  mkBrowser (browser_state b) v (user_data b).

(** ** The operations *)

(** [SessionMetrics::FromBrowserState] *)
Definition FromBrowserState (bs : BrowserStateId) : M World BrowserStateId :=
  let! w := mget in
  match metrics w !! bs with
  | None => mmodify (with_metrics (<[bs := SessionMetrics.create]> (metrics w)))
  | Some _ => mreturn tt
  end ;;;
  let! w := mget in
  dcheck (bool_decide (is_Some (metrics w !! bs))) ;;;
  mreturn bs.

(** [session_metrics->f()] *)
Definition on_metrics (p : BrowserStateId) (f : SessionMetrics.t -> list SessionMetrics.Sample * SessionMetrics.t) :
    M World unit :=
  let! w := mget in
  let! m := deref (metrics w !! p) in
  mmodify (with_metrics (<[p := snd (f m)]> (metrics w))) ;;;
  mmodify (report (SessionSample p <$> fst (f m))).

Definition get_browser (a : BrowserId) : M World Browser :=
  let! w := mget in deref (browsers w !! a).

Definition get_agent (a : BrowserId) : M World Agent :=
  let! b := get_browser a in deref (user_data b).

Definition modify_agent (a : BrowserId) (f : Agent -> Agent) : M World unit :=
  let! b := get_browser a in
  let! g := deref (user_data b) in
  mmodify (with_browser a (with_user_data (Some (f g)) b)).

(** A method of the forwarder of the agent, when it has one. *)
Definition on_forwarder (a : BrowserId) (m : M AllWebStateObservationForwarder.t unit) : M World unit :=
  let! g := get_agent a in
  match web_state_forwarder_ g with
  | None => mreturn tt
  | Some sources =>
      match m sources with
      | Ok (_, sources') => modify_agent a (with_forwarder (Some sources'))
      | Fault f => mfail f
      end
  end.

Definition WebStateInsertedAt (a : BrowserId) : M World unit :=
  let! g := get_agent a in
  if metric_collection_paused_ g then mreturn tt else
  mmodify (report [RecordAction "MobileNewTabOpened"]) ;;;
  on_metrics (session_metrics_ g) (fun m => ([], SessionMetrics.OnWebStateInserted m)).

Definition WebStateDetachedAt (a : BrowserId) : M World unit :=
  let! g := get_agent a in
  if metric_collection_paused_ g then mreturn tt else
  mmodify (report [RecordAction "MobileTabClosed"]) ;;;
  on_metrics (session_metrics_ g) (fun m => ([], SessionMetrics.OnWebStateDetached m)).

Definition WebStateActivatedAt (a : BrowserId) (reason : ActiveWebStateChangeReason) : M World unit :=
  let! g := get_agent a in
  if metric_collection_paused_ g then mreturn tt else
  on_metrics (session_metrics_ g) (fun m => ([], SessionMetrics.OnWebStateActivated m)) ;;;
  if bool_decide (reason = Replaced) then mreturn tt else
  mmodify (report [RecordAction "MobileTabSwitched"]).

(** The agent as an observer of the list. *)
Definition handle (a : BrowserId) (e : WebStateListEvent) : M World unit :=
  match e with
  | WebStateListModel.WebStateInsertedAt _ _ _ => WebStateInsertedAt a
  | WebStateListModel.WebStateDetachedAt _ _ => WebStateDetachedAt a
  | WebStateListModel.WebStateActivatedAt _ _ _ reason => WebStateActivatedAt a reason
  | WebStateMoved _ _ _ | WebStateReplacedAt _ _ _ | WillDetachWebStateAt _ _
  | WillCloseWebStateAt _ _ _ | WillBeginBatchOperation | BatchOperationEnded => mreturn tt
  end.

(** A notification of the list: its observers are the agent, then the
    forwarder, as the constructor added them. *)
Definition notified (a : BrowserId) (e : WebStateListEvent) : M World unit :=
  handle a e ;;;
  on_forwarder a (AllWebStateObservationForwarder.handle e).

(** The constructor and [CreateForBrowser]. *)
Definition CreateForBrowser (a : BrowserId) (session_metrics : BrowserStateId) : M World unit :=
  let! b := get_browser a in
  match user_data b with
  | Some _ => mreturn tt
  | None =>
      match AllWebStateObservationForwarder.create (web_states (web_state_list b)) [] with
      | Ok (_, sources) =>
          mmodify (with_browser a (with_user_data (Some (mkAgent true session_metrics false (Some sources))) b))
      | Fault f => mfail f
      end
  end.

Definition WillStartSessionRestoration (a : BrowserId) : M World unit :=
  modify_agent a (with_paused true).

Definition SessionRestorationFinished (a : BrowserId) : M World unit :=
  modify_agent a (with_paused false).

Definition BrowserDestroyed (a : BrowserId) : M World unit :=
  let! g := get_agent a in
  dcheck (web_state_list_ g) ;;;
  modify_agent a (with_forwarder None) ;;;
  modify_agent a (fun g =>
    mkAgent false (session_metrics_ g) (metric_collection_paused_ g) (web_state_forwarder_ g)).

(** *** The observer of the WebStates *)

Definition kChromeUINewTabHost : string := "newtab".

(** [host_piece] is that of the URL of the context. *)
Definition DidStartNavigation (host_piece : string) : M World unit :=
  if bool_decide (host_piece = kChromeUINewTabHost) then mreturn tt else
  let! w := mget in
  if dispatch_once_token w then mreturn tt else
  mmodify (with_dispatch_once_token true) ;;;
  mmodify (report [ResetFailedStartupAttemptCount]).

(** The arguments are what the context, the browser state and the last
    committed item say; [GURL::EmptyGURL()] is the empty string. *)
Definition DidFinishNavigation (a : BrowserId) (has_committed is_same_document is_off_the_record : bool)
    (last_committed_virtual_url : option string) (profile_type : Z) : M World unit :=
  if negb has_committed then mreturn tt else
  let! b := get_browser a in
  mwhen (negb is_same_document && negb is_off_the_record)
    (let tab_count := to_int (WebStateList.count (web_state_list b)) in
     mmodify (report [TabCountPerLoad
       (SessionMetrics.mkSample "Tabs.TabCountPerLoad" tab_count 1 200 50)])) ;;;
  mmodify (report [RecordPrimaryMainFrameNavigation (default ""%string last_committed_virtual_url)
    is_same_document is_off_the_record profile_type]).

Inductive UIInterfaceOrientation : Type :=
| UIInterfaceOrientationUnknown
| UIInterfaceOrientationPortrait
| UIInterfaceOrientationPortraitUpsideDown
| UIInterfaceOrientationLandscapeLeft
| UIInterfaceOrientationLandscapeRight.

Definition PageLoaded (orientation : UIInterfaceOrientation) : M World unit :=
  match orientation with
  | UIInterfaceOrientationPortrait | UIInterfaceOrientationPortraitUpsideDown =>
      mmodify (report [PageLoadInPortrait true])
  | UIInterfaceOrientationLandscapeLeft | UIInterfaceOrientationLandscapeRight =>
      mmodify (report [PageLoadInPortrait false])
  | UIInterfaceOrientationUnknown => mreturn tt
  end.

(** ** The application *)

(** The part of [AttachBrowserAgents] that is about this agent, and
    [Browser::Create]. *)
Definition AttachBrowserAgents (a : BrowserId) : M World unit :=
  let! b := get_browser a in
  let! session_metrics := FromBrowserState (browser_state b) in
  CreateForBrowser a session_metrics.

Definition Browser_Create (a : BrowserId) (bs : BrowserStateId) : M World unit :=
  mmodify (with_browser a (mkBrowser bs WebStateList.create None)) ;;;
  AttachBrowserAgents a.

Section Actions.
Context `{WebStateEnv}.

(** What happens: a browser is made ([Browser::Create] and
    [AttachBrowserAgents]), its list is called, the agent that restores the
    session calls its observers, the browser is destroyed; the metrics of a
    browser state are recorded; a WebState tells the observers it has. *)
Inductive Action : Type :=
| CreateBrowser (a : BrowserId) (bs : BrowserStateId)
| CallList (a : BrowserId) (c : Call)
| WillRestore (a : BrowserId)
| RestoreFinished (a : BrowserId)
| DestroyBrowser (a : BrowserId)
| RecordAndClear (bs : BrowserStateId) (flag_set : SessionMetrics.MetricsToRecordFlagSet)
| StartNavigation (a : BrowserId) (host_piece : string)
| FinishNavigation (a : BrowserId) (has_committed is_same_document is_off_the_record : bool)
    (last_committed_virtual_url : option string) (profile_type : Z)
| LoadPage (a : BrowserId) (orientation : UIInterfaceOrientation).

(** The notifications among the effects of a call, to the observers. *)
Fixpoint deliver (a : BrowserId) (effects : list Effect) : M World unit :=
  match effects with
  | [] => mreturn tt
  | Notify e _ _ :: rest => notified a e ;;; deliver a rest
  | _ :: rest => deliver a rest
  end.

(** A call of the list of [a]. While the agent observes the list it handles
    each notification; the list is locked meanwhile and the handlers only read
    the agent, so that handling them after the call is the same. *)
Definition call_list (a : BrowserId) (c : Call) : M World unit :=
  let! b := get_browser a in
  match exec c (web_state_list b) with
  | Fault f => mfail f
  | Ok (_, l') =>
      mmodify (with_browser a (with_web_state_list l' b)) ;;;
      match user_data b with
      | Some g =>
          mwhen (web_state_list_ g) (deliver a (drop (length (log (web_state_list b))) (log l')))
      | None => mreturn tt
      end
  end.

Definition perform (x : Action) : M World unit :=
  match x with
  | CreateBrowser a bs => Browser_Create a bs
  | CallList a c => call_list a c
  | WillRestore a => WillStartSessionRestoration a
  | RestoreFinished a => SessionRestorationFinished a
  | DestroyBrowser a => BrowserDestroyed a
  | RecordAndClear bs flag_set =>
      let! p := FromBrowserState bs in
      on_metrics p (SessionMetrics.RecordAndClearSessionMetrics flag_set)
  | StartNavigation _ host_piece => DidStartNavigation host_piece
  | FinishNavigation a has_committed is_same_document is_off_the_record url profile_type =>
      DidFinishNavigation a has_committed is_same_document is_off_the_record url profile_type
  | LoadPage _ orientation => PageLoaded orientation
  end.

Definition perform_all (l : list Action) : M World unit := mfor l perform.

(** ** What the counters say *)

Definition metrics_of (p : BrowserStateId) (w : World) : SessionMetrics.t :=
  default SessionMetrics.create (metrics w !! p).

Definition sum (l : list Z) : Z := foldr Z.add 0%Z l.

(** The samples of a histogram that the metrics [p] recorded. *)
Definition sampled (p : BrowserStateId) (name : string) (l : list Report) : list Z :=
  omap (fun r => match r with
    | SessionSample p' s =>
        if bool_decide (p' = p) && bool_decide (SessionMetrics.histogram s = name)
        then Some (SessionMetrics.sample s) else None
    | _ => None
    end) l.

(** The tabs it counted: those recorded, and those of the counter. *)
Definition opened (p : BrowserStateId) (w : World) : Z :=
  sum (sampled p "Session.NewTabCounts" (reports w)) +
  SessionMetrics.inserted_web_state_counter_ (metrics_of p w).
Definition closed (p : BrowserStateId) (w : World) : Z :=
  sum (sampled p "Session.ClosedTabCounts" (reports w)) +
  SessionMetrics.detached_web_state_counter_ (metrics_of p w).

Definition balance (p : BrowserStateId) (w : World) : Z := opened p w - closed p w.

(** The tabs in the browsers of a browser state. *)
Definition tabs_of (p : BrowserStateId) (b : Browser) : Z :=
  if bool_decide (browser_state b = p) then WebStateList.count (web_state_list b) else 0%Z.
Definition tabs (p : BrowserStateId) (w : World) : Z :=
  map_fold (fun _ b n => (tabs_of p b + n)%Z) 0%Z (browsers w).

(** An agent that observes its list. *)
Definition alive (a : BrowserId) (b : Browser) (g : Agent) (w : World) : Prop :=
  browsers w !! a = Some b /\ user_data b = Some g /\ web_state_list_ g = true.

(** When an action can happen. *)
Definition possible (x : Action) (w : World) : Prop :=
  match x with
  | CreateBrowser a _ => browsers w !! a = None
  | CallList a c => exists b g, alive a b g w /\ legal c (web_state_list b)
  | WillRestore a | RestoreFinished a | DestroyBrowser a | StartNavigation a _
  | FinishNavigation a _ _ _ _ _ | LoadPage a _ => exists b g, alive a b g w
  | RecordAndClear _ _ => True
  end.

Fixpoint all_possible (l : list Action) (w : World) : Prop :=
  match l with
  | [] => True
  | x :: l' => possible x w /\ forall w', perform x w = Ok (tt, w') -> all_possible l' w'
  end.

(** The calls whose notifications are not counted: those of a restoration. *)
Definition uncounted (x : Action) (w : World) : bool :=
  match x with
  | CallList a _ =>
      match browsers w !! a with
      | Some b => match user_data b with Some g => metric_collection_paused_ g | None => true end
      | None => true
      end
  | _ => false
  end.

(** How many tabs of [p] they add. *)
Fixpoint restored (p : BrowserStateId) (l : list Action) (w : World) : Z :=
  match l with
  | [] => 0
  | x :: l' =>
      match perform x w with
      | Ok (_, w') => (if uncounted x w then tabs p w' - tabs p w else 0) + restored p l' w'
      | Fault _ => 0
      end
  end.

(** The counts, opened less closed, that a clearing of the metrics of [p] does not
    record. *)
Definition unrecorded (p : BrowserStateId) (x : Action) (w : World) : Z :=
  match x with
  | RecordAndClear bs flag_set =>
      if bool_decide (bs = p) then
        (if SessionMetrics.flag_and flag_set SessionMetrics.kOpenedTabCount then 0
         else SessionMetrics.inserted_web_state_counter_ (metrics_of p w)) -
        (if SessionMetrics.flag_and flag_set SessionMetrics.kClosedTabCount then 0
         else SessionMetrics.detached_web_state_counter_ (metrics_of p w))
      else 0
  | _ => 0
  end.
Fixpoint discarded (p : BrowserStateId) (l : list Action) (w : World) : Z :=
  match l with
  | [] => 0
  | x :: l' => match perform x w with Ok (_, w') => unrecorded p x w + discarded p l' w' | Fault _ => 0 end
  end.

End Actions.

End WebStateListMetricsBrowserAgent.
