(* ===== verification/SessionMetricsTheorems.v ===== *)
(** * The metrics of the tabs: the theorems

    The forwarder of an agent observes exactly the WebStates of the list, and
    the counters of a browser state account for every tab of its browsers,
    whatever the calls, restorations and recordings. *)

From stdpp Require Import base tactics option list numbers strings gmap.
From Stdlib Require Import ZArith Lia.
From S2P Require Import Prelude WebStateListModel OrderController WebStateListOps WebStateListProofs.
From S2P Require Import WebStateListTheorems WebStateListTracking SessionMetrics.

Module ForwarderProofs.
Import WebStateListOps WebStateListTracking AllWebStateObservationForwarder.

Lemma AddObservation_run ws s :
  ws ∉ s -> AddObservation ws s = Ok (tt, s ++ [ws]).
Proof.
  intros Hn. unfold AddObservation. rewrite (mbind_run mget _ _ _ _ eq_refl).
  unfold dcheck, mbind. by rewrite bool_decide_false.
Qed.

Lemma RemoveObservation_run ws s :
  ws ∈ s -> RemoveObservation ws s = Ok (tt, filter (fun x => x <> ws) s).
Proof.
  intros Hi. unfold RemoveObservation. rewrite (mbind_run mget _ _ _ _ eq_refl).
  unfold dcheck, mbind. by rewrite bool_decide_true.
Qed.

(** Taking the WebState at [i] out of the sources. *)
Lemma filter_erase (l : list WebStateId) i ws :
  NoDup l -> zlookup l i = Some ws -> filter (fun x => x <> ws) l ≡ₚ erase_at (Z.to_nat i) l.
Proof.
  intros Hnd [_ (l1 & l2 & -> & <-)%split_at]%zlookup_Some.
  rewrite erase_at_split, filter_app, filter_cons_False by tauto.
  apply NoDup_app in Hnd as (_ & Hd & [Hx _]%NoDup_cons).
  by rewrite !filter_all by (intros y Hy ->; set_solver).
Qed.

(** One notification keeps the sources the WebStates of the list. *)
Lemma forward_run l e s :
  NoDup l -> applies l e -> s ≡ₚ l ->
  exists s', handle e s = Ok (tt, s') /\ s' ≡ₚ after l e /\ NoDup (after l e).
Proof.
  intros Hnd Ha Hs. unfold after. destruct e as [ws i a|ws from to|old new i| |ws i| | | |];
    cbn [applies mirror_event mirror_states handle] in *; try by eexists.
  - destruct Ha as [Hf _]. eexists. split; [by apply AddObservation_run; rewrite Hs|].
    split; [by rewrite Hs, insert_at_Permutation, Permutation_app_comm|by apply NoDup_insert_at].
  - destruct Ha as [[_ Hf]%zlookup_Some _]. assert (insert_at (Z.to_nat to) ws
      (erase_at (Z.to_nat from) l) ≡ₚ l) as Hp
      by (by rewrite insert_at_Permutation, <- erase_at_Permutation).
    eexists. split; [done|]. by rewrite Hp.
  - destruct Ha as [Ho Hn]. pose proof Ho as [_ Hi]%zlookup_Some.
    assert (<[Z.to_nat i := new]> l ≡ₚ new :: erase_at (Z.to_nat i) l) as Hp.
    { apply split_at in Hi as (l1 & l2 & -> & <-). rewrite erase_at_split.
      rewrite insert_app_r_alt, Nat.sub_diag by lia. cbn. by rewrite <- Permutation_middle. }
    assert (old ∈ s) as Hin by (rewrite Hs; by apply list_elem_of_lookup_2 in Hi).
    rewrite (mbind_run _ _ _ _ _ (RemoveObservation_run old s Hin)). clear Hin.
    eexists. split; [apply AddObservation_run; intros [_ Hin]%list_elem_of_filter; by rewrite Hs in Hin|].
    rewrite Hp. split; [by rewrite Hs, Permutation_app_comm, (filter_erase l i old)|].
    apply NoDup_cons. split; [|by eapply NoDup_erase_at].
    rewrite elem_of_erase_at by done. tauto.
  - pose proof Ha as [_ Hi]%zlookup_Some.
    eexists. split; [apply RemoveObservation_run; rewrite Hs; by eapply list_elem_of_lookup_2|].
    split; [by rewrite Hs, filter_erase|by eapply NoDup_erase_at].
Qed.

End ForwarderProofs.

Module SessionMetricsTheorems.
Import WebStateList WebStateListOps WebStateListTheorems WebStateListTracking.
Import WebStateListMetricsBrowserAgent.

(** ** Counting *)

(** Equality of 32-bit numbers. *)
Definition eqm (x y : Z) : Prop := exists k, (x = y + k * 2 ^ 32)%Z.

#[global] Instance eqm_equivalence : Equivalence eqm.
Proof.
  split.
  - intros x. exists 0%Z. lia.
  - intros x y [k ->]. exists (- k)%Z. lia.
  - intros x y z [k ->] [k' ->]. exists (k + k')%Z. lia.
Qed.

Lemma eqm_uint32 x : eqm (uint32 x) x.
Proof. exists (- (x / 2 ^ 32))%Z. unfold uint32. pose proof (Z.div_mod x (2 ^ 32)). lia. Qed.

Lemma sum_app l l' : sum (l ++ l') = (sum l + sum l')%Z.
Proof. induction l as [| x l IH]; cbn; [done|]. unfold sum in *. lia. Qed.

Lemma sampled_app p name l l' : sampled p name (l ++ l') = sampled p name l ++ sampled p name l'.
Proof. apply omap_app. Qed.

#[local] Arguments sampled : simpl never.
#[local] Arguments sum : simpl never.

Definition net (m : SessionMetrics.t) : Z :=
  SessionMetrics.inserted_web_state_counter_ m - SessionMetrics.detached_web_state_counter_ m.

(** What a SessionMetrics and the samples it recorded stand for. *)
Definition worth (f : list SessionMetrics.Sample * SessionMetrics.t) (p : BrowserStateId) : Z :=
  sum (sampled p "Session.NewTabCounts" (SessionSample p <$> fst f)) -
  sum (sampled p "Session.ClosedTabCounts" (SessionSample p <$> fst f)) + net (snd f).

Lemma sampled_other p q name l : p <> q -> sampled q name (SessionSample p <$> l) = [].
Proof.
  intros Hn. unfold sampled. induction l as [| s l IH]; [done|]. cbn.
  by rewrite bool_decide_false by done.
Qed.

(** A part of a handler that only counts: [d] is what it adds to the balance of [p]. *)
Record counted (p : BrowserStateId) (d : Z) (w w' : World) : Prop := {
  counted_browsers : browsers w' = browsers w;
  counted_metrics : forall q, is_Some (metrics w !! q) -> is_Some (metrics w' !! q);
  counted_balance : forall q, eqm (balance q w') (balance q w + if bool_decide (q = p) then d else 0)
}.

Lemma counted_same p w w' :
  browsers w' = browsers w -> metrics w' = metrics w -> (forall q, balance q w' = balance q w) ->
  counted p 0 w w'.
Proof.
  intros Eb Em H. split; [done|by rewrite Em|]. intros q. rewrite H. exists 0%Z. case_bool_decide; lia.
Qed.

Lemma counted_trans p d d' w w' w'' :
  counted p d w w' -> counted p d' w' w'' -> counted p (d + d') w w''.
Proof.
  intros [E1 M1 B1] [E2 M2 B2]. split; [congruence|by auto|]. intros q.
  destruct (B1 q) as [k1 H1], (B2 q) as [k2 H2]. exists (k1 + k2)%Z. rewrite H2, H1.
  case_bool_decide; lia.
Qed.

Lemma on_metrics_run p f m w :
  metrics w !! p = Some m ->
  exists w', on_metrics p f w = Ok (tt, w') /\
    counted p (worth (f m) p - net m) w w'.
Proof.
  intros Hm. eexists. split.
  { unfold on_metrics. rewrite (mbind_run mget _ _ _ _ eq_refl), (mbind_run _ _ w m w) by (by rewrite Hm).
    reflexivity. }
  split; [done| |].
  - intros q [m' Hq]. cbn. destruct (decide (p = q)) as [->|Hn];
      [rewrite lookup_insert_eq|rewrite lookup_insert_ne by done]; eauto.
  - intros q. exists 0%Z. unfold balance, opened, closed, metrics_of. cbn.
    rewrite !sampled_app, !sum_app. case_bool_decide as Hq.
    + subst q. rewrite lookup_insert_eq, Hm. unfold worth, net. cbn. lia.
    + rewrite lookup_insert_ne by done. rewrite !sampled_other by done. cbn. lia.
Qed.

Lemma report_counted p action w : counted p 0 w (report [RecordAction action] w).
Proof.
  apply counted_same; [done..|]. intros q. unfold balance, opened, closed, report.
  cbn [reports]. by rewrite !sampled_app, !sum_app, !Z.add_0_r.
Qed.

(** What an event adds to the number of tabs. *)
Definition delta (e : WebStateListEvent) : Z :=
  match e with
  | WebStateListModel.WebStateInsertedAt _ _ _ => 1
  | WebStateListModel.WebStateDetachedAt _ _ => -1
  | _ => 0
  end.

Lemma length_after l e :
  applies l e -> Z.of_nat (length (after l e)) = (Z.of_nat (length l) + delta e)%Z.
Proof.
  unfold after. destruct e as [ws i ?|ws from to|old new i| |ws i| | | |];
    cbn [applies mirror_event mirror_states delta]; intros Ha; try lia.
  - rewrite length_insert_at by lia. lia.
  - destruct Ha as [[_ Hf]%zlookup_Some Ht]. apply zlookup_lt_is_Some in Ht.
    apply lookup_lt_Some in Hf. rewrite length_insert_at; rewrite length_erase_at by lia; lia.
  - rewrite length_insert. lia.
  - apply zlookup_Some in Ha as [_ Hf]. apply lookup_lt_Some in Hf. rewrite length_erase_at by lia. lia.
Qed.

Lemma counted_eqm p d d' w w' : eqm d d' -> counted p d w w' -> counted p d' w w'.
Proof.
  intros [k ->] [E M B]. split; [done..|]. intros q. destruct (B q) as [k' ->].
  case_bool_decide; [exists (k + k')%Z|exists k']; lia.
Qed.

(** One of the calls of the agent on its metrics. *)
Lemma count_run p f d w :
  (forall m, eqm (worth (f m) p - net m) d) -> is_Some (metrics w !! p) ->
  exists w', on_metrics p f w = Ok (tt, w') /\ counted p d w w'.
Proof.
  intros Hf [m Hm]. destruct (on_metrics_run p f m w Hm) as (w' & E & Hc).
  exists w'. split; [done|]. exact (counted_eqm _ _ _ _ _ (Hf m) Hc).
Qed.

Lemma worth_nil p m : worth ([], m) p = net m.
Proof. unfold worth, sampled, sum. cbn. lia. Qed.

Lemma inserted_worth p m : eqm (worth ([], SessionMetrics.OnWebStateInserted m) p - net m) 1.
Proof.
  rewrite worth_nil. unfold net. cbn.
  destruct (eqm_uint32 (SessionMetrics.inserted_web_state_counter_ m + 1)) as [k ->]. exists k. lia.
Qed.
Lemma detached_worth p m : eqm (worth ([], SessionMetrics.OnWebStateDetached m) p - net m) (-1).
Proof.
  rewrite worth_nil. unfold net. cbn.
  destruct (eqm_uint32 (SessionMetrics.detached_web_state_counter_ m + 1)) as [k ->]. exists (- k)%Z. lia.
Qed.
Lemma activated_worth p m : eqm (worth ([], SessionMetrics.OnWebStateActivated m) p - net m) 0.
Proof. rewrite worth_nil. unfold net. cbn. exists 0%Z. lia. Qed.

Lemma get_agent_run a b g w :
  browsers w !! a = Some b -> user_data b = Some g -> get_agent a w = Ok (g, w).
Proof.
  intros Hb Hg. unfold get_agent, get_browser.
  rewrite (mbind_run _ _ w b w); [by rewrite Hg|]. rewrite (mbind_run mget _ _ _ _ eq_refl). by rewrite Hb.
Qed.

Lemma handle_run a b g e w :
  browsers w !! a = Some b -> user_data b = Some g -> is_Some (metrics w !! session_metrics_ g) ->
  exists w', handle a e w = Ok (tt, w') /\
    counted (session_metrics_ g) (if metric_collection_paused_ g then 0 else delta e) w w'.
Proof.
  intros Hb Hg Hm.
  assert (exists w', mreturn tt w = Ok (tt, w') /\ counted (session_metrics_ g) 0 w w') as Hsame
    by (exists w; split; [done|by apply counted_same]).
  destruct e as [? ? ?|? ? ?|? ? ?|? ?|? ?|? ? ?|? ? ? reason| |]; cbn [handle delta];
    try (by destruct (metric_collection_paused_ g));
    unfold WebStateInsertedAt, WebStateDetachedAt, WebStateActivatedAt;
    rewrite (mbind_run _ _ _ _ _ (get_agent_run a b g w Hb Hg));
    destruct (metric_collection_paused_ g); try done.
  - destruct (count_run _ _ _ (report [RecordAction "MobileNewTabOpened"] w)
      (inserted_worth (session_metrics_ g)) Hm) as (w' & E & Hc).
    exists w'. split; [exact E|]. exact (counted_trans _ 0 1 _ _ _ (report_counted _ _ _) Hc).
  - destruct (count_run _ _ _ (report [RecordAction "MobileTabClosed"] w)
      (detached_worth (session_metrics_ g)) Hm) as (w' & E & Hc).
    exists w'. split; [exact E|]. exact (counted_trans _ 0 (-1) _ _ _ (report_counted _ _ _) Hc).
  - destruct (count_run _ _ _ w (activated_worth (session_metrics_ g)) Hm) as (w' & E & Hc).
    rewrite (mbind_run _ _ _ _ _ E). case_bool_decide; [by exists w'|].
    eexists. split; [done|]. exact (counted_trans _ 0 0 _ _ _ Hc (report_counted _ _ _)).
Qed.

(** ** The notifications of a call *)

(** The agent [g] of [a] handled notifications: its sources are [sources], the
    balance of its metrics changed by [d]. *)
Record handled (a : BrowserId) (b : Browser) (g : Agent) (sources : list WebStateId) (d : Z)
    (w w' : World) : Prop := {
  handled_browsers : browsers w' =
    <[a := with_user_data (Some (with_forwarder (Some sources) g)) b]> (browsers w);
  handled_metrics : forall q, is_Some (metrics w !! q) -> is_Some (metrics w' !! q);
  handled_balance : forall q, eqm (balance q w')
    (balance q w + if bool_decide (q = session_metrics_ g) then d else 0)
}.

Lemma handled_trans a b g s1 s2 d1 d2 w w1 w2 :
  handled a b g s1 d1 w w1 ->
  handled a (with_user_data (Some (with_forwarder (Some s1) g)) b)
    (with_forwarder (Some s1) g) s2 d2 w1 w2 ->
  handled a b g s2 (d1 + d2) w w2.
Proof.
  intros [E1 M1 B1] [E2 M2 B2]. split; [by rewrite E2, E1, insert_insert_eq|by auto|]. intros q.
  destruct (B1 q) as [k1 H1], (B2 q) as [k2 H2]. exists (k1 + k2)%Z. rewrite H2, H1.
  change (session_metrics_ (with_forwarder (Some s1) g)) with (session_metrics_ g).
  destruct (bool_decide (q = session_metrics_ g)); lia.
Qed.

Lemma notified_run a b g e l s w :
  browsers w !! a = Some b -> user_data b = Some g -> is_Some (metrics w !! session_metrics_ g) ->
  web_state_forwarder_ g = Some s -> NoDup l -> applies l e -> s ≡ₚ l ->
  exists s' w', notified a e w = Ok (tt, w') /\ s' ≡ₚ after l e /\ NoDup (after l e) /\
    handled a b g s' (if metric_collection_paused_ g then 0 else delta e) w w'.
Proof.
  intros Hb Hg Hm Hf Hnd Ha Hs.
  destruct (handle_run a b g e w Hb Hg Hm) as (w1 & E1 & [Eb M1 B1]).
  destruct (ForwarderProofs.forward_run l e s Hnd Ha Hs) as (s' & E2 & Hs' & Hnd').
  rewrite <- Eb in Hb. exists s', (with_browser a (with_user_data (Some (with_forwarder (Some s') g)) b) w1).
  split; [|split; [done|split; [done|]]].
  - unfold notified. rewrite (mbind_run _ _ _ _ _ E1). unfold on_forwarder.
    rewrite (mbind_run _ _ _ _ _ (get_agent_run a b g w1 Hb Hg)), Hf, E2. unfold modify_agent, get_browser.
    rewrite (mbind_run _ _ w1 b w1) by (by rewrite (mbind_run mget _ _ _ _ eq_refl), Hb).
    by rewrite (mbind_run _ _ w1 g w1) by (by rewrite Hg).
  - split; [cbn; by rewrite Eb|done|done].
Qed.

Lemma deliver_run a effects b g l l' s w :
  browsers w !! a = Some b -> user_data b = Some g -> is_Some (metrics w !! session_metrics_ g) ->
  web_state_forwarder_ g = Some s -> NoDup l -> told l effects l' -> s ≡ₚ l ->
  exists s' w', deliver a effects w = Ok (tt, w') /\ s' ≡ₚ l' /\
    handled a b g s' (if metric_collection_paused_ g then 0
                      else Z.of_nat (length l') - Z.of_nat (length l)) w w'.
Proof.
  revert b g l s w. induction effects as [| e effects IH]; intros b g l s w Hb Hg Hm Hf Hnd Ht Hs.
  { exists s, w. cbn in Ht. subst l'. split; [done|]. split; [done|]. split; [|done|].
    - rewrite insert_id; [done|]. rewrite Hb. destruct b, g. cbn in *. by subst.
    - intros q. exists 0%Z. rewrite Z.sub_diag. destruct (metric_collection_paused_ g), (bool_decide _); lia. }
  destruct e as [e seen i| | | |]; try (by apply (IH b g l s w)).
  destruct Ht as [Ha Ht].
  destruct (notified_run a b g e l s w) as (s1 & w1 & E1 & Hs1 & Hnd1 & Hh1); [done..|].
  destruct (IH (with_user_data (Some (with_forwarder (Some s1) g)) b) (with_forwarder (Some s1) g)
    (after l e) s1 w1) as (s2 & w2 & E2 & Hs2 & Hh2); [|done| |done..|].
  - destruct Hh1 as [-> _ _]. by rewrite lookup_insert_eq.
  - by apply Hh1.
  - exists s2, w2. cbn [deliver]. rewrite (mbind_run _ _ _ _ _ E1). split; [done|]. split; [done|].
    pose proof (handled_trans _ _ _ _ _ _ _ _ _ _ Hh1 Hh2) as Hh.
    cbn [metric_collection_paused_ with_forwarder] in Hh. rewrite (length_after l e Ha) in Hh.
    destruct (metric_collection_paused_ g); [done|].
    replace (Z.of_nat (length l') - Z.of_nat (length l))%Z
      with (delta e + (Z.of_nat (length l') - (Z.of_nat (length l) + delta e)))%Z by lia. done.
Qed.

(** ** The application *)

(** Each browser has its agent; while the agent observes the list, the sources
    of its forwarder are the WebStates of the list. *)
Record browser_ok (w : World) (b : Browser) : Prop := {
  browser_stable : stable (web_state_list b);
  browser_idle : batch_operation_in_progress_ (web_state_list b) = false;
  browser_metrics : is_Some (metrics w !! browser_state b);
  browser_agent : exists g, user_data b = Some g /\ session_metrics_ g = browser_state b /\
    if web_state_list_ g
    then exists s, web_state_forwarder_ g = Some s /\ s ≡ₚ web_states (web_state_list b)
    else web_state_forwarder_ g = None
}.

Definition world_ok (w : World) : Prop := map_Forall (fun _ => browser_ok w) (browsers w).

Lemma browser_ok_metrics w w' b :
  (forall q, is_Some (metrics w !! q) -> is_Some (metrics w' !! q)) -> browser_ok w b -> browser_ok w' b.
Proof. intros Hm []. split; auto. Qed.

Lemma world_ok_insert a b w w' :
  world_ok w -> browsers w' = <[a := b]> (browsers w) ->
  (forall q, is_Some (metrics w !! q) -> is_Some (metrics w' !! q)) ->
  browser_ok w' b -> world_ok w'.
Proof.
  intros Hw Eb Hm Hb. unfold world_ok. rewrite Eb. apply map_Forall_insert_2; [done|].
  intros a' b' Hb'. eapply browser_ok_metrics; [exact Hm|]. by eapply Hw.
Qed.

Lemma world_ok_same w w' :
  world_ok w -> browsers w' = browsers w ->
  (forall q, is_Some (metrics w !! q) -> is_Some (metrics w' !! q)) -> world_ok w'.
Proof.
  intros Hw Eb Hm a b. rewrite Eb. intros Hb. eapply browser_ok_metrics; [exact Hm|]. by eapply Hw.
Qed.

Lemma tabs_new p a b w w' :
  browsers w !! a = None -> browsers w' = <[a := b]> (browsers w) ->
  tabs p w' = (tabs_of p b + tabs p w)%Z.
Proof. intros Hn Eb. unfold tabs. rewrite Eb. rewrite map_fold_insert_L; [done|intros; lia|done]. Qed.

Lemma tabs_changed p a b b' w w' :
  browsers w !! a = Some b -> browsers w' = <[a := b']> (browsers w) ->
  tabs p w' = (tabs p w + (tabs_of p b' - tabs_of p b))%Z.
Proof.
  intros Hb Eb. unfold tabs. rewrite Eb, <- insert_delete_eq.
  rewrite map_fold_insert_L by (first [intros; lia | apply lookup_delete_eq]).
  rewrite (map_fold_delete_L _ _ a b (browsers w)) by (first [intros; lia | done]). lia.
Qed.

Section Run.
Context `{WebStateEnv}.

(** The metrics [p] lose nothing: they are cleared only when both the tabs
    opened and the tabs closed are recorded. *)
Definition records_both (p : BrowserStateId) (x : Action) : bool :=
  match x with
  | RecordAndClear bs flag_set =>
      negb (bool_decide (bs = p)) ||
      (SessionMetrics.flag_and flag_set SessionMetrics.kOpenedTabCount &&
       SessionMetrics.flag_and flag_set SessionMetrics.kClosedTabCount)
  | _ => true
  end.

Definition drift (p : BrowserStateId) (w : World) : Z := balance p w - tabs p w.

Definition step_ok (x : Action) (w w' : World) : Prop :=
  world_ok w' /\ forall p,
    eqm (drift p w') (drift p w - (if uncounted x w then tabs p w' - tabs p w else 0) - unrecorded p x w).

Definition is_record (x : Action) : bool := match x with RecordAndClear _ _ => true | _ => false end.
Lemma unrecorded_none p x w : is_record x = false -> unrecorded p x w = 0%Z.
Proof. by destruct x. Qed.
Lemma discarded_none p l w : forallb (records_both p) l = true -> discarded p l w = 0%Z.
Proof.
  revert w. induction l as [|x l IH]; intros w; [done|]. intros [Hx Hl]%andb_true_iff. cbn [discarded].
  destruct (perform x w) as [[[] w']|]; [|done]. rewrite (IH w' Hl), Z.add_0_r. destruct x; try done. cbn in Hx |- *.
  case_bool_decide; [|done]. cbn in Hx. by apply andb_true_iff in Hx as [-> ->].
Qed.

Lemma FromBrowserState_run bs w :
  exists w', FromBrowserState bs w = Ok (bs, w') /\ counted bs 0 w w' /\ metrics w' !! bs = Some (metrics_of bs w).
Proof.
  unfold FromBrowserState. rewrite (mbind_run mget _ _ _ _ eq_refl).
  destruct (metrics w !! bs) as [m|] eqn:Hm.
  - exists w. split; [|split; [by apply counted_same|by unfold metrics_of; rewrite Hm]].
    rewrite mreturn_bind, (mbind_run mget _ _ _ _ eq_refl). unfold dcheck, mbind.
    by rewrite bool_decide_true by eauto.
  - exists (with_metrics (<[bs := SessionMetrics.create]> (metrics w)) w).
    assert (metrics (with_metrics (<[bs := SessionMetrics.create]> (metrics w)) w) !! bs = Some (metrics_of bs w)) as Hs
      by (cbn; rewrite lookup_insert_eq; unfold metrics_of; by rewrite Hm).
    split; [|split; [split; [done| |]|done]].
    + rewrite (mbind_run (mmodify _) _ _ tt _ eq_refl), (mbind_run mget _ _ _ _ eq_refl).
      unfold dcheck, mbind. by rewrite bool_decide_true.
    + intros q Hq. cbn. destruct (decide (bs = q)) as [<-|Hn]; [by rewrite lookup_insert_eq|].
      by rewrite lookup_insert_ne.
    + intros q. exists 0%Z. rewrite !Z.add_0_r. unfold balance, opened, closed, metrics_of. cbn.
      destruct (decide (bs = q)) as [<-|Hn];
        [rewrite lookup_insert_eq, Hm|rewrite lookup_insert_ne by done]; cbn; case_bool_decide; lia.
Qed.

(** Reports of other things, and a new state of an agent. *)
Lemma step_ok_same x w w' :
  world_ok w -> uncounted x w = false -> is_record x = false -> browsers w' = browsers w -> metrics w' = metrics w ->
  (forall q, balance q w' = balance q w) -> step_ok x w w'.
Proof.
  intros Hw Hu Hx Eb Em Hb. split; [by apply (world_ok_same w); [..|rewrite Em]|].
  intros p. exists 0%Z. unfold drift, tabs. rewrite Hu, Eb, Hb, unrecorded_none by done. lia.
Qed.

Lemma modify_agent_run x a b g f w :
  world_ok w -> uncounted x w = false -> is_record x = false -> alive a b g w ->
  (browser_ok w b -> browser_ok w (with_user_data (Some (f g)) b)) ->
  exists w', modify_agent a f w = Ok (tt, w') /\ step_ok x w w' /\
    w' = with_browser a (with_user_data (Some (f g)) b) w.
Proof.
  intros Hw Hu Hx (Hb & Hg & _) Hf. pose proof (Hf (Hw _ _ Hb)) as Hf'.
  exists (with_browser a (with_user_data (Some (f g)) b) w). split; [|split; [|done]].
  - unfold modify_agent, get_browser.
    rewrite (mbind_run _ _ w b w) by (by rewrite (mbind_run mget _ _ _ _ eq_refl), Hb).
    by rewrite (mbind_run _ _ w g w) by (by rewrite Hg).
  - split.
    { eapply (world_ok_insert a _ w); [done..|]. by apply (browser_ok_metrics w). }
    intros p. exists 0%Z. rewrite Hu, unrecorded_none by done. unfold drift.
    rewrite (tabs_changed p a b _ w (with_browser a (with_user_data (Some (f g)) b) w) Hb) by done.
    change (balance p (with_browser a (with_user_data (Some (f g)) b) w)) with (balance p w).
    unfold tabs_of. cbn [with_user_data browser_state web_state_list]. lia.
Qed.

(** A browser is made. *)
Lemma create_browser_run a bs w :
  world_ok w -> browsers w !! a = None ->
  exists w', perform (CreateBrowser a bs) w = Ok (tt, w') /\ step_ok (CreateBrowser a bs) w w'.
Proof.
  intros Hw Hn. set (b := mkBrowser bs WebStateList.create None).
  destruct (FromBrowserState_run bs (with_browser a b w)) as (w1 & E1 & [Eb M1 B1] & Hm).
  set (g := mkAgent true bs false (Some [])).
  exists (with_browser a (with_user_data (Some g) b) w1).
  assert (browsers w1 !! a = Some b) as Ha by (rewrite Eb; apply lookup_insert_eq).
  assert (browsers (with_browser a (with_user_data (Some g) b) w1) =
    <[a := with_user_data (Some g) b]> (browsers w)) as Ew
    by (cbn; by rewrite Eb; cbn; rewrite insert_insert_eq).
  split; [|split].
  - cbn [perform]. unfold Browser_Create, AttachBrowserAgents.
    rewrite (mbind_run (mmodify _) _ _ tt _ eq_refl).
    rewrite (mbind_run (get_browser a) _ _ b (with_browser a b w)) by (unfold get_browser;
      rewrite (mbind_run mget _ _ _ _ eq_refl); cbn; by rewrite lookup_insert_eq).
    rewrite (mbind_run _ _ _ _ _ E1). unfold CreateForBrowser, get_browser.
    by rewrite (mbind_run _ _ w1 b w1) by (by rewrite (mbind_run mget _ _ _ _ eq_refl), Ha).
  - eapply (world_ok_insert a _ w); [done|exact Ew|exact M1|]. split; [apply stable_create|done|cbn; rewrite Hm; by eexists|].
    exists g. split; [done|]. split; [done|]. by exists [].
  - intros p. unfold drift. cbn [unrecorded]. rewrite (tabs_new p a _ w _ Hn Ew).
    change (balance p (with_browser a (with_user_data (Some g) b) w1)) with (balance p w1).
    destruct (B1 p) as [k H1]. change (balance p (with_browser a b w)) with (balance p w) in H1.
    exists k. rewrite H1. unfold tabs_of. cbn.
    change (WebStateList.count WebStateList.create) with 0%Z. repeat case_bool_decide; lia.
Qed.

(** A call of a list. *)
Lemma call_list_run a c b g w :
  world_ok w -> alive a b g w -> legal c (web_state_list b) ->
  exists w', perform (CallList a c) w = Ok (tt, w') /\ step_ok (CallList a c) w w'.
Proof.
  intros Hw (Hb & Hg & Hl) Hc. pose proof (Hw _ _ Hb) as [Hst Hi Hm (g' & Eg & Es & Hf)].
  rewrite Hg in Eg. apply (inj Some) in Eg as <-. rewrite Hl in Hf. destruct Hf as (s & Hf & Hs).
  destruct (wp_inv _ _ _ (call_ok_legal c _ Hst Hc)) as ([] & l' & Ec & Hp & _).
  destruct (exec_tells c _ _ Hc Ec) as (effects & El & Ht).
  set (w1 := with_browser a (with_web_state_list l' b) w).
  destruct (deliver_run a effects (with_web_state_list l' b) g (web_states (web_state_list b))
    (web_states l') s w1) as (s' & w' & Ed & Hs' & [Ew M B]);
    [apply lookup_insert_eq|done|by rewrite Es|done|apply wf_nodup, Hst|done..|].
  cbn [browsers w1 with_browser] in Ew. rewrite insert_insert_eq in Ew.
  exists w'. split; [|split].
  - cbn [perform]. unfold call_list, get_browser.
    rewrite (mbind_run _ _ w b w) by (by rewrite (mbind_run mget _ _ _ _ eq_refl), Hb).
    rewrite Ec, (mbind_run (mmodify _) _ _ tt _ eq_refl), Hg, Hl, El, drop_app_length. exact Ed.
  - eapply (world_ok_insert a _ w); [done|exact Ew|exact M|]. split; cbn.
    + by eapply stable_post.
    + by rewrite (WebStateListProofs.post_batch _ _ _ _ Hp).
    + by apply M.
    + eexists. split; [done|]. split; [done|]. cbn. rewrite Hl. by exists s'.
  - intros p. destruct (B p) as [k Hk]. change (balance p w1) with (balance p w) in Hk.
    unfold drift. cbn [uncounted unrecorded]. rewrite Hb, Hg. exists k. rewrite Hk, (tabs_changed p a b _ w w' Hb Ew).
    rewrite Es. unfold tabs_of, WebStateList.count. rewrite <- !length_web_states.
    cbn [browser_state web_state_list with_user_data with_web_state_list].
    destruct (metric_collection_paused_ g); repeat case_bool_decide; first [congruence | lia].
Qed.

(** The metrics of a browser state are recorded. *)
Lemma record_worth p flag_set m w : metrics_of p w = m ->
  worth (SessionMetrics.RecordAndClearSessionMetrics flag_set m) p = (net m - unrecorded p (RecordAndClear p flag_set) w)%Z.
Proof.
  intros Hm. cbn [unrecorded]. rewrite bool_decide_true by done. rewrite Hm. unfold worth, SessionMetrics.RecordAndClearSessionMetrics, sampled, sum, net.
  destruct (SessionMetrics.flag_and flag_set SessionMetrics.kOpenedTabCount), (SessionMetrics.flag_and flag_set SessionMetrics.kClosedTabCount),
    (SessionMetrics.flag_and flag_set SessionMetrics.kActivatedTabCount); cbn;
    repeat case_bool_decide; first [congruence | cbn; lia].
Qed.

Lemma record_run bs flag_set w :
  world_ok w ->
  exists w', perform (RecordAndClear bs flag_set) w = Ok (tt, w') /\
    step_ok (RecordAndClear bs flag_set) w w'.
Proof.
  intros Hw. destruct (FromBrowserState_run bs w) as (w1 & E1 & Hc1 & Hm).
  destruct (on_metrics_run bs (SessionMetrics.RecordAndClearSessionMetrics flag_set) _ w1 Hm)
    as (w' & E2 & Hc2).
  pose proof (counted_trans _ _ _ _ _ _ Hc1 Hc2) as [Eb M B]. exists w'.
  split; [cbn [perform]; by rewrite (mbind_run _ _ _ _ _ E1)|]. split; [by eapply world_ok_same|].
  intros p. destruct (B p) as [k Hk]. exists k. unfold drift, tabs. rewrite Hk, Eb. cbn [uncounted].
  destruct (decide (bs = p)) as [->|Hn].
  - rewrite (record_worth p flag_set _ w) by done. case_bool_decide; lia.
  - cbn [unrecorded]. rewrite !bool_decide_false by congruence. lia.
Qed.

Lemma report_other r w :
  (forall p s, r <> SessionSample p s) -> forall q, balance q (report [r] w) = balance q w.
Proof.
  intros Hr q. unfold balance, opened, closed, report. cbn [reports metrics_of metrics].
  rewrite !sampled_app, !sum_app. destruct r; try (by rewrite !Z.add_0_r). by edestruct Hr.
Qed.

Lemma destroy_run a b g w :
  world_ok w -> alive a b g w ->
  exists w', perform (DestroyBrowser a) w = Ok (tt, w') /\ step_ok (DestroyBrowser a) w w'.
Proof.
  intros Hw Ha. pose proof Ha as (Hb & Hg & Hl). pose proof (Hw _ _ Hb) as [Hst Hi Hm (g' & Eg & Es & Hf)].
  rewrite Hg in Eg. apply (inj Some) in Eg as <-.
  set (g1 := with_forwarder None g). set (b1 := with_user_data (Some g1) b).
  set (g2 := mkAgent false (session_metrics_ g1) (metric_collection_paused_ g1) (web_state_forwarder_ g1)).
  destruct (modify_agent_run (DestroyBrowser a) a b g (fun _ => g2) w) as (w' & E & Hs & ->);
    [done..|split; [done..|by exists g2]|].
  eexists. split; [|exact Hs]. cbn [perform]. unfold BrowserDestroyed.
  rewrite (mbind_run _ _ _ _ _ (get_agent_run a b g w Hb Hg)), Hl. unfold modify_agent, get_browser.
  rewrite (mbind_run (dcheck true) _ _ tt w eq_refl).
  rewrite (mbind_run _ _ w tt (with_browser a b1 w)); last first.
  { rewrite (mbind_run _ _ w b w) by (by rewrite (mbind_run mget _ _ _ _ eq_refl), Hb).
    by rewrite (mbind_run _ _ w g w) by (by rewrite Hg). }
  rewrite (mbind_run _ _ _ b1 (with_browser a b1 w))
    by (rewrite (mbind_run mget _ _ _ _ eq_refl); cbn; by rewrite lookup_insert_eq).
  unfold mbind, mmodify, with_browser. cbn. by rewrite insert_insert_eq.
Qed.

(** Every possible action is done. *)
Lemma perform_run x w :
  world_ok w -> possible x w -> exists w', perform x w = Ok (tt, w') /\ step_ok x w w'.
Proof.
  intros Hw Hx.
  destruct x as [a bs|a c|a|a|a|bs fs|a host|a hc same otr url profile|a o]; cbn [possible] in Hx.
  - by apply create_browser_run.
  - destruct Hx as (b & g & Ha & Hc). by eapply call_list_run.
  - destruct Hx as (b & g & Ha). cbn [perform]. unfold WillStartSessionRestoration.
    destruct (modify_agent_run (WillRestore a) a b g (with_paused true) w) as (w' & E & Hs & _);
      [done..| |by exists w'].
    intros [? ? ? (g' & Eg & Es & Hf)]. destruct Ha as (_ & Hg & _). rewrite Hg in Eg.
    apply (inj Some) in Eg as <-. split; [done..|]. by eexists.
  - destruct Hx as (b & g & Ha). cbn [perform]. unfold SessionRestorationFinished.
    destruct (modify_agent_run (RestoreFinished a) a b g (with_paused false) w) as (w' & E & Hs & _);
      [done..| |by exists w'].
    intros [? ? ? (g' & Eg & Es & Hf)]. destruct Ha as (_ & Hg & _). rewrite Hg in Eg.
    apply (inj Some) in Eg as <-. split; [done..|]. by eexists.
  - destruct Hx as (b & g & Ha). by eapply destroy_run.
  - by apply record_run.
  - cbn [perform]. unfold DidStartNavigation.
    case_bool_decide; [by exists w; split; [|apply step_ok_same]|].
    rewrite (mbind_run mget _ _ _ _ eq_refl).
    destruct (dispatch_once_token w); [by exists w; split; [|apply step_ok_same]|].
    eexists. split; [done|]. apply step_ok_same; [done..|]. intros q.
    by rewrite report_other.
  - destruct Hx as (b & g & (Hb & _)). cbn [perform]. unfold DidFinishNavigation.
    destruct hc; [|by exists w; split; [|apply step_ok_same]]. cbn [negb]. unfold get_browser.
    rewrite (mbind_run _ _ w b w) by (by rewrite (mbind_run mget _ _ _ _ eq_refl), Hb).
    destruct (negb same && negb otr); eexists; (split; [done|]); (apply step_ok_same; [done..|]);
      intros q; by rewrite !report_other.
  - cbn [perform]. unfold PageLoaded.
    destruct o; eexists; (split; [done|]); (apply step_ok_same; [done..|]); intros q;
      by rewrite ?report_other.
Qed.

Lemma perform_all_run l w :
  world_ok w -> all_possible l w ->
  exists w', perform_all l w = Ok (tt, w') /\ world_ok w' /\
    forall p, eqm (drift p w') (drift p w - restored p l w - discarded p l w).
Proof.
  unfold perform_all. revert w. induction l as [| x l IH]; intros w Hw Hl.
  { exists w. split; [done|]. split; [done|]. intros p. exists 0%Z. cbn. lia. }
  destruct Hl as [Hx Hl]. destruct (perform_run x w Hw Hx) as (w1 & E1 & Hw1 & B1).
  destruct (IH w1 Hw1 (Hl _ E1)) as (w2 & E2 & Hw2 & B2). exists w2.
  split; [cbn [mfor]; by rewrite (mbind_run _ _ _ _ _ E1)|]. split; [done|].
  intros p. destruct (B1 p) as [k1 H1], (B2 p) as [k2 H2].
  exists (k1 + k2)%Z. cbn [restored discarded]. rewrite H2, H1, E1. lia.
Qed.

Lemma empty_world_ok : world_ok empty_world.
Proof. apply map_Forall_empty. Qed.

(** C40: whatever the browsers do, the agents and their forwarders never fail, and
    while an agent observes a list its forwarder observes exactly the WebStates
    of the list, each once; once the browser is destroyed it observes none. *)
Theorem observers_follow_lists l :
  all_possible l empty_world ->
  exists w, perform_all l empty_world = Ok (tt, w) /\
    forall a b, browsers w !! a = Some b ->
      exists g, user_data b = Some g /\
        if web_state_list_ g
        then exists sources, web_state_forwarder_ g = Some sources /\
               sources ≡ₚ web_states (web_state_list b) /\ NoDup sources
        else web_state_forwarder_ g = None.
Proof.
  intros Hl. destruct (perform_all_run l _ empty_world_ok Hl) as (w & E & Hw & _).
  exists w. split; [done|]. intros a b Hb. destruct (Hw _ _ Hb) as [Hst _ _ (g & Hg & _ & Hf)].
  exists g. split; [done|]. destruct (web_state_list_ g); [|done]. destruct Hf as (s & Hf & Hs).
  exists s. split; [done|]. split; [done|]. rewrite Hs. apply wf_nodup, Hst.
Qed.

(** C12: the counters and the samples of the metrics of a browser state account
    for every tab of its browsers, whatever the browsers do and whichever metrics
    are recorded: the tabs counted as opened less those counted as closed, in the
    samples recorded so far and in the counters, are the tabs there are now, less
    those that restorations added, and less the counts that were cleared without
    being recorded ([RecordAndClearSessionMetrics] clears the counters of all
    metrics, and records those of its flags), up to the overflow of the 32-bit
    counters. Nothing is lost when both counts are recorded at each clearing. *)
Theorem tabs_accounted_for p l :
  all_possible l empty_world ->
  exists w k, perform_all l empty_world = Ok (tt, w) /\
    (opened p w - closed p w = tabs p w - restored p l empty_world - discarded p l empty_world + k * 2 ^ 32)%Z /\
    (forallb (records_both p) l = true -> discarded p l empty_world = 0%Z).
Proof.
  intros Hl. destruct (perform_all_run l _ empty_world_ok Hl) as (w & E & _ & B).
  destruct (B p) as [k Hk]. exists w, k. split; [done|]. split; [|apply discarded_none].
  change (drift p empty_world) with 0%Z in Hk. unfold drift, balance in Hk. lia.
Qed.

End Run.

End SessionMetricsTheorems.

(** ** Examples *)

Module ExampleSessionMetrics.
Import WebStateList WebStateListOps WebStateListTheorems WebStateListMetricsBrowserAgent.
Import SessionMetricsTheorems.

#[local] Existing Instance WebStateListOrderController.example_env.

(** A test that an action is possible, for the calls of the example. *)
Definition legal_b (c : Call) (s : t) : bool :=
  match c with
  | Insert index ws flags opener =>
      bool_decide (ws ∉ web_states s) && (count s <? INT_MAX)%Z && (0 <=? index)%Z &&
      (index <=? count s)%Z &&
      match WebStateOpener.opener opener with Some o => bool_decide (o ∈ web_states s) | None => true end
  | Close index _ | Activate index => ContainsIndex s index
  | _ => false
  end.

Definition alive_b (a : BrowserId) (w : World) (k : Browser -> bool) : bool :=
  match browsers w !! a with
  | Some b => match user_data b with Some g => web_state_list_ g && k b | None => false end
  | None => false
  end.

Definition possible_b (x : Action) (w : World) : bool :=
  match x with
  | CreateBrowser a _ => match browsers w !! a with None => true | Some _ => false end
  | CallList a c => alive_b a w (fun b => legal_b c (web_state_list b))
  | WillRestore a | RestoreFinished a | DestroyBrowser a | StartNavigation a _
  | FinishNavigation a _ _ _ _ _ | LoadPage a _ => alive_b a w (fun _ => true)
  | RecordAndClear _ _ => true
  end.

Fixpoint all_possible_b (l : list Action) (w : World) : bool :=
  match l with
  | [] => true
  | x :: l' => possible_b x w &&
      match perform x w with Ok (_, w') => all_possible_b l' w' | Fault _ => true end
  end.

Lemma legal_b_sound c s : legal_b c s = true -> legal c s.
Proof. destruct c; cbn [legal_b legal]; try done. apply example_legal_insert. Qed.

Lemma alive_b_sound a w k : alive_b a w k = true -> exists b g, alive a b g w /\ k b = true.
Proof.
  unfold alive_b, alive. destruct (browsers w !! a) as [b|]; [|done].
  destruct (user_data b) as [g|] eqn:Hg; [|done]. intros [? ?]%andb_true_iff. by exists b, g.
Qed.

Lemma possible_b_sound x w : possible_b x w = true -> possible x w.
Proof.
  destruct x; cbn [possible_b possible]; try done;
    try (intros (b & g & Ha & Hk)%alive_b_sound; exists b, g; eauto using legal_b_sound).
  by destruct (browsers w !! a).
Qed.

Lemma all_possible_b_sound l w : all_possible_b l w = true -> all_possible l w.
Proof.
  revert w. induction l as [| x l IH]; intros w; [done|]. cbn [all_possible_b all_possible].
  intros [Hx Hl]%andb_true_iff. split; [by apply possible_b_sound|]. intros w' E. rewrite E in Hl. auto.
Qed.

(** Two windows of one browser state; the first restores a tab, the metrics are
    recorded, a tab is closed, and the second window goes away. *)
Definition example_actions : list Action :=
  [CreateBrowser 1%positive 1%positive;
   CallList 1%positive (Insert 0 10%positive INSERT_ACTIVATE WebStateOpener.null);
   WillRestore 1%positive;
   CallList 1%positive (Insert 1 11%positive INSERT_NO_FLAGS WebStateOpener.null);
   RestoreFinished 1%positive;
   CreateBrowser 2%positive 1%positive;
   CallList 2%positive (Insert 0 20%positive INSERT_ACTIVATE WebStateOpener.null);
   RecordAndClear 1%positive
     (SessionMetrics.flag_or (SessionMetrics.flags_or SessionMetrics.kOpenedTabCount
        SessionMetrics.kClosedTabCount) SessionMetrics.kActivatedTabCount);
   StartNavigation 1%positive "www.example.com";
   CallList 1%positive (Close 0 CLOSE_USER_ACTION);
   DestroyBrowser 2%positive].

Definition example_world : World := default empty_world (final_state (perform_all example_actions empty_world)).

Example example_reports :
  reports example_world =
    [RecordAction "MobileNewTabOpened"; RecordAction "MobileTabSwitched";
     RecordAction "MobileNewTabOpened"; RecordAction "MobileTabSwitched";
     SessionSample 1%positive (SessionMetrics.mkSample "Session.NewTabCounts" 2 1 200 50);
     SessionSample 1%positive (SessionMetrics.mkSample "Session.ClosedTabCounts" 0 1 200 50);
     SessionSample 1%positive (SessionMetrics.mkSample "Session.OpenedTabCounts" 2 1 200 50);
     ResetFailedStartupAttemptCount;
     RecordAction "MobileTabClosed"; RecordAction "MobileTabSwitched"].
Proof. vm_compute. reflexivity. Qed.

Lemma example_possible : all_possible example_actions empty_world.
Proof. apply all_possible_b_sound. vm_compute. reflexivity. Qed.

Lemma observers_follow_lists_witness :
  exists w, perform_all example_actions empty_world = Ok (tt, w) /\
    forall a b, browsers w !! a = Some b ->
      exists g, user_data b = Some g /\
        if web_state_list_ g
        then exists sources, web_state_forwarder_ g = Some sources /\
               sources ≡ₚ web_states (web_state_list b) /\ NoDup sources
        else web_state_forwarder_ g = None.
Proof. exact (observers_follow_lists example_actions example_possible). Defined.

(** The application goes to the background, which clears the metrics without
    recording them. *)
Definition cleared_actions : list Action :=
  example_actions ++ [RecordAndClear 1%positive (SessionMetrics.flag_value SessionMetrics.kNoMetrics)].
Lemma cleared_possible : all_possible cleared_actions empty_world.
Proof. apply all_possible_b_sound. vm_compute. reflexivity. Qed.

(** Two tabs were counted as opened and one as closed; two are left, and one of
    them was restored. The closed one is then forgotten. *)
Lemma tabs_accounted_for_witness :
  (opened 1%positive example_world = 2 /\ closed 1%positive example_world = 1 /\ tabs 1%positive example_world = 2 /\
   restored 1%positive example_actions empty_world = 1 /\ discarded 1%positive cleared_actions empty_world = -1)%Z /\
  (exists w k, perform_all example_actions empty_world = Ok (tt, w) /\
    (opened 1%positive w - closed 1%positive w = tabs 1%positive w - restored 1%positive example_actions empty_world - 0 + k * 2 ^ 32)%Z) /\
  exists w k, perform_all cleared_actions empty_world = Ok (tt, w) /\
    (opened 1%positive w - closed 1%positive w = tabs 1%positive w - restored 1%positive cleared_actions empty_world - -1 + k * 2 ^ 32)%Z.
Proof.
  split; [by vm_compute|]. split.
  - destruct (tabs_accounted_for 1%positive example_actions example_possible) as (w & k & E & Hk & Hd).
    rewrite (Hd eq_refl) in Hk. exists w, k. split; [exact E|exact Hk].
  - destruct (tabs_accounted_for 1%positive cleared_actions cleared_possible) as (w & k & E & Hk & _).
    exists w, k. split; [exact E|]. rewrite Hk. f_equal.
Defined.

End ExampleSessionMetrics.
