(* ===== verification/WebTypes.v ===== *)
(** * The value types of the web layer

    URLs (an interface: GURL is not part of the repository), user agents, HTTPS
    upgrades, referrers and the Referer header, the SSL and favicon status, and
    the scroll and zoom state of a page
    (src/web/public/, src/web/common/user_agent.mm, src/web/common/referrer_util.cc,
    src/web/ui/page_display_state.mm, src/web/security/ssl_status.cc). *)

From stdpp Require Import base tactics option list numbers strings gmap.
From Stdlib Require Import ZArith Lia SpecFloat Ascii.
From S2P Require Import Prelude.

(** ** GURL

    What the web layer asks of a URL. The definitions take it as an argument;
    [GURLLaws] is what its documentation says of it. *)

Class GURLOps : Type := {
  GURL : Type;
  #[global] GURL_eq_dec :: EqDecision GURL;
  (** [GURL()], [GURL(spec)] *)
  GURL_null : GURL;
  GURL_parse : string -> GURL;
  gurl_spec : GURL -> string;
  gurl_is_valid : GURL -> bool;
  gurl_scheme : GURL -> string;
  gurl_host : GURL -> string;
  gurl_path : GURL -> string;
  gurl_ref : GURL -> string;
  (** [ReplaceComponents] with [SetRefStr], with [SetSchemeStr] and
      [SetPathStr], with [ClearRef] *)
  gurl_set_ref : GURL -> string -> GURL;
  gurl_set_scheme_path : GURL -> string -> string -> GURL;
  gurl_SchemeIsCryptographic : GURL -> bool;
  gurl_GetAsReferrer : GURL -> GURL;
  gurl_DeprecatedGetOriginAsURL : GURL -> GURL
}.

Section GURLDerived.
Context `{GURLOps}.

Definition gurl_is_empty (u : GURL) : bool := bool_decide (gurl_spec u = EmptyString).
Definition gurl_SchemeIs (u : GURL) (s : string) : bool := bool_decide (gurl_scheme u = s).
Definition gurl_SchemeIsFile (u : GURL) : bool := gurl_SchemeIs u "file".
Definition gurl_SchemeIsHTTPOrHTTPS (u : GURL) : bool :=
  gurl_SchemeIs u "http" || gurl_SchemeIs u "https".

End GURLDerived.

Class GURLLaws `(G : GURLOps) : Prop := {
  gurl_null_empty : gurl_is_empty GURL_null = true;
  gurl_empty_null : forall u, gurl_is_empty u = true -> u = GURL_null;
  (** a parsed URL is its canonical spec *)
  gurl_parse_spec : forall u, gurl_is_valid u = true -> GURL_parse (gurl_spec u) = u;
  gurl_parse_empty : GURL_parse "" = GURL_null;
  gurl_set_ref_scheme : forall u r, gurl_scheme (gurl_set_ref u r) = gurl_scheme u;
  gurl_set_ref_path : forall u r, gurl_path (gurl_set_ref u r) = gurl_path u;
  gurl_set_scheme_path_scheme :
    forall u s p, gurl_scheme (gurl_set_scheme_path u s p) = s
}.

(** A URL with a spec that can be stored: an invalid URL has none. *)
Definition gurl_storable `{GURLOps} (u : GURL) : bool := gurl_is_valid u || gurl_is_empty u.

Lemma gurl_parse_storable `{GURLLaws} u : gurl_storable u = true -> GURL_parse (gurl_spec u) = u.
Proof.
  unfold gurl_storable. intros [Hv|He]%orb_true_iff; [by apply gurl_parse_spec|].
  rewrite (gurl_empty_null u He) at 2. unfold gurl_is_empty in He. bool_to_prop.
  by rewrite He, gurl_parse_empty.
Qed.

(** [ui::PageTransition] (ui/base). *)
Class PageTransitionOps : Type := {
  PageTransition : Type;
  PAGE_TRANSITION_LINK : PageTransition;
  PAGE_TRANSITION_RELOAD : PageTransition;
  PAGE_TRANSITION_CLIENT_REDIRECT : PageTransition;
  PAGE_TRANSITION_IS_REDIRECT_MASK : PageTransition;
  PageTransitionCoreTypeIs : PageTransition -> PageTransition -> bool;
  PageTransition_land : PageTransition -> PageTransition -> bool
}.

(** [u"..."]: UTF-16 code units. *)
Definition u16string : Type := list Z.

Module UserAgent.

(** [enum class UserAgentType] *)
Inductive UserAgentType : Type := NONE | AUTOMATIC | MOBILE | DESKTOP.

#[global] Instance UserAgentType_eq_dec : EqDecision UserAgentType.
Proof. solve_decision. Defined.

Definition GetUserAgentTypeDescription (type : UserAgentType) : string :=
  match type with
  | AUTOMATIC => "AUTOMATIC"
  | NONE => "NONE"
  | MOBILE => "MOBILE"
  | DESKTOP => "DESKTOP"
  end.

Definition GetUserAgentTypeWithDescription (description : string) : UserAgentType :=
  if bool_decide (description = "MOBILE") then MOBILE
  else if bool_decide (description = "DESKTOP") then DESKTOP
  else if bool_decide (description = "AUTOMATIC") then AUTOMATIC
  else NONE.

Lemma UserAgentType_description_roundtrip type :
  GetUserAgentTypeWithDescription (GetUserAgentTypeDescription type) = type.
Proof. by destruct type. Qed.

End UserAgent.

(** [enum class HttpsUpgradeType] *)
Inductive HttpsUpgradeType : Type := kNone | kHttpsOnlyMode | kOmnibox.

#[global] Instance HttpsUpgradeType_eq_dec : EqDecision HttpsUpgradeType.
Proof. solve_decision. Defined.

Definition GetHttpsUpgradeTypeDescription (type : HttpsUpgradeType) : string :=
  match type with
  | kNone => "None"
  | kHttpsOnlyMode => "HttpsOnlyMode"
  | kOmnibox => "Omnibox"
  end.

(** [enum class ReloadType] *)
Inductive ReloadType : Type := NORMAL | ORIGINAL_REQUEST_URL.

(** [enum SecurityStyle] *)
Inductive SecurityStyle : Type :=
| SECURITY_STYLE_UNKNOWN
| SECURITY_STYLE_UNAUTHENTICATED
| SECURITY_STYLE_AUTHENTICATION_BROKEN
| SECURITY_STYLE_AUTHENTICATED.

#[global] Instance SecurityStyle_eq_dec : EqDecision SecurityStyle.
Proof. solve_decision. Defined.

(** ** Referrers *)

Module Referrer.

(** [enum ReferrerPolicy] *)
Inductive ReferrerPolicy : Type :=
| ReferrerPolicyAlways
| ReferrerPolicyDefault
| ReferrerPolicyNoReferrerWhenDowngrade
| ReferrerPolicyNever
| ReferrerPolicyOrigin
| ReferrerPolicyOriginWhenCrossOrigin
| ReferrerPolicySameOrigin
| ReferrerPolicyStrictOrigin
| ReferrerPolicyStrictOriginWhenCrossOrigin.

#[global] Instance ReferrerPolicy_eq_dec : EqDecision ReferrerPolicy.
Proof. solve_decision. Defined.

(** [net::ReferrerPolicy] *)
Inductive NetReferrerPolicy : Type :=
| CLEAR_ON_TRANSITION_FROM_SECURE_TO_INSECURE
| REDUCE_GRANULARITY_ON_TRANSITION_CROSS_ORIGIN
| ORIGIN_ONLY_ON_TRANSITION_CROSS_ORIGIN
| NEVER_CLEAR
| ORIGIN
| CLEAR_ON_TRANSITION_CROSS_ORIGIN
| ORIGIN_CLEAR_ON_TRANSITION_FROM_SECURE_TO_INSECURE
| NO_REFERRER.

#[global] Instance NetReferrerPolicy_eq_dec : EqDecision NetReferrerPolicy.
Proof. solve_decision. Defined.

Section Code.
Context `{GURLOps}.

(** [struct Referrer] *)
Record t : Type := mk { url : GURL; policy : ReferrerPolicy }.

Definition create : t := mk GURL_null ReferrerPolicyDefault.

#[global] Instance t_eq_dec : EqDecision t.
Proof. solve_decision. Defined.

Definition ReferrerHeaderValueForNavigation (destination : GURL) (referrer : t) : string :=
  let origin := gurl_DeprecatedGetOriginAsURL in
  let is_downgrade := gurl_SchemeIsCryptographic (url referrer) &&
                      negb (gurl_SchemeIsCryptographic destination) in
  let cross_origin := negb (bool_decide (origin (url referrer) = origin destination)) in
  let full := gurl_spec (gurl_GetAsReferrer (url referrer)) in
  let origin_only := gurl_spec (origin (url referrer)) in
  match policy referrer with
  | ReferrerPolicyAlways => full
  | ReferrerPolicyNever => EmptyString
  | ReferrerPolicyOrigin => origin_only
  | ReferrerPolicyDefault | ReferrerPolicyNoReferrerWhenDowngrade =>
      if is_downgrade then EmptyString else full
  | ReferrerPolicyOriginWhenCrossOrigin => if cross_origin then origin_only else full
  | ReferrerPolicySameOrigin => if cross_origin then EmptyString else full
  | ReferrerPolicyStrictOrigin => if is_downgrade then EmptyString else origin_only
  | ReferrerPolicyStrictOriginWhenCrossOrigin =>
      if is_downgrade then EmptyString
      else if cross_origin then origin_only else full
  end.

Definition PolicyForNavigation (destination : GURL) (referrer : t) : NetReferrerPolicy :=
  match policy referrer with
  | ReferrerPolicyAlways => NEVER_CLEAR
  | ReferrerPolicyNever => NO_REFERRER
  | ReferrerPolicyOrigin => ORIGIN
  | ReferrerPolicyNoReferrerWhenDowngrade | ReferrerPolicyDefault =>
      CLEAR_ON_TRANSITION_FROM_SECURE_TO_INSECURE
  | ReferrerPolicyOriginWhenCrossOrigin => ORIGIN_ONLY_ON_TRANSITION_CROSS_ORIGIN
  | ReferrerPolicySameOrigin => CLEAR_ON_TRANSITION_CROSS_ORIGIN
  | ReferrerPolicyStrictOrigin => ORIGIN_CLEAR_ON_TRANSITION_FROM_SECURE_TO_INSECURE
  | ReferrerPolicyStrictOriginWhenCrossOrigin => REDUCE_GRANULARITY_ON_TRANSITION_CROSS_ORIGIN
  end.

Definition ReferrerPolicyFromString (policy : string) : ReferrerPolicy :=
  if bool_decide (policy = "never") || bool_decide (policy = "no-referrer")
  then ReferrerPolicyNever
  else if bool_decide (policy = "origin") then ReferrerPolicyOrigin
  else if bool_decide (policy = "default") || bool_decide (policy = "no-referrer-when-downgrade")
  then ReferrerPolicyNoReferrerWhenDowngrade
  else if bool_decide (policy = "origin-when-cross-origin")
  then ReferrerPolicyOriginWhenCrossOrigin
  else if bool_decide (policy = "always") || bool_decide (policy = "unsafe-url")
  then ReferrerPolicyAlways
  else if bool_decide (policy = "same-origin") then ReferrerPolicySameOrigin
  else if bool_decide (policy = "strict-origin") then ReferrerPolicyStrictOrigin
  else if bool_decide (policy = "strict-origin-when-cross-origin")
  then ReferrerPolicyStrictOriginWhenCrossOrigin
  else ReferrerPolicyDefault.

(** What a policy lets a page tell another one, from nothing to the URL. *)
Inductive Disclosure : Type := Nothing | OriginOnly | FullURL.

Definition disclosed (d : Disclosure) (referrer : t) : string :=
  match d with
  | Nothing => EmptyString
  | OriginOnly => gurl_spec (gurl_DeprecatedGetOriginAsURL (url referrer))
  | FullURL => gurl_spec (gurl_GetAsReferrer (url referrer))
  end.

(** The meaning of the policy the next redirect is handled with: what the
    documentation of [net::ReferrerPolicy] says is sent. *)
Definition net_disclosure (p : NetReferrerPolicy) (downgrade cross_origin : bool) : Disclosure :=
  match p with
  | NEVER_CLEAR => FullURL
  | NO_REFERRER => Nothing
  | ORIGIN => OriginOnly
  | CLEAR_ON_TRANSITION_FROM_SECURE_TO_INSECURE => if downgrade then Nothing else FullURL
  | ORIGIN_ONLY_ON_TRANSITION_CROSS_ORIGIN => if cross_origin then OriginOnly else FullURL
  | CLEAR_ON_TRANSITION_CROSS_ORIGIN => if cross_origin then Nothing else FullURL
  | ORIGIN_CLEAR_ON_TRANSITION_FROM_SECURE_TO_INSECURE =>
      if downgrade then Nothing else OriginOnly
  | REDUCE_GRANULARITY_ON_TRANSITION_CROSS_ORIGIN =>
      if downgrade then Nothing else if cross_origin then OriginOnly else FullURL
  end.

Lemma ReferrerHeader_matches_policy destination referrer :
  ReferrerHeaderValueForNavigation destination referrer =
  disclosed
    (net_disclosure (PolicyForNavigation destination referrer)
       (gurl_SchemeIsCryptographic (url referrer) &&
        negb (gurl_SchemeIsCryptographic destination))
       (negb (bool_decide (gurl_DeprecatedGetOriginAsURL (url referrer) =
                           gurl_DeprecatedGetOriginAsURL destination))))
    referrer.
Proof.
  unfold ReferrerHeaderValueForNavigation, PolicyForNavigation.
  destruct (policy referrer); cbn; repeat case_match; done.
Qed.

End Code.
End Referrer.

(** ** SSL and favicon status *)

(** Certificates (net::X509Certificate) and images (gfx::Image) are code of
    other repositories. *)
Class CertificateOps : Type := {
  X509Certificate : Type;
  EqualsIncludingChain : X509Certificate -> X509Certificate -> bool
}.

Module SSLStatus.

Definition NORMAL_CONTENT : Z := 0.
Definition DISPLAYED_INSECURE_CONTENT : Z := Z.shiftl 1 0.

Section Code.
Context `{CertificateOps}.

(** [struct SSLStatus] *)
Record t : Type := mk {
  security_style : SecurityStyle;
  certificate : option X509Certificate;
  cert_status : Z;
  content_status : Z;
  cert_status_host : string
}.

Definition create : t := mk SECURITY_STYLE_UNKNOWN None 0 NORMAL_CONTENT EmptyString.

Definition Equals (this status : t) : bool :=
  bool_decide (security_style this = security_style status) &&
  Bool.eqb (bool_decide (is_Some (certificate this))) (bool_decide (is_Some (certificate status))) &&
  match certificate this, certificate status with
  | Some c, Some c' => EqualsIncludingChain c c'
  | _, _ => true
  end &&
  (cert_status this =? cert_status status)%Z &&
  (content_status this =? content_status status)%Z.

(** Statuses are equal when all but the host agree. *)
Lemma Equals_spec s s' :
  Equals s s' = true <->
  security_style s = security_style s' /\
  match certificate s, certificate s' with
  | Some c, Some c' => EqualsIncludingChain c c' = true
  | None, None => True
  | _, _ => False
  end /\
  cert_status s = cert_status s' /\ content_status s = content_status s'.
Proof.
  unfold Equals. rewrite !andb_true_iff, !Z.eqb_eq, bool_decide_eq_true.
  destruct (certificate s), (certificate s'); cbn; intuition congruence.
Qed.

End Code.
End SSLStatus.

Module FaviconStatus.
Section Code.
Context `{GURLOps} {Image : Type} (empty_image : Image).

(** [struct FaviconStatus] *)
Record t : Type := mk { valid : bool; url : GURL; image : Image }.

Definition create : t := mk false GURL_null empty_image.
End Code.
End FaviconStatus.

(** ** The scroll and zoom state of a page

    A [CGFloat] is an IEEE 754 double, with its NANs and its rounding. *)

Definition CGFloat : Type := spec_float.
Definition NAN : CGFloat := S754_nan.
Definition isnan (f : CGFloat) : bool := match f with S754_nan => true | _ => false end.
Definition cg_add : CGFloat -> CGFloat -> CGFloat := SFadd 53 1024.
Definition cg_sub : CGFloat -> CGFloat -> CGFloat := SFsub 53 1024.

Module PageDisplayState.

Record CGPoint : Type := mkPoint { x : CGFloat; y : CGFloat }.
Record UIEdgeInsets : Type := mkInsets {
  top : CGFloat; left : CGFloat; bottom : CGFloat; right : CGFloat
}.

Definition kInvalidContentOffset : CGPoint := mkPoint NAN NAN.
Definition kInvalidContentInset : UIEdgeInsets := mkInsets NAN NAN NAN NAN.

Definition StateValuesAreEqual (value1 value2 : CGFloat) : bool :=
  if isnan value1 then isnan value2 else SFeqb value1 value2.

Definition StateContentOffsetsAreEqual (o1 o2 : CGPoint) : bool :=
  StateValuesAreEqual (x o1) (x o2) && StateValuesAreEqual (y o1) (y o2).

Definition StateContentInsetsAreEqual (i1 i2 : UIEdgeInsets) : bool :=
  StateValuesAreEqual (top i1) (top i2) && StateValuesAreEqual (left i1) (left i2) &&
  StateValuesAreEqual (bottom i1) (bottom i2) && StateValuesAreEqual (right i1) (right i2).

Definition IsContentOffsetValid (o : CGPoint) : bool := negb (isnan (x o)) && negb (isnan (y o)).

Definition IsContentInsetValid (i : UIEdgeInsets) : bool :=
  negb (isnan (top i)) && negb (isnan (left i)) &&
  negb (isnan (bottom i)) && negb (isnan (right i)).

Module PageScrollState.

Record t : Type := mk { content_offset_ : CGPoint; content_inset_ : UIEdgeInsets }.

Definition create : t := mk kInvalidContentOffset kInvalidContentInset.

Definition IsValid (s : t) : bool :=
  IsContentOffsetValid (content_offset_ s) && IsContentInsetValid (content_inset_ s).

Definition GetEffectiveContentOffsetForContentInset (s : t) (content_inset : UIEdgeInsets) :
    CGPoint :=
  mkPoint
    (cg_sub (cg_add (x (content_offset_ s)) (left (content_inset_ s))) (left content_inset))
    (cg_sub (cg_add (y (content_offset_ s)) (top (content_inset_ s))) (top content_inset)).

Definition eqb (s other : t) : bool :=
  StateContentOffsetsAreEqual (content_offset_ s) (content_offset_ other) &&
  StateContentInsetsAreEqual (content_inset_ s) (content_inset_ other).

End PageScrollState.

Module PageZoomState.

Record t : Type := mk {
  minimum_zoom_scale_ : CGFloat;
  maximum_zoom_scale_ : CGFloat;
  zoom_scale_ : CGFloat
}.

Definition create : t := mk NAN NAN NAN.

Definition IsValid (s : t) : bool :=
  negb (isnan (minimum_zoom_scale_ s)) && negb (isnan (maximum_zoom_scale_ s)) &&
  negb (isnan (zoom_scale_ s)) &&
  SFleb (minimum_zoom_scale_ s) (zoom_scale_ s) &&
  SFleb (zoom_scale_ s) (maximum_zoom_scale_ s).

Definition GetMinMaxZoomDifference (s : t) : CGFloat :=
  cg_sub (maximum_zoom_scale_ s) (minimum_zoom_scale_ s).

Definition eqb (s other : t) : bool :=
  StateValuesAreEqual (minimum_zoom_scale_ s) (minimum_zoom_scale_ other) &&
  StateValuesAreEqual (maximum_zoom_scale_ s) (maximum_zoom_scale_ other) &&
  StateValuesAreEqual (zoom_scale_ s) (zoom_scale_ other).

End PageZoomState.

Record t : Type := mk { scroll_state_ : PageScrollState.t; zoom_state_ : PageZoomState.t }.

Definition create : t := mk PageScrollState.create PageZoomState.create.

Definition IsValid (s : t) : bool :=
  PageScrollState.IsValid (scroll_state_ s) && PageZoomState.IsValid (zoom_state_ s).

Definition eqb (s other : t) : bool :=
  PageScrollState.eqb (scroll_state_ s) (scroll_state_ other) &&
  PageZoomState.eqb (zoom_state_ s) (zoom_state_ other).

(** What an [NSDictionary] of a serialized state holds. *)
Inductive NSValue : Type :=
| CGPointValue (p : CGPoint)
| UIEdgeInsetsValue (i : UIEdgeInsets)
| NSNumber (f : CGFloat).

Definition Serialization : Type := gmap string NSValue.

(** A value of another kind than the one asked for is an Objective-C exception,
    or a zero: not modelled, [None]. *)
Definition GetFloatValue (key : string) (serialization : Serialization) : option CGFloat :=
  match serialization !! key with
  | None => Some NAN
  | Some (NSNumber f) => Some f
  | Some _ => None
  end.

Definition GetContentOffset (serialization : Serialization) : option CGPoint :=
  match serialization !! "contentOffset" with
  | None => Some kInvalidContentOffset
  | Some (CGPointValue p) => Some p
  | Some _ => None
  end.

Definition GetContentInset (serialization : Serialization) : option UIEdgeInsets :=
  match serialization !! "contentInset" with
  | None => Some kInvalidContentInset
  | Some (UIEdgeInsetsValue i) => Some i
  | Some _ => None
  end.

(** [PageDisplayState(NSDictionary* serialization)] *)
Definition from_serialization (serialization : Serialization) : option t :=
  offset ← GetContentOffset serialization;
  inset ← GetContentInset serialization;
  min ← GetFloatValue "minZoom" serialization;
  max ← GetFloatValue "maxZoom" serialization;
  zoom ← GetFloatValue "zoom" serialization;
  Some (mk (PageScrollState.mk offset inset) (PageZoomState.mk min max zoom)).

Definition GetSerialization (s : t) : Serialization :=
  list_to_map
    [("contentOffset", CGPointValue (PageScrollState.content_offset_ (scroll_state_ s)));
     ("contentInset", UIEdgeInsetsValue (PageScrollState.content_inset_ (scroll_state_ s)));
     ("minZoom", NSNumber (PageZoomState.minimum_zoom_scale_ (zoom_state_ s)));
     ("maxZoom", NSNumber (PageZoomState.maximum_zoom_scale_ (zoom_state_ s)));
     ("zoom", NSNumber (PageZoomState.zoom_scale_ (zoom_state_ s)))].

(** ** Equality and validity *)

Lemma SFcompare_refl f : isnan f = false -> SFcompare f f = Some Eq.
Proof.
  destruct f as [s|s| |s m e]; cbn; [done|by destruct s|done|]. intros _.
  rewrite Z.compare_refl, Pos.compare_cont_refl. by destruct s.
Qed.

Lemma StateValuesAreEqual_refl f : StateValuesAreEqual f f = true.
Proof.
  unfold StateValuesAreEqual, SFeqb. destruct (isnan f) eqn:Hn; [done|]. by rewrite SFcompare_refl.
Qed.

Lemma PageScrollState_eqb_refl s : PageScrollState.eqb s s = true.
Proof.
  unfold PageScrollState.eqb, StateContentOffsetsAreEqual, StateContentInsetsAreEqual.
  by rewrite !StateValuesAreEqual_refl.
Qed.

Lemma PageZoomState_eqb_refl s : PageZoomState.eqb s s = true.
Proof. unfold PageZoomState.eqb. by rewrite !StateValuesAreEqual_refl. Qed.

Lemma eqb_refl s : eqb s s = true.
Proof. unfold eqb. by rewrite PageScrollState_eqb_refl, PageZoomState_eqb_refl. Qed.

(** Two values are equal exactly when both are NAN, or they are the same number
    (the two zeros are). *)
Lemma StateValuesAreEqual_spec f g :
  StateValuesAreEqual f g = true <->
  f = g \/ (exists b b', f = S754_zero b /\ g = S754_zero b').
Proof.
  split.
  - unfold StateValuesAreEqual, SFeqb.
    destruct f as [s|s| |s m e], g as [s'|s'| |s' m' e']; cbn; try done; try (by destruct s);
      try (by destruct s'); eauto.
    + destruct s, s'; cbn; auto; done.
    + destruct s, s'; cbn; try done.
      * destruct (Z.compare_spec e e') as [->| |]; try done.
        destruct (PosDef.Pos.compare_cont Eq m m') eqn:Hm; try done.
        apply Pos.compare_eq in Hm as ->. auto.
      * destruct (Z.compare_spec e e') as [->| |]; try done.
        destruct (PosDef.Pos.compare_cont Eq m m') eqn:Hm; try done.
        apply Pos.compare_eq in Hm as ->. auto.
  - intros [->|(b & b' & -> & ->)]; [apply StateValuesAreEqual_refl|done].
Qed.

Lemma from_GetSerialization s : from_serialization (GetSerialization s) = Some s.
Proof. by destruct s as [[[] []] []]. Qed.

(** [GetSerialization] loses nothing of a display state, NAN included:
    states with the same dictionary are the same, and the state made of the
    dictionary is the one serialized; without dictionary it is the default. *)
Theorem GetSerialization_roundtrip s :
  from_serialization (GetSerialization s) = Some s /\
  from_serialization ∅ = Some create /\
  (forall s', GetSerialization s' = GetSerialization s <-> s' = s).
Proof.
  split_and!; [apply from_GetSerialization|done|]. intros s'. split; [|by intros ->].
  intros E%(f_equal from_serialization). rewrite !from_GetSerialization in E. congruence.
Qed.

(** Equal values are interchangeable. *)
Lemma StateValuesAreEqual_congr f g :
  StateValuesAreEqual f g = true ->
  isnan f = isnan g /\ (forall h, SFcompare f h = SFcompare g h) /\
  (forall h, SFcompare h f = SFcompare h g).
Proof.
  intros [->|(b & b' & -> & ->)]%StateValuesAreEqual_spec; [done|].
  split_and!; [done|done|]. by intros [].
Qed.

Lemma StateValuesAreEqual_sym f g : StateValuesAreEqual f g = StateValuesAreEqual g f.
Proof.
  apply eq_true_iff_eq. rewrite !StateValuesAreEqual_spec. naive_solver.
Qed.

Lemma StateValuesAreEqual_trans f g h :
  StateValuesAreEqual f g = true -> StateValuesAreEqual g h = true ->
  StateValuesAreEqual f h = true.
Proof. rewrite !StateValuesAreEqual_spec. naive_solver. Qed.

(** The fields of two states, compared one by one. *)
Ltac unfold_eqb :=
  unfold eqb, PageScrollState.eqb, PageZoomState.eqb, StateContentOffsetsAreEqual,
    StateContentInsetsAreEqual in *.

Lemma eqb_sym s s' : eqb s s' = eqb s' s.
Proof.
  unfold_eqb.
  repeat first [apply StateValuesAreEqual_sym | apply (f_equal2 andb)].
Qed.

Lemma eqb_trans s1 s2 s3 : eqb s1 s2 = true -> eqb s2 s3 = true -> eqb s1 s3 = true.
Proof.
  unfold_eqb. intros. bool_to_prop. rewrite !andb_true_iff.
  split_and!; by eapply StateValuesAreEqual_trans.
Qed.

Lemma isnan_congr f g : StateValuesAreEqual f g = true -> isnan f = isnan g.
Proof. apply StateValuesAreEqual_congr. Qed.

Lemma SFleb_congr f f' g g' :
  StateValuesAreEqual f f' = true -> StateValuesAreEqual g g' = true -> SFleb f g = SFleb f' g'.
Proof.
  intros (_ & Hf & _)%StateValuesAreEqual_congr (_ & _ & Hg)%StateValuesAreEqual_congr.
  unfold SFleb. by rewrite Hf, Hg.
Qed.

Lemma IsValid_eqb s s' : eqb s s' = true -> IsValid s = IsValid s'.
Proof.
  unfold_eqb. intros. bool_to_prop.
  unfold IsValid, PageScrollState.IsValid, PageZoomState.IsValid, IsContentOffsetValid,
    IsContentInsetValid.
  repeat first [by apply isnan_congr | by apply SFleb_congr | apply (f_equal2 andb) | apply (f_equal negb)].
Qed.

(** [operator==] is an equivalence although NAN is not equal to itself,
    and equal display states are valid together. *)
Theorem PageDisplayState_eqb_equivalence s1 s2 s3 :
  eqb s1 s1 = true /\ eqb s1 s2 = eqb s2 s1 /\
  implb (eqb s1 s2 && eqb s2 s3) (eqb s1 s3) = true /\
  implb (eqb s1 s2) (Bool.eqb (IsValid s1) (IsValid s2)) = true.
Proof.
  split_and!; [apply eqb_refl|apply eqb_sym| |].
  - destruct (eqb s1 s2) eqn:E1, (eqb s2 s3) eqn:E2; cbn; [|done..]. by apply (eqb_trans s1 s2 s3).
  - destruct (eqb s1 s2) eqn:E; cbn; [|done]. rewrite (IsValid_eqb s1 s2 E). apply eqb_reflx.
Qed.

(** The legacy format, which the header calls valid, is not. *)
Lemma legacy_zoom_invalid zoom :
  PageZoomState.IsValid (PageZoomState.mk NAN NAN zoom) = false.
Proof. done. Qed.

End PageDisplayState.

(** ** A small GURL

    An instance of the interface to run the examples on: a URL is a scheme, a
    path and a fragment, and it is valid when its spec parses back to it. *)

Module ExampleGURL.

Record t : Type := mk { scheme : string; path : string; ref : string }.

#[global] Instance t_eq_dec : EqDecision t.
Proof. solve_decision. Defined.

Fixpoint split_at (c : Ascii.ascii) (s : string) : string * string :=
  match s with
  | EmptyString => (EmptyString, EmptyString)
  | String a s' =>
      if bool_decide (a = c) then (EmptyString, s')
      else let '(before, after) := split_at c s' in (String a before, after)
  end.

Definition null : t := mk "" "" "".

Definition spec (u : t) : string :=
  if bool_decide (u = null) then ""
  else (scheme u ++ ":" ++ path u ++ (if bool_decide (ref u = "") then "" else "#" ++ ref u))%string.

Definition parse (s : string) : t :=
  let '(scheme, rest) := split_at ":"%char s in
  let '(path, ref) := split_at "#"%char rest in mk scheme path ref.

Definition ops : GURLOps := {|
  GURL := t;
  GURL_null := null;
  GURL_parse := parse;
  gurl_spec := spec;
  gurl_is_valid u := negb (bool_decide (u = null)) && bool_decide (parse (spec u) = u);
  gurl_scheme := scheme;
  gurl_host := path;
  gurl_path := path;
  gurl_ref := ref;
  gurl_set_ref u r := mk (scheme u) (path u) r;
  gurl_set_scheme_path u s p := mk s p (ref u);
  gurl_SchemeIsCryptographic u := bool_decide (scheme u = "https");
  gurl_GetAsReferrer u := mk (scheme u) (path u) "";
  gurl_DeprecatedGetOriginAsURL u := mk (scheme u) (fst (split_at "/"%char (path u))) ""
|}.

Lemma laws : GURLLaws ops.
Proof.
  split; cbn; try done.
  - intros u. unfold gurl_is_empty. rewrite bool_decide_eq_true. cbn. unfold spec.
    case_bool_decide; [done|]. destruct (scheme u); cbn; done.
  - intros u Hv. bool_to_prop. done.
Qed.

Example parse_example : parse "https:a/b#c" = mk "https" "a/b" "c".
Proof. reflexivity. Qed.

End ExampleGURL.
