(* ===== verification/WkNavigationUtil.v ===== *)
(** * Session restoration URLs, error page URLs, and timestamps

    [TimeSmoother] (src/web/navigation/time_smoother.cc), [wk_navigation_util]
    (src/web/navigation/wk_navigation_util.mm) and [CRWErrorPageHelper]
    (src/web/navigation/crw_error_page_helper.mm). *)

From stdpp Require Import base tactics option list numbers strings gmap sorting.
From Stdlib Require Import ZArith Lia.
From S2P Require Import Prelude WebTypes.

(** ** TimeSmoother *)

Module TimeSmoother.

(** [base::Time]: microseconds in an [int64_t], with saturating additions. *)
Definition Time : Type := Z.
Definition INT64_MAX : Z := 2 ^ 63 - 1.
Definition time_add (t delta : Z) : Time := Z.max (- 2 ^ 63) (Z.min INT64_MAX (t + delta)).

Record t : Type := mk { low_water_mark_ : Time; high_water_mark_ : Time }.

Definition create : t := mk 0%Z 0%Z.

Definition GetSmoothedTime (time : Time) (s : t) : Time * t :=
  if (low_water_mark_ s <=? time)%Z && (time <=? high_water_mark_ s)%Z
  then
    let high := time_add (high_water_mark_ s) 1 in
    (high, mk (low_water_mark_ s) high)
  else (time, mk time time).

(** The timestamps given for a sequence of clock readings. *)
Fixpoint smooth (times : list Time) (s : t) : list Time :=
  match times with
  | [] => []
  | time :: times' =>
      let '(r, s') := GetSmoothedTime time s in r :: smooth times' s'
  end.

(** The water marks never meet the end of the [int64_t] range. *)
Definition in_range (n : nat) (time : Time) : Prop :=
  (- 2 ^ 63 <= time /\ time + Z.of_nat n < INT64_MAX)%Z.

(** One reading: either it falls between the marks and the high one moves, or
    both marks move to it. *)
Lemma GetSmoothedTime_step s time n :
  in_range (S n) (high_water_mark_ s) -> in_range (S n) time ->
  (low_water_mark_ s <= high_water_mark_ s)%Z ->
  let '(r, s') := GetSmoothedTime time s in
  high_water_mark_ s' = r /\ in_range n r /\ (low_water_mark_ s' <= r)%Z /\ (time <= r)%Z /\
  ((low_water_mark_ s <= time <= high_water_mark_ s)%Z /\ r = (high_water_mark_ s + 1)%Z /\
     low_water_mark_ s' = low_water_mark_ s \/
   (time < low_water_mark_ s \/ high_water_mark_ s < time)%Z /\ r = time /\
     low_water_mark_ s' = time).
Proof.
  unfold in_range, GetSmoothedTime, time_add, INT64_MAX. intros Hr Ht Hlh.
  destruct (Z.leb_spec (low_water_mark_ s) time), (Z.leb_spec time (high_water_mark_ s));
    cbn [andb high_water_mark_ low_water_mark_]; split_and!; lia.
Qed.

Lemma Forall_in_range n times : Forall (in_range (S n)) times -> Forall (in_range n) times.
Proof. intros Hr. eapply Forall_impl; [exact Hr|]. unfold in_range. lia. Qed.

(** Reads the hypotheses of the lemmas below for the first clock reading. *)
Ltac first_reading :=
  match goal with
  | Hr : Forall (in_range (length (?time :: ?times))) (high_water_mark_ ?s :: ?time :: ?times),
    Hlh : (low_water_mark_ ?s <= high_water_mark_ ?s)%Z |- _ =>
      let Hh := fresh "Hh" in let Ht := fresh "Ht" in let E := fresh "E" in
      cbn [length] in Hr; apply Forall_cons in Hr as [Hh Hr]; apply Forall_cons in Hr as [Ht Hr];
      apply Forall_in_range in Hr;
      pose proof (GetSmoothedTime_step s time _ Hh Ht Hlh) as Hstep;
      destruct (GetSmoothedTime time s) as [r s'] eqn:E;
      destruct Hstep as (Eh & Hrr & Hlow & Htr & Hcase)
  end.

(** Readings that never go back give strictly increasing timestamps. *)
Lemma smooth_sorted times s :
  Forall (in_range (length times)) (high_water_mark_ s :: times) ->
  (low_water_mark_ s <= high_water_mark_ s)%Z ->
  StronglySorted Z.le (low_water_mark_ s :: times) ->
  StronglySorted Z.lt (high_water_mark_ s :: smooth times s).
Proof.
  revert s. induction times as [| time times IH]; intros s Hr Hlh Hs; cbn [smooth].
  { by repeat constructor. }
  first_reading.
  apply StronglySorted_inv in Hs as [Hs Hl]. apply Forall_cons in Hl as [Hlt Hl].
  assert (StronglySorted Z.lt (high_water_mark_ s' :: smooth times s')) as IHs.
  { apply IH; [by rewrite Eh; constructor|by rewrite Eh|].
    apply StronglySorted_inv in Hs as [Hs Hle]. constructor; [done|].
    by destruct Hcase as [(_ & _ & ->)|(_ & _ & ->)]. }
  rewrite Eh in IHs. constructor; [done|]. apply StronglySorted_inv in IHs as [_ Hall].
  assert (high_water_mark_ s < r)%Z as Hlt'
    by (destruct Hcase as [(_ & -> & _)|([?|?] & -> & _)]; lia).
  apply Forall_cons. split; [done|]. eapply Forall_impl; [exact Hall|]. intros z. cbn. lia.
Qed.

Lemma smooth_ge times s :
  Forall (in_range (length times)) (high_water_mark_ s :: times) ->
  (low_water_mark_ s <= high_water_mark_ s)%Z ->
  Forall2 Z.le times (smooth times s).
Proof.
  revert s. induction times as [| time times IH]; intros s Hr Hlh; cbn [smooth]; [constructor|].
  first_reading. constructor; [done|]. apply IH; rewrite Eh; [by constructor|done].
Qed.

(** Two timestamps in a row are never the same. *)
Lemma smooth_consecutive times s i a b :
  Forall (in_range (length times)) (high_water_mark_ s :: times) ->
  (low_water_mark_ s <= high_water_mark_ s)%Z ->
  (high_water_mark_ s :: smooth times s) !! i = Some a -> smooth times s !! i = Some b -> a <> b.
Proof.
  revert s i. induction times as [| time times IH]; intros s i Hr Hlh; cbn [smooth]; [done|].
  first_reading. destruct i as [| i].
  - cbn. intros [= <-] [= <-]. destruct Hcase as [(_ & -> & _)|([?|?] & -> & _)]; lia.
  - intros Ha Hb. apply (IH s' i); rewrite ?Eh; [by constructor|done..].
Qed.

(** for any sequence of clock readings (far enough from the end of time),
    a smoothed timestamp is never before its reading, two in a row differ, and
    when the readings never go back the timestamps strictly increase. *)
Theorem GetSmoothedTime_sequence times :
  Forall (in_range (length times)) (0%Z :: times) ->
  Forall2 Z.le times (smooth times create) /\
  (forall i a b, smooth times create !! i = Some a -> smooth times create !! S i = Some b ->
     a <> b) /\
  (StronglySorted Z.le (0%Z :: times) -> StronglySorted Z.lt (smooth times create)).
Proof.
  intros Hr. split_and!.
  - by apply smooth_ge.
  - intros i a b Ha Hb. by apply (smooth_consecutive times create (S i)).
  - intros Hs. by apply (smooth_sorted times create), StronglySorted_inv in Hr as [? _].
Qed.

Lemma GetSmoothedTime_sequence_witness :
  smooth [5; 5; 5; 3; 9]%Z create = [5; 6; 7; 3; 9]%Z /\
  Forall2 Z.le [5; 5; 5; 3; 9]%Z (smooth [5; 5; 5; 3; 9]%Z create).
Proof.
  split; [reflexivity|]. apply (GetSmoothedTime_sequence [5; 5; 5; 3; 9]%Z).
  repeat (constructor; [unfold in_range, INT64_MAX; cbn; lia|]). constructor.
Defined.

End TimeSmoother.

(** ** What the navigation code asks of its environment

    The embedder ([web::WebClient]), the bundle with the HTML files, and the
    escaping and JSON functions of base/ and net/. *)

(** The session description of a restore URL. *)
Record SessionDictionary : Type := {
  session_offset : Z;
  session_urls : list string;
  session_titles : list u16string
}.

Class WebEnv `{GURLOps} : Type := {
  IsAppSpecificURL : GURL -> bool;
  (** [pathForResource:@"restore_session"], [@"error_page_loaded"] *)
  restore_session_resource_path : string;
  LoadedErrorPageFilePath : string;
  JSONWriter_Write : SessionDictionary -> string;
  EscapeQueryParamValue : string -> string;
  UnescapeBinaryURLComponent : string -> string;
  EscapeHTMLCharacters : string -> string;
  UnescapeForHTML : string -> string;
  GetValueForKeyInQuery : GURL -> string -> option string
}.

(** The documented behaviour the code relies on: unescaping undoes escaping, and
    an escaped string survives as the fragment of a URL. *)
Class WebEnvLaws `(E : WebEnv) : Prop := {
  escape_query_param : forall s, UnescapeBinaryURLComponent (EscapeQueryParamValue s) = s;
  escaped_ref : forall u prefix s, prefix = "targetUrl=" \/ prefix = "session=" ->
    gurl_ref (gurl_set_ref u (prefix ++ EscapeQueryParamValue s)%string) =
    (prefix ++ EscapeQueryParamValue s)%string;
  set_scheme_path_path : forall u,
    gurl_path (gurl_set_scheme_path u "file" restore_session_resource_path) =
    restore_session_resource_path;
  escape_html : forall s, UnescapeForHTML (EscapeHTMLCharacters s) = s
}.

Module CRWErrorPageHelper.
Section Code.
Context `{WebEnv}.

Definition failedNavigationURLFromErrorPageFileURL (URL : GURL) : GURL :=
  if negb (gurl_is_valid URL) then GURL_null
  else if gurl_SchemeIsFile URL && bool_decide (gurl_path URL = LoadedErrorPageFilePath)
  then match GetValueForKeyInQuery URL "url" with
       | Some value => GURL_parse (UnescapeForHTML value)
       | None => GURL_null
       end
  else GURL_null.

Definition isErrorPageFileURL (URL : GURL) : bool :=
  gurl_is_valid (failedNavigationURLFromErrorPageFileURL URL).

End Code.

(** ** The helper of one error

    [NSURL] and [NSURLComponents] are Foundation's. *)
Class NSURLOps : Type := {
  NSURL : Type;
  #[global] NSURL_eq_dec :: EqDecision NSURL;
  URLWithString : string -> option NSURL;
  nsurl_fileURL : NSURL -> bool;
  nsurl_path : NSURL -> string;
  nsurl_queryItems : NSURL -> list (string * string);
  (** the URL of components with the file scheme, a path and query items *)
  file_components_URL : string -> list (string * string) -> option NSURL
}.

Class NSURLLaws `(N : NSURLOps) : Prop := {
  file_components_spec : forall path items URL, file_components_URL path items = Some URL ->
    nsurl_fileURL URL = true /\ nsurl_path URL = path /\ nsurl_queryItems URL = items
}.

Section Helper.
Context `{WebEnv} `{NSURLOps}.

(** The state: the failing URL of the error the helper was created with. *)
Record t : Type := mk { failedNavigationURLString : string }.

Definition failedNavigationURL (h : t) : option NSURL :=
  URLWithString (failedNavigationURLString h).

Definition errorPageFileURL {S} (h : t) : M S NSURL :=
  let URL := file_components_URL LoadedErrorPageFilePath
    [("url", EscapeHTMLCharacters (failedNavigationURLString h)); ("dontLoad", "true")] in
  dcheck (bool_decide (is_Some URL)) ;;;
  of_option URL.

(** The value of the first query item named "url". *)
Fixpoint first_url_item (items : list (string * string)) : option string :=
  match items with
  | [] => None
  | (name, value) :: items' =>
      if bool_decide (name = "url") then Some value else first_url_item items'
  end.

Definition isErrorPageFileURLForFailedNavigationURL {S} (h : t) (URL : NSURL) : M S bool :=
  if negb (nsurl_fileURL URL) then mreturn false else
  let! error_page := errorPageFileURL h in
  if negb (bool_decide (nsurl_path URL = nsurl_path error_page)) then mreturn false
  else
    let found := v ← first_url_item (nsurl_queryItems URL); URLWithString v in
    (* a message to nil returns NO *)
    mreturn (match found with
             | Some u => bool_decide (Some u = failedNavigationURL h)
             | None => false
             end).

(** a helper recognises its own error page exactly when escaping the URL
    of the failed navigation for HTML gives the same URL: unlike
    [failedNavigationURLFromErrorPageFileURL:], the comparison does not undo
    the escape. *)
Theorem isErrorPageFileURL_own_page {S} `{!NSURLLaws H1} h (s : S) page :
  errorPageFileURL h s = Ok (page, s) ->
  exists b, isErrorPageFileURLForFailedNavigationURL h page s = Ok (b, s) /\
    (b = true <->
     is_Some (failedNavigationURL h) /\
     URLWithString (EscapeHTMLCharacters (failedNavigationURLString h)) = failedNavigationURL h).
Proof.
  intros He. pose proof He as Hc. unfold errorPageFileURL, mbind, dcheck, of_option in Hc.
  destruct (file_components_URL _ _) as [URL|] eqn:EU; [|done]. cbn in Hc. injection Hc as ->.
  destruct (file_components_spec _ _ _ EU) as (Hf & Hp & Hq).
  unfold isErrorPageFileURLForFailedNavigationURL. rewrite Hf. cbn [negb].
  unfold mbind at 1. rewrite He, Hq.
  rewrite bool_decide_eq_true_2 by done. cbn [negb]. eexists. split; [reflexivity|].
  cbn [first_url_item]. rewrite bool_decide_eq_true_2 by done. cbn.
  destruct (URLWithString (EscapeHTMLCharacters _)) as [u|]; cbn.
  - rewrite bool_decide_eq_true. split; [|tauto]. intros <-. eauto.
  - split; [done|]. intros [[? E] E']. congruence.
Qed.

End Helper.
End CRWErrorPageHelper.

Module WkNavigationUtil.

Definition kMaxSessionSize : Z := 75.
Definition kRestoreSessionSessionHashPrefix : string := "session=".
Definition kRestoreSessionTargetUrlHashPrefix : string := "targetUrl=".

(** The result, [*offset] and [*size]. *)
Definition GetSafeItemRange (last_committed_item_index item_count : Z) : Z * Z * Z :=
  let size := Z.min kMaxSessionSize item_count in
  let offset := Z.min (last_committed_item_index - Z.quot kMaxSessionSize 2)
                      (item_count - kMaxSessionSize) in
  let offset := Z.max offset 0 in
  (last_committed_item_index - offset, offset, size)%Z.

(** [s.substr(n)] *)
Fixpoint string_drop (n : nat) (s : string) : string :=
  match n, s with
  | S n', String _ s' => string_drop n' s'
  | _, _ => s
  end.

Section Code.
Context `{WebEnv}.

Definition GetRestoreSessionBaseUrl : GURL :=
  gurl_set_scheme_path (GURL_parse "about:blank") "file" restore_session_resource_path.

Definition IsRestoreSessionUrl (url : GURL) : bool :=
  gurl_SchemeIsFile url && bool_decide (gurl_path url = gurl_path GetRestoreSessionBaseUrl).

Definition IsWKInternalUrl (url : GURL) : bool := IsRestoreSessionUrl url.

Definition URLNeedsUserAgentType (url : GURL) : bool :=
  if IsAppSpecificURL url then false
  else if gurl_SchemeIs url "about" then false
  else if gurl_SchemeIs url "file" && IsRestoreSessionUrl url then true
  else if gurl_SchemeIs url "file" && CRWErrorPageHelper.isErrorPageFileURL url then true
  else if gurl_SchemeIs url "file" then false
  else true.

(** The items are given by what the function reads of them: URL and title. The
    result is [*url] and [*first_index]. *)
Definition CreateRestoreSessionUrl {S} (last_committed_item_index : Z)
    (items : list (GURL * u16string)) : M S (GURL * Z) :=
  dcheck ((0 <=? last_committed_item_index)%Z &&
          (last_committed_item_index <? Z.of_nat (length items))%Z) ;;;
  let '(new_last_committed_item_index, first_restored_item_offset, new_size) :=
    GetSafeItemRange last_committed_item_index (Z.of_nat (length items)) in
  let! restored := of_option (mapM (zlookup items)
                                (seqZ first_restored_item_offset new_size)) in
  let committed_item_offset := (new_last_committed_item_index + 1 - new_size)%Z in
  let session_json := JSONWriter_Write {|
    session_offset := committed_item_offset;
    session_urls := (fun item => gurl_spec (fst item)) <$> restored;
    session_titles := snd <$> restored
  |} in
  let ref := (kRestoreSessionSessionHashPrefix ++ EscapeQueryParamValue session_json)%string in
  mreturn (gurl_set_ref GetRestoreSessionBaseUrl ref, first_restored_item_offset).

Definition CreateRedirectUrl (target_url : GURL) : GURL :=
  gurl_set_ref GetRestoreSessionBaseUrl
    (kRestoreSessionTargetUrlHashPrefix ++ EscapeQueryParamValue (gurl_spec target_url))%string.

(** [None] when the function returns false. *)
Definition ExtractTargetURL {S} (restore_session_url : GURL) : M S (option GURL) :=
  dcheck (IsRestoreSessionUrl restore_session_url) ;;;
  let ref := gurl_ref restore_session_url in
  if String.prefix kRestoreSessionTargetUrlHashPrefix ref
  then
    let encoded_target_url :=
      string_drop (String.length kRestoreSessionTargetUrlHashPrefix) ref in
    mreturn (Some (GURL_parse (UnescapeBinaryURLComponent encoded_target_url)))
  else mreturn None.

(** ** Lemmas *)

Lemma string_drop_app p s : string_drop (String.length p) (p ++ s)%string = s.
Proof. induction p; cbn; [by destruct s|done]. Qed.

Lemma prefix_app p s : String.prefix p (p ++ s)%string = true.
Proof.
  induction p as [| c p IH]; cbn; [by destruct s|].
  change ((if Ascii.ascii_dec c c then String.prefix p (p ++ s)%string else false) = true).
  by destruct (Ascii.ascii_dec c c).
Qed.

Lemma mapM_zlookup {A} (l : list A) (offset size : Z) :
  (0 <= offset)%Z -> (0 <= size)%Z -> (offset + size <= Z.of_nat (length l))%Z ->
  mapM (zlookup l) (seqZ offset size) = Some (take (Z.to_nat size) (drop (Z.to_nat offset) l)).
Proof.
  intros Ho Hs Hl. apply mapM_Some. apply Forall2_lookup. intros i.
  destruct (decide (Z.of_nat i < size)%Z) as [Hi|Hi].
  - rewrite lookup_seqZ_lt, lookup_take_lt, lookup_drop by lia.
    destruct (lookup_lt_is_Some_2 l (Z.to_nat offset + i)) as [a Ha]; [lia|]. rewrite Ha. constructor.
    rewrite zlookup_nonneg by lia. by replace (Z.to_nat (offset + Z.of_nat i)) with (Z.to_nat offset + i) by lia.
  - rewrite lookup_seqZ_ge, lookup_take_ge by lia. constructor.
Qed.

Lemma GetSafeItemRange_bounds last count :
  (0 <= last < count)%Z ->
  let '(new_last, offset, size) := GetSafeItemRange last count in
  size = Z.min 75 count /\ (0 <= offset)%Z /\ (offset + size <= count)%Z /\
  (0 <= new_last < size)%Z /\ (offset + new_last = last)%Z.
Proof. unfold GetSafeItemRange, kMaxSessionSize. change (Z.quot 75 2) with 37%Z. lia. Qed.

Lemma GetSafeItemRange_near last count :
  let '(_, offset, size) := GetSafeItemRange last count in
  forall i, (0 <= i < count)%Z -> (Z.abs (i - last) <= 37)%Z -> (offset <= i < offset + size)%Z.
Proof. unfold GetSafeItemRange, kMaxSessionSize. change (Z.quot 75 2) with 37%Z. lia. Qed.

(** C34: the items that are restored are a range of at most 75 items that
    contains the last committed one, whose index in the range is the result;
    no item left out is nearer to it than one kept, except that 37 items are
    kept on either side when there are enough. *)
Theorem GetSafeItemRange_correct last count :
  (0 <= last < count)%Z ->
  let '(new_last, offset, size) := GetSafeItemRange last count in
  size = Z.min kMaxSessionSize count /\ (0 <= offset)%Z /\ (offset + size <= count)%Z /\
  (0 <= new_last < size)%Z /\ (offset + new_last = last)%Z /\
  (forall i, (0 <= i < count)%Z -> (Z.abs (i - last) <= 37)%Z -> (offset <= i < offset + size)%Z).
Proof.
  intros Hl. unfold GetSafeItemRange, kMaxSessionSize. change (Z.quot 75 2) with 37%Z.
  split_and!; lia.
Qed.

(** C35: [CreateRestoreSessionUrl] reads no item out of range; the session that it
    encodes in the URL has exactly the URLs and the titles of the items of the safe
    range, each of them in order: at most 75 items that start at the offset that is
    returned, with 37 on either side of the last committed one where there are
    enough; and going [offset] back from the last of them, as
    restore_session.html does, leads to the last committed item. *)
Theorem CreateRestoreSessionUrl_correct {S} last (items : list (GURL * u16string)) (s : S) :
  (0 <= last < Z.of_nat (length items))%Z ->
  let size := Z.min kMaxSessionSize (Z.of_nat (length items)) in
  exists url first session,
    CreateRestoreSessionUrl last items s = Ok ((url, first), s) /\
    url = gurl_set_ref GetRestoreSessionBaseUrl
            ("session=" ++ EscapeQueryParamValue (JSONWriter_Write session))%string /\
    (0 <= first)%Z /\ (first + size <= Z.of_nat (length items))%Z /\
    session_urls session = (fun item => gurl_spec (fst item)) <$> take (Z.to_nat size) (drop (Z.to_nat first) items) /\
    session_titles session = snd <$> take (Z.to_nat size) (drop (Z.to_nat first) items) /\
    (first + (size - 1 + session_offset session) = last)%Z /\
    (session_offset session <= 0 < size + session_offset session)%Z /\
    (forall i, (0 <= i < Z.of_nat (length items))%Z -> (Z.abs (i - last) <= 37)%Z -> (first <= i < first + size)%Z).
Proof.
  intros Hl. cbn zeta. unfold CreateRestoreSessionUrl, mbind, dcheck, of_option.
  rewrite (proj2 (Z.leb_le _ _)), (proj2 (Z.ltb_lt _ _)) by lia. cbn [andb].
  pose proof (GetSafeItemRange_bounds last _ Hl) as Hb. pose proof (GetSafeItemRange_near last (Z.of_nat (length items))) as Hnear.
  destruct (GetSafeItemRange last (Z.of_nat (length items))) as [[new_last offset] size].
  destruct Hb as (Hsz & Ho & Hos & Hn & Hnl). rewrite mapM_zlookup by lia. change kMaxSessionSize with 75%Z. rewrite <- Hsz.
  eexists _, _, _. split; [reflexivity|]. split; [reflexivity|].
  cbn [session_urls session_titles session_offset]. split_and!; try done; lia.
Qed.

Lemma IsRestoreSessionUrl_set_ref `{!GURLLaws H} r :
  IsRestoreSessionUrl (gurl_set_ref GetRestoreSessionBaseUrl r) = true.
Proof.
  unfold IsRestoreSessionUrl, gurl_SchemeIsFile, gurl_SchemeIs.
  rewrite gurl_set_ref_scheme, gurl_set_ref_path. unfold GetRestoreSessionBaseUrl.
  rewrite gurl_set_scheme_path_scheme. by rewrite !bool_decide_eq_true_2.
Qed.

(** C36: the target of a redirect URL is recovered from it, and a redirect URL
    and a restore URL are restore_session.html URLs. *)
Theorem ExtractTargetURL_CreateRedirectUrl {S} `{!GURLLaws H} `{!WebEnvLaws H0} target (s : S) :
  gurl_is_valid target = true ->
  IsRestoreSessionUrl (CreateRedirectUrl target) = true /\
  ExtractTargetURL (CreateRedirectUrl target) s = Ok (Some target, s).
Proof.
  intros Hv. assert (IsRestoreSessionUrl (CreateRedirectUrl target) = true) as Hr
    by apply IsRestoreSessionUrl_set_ref.
  split; [done|]. unfold ExtractTargetURL, mbind, dcheck. rewrite Hr. unfold CreateRedirectUrl.
  rewrite escaped_ref by (by left). rewrite prefix_app, string_drop_app.
  rewrite escape_query_param. by rewrite gurl_parse_spec.
Qed.

End Code.

(** ** Examples *)

#[local] Existing Instance ExampleGURL.ops.

Definition example_env : @WebEnv ExampleGURL.ops := {|
  IsAppSpecificURL  u := bool_decide (ExampleGURL.scheme u = "chrome");
  restore_session_resource_path := "/restore_session.html";
  LoadedErrorPageFilePath := "/error_page_loaded.html";
  JSONWriter_Write session := String.concat "," (session_urls session);
  EscapeQueryParamValue s := s;
  UnescapeBinaryURLComponent s := s;
  EscapeHTMLCharacters s := s;
  UnescapeForHTML s := s;
  GetValueForKeyInQuery _ _ := None
|}.

Lemma example_env_laws : @WebEnvLaws ExampleGURL.ops example_env.
Proof. by split. Qed.

Lemma GetSafeItemRange_correct_witness :
  GetSafeItemRange 90 100 = (65, 25, 75)%Z /\ (0 <= 65 < 75)%Z.
Proof.
  split; [reflexivity|].
  destruct (GetSafeItemRange_correct 90 100 ltac:(lia)) as (_ & _ & _ & H & _). exact H.
Defined.

Lemma CreateRestoreSessionUrl_correct_witness :
  exists url session,
    @CreateRestoreSessionUrl ExampleGURL.ops example_env unit 1
      [(ExampleGURL.mk "https" "a" "", [1%Z]); (ExampleGURL.mk "https" "b" "", [2%Z]); (ExampleGURL.mk "https" "c" "", [3%Z])] tt =
      Ok ((url, 0%Z), tt) /\
    session_urls session = ["https:a"; "https:b"; "https:c"]%string /\ session_titles session = [[1%Z]; [2%Z]; [3%Z]] /\
    session_offset session = (-1)%Z.
Proof.
  destruct (@CreateRestoreSessionUrl_correct ExampleGURL.ops example_env unit 1
    [(ExampleGURL.mk "https" "a" "", [1%Z]); (ExampleGURL.mk "https" "b" "", [2%Z]); (ExampleGURL.mk "https" "c" "", [3%Z])] tt
    ltac:(cbn; lia)) as (url & first & session & He & _ & Hf & Hs & Hu & Ht & Ho & _).
  unfold kMaxSessionSize in *. cbn in Hs, Hf. assert (first = 0%Z) as -> by lia. exists url, session. split; [exact He|]. split; [exact Hu|]. split; [exact Ht|]. cbn in Ho. lia.
Defined.

Lemma ExtractTargetURL_CreateRedirectUrl_witness :
  @ExtractTargetURL ExampleGURL.ops example_env unit
    (@CreateRedirectUrl ExampleGURL.ops example_env (ExampleGURL.mk "https" "a/b" "c")) tt =
  Ok (Some (ExampleGURL.mk "https" "a/b" "c"), tt).
Proof.
  exact (proj2 (@ExtractTargetURL_CreateRedirectUrl ExampleGURL.ops example_env unit
    ExampleGURL.laws example_env_laws (ExampleGURL.mk "https" "a/b" "c") tt eq_refl)).
Defined.

(** An error page of a URL with an ampersand is not recognised when the escape
    changes it: here HTML escaping doubles the string. *)
Definition example_nsurl : CRWErrorPageHelper.NSURLOps := {|
  CRWErrorPageHelper.NSURL := string * list (string * string);
  CRWErrorPageHelper.URLWithString s := Some (s, []);
  CRWErrorPageHelper.nsurl_fileURL _ := true;
  CRWErrorPageHelper.nsurl_path := fst;
  CRWErrorPageHelper.nsurl_queryItems := snd;
  CRWErrorPageHelper.file_components_URL path items := Some (path, items)
|}.

Lemma example_nsurl_laws : CRWErrorPageHelper.NSURLLaws example_nsurl.
Proof. split. intros path items URL [= <-]. done. Qed.

Definition escaping_env : @WebEnv ExampleGURL.ops := {|
  IsAppSpecificURL _ := false;
  restore_session_resource_path := "/restore_session.html";
  LoadedErrorPageFilePath := "/error_page_loaded.html";
  JSONWriter_Write _ := "";
  EscapeQueryParamValue s := s;
  UnescapeBinaryURLComponent s := s;
  EscapeHTMLCharacters s := (s ++ s)%string;
  UnescapeForHTML s := s;
  GetValueForKeyInQuery _ _ := None
|}.

Lemma isErrorPageFileURL_own_page_witness :
  exists b, @CRWErrorPageHelper.isErrorPageFileURLForFailedNavigationURL ExampleGURL.ops escaping_env
      example_nsurl unit (CRWErrorPageHelper.mk "a&b")
      ("/error_page_loaded.html", [("url", "a&ba&b"); ("dontLoad", "true")]) tt = Ok (b, tt) /\
    b <> true.
Proof.
  destruct (@CRWErrorPageHelper.isErrorPageFileURL_own_page ExampleGURL.ops escaping_env
    example_nsurl unit example_nsurl_laws (CRWErrorPageHelper.mk "a&b") tt
    ("/error_page_loaded.html", [("url", "a&ba&b"); ("dontLoad", "true")]) eq_refl) as (b & He & Hb).
  exists b. split; [exact He|]. intros E. apply Hb in E as [_ E]. discriminate E.
Defined.

End WkNavigationUtil.
