(* ===== verification/NavigationItem.v ===== *)
(** * NavigationItem and NavigationContext

    [NavigationItemImpl] (src/web/navigation/navigation_item_impl.{h,mm}), the
    data of one entry of the history, and [NavigationContextImpl]
    (src/web/navigation/navigation_context_impl.{h,mm}), the data of one
    navigation. The functions that make titles, the images and the certificates
    are code of other repositories, given by [ItemEnv]. *)

From stdpp Require Import base tactics option list numbers strings gmap.
From Stdlib Require Import ZArith Lia.
From S2P Require Import Prelude WebTypes WkNavigationUtil.

(** [enum class NavigationInitiationType] *)
Inductive NavigationInitiationType : Type :=
| INITIATION_NONE
| BROWSER_INITIATED
| RENDERER_INITIATED.

#[global] Instance NavigationInitiationType_eq_dec : EqDecision NavigationInitiationType.
Proof. solve_decision. Defined.

Class ItemEnv : Type := {
  Image : Type;
  empty_image : Image;
  (** [gfx::TruncateString(title, length, CHARACTER_BREAK)] *)
  TruncateString : u16string -> nat -> u16string;
  (** [url_formatter::FormatUrl(url)] *)
  FormatUrl : forall `{GURLOps}, GURL -> u16string;
  (** [gfx::ElideString(title, max, &title)] *)
  ElideString : u16string -> nat -> u16string
}.

(** [TruncateString] does what it is called for. *)
Class ItemEnvLaws `(E : ItemEnv) : Prop := {
  TruncateString_length : forall s n, length (TruncateString s n) <= n
}.

(** A counter of a C++ [static] variable: [return ++counter;], undefined when
    the signed integer overflows. *)
Definition next_id (max : Z) : M Z Z :=
  let! counter := mget in
  if (counter =? max)%Z then mfail SignedOverflow
  else mmodify (fun counter => counter + 1)%Z ;;; mget.

(** [GetUniqueIDInConstructor], [CreateUniqueContextId] *)
Definition GetUniqueIDInConstructor : M Z Z := next_id INT_MAX.
Definition CreateUniqueContextId : M Z Z := next_id TimeSmoother.INT64_MAX.

Module NavigationItemImpl.

Definition kMaxTitleLength : nat := 50.

Section Code.
Context `{WebEnv} `{CertificateOps} `{PageTransitionOps} `{ItemEnv}.

(** The data members of [NavigationItemImpl]. *)
Record t : Type := mk {
  unique_id_ : Z;
  original_request_url_ : GURL;
  url_ : GURL;
  referrer_ : Referrer.t;
  virtual_url_ : GURL;
  title_ : u16string;
  page_display_state_ : PageDisplayState.t;
  transition_type_ : PageTransition;
  favicon_status_ : FaviconStatus.t (Image := Image);
  ssl_ : SSLStatus.t;
  timestamp_ : Z;
  user_agent_type_ : UserAgent.UserAgentType;
  http_request_headers_ : option (gmap string string);
  serialized_state_object_ : option u16string;
  is_created_from_hash_change_ : bool;
  should_skip_repost_form_confirmation_ : bool;
  should_skip_serialization_ : bool;
  post_data_ : option (list Z);
  navigation_initiation_type_ : NavigationInitiationType;
  is_untrusted_ : bool;
  cached_display_title_ : u16string;
  https_upgrade_type_ : HttpsUpgradeType
}.

(** Assignments to the members. *)
Definition with_unique_id (v : Z) (s : t) : t :=
  mk v (original_request_url_ s) (url_ s) (referrer_ s) (virtual_url_ s) (title_ s)
     (page_display_state_ s) (transition_type_ s) (favicon_status_ s) (ssl_ s)
     (timestamp_ s) (user_agent_type_ s) (http_request_headers_ s)
     (serialized_state_object_ s) (is_created_from_hash_change_ s)
     (should_skip_repost_form_confirmation_ s) (should_skip_serialization_ s) (post_data_ s)
     (navigation_initiation_type_ s) (is_untrusted_ s) (cached_display_title_ s)
     (https_upgrade_type_ s).
Definition with_original_request_url (v : GURL) (s : t) : t :=
  mk (unique_id_ s) v (url_ s) (referrer_ s) (virtual_url_ s) (title_ s)
     (page_display_state_ s) (transition_type_ s) (favicon_status_ s) (ssl_ s)
     (timestamp_ s) (user_agent_type_ s) (http_request_headers_ s)
     (serialized_state_object_ s) (is_created_from_hash_change_ s)
     (should_skip_repost_form_confirmation_ s) (should_skip_serialization_ s) (post_data_ s)
     (navigation_initiation_type_ s) (is_untrusted_ s) (cached_display_title_ s)
     (https_upgrade_type_ s).
Definition with_url (v : GURL) (s : t) : t :=
  mk (unique_id_ s) (original_request_url_ s) v (referrer_ s) (virtual_url_ s) (title_ s)
     (page_display_state_ s) (transition_type_ s) (favicon_status_ s) (ssl_ s)
     (timestamp_ s) (user_agent_type_ s) (http_request_headers_ s)
     (serialized_state_object_ s) (is_created_from_hash_change_ s)
     (should_skip_repost_form_confirmation_ s) (should_skip_serialization_ s) (post_data_ s)
     (navigation_initiation_type_ s) (is_untrusted_ s) (cached_display_title_ s)
     (https_upgrade_type_ s).
Definition with_referrer (v : Referrer.t) (s : t) : t :=
  mk (unique_id_ s) (original_request_url_ s) (url_ s) v (virtual_url_ s) (title_ s)
     (page_display_state_ s) (transition_type_ s) (favicon_status_ s) (ssl_ s)
     (timestamp_ s) (user_agent_type_ s) (http_request_headers_ s)
     (serialized_state_object_ s) (is_created_from_hash_change_ s)
     (should_skip_repost_form_confirmation_ s) (should_skip_serialization_ s) (post_data_ s)
     (navigation_initiation_type_ s) (is_untrusted_ s) (cached_display_title_ s)
     (https_upgrade_type_ s).
Definition with_virtual_url (v : GURL) (s : t) : t :=
  mk (unique_id_ s) (original_request_url_ s) (url_ s) (referrer_ s) v (title_ s)
     (page_display_state_ s) (transition_type_ s) (favicon_status_ s) (ssl_ s)
     (timestamp_ s) (user_agent_type_ s) (http_request_headers_ s)
     (serialized_state_object_ s) (is_created_from_hash_change_ s)
     (should_skip_repost_form_confirmation_ s) (should_skip_serialization_ s) (post_data_ s)
     (navigation_initiation_type_ s) (is_untrusted_ s) (cached_display_title_ s)
     (https_upgrade_type_ s).
Definition with_title (v : u16string) (s : t) : t :=
  mk (unique_id_ s) (original_request_url_ s) (url_ s) (referrer_ s) (virtual_url_ s) v
     (page_display_state_ s) (transition_type_ s) (favicon_status_ s) (ssl_ s)
     (timestamp_ s) (user_agent_type_ s) (http_request_headers_ s)
     (serialized_state_object_ s) (is_created_from_hash_change_ s)
     (should_skip_repost_form_confirmation_ s) (should_skip_serialization_ s) (post_data_ s)
     (navigation_initiation_type_ s) (is_untrusted_ s) (cached_display_title_ s)
     (https_upgrade_type_ s).
Definition with_page_display_state (v : PageDisplayState.t) (s : t) : t :=
  mk (unique_id_ s) (original_request_url_ s) (url_ s) (referrer_ s) (virtual_url_ s)
     (title_ s) v (transition_type_ s) (favicon_status_ s) (ssl_ s) (timestamp_ s)
     (user_agent_type_ s) (http_request_headers_ s) (serialized_state_object_ s)
     (is_created_from_hash_change_ s) (should_skip_repost_form_confirmation_ s)
     (should_skip_serialization_ s) (post_data_ s) (navigation_initiation_type_ s)
     (is_untrusted_ s) (cached_display_title_ s) (https_upgrade_type_ s).
Definition with_transition_type (v : PageTransition) (s : t) : t :=
  mk (unique_id_ s) (original_request_url_ s) (url_ s) (referrer_ s) (virtual_url_ s)
     (title_ s) (page_display_state_ s) v (favicon_status_ s) (ssl_ s) (timestamp_ s)
     (user_agent_type_ s) (http_request_headers_ s) (serialized_state_object_ s)
     (is_created_from_hash_change_ s) (should_skip_repost_form_confirmation_ s)
     (should_skip_serialization_ s) (post_data_ s) (navigation_initiation_type_ s)
     (is_untrusted_ s) (cached_display_title_ s) (https_upgrade_type_ s).
Definition with_favicon_status (v : FaviconStatus.t (Image := Image)) (s : t) : t :=
  mk (unique_id_ s) (original_request_url_ s) (url_ s) (referrer_ s) (virtual_url_ s)
     (title_ s) (page_display_state_ s) (transition_type_ s) v (ssl_ s) (timestamp_ s)
     (user_agent_type_ s) (http_request_headers_ s) (serialized_state_object_ s)
     (is_created_from_hash_change_ s) (should_skip_repost_form_confirmation_ s)
     (should_skip_serialization_ s) (post_data_ s) (navigation_initiation_type_ s)
     (is_untrusted_ s) (cached_display_title_ s) (https_upgrade_type_ s).
Definition with_ssl (v : SSLStatus.t) (s : t) : t :=
  mk (unique_id_ s) (original_request_url_ s) (url_ s) (referrer_ s) (virtual_url_ s)
     (title_ s) (page_display_state_ s) (transition_type_ s) (favicon_status_ s) v
     (timestamp_ s) (user_agent_type_ s) (http_request_headers_ s)
     (serialized_state_object_ s) (is_created_from_hash_change_ s)
     (should_skip_repost_form_confirmation_ s) (should_skip_serialization_ s) (post_data_ s)
     (navigation_initiation_type_ s) (is_untrusted_ s) (cached_display_title_ s)
     (https_upgrade_type_ s).
Definition with_timestamp (v : Z) (s : t) : t :=
  mk (unique_id_ s) (original_request_url_ s) (url_ s) (referrer_ s) (virtual_url_ s)
     (title_ s) (page_display_state_ s) (transition_type_ s) (favicon_status_ s) (ssl_ s) v
     (user_agent_type_ s) (http_request_headers_ s) (serialized_state_object_ s)
     (is_created_from_hash_change_ s) (should_skip_repost_form_confirmation_ s)
     (should_skip_serialization_ s) (post_data_ s) (navigation_initiation_type_ s)
     (is_untrusted_ s) (cached_display_title_ s) (https_upgrade_type_ s).
Definition with_user_agent_type (v : UserAgent.UserAgentType) (s : t) : t :=
  mk (unique_id_ s) (original_request_url_ s) (url_ s) (referrer_ s) (virtual_url_ s)
     (title_ s) (page_display_state_ s) (transition_type_ s) (favicon_status_ s) (ssl_ s)
     (timestamp_ s) v (http_request_headers_ s) (serialized_state_object_ s)
     (is_created_from_hash_change_ s) (should_skip_repost_form_confirmation_ s)
     (should_skip_serialization_ s) (post_data_ s) (navigation_initiation_type_ s)
     (is_untrusted_ s) (cached_display_title_ s) (https_upgrade_type_ s).
Definition with_http_request_headers (v : option (gmap string string)) (s : t) : t :=
  mk (unique_id_ s) (original_request_url_ s) (url_ s) (referrer_ s) (virtual_url_ s)
     (title_ s) (page_display_state_ s) (transition_type_ s) (favicon_status_ s) (ssl_ s)
     (timestamp_ s) (user_agent_type_ s) v (serialized_state_object_ s)
     (is_created_from_hash_change_ s) (should_skip_repost_form_confirmation_ s)
     (should_skip_serialization_ s) (post_data_ s) (navigation_initiation_type_ s)
     (is_untrusted_ s) (cached_display_title_ s) (https_upgrade_type_ s).
Definition with_serialized_state_object (v : option u16string) (s : t) : t :=
  mk (unique_id_ s) (original_request_url_ s) (url_ s) (referrer_ s) (virtual_url_ s)
     (title_ s) (page_display_state_ s) (transition_type_ s) (favicon_status_ s) (ssl_ s)
     (timestamp_ s) (user_agent_type_ s) (http_request_headers_ s) v
     (is_created_from_hash_change_ s) (should_skip_repost_form_confirmation_ s)
     (should_skip_serialization_ s) (post_data_ s) (navigation_initiation_type_ s)
     (is_untrusted_ s) (cached_display_title_ s) (https_upgrade_type_ s).
Definition with_is_created_from_hash_change (v : bool) (s : t) : t :=
  mk (unique_id_ s) (original_request_url_ s) (url_ s) (referrer_ s) (virtual_url_ s)
     (title_ s) (page_display_state_ s) (transition_type_ s) (favicon_status_ s) (ssl_ s)
     (timestamp_ s) (user_agent_type_ s) (http_request_headers_ s)
     (serialized_state_object_ s) v (should_skip_repost_form_confirmation_ s)
     (should_skip_serialization_ s) (post_data_ s) (navigation_initiation_type_ s)
     (is_untrusted_ s) (cached_display_title_ s) (https_upgrade_type_ s).
Definition with_should_skip_repost_form_confirmation (v : bool) (s : t) : t :=
  mk (unique_id_ s) (original_request_url_ s) (url_ s) (referrer_ s) (virtual_url_ s)
     (title_ s) (page_display_state_ s) (transition_type_ s) (favicon_status_ s) (ssl_ s)
     (timestamp_ s) (user_agent_type_ s) (http_request_headers_ s)
     (serialized_state_object_ s) (is_created_from_hash_change_ s) v
     (should_skip_serialization_ s) (post_data_ s) (navigation_initiation_type_ s)
     (is_untrusted_ s) (cached_display_title_ s) (https_upgrade_type_ s).
Definition with_should_skip_serialization (v : bool) (s : t) : t :=
  mk (unique_id_ s) (original_request_url_ s) (url_ s) (referrer_ s) (virtual_url_ s)
     (title_ s) (page_display_state_ s) (transition_type_ s) (favicon_status_ s) (ssl_ s)
     (timestamp_ s) (user_agent_type_ s) (http_request_headers_ s)
     (serialized_state_object_ s) (is_created_from_hash_change_ s)
     (should_skip_repost_form_confirmation_ s) v (post_data_ s)
     (navigation_initiation_type_ s) (is_untrusted_ s) (cached_display_title_ s)
     (https_upgrade_type_ s).
Definition with_post_data (v : option (list Z)) (s : t) : t :=
  mk (unique_id_ s) (original_request_url_ s) (url_ s) (referrer_ s) (virtual_url_ s)
     (title_ s) (page_display_state_ s) (transition_type_ s) (favicon_status_ s) (ssl_ s)
     (timestamp_ s) (user_agent_type_ s) (http_request_headers_ s)
     (serialized_state_object_ s) (is_created_from_hash_change_ s)
     (should_skip_repost_form_confirmation_ s) (should_skip_serialization_ s) v
     (navigation_initiation_type_ s) (is_untrusted_ s) (cached_display_title_ s)
     (https_upgrade_type_ s).
Definition with_navigation_initiation_type (v : NavigationInitiationType) (s : t) : t :=
  mk (unique_id_ s) (original_request_url_ s) (url_ s) (referrer_ s) (virtual_url_ s)
     (title_ s) (page_display_state_ s) (transition_type_ s) (favicon_status_ s) (ssl_ s)
     (timestamp_ s) (user_agent_type_ s) (http_request_headers_ s)
     (serialized_state_object_ s) (is_created_from_hash_change_ s)
     (should_skip_repost_form_confirmation_ s) (should_skip_serialization_ s) (post_data_ s)
     v (is_untrusted_ s) (cached_display_title_ s) (https_upgrade_type_ s).
Definition with_is_untrusted (v : bool) (s : t) : t :=
  mk (unique_id_ s) (original_request_url_ s) (url_ s) (referrer_ s) (virtual_url_ s)
     (title_ s) (page_display_state_ s) (transition_type_ s) (favicon_status_ s) (ssl_ s)
     (timestamp_ s) (user_agent_type_ s) (http_request_headers_ s)
     (serialized_state_object_ s) (is_created_from_hash_change_ s)
     (should_skip_repost_form_confirmation_ s) (should_skip_serialization_ s) (post_data_ s)
     (navigation_initiation_type_ s) v (cached_display_title_ s) (https_upgrade_type_ s).
Definition with_cached_display_title (v : u16string) (s : t) : t :=
  mk (unique_id_ s) (original_request_url_ s) (url_ s) (referrer_ s) (virtual_url_ s)
     (title_ s) (page_display_state_ s) (transition_type_ s) (favicon_status_ s) (ssl_ s)
     (timestamp_ s) (user_agent_type_ s) (http_request_headers_ s)
     (serialized_state_object_ s) (is_created_from_hash_change_ s)
     (should_skip_repost_form_confirmation_ s) (should_skip_serialization_ s) (post_data_ s)
     (navigation_initiation_type_ s) (is_untrusted_ s) v (https_upgrade_type_ s).
Definition with_https_upgrade_type (v : HttpsUpgradeType) (s : t) : t :=
  mk (unique_id_ s) (original_request_url_ s) (url_ s) (referrer_ s) (virtual_url_ s)
     (title_ s) (page_display_state_ s) (transition_type_ s) (favicon_status_ s) (ssl_ s)
     (timestamp_ s) (user_agent_type_ s) (http_request_headers_ s)
     (serialized_state_object_ s) (is_created_from_hash_change_ s)
     (should_skip_repost_form_confirmation_ s) (should_skip_serialization_ s) (post_data_ s)
     (navigation_initiation_type_ s) (is_untrusted_ s) (cached_display_title_ s) v.

(** ** Construction *)

(** [NavigationItemImpl()], with the identifier of [GetUniqueIDInConstructor]. *)
Definition create (unique_id : Z) : t :=
  mk unique_id GURL_null GURL_null Referrer.create GURL_null [] PageDisplayState.create
     PAGE_TRANSITION_LINK (FaviconStatus.create empty_image) SSLStatus.create 0 UserAgent.NONE None None
     false false false None INITIATION_NONE false [] kNone.

(** The copy constructor: every member is copied. *)
Definition copy (item : t) : t := item.

(** ** Setters and getters *)

Definition GetUniqueID (s : t) : Z := unique_id_ s.
Definition SetOriginalRequestURL : GURL -> t -> t := with_original_request_url.
Definition GetOriginalRequestURL (s : t) : GURL := original_request_url_ s.

Definition SetURL (url : GURL) (s : t) : t := with_cached_display_title [] (with_url url s).
Definition GetURL (s : t) : GURL := url_ s.

Definition SetReferrer : Referrer.t -> t -> t := with_referrer.
Definition GetReferrer (s : t) : Referrer.t := referrer_ s.

Definition SetVirtualURL (url : GURL) (s : t) : t :=
  with_cached_display_title []
    (with_virtual_url (if bool_decide (url = url_ s) then GURL_null else url) s).
Definition GetVirtualURL (s : t) : GURL :=
  if gurl_is_empty (virtual_url_ s) then url_ s else virtual_url_ s.

Definition SetTitle (title : u16string) (s : t) : t :=
  if bool_decide (title_ s = title) then s
  else
    let s := with_title (if decide (kMaxTitleLength < length title)
                         then TruncateString title kMaxTitleLength else title) s in
    with_cached_display_title [] s.
Definition GetTitle (s : t) : u16string := title_ s.

Definition SetPageDisplayState : PageDisplayState.t -> t -> t := with_page_display_state.
Definition GetPageDisplayState (s : t) : PageDisplayState.t := page_display_state_ s.

(** [title.rfind('/')] *)
Fixpoint rfind_from (c : Z) (i : nat) (title : u16string) (found : option nat) : option nat :=
  match title with
  | [] => found
  | a :: title' => rfind_from c (S i) title' (if (a =? c)%Z then Some i else found)
  end.
Definition rfind (c : Z) (title : u16string) : option nat := rfind_from c 0 title None.

Definition GetDisplayTitleForURL (url : GURL) : u16string :=
  if gurl_is_empty url then []
  else
    let title := FormatUrl url in
    let title :=
      if gurl_SchemeIsFile url then
        match rfind 47 title with
        | Some slashpos =>
            if decide (slashpos = length title - 1) then title else drop (S slashpos) title
        | None => title
        end
      else title in
    ElideString title (4 * 1024).

(** The URL the title is made of when the page has none. *)
Definition display_url (s : t) : GURL :=
  if gurl_SchemeIsFile (GetURL s) then GetURL s else GetVirtualURL s.

(** The method is const, but fills the cache. *)
Definition GetTitleForDisplay (s : t) : u16string * t :=
  match title_ s with
  | _ :: _ => (title_ s, s)
  | [] =>
      match cached_display_title_ s with
      | _ :: _ => (cached_display_title_ s, s)
      | [] =>
          let title := GetDisplayTitleForURL (display_url s) in
          (title, with_cached_display_title title s)
      end
  end.

Definition SetTransitionType : PageTransition -> t -> t := with_transition_type.
Definition SetFaviconStatus : FaviconStatus.t (Image := Image) -> t -> t := with_favicon_status.
Definition SetSSL : SSLStatus.t -> t -> t := with_ssl.
Definition SetTimestamp : Z -> t -> t := with_timestamp.

Definition SetUserAgentType (type : UserAgent.UserAgentType) : M t unit :=
  mmodify (with_user_agent_type type) ;;;
  let! s := mget in
  dcheck (Bool.eqb (negb (WkNavigationUtil.URLNeedsUserAgentType (GetURL s)))
                   (bool_decide (user_agent_type_ s = UserAgent.NONE))).

Definition SetUntrusted : t -> t := with_is_untrusted true.
Definition IsUntrusted (s : t) : bool := is_untrusted_ s.
Definition GetUserAgentType (s : t) : UserAgent.UserAgentType := user_agent_type_ s.
Definition HasPostData (s : t) : bool := bool_decide (is_Some (post_data_ s)).

Definition AddHttpRequestHeaders (additional : option (gmap string string)) (s : t) : t :=
  match additional with
  | None => s
  | Some additional =>
      match http_request_headers_ s with
      | Some headers => with_http_request_headers (Some (additional ∪ headers)) s
      | None => with_http_request_headers (Some additional) s
      end
  end.

Definition RemoveHttpRequestHeaderForKey (key : string) (s : t) : t :=
  let headers := delete key <$> http_request_headers_ s in
  with_http_request_headers
    (match headers with
     | Some h => if bool_decide (h = ∅) then None else Some h
     | None => None
     end) s.

Definition ResetHttpRequestHeaders : t -> t := with_http_request_headers None.

Definition SetHttpsUpgradeType : HttpsUpgradeType -> t -> t := with_https_upgrade_type.
Definition SetSerializedStateObject : option u16string -> t -> t := with_serialized_state_object.
Definition SetNavigationInitiationType : NavigationInitiationType -> t -> t :=
  with_navigation_initiation_type.
Definition SetIsCreatedFromHashChange : bool -> t -> t := with_is_created_from_hash_change.
Definition SetShouldSkipRepostFormConfirmation : bool -> t -> t :=
  with_should_skip_repost_form_confirmation.
Definition SetShouldSkipSerialization : bool -> t -> t := with_should_skip_serialization.
Definition SetPostData : option (list Z) -> t -> t := with_post_data.

Definition ResetForCommit : t -> t := SetNavigationInitiationType INITIATION_NONE.

Definition RestoreStateFromItem (other : t) : M t unit :=
  mwhen (negb (bool_decide (GetUserAgentType other = UserAgent.NONE)))
    (SetUserAgentType (GetUserAgentType other)) ;;;
  let! s := mget in
  mwhen (bool_decide (url_ s = GetURL other))
    (mmodify (SetPageDisplayState (GetPageDisplayState other)) ;;;
     mmodify (SetVirtualURL (GetVirtualURL other))).

(** ** The operations of the interface *)

Inductive Op : Type :=
| OpSetOriginalRequestURL (url : GURL)
| OpSetURL (url : GURL)
| OpSetReferrer (referrer : Referrer.t)
| OpSetVirtualURL (url : GURL)
| OpSetTitle (title : u16string)
| OpSetPageDisplayState (state : PageDisplayState.t)
| OpGetTitleForDisplay
| OpSetTransitionType (type : PageTransition)
| OpSetFaviconStatus (status : FaviconStatus.t (Image := Image))
| OpSetSSL (status : SSLStatus.t)
| OpSetTimestamp (time : Z)
| OpSetUserAgentType (type : UserAgent.UserAgentType)
| OpAddHttpRequestHeaders (headers : option (gmap string string))
| OpRemoveHttpRequestHeaderForKey (key : string)
| OpResetHttpRequestHeaders
| OpSetHttpsUpgradeType (type : HttpsUpgradeType)
| OpSetSerializedStateObject (object : option u16string)
| OpSetNavigationInitiationType (type : NavigationInitiationType)
| OpSetIsCreatedFromHashChange (hash_change : bool)
| OpSetShouldSkipRepostFormConfirmation (skip : bool)
| OpSetShouldSkipSerialization (skip : bool)
| OpSetPostData (data : option (list Z))
| OpSetUntrusted
| OpResetForCommit
| OpRestoreStateFromItem (other : t).

Definition exec (op : Op) : M t unit :=
  match op with
  | OpSetOriginalRequestURL url => mmodify (SetOriginalRequestURL url)
  | OpSetURL url => mmodify (SetURL url)
  | OpSetReferrer referrer => mmodify (SetReferrer referrer)
  | OpSetVirtualURL url => mmodify (SetVirtualURL url)
  | OpSetTitle title => mmodify (SetTitle title)
  | OpSetPageDisplayState state => mmodify (SetPageDisplayState state)
  | OpGetTitleForDisplay => mmodify (fun s => snd (GetTitleForDisplay s))
  | OpSetTransitionType type => mmodify (SetTransitionType type)
  | OpSetFaviconStatus status => mmodify (SetFaviconStatus status)
  | OpSetSSL status => mmodify (SetSSL status)
  | OpSetTimestamp time => mmodify (SetTimestamp time)
  | OpSetUserAgentType type => SetUserAgentType type
  | OpAddHttpRequestHeaders headers => mmodify (AddHttpRequestHeaders headers)
  | OpRemoveHttpRequestHeaderForKey key => mmodify (RemoveHttpRequestHeaderForKey key)
  | OpResetHttpRequestHeaders => mmodify ResetHttpRequestHeaders
  | OpSetHttpsUpgradeType type => mmodify (SetHttpsUpgradeType type)
  | OpSetSerializedStateObject object => mmodify (SetSerializedStateObject object)
  | OpSetNavigationInitiationType type => mmodify (SetNavigationInitiationType type)
  | OpSetIsCreatedFromHashChange b => mmodify (SetIsCreatedFromHashChange b)
  | OpSetShouldSkipRepostFormConfirmation b => mmodify (SetShouldSkipRepostFormConfirmation b)
  | OpSetShouldSkipSerialization b => mmodify (SetShouldSkipSerialization b)
  | OpSetPostData data => mmodify (SetPostData data)
  | OpSetUntrusted => mmodify SetUntrusted
  | OpResetForCommit => mmodify ResetForCommit
  | OpRestoreStateFromItem other => RestoreStateFromItem other
  end.

(** ** Invariants *)

(** The title for display without the cache. *)
Definition display_title (s : t) : u16string :=
  match title_ s with
  | _ :: _ => title_ s
  | [] => GetDisplayTitleForURL (display_url s)
  end.

(** The cache holds nothing, or what would be computed again; a title is short. *)
Record wf (s : t) : Prop := {
  wf_cache : cached_display_title_ s = [] \/
    cached_display_title_ s = GetDisplayTitleForURL (display_url s);
  wf_title : length (title_ s) <= kMaxTitleLength
}.

Lemma wf_create id : wf (create id).
Proof. split; [by left|cbn; lia]. Qed.

Lemma GetTitleForDisplay_wf s :
  wf s ->
  fst (GetTitleForDisplay s) = display_title s /\ wf (snd (GetTitleForDisplay s)) /\
  display_title (snd (GetTitleForDisplay s)) = display_title s.
Proof.
  intros [Hc Ht]. unfold GetTitleForDisplay. destruct (title_ s) as [|c l] eqn:Et.
  - assert (display_title s = GetDisplayTitleForURL (display_url s)) as Ed
      by (unfold display_title; by rewrite Et).
    destruct (cached_display_title_ s) as [|c' l'] eqn:Ec; cbn [fst snd].
    + split_and!; [done| |].
      * split; [by right|]. change (length (title_ s) <= kMaxTitleLength). rewrite Et. cbn. lia.
      * rewrite Ed. unfold display_title. cbn. by rewrite Et.
    + destruct Hc as [?|Hc]; [done|]. split_and!; [congruence| |done].
      split; [right; congruence|]. rewrite Et. cbn. lia.
  - unfold display_title. cbn [fst snd]. rewrite Et. split_and!; [done| |done].
    split; [done|]. by rewrite Et.
Qed.

(** A setter of a member that titles do not depend on. *)
Definition untitled (f : t -> t) : Prop :=
  forall s, cached_display_title_ (f s) = cached_display_title_ s /\ title_ (f s) = title_ s /\
    url_ (f s) = url_ s /\ virtual_url_ (f s) = virtual_url_ s.

Lemma untitled_wf f s : untitled f -> wf s -> wf (f s).
Proof.
  intros Hf [Hc Ht]. destruct (Hf s) as (E1 & E2 & E3 & E4).
  split; unfold display_url, GetVirtualURL, GetURL in *; by rewrite ?E1, ?E2, ?E3, ?E4.
Qed.

Lemma SetVirtualURL_wf url s : wf s -> wf (SetVirtualURL url s).
Proof. intros [_ Ht]. split; [by left|done]. Qed.

Lemma SetTitle_wf `{!ItemEnvLaws H3} title s : wf s -> wf (SetTitle title s).
Proof.
  intros [Hc Ht]. unfold SetTitle. case_bool_decide; [done|].
  split; [by left|]. cbn. destruct (decide _); [apply TruncateString_length|lia].
Qed.

Lemma SetUserAgentType_wf type s s' : wf s -> SetUserAgentType type s = Ok (tt, s') -> wf s'.
Proof.
  intros Hwf. unfold SetUserAgentType, mbind, mmodify, mget, dcheck.
  destruct (Bool.eqb _ _); [|done]. intros [= <-]. by apply (untitled_wf (with_user_agent_type type)).
Qed.

Lemma RestoreStateFromItem_wf other s s' :
  wf s -> RestoreStateFromItem other s = Ok (tt, s') -> wf s'.
Proof.
  intros Hwf. unfold RestoreStateFromItem. intros ([] & s1 & Ha & Hb)%mbind_ok.
  assert (wf s1) as Hwf1.
  { unfold mwhen in Ha. destruct (negb _); [by eapply SetUserAgentType_wf|]. by injection Ha as <-. }
  apply mbind_ok in Hb as (s2 & s3 & Hg & Hb). injection Hg as <- <-. unfold mwhen in Hb.
  destruct (bool_decide (url_ s1 = _)); [|injection Hb as <-; done].
  unfold mbind, mmodify in Hb. injection Hb as <-.
  by apply SetVirtualURL_wf, (untitled_wf (SetPageDisplayState _)).
Qed.

Lemma exec_wf `{!ItemEnvLaws H3} op s s' : wf s -> exec op s = Ok (tt, s') -> wf s'.
Proof.
  intros Hwf He. destruct op; cbn [exec] in He;
    try (injection He as <-; first
      [ by apply SetVirtualURL_wf | by apply SetTitle_wf | by apply GetTitleForDisplay_wf
      | match goal with |- wf (?f s) => by apply (untitled_wf f) end ]).
  - injection He as <-. split; [by left|]. apply Hwf.
  - by eapply SetUserAgentType_wf.
  - injection He as <-. unfold AddHttpRequestHeaders. destruct headers as [h|]; [|done].
    destruct (http_request_headers_ s) as [h'|].
    + by apply (untitled_wf (with_http_request_headers (Some (h ∪ h')))).
    + by apply (untitled_wf (with_http_request_headers (Some h))).
  - by eapply RestoreStateFromItem_wf.
Qed.

(** after any sequence of operations on a new item, the title is at most
    [kMaxTitleLength] long and [GetTitleForDisplay] returns, now and the next
    time, what it would compute without its cache. *)
Theorem GetTitleForDisplay_coherent `{!ItemEnvLaws H3} ops id s :
  mfor ops exec (create id) = Ok (tt, s) ->
  length (GetTitle s) <= kMaxTitleLength /\
  fst (GetTitleForDisplay s) = display_title s /\
  fst (GetTitleForDisplay (snd (GetTitleForDisplay s))) = display_title s.
Proof.
  intros He. assert (wf s) as Hwf.
  { revert He. generalize (create id) (wf_create id). induction ops as [| op ops IH]; cbn [mfor].
    - intros s0 Hw [= <-]. done.
    - intros s0 Hw ([] & s1 & He1 & He2)%mbind_ok. by apply (IH s1); [eapply exec_wf|]. }
  destruct (GetTitleForDisplay_wf s Hwf) as (E1 & Hwf' & E2). split_and!; [apply Hwf|done|].
  destruct (GetTitleForDisplay_wf _ Hwf') as (E3 & _ & _). congruence.
Qed.

(** Reading back the virtual URL that was set, unless it is empty; an item
    whose URL changes afterwards keeps it. *)
Lemma GetVirtualURL_SetVirtualURL `{!GURLLaws H} url s :
  gurl_is_empty url = false -> GetVirtualURL (SetVirtualURL url s) = url.
Proof.
  intros Hu. unfold GetVirtualURL, SetVirtualURL. cbn. case_bool_decide as E.
  - by rewrite gurl_null_empty.
  - by rewrite Hu.
Qed.

End Code.
End NavigationItemImpl.

Module NavigationContextImpl.

(** Types of other repositories. *)
Class ContextEnv : Type := {
  NSError : Type;
  HttpResponseHeaders : Type;
  WKNavigationType : Type;
  WKNavigationTypeOther : WKNavigationType
}.

Section Code.
Context `{WebEnv} `{CertificateOps} `{PageTransitionOps} `{ItemEnv} `{ContextEnv}.

(** The data members of [NavigationContextImpl]; a WebState is named by a
    number, the timer by the time it was started at. *)
Record t : Type := mk {
  web_state_ : option positive;
  navigation_id_ : Z;
  url_ : GURL;
  has_user_gesture_ : bool;
  page_transition_ : PageTransition;
  is_same_document_ : bool;
  has_committed_ : bool;
  is_download_ : bool;
  is_post_ : bool;
  error_ : option NSError;
  response_headers_ : option HttpResponseHeaders;
  is_renderer_initiated_ : bool;
  navigation_item_unique_id_ : Z;
  wk_navigation_type_ : WKNavigationType;
  is_loading_error_page_ : bool;
  is_loading_html_string_ : bool;
  mime_type_ : option string;
  failed_https_upgrade_type_ : HttpsUpgradeType;
  elapsed_timer_ : Z;
  item_ : option NavigationItemImpl.t
}.

(** Assignments to the members that change after construction. *)
Definition with_url (v : GURL) (s : t) : t :=
  mk (web_state_ s) (navigation_id_ s) v (has_user_gesture_ s) (page_transition_ s)
     (is_same_document_ s) (has_committed_ s) (is_download_ s) (is_post_ s) (error_ s)
     (response_headers_ s) (is_renderer_initiated_ s) (navigation_item_unique_id_ s)
     (wk_navigation_type_ s) (is_loading_error_page_ s) (is_loading_html_string_ s)
     (mime_type_ s) (failed_https_upgrade_type_ s) (elapsed_timer_ s) (item_ s).
Definition with_is_same_document (v : bool) (s : t) : t :=
  mk (web_state_ s) (navigation_id_ s) (url_ s) (has_user_gesture_ s) (page_transition_ s) v
     (has_committed_ s) (is_download_ s) (is_post_ s) (error_ s) (response_headers_ s)
     (is_renderer_initiated_ s) (navigation_item_unique_id_ s) (wk_navigation_type_ s)
     (is_loading_error_page_ s) (is_loading_html_string_ s) (mime_type_ s)
     (failed_https_upgrade_type_ s) (elapsed_timer_ s) (item_ s).
Definition with_has_committed (v : bool) (s : t) : t :=
  mk (web_state_ s) (navigation_id_ s) (url_ s) (has_user_gesture_ s) (page_transition_ s)
     (is_same_document_ s) v (is_download_ s) (is_post_ s) (error_ s) (response_headers_ s)
     (is_renderer_initiated_ s) (navigation_item_unique_id_ s) (wk_navigation_type_ s)
     (is_loading_error_page_ s) (is_loading_html_string_ s) (mime_type_ s)
     (failed_https_upgrade_type_ s) (elapsed_timer_ s) (item_ s).
Definition with_is_download (v : bool) (s : t) : t :=
  mk (web_state_ s) (navigation_id_ s) (url_ s) (has_user_gesture_ s) (page_transition_ s)
     (is_same_document_ s) (has_committed_ s) v (is_post_ s) (error_ s)
     (response_headers_ s) (is_renderer_initiated_ s) (navigation_item_unique_id_ s)
     (wk_navigation_type_ s) (is_loading_error_page_ s) (is_loading_html_string_ s)
     (mime_type_ s) (failed_https_upgrade_type_ s) (elapsed_timer_ s) (item_ s).
Definition with_is_post (v : bool) (s : t) : t :=
  mk (web_state_ s) (navigation_id_ s) (url_ s) (has_user_gesture_ s) (page_transition_ s)
     (is_same_document_ s) (has_committed_ s) (is_download_ s) v (error_ s)
     (response_headers_ s) (is_renderer_initiated_ s) (navigation_item_unique_id_ s)
     (wk_navigation_type_ s) (is_loading_error_page_ s) (is_loading_html_string_ s)
     (mime_type_ s) (failed_https_upgrade_type_ s) (elapsed_timer_ s) (item_ s).
Definition with_error (v : option NSError) (s : t) : t :=
  mk (web_state_ s) (navigation_id_ s) (url_ s) (has_user_gesture_ s) (page_transition_ s)
     (is_same_document_ s) (has_committed_ s) (is_download_ s) (is_post_ s) v
     (response_headers_ s) (is_renderer_initiated_ s) (navigation_item_unique_id_ s)
     (wk_navigation_type_ s) (is_loading_error_page_ s) (is_loading_html_string_ s)
     (mime_type_ s) (failed_https_upgrade_type_ s) (elapsed_timer_ s) (item_ s).
Definition with_response_headers (v : option HttpResponseHeaders) (s : t) : t :=
  mk (web_state_ s) (navigation_id_ s) (url_ s) (has_user_gesture_ s) (page_transition_ s)
     (is_same_document_ s) (has_committed_ s) (is_download_ s) (is_post_ s) (error_ s) v
     (is_renderer_initiated_ s) (navigation_item_unique_id_ s) (wk_navigation_type_ s)
     (is_loading_error_page_ s) (is_loading_html_string_ s) (mime_type_ s)
     (failed_https_upgrade_type_ s) (elapsed_timer_ s) (item_ s).
Definition with_navigation_item_unique_id (v : Z) (s : t) : t :=
  mk (web_state_ s) (navigation_id_ s) (url_ s) (has_user_gesture_ s) (page_transition_ s)
     (is_same_document_ s) (has_committed_ s) (is_download_ s) (is_post_ s) (error_ s)
     (response_headers_ s) (is_renderer_initiated_ s) v (wk_navigation_type_ s)
     (is_loading_error_page_ s) (is_loading_html_string_ s) (mime_type_ s)
     (failed_https_upgrade_type_ s) (elapsed_timer_ s) (item_ s).
Definition with_wk_navigation_type (v : WKNavigationType) (s : t) : t :=
  mk (web_state_ s) (navigation_id_ s) (url_ s) (has_user_gesture_ s) (page_transition_ s)
     (is_same_document_ s) (has_committed_ s) (is_download_ s) (is_post_ s) (error_ s)
     (response_headers_ s) (is_renderer_initiated_ s) (navigation_item_unique_id_ s) v
     (is_loading_error_page_ s) (is_loading_html_string_ s) (mime_type_ s)
     (failed_https_upgrade_type_ s) (elapsed_timer_ s) (item_ s).
Definition with_is_loading_error_page (v : bool) (s : t) : t :=
  mk (web_state_ s) (navigation_id_ s) (url_ s) (has_user_gesture_ s) (page_transition_ s)
     (is_same_document_ s) (has_committed_ s) (is_download_ s) (is_post_ s) (error_ s)
     (response_headers_ s) (is_renderer_initiated_ s) (navigation_item_unique_id_ s)
     (wk_navigation_type_ s) v (is_loading_html_string_ s) (mime_type_ s)
     (failed_https_upgrade_type_ s) (elapsed_timer_ s) (item_ s).
Definition with_is_loading_html_string (v : bool) (s : t) : t :=
  mk (web_state_ s) (navigation_id_ s) (url_ s) (has_user_gesture_ s) (page_transition_ s)
     (is_same_document_ s) (has_committed_ s) (is_download_ s) (is_post_ s) (error_ s)
     (response_headers_ s) (is_renderer_initiated_ s) (navigation_item_unique_id_ s)
     (wk_navigation_type_ s) (is_loading_error_page_ s) v (mime_type_ s)
     (failed_https_upgrade_type_ s) (elapsed_timer_ s) (item_ s).
Definition with_mime_type (v : option string) (s : t) : t :=
  mk (web_state_ s) (navigation_id_ s) (url_ s) (has_user_gesture_ s) (page_transition_ s)
     (is_same_document_ s) (has_committed_ s) (is_download_ s) (is_post_ s) (error_ s)
     (response_headers_ s) (is_renderer_initiated_ s) (navigation_item_unique_id_ s)
     (wk_navigation_type_ s) (is_loading_error_page_ s) (is_loading_html_string_ s) v
     (failed_https_upgrade_type_ s) (elapsed_timer_ s) (item_ s).
Definition with_failed_https_upgrade_type (v : HttpsUpgradeType) (s : t) : t :=
  mk (web_state_ s) (navigation_id_ s) (url_ s) (has_user_gesture_ s) (page_transition_ s)
     (is_same_document_ s) (has_committed_ s) (is_download_ s) (is_post_ s) (error_ s)
     (response_headers_ s) (is_renderer_initiated_ s) (navigation_item_unique_id_ s)
     (wk_navigation_type_ s) (is_loading_error_page_ s) (is_loading_html_string_ s)
     (mime_type_ s) v (elapsed_timer_ s) (item_ s).
Definition with_item (v : option NavigationItemImpl.t) (s : t) : t :=
  mk (web_state_ s) (navigation_id_ s) (url_ s) (has_user_gesture_ s) (page_transition_ s)
     (is_same_document_ s) (has_committed_ s) (is_download_ s) (is_post_ s) (error_ s)
     (response_headers_ s) (is_renderer_initiated_ s) (navigation_item_unique_id_ s)
     (wk_navigation_type_ s) (is_loading_error_page_ s) (is_loading_html_string_ s)
     (mime_type_ s) (failed_https_upgrade_type_ s) (elapsed_timer_ s) v.

(** [CreateNavigationContext], on the counter of the identifiers. *)
Definition CreateNavigationContext (now : Z) (web_state : option positive) (url : GURL)
    (has_user_gesture : bool) (page_transition : PageTransition)
    (is_renderer_initiated : bool) : M Z t :=
  let! navigation_id := CreateUniqueContextId in
  mreturn (mk web_state navigation_id url has_user_gesture page_transition false false false
             false None None is_renderer_initiated (-1) WKNavigationTypeOther false false None
             kNone now None).

Definition SetUrl : GURL -> t -> t := with_url.
Definition SetIsSameDocument : bool -> t -> t := with_is_same_document.
Definition SetHasCommitted : bool -> t -> t := with_has_committed.
Definition SetIsDownload : bool -> t -> t := with_is_download.
Definition SetIsPost : bool -> t -> t := with_is_post.
Definition SetError : option NSError -> t -> t := with_error.
Definition SetResponseHeaders : option HttpResponseHeaders -> t -> t := with_response_headers.
Definition SetNavigationItemUniqueID : Z -> t -> t := with_navigation_item_unique_id.
Definition SetWKNavigationType : WKNavigationType -> t -> t := with_wk_navigation_type.
Definition SetLoadingErrorPage : bool -> t -> t := with_is_loading_error_page.
Definition SetLoadingHtmlString : bool -> t -> t := with_is_loading_html_string.
Definition SetMimeType : option string -> t -> t := with_mime_type.
Definition SetFailedHttpsUpgradeType : HttpsUpgradeType -> t -> t := with_failed_https_upgrade_type.

Definition GetElapsedTimeSinceCreation (now : Z) (c : t) : Z := (now - elapsed_timer_ c)%Z.
Definition GetNavigationItemUniqueID (c : t) : Z := navigation_item_unique_id_ c.
Definition GetItem (c : t) : option NavigationItemImpl.t := item_ c.

Definition ReleaseItem : M t (option NavigationItemImpl.t) :=
  let! c := mget in
  mmodify (with_item None) ;;;
  mreturn (item_ c).

Definition SetItem (item : option NavigationItemImpl.t) : M t unit :=
  let! c := mget in
  dcheck (bool_decide (item_ c = None)) ;;;
  match item with
  | Some i => dcheck (GetNavigationItemUniqueID c =? NavigationItemImpl.GetUniqueID i)%Z
  | None => mreturn tt
  end ;;;
  mmodify (with_item item).

Lemma next_id_ok max counter :
  counter <> max -> next_id max counter = Ok ((counter + 1)%Z, (counter + 1)%Z).
Proof. intros Hne. unfold next_id, mbind, mget. by rewrite (proj2 (Z.eqb_neq _ _) Hne). Qed.

(** the contexts created one after the other have increasing, nonzero
    identifiers (until the counter reaches the end of [int64_t], where the
    increment is undefined), and none of them is committed, a download, or
    holds an item. *)
Theorem CreateNavigationContext_ids {A} (args : list A) (create_one : A -> M Z t) counter :
  (forall a, exists now web_state url gesture transition renderer,
     create_one a = CreateNavigationContext now web_state url gesture transition renderer) ->
  (0 <= counter)%Z -> (counter + Z.of_nat (length args) <= TimeSmoother.INT64_MAX)%Z ->
  exists contexts,
    mmap args create_one counter =
      Ok (contexts, counter + Z.of_nat (length args))%Z /\
    navigation_id_ <$> contexts = seqZ (counter + 1) (Z.of_nat (length args)) /\
    Forall (fun c => navigation_id_ c <> 0%Z /\ has_committed_ c = false /\
                     is_download_ c = false /\ GetItem c = None) contexts.
Proof.
  intros Hone. revert counter. induction args as [| a args IH]; intros counter Hc Hmax; cbn [mmap].
  { exists []. cbn. rewrite Z.add_0_r. split_and!; [done..|constructor]. }
  destruct (Hone a) as (now & ws & url & g & tr & r & Ea). cbn [length] in *.
  destruct (IH (counter + 1)%Z ltac:(lia) ltac:(lia)) as (contexts & Hm & Hids & Hall).
  eexists (_ :: contexts). unfold mbind at 1. rewrite Ea.
  unfold CreateNavigationContext, mbind at 1, CreateUniqueContextId.
  rewrite next_id_ok by lia. unfold mreturn at 1, mbind. rewrite Hm. unfold mreturn. split_and!.
  - do 2 f_equal. lia.
  - cbn [fmap list_fmap navigation_id_]. rewrite Hids.
    rewrite (seqZ_cons (counter + 1)) by lia. do 2 f_equal; lia.
  - constructor; [cbn; split_and!; done || lia|done].
Qed.

(** an item is put in a context that has none, under the identifier the
    context expects, or a DCHECK fails; [ReleaseItem] gives it back and leaves
    the context as it was. *)
Theorem SetItem_ReleaseItem c i :
  (item_ c = None -> navigation_item_unique_id_ c = NavigationItemImpl.unique_id_ i ->
   (SetItem (Some i) ;;; ReleaseItem) c = Ok (Some i, c)) /\
  (item_ c <> None -> SetItem (Some i) c = Fault DCheckFailed) /\
  (navigation_item_unique_id_ c <> NavigationItemImpl.unique_id_ i ->
   SetItem (Some i) c = Fault DCheckFailed).
Proof.
  unfold SetItem, ReleaseItem, mbind, mget, dcheck, mmodify, GetNavigationItemUniqueID,
    NavigationItemImpl.GetUniqueID.
  split_and!.
  - intros Hn ->. rewrite Hn, Z.eqb_refl. rewrite bool_decide_eq_true_2 by done. cbn.
    do 2 f_equal. destruct c; cbn in *. by subst.
  - intros Hn. by rewrite bool_decide_eq_false_2.
  - intros Hne. rewrite (proj2 (Z.eqb_neq _ _) Hne). by destruct (bool_decide _).
Qed.

End Code.
End NavigationContextImpl.


(** ** Examples *)

Module ExampleItems.

#[export] Existing Instance ExampleGURL.ops.
#[export] Existing Instance WkNavigationUtil.example_env.

Fixpoint u16_of_string (s : string) : u16string :=
  match s with
  | EmptyString => []
  | String a s' => Z.of_N (Ascii.N_of_ascii a) :: u16_of_string s'
  end.

#[export] Instance certificates : CertificateOps :=
  {| X509Certificate := unit; EqualsIncludingChain _ _ := true |}.

#[export] Instance transitions : PageTransitionOps := {|
  PageTransition := Z;
  PAGE_TRANSITION_LINK := 0%Z;
  PAGE_TRANSITION_RELOAD := 8%Z;
  PAGE_TRANSITION_CLIENT_REDIRECT := Z.shiftl 1 30;
  PAGE_TRANSITION_IS_REDIRECT_MASK := Z.shiftl 3 30;
  PageTransitionCoreTypeIs p q := (Z.land p 255 =? Z.land q 255)%Z;
  PageTransition_land p q := negb (Z.land p q =? 0)%Z
|}.

#[export] Instance items : ItemEnv := {|
  Image := unit;
  empty_image := tt;
  TruncateString s n := take n s;
  FormatUrl _ u := u16_of_string (gurl_spec u);
  ElideString s n := take n s
|}.

Lemma items_laws : ItemEnvLaws items.
Proof. split. intros s n. cbn. rewrite length_take. lia. Qed.

#[export] Instance contexts : NavigationContextImpl.ContextEnv := {|
  NavigationContextImpl.NSError := string;
  NavigationContextImpl.HttpResponseHeaders := unit;
  NavigationContextImpl.WKNavigationType := Z;
  NavigationContextImpl.WKNavigationTypeOther := (-1)%Z
|}.

Definition url_a : GURL := ExampleGURL.mk "https" "a" "".
Definition url_b : GURL := ExampleGURL.mk "https" "b" "".

(** The title of an item that got an URL, then a title that was taken away. *)
Lemma GetTitleForDisplay_coherent_witness :
  exists s, mfor [NavigationItemImpl.OpSetURL url_a; NavigationItemImpl.OpGetTitleForDisplay;
                  NavigationItemImpl.OpSetURL url_b] NavigationItemImpl.exec
              (NavigationItemImpl.create 1) = Ok (tt, s) /\
    fst (NavigationItemImpl.GetTitleForDisplay s) = u16_of_string "https:b".
Proof.
  eexists. split; [reflexivity|].
  refine (eq_trans (proj1 (proj2 (NavigationItemImpl.GetTitleForDisplay_coherent (ItemEnvLaws0 := items_laws)
    [NavigationItemImpl.OpSetURL url_a; NavigationItemImpl.OpGetTitleForDisplay;
     NavigationItemImpl.OpSetURL url_b] 1 _ _))) _); reflexivity.
Defined.

Lemma CreateNavigationContext_ids_witness :
  exists contexts,
    mmap [url_a; url_b]
      (fun u => NavigationContextImpl.CreateNavigationContext 0 None u true PAGE_TRANSITION_LINK false) 6%Z =
      Ok (contexts, 8%Z) /\
    NavigationContextImpl.navigation_id_ <$> contexts = [7; 8]%Z.
Proof.
  destruct (NavigationContextImpl.CreateNavigationContext_ids [url_a; url_b]
    (fun u => NavigationContextImpl.CreateNavigationContext 0 None u true PAGE_TRANSITION_LINK false) 6%Z)
    as (contexts & Hm & Hids & _).
  - intros u. by exists 0%Z, None, u, true, PAGE_TRANSITION_LINK, false.
  - lia.
  - vm_compute. discriminate.
  - exists contexts. split; [exact Hm|exact Hids].
Defined.

End ExampleItems.
