(* ===== verification/NavigationStates.v ===== *)
(** * CRWWKNavigationStates

    The in-flight WKNavigations of a web view, their states, contexts and order
    (src/web/navigation/crw_wk_navigation_states.{h,mm}). The table is a map
    with weak keys, enumerated in an unspecified order; the code numbers the
    records to find the last one. The specification is the list of navigations
    in the order they were added. *)

From stdpp Require Import base tactics option list numbers strings gmap sorting.
From Stdlib Require Import ZArith Lia.
From S2P Require Import Prelude WebTypes WkNavigationUtil NavigationItem.

Module CRWWKNavigationStates.

(** [enum class WKNavigationState : int] *)
Inductive WKNavigationState : Type :=
| NONE
| REQUESTED
| STARTED
| REDIRECTED
| PROVISIONALY_FAILED
| COMMITTED
| FINISHED
| FAILED.

#[global] Instance WKNavigationState_eq_dec : EqDecision WKNavigationState.
Proof. solve_decision. Defined.

Definition state_value (s : WKNavigationState) : Z :=
  match s with
  | NONE => 0 | REQUESTED => 1 | STARTED => 2 | REDIRECTED => 3 | PROVISIONALY_FAILED => 4
  | COMMITTED => 5 | FINISHED => 6 | FAILED => 7
  end.

(** A [WKNavigation*]: [None] is nil. *)
Definition WKNavigation : Type := option positive.

(** The keys of the table: nil is stored as the [NSNull] object. *)
Inductive Key : Type := NSNull | Navigation (n : positive).

#[global] Instance Key_eq_dec : EqDecision Key.
Proof. solve_decision. Defined.

#[global] Instance Key_countable : Countable Key.
Proof.
  refine (inj_countable' (fun k => match k with NSNull => None | Navigation n => Some n end)
            (fun o => match o with None => NSNull | Some n => Navigation n end) _).
  by intros [].
Defined.

Section Code.
Context `{WebEnv} `{CertificateOps} `{PageTransitionOps} `{ItemEnv}.
Context `{NavigationContextImpl.ContextEnv}.

Abbreviation Context := (NavigationContextImpl.t).

(** [CRWWKNavigationsStateRecord] *)
Record StateRecord : Type := mkRecord {
  state : WKNavigationState;
  index : Z;
  committed : bool;
  context : option Context
}.

Definition initWithState (s : WKNavigationState) (i : Z) : StateRecord := mkRecord s i false None.
Definition initWithContext (c : option Context) (i : Z) : StateRecord := mkRecord NONE i false c.
Definition with_state (s : WKNavigationState) (r : StateRecord) : StateRecord :=
  mkRecord s (index r) (committed r) (context r).
Definition with_committed (b : bool) (r : StateRecord) : StateRecord :=
  mkRecord (state r) (index r) b (context r).
Definition setContext (c : option Context) (r : StateRecord) : StateRecord :=
  mkRecord (state r) (index r) (committed r) c.

(** The instance variables, and the feature
    [kClearOldNavigationRecordsWorkaround]. *)
Record t : Type := mk {
  _records : gmap Key StateRecord;
  _lastStateIndex : Z;
  workaround_enabled : bool
}.

Definition create (workaround : bool) : t := mk ∅ 0 workaround.

Definition with_records (m : gmap Key StateRecord) (s : t) : t :=
  mk m (_lastStateIndex s) (workaround_enabled s).

Definition keyForNavigation (navigation : WKNavigation) : Key :=
  match navigation with Some n => Navigation n | None => NSNull end.

(** [++_lastStateIndex], an [NSUInteger] *)
Definition nextStateIndex : M t Z :=
  mmodify (fun s => mk (_records s) ((_lastStateIndex s + 1) mod 2 ^ 64) (workaround_enabled s)) ;;;
  mgets _lastStateIndex.

(** The navigations removed when the one numbered [finishedIndex] finishes. *)
Definition older (finishedIndex : Z) (m : gmap Key StateRecord) : gmap Key StateRecord :=
  filter (fun p => (index (snd p) < finishedIndex)%Z) m.

Definition setState (new_state : WKNavigationState) (navigation : WKNavigation) : M t unit :=
  let key := keyForNavigation navigation in
  let! s := mget in
  let! record :=
    match _records s !! key with
    | None =>
        dcheck (bool_decide (new_state = REQUESTED) || bool_decide (new_state = STARTED) ||
                bool_decide (new_state = COMMITTED)) ;;;
        let! i := nextStateIndex in
        mreturn (initWithState new_state i)
    | Some record =>
        dcheck ((state_value (state record) <? state_value new_state)%Z ||
                (bool_decide (state record = new_state) && bool_decide (new_state = REDIRECTED)) ||
                (bool_decide (state record = FINISHED) && bool_decide (new_state = COMMITTED)) ||
                bool_decide (navigation = None)) ;;;
        (* the record is shared with the table *)
        let record := with_state new_state record in
        mmodify (fun s => with_records (<[key := record]> (_records s)) s) ;;;
        mreturn record
    end in
  let record := if bool_decide (new_state = COMMITTED) then with_committed true record else record in
  mwhen (bool_decide (new_state = FINISHED) && workaround_enabled s)
    (mmodify (fun s => with_records (_records s ∖ older (index record) (_records s)) s)) ;;;
  mmodify (fun s => with_records (<[key := record]> (_records s)) s).

Definition stateForNavigation (s : t) (navigation : WKNavigation) : WKNavigationState :=
  match _records s !! keyForNavigation navigation with
  | Some record => state record
  | None => NONE
  end.

Definition removeNavigation (navigation : WKNavigation) : M t (option Context) :=
  let key := keyForNavigation navigation in
  let! s := mget in
  dcheck (bool_decide (is_Some (_records s !! key))) ;;;
  mmodify (fun s => with_records (delete key (_records s)) s) ;;;
  mreturn (record ← _records s !! key; context record).

Definition setContextForNavigation (c : option Context) (navigation : WKNavigation) : M t unit :=
  let key := keyForNavigation navigation in
  let! s := mget in
  let! record :=
    match _records s !! key with
    | None => let! i := nextStateIndex in mreturn (initWithContext c i)
    | Some record => mreturn (setContext c record)
    end in
  mmodify (fun s => with_records (<[key := record]> (_records s)) s).

Definition contextForNavigation (s : t) (navigation : WKNavigation) : option Context :=
  record ← _records s !! keyForNavigation navigation; context record.

(** A client changes the context it got from [contextForNavigation:]. *)
Definition changeContext (navigation : WKNavigation) (f : Context -> Context) : M t unit :=
  mmodify (fun s =>
    with_records (alter (fun r => setContext (f <$> context r) r) (keyForNavigation navigation)
                    (_records s)) s).

(** The system releases a WKNavigation: its entry of the weak table is gone. *)
Definition releaseNavigation (n : positive) : M t unit :=
  mmodify (fun s => with_records (delete (Navigation n) (_records s)) s).

(** The loops of [getLastAddedNavigation:record:] and of
    [lastNavigationWithPendingItemInNavigationContext] over the records that
    satisfy a condition, in the order of the enumeration. *)
Fixpoint last_added_loop (condition : StateRecord -> bool) (l : list (Key * StateRecord))
    (lastAddedIndex : Z) (out : option (Key * StateRecord)) : option (Key * StateRecord) :=
  match l with
  | [] => out
  | (navigation, record) :: l' =>
      if condition record && (lastAddedIndex <? index record)%Z
      then last_added_loop condition l' (index record) (Some (navigation, record))
      else last_added_loop condition l' lastAddedIndex out
  end.

Definition getLastAddedNavigation (s : t) : option (Key * StateRecord) :=
  last_added_loop (fun _ => true) (map_to_list (_records s)) 0 None.

Definition lastAddedNavigation (s : t) : WKNavigation :=
  match getLastAddedNavigation s with
  | Some (Navigation n, _) => Some n
  | _ => None
  end.

(** A message to a nil record returns zero, [NONE]. *)
Definition lastAddedNavigationState (s : t) : WKNavigationState :=
  match getLastAddedNavigation s with
  | Some (_, record) => state record
  | None => NONE
  end.

(** Whether the record has a context with a pending item. *)
Definition has_pending_item (record : StateRecord) : bool :=
  match context record with
  | Some c => bool_decide (is_Some (NavigationContextImpl.GetItem c))
  | None => false
  end.

(** The result is a key of the table: [NSNull] is not turned into nil here. *)
Definition lastNavigationWithPendingItemInNavigationContext (s : t) : option Key :=
  fst <$> last_added_loop has_pending_item (map_to_list (_records s)) 0 None.

Definition is_pending (s : WKNavigationState) : bool :=
  match s with REQUESTED | STARTED | REDIRECTED => true | _ => false end.

Definition pendingNavigations (s : t) : gset Key :=
  dom (filter (fun p => is_pending (state (snd p)) = true) (_records s)).

Definition isCommittedNavigation (s : t) (navigation : WKNavigation) : bool :=
  match _records s !! keyForNavigation navigation with
  | Some record => committed record
  | None => false
  end.

(** ** The specification: the navigations in the order they were added *)

Inductive Op : Type :=
| OpSetState (new_state : WKNavigationState) (navigation : WKNavigation)
| OpSetContext (c : option Context) (navigation : WKNavigation)
| OpRemove (navigation : WKNavigation)
| OpChangeContext (navigation : WKNavigation) (f : Context -> Context)
| OpRelease (n : positive).

Definition exec (op : Op) : M t unit :=
  match op with
  | OpSetState new_state navigation => setState new_state navigation
  | OpSetContext c navigation => setContextForNavigation c navigation
  | OpRemove navigation => let! _ := removeNavigation navigation in mreturn tt
  | OpChangeContext navigation f => changeContext navigation f
  | OpRelease n => releaseNavigation n
  end.

Definition add_key (k : Key) (order : list Key) : list Key :=
  if decide (k ∈ order) then order else order ++ [k].

(** The navigations from [k] on. *)
Fixpoint from_key (k : Key) (order : list Key) : list Key :=
  match order with
  | [] => []
  | k' :: order' => if decide (k' = k) then order else from_key k order'
  end.

Definition spec (workaround : bool) (op : Op) (order : list Key) : list Key :=
  match op with
  | OpSetState new_state navigation =>
      let k := keyForNavigation navigation in
      let order := add_key k order in
      if bool_decide (new_state = FINISHED) && workaround then from_key k order else order
  | OpSetContext _ navigation => add_key (keyForNavigation navigation) order
  | OpRemove navigation => filter (fun k => k <> keyForNavigation navigation) order
  | OpChangeContext _ _ => order
  | OpRelease n => filter (fun k => k <> Navigation n) order
  end.

(** The number of a navigation. *)
Definition number (s : t) (k : Key) : Z := default 0%Z (index <$> _records s !! k).

Record represents (s : t) (order : list Key) : Prop := {
  rep_keys : forall k, k ∈ order <-> is_Some (_records s !! k);
  rep_sorted : StronglySorted (fun k k' => number s k < number s k')%Z order;
  rep_bounds : forall k r, _records s !! k = Some r -> (1 <= index r <= _lastStateIndex s)%Z
}.

Lemma represents_create w : represents (create w) [].
Proof.
  split; [|constructor|].
  - intros k. cbn. rewrite lookup_empty. split; [by intros ?%elem_of_nil|by intros []].
  - intros k r. cbn. by rewrite lookup_empty.
Qed.

(** Records that keep their numbers. *)
Lemma represents_ext s s' order order' :
  represents s order -> _lastStateIndex s' = _lastStateIndex s ->
  order' `sublist_of` order ->
  (forall k, k ∈ order' <-> is_Some (_records s' !! k)) ->
  (forall k r', _records s' !! k = Some r' ->
     exists r, _records s !! k = Some r /\ index r' = index r) ->
  represents s' order'.
Proof.
  intros [Hk Hs Hb] El Hsub Hk' Hr. split; [done| |].
  - assert (forall k, k ∈ order' -> number s' k = number s k) as Hn.
    { intros k [r' Hk2]%Hk'. unfold number. destruct (Hr k r' Hk2) as (r & -> & E).
      by rewrite Hk2; cbn. }
    clear Hk Hk' Hb Hr. induction Hsub as [|x l1 l2 Hsub IH|x l1 l2 Hsub IH]; [constructor| |].
    + apply StronglySorted_inv in Hs as [Hs Hx]. constructor.
      * apply IH; [done|]. intros k Hk. apply Hn. by right.
      * apply Forall_forall. intros y Hy. rewrite !Hn by (by constructor).
        rewrite Forall_forall in Hx. apply Hx. by eapply elem_of_sublist.
    + apply StronglySorted_inv in Hs as [Hs Hx]. by apply IH.
  - intros k r' Hk2. destruct (Hr k r' Hk2) as (r & Hr2 & ->). rewrite El. by eapply Hb.
Qed.

(** The same records but for what is not a number. *)
Lemma represents_update s order k r r' :
  represents s order -> _records s !! k = Some r -> index r' = index r ->
  represents (with_records (<[k := r']> (_records s)) s) order.
Proof.
  intros Hrep Hr Ei. eapply represents_ext; [done..| |].
  - intros k'. rewrite (rep_keys _ _ Hrep). cbn. destruct (decide (k = k')) as [<-|Hne].
    + rewrite lookup_insert_eq, Hr. split; eauto.
    + by rewrite lookup_insert_ne.
  - intros k' r2. cbn. destruct (decide (k = k')) as [<-|Hne].
    + rewrite lookup_insert_eq. intros [= <-]. eauto.
    + rewrite lookup_insert_ne by done. eauto.
Qed.

Lemma represents_delete s order k :
  represents s order ->
  represents (with_records (delete k (_records s)) s) (filter (fun k' => k' <> k) order).
Proof.
  intros Hrep. eapply represents_ext; [done..|apply sublist_filter| |].
  - intros k'. rewrite list_elem_of_filter, (rep_keys _ _ Hrep). cbn.
    destruct (decide (k = k')) as [<-|Hne].
    + rewrite lookup_delete_eq. split; [by intros []|by intros []].
    + rewrite lookup_delete_ne by done. naive_solver.
  - intros k' r. cbn. rewrite lookup_delete_Some. naive_solver.
Qed.

(** A new record gets the next number. *)
Lemma represents_add s order k r :
  represents s order -> _records s !! k = None -> (_lastStateIndex s + 1 < 2 ^ 64)%Z ->
  (0 <= _lastStateIndex s)%Z ->
  index r = ((_lastStateIndex s + 1) mod 2 ^ 64)%Z ->
  represents (mk (<[k := r]> (_records s)) ((_lastStateIndex s + 1) mod 2 ^ 64)
                (workaround_enabled s)) (order ++ [k]).
Proof.
  intros [Hk Hs Hb] Hn Hmax Hpos Ei. rewrite Z.mod_small in Ei |- * by lia.
  set (s' := mk _ _ _).
  assert (forall k', k' ∈ order -> number s' k' = number s k' /\
            (number s k' <= _lastStateIndex s)%Z) as Hnum.
  { intros k' Hin. apply Hk in Hin as [r' Hr']. unfold number, s'. cbn.
    rewrite lookup_insert_ne by congruence. rewrite Hr'. cbn. split; [done|]. by eapply Hb. }
  split.
  - intros k'. rewrite elem_of_app, list_elem_of_singleton, Hk. cbn.
    destruct (decide (k = k')) as [<-|Hne].
    + rewrite lookup_insert_eq. split; eauto.
    + rewrite lookup_insert_ne by done. naive_solver.
  - apply StronglySorted_app. split_and!.
    + intros x y Hx ->%list_elem_of_singleton. destruct (Hnum x Hx) as [-> ?].
      assert (number s' k = index r) as -> by (unfold number, s'; cbn; by rewrite lookup_insert_eq).
      lia.
    + assert (forall l, (forall k', k' ∈ l -> number s' k' = number s k') ->
                StronglySorted (fun k k' => number s k < number s k')%Z l ->
                StronglySorted (fun k k' => number s' k < number s' k')%Z l) as Hmono.
      { clear. induction l as [|x l IH]; intros Hl Hs; [constructor|].
        apply StronglySorted_inv in Hs as [Hs Hx]. constructor.
        - apply IH; [|done]. intros k' Hk'. apply Hl. by right.
        - rewrite Forall_forall in *. intros y Hy. rewrite !Hl by (by constructor). by apply Hx. }
      apply Hmono; [|done]. intros k' Hk'. by apply Hnum.
    + repeat constructor.
  - intros k' r'. cbn. destruct (decide (k = k')) as [<-|Hne].
    + rewrite lookup_insert_eq. intros [= <-]. lia.
    + rewrite lookup_insert_ne by done. intros Hr. specialize (Hb k' r' Hr). lia.
Qed.

Lemma lookup_not_older i (m : gmap Key StateRecord) k r :
  (m ∖ older i m) !! k = Some r <-> m !! k = Some r /\ (i <= index r)%Z.
Proof.
  rewrite lookup_difference_Some. unfold older. rewrite map_lookup_filter_None. cbn.
  split.
  - intros [Hr [Hn|Hn]]; [congruence|]. split; [done|]. specialize (Hn r Hr). lia.
  - intros [Hr Hi]. split; [done|]. right. intros r' Hr'. assert (r' = r) as -> by congruence. lia.
Qed.

Lemma from_key_split k order :
  k ∈ order -> exists pre, order = pre ++ from_key k order /\ (k ∉ pre) /\
                           exists post, from_key k order = k :: post.
Proof.
  induction order as [|x order IH]; [by intros ?%elem_of_nil|]. intros Hk. cbn.
  destruct (decide (x = k)) as [->|Hne].
  - exists []. split_and!; [done|by intros ?%elem_of_nil|eauto].
  - apply elem_of_cons in Hk as [->|Hk]; [done|]. destruct (IH Hk) as (pre & E & Hn & post & Ep).
    exists (x :: pre). split_and!; [by rewrite E at 1|by intros [?|?]%elem_of_cons|eauto].
Qed.

Lemma represents_finish s order k r :
  represents s order -> _records s !! k = Some r ->
  represents (with_records (_records s ∖ older (index r) (_records s)) s) (from_key k order).
Proof.
  intros Hrep Hr. assert (k ∈ order) as Hk by (apply (rep_keys _ _ Hrep); eauto).
  destruct (from_key_split k order Hk) as (pre & E & Hn & post & Ep).
  pose proof (rep_sorted _ _ Hrep) as Hs. rewrite E in Hs. apply StronglySorted_app in Hs as (Hpre & _ & Hpost).
  assert (number s k = index r) as Enum by (unfold number; by rewrite Hr).
  eapply represents_ext; [done|done| | |].
  - rewrite E at 2. by apply sublist_inserts_l.
  - intros k'. cbn. split.
    + intros Hin. assert (k' ∈ order) as [r' Hr']%(rep_keys _ _ Hrep)
        by (rewrite E; apply elem_of_app; by right).
      exists r'. apply lookup_not_older. split; [done|]. rewrite Ep in Hin, Hpost.
      assert (number s k' = index r') as <- by (unfold number; by rewrite Hr').
      apply elem_of_cons in Hin as [->|Hin]; [lia|].
      apply StronglySorted_inv in Hpost as [_ Hpost]. rewrite Forall_forall in Hpost.
      specialize (Hpost k' Hin). lia.
    + intros [r' [Hr' Hi]%lookup_not_older].
      assert (k' ∈ order) as Hin by (apply (rep_keys _ _ Hrep); eauto).
      rewrite E in Hin. apply elem_of_app in Hin as [Hin|Hin]; [|done].
      assert (number s k' < number s k)%Z by (apply Hpre; [done|]; rewrite Ep; by left).
      assert (number s k' = index r') by (unfold number; by rewrite Hr'). lia.
  - intros k' r'. cbn. intros [Hr' _]%lookup_not_older. eauto.
Qed.

(** ** Every operation does what the specification says *)

Lemma add_key_present k order : k ∈ order -> add_key k order = order.
Proof. unfold add_key. by case_decide. Qed.

Lemma add_key_absent k order : k ∉ order -> add_key k order = order ++ [k].
Proof. unfold add_key. by case_decide. Qed.

(** What is left of [setState:forNavigation:] once the record is in the table. *)
Lemma represents_tail (b1 b2 : bool) s order k r :
  represents s order -> _records s !! k = Some r ->
  let r' := if b1 then with_committed true r else r in
  let s1 := if b2 then with_records (_records s ∖ older (index r') (_records s)) s else s in
  represents (with_records (<[k := r']> (_records s1)) s1) (if b2 then from_key k order else order).
Proof.
  intros Hrep Hr r' s1. assert (index r' = index r) as Ei by (unfold r'; by destruct b1).
  destruct b2; unfold s1.
  - rewrite Ei. apply represents_update with (r := r); [by apply represents_finish| |done].
    cbn. apply lookup_not_older. split; [done|lia].
  - by apply represents_update with (r := r).
Qed.

(** Overwriting the entry of [k] in a map without the older entries. *)
Lemma insert_not_older k r r' i (m : gmap Key StateRecord) :
  <[k := r']> (<[k := r]> m ∖ older i (<[k := r]> m)) = <[k := r']> (m ∖ older i m).
Proof.
  apply map_eq. intros k'. destruct (decide (k = k')) as [<-|Hne]; [by rewrite !lookup_insert_eq|].
  rewrite !lookup_insert_ne by done. apply option_eq. intros x.
  by rewrite !lookup_not_older, lookup_insert_ne.
Qed.

Lemma setState_refines new_state navigation s order s' :
  represents s order -> (0 <= _lastStateIndex s)%Z -> (_lastStateIndex s + 1 < 2 ^ 64)%Z ->
  setState new_state navigation s = Ok (tt, s') ->
  represents s' (spec (workaround_enabled s) (OpSetState new_state navigation) order).
Proof.
  intros Hrep Hpos Hmax. unfold setState. set (k := keyForNavigation navigation). cbn [spec].
  fold k. intros (s0 & s1 & [= <- <-] & He)%mbind_ok. apply mbind_ok in He as (r & s2 & Hrec & He).
  assert (exists order', represents (with_records (<[k := r]> (_records s2)) s2) order' /\
            order' = add_key k order /\ workaround_enabled s2 = workaround_enabled s) as
    (order' & Hrep' & -> & Hw).
  { destruct (_records s !! k) as [record|] eqn:Er.
    - apply mbind_ok in Hrec as (u & s3 & Hd & Hrec). unfold dcheck in Hd.
      destruct (_ || _) in Hd; [|done]. injection Hd as <- <-. injection Hrec as <- <-.
      eexists. split; [|split; [symmetry; apply add_key_present; apply (rep_keys _ _ Hrep); eauto|done]].
      apply represents_update with (r := with_state new_state record).
      + by apply represents_update with (r := record).
      + cbn. by rewrite lookup_insert_eq.
      + done.
    - apply mbind_ok in Hrec as (u & s3 & Hd & Hrec). unfold dcheck in Hd.
      destruct (_ || _) in Hd; [|done]. injection Hd as <- <-. injection Hrec as <- <-.
      eexists. split; [|split; [symmetry; apply add_key_absent|done]].
      + by apply (represents_add s order k (initWithState new_state _)).
      + rewrite (rep_keys _ _ Hrep), Er. by intros []. }
  apply (represents_tail (bool_decide (new_state = COMMITTED))
           (bool_decide (new_state = FINISHED) && workaround_enabled s) _ _ k r) in Hrep';
    [|cbn; by rewrite lookup_insert_eq].
  revert Hrep'. apply mbind_ok in He as ([] & s3 & Hf & [= <-]). unfold mwhen in Hf.
  destruct (bool_decide (new_state = FINISHED) && workaround_enabled s);
    injection Hf as <-; cbn.
  - by rewrite insert_not_older.
  - by rewrite insert_insert_eq.
Qed.

Lemma setContext_refines c navigation s order s' :
  represents s order -> (0 <= _lastStateIndex s)%Z -> (_lastStateIndex s + 1 < 2 ^ 64)%Z ->
  setContextForNavigation c navigation s = Ok (tt, s') ->
  represents s' (add_key (keyForNavigation navigation) order).
Proof.
  intros Hrep Hpos Hmax. unfold setContextForNavigation. set (k := keyForNavigation navigation).
  intros (s0 & s1 & [= <- <-] & He)%mbind_ok.
  destruct (_records s !! k) as [record|] eqn:Er; apply mbind_ok in He as (r & s2 & Hr & [= <-]).
  - injection Hr as <- <-. rewrite add_key_present by (apply (rep_keys _ _ Hrep); eauto).
    by apply represents_update with (r := record).
  - injection Hr as <- <-. rewrite add_key_absent by (rewrite (rep_keys _ _ Hrep), Er; by intros []).
    by apply (represents_add s order k (initWithContext c _)).
Qed.

Lemma changeContext_refines navigation f s order s' :
  represents s order -> changeContext navigation f s = Ok (tt, s') -> represents s' order.
Proof.
  intros Hrep [= <-]. eapply represents_ext; [done..| |].
  - intros k. rewrite (rep_keys _ _ Hrep). cbn. by rewrite lookup_alter_is_Some.
  - intros k r. cbn. intros Hr. destruct (decide (keyForNavigation navigation = k)) as [<-|Hne].
    + rewrite lookup_alter_eq in Hr. apply fmap_Some in Hr as (r' & Hr' & ->). eauto.
    + rewrite lookup_alter_ne in Hr by done. eauto.
Qed.

Lemma exec_represents op s order s' :
  represents s order -> (0 <= _lastStateIndex s)%Z -> (_lastStateIndex s + 1 < 2 ^ 64)%Z ->
  exec op s = Ok (tt, s') -> represents s' (spec (workaround_enabled s) op order).
Proof.
  intros Hrep Hpos Hmax He. destruct op; cbn [exec] in He.
  - by apply setState_refines with (s := s).
  - by apply setContext_refines with (c := c) (s := s).
  - apply mbind_ok in He as (c & s1 & Hr & [= <-]). unfold removeNavigation in Hr.
    apply mbind_ok in Hr as (s0 & s2 & [= <- <-] & Hr). apply mbind_ok in Hr as (u & s3 & Hd & Hr).
    unfold dcheck in Hd. destruct (bool_decide _) in Hd; [|done]. injection Hd as <- <-.
    injection Hr as _ <-. by apply represents_delete.
  - by apply changeContext_refines with (navigation := navigation) (f := f) (s := s).
  - injection He as <-. by apply represents_delete.
Qed.

(** The counter and the feature: an operation adds at most one navigation. *)
Definition counter_step (s s' : t) : Prop :=
  (_lastStateIndex s' = _lastStateIndex s \/
   _lastStateIndex s' = ((_lastStateIndex s + 1) mod 2 ^ 64)%Z) /\
  workaround_enabled s' = workaround_enabled s.

Lemma setState_counter new_state navigation s s' :
  setState new_state navigation s = Ok (tt, s') -> counter_step s s'.
Proof.
  unfold setState. intros (s0 & s1 & [= <- <-] & He)%mbind_ok.
  apply mbind_ok in He as (r & s2 & Hrec & He).
  assert (counter_step s s2) as Hc.
  { destruct (_records s !! _); apply mbind_ok in Hrec as (u & s3 & Hd & Hrec); unfold dcheck in Hd;
      destruct (_ || _) in Hd; try done; injection Hd as <- <-; injection Hrec as <- <-;
      split; cbn; auto. }
  apply mbind_ok in He as ([] & s3 & Hf & [= <-]). unfold mwhen in Hf.
  destruct (_ && _); injection Hf as <-; exact Hc.
Qed.

Lemma exec_counter op s s' : exec op s = Ok (tt, s') -> counter_step s s'.
Proof.
  destruct op; cbn [exec].
  - apply setState_counter.
  - unfold setContextForNavigation. intros (s0 & s1 & [= <- <-] & He)%mbind_ok.
    destruct (_records s !! _); injection He as <-; split; cbn; auto.
  - intros (c & s1 & Hr & [= <-])%mbind_ok. unfold removeNavigation in Hr.
    apply mbind_ok in Hr as (s0 & s2 & [= <- <-] & Hr). apply mbind_ok in Hr as (u & s3 & Hd & Hr).
    unfold dcheck in Hd. destruct (bool_decide _) in Hd; [|done]. injection Hd as <- <-.
    injection Hr as _ <-. split; cbn; auto.
  - intros [= <-]. split; cbn; auto.
  - intros [= <-]. split; cbn; auto.
Qed.

(** The states a sequence of operations leads to. *)
Lemma run_represents workaround ops s :
  (Z.of_nat (length ops) < 2 ^ 64)%Z ->
  mfor ops exec (create workaround) = Ok (tt, s) ->
  represents s (foldl (fun order op => spec workaround op order) [] ops).
Proof.
  enough (forall ops s0 order, (0 <= _lastStateIndex s0)%Z ->
            (_lastStateIndex s0 + Z.of_nat (length ops) < 2 ^ 64)%Z ->
            represents s0 order -> mfor ops exec s0 = Ok (tt, s) ->
            represents s (foldl (fun order op => spec (workaround_enabled s0) op order) order ops)) as Hgen.
  { intros Hl. apply (Hgen ops (create workaround)); [done|done|apply represents_create]. }
  clear. intros ops. induction ops as [|op ops IH]; intros s0 order Hpos Hmax Hrep; cbn [mfor].
  - by intros [= <-].
  - intros ([] & s1 & He & Hr)%mbind_ok. cbn [length] in Hmax.
    destruct (exec_counter op s0 s1 He) as [Hc Hw]. rewrite Z.mod_small in Hc by lia.
    cbn [foldl]. rewrite <- Hw. apply (IH s1); [lia|lia| |done]. rewrite Hw.
    apply exec_represents with (s := s0); [done|done|lia|done].
Qed.

(** ** The queries *)

Lemma last_added_loop_spec p l n out :
  (exists k r, last_added_loop p l n out = Some (k, r) /\ (k, r) ∈ l /\ p r = true /\
     (n < index r)%Z /\ forall k' r', (k', r') ∈ l -> p r' = true -> (index r' <= index r)%Z) \/
  (last_added_loop p l n out = out /\
     forall k' r', (k', r') ∈ l -> p r' = true -> (index r' <= n)%Z).
Proof.
  revert n out. induction l as [|[k r] l IH]; intros n out; cbn [last_added_loop].
  { right. split; [done|]. intros k' r' Hin. by apply elem_of_nil in Hin. }
  destruct (p r && (n <? index r)%Z) eqn:E.
  - bool_to_prop. left. destruct (IH (index r) (Some (k, r))) as
      [(k1 & r1 & -> & Hin & Hp & Hlt & Hmax)|[-> Hmax]].
    + exists k1, r1. split_and!; [done|by right|done|lia|].
      intros k' r' [[= -> ->]|Hin']%elem_of_cons Hp'; [lia|by eapply Hmax].
    + exists k, r. split_and!; [done|by left|done|lia|].
      intros k' r' [[= -> ->]|Hin']%elem_of_cons Hp'; [lia|by eapply Hmax].
  - destruct (IH n out) as [(k1 & r1 & -> & Hin & Hp & Hlt & Hmax)|[-> Hmax]].
    + left. exists k1, r1. split_and!; [done|by right|done|lia|].
      intros k' r' [[= -> ->]|Hin']%elem_of_cons Hp'; [|by eapply Hmax].
      rewrite Hp' in E. bool_to_prop. cbn in E. bool_to_prop. lia.
    + right. split; [done|]. intros k' r' [[= -> ->]|Hin']%elem_of_cons Hp'; [|by eapply Hmax].
      rewrite Hp' in E. cbn in E. bool_to_prop. lia.
Qed.

(** The last navigation of the order whose record satisfies a condition. *)
Definition record_satisfies (p : StateRecord -> bool) (s : t) (k : Key) : bool :=
  match _records s !! k with Some r => p r | None => false end.

Definition last_with (p : StateRecord -> bool) (s : t) (order : list Key) : option Key :=
  last (filter (fun k => record_satisfies p s k = true) order).

(** Whatever the order of the enumeration, a loop finds the last one. *)
Lemma last_added_loop_last p s order l :
  represents s order -> l ≡ₚ map_to_list (_records s) ->
  last_added_loop p l 0 None =
    (k ← last_with p s order; r ← _records s !! k; Some (k, r)).
Proof.
  intros Hrep Hl. assert (forall k r, (k, r) ∈ l <-> _records s !! k = Some r) as Hin
    by (intros k r; rewrite Hl; apply elem_of_map_to_list).
  unfold last_with. destruct (last_added_loop_spec p l 0 None)
    as [(k & r & -> & Hk%Hin & Hp & _ & Hmax)|[-> Hmax]].
  - assert (k ∈ order) as Ho by (apply (rep_keys _ _ Hrep); eauto).
    destruct (from_key_split k order Ho) as (pre & E & _ & post & Ep). rewrite Ep in E.
    assert (filter (fun k => record_satisfies p s k = true) post = []) as Epost.
    { apply filter_none. intros k' Hk' Hs'. unfold record_satisfies in Hs'.
      destruct (_records s !! k') as [r'|] eqn:Er'; [|done].
      pose proof (rep_sorted _ _ Hrep) as Hsrt. rewrite E in Hsrt.
      apply StronglySorted_app in Hsrt as (_ & _ & Hsrt). apply StronglySorted_inv in Hsrt as [_ Hf].
      rewrite Forall_forall in Hf. specialize (Hf k' Hk'). unfold number in Hf.
      rewrite Hk, Er' in Hf. cbn in Hf. apply Hin in Er'. specialize (Hmax k' r' Er' Hs'). lia. }
    rewrite E, filter_app. rewrite (filter_cons_True _ k) by (unfold record_satisfies; by rewrite Hk).
    rewrite Epost, last_snoc. cbn. by rewrite Hk.
  - rewrite (filter_none _ order); [done|]. intros k Hk Hs. unfold record_satisfies in Hs.
    destruct (_records s !! k) as [r|] eqn:Er; [|done].
    pose proof (rep_bounds _ _ Hrep k r Er) as Hb. apply Hin in Er. specialize (Hmax k r Er Hs). lia.
Qed.

(** C29: after any sequence of fewer than 2^64 operations, the table holds the
    navigations of the specification, and whatever the order it is enumerated
    in, the loops find the last one added, and the last one with a pending
    item. *)
Theorem run_refines_order workaround ops s :
  (Z.of_nat (length ops) < 2 ^ 64)%Z ->
  mfor ops exec (create workaround) = Ok (tt, s) ->
  let order := foldl (fun order op => spec workaround op order) [] ops in
  (forall k, is_Some (_records s !! k) <-> k ∈ order) /\
  lastAddedNavigation s = (match last order with Some (Navigation n) => Some n | _ => None end) /\
  lastAddedNavigationState s =
    (match last order with Some k => default NONE (state <$> _records s !! k) | None => NONE end) /\
  lastNavigationWithPendingItemInNavigationContext s = last_with has_pending_item s order /\
  (forall p l, l ≡ₚ map_to_list (_records s) ->
     last_added_loop p l 0 None = last_added_loop p (map_to_list (_records s)) 0 None).
Proof.
  intros Hl Hrun order. assert (represents s order) as Hrep by by apply run_represents.
  assert (getLastAddedNavigation s = (k ← last order; r ← _records s !! k; Some (k, r))) as Elast.
  { unfold getLastAddedNavigation. rewrite (last_added_loop_last _ s order) by done. unfold last_with.
    rewrite filter_all; [done|]. intros k Hk. unfold record_satisfies.
    apply (rep_keys _ _ Hrep) in Hk as [r ->]. done. }
  assert (forall k, last order = Some k -> is_Some (_records s !! k)) as Hlast.
  { intros k Hk. apply (rep_keys _ _ Hrep). apply last_Some in Hk as [l ->].
    apply elem_of_app. right. by left. }
  unfold lastAddedNavigation, lastAddedNavigationState. rewrite Elast. split_and!.
  - intros k. symmetry. apply (rep_keys _ _ Hrep).
  - destruct (last order) as [k|]; cbn; [|done]. destruct (Hlast k eq_refl) as [r ->]. by destruct k.
  - destruct (last order) as [k|]; cbn; [|done]. by destruct (Hlast k eq_refl) as [r ->].
  - unfold lastNavigationWithPendingItemInNavigationContext.
    rewrite (last_added_loop_last _ s order) by done. destruct (last_with _ s order) as [k|] eqn:Ek; [|done].
    cbn. unfold last_with in Ek. apply last_Some in Ek as [l El].
    assert (k ∈ filter (fun k => record_satisfies has_pending_item s k = true) order) as Hk
      by (rewrite El; apply elem_of_app; right; by left).
    apply list_elem_of_filter in Hk as [_ Hk]. apply (rep_keys _ _ Hrep) in Hk as [r Hr]. by rewrite Hr.
  - intros p l Hp. by rewrite !(last_added_loop_last p s order).
Qed.

(** The transitions the DCHECKs let through: a new navigation starts, the state
    of an old one grows, a redirect repeats, the commit of a finished navigation
    comes late; the null navigation may do anything once it is there. *)
Definition allowed (s : t) (new_state : WKNavigationState) (navigation : WKNavigation) : bool :=
  match _records s !! keyForNavigation navigation with
  | None => match new_state with REQUESTED | STARTED | COMMITTED => true | _ => false end
  | Some r =>
      match navigation with
      | None => true
      | Some _ =>
          (state_value (state r) <? state_value new_state)%Z ||
          match state r, new_state with
          | REDIRECTED, REDIRECTED | FINISHED, COMMITTED => true
          | _, _ => false
          end
      end
  end.

(** The record [setState:forNavigation:] leaves for the navigation. *)
Definition updated_record (s : t) (new_state : WKNavigationState) (k : Key) : StateRecord :=
  match _records s !! k with
  | Some r => mkRecord new_state (index r) (committed r || bool_decide (new_state = COMMITTED)) (context r)
  | None => mkRecord new_state ((_lastStateIndex s + 1) mod 2 ^ 64)
              (bool_decide (new_state = COMMITTED)) None
  end.

Lemma setState_ok new_state navigation s :
  allowed s new_state navigation = true ->
  let k := keyForNavigation navigation in
  let r' := updated_record s new_state k in
  exists s', setState new_state navigation s = Ok (tt, s') /\
    _records s' = <[k := r']>
      (if bool_decide (new_state = FINISHED) && workaround_enabled s
       then _records s ∖ older (index r') (_records s) else _records s).
Proof.
  unfold allowed, setState, updated_record, mbind at 1, mget. set (k := keyForNavigation navigation).
  intros Ha. destruct (_records s !! k) as [r|] eqn:Er.
  - match goal with |- context [dcheck ?b] => assert (b = true) as -> end.
    { destruct navigation as [n|];
        [|by apply orb_true_iff; right; apply bool_decide_eq_true].
      destruct (state_value (state r) <? state_value new_state)%Z; [done|].
      destruct (state r), new_state; done. }
    unfold mwhen, mbind, dcheck, mmodify, mreturn.
    destruct (bool_decide (new_state = FINISHED) && workaround_enabled s) eqn:Ef;
      eexists; (split; [reflexivity|]); cbn.
    + rewrite insert_not_older. bool_to_prop. subst. cbn. by rewrite orb_false_r.
    + rewrite insert_insert_eq. do 2 f_equal.
      destruct (bool_decide (new_state = COMMITTED)); unfold with_committed, with_state; cbn;
        by rewrite ?orb_true_r, ?orb_false_r.
  - match goal with |- context [dcheck ?b] => assert (b = true) as -> by (by destruct new_state) end.
    unfold mwhen, mbind, dcheck, nextStateIndex, mbind, mmodify, mgets, mreturn.
    destruct (bool_decide (new_state = FINISHED)) eqn:Ef; [bool_to_prop; by subst|].
    cbn. eexists. split; [reflexivity|]. cbn. do 2 f_equal.
    by destruct (bool_decide (new_state = COMMITTED)).
Qed.

(** [setState:forNavigation:] accepts exactly the allowed transitions; the
    navigation, which may be the null one, then has the new state, and is
    committed once it was COMMITTED; the others keep their record, except those
    older than a navigation that finishes, which are forgotten. *)
Theorem setState_correct new_state navigation s :
  if allowed s new_state navigation then
    exists s', setState new_state navigation s = Ok (tt, s') /\
      stateForNavigation s' navigation = new_state /\
      isCommittedNavigation s' navigation =
        (isCommittedNavigation s navigation || bool_decide (new_state = COMMITTED)) /\
      contextForNavigation s' navigation = contextForNavigation s navigation /\
      forall k, k <> keyForNavigation navigation ->
        _records s' !! k =
          r ← _records s !! k;
          if bool_decide (new_state = FINISHED) && workaround_enabled s &&
             (index r <? number s (keyForNavigation navigation))%Z then None else Some r
  else setState new_state navigation s = Fault DCheckFailed.
Proof.
  destruct (allowed s new_state navigation) eqn:Ha.
  - destruct (setState_ok new_state navigation s Ha) as (s' & He & Hr). exists s'. split; [done|].
    unfold stateForNavigation, isCommittedNavigation, contextForNavigation. rewrite Hr, lookup_insert_eq.
    unfold updated_record, number, allowed in *.
    destruct (_records s !! keyForNavigation navigation) as [r|] eqn:Er; cbn.
    + split_and!; [done..|]. intros k Hk. rewrite lookup_insert_ne by done.
      destruct (bool_decide (new_state = FINISHED) && workaround_enabled s); cbn;
        [|by destruct (_records s !! k)].
      apply option_eq. intros x. rewrite lookup_not_older, bind_Some. split.
      * intros [-> Hi]. exists x. by rewrite (proj2 (Z.ltb_ge _ _)).
      * intros (y & -> & Hy). destruct (Z.ltb_spec (index y) (index r)); [done|]. by injection Hy as ->.
    + split_and!; [done..|]. intros k Hk. rewrite lookup_insert_ne by done.
      rewrite (bool_decide_eq_false_2 (new_state = FINISHED)) by (by intros ->). cbn.
      by destruct (_records s !! k).
  - unfold setState, mbind at 1, mget. unfold allowed in Ha.
    destruct (_records s !! keyForNavigation navigation) as [r|] eqn:Er.
    + destruct navigation as [n|]; [|done]. bool_to_prop.
      unfold mbind, dcheck. rewrite (proj2 (Z.ltb_ge _ _)) by done.
      rewrite (bool_decide_eq_false_2 (Some n = None :> WKNavigation)) by done.
      by destruct (state r), new_state.
    + by destruct new_state.
Qed.

End Code.

(** ** Examples *)

Section Examples.
Import ExampleItems.

Definition example_ops : list Op :=
  [OpSetState REQUESTED (Some 1%positive); OpSetState STARTED (Some 1%positive);
   OpSetState REQUESTED None; OpSetState STARTED (Some 2%positive);
   OpSetState REDIRECTED (Some 2%positive); OpRemove None].

Definition example_table : t :=
  default (create true) (final_state (mfor example_ops exec (create true))).

Lemma run_refines_order_witness :
  lastAddedNavigation example_table = Some 2%positive /\
  lastAddedNavigationState example_table = REDIRECTED.
Proof.
  destruct (run_refines_order true example_ops example_table eq_refl eq_refl) as (_ & H1 & H2 & _).
  split; [exact H1|exact H2].
Defined.

End Examples.
End CRWWKNavigationStates.
