(* ===== verification/SessionStorage.v ===== *)
(** * Session storage: what of a tab is archived

    The archives (NSCoder), the storage of a navigation item and of a session
    with their [encodeWithCoder:] and [initWithCoder:], the user data of a
    WebState, and the builders that make the storages from the live objects
    (src/web/crw_navigation_item_storage.mm, src/web/session/, and
    navigation_item_storage_builder.mm, session_storage_builder.mm,
    serializable_user_data_manager_impl.mm of src/web/navigation/). *)

From stdpp Require Import base tactics option list numbers strings gmap.
From Stdlib Require Import ZArith Lia.
From S2P Require Import Prelude WebTypes WkNavigationUtil NavigationItem.

(** ** Keyed archives (Foundation)

    What a key of an archive holds; [CodedObject None] is an archived nil. An
    encoder or decoder is a computation whose state is the archive; decoding a
    key that holds another kind of value raises an exception, decoding one that
    is not there gives zero, NO or nil. *)
Module NSCoder.

Inductive Coded (Object : Type) : Type :=
| CodedBool (b : bool)
| CodedInt (z : Z)
| CodedInt64 (z : Z)
| CodedBytes (bytes : string)
| CodedObject (o : option Object).
Arguments CodedBool {Object} b.
Arguments CodedInt {Object} z.
Arguments CodedInt64 {Object} z.
Arguments CodedBytes {Object} bytes.
Arguments CodedObject {Object} o.

Definition t (Object : Type) : Type := gmap string (Coded Object).

Section Code.
Context {Object : Type}.

Definition encode (key : string) (c : Coded Object) : M (t Object) unit :=
  mmodify (fun archive => <[key := c]> archive).

Definition encodeBool (key : string) (b : bool) : M (t Object) unit := encode key (CodedBool b).
(** The argument is an [int]. *)
Definition encodeInt (key : string) (z : Z) : M (t Object) unit := encode key (CodedInt (to_int z)).
Definition encodeInt64 (key : string) (z : Z) : M (t Object) unit := encode key (CodedInt64 z).
Definition encodeBytes (key bytes : string) : M (t Object) unit := encode key (CodedBytes bytes).
Definition encodeObject (key : string) (o : option Object) : M (t Object) unit :=
  encode key (CodedObject o).

Definition decode {A} (key : string) (absent : A) (kind : Coded Object -> option A) :
    M (t Object) A :=
  let! archive := mget in
  match archive !! key with
  | None => mreturn absent
  | Some c => match kind c with Some a => mreturn a | None => mfail NSException end
  end.

Definition containsValueForKey (key : string) : M (t Object) bool :=
  mgets (fun archive => bool_decide (is_Some (archive !! key))).
Definition decodeBool (key : string) : M (t Object) bool :=
  decode key false (fun c => match c with CodedBool b => Some b | _ => None end).
Definition decodeInt (key : string) : M (t Object) Z :=
  decode key 0%Z (fun c => match c with CodedInt z => Some z | _ => None end).
Definition decodeInt64 (key : string) : M (t Object) Z :=
  decode key 0%Z (fun c => match c with CodedInt64 z | CodedInt z => Some z | _ => None end).
Definition decodeObject (key : string) : M (t Object) (option Object) :=
  decode key None (fun c => match c with CodedObject o => Some o | _ => None end).

(** [nscoder_util::EncodeString] and [DecodeString] *)
Definition EncodeString (key s : string) : M (t Object) unit := encodeBytes key s.
Definition DecodeString (key : string) : M (t Object) string :=
  decode key EmptyString (fun c => match c with CodedBytes s => Some s | _ => None end).

(** Running the encoder and the decoder. *)
Lemma encode_run key c (archive : t Object) : encode key c archive = Ok (tt, <[key := c]> archive).
Proof. done. Qed.

Lemma decode_present {A} (archive : t Object) key absent (kind : Coded Object -> option A) c a :
  archive !! key = Some c -> kind c = Some a ->
  decode key absent kind archive = Ok (a, archive).
Proof. intros Hc Ha. unfold decode, mbind, mget. by rewrite Hc, Ha. Qed.

Lemma decode_absent {A} (archive : t Object) key (absent : A) kind :
  archive !! key = None -> decode key absent kind archive = Ok (absent, archive).
Proof. intros Hc. unfold decode, mbind, mget. by rewrite Hc. Qed.

Lemma contains_present (archive : t Object) key c :
  archive !! key = Some c -> containsValueForKey key archive = Ok (true, archive).
Proof. intros Hc. unfold containsValueForKey, mgets. by rewrite Hc. Qed.

Lemma contains_absent (archive : t Object) key :
  archive !! key = None -> containsValueForKey key archive = Ok (false, archive).
Proof. intros Hc. unfold containsValueForKey, mgets. by rewrite Hc. Qed.

End Code.

(** One statement of [initWithCoder] on an archive written key by key. *)
Ltac look_up := cbv delta [encode]; simplify_map_eq; reflexivity.
Ltac decode_step :=
  rewrite ?mbind_assoc, ?mreturn_bind;
  lazymatch goal with
  | |- mbind (containsValueForKey _) _ _ = _ =>
      first [erewrite mbind_run; [|eapply contains_present; look_up]
            |erewrite mbind_run; [|eapply contains_absent; look_up]]
  | |- mbind (of_option (Some _)) _ _ = _ => erewrite mbind_run; [|reflexivity]
  | |- mbind (dcheck true) _ _ = _ => erewrite mbind_run; [|reflexivity]
  | |- mbind _ _ _ = _ =>
      unfold decodeBool, decodeInt, decodeInt64, decodeObject, DecodeString;
      first [erewrite mbind_run; [|eapply decode_present; [look_up|reflexivity]]
            |erewrite mbind_run; [|eapply decode_absent; look_up]]
  end; cbv beta iota.

(** One statement of [encodeWithCoder]. *)
Ltac encode_step := rewrite ?mbind_assoc, ?mreturn_bind; erewrite mbind_run; [|apply encode_run]; cbv beta.

End NSCoder.
Import NSCoder.

(** ** A class that conforms to NSCoding

    What archiving promises: an object that is [storable] is archived, and
    decoding the archive gives an object that is the [same]. *)
Class NSCoding (A : Type) : Type := {
  Archived : Type;
  encodeWithCoder : A -> M (NSCoder.t Archived) unit;
  initWithCoder : M (NSCoder.t Archived) A
}.

Class NSCodingLaws (A : Type) `{!NSCoding A} (storable : A -> Prop) (same : relation A) : Prop :=
  init_encodeWithCoder : forall a, storable a ->
    exists archive, encodeWithCoder a ∅ = Ok (tt, archive) /\
    exists a', initWithCoder archive = Ok (a', archive) /\ same a' a.

(** Conversions between NSString and std::u16string (base); a title converts
    back when it is well-formed UTF-16. *)
Class NSStringOps : Type := {
  NSString : Type;
  SysUTF16ToNSString : u16string -> option NSString;
  SysNSStringToUTF16 : option NSString -> u16string
}.

(** ** CRWNavigationItemStorage *)

Module CRWNavigationItemStorage.

Section Code.
Context `{WebEnv} `{NSStringOps}.

(** The objects in the archive of an item. *)
Inductive ItemObject : Type :=
| StringObject (s : NSString)
| URLObject (url : GURL)
| DisplayStateObject (d : PageDisplayState.Serialization)
| HeadersObject (headers : gmap string string).

(** The instance variables. *)
Record t : Type := mk {
  _URL : GURL;
  _virtualURL : GURL;
  referrer : Referrer.t;
  timestamp : Z;
  _title : u16string;
  displayState : PageDisplayState.t;
  shouldSkipRepostFormConfirmation : bool;
  userAgentType : UserAgent.UserAgentType;
  HTTPRequestHeaders : option (gmap string string)
}.

(** [[[CRWNavigationItemStorage alloc] init]] *)
Definition create : t :=
  mk GURL_null GURL_null Referrer.create 0 [] PageDisplayState.create false UserAgent.NONE None.

(** The property accessors that are more than the variable. *)
Definition URL (s : t) : GURL := _URL s.
Definition virtualURL (s : t) : GURL :=
  if gurl_is_empty (_virtualURL s) then _URL s else _virtualURL s.
Definition title (s : t) : u16string := _title s.

(** The casts between [ReferrerPolicy] and [int]. *)
Definition policy_values : list Referrer.ReferrerPolicy :=
  [Referrer.ReferrerPolicyAlways; Referrer.ReferrerPolicyDefault;
   Referrer.ReferrerPolicyNoReferrerWhenDowngrade; Referrer.ReferrerPolicyNever;
   Referrer.ReferrerPolicyOrigin; Referrer.ReferrerPolicyOriginWhenCrossOrigin;
   Referrer.ReferrerPolicySameOrigin; Referrer.ReferrerPolicyStrictOrigin;
   Referrer.ReferrerPolicyStrictOriginWhenCrossOrigin].
Definition policy_int (p : Referrer.ReferrerPolicy) : Z :=
  index_or_invalid (first_index (fun q => bool_decide (q = p)) policy_values).
Definition policy_of_int (z : Z) : option Referrer.ReferrerPolicy := zlookup policy_values z.

(** The kinds of object a key is read as: another one is an exception. *)
Definition as_string (o : option ItemObject) : M (NSCoder.t ItemObject) (option NSString) :=
  match o with
  | None => mreturn None
  | Some (StringObject s) => mreturn (Some s)
  | Some _ => mfail NSException
  end.
Definition as_url (o : option ItemObject) : M (NSCoder.t ItemObject) (option GURL) :=
  match o with
  | None => mreturn None
  | Some (URLObject u) => mreturn (Some u)
  | Some _ => mfail NSException
  end.
Definition as_display_state (o : option ItemObject) :
    M (NSCoder.t ItemObject) PageDisplayState.Serialization :=
  match o with
  | None => mreturn ∅
  | Some (DisplayStateObject d) => mreturn d
  | Some _ => mfail NSException
  end.
Definition as_headers (o : option ItemObject) :
    M (NSCoder.t ItemObject) (option (gmap string string)) :=
  match o with
  | None => mreturn None
  | Some (HeadersObject d) => mreturn (Some d)
  | Some _ => mfail NSException
  end.

Definition initWithCoder : M (NSCoder.t ItemObject) t :=
  let! has_virtual := containsValueForKey "virtualUrlString" in
  let! virtualURL :=
    if has_virtual then
      let! s := DecodeString "virtualUrlString" in mreturn (GURL_parse s)
    else mreturn GURL_null in
  let! has_url := containsValueForKey "urlString" in
  let! URL :=
    if has_url then let! s := DecodeString "urlString" in mreturn (GURL_parse s)
    else mreturn GURL_null in
  let! has_referrer := containsValueForKey "referrerUrlString" in
  let! referrer :=
    if has_referrer then
      let! s := DecodeString "referrerUrlString" in
      let! p := decodeInt "referrerPolicy" in
      let! policy := of_option (policy_of_int p) in
      mreturn (Referrer.mk (GURL_parse s) policy)
    else
      let! o := decodeObject "referrer" in
      let! u := as_url o in
      mreturn (Referrer.mk (default GURL_null u) Referrer.ReferrerPolicyDefault) in
  let! has_timestamp := containsValueForKey "timestamp" in
  let! timestamp := if has_timestamp then decodeInt64 "timestamp" else mreturn 0%Z in
  let! has_user_agent := containsValueForKey "userAgentType" in
  let! userAgentType :=
    if has_user_agent then
      let! s := DecodeString "userAgentType" in
      mreturn (UserAgent.GetUserAgentTypeWithDescription s)
    else mreturn (if IsAppSpecificURL virtualURL then UserAgent.NONE
                  else userAgentType create) in
  let! o := decodeObject "title" in
  let! title := as_string o in
  let! o := decodeObject "state" in
  let! d := as_display_state o in
  let! displayState :=
    match PageDisplayState.from_serialization d with
    | Some state => mreturn state
    | None => mfail NSException
    end in
  let! skip := decodeBool "skipResubmitDataConfirmation" in
  let! o := decodeObject "httpHeaders" in
  let! headers := as_headers o in
  mreturn (mk URL virtualURL referrer timestamp (SysNSStringToUTF16 title) displayState skip
              userAgentType headers).

(** The sizes that are added up only go to histograms. *)
Definition encodeWithCoder (s : t) : M (NSCoder.t ItemObject) unit :=
  mwhen (negb (bool_decide (_virtualURL s = _URL s)))
    (EncodeString "virtualUrlString" (gurl_spec (_virtualURL s))) ;;;
  EncodeString "urlString" (gurl_spec (_URL s)) ;;;
  EncodeString "referrerUrlString" (gurl_spec (Referrer.url (referrer s))) ;;;
  encodeInt "referrerPolicy" (policy_int (Referrer.policy (referrer s))) ;;;
  encodeInt64 "timestamp" (timestamp s) ;;;
  encodeObject "title" (StringObject <$> SysUTF16ToNSString (_title s)) ;;;
  encodeObject "state" (Some (DisplayStateObject (PageDisplayState.GetSerialization (displayState s)))) ;;;
  encodeBool "skipResubmitDataConfirmation" (shouldSkipRepostFormConfirmation s) ;;;
  EncodeString "userAgentType" (UserAgent.GetUserAgentTypeDescription (userAgentType s)) ;;;
  encodeObject "httpHeaders" (HeadersObject <$> HTTPRequestHeaders s).

(** ** Archiving and reading back *)

(** The URLs have a spec and the title is well formed. *)
Definition storable (s : t) : Prop :=
  gurl_storable (_URL s) = true /\ gurl_storable (_virtualURL s) = true /\
  gurl_storable (Referrer.url (referrer s)) = true /\
  SysNSStringToUTF16 (SysUTF16ToNSString (_title s)) = _title s.

(** The same properties, as their accessors give them. *)
Definition same (s' s : t) : Prop :=
  URL s' = URL s /\ virtualURL s' = virtualURL s /\ title s' = title s /\
  referrer s' = referrer s /\ timestamp s' = timestamp s /\
  displayState s' = displayState s /\
  shouldSkipRepostFormConfirmation s' = shouldSkipRepostFormConfirmation s /\
  userAgentType s' = userAgentType s /\ HTTPRequestHeaders s' = HTTPRequestHeaders s.

Lemma policy_of_policy_int p : policy_of_int (to_int (policy_int p)) = Some p.
Proof. by destruct p. Qed.

Lemma as_string_fmap o archive : as_string (StringObject <$> o) archive = Ok (o, archive).
Proof. by destruct o. Qed.

Lemma as_headers_fmap o archive : as_headers (HeadersObject <$> o) archive = Ok (o, archive).
Proof. by destruct o. Qed.

(** What is read back: a virtual URL that is the URL was not archived. *)
Definition decoded (s : t) : t :=
  mk (_URL s) (if bool_decide (_virtualURL s = _URL s) then GURL_null else _virtualURL s)
     (referrer s) (timestamp s) (_title s) (displayState s) (shouldSkipRepostFormConfirmation s)
     (userAgentType s) (HTTPRequestHeaders s).

(** One statement of [initWithCoder]. *)
Ltac item_step :=
  first
    [ decode_step
    | rewrite policy_of_policy_int; cbv beta iota
    | rewrite PageDisplayState.from_GetSerialization; cbv beta iota
    | progress cbn [as_display_state]
    | rewrite mreturn_bind
    | erewrite mbind_run; [|apply as_string_fmap]
    | erewrite mbind_run; [|apply as_headers_fmap] ].

Lemma init_encode `{!GURLLaws H} s :
  storable s ->
  exists archive, encodeWithCoder s ∅ = Ok (tt, archive) /\
    initWithCoder archive = Ok (decoded s, archive).
Proof.
  intros (Hu & Hv & Hr & Ht). unfold encodeWithCoder, mwhen, decoded.
  destruct (bool_decide (_virtualURL s = _URL s)); cbn [negb];
    unfold EncodeString, encodeBytes, encodeInt, encodeInt64, encodeObject, encodeBool, encode,
      mmodify, mbind, mreturn; eexists; (split; [reflexivity|]);
    unfold initWithCoder; repeat item_step;
    by rewrite ?gurl_parse_storable, Ht, UserAgent.UserAgentType_description_roundtrip;
      destruct (referrer s).
Qed.

Lemma decoded_same `{!GURLLaws H} s : same (decoded s) s.
Proof.
  unfold same, decoded, URL, virtualURL, title. cbn. split_and!; try done.
  case_bool_decide as E; [rewrite gurl_null_empty, E; by destruct (gurl_is_empty _)|done].
Qed.

(** a navigation item whose URLs have a spec is archived and read back
    with all its properties, although the virtual URL is only archived when it
    is not the URL. *)
Theorem CRWNavigationItemStorage_roundtrip `{!GURLLaws H} s :
  storable s ->
  exists archive, encodeWithCoder s ∅ = Ok (tt, archive) /\
  exists s', initWithCoder archive = Ok (s', archive) /\ same s' s.
Proof.
  intros Hs. destruct (init_encode s Hs) as (archive & He & Hd).
  exists archive. split; [done|]. exists (decoded s). split; [done|]. apply decoded_same.
Qed.

#[export] Instance t_coding : NSCoding t :=
  {| Archived := ItemObject; SessionStorage.encodeWithCoder := encodeWithCoder;
     SessionStorage.initWithCoder := initWithCoder |}.

#[export] Instance t_coding_laws `{!GURLLaws H} : NSCodingLaws t storable same.
Proof.
  intros s Hs. destruct (init_encode s Hs) as (archive & He & Hd). exists archive. split; [done|].
  exists (decoded s). split; [done|]. apply decoded_same.
Qed.

End Code.
End CRWNavigationItemStorage.

(** ** CRWSessionUserData and SerializableUserDataManager *)

(** The objects that are stored as user data; one that the code never looks
    into is a name. *)
Inductive UserDataValue : Type :=
| NSNumberValue (intValue : Z)
| NSNullValue
| NSStringValue (s : string)
| OtherValue (o : positive).

#[global] Instance UserDataValue_eq_dec : EqDecision UserDataValue.
Proof. solve_decision. Defined.

Module CRWSessionUserData.

Definition t : Type := gmap string UserDataValue.

Definition init : t := ∅.
Definition setObject (object : UserDataValue) (key : string) (data : t) : t := <[key := object]> data.
Definition objectForKey (key : string) (data : t) : option UserDataValue := data !! key.
Definition removeObjectForKey (key : string) (data : t) : t := delete key data.
Definition isEqual (data other : t) : bool := bool_decide (data = other).

End CRWSessionUserData.

Module SerializableUserDataManagerImpl.

(** [data_]; the object is shared with the session storages it is given to, and
    nothing below reads a storage after it changed. *)
Record t : Type := mk { data_ : CRWSessionUserData.t }.

Definition create : t := mk CRWSessionUserData.init.

Definition AddSerializableData (data : option UserDataValue) (key : string) : M t unit :=
  dcheck (bool_decide (is_Some data)) ;;;
  dcheck (negb (bool_decide (key = EmptyString))) ;;;
  let! object := of_option data in
  mmodify (fun m => mk (CRWSessionUserData.setObject object key (data_ m))).

Definition GetValueForSerializationKey (key : string) (m : t) : option UserDataValue :=
  CRWSessionUserData.objectForKey key (data_ m).

Definition GetUserDataForSession (m : t) : CRWSessionUserData.t := data_ m.

(** Without data the code makes a new object but assigns it to its argument. *)
Definition SetUserDataFromSession (data : option CRWSessionUserData.t) (m : t) : t :=
  match data with
  | Some data => mk data
  | None => m
  end.

(** The user data of the previous session survives a session without any. *)
Lemma SetUserDataFromSession_nil_keeps m key v :
  GetValueForSerializationKey key m = Some v ->
  GetValueForSerializationKey key (SetUserDataFromSession None m) = Some v.
Proof. done. Qed.

End SerializableUserDataManagerImpl.
