(* ===== verification/SessionBuilder.v ===== *)
(** * Session storage builders

    [NavigationItemStorageBuilder] (navigation_item_storage_builder.mm) and
    [CRWSessionStorage] (src/web/session/crw_session_storage.mm), with
    [SessionStorageBuilder::BuildStorage] (session_storage_builder.mm), which
    chooses the items of a session that are saved. *)

From stdpp Require Import base tactics option list numbers strings gmap.
From Stdlib Require Import ZArith Lia.
From S2P Require Import Prelude WebTypes WkNavigationUtil NavigationItem SessionStorage.
Import NSCoder.

(** [url::kMaxURLChars] (url/) and [-[NSString length]] of a spec. *)
Class URLConstants : Type := { kMaxURLChars : Z }.

Definition spec_size `{GURLOps} (u : GURL) : Z := Z.of_nat (String.length (gurl_spec u)).

Module NavigationItemStorageBuilder.
Import CRWNavigationItemStorage.

Section Code.
Context `{WebEnv} `{CertificateOps} `{PageTransitionOps} `{ItemEnv} `{NSStringOps} `{URLConstants}.
Abbreviation Item := NavigationItemImpl.t.

Definition BuildStorage (navigation_item : Item) : CRWNavigationItemStorage.t :=
  mk (NavigationItemImpl.GetURL navigation_item)
     (NavigationItemImpl.GetVirtualURL navigation_item)
     (if (spec_size (Referrer.url (NavigationItemImpl.GetReferrer navigation_item)) <=? kMaxURLChars)%Z
      then NavigationItemImpl.GetReferrer navigation_item else referrer create)
     (NavigationItemImpl.timestamp_ navigation_item)
     (NavigationItemImpl.GetTitle navigation_item)
     (NavigationItemImpl.GetPageDisplayState navigation_item)
     (NavigationItemImpl.should_skip_repost_form_confirmation_ navigation_item)
     (NavigationItemImpl.GetUserAgentType navigation_item)
     (NavigationItemImpl.http_request_headers_ navigation_item).

(** The state is the counter of the identifiers of items. *)
Definition BuildNavigationItemImpl (storage : CRWNavigationItemStorage.t) : M Z Item :=
  let! unique_id := GetUniqueIDInConstructor in
  let item := NavigationItemImpl.create unique_id in
  let item := NavigationItemImpl.with_original_request_url (URL storage) item in
  let item :=
    if gurl_SchemeIsHTTPOrHTTPS (URL storage) then
      NavigationItemImpl.SetVirtualURL (virtualURL storage)
        (NavigationItemImpl.SetURL (URL storage) item)
    else NavigationItemImpl.SetURL (virtualURL storage) item in
  let item := NavigationItemImpl.with_referrer (referrer storage) item in
  let item := NavigationItemImpl.with_timestamp (timestamp storage) item in
  let item := NavigationItemImpl.with_title (title storage) item in
  let item := NavigationItemImpl.with_page_display_state (displayState storage) item in
  let item := NavigationItemImpl.with_should_skip_repost_form_confirmation
                (shouldSkipRepostFormConfirmation storage) item in
  let item := NavigationItemImpl.with_transition_type PAGE_TRANSITION_RELOAD item in
  let item := NavigationItemImpl.with_user_agent_type (userAgentType storage) item in
  mreturn (NavigationItemImpl.with_http_request_headers (HTTPRequestHeaders storage) item).

(** What a restored item keeps of the saved one. *)
Record restored (item saved : Item) : Prop := {
  restored_virtual : NavigationItemImpl.GetVirtualURL item = NavigationItemImpl.GetVirtualURL saved;
  restored_url : NavigationItemImpl.GetURL item =
    if gurl_SchemeIsHTTPOrHTTPS (NavigationItemImpl.GetURL saved)
    then NavigationItemImpl.GetURL saved else NavigationItemImpl.GetVirtualURL saved;
  restored_original :
    NavigationItemImpl.GetOriginalRequestURL item = NavigationItemImpl.GetURL saved;
  restored_referrer :
    (spec_size (Referrer.url (NavigationItemImpl.GetReferrer saved)) <= kMaxURLChars)%Z ->
    NavigationItemImpl.GetReferrer item = NavigationItemImpl.GetReferrer saved;
  restored_title : NavigationItemImpl.GetTitle item = NavigationItemImpl.GetTitle saved;
  restored_timestamp : NavigationItemImpl.timestamp_ item = NavigationItemImpl.timestamp_ saved;
  restored_display : NavigationItemImpl.GetPageDisplayState item =
    NavigationItemImpl.GetPageDisplayState saved;
  restored_repost : NavigationItemImpl.should_skip_repost_form_confirmation_ item =
    NavigationItemImpl.should_skip_repost_form_confirmation_ saved;
  restored_user_agent : NavigationItemImpl.GetUserAgentType item =
    NavigationItemImpl.GetUserAgentType saved;
  restored_headers : NavigationItemImpl.http_request_headers_ item =
    NavigationItemImpl.http_request_headers_ saved;
  (** what is not saved starts afresh *)
  restored_transition : NavigationItemImpl.transition_type_ item = PAGE_TRANSITION_RELOAD;
  restored_no_cache : NavigationItemImpl.cached_display_title_ item = [];
  restored_no_post : NavigationItemImpl.HasPostData item = false;
  restored_trusted : NavigationItemImpl.IsUntrusted item = false
}.

Lemma virtualURL_BuildStorage item :
  virtualURL (BuildStorage item) = NavigationItemImpl.GetVirtualURL item.
Proof.
  unfold virtualURL, BuildStorage, NavigationItemImpl.GetVirtualURL, NavigationItemImpl.GetURL. cbn.
  destruct (gurl_is_empty (NavigationItemImpl.virtual_url_ item)) eqn:E; rewrite ?E; [|done].
  by destruct (gurl_is_empty (NavigationItemImpl.url_ item)).
Qed.

Lemma GetVirtualURL_restored `{!GURLLaws H} item s :
  NavigationItemImpl.url_ s = NavigationItemImpl.GetURL item ->
  NavigationItemImpl.GetVirtualURL
    (NavigationItemImpl.SetVirtualURL (NavigationItemImpl.GetVirtualURL item) s) =
  NavigationItemImpl.GetVirtualURL item.
Proof.
  intros Es. unfold NavigationItemImpl.GetVirtualURL at 1, NavigationItemImpl.SetVirtualURL. cbn.
  rewrite Es. case_bool_decide as E; [by rewrite gurl_null_empty|].
  unfold NavigationItemImpl.GetVirtualURL in *.
  destruct (gurl_is_empty (NavigationItemImpl.virtual_url_ item)) eqn:Ev; [done|]. by rewrite Ev.
Qed.

Lemma referrer_BuildStorage item :
  (spec_size (Referrer.url (NavigationItemImpl.GetReferrer item)) <= kMaxURLChars)%Z ->
  referrer (BuildStorage item) = NavigationItemImpl.GetReferrer item.
Proof. intros Hl%Z.leb_le. unfold BuildStorage. cbn. by rewrite Hl. Qed.

(** A restored item, from a storage with the same properties as the saved one
    (what is read back from an archive). *)
Lemma restored_from_storage `{!GURLLaws H} item storage counter :
  same storage (BuildStorage item) -> counter <> INT_MAX ->
  exists item', BuildNavigationItemImpl storage counter = Ok (item', (counter + 1)%Z) /\
    restored item' item /\ NavigationItemImpl.GetUniqueID item' = (counter + 1)%Z.
Proof.
  intros (E1 & E2 & E3 & E4 & E5 & E6 & E7 & E8 & E9) Hc.
  unfold BuildNavigationItemImpl, GetUniqueIDInConstructor, next_id, mbind, mget, mmodify.
  rewrite (proj2 (Z.eqb_neq _ _) Hc). cbn beta iota. rewrite virtualURL_BuildStorage in E2.
  rewrite E1, E2, E3, E4, E5, E6, E7, E8, E9. eexists. split; [reflexivity|].
  change (URL (BuildStorage item)) with (NavigationItemImpl.GetURL item).
  destruct (gurl_SchemeIsHTTPOrHTTPS (NavigationItemImpl.GetURL item)) eqn:Eh;
    (split; [split|done]); try done; try apply referrer_BuildStorage;
    try (change (NavigationItemImpl.GetURL item = if gurl_SchemeIsHTTPOrHTTPS (NavigationItemImpl.GetURL item)
      then NavigationItemImpl.GetURL item else NavigationItemImpl.GetVirtualURL item); by rewrite Eh);
    try (change (NavigationItemImpl.GetVirtualURL item = if gurl_SchemeIsHTTPOrHTTPS (NavigationItemImpl.GetURL item)
      then NavigationItemImpl.GetURL item else NavigationItemImpl.GetVirtualURL item); by rewrite Eh).
  - by apply (GetVirtualURL_restored item
      (NavigationItemImpl.SetURL (NavigationItemImpl.GetURL item) (NavigationItemImpl.create (counter + 1)))).
  - change ((if gurl_is_empty GURL_null then NavigationItemImpl.GetVirtualURL item else GURL_null) =
      NavigationItemImpl.GetVirtualURL item). by rewrite gurl_null_empty.
Qed.

(** an item that is saved, archived, read back and restored has the virtual
    URL, title, referrer, display state, headers and user agent of the saved
    one, and its URL when that is an HTTP one; another page is restored as its
    virtual URL. It gets a fresh identifier, and what is not saved is reset. *)
Theorem navigation_item_roundtrip `{!GURLLaws H} item counter :
  storable (BuildStorage item) -> counter <> INT_MAX ->
  exists archive storage item',
    encodeWithCoder (BuildStorage item) ∅ = Ok (tt, archive) /\
    initWithCoder archive = Ok (storage, archive) /\
    BuildNavigationItemImpl storage counter = Ok (item', (counter + 1)%Z) /\
    restored item' item /\ NavigationItemImpl.GetUniqueID item' = (counter + 1)%Z.
Proof.
  intros Hs Hc. destruct (init_encodeWithCoder _ Hs) as (archive & He & storage & Hi & Hsame).
  destruct (restored_from_storage item storage counter Hsame Hc) as (item' & Hb & Hr & Hid).
  by exists archive, storage, item'.
Qed.

End Code.
End NavigationItemStorageBuilder.

(** ** CRWSessionStorage *)

Module CRWSessionStorage.
#[export] Existing Instances CRWNavigationItemStorage.t_coding CRWNavigationItemStorage.t_coding_laws.

Section Code.
Context `{WebEnv} `{NSStringOps}.
(** [CRWSessionCertificatePolicyCacheStorage], by the promise of NSCoding. *)
Context {CertCache : Type} `{!NSCoding CertCache}.
Abbreviation ItemStorage := CRWNavigationItemStorage.t.

Inductive SessionObject : Type :=
| ItemsObject (items : list (NSCoder.t (Archived (A := ItemStorage))))
| CertCacheObject (cache : NSCoder.t (Archived (A := CertCache)))
| UserDataObject (data : CRWSessionUserData.t)
| DictionaryObject (dictionary : gmap string UserDataValue)
| IdentifierObject (s : string).

Record t : Type := mk {
  hasOpener : bool;
  lastCommittedItemIndex : Z;
  itemStorages : list ItemStorage;
  certPolicyCacheStorage : option CertCache;
  userData : option CRWSessionUserData.t;
  userAgentType : UserAgent.UserAgentType;
  stableIdentifier : string;
  lastActiveTime : Z
}.

(** An object is archived in an archive of its own. *)
Definition archive_object {S A} `{!NSCoding A} (a : A) : M S (NSCoder.t (Archived (A := A))) :=
  match SessionStorage.encodeWithCoder a ∅ with
  | Ok (_, archive) => mreturn archive
  | Fault f => mfail f
  end.
Definition unarchive_object {S A} `{!NSCoding A} (archive : NSCoder.t (Archived (A := A))) : M S A :=
  match SessionStorage.initWithCoder archive with
  | Ok (a, _) => mreturn a
  | Fault f => mfail f
  end.

Definition as_items (o : option SessionObject) : M (NSCoder.t SessionObject) (list ItemStorage) :=
  match o with
  | None => mreturn []
  | Some (ItemsObject items) => mmap items unarchive_object
  | Some _ => mfail NSException
  end.
Definition as_cert_cache (o : option SessionObject) :
    M (NSCoder.t SessionObject) (option CertCache) :=
  match o with
  | None => mreturn None
  | Some (CertCacheObject cache) => let! c := unarchive_object cache in mreturn (Some c)
  | Some _ => mfail NSException
  end.
(** Before M99 the user data was a dictionary; another object is ignored. *)
Definition as_user_data (o : option SessionObject) : option CRWSessionUserData.t :=
  match o with
  | Some (UserDataObject data) => Some data
  | Some (DictionaryObject dictionary) =>
      Some (map_fold (fun key v data => CRWSessionUserData.setObject v key data)
              CRWSessionUserData.init dictionary)
  | _ => None
  end.
Definition as_identifier (o : option SessionObject) : M (NSCoder.t SessionObject) string :=
  match o with
  | None => mreturn EmptyString
  | Some (IdentifierObject s) => mreturn s
  | Some _ => mfail NSException
  end.

(** A nil identifier has length 0: it is the empty string here. [uuid] is
    [[[NSUUID UUID] UUIDString]]. *)
Definition initWithCoder (uuid : string) : M (NSCoder.t SessionObject) t :=
  let! hasOpener := decodeBool "openedByDOM" in
  let! has_index := containsValueForKey "lastCommittedItemIndex" in
  let! index := if has_index then decodeInt "lastCommittedItemIndex"
                else decodeInt "currentNavigationIndex" in
  let! o := decodeObject "entries" in
  let! items := as_items o in
  let index := match items with [] => (-1)%Z | _ => index end in
  let! o := decodeObject "certificatePolicyCacheStorage" in
  let! certs := as_cert_cache o in
  let! certs :=
    match certs with
    | Some _ => mreturn certs
    | None => let! o := decodeObject "certificatePolicyManager" in as_cert_cache o
    end in
  let! o := decodeObject "serializedUserData" in
  let user_data := as_user_data o in
  let! has_user_agent := containsValueForKey "userAgentKey" in
  let! agent :=
    if has_user_agent then
      let! s := DecodeString "userAgentKey" in
      mreturn (UserAgent.GetUserAgentTypeWithDescription s)
    else mreturn UserAgent.AUTOMATIC in
  let! o := decodeObject "stableIdentifier" in
  let! identifier := as_identifier o in
  let '(identifier, user_data) :=
    if bool_decide (identifier = EmptyString) then
      match user_data with
      | Some data =>
          match CRWSessionUserData.objectForKey "TabId" data with
          | Some tab_id =>
              (match tab_id with NSStringValue s => s | _ => EmptyString end,
               Some (CRWSessionUserData.removeObjectForKey "TabId" data))
          | None => (identifier, user_data)
          end
      | None => (identifier, user_data)
      end
    else (identifier, user_data) in
  let identifier := if bool_decide (identifier = EmptyString) then uuid else identifier in
  dcheck (negb (bool_decide (identifier = EmptyString))) ;;;
  let! has_time := containsValueForKey "lastActiveTime" in
  let! time := if has_time then decodeInt64 "lastActiveTime" else mreturn 0%Z in
  mreturn (mk hasOpener index items certs user_data agent identifier time).

Definition encodeWithCoder (s : t) : M (NSCoder.t SessionObject) unit :=
  encodeBool "openedByDOM" (hasOpener s) ;;;
  encodeInt "lastCommittedItemIndex" (lastCommittedItemIndex s) ;;;
  let! items := mmap (itemStorages s) archive_object in
  encodeObject "entries" (Some (ItemsObject items)) ;;;
  let! certs :=
    match certPolicyCacheStorage s with
    | None => mreturn None
    | Some certs => let! a := archive_object certs in mreturn (Some (CertCacheObject a))
    end in
  encodeObject "certificatePolicyCacheStorage" certs ;;;
  match userData s with
  | Some data => encodeObject "serializedUserData" (Some (UserDataObject data))
  | None => mreturn tt
  end ;;;
  EncodeString "userAgentKey" (UserAgent.GetUserAgentTypeDescription (userAgentType s)) ;;;
  encodeObject "stableIdentifier" (Some (IdentifierObject (stableIdentifier s))) ;;;
  mwhen (negb (lastActiveTime s =? 0)%Z) (encodeInt64 "lastActiveTime" (lastActiveTime s)).

(** ** Archiving and reading back *)

Lemma archive_objects {A} `{NSCodingLaws A storable same} (l : list A) :
  Forall storable l ->
  exists archives l', Forall2 same l' l /\
    (forall S (s : S), mmap l archive_object s = Ok (archives, s)) /\
    (forall S (s : S), mmap archives unarchive_object s = Ok (l', s)).
Proof.
  induction 1 as [| a l Ha _ (archives & l' & Hs & He & Hd)]; [by exists [], []|].
  destruct (init_encodeWithCoder a Ha) as (archive & Hea & a' & Hda & Hsa).
  exists (archive :: archives), (a' :: l'). split_and!; [by constructor| |]; intros S s; cbn [mmap].
  - erewrite mbind_run by (unfold archive_object; by rewrite Hea). by erewrite mbind_run by apply He.
  - erewrite mbind_run by (unfold unarchive_object; by rewrite Hda). by erewrite mbind_run by apply Hd.
Qed.

Context (cert_storable : CertCache -> Prop) (cert_same : relation CertCache).
Context `{!GURLLaws H} `{!NSCodingLaws CertCache cert_storable cert_same}.

Lemma archive_certs (certs : option CertCache) :
  (forall c, certs = Some c -> cert_storable c) ->
  exists archive certs', option_Forall2 cert_same certs' certs /\
    (forall S (s : S), match certs with
       | None => mreturn None
       | Some certs => let! a := archive_object certs in mreturn (Some (CertCacheObject a))
       end s = Ok (archive, s)) /\
    (forall s, as_cert_cache archive s = Ok (certs', s)).
Proof.
  intros Hc. destruct certs as [c|]; [|exists None, None; split_and!; [constructor|done..]].
  destruct (init_encodeWithCoder c (Hc c eq_refl)) as (a & He & c' & Hd & Hs).
  exists (Some (CertCacheObject a)), (Some c'). split_and!; [by constructor| |].
  - intros S s. unfold archive_object. by rewrite He.
  - intros s. unfold as_cert_cache, unarchive_object. by rewrite Hd.
Qed.

(** What can be archived without loss. *)
Record storable (s : t) : Prop := {
  storable_index : in_int (lastCommittedItemIndex s) = true;
  storable_no_items : itemStorages s = [] -> lastCommittedItemIndex s = (-1)%Z;
  storable_items : Forall CRWNavigationItemStorage.storable (itemStorages s);
  storable_certs : forall c, certPolicyCacheStorage s = Some c -> cert_storable c;
  storable_identifier : stableIdentifier s <> EmptyString
}.

Record same (s' s : t) : Prop := {
  same_opener : hasOpener s' = hasOpener s;
  same_index : lastCommittedItemIndex s' = lastCommittedItemIndex s;
  same_items : Forall2 CRWNavigationItemStorage.same (itemStorages s') (itemStorages s);
  same_certs : option_Forall2 cert_same (certPolicyCacheStorage s') (certPolicyCacheStorage s);
  same_user_data : userData s' = userData s;
  same_agent : userAgentType s' = userAgentType s;
  same_identifier : stableIdentifier s' = stableIdentifier s;
  same_time : lastActiveTime s' = lastActiveTime s
}.

Lemma session_init_encode uuid s :
  storable s ->
  exists archive, encodeWithCoder s ∅ = Ok (tt, archive) /\
  exists s', initWithCoder uuid archive = Ok (s', archive) /\ same s' s.
Proof.
  intros [Hi Hn Hit Hc Hid].
  destruct (archive_objects _ Hit) as (items & items' & Hs & He & Hd).
  destruct (archive_certs _ Hc) as (certs & certs' & Hsc & Hec & Hdc).
  assert (match items' with [] => (-1)%Z | _ => lastCommittedItemIndex s end =
          lastCommittedItemIndex s) as Hidx.
  { destruct items'; [|done]. inversion Hs as [E|]. symmetry. by apply Hn. }
  unfold encodeWithCoder, mwhen. destruct (userData s) as [data|] eqn:Eu, (Z.eqb_spec (lastActiveTime s) 0);
    cbn [negb]; eexists; (split; [repeat first [encode_step | erewrite mbind_run by apply He
      | erewrite mbind_run by apply Hec]; first [apply encode_run | reflexivity]|]);
    unfold initWithCoder; rewrite ?(to_int_id _ Hi).
  all: destruct certs' as [c|]; eexists; (split;
    [ repeat first [decode_step | progress cbn [as_identifier as_cert_cache] | rewrite mreturn_bind
        | erewrite mbind_run by apply Hd | erewrite mbind_run by apply Hdc];
      cbv beta; rewrite !(bool_decide_eq_false_2 (stableIdentifier s = EmptyString)) by done;
      cbv beta iota; cbn [negb]; repeat decode_step; reflexivity | ]).
  all: split; cbn; try done; try apply UserAgent.UserAgentType_description_roundtrip.
Qed.

(** a session is archived and read back with all its properties; the
    identifier is the archived one, whatever the new one would be. *)
Theorem CRWSessionStorage_roundtrip uuid s :
  storable s ->
  exists archive, encodeWithCoder s ∅ = Ok (tt, archive) /\
  exists s', initWithCoder uuid archive = Ok (s', archive) /\ same s' s.
Proof. apply session_init_encode. Qed.

End Code.

(** The class conforms to NSCoding; [uuid] is the identifier a session without
    one would get. *)
Definition session_coding `{WebEnv} `{NSStringOps} {CertCache} `{!NSCoding CertCache}
    (uuid : string) : NSCoding (t (CertCache := CertCache)) :=
  {| Archived := SessionObject; SessionStorage.encodeWithCoder := encodeWithCoder;
     SessionStorage.initWithCoder := initWithCoder uuid |}.

Lemma session_coding_laws `{WebEnv} `{NSStringOps} {CertCache} `{!NSCoding CertCache}
    cert_storable cert_same `{!GURLLaws H} `{!NSCodingLaws CertCache cert_storable cert_same} uuid :
  NSCodingLaws (NSCoding0 := session_coding uuid) t (storable cert_storable) (same cert_same).
Proof. intros s Hs. by eapply session_init_encode. Qed.

End CRWSessionStorage.

(** ** SessionStorageBuilder *)

Module SessionStorageBuilder.

Section Code.
Context `{WebEnv} `{CertificateOps} `{PageTransitionOps} `{ItemEnv} `{NSStringOps} `{URLConstants}.
Context {CertCache : Type}.
Abbreviation Item := NavigationItemImpl.t.

(** What [BuildStorage] reads of the WebState, of its certificate cache
    ([BuildStorage] of it) and of the navigation manager. *)
Record WebStateView : Type := {
  web_HasOpener : bool;
  web_GetLastActiveTime : Z;
  web_GetStableIdentifier : string;
  web_GetUserAgentForSessionRestoration : UserAgent.UserAgentType;
  web_certs : CertCache;
  web_user_data_manager : option SerializableUserDataManagerImpl.t
}.
Record NavigationManagerView : Type := {
  nav_GetLastCommittedItemIndex : Z;
  nav_items : list Item
}.

(** An item that is not saved. *)
Definition skipped (item : Item) : bool :=
  NavigationItemImpl.should_skip_serialization_ item ||
  (kMaxURLChars <? spec_size (NavigationItemImpl.GetURL item))%Z.

(** The loop over the items, from [index] on: the index of the last committed
    item, and the storages. *)
Fixpoint storages_loop (original_index : Z) (index : nat) (items : list Item)
    (last_committed : Z) : Z * list CRWNavigationItemStorage.t :=
  match items with
  | [] => (last_committed, [])
  | item :: items' =>
      if skipped item then
        storages_loop original_index (S index) items'
          (if (Z.of_nat index <=? original_index)%Z then last_committed - 1 else last_committed)%Z
      else
        let '(last, storages) := storages_loop original_index (S index) items' last_committed in
        (last, NavigationItemStorageBuilder.BuildStorage item :: storages)
  end.

Definition BuildStorage {S} (web_state : WebStateView) (navigation_manager : NavigationManagerView) :
    M S (CRWSessionStorage.t (CertCache := CertCache)) :=
  let items := nav_items navigation_manager in
  let item_count := Z.of_nat (length items) in
  let last := nav_GetLastCommittedItemIndex navigation_manager in
  let last := if (last =? -1)%Z then (item_count - 1)%Z else last in
  let original_index := size_t last in
  let '(last, storages) := storages_loop original_index 0 items last in
  let '(last, loc, len) :=
    WkNavigationUtil.GetSafeItemRange last (Z.of_nat (length storages)) in
  dcheck (last <? len)%Z ;;;
  mreturn (CRWSessionStorage.mk
    (web_HasOpener web_state) last
    (take (Z.to_nat len) (drop (Z.to_nat loc) storages))
    (Some (web_certs web_state))
    (SerializableUserDataManagerImpl.GetUserDataForSession <$> web_user_data_manager web_state)
    (web_GetUserAgentForSessionRestoration web_state)
    (web_GetStableIdentifier web_state) (web_GetLastActiveTime web_state)).

(** ** Which items are saved, and which of them is the last committed one *)

Definition kept (items : list Item) : list Item := filter (fun item => skipped item = false) items.

Lemma storages_loop_storages original index items last :
  snd (storages_loop original index items last) =
    NavigationItemStorageBuilder.BuildStorage <$> kept items.
Proof.
  revert index last. induction items as [| item items IH]; intros index last; [done|].
  cbn [storages_loop]. unfold kept. destruct (skipped item) eqn:E.
  - rewrite filter_cons_False by congruence. apply IH.
  - rewrite filter_cons_True by done. specialize (IH (S index) last).
    destruct (storages_loop _ _ _ _) as [l s]. cbn in IH |- *. by rewrite IH.
Qed.

(** The index of the last committed item among the kept ones: the number of
    kept items up to it, minus one. *)
Lemma storages_loop_last original index items last :
  fst (storages_loop original index items last) =
    (last - Z.of_nat (length (take (Z.to_nat (original + 1 - Z.of_nat index)) items))
     + Z.of_nat (length (kept (take (Z.to_nat (original + 1 - Z.of_nat index)) items))))%Z.
Proof.
  revert index last. induction items as [| item items IH]; intros index last.
  { rewrite take_nil. cbn. lia. }
  cbn [storages_loop].
  assert (forall l, fst (let '(l', s) := storages_loop original (S index) items l in
             (l', NavigationItemStorageBuilder.BuildStorage item :: s)) =
           fst (storages_loop original (S index) items l)) as Hfst
    by (intros l; by destruct (storages_loop _ _ _ _)).
  destruct (Z.leb_spec (Z.of_nat index) original) as [Hle|Hgt].
  - replace (Z.to_nat (original + 1 - Z.of_nat index))
      with (S (Z.to_nat (original + 1 - Z.of_nat (S index)))) by lia.
    cbn [take length]. unfold kept. destruct (skipped item) eqn:E.
    + rewrite filter_cons_False by congruence. rewrite IH. unfold kept. lia.
    + rewrite filter_cons_True by done. rewrite Hfst, IH. unfold kept. cbn [length]. lia.
  - replace (Z.to_nat (original + 1 - Z.of_nat index)) with 0 by lia.
    assert (fst (storages_loop original (S index) items last) = last) as Hl.
    { rewrite IH. replace (Z.to_nat (original + 1 - Z.of_nat (S index))) with 0 by lia.
      rewrite take_0. change (kept []) with (@nil Item). cbn [length]. lia. }
    rewrite take_0. change (kept []) with (@nil Item). cbn [length].
    destruct (skipped item); rewrite ?Hfst, Hl; lia.
Qed.

(** The last committed item, the last of all during a restoration. *)
Definition committed_index (nm : NavigationManagerView) : Z :=
  if (nav_GetLastCommittedItemIndex nm =? -1)%Z then (Z.of_nat (length (nav_items nm)) - 1)%Z
  else nav_GetLastCommittedItemIndex nm.

(** The items that are saved among those up to the last committed one. *)
Definition kept_before (nm : NavigationManagerView) : list Item :=
  kept (take (Z.to_nat (committed_index nm + 1)) (nav_items nm)).

Lemma kept_split nm :
  kept (nav_items nm) =
    kept_before nm ++ kept (drop (Z.to_nat (committed_index nm + 1)) (nav_items nm)).
Proof. unfold kept_before, kept. by rewrite <- filter_app, take_drop. Qed.

Lemma storages_loop_ok nm :
  let n := Z.of_nat (length (nav_items nm)) in
  (-1 <= nav_GetLastCommittedItemIndex nm < n \/ n = 0 /\ nav_GetLastCommittedItemIndex nm = -1)%Z ->
  (n < 2 ^ 63)%Z ->
  storages_loop (size_t (committed_index nm)) 0 (nav_items nm) (committed_index nm) =
    (Z.of_nat (length (kept_before nm)) - 1,
     NavigationItemStorageBuilder.BuildStorage <$> kept (nav_items nm))%Z.
Proof.
  intros n Hr Hn. rewrite (surjective_pairing (storages_loop _ _ _ _)).
  rewrite storages_loop_storages, storages_loop_last. f_equal. unfold kept_before, size_t.
  assert (committed_index nm = -1 /\ n = 0 \/ 0 <= committed_index nm < n)%Z as [[E En]|Hc]
    by (unfold committed_index; fold n; case_match; bool_to_prop; lia).
  - rewrite E. assert (nav_items nm = []) as -> by (apply length_zero_iff_nil; lia).
    by rewrite !take_nil.
  - rewrite Z.mod_small by lia.
    replace (committed_index nm + 1 - Z.of_nat 0)%Z with (committed_index nm + 1)%Z by lia.
    rewrite length_take. unfold n in *. lia.
Qed.

Lemma saved_range loc (m : list Item) :
  loc + Nat.min 75 (length m) <= length m ->
  take (Z.to_nat (Z.min 75 (Z.of_nat (length m))))
    (drop (Z.to_nat (Z.of_nat loc)) (NavigationItemStorageBuilder.BuildStorage <$> m)) =
    NavigationItemStorageBuilder.BuildStorage <$> take 75 (drop loc m) /\
  length (take 75 (drop loc m)) = Nat.min 75 (length m).
Proof.
  intros Hl. rewrite Nat2Z.id, <- fmap_drop, <- fmap_take. split.
  - f_equal. destruct (decide (75 <= length m)); [by replace (Z.to_nat _) with 75 by lia|].
    rewrite !take_ge; [done|rewrite length_drop; lia..].
  - rewrite length_take, length_drop. lia.
Qed.

(** C28: [BuildStorage] succeeds, saves at most [kMaxSessionSize] of the items
    that are to be saved, and makes the saved item nearest at or before the
    last committed one the last committed item of the session. There is none
    exactly when no item up to the last committed one is saved: the index is
    then -1, even when later items are saved. *)
Theorem BuildStorage_correct {S} web_state nm (s : S) :
  let n := Z.of_nat (length (nav_items nm)) in
  (-1 <= nav_GetLastCommittedItemIndex nm < n \/ n = 0 /\ nav_GetLastCommittedItemIndex nm = -1)%Z ->
  (n < 2 ^ 63)%Z ->
  exists storage loc, BuildStorage web_state nm s = Ok (storage, s) /\
    CRWSessionStorage.itemStorages storage =
      NavigationItemStorageBuilder.BuildStorage <$> take 75 (drop loc (kept (nav_items nm))) /\
    length (CRWSessionStorage.itemStorages storage) = Nat.min 75 (length (kept (nav_items nm))) /\
    match last (kept_before nm) with
    | Some item =>
        zlookup (CRWSessionStorage.itemStorages storage)
          (CRWSessionStorage.lastCommittedItemIndex storage) =
          Some (NavigationItemStorageBuilder.BuildStorage item)
    | None => CRWSessionStorage.lastCommittedItemIndex storage = (-1)%Z
    end.
Proof.
  intros n Hr Hn. unfold BuildStorage. fold (committed_index nm). rewrite storages_loop_ok by done.
  rewrite length_fmap. pose proof (kept_split nm) as Hk.
  set (k := kept_before nm) in *. set (m := kept (nav_items nm)) in *.
  assert (length k <= length m) as Hkm by (rewrite Hk, length_app; lia).
  destruct (last k) as [item|] eqn:El.
  - assert (m !! (length k - 1) = Some item) as Hitem
      by (rewrite Hk; apply lookup_app_l_Some; by rewrite Nat.sub_1_r, <- last_lookup).
    assert (length k - 1 < length k) as Hlt by (destruct k; [done|cbn; lia]).
    pose proof (WkNavigationUtil.GetSafeItemRange_bounds (Z.of_nat (length k) - 1)
      (Z.of_nat (length m)) ltac:(lia)) as Hb.
    destruct (WkNavigationUtil.GetSafeItemRange _ _) as [[i loc] len].
    destruct Hb as (-> & Hloc & Hend & Hi & Hsum).
    eexists _, (Z.to_nat loc). split; [unfold mbind, dcheck; by rewrite (proj2 (Z.ltb_lt _ _) (proj2 Hi))|].
    cbn [CRWSessionStorage.itemStorages CRWSessionStorage.lastCommittedItemIndex].
    destruct (saved_range (Z.to_nat loc) m) as [Es Hls]; [lia|]. rewrite Z2Nat.id in Es by lia.
    rewrite Es, length_fmap, Hls. split_and!; [done..|].
    rewrite zlookup_nonneg, list_lookup_fmap, lookup_take_lt, lookup_drop by lia.
    replace (Z.to_nat loc + Z.to_nat i) with (length k - 1) by lia. by rewrite Hitem.
  - apply last_None in El. rewrite El. cbn [length].
    assert (WkNavigationUtil.GetSafeItemRange (Z.of_nat 0 - 1) (Z.of_nat (length m)) =
      (-1, 0, Z.min 75 (Z.of_nat (length m)))%Z) as ->
      by (unfold WkNavigationUtil.GetSafeItemRange, WkNavigationUtil.kMaxSessionSize;
          change (Z.quot 75 2) with 37%Z; repeat f_equal; lia).
    eexists _, 0. split.
    { unfold mbind, dcheck. by rewrite (proj2 (Z.ltb_lt _ _)) by lia. }
    cbn [CRWSessionStorage.itemStorages CRWSessionStorage.lastCommittedItemIndex].
    destruct (saved_range 0 m) as [Es Hls]; [lia|]. change (Z.of_nat 0) with 0%Z in Es.
    by rewrite Es, length_fmap, Hls.
Qed.

End Code.
End SessionStorageBuilder.

(** ** Examples *)

Module ExampleSession.
Export ExampleItems.

#[export] Instance ns_strings : NSStringOps :=
  {| NSString := u16string; SysUTF16ToNSString := Some; SysNSStringToUTF16 := default [] |}.
#[export] Instance url_constants : URLConstants := {| kMaxURLChars := 2 ^ 21 |}.
#[local] Existing Instance ExampleGURL.laws.

Definition storage_a : CRWNavigationItemStorage.t :=
  CRWNavigationItemStorage.mk url_a url_b (Referrer.mk url_b Referrer.ReferrerPolicyOrigin) 12
    [65; 66]%Z PageDisplayState.create true UserAgent.MOBILE (Some {["A" := "B"]}).

Lemma storage_a_storable : CRWNavigationItemStorage.storable storage_a.
Proof. by vm_compute. Qed.

Lemma CRWNavigationItemStorage_roundtrip_witness :
  exists archive, CRWNavigationItemStorage.encodeWithCoder storage_a ∅ = Ok (tt, archive) /\
  exists s', CRWNavigationItemStorage.initWithCoder archive = Ok (s', archive) /\
    CRWNavigationItemStorage.virtualURL s' = url_b.
Proof.
  destruct (CRWNavigationItemStorage.CRWNavigationItemStorage_roundtrip storage_a storage_a_storable)
    as (archive & He & s' & Hd & Hs).
  exists archive. split; [exact He|]. exists s'. split; [exact Hd|]. exact (proj1 (proj2 Hs)).
Defined.

(** A file that is shown with another URL. *)
Definition file_item : NavigationItemImpl.t :=
  NavigationItemImpl.SetVirtualURL url_b
    (NavigationItemImpl.SetURL (ExampleGURL.mk "file" "/x.pdf" "") (NavigationItemImpl.create 3)).

Lemma navigation_item_roundtrip_witness :
  exists storage item',
    NavigationItemStorageBuilder.BuildNavigationItemImpl storage 6%Z = Ok (item', 7%Z) /\
    NavigationItemImpl.GetURL item' = url_b /\ NavigationItemImpl.GetVirtualURL item' = url_b.
Proof.
  destruct (NavigationItemStorageBuilder.navigation_item_roundtrip file_item 6)
    as (archive & storage & item' & _ & _ & Hb & Hr & _); [by vm_compute|done|].
  exists storage, item'. split; [exact Hb|]. split; [|apply Hr].
  rewrite (NavigationItemStorageBuilder.restored_url _ _ Hr). vm_compute. reflexivity.
Defined.

(** A certificate cache that has nothing to archive. *)
#[export] Instance no_certs : NSCoding unit :=
  {| Archived := unit; encodeWithCoder _ := mreturn tt; initWithCoder := mreturn tt |}.
#[export] Instance no_certs_laws : NSCodingLaws unit (fun _ => True) (fun _ _ => True).
Proof. intros [] _. exists ∅. split; [done|]. by exists tt. Qed.

Definition session_a : CRWSessionStorage.t (CertCache := unit) :=
  CRWSessionStorage.mk true 0 [storage_a] (Some tt) (Some {["OpenerIndex" := NSNumberValue 2]})
    UserAgent.DESKTOP "id" 99.

Lemma session_a_storable : CRWSessionStorage.storable (fun _ => True) session_a.
Proof.
  split; [reflexivity|done| |done|done]. repeat constructor. all: by apply storage_a_storable.
Qed.

Lemma CRWSessionStorage_roundtrip_witness :
  exists archive, CRWSessionStorage.encodeWithCoder session_a ∅ = Ok (tt, archive) /\
  exists s', CRWSessionStorage.initWithCoder "uuid" archive = Ok (s', archive) /\
    CRWSessionStorage.stableIdentifier s' = "id" /\
    CRWSessionStorage.userData s' = Some {["OpenerIndex" := NSNumberValue 2]}.
Proof.
  destruct (CRWSessionStorage.CRWSessionStorage_roundtrip (fun _ : unit => True) (fun _ _ => True)
              "uuid" session_a session_a_storable) as (archive & He & s' & Hd & Hs).
  exists archive. split; [exact He|]. exists s'. split; [exact Hd|].
  split; [exact (CRWSessionStorage.same_identifier _ _ _ Hs)
         |exact (CRWSessionStorage.same_user_data _ _ _ Hs)].
Defined.

(** Three items, the first, which is the last committed one, is not saved: the
    session has two items and no valid index. *)
Definition item_at (u : GURL) (skip : bool) : NavigationItemImpl.t :=
  NavigationItemImpl.SetShouldSkipSerialization skip
    (NavigationItemImpl.SetURL u (NavigationItemImpl.create 1)).

Definition example_web_state : SessionStorageBuilder.WebStateView (CertCache := unit) :=
  SessionStorageBuilder.Build_WebStateView false 0 "id" UserAgent.MOBILE tt None.

Lemma BuildStorage_correct_witness :
  exists storage, SessionStorageBuilder.BuildStorage example_web_state
    (SessionStorageBuilder.Build_NavigationManagerView 0
       [item_at url_a true; item_at url_b false; item_at url_a false]) tt = Ok (storage, tt) /\
    length (CRWSessionStorage.itemStorages storage) = 2 /\
    CRWSessionStorage.lastCommittedItemIndex storage = (-1)%Z.
Proof.
  destruct (SessionStorageBuilder.BuildStorage_correct example_web_state
    (SessionStorageBuilder.Build_NavigationManagerView 0
       [item_at url_a true; item_at url_b false; item_at url_a false]) tt)
    as (storage & loc & Hb & _ & Hl & Hi); [by left; vm_compute|by vm_compute|].
  exists storage. split; [exact Hb|]. split; [rewrite Hl; vm_compute; reflexivity|].
  vm_compute in Hi. exact Hi.
Defined.

End ExampleSession.
