(* ===== verification/SessionWindow.v ===== *)
(** * SessionWindowIOS

    The saved session of a window, and its archive
    (src/chrome/browser/sessions/session_window_ios.mm,
    NSCoder+Compatibility.mm). The sessions are any class that conforms to
    NSCoding; [CRWSessionStorage] is one. *)

From stdpp Require Import base tactics option list numbers strings gmap.
From Stdlib Require Import ZArith Lia.
From S2P Require Import Prelude WebTypes NavigationItem SessionStorage SessionBuilder.
Import NSCoder.

(** [NSNotFound] is [NSIntegerMax]. *)
Definition NSNotFound : Z := 2 ^ 63 - 1.

Module NSCoderCompatibility.
Section Code.
Context {Object : Type}.

Definition NSNotFound32 : Z := INT_MAX.

Definition cr_decodeIndexForKey (key : string) : M (NSCoder.t Object) Z :=
  let! index32 := decodeInt key in
  dcheck ((0 <=? index32)%Z && (index32 <=? NSNotFound32)%Z) ;;;
  mreturn (if (index32 =? NSNotFound32)%Z then NSNotFound else index32).

Definition cr_encodeIndex (index : Z) (key : string) : M (NSCoder.t Object) unit :=
  dcheck (((0 <=? index)%Z && (index <? NSNotFound32)%Z) || (index =? NSNotFound)%Z) ;;;
  let index32 := if (index =? NSNotFound)%Z then to_int NSNotFound32 else to_int index in
  encodeInt key index32.

(** An index that can be encoded. *)
Definition encodable (index : Z) : bool :=
  ((0 <=? index)%Z && (index <? NSNotFound32)%Z) || (index =? NSNotFound)%Z.

Lemma cr_encodeIndex_ok index key archive :
  encodable index = true ->
  exists index32, cr_encodeIndex index key archive = Ok (tt, <[key := CodedInt index32]> archive) /\
    (0 <= index32 <= INT_MAX)%Z /\
    (if (index32 =? NSNotFound32)%Z then NSNotFound else index32) = index.
Proof.
  intros He. unfold cr_encodeIndex, encodable in *. unfold mbind, dcheck. rewrite He.
  unfold NSNotFound32 in *.
  destruct (Z.eqb_spec index NSNotFound) as [->|Hne].
  - exists INT_MAX. rewrite !to_int_id by done. split; [by unfold encodeInt; rewrite to_int_id by done|].
    by split; [unfold INT_MAX; lia|].
  - rewrite orb_false_r in He. bool_to_prop. exists index.
    assert (in_int index = true) as Hi by (apply in_int_spec; unfold INT_MIN, INT_MAX in *; lia).
    rewrite !to_int_id by done. split; [by unfold encodeInt; rewrite to_int_id by done|].
    split; [lia|]. by rewrite (proj2 (Z.eqb_neq _ _)) by lia.
Qed.

Lemma cr_decodeIndex_ok archive key index32 :
  archive !! key = Some (CodedInt index32) -> (0 <= index32 <= INT_MAX)%Z ->
  cr_decodeIndexForKey key archive =
    Ok (if (index32 =? NSNotFound32)%Z then NSNotFound else index32, archive).
Proof.
  intros Hk Hr. unfold cr_decodeIndexForKey.
  erewrite mbind_run; [|unfold decodeInt; eapply decode_present; [exact Hk|reflexivity]].
  unfold mbind, dcheck. unfold NSNotFound32 in *.
  by rewrite (proj2 (Z.leb_le 0 index32)), (proj2 (Z.leb_le index32 INT_MAX)) by lia.
Qed.
End Code.
End NSCoderCompatibility.

Module SessionWindowIOS.
Import NSCoderCompatibility.

Definition IsIndexValidForSessionCount (index session_count : Z) : bool :=
  if (session_count =? 0)%Z then (index =? NSNotFound)%Z else (index <? session_count)%Z.

(** [SessionSummary] *)
Record SessionSummary : Type := mkSummary {
  summary_url : string;
  summary_title : string;
  summary_stableIdentifier : string
}.

Section Code.
Context {Session Data : Type} `{!NSCoding Session}.
(** [ShouldSaveSessionTabsToSeparateFiles()], a feature flag. *)
Context (ShouldSaveSessionTabsToSeparateFiles : bool).

Record t : Type := mk {
  sessions : list Session;
  sessionsSummary : option (list SessionSummary);
  tabContents : option (gmap string Data);
  selectedIndex : Z
}.

(** The [NSUInteger] index is not negative. *)
Definition initWithSessions {S} (sessions : list Session)
    (sessionsSummary : option (list SessionSummary)) (tabContents : option (gmap string Data))
    (selectedIndex : Z) : M S t :=
  dcheck (IsIndexValidForSessionCount selectedIndex (Z.of_nat (length sessions))) ;;;
  dcheck (match sessionsSummary with
          | None => true
          | Some summary => bool_decide (length summary = length sessions)
          end) ;;;
  mreturn (mk sessions sessionsSummary tabContents selectedIndex).

Definition init {S} : M S t := initWithSessions [] (Some []) (Some ∅) NSNotFound.

(** The objects of the archive; the summary is written but never read. *)
Inductive WindowObject : Type :=
| SessionsObject (sessions : list (NSCoder.t (Archived (A := Session))))
| SummaryObject (summary : list SessionSummary)
| OtherObject.

Definition initWithCoder : M (NSCoder.t WindowObject) t :=
  let! selectedIndex := cr_decodeIndexForKey "selectedIndex" in
  let! o := decodeObject "sessions" in
  let! sessions :=
    match o with
    | Some (SessionsObject sessions) => mmap sessions CRWSessionStorage.unarchive_object
    | _ => mreturn []
    end in
  let count := Z.of_nat (length sessions) in
  let selectedIndex :=
    if negb (IsIndexValidForSessionCount selectedIndex count) then
      if (count =? 0)%Z then NSNotFound else 0%Z
    else selectedIndex in
  initWithSessions sessions None None selectedIndex.

Definition encodeWithCoder (w : t) : M (NSCoder.t WindowObject) unit :=
  cr_encodeIndex (selectedIndex w) "selectedIndex" ;;;
  let! archives := mmap (sessions w) CRWSessionStorage.archive_object in
  encodeObject "sessions" (Some (SessionsObject archives)) ;;;
  match sessionsSummary w with
  | Some summary =>
      mwhen ShouldSaveSessionTabsToSeparateFiles
        (encodeObject "sessionsSummary" (Some (SummaryObject summary)))
  | None => mreturn tt
  end.

(** ** Archiving and reading back *)

(** A window the designated initializer accepts. *)
Definition valid (w : t) : bool :=
  IsIndexValidForSessionCount (selectedIndex w) (Z.of_nat (length (sessions w))).

Lemma initWithSessions_ok {S} l index (s : S) :
  IsIndexValidForSessionCount index (Z.of_nat (length l)) = true ->
  initWithSessions l None None index s = Ok (mk l None None index, s).
Proof. intros Hv. unfold initWithSessions, mbind, dcheck. by rewrite Hv. Qed.

(** The sessions an archive holds; without an array there are none. *)
Definition archived_sessions (archive : NSCoder.t WindowObject) (l : list Session) : Prop :=
  match archive !! "sessions" with
  | None => l = []
  | Some (CodedObject (Some (SessionsObject archives))) =>
      forall S (s : S), mmap archives CRWSessionStorage.unarchive_object s = Ok (l, s)
  | Some (CodedObject _) => l = []
  | Some _ => False
  end.

(** The selection that is decoded: an index that is not valid is replaced. *)
Definition decoded_index (index count : Z) : Z :=
  if IsIndexValidForSessionCount index count then index
  else if (count =? 0)%Z then NSNotFound else 0%Z.

Lemma decoded_index_valid index count :
  (0 <= count)%Z -> IsIndexValidForSessionCount (decoded_index index count) count = true.
Proof.
  intros Hc. unfold decoded_index. destruct (IsIndexValidForSessionCount index count) eqn:E; [done|].
  unfold IsIndexValidForSessionCount. destruct (Z.eqb_spec count 0); [done|]. apply Z.ltb_lt. lia.
Qed.

Lemma initWithCoder_ok archive index32 l :
  archive !! "selectedIndex" = Some (CodedInt index32) -> (0 <= index32 <= INT_MAX)%Z ->
  archived_sessions archive l ->
  initWithCoder archive =
    Ok (mk l None None (decoded_index (if (index32 =? NSNotFound32)%Z then NSNotFound else index32)
                          (Z.of_nat (length l))), archive).
Proof.
  intros Hk Hr Hl. unfold initWithCoder. set (index := if (index32 =? _)%Z then _ else _).
  erewrite mbind_run by (by apply cr_decodeIndex_ok). fold index.
  assert (exists o, decodeObject "sessions" archive = Ok (o, archive) /\
    match o with
    | Some (SessionsObject archives) => mmap archives CRWSessionStorage.unarchive_object archive
    | _ => Ok ([], archive)
    end = Ok (l, archive)) as (o & Ho & Hs).
  { unfold archived_sessions in Hl. unfold decodeObject.
    destruct (archive !! "sessions") as [[| | | |o]|] eqn:E; try done.
    - exists o. split; [by eapply decode_present|]. destruct o as [[]|]; [apply Hl|by rewrite Hl..].
    - exists None. split; [by apply decode_absent|]. by rewrite Hl. }
  erewrite mbind_run by exact Ho. erewrite mbind_run; [|by destruct o as [[]|]].
  assert ((if negb (IsIndexValidForSessionCount index (Z.of_nat (length l)))
           then if (Z.of_nat (length l) =? 0)%Z then NSNotFound else 0%Z else index) =
          decoded_index index (Z.of_nat (length l))) as ->
    by (unfold decoded_index; by destruct (IsIndexValidForSessionCount _ _)).
  apply initWithSessions_ok, decoded_index_valid. lia.
Qed.

Context (storable : Session -> Prop) (same : relation Session).
Context `{!NSCodingLaws Session storable same}.

(** What a window must be to be archived. *)
Record storable_window (w : t) : Prop := {
  window_valid : valid w = true;
  window_index : (0 <= selectedIndex w)%Z;
  window_count : (Z.of_nat (length (sessions w)) <= INT_MAX)%Z;
  window_sessions : Forall storable (sessions w)
}.
(** The same sessions and selection: the rest is not read back. *)
Record same_window (w' w : t) : Prop := {
  same_valid : valid w' = true;
  same_sessions : Forall2 same (sessions w') (sessions w);
  same_index : selectedIndex w' = selectedIndex w
}.

Lemma window_init_encode w : storable_window w ->
  exists archive, encodeWithCoder w ∅ = Ok (tt, archive) /\
  exists w', initWithCoder archive = Ok (w', archive) /\ same_window w' w.
Proof.
  intros [Hv H0 Hn Hs]. unfold valid in Hv.
  assert (encodable (selectedIndex w) = true) as He.
  { unfold encodable, IsIndexValidForSessionCount, NSNotFound32 in *.
    destruct (Z.eqb_spec (Z.of_nat (length (sessions w))) 0); [by rewrite Hv, orb_true_r|].
    bool_to_prop. by rewrite (proj2 (Z.leb_le _ _)), (proj2 (Z.ltb_lt _ INT_MAX)) by lia. }
  destruct (cr_encodeIndex_ok (selectedIndex w) "selectedIndex" (∅ : NSCoder.t WindowObject) He) as (index32 & Hei & Hr & Hi).
  destruct (CRWSessionStorage.archive_objects _ Hs) as (archives & l' & Hsame & Hea & Hd).
  assert (exists archive, encodeWithCoder w ∅ = Ok (tt, archive) /\
    archive !! "selectedIndex" = Some (CodedInt index32) /\
    archive !! "sessions" = Some (CodedObject (Some (SessionsObject archives))))
    as (archive & Hw & Hk & Hks).
  { unfold encodeWithCoder. erewrite mbind_run by exact Hei. erewrite mbind_run by apply Hea.
    encode_step. unfold mwhen. destruct (sessionsSummary w), ShouldSaveSessionTabsToSeparateFiles;
      eexists; (split; [reflexivity|]); by simplify_map_eq. }
  exists archive. split; [done|]. eexists. split.
  { apply initWithCoder_ok; [exact Hk|done|]. unfold archived_sessions. rewrite Hks. exact Hd. }
  assert (length l' = length (sessions w)) as Hlen by (by eapply Forall2_length).
  split; unfold valid; cbn; [apply decoded_index_valid; lia|done|].
  unfold decoded_index. by rewrite Hlen, Hi, Hv.
Qed.

(** The class conforms to NSCoding. *)
#[export] Instance window_coding : NSCoding t :=
  {| Archived := WindowObject; SessionStorage.encodeWithCoder := encodeWithCoder;
     SessionStorage.initWithCoder := initWithCoder |}.
#[export] Instance window_coding_laws : NSCodingLaws t storable_window same_window.
Proof. exact window_init_encode. Qed.

(** whatever index that is not negative a file holds, the window that is
    read has a valid selection and no DCHECK fails; a valid window of sessions
    that can be archived is read back with the same sessions and selection. *)
Theorem SessionWindowIOS_coding w :
  (forall archive index32 l,
     archive !! "selectedIndex" = Some (CodedInt index32) -> (0 <= index32 <= INT_MAX)%Z ->
     archived_sessions archive l ->
     exists w', initWithCoder archive = Ok (w', archive) /\ valid w' = true /\ sessions w' = l) /\
  (valid w = true -> (0 <= selectedIndex w)%Z -> (Z.of_nat (length (sessions w)) <= INT_MAX)%Z ->
   Forall storable (sessions w) ->
   exists archive, encodeWithCoder w ∅ = Ok (tt, archive) /\
   exists w', initWithCoder archive = Ok (w', archive) /\ valid w' = true /\
     Forall2 same (sessions w') (sessions w) /\ selectedIndex w' = selectedIndex w).
Proof.
  split.
  - intros archive index32 l Hk Hr Hl. eexists. split; [by apply initWithCoder_ok|].
    split; [|done]. unfold valid. cbn. apply decoded_index_valid. lia.
  - intros Hv H0 Hn Hs. destruct (window_init_encode w) as (archive & He & w' & Hd & []); [by split|eauto 10].
Qed.

End Code.

Section Examples.
Import ExampleSession.
#[local] Existing Instance ExampleGURL.laws.

(** Two sessions, the second one selected. *)
Definition example_window : t (Session := CRWSessionStorage.t (CertCache := unit)) (Data := unit) :=
  mk [session_a; session_a] None None 1.

Lemma SessionWindowIOS_coding_witness :
  exists archive,
    encodeWithCoder (NSCoding0 := CRWSessionStorage.session_coding "uuid") false example_window ∅ =
      Ok (tt, archive) /\
  exists w', initWithCoder (Data := unit) (NSCoding0 := CRWSessionStorage.session_coding "uuid") archive =
      Ok (w', archive) /\ length (sessions w') = 2 /\ selectedIndex w' = 1%Z.
Proof.
  destruct (proj2 (SessionWindowIOS_coding (NSCoding0 := CRWSessionStorage.session_coding "uuid") false
    _ _ (NSCodingLaws0 := CRWSessionStorage.session_coding_laws (fun _ => True) (fun _ _ => True) "uuid")
    example_window)) as (archive & He & w' & Hd & _ & Hs & Hi); [done..| |].
  - repeat constructor; apply session_a_storable.
  - exists archive. split; [exact He|]. exists w'. split; [exact Hd|]. split; [|exact Hi].
    exact (Forall2_length _ _ _ Hs).
Defined.

End Examples.
End SessionWindowIOS.
