(* ===== verification/WebStateListSerialization.v ===== *)
(** * Saving and restoring a WebStateList

    [SerializeWebStateList] and [DeserializeWebStateList]
    (src/chrome/browser/web_state_list/web_state_list_serialization.mm): the
    WebStates without history are dropped, and the openers are saved in the user
    data of the WebStates as indexes of the saved list. *)

From stdpp Require Import base tactics option list numbers strings gmap relations.
From Stdlib Require Import ZArith Lia.
From S2P Require Import Prelude RemovingIndexes WebStateListModel OrderController.
From S2P Require Import WebStateListOps WebStateListProofs WebStateListTheorems.
From S2P Require Import WebTypes NavigationItem SessionStorage SessionBuilder SessionWindow.

Module WebStateListSerialization.
Import WebStateList WebStateListOps.
Import WebStateListRemovingIndexes(IndexAfterRemoval, Contains, StorageFromVector, elems).

Section Code.
Context `{WebStateEnv} `{GURLOps} {CertCache Data : Type}.
Abbreviation Session := (CRWSessionStorage.t (CertCache := CertCache)).
Abbreviation Manager := SerializableUserDataManagerImpl.t.
Abbreviation Removing := WebStateListRemovingIndexes.Storage.

(** What is read of the WebStates and of the platform. *)
Record SerializationEnv : Type := {
  (** [IsRealized() && GetNavigationManager() && IsRestoreSessionInProgress()] *)
  env_in_restore : WebStateId -> bool;
  env_GetNavigationItemCount : WebStateId -> Z;
  (** the session of [BuildSessionStorage], but for its user data *)
  env_session : WebStateId -> Session;
  env_GetStableIdentifier : WebStateId -> string;
  env_GetTitle : WebStateId -> string;
  (** [archivedDataWithRootObject:], None when it fails; [[NSData data]] *)
  env_archivedData : Session -> option Data;
  env_empty_data : Data;
  env_ShouldSaveSessionTabsToSeparateFiles : bool
}.
Context (env : SerializationEnv).

(** The list and the user data managers attached to the WebStates. *)
Record World : Type := mkWorld { world_list : WebStateList.t; managers : gmap WebStateId Manager }.

Definition on_list {A} (m : M WebStateList.t A) : M World A :=
  fun w => match m (world_list w) with
           | Ok (a, s) => Ok (a, mkWorld s (managers w))
           | Fault f => Fault f
           end.

(** [SerializableUserDataManager::FromWebState(web_state)], made on demand. *)
Definition FromWebState (web_state : WebStateId) (w : World) : Manager :=
  default SerializableUserDataManagerImpl.create (managers w !! web_state).

Definition on_manager {A} (web_state : WebStateId) (m : M Manager A) : M World A :=
  fun w => match m (FromWebState web_state w) with
           | Ok (a, manager) => Ok (a, mkWorld (world_list w) (<[web_state := manager]> (managers w)))
           | Fault f => Fault f
           end.

(** [web_state->BuildSessionStorage()]: the manager was made before. *)
Definition with_user_data (data : option CRWSessionUserData.t) (s : Session) : Session :=
  CRWSessionStorage.mk (CRWSessionStorage.hasOpener s) (CRWSessionStorage.lastCommittedItemIndex s)
    (CRWSessionStorage.itemStorages s) (CRWSessionStorage.certPolicyCacheStorage s) data
    (CRWSessionStorage.userAgentType s) (CRWSessionStorage.stableIdentifier s)
    (CRWSessionStorage.lastActiveTime s).
Definition BuildSessionStorage (web_state : WebStateId) (w : World) : Session :=
  with_user_data
    (Some (SerializableUserDataManagerImpl.GetUserDataForSession (FromWebState web_state w)))
    (env_session env web_state).

Definition kOpenerIndexKey : string := "OpenerIndex".
Definition kOpenerNavigationIndexKey : string := "OpenerNavigationIndex".

(** ** Serialization *)

(** The loop of [GetIndexOfWebStatesToDrop]: the indexes that are pushed. *)
Fixpoint drop_loop (todo : list Z) : M World (list Z) :=
  match todo with
  | [] => mreturn []
  | index :: todo' =>
      let! web_state := on_list (GetWebStateAt index) in
      let in_restore := env_in_restore env web_state in
      let! skip_indexes := drop_loop todo' in
      mreturn (if negb in_restore && (env_GetNavigationItemCount env web_state =? 0)%Z
               then index :: skip_indexes else skip_indexes)
  end.

Definition GetIndexOfWebStatesToDrop : M World Removing :=
  let! w := mget in
  let! web_state_to_skip_indexes := drop_loop (seqZ 0 (count (world_list w))) in
  mreturn (StorageFromVector web_state_to_skip_indexes).

(** What the loop of [SerializeWebStateList] adds to its arrays for a WebState. *)
Record Entry : Type := mkEntry {
  entry_session : Session;
  entry_summary : SessionWindowIOS.SessionSummary;
  entry_data : Data
}.

Definition serialize_one (web_states_to_serialize : option (gset string)) (removing_indexes : Removing)
    (index : Z) : M World Entry :=
  let! web_state := on_list (GetWebStateAt index) in
  let! opener := on_list (GetOpenerOfWebStateAt index) in
  let! w := mget in
  let! opener_index :=
    match WebStateOpener.opener opener with
    | Some o =>
        let opener_index := GetIndexOfWebState (world_list w) (Some o) in
        dcheck (negb (opener_index =? kInvalidIndex)%Z) ;;;
        mreturn (IndexAfterRemoval removing_indexes opener_index)
    | None => mreturn kInvalidIndex
    end in
  (if negb (opener_index =? kInvalidIndex)%Z then
     on_manager web_state (SerializableUserDataManagerImpl.AddSerializableData
       (Some (NSNumberValue opener_index)) kOpenerIndexKey) ;;;
     on_manager web_state (SerializableUserDataManagerImpl.AddSerializableData
       (Some (NSNumberValue (WebStateOpener.navigation_index opener))) kOpenerNavigationIndexKey)
   else
     on_manager web_state (SerializableUserDataManagerImpl.AddSerializableData
       (Some NSNullValue) kOpenerIndexKey) ;;;
     on_manager web_state (SerializableUserDataManagerImpl.AddSerializableData
       (Some NSNullValue) kOpenerNavigationIndexKey)) ;;;
  let! session_storage := mgets (BuildSessionStorage web_state) in
  let web_state_id := env_GetStableIdentifier env web_state in
  mreturn (mkEntry session_storage
    (SessionWindowIOS.mkSummary (env_visible_url web_state) (env_GetTitle env web_state) web_state_id)
    (if match web_states_to_serialize with
        | None => true
        | Some ids => bool_decide (web_state_id ∈ ids)
        end
     then default (env_empty_data env) (env_archivedData env session_storage)
     else env_empty_data env)).

(** The loop over the indexes. *)
Fixpoint serialize_loop (web_states_to_serialize : option (gset string)) (removing_indexes : Removing)
    (todo : list Z) : M World (list Entry) :=
  match todo with
  | [] => mreturn []
  | index :: todo' =>
      if Contains removing_indexes index
      then serialize_loop web_states_to_serialize removing_indexes todo'
      else
        let! entry := serialize_one web_states_to_serialize removing_indexes index in
        let! entries := serialize_loop web_states_to_serialize removing_indexes todo' in
        mreturn (entry :: entries)
  end.

(** [serialized_tab_contents[web_state_id] = data], in order. *)
Definition tab_contents (entries : list Entry) : gmap string Data :=
  foldl (fun contents e =>
    <[SessionWindowIOS.summary_stableIdentifier (entry_summary e) := entry_data e]> contents) ∅ entries.

Definition SerializeWebStateList (web_states_to_serialize : option (gset string)) :
    M World (SessionWindowIOS.t (Session := Session) (Data := Data)) :=
  let! removing_indexes := GetIndexOfWebStatesToDrop in
  let! w := mget in
  let! entries :=
    serialize_loop web_states_to_serialize removing_indexes (seqZ 0 (count (world_list w))) in
  let! w := mget in
  let! active_index := on_list (WebStateListOrderController.DetermineNewActiveIndex
    (active_index (world_list w)) removing_indexes) in
  let selectedIndex := if negb (active_index =? kInvalidIndex)%Z then active_index else NSNotFound in
  let separate := env_ShouldSaveSessionTabsToSeparateFiles env in
  SessionWindowIOS.initWithSessions (entry_session <$> entries)
    (if separate then Some (entry_summary <$> entries) else None)
    (if separate then Some (tab_contents entries) else None) selectedIndex.

(** ** Deserialization *)

(** [[ObjCCast<NSNumber>(GetValueForSerializationKey(key)) intValue]]; None is nil. *)
Definition boxed_int (key : string) (manager : Manager) : option Z :=
  match SerializableUserDataManagerImpl.GetValueForSerializationKey key manager with
  | Some (NSNumberValue z) => Some (to_int z)
  | _ => None
  end.

(** A turn of the loop that restores the openers; an [int] addition that
    overflows is undefined. *)
Definition restore_opener (old_count index : Z) : M World unit :=
  let! web_state := on_list (GetWebStateAt index) in
  let! w := mget in
  let user_data_manager := FromWebState web_state w in
  match boxed_int kOpenerIndexKey user_data_manager,
        boxed_int kOpenerNavigationIndexKey user_data_manager with
  | Some boxed_opener_index, Some boxed_opener_navigation_index =>
      let opener_index := (boxed_opener_index + old_count)%Z in
      if negb (in_int opener_index) then mfail SignedOverflow
      else if (opener_index <? old_count)%Z || (opener_index >=? count (world_list w))%Z
      then mreturn tt
      else if (opener_index =? index)%Z then mreturn tt
      else
        let! opener := on_list (GetWebStateAt opener_index) in
        on_list (SetOpenerOfWebStateAt index
          (WebStateOpener.mk (Some opener) boxed_opener_navigation_index))
  | _, _ => mreturn tt
  end.

Definition DeserializeWebStateList (session_window : SessionWindowIOS.t (Session := Session) (Data := Data))
    (web_state_factory : Session -> M World WebStateId) : M World unit :=
  let! w := mget in
  let old_count := count (world_list w) in
  mfor (SessionWindowIOS.sessions session_window) (fun session =>
    let! web_state := web_state_factory session in
    let! w := mget in
    let! _ := on_list (InsertWebState (count (world_list w)) web_state INSERT_FORCE_INDEX
                         WebStateOpener.null) in
    mreturn tt) ;;;
  let! w := mget in
  mfor (seqZ old_count (count (world_list w) - old_count)) (restore_opener old_count) ;;;
  let selectedIndex := SessionWindowIOS.selectedIndex session_window in
  mwhen (negb (selectedIndex =? NSNotFound)%Z)
    (dcheck (selectedIndex <? Z.of_nat (length (SessionWindowIOS.sessions session_window)))%Z ;;;
     dcheck (selectedIndex <? INT_MAX)%Z ;;;
     on_list (ActivateWebStateAt (old_count + selectedIndex))).

End Code.
End WebStateListSerialization.
