(* ===== verification/SerializationProofs.v ===== *)
(** * Saving and restoring a WebStateList: the theorems

    What [SerializeWebStateList] saves, that [DeserializeWebStateList] restores
    any window without a failing DCHECK, and that a list that is saved and
    restored has the same tabs, openers and active tab. *)

From stdpp Require Import base tactics option list numbers strings gmap relations.
From Stdlib Require Import ZArith Lia.
From S2P Require Import Prelude RemovingIndexes WebStateListModel OrderController.
From S2P Require Import WebStateListOps WebStateListProofs WebStateListTheorems.
From S2P Require Import WebTypes NavigationItem SessionStorage SessionBuilder SessionWindow.
From S2P Require Import WebStateListSerialization.

Module SerializationProofs.
Import WebStateList WebStateListOps WebStateListProofs(zlookup_wrappers).
Import WebStateListSerialization.
Import WebStateListRemovingIndexes(IndexAfterRemoval, Contains, StorageFromVector, elems).

Abbreviation Removing := WebStateListRemovingIndexes.Storage.
Abbreviation Manager := SerializableUserDataManagerImpl.t.

Section Serialize.
Context `{WebStateEnv} `{GURLOps} {CertCache Data : Type}.
Context (env : SerializationEnv (CertCache := CertCache) (Data := Data)).
Implicit Types (w : World) (s : t) (r : Removing) (i : Z).

(** ** What is dropped *)

Definition dropped s i : bool :=
  match zlookup (web_states s) i with
  | Some ws => negb (env_in_restore env ws) && (env_GetNavigationItemCount env ws =? 0)%Z
  | None => false
  end.

Definition all_indexes s : list Z := seqZ 0 (count s).
Definition dropped_indexes s : list Z := filter (fun i => dropped s i = true) (all_indexes s).
Definition kept_indexes s : list Z := filter (fun i => dropped s i = false) (all_indexes s).
Definition removing_of s : Removing := StorageFromVector (dropped_indexes s).

Lemma elem_of_all_indexes s i : i ∈ all_indexes s <-> (0 <= i < count s)%Z.
Proof. unfold all_indexes. rewrite elem_of_seqZ. lia. Qed.

Lemma in_range_lookup s i :
  (0 <= i < count s)%Z -> exists wr, zlookup (web_state_wrappers_ s) i = Some wr.
Proof. intros Hi. apply zlookup_lt_is_Some. exact Hi. Qed.

Lemma removing_of_wf s : WebStateListRemovingIndexes.wf (removing_of s).
Proof. apply WebStateListRemovingIndexes.wf_StorageFromVector. Qed.

Lemma elem_of_removing_of s i : i ∈ elems (removing_of s) <-> (0 <= i < count s)%Z /\ dropped s i = true.
Proof.
  unfold removing_of, dropped_indexes.
  rewrite WebStateListRemovingIndexes.elem_of_elems_StorageFromVector, list_elem_of_filter,
    elem_of_all_indexes. tauto.
Qed.

Lemma removing_of_range s : WebStateListRemovingIndexes.in_range (removing_of s) (count s).
Proof. intros i Hi. by apply elem_of_removing_of in Hi as [? _]. Qed.

Lemma Contains_removing_of s i :
  (0 <= i < count s)%Z -> Contains (removing_of s) i = dropped s i.
Proof.
  intros Hi. rewrite WebStateListRemovingIndexes.Contains_spec by apply removing_of_wf.
  destruct (dropped s i) eqn:E.
  - apply bool_decide_eq_true_2. by apply elem_of_removing_of.
  - apply bool_decide_eq_false_2. rewrite elem_of_removing_of. by intros [_ ?%not_false_iff_true].
Qed.

(** How many are kept. *)
Lemma length_filter_negb {A} (p : A -> bool) (l : list A) :
  length (filter (fun x => p x = true) l) + length (filter (fun x => p x = false) l) = length l.
Proof.
  induction l as [| a l IH]; [done|]. rewrite !filter_cons.
  destruct (p a) eqn:E; repeat case_decide; cbn [length]; try congruence; lia.
Qed.

Lemma count_removing_of s :
  (WebStateListRemovingIndexes.count (removing_of s) + Z.of_nat (length (kept_indexes s)) = count s)%Z.
Proof.
  rewrite WebStateListRemovingIndexes.count_elems.
  assert (elems (removing_of s) ≡ₚ dropped_indexes s) as ->.
  { apply NoDup_Permutation.
    - apply WebStateListRemovingIndexes.wf_NoDup, removing_of_wf.
    - apply NoDup_filter, NoDup_seqZ.
    - intros i. unfold removing_of. by rewrite WebStateListRemovingIndexes.elem_of_elems_StorageFromVector. }
  pose proof (length_filter_negb (dropped s) (all_indexes s)) as Hl.
  unfold dropped_indexes, kept_indexes. unfold all_indexes in Hl at 3. rewrite length_seqZ in Hl.
  unfold count in *. lia.
Qed.

(** ** Running on the two parts of the world *)

Lemma on_list_read {A} (m : M t A) w a :
  m (world_list w) = Ok (a, world_list w) -> on_list m w = Ok (a, w).
Proof. unfold on_list. intros ->. by destruct w. Qed.

Lemma drop_loop_ok w todo :
  (forall i, i ∈ todo -> (0 <= i < count (world_list w))%Z) ->
  drop_loop env todo w = Ok (filter (fun i => dropped (world_list w) i = true) todo, w).
Proof.
  induction todo as [| i todo IH]; intros Hr; [done|]. cbn [drop_loop].
  destruct (in_range_lookup (world_list w) i) as [wr Hw]; [apply Hr; left|].
  pose proof (zlookup_wrappers _ _ _ Hw) as Hs.
  erewrite mbind_run by (apply on_list_read; by apply GetWebStateAt_ok).
  erewrite mbind_run by (apply IH; intros; apply Hr; by right).
  assert (dropped (world_list w) i = negb (env_in_restore env (WebStateWrapper.web_state_ wr)) &&
    (env_GetNavigationItemCount env (WebStateWrapper.web_state_ wr) =? 0)%Z) as Ed
    by (unfold dropped; by rewrite Hs).
  rewrite filter_cons, <- Ed. destruct (dropped (world_list w) i); by case_decide.
Qed.

Lemma GetIndexOfWebStatesToDrop_ok w :
  GetIndexOfWebStatesToDrop env w = Ok (removing_of (world_list w), w).
Proof.
  unfold GetIndexOfWebStatesToDrop, mbind at 1, mget.
  erewrite mbind_run; [done|]. apply drop_loop_ok. intros i. rewrite elem_of_seqZ. lia.
Qed.

(** ** What is saved of a WebState *)

(** Its opener, as an index of the saved list, unless it is dropped. *)
Definition opener_target s r (wr : WebStateWrapper.t) : Z :=
  match WebStateOpener.opener (WebStateWrapper.opener_ wr) with
  | Some o => IndexAfterRemoval r (GetIndexOfWebState s (Some o))
  | None => kInvalidIndex
  end.

Definition saved_opener s r (wr : WebStateWrapper.t) : option (Z * Z) :=
  if (opener_target s r wr =? kInvalidIndex)%Z then None
  else Some (opener_target s r wr, WebStateOpener.navigation_index (WebStateWrapper.opener_ wr)).

Definition saved_data (o : option (Z * Z)) (data : CRWSessionUserData.t) : CRWSessionUserData.t :=
  match o with
  | Some (j, n) =>
      <[kOpenerNavigationIndexKey := NSNumberValue n]> (<[kOpenerIndexKey := NSNumberValue j]> data)
  | None => <[kOpenerNavigationIndexKey := NSNullValue]> (<[kOpenerIndexKey := NSNullValue]> data)
  end.

Definition saved_manager w r (wr : WebStateWrapper.t) : Manager :=
  SerializableUserDataManagerImpl.mk (saved_data (saved_opener (world_list w) r wr)
    (SerializableUserDataManagerImpl.data_ (FromWebState (WebStateWrapper.web_state_ wr) w))).

Definition saved_session w r (wr : WebStateWrapper.t) : CRWSessionStorage.t (CertCache := CertCache) :=
  with_user_data (Some (SerializableUserDataManagerImpl.data_ (saved_manager w r wr)))
    (env_session env (WebStateWrapper.web_state_ wr)).

Definition with_manager (ws : WebStateId) (manager : Manager) w : World :=
  mkWorld (world_list w) (<[ws := manager]> (managers w)).

Lemma AddSerializableData_ok ws v key w :
  key <> EmptyString ->
  on_manager ws (SerializableUserDataManagerImpl.AddSerializableData (Some v) key) w =
    Ok (tt, with_manager ws (SerializableUserDataManagerImpl.mk
      (<[key := v]> (SerializableUserDataManagerImpl.data_ (FromWebState ws w)))) w).
Proof.
  intros Hk. unfold on_manager, SerializableUserDataManagerImpl.AddSerializableData, mbind, dcheck.
  by rewrite (bool_decide_eq_false_2 (key = EmptyString)).
Qed.

Lemma FromWebState_with_manager ws manager w : FromWebState ws (with_manager ws manager w) = manager.
Proof. unfold FromWebState, with_manager. cbn [managers]. by rewrite lookup_insert_eq. Qed.

Lemma with_manager_twice ws m m' w : with_manager ws m' (with_manager ws m w) = with_manager ws m' w.
Proof. unfold with_manager. cbn [managers world_list]. by rewrite insert_insert_eq. Qed.

Lemma serialize_one_ok only r i w wr :
  wf (world_list w) -> zlookup (web_state_wrappers_ (world_list w)) i = Some wr ->
  exists e, serialize_one env only r i w =
      Ok (e, with_manager (WebStateWrapper.web_state_ wr) (saved_manager w r wr) w) /\
    entry_session e = saved_session w r wr.
Proof.
  intros Hwf Hw. pose proof (zlookup_wrappers _ _ _ Hw) as Hs. unfold serialize_one.
  erewrite mbind_run by (apply on_list_read; by apply GetWebStateAt_ok).
  erewrite mbind_run by (apply on_list_read; by apply (GetOpenerOfWebStateAt_ok _ wr)).
  unfold mbind at 1, mget. rewrite (mbind_run _ _ w (opener_target (world_list w) r wr) w).
  2:{ unfold opener_target. destruct (WebStateOpener.opener _) as [o|] eqn:Eo; [|done].
      destruct (wfw_opener _ (wf_list _ Hwf) wr o (zlookup_elem _ _ _ Hw) Eo) as [Ho _].
      destruct (GetIndexOfWebState_elem _ o (wf_nodup _ Hwf) Ho) as [Hr _].
      unfold mbind, dcheck. rewrite (proj2 (Z.eqb_neq _ kInvalidIndex)); [done|].
      unfold kInvalidIndex. lia. }
  set (ws := WebStateWrapper.web_state_ wr) in *.
  assert (forall v1 v2, (on_manager ws (SerializableUserDataManagerImpl.AddSerializableData
      (Some v1) kOpenerIndexKey) ;;;
    on_manager ws (SerializableUserDataManagerImpl.AddSerializableData
      (Some v2) kOpenerNavigationIndexKey)) w =
    Ok (tt, with_manager ws (SerializableUserDataManagerImpl.mk
      (<[kOpenerNavigationIndexKey := v2]> (<[kOpenerIndexKey := v1]>
        (SerializableUserDataManagerImpl.data_ (FromWebState ws w))))) w)) as Hadd.
  { intros v1 v2. erewrite mbind_run by by apply AddSerializableData_ok.
    rewrite AddSerializableData_ok by done. by rewrite FromWebState_with_manager, with_manager_twice. }
  rewrite (mbind_run _ _ w tt (with_manager ws (saved_manager w r wr) w)).
  - eexists. split; [reflexivity|]. cbn [entry_session]. unfold BuildSessionStorage, saved_session.
    by rewrite FromWebState_with_manager.
  - unfold saved_manager, saved_opener. destruct (opener_target _ _ _ =? kInvalidIndex)%Z; apply Hadd.
Qed.

(** ** What is saved of the list *)

Definition session_at w i : option (CRWSessionStorage.t (CertCache := CertCache)) :=
  saved_session w (removing_of (world_list w)) <$> zlookup (web_state_wrappers_ (world_list w)) i.

Lemma session_at_other w i j ws m :
  wf (world_list w) -> i <> j -> zlookup (web_states (world_list w)) i = Some ws ->
  session_at (with_manager ws m w) j = session_at w j.
Proof.
  intros Hwf Hne Hs. unfold session_at. cbn [with_manager world_list].
  destruct (zlookup (web_state_wrappers_ (world_list w)) j) as [wr|] eqn:Hw; [|done].
  cbn. f_equal. unfold saved_session, saved_manager, FromWebState. cbn [with_manager world_list managers].
  rewrite lookup_insert_ne; [done|]. intros E. apply Hne.
  eapply (zlookup_inj _ _ _ ws); [by apply wf_nodup|done|]. rewrite E. by apply zlookup_wrappers.
Qed.

Lemma serialize_loop_ok only todo w :
  wf (world_list w) -> NoDup todo -> (forall i, i ∈ todo -> (0 <= i < count (world_list w))%Z) ->
  exists entries w', serialize_loop env only (removing_of (world_list w)) todo w = Ok (entries, w') /\
    world_list w' = world_list w /\
    entry_session <$> entries =
      omap (session_at w) (filter (fun i => dropped (world_list w) i = false) todo).
Proof.
  intros Hwf Hnd. revert w Hwf. induction Hnd as [| i todo Hi Hnd IH]; intros w Hwf Hr; [by exists [], w|].
  assert (0 <= i < count (world_list w))%Z as Hir by (apply Hr; left).
  cbn [serialize_loop]. rewrite Contains_removing_of, filter_cons by done.
  destruct (dropped (world_list w) i) eqn:Ed; case_decide; try congruence.
  { apply IH; [done|]. intros j Hj. apply Hr. by right. }
  destruct (in_range_lookup (world_list w) i Hir) as [wr Hw].
  destruct (serialize_one_ok only (removing_of (world_list w)) i w wr Hwf Hw) as (e & He & Hes).
  erewrite mbind_run by exact He. set (w1 := with_manager _ _ w) in *.
  destruct (IH w1) as (entries & w' & Hl & Hw' & Hse); [done|intros; apply Hr; by right|].
  change (world_list w1) with (world_list w) in *. erewrite mbind_run by exact Hl.
  exists (e :: entries), w'. split_and!; [done..|]. rewrite fmap_cons, Hse, Hes.
  cbn [omap list_omap]. unfold session_at at 2. rewrite Hw. cbn. f_equal.
  apply list_omap_ext, Forall_Forall2_diag, Forall_forall. intros j Hj.
  apply (session_at_other w i); [done| |by apply zlookup_wrappers].
  apply list_elem_of_filter in Hj as [_ Hj]. by intros ->.
Qed.

(** The selection that is saved. *)
Definition saved_selection s : Z :=
  match kept_indexes s with
  | [] => NSNotFound
  | _ => WebStateListOrderController.new_active_ref s (active_index_ s) (removing_of s)
  end.

Lemma length_session_at w l :
  (forall i, i ∈ l -> (0 <= i < count (world_list w))%Z) -> length (omap (session_at w) l) = length l.
Proof.
  induction l as [| i l IH]; intros Hr; [done|]. cbn [omap list_omap].
  destruct (in_range_lookup (world_list w) i) as [wr Hw]; [apply Hr; left|].
  unfold session_at at 1. rewrite Hw. cbn [fmap option_fmap option_map length].
  f_equal. apply IH. intros j Hj. apply Hr. by right.
Qed.

Lemma kept_in_range s i : i ∈ kept_indexes s -> (0 <= i < count s)%Z.
Proof. intros [_ Hi]%list_elem_of_filter. by apply elem_of_all_indexes. Qed.

(** The window is made of the sessions of the kept WebStates. *)
Lemma SerializeWebStateList_run only w :
  wf (world_list w) ->
  let s := world_list w in
  let a := WebStateListOrderController.new_active_ref s (active_index_ s) (removing_of s) in
  exists summary contents w', world_list w' = s /\
    SerializeWebStateList env only w =
      (if SessionWindowIOS.IsIndexValidForSessionCount
            (if negb (a =? kInvalidIndex)%Z then a else NSNotFound) (Z.of_nat (length (kept_indexes s)))
       then Ok (SessionWindowIOS.mk (omap (session_at w) (kept_indexes s)) summary contents
                  (if negb (a =? kInvalidIndex)%Z then a else NSNotFound), w')
       else Fault DCheckFailed).
Proof.
  intros Hwf s a. unfold SerializeWebStateList.
  erewrite mbind_run by apply GetIndexOfWebStatesToDrop_ok.
  rewrite (mbind_run _ _ w w w) by done.
  destruct (serialize_loop_ok only (all_indexes s) w Hwf) as (entries & w' & Hl & Hw' & He);
    [apply NoDup_seqZ|by intros; apply elem_of_all_indexes|].
  erewrite mbind_run by exact Hl. rewrite (mbind_run _ _ w' w' w') by done. rewrite Hw'.
  rewrite (mbind_run _ _ w' a w').
  2:{ apply on_list_read. rewrite Hw'. apply WebStateListOrderController.DetermineNewActiveIndex_eq.
      - apply removing_of_wf. - apply removing_of_range. - apply wf_active, Hwf. }
  exists (if env_ShouldSaveSessionTabsToSeparateFiles env then Some (entry_summary <$> entries) else None),
    (if env_ShouldSaveSessionTabsToSeparateFiles env then Some (tab_contents entries) else None), w'.
  split; [done|]. fold (kept_indexes s) in He. unfold SessionWindowIOS.initWithSessions.
  rewrite He, length_session_at by apply kept_in_range. unfold mbind at 1, dcheck at 1.
  destruct (SessionWindowIOS.IsIndexValidForSessionCount _ _); [|done].
  apply (f_equal length) in He. rewrite length_fmap, length_session_at in He by apply kept_in_range.
  unfold mbind, dcheck. destruct (env_ShouldSaveSessionTabsToSeparateFiles env); [|done].
  by rewrite bool_decide_eq_true_2 by (by rewrite length_fmap).
Qed.

(** When the selection is valid. *)
Lemma saved_selection_valid s :
  wf s -> (count s <= INT_MAX)%Z ->
  let a := WebStateListOrderController.new_active_ref s (active_index_ s) (removing_of s) in
  let selected := if negb (a =? kInvalidIndex)%Z then a else NSNotFound in
  let valid := SessionWindowIOS.IsIndexValidForSessionCount selected
                 (Z.of_nat (length (kept_indexes s))) in
  if bool_decide (kept_indexes s <> [] /\ active_index_ s = kInvalidIndex) then valid = false
  else valid = true /\ selected = saved_selection s.
Proof.
  intros Hwf Hmax. cbv zeta. pose proof (count_removing_of s) as Hc.
  unfold saved_selection, SessionWindowIOS.IsIndexValidForSessionCount.
  destruct (wf_active _ Hwf) as [Ha|Ha].
  - assert (WebStateListOrderController.new_active_ref s (active_index_ s) (removing_of s) = kInvalidIndex)
      as -> by (unfold WebStateListOrderController.new_active_ref; by rewrite Ha).
    change (kInvalidIndex =? kInvalidIndex)%Z with true. rewrite Ha. cbn [negb].
    destruct (kept_indexes s) as [|k l] eqn:Ek.
    + by rewrite bool_decide_eq_false_2 by (by intros [? _]).
    + rewrite bool_decide_eq_true_2 by done. rewrite (proj2 (Z.eqb_neq (Z.of_nat (length (k :: l))) 0)) by (cbn [length]; lia).
      apply Z.ltb_ge. unfold NSNotFound, INT_MAX, count in *. cbn [length] in *. 
      pose proof (WebStateListRemovingIndexes.count_elems (removing_of s)). lia.
  - rewrite bool_decide_eq_false_2 by (unfold kInvalidIndex; intros [_ ?]; lia).
    destruct (kept_indexes s) as [|k l] eqn:Ek.
    + cbn [length] in Hc. unfold WebStateListOrderController.new_active_ref.
      rewrite (proj2 (Z.eqb_eq (count s) _)) by lia. by destruct (active_index_ s =? kInvalidIndex)%Z.
    + assert (count s <> WebStateListRemovingIndexes.count (removing_of s)) as Hne
        by (cbn [length] in Hc; lia).
      pose proof (WebStateListOrderController.new_active_ref_bounds s (active_index_ s) (removing_of s)
        Hwf (removing_of_wf s) (removing_of_range s) Ha Hne) as Hb.
      rewrite (proj2 (Z.eqb_neq _ kInvalidIndex)) by (unfold kInvalidIndex; lia). cbn [negb].
      split; [|done]. rewrite (proj2 (Z.eqb_neq (Z.of_nat (length (k :: l))) 0)) by (cbn [length]; lia). apply Z.ltb_lt. lia.
Qed.

(** A selection is not negative. *)
Lemma saved_selection_range s :
  wf s -> (kept_indexes s <> [] -> active_index_ s <> kInvalidIndex) -> (0 <= saved_selection s)%Z.
Proof.
  intros Hwf Ha. unfold saved_selection. destruct (kept_indexes s) as [|k l] eqn:Ek; [done|].
  destruct (wf_active _ Hwf) as [?|Hi]; [by destruct Ha|].
  pose proof (count_removing_of s) as Hc. rewrite Ek in Hc. cbn [length] in Hc.
  apply WebStateListOrderController.new_active_ref_bounds; [done|apply removing_of_wf|apply removing_of_range|done|lia].
Qed.

Lemma Serialize_ok only w :
  wf (world_list w) -> (count (world_list w) <= INT_MAX)%Z ->
  let s := world_list w in
  if bool_decide (kept_indexes s <> [] /\ active_index_ s = kInvalidIndex)
  then SerializeWebStateList env only w = Fault DCheckFailed
  else exists window w', SerializeWebStateList env only w = Ok (window, w') /\
    world_list w' = s /\
    SessionWindowIOS.sessions window = omap (session_at w) (kept_indexes s) /\
    length (SessionWindowIOS.sessions window) = length (kept_indexes s) /\
    SessionWindowIOS.selectedIndex window = saved_selection s /\
    SessionWindowIOS.valid window = true.
Proof.
  intros Hwf Hmax s.
  destruct (SerializeWebStateList_run only w Hwf) as (summary & contents & w' & Hw' & ->).
  fold s. pose proof (saved_selection_valid s Hwf Hmax) as Hv. cbv zeta in Hv.
  case_bool_decide as Hc; [by rewrite Hv|]. destruct Hv as [Hv Hs]. rewrite Hv. rewrite Hs in *.
  eexists _, w'. split; [reflexivity|]. unfold SessionWindowIOS.valid.
  cbn [SessionWindowIOS.sessions SessionWindowIOS.selectedIndex].
  rewrite length_session_at by apply kept_in_range. done.
Qed.

(** [SerializeWebStateList] leaves the list as it is and saves, in order,
    the sessions of the WebStates that have a history or are being restored,
    each with its opener as an index of the saved list when the opener is saved
    too; the saved selection is the WebState that would become active if the
    others were closed. But when WebStates are saved and none is active, the
    DCHECK of the designated initializer of the window fails. *)
Theorem SerializeWebStateList_correct only w :
  wf (world_list w) -> (count (world_list w) <= INT_MAX)%Z ->
  let s := world_list w in
  if bool_decide (kept_indexes s <> [] /\ active_index_ s = kInvalidIndex)
  then SerializeWebStateList env only w = Fault DCheckFailed
  else exists window w', SerializeWebStateList env only w = Ok (window, w') /\
    world_list w' = s /\
    SessionWindowIOS.sessions window = omap (session_at w) (kept_indexes s) /\
    length (SessionWindowIOS.sessions window) = length (kept_indexes s) /\
    SessionWindowIOS.selectedIndex window = saved_selection s /\
    SessionWindowIOS.valid window = true.
Proof. apply Serialize_ok. Qed.

End Serialize.
End SerializationProofs.
