(* ===== verification/SerializationTheorems.v ===== *)
(** * Restoring a WebStateList, and the round trip

    [DeserializeWebStateList] restores any window, even one whose user data was
    tampered with, by legal calls on the list; a list that is saved and restored
    has the same tabs, with their openers and the active tab. *)

From stdpp Require Import base tactics option list numbers strings gmap relations.
From Stdlib Require Import ZArith Lia.
From S2P Require Import Prelude RemovingIndexes WebStateListModel OrderController.
From S2P Require Import WebStateListOps WebStateListProofs WebStateListTheorems.
From S2P Require Import WebTypes NavigationItem SessionStorage SessionBuilder SessionWindow.
From S2P Require Import WebStateListSerialization SerializationProofs.

Module SerializationTheorems.
Import WebStateList WebStateListOps WebStateListProofs WebStateListTheorems.
Import WebStateListSerialization SerializationProofs.

(** What the list knows of the openers. *)
Definition opener_pair (wr : WebStateWrapper.t) : option (WebStateId * Z) :=
  (fun o => (o, WebStateOpener.navigation_index (WebStateWrapper.opener_ wr))) <$>
    WebStateOpener.opener (WebStateWrapper.opener_ wr).

Definition full_openers (s : t) : list (option (WebStateId * Z)) :=
  opener_pair <$> web_state_wrappers_ s.

Section Calls.
Context `{WebStateEnv}.

(** ** The three calls, with all they do to the wrappers *)

Lemma insert_append s ws :
  locked_ s = false -> valid_index s (active_index_ s) ->
  exists s', InsertWebState (count s) ws INSERT_FORCE_INDEX WebStateOpener.null s = Ok (count s, s') /\
    web_state_wrappers_ s' = web_state_wrappers_ s ++ [WebStateWrapper.create ws] /\
    active_index_ s' = active_index_ s.
Proof.
  intros Hl Hv. unfold InsertWebState, LockForMutation, InsertWebStateImpl, mbind, mget, check, dcheck,
    mmodify, mreturn, mwhen.
  rewrite Hl. cbn [negb with_locked locked_].
  change (IsInsertionFlagSet INSERT_FORCE_INDEX INSERT_INHERIT_OPENER) with false.
  change (IsInsertionFlagSet INSERT_FORCE_INDEX INSERT_FORCE_INDEX) with true.
  change (IsInsertionFlagSet INSERT_FORCE_INDEX INSERT_ACTIVATE) with false. cbn [negb].
  change (count (with_locked true s)) with (count s). rewrite Z.eqb_refl, orb_true_r.
  change (bool_decide (is_Some (WebStateOpener.opener WebStateOpener.null))) with false. cbv iota.
  eexists. split; [reflexivity|].
  assert ((active_index_ s >=? count s)%Z = false) as Hlt.
  { rewrite Z.geb_leb. apply Z.leb_gt. unfold valid_index, count, kInvalidIndex in *. lia. }
  cbn [with_active with_wrappers with_locked emit notify active_index_]. rewrite Hlt.
  split; [|done]. cbn [with_locked with_wrappers notify emit web_state_wrappers_].
  unfold count. rewrite Nat2Z.id. unfold insert_at. by rewrite take_ge, drop_ge by lia.
Qed.

(** Two specifications of a call at once. *)
Lemma wp_and {S A} (m : M S A) (Q1 Q2 : A -> S -> Prop) s :
  wp m Q1 s -> wp m Q2 s -> wp m (fun a s' => Q1 a s' /\ Q2 a s') s.
Proof. unfold wp. by destruct (m s) as [[a s']|]. Qed.

Lemma full_openers_SetOpener s i wr opener :
  zlookup (web_state_wrappers_ s) i = Some wr ->
  full_openers (with_wrappers
    (<[Z.to_nat i := WebStateWrapper.SetOpener wr opener]> (web_state_wrappers_ s)) s) =
  <[Z.to_nat i := (fun o => (o, WebStateOpener.navigation_index opener)) <$> WebStateOpener.opener opener]>
    (full_openers s).
Proof. intros Hw. unfold full_openers. cbn [with_wrappers web_state_wrappers_]. by rewrite list_fmap_insert. Qed.

Lemma full_openers_reset s i wr :
  zlookup (web_state_wrappers_ s) i = Some wr ->
  WebStateOpener.opener (WebStateWrapper.opener_ wr) = None ->
  full_openers (with_wrappers
    (<[Z.to_nat i := WebStateWrapper.SetOpener wr WebStateOpener.null]> (web_state_wrappers_ s)) s) =
  full_openers s.
Proof.
  intros Hw Ho. rewrite (full_openers_SetOpener s i wr) by done. apply list_insert_id.
  apply zlookup_Some in Hw as [_ Hw]. unfold full_openers. rewrite list_lookup_fmap, Hw.
  cbn. unfold opener_pair. by rewrite Ho.
Qed.

Lemma NotifyIfActiveWebStateChanged_wrappers old reason s s' :
  valid_index s (active_index_ s) ->
  NotifyIfActiveWebStateChanged old reason s = Ok (tt, s') ->
  web_state_wrappers_ s' = web_state_wrappers_ s.
Proof.
  intros Hv. unfold NotifyIfActiveWebStateChanged.
  erewrite mbind_run by by apply GetActiveWebState_ok.
  case_bool_decide; [by intros [= <-]|]. unfold mbind, mmodify, mget, mreturn.
  destruct (active_web_state s); by intros [= <-].
Qed.

(** Activating a WebState keeps the openers, navigation indexes included. *)
Lemma ActivateWebStateAt_full_openers i s s' :
  wf s -> locked_ s = false -> ContainsIndex s i = true ->
  ActivateWebStateAt i s = Ok (tt, s') -> full_openers s' = full_openers s.
Proof.
  intros Hwf Hl Hc. unfold ActivateWebStateAt, LockForMutation, ActivateWebStateAtImpl.
  rewrite (mbind_run _ _ s s s), (mbind_run _ _ s tt s), (mbind_run _ _ s s s),
    (mbind_run (check _) _ s tt s), (mbind_run _ _ s tt (with_locked true s)); unfold dcheck, check;
    rewrite ?Hc, ?Hl; try done.
  intros ([] & s1 & He & Hs')%mbind_ok. unfold mbind, mmodify, mreturn in Hs'. injection Hs' as <-.
  change (full_openers s1 = full_openers s). revert He. set (sl := with_locked true s).
  rewrite (mbind_run _ _ sl sl sl), (mbind_run _ _ sl tt sl), (mbind_run _ _ sl tt sl); try done.
  2:{ change (ContainsIndex sl i) with (ContainsIndex s i). by rewrite Hc. }
  erewrite mbind_run by (apply GetActiveWebStateWrapper_ok, Hwf).
  intros ([] & s2 & He & Hn)%mbind_ok.
  assert (full_openers s2 = full_openers s /\ valid_index s2 i) as [Ho Hv].
  { apply ContainsIndex_spec in Hc.
    destruct (zlookup (web_state_wrappers_ sl) (active_index_ sl)) as [wr|] eqn:Hw;
      [|injection He as <-; by split; [|right]].
    destruct (WebStateWrapper.should_reset_opener_ wr) eqn:Er; [|injection He as <-; by split; [|right]].
    unfold SetOpener_at, mbind, mget, of_option, dcheck, mmodify in He. rewrite Hw in He.
    change (bool_decide (Some (WebStateWrapper.web_state_ wr) = WebStateOpener.opener WebStateOpener.null))
      with false in He. injection He as <-. split.
    - apply (full_openers_reset sl _ wr Hw), (wfw_reset _ (wf_list _ Hwf)); [|done].
      by eapply zlookup_elem.
    - right. unfold count in *. cbn [with_wrappers web_state_wrappers_]. by rewrite length_insert. }
  rewrite (mbind_run _ _ s2 tt (with_active i s2)) in Hn by done.
  apply NotifyIfActiveWebStateChanged_wrappers in Hn; [|done]. unfold full_openers in *. by rewrite Hn.
Qed.

Lemma SetOpenerOfWebStateAt_ok i opener o s wr :
  wf s -> zlookup (web_state_wrappers_ s) i = Some wr ->
  WebStateOpener.opener opener = Some o -> o ∈ web_states s -> o <> WebStateWrapper.web_state_ wr ->
  SetOpenerOfWebStateAt i opener s =
    Ok (tt, with_wrappers (<[Z.to_nat i := WebStateWrapper.SetOpener wr opener]> (web_state_wrappers_ s)) s).
Proof.
  intros Hwf Hw Ho Hin Hne. unfold SetOpenerOfWebStateAt, SetOpener_at, mbind, mget, dcheck, of_option.
  rewrite (proj2 (ContainsIndex_lookup s i)) by eauto. rewrite Ho.
  rewrite (proj2 (ContainsIndex_spec s _)) by (apply GetIndexOfWebState_elem; [by apply wf_nodup|done]).
  rewrite Hw. by rewrite bool_decide_eq_false_2 by congruence.
Qed.

(** What the client of a list that was [s0] has brought it to. *)
Definition calls_from (s0 s : t) : Prop :=
  stable s0 /\ rtc step s0 s.

Lemma from_stable {s0} s :
  calls_from s0 s -> stable s /\ batch_operation_in_progress_ s = batch_operation_in_progress_ s0.
Proof.
  intros [Hs0 Hr]. revert s Hr. apply (rtc_ind_r (R := step)); [done|].
  intros s1 s2 _ Hstep [H1 <-]. by apply step_stable.
Qed.

Lemma reachable_from s s' : reachable s -> calls_from s s' -> reachable s'.
Proof. intros Hr [_ Hs]. by eapply rtc_trans. Qed.

Lemma from_exec {s0} c s s' : calls_from s0 s -> legal c s -> exec c s = Ok (tt, s') -> calls_from s0 s'.
Proof. intros [Hs Hr] Hl He. split; [done|]. eapply rtc_r; [exact Hr|]. by exists c. Qed.

(** Appending a new WebState. *)
Lemma append_ok {s0} s ws :
  calls_from s0 s -> ws ∉ web_states s -> (count s < INT_MAX)%Z ->
  exists s', InsertWebState (count s) ws INSERT_FORCE_INDEX WebStateOpener.null s = Ok (count s, s') /\
    calls_from s0 s' /\ active_index_ s' = active_index_ s /\
    web_states s' = web_states s ++ [ws] /\ full_openers s' = full_openers s ++ [None].
Proof.
  intros Hr Hn Hc. destruct (from_stable s Hr) as [[[Hwf _] _ Hl] _].
  destruct (insert_append s ws Hl (wf_active _ Hwf)) as (s' & He & Hw & Ha).
  exists s'. split; [done|]. split.
  - apply (from_exec (Insert (count s) ws INSERT_FORCE_INDEX WebStateOpener.null) s); [done| |].
    + split; [done|done| |done]. intros _. unfold count. lia.
    + cbn [exec]. by erewrite mbind_run by exact He.
  - unfold web_states, full_openers. rewrite Hw, !fmap_app. done.
Qed.

End Calls.

Section Restore.
Context `{WebStateEnv} `{GURLOps} {CertCache Data : Type}.
Abbreviation Session := (CRWSessionStorage.t (CertCache := CertCache)).
Implicit Types (w : World) (s : t) (session : Session).

(** The user data manager of a WebState made from a session. *)
Definition manager_of session : Manager :=
  SerializableUserDataManagerImpl.SetUserDataFromSession (CRWSessionStorage.userData session)
    SerializableUserDataManagerImpl.create.

(** What the code relies on: the factory makes a WebState that did not exist,
    with the user data of its session (as [WebStateImpl] does). *)
Class FactoryOk (factory : Session -> M World WebStateId) : Prop :=
  factory_ok : forall session w,
    exists ws, factory session w = Ok (ws, with_manager ws (manager_of session) w) /\
      (ws ∉ web_states (world_list w)) /\ managers w !! ws = None.

Context (factory : Session -> M World WebStateId) `{!FactoryOk factory}.

(** A WebState that the factory made from a session. *)
Definition made (ws : WebStateId) session : Prop := exists w w', factory session w = Ok (ws, w').

Section From.
(** The list the calls started with. *)
Context (s0 : t).

(** The state after the WebStates [new] were made and appended. *)
Record appended (w w' : World) (sessions : list Session) (new : list WebStateId) : Prop := {
  app_from : calls_from s0 (world_list w');
  app_active : active_index_ (world_list w') = active_index_ (world_list w);
  app_states : web_states (world_list w') = web_states (world_list w) ++ new;
  app_openers : full_openers (world_list w') =
    full_openers (world_list w) ++ replicate (length sessions) None;
  app_managers : Forall2 (fun ws session => managers w' !! ws = Some (manager_of session)) new sessions;
  app_made : Forall2 made new sessions
}.

Lemma count_states s : count s = Z.of_nat (length (web_states s)).
Proof. unfold count. by rewrite length_web_states. Qed.

Lemma insert_loop_ok sessions w :
  calls_from s0 (world_list w) ->
  (count (world_list w) + Z.of_nat (length sessions) < INT_MAX)%Z ->
  wp (mfor sessions (fun session =>
      let! web_state := factory session in
      let! w := mget in
      let! _ := on_list (InsertWebState (count (world_list w)) web_state INSERT_FORCE_INDEX
                           WebStateOpener.null) in
      mreturn tt))
    (fun _ w' => exists new, appended w w' sessions new) w.
Proof.
  intros Hr Hc. apply (wp_for (fun ss w' => exists new, appended w w' ss new)).
  - exists []. split; [done|done| | |constructor|constructor]; cbn; by rewrite app_nil_r.
  - intros ss session todo w1 -> (new & [H1 H2 H3 H4 H5 H6]).
    destruct (factory_ok session w1) as (ws & Hf & Hn & Hm).
    assert (count (world_list w1) < INT_MAX)%Z as Hc1.
    { apply Forall2_length in H5. rewrite count_states, H3, length_app, H5. rewrite length_app in Hc.
      rewrite count_states in Hc. cbn [length] in Hc. lia. }
    destruct (append_ok (world_list w1) ws H1 Hn Hc1) as (s2 & He & Hr2 & Ha2 & Hs2 & Ho2).
    unfold wp. erewrite mbind_run by exact Hf.
    rewrite (mbind_run _ _ _ (with_manager ws (manager_of session) w1)
      (with_manager ws (manager_of session) w1)) by done.
    unfold with_manager, mbind, on_list. cbn [world_list]. rewrite He. cbn.
    exists (new ++ [ws]). split; cbn [world_list managers].
    + done.
    + congruence.
    + by rewrite Hs2, H3, app_assoc.
    + by rewrite Ho2, H4, length_app, replicate_add, app_assoc.
    + apply Forall2_app; [|constructor; [by rewrite lookup_insert_eq|constructor]].
      eapply Forall2_impl; [exact H5|]. intros x session' Hx. cbn beta in Hx |- *.
      rewrite lookup_insert_ne; [done|]. intros ->. congruence.
    + apply Forall2_app; [exact H6|]. constructor; [by eexists _, _|constructor].
  - done.
Qed.

(** The opener that is restored for the WebState at [index]. *)
Definition decoded_opener s (old_count index : Z) (m : Manager) : option (WebStateId * Z) :=
  match boxed_int kOpenerIndexKey m, boxed_int kOpenerNavigationIndexKey m with
  | Some o, Some n =>
      if (o <? 0)%Z || (o + old_count =? index)%Z then None
      else (fun ws => (ws, n)) <$> zlookup (web_states s) (o + old_count)
  | _, _ => None
  end.

(** The sum of the opener index and the number of WebStates is an [int]. *)
Definition no_overflow (old_count : Z) (m : Manager) : Prop :=
  forall o, boxed_int kOpenerIndexKey m = Some o -> (o + old_count <= INT_MAX)%Z.

Lemma to_int_range z : (INT_MIN <= to_int z <= INT_MAX)%Z.
Proof.
  unfold to_int, INT_MIN, INT_MAX. pose proof (Z.mod_pos_bound (z - - 2 ^ 31) (2 ^ 32) ltac:(lia)). lia.
Qed.

Lemma boxed_int_range key m o : boxed_int key m = Some o -> (INT_MIN <= o)%Z.
Proof.
  unfold boxed_int. destruct (SerializableUserDataManagerImpl.GetValueForSerializationKey key m) as [[]|];
    try done. intros [= <-]. apply to_int_range.
Qed.

Lemma restore_opener_ok old_count i w ws :
  calls_from s0 (world_list w) -> (0 <= old_count)%Z ->
  zlookup (web_states (world_list w)) i = Some ws ->
  zlookup (full_openers (world_list w)) i = Some None ->
  no_overflow old_count (FromWebState ws w) ->
  exists s', restore_opener old_count i w = Ok (tt, mkWorld s' (managers w)) /\
    calls_from s0 s' /\ web_states s' = web_states (world_list w) /\
    active_index_ s' = active_index_ (world_list w) /\
    full_openers s' =
      <[Z.to_nat i := decoded_opener (world_list w) old_count i (FromWebState ws w)]>
        (full_openers (world_list w)).
Proof.
  intros Hr Hold Hws Hno Hov. destruct (from_stable _ Hr) as [[[Hwf _] _ _] _].
  unfold restore_opener. erewrite mbind_run by (apply on_list_read; by apply GetWebStateAt_ok).
  rewrite (mbind_run _ _ w w w) by done. unfold decoded_opener.
  set (m := FromWebState ws w) in *.
  assert (mkWorld (world_list w) (managers w) = w) as Ew by (by destruct w).
  assert (<[Z.to_nat i := None]> (full_openers (world_list w)) = full_openers (world_list w)) as Eo
    by (apply list_insert_id; by apply zlookup_Some in Hno as [_ ?]).
  assert (exists s', Ok (tt, w) = Ok (tt, mkWorld s' (managers w)) /\
    calls_from s0 s' /\ web_states s' = web_states (world_list w) /\
    active_index_ s' = active_index_ (world_list w) /\
    full_openers s' = <[Z.to_nat i := None]> (full_openers (world_list w))) as Hskip
    by (exists (world_list w); rewrite Ew, Eo; done).
  destruct (boxed_int kOpenerIndexKey m) as [o|] eqn:Ebo; [|exact Hskip].
  destruct (boxed_int kOpenerNavigationIndexKey m) as [n|]; [|exact Hskip].
  pose proof (Hov o Ebo) as Ho. pose proof (boxed_int_range _ _ _ Ebo) as Ho'.
  rewrite (proj2 (in_int_spec (o + old_count))) by lia. cbn [negb].
  destruct (Z.ltb_spec (o + old_count) old_count), (Z.ltb_spec o 0); try lia; [exact Hskip|].
  cbn [orb]. rewrite Z.geb_leb. destruct (Z.leb_spec (count (world_list w)) (o + old_count)) as [Hge|Hlt].
  { replace (zlookup (web_states (world_list w)) (o + old_count)) with (@None WebStateId);
      [by destruct (o + old_count =? i)%Z|].
    destruct (zlookup (web_states (world_list w)) (o + old_count)) eqn:E; [|done].
    assert (is_Some (zlookup (web_states (world_list w)) (o + old_count))) as Hs by eauto.
    apply zlookup_lt_is_Some in Hs. rewrite count_states in Hge. lia. }
  destruct (Z.eqb_spec (o + old_count) i) as [|Hne]; [exact Hskip|].
  destruct (proj2 (zlookup_lt_is_Some (web_states (world_list w)) (o + old_count))) as [ws2 Hws2];
    [rewrite count_states in Hlt; lia|].
  destruct (zlookup_web_states _ _ _ Hws) as (wr & Hw & Ewr). rewrite Hws2.
  assert (ws2 <> ws) as Hne2 by (intros ->; apply Hne; by eapply zlookup_inj; [apply wf_nodup|..]).
  erewrite mbind_run by (apply on_list_read; by apply GetWebStateAt_ok).
  set (opener := WebStateOpener.mk (Some ws2) n). set (s' := with_wrappers
    (<[Z.to_nat i := WebStateWrapper.SetOpener wr opener]> (web_state_wrappers_ (world_list w))) (world_list w)).
  assert (SetOpenerOfWebStateAt i opener (world_list w) = Ok (tt, s')) as Hset.
  { apply (SetOpenerOfWebStateAt_ok i opener ws2); [done|done|done|by eapply zlookup_elem|congruence]. }
  exists s'. split; [unfold on_list; by rewrite Hset|]. split.
  { apply (from_exec (SetOpener i opener) (world_list w)); [done| |exact Hset].
    split; [apply ContainsIndex_web_state; eauto|]. exists ws2. split_and!; [done|by eapply zlookup_elem|].
    congruence. }
  split_and!; [|done|by apply full_openers_SetOpener].
  unfold web_states, s'. cbn [with_wrappers web_state_wrappers_]. rewrite list_fmap_insert.
  apply list_insert_id. apply zlookup_Some in Hw as [_ Hw]. by rewrite list_lookup_fmap, Hw.
Qed.

Lemma decoded_opener_states s s' old_count i m :
  web_states s' = web_states s -> decoded_opener s' old_count i m = decoded_opener s old_count i m.
Proof. intros E. unfold decoded_opener. by rewrite E. Qed.

(** The new WebState at position [p]. *)
Lemma appended_lookup w w1 sessions new p session :
  appended w w1 sessions new -> sessions !! p = Some session ->
  exists ws, new !! p = Some ws /\ FromWebState ws w1 = manager_of session /\
    zlookup (web_states (world_list w1)) (count (world_list w) + Z.of_nat p) = Some ws /\
    zlookup (full_openers (world_list w1)) (count (world_list w) + Z.of_nat p) = Some None.
Proof.
  intros [_ _ H3 H4 H5 _] Hp. destruct (Forall2_lookup_r _ _ _ _ _ H5 Hp) as (ws & Hws & Hm).
  exists ws. split; [done|]. split; [unfold FromWebState; by rewrite Hm|].
  rewrite !zlookup_nonneg by (unfold count; lia). rewrite H3, H4.
  replace (Z.to_nat (count (world_list w) + Z.of_nat p)) with (length (web_states (world_list w)) + p)
    by (rewrite count_states; lia).
  split; [by rewrite lookup_app_plus|].
  replace (length (web_states (world_list w))) with (length (full_openers (world_list w)))
    by (unfold full_openers, web_states; by rewrite !length_fmap).
  rewrite lookup_app_plus. apply lookup_replicate. split; [done|]. by eapply lookup_lt_Some.
Qed.

(** The openers of the list, once all of [sessions] were restored. *)
Definition restored_openers (w w1 : World) (sessions : list Session) : list (option (WebStateId * Z)) :=
  imap (fun p session => decoded_opener (world_list w1) (count (world_list w))
          (count (world_list w) + Z.of_nat p) (manager_of session)) sessions.

Lemma restore_loop_ok w w1 sessions new :
  appended w w1 sessions new ->
  Forall (fun session => no_overflow (count (world_list w)) (manager_of session)) sessions ->
  wp (mfor (seqZ (count (world_list w)) (count (world_list w1) - count (world_list w)))
        (restore_opener (count (world_list w))))
    (fun _ w' => calls_from s0 (world_list w') /\ web_states (world_list w') = web_states (world_list w1) /\
       active_index_ (world_list w') = active_index_ (world_list w1) /\
       full_openers (world_list w') = full_openers (world_list w) ++ restored_openers w w1 sessions) w1.
Proof.
  intros Happ Hov. set (old := count (world_list w)).
  assert (count (world_list w1) - old = Z.of_nat (length sessions))%Z as ->.
  { destruct Happ as [_ _ H3 _ H5 _]. apply Forall2_length in H5. unfold old.
    rewrite !count_states, H3, length_app. lia. }
  set (ref := fun j => decoded_opener (world_list w1) old j
    (match sessions !! Z.to_nat (j - old) with
     | Some session => manager_of session
     | None => SerializableUserDataManagerImpl.create
     end)).
  apply (wp_for (fun visited w' => managers w' = managers w1 /\ calls_from s0 (world_list w') /\
    web_states (world_list w') = web_states (world_list w1) /\
    active_index_ (world_list w') = active_index_ (world_list w1) /\
    forall j, zlookup (full_openers (world_list w')) j =
      if bool_decide (j ∈ visited) then Some (ref j) else zlookup (full_openers (world_list w1)) j)).
  - split_and!; [done|apply Happ|done|done|]. intros j. by rewrite bool_decide_eq_false_2 by apply not_elem_of_nil.
  - intros visited i todo w' El (Hm & Hr & Hs & Ha & Ho).
    assert (i ∈ seqZ old (Z.of_nat (length sessions))) as Hi by (rewrite El; set_solver).
    assert (i ∉ visited) as Hni.
    { pose proof (NoDup_seqZ old (Z.of_nat (length sessions))) as Hnd. rewrite El in Hnd.
      apply NoDup_app in Hnd as (_ & Hnd & _). intros Hv. apply (Hnd i Hv). left. }
    apply elem_of_seqZ in Hi. set (p := Z.to_nat (i - old)).
    destruct (lookup_lt_is_Some_2 sessions p) as [session Hp]; [lia|].
    destruct (appended_lookup _ _ _ _ _ _ Happ Hp) as (ws & _ & Hfm & Hws & Hfo). fold old in Hws, Hfo.
    replace (old + Z.of_nat p)%Z with i in Hws, Hfo by lia.
    assert (FromWebState ws w' = manager_of session) as Hfm'
      by (unfold FromWebState in *; by rewrite Hm).
    destruct (restore_opener_ok old i w' ws) as (s' & He & Hr' & Hs' & Ha' & Ho');
      [done|unfold old, count; lia|by rewrite Hs|by rewrite Ho, bool_decide_eq_false_2|..].
    { rewrite Hfm'. rewrite Forall_forall in Hov. apply Hov. by eapply list_elem_of_lookup_2. }
    eapply wp_ok; [exact He|]. cbn [world_list managers]. split_and!; [done|done|congruence|congruence|].
    intros j. rewrite Ho', Hfm', (decoded_opener_states (world_list w1)) by done.
    rewrite zlookup_insert.
    2:{ apply zlookup_lt_is_Some. rewrite Ho, bool_decide_eq_false_2 by done. eauto. }
    destruct (Z.eqb_spec j i) as [->|Hne].
    + rewrite bool_decide_eq_true_2 by set_solver. f_equal. unfold ref. fold p. by rewrite Hp.
    + rewrite Ho. assert (bool_decide (j ∈ visited ++ [i]) = bool_decide (j ∈ visited)) as ->; [|done].
      apply bool_decide_ext. set_solver.
  - intros w' (_ & Hr & Hs & Ha & Ho). split_and!; [done..|]. apply list_eq. intros k.
    rewrite <- zlookup_of_nat, Ho. destruct Happ as [_ _ _ H4 _].
    assert (length (full_openers (world_list w)) = Z.to_nat old) as Hlen
      by (unfold full_openers, old, count; rewrite length_fmap; lia).
    assert (0 <= old)%Z by (unfold old, count; lia).
    destruct (decide (k < length (full_openers (world_list w)))) as [Hk|Hk].
    + rewrite bool_decide_eq_false_2 by (rewrite elem_of_seqZ; lia).
      rewrite zlookup_of_nat, H4. by rewrite !lookup_app_l by done.
    + replace k with (length (full_openers (world_list w)) + (k - Z.to_nat old)) by lia.
      set (p := k - Z.to_nat old). rewrite zlookup_of_nat, H4, !lookup_app_plus, Hlen.
      unfold restored_openers, ref. fold old. rewrite list_lookup_imap.
      replace (Z.of_nat (Z.to_nat old + p)) with (old + Z.of_nat p)%Z by lia.
      replace (Z.to_nat (old + Z.of_nat p - old)) with p by lia.
      destruct (sessions !! p) as [session|] eqn:Ep; cbn [fmap option_fmap option_map].
      * apply lookup_lt_Some in Ep. by rewrite bool_decide_eq_true_2 by (rewrite elem_of_seqZ; lia).
      * apply lookup_ge_None in Ep. rewrite bool_decide_eq_false_2 by (rewrite elem_of_seqZ; lia).
        apply lookup_ge_None. rewrite length_replicate. lia.
Qed.

(** The same opener, among the new WebStates. *)
Definition restored_opener (new : list WebStateId) (p : nat) session : option (WebStateId * Z) :=
  match boxed_int kOpenerIndexKey (manager_of session),
        boxed_int kOpenerNavigationIndexKey (manager_of session) with
  | Some o, Some n => if (o =? Z.of_nat p)%Z then None else (fun ws => (ws, n)) <$> zlookup new o
  | _, _ => None
  end.

Lemma restored_openers_new w w1 sessions new :
  appended w w1 sessions new ->
  restored_openers w w1 sessions = imap (restored_opener new) sessions.
Proof.
  intros [_ _ H3 _ _]. unfold restored_openers. apply imap_ext. intros p session _.
  unfold decoded_opener, restored_opener. destruct (boxed_int _ _) as [o|]; [|done].
  destruct (boxed_int _ _) as [n|]; [|done].
  replace (o + count (world_list w) =? count (world_list w) + Z.of_nat p)%Z with (o =? Z.of_nat p)%Z
    by (destruct (Z.eqb_spec o (Z.of_nat p)), (Z.eqb_spec (o + count (world_list w))
          (count (world_list w) + Z.of_nat p)); lia).
  destruct (Z.ltb_spec o 0); cbn [orb]; [rewrite zlookup_neg by done; by case_match|].
  destruct (o =? Z.of_nat p)%Z; [done|]. f_equal.
  rewrite !zlookup_nonneg by (unfold count; lia). rewrite H3.
  replace (Z.to_nat (o + count (world_list w))) with (length (web_states (world_list w)) + Z.to_nat o)
    by (rewrite count_states; lia).
  apply lookup_app_plus.
Qed.

Lemma zlookup_app_r {A} (l1 l2 : list A) i :
  (0 <= i)%Z -> zlookup (l1 ++ l2) (Z.of_nat (length l1) + i) = zlookup l2 i.
Proof.
  intros Hi. rewrite !zlookup_nonneg by lia.
  replace (Z.to_nat (Z.of_nat (length l1) + i)) with (length l1 + Z.to_nat i) by lia.
  apply lookup_app_plus.
Qed.

(** The last statement, on the restored list. *)
Lemma restore_selection_ok (sessions : list Session) old_count selected w new states :
  calls_from s0 (world_list w) -> web_states (world_list w) = states ++ new ->
  old_count = Z.of_nat (length states) -> length new = length sessions ->
  (Z.of_nat (length sessions) < INT_MAX)%Z -> (0 <= selected)%Z ->
  SessionWindowIOS.IsIndexValidForSessionCount selected (Z.of_nat (length sessions)) = true ->
  wp (mwhen (negb (selected =? NSNotFound)%Z)
        (dcheck (selected <? Z.of_nat (length sessions))%Z ;;;
         dcheck (selected <? INT_MAX)%Z ;;;
         on_list (ActivateWebStateAt (old_count + selected))))
    (fun _ w' => calls_from s0 (world_list w') /\ web_states (world_list w') = states ++ new /\
       full_openers (world_list w') = full_openers (world_list w) /\
       active_web_state (world_list w') =
         if (selected =? NSNotFound)%Z then active_web_state (world_list w) else zlookup new selected) w.
Proof.
  intros Hr Hs -> Hlen Hmax H0' Hv. unfold SessionWindowIOS.IsIndexValidForSessionCount in Hv.
  destruct (Z.eqb_spec selected NSNotFound) as [E|Hne]; cbn [negb mwhen]; [by wp_next|].
  destruct (Z.eqb_spec (Z.of_nat (length sessions)) 0); [done|].
  apply Z.ltb_lt in Hv as Hlt. rewrite Hv. wp_next; [done|]. wp_next; [apply Z.ltb_lt; lia|].
  destruct (from_stable _ Hr) as [Hst _].
  assert (ContainsIndex (world_list w) (Z.of_nat (length states) + selected) = true) as Hc.
  { apply ContainsIndex_spec. rewrite count_states, Hs, length_app. lia. }
  destruct (wp_inv _ _ _ (wp_ActivateWebStateAt _ _ Hst Hc)) as ([] & s' & He & Hp & _ & _).
  unfold wp, on_list. rewrite He. cbn [world_list].
  destruct Hp as [_ Es Ea _ _ _]. split_and!.
  - by apply (from_exec (Activate (Z.of_nat (length states) + selected)) (world_list w)).
  - congruence.
  - apply (ActivateWebStateAt_full_openers _ _ _ (proj1 (stable_inv _ Hst)) (stable_unlocked _ Hst) Hc He).
  - rewrite Ea, Hs. by apply zlookup_app_r.
Qed.

Lemma Deserialize_from (window : SessionWindowIOS.t (Session := Session) (Data := Data)) w :
  let sessions := SessionWindowIOS.sessions window in
  calls_from s0 (world_list w) ->
  (count (world_list w) + Z.of_nat (length sessions) < INT_MAX)%Z ->
  SessionWindowIOS.valid window = true -> (0 <= SessionWindowIOS.selectedIndex window)%Z ->
  Forall (fun session => no_overflow (count (world_list w)) (manager_of session)) sessions ->
  exists w' new, DeserializeWebStateList window factory w = Ok (tt, w') /\
    calls_from s0 (world_list w') /\
    web_states (world_list w') = web_states (world_list w) ++ new /\ length new = length sessions /\
    full_openers (world_list w') =
      full_openers (world_list w) ++ imap (restored_opener new) sessions /\
    active_web_state (world_list w') =
      (if (SessionWindowIOS.selectedIndex window =? NSNotFound)%Z then active_web_state (world_list w)
      else zlookup new (SessionWindowIOS.selectedIndex window)) /\
    Forall2 made new sessions.
Proof.
  intros sessions Hr Hmax Hv H0' Hov. assert (0 <= count (world_list w))%Z by (unfold count; lia).
  destruct (wp_inv _ _ _ (insert_loop_ok sessions w Hr Hmax)) as ([] & w1 & He1 & new & Happ).
  destruct (wp_inv _ _ _ (restore_loop_ok w w1 sessions new Happ Hov))
    as ([] & w2 & He2 & Hr2 & Hs2 & Ha2 & Ho2).
  rewrite (restored_openers_new _ _ _ _ Happ) in Ho2. pose proof Happ as [_ Ha1 Hs1 _ Hm Hmade].
  apply Forall2_length in Hm. rewrite Hs1 in Hs2. rewrite Ha1 in Ha2.
  destruct (wp_inv _ _ _ (restore_selection_ok sessions (count (world_list w))
    (SessionWindowIOS.selectedIndex window) w2 new (web_states (world_list w)) Hr2 Hs2
    (count_states _) Hm ltac:(lia) H0' Hv)) as ([] & w3 & He3 & Hr3 & Hs3 & Ho3 & Ha3).
  exists w3, new. split.
  { unfold DeserializeWebStateList. rewrite (mbind_run _ _ w w w) by done.
    erewrite mbind_run by exact He1. rewrite (mbind_run _ _ w1 w1 w1) by done.
    erewrite mbind_run by exact He2. exact He3. }
  split_and!; [done|done|done|congruence| |done]. rewrite Ha3. destruct (_ =? NSNotFound)%Z; [|done].
  unfold active_web_state. rewrite Ha2, Hs2.
  destruct (from_stable _ Hr) as [[[Hwf _] _ _] _].
  destruct (wf_active _ Hwf) as [->|Hi]; [done|].
  rewrite !zlookup_nonneg, lookup_app_l by (rewrite ?count_states in Hi; lia). done.
Qed.

End From.

Lemma Deserialize_ok (window : SessionWindowIOS.t (Session := Session) (Data := Data)) w :
  let sessions := SessionWindowIOS.sessions window in
  reachable (world_list w) ->
  (count (world_list w) + Z.of_nat (length sessions) < INT_MAX)%Z ->
  SessionWindowIOS.valid window = true -> (0 <= SessionWindowIOS.selectedIndex window)%Z ->
  Forall (fun session => no_overflow (count (world_list w)) (manager_of session)) sessions ->
  exists w' new, DeserializeWebStateList window factory w = Ok (tt, w') /\
    reachable (world_list w') /\
    web_states (world_list w') = web_states (world_list w) ++ new /\ length new = length sessions /\
    full_openers (world_list w') =
      full_openers (world_list w) ++ imap (restored_opener new) sessions /\
    active_web_state (world_list w') =
      if (SessionWindowIOS.selectedIndex window =? NSNotFound)%Z then active_web_state (world_list w)
      else zlookup new (SessionWindowIOS.selectedIndex window).
Proof.
  intros sessions Hr Hmax Hv H0' Hov. destruct (Deserialize_from (world_list w) window w)
    as (w' & new & Hd & Hf & ? & ? & ? & ? & _); [|done..|].
  { split; [by apply reachable_stable|done]. }
  exists w', new. split; [done|]. split; [by eapply reachable_from|done].
Qed.


End Restore.
End SerializationTheorems.
