(* ===== verification/SerializationRoundTrip.v ===== *)
(** * The round trip of a WebStateList

    A list that is saved by [SerializeWebStateList] and restored at the end of
    another one, or of the same one, by [DeserializeWebStateList]
    (src/chrome/browser/web_state_list/web_state_list_serialization.mm): the
    restored WebStates are copies of the saved ones, with the copies of their
    openers and the copy of the active one; and concrete runs of the two
    functions. *)

From stdpp Require Import base tactics option list numbers strings gmap relations.
From Stdlib Require Import ZArith Lia.
From S2P Require Import Prelude RemovingIndexes WebStateListModel OrderController.
From S2P Require Import WebStateListOps WebStateListProofs WebStateListTheorems.
From S2P Require Import WebTypes NavigationItem SessionStorage SessionBuilder SessionWindow.
From S2P Require Import WebStateListSerialization SerializationProofs SerializationTheorems.

Module SerializationRoundTrip.
Import WebStateList WebStateListOps WebStateListProofs WebStateListTheorems.
Import WebStateListSerialization SerializationProofs SerializationTheorems.
Import WebStateListRemovingIndexes(IndexAfterRemoval, survivors, remaining, elems).

(** Choosing the elements of a list by index, or by a test on the elements. *)
Lemma survivors_filter {A} (p : A -> bool) rm k (l : list A) :
  (forall i x, l !! i = Some x -> rm (k + Z.of_nat i)%Z = p x) ->
  survivors rm k l = filter (fun x => p x = false) l.
Proof.
  revert k. induction l as [| a l IH]; intros k Hrm; [done|]. cbn [survivors]. rewrite filter_cons.
  pose proof (Hrm 0 a eq_refl) as Ha. rewrite Z.add_0_r in Ha. rewrite Ha, (IH (k + 1)%Z).
  - destruct (p a); by case_decide.
  - intros i x Hx. rewrite <- (Hrm (S i) x Hx). f_equal. lia.
Qed.

Lemma zlookup_app_l {A} (l1 l2 : list A) i :
  (i < Z.of_nat (length l1))%Z -> zlookup (l1 ++ l2) i = zlookup l1 i.
Proof.
  intros Hi. destruct (Z.ltb_spec i 0); [by rewrite !zlookup_neg|].
  rewrite !zlookup_nonneg by done. apply lookup_app_l. lia.
Qed.

Lemma omap_zlookup_filter {A} (p : A -> bool) (l : list A) :
  omap (zlookup l) (filter (fun i => match zlookup l i with Some x => p x | None => false end = false)
    (seqZ 0 (Z.of_nat (length l)))) = filter (fun x => p x = false) l.
Proof.
  induction l as [| a l IH] using rev_ind; [done|].
  rewrite length_app, Nat2Z.inj_add, seqZ_app, !filter_app, omap_app, <- IH by (cbn [length]; lia).
  assert (zlookup (l ++ [a]) (Z.of_nat (length l)) = Some a) as Ha
    by (rewrite zlookup_of_nat; by apply list_lookup_middle).
  f_equal.
  - assert (forall i, i ∈ seqZ 0 (Z.of_nat (length l)) -> zlookup (l ++ [a]) i = zlookup l i) as E
      by (intros i Hi%elem_of_seqZ; apply zlookup_app_l; lia).
    revert E. generalize (seqZ 0 (Z.of_nat (length l))). induction l0 as [| i l0 IHi]; intros E; [done|].
    rewrite !filter_cons, (E i) by left. specialize (IHi ltac:(intros; apply E; by right)).
    case_decide; [|done]. cbn [omap list_omap]. rewrite (E i) by left. by rewrite IHi.
  - assert (seqZ (0 + Z.of_nat (length l)) (Z.of_nat (length [a])) = [Z.of_nat (length l)]) as ->
      by (unfold seqZ; cbn; f_equal; lia).
    rewrite !filter_cons, Ha. cbn [filter list_filter].
    case_decide; [|done]. cbn [omap list_omap]. by rewrite Ha.
Qed.

Section RoundTrip.
Context `{WebStateEnv} `{GURLOps} {CertCache Data : Type}.
Context (env : SerializationEnv (CertCache := CertCache) (Data := Data)).
Implicit Types (w : World) (s : t) (wr : WebStateWrapper.t) (new : list WebStateId).

(** ** The saved WebStates *)

(** A WebState is saved unless it has no history and is not being restored. *)
Definition unsaved (ws : WebStateId) : bool :=
  negb (env_in_restore env ws) && (env_GetNavigationItemCount env ws =? 0)%Z.

Definition saved_wrappers s : list WebStateWrapper.t :=
  filter (fun wr => unsaved (WebStateWrapper.web_state_ wr) = false) (web_state_wrappers_ s).

Definition saved_states s : list WebStateId := WebStateWrapper.web_state_ <$> saved_wrappers s.

Lemma dropped_wrappers s i :
  dropped env s i =
    match zlookup (web_state_wrappers_ s) i with
    | Some wr => unsaved (WebStateWrapper.web_state_ wr)
    | None => false
    end.
Proof. unfold dropped, web_states. rewrite zlookup_fmap. by destruct (zlookup _ i). Qed.

Lemma remaining_saved s : remaining (removing_of env s) (web_state_wrappers_ s) = saved_wrappers s.
Proof.
  apply survivors_filter. intros i wr Hw. rewrite Z.add_0_l.
  assert (dropped env s (Z.of_nat i) = unsaved (WebStateWrapper.web_state_ wr)) as Ed
    by (by rewrite dropped_wrappers, zlookup_of_nat, Hw).
  rewrite <- Ed, <- Contains_removing_of.
  - symmetry. apply WebStateListRemovingIndexes.Contains_spec, removing_of_wf.
  - apply lookup_lt_Some in Hw. unfold count. lia.
Qed.

Lemma sessions_saved w :
  omap (session_at env w) (kept_indexes env (world_list w)) =
    saved_session env w (removing_of env (world_list w)) <$> saved_wrappers (world_list w).
Proof.
  set (s := world_list w).
  set (test := fun i => match zlookup (web_state_wrappers_ s) i with
    | Some wr => unsaved (WebStateWrapper.web_state_ wr) | None => false end = false).
  assert (kept_indexes env s = filter test (seqZ 0 (Z.of_nat (length (web_state_wrappers_ s))))) as ->
    by (apply list_filter_iff; intros i; unfold test; by rewrite dropped_wrappers).
  unfold saved_wrappers. rewrite <- (omap_zlookup_filter (fun wr => unsaved (WebStateWrapper.web_state_ wr))).
  fold test. unfold session_at. fold s. generalize (filter test (seqZ 0 (Z.of_nat (length (web_state_wrappers_ s))))).
  induction l as [| i l IH]; [done|]. cbn [omap list_omap].
  destruct (zlookup (web_state_wrappers_ s) i); cbn [fmap option_fmap option_map list_fmap]; by rewrite IH.
Qed.

(** The new position of a saved WebState. *)
Lemma saved_position s wr i :
  zlookup (web_state_wrappers_ s) i = Some wr -> unsaved (WebStateWrapper.web_state_ wr) = false ->
  zlookup (saved_wrappers s) (IndexAfterRemoval (removing_of env s) i) = Some wr.
Proof.
  intros Hw Hu. rewrite <- remaining_saved.
  apply WebStateListRemovingIndexes.IndexAfterRemoval_kept; [apply removing_of_wf| |done|].
  - apply removing_of_range.
  - rewrite elem_of_removing_of, dropped_wrappers, Hw, Hu. by intros [_ ?].
Qed.

Lemma unsaved_position s wr i :
  zlookup (web_state_wrappers_ s) i = Some wr -> unsaved (WebStateWrapper.web_state_ wr) = true ->
  IndexAfterRemoval (removing_of env s) i = kInvalidIndex.
Proof.
  intros Hw Hu. apply WebStateListRemovingIndexes.IndexAfterRemoval_removed; [apply removing_of_wf|].
  rewrite elem_of_removing_of, dropped_wrappers, Hw. split; [|done].
  assert (is_Some (zlookup (web_state_wrappers_ s) i)) as Hi by eauto. by apply zlookup_lt_is_Some in Hi.
Qed.

(** ** Their copies *)

(** The WebState made from the session of [ws]. *)
Definition copy_of s new (ws : WebStateId) : option WebStateId :=
  zlookup new (IndexAfterRemoval (removing_of env s) (GetIndexOfWebState s (Some ws))).

(** The opener of the copy. *)
Definition copied_opener s new wr : option (WebStateId * Z) :=
  match opener_pair wr with
  | Some (o, n) => (fun copy => (copy, n)) <$> copy_of s new o
  | None => None
  end.

Lemma saved_wrapper_index s p wr :
  wf s -> saved_wrappers s !! p = Some wr ->
  unsaved (WebStateWrapper.web_state_ wr) = false /\
  zlookup (web_state_wrappers_ s) (GetIndexOfWebState s (Some (WebStateWrapper.web_state_ wr))) = Some wr.
Proof.
  intros Hwf Hp. apply list_elem_of_lookup_2 in Hp. apply list_elem_of_filter in Hp as [Hu Hin].
  split; [done|]. apply list_elem_of_lookup in Hin as [i Hi]. rewrite <- zlookup_of_nat in Hi.
  by rewrite (GetIndexOfWebState_member s _ (Z.of_nat i) (wf_nodup _ Hwf) (zlookup_wrappers _ _ _ Hi)).
Qed.

Lemma NoDup_saved s : wf s -> NoDup (saved_states s).
Proof.
  intros Hwf. pose proof (wf_nodup _ Hwf) as Hnd. unfold saved_states, saved_wrappers. unfold web_states in Hnd.
  induction (web_state_wrappers_ s) as [| wr l IH]; [constructor|]. rewrite fmap_cons in Hnd.
  apply NoDup_cons in Hnd as [Hn Hnd]. rewrite filter_cons. case_decide; [|by apply IH].
  rewrite fmap_cons. apply NoDup_cons. split; [|by apply IH]. intros Hin. apply Hn.
  apply list_elem_of_fmap in Hin as (wr' & -> & [_ Hin]%list_elem_of_filter). by apply list_elem_of_fmap_2.
Qed.

(** The copy is at the position the WebState had in the saved list. *)
Lemma copy_of_saved s new p wr :
  wf s -> saved_wrappers s !! p = Some wr -> copy_of s new (WebStateWrapper.web_state_ wr) = new !! p.
Proof.
  intros Hwf Hp. destruct (saved_wrapper_index s p wr Hwf Hp) as [Hu Hi].
  pose proof (saved_position s wr _ Hi Hu) as Hq. unfold copy_of.
  rewrite <- (zlookup_of_nat new p). f_equal.
  apply (zlookup_inj (saved_states s) _ _ (WebStateWrapper.web_state_ wr)); [by apply NoDup_saved|..];
    unfold saved_states; rewrite zlookup_fmap; [by rewrite Hq|by rewrite zlookup_of_nat, Hp].
Qed.

Lemma copies s new :
  wf s -> length new = length (saved_states s) -> copy_of s new <$> saved_states s = Some <$> new.
Proof.
  intros Hwf Hl. apply list_eq. intros p. rewrite !list_lookup_fmap. unfold saved_states in *.
  rewrite length_fmap in Hl. rewrite list_lookup_fmap.
  destruct (saved_wrappers s !! p) as [wr|] eqn:Hp; cbn.
  - rewrite (copy_of_saved s new p wr) by done.
    destruct (lookup_lt_is_Some_2 new p) as [x ->]; [|done]. rewrite Hl. by apply lookup_lt_Some in Hp.
  - rewrite lookup_ge_None_2; [done|]. rewrite Hl. by apply lookup_ge_None.
Qed.

Lemma copy_of_unsaved s new ws :
  wf s -> ws ∈ web_states s -> ws ∉ saved_states s -> copy_of s new ws = None.
Proof.
  intros Hwf Hin Hn. destruct (GetIndexOfWebState_elem s ws (wf_nodup _ Hwf) Hin) as [_ Hi].
  destruct (zlookup_web_states _ _ _ Hi) as (wr & Hw & <-). unfold copy_of.
  destruct (unsaved (WebStateWrapper.web_state_ wr)) eqn:Hu.
  - by rewrite (unsaved_position s wr).
  - exfalso. apply Hn, list_elem_of_fmap_2. apply list_elem_of_filter. split; [done|]. by eapply zlookup_elem.
Qed.

(** ** The openers *)

Lemma boxed_saved w r wr :
  boxed_int kOpenerIndexKey (manager_of (saved_session env w r wr)) =
    (fun x => to_int x.1) <$> saved_opener (world_list w) r wr /\
  boxed_int kOpenerNavigationIndexKey (manager_of (saved_session env w r wr)) =
    (fun x => to_int x.2) <$> saved_opener (world_list w) r wr.
Proof.
  assert (manager_of (saved_session env w r wr) = saved_manager w r wr) as -> by done.
  unfold boxed_int, SerializableUserDataManagerImpl.GetValueForSerializationKey, CRWSessionUserData.objectForKey,
    saved_manager, saved_data, CRWSessionUserData.t.
  cbn [SerializableUserDataManagerImpl.data_].
  destruct (saved_opener (world_list w) r wr) as [[j n]|];
    (split; [rewrite lookup_insert_ne by done|]; by rewrite lookup_insert_eq).
Qed.

(** The opener of a listed WebState is listed at another index. *)
Lemma opener_listed s wr o n :
  wf s -> wr ∈ web_state_wrappers_ s -> opener_pair wr = Some (o, n) ->
  WebStateOpener.opener (WebStateWrapper.opener_ wr) = Some o /\
  n = WebStateOpener.navigation_index (WebStateWrapper.opener_ wr) /\
  o <> WebStateWrapper.web_state_ wr /\
  exists wro, WebStateWrapper.web_state_ wro = o /\
    zlookup (web_state_wrappers_ s) (GetIndexOfWebState s (Some o)) = Some wro.
Proof.
  intros Hwf Hin Ho. unfold opener_pair in Ho.
  destruct (WebStateOpener.opener _) as [o'|] eqn:Eo; [|done]. injection Ho as -> <-.
  destruct (wfw_opener _ (wf_list _ Hwf) wr o Hin Eo) as [Hol Hne]. split_and!; [done..|].
  destruct (GetIndexOfWebState_elem s o (wf_nodup _ Hwf) Hol) as [_ Hi].
  destruct (zlookup_web_states _ _ _ Hi) as (wro & Hw & E). by exists wro.
Qed.

(** The index that is saved for the opener. *)
Lemma opener_target_range s wr :
  wf s -> wr ∈ web_state_wrappers_ s ->
  (-1 <= opener_target s (removing_of env s) wr < Z.max 0 (count s))%Z.
Proof.
  intros Hwf Hin. unfold opener_target, kInvalidIndex. assert (0 <= count s)%Z by (unfold count; lia).
  destruct (WebStateOpener.opener _) as [o|] eqn:Eo; [|lia].
  destruct (wfw_opener _ (wf_list _ Hwf) wr o Hin Eo) as [Hol _].
  destruct (GetIndexOfWebState_elem s o (wf_nodup _ Hwf) Hol) as [_ Hi].
  destruct (zlookup_web_states _ _ _ Hi) as (wro & Hw & _).
  destruct (unsaved (WebStateWrapper.web_state_ wro)) eqn:Hu.
  - rewrite (unsaved_position s wro) by done. unfold kInvalidIndex. lia.
  - pose proof (saved_position s wro _ Hw Hu) as Hp.
    assert (is_Some (zlookup (saved_wrappers s) (IndexAfterRemoval (removing_of env s)
      (GetIndexOfWebState s (Some o))))) as Hp' by eauto. apply zlookup_lt_is_Some in Hp'.
    pose proof (length_filter (fun wr => unsaved (WebStateWrapper.web_state_ wr) = false)
      (web_state_wrappers_ s)) as Hl. unfold saved_wrappers in Hp'. unfold count. lia.
Qed.

Lemma restored_opener_saved w new p wr :
  let s := world_list w in
  wf s -> (count s <= INT_MAX)%Z -> saved_wrappers s !! p = Some wr ->
  in_int (WebStateOpener.navigation_index (WebStateWrapper.opener_ wr)) = true ->
  restored_opener new p (saved_session env w (removing_of env s) wr) = copied_opener s new wr.
Proof.
  intros s Hwf Hmax Hp Hn. unfold restored_opener, copied_opener.
  destruct (boxed_saved w (removing_of env s) wr) as [-> ->]. fold s.
  assert (wr ∈ web_state_wrappers_ s) as Hin
    by (apply list_elem_of_lookup_2, list_elem_of_filter in Hp; apply Hp).
  pose proof (opener_target_range s wr Hwf Hin) as Hr. assert (0 <= count s)%Z by (unfold count; lia).
  unfold saved_opener. destruct (opener_pair wr) as [[o n]|] eqn:Ho.
  2:{ unfold opener_target. unfold opener_pair in Ho. by destruct (WebStateOpener.opener _). }
  destruct (opener_listed s wr o n Hwf Hin Ho) as (Eo & -> & Hne & wro & Ewro & Hwro).
  unfold copy_of. unfold opener_target in *. rewrite Eo in *.
  destruct (Z.eqb_spec (IndexAfterRemoval (removing_of env s) (GetIndexOfWebState s (Some o))) kInvalidIndex)
    as [->|Hj]; [done|].
  cbn [fmap option_fmap option_map fst snd]. rewrite !to_int_id by (done || (apply in_int_spec; unfold kInvalidIndex, INT_MIN in *; lia)).
  destruct (Z.eqb_spec (IndexAfterRemoval (removing_of env s) (GetIndexOfWebState s (Some o))) (Z.of_nat p))
    as [E|_]; [|done].
  destruct (unsaved (WebStateWrapper.web_state_ wro)) eqn:Hu; [by rewrite (unsaved_position s wro) in Hj|].
  pose proof (saved_position s wro _ Hwro Hu) as Hq. rewrite E, zlookup_of_nat in Hq. congruence.
Qed.

(** ** The active WebState *)

Lemma kept_saved s : kept_indexes env s = [] <-> saved_states s = [].
Proof.
  set (w := mkWorld s ∅). pose proof (f_equal length (sessions_saved w)) as Hl.
  rewrite length_session_at, length_fmap in Hl by apply kept_in_range. change (world_list w) with s in Hl.
  unfold saved_states. destruct (kept_indexes env s), (saved_wrappers s); done.
Qed.

Lemma saved_selection_active s new a :
  wf s -> active_web_state s = Some a -> a ∈ saved_states s ->
  zlookup new (saved_selection env s) = copy_of s new a.
Proof.
  intros Hwf Ha Hin. unfold active_web_state in Ha.
  apply list_elem_of_fmap in Hin as (wr & -> & Hin). apply list_elem_of_lookup in Hin as [p Hp].
  destruct (saved_wrapper_index s p wr Hwf Hp) as [Hu Hi].
  assert (GetIndexOfWebState s (Some (WebStateWrapper.web_state_ wr)) = active_index_ s) as E
    by (apply GetIndexOfWebState_member; [by apply wf_nodup|done]).
  unfold copy_of. rewrite E in *. f_equal. pose proof (saved_position s wr _ Hi Hu) as Hq.
  set (i := IndexAfterRemoval (removing_of env s) (active_index_ s)) in *.
  assert (0 <= i)%Z as Hi0 by (apply zlookup_Some in Hq; tauto).
  unfold saved_selection, WebStateListOrderController.new_active_ref.
  destruct (kept_indexes env s) as [|k l] eqn:Ek.
  { apply kept_saved in Ek. unfold saved_states in Ek. by destruct (saved_wrappers s). }
  pose proof (count_removing_of env s) as Hc. rewrite Ek in Hc. cbn [length] in Hc.
  rewrite (proj2 (Z.eqb_neq (count s) _)) by lia.
  rewrite (proj2 (Z.eqb_neq (active_index_ s) kInvalidIndex)).
  2:{ apply zlookup_Some in Hi. unfold kInvalidIndex. lia. }
  cbn [WebStateListOrderController.first_kept]. fold i.
  by rewrite (proj2 (Z.eqb_neq i _)) by (unfold kInvalidIndex, WebStateListRemovingIndexes.kInvalidIndex; lia).
Qed.

Lemma selection_found (window : SessionWindowIOS.t (Session := CRWSessionStorage.t (CertCache := CertCache)) (Data := Data)) :
  SessionWindowIOS.valid window = true ->
  length (SessionWindowIOS.sessions window) <> 0 ->
  (Z.of_nat (length (SessionWindowIOS.sessions window)) < INT_MAX)%Z ->
  SessionWindowIOS.selectedIndex window <> NSNotFound.
Proof.
  unfold SessionWindowIOS.valid, SessionWindowIOS.IsIndexValidForSessionCount. intros Hv Hl Hm E.
  rewrite (proj2 (Z.eqb_neq (Z.of_nat (length (SessionWindowIOS.sessions window))) 0)) in Hv by lia.
  apply Z.ltb_lt in Hv. rewrite E in Hv. unfold NSNotFound, INT_MAX in *. lia.
Qed.

(** ** The round trip *)

Context (factory : CRWSessionStorage.t (CertCache := CertCache) -> M World WebStateId) `{!FactoryOk factory}.

Lemma no_overflow_saved w old wr :
  let s := world_list w in
  wf s -> (0 <= old)%Z -> (old + Z.of_nat (length (saved_wrappers s)) < INT_MAX)%Z ->
  (old + count s <= INT_MAX)%Z -> wr ∈ saved_wrappers s ->
  no_overflow old (manager_of (saved_session env w (removing_of env s) wr)).
Proof.
  intros s Hwf H0' Hl Hmax Hin o. destruct (boxed_saved w (removing_of env s) wr) as [-> _]. fold s.
  apply list_elem_of_filter in Hin as [_ Hin]. pose proof (opener_target_range s wr Hwf Hin) as Hr.
  assert (0 <= count s)%Z by (unfold count; lia).
  unfold saved_opener. destruct (_ =? kInvalidIndex)%Z; cbn; [done|]. intros [= <-].
  rewrite to_int_id by (apply in_int_spec; unfold INT_MIN; lia). lia.
Qed.

(** C15: a list whose active WebState is set if a WebState is saved can be saved
    and then restored at the end of any reachable list, without a failing
    DCHECK: the WebStates appended are the copies of the saved ones, in order;
    the opener of a copy is the copy of the opener, with the same navigation
    index, if the opener is saved, and there is no opener otherwise; the copy of
    the active WebState, if it is saved, becomes active. *)
Theorem serialization_roundtrip only w1 w2 :
  let s := world_list w1 in
  wf s -> (saved_states s <> [] -> active_index_ s <> kInvalidIndex) ->
  Forall (fun wr => in_int (WebStateOpener.navigation_index (WebStateWrapper.opener_ wr)) = true)
    (web_state_wrappers_ s) ->
  reachable (world_list w2) -> (count (world_list w2) + count s < INT_MAX)%Z ->
  exists window w1' w2' new,
    SerializeWebStateList env only w1 = Ok (window, w1') /\ world_list w1' = s /\
    DeserializeWebStateList window factory w2 = Ok (tt, w2') /\ reachable (world_list w2') /\
    web_states (world_list w2') = web_states (world_list w2) ++ new /\
    copy_of s new <$> saved_states s = Some <$> new /\
    (forall ws, ws ∈ web_states s -> (ws ∉ saved_states s) -> copy_of s new ws = None) /\
    full_openers (world_list w2') =
      full_openers (world_list w2) ++ (copied_opener s new <$> saved_wrappers s) /\
    (saved_states s = [] -> active_web_state (world_list w2') = active_web_state (world_list w2)) /\
    (forall a, active_web_state s = Some a -> a ∈ saved_states s ->
       active_web_state (world_list w2') = copy_of s new a).
Proof.
  intros s Hwf Hact Hnav Hr2 Hmax. assert (0 <= count (world_list w2))%Z by (unfold count; lia).
  pose proof (Serialize_ok env only w1 Hwf) as Hs. fold s in Hs. specialize (Hs ltac:(lia)).
  cbv zeta in Hs. rewrite bool_decide_eq_false_2 in Hs by (rewrite kept_saved; tauto).
  destruct Hs as (window & w1' & Hs & Hl1 & Hsess & Hlen & Hsel & Hval). rewrite sessions_saved in Hsess.
  assert (0 <= saved_selection env s)%Z as Hsel0.
  { destruct (saved_states s) eqn:E; [|apply saved_selection_range; [done|intros _; by apply Hact]].
    unfold saved_selection. by rewrite (proj2 (kept_saved s) E). }
  fold s in Hsess.
  assert (length (saved_wrappers s) <= length (web_state_wrappers_ s)) as Hle by apply length_filter.
  destruct (Deserialize_ok factory window w2) as (w2' & new & Hd & Hr & Hst & Hln & Ho & Ha); [done|..].
  { rewrite Hsess, length_fmap. unfold count in *. lia. }
  { done. }
  { by rewrite Hsel. }
  { rewrite Hsess. apply Forall_fmap, Forall_forall. intros wr Hin. apply no_overflow_saved; try done.
    all: fold s; unfold count in *; lia. }
  rewrite Hsess, length_fmap in Hln. exists window, w1', w2', new. split_and!; [done..| | | | |].
  - apply copies; [done|]. unfold saved_states. by rewrite length_fmap.
  - intros ws. by apply copy_of_unsaved.
  - rewrite Ho. f_equal. rewrite Hsess. apply list_eq. intros p.
    rewrite list_lookup_imap, !list_lookup_fmap. destruct (saved_wrappers s !! p) as [wr|] eqn:Hp; [|done].
    cbn. f_equal. apply restored_opener_saved; [done|unfold s in *; lia|done|].
    rewrite Forall_forall in Hnav. apply Hnav. apply list_elem_of_lookup_2, list_elem_of_filter in Hp. apply Hp.
  - intros E. apply kept_saved in E. rewrite Ha, Hsel. unfold saved_selection. by rewrite E.
  - intros a Hac Hin. rewrite Ha, Hsel. rewrite <- (saved_selection_active s new a) by done.
    unfold saved_states in Hin. rewrite <- Hsel, (proj2 (Z.eqb_neq _ _)); [done|].
    apply (selection_found window Hval); rewrite Hsess, length_fmap; [|unfold count in *; lia].
    destruct (saved_wrappers s); [by apply not_elem_of_nil in Hin|done].
Qed.

End RoundTrip.

(** ** Concrete runs *)

#[local] Existing Instances WebStateListOrderController.example_env ExampleGURL.ops.

(** The second of the three tabs has no history and is not saved; the third was
    opened by the first. *)
Definition example_environment : SerializationEnv (CertCache := unit) (Data := string) :=
  {| env_in_restore _ := false;
     env_GetNavigationItemCount ws := (if (ws =? 2)%positive then 0 else 1)%Z;
     env_session _ := ExampleSession.session_a;
     env_GetStableIdentifier _ := "id"; env_GetTitle _ := "title";
     env_archivedData _ := Some "data"; env_empty_data := "";
     env_ShouldSaveSessionTabsToSeparateFiles := false |}.

Definition example_list : t :=
  default create (final_state (exec_all [
    Insert 0 1%positive INSERT_ACTIVATE WebStateOpener.null;
    Insert 1 2%positive INSERT_NO_FLAGS WebStateOpener.null;
    Insert 2 3%positive (INSERT_FORCE_INDEX) (WebStateOpener.mk (Some 1%positive) 4);
    Activate 2] create)).

Definition example_world : World := mkWorld example_list ∅.
Definition other_world : World := mkWorld example_state ∅.

(** A factory: the new WebState has a new name. *)
Definition example_factory (session : CRWSessionStorage.t (CertCache := unit)) : M World WebStateId :=
  fun w =>
    let ws := fresh (dom (managers w) ∪ list_to_set (web_states (world_list w)) : gset positive) in
    Ok (ws, with_manager ws (manager_of session) w).

#[local] Instance example_factory_ok : FactoryOk example_factory.
Proof.
  intros session w. eexists. split; [reflexivity|].
  pose proof (is_fresh (dom (managers w) ∪ list_to_set (web_states (world_list w)) : gset positive)) as Hf.
  rewrite not_elem_of_union, not_elem_of_dom, elem_of_list_to_set in Hf. split; apply Hf.
Qed.

Lemma example_list_wf : wf example_list.
Proof. apply wf_b_sound. vm_compute. reflexivity. Qed.

Lemma SerializeWebStateList_correct_witness :
  exists window w', SerializeWebStateList example_environment None example_world = Ok (window, w') /\
    length (SessionWindowIOS.sessions window) = 2 /\ SessionWindowIOS.selectedIndex window = 1%Z.
Proof.
  pose proof (SerializeWebStateList_correct example_environment None example_world example_list_wf
    ltac:(by vm_compute)) as Hs. cbv zeta in Hs.
  rewrite bool_decide_eq_false_2 in Hs by (intros [_ Ha]; vm_compute in Ha; discriminate Ha).
  destruct Hs as (window & w' & Hs & _ & _ & Hl & Ha & _).
  exists window, w'. split; [exact Hs|]. rewrite Hl, Ha. by vm_compute.
Defined.

(** A window of two sessions: the second has the first as opener, the first an
    opener that is not in the window; the first is selected. *)
Definition session_with (opener : Z) : CRWSessionStorage.t (CertCache := unit) :=
  with_user_data (Some (saved_data (Some (opener, 3%Z)) CRWSessionUserData.init)) ExampleSession.session_a.

Definition example_window :
    SessionWindowIOS.t (Session := CRWSessionStorage.t (CertCache := unit)) (Data := string) :=
  SessionWindowIOS.mk [session_with 7; session_with 0] None None 0.


Lemma serialization_roundtrip_witness :
  exists window w1' w2' a b,
    SerializeWebStateList example_environment None example_world = Ok (window, w1') /\
    DeserializeWebStateList window example_factory other_world = Ok (tt, w2') /\
    web_states (world_list w2') = [1; 2; 3]%positive ++ [a; b] /\
    full_openers (world_list w2') = [None; Some (1%positive, 0%Z); None; None; Some (a, 4%Z)] /\
    active_web_state (world_list w2') = Some b.
Proof.
  destruct (serialization_roundtrip example_environment example_factory None example_world other_world
    example_list_wf) as (window & w1' & w2' & new & Hs & _ & Hd & _ & Hw & Hc & _ & Ho & _ & Ha);
    [by vm_compute|by repeat constructor|exact example_reachable|by vm_compute|].
  apply (f_equal length) in Hc as Hl. rewrite !length_fmap in Hl. vm_compute in Hl.
  destruct new as [|a [|b [|c new]]]; try discriminate Hl. exists window, w1', w2', a, b.
  split; [exact Hs|]. split; [exact Hd|]. split; [exact Hw|].
  split; [rewrite Ho; vm_compute; reflexivity|].
  rewrite (Ha 3%positive); [vm_compute; reflexivity..|]. vm_compute. right. left.
Defined.

End SerializationRoundTrip.
