(* ===== verification/SessionRestoration.v ===== *)
(** * SessionRestorationBrowserAgent

    [RestoreSessionWindow]
    (src/chrome/browser/sessions/session_restoration_browser_agent.mm): the
    sessions of a window are restored at the end of the list in one batch, those
    without history are closed again, and so is the only tab there was, when it
    shows the new tab page. The observers of the restoration are told before and
    after. *)

From stdpp Require Import base tactics option list numbers strings gmap relations.
From Stdlib Require Import ZArith Lia.
From S2P Require Import Prelude RemovingIndexes WebStateListModel OrderController.
From S2P Require Import WebStateListOps WebStateListProofs WebStateListTheorems.
From S2P Require Import WebTypes NavigationItem SessionStorage SessionBuilder SessionWindow.
From S2P Require Import WebStateListSerialization SerializationProofs SerializationTheorems.

Module SessionRestorationBrowserAgent.
Import WebStateList WebStateListOps WebStateListTheorems.
Import WebStateListSerialization SerializationProofs SerializationTheorems.

Section Code.
Context `{WebStateEnv} `{GURLOps} {CertCache Data : Type}.
Abbreviation Session := (CRWSessionStorage.t (CertCache := CertCache)).
Abbreviation Window := (SessionWindowIOS.t (Session := Session) (Data := Data)).

(** What is read of the WebStates, besides [WebStateEnv]. *)
Record RestorationEnv : Type := {
  (** [IsRealized() && GetNavigationManager()->GetPendingItem() != nullptr] *)
  env_has_pending_load : WebStateId -> bool;
  env_GetLastCommittedURL : WebStateId -> string;
  (** [GURL::is_valid] of a URL *)
  env_is_valid : string -> bool
}.
Context (env : RestorationEnv) (factory : Session -> M World WebStateId).

Definition kChromeUINewTabURL : string := "chrome://newtab/".

(** The calls of the observers of the restoration and of the helpers of the
    WebStates. *)
Inductive Notice : Type :=
| WillStartSessionRestoration
| SessionRestorationFinished (restored_web_states : list WebStateId)
| AddPlaceholderForNextNavigation (web_state : WebStateId)
| FetchFavicon (web_state : WebStateId) (page_url : string).

(** The list with the user data of its WebStates, [restoring_session_], and the
    notices, oldest first. *)
Record Agent : Type := mkAgent {
  agent_world : World;
  restoring_session_ : bool;
  notices : list Notice
}.

Definition with_restoring (v : bool) (s : Agent) : Agent := mkAgent (agent_world s) v (notices s).
Definition notice (n : Notice) (s : Agent) : Agent :=
  mkAgent (agent_world s) (restoring_session_ s) (notices s ++ [n]).

Definition on_world {A} (m : M World A) : M Agent A :=
  fun s => match m (agent_world s) with
           | Ok (a, w) => Ok (a, mkAgent w (restoring_session_ s) (notices s))
           | Fault f => Fault f
           end.

Definition agent_list (s : Agent) : WebStateList.t := world_list (agent_world s).

(** [web_state_list_->PerformBatchOperation(operation)], for an operation that
    also makes WebStates; [perform_batch_on_list] shows that it is the method of
    the list. *)
Definition perform_batch (operation : M World unit) : M World unit :=
  let! w := mget in
  on_list (dcheck (negb (batch_operation_in_progress_ (world_list w)))) ;;;
  on_list (mmodify (with_batch true)) ;;;
  on_list (mmodify (notify WillBeginBatchOperation)) ;;;
  operation ;;;
  on_list (mmodify (notify BatchOperationEnded)) ;;;
  on_list (mmodify (with_batch (batch_operation_in_progress_ (world_list w)))).

Definition IsRestoringSession (s : Agent) : bool := restoring_session_ s.

(** The first loop over the restored WebStates, from the index [old_count] on:
    those to remove and those that stay. *)
Fixpoint sort_restored (sessions : list Session) (old_count : Z) (todo : list Z)
    (web_states_to_remove restored_web_states : list WebStateId) :
    M Agent (list WebStateId * list WebStateId) :=
  match todo with
  | [] => mreturn (web_states_to_remove, restored_web_states)
  | index :: todo' =>
      let! web_state := on_world (on_list (GetWebStateAt index)) in
      let! session := of_option (zlookup sessions (index - old_count)) in
      if (Z.of_nat (length (CRWSessionStorage.itemStorages session)) =? 0)%Z
      then sort_restored sessions old_count todo' (web_states_to_remove ++ [web_state]) restored_web_states
      else
        let visible_url := env_visible_url web_state in
        mwhen (negb (bool_decide (visible_url = kChromeUINewTabURL)))
          (mmodify (notice (AddPlaceholderForNextNavigation web_state))) ;;;
        mwhen (env_is_valid env visible_url)
          (mmodify (notice (FetchFavicon web_state visible_url))) ;;;
        sort_restored sessions old_count todo' web_states_to_remove (restored_web_states ++ [web_state])
  end.

(** The body of the second loop. *)
Definition remove_web_state (web_state : WebStateId) : M Agent unit :=
  let! s := mget in
  let index := GetIndexOfWebState (agent_list s) (Some web_state) in
  dcheck (negb (index =? kInvalidIndex)%Z) ;;;
  on_world (on_list (CloseWebStateAt index CLOSE_NO_FLAGS)).

(** The last part: the only tab there was is closed if it shows the new tab page. *)
Definition close_ntp_tab (old_count : Z) : M Agent bool :=
  if (old_count =? 1)%Z then
    let! web_state := on_world (on_list (GetWebStateAt 0)) in
    let hasPendingLoad := env_has_pending_load env web_state in
    if negb hasPendingLoad && bool_decide (env_GetLastCommittedURL env web_state = kChromeUINewTabURL)
    then on_world (on_list (CloseWebStateAt 0 CLOSE_USER_ACTION)) ;;; mreturn true
    else mreturn false
  else mreturn false.

(** None is a null window. *)
Definition RestoreSessionWindow (window : option Window) : M Agent bool :=
  match window with
  | None => mreturn false
  | Some window =>
      let sessions := SessionWindowIOS.sessions window in
      if (Z.of_nat (length sessions) =? 0)%Z then mreturn false else
      mmodify (with_restoring true) ;;;
      mmodify (notice WillStartSessionRestoration) ;;;
      let! s := mget in
      let old_count := count (agent_list s) in
      dcheck (0 <=? old_count)%Z ;;;
      on_world (perform_batch (DeserializeWebStateList window factory)) ;;;
      let! s := mget in
      dcheck (old_count <? count (agent_list s))%Z ;;;
      let restored_count := (count (agent_list s) - old_count)%Z in
      dcheck (Z.of_nat (length sessions) =? restored_count)%Z ;;;
      let! sorted := sort_restored sessions old_count
        (seqZ old_count (count (agent_list s) - old_count)) [] [] in
      mfor (fst sorted) remove_web_state ;;;
      let! closed_ntp_tab := close_ntp_tab old_count in
      mmodify (notice (SessionRestorationFinished (snd sorted))) ;;;
      mmodify (with_restoring false) ;;;
      mreturn closed_ntp_tab
  end.

End Code.
End SessionRestorationBrowserAgent.
