(* ===== verification/SessionRestorationTheorems.v ===== *)
(** * SessionRestorationBrowserAgent: the theorem

    Restoring a window never fails, does what the header of the class promises
    to the list, and brackets it by the two notifications. *)

From stdpp Require Import base tactics option list numbers strings gmap relations.
From Stdlib Require Import ZArith Lia.
From S2P Require Import Prelude RemovingIndexes WebStateListModel OrderController.
From S2P Require Import WebStateListOps WebStateListProofs WebStateListTheorems.
From S2P Require Import WebTypes NavigationItem SessionStorage SessionBuilder SessionWindow.
From S2P Require Import WebStateListSerialization SerializationProofs SerializationTheorems.
From S2P Require Import SerializationRoundTrip SessionRestoration WebStateListTracking SessionMetrics SessionMetricsTheorems.

Module SessionRestorationTheorems.
Import WebStateList WebStateListOps WebStateListProofs WebStateListTheorems.
Import WebStateListSerialization SerializationProofs SerializationTheorems.
Import SessionRestorationBrowserAgent.

Section Calls.
Context `{WebStateEnv}.

(** ** A batch is one call *)

Lemma perform_batch_on_list (m : M t unit) w :
  perform_batch (on_list m) w = on_list (WebStateListOps.PerformBatchOperation (Some m)) w.
Proof.
  destruct w as [s ms]. unfold perform_batch, WebStateListOps.PerformBatchOperation, on_list, mbind, mget,
    mmodify, dcheck. cbn [world_list managers].
  destruct (negb (batch_operation_in_progress_ s)); [|done]. cbn [world_list managers].
  by destruct (m _) as [[[] s2]|].
Qed.

(** The calls of a client, as a list. *)
Lemma rtc_calls s s' :
  rtc step s s' -> exists calls, legal_all calls s /\ exec_all calls s = Ok (tt, s').
Proof.
  induction 1 as [s|s s1 s' (c & Hl & He) _ (calls & Hls & Hes)]; [by exists []|].
  exists (c :: calls). cbn [legal_all exec_all]. rewrite (mbind_run _ _ _ _ _ He).
  split; [|done]. split; [done|]. intros s2 He2. rewrite He in He2. by injection He2 as <-.
Qed.

Lemma batch_step s s2 :
  batch_operation_in_progress_ s = false ->
  rtc step (notify WillBeginBatchOperation (with_batch true s)) s2 ->
  step s (with_batch false (notify BatchOperationEnded s2)).
Proof.
  intros Hb (calls & Hl & He)%rtc_calls. exists (Batch calls). split; [by split|].
  change (exec (Batch calls)) with (WebStateListOps.PerformBatchOperation (Some (exec_all calls))).
  unfold WebStateListOps.PerformBatchOperation, mbind at 1 2 3 4, mget, dcheck, mmodify. rewrite Hb.
  cbn [negb]. unfold mbind. by rewrite He.
Qed.

Lemma stable_batch s :
  stable s -> stable (notify WillBeginBatchOperation (with_batch true s)).
Proof.
  intros [Hi Hs Hl]. split; [|by unfold synced; rewrite mirror_notify|done].
  apply inv_notify; [by apply (inv_flags s)|]. intros Hwf.
  split; [by apply valid_active|done].
Qed.

Lemma close_step s i ws flags :
  reachable s -> zlookup (web_states s) i = Some ws ->
  exists s', CloseWebStateAt i flags s = Ok (tt, s') /\ step s s' /\
    web_states s' = erase_at (Z.to_nat i) (web_states s).
Proof.
  intros Hr Hws. destruct (reachable_stable s Hr) as [Hst _].
  destruct (wp_inv _ _ _ (wp_CloseWebStateAt i ws flags s Hst Hws)) as ([] & s' & He & Hp & _).
  exists s'. split; [done|]. split; [|by apply Hp]. exists (Close i flags).
  split; [|done]. cbn. apply ContainsIndex_web_state. eauto.
Qed.

End Calls.

Section Restoration.
Context `{WebStateEnv} `{GURLOps} {CertCache Data : Type}.
Abbreviation Session := (CRWSessionStorage.t (CertCache := CertCache)).
Abbreviation Window := (SessionWindowIOS.t (Session := Session) (Data := Data)).
Context (env : RestorationEnv) (factory : Session -> M World WebStateId) `{!FactoryOk factory}.

(** ** What the restoration does, in abstract *)

Definition has_items (session : Session) : bool :=
  negb (Z.of_nat (length (CRWSessionStorage.itemStorages session)) =? 0)%Z.

(** The WebStates whose session has items, and the others. *)
Definition kept (new : list WebStateId) (sessions : list Session) : list WebStateId :=
  (filter (fun p => has_items p.2 = true) (zip new sessions)).*1.
Definition dropped (new : list WebStateId) (sessions : list Session) : list WebStateId :=
  (filter (fun p => has_items p.2 = false) (zip new sessions)).*1.

(** What is asked of the helpers of a restored WebState. *)
Definition page_notices (ws : WebStateId) : list Notice :=
  (if bool_decide (env_visible_url ws = kChromeUINewTabURL) then []
   else [AddPlaceholderForNextNavigation ws]) ++
  (if env_is_valid env (env_visible_url ws) then [FetchFavicon ws (env_visible_url ws)] else []).

(** The single tab that is closed. *)
Definition lone_ntp (l : list WebStateId) : bool :=
  match l with
  | [ws] => negb (env_has_pending_load env ws) &&
            bool_decide (env_GetLastCommittedURL env ws = kChromeUINewTabURL)
  | _ => false
  end.

(** ** The parts of the code *)

Lemma batch_restore_ok (window : Window) w :
  let sessions := SessionWindowIOS.sessions window in
  reachable (world_list w) ->
  (count (world_list w) + Z.of_nat (length sessions) < INT_MAX)%Z ->
  SessionWindowIOS.valid window = true -> (0 <= SessionWindowIOS.selectedIndex window)%Z ->
  Forall (fun session => no_overflow (count (world_list w)) (manager_of session)) sessions ->
  exists w' new, perform_batch (DeserializeWebStateList window factory) w = Ok (tt, w') /\
    step (world_list w) (world_list w') /\
    web_states (world_list w') = web_states (world_list w) ++ new /\ Forall2 (made factory) new sessions.
Proof.
  intros sessions Hr Hmax Hv H0' Hov. destruct (reachable_stable _ Hr) as [Hst Hb].
  set (w1 := mkWorld (notify WillBeginBatchOperation (with_batch true (world_list w))) (managers w)).
  destruct (Deserialize_from factory (world_list w1) window w1) as (w2 & new & Hd & [_ Hs] & Hn & _ & _ & _ & Hmade);
    [by split; [apply stable_batch|]|done..|].
  exists (mkWorld (with_batch false (notify BatchOperationEnded (world_list w2))) (managers w2)), new.
  split; [|split; [by apply batch_step|done]].
  unfold perform_batch. rewrite (mbind_run mget _ _ _ _ eq_refl).
  rewrite (mbind_run _ _ w tt w) by (unfold on_list, dcheck; rewrite Hb; by destruct w).
  rewrite (mbind_run _ _ w tt (mkWorld (with_batch true (world_list w)) (managers w))) by done.
  rewrite (mbind_run _ _ _ tt w1) by done. rewrite (mbind_run _ _ _ _ _ Hd).
  unfold mbind, on_list, mmodify. cbn [world_list managers]. by rewrite Hb.
Qed.

Lemma on_world_read {A} (m : M t A) (s : Agent) a :
  m (agent_list s) = Ok (a, agent_list s) -> on_world (on_list m) s = Ok (a, s).
Proof. intros Hm. unfold on_world. rewrite (on_list_read m _ a Hm). by destruct s. Qed.

Lemma kept_cons ws new session sessions :
  kept (ws :: new) (session :: sessions) =
    if has_items session then ws :: kept new sessions else kept new sessions.
Proof.
  unfold kept. cbn [zip_with]. destruct (has_items session) eqn:E;
    [by rewrite filter_cons_True|by rewrite filter_cons_False by (cbn; congruence)].
Qed.
Lemma dropped_cons ws new session sessions :
  dropped (ws :: new) (session :: sessions) =
    if has_items session then dropped new sessions else ws :: dropped new sessions.
Proof.
  unfold dropped. cbn [zip_with]. destruct (has_items session) eqn:E;
    [by rewrite filter_cons_False by (cbn; congruence)|by rewrite filter_cons_True].
Qed.

Lemma page_notices_run ws k (s : Agent) (r : res (list WebStateId * list WebStateId * Agent)) :
  k (mkAgent (agent_world s) (restoring_session_ s) (notices s ++ page_notices ws)) = r ->
  (mwhen (negb (bool_decide (env_visible_url ws = kChromeUINewTabURL)))
     (mmodify (notice (AddPlaceholderForNextNavigation ws))) ;;;
   mwhen (env_is_valid env (env_visible_url ws))
     (mmodify (notice (FetchFavicon ws (env_visible_url ws)))) ;;; k) s = r.
Proof.
  intros <-. unfold page_notices. destruct s as [w b ns].
  destruct (bool_decide _), (env_is_valid env (env_visible_url ws)); unfold mbind, mwhen, mmodify, mreturn,
    notice; cbn; rewrite ?app_nil_r, <- ?app_assoc; done.
Qed.

Lemma sort_restored_ok old pre new (sessions all : list Session) rm stay s :
  web_states (agent_list s) = old ++ pre ++ new -> drop (length pre) all = sessions ->
  length new = length sessions ->
  sort_restored env all (Z.of_nat (length old))
    (seqZ (Z.of_nat (length old) + Z.of_nat (length pre)) (Z.of_nat (length new))) rm stay s =
  Ok ((rm ++ dropped new sessions, stay ++ kept new sessions),
      mkAgent (agent_world s) (restoring_session_ s)
        (notices s ++ (kept new sessions ≫= page_notices))).
Proof.
  revert pre sessions rm stay s. induction new as [| ws new IH]; intros pre sessions rm stay s Hl Ha Hlen.
  { destruct sessions; [|done]. change (Z.of_nat (length [])) with 0%Z. rewrite seqZ_nil by lia.
    cbn [sort_restored kept dropped zip_with filter list_filter fmap list_fmap mbind list_bind].
    rewrite !app_nil_r. by destruct s. }
  destruct sessions as [| session sessions]; [done|]. apply (f_equal pred) in Hlen as Hlen'. cbn in Hlen'.
  rewrite seqZ_cons by (cbn [length]; lia). cbn [sort_restored].
  assert (zlookup (web_states (agent_list s)) (Z.of_nat (length old) + Z.of_nat (length pre)) = Some ws) as Hws.
  { rewrite Hl, zlookup_app_r, zlookup_of_nat by lia. by rewrite list_lookup_middle. }
  rewrite (mbind_run _ _ _ _ _ (on_world_read _ s ws (GetWebStateAt_ok _ _ _ Hws))).
  replace (Z.of_nat (length old) + Z.of_nat (length pre) - Z.of_nat (length old))%Z
    with (Z.of_nat (length pre)) by lia.
  assert (all !! length pre = Some session) as Hse.
  { rewrite <- (Nat.add_0_r (length pre)), <- lookup_drop, Ha. done. }
  rewrite (mbind_run _ _ s session s) by (rewrite zlookup_of_nat, Hse; done).
  replace (Z.succ (Z.of_nat (length old) + Z.of_nat (length pre)))%Z
    with (Z.of_nat (length old) + Z.of_nat (length (pre ++ [ws])))%Z by (rewrite length_app; cbn; lia).
  replace (Z.pred (Z.of_nat (length (ws :: new)))) with (Z.of_nat (length new)) by (cbn [length]; lia).
  assert (drop (length (pre ++ [ws])) all = sessions) as Ha'.
  { rewrite length_app, <- drop_drop, Ha. done. }
  assert (web_states (agent_list s) = old ++ (pre ++ [ws]) ++ new) as Hl' by (by rewrite <- app_assoc).
  rewrite kept_cons, dropped_cons. unfold has_items. destruct (_ =? 0)%Z eqn:E; cbn [negb].
  - rewrite (IH _ _ _ _ _ Hl' Ha' Hlen'). by rewrite <- app_assoc.
  - apply page_notices_run. etransitivity; [by apply (IH (pre ++ [ws]) sessions)|].
    cbn. by rewrite <- !app_assoc.
Qed.

(** A computation on the list, as one on the agent. *)
Lemma on_world_run {A} (m : M t A) (s : Agent) a l :
  m (agent_list s) = Ok (a, l) ->
  on_world (on_list m) s =
    Ok (a, mkAgent (mkWorld l (managers (agent_world s))) (restoring_session_ s) (notices s)).
Proof. intros Hm. unfold on_world, on_list, agent_list in *. by rewrite Hm. Qed.

Lemma filter_erase_at (l wl : list WebStateId) i ws :
  NoDup wl -> wl !! i = Some ws ->
  filter (fun x => x ∉ l) (erase_at i wl) = filter (fun x => x ∉ ws :: l) wl.
Proof.
  intros Hnd (l1 & l2 & -> & <-)%split_at. rewrite erase_at_split, !filter_app.
  apply NoDup_app in Hnd as (_ & Hd & [Hx _]%NoDup_cons).
  rewrite (filter_cons_False _ ws) by (intros Hn; apply Hn; left).
  f_equal; apply filter_ext_elem; intros x Hin; rewrite not_elem_of_cons; (split; [|tauto]);
    intros Hn; (split; [|done]); intros ->; [by apply (Hd ws); [|left]|done].
Qed.

Lemma remove_all_ok (l : list WebStateId) s :
  reachable (agent_list s) -> l ⊆ web_states (agent_list s) -> NoDup l ->
  exists w', mfor l remove_web_state s = Ok (tt, mkAgent w' (restoring_session_ s) (notices s)) /\
    rtc step (agent_list s) (world_list w') /\
    web_states (world_list w') = filter (fun x => x ∉ l) (web_states (agent_list s)).
Proof.
  revert s. induction l as [| ws l IH]; intros s Hr Hsub Hnd.
  { exists (agent_world s). split; [by destruct s|]. split; [done|].
    rewrite filter_all; [done|]. intros x _. apply not_elem_of_nil. }
  apply NoDup_cons in Hnd as [Hn Hnd]. destruct (reachable_stable _ Hr) as [[[Hwf _] _ _] _].
  pose proof (wf_nodup _ Hwf) as Hnds.
  destruct (GetIndexOfWebState_elem (agent_list s) ws Hnds) as [Hi Hws]; [apply Hsub; left|].
  destruct (close_step (agent_list s) _ ws CLOSE_NO_FLAGS Hr Hws) as (l1 & He & Hstep & Hl1).
  set (s1 := mkAgent (mkWorld l1 (managers (agent_world s))) (restoring_session_ s) (notices s)).
  assert (remove_web_state ws s = Ok (tt, s1)) as E1.
  { unfold remove_web_state. rewrite (mbind_run mget _ _ _ _ eq_refl).
    rewrite (mbind_run _ _ s tt s); [by apply on_world_run|]. unfold dcheck.
    destruct (Z.eqb_spec (GetIndexOfWebState (agent_list s) (Some ws)) kInvalidIndex) as [Ez|]; [|done].
    rewrite Ez in Hi. unfold kInvalidIndex in Hi. lia. }
  apply zlookup_Some in Hws as [_ Hws].
  destruct (IH s1) as (w' & E2 & Hs2 & Hl2); [by eapply rtc_r| |done|].
  { intros x Hx. cbn. rewrite Hl1, elem_of_erase_at by done. split; [apply Hsub; by right|].
    intros ->. done. }
  exists w'. split; [cbn [mfor]; by rewrite (mbind_run _ _ _ _ _ E1)|]. split; [by eapply rtc_l|].
  rewrite Hl2. cbn [agent_list s1 agent_world world_list]. rewrite Hl1.
  by apply filter_erase_at.
Qed.

Lemma close_ntp_tab_ok old rest s :
  reachable (agent_list s) -> web_states (agent_list s) = old ++ rest ->
  exists w', close_ntp_tab env (Z.of_nat (length old)) s =
      Ok (lone_ntp old, mkAgent w' (restoring_session_ s) (notices s)) /\
    rtc step (agent_list s) (world_list w') /\
    web_states (world_list w') = (if lone_ntp old then [] else old) ++ rest.
Proof.
  intros Hr Hl. assert (forall b : bool, b = false -> mreturn b s = Ok (b, s)) as Hret by done.
  assert (mkAgent (agent_world s) (restoring_session_ s) (notices s) = s) as Es by (by destruct s).
  unfold close_ntp_tab. destruct old as [|ws [|ws2 old]].
  - exists (agent_world s). by rewrite Es.
  - change (Z.of_nat (length [ws]) =? 1)%Z with true. cbv iota.
    assert (zlookup (web_states (agent_list s)) 0 = Some ws) as Hws by (by rewrite Hl).
    rewrite (mbind_run _ _ _ _ _ (on_world_read _ s ws (GetWebStateAt_ok _ _ _ Hws))).
    cbn [lone_ntp]. destruct (negb _ && bool_decide _).
    + destruct (close_step (agent_list s) 0 ws CLOSE_USER_ACTION Hr Hws) as (l1 & He & Hstep & Hl1).
      eexists. split; [by rewrite (mbind_run _ _ _ _ _ (on_world_run _ s tt l1 He))|].
      split; [by apply rtc_once|]. cbn [world_list]. by rewrite Hl1, Hl.
    + exists (agent_world s). by rewrite Es.
  - exists (agent_world s). rewrite (proj2 (Z.eqb_neq _ 1)) by (cbn [length]; lia). by rewrite Es.
Qed.

(** ** Which WebStates stay *)

Lemma dropped_subseteq new sessions : dropped new sessions ⊆ new.
Proof.
  unfold dropped. intros x [[y session] [-> [_ Hin]%list_elem_of_filter]]%list_elem_of_fmap.
  by apply elem_of_zip_l in Hin.
Qed.

Lemma dropped_nodup new sessions : NoDup new -> NoDup (dropped new sessions).
Proof.
  intros Hnd. revert sessions. induction Hnd as [|ws new Hn Hnd IH]; intros [|session sessions];
    try apply NoDup_nil_2. rewrite dropped_cons. destruct (has_items session); [done|].
  apply NoDup_cons. split; [|done]. intros Hin. by apply Hn, (dropped_subseteq new sessions).
Qed.

Lemma filter_dropped new sessions :
  NoDup new -> length new = length sessions ->
  filter (fun x => x ∉ dropped new sessions) new = kept new sessions.
Proof.
  intros Hnd. revert sessions. induction Hnd as [|ws new Hn Hnd IH]; intros [|session sessions] Hlen; try done.
  injection Hlen as Hlen. rewrite kept_cons, dropped_cons, <- (IH _ Hlen).
  destruct (has_items session).
  - apply filter_cons_True. intros Hin. by apply Hn, (dropped_subseteq new sessions).
  - rewrite filter_cons_False by (intros Hin; apply Hin; left). apply filter_ext_elem.
    intros x Hx. rewrite not_elem_of_cons. split; [tauto|]. intros ?. split; [|done]. by intros ->.
Qed.

(** What comes after the batch: [new] are the WebStates it added. *)
Lemma finish_ok old new (sessions : list Session) s :
  reachable (agent_list s) -> web_states (agent_list s) = old ++ new -> length new = length sessions ->
  exists w', (let! sorted := sort_restored env sessions (Z.of_nat (length old))
                (seqZ (Z.of_nat (length old)) (Z.of_nat (length new))) [] [] in
              mfor (fst sorted) remove_web_state ;;;
              let! closed_ntp_tab := close_ntp_tab env (Z.of_nat (length old)) in
              mmodify (notice (SessionRestorationFinished (snd sorted))) ;;;
              mmodify (with_restoring false) ;;;
              mreturn closed_ntp_tab) s =
      Ok (lone_ntp old, mkAgent w' false
        (notices s ++ (kept new sessions ≫= page_notices) ++ [SessionRestorationFinished (kept new sessions)])) /\
    rtc step (agent_list s) (world_list w') /\
    web_states (world_list w') = (if lone_ntp old then [] else old) ++ kept new sessions.
Proof.
  intros Hr Hl Hlen. destruct (reachable_stable _ Hr) as [[[Hwf _] _ _] _].
  apply wf_nodup in Hwf as Hnd. rewrite Hl in Hnd. pose proof Hnd as (_ & Hd & Hndn)%NoDup_app.
  set (s2 := mkAgent (agent_world s) (restoring_session_ s) (notices s ++ (kept new sessions ≫= page_notices))).
  destruct (remove_all_ok (dropped new sessions) s2) as (w3 & E3 & Hs3 & Hl3);
    [done| |by apply dropped_nodup|].
  { change (agent_list s2) with (agent_list s). rewrite Hl. intros x Hx%dropped_subseteq.
    apply elem_of_app. by right. }
  change (agent_list s2) with (agent_list s) in Hl3. rewrite Hl, filter_app, filter_dropped in Hl3 by done.
  rewrite filter_all in Hl3 by (intros x Hx Hin%dropped_subseteq; by apply (Hd x)).
  destruct (close_ntp_tab_ok old (kept new sessions) (mkAgent w3 (restoring_session_ s) (notices s2)))
    as (w4 & E4 & Hs4 & Hl4); [by eapply rtc_trans|done|].
  exists w4. split; [|split; [by eapply rtc_trans|exact Hl4]].
  pose proof (sort_restored_ok old [] new sessions sessions [] [] s Hl eq_refl Hlen) as E2.
  rewrite Z.add_0_r in E2. rewrite (mbind_run _ _ _ _ _ E2). cbn [fst snd app].
  rewrite (mbind_run _ _ _ _ _ E3), (mbind_run _ _ _ _ _ E4).
  unfold mbind, mmodify, mreturn, notice, with_restoring. cbn. by rewrite <- !app_assoc.
Qed.

Lemma RestoreSessionWindow_ok (window : Window) s :
  let sessions := SessionWindowIOS.sessions window in
  let closed := lone_ntp (web_states (agent_list s)) in
  sessions <> [] -> reachable (agent_list s) ->
  (count (agent_list s) + Z.of_nat (length sessions) < INT_MAX)%Z ->
  SessionWindowIOS.valid window = true -> (0 <= SessionWindowIOS.selectedIndex window)%Z ->
  Forall (fun session => no_overflow (count (agent_list s)) (manager_of session)) sessions ->
  exists w' new, RestoreSessionWindow env factory (Some window) s =
      Ok (closed, mkAgent w' false
        (notices s ++ [WillStartSessionRestoration] ++ (kept new sessions ≫= page_notices) ++
         [SessionRestorationFinished (kept new sessions)])) /\
    Forall2 (made factory) new sessions /\ rtc step (agent_list s) (world_list w') /\
    web_states (world_list w') =
      (if closed then [] else web_states (agent_list s)) ++ kept new sessions.
Proof.
  intros sessions closed Hne Hr Hmax Hv H0' Hov.
  destruct (batch_restore_ok window (agent_world s) Hr Hmax Hv H0' Hov)
    as (w1 & new & E1 & Hstep1 & Hl1 & Hmade). fold sessions in Hmade. pose proof (Forall2_length _ _ _ Hmade) as Hlen.
  set (old := web_states (agent_list s)). change (web_states (world_list (agent_world s))) with old in Hl1.
  assert (count (agent_list s) = Z.of_nat (length old)) as Ec by apply count_states.
  assert (0 < length sessions) as Hpos by (destruct sessions; [done|cbn; lia]).
  set (s1 := mkAgent w1 true (notices s ++ [WillStartSessionRestoration])).
  assert (count (agent_list s1) = Z.of_nat (length old) + Z.of_nat (length new))%Z as Ec1
    by (change (agent_list s1) with (world_list w1); rewrite count_states, Hl1, length_app; lia).
  destruct (finish_ok old new sessions s1) as (w' & E2 & Hs & Hl); [by eapply rtc_r|done..|].
  exists w', new. split; [|split; [done|split; [by eapply rtc_l|exact Hl]]].
  unfold RestoreSessionWindow. fold sessions. rewrite (proj2 (Z.eqb_neq _ _)) by lia.
  rewrite !(mbind_run (mmodify _) _ _ tt _ eq_refl), (mbind_run mget _ _ _ _ eq_refl).
  change (agent_list (notice _ (with_restoring true s))) with (agent_list s).
  rewrite (mbind_run (dcheck _) _ _ tt _) by (unfold dcheck; by rewrite (proj2 (Z.leb_le _ _)) by lia).
  rewrite (mbind_run (on_world _) _ _ tt s1)
    by (unfold on_world; cbn [agent_world notice with_restoring]; by rewrite E1).
  rewrite (mbind_run mget _ _ _ _ eq_refl), Ec, Ec1.
  rewrite (mbind_run (dcheck _) _ _ tt _) by (unfold dcheck; by rewrite (proj2 (Z.ltb_lt _ _)) by lia).
  rewrite (mbind_run (dcheck _) _ _ tt _) by (unfold dcheck; by rewrite (proj2 (Z.eqb_eq _ _)) by lia).
  replace (Z.of_nat (length old) + Z.of_nat (length new) - Z.of_nat (length old))%Z
    with (Z.of_nat (length new)) by lia.
  rewrite E2. cbn [notices s1]. by rewrite <- !app_assoc.
Qed.

(** C9: restoring a window of sessions never fails, and the list changes by legal
    calls only: the factory makes a WebState from each session, in order, and
    those of the sessions that have items are added at the end of the list, in
    order (the others are closed), and nothing else of the list changes, except
    that a single tab that shows the new tab page and has no pending load is
    closed, and then true is returned; the observers of the restoration are told
    before and after, with the WebStates restored. *)
Theorem RestoreSessionWindow_correct (window : Window) s :
  let sessions := SessionWindowIOS.sessions window in
  let closed := lone_ntp (web_states (agent_list s)) in
  sessions <> [] -> reachable (agent_list s) ->
  (count (agent_list s) + Z.of_nat (length sessions) < INT_MAX)%Z ->
  SessionWindowIOS.valid window = true -> (0 <= SessionWindowIOS.selectedIndex window)%Z ->
  Forall (fun session => no_overflow (count (agent_list s)) (manager_of session)) sessions ->
  exists w' new, RestoreSessionWindow env factory (Some window) s =
      Ok (closed, mkAgent w' false
        (notices s ++ [WillStartSessionRestoration] ++ (kept new sessions ≫= page_notices) ++
         [SessionRestorationFinished (kept new sessions)])) /\
    Forall2 (made factory) new sessions /\ rtc step (agent_list s) (world_list w') /\
    web_states (world_list w') =
      (if closed then [] else web_states (agent_list s)) ++ kept new sessions.
Proof. apply RestoreSessionWindow_ok. Qed.

End Restoration.

(** ** The metrics of the tabs during a restoration *)

Section Metrics.
Context `{WebStateEnv}.
Import WebStateListTracking WebStateListMetricsBrowserAgent SessionMetricsTheorems.

(** The agent of [a] observes the list [l], paused; [w] reported and counted
    what [w0] did. *)
Definition paused_like (a : BrowserId) (l : WebStateList.t) (w0 w : WebStateListMetricsBrowserAgent.World) : Prop :=
  reports w = reports w0 /\ metrics w = metrics w0 /\
  exists b g, alive a b g w /\ web_state_list b = l /\ metric_collection_paused_ g = true.

Lemma notified_paused a e l w0 w w' :
  paused_like a l w0 w -> notified a e w = Ok (tt, w') -> paused_like a l w0 w'.
Proof.
  intros (Hr & Hm & b & g & (Hb & Hg & Hal) & Hl & Hp) (u & w1 & E1 & E2)%mbind_ok.
  pose proof (get_agent_run a b g w Hb Hg) as Hget.
  assert (handle a e w = Ok (tt, w)) as Eh.
  { destruct e; cbn [handle]; try done; unfold WebStateInsertedAt, WebStateDetachedAt, WebStateActivatedAt;
      rewrite (mbind_run _ _ _ _ _ Hget); by rewrite Hp. }
  rewrite Eh in E1. injection E1 as <- <-. unfold on_forwarder in E2. rewrite (mbind_run _ _ _ _ _ Hget) in E2.
  destruct (web_state_forwarder_ g) as [sources|]; [|injection E2 as <-; by repeat eexists].
  destruct (AllWebStateObservationForwarder.handle e sources) as [[[] sources']|]; [|done].
  unfold modify_agent, get_browser in E2.
  rewrite (mbind_run _ _ w b w) in E2 by (by rewrite (mbind_run mget _ _ _ _ eq_refl), Hb).
  rewrite (mbind_run _ _ w g w) in E2 by (by rewrite Hg). injection E2 as <-.
  split; [done|]. split; [done|].
  exists (with_user_data (Some (with_forwarder (Some sources') g)) b), (with_forwarder (Some sources') g).
  split; [|done]. by split; [apply lookup_insert_eq|].
Qed.

Lemma deliver_paused a effects l w0 w w' :
  paused_like a l w0 w -> deliver a effects w = Ok (tt, w') -> paused_like a l w0 w'.
Proof.
  revert w. induction effects as [|e effects IH]; intros w Hw He; [by injection He as <-|].
  destruct e; cbn [deliver] in He; try by eapply IH.
  apply mbind_ok in He as ([] & w1 & E1 & E2). eapply IH; [|exact E2]. by eapply notified_paused.
Qed.

Lemma call_paused a c l l' w0 w :
  world_ok w -> paused_like a l w0 w -> legal c l -> exec c l = Ok (tt, l') ->
  exists w', perform (CallList a c) w = Ok (tt, w') /\ world_ok w' /\ paused_like a l' w0 w'.
Proof.
  intros Hw (Hr & Hm & b & g & Ha & <- & Hp) Hc Ec.
  destruct (call_list_run a c b g w Hw Ha Hc) as (w' & E & Hw' & _). exists w'. split; [done|]. split; [done|].
  destruct Ha as (Hb & Hg & Hal). cbn [perform] in E. unfold call_list, get_browser in E.
  rewrite (mbind_run _ _ w b w) in E by (by rewrite (mbind_run mget _ _ _ _ eq_refl), Hb).
  rewrite Ec, (mbind_run (mmodify _) _ _ tt _ eq_refl), Hg, Hal in E.
  eapply deliver_paused; [|exact E]. split; [done|]. split; [done|].
  exists (with_web_state_list l' b), g. split; [|done]. by split; [apply lookup_insert_eq|].
Qed.

Lemma calls_paused a calls l l' w0 w :
  world_ok w -> paused_like a l w0 w -> legal_all calls l -> exec_all calls l = Ok (tt, l') ->
  exists w', perform_all (CallList a <$> calls) w = Ok (tt, w') /\ world_ok w' /\ paused_like a l' w0 w'.
Proof.
  revert l w. induction calls as [|c calls IH]; intros l w Hw Hp Hl He; [injection He as <-; by exists w|].
  destruct Hl as [Hc Hl]. apply mbind_ok in He as ([] & l1 & E1 & E2).
  destruct (call_paused a c l l1 w0 w Hw Hp Hc E1) as (w1 & P1 & Hw1 & Hp1).
  destruct (IH l1 w1 Hw1 Hp1 (Hl _ E1) E2) as (w2 & P2 & Hw2 & Hp2).
  exists w2. split; [|done]. unfold perform_all in *. cbn. by rewrite (mbind_run _ _ _ _ _ P1).
Qed.

Lemma perform_all_app l1 l2 w w1 :
  perform_all l1 w = Ok (tt, w1) -> perform_all (l1 ++ l2) w = perform_all l2 w1.
Proof.
  unfold perform_all. revert w. induction l1 as [|x l1 IH]; intros w E; [by injection E as <-|].
  apply mbind_ok in E as ([] & w2 & E1 & E2). cbn. rewrite (mbind_run _ _ _ _ _ E1). by apply IH.
Qed.

(** The calls between the two notifications of the restoration. *)
Lemma restoration_paused a b g l' w :
  world_ok w -> alive a b g w -> rtc step (web_state_list b) l' ->
  exists calls w', exec_all calls (web_state_list b) = Ok (tt, l') /\
    perform_all (WillRestore a :: (CallList a <$> calls) ++ [RestoreFinished a]) w = Ok (tt, w') /\
    reports w' = reports w /\ metrics w' = metrics w /\
    exists b' g', alive a b' g' w' /\ web_state_list b' = l' /\ metric_collection_paused_ g' = false.
Proof.
  intros Hw Ha (calls & Hl & He)%rtc_calls.
  destruct (perform_run (WillRestore a) w Hw) as (w1 & E1 & Hw1 & _); [by exists b, g|].
  pose proof Ha as (Hb & Hg & Hal).
  assert (w1 = with_browser a (with_user_data (Some (with_paused true g)) b) w) as Ew1.
  { cbn [perform] in E1. unfold WillStartSessionRestoration, modify_agent, get_browser in E1.
    rewrite (mbind_run _ _ w b w) in E1 by (by rewrite (mbind_run mget _ _ _ _ eq_refl), Hb).
    rewrite (mbind_run _ _ w g w) in E1 by (by rewrite Hg). by injection E1. }
  destruct (calls_paused a calls (web_state_list b) l' w w1 Hw1) as (w2 & E2 & Hw2 & Hr & Hm & b2 & g2 & Ha2 & Hl2 & Hp2);
    [|done..|].
  { rewrite Ew1. split; [done|]. split; [done|].
    exists (with_user_data (Some (with_paused true g)) b), (with_paused true g). split; [|done].
    by split; [apply lookup_insert_eq|]. }
  exists calls, (with_browser a (with_user_data (Some (with_paused false g2)) b2) w2). split; [done|].
  split; [|split; [done|split; [done|]]].
  - unfold perform_all in *. cbn [mfor]. rewrite (mbind_run _ _ _ _ _ E1).
    change (perform_all ((CallList a <$> calls) ++ [RestoreFinished a]) w1 =
      Ok (tt, with_browser a (with_user_data (Some (with_paused false g2)) b2) w2)).
    rewrite (perform_all_app _ _ _ _ E2). destruct Ha2 as (Hb2 & Hg2 & _).
    unfold perform_all. cbn [mfor perform]. unfold SessionRestorationFinished, modify_agent, get_browser.
    unfold mbind, mget, deref. by rewrite Hb2, Hg2.
  - exists (with_user_data (Some (with_paused false g2)) b2), (with_paused false g2).
    split; [|done]. split; [apply lookup_insert_eq|]. split; [done|]. apply Ha2.
Qed.

Context `{GURLOps} {CertCache Data : Type}.
Abbreviation Session := (CRWSessionStorage.t (CertCache := CertCache)).
Abbreviation Window := (SessionWindowIOS.t (Session := Session) (Data := Data)).
Context (env : RestorationEnv)
  (factory : Session -> M WebStateListSerialization.World WebStateId) `{!FactoryOk factory}.

(** C13: the metrics of the tabs do not count a restoration: whatever the browsers
    did before, the calls that [RestoreSessionWindow] makes on the list of a
    browser, between the two notifications, report nothing and change no counter,
    and afterwards the metrics agent observes the restored list and counts again. *)
Theorem restoration_counts_nothing (window : Window) s actions w a b g :
  let sessions := SessionWindowIOS.sessions window in
  sessions <> [] -> reachable (agent_list s) ->
  (count (agent_list s) + Z.of_nat (length sessions) < INT_MAX)%Z ->
  SessionWindowIOS.valid window = true -> (0 <= SessionWindowIOS.selectedIndex window)%Z ->
  Forall (fun session => no_overflow (count (agent_list s)) (manager_of session)) sessions ->
  all_possible actions empty_world -> perform_all actions empty_world = Ok (tt, w) ->
  alive a b g w -> web_state_list b = agent_list s ->
  exists s' calls w', RestoreSessionWindow env factory (Some window) s =
      Ok (lone_ntp env (web_states (agent_list s)), s') /\
    exec_all calls (agent_list s) = Ok (tt, agent_list s') /\
    perform_all (WillRestore a :: (CallList a <$> calls) ++ [RestoreFinished a]) w = Ok (tt, w') /\
    reports w' = reports w /\ metrics w' = metrics w /\
    exists b' g', alive a b' g' w' /\ web_state_list b' = agent_list s' /\
      metric_collection_paused_ g' = false.
Proof.
  intros sessions Hne Hr Hmax Hv H0' Hov Hact Hw Ha Hl.
  destruct (RestoreSessionWindow_ok env factory window s Hne Hr Hmax Hv H0' Hov)
    as (w1 & new & E & _ & Hs & _).
  destruct (perform_all_run actions empty_world empty_world_ok Hact) as (w2 & E2 & Hok & _).
  rewrite Hw in E2. injection E2 as <-. rewrite <- Hl in Hs.
  destruct (restoration_paused a b g _ w Hok Ha Hs) as (calls & w' & Hc & Hp & Hres).
  rewrite Hl in Hc.
  eexists _, calls, w'. split; [exact E|]. split; [exact Hc|]. split; [exact Hp|exact Hres].
Qed.

End Metrics.
End SessionRestorationTheorems.

(** ** Examples *)

Module ExampleRestoration.
Import WebStateList WebStateListOps WebStateListTheorems WebStateListSerialization SerializationTheorems.
Import SerializationRoundTrip SessionRestorationBrowserAgent SessionRestorationTheorems.
Import WebStateListMetricsBrowserAgent SessionMetricsTheorems ExampleSessionMetrics.

#[local] Existing Instances WebStateListOrderController.example_env ExampleGURL.ops example_factory_ok.

(** A session with an item, and one without. *)
Definition session_of (n : nat) : CRWSessionStorage.t (CertCache := unit) :=
  CRWSessionStorage.mk false (Z.of_nat n - 1) (replicate n ExampleSession.storage_a) None None
    UserAgent.MOBILE "id" 0.

Definition window : SessionWindowIOS.t (Session := CRWSessionStorage.t (CertCache := unit)) (Data := string) :=
  SessionWindowIOS.mk [session_of 1; session_of 0; session_of 1] None None 1.

(** The only tab shows the new tab page. *)
Definition ntp_env : RestorationEnv :=
  {| env_has_pending_load _ := false;
     env_GetLastCommittedURL ws := (if (ws =? 7)%positive then kChromeUINewTabURL else "")%string;
     env_is_valid _ := true |}.

Definition ntp_calls : list Call := [Insert 0 7%positive INSERT_ACTIVATE WebStateOpener.null].
Definition ntp_list : t := default create (final_state (exec_all ntp_calls create)).

Lemma ntp_reachable : reachable ntp_list.
Proof.
  eapply rtc_l; [apply (example_step (Insert 0 7%positive INSERT_ACTIVATE WebStateOpener.null));
    [by apply example_legal_insert|by vm_compute]|]. apply rtc_refl.
Qed.

Definition ntp_agent : SessionRestorationBrowserAgent.Agent :=
  SessionRestorationBrowserAgent.mkAgent (WebStateListSerialization.mkWorld ntp_list ∅) false [].

(** The tab is closed, the session without item is not kept, and true is returned. *)
Lemma RestoreSessionWindow_correct_witness :
  exists s' a b, RestoreSessionWindow ntp_env example_factory (Some window) ntp_agent = Ok (true, s') /\
    web_states (agent_list s') = [a; b] /\
    made example_factory a (session_of 1) /\ made example_factory b (session_of 1) /\
    notices s' = [SessionRestorationBrowserAgent.WillStartSessionRestoration; AddPlaceholderForNextNavigation a; FetchFavicon a "about:blank";
                  AddPlaceholderForNextNavigation b; FetchFavicon b "about:blank";
                  SessionRestorationBrowserAgent.SessionRestorationFinished [a; b]].
Proof.
  destruct (RestoreSessionWindow_correct ntp_env example_factory window ntp_agent)
    as (w' & new & E & Hmade & _ & Hl);
    [done|exact ntp_reachable|by vm_compute|by vm_compute|by vm_compute
    |repeat constructor; intros o Hb; vm_compute in Hb; discriminate Hb|].
  destruct new as [|a [|x [|b [|]]]]; try (apply Forall2_length in Hmade; discriminate Hmade).
  apply Forall2_cons in Hmade as [Ha [_ [Hb _]%Forall2_cons]%Forall2_cons].
  eexists _, a, b. split; [exact E|]. split; [exact Hl|]. split; [exact Ha|]. split; [exact Hb|]. reflexivity.
Defined.

(** The browser whose metrics agent observes the list. *)
Definition ntp_actions : list Action := CreateBrowser 1%positive 1%positive :: (CallList 1%positive <$> ntp_calls).
Definition ntp_world : World := default empty_world (final_state (perform_all ntp_actions empty_world)).
Definition ntp_browser : Browser := default (mkBrowser 1%positive create None) (browsers ntp_world !! 1%positive).

Lemma restoration_counts_nothing_witness :
  exists s' calls w', RestoreSessionWindow ntp_env example_factory (Some window) ntp_agent = Ok (true, s') /\
    exec_all calls ntp_list = Ok (tt, agent_list s') /\
    perform_all (WillRestore 1%positive :: (CallList 1%positive <$> calls) ++ [RestoreFinished 1%positive]) ntp_world =
      Ok (tt, w') /\
    reports w' = [RecordAction "MobileNewTabOpened"; RecordAction "MobileTabSwitched"] /\
    metrics w' = metrics ntp_world.
Proof.
  destruct (user_data ntp_browser) as [g|] eqn:Hg; [|vm_compute in Hg; discriminate Hg].
  destruct (restoration_counts_nothing ntp_env example_factory window ntp_agent ntp_actions ntp_world
    1%positive ntp_browser g) as (s' & calls & w' & E & Ec & Ep & Er & Em & _);
    [done|exact ntp_reachable|by vm_compute|by vm_compute|by vm_compute
    |repeat constructor; intros o Hb; vm_compute in Hb; discriminate Hb
    |apply all_possible_b_sound; by vm_compute|by vm_compute| |by vm_compute|].
  { vm_compute in Hg. injection Hg as <-. by vm_compute. }
  exists s', calls, w'. split; [exact E|split; [exact Ec|split; [exact Ep|split; [|exact Em]]]].
  rewrite Er. by vm_compute.
Defined.

End ExampleRestoration.
