(* ===== verification/SessionService.v ===== *)
(** * Sessions on disk

    [SessionServiceIOS] (src/chrome/browser/sessions/session_service_ios.mm)
    writes the sessions of the windows to files: a save is done at once or after
    a delay, by a task on another thread; it asks a [SessionIOSFactory]
    (session_ios_factory.mm) for the session when the delay is over. [SessionIOS]
    (session_ios.mm) is what is saved. *)

From stdpp Require Import base tactics option list numbers strings gmap.
From Stdlib Require Import ZArith Lia.
From S2P Require Import Prelude WebStateListModel WebStateListOps.
From S2P Require Import WebTypes NavigationItem SessionStorage SessionBuilder SessionWindow.
From S2P Require Import WebStateListSerialization.

Module SessionIOS.
Import SessionWindowIOS(window_coding).
Section Code.
Context {Session Data : Type} `{!NSCoding Session}.
(** [ShouldSaveSessionTabsToSeparateFiles()] *)
Context (ShouldSaveSessionTabsToSeparateFiles : bool).
Abbreviation Window := (SessionWindowIOS.t (Session := Session) (Data := Data)).

Record t : Type := mk { sessionWindows : list Window }.

Definition initWithWindows (sessionWindows : list Window) : t := mk sessionWindows.

(** [addEntriesFromDictionary:] for each window; nil has no entries. *)
Definition sessionTabContents (s : t) : gmap string Data :=
  foldl (fun sessionContents w => default ∅ (SessionWindowIOS.tabContents w) ∪ sessionContents) ∅
    (sessionWindows s).

Definition kSessionWindowsKey : string := "sessionWindows".

(** The objects of the archive. *)
Inductive SessionObject : Type :=
| WindowsObject (windows : list (NSCoder.t (SessionWindowIOS.WindowObject (Session := Session))))
| OtherObject.

Definition encodeWithCoder (s : t) : M (NSCoder.t SessionObject) unit :=
  let! archives := mmap (sessionWindows s) (CRWSessionStorage.archive_object
    (NSCoding1 := window_coding ShouldSaveSessionTabsToSeparateFiles)) in
  NSCoder.encodeObject kSessionWindowsKey (Some (WindowsObject archives)).

Definition initWithCoder : M (NSCoder.t SessionObject) t :=
  let! o := NSCoder.decodeObject kSessionWindowsKey in
  let! sessionWindows :=
    match o with
    | Some (WindowsObject archives) => mmap archives (CRWSessionStorage.unarchive_object
        (NSCoding1 := window_coding ShouldSaveSessionTabsToSeparateFiles))
    | _ => mreturn []
    end in
  mreturn (initWithWindows sessionWindows).

#[export] Instance session_coding : NSCoding t :=
  {| Archived := SessionObject; SessionStorage.encodeWithCoder := encodeWithCoder;
     SessionStorage.initWithCoder := initWithCoder |}.

(** ** Archiving and reading back *)

Context (storable : Session -> Prop) (same : relation Session) `{!NSCodingLaws Session storable same}.

Definition storable_session (s : t) : Prop := Forall (SessionWindowIOS.storable_window storable) (sessionWindows s).
Definition same_session (s' s : t) : Prop :=
  Forall2 (SessionWindowIOS.same_window same) (sessionWindows s') (sessionWindows s).

#[export] Instance session_coding_laws : NSCodingLaws t storable_session same_session.
Proof.
  intros s Hs.
  pose proof (SessionWindowIOS.window_coding_laws (Data := Data) ShouldSaveSessionTabsToSeparateFiles storable same) as Hlaws.
  destruct (@CRWSessionStorage.archive_objects _ _ _ _ Hlaws _ Hs) as (archives & l' & Hsame & He & Hd).
  exists (<[kSessionWindowsKey := NSCoder.CodedObject (Some (WindowsObject archives))]> ∅). split.
  { cbn. unfold encodeWithCoder. by erewrite mbind_run by apply He. }
  exists (mk l'). split; [|exact Hsame]. cbn. unfold initWithCoder.
  erewrite mbind_run; [|eapply NSCoder.decode_present; [NSCoder.look_up|reflexivity]].
  by erewrite mbind_run by apply Hd.
Qed.
End Code.
End SessionIOS.

Module SessionIOSFactory.
Import WebStateListSerialization.
Section Code.
Context `{WebStateEnv} `{GURLOps} {CertCache Data : Type}.
Abbreviation Session := (CRWSessionStorage.t (CertCache := CertCache)).

(** [_webStateList], null when the factory was disconnected, with what is read of
    the WebStates now; the identifiers in [_dirtyWebStates]. *)
Record t : Type := mk {
  _webStateList : option World;
  web_states_env : SerializationEnv (CertCache := CertCache) (Data := Data);
  _dirtyWebStates : gset string
}.

Definition initWithWebStateList (w : World) (env : SerializationEnv) : t := mk (Some w) env ∅.

Definition disconnect (f : t) : t := mk None (web_states_env f) (_dirtyWebStates f).

Definition markWebStateDirty (webState : WebStateId) (f : t) : t :=
  mk (_webStateList f) (web_states_env f)
     ({[env_GetStableIdentifier (web_states_env f) webState]} ∪ _dirtyWebStates f).

Definition canSaveCurrentSession (f : t) : bool :=
  match _webStateList f with
  | None => false
  | Some w =>
      negb (negb (WebStateList.empty (world_list w)) &&
            bool_decide (WebStateList.active_web_state (world_list w) = None))
  end.

(** None is nil. *)
Definition sessionForSaving : M t (option (SessionIOS.t (Session := Session) (Data := Data))) :=
  let! f := mget in
  if negb (canSaveCurrentSession f) then mreturn None else
  match _webStateList f with
  | None => mreturn None
  | Some w =>
      match SerializeWebStateList (web_states_env f) (Some (_dirtyWebStates f)) w with
      | Fault e => mfail e
      | Ok (window, w') =>
          let session := SessionIOS.initWithWindows [window] in
          mmodify (fun f => mk (Some w') (web_states_env f) ∅) ;;;
          mreturn (Some session)
      end
  end.
End Code.
End SessionIOSFactory.

Module SessionServiceIOS.

(** A path of a file: its directory and its last component. *)
Record Path : Type := mkPath { directory : string; filename : string }.

#[global] Instance Path_eq_dec : EqDecision Path.
Proof. solve_decision. Defined.
#[global] Instance Path_countable : Countable Path.
Proof.
  refine (inj_countable' (fun p => (directory p, filename p)) (fun p => mkPath p.1 p.2) _). by intros [].
Defined.

(** The identity of a factory. *)
Definition FactoryId : Type := positive.

(** The root object in the data of a file, as it was archived. *)
Inductive RootArchive (WindowObject SessionObject : Type) : Type :=
| NoRoot
| WindowRoot (archive : NSCoder.t WindowObject)
| SessionRoot (archive : NSCoder.t SessionObject)
| OtherRoot.
Arguments NoRoot {WindowObject SessionObject}.
Arguments WindowRoot {WindowObject SessionObject} archive.
Arguments SessionRoot {WindowObject SessionObject} archive.
Arguments OtherRoot {WindowObject SessionObject}.

(** What a save asks of the factory it was given. *)
Class SessionFactory (F S : Type) : Type := sessionForSaving : M F (option S).

(** [NSKeyedArchiver] and [NSKeyedUnarchiver] (None is no data or an error), and
    what can go wrong with files. *)
Class Platform (WindowObject SessionObject Data : Type) : Type := {
  keyed_archive : NSCoder.t SessionObject -> option Data;
  keyed_root : Data -> option (RootArchive WindowObject SessionObject);
  data_length : Data -> Z;
  createDirectory_ok : string -> bool;
  is_plain_file : string -> bool;
  writeToFile_ok : Path -> bool;
  removeItem_ok : Path -> bool
}.

Definition kSessions : string := "Sessions".
Definition kSessionFileName : string := "session.plist".

Section Code.
Context {Session Data F : Type} `{!NSCoding Session}.
Abbreviation Window := (SessionWindowIOS.t (Session := Session) (Data := Data)).
Abbreviation Saved := (SessionIOS.t (Session := Session) (Data := Data)).
Context `{!SessionFactory F Saved} `{!Platform (SessionWindowIOS.WindowObject (Session := Session))
    (SessionIOS.SessionObject (Session := Session)) Data}.
(** [ShouldSaveSessionTabsToSeparateFiles()] *)
Context (ShouldSaveSessionTabsToSeparateFiles : bool).

(** A task of [_taskRunner], which runs them in order on another thread. *)
Inductive Task : Type :=
| SaveTask (sessionData : Data) (tabContents : option (gmap string Data)) (sessionPath : Path)
| DeleteTask (paths : list Path).

(** The service, the delayed calls of [performSaveToPathInBackground:] in the
    order in which they fire (the delay is fixed), the tasks posted, the files of
    each directory that exists, and the factories that are alive: the entries of
    [_pendingSessions] are weak. *)
Record t : Type := mk {
  _pendingSessions : gmap Path FactoryId;
  delayed_performs : list Path;
  posted_tasks : list Task;
  disk : gmap string (gmap string Data);
  factories : gmap FactoryId F
}.

Definition init : t := mk ∅ [] [] ∅ ∅.

Definition with_pending (v : gmap Path FactoryId) (s : t) : t :=
  mk v (delayed_performs s) (posted_tasks s) (disk s) (factories s).
Definition with_delayed (v : list Path) (s : t) : t :=
  mk (_pendingSessions s) v (posted_tasks s) (disk s) (factories s).
Definition with_posted (v : list Task) (s : t) : t :=
  mk (_pendingSessions s) (delayed_performs s) v (disk s) (factories s).
Definition with_disk (v : gmap string (gmap string Data)) (s : t) : t :=
  mk (_pendingSessions s) (delayed_performs s) (posted_tasks s) v (factories s).
Definition with_factories (v : gmap FactoryId F) (s : t) : t :=
  mk (_pendingSessions s) (delayed_performs s) (posted_tasks s) (disk s) v.

(** ** Paths *)

(** [SessionPathForDirectory(directory, session_identifier, name)] *)
Definition SessionPathForDirectory (dir session_identifier name : string) : Path :=
  if (String.length session_identifier =? 0) then mkPath dir name
  else mkPath (dir ++ "/" ++ kSessions ++ "/" ++ session_identifier)%string name.

Definition sessionPathForSessionID {S} (sessionID dir : string) : M S Path :=
  dcheck (negb (String.length sessionID =? 0)) ;;;
  mreturn (SessionPathForDirectory dir sessionID kSessionFileName).

(** [filePathForTabID:sessionPath:], of a path and of the name of a file. *)
Definition fileNameForTabID (tabID name : string) : string := (name ++ "-" ++ tabID)%string.
Definition filePathForTabID (tabID : string) (sessionPath : Path) : Path :=
  mkPath (directory sessionPath) (fileNameForTabID tabID (filename sessionPath)).

(** ** Files *)

Definition file_at (path : Path) (s : t) : option Data :=
  disk s !! directory path ≫= fun files => files !! filename path.

Definition writeToFile (path : Path) (data : Data) : M t unit :=
  if writeToFile_ok path then
    mmodify (fun s => with_disk
      (<[directory path := <[filename path := data]> (default ∅ (disk s !! directory path))]> (disk s)) s)
  else mfail NotReached.

(** Nothing happens when the directory does not exist. *)
Definition deleteSessionPaths (sessionPath : Path) (keepFiles : list string) : M t unit :=
  let! s := mget in
  match disk s !! directory sessionPath with
  | None => mreturn tt
  | Some fileList =>
      mfor (map_to_list fileList).*1 (fun name =>
        if negb (String.prefix (filename sessionPath) name) || bool_decide (name ∈ keepFiles)
        then mreturn tt
        else
          check (removeItem_ok (mkPath (directory sessionPath) name)) ;;;
          mmodify (fun s => with_disk (alter (delete name) (directory sessionPath) (disk s)) s))
  end.

(** [deletePaths:], on the other thread. *)
Definition deletePaths (paths : list Path) : M t unit :=
  mfor paths (fun path =>
    let! s := mget in
    match file_at path s with
    | None => mreturn tt
    | Some _ => deleteSessionPaths path []
    end).

(** On the other thread. *)
Definition performSaveSessionData (sessionData : Data) (tabContents : option (gmap string Data))
    (sessionPath : Path) : M t unit :=
  let! s := mget in
  match disk s !! directory sessionPath with
  | None =>
      if is_plain_file (directory sessionPath) || negb (createDirectory_ok (directory sessionPath))
      then mfail NotReached
      else mmodify (with_disk (<[directory sessionPath := ∅]> (disk s)))
  | Some _ => mreturn tt
  end ;;;
  let contents := map_to_list (default ∅ tabContents) in
  let filesToKeep :=
    filename sessionPath ::
      (if ShouldSaveSessionTabsToSeparateFiles
       then (fun c => fileNameForTabID c.1 (filename sessionPath)) <$> contents else []) in
  deleteSessionPaths sessionPath filesToKeep ;;;
  mwhen ShouldSaveSessionTabsToSeparateFiles
    (mfor contents (fun c =>
       mwhen (negb (data_length c.2 =? 0)%Z) (writeToFile (filePathForTabID c.1 sessionPath) c.2))) ;;;
  writeToFile sessionPath sessionData.

(** The first task. *)
Definition run_task : M t unit :=
  let! s := mget in
  match posted_tasks s with
  | [] => mreturn tt
  | task :: rest =>
      mmodify (with_posted rest) ;;;
      match task with
      | SaveTask sessionData tabContents sessionPath =>
          performSaveSessionData sessionData tabContents sessionPath
      | DeleteTask paths => deletePaths paths
      end
  end.

Definition PostTask (task : Task) : M t unit :=
  mmodify (fun s => with_posted (posted_tasks s ++ [task]) s).

(** ** The service *)

(** [[_pendingSessions objectForKey:sessionPath]]: nil when there is no entry or
    its factory is gone. *)
Definition objectForKey (path : Path) (s : t) : option (FactoryId * F) :=
  _pendingSessions s !! path ≫= fun id => factories s !! id ≫= fun f => Some (id, f).

(** [@try] and [@catch] of an NSException, with a NOTREACHED. *)
Definition or_not_reached {S A} (m : M S A) : M S A :=
  fun s => match m s with Fault NSException => Fault NotReached | r => r end.

Abbreviation WindowArchive := (NSCoder.t (SessionWindowIOS.WindowObject (Session := Session))).
Abbreviation SessionArchive := (NSCoder.t (SessionIOS.SessionObject (Session := Session))).

Definition archive_session {S} (session : Saved) : M S SessionArchive :=
  or_not_reached (CRWSessionStorage.archive_object
    (NSCoding1 := SessionIOS.session_coding ShouldSaveSessionTabsToSeparateFiles) session).
Definition unarchive_session {S} (archive : SessionArchive) : M S Saved :=
  or_not_reached (CRWSessionStorage.unarchive_object
    (NSCoding1 := SessionIOS.session_coding ShouldSaveSessionTabsToSeparateFiles) archive).
Definition unarchive_window {S} (archive : WindowArchive) : M S Window :=
  or_not_reached (CRWSessionStorage.unarchive_object
    (NSCoding1 := SessionWindowIOS.window_coding ShouldSaveSessionTabsToSeparateFiles) archive).

(** [archivedDataWithRootObject:requiringSecureCoding:error:] *)
Definition archivedDataWithRootObject {S} (session : Saved) : M S (option Data) :=
  let! archive := archive_session session in
  mreturn (keyed_archive archive).

Definition performSaveToPathInBackground (sessionPath : Path) : M t unit :=
  let! s := mget in
  let factory := objectForKey sessionPath s in
  mmodify (with_pending (delete sessionPath (_pendingSessions s))) ;;;
  match factory with
  | None => mreturn tt
  | Some (id, f) =>
      match sessionForSaving f with
      | Fault e => mfail e
      | Ok (session, f') =>
          mmodify (fun s => with_factories (<[id := f']> (factories s)) s) ;;;
          match session with
          | None => mreturn tt
          | Some session =>
              let! sessionData := archivedDataWithRootObject session in
              let tabContentsById :=
                if ShouldSaveSessionTabsToSeparateFiles
                then Some (SessionIOS.sessionTabContents session) else None in
              match sessionData with
              | None => mreturn tt
              | Some sessionData => PostTask (SaveTask sessionData tabContentsById sessionPath)
              end
          end
      end
  end.

(** [setObject:factory forKey:]; the factory is not nil. *)
Definition saveSession (factory : FactoryId) (sessionID dir : string) (immediately : bool) : M t unit :=
  let! sessionPath := sessionPathForSessionID sessionID dir in
  let! s := mget in
  let hadPendingSession := bool_decide (is_Some (objectForKey sessionPath s)) in
  mmodify (with_pending (<[sessionPath := factory]> (_pendingSessions s))) ;;;
  if immediately then
    mmodify (with_delayed []) ;;;
    performSaveToPathInBackground sessionPath
  else if negb hadPendingSession then
    mmodify (fun s => with_delayed (delayed_performs s ++ [sessionPath]) s)
  else mreturn tt.

(** The run loop: the next delayed call. *)
Definition fire : M t unit :=
  let! s := mget in
  match delayed_performs s with
  | [] => mreturn tt
  | path :: rest => mmodify (with_delayed rest) ;;; performSaveToPathInBackground path
  end.

Definition deleteSessions (sessionIDs : list string) (dir : string) : M t unit :=
  let! paths := mmap sessionIDs (fun sessionID => sessionPathForSessionID sessionID dir) in
  PostTask (DeleteTask paths).

(** None is nil. *)
Definition loadSessionFromPath (sessionPath : Path) : M t (option Saved) :=
  let! s := mget in
  match file_at sessionPath s with
  | None => mreturn None
  | Some data =>
      match keyed_root data with
      | None => mreturn None
      | Some NoRoot => mreturn None
      | Some (WindowRoot archive) =>
          let! w := unarchive_window archive in
          mreturn (Some (SessionIOS.initWithWindows [w]))
      | Some (SessionRoot archive) =>
          let! session := unarchive_session archive in
          mreturn (Some session)
      | Some OtherRoot => mfail DCheckFailed
      end
  end.

Definition loadSessionWithSessionID (sessionID dir : string) : M t (option Saved) :=
  let! sessionPath := sessionPathForSessionID sessionID dir in
  loadSessionFromPath sessionPath.

(** ** What happens *)

(** A save of a factory that is alive, a delayed call, a task; the tabs of a
    window change, or it goes away; sessions are deleted. *)
Inductive Step : Type :=
| Save (factory : FactoryId) (sessionID dir : string) (immediately : bool)
| Fire
| RunTask
| SetFactory (factory : FactoryId) (f : F)
| FreeFactory (factory : FactoryId)
| Delete (sessionIDs : list string) (dir : string).

Definition exec (x : Step) : M t unit :=
  match x with
  | Save factory sessionID dir immediately => saveSession factory sessionID dir immediately
  | Fire => fire
  | RunTask => run_task
  | SetFactory id f => mmodify (fun s => with_factories (<[id := f]> (factories s)) s)
  | FreeFactory id => mmodify (fun s => with_factories (delete id (factories s)) s)
  | Delete sessionIDs dir => deleteSessions sessionIDs dir
  end.

Definition exec_all (l : list Step) : M t unit := mfor l exec.

End Code.

(** The windows of Chrome ask a [SessionIOSFactory]. *)
#[export] Instance SessionIOSFactory_factory `{WebStateEnv} `{GURLOps} {CertCache Data : Type} :
  SessionFactory (SessionIOSFactory.t (CertCache := CertCache) (Data := Data))
    (SessionIOS.t (Session := CRWSessionStorage.t (CertCache := CertCache)) (Data := Data)) :=
  SessionIOSFactory.sessionForSaving.
End SessionServiceIOS.
