(* ===== verification/SessionServiceTheorems.v ===== *)
(** * Sessions on disk: the theorems

    What is saved can be loaded, a delayed save is done, and the exception: an
    immediate save of another session cancels it for good. *)

From stdpp Require Import base tactics option list numbers strings gmap.
From Stdlib Require Import ZArith Lia.
From S2P Require Import Prelude RemovingIndexes WebStateListModel OrderController WebStateListOps WebStateListProofs.
From S2P Require Import WebTypes WkNavigationUtil NavigationItem SessionStorage SessionBuilder SessionWindow.
From S2P Require Import WebStateListSerialization SerializationProofs SerializationRoundTrip SessionService.

Module SessionServiceTheorems.
Import SessionServiceIOS.

(** Nothing goes wrong with files, and the root of a file is what was archived in
    it ([NSFileManager], [NSKeyedArchiver]). *)
Class PlatformLaws (WindowObject SessionObject Data : Type) `{!Platform WindowObject SessionObject Data} : Prop := {
  createDirectory_succeeds d : createDirectory_ok d = true;
  not_a_plain_file d : is_plain_file d = false;
  writeToFile_succeeds p : writeToFile_ok p = true;
  removeItem_succeeds p : removeItem_ok p = true;
  keyed_root_archive archive data : keyed_archive archive = Some data -> keyed_root data = Some (SessionRoot archive)
}.

Section Service.
Context {Session Data F : Type} `{!NSCoding Session}.
Abbreviation Window := (SessionWindowIOS.t (Session := Session) (Data := Data)).
Abbreviation Saved := (SessionIOS.t (Session := Session) (Data := Data)).
Context `{!SessionFactory F Saved} `{!Platform (SessionWindowIOS.WindowObject (Session := Session))
    (SessionIOS.SessionObject (Session := Session)) Data}.
Context (flag : bool).
Abbreviation Service := (SessionServiceIOS.t (Data := Data) (F := F)).
Abbreviation Step := (SessionServiceIOS.Step (F := F)).
Implicit Types (s : Service) (x : Step) (l : list Step) (p q : Path).

(** ** Sessions that are forgotten *)

(** A save of [q] is pending, and no delayed call will do it. *)
Definition stranded q s : Prop := is_Some (objectForKey q s) /\ q ∉ delayed_performs s.

(** The saves of [q] that were posted. *)
Definition is_save q (task : Task (Data := Data)) : bool :=
  match task with SaveTask _ _ path => bool_decide (path = q) | DeleteTask _ => false end.
Definition saves_of q s : list (Task (Data := Data)) :=
  filter (fun task => is_save q task = true) (posted_tasks s).

(** Only files change. *)
Definition files_only s s' : Prop :=
  _pendingSessions s' = _pendingSessions s /\ delayed_performs s' = delayed_performs s /\
  posted_tasks s' = posted_tasks s /\ factories s' = factories s.

#[local] Instance files_only_preorder : PreOrder files_only.
Proof.
  split; [by repeat split|]. intros s1 s2 s3 (A1 & A2 & A3 & A4) (B1 & B2 & B3 & B4).
  repeat split; congruence.
Qed.

Lemma check_files_only b : keeps files_only (check b).
Proof. intros s u s'. unfold check. by destruct b; intros [= _ <-]. Qed.
Hint Resolve check_files_only : code.

Lemma writeToFile_files_only p data : keeps files_only (writeToFile p data).
Proof. through @writeToFile. Qed.
Lemma deleteSessionPaths_files_only p keep : keeps files_only (deleteSessionPaths p keep).
Proof. through @deleteSessionPaths. Qed.
Hint Resolve writeToFile_files_only deleteSessionPaths_files_only : code.
Lemma performSaveSessionData_files_only data contents p :
  keeps files_only (performSaveSessionData flag data contents p).
Proof. through @performSaveSessionData. Qed.
Lemma deletePaths_files_only paths : keeps files_only (deletePaths paths).
Proof. through @deletePaths. Qed.

(** What [performSaveToPathInBackground] changes. *)
Record performed p s s' : Prop := {
  performed_pending : _pendingSessions s' = delete p (_pendingSessions s);
  performed_delayed : delayed_performs s' = delayed_performs s;
  performed_disk : disk s' = disk s;
  performed_factories : forall id, is_Some (factories s !! id) -> is_Some (factories s' !! id);
  performed_posted : exists tasks, posted_tasks s' = posted_tasks s ++ tasks /\
    Forall (fun task => is_save p task = true) tasks
}.

Lemma archive_run {T} (session : Saved) (s : T) archive (s' : T) :
  archive_session flag session s = Ok (archive, s') ->
  (exists u, SessionIOS.encodeWithCoder flag session ∅ = Ok (u, archive)) /\ s' = s.
Proof.
  unfold archive_session, or_not_reached, CRWSessionStorage.archive_object. cbn.
  destruct (SessionIOS.encodeWithCoder flag session ∅) as [[u a]|[]]; [|done..]. intros [= <- <-]. eauto.
Qed.

Lemma performSave_spec p s s' :
  performSaveToPathInBackground flag p s = Ok (tt, s') ->
  performed p s s'.
Proof.
  unfold performSaveToPathInBackground. rewrite (mbind_run mget _ _ _ _ eq_refl).
  rewrite (mbind_run (mmodify _) _ _ tt _ eq_refl).
  assert (forall s1, _pendingSessions s1 = delete p (_pendingSessions s) -> delayed_performs s1 = delayed_performs s ->
    disk s1 = disk s -> (forall id, is_Some (factories s !! id) -> is_Some (factories s1 !! id)) ->
    posted_tasks s1 = posted_tasks s -> mreturn tt s1 = Ok (tt, s') ->
    performed p s s')
    as Hsame.
  { intros s1 ? ? ? ? ? [= <-]. split; try done. exists []. by rewrite app_nil_r. }
  destruct (objectForKey p s) as [[id f]|]; [|by apply Hsame].
  destruct (sessionForSaving f) as [[session f']|]; [|done].
  rewrite (mbind_run (mmodify _) _ _ tt _ eq_refl).
  assert (forall id', is_Some (factories s !! id') ->
    is_Some (<[id := f']> (factories s) !! id')) as Hf.
  { intros id' [f0 Hf0]. destruct (decide (id = id')) as [->|];
      [rewrite lookup_insert_eq|rewrite lookup_insert_ne by done]; eauto. }
  destruct session as [session|]; [|by apply Hsame].
  intros (data & s2 & (archive & s3 & (_ & Es)%archive_run & [= <- <-])%mbind_ok & E)%mbind_ok. subst s3.
  revert E. case_match; [|by apply Hsame].
  intros [= <-]. split; try done. eexists. split; [done|].
  constructor; [|constructor]. by apply bool_decide_eq_true.
Qed.

Lemma objectForKey_alive q s :
  is_Some (objectForKey q s) <-> exists id, _pendingSessions s !! q = Some id /\ is_Some (factories s !! id).
Proof.
  unfold objectForKey. split.
  - intros [[id f] (id' & Hp & (f' & Hf & _)%bind_Some)%bind_Some]. eauto.
  - intros (id & -> & f & Hf). cbn. rewrite Hf. by eexists.
Qed.

Lemma saves_of_app q (l1 l2 : list (Task (Data := Data))) :
  Forall (fun task => is_save q task = false) l2 ->
  filter (fun task => is_save q task = true) (l1 ++ l2) =
  filter (fun task => is_save q task = true) l1.
Proof.
  intros Hl. rewrite filter_app, (filter_none _ l2), app_nil_r; [done|].
  intros x Hx. rewrite Forall_forall in Hl. by rewrite Hl.
Qed.

Lemma performed_other p q s s' :
  p <> q -> performed p s s' ->
  (is_Some (objectForKey q s) -> is_Some (objectForKey q s')) /\ saves_of q s' = saves_of q s.
Proof.
  intros Hpq [Ep _ _ Hf (tasks & Et & Ht)]. rewrite !objectForKey_alive. split.
  - intros (id & Hid & Ha). exists id. rewrite Ep, lookup_delete_ne by done. eauto.
  - unfold saves_of. rewrite Et. apply saves_of_app. eapply Forall_impl; [exact Ht|].
    intros [data c path|]; cbn; [|done]. rewrite !bool_decide_eq_true, bool_decide_eq_false. congruence.
Qed.

Definition path_of (sid dir : string) : Path := SessionPathForDirectory dir sid kSessionFileName.

(** A step that may bring a forgotten save back: an immediate save of the same
    session, or the end of a factory. A save is of a factory that is alive. *)
Definition leaves q x s : Prop :=
  match x with
  | Save id sid dir immediately =>
      is_Some (factories s !! id) /\ (immediately = true -> path_of sid dir <> q)
  | FreeFactory _ => False
  | _ => True
  end.

(** Each step of [l] is allowed when it is taken. *)
Fixpoint along (allowed : Step -> Service -> Prop) l s : Prop :=
  match l with
  | [] => True
  | x :: l' => allowed x s /\ forall s', exec flag x s = Ok (tt, s') -> along allowed l' s'
  end.

Lemma sessionPath_run sid dir (s : Service) p s1 :
  sessionPathForSessionID sid dir s = Ok (p, s1) -> sid <> ""%string /\ p = path_of sid dir /\ s1 = s.
Proof.
  unfold sessionPathForSessionID, mbind, dcheck. destruct (Nat.eqb_spec (String.length sid) 0) as [|Hl]; [done|].
  intros [= <- <-]. split; [|done]. by intros ->.
Qed.

Lemma saveSession_run id sid dir immediately s s' :
  saveSession flag id sid dir immediately s = Ok (tt, s') ->
  let p := path_of sid dir in
  let s1 := with_pending (<[p := id]> (_pendingSessions s)) s in
  if immediately then performed p (with_delayed [] s1) s'
  else s' = if bool_decide (is_Some (objectForKey p s)) then s1
            else with_delayed (delayed_performs s ++ [p]) s1.
Proof.
  cbv zeta. unfold saveSession. intros (p & s1 & (_ & -> & ->)%sessionPath_run & E)%mbind_ok. revert E.
  rewrite (mbind_run mget _ _ _ _ eq_refl), (mbind_run (mmodify _) _ _ tt _ eq_refl).
  destruct immediately.
  - rewrite (mbind_run (mmodify _) _ _ tt _ eq_refl). apply performSave_spec.
  - destruct (bool_decide _); by intros [= <-].
Qed.

Lemma run_task_run s s' :
  run_task flag s = Ok (tt, s') ->
  files_only (with_posted (tail (posted_tasks s)) s) s'.
Proof.
  unfold run_task. rewrite (mbind_run mget _ _ _ _ eq_refl).
  destruct (posted_tasks s) as [|task rest] eqn:Et; [intros [= <-]; by destruct s; cbn in *; subst|].
  rewrite (mbind_run (mmodify _) _ _ tt _ eq_refl).
  destruct task; [apply performSaveSessionData_files_only|apply deletePaths_files_only].
Qed.

Lemma saves_of_tail q (l : list (Task (Data := Data))) :
  filter (fun task => is_save q task = true) (tail l) `suffix_of`
  filter (fun task => is_save q task = true) l.
Proof.
  destruct l as [|task l]; [done|]. cbn [tail]. rewrite filter_cons.
  case_decide; [by apply suffix_cons_r|done].
Qed.

Lemma deleteSessions_run ids dir s s' :
  deleteSessions ids dir s = Ok (tt, s') ->
  exists paths, s' = with_posted (posted_tasks s ++ [DeleteTask paths]) s.
Proof.
  intros (paths & s1 & Hm & [= <-])%mbind_ok. exists paths. assert (s = s1) as <-; [|done].
  assert (keeps eq (mmap ids (fun sessionID => sessionPathForSessionID (S := Service) sessionID dir))) as Hk;
    [|by eapply Hk].
  apply keeps_map; [typeclasses eauto|]. intros sessionID. through @sessionPathForSessionID.
Qed.

Lemma stranded_step q x s s' :
  stranded q s -> leaves q x s -> exec flag x s = Ok (tt, s') ->
  stranded q s' /\ saves_of q s' `suffix_of` saves_of q s.
Proof.
  intros [Ha Hd] Hx He. destruct x as [id sid d imm| | |id f|id|ids dir]; cbn [exec leaves] in He, Hx.
  - destruct Hx as [Hid Hpq]. apply saveSession_run in He. cbv zeta in He. set (p := path_of sid d) in *.
    assert (is_Some (objectForKey q (with_pending (<[p := id]> (_pendingSessions s)) s))) as Ha1.
    { rewrite objectForKey_alive in Ha |- *. cbn. destruct (decide (p = q)) as [->|Hn].
      - exists id. by rewrite lookup_insert_eq.
      - by rewrite lookup_insert_ne. }
    destruct imm.
    + destruct (performed_other p q _ _ (Hpq eq_refl) He) as [Ha' Hs].
      split; [split; [by apply Ha'|]|by rewrite Hs]. rewrite (performed_delayed _ _ _ He). apply not_elem_of_nil.
    + subst s'. case_bool_decide as Hp; (split; [|done]); (split; [done|]); [done|].
      cbn. rewrite not_elem_of_app, list_elem_of_singleton. split; [done|]. by intros ->.
  - unfold fire in He. rewrite (mbind_run mget _ _ _ _ eq_refl) in He.
    destruct (delayed_performs s) as [|path rest] eqn:Ed; [injection He as <-; split; [split; [done|by rewrite Ed]|done]|].
    rewrite (mbind_run (mmodify _) _ _ tt _ eq_refl) in He. apply performSave_spec in He.
    apply not_elem_of_cons in Hd as [Hn Hd].
    destruct (performed_other path q _ _ ltac:(congruence) He) as [Ha' Hs].
    split; [split; [by apply Ha'|]|by rewrite Hs]. by rewrite (performed_delayed _ _ _ He).
  - apply run_task_run in He as (Ep & Ed & Et & Ef). unfold stranded, saves_of.
    rewrite objectForKey_alive in Ha |- *. rewrite Ep, Ed, Et, Ef. split; [by split|]. apply saves_of_tail.
  - injection He as <-. split; [|done]. split; [|done]. rewrite objectForKey_alive in Ha |- *.
    destruct Ha as (id' & Hp & f' & Hf). exists id'. split; [done|]. cbn.
    destruct (decide (id = id')) as [->|]; [rewrite lookup_insert_eq|rewrite lookup_insert_ne by done]; eauto.
  - done.
  - apply deleteSessions_run in He as (paths & ->).
    split; [done|]. unfold saves_of. cbn. rewrite saves_of_app; [done|]. by constructor.
Qed.

Lemma stranded_steps q l s s' :
  stranded q s -> along (leaves q) l s -> exec_all flag l s = Ok (tt, s') ->
  stranded q s' /\ saves_of q s' `suffix_of` saves_of q s.
Proof.
  revert s. induction l as [|x l IH]; intros s Hs Hl He; [by injection He as <-|].
  destruct Hl as [Hx Hl]. apply mbind_ok in He as ([] & s1 & E1 & E2).
  destruct (stranded_step q x s s1 Hs Hx E1) as [Hs1 Hf1].
  destruct (IH s1 Hs1 (Hl _ E1) E2) as [Hs2 Hf2]. split; [done|by etransitivity].
Qed.

(** C11: an immediate save of a session also cancels the delayed save of every
    other session [q], and it is never done: whatever happens then, further
    delayed saves of [q] included, no save of [q] is posted, until [q] is saved
    immediately or a window goes away. *)
Theorem immediate_save_strands_others q id sid dir l s s1 s2 :
  path_of sid dir <> q -> is_Some (objectForKey q s) ->
  exec flag (Save id sid dir true) s = Ok (tt, s1) ->
  along (leaves q) l s1 -> exec_all flag l s1 = Ok (tt, s2) ->
  stranded q s2 /\ saves_of q s2 `suffix_of` saves_of q s.
Proof.
  intros Hpq Ha He Hl Hls. apply saveSession_run in He. cbv zeta in He. set (p := path_of sid dir) in *.
  assert (is_Some (objectForKey q (with_delayed [] (with_pending (<[p := id]> (_pendingSessions s)) s)))) as Ha1.
  { rewrite objectForKey_alive in Ha |- *. cbn. by rewrite lookup_insert_ne. }
  destruct (performed_other p q _ _ Hpq He) as [Ha2 Hs1].
  change (saves_of q (with_delayed _ _)) with (saves_of q s) in Hs1. rewrite <- Hs1.
  apply (stranded_steps q l s1); [|done..]. split; [by apply Ha2|].
  rewrite (performed_delayed _ _ _ He). apply not_elem_of_nil.
Qed.

(** ** Files *)

Context `{!PlatformLaws (SessionWindowIOS.WindowObject (Session := Session))
    (SessionIOS.SessionObject (Session := Session)) Data}.

Lemma file_at_write p data s :
  exists s', writeToFile p data s = Ok (tt, s') /\ files_only s s' /\
    forall q, file_at q s' = if bool_decide (q = p) then Some data else file_at q s.
Proof.
  unfold writeToFile. rewrite writeToFile_succeeds. eexists. split; [reflexivity|]. split; [done|].
  intros q'. unfold file_at. cbn. case_bool_decide as Hq; [subst; by rewrite lookup_insert_eq; cbn; rewrite lookup_insert_eq|].
  destruct (decide (directory p = directory q')) as [Ed|]; [|by rewrite lookup_insert_ne].
  rewrite <- Ed, lookup_insert_eq. cbn. rewrite lookup_insert_ne.
  - by destruct (disk s !! directory p).
  - intros Ef. apply Hq. destruct p, q'; cbn in *; congruence.
Qed.

Lemma deleteSessionPaths_loop p (keep names : list string) s :
  exists s', mfor names (fun name =>
      if negb (String.prefix (filename p) name) || bool_decide (name ∈ keep) then mreturn tt
      else check (removeItem_ok (mkPath (directory p) name)) ;;;
           mmodify (fun s => with_disk (alter (delete name) (directory p) (disk s)) s)) s = Ok (tt, s') /\
    forall q, file_at q s' =
      if bool_decide (directory q = directory p /\ filename q ∈ names /\ filename q ∉ keep) &&
         String.prefix (filename p) (filename q)
      then None else file_at q s.
Proof.
  revert s. induction names as [|name names IH]; intros s.
  { exists s. split; [done|]. intros q. rewrite bool_decide_eq_false_2; [done|].
    intros (_ & Hn & _). by apply elem_of_nil in Hn. }
  cbn [mfor]. destruct (_ || _) eqn:Ek.
  - destruct (IH s) as (s' & E & Hf). exists s'. split; [exact E|]. intros q. rewrite Hf.
    apply orb_true_iff in Ek as [Ek%negb_true_iff|Ek%bool_decide_eq_true].
    + destruct (String.prefix (filename p) (filename q)) eqn:Eq; [|by rewrite !andb_false_r].
      assert (filename q <> name) by congruence. rewrite !andb_true_r.
      erewrite bool_decide_ext; [reflexivity|]. rewrite elem_of_cons. naive_solver.
    + erewrite (bool_decide_ext (_ /\ _ ∈ name :: _ /\ _)); [reflexivity|].
      rewrite elem_of_cons. naive_solver.
  - unfold check at 1. rewrite removeItem_succeeds.
    set (s1 := with_disk (alter (delete name) (directory p) (disk s)) s).
    destruct (IH s1) as (s' & E & Hf). exists s'. split; [exact E|]. intros q. rewrite Hf.
    apply orb_false_iff in Ek as [Ek%negb_false_iff Hk%bool_decide_eq_false].
    assert (file_at q s1 = if bool_decide (directory q = directory p /\ filename q = name) then None
                           else file_at q s) as ->.
    { unfold file_at, s1. cbn. case_bool_decide as Hq.
      - destruct Hq as [-> ->]. rewrite lookup_alter_eq. destruct (disk s !! directory p); [|done]. cbn.
        by rewrite lookup_delete_eq.
      - destruct (decide (directory p = directory q)) as [Ed|]; [|by rewrite lookup_alter_ne].
        rewrite Ed, lookup_alter_eq. destruct (disk s !! directory q); [|done]. cbn.
        rewrite lookup_delete_ne; naive_solver. }
    destruct (decide (directory q = directory p /\ filename q = name)) as [[Hd Hq]|Hn].
    + rewrite (bool_decide_eq_true_2 (_ /\ filename q = name)), (bool_decide_eq_true_2 (_ /\ _ ∈ name :: _ /\ _));
        [|rewrite elem_of_cons; naive_solver|done].
      rewrite Hq, Ek. cbn. by destruct (_ && _).
    + rewrite (bool_decide_eq_false_2 (_ /\ filename q = name)) by done.
      erewrite (bool_decide_ext (_ /\ _ ∈ name :: _ /\ _)); [reflexivity|].
      rewrite elem_of_cons. naive_solver.
Qed.

(** Of the files of the directory whose name starts with the name of the session,
    the ones to keep are left. *)
Lemma deleteSessionPaths_run p (keep : list string) s :
  exists s', deleteSessionPaths p keep s = Ok (tt, s') /\
    forall q, file_at q s' =
      if bool_decide (directory q = directory p /\ filename q ∉ keep) && String.prefix (filename p) (filename q)
      then None else file_at q s.
Proof.
  unfold deleteSessionPaths. rewrite (mbind_run mget _ _ _ _ eq_refl).
  destruct (disk s !! directory p) as [files|] eqn:Ed.
  - destruct (deleteSessionPaths_loop p keep (map_to_list files).*1 s) as (s' & E & Hf).
    exists s'. split; [exact E|]. intros q. rewrite Hf.
    destruct (decide (filename q ∈ (map_to_list files).*1)) as [Hq|Hq].
    { erewrite bool_decide_ext; [reflexivity|]. naive_solver. }
    rewrite bool_decide_eq_false_2 by naive_solver. cbn.
    case_bool_decide as Hd; [|done]. destruct Hd as [Hd _].
    assert (file_at q s = None) as ->; [|by destruct (_ && _)].
    unfold file_at. rewrite Hd, Ed. cbn. apply eq_None_not_Some. intros [data Hdata].
    apply Hq, list_elem_of_fmap. exists (filename q, data). split; [done|]. by apply elem_of_map_to_list.
  - exists s. split; [done|]. intros q. case_bool_decide as Hd; [|done].
    destruct Hd as [Hd _]. assert (file_at q s = None) as ->; [|by destruct (_ && _)].
    unfold file_at. by rewrite Hd, Ed.
Qed.

(** [filePathForTabID:sessionPath:] does not confuse two tabs, nor a tab and the
    session. *)
Lemma string_app_inj (a b c : string) : (a ++ b)%string = (a ++ c)%string -> b = c.
Proof. induction a as [|x a IH]; cbn; [done|]. intros [= E]. by apply IH. Qed.
#[local] Instance filePathForTabID_inj p : Inj eq eq (fun tab => filePathForTabID tab p).
Proof. intros t1 t2 [= E]. apply string_app_inj in E. by injection E. Qed.
Lemma string_app_length (a b : string) : String.length (a ++ b) = String.length a + String.length b.
Proof. induction a as [|x a IH]; [done|]. change (S (String.length (a ++ b)) = S (String.length a) + String.length b). lia. Qed.
Lemma filePathForTabID_ne tab p : filePathForTabID tab p <> p.
Proof.
  intros E%(f_equal (fun p => String.length (filename p))). cbn in E. unfold fileNameForTabID in E.
  rewrite !string_app_length in E. cbn in E. lia.
Qed.

Lemma write_tabs_run p (contents : list (string * Data)) s :
  NoDup contents.*1 ->
  exists s', mfor contents (fun c =>
      mwhen (negb (data_length c.2 =? 0)%Z) (writeToFile (filePathForTabID c.1 p) c.2)) s = Ok (tt, s') /\
    (forall tab data, (tab, data) ∈ contents -> file_at (filePathForTabID tab p) s' =
       if (data_length data =? 0)%Z then file_at (filePathForTabID tab p) s else Some data) /\
    (forall q, (forall tab, tab ∈ contents.*1 -> q <> filePathForTabID tab p) -> file_at q s' = file_at q s).
Proof.
  revert s. induction contents as [|[tab data] contents IH]; intros s Hnd.
  { exists s. split; [done|]. split; [|done]. intros tab data Hin. by apply elem_of_nil in Hin. }
  apply NoDup_cons in Hnd as [Hnotin Hnd]. cbn [fst snd] in Hnotin.
  assert (exists s1, mwhen (negb (data_length data =? 0)%Z) (writeToFile (filePathForTabID tab p) data) s =
      Ok (tt, s1) /\
    (file_at (filePathForTabID tab p) s1 =
       if (data_length data =? 0)%Z then file_at (filePathForTabID tab p) s else Some data) /\
    forall q, q <> filePathForTabID tab p -> file_at q s1 = file_at q s) as (s1 & E1 & H1 & H2).
  { destruct (data_length data =? 0)%Z; [by exists s|].
    destruct (file_at_write (filePathForTabID tab p) data s) as (s1 & E1 & _ & Hf).
    exists s1. split; [exact E1|]. split; [by rewrite Hf, bool_decide_eq_true_2|].
    intros q Hq. by rewrite Hf, bool_decide_eq_false_2. }
  destruct (IH s1 Hnd) as (s' & E & H3 & H4). exists s'. split; [cbn [mfor fst snd]; by rewrite (mbind_run _ _ _ _ _ E1)|].
  assert (forall tab', tab' ∈ contents.*1 -> filePathForTabID tab p <> filePathForTabID tab' p) as Hother.
  { intros tab' Hin E'. by apply (inj (fun tab => filePathForTabID tab p)) in E' as ->. }
  split.
  - intros tab' data' [[= -> ->]|Hin]%elem_of_cons; [by rewrite H4|].
    rewrite (H3 _ _ Hin), H2; [done|]. intros E'. symmetry in E'. revert E'. apply Hother.
    apply list_elem_of_fmap. by exists (tab', data').
  - intros q Hq. cbn in Hq. rewrite H4, H2; [done| |].
    + apply Hq. by left.
    + intros tab' Hin. apply Hq. by right.
Qed.

(** The files that a save leaves: the session, its tabs when they are saved apart,
    but for one without data, whose file is left as it was; the other files of
    the session are deleted, and those of other sessions left. *)
Definition saved_files data (contents : gmap string Data) p s s' : Prop :=
  file_at p s' = Some data /\
  (flag = true -> forall tab tab_data, contents !! tab = Some tab_data ->
     file_at (filePathForTabID tab p) s' =
       if (data_length tab_data =? 0)%Z then file_at (filePathForTabID tab p) s else Some tab_data) /\
  (forall q, q <> p -> (flag = true -> forall tab, is_Some (contents !! tab) -> q <> filePathForTabID tab p) ->
     file_at q s' =
       if bool_decide (directory q = directory p) && String.prefix (filename p) (filename q) then None
       else file_at q s).

Lemma ensure_directory_run p s :
  exists s0, match disk s !! directory p with
    | None =>
        if is_plain_file (directory p) || negb (createDirectory_ok (directory p)) then mfail NotReached
        else mmodify (with_disk (<[directory p := ∅]> (disk s)))
    | Some _ => mreturn tt
    end s = Ok (tt, s0) /\ forall q, file_at q s0 = file_at q s.
Proof.
  destruct (disk s !! directory p) eqn:Ed; [by exists s|].
  rewrite not_a_plain_file, createDirectory_succeeds. eexists. split; [reflexivity|].
  intros q. unfold file_at. cbn. destruct (decide (directory p = directory q)) as [Eq|]; [|by rewrite lookup_insert_ne].
  by rewrite <- Eq, lookup_insert_eq, Ed.
Qed.

Lemma write_all_tabs_run p (c : gmap string Data) s :
  exists s', mwhen flag (mfor (map_to_list c) (fun (x : string * Data) =>
      mwhen (negb (data_length x.2 =? 0)%Z) (writeToFile (filePathForTabID x.1 p) x.2))) s = Ok (tt, s') /\
    (flag = true -> forall tab tab_data, c !! tab = Some tab_data -> file_at (filePathForTabID tab p) s' =
       if (data_length tab_data =? 0)%Z then file_at (filePathForTabID tab p) s else Some tab_data) /\
    (forall q, (flag = true -> forall tab, is_Some (c !! tab) -> q <> filePathForTabID tab p) ->
       file_at q s' = file_at q s).
Proof.
  destruct flag; [|by exists s].
  destruct (write_tabs_run p (map_to_list c) s (NoDup_fst_map_to_list c)) as (s' & E & H2 & H3).
  exists s'. split; [exact E|]. split.
  - intros _ tab tab_data Htab. by apply H2, elem_of_map_to_list.
  - intros q Hq. apply H3. intros tab ([tab' d] & -> & Hin)%list_elem_of_fmap.
    apply (Hq eq_refl). exists d. by apply elem_of_map_to_list.
Qed.

Lemma performSaveSessionData_run data contents p s :
  exists s', performSaveSessionData flag data contents p s = Ok (tt, s') /\
    files_only s s' /\ saved_files data (default ∅ contents) p s s'.
Proof.
  set (c := default ∅ contents).
  assert (exists s', performSaveSessionData flag data contents p s = Ok (tt, s') /\
    saved_files data c p s s') as (s' & E & Hs);
    [|exists s'; split; [done|]; split; [by eapply performSaveSessionData_files_only|done]].
  unfold performSaveSessionData. rewrite (mbind_run mget _ _ _ _ eq_refl). fold c.
  destruct (ensure_directory_run p s) as (s0 & E0 & H0). rewrite (mbind_run _ _ _ _ _ E0).
  match goal with |- context [deleteSessionPaths p ?k] => set (keep := k) end.
  destruct (deleteSessionPaths_run p keep s0) as (s1 & E1 & H1). rewrite (mbind_run _ _ _ _ _ E1).
  assert (forall tab, flag = true -> is_Some (c !! tab) -> filename (filePathForTabID tab p) ∈ keep) as Htabs.
  { intros tab Hflag [tab_data Htab]. right. rewrite Hflag. apply list_elem_of_fmap.
    exists (tab, tab_data). split; [done|]. by apply elem_of_map_to_list. }
  destruct (write_all_tabs_run p c s1) as (s2 & E2 & H2 & H3).
  rewrite (mbind_run _ _ _ _ _ E2).
  destruct (file_at_write p data s2) as (s' & E & _ & H4). exists s'. split; [exact E|].
  split; [by rewrite H4, bool_decide_eq_true_2|]. split.
  - intros Hflag tab tab_data Htab.
    rewrite H4, bool_decide_eq_false_2 by apply filePathForTabID_ne. rewrite (H2 Hflag _ _ Htab).
    destruct (data_length tab_data =? 0)%Z; [|done]. rewrite H1, H0, bool_decide_eq_false_2; [done|].
    intros [_ Hk]. by apply Hk, Htabs; [|eexists].
  - intros q Hqp Hq. rewrite H4, bool_decide_eq_false_2, (H3 q Hq), H1, H0 by done.
    destruct (decide (directory q = directory p)) as [Ed|]; [|by rewrite !bool_decide_eq_false_2 by naive_solver].
    rewrite !bool_decide_eq_true_2; [done..|]. split; [done|].
    intros [Ef|Hin]%elem_of_cons.
    + apply Hqp. destruct p, q. cbn in *. congruence.
    + destruct flag; [|by apply elem_of_nil in Hin].
      apply list_elem_of_fmap in Hin as ([tab d] & Ef & Hin). apply elem_of_map_to_list in Hin.
      apply (Hq eq_refl tab); [by eexists|]. destruct q. cbn in *. unfold filePathForTabID. congruence.
Qed.

Lemma deletePaths_run paths s : exists s', deletePaths paths s = Ok (tt, s').
Proof.
  unfold deletePaths. revert s. induction paths as [|p paths IH]; intros s; [by eexists|].
  assert (exists s1, (let! s := mget in match file_at p s with None => mreturn tt
    | Some _ => deleteSessionPaths p [] end) s = Ok (tt, s1)) as (s1 & E1).
  { rewrite (mbind_run mget _ _ _ _ eq_refl). destruct (file_at p s); [|by eexists].
    destruct (deleteSessionPaths_run p [] s) as (s1 & E1 & _). by eexists. }
  cbn [mfor]. rewrite (mbind_run _ _ _ _ _ E1). apply IH.
Qed.

(** ** Tasks *)

Lemma run_task_total s : exists s', run_task flag s = Ok (tt, s').
Proof.
  unfold run_task. rewrite (mbind_run mget _ _ _ _ eq_refl). destruct (posted_tasks s) as [|task rest]; [by eexists|].
  rewrite (mbind_run (mmodify _) _ _ tt _ eq_refl). destruct task as [data contents p|paths].
  - destruct (performSaveSessionData_run data contents p (with_posted rest s)) as (s' & E & _). by exists s'.
  - apply deletePaths_run.
Qed.

(** The session and its tabs are on disk. *)
Definition written data (contents : gmap string Data) p s : Prop :=
  file_at p s = Some data /\
  (flag = true -> forall tab tab_data, contents !! tab = Some tab_data -> data_length tab_data <> 0%Z ->
     file_at (filePathForTabID tab p) s = Some tab_data).

Lemma run_tasks_until tasks data contents p rest s :
  posted_tasks s = tasks ++ SaveTask data contents p :: rest ->
  exists s', exec_all flag (replicate (S (length tasks)) RunTask) s = Ok (tt, s') /\
    written data (default ∅ contents) p s'.
Proof.
  unfold exec_all. revert s. induction tasks as [|task tasks IH]; intros s Et.
  - destruct (performSaveSessionData_run data contents p (with_posted rest s)) as (s' & E & _ & Hp & Ht & _).
    exists s'. split.
    + cbn. rewrite (mbind_run _ _ s tt s'); [done|]. unfold run_task.
      rewrite (mbind_run mget _ _ _ _ eq_refl), Et. exact E.
    + split; [done|]. intros Hflag tab tab_data Htab Hl. rewrite (Ht Hflag _ _ Htab).
      by rewrite (proj2 (Z.eqb_neq _ _) Hl).
  - destruct (run_task_total s) as (s1 & E1).
    destruct (IH s1) as (s' & E & Hw).
    { destruct (run_task_run _ _ E1) as (_ & _ & -> & _). cbn. by rewrite Et. }
    exists s'. split; [|done]. change (length (task :: tasks)) with (S (length tasks)).
    rewrite replicate_S. cbn [mfor exec]. by rewrite (mbind_run _ _ _ _ _ E1).
Qed.

(** ** A session that can be saved *)

(** The tabs that a task gets. *)
Definition tabs_of (session : Saved) : option (gmap string Data) :=
  if flag then Some (SessionIOS.sessionTabContents session) else None.

Lemma performSave_posts p s id f session f' archive data :
  objectForKey p s = Some (id, f) -> sessionForSaving f = Ok (Some session, f') ->
  SessionIOS.encodeWithCoder flag session ∅ = Ok (tt, archive) -> keyed_archive archive = Some data ->
  exists s', performSaveToPathInBackground flag p s = Ok (tt, s') /\
    posted_tasks s' = posted_tasks s ++ [SaveTask data (tabs_of session) p] /\
    factories s' = <[id := f']> (factories s).
Proof.
  intros Ho Hf He Hd. unfold performSaveToPathInBackground. rewrite (mbind_run mget _ _ _ _ eq_refl).
  rewrite (mbind_run (mmodify _) _ _ tt _ eq_refl), Ho, Hf, (mbind_run (mmodify _) _ _ tt _ eq_refl).
  erewrite mbind_run.
  2: { unfold archivedDataWithRootObject, archive_session, or_not_reached, CRWSessionStorage.archive_object, mbind. cbn.
       rewrite He. cbn. by rewrite Hd. }
  by eexists.
Qed.

(** What archiving promises: the sessions of the windows are archived without
    loss. *)
Context (storable : Session -> Prop) (same : relation Session) `{!NSCodingLaws Session storable same}.

(** An immediate save posts its task. *)
Lemma saveSession_now id sid dir f session f' archive data s :
  sid <> EmptyString -> factories s !! id = Some f ->
  sessionForSaving f = Ok (Some session, f') ->
  SessionIOS.encodeWithCoder flag session ∅ = Ok (tt, archive) -> keyed_archive archive = Some data ->
  exists s', saveSession flag id sid dir true s = Ok (tt, s') /\
    posted_tasks s' = posted_tasks s ++ [SaveTask data (tabs_of session) (path_of sid dir)] /\
    factories s' = <[id := f']> (factories s).
Proof.
  intros Hsid Hid Hf He Hd. set (p := path_of sid dir).
  destruct (performSave_posts p (with_delayed [] (with_pending (<[p := id]> (_pendingSessions s)) s))
    id f session f' archive data) as (s2 & E2 & Et & Ef); [|done..|].
  { unfold objectForKey. cbn. by rewrite lookup_insert_eq; cbn; rewrite Hid. }
  exists s2. split; [|done]. unfold saveSession, sessionPathForSessionID. by destruct sid.
Qed.

(** A session in its file is loaded: the same windows, each with the same sessions
    and selection. *)
Lemma load_written sid dir session archive data s :
  sid <> EmptyString -> SessionIOS.storable_session storable session ->
  SessionIOS.encodeWithCoder flag session ∅ = Ok (tt, archive) -> keyed_archive archive = Some data ->
  file_at (path_of sid dir) s = Some data ->
  exists session', loadSessionWithSessionID flag sid dir s = Ok (Some session', s) /\
    SessionIOS.same_session same session' session.
Proof.
  intros Hsid Hs He Hd Hf.
  destruct (SessionIOS.session_coding_laws flag storable same session Hs) as (archive' & He' & session' & Hl & Hsame).
  cbn in He', Hl. rewrite He in He'. injection He' as <-. exists session'. split; [|done].
  unfold loadSessionWithSessionID, sessionPathForSessionID. destruct sid as [|a sid]; [done|].
  cbn [String.length Nat.eqb negb]. unfold dcheck, loadSessionFromPath, mbind, mget, mreturn.
  unfold path_of in Hf. rewrite Hf, (keyed_root_archive _ _ Hd).
  unfold unarchive_session, or_not_reached, CRWSessionStorage.unarchive_object. cbn. by rewrite Hl.
Qed.

(** ** Delayed saves are done *)

(** Each pending save has a delayed call. *)
Definition tracked s : Prop := forall p, is_Some (_pendingSessions s !! p) -> p ∈ delayed_performs s.

(** No immediate save of a session while another is pending. *)
Definition orderly x s : Prop :=
  match x with
  | Save _ sid dir true => forall q, q <> path_of sid dir -> _pendingSessions s !! q = None
  | _ => True
  end.

Lemma tracked_perform p s s' :
  (forall q, q <> p -> is_Some (_pendingSessions s !! q) -> q ∈ delayed_performs s) ->
  performed p s s' -> tracked s'.
Proof.
  intros Hq [Ep Ed _ _ _] q. rewrite Ep, Ed. destruct (decide (p = q)) as [->|].
  - rewrite lookup_delete_eq. by intros [? ?].
  - rewrite lookup_delete_ne by done. by apply Hq.
Qed.

Lemma tracked_step x s s' : tracked s -> orderly x s -> exec flag x s = Ok (tt, s') -> tracked s'.
Proof.
  intros Ht Hx He. destruct x as [id sid d imm| | |id f|id|ids dir]; cbn [exec orderly] in He, Hx.
  - apply saveSession_run in He. cbv zeta in He. set (p := path_of sid d) in *. destruct imm.
    + apply tracked_perform in He; [done|]. intros q Hqp [id' Hq]. exfalso. cbn in Hq.
      rewrite lookup_insert_ne in Hq by done. by rewrite (Hx q Hqp) in Hq.
    + subst s'. intros q. case_bool_decide as Hp; cbn; destruct (decide (p = q)) as [<-|].
      * intros _. apply Ht. apply objectForKey_alive in Hp as (id' & ? & _). by eexists.
      * rewrite lookup_insert_ne by done. apply Ht.
      * intros _. apply elem_of_app. right. by left.
      * rewrite lookup_insert_ne by done. intros Hq. apply elem_of_app. left. by apply Ht.
  - unfold fire in He. rewrite (mbind_run mget _ _ _ _ eq_refl) in He.
    destruct (delayed_performs s) as [|path rest] eqn:Ed; [by injection He as <-|].
    rewrite (mbind_run (mmodify _) _ _ tt _ eq_refl) in He. apply performSave_spec in He.
    apply tracked_perform in He; [done|]. intros q Hqp Hq. apply Ht in Hq. rewrite Ed in Hq. cbn.
    by apply elem_of_cons in Hq as [->|].
  - apply run_task_run in He as (Ep & Ed & _). intros q. rewrite Ep, Ed. apply Ht.
  - by injection He as <-.
  - by injection He as <-.
  - by apply deleteSessions_run in He as (paths & ->).
Qed.

Lemma tracked_steps l s s' :
  tracked s -> along orderly l s -> exec_all flag l s = Ok (tt, s') -> tracked s'.
Proof.
  revert s. induction l as [|x l IH]; intros s Hs Hl He; [by injection He as <-|].
  destruct Hl as [Hx Hl]. apply mbind_ok in He as ([] & s1 & E1 & E2).
  eapply IH; [by eapply tracked_step|by apply Hl|done].
Qed.

(** What the service needs of the factories: asked for a session, they answer,
    and can be asked again. *)
Context (good : F -> Prop) (sessionForSaving_good : forall f, good f ->
  exists session f', sessionForSaving f = Ok (session, f') /\ good f' /\
    forall session', session = Some session' -> SessionIOS.storable_session storable session').

Definition all_good s : Prop := map_Forall (fun _ => good) (factories s).

Lemma fire_good q rest s :
  all_good s -> delayed_performs s = q :: rest ->
  exists s', fire flag s = Ok (tt, s') /\ performed q (with_delayed rest s) s' /\ all_good s' /\
    forall id, _pendingSessions s !! q <> Some id -> factories s' !! id = factories s !! id.
Proof.
  intros Hg Ed. set (s0 := with_delayed rest s).
  assert (exists s', performSaveToPathInBackground flag q s0 = Ok (tt, s') /\ all_good s' /\
    forall id, _pendingSessions s !! q <> Some id -> factories s' !! id = factories s !! id) as (s' & E & Hs).
  { unfold performSaveToPathInBackground. rewrite (mbind_run mget _ _ _ _ eq_refl).
    rewrite (mbind_run (mmodify _) _ _ tt _ eq_refl). destruct (objectForKey q s0) as [[id f]|] eqn:Eo; [|by eexists].
    apply bind_Some in Eo as (id' & Hp & (f0 & Hf & [= -> ->])%bind_Some). cbn in Hp, Hf.
    destruct (sessionForSaving_good f) as (session & f' & -> & Hf' & Hs); [by eapply Hg|].
    rewrite (mbind_run (mmodify _) _ _ tt _ eq_refl).
    assert (map_Forall (fun _ => good) (<[id := f']> (factories s)) /\
      forall id', _pendingSessions s !! q <> Some id' -> <[id := f']> (factories s) !! id' = factories s !! id') as Hd.
    { split; [by apply map_Forall_insert_2|]. intros id' Hid. rewrite lookup_insert_ne; [done|congruence]. }
    destruct session as [session|]; [|by eexists].
    destruct (SessionIOS.session_coding_laws flag storable same session (Hs _ eq_refl)) as (archive & He & _).
    cbn in He. erewrite mbind_run.
    2: { unfold archivedDataWithRootObject, archive_session, or_not_reached, CRWSessionStorage.archive_object, mbind. cbn.
         by rewrite He. }
    case_match; by eexists. }
  exists s'. split; [|split; [by apply (performSave_spec q s0)|done]].
  unfold fire. by rewrite (mbind_run mget _ _ _ _ eq_refl), Ed, (mbind_run (mmodify _) _ _ tt _ eq_refl).
Qed.

Lemma fires_until p id f s :
  all_good s -> objectForKey p s = Some (id, f) -> (forall q, _pendingSessions s !! q = Some id -> q = p) ->
  p ∈ delayed_performs s ->
  exists n s1 rest, n < length (delayed_performs s) /\ exec_all flag (replicate n Fire) s = Ok (tt, s1) /\
    objectForKey p s1 = Some (id, f) /\ delayed_performs s1 = p :: rest.
Proof.
  remember (delayed_performs s) as delayed eqn:Ed. revert s Ed.
  induction delayed as [|q delayed IH]; intros s Ed Hg Ho Hu Hin; [by apply elem_of_nil in Hin|].
  symmetry in Ed. destruct (decide (p = q)) as [<-|Hn].
  { exists 0, s, delayed. cbn. split; [lia|]. done. }
  apply elem_of_cons in Hin as [|Hin]; [done|].
  destruct (fire_good q delayed s Hg Ed) as (s1 & E1 & Hp & Hg1 & Hf).
  destruct (IH s1) as (n & s2 & rest & Hlt & E2 & Hr); [by rewrite (performed_delayed _ _ _ Hp)|done| |
    |done|].
  - apply bind_Some in Ho as (id' & Hpe & (f0 & Hfa & [= -> ->])%bind_Some). unfold objectForKey.
    rewrite (performed_pending _ _ _ Hp), lookup_delete_ne by done. cbn. rewrite Hpe. cbn.
    rewrite Hf; [by rewrite Hfa|]. intros Hq. by apply Hu in Hq.
  - intros q' Hq'. rewrite (performed_pending _ _ _ Hp) in Hq'. apply lookup_delete_Some in Hq' as [_ Hq'].
    by apply Hu.
  - exists (S n), s2, rest. cbn. split; [lia|]. split; [|done].
    unfold exec_all. cbn [replicate mfor exec]. by rewrite (mbind_run _ _ _ _ _ E1).
Qed.

Lemma exec_all_app l1 l2 s s1 : exec_all flag l1 s = Ok (tt, s1) ->
  exec_all flag (l1 ++ l2) s = exec_all flag l2 s1.
Proof.
  unfold exec_all. revert s. induction l1 as [|x l1 IH]; intros s; [by intros [= <-]|].
  intros ([] & s2 & E1 & E2)%mbind_ok. cbn. rewrite (mbind_run _ _ _ _ _ E1). by apply IH.
Qed.

Lemma delayed_save_done p id f session f' archive data s :
  p ∈ delayed_performs s -> all_good s ->
  objectForKey p s = Some (id, f) -> (forall q, _pendingSessions s !! q = Some id -> q = p) ->
  sessionForSaving f = Ok (Some session, f') ->
  SessionIOS.encodeWithCoder flag session ∅ = Ok (tt, archive) -> keyed_archive archive = Some data ->
  exists n m s', n <= length (delayed_performs s) /\
    exec_all flag (replicate n Fire ++ replicate m RunTask) s = Ok (tt, s') /\
    written data (default ∅ (tabs_of session)) p s'.
Proof.
  intros Hin Hg Ho Hu Hf Hea Hd.
  destruct (fires_until p id f s Hg Ho Hu Hin) as (n & s1 & rest & Hn & E1 & Ho1 & Ed1).
  destruct (performSave_posts p (with_delayed rest s1) id f session f' archive data Ho1 Hf Hea Hd) as (s2 & E2 & Et & _).
  destruct (run_tasks_until _ data (tabs_of session) p [] s2 Et) as (s3 & E3 & Hw).
  exists (S n), (S (length (posted_tasks s1))), s3. split; [lia|]. split; [|done].
  rewrite replicate_S_end, <- app_assoc, (exec_all_app _ _ _ _ E1).
  rewrite (exec_all_app [Fire] _ s1 s2); [exact E3|].
  cbn. rewrite (mbind_run _ _ s1 tt s2); [done|].
  unfold fire. by rewrite (mbind_run mget _ _ _ _ eq_refl), Ed1, (mbind_run (mmodify _) _ _ tt _ eq_refl).
Qed.

(** C10: a delayed save is done: from the start, as long as no session is saved
    immediately while another is pending, a pending save of a window that has a
    session to save is on disk after the delayed calls and the tasks of the
    queue. *)
Theorem delayed_save_reaches_disk l p id f session f' archive data s :
  along orderly l init -> exec_all flag l init = Ok (tt, s) -> all_good s ->
  objectForKey p s = Some (id, f) -> (forall q, _pendingSessions s !! q = Some id -> q = p) ->
  sessionForSaving f = Ok (Some session, f') ->
  SessionIOS.encodeWithCoder flag session ∅ = Ok (tt, archive) -> keyed_archive archive = Some data ->
  exists n m s', n <= length (delayed_performs s) /\
    exec_all flag (replicate n Fire ++ replicate m RunTask) s = Ok (tt, s') /\
    written data (default ∅ (tabs_of session)) p s'.
Proof.
  intros Hl He Hg Ho. apply delayed_save_done; [|done..]. assert (tracked s) as Ht by (eapply tracked_steps; [|done..]; by intros q [id' Hq]).
  apply Ht. apply bind_Some in Ho as (id' & Hp & _). by eexists.
Qed.

End Service.
End SessionServiceTheorems.
(** ** The factories of the windows *)

Module SessionIOSFactoryTheorems.
Import WebStateList WebStateListOps WebStateListSerialization SerializationProofs.
Import SessionIOSFactory.

Section Factory.
Context `{WebStateEnv} `{WebEnv} `{NSStringOps}.
Context {CertCache Data : Type} `{!NSCoding CertCache}.
Context (cert_storable : CertCache -> Prop) (cert_same : relation CertCache).
Abbreviation Factory := (SessionIOSFactory.t (CertCache := CertCache) (Data := Data)).
Implicit Types (f : Factory) (w : World).

(** A list of WebStates whose sessions can be archived. *)
Definition list_ok (env : SerializationEnv (CertCache := CertCache) (Data := Data)) w : Prop :=
  wf (world_list w) /\ (count (world_list w) <= INT_MAX)%Z /\
  forall ws, CRWSessionStorage.storable cert_storable (env_session env ws).
Definition factory_ok f : Prop :=
  match _webStateList f with Some w => list_ok (web_states_env f) w | None => True end.

(** A session is given when the list can be saved, and then no DCHECK of
    [SerializeWebStateList] fails: [canSaveCurrentSession] is what it needs. *)
Lemma sessionForSaving_run f :
  factory_ok f ->
  if canSaveCurrentSession f
  then exists w window w', _webStateList f = Some w /\
    SerializeWebStateList (web_states_env f) (Some (_dirtyWebStates f)) w = Ok (window, w') /\
    sessionForSaving f =
      Ok (Some (SessionIOS.initWithWindows [window]), mk (Some w') (web_states_env f) ∅) /\
    world_list w' = world_list w /\
    SessionWindowIOS.sessions window = omap (session_at (web_states_env f) w) (kept_indexes (web_states_env f) (world_list w)) /\
    SessionWindowIOS.selectedIndex window = saved_selection (web_states_env f) (world_list w) /\
    SessionWindowIOS.valid window = true /\ (0 <= SessionWindowIOS.selectedIndex window)%Z
  else sessionForSaving f = Ok (None, f).
Proof.
  intros Hok. destruct (canSaveCurrentSession f) eqn:Ec;
    unfold sessionForSaving; rewrite (mbind_run mget _ _ _ _ eq_refl), Ec; [|done].
  unfold canSaveCurrentSession, factory_ok in *. destruct (_webStateList f) as [w|] eqn:Ew; [|done].
  destruct Hok as (Hwf & Hmax & _). pose proof (Serialize_ok (web_states_env f) (Some (_dirtyWebStates f)) w Hwf Hmax) as Hs.
  assert (kept_indexes (web_states_env f) (world_list w) <> [] -> active_index_ (world_list w) <> kInvalidIndex) as Hact.
  { intros Hk Ha. apply negb_true_iff, andb_false_iff in Ec as [Ee%negb_false_iff|Hn%bool_decide_eq_false].
    + apply Hk. unfold kept_indexes, all_indexes, empty, count in *. by destruct (web_state_wrappers_ _).
    + apply Hn. by apply WebStateListProofs.active_web_state_kInvalid. }
  cbv zeta in Hs. rewrite bool_decide_eq_false_2 in Hs by tauto.
  destruct Hs as (window & w' & Hs & Hl & Hse & _ & Hsel & Hv). exists w, window, w'.
  cbn [negb]. rewrite Hs. split_and!; try done. rewrite Hsel. by apply saved_selection_range.
Qed.

(** What the service needs of a factory. *)
Lemma factory_answers f :
  factory_ok f ->
  exists session f', sessionForSaving f = Ok (session, f') /\ factory_ok f' /\
    forall session', session = Some session' ->
      SessionIOS.storable_session (CRWSessionStorage.storable cert_storable) session'.
Proof.
  intros Hok. pose proof (sessionForSaving_run f Hok) as Hr.
  destruct (canSaveCurrentSession f); [|by exists None, f].
  destruct Hr as (w & window & w' & Ew & _ & -> & Hl & Hse & Hsel & Hv & Hpos).
  unfold factory_ok in Hok. rewrite Ew in Hok. destruct Hok as (Hwf & Hmax & Hst).
  eexists _, _. split; [reflexivity|]. split; [unfold factory_ok, list_ok; cbn; by rewrite Hl|].
  intros session [= <-]. constructor; [|constructor].
  assert (length (SessionWindowIOS.sessions window) = length (kept_indexes (web_states_env f) (world_list w))) as Hlen.
  { rewrite Hse. apply length_session_at, kept_in_range. }
  pose proof (count_removing_of (web_states_env f) (world_list w)) as Hc.
  split; [done| | |].
  - done.
  - rewrite Hlen. pose proof (WebStateListRemovingIndexes.count_elems (removing_of (web_states_env f) (world_list w))). lia.
  - rewrite Hse. apply Forall_forall. intros s Hs. apply list_elem_of_omap in Hs as (i & _ & Hs).
    apply fmap_Some in Hs as (wr & _ & ->).
    destruct (Hst (WebStateWrapper.web_state_ wr)) as [? ? ? ? ?]. by split.
Qed.

(** ** From a list to a file and back *)

Context (uuid : string) `{!GURLLaws H0} `{!NSCodingLaws CertCache cert_storable cert_same}.
#[local] Existing Instance SessionServiceIOS.SessionIOSFactory_factory.
#[local] Instance session_coding : NSCoding (CRWSessionStorage.t (CertCache := CertCache)) :=
  CRWSessionStorage.session_coding uuid.
#[local] Instance session_laws : NSCodingLaws (CRWSessionStorage.t (CertCache := CertCache))
    (CRWSessionStorage.storable cert_storable) (CRWSessionStorage.same cert_same) :=
  CRWSessionStorage.session_coding_laws cert_storable cert_same uuid.
Context `{!SessionServiceIOS.Platform
    (SessionWindowIOS.WindowObject (Session := CRWSessionStorage.t (CertCache := CertCache)))
    (SessionIOS.SessionObject (Session := CRWSessionStorage.t (CertCache := CertCache))) Data}.
Context (flag : bool).
Context `{!SessionServiceTheorems.PlatformLaws
    (SessionWindowIOS.WindowObject (Session := CRWSessionStorage.t (CertCache := CertCache)))
    (SessionIOS.SessionObject (Session := CRWSessionStorage.t (CertCache := CertCache))) Data}.
Context (archiving_succeeds : forall archive, is_Some (SessionServiceIOS.keyed_archive archive)).
Import SessionServiceIOS.

(** The session of a window that can be saved, its archive, and what is loaded from
    a file that has it. *)
Lemma session_to_save f :
  factory_ok f -> canSaveCurrentSession f = true ->
  let env := web_states_env f in
  exists w window w' archive data,
    _webStateList f = Some w /\ SerializeWebStateList env (Some (_dirtyWebStates f)) w = Ok (window, w') /\
    world_list w' = world_list w /\
    sessionForSaving f = Ok (Some (SessionIOS.initWithWindows [window]), SessionIOSFactory.mk (Some w') env ∅) /\
    SessionIOS.encodeWithCoder flag (SessionIOS.initWithWindows [window]) ∅ = Ok (tt, archive) /\
    keyed_archive archive = Some data /\
    forall sid dir (v : SessionServiceIOS.t (Data := Data) (F := Factory)), sid <> EmptyString ->
    file_at (SessionServiceTheorems.path_of sid dir) v = Some data ->
    exists window', loadSessionWithSessionID flag sid dir v = Ok (Some (SessionIOS.initWithWindows [window']), v) /\
      SessionWindowIOS.valid window' = true /\
      Forall2 (CRWSessionStorage.same cert_same) (SessionWindowIOS.sessions window')
        (omap (session_at env w) (kept_indexes env (world_list w))) /\
      SessionWindowIOS.selectedIndex window' = saved_selection env (world_list w) /\
      (0 <= SessionWindowIOS.selectedIndex window')%Z.
Proof.
  intros Hok Hcan env. pose proof (sessionForSaving_run f Hok) as Hr. rewrite Hcan in Hr.
  destruct Hr as (w & window & w' & Ew & Es & Ef & Hl & Hse & Hsel & _ & Hpos).
  destruct (factory_answers f Hok) as (session & f' & Ef' & _ & Hst). rewrite Ef in Ef'.
  injection Ef' as <- <-. specialize (Hst _ eq_refl).
  destruct (SessionIOS.session_coding_laws flag _ _ _ Hst) as (archive & He & _). cbn in He.
  destruct (archiving_succeeds archive) as [data Hd].
  exists w, window, w', archive, data. do 6 (split; [done|]). intros sid dir v Hsid Hf.
  destruct (SessionServiceTheorems.load_written flag _ (CRWSessionStorage.same cert_same)
    sid dir _ archive data v Hsid Hst He Hd Hf) as ([windows] & El & Hsame).
  unfold SessionIOS.same_session in Hsame. cbn in Hsame.
  apply Forall2_cons_inv_r in Hsame as (window' & l & [Hv Hss Hsi] & Hl' & ->). apply Forall2_nil_inv_r in Hl' as ->.
  exists window'. rewrite Hse in Hss. rewrite Hsi. by split_and!.
Qed.

(** a list of tabs comes back from disk: a window that can be saved is saved
    immediately without a failing DCHECK, and when the tasks posted before and its
    own are done, the session loaded from the same identifier is one window whose
    sessions are those of the tabs that have a history, in order, with the same
    selection; and each tab with data is in its file. *)
Theorem saved_list_loads id sid dir f (s : SessionServiceIOS.t (Data := Data) (F := Factory)) :
  sid <> EmptyString -> factories s !! id = Some f -> factory_ok f -> canSaveCurrentSession f = true ->
  let env := web_states_env f in
  exists w window w' window' s',
    _webStateList f = Some w /\ SerializeWebStateList env (Some (_dirtyWebStates f)) w = Ok (window, w') /\
    exec_all flag (Save id sid dir true :: replicate (S (length (posted_tasks s))) RunTask) s = Ok (tt, s') /\
    loadSessionWithSessionID flag sid dir s' = Ok (Some (SessionIOS.initWithWindows [window']), s') /\
    Forall2 (CRWSessionStorage.same cert_same) (SessionWindowIOS.sessions window')
      (omap (session_at env w) (kept_indexes env (world_list w))) /\
    SessionWindowIOS.selectedIndex window' = saved_selection env (world_list w) /\
    (flag = true -> forall tab tab_data, default ∅ (SessionWindowIOS.tabContents window) !! tab = Some tab_data ->
       data_length tab_data <> 0%Z ->
       file_at (filePathForTabID tab (SessionServiceTheorems.path_of sid dir)) s' = Some tab_data).
Proof.
  intros Hsid Hid Hok Hcan env.
  destruct (session_to_save f Hok Hcan) as (w & window & w' & archive & data & Ew & Es & _ & Ef & He & Hd & Hload).
  destruct (SessionServiceTheorems.saveSession_now flag id sid dir f (SessionIOS.initWithWindows [window])
    (SessionIOSFactory.mk (Some w') env ∅) archive data s) as (s1 & E1 & Et & _); [done..|].
  destruct (SessionServiceTheorems.run_tasks_until flag (posted_tasks s) data _ _ [] s1 Et) as (s' & E2 & Hw & Ht).
  destruct (Hload sid dir s' Hsid Hw) as (window' & El & _ & Hss & Hsi & _).
  exists w, window, w', window', s'. split_and!; try done.
  - unfold exec_all. cbn [mfor exec]. by rewrite (mbind_run _ _ _ _ _ E1).
  - intros Hflag tab tab_data Htab Hn. apply Ht; [done| |done]. unfold SessionServiceTheorems.tabs_of.
    rewrite Hflag. cbn. unfold SessionIOS.sessionTabContents. cbn. by rewrite (right_id_L ∅ (∪)).
Qed.

End Factory.
End SessionIOSFactoryTheorems.

(** ** Concrete runs *)

Module ExampleSessions.
Import SessionServiceIOS SessionServiceTheorems.
#[local] Existing Instances ExampleSession.no_certs ExampleSession.no_certs_laws.

(** Archives are kept as they are; nothing goes wrong with files. *)
Definition Bytes (Session : Type) `{!NSCoding Session} : Type :=
  (string + NSCoder.t (SessionIOS.SessionObject (Session := Session)))%type.
#[export] Instance platform {Session} `{!NSCoding Session} :
  Platform (SessionWindowIOS.WindowObject (Session := Session)) (SessionIOS.SessionObject (Session := Session))
    (Bytes Session) :=
  {| keyed_archive archive := Some (inr archive);
     keyed_root data := match data with inr archive => Some (SessionRoot archive) | inl _ => None end;
     data_length data := match data with inl s => Z.of_nat (String.length s) | inr _ => 1%Z end;
     createDirectory_ok _ := true; is_plain_file _ := false; writeToFile_ok _ := true; removeItem_ok _ := true |}.

#[export] Instance platform_laws {Session} `{!NSCoding Session} :
  PlatformLaws (SessionWindowIOS.WindowObject (Session := Session)) (SessionIOS.SessionObject (Session := Session))
    (Bytes Session).
Proof. split; try done. by intros archive data [= <-]. Qed.

(** A factory that has a session or none. *)
Abbreviation Saved := (SessionIOS.t (Session := unit) (Data := Bytes unit)).
#[local] Instance const_factory : SessionFactory (option Saved) Saved := fun f => Ok (f, f).
Definition good (f : option Saved) : Prop :=
  forall session, f = Some session -> SessionIOS.storable_session (fun _ => True) session.

Definition one_tab : Saved :=
  SessionIOS.initWithWindows [SessionWindowIOS.mk [tt] None (Some {["id" := inl "tab"]}) 0%Z].

Definition run (l : list (Step (F := option Saved))) s : SessionServiceIOS.t :=
  match exec_all true l s with Ok (_, s') => s' | Fault _ => init end.

Definition one_tab_archive : NSCoder.t (SessionIOS.SessionObject (Session := unit)) :=
  match SessionIOS.encodeWithCoder true one_tab ∅ with Ok (_, archive) => archive | Fault _ => ∅ end.

Definition is_ok {A} (r : res A) : bool := match r with Ok _ => true | Fault _ => false end.

Lemma run_ok l s : is_ok (exec_all true l s) = true -> exec_all true l s = Ok (tt, run l s).
Proof. unfold run. by destruct (exec_all true l s) as [[[] s']|]. Qed.
Lemma run_ok_step x s : is_ok (exec true x s) = true -> exec true x s = Ok (tt, run [x] s).
Proof. unfold run, exec_all. cbn [mfor]. unfold mbind. by destruct (exec true x s) as [[[] s']|]. Qed.

(** Two windows; the save of the second one is delayed. *)
Definition start : list (Step (F := option Saved)) :=
  [SetFactory 1%positive (Some one_tab); SetFactory 2%positive (Some one_tab); Save 2%positive "b" "dir" false].
Definition pending_state := run start init.
Definition after_save := run [Save 1%positive "a" "dir" true] pending_state.
Definition later : list (Step (F := option Saved)) :=
  [Save 2%positive "b" "dir" false; Fire; RunTask; RunTask].

(** The steps of a concrete run. *)
Ltac along_run :=
  repeat match goal with
  | |- along _ _ [] _ => exact I
  | |- along _ _ (_ :: _) _ =>
      split; [|let s' := fresh in let E := fresh in intros s' E; vm_compute in E; injection E as <-]
  end.

(** The session of the second window is never written. *)
Lemma immediate_save_strands_others_witness :
  stranded (path_of "b" "dir") (run later after_save) /\
  saves_of (path_of "b" "dir") (run later after_save) = [].
Proof.
  destruct (immediate_save_strands_others true (path_of "b" "dir") 1%positive "a" "dir" later pending_state
    after_save (run later after_save)) as [Hs Hl].
  - by vm_compute.
  - vm_compute. by eexists.
  - by apply run_ok_step.
  - along_run; cbn; try done.
  - by apply run_ok.
  - split; [exact Hs|]. assert (saves_of (path_of "b" "dir") pending_state = []) as E by by vm_compute.
    rewrite E in Hl. by apply suffix_nil_inv in Hl.
Defined.

Lemma only_key `{Countable K} {A} (m : gmap K A) k v q w :
  map_to_list m = [(k, v)] -> m !! q = Some w -> q = k.
Proof. intros Hm Hq%elem_of_map_to_list. rewrite Hm in Hq. by apply list_elem_of_singleton in Hq as [= ->]. Qed.

(** Without the immediate save it is. *)
Lemma delayed_save_reaches_disk_witness :
  exists n m s', n <= 1 /\ exec_all true (replicate n Fire ++ replicate m RunTask) pending_state = Ok (tt, s') /\
    is_Some (file_at (path_of "b" "dir") s').
Proof.
  destruct (delayed_save_reaches_disk (Session := unit) (Data := Bytes unit) (F := option Saved) (Platform0 := platform) true
    (fun _ => True) (fun _ _ => True) good) with (l := start) (p := path_of "b" "dir") (id := 2%positive)
    (f := Some one_tab) (session := one_tab) (f' := Some one_tab)
    (archive := one_tab_archive) (data := inr one_tab_archive : Bytes unit)
    (s := pending_state) as (n & m & s' & Hn & E & Hw & _).
  - intros f Hf. exists f, f. by split_and!.
  - along_run; done.
  - by apply run_ok.
  - assert (good (Some one_tab)) as Hg.
    { intros session [= <-]. constructor; [|constructor]. split; [done..|]. by repeat constructor. }
    unfold all_good. assert (factories pending_state = {[1%positive := Some one_tab; 2%positive := Some one_tab]}) as ->
      by by vm_compute.
    apply map_Forall_insert_2; [exact Hg|]. apply map_Forall_singleton. exact Hg.
  - by vm_compute.
  - intros q Hq. eapply (only_key (_pendingSessions pending_state)); [|exact Hq]. vm_compute. reflexivity.
  - done.
  - by vm_compute.
  - done.
  - exists n, m, s'. split; [exact Hn|]. split; [exact E|]. by rewrite Hw; eexists.
Defined.

(** A window of three tabs, the second without history. *)
Section Tabs.
#[local] Existing Instances WebStateListOrderController.example_env ExampleGURL.ops ExampleGURL.laws.
#[local] Existing Instance SessionIOSFactory_factory.
Import WebStateListSerialization ExampleSession.
Abbreviation Session := (CRWSessionStorage.t (CertCache := unit)).
#[local] Instance tab_coding : NSCoding Session := CRWSessionStorage.session_coding "uuid".

Definition example_environment : SerializationEnv (CertCache := unit) (Data := Bytes Session) :=
  {| env_in_restore _ := false;
     env_GetNavigationItemCount ws := (if (ws =? 2)%positive then 0 else 1)%Z;
     env_session _ := ExampleSession.session_a;
     env_GetStableIdentifier ws := if (ws =? 1)%positive then "id1" else "id3"; env_GetTitle _ := "title";
     env_archivedData _ := Some (inl "data"); env_empty_data := inl EmptyString;
     env_ShouldSaveSessionTabsToSeparateFiles := true |}.

(** The first tab has changed. *)
Definition example_factory : SessionIOSFactory.t (CertCache := unit) (Data := Bytes Session) :=
  SessionIOSFactory.markWebStateDirty 1%positive
    (SessionIOSFactory.initWithWebStateList SerializationRoundTrip.example_world example_environment).
Definition tabs_state : SessionServiceIOS.t (Data := Bytes Session)
    (F := SessionIOSFactory.t (CertCache := unit) (Data := Bytes Session)) :=
  with_factories {[7%positive := example_factory]} init.

Lemma saved_list_loads_witness :
  exists window s',
    exec_all true [Save 7%positive "a" "dir" true; RunTask] tabs_state = Ok (tt, s') /\
    loadSessionWithSessionID true "a" "dir" s' = Ok (Some (SessionIOS.initWithWindows [window]), s') /\
    length (SessionWindowIOS.sessions window) = 2 /\ SessionWindowIOS.selectedIndex window = 1%Z.
Proof.
  destruct (SessionIOSFactoryTheorems.saved_list_loads (fun _ => True) (fun _ _ => True) "uuid"
    (Data := Bytes Session) (H3 := platform) true (fun archive => ex_intro _ _ eq_refl)
    7%positive "a" "dir" example_factory tabs_state) as (w & window & w' & window' & s' & Ew & _ & Ex & El & Hs & Hi & _).
  - done.
  - apply lookup_singleton_eq.
  - split; [exact SerializationRoundTrip.example_list_wf|]. split; [by vm_compute|].
    intros ws. exact ExampleSession.session_a_storable.
  - by vm_compute.
  - injection Ew as <-. exists window', s'. split; [exact Ex|]. split; [exact El|].
    split; [etransitivity; [exact (Forall2_length _ _ _ Hs)|by vm_compute]|]. etransitivity; [exact Hi|by vm_compute].
Defined.
End Tabs.
End ExampleSessions.
