(* ===== verification/SessionSaving.v ===== *)
(** * SessionRestorationBrowserAgent: saving

    The rest of the agent of a window
    (src/chrome/browser/sessions/session_restoration_browser_agent.mm): it asks the
    service to save the session when the tabs change, and restores the session
    that was saved. Its list is the list of its [SessionIOSFactory]. *)

From stdpp Require Import base tactics option list numbers strings gmap.
From Stdlib Require Import ZArith Lia.
From S2P Require Import Prelude WebStateListModel WebStateListOps.
From S2P Require Import WebTypes WkNavigationUtil NavigationItem SessionStorage SessionBuilder SessionWindow.
From S2P Require Import WebStateListSerialization SessionRestoration SessionService.

Module SessionSaving.
Import WebStateList WebStateListSerialization SessionRestorationBrowserAgent.
#[local] Existing Instance SessionServiceIOS.SessionIOSFactory_factory.

Section Code.
Context `{WebStateEnv} `{GURLOps} {CertCache Data : Type}.
Abbreviation Session := (CRWSessionStorage.t (CertCache := CertCache)).
Abbreviation Factory := (SessionIOSFactory.t (CertCache := CertCache) (Data := Data)).
Abbreviation Service := (SessionServiceIOS.t (Data := Data) (F := Factory)).
Context `{!NSCoding Session}
  `{!SessionServiceIOS.Platform (SessionWindowIOS.WindowObject (Session := Session))
      (SessionIOS.SessionObject (Session := Session)) Data}.
Context (ShouldSaveSessionTabsToSeparateFiles : bool) (restoration : RestorationEnv).
(** [WebState::CreateWithStorageSession]; [WebState::IsLoading]. *)
Context (factory : Session -> M World WebStateId) (IsLoading : WebStateId -> bool).

(** The members of the agent that [Agent] does not have; the path of the browser
    state, None when it is null; nil is the empty identifier. [stale] has the
    calls of [SaveSessionStateIfStale]. *)
Record t : Type := mk {
  agent : Agent;
  session_service_ : Service;
  session_ios_factory_ : SessionServiceIOS.FactoryId;
  session_identifier_ : string;
  browser_state_ : option string;
  stale : list WebStateId
}.

Definition with_agent (v : Agent) (s : t) : t :=
  mk v (session_service_ s) (session_ios_factory_ s) (session_identifier_ s) (browser_state_ s) (stale s).
Definition with_service (v : Service) (s : t) : t :=
  mk (agent s) v (session_ios_factory_ s) (session_identifier_ s) (browser_state_ s) (stale s).
Definition with_identifier (v : string) (s : t) : t :=
  mk (agent s) (session_service_ s) (session_ios_factory_ s) v (browser_state_ s) (stale s).
Definition with_stale (v : list WebStateId) (s : t) : t :=
  mk (agent s) (session_service_ s) (session_ios_factory_ s) (session_identifier_ s) (browser_state_ s) v.

(** ** The list that is shared *)

Definition set_list (w : World) (f : Factory) : Factory :=
  SessionIOSFactory.mk ((fun _ => w) <$> SessionIOSFactory._webStateList f) (SessionIOSFactory.web_states_env f)
    (SessionIOSFactory._dirtyWebStates f).

(** The service, whose factory has the list as it is now. *)
Definition shared_service (s : t) : Service :=
  SessionServiceIOS.with_factories
    (alter (set_list (agent_world (agent s))) (session_ios_factory_ s)
       (SessionServiceIOS.factories (session_service_ s))) (session_service_ s).

(** The list, after the factory worked on it. *)
Definition shared_list (v : Service) (s : t) : World :=
  default (agent_world (agent s))
    (SessionServiceIOS.factories v !! session_ios_factory_ s ≫= SessionIOSFactory._webStateList).

Definition on_service {A} (m : M Service A) : M t A :=
  fun s => match m (shared_service s) with
           | Ok (a, v) =>
               let g := mkAgent (shared_list v s) (restoring_session_ (agent s)) (notices (agent s)) in
               Ok (a, with_agent g (with_service v s))
           | Fault f => Fault f
           end.

Definition on_agent {A} (m : M Agent A) : M t A :=
  fun s => match m (agent s) with Ok (a, g) => Ok (a, with_agent g s) | Fault f => Fault f end.

(** ** Saving and restoring *)

Definition SetSessionID (session_identifier : string) : M t unit :=
  dcheck (negb (String.length session_identifier =? 0)) ;;;
  mmodify (with_identifier session_identifier).

(** [web_state_list_] is never null. *)
Definition CanSaveSession (s : t) : bool :=
  let web_state_list := agent_list (agent s) in
  match browser_state_ s with
  | None => false
  | Some _ =>
      negb (negb (WebStateList.empty web_state_list) && bool_decide (active_web_state web_state_list = None))
  end.

Definition SaveSession (immediately : bool) : M t unit :=
  let! s := mget in
  dcheck (negb (String.length (session_identifier_ s) =? 0)) ;;;
  if negb (CanSaveSession s) then mreturn tt else
  let! path := of_option (browser_state_ s) in
  on_service (SessionServiceIOS.saveSession ShouldSaveSessionTabsToSeparateFiles (session_ios_factory_ s)
    (session_identifier_ s) path immediately) ;;;
  let! s := mget in
  mfor (seqZ 0 (count (agent_list (agent s)))) (fun i =>
    let! web_state := on_agent (on_world (on_list (GetWebStateAt i))) in
    mmodify (fun s => with_stale (stale s ++ [web_state]) s)).

Definition RestoreSessionWindow (window : option (SessionWindowIOS.t (Session := Session) (Data := Data))) : M t bool :=
  on_agent (SessionRestorationBrowserAgent.RestoreSessionWindow restoration factory window).

Definition RestoreSession : M t bool :=
  let! s := mget in
  dcheck (negb (String.length (session_identifier_ s) =? 0)) ;;;
  let! path := of_option (browser_state_ s) in
  let! session := on_service (SessionServiceIOS.loadSessionWithSessionID ShouldSaveSessionTabsToSeparateFiles
    (session_identifier_ s) path) in
  match session with
  | None => RestoreSessionWindow None
  | Some session =>
      dcheck (length (SessionIOS.sessionWindows session) =? 1) ;;;
      let! session_window := of_option (head (SessionIOS.sessionWindows session)) in
      RestoreSessionWindow (Some session_window)
  end.

(** ** What the agent is told *)

Definition markWebStateDirty (web_state : WebStateId) : M t unit :=
  mmodify (fun s => with_service (SessionServiceIOS.with_factories
    (alter (SessionIOSFactory.markWebStateDirty web_state) (session_ios_factory_ s)
       (SessionServiceIOS.factories (session_service_ s))) (session_service_ s)) s).

(** None is a null WebState. *)
Definition WebStateActivatedAt (new_web_state : option WebStateId) : M t unit :=
  if match new_web_state with Some ws => IsLoading ws | None => false end then mreturn tt
  else SaveSession false.

Definition WillDetachWebStateAt (web_state : WebStateId) (index : Z) : M t unit :=
  let! s := mget in
  if (active_index (agent_list (agent s)) =? index)%Z then mreturn tt else SaveSession false.

Definition WebStateInsertedAt (web_state : WebStateId) (index : Z) (activating : bool) : M t unit :=
  if activating || IsLoading web_state then mreturn tt
  else markWebStateDirty web_state ;;; SaveSession false.

Definition WebStateReplacedAt (new_web_state : WebStateId) (index : Z) : M t unit :=
  if IsLoading new_web_state then mreturn tt
  else markWebStateDirty new_web_state ;;; SaveSession false.

Definition WebStateMoved (web_state : WebStateId) : M t unit :=
  if IsLoading web_state then mreturn tt else SaveSession false.

Definition DidFinishNavigation (web_state : WebStateId) : M t unit :=
  markWebStateDirty web_state ;;; SaveSession false.

(** A notification of the list or of one of its WebStates; the list is as it is when
    the observers are told. *)
Inductive Change : Type :=
| Activated (new_web_state : option WebStateId)
| WillDetach (web_state : WebStateId) (index : Z)
| Inserted (web_state : WebStateId) (index : Z) (activating : bool)
| Replaced (new_web_state : WebStateId) (index : Z)
| Moved (web_state : WebStateId)
| FinishedNavigation (web_state : WebStateId).

Definition handle (c : Change) : M t unit :=
  match c with
  | Activated new_web_state => WebStateActivatedAt new_web_state
  | WillDetach web_state index => WillDetachWebStateAt web_state index
  | Inserted web_state index activating => WebStateInsertedAt web_state index activating
  | Replaced new_web_state index => WebStateReplacedAt new_web_state index
  | Moved web_state => WebStateMoved web_state
  | FinishedNavigation web_state => DidFinishNavigation web_state
  end.

(** [CreateForBrowser], for a browser without agent: the factory is new. *)
Definition create (w : World) (env : SerializationEnv) (service : Service) (id : SessionServiceIOS.FactoryId)
    (browser_state : option string) : t :=
  mk (mkAgent w false []) (SessionServiceIOS.with_factories
      (<[id := SessionIOSFactory.initWithWebStateList w env]> (SessionServiceIOS.factories service)) service)
    id EmptyString browser_state [].

(** The destructor: the factory may outlive the agent. *)
Definition destroy (s : t) : Service :=
  SessionServiceIOS.with_factories (alter SessionIOSFactory.disconnect (session_ios_factory_ s)
    (SessionServiceIOS.factories (session_service_ s))) (session_service_ s).

End Code.
End SessionSaving.
