(* ===== verification/SessionSavingTheorems.v ===== *)
(** * SessionRestorationBrowserAgent: what is saved comes back

    The agent, the service, its files and the restoration together: the tabs that
    were saved are there after the next launch. *)

From stdpp Require Import base tactics option list numbers strings gmap relations.
From Stdlib Require Import ZArith Lia.
From S2P Require Import Prelude RemovingIndexes WebStateListModel OrderController.
From S2P Require Import WebStateListOps WebStateListProofs WebStateListTheorems.
From S2P Require Import WebTypes WkNavigationUtil NavigationItem SessionStorage SessionBuilder SessionWindow.
From S2P Require Import WebStateListSerialization SerializationProofs SerializationTheorems SerializationRoundTrip.
From S2P Require Import SessionRestoration SessionRestorationTheorems SessionService SessionServiceTheorems SessionSaving.

Module SessionSavingTheorems.
Import WebStateList WebStateListOps WebStateListProofs WebStateListTheorems.
Import WebStateListSerialization SerializationProofs SerializationTheorems SerializationRoundTrip.
Import SessionRestorationBrowserAgent SessionRestorationTheorems SessionSaving.
Import SessionIOSFactoryTheorems(list_ok, factory_ok).
#[local] Existing Instance SessionServiceIOS.SessionIOSFactory_factory.

Section Saving.
Context `{WebStateEnv} `{WebEnv} `{NSStringOps}.
Context {CertCache Data : Type} `{!NSCoding CertCache}.
Context (cert_storable : CertCache -> Prop) (cert_same : relation CertCache).
Context (uuid : string) `{!GURLLaws H0} `{!NSCodingLaws CertCache cert_storable cert_same}.
Abbreviation Session := (CRWSessionStorage.t (CertCache := CertCache)).
#[local] Hint Extern 0 (NSCoding _) => exact (SessionIOSFactoryTheorems.session_coding (NSCoding0 := NSCoding0) uuid) : typeclass_instances.
Context `{!SessionServiceIOS.Platform (SessionWindowIOS.WindowObject (Session := Session))
    (SessionIOS.SessionObject (Session := Session)) Data}.
Context `{!SessionServiceTheorems.PlatformLaws (SessionWindowIOS.WindowObject (Session := Session))
    (SessionIOS.SessionObject (Session := Session)) Data}.
Context (archiving_succeeds : forall archive, is_Some (SessionServiceIOS.keyed_archive archive)).
Context (flag : bool) (restoration : RestorationEnv) (factory : Session -> M World WebStateId) `{!FactoryOk factory}.
Abbreviation Factory := (SessionIOSFactory.t (CertCache := CertCache) (Data := Data)).
Abbreviation Agent := (SessionSaving.t (CertCache := CertCache) (Data := Data)).
Implicit Types (s : Agent).

(** The list of the agent that is loaded from a service with the same files. *)
Lemma file_at_disk p (v v' : SessionServiceIOS.t (Data := Data) (F := Factory)) :
  SessionServiceIOS.disk v' = SessionServiceIOS.disk v -> SessionServiceIOS.file_at p v' = SessionServiceIOS.file_at p v.
Proof. unfold SessionServiceIOS.file_at. by intros ->. Qed.

(** Looking at the list: nothing changes. *)
Lemma stale_loop_ok s l :
  (forall i, i ∈ l -> (0 <= i < count (agent_list (agent s)))%Z) ->
  exists stale', mfor l (fun i =>
    let! web_state := on_agent (on_world (on_list (GetWebStateAt i))) in
    mmodify (fun s => with_stale (stale s ++ [web_state]) s)) s = Ok (tt, with_stale stale' s).
Proof.
  revert s. induction l as [|i l IH]; intros s Hl; [exists (stale s); by destruct s|].
  destruct (in_range_lookup (agent_list (agent s)) i) as [wr Hw]; [by apply Hl; left|].
  assert (zlookup (web_states (agent_list (agent s))) i = Some (WebStateWrapper.web_state_ wr)) as Hws
    by (unfold web_states; by rewrite zlookup_fmap, Hw).
  destruct (IH (with_stale (stale s ++ [WebStateWrapper.web_state_ wr]) s)) as [stale' E].
  { intros j Hj. apply Hl. by right. }
  exists stale'. cbn [mfor]. rewrite (mbind_run _ _ _ tt (with_stale (stale s ++ [WebStateWrapper.web_state_ wr]) s)); [done|].
  rewrite (mbind_run _ _ _ (WebStateWrapper.web_state_ wr) s); [done|].
  unfold on_agent, on_world, on_list. unfold agent_list in Hws. rewrite (GetWebStateAt_ok _ _ _ Hws).
  by destruct s as [[[] ? ?] ? ? ? ? ?].
Qed.

(** An immediate save posts its task, and the file it writes has the tabs. *)
Lemma SaveSession_ok s f path :
  let id := session_ios_factory_ s in
  let env := SessionIOSFactory.web_states_env f in
  let w := agent_world (agent s) in
  session_identifier_ s <> EmptyString -> browser_state_ s = Some path ->
  SessionServiceIOS.factories (session_service_ s) !! id = Some f -> is_Some (SessionIOSFactory._webStateList f) ->
  list_ok cert_storable env w -> CanSaveSession s = true ->
  exists s1 data contents, SaveSession flag true s = Ok (tt, s1) /\
    SessionServiceIOS.posted_tasks (session_service_ s1) = SessionServiceIOS.posted_tasks (session_service_ s) ++
      [SessionServiceIOS.SaveTask data contents (SessionServiceTheorems.path_of (session_identifier_ s) path)] /\
    forall v : SessionServiceIOS.t (Data := Data) (F := Factory),
    SessionServiceIOS.file_at (SessionServiceTheorems.path_of (session_identifier_ s) path) v = Some data ->
    exists window,
      SessionServiceIOS.loadSessionWithSessionID flag (session_identifier_ s) path v =
        Ok (Some (SessionIOS.initWithWindows [window]), v) /\
      SessionWindowIOS.valid window = true /\
      Forall2 (CRWSessionStorage.same cert_same) (SessionWindowIOS.sessions window)
        (omap (session_at env w) (kept_indexes env (world_list w))) /\
      (0 <= SessionWindowIOS.selectedIndex window)%Z.
Proof.
  intros id env w Hsid Hpath Hf [w0 Hw0] Hok Hcan.
  assert (SessionServiceIOS.factories (shared_service s) !! id = Some (set_list w f)) as Hf1.
  { cbn. unfold id. rewrite lookup_alter_eq. fold id. by rewrite Hf. }
  assert (SessionIOSFactory._webStateList (set_list w f) = Some w) as Ew by (unfold set_list; by rewrite Hw0).
  assert (SessionIOSFactory.canSaveCurrentSession (set_list w f) = true) as Hcan1.
  { unfold SessionIOSFactory.canSaveCurrentSession. rewrite Ew. unfold CanSaveSession in Hcan. by rewrite Hpath in Hcan. }
  destruct (SessionIOSFactoryTheorems.session_to_save cert_storable cert_same uuid flag archiving_succeeds (set_list w f))
    as (w1 & window & w' & archive & data & Ew1 & _ & Ewl & Efs & Ea & Hd & Hload); [by unfold factory_ok; rewrite Ew|done|].
  rewrite Ew in Ew1. injection Ew1 as <-.
  destruct (SessionServiceTheorems.saveSession_now flag id (session_identifier_ s) path (set_list w f)
    (SessionIOS.initWithWindows [window]) (SessionIOSFactory.mk (Some w') env ∅) archive data (shared_service s))
    as (v & Ev & Et & Efa); [done..|].
  set (s' := with_agent (mkAgent w' (restoring_session_ (agent s)) (notices (agent s))) (with_service v s)).
  destruct (stale_loop_ok s' (seqZ 0 (count (agent_list (agent s'))))) as [stale' El].
  { intros i Hi%elem_of_seqZ. lia. }
  exists (with_stale stale' s'), data. eexists. split; [|split; [exact Et|]].
  - unfold SaveSession. rewrite (mbind_run mget _ _ _ _ eq_refl).
    rewrite (mbind_run (dcheck _) _ _ tt s) by (unfold dcheck; by destruct (session_identifier_ s)).
    rewrite Hcan. cbn [negb]. rewrite Hpath. rewrite (mbind_run (of_option (Some path)) _ _ path s eq_refl).
    rewrite (mbind_run (on_service _) _ _ tt s'); [by rewrite (mbind_run mget _ _ _ _ eq_refl)|].
    unfold on_service. fold id. rewrite Ev. unfold shared_list. fold id. by rewrite Efa, lookup_insert_eq.
  - intros v' Hv'. destruct (Hload _ _ v' Hsid Hv') as (window' & Hl & Hv & Hs & _ & Hpos). by exists window'.
Qed.

(** What is restored does not overflow. *)
Lemma manager_same (l l' : list Session) n :
  Forall2 (CRWSessionStorage.same cert_same) l l' ->
  Forall (fun session => no_overflow n (manager_of session)) l' ->
  Forall (fun session => no_overflow n (manager_of session)) l.
Proof.
  induction 1 as [|a b l l' Hab _ IH]; [constructor|]. intros [Ha Hl]%Forall_cons. constructor; [|by apply IH].
  unfold manager_of in *. by rewrite (CRWSessionStorage.same_user_data _ _ _ Hab).
Qed.

Lemma saved_no_overflow (env : SerializationEnv (CertCache := CertCache) (Data := Data)) w n :
  wf (world_list w) -> (0 <= n)%Z -> (n + count (world_list w) < INT_MAX)%Z ->
  Forall (fun session => no_overflow n (manager_of session))
    (omap (session_at env w) (kept_indexes env (world_list w))).
Proof.
  intros Hwf Hn Hmax. rewrite sessions_saved. apply Forall_fmap, Forall_forall. intros wr Hin.
  assert (length (saved_wrappers env (world_list w)) <= length (web_state_wrappers_ (world_list w))) as Hl
    by apply length_filter.
  apply no_overflow_saved; try done; unfold count in *; lia.
Qed.

Lemma length_saved (env : SerializationEnv (CertCache := CertCache) (Data := Data)) w :
  (Z.of_nat (length (omap (session_at env w) (kept_indexes env (world_list w)))) <= count (world_list w))%Z.
Proof.
  rewrite sessions_saved, length_fmap. unfold count. apply Nat2Z.inj_le, length_filter.
Qed.

Lemma same_kept (new : list WebStateId) (l l' : list Session) :
  Forall2 (CRWSessionStorage.same cert_same) l l' -> kept new l = kept new l'.
Proof.
  intros Hs. unfold kept. revert new. induction Hs as [|a b l l' Hab _ IH]; intros [|ws new]; try done.
  cbn [zip_with]. rewrite !filter_cons. cbn [snd]. unfold has_items.
  rewrite (Forall2_length _ _ _ (CRWSessionStorage.same_items _ _ _ Hab)).
  case_decide; cbn; by rewrite IH.
Qed.

(** A WebState that the factory made from a session that was saved and read back. *)
Definition made_from_saved (ws : WebStateId) (session : Session) : Prop :=
  exists session', CRWSessionStorage.same cert_same session' session /\ made factory ws session'.

Lemma made_same new (l l' : list Session) : Forall2 (made factory) new l -> Forall2 (CRWSessionStorage.same cert_same) l l' ->
  Forall2 made_from_saved new l'.
Proof.
  intros Hm. revert l'. induction Hm as [|ws session new l Hws _ IH]; intros l' Hs; [by apply Forall2_nil_inv_l in Hs as ->|].
  apply Forall2_cons_inv_l in Hs as (session' & l2 & Hss & Hs & ->). constructor; [by exists session|by apply IH].
Qed.

(** C7: the tabs come back: an immediate save of a window writes a file, and when a
    window with the same identifier is restored from these files, in another
    launch, no DCHECK fails; whatever the factory of WebStates is, it makes one from
    each saved session, in order, and those of the sessions with items are the new
    tabs, in order, after the tabs there were, without a lone new tab page. A
    session that is read back is that of the saved tab: the same items, position,
    user data, user agent and identifier, and certificates as [cert_same] says. *)
Theorem tabs_come_back s f path :
  let env := SessionIOSFactory.web_states_env f in
  let w := agent_world (agent s) in
  let saved := omap (session_at env w) (kept_indexes env (world_list w)) in
  session_identifier_ s <> EmptyString -> browser_state_ s = Some path ->
  SessionServiceIOS.factories (session_service_ s) !! session_ios_factory_ s = Some f ->
  is_Some (SessionIOSFactory._webStateList f) -> list_ok cert_storable env w -> CanSaveSession s = true ->
  exists s1 v, SaveSession flag true s = Ok (tt, s1) /\
    SessionServiceIOS.exec_all flag
      (replicate (S (length (SessionServiceIOS.posted_tasks (session_service_ s)))) SessionServiceIOS.RunTask)
      (session_service_ s1) = Ok (tt, v) /\
    forall s', let old := agent_list (agent s') in
      let closed := negb (bool_decide (saved = [])) && lone_ntp restoration (web_states old) in
      SessionServiceIOS.disk (session_service_ s') = SessionServiceIOS.disk v ->
      session_identifier_ s' = session_identifier_ s -> browser_state_ s' = Some path -> reachable old ->
      (count old + count (world_list w) < INT_MAX)%Z ->
      exists s2 new, RestoreSession flag restoration factory s' = Ok (closed, s2) /\ Forall2 made_from_saved new saved /\
        rtc step old (agent_list (agent s2)) /\
        web_states (agent_list (agent s2)) = (if closed then [] else web_states old) ++ kept new saved.
Proof.
  intros env w saved Hsid Hpath Hf Hc Hok Hcan.
  destruct (SaveSession_ok s f path Hsid Hpath Hf Hc Hok Hcan) as (s1 & data & contents & E1 & Et & Hload).
  destruct (SessionServiceTheorems.run_tasks_until flag _ data contents _ [] (session_service_ s1) Et) as (v & Ev & Hdata & _).
  exists s1, v. split; [done|]. split; [done|]. intros s' old closed Hdisk Hsid' Hpath' Hr Hmax.
  destruct (Hload (shared_service s')) as (window & El & Hv & Hs & Hpos).
  { rewrite <- Hdata. apply file_at_disk. exact Hdisk. }
  assert (exists g, on_service (SessionServiceIOS.loadSessionWithSessionID flag (session_identifier_ s') path) s' =
    Ok (Some (SessionIOS.initWithWindows [window]), g) /\ agent g = agent s') as (g & Eg & Ea).
  { unfold on_service. rewrite Hsid', El. eexists. split; [reflexivity|]. cbn.
    assert (shared_list (shared_service s') s' = agent_world (agent s')) as ->; [|by destruct (agent s')].
    unfold shared_list, shared_service. cbn. rewrite lookup_alter_eq.
    destruct (_ !! session_ios_factory_ s') as [f'|]; [|done]. cbn. by destruct (SessionIOSFactory._webStateList f'). }
  assert (RestoreSession flag restoration factory s' = SessionSaving.RestoreSessionWindow restoration factory (Some window) g) as ->.
  { unfold RestoreSession. rewrite (mbind_run mget _ _ _ _ eq_refl).
    rewrite (mbind_run (dcheck _) _ _ tt s') by (unfold dcheck; rewrite Hsid'; by destruct (session_identifier_ s)).
    rewrite Hpath', (mbind_run (of_option (Some path)) _ _ path s' eq_refl), (mbind_run _ _ _ _ _ Eg). done. }
  unfold SessionSaving.RestoreSessionWindow, on_agent. rewrite Ea.
  change (Forall2 (CRWSessionStorage.same cert_same) (SessionWindowIOS.sessions window) saved) in Hs. pose proof (Forall2_length _ _ _ Hs) as Hlen.
  destruct (decide (saved = [])) as [Hnil|Hne].
  { assert (SessionWindowIOS.sessions window = []) as Hw by (apply nil_length_inv; by rewrite Hlen, Hnil).
    unfold closed. rewrite bool_decide_eq_true_2 by done. cbn [negb andb].
    unfold SessionRestorationBrowserAgent.RestoreSessionWindow. rewrite Hw. eexists _, [].
    split; [reflexivity|]. rewrite Hnil. split; [constructor|]. cbn. rewrite app_nil_r. by split. }
  unfold closed. rewrite bool_decide_eq_false_2 by done. cbn [negb andb].
  destruct (RestoreSessionWindow_ok restoration factory window (agent s')) as (w' & new & E & Hmade & Hst & Hws).
  - intros E. rewrite E in Hlen. by destruct saved.
  - exact Hr.
  - rewrite Hlen. pose proof (length_saved env w) as Hls. fold saved in Hls. fold old. lia.
  - done.
  - done.
  - apply (manager_same _ _ _ Hs). apply saved_no_overflow; [apply Hok|unfold count; lia|exact Hmax].
  - rewrite E. eexists _, new. split; [reflexivity|]. split; [by eapply made_same|]. split; [done|].
    by rewrite <- (same_kept new _ _ Hs).
Qed.

(** ** Changes are saved *)

Context (IsLoading : WebStateId -> bool).

(** A change that is not saved: of a tab that is loading, which is saved when the
    load ends; of the active tab, which another notification follows. *)
Definition ignored s (c : Change) : bool :=
  match c with
  | Activated new_web_state => from_option IsLoading false new_web_state
  | WillDetach _ index => (active_index (agent_list (agent s)) =? index)%Z
  | Inserted web_state _ activating => activating || IsLoading web_state
  | Replaced web_state _ | Moved web_state => IsLoading web_state
  | FinishedNavigation _ => false
  end.

Lemma handle_saves s c :
  ignored s c = false ->
  exists s0, handle flag IsLoading c s = SaveSession flag false s0 /\
    (s0 = s \/ exists ws, s0 = with_service (SessionServiceIOS.with_factories
      (alter (SessionIOSFactory.markWebStateDirty ws) (session_ios_factory_ s)
         (SessionServiceIOS.factories (session_service_ s))) (session_service_ s)) s).
Proof.
  intros Hi. destruct c as [[ws|]|ws i|ws i a|ws i|ws|ws]; cbn in Hi;
    unfold handle, WebStateActivatedAt, WillDetachWebStateAt, WebStateInsertedAt, WebStateReplacedAt,
      WebStateMoved, DidFinishNavigation, markWebStateDirty; rewrite ?(mbind_run mget _ _ _ _ eq_refl), ?Hi,
      ?(mbind_run (mmodify _) _ _ tt _ eq_refl); eauto.
Qed.

Lemma saveSession_delayed id sid dir (v : SessionServiceIOS.t (Data := Data) (F := Factory)) :
  sid <> EmptyString ->
  let p := SessionServiceTheorems.path_of sid dir in
  let v1 := SessionServiceIOS.with_pending (<[p := id]> (SessionServiceIOS._pendingSessions v)) v in
  SessionServiceIOS.saveSession flag id sid dir false v =
    Ok (tt, if bool_decide (is_Some (SessionServiceIOS.objectForKey p v)) then v1
            else SessionServiceIOS.with_delayed (SessionServiceIOS.delayed_performs v ++ [p]) v1).
Proof.
  intros Hsid p v1. unfold SessionServiceIOS.saveSession, SessionServiceIOS.sessionPathForSessionID.
  destruct sid as [|a sid]; [done|]. cbn [String.length Nat.eqb negb]. unfold dcheck, mbind, mget, mmodify, mreturn.
  fold (SessionServiceTheorems.path_of (String a sid) dir). fold p. by destruct (bool_decide _).
Qed.

(** The agent is attached to its factory, and its session can be saved; a save of it
    that is pending has its delayed call (another session that is saved immediately
    cancels them: [immediate_save_strands_others]); its factory saves under its
    path only, and the other factories answer. *)
Record ready s f path : Prop := {
  ready_identifier : session_identifier_ s <> EmptyString;
  ready_path : browser_state_ s = Some path;
  ready_factory : SessionServiceIOS.factories (session_service_ s) !! session_ios_factory_ s = Some f;
  ready_connected : is_Some (SessionIOSFactory._webStateList f);
  ready_list : list_ok cert_storable (SessionIOSFactory.web_states_env f) (agent_world (agent s));
  ready_can_save : CanSaveSession s = true;
  ready_tracked : let p := SessionServiceTheorems.path_of (session_identifier_ s) path in
    is_Some (SessionServiceIOS.objectForKey p (session_service_ s)) -> p ∈ SessionServiceIOS.delayed_performs (session_service_ s);
  ready_good : SessionServiceTheorems.all_good (factory_ok cert_storable) (session_service_ s);
  ready_alone : forall q, SessionServiceIOS._pendingSessions (session_service_ s) !! q = Some (session_ios_factory_ s) ->
    q = SessionServiceTheorems.path_of (session_identifier_ s) path
}.

Lemma ready_set_list s f path : ready s f path ->
  let f1 := set_list (agent_world (agent s)) f in
  SessionIOSFactory._webStateList f1 = Some (agent_world (agent s)) /\ factory_ok cert_storable f1 /\
  SessionIOSFactory.canSaveCurrentSession f1 = true /\
  SessionServiceIOS.factories (shared_service s) !! session_ios_factory_ s = Some f1 /\
  SessionServiceTheorems.all_good (factory_ok cert_storable) (shared_service s).
Proof.
  intros [_ Hp Hf [w0 Hw0] Hl Hc _ Hg _] f1.
  assert (SessionIOSFactory._webStateList f1 = Some (agent_world (agent s))) as Ew by (unfold f1, set_list; by rewrite Hw0).
  assert (factory_ok cert_storable f1) as Hok by (unfold factory_ok; by rewrite Ew).
  split; [done|]. split; [done|]. split.
  { unfold SessionIOSFactory.canSaveCurrentSession. rewrite Ew. unfold CanSaveSession in Hc. by rewrite Hp in Hc. }
  split; [unfold shared_service; cbn; by rewrite lookup_alter_eq, Hf|].
  intros id f' Hf'. unfold shared_service in Hf'. cbn in Hf'.
  destruct (decide (session_ios_factory_ s = id)) as [<-|Hn].
  - rewrite lookup_alter_eq, Hf in Hf'. by injection Hf' as <-.
  - rewrite lookup_alter_ne in Hf' by done. by eapply Hg.
Qed.

(** A change of a factory leaves the pending saves alive. *)
Lemma objectForKey_alter p g id (v : SessionServiceIOS.t (Data := Data) (F := Factory)) :
  is_Some (SessionServiceIOS.objectForKey p (SessionServiceIOS.with_factories (alter g id (SessionServiceIOS.factories v)) v)) ->
  is_Some (SessionServiceIOS.objectForKey p v).
Proof.
  intros [[id' f'] (i & Hp & (f & Hf & _)%bind_Some)%bind_Some]. cbn in Hp, Hf. apply lookup_alter_Some in Hf.
  unfold SessionServiceIOS.objectForKey. rewrite Hp. cbn. destruct Hf as [(-> & f0 & -> & _)|[_ ->]]; by eexists.
Qed.

(** A WebState that is marked. *)
Lemma ready_dirty s f path ws : ready s f path ->
  ready (with_service (SessionServiceIOS.with_factories
      (alter (SessionIOSFactory.markWebStateDirty ws) (session_ios_factory_ s)
         (SessionServiceIOS.factories (session_service_ s))) (session_service_ s)) s)
    (SessionIOSFactory.markWebStateDirty ws f) path.
Proof.
  intros [Hi Hp Hf Hw Hl Hc Ht Hg Ha]. split; try done.
  - cbn. by rewrite lookup_alter_eq, Hf.
  - intros p Ho. apply Ht. exact (objectForKey_alter _ _ _ _ Ho).
  - intros id f' Hf'. cbn in Hf'. destruct (decide (session_ios_factory_ s = id)) as [<-|Hn].
    + rewrite lookup_alter_eq, Hf in Hf'. injection Hf' as <-. exact (Hg _ _ Hf).
    + rewrite lookup_alter_ne in Hf' by done. by eapply Hg.
Qed.

(** A delayed save that is asked for has its delayed call, and nothing else changes. *)
Lemma SaveSession_delayed s f path : ready s f path ->
  let id := session_ios_factory_ s in
  let p := SessionServiceTheorems.path_of (session_identifier_ s) path in
  exists s1, SaveSession flag false s = Ok (tt, s1) /\ agent s1 = agent s /\
    p ∈ SessionServiceIOS.delayed_performs (session_service_ s1) /\
    SessionServiceTheorems.all_good (factory_ok cert_storable) (session_service_ s1) /\
    SessionServiceIOS.objectForKey p (session_service_ s1) = Some (id, set_list (agent_world (agent s)) f) /\
    (forall q, SessionServiceIOS._pendingSessions (session_service_ s1) !! q = Some id -> q = p) /\
    session_ios_factory_ s1 = id /\ session_identifier_ s1 = session_identifier_ s.
Proof.
  intros Hr id p. destruct (ready_set_list s f path Hr) as (Ew & Hok & Hcan & Hf1 & Hg1). fold id in Hf1.
  destruct Hr as [Hsid Hpath Hf _ _ Hc Ht _ Ha]. fold id p in Ha.
  pose proof (saveSession_delayed id (session_identifier_ s) path (shared_service s) Hsid) as Ev. cbv zeta in Ev. fold p in Ev.
  set (v1 := SessionServiceIOS.with_pending _ _) in Ev. set (v := if bool_decide _ then v1 else _) in Ev.
  assert (SessionServiceIOS.factories v = SessionServiceIOS.factories (shared_service s)) as Efa by (unfold v; by case_bool_decide).
  assert (SessionServiceIOS._pendingSessions v = <[p := id]> (SessionServiceIOS._pendingSessions (session_service_ s))) as Epe
    by (unfold v; by case_bool_decide).
  assert (shared_list v s = agent_world (agent s)) as El.
  { unfold shared_list. fold id. rewrite Efa, Hf1.
    change (default (agent_world (agent s)) (SessionIOSFactory._webStateList (set_list (agent_world (agent s)) f)) =
      agent_world (agent s)). by rewrite Ew. }
  set (s' := with_agent (mkAgent (shared_list v s) (restoring_session_ (agent s)) (notices (agent s))) (with_service v s)).
  assert (agent s' = agent s) as Ea by (unfold s'; cbn; rewrite El; by destruct (agent s)).
  destruct (stale_loop_ok s' (seqZ 0 (count (agent_list (agent s'))))) as [stale' Es].
  { intros i Hi%elem_of_seqZ. lia. }
  exists (with_stale stale' s'). split_and!.
  - unfold SaveSession. rewrite (mbind_run mget _ _ _ _ eq_refl).
    rewrite (mbind_run (dcheck _) _ _ tt s) by (unfold dcheck; by destruct (session_identifier_ s)).
    rewrite Hc. cbn [negb]. rewrite Hpath, (mbind_run (of_option (Some path)) _ _ path s eq_refl).
    rewrite (mbind_run (on_service _) _ _ tt s'); [by rewrite (mbind_run mget _ _ _ _ eq_refl)|].
    unfold on_service. fold id. by rewrite Ev.
  - exact Ea.
  - change (p ∈ SessionServiceIOS.delayed_performs v). unfold v. case_bool_decide as Ho.
    + apply Ht. exact (objectForKey_alter _ _ _ _ Ho).
    + apply elem_of_app. right. by left.
  - unfold SessionServiceTheorems.all_good. cbn. by rewrite Efa.
  - unfold SessionServiceIOS.objectForKey. cbn. by rewrite Epe, lookup_insert_eq; cbn; rewrite Efa, Hf1.
  - intros q. cbn. rewrite Epe. destruct (decide (p = q)) as [<-|Hn]; [done|]. rewrite lookup_insert_ne by done. apply Ha.
  - done.
  - done.
Qed.

(** The list as it is later. *)
Definition with_tabs (w : World) s : Agent := with_agent (mkAgent w (restoring_session_ (agent s)) (notices (agent s))) s.

Lemma with_tabs_service w s f path : ready s f path -> let id := session_ios_factory_ s in
  let p := SessionServiceTheorems.path_of (session_identifier_ s) path in
  forall s1 f1, session_ios_factory_ s1 = id -> list_ok cert_storable (SessionIOSFactory.web_states_env f1) w ->
  SessionServiceTheorems.all_good (factory_ok cert_storable) (session_service_ s1) ->
  SessionServiceIOS.objectForKey p (session_service_ s1) = Some (id, f1) ->
  SessionServiceTheorems.all_good (factory_ok cert_storable) (shared_service (with_tabs w s1)) /\
  SessionServiceIOS.objectForKey p (shared_service (with_tabs w s1)) = Some (id, set_list w f1).
Proof.
  intros Hr id p s1 f1 Hid Hl Hg Ho.
  apply bind_Some in Ho as (id' & Hp & (f' & Hf & [= -> ->])%bind_Some). split.
  - intros i g Hi. unfold shared_service in Hi. cbn in Hi. rewrite Hid in Hi. destruct (decide (i = id)) as [->|Hn].
    + rewrite lookup_alter_eq, Hf in Hi. injection Hi as <-. unfold factory_ok, set_list. by destruct (SessionIOSFactory._webStateList f1).
    + rewrite lookup_alter_ne in Hi by done. by eapply Hg.
  - unfold SessionServiceIOS.objectForKey, shared_service. cbn. rewrite Hp. cbn. by rewrite Hid, lookup_alter_eq, Hf.
Qed.


End Saving.
End SessionSavingTheorems.

(** ** A concrete run *)

Module ExampleComesBack.
Import WebStateListSerialization SerializationProofs SerializationTheorems SerializationRoundTrip.
Import SessionRestorationBrowserAgent SessionRestorationTheorems ExampleRestoration SessionSaving SessionSavingTheorems.
Import ExampleSession ExampleSessions.
Abbreviation Session := (CRWSessionStorage.t (CertCache := unit)).
#[local] Existing Instances WebStateListOrderController.example_env ExampleGURL.ops ExampleGURL.laws.
#[local] Existing Instances example_factory_ok tab_coding no_certs no_certs_laws.
#[local] Existing Instance SessionServiceIOS.SessionIOSFactory_factory.

(** The window of three tabs, one of which has no history; and a window with the new
    tab page, in the next launch. *)
Definition first_agent : SessionSaving.t (CertCache := unit) (Data := Bytes Session) :=
  SessionSaving.mk (mkAgent example_world false [])
    (SessionServiceIOS.with_factories {[7%positive := ExampleSessions.example_factory]} SessionServiceIOS.init)
    7%positive "a" (Some "dir"%string) [].
Definition next_agent (v : SessionServiceIOS.t (Data := Bytes Session)
    (F := SessionIOSFactory.t (CertCache := unit) (Data := Bytes Session))) :
    SessionSaving.t (CertCache := unit) (Data := Bytes Session) :=
  SessionSaving.mk ntp_agent (SessionServiceIOS.with_disk (SessionServiceIOS.disk v) SessionServiceIOS.init)
    8%positive "a" (Some "dir"%string) [].

Lemma first_agent_list_ok :
  SessionIOSFactoryTheorems.list_ok (fun _ : unit => True) example_environment example_world.
Proof.
  split; [exact example_list_wf|]. split; [by vm_compute|]. intros ws. exact session_a_storable.
Qed.

Lemma first_agent_ready : ready (fun _ => True) first_agent ExampleSessions.example_factory "dir".
Proof.
  split; try done.
  - exact first_agent_list_ok.
  - intros p [[id f] Hp]. done.
  - apply map_Forall_singleton. exact first_agent_list_ok.
Qed.

(** The first tab is about to be detached; the list without it. *)
Definition closed_world : World :=
  mkWorld (default WebStateList.create (final_state (WebStateListOps.DetachWebStateAt 0 example_list))) ∅.
Lemma closed_world_ok : SessionIOSFactoryTheorems.list_ok (fun _ : unit => True) example_environment closed_world.
Proof.
  split; [apply WebStateList.wf_b_sound; by vm_compute|]. split; [by vm_compute|]. intros ws. exact session_a_storable.
Qed.


Lemma tabs_come_back_witness :
  exists s1 v s2 a b, SaveSession true true first_agent = Ok (tt, s1) /\
    SessionServiceIOS.exec_all true [SessionServiceIOS.RunTask] (session_service_ s1) = Ok (tt, v) /\
    RestoreSession true ntp_env SerializationRoundTrip.example_factory (next_agent v) = Ok (true, s2) /\
    WebStateList.web_states (agent_list (agent s2)) = [a; b] /\
    Forall2 (made_from_saved (fun _ _ => True) SerializationRoundTrip.example_factory) [a; b]
      (omap (session_at example_environment example_world) (kept_indexes example_environment (world_list example_world))).
Proof.
  destruct (tabs_come_back (fun _ => True) (fun _ _ => True) "uuid" (Data := Bytes Session) (H3 := platform)
    (fun archive => ex_intro _ _ eq_refl) true ntp_env SerializationRoundTrip.example_factory
    first_agent ExampleSessions.example_factory "dir")
    as (s1 & v & E1 & Ev & Hnext).
  - done.
  - done.
  - apply lookup_singleton_eq.
  - by eexists.
  - exact first_agent_list_ok.
  - by vm_compute.
  - destruct (Hnext (next_agent v)) as (s2 & new & E2 & Hm & _ & Hw);
      [done..|exact ntp_reachable|by vm_compute|].
    pose proof (Forall2_length _ _ _ Hm) as Hl. destruct new as [|a [|b [|]]]; try (vm_compute in Hl; discriminate Hl).
    exists s1, v, s2, a, b. split; [exact E1|]. split; [exact Ev|]. split; [exact E2|]. split; [etransitivity; [exact Hw|]; by vm_compute|exact Hm].
Defined.
End ExampleComesBack.
