(* ===== verification/NavigationManagerState.v ===== *)
(** * NavigationManager: the state

    The members of [NavigationManagerImpl] and of its [WKWebViewCache]
    (src/web/navigation/navigation_manager_impl.{h,mm}), what it sees of
    WKWebView, of the WebState and of its delegate, and the calls it makes to the
    delegate. A [NavigationItemImpl*] is a reference into a heap of items. *)

From stdpp Require Import base tactics option list numbers strings gmap.
From Stdlib Require Import ZArith Lia.
From S2P Require Import Prelude WebTypes WkNavigationUtil NavigationItem.

(** The rest of [ui::PageTransition] and of GURL, and the rewriters of the
    embedder. *)
Class NavigationEnv `{GURLOps} `{PageTransitionOps} : Type := {
  PAGE_TRANSITION_FORWARD_BACK : PageTransition;
  PAGE_TRANSITION_FORM_SUBMIT : PageTransition;
  PageTransition_lor : PageTransition -> PageTransition -> PageTransition;
  gurl_EqualsIgnoringRef : GURL -> GURL -> bool;
  gurl_GetContent : GURL -> string;
  (** [WebClient::PostBrowserURLRewriterCreation] *)
  client_rewriters : list (GURL -> bool * GURL)
}.

(** A link is not a redirect. *)
Class NavigationEnvLaws `(E : NavigationEnv) : Prop := {
  link_is_not_redirect :
    PageTransition_land PAGE_TRANSITION_LINK PAGE_TRANSITION_IS_REDIRECT_MASK = false
}.

Module BrowserURLRewriter.
Section Code.
Context `{NavigationEnv}.

(** For the browser state of the manager: the result, and the URL. *)
Definition URLRewriter : Type := GURL -> bool * GURL.

Definition HandleViewSource : URLRewriter := fun url =>
  if gurl_SchemeIs url "view-source" then (true, GURL_parse (gurl_GetContent url)) else (false, url).

Fixpoint RewriteURLWithWriters (url : GURL) (rewriters : list URLRewriter) : bool * GURL :=
  match rewriters with
  | [] => (false, url)
  | rewriter :: rewriters' =>
      let '(rewritten, url) := rewriter url in
      if rewritten then (true, url) else RewriteURLWithWriters url rewriters'
  end.

(** The rewriters of the singleton. *)
Definition url_rewriters_ : list URLRewriter := client_rewriters ++ [HandleViewSource].

Definition RewriteURLIfNecessary (url : GURL) : bool * GURL :=
  RewriteURLWithWriters url url_rewriters_.

End Code.
End BrowserURLRewriter.

Module NavigationManagerState.
Export BrowserURLRewriter(URLRewriter).

(** References to items, and the objects of WebKit. *)
Abbreviation ItemRef := positive.

Section State.
Context `{WebEnv} `{CertificateOps} `{PageTransitionOps} `{ItemEnv}.
Abbreviation Item := NavigationItemImpl.t.

(** [WKBackForwardListItem]: an identity, an URL and a title. *)
Record WKItem : Type := mkWKItem { wk_id : positive; wk_URL : GURL; wk_title : u16string }.

(** [CRWWebViewNavigationProxy]: the URL and the back-forward list. *)
Record WebView : Type := mkWebView {
  wv_URL : GURL;
  wv_backList : list WKItem;
  wv_currentItem : option WKItem;
  wv_forwardList : list WKItem
}.

Record WebStateView : Type := mkWebStateView { web_GetCurrentURL : GURL; web_IsLoading : bool }.

(** [NavigationManager::WebLoadParams] *)
Record WebLoadParams : Type := mkWebLoadParams {
  params_url : GURL;
  params_virtual_url : GURL;
  params_referrer : Referrer.t;
  params_transition_type : PageTransition;
  params_is_renderer_initiated : bool;
  params_extra_headers : option (gmap string string);
  params_post_data : option (list Z);
  params_https_upgrade_type : HttpsUpgradeType
}.
Definition WebLoadParams_create (url : GURL) : WebLoadParams :=
  mkWebLoadParams url GURL_null Referrer.create PAGE_TRANSITION_LINK false None None kNone.

Inductive RestoreItemListType : Type := kBackList | kForwardList.

(** The closures passed to [AddRestoreCompletionCallback]; the last ones come
    from other components. *)
Inductive Callback : Type :=
| LoadURLWithParamsCallback (params : WebLoadParams)
| RestoreItemsStateCallback (list_type : RestoreItemListType) (items : list (option ItemRef))
| OtherClosure (closure : positive).

(** The calls to [NavigationManagerDelegate], and the closures that were run. *)
Inductive DelegateCall : Type :=
| ClearDialogs
| RecordPageStateInNavigationItem
| LoadCurrentItem (type : NavigationInitiationType)
| DelegateLoadIfNecessary
| DelegateReload
| DelegateOnNavigationItemCommitted (item : ItemRef)
| SetWebStateUserAgent (type : UserAgent.UserAgentType)
| GoToBackForwardListItem (wk_item : WKItem) (item : ItemRef) (type : NavigationInitiationType)
    (has_user_gesture : bool)
| RunClosure (closure : positive).

(** The data of [SynthesizedSessionRestore]: the index, and of each item the
    referrer, the URL and the title. *)
Record SessionData : Type := mkSessionData {
  data_index : Z;
  data_off_the_record : bool;
  data_entries : list (GURL * GURL * u16string)
}.

(** The platform: the heap, the counter of the identifiers, the clock, the web
    view and the items attached to its list, the WebState, the pending item of
    the navigation context, the calls made; then the members. *)
Record t : Type := mk {
  heap : gmap ItemRef Item;
  item_counter : Z;
  now : Z;
  proxy : option WebView;
  holders : gmap positive ItemRef;
  web_state : option WebStateView;
  context_pending_item : option ItemRef;
  delegate_calls : list DelegateCall;
  transient_url_rewriters_ : list URLRewriter;
  pending_item_ : option ItemRef;
  pending_item_index_ : Z;
  last_committed_item_index_ : Z;
  empty_window_open_item_ : option ItemRef;
  last_committed_web_view_item_ : option ItemRef;
  time_smoother_ : TimeSmoother.t;
  attached_to_web_view_ : bool;
  cached_items_ : list (option ItemRef);
  cached_current_item_index_ : Z;
  is_restore_session_in_progress_ : bool;
  going_to_back_forward_list_item_ : bool;
  next_pending_url_should_skip_serialization_ : GURL;
  restored_visible_item_ : option ItemRef;
  restore_session_completion_callbacks_ : list Callback;
  cached_data_ : option SessionData
}.

(** Assignments to the members. *)
Definition with_heap (v : gmap ItemRef Item) (s : t) : t :=
  mk v (item_counter s) (now s) (proxy s) (holders s) (web_state s) (context_pending_item s)
     (delegate_calls s) (transient_url_rewriters_ s) (pending_item_ s) (pending_item_index_ s)
     (last_committed_item_index_ s) (empty_window_open_item_ s) (last_committed_web_view_item_ s)
     (time_smoother_ s) (attached_to_web_view_ s) (cached_items_ s) (cached_current_item_index_ s)
     (is_restore_session_in_progress_ s) (going_to_back_forward_list_item_ s)
     (next_pending_url_should_skip_serialization_ s) (restored_visible_item_ s)
     (restore_session_completion_callbacks_ s) (cached_data_ s).
Definition with_item_counter (v : Z) (s : t) : t :=
  mk (heap s) v (now s) (proxy s) (holders s) (web_state s) (context_pending_item s) (delegate_calls s)
     (transient_url_rewriters_ s) (pending_item_ s) (pending_item_index_ s) (last_committed_item_index_ s)
     (empty_window_open_item_ s) (last_committed_web_view_item_ s) (time_smoother_ s)
     (attached_to_web_view_ s) (cached_items_ s) (cached_current_item_index_ s)
     (is_restore_session_in_progress_ s) (going_to_back_forward_list_item_ s)
     (next_pending_url_should_skip_serialization_ s) (restored_visible_item_ s)
     (restore_session_completion_callbacks_ s) (cached_data_ s).
Definition with_now (v : Z) (s : t) : t :=
  mk (heap s) (item_counter s) v (proxy s) (holders s) (web_state s) (context_pending_item s)
     (delegate_calls s) (transient_url_rewriters_ s) (pending_item_ s) (pending_item_index_ s)
     (last_committed_item_index_ s) (empty_window_open_item_ s) (last_committed_web_view_item_ s)
     (time_smoother_ s) (attached_to_web_view_ s) (cached_items_ s) (cached_current_item_index_ s)
     (is_restore_session_in_progress_ s) (going_to_back_forward_list_item_ s)
     (next_pending_url_should_skip_serialization_ s) (restored_visible_item_ s)
     (restore_session_completion_callbacks_ s) (cached_data_ s).
Definition with_proxy (v : option WebView) (s : t) : t :=
  mk (heap s) (item_counter s) (now s) v (holders s) (web_state s) (context_pending_item s)
     (delegate_calls s) (transient_url_rewriters_ s) (pending_item_ s) (pending_item_index_ s)
     (last_committed_item_index_ s) (empty_window_open_item_ s) (last_committed_web_view_item_ s)
     (time_smoother_ s) (attached_to_web_view_ s) (cached_items_ s) (cached_current_item_index_ s)
     (is_restore_session_in_progress_ s) (going_to_back_forward_list_item_ s)
     (next_pending_url_should_skip_serialization_ s) (restored_visible_item_ s)
     (restore_session_completion_callbacks_ s) (cached_data_ s).
Definition with_holders (v : gmap positive ItemRef) (s : t) : t :=
  mk (heap s) (item_counter s) (now s) (proxy s) v (web_state s) (context_pending_item s) (delegate_calls s)
     (transient_url_rewriters_ s) (pending_item_ s) (pending_item_index_ s) (last_committed_item_index_ s)
     (empty_window_open_item_ s) (last_committed_web_view_item_ s) (time_smoother_ s)
     (attached_to_web_view_ s) (cached_items_ s) (cached_current_item_index_ s)
     (is_restore_session_in_progress_ s) (going_to_back_forward_list_item_ s)
     (next_pending_url_should_skip_serialization_ s) (restored_visible_item_ s)
     (restore_session_completion_callbacks_ s) (cached_data_ s).
Definition with_web_state (v : option WebStateView) (s : t) : t :=
  mk (heap s) (item_counter s) (now s) (proxy s) (holders s) v (context_pending_item s) (delegate_calls s)
     (transient_url_rewriters_ s) (pending_item_ s) (pending_item_index_ s) (last_committed_item_index_ s)
     (empty_window_open_item_ s) (last_committed_web_view_item_ s) (time_smoother_ s)
     (attached_to_web_view_ s) (cached_items_ s) (cached_current_item_index_ s)
     (is_restore_session_in_progress_ s) (going_to_back_forward_list_item_ s)
     (next_pending_url_should_skip_serialization_ s) (restored_visible_item_ s)
     (restore_session_completion_callbacks_ s) (cached_data_ s).
Definition with_context_pending_item (v : option ItemRef) (s : t) : t :=
  mk (heap s) (item_counter s) (now s) (proxy s) (holders s) (web_state s) v (delegate_calls s)
     (transient_url_rewriters_ s) (pending_item_ s) (pending_item_index_ s) (last_committed_item_index_ s)
     (empty_window_open_item_ s) (last_committed_web_view_item_ s) (time_smoother_ s)
     (attached_to_web_view_ s) (cached_items_ s) (cached_current_item_index_ s)
     (is_restore_session_in_progress_ s) (going_to_back_forward_list_item_ s)
     (next_pending_url_should_skip_serialization_ s) (restored_visible_item_ s)
     (restore_session_completion_callbacks_ s) (cached_data_ s).
Definition with_delegate_calls (v : list DelegateCall) (s : t) : t :=
  mk (heap s) (item_counter s) (now s) (proxy s) (holders s) (web_state s) (context_pending_item s) v
     (transient_url_rewriters_ s) (pending_item_ s) (pending_item_index_ s) (last_committed_item_index_ s)
     (empty_window_open_item_ s) (last_committed_web_view_item_ s) (time_smoother_ s)
     (attached_to_web_view_ s) (cached_items_ s) (cached_current_item_index_ s)
     (is_restore_session_in_progress_ s) (going_to_back_forward_list_item_ s)
     (next_pending_url_should_skip_serialization_ s) (restored_visible_item_ s)
     (restore_session_completion_callbacks_ s) (cached_data_ s).
Definition with_transient_url_rewriters (v : list URLRewriter) (s : t) : t :=
  mk (heap s) (item_counter s) (now s) (proxy s) (holders s) (web_state s) (context_pending_item s)
     (delegate_calls s) v (pending_item_ s) (pending_item_index_ s) (last_committed_item_index_ s)
     (empty_window_open_item_ s) (last_committed_web_view_item_ s) (time_smoother_ s)
     (attached_to_web_view_ s) (cached_items_ s) (cached_current_item_index_ s)
     (is_restore_session_in_progress_ s) (going_to_back_forward_list_item_ s)
     (next_pending_url_should_skip_serialization_ s) (restored_visible_item_ s)
     (restore_session_completion_callbacks_ s) (cached_data_ s).
Definition with_pending_item (v : option ItemRef) (s : t) : t :=
  mk (heap s) (item_counter s) (now s) (proxy s) (holders s) (web_state s) (context_pending_item s)
     (delegate_calls s) (transient_url_rewriters_ s) v (pending_item_index_ s)
     (last_committed_item_index_ s) (empty_window_open_item_ s) (last_committed_web_view_item_ s)
     (time_smoother_ s) (attached_to_web_view_ s) (cached_items_ s) (cached_current_item_index_ s)
     (is_restore_session_in_progress_ s) (going_to_back_forward_list_item_ s)
     (next_pending_url_should_skip_serialization_ s) (restored_visible_item_ s)
     (restore_session_completion_callbacks_ s) (cached_data_ s).
Definition with_pending_item_index (v : Z) (s : t) : t :=
  mk (heap s) (item_counter s) (now s) (proxy s) (holders s) (web_state s) (context_pending_item s)
     (delegate_calls s) (transient_url_rewriters_ s) (pending_item_ s) v (last_committed_item_index_ s)
     (empty_window_open_item_ s) (last_committed_web_view_item_ s) (time_smoother_ s)
     (attached_to_web_view_ s) (cached_items_ s) (cached_current_item_index_ s)
     (is_restore_session_in_progress_ s) (going_to_back_forward_list_item_ s)
     (next_pending_url_should_skip_serialization_ s) (restored_visible_item_ s)
     (restore_session_completion_callbacks_ s) (cached_data_ s).
Definition with_last_committed_item_index (v : Z) (s : t) : t :=
  mk (heap s) (item_counter s) (now s) (proxy s) (holders s) (web_state s) (context_pending_item s)
     (delegate_calls s) (transient_url_rewriters_ s) (pending_item_ s) (pending_item_index_ s) v
     (empty_window_open_item_ s) (last_committed_web_view_item_ s) (time_smoother_ s)
     (attached_to_web_view_ s) (cached_items_ s) (cached_current_item_index_ s)
     (is_restore_session_in_progress_ s) (going_to_back_forward_list_item_ s)
     (next_pending_url_should_skip_serialization_ s) (restored_visible_item_ s)
     (restore_session_completion_callbacks_ s) (cached_data_ s).
Definition with_empty_window_open_item (v : option ItemRef) (s : t) : t :=
  mk (heap s) (item_counter s) (now s) (proxy s) (holders s) (web_state s) (context_pending_item s)
     (delegate_calls s) (transient_url_rewriters_ s) (pending_item_ s) (pending_item_index_ s)
     (last_committed_item_index_ s) v (last_committed_web_view_item_ s) (time_smoother_ s)
     (attached_to_web_view_ s) (cached_items_ s) (cached_current_item_index_ s)
     (is_restore_session_in_progress_ s) (going_to_back_forward_list_item_ s)
     (next_pending_url_should_skip_serialization_ s) (restored_visible_item_ s)
     (restore_session_completion_callbacks_ s) (cached_data_ s).
Definition with_last_committed_web_view_item (v : option ItemRef) (s : t) : t :=
  mk (heap s) (item_counter s) (now s) (proxy s) (holders s) (web_state s) (context_pending_item s)
     (delegate_calls s) (transient_url_rewriters_ s) (pending_item_ s) (pending_item_index_ s)
     (last_committed_item_index_ s) (empty_window_open_item_ s) v (time_smoother_ s)
     (attached_to_web_view_ s) (cached_items_ s) (cached_current_item_index_ s)
     (is_restore_session_in_progress_ s) (going_to_back_forward_list_item_ s)
     (next_pending_url_should_skip_serialization_ s) (restored_visible_item_ s)
     (restore_session_completion_callbacks_ s) (cached_data_ s).
Definition with_time_smoother (v : TimeSmoother.t) (s : t) : t :=
  mk (heap s) (item_counter s) (now s) (proxy s) (holders s) (web_state s) (context_pending_item s)
     (delegate_calls s) (transient_url_rewriters_ s) (pending_item_ s) (pending_item_index_ s)
     (last_committed_item_index_ s) (empty_window_open_item_ s) (last_committed_web_view_item_ s) v
     (attached_to_web_view_ s) (cached_items_ s) (cached_current_item_index_ s)
     (is_restore_session_in_progress_ s) (going_to_back_forward_list_item_ s)
     (next_pending_url_should_skip_serialization_ s) (restored_visible_item_ s)
     (restore_session_completion_callbacks_ s) (cached_data_ s).
Definition with_attached_to_web_view (v : bool) (s : t) : t :=
  mk (heap s) (item_counter s) (now s) (proxy s) (holders s) (web_state s) (context_pending_item s)
     (delegate_calls s) (transient_url_rewriters_ s) (pending_item_ s) (pending_item_index_ s)
     (last_committed_item_index_ s) (empty_window_open_item_ s) (last_committed_web_view_item_ s)
     (time_smoother_ s) v (cached_items_ s) (cached_current_item_index_ s)
     (is_restore_session_in_progress_ s) (going_to_back_forward_list_item_ s)
     (next_pending_url_should_skip_serialization_ s) (restored_visible_item_ s)
     (restore_session_completion_callbacks_ s) (cached_data_ s).
Definition with_cached_items (v : list (option ItemRef)) (s : t) : t :=
  mk (heap s) (item_counter s) (now s) (proxy s) (holders s) (web_state s) (context_pending_item s)
     (delegate_calls s) (transient_url_rewriters_ s) (pending_item_ s) (pending_item_index_ s)
     (last_committed_item_index_ s) (empty_window_open_item_ s) (last_committed_web_view_item_ s)
     (time_smoother_ s) (attached_to_web_view_ s) v (cached_current_item_index_ s)
     (is_restore_session_in_progress_ s) (going_to_back_forward_list_item_ s)
     (next_pending_url_should_skip_serialization_ s) (restored_visible_item_ s)
     (restore_session_completion_callbacks_ s) (cached_data_ s).
Definition with_cached_current_item_index (v : Z) (s : t) : t :=
  mk (heap s) (item_counter s) (now s) (proxy s) (holders s) (web_state s) (context_pending_item s)
     (delegate_calls s) (transient_url_rewriters_ s) (pending_item_ s) (pending_item_index_ s)
     (last_committed_item_index_ s) (empty_window_open_item_ s) (last_committed_web_view_item_ s)
     (time_smoother_ s) (attached_to_web_view_ s) (cached_items_ s) v (is_restore_session_in_progress_ s)
     (going_to_back_forward_list_item_ s) (next_pending_url_should_skip_serialization_ s)
     (restored_visible_item_ s) (restore_session_completion_callbacks_ s) (cached_data_ s).
Definition with_is_restore_session_in_progress (v : bool) (s : t) : t :=
  mk (heap s) (item_counter s) (now s) (proxy s) (holders s) (web_state s) (context_pending_item s)
     (delegate_calls s) (transient_url_rewriters_ s) (pending_item_ s) (pending_item_index_ s)
     (last_committed_item_index_ s) (empty_window_open_item_ s) (last_committed_web_view_item_ s)
     (time_smoother_ s) (attached_to_web_view_ s) (cached_items_ s) (cached_current_item_index_ s) v
     (going_to_back_forward_list_item_ s) (next_pending_url_should_skip_serialization_ s)
     (restored_visible_item_ s) (restore_session_completion_callbacks_ s) (cached_data_ s).
Definition with_going_to_back_forward_list_item (v : bool) (s : t) : t :=
  mk (heap s) (item_counter s) (now s) (proxy s) (holders s) (web_state s) (context_pending_item s)
     (delegate_calls s) (transient_url_rewriters_ s) (pending_item_ s) (pending_item_index_ s)
     (last_committed_item_index_ s) (empty_window_open_item_ s) (last_committed_web_view_item_ s)
     (time_smoother_ s) (attached_to_web_view_ s) (cached_items_ s) (cached_current_item_index_ s)
     (is_restore_session_in_progress_ s) v (next_pending_url_should_skip_serialization_ s)
     (restored_visible_item_ s) (restore_session_completion_callbacks_ s) (cached_data_ s).
Definition with_next_pending_url_should_skip_serialization (v : GURL) (s : t) : t :=
  mk (heap s) (item_counter s) (now s) (proxy s) (holders s) (web_state s) (context_pending_item s)
     (delegate_calls s) (transient_url_rewriters_ s) (pending_item_ s) (pending_item_index_ s)
     (last_committed_item_index_ s) (empty_window_open_item_ s) (last_committed_web_view_item_ s)
     (time_smoother_ s) (attached_to_web_view_ s) (cached_items_ s) (cached_current_item_index_ s)
     (is_restore_session_in_progress_ s) (going_to_back_forward_list_item_ s) v (restored_visible_item_ s)
     (restore_session_completion_callbacks_ s) (cached_data_ s).
Definition with_restored_visible_item (v : option ItemRef) (s : t) : t :=
  mk (heap s) (item_counter s) (now s) (proxy s) (holders s) (web_state s) (context_pending_item s)
     (delegate_calls s) (transient_url_rewriters_ s) (pending_item_ s) (pending_item_index_ s)
     (last_committed_item_index_ s) (empty_window_open_item_ s) (last_committed_web_view_item_ s)
     (time_smoother_ s) (attached_to_web_view_ s) (cached_items_ s) (cached_current_item_index_ s)
     (is_restore_session_in_progress_ s) (going_to_back_forward_list_item_ s)
     (next_pending_url_should_skip_serialization_ s) v (restore_session_completion_callbacks_ s)
     (cached_data_ s).
Definition with_restore_session_completion_callbacks (v : list Callback) (s : t) : t :=
  mk (heap s) (item_counter s) (now s) (proxy s) (holders s) (web_state s) (context_pending_item s)
     (delegate_calls s) (transient_url_rewriters_ s) (pending_item_ s) (pending_item_index_ s)
     (last_committed_item_index_ s) (empty_window_open_item_ s) (last_committed_web_view_item_ s)
     (time_smoother_ s) (attached_to_web_view_ s) (cached_items_ s) (cached_current_item_index_ s)
     (is_restore_session_in_progress_ s) (going_to_back_forward_list_item_ s)
     (next_pending_url_should_skip_serialization_ s) (restored_visible_item_ s) v (cached_data_ s).
Definition with_cached_data (v : option SessionData) (s : t) : t :=
  mk (heap s) (item_counter s) (now s) (proxy s) (holders s) (web_state s) (context_pending_item s)
     (delegate_calls s) (transient_url_rewriters_ s) (pending_item_ s) (pending_item_index_ s)
     (last_committed_item_index_ s) (empty_window_open_item_ s) (last_committed_web_view_item_ s)
     (time_smoother_ s) (attached_to_web_view_ s) (cached_items_ s) (cached_current_item_index_ s)
     (is_restore_session_in_progress_ s) (going_to_back_forward_list_item_ s)
     (next_pending_url_should_skip_serialization_ s) (restored_visible_item_ s)
     (restore_session_completion_callbacks_ s) v.

(** [NavigationManagerImpl()], with a delegate without web view. *)
Definition create (web_state : option WebStateView) : t :=
  mk ∅ 0 0 None ∅ web_state None [] [] None (-1) (-1) None None TimeSmoother.create
     true [] (-1) false false GURL_null None [] None.

(** ** Items *)

(** Reads and writes through a pointer, which is not null. *)
Definition item_of (r : ItemRef) : M t Item :=
  let! s := mget in of_option (heap s !! r).
Definition deref (r : option ItemRef) : M t ItemRef := of_option r.
Definition update_item (r : ItemRef) (f : Item -> Item) : M t unit :=
  let! item := item_of r in mmodify (fun s => with_heap (<[r := f item]> (heap s)) s).
Definition on_item (r : ItemRef) (m : M Item unit) : M t unit :=
  let! item := item_of r in
  match m item with
  | Ok (_, item) => mmodify (fun s => with_heap (<[r := item]> (heap s)) s)
  | Fault f => mfail f
  end.

(** [make_unique<NavigationItemImpl>(item)]; [make_unique<NavigationItemImpl>()] *)
Definition make_item (item : Item) : M t ItemRef :=
  let! s := mget in
  let r := fresh (dom (heap s)) in
  mmodify (fun s => with_heap (<[r := item]> (heap s)) s) ;;;
  mreturn r.
Definition make_new_item : M t ItemRef :=
  let! s := mget in
  match GetUniqueIDInConstructor (item_counter s) with
  | Ok (unique_id, counter) =>
      mmodify (with_item_counter counter) ;;; make_item (NavigationItemImpl.create unique_id)
  | Fault f => mfail f
  end.

(** [time_smoother_.GetSmoothedTime(base::Time::Now())] *)
Definition GetSmoothedNow : M t Z :=
  let! s := mget in
  let '(time, smoother) := TimeSmoother.GetSmoothedTime (now s) (time_smoother_ s) in
  mmodify (with_time_smoother smoother) ;;;
  mreturn time.

Definition delegate (call : DelegateCall) : M t unit :=
  mmodify (fun s => with_delegate_calls (delegate_calls s ++ [call]) s).

(** ** The back-forward list of the web view

    The accesses to a proxy that is nil read nil. *)

Definition currentItem (s : t) : option WKItem := proxy s ≫= wv_currentItem.
Definition backList (s : t) : list WKItem := from_option wv_backList [] (proxy s).
Definition forwardList (s : t) : list WKItem := from_option wv_forwardList [] (proxy s).
Definition proxy_URL (s : t) : GURL := from_option wv_URL GURL_null (proxy s).

(** [[backForwardList itemAtIndex:offset]] *)
Definition itemAtIndex (s : t) (offset : Z) : option WKItem :=
  if (offset =? 0)%Z then currentItem s
  else if (offset <? 0)%Z then zlookup (backList s) (Z.of_nat (length (backList s)) + offset)
  else zlookup (forwardList s) (offset - 1).
Definition backItem (s : t) : option WKItem := itemAtIndex s (-1).
Definition forwardItem (s : t) : option WKItem := itemAtIndex s 1.
Definition wk_item_URL (wk_item : option WKItem) : GURL := from_option wk_URL GURL_null wk_item.

(** [CRWNavigationItemHolder]: an item associated with one of the list. *)
Definition GetNavigationItemFromWKItem (wk_item : option WKItem) (s : t) : option ItemRef :=
  wk_item ≫= fun wk_item => holders s !! wk_id wk_item.
Definition SetNavigationItemInWKItem (wk_item : option WKItem) (item : ItemRef) : M t unit :=
  dcheck (bool_decide (is_Some wk_item)) ;;;
  let! wk_item := of_option wk_item in
  mmodify (fun s => with_holders (<[wk_id wk_item := item]> (holders s)) s).

End State.
End NavigationManagerState.
