(* ===== verification/NavigationManager.v ===== *)
(** * NavigationManager: the operations

    [NavigationManagerImpl] and its [WKWebViewCache]
    (src/web/navigation/navigation_manager_impl.{h,mm}), and the part of
    [SynthesizedSessionRestore] (src/web/navigation/synthesized_session_restore.mm)
    and of the removal of the web view (src/web/web_state/ui/crw_web_controller.mm)
    it depends on. Histograms are not modelled. *)

From stdpp Require Import base tactics option list numbers strings gmap.
From Stdlib Require Import ZArith Lia.
From S2P Require Import Prelude WebTypes WkNavigationUtil NavigationItem NavigationManagerState.

Module NavigationManagerImpl.
Import NavigationManagerState WkNavigationUtil.

(** What the platform does with the data of a session. *)
Class NativeRestore `{S : WebEnv} `{CertificateOps} `{PageTransitionOps} `{ItemEnv} : Type := {
  off_the_record : bool;
  (** [SynthesizedSessionRestore::IsEnabled()] *)
  synthesized_restore_enabled : bool;
  (** [WebClient::RestoreSessionFromCache(web_state)] *)
  RestoreSessionFromCache : option WebView -> bool * option WebView;
  (** [WebState::SetSessionStateData(data)] *)
  SetSessionStateData : SessionData -> option WebView -> bool * option WebView
}.

Section Code.
Context `{WebEnv} `{CertificateOps} `{PageTransitionOps} `{ItemEnv}.
Context `{!NavigationEnv} `{!NativeRestore}.
Abbreviation Item := NavigationItemImpl.t.

(** ** WKWebViewCache: reading *)

Definition IsAttachedToWebView (s : t) : bool := attached_to_web_view_ s.

Definition GetBackForwardListItemCount (s : t) : Z :=
  if negb (IsAttachedToWebView s) then Z.of_nat (length (cached_items_ s))
  else
    match proxy s with
    | Some proxy =>
        let count_current_page := if bool_decide (is_Some (wv_currentItem proxy)) then 1%Z else 0%Z in
        (Z.of_nat (length (wv_backList proxy)) + count_current_page +
         Z.of_nat (length (wv_forwardList proxy)))%Z
    | None => 0%Z
    end.

Definition GetVisibleWebViewURL (s : t) : GURL :=
  if negb (IsAttachedToWebView s) then GURL_null else proxy_URL s.

Definition GetCurrentItemIndex (s : t) : Z :=
  if negb (IsAttachedToWebView s) then cached_current_item_index_ s
  else if bool_decide (is_Some (currentItem s)) then Z.of_nat (length (backList s)) else (-1)%Z.

Definition GetWKItemAtIndex (index : Z) : M t (option WKItem) :=
  let! s := mget in
  dcheck (IsAttachedToWebView s) ;;;
  if (index >=? GetBackForwardListItemCount s)%Z then mreturn None
  else mreturn (itemAtIndex s (index - GetCurrentItemIndex s)).

Definition GetItemCount (s : t) : Z :=
  if bool_decide (is_Some (empty_window_open_item_ s)) then 1%Z else GetBackForwardListItemCount s.

(** ** Creating items *)

Section Create.
Context (GetLastCommittedItem : M t (option ItemRef)).

Definition CreateNavigationItemWithRewriters (url : GURL) (referrer : Referrer.t)
    (transition : PageTransition) (initiation_type : NavigationInitiationType)
    (https_upgrade_type : HttpsUpgradeType) (previous_url : GURL)
    (additional_rewriters : option (list URLRewriter)) : M t ItemRef :=
  let '(url_was_rewritten, loaded_url) :=
    match additional_rewriters with
    | Some ((_ :: _) as rewriters) => BrowserURLRewriter.RewriteURLWithWriters url rewriters
    | _ => (false, url)
    end in
  let loaded_url := if negb url_was_rewritten
                    then snd (BrowserURLRewriter.RewriteURLIfNecessary loaded_url) else loaded_url in
  let loaded_url :=
    if (bool_decide (initiation_type = RENDERER_INITIATED) ||
        PageTransitionCoreTypeIs transition PAGE_TRANSITION_RELOAD) &&
       negb (bool_decide (loaded_url = url)) && IsAppSpecificURL loaded_url &&
       negb (IsAppSpecificURL previous_url)
    then url else loaded_url in
  let! original_url :=
    if PageTransition_land transition PAGE_TRANSITION_IS_REDIRECT_MASK then
      let! last_committed := GetLastCommittedItem in
      match last_committed with
      | Some _ =>
          let! last_committed := GetLastCommittedItem in
          let! r := deref last_committed in
          let! item := item_of r in
          mreturn (NavigationItemImpl.GetURL item)
      | None => mreturn loaded_url
      end
    else mreturn loaded_url in
  let! item := make_new_item in
  update_item item (NavigationItemImpl.SetOriginalRequestURL original_url) ;;;
  update_item item (NavigationItemImpl.SetURL loaded_url) ;;;
  update_item item (NavigationItemImpl.SetReferrer referrer) ;;;
  update_item item (NavigationItemImpl.SetTransitionType transition) ;;;
  update_item item (NavigationItemImpl.SetNavigationInitiationType initiation_type) ;;;
  update_item item (NavigationItemImpl.SetHttpsUpgradeType https_upgrade_type) ;;;
  mreturn item.

(** [WKWebViewCache::GetNavigationItemImplAtIndex] *)
Definition cache_GetNavigationItemImplAtIndex (index : Z) (create_if_missing : bool) :
    M t (option ItemRef) :=
  let! s := mget in
  if (index >=? GetBackForwardListItemCount s)%Z then mreturn None
  else if negb (IsAttachedToWebView s) then mreturn (mjoin (zlookup (cached_items_ s) index))
  else
    let! wk_item := GetWKItemAtIndex index in
    let item := GetNavigationItemFromWKItem wk_item s in
    match wk_item, item, create_if_missing with
    | Some wk, None, true =>
        let! prev_wk_item := if (index =? 0)%Z then mreturn None else GetWKItemAtIndex (index - 1) in
        let! new_item := CreateNavigationItemWithRewriters (wk_URL wk)
          (match prev_wk_item with
           | Some prev => Referrer.mk (wk_URL prev) Referrer.ReferrerPolicyAlways
           | None => Referrer.create
           end)
          PAGE_TRANSITION_LINK RENDERER_INITIATED kNone (wk_item_URL prev_wk_item) None in
        let! time := GetSmoothedNow in
        update_item new_item (NavigationItemImpl.SetTimestamp time) ;;;
        update_item new_item (NavigationItemImpl.SetTitle (wk_title wk)) ;;;
        let! item := item_of new_item in
        let url := NavigationItemImpl.GetURL item in
        mwhen (IsRestoreSessionUrl url)
          (let! virtual_url := ExtractTargetURL url in
           match virtual_url with
           | Some virtual_url => update_item new_item (NavigationItemImpl.SetVirtualURL virtual_url)
           | None => mreturn tt
           end) ;;;
        SetNavigationItemInWKItem wk_item new_item ;;;
        let! s := mget in
        mreturn (GetNavigationItemFromWKItem wk_item s)
    | _, _, _ => mreturn item
    end.

(** The index is a [size_t]. *)
Definition GetNavigationItemImplAtIndex (index : Z) : M t (option ItemRef) :=
  let! s := mget in
  match empty_window_open_item_ s with
  | Some item => mreturn (if (index =? 0)%Z then Some item else None)
  | None => cache_GetNavigationItemImplAtIndex index true
  end.

(** ** The last committed item *)

Definition GetLastCommittedItemIndexInCurrentOrRestoredSession (s : t) : Z :=
  if (pending_item_index_ s >=? 0)%Z || bool_decide (is_Some (empty_window_open_item_ s))
  then last_committed_item_index_ s else GetCurrentItemIndex s.

Definition CanTrustLastCommittedItem (last_committed_item : Item) (s : t) : bool :=
  if negb (IsAttachedToWebView s) then true
  else
    let web_view_url := GetVisibleWebViewURL s in
    let last_committed_url := NavigationItemImpl.GetURL last_committed_item in
    if bool_decide (gurl_DeprecatedGetOriginAsURL web_view_url =
                    gurl_DeprecatedGetOriginAsURL last_committed_url) then true
    else if going_to_back_forward_list_item_ s then true
    else gurl_SchemeIs web_view_url "about" || gurl_SchemeIs last_committed_url "about" ||
         gurl_SchemeIs web_view_url "file" || gurl_SchemeIs last_committed_url "file" ||
         IsAppSpecificURL web_view_url || IsAppSpecificURL last_committed_url.

(** The item that is shown when the last committed one cannot be trusted. *)
Definition last_committed_web_view_item : M t ItemRef :=
  let! s := mget in
  match last_committed_web_view_item_ s with
  | Some item => mreturn item
  | None =>
      let! item := CreateNavigationItemWithRewriters GURL_null Referrer.create PAGE_TRANSITION_LINK
        RENDERER_INITIATED kNone GURL_null None in
      mmodify (with_last_committed_web_view_item (Some item)) ;;;
      update_item item NavigationItemImpl.SetUntrusted ;;;
      mreturn item
  end.

Definition GetLastCommittedItemInCurrentOrRestoredSession : M t (option ItemRef) :=
  let! s := mget in
  match empty_window_open_item_ s with
  | Some item => mreturn (Some item)
  | None =>
      let index := GetLastCommittedItemIndexInCurrentOrRestoredSession s in
      if (index =? -1)%Z then
        dcheck (0 =? GetItemCount s)%Z ;;; mreturn None
      else
        let! last_committed_item := GetNavigationItemImplAtIndex (size_t index) in
        match last_committed_item, web_state s with
        | Some r, Some web_state =>
            let! item := item_of r in
            let! s := mget in
            if CanTrustLastCommittedItem item s then mreturn last_committed_item
            else
              let document_url := web_GetCurrentURL web_state in
              let! item := last_committed_web_view_item in
              update_item item (NavigationItemImpl.SetURL document_url) ;;;
              let! virtual_url :=
                if IsRestoreSessionUrl document_url then ExtractTargetURL document_url
                else mreturn None in
              update_item item (NavigationItemImpl.SetVirtualURL (default document_url virtual_url)) ;;;
              let! time := GetSmoothedNow in
              update_item item (NavigationItemImpl.SetTimestamp time) ;;;
              mreturn (Some item)
        | _, _ => mreturn last_committed_item
        end
  end.

Definition GetLastCommittedItemImpl : M t (option ItemRef) :=
  let! s := mget in
  if is_restore_session_in_progress_ s then mreturn None
  else
    let! result := GetLastCommittedItemInCurrentOrRestoredSession in
    match result with
    | None => mreturn None
    | Some r =>
        let! item := item_of r in
        mreturn (if IsRestoreSessionUrl (NavigationItemImpl.GetURL item) then None else result)
    end.

End Create.

(** Only a redirect asks for the last committed item when an item is created,
    and the items made on the way are links: two turns are enough. *)
Fixpoint GetLastCommittedItem_loop (fuel : nat) : M t (option ItemRef) :=
  match fuel with
  | 0 => mfail OutOfFuel
  | S fuel' => GetLastCommittedItemImpl (GetLastCommittedItem_loop fuel')
  end.

Definition GetLastCommittedItem : M t (option ItemRef) := GetLastCommittedItem_loop 2.
Abbreviation CreateItem := (CreateNavigationItemWithRewriters GetLastCommittedItem).
Abbreviation LastCommitted := (GetLastCommittedItemInCurrentOrRestoredSession GetLastCommittedItem).
Abbreviation ItemImplAtIndex := (GetNavigationItemImplAtIndex GetLastCommittedItem).
Definition GetItemAtIndex (index : Z) : M t (option ItemRef) := ItemImplAtIndex index.

Definition GetLastCommittedItemIndex : M t Z :=
  let! s := mget in
  if is_restore_session_in_progress_ s then mreturn (-1)%Z
  else
    let! item := LastCommitted in
    match item with
    | None => mreturn (-1)%Z
    | Some r =>
        let! item := item_of r in
        if IsRestoreSessionUrl (NavigationItemImpl.GetURL item) then mreturn (-1)%Z
        else mgets GetLastCommittedItemIndexInCurrentOrRestoredSession
    end.

(** ** The pending item *)

Definition GetPendingItemInCurrentOrRestoredSession : M t (option ItemRef) :=
  let! s := mget in
  if (pending_item_index_ s =? -1)%Z then
    match pending_item_ s with
    | None => mreturn (context_pending_item s)
    | Some item => mreturn (Some item)
    end
  else ItemImplAtIndex (size_t (pending_item_index_ s)).

Definition GetPendingItem : M t (option ItemRef) :=
  let! s := mget in
  if is_restore_session_in_progress_ s then mreturn None
  else GetPendingItemInCurrentOrRestoredSession.

Definition GetPendingItemIndex (s : t) : Z :=
  if is_restore_session_in_progress_ s then (-1)%Z else pending_item_index_ s.

Definition DiscardNonCommittedItems : M t unit :=
  mmodify (with_pending_item None) ;;; mmodify (with_pending_item_index (-1)).

Definition ReleasePendingItem : M t (option ItemRef) :=
  let! s := mget in mmodify (with_pending_item None) ;;; mreturn (pending_item_ s).
Definition SetPendingItem (item : option ItemRef) : M t unit := mmodify (with_pending_item item).
Definition SetPendingItemIndex (index : Z) : M t unit := mmodify (with_pending_item_index index).
Definition SetWKWebViewNextPendingUrlNotSerializable (url : GURL) : M t unit :=
  mmodify (with_next_pending_url_should_skip_serialization url).

Definition AddTransientURLRewriter (rewriter : URLRewriter) : M t unit :=
  mmodify (fun s => with_transient_url_rewriters (transient_url_rewriters_ s ++ [rewriter]) s).
Definition RemoveTransientURLRewriters : M t unit := mmodify (with_transient_url_rewriters []).

Definition UpdatePendingItemUrl (url : GURL) : M t unit :=
  let! pending_item := GetPendingItemInCurrentOrRestoredSession in
  match pending_item with
  | None => mreturn tt
  | Some r =>
      let! item := item_of r in
      if bool_decide (url = NavigationItemImpl.GetURL item) then mreturn tt
      else
        update_item r (NavigationItemImpl.SetURL url) ;;;
        update_item r (NavigationItemImpl.SetVirtualURL url) ;;;
        update_item r (NavigationItemImpl.SetPostData None) ;;;
        update_item r NavigationItemImpl.ResetHttpRequestHeaders
  end.

Definition GetCurrentItemImpl : M t (option ItemRef) :=
  let! pending_item := GetPendingItemInCurrentOrRestoredSession in
  match pending_item with
  | Some _ => mreturn pending_item
  | None => LastCommitted
  end.

Definition UpdateCurrentItemForReplaceState (url : GURL) (state_object : option u16string) : M t unit :=
  let! current_item := GetCurrentItemImpl in
  let! r := deref current_item in
  update_item r (NavigationItemImpl.SetURL url) ;;;
  update_item r (NavigationItemImpl.SetSerializedStateObject state_object) ;;;
  update_item r (NavigationItemImpl.SetPostData None).

(** [navigation_type & flag] *)
Abbreviation has := PageTransition_land.

Definition AddPendingItem (url : GURL) (referrer : Referrer.t) (navigation_type : PageTransition)
    (initiation_type : NavigationInitiationType) (is_post_navigation : bool)
    (https_upgrade_type : HttpsUpgradeType) : M t unit :=
  DiscardNonCommittedItems ;;;
  mmodify (with_pending_item_index (-1)) ;;;
  let! last_committed_item := LastCommitted in
  let! previous_url :=
    match last_committed_item with
    | Some r => let! item := item_of r in mreturn (NavigationItemImpl.GetURL item)
    | None => mreturn GURL_null
    end in
  let! s := mget in
  let! pending_item := CreateItem url referrer navigation_type initiation_type https_upgrade_type
    previous_url (Some (transient_url_rewriters_ s)) in
  mmodify (with_pending_item (Some pending_item)) ;;;
  RemoveTransientURLRewriters ;;;
  let! s := mget in
  mwhen (negb (gurl_is_empty (next_pending_url_should_skip_serialization_ s)) &&
         bool_decide (url = next_pending_url_should_skip_serialization_ s))
    (update_item pending_item (NavigationItemImpl.SetShouldSkipSerialization true)) ;;;
  mmodify (with_next_pending_url_should_skip_serialization GURL_null) ;;;
  if negb (IsAttachedToWebView s) then mreturn tt
  else
    let current_wk_item := currentItem s in
    let current_item_url := wk_item_URL current_wk_item in
    let! target_url :=
      if has navigation_type PAGE_TRANSITION_RELOAD &&
         negb (has navigation_type PAGE_TRANSITION_FORWARD_BACK) &&
         bool_decide (initiation_type = BROWSER_INITIATED) &&
         IsRestoreSessionUrl current_item_url
      then ExtractTargetURL current_item_url else mreturn None in
    let current_item_url := default current_item_url target_url in
    let! item := item_of pending_item in
    let! current :=
      match GetNavigationItemFromWKItem current_wk_item s with
      | Some r => let! item := item_of r in mreturn (Some item)
      | None => mreturn None
      end in
    match current with
    | Some current =>
        mwhen (has navigation_type PAGE_TRANSITION_RELOAD &&
               negb (has navigation_type PAGE_TRANSITION_FORWARD_BACK) &&
               IsRestoreSessionUrl current_item_url &&
               negb (bool_decide (NavigationItemImpl.GetUserAgentType current = UserAgent.NONE)) &&
               URLNeedsUserAgentType (NavigationItemImpl.GetURL item))
          (on_item pending_item
             (NavigationItemImpl.SetUserAgentType (NavigationItemImpl.GetUserAgentType current)))
    | None => mreturn tt
    end ;;;
    let isCurrentURLSameAsPending :=
      bool_decide (current_item_url = NavigationItemImpl.GetURL item) &&
      bool_decide (current_item_url = proxy_URL s) in
    let is_form_post := is_post_navigation && has navigation_type PAGE_TRANSITION_FORM_SUBMIT in
    mwhen (bool_decide (is_Some current_wk_item) && isCurrentURLSameAsPending && negb is_form_post)
      (mmodify (fun s => with_pending_item_index (GetCurrentItemIndex s) s) ;;;
       let! item := item_of pending_item in
       let transition := NavigationItemImpl.transition_type_ item in
       let! current_item :=
         match GetNavigationItemFromWKItem current_wk_item s with
         | Some r => mreturn r
         | None => SetNavigationItemInWKItem current_wk_item pending_item ;;; mreturn pending_item
         end in
       update_item current_item (NavigationItemImpl.SetTransitionType transition) ;;;
       mmodify (with_pending_item None)).

(** ** Restoring a session *)

(** [RestoreItemsState] for one of the items. *)
Definition RestoreItemState (cache_index : Z) (restore_item : option ItemRef) : M t unit :=
  let! cached_item := cache_GetNavigationItemImplAtIndex GetLastCommittedItem cache_index true in
  match cached_item, restore_item with
  | Some cached, Some restore =>
      let! cached_item := item_of cached in
      let! restore_item := item_of restore in
      let url := NavigationItemImpl.GetURL cached_item in
      let restore_url := NavigationItemImpl.GetURL restore_item in
      let! target_url := if IsRestoreSessionUrl url then ExtractTargetURL url else mreturn None in
      let is_same_url :=
        match target_url with
        | Some target_url => bool_decide (target_url = restore_url)
        | None => bool_decide (url = restore_url)
        end in
      mwhen is_same_url (on_item cached (NavigationItemImpl.RestoreStateFromItem restore_item))
  | _, _ => mreturn tt
  end.

(** The loop, which stops at the limit of the list. *)
Fixpoint restore_loop (cache_index cache_limit : Z) (items_restored : list (option ItemRef)) : M t unit :=
  match items_restored with
  | [] => mreturn tt
  | item :: items =>
      if (cache_index >=? cache_limit)%Z then mreturn tt
      else RestoreItemState cache_index item ;;; restore_loop (cache_index + 1) cache_limit items
  end.

Definition RestoreItemsState (list_type : RestoreItemListType) (items_restored : list (option ItemRef)) :
    M t unit :=
  let! s := mget in
  let current_item_index := size_t (GetCurrentItemIndex s) in
  match list_type with
  | kBackList => restore_loop 0 current_item_index items_restored
  | kForwardList =>
      restore_loop (size_t (current_item_index + 1)) (GetBackForwardListItemCount s) items_restored
  end.

(** [SynthesizedSessionRestore] *)
Definition session_entry (r : option ItemRef) : M t (GURL * GURL * u16string) :=
  let! r := deref r in
  let! item := item_of r in
  mreturn (Referrer.url (NavigationItemImpl.GetReferrer item), NavigationItemImpl.GetURL item,
           NavigationItemImpl.GetTitle item).
Definition synthesized_restore_Init (last_committed_item_index : Z) (items : list (option ItemRef)) : M t unit :=
  mwhen synthesized_restore_enabled
    (dcheck ((0 <=? last_committed_item_index)%Z &&
             (last_committed_item_index <? Z.of_nat (length items))%Z) ;;;
     let! entries := mmap items session_entry in
     mmodify (with_cached_data (Some (mkSessionData last_committed_item_index off_the_record entries)))).
Definition synthesized_restore_Restore : M t bool :=
  let! s := mget in
  match cached_data_ s with
  | Some data =>
      if negb synthesized_restore_enabled then mreturn false
      else
        mmodify (with_cached_data None) ;;;
        let '(succeeded, proxy) := SetSessionStateData data (proxy s) in
        mmodify (with_proxy proxy) ;;;
        if negb succeeded then mreturn false
        else
          let! s := mget in
          dcheck (negb (GetItemCount s =? 0)%Z) ;;; mreturn true
  | None => mreturn false
  end.

(** ** WKWebViewCache: detaching *)

Definition cache_item (index : Z) : M t (option ItemRef) :=
  let! item := cache_GetNavigationItemImplAtIndex GetLastCommittedItem index true in
  let! r := deref item in
  let! item := item_of r in
  let! cached := make_item (NavigationItemImpl.copy item) in
  let url := NavigationItemImpl.GetURL item in
  mwhen (IsRestoreSessionUrl url)
    (let! extracted_url := ExtractTargetURL url in
     match extracted_url with
     | Some extracted_url => update_item cached (NavigationItemImpl.SetURL extracted_url)
     | None => mreturn tt
     end) ;;;
  mreturn (Some cached).

Definition cache_DetachFromWebView : M t unit :=
  let! s := mget in
  mwhen (IsAttachedToWebView s)
    (mmodify (with_cached_current_item_index (GetCurrentItemIndex s)) ;;;
     let! cached_items := mmap (seqZ 0 (GetBackForwardListItemCount s)) cache_item in
     mmodify (with_cached_items cached_items)) ;;;
  mmodify (with_attached_to_web_view false).

Definition ResetToAttached : M t unit :=
  mmodify (with_cached_items []) ;;;
  mmodify (with_cached_current_item_index (-1)) ;;;
  mmodify (with_attached_to_web_view true).

Definition ReleaseCachedItems : M t (list (option ItemRef)) :=
  let! s := mget in
  dcheck (negb (IsAttachedToWebView s)) ;;;
  mmodify (with_cached_items []) ;;;
  mreturn (cached_items_ s).

Definition DetachFromWebView : M t unit :=
  cache_DetachFromWebView ;;; mmodify (with_is_restore_session_in_progress false).

(** [RemoveWebView] of the delegate in the program: [-[CRWWebController removeWebView]],
    of which this is the effect on the manager. It also cancels the dialogs, stops the
    load and forgets the pending navigations. *)
Definition RemoveWebView : M t unit :=
  let! s := mget in
  match proxy s with
  | None => mreturn tt
  | Some _ => DetachFromWebView ;;; mmodify (with_proxy None)
  end.

Definition RewriteItemURLIfNecessary (r : ItemRef) : M t unit :=
  let! item := item_of r in
  let '(rewritten, url) := BrowserURLRewriter.RewriteURLIfNecessary (NavigationItemImpl.GetURL item) in
  mwhen rewritten
    (update_item r (NavigationItemImpl.SetURL url) ;;;
     update_item r (NavigationItemImpl.SetVirtualURL (NavigationItemImpl.GetURL item))).

(** ** Loading

    [LoadURLWithParams] can restore the cached session, and restoring loads the
    URL of the session: the functions are given the one they call. *)

Section Loading.
Context (LoadURLWithParams : WebLoadParams -> M t unit).

Definition run_callback (callback : Callback) : M t unit :=
  match callback with
  | LoadURLWithParamsCallback params => LoadURLWithParams params
  | RestoreItemsStateCallback list_type items => RestoreItemsState list_type items
  | OtherClosure closure => delegate (RunClosure closure)
  end.

Definition AddRestoreCompletionCallback (callback : Callback) : M t unit :=
  let! s := mget in
  if negb (is_restore_session_in_progress_ s) then run_callback callback
  else mmodify (fun s => with_restore_session_completion_callbacks
                           (restore_session_completion_callbacks_ s ++ [callback]) s).

(** What [CreateRestoreSessionUrl] reads of an item. *)
Definition url_and_title (r : option ItemRef) : M t (GURL * u16string) :=
  let! r := deref r in
  let! item := item_of r in
  mreturn (NavigationItemImpl.GetURL item, NavigationItemImpl.GetTitle item).

Definition UnsafeRestore (last_committed_item_index : Z) (items : list (option ItemRef)) : M t unit :=
  mfor items (fun r => let! r := deref r in RewriteItemURLIfNecessary r) ;;;
  synthesized_restore_Init last_committed_item_index items ;;;
  let! read := mmap items url_and_title in
  let! result := CreateRestoreSessionUrl last_committed_item_index read in
  let '(url, first_index) := result in
  dcheck (first_index >=? 0)%Z ;;;
  dcheck (first_index <? Z.of_nat (length items))%Z ;;;
  dcheck (gurl_is_valid url) ;;;
  let! first := of_option (mjoin (zlookup items first_index)) in
  let! first_item := item_of first in
  let params := mkWebLoadParams url (NavigationItemImpl.GetVirtualURL first_item) Referrer.create
    PAGE_TRANSITION_RELOAD false None None kNone in
  mmodify (with_is_restore_session_in_progress true) ;;;
  mwhen (last_committed_item_index >? -1)%Z
    (mmodify (with_restored_visible_item (mjoin (zlookup items last_committed_item_index)))) ;;;
  let back_items := take (Z.to_nat last_committed_item_index) items in
  let forward_items := drop (Z.to_nat (last_committed_item_index + 1)) items in
  AddRestoreCompletionCallback (RestoreItemsStateCallback kBackList back_items) ;;;
  AddRestoreCompletionCallback (RestoreItemsStateCallback kForwardList forward_items) ;;;
  LoadURLWithParams params ;;;
  let! pendingItem := GetPendingItemInCurrentOrRestoredSession in
  match pendingItem with
  | Some pendingItem =>
      (* a reference to the title of the first item *)
      let! first_item := item_of first in
      update_item pendingItem (NavigationItemImpl.SetTitle (NavigationItemImpl.GetTitle first_item))
  | None => mreturn tt
  end.

Definition Restore (last_committed_item_index : Z) (items : list (option ItemRef)) : M t unit :=
  let! s := mget in
  dcheck (negb (is_restore_session_in_progress_ s)) ;;;
  dcheck (last_committed_item_index <? Z.of_nat (length items))%Z ;;;
  dcheck (bool_decide (items = []) || (last_committed_item_index >=? 0)%Z) ;;;
  mwhen (negb (IsAttachedToWebView s)) ResetToAttached ;;;
  if bool_decide (items = []) then mreturn tt
  else
    DiscardNonCommittedItems ;;;
    let! s := mget in
    mwhen (GetItemCount s >? 0)%Z RemoveWebView ;;;
    let! s := mget in
    dcheck (0 =? GetItemCount s)%Z ;;;
    dcheck (-1 =? pending_item_index_ s)%Z ;;;
    mmodify (with_last_committed_item_index (-1)) ;;;
    UnsafeRestore last_committed_item_index items.

(** [Restore(index, web_view_cache_.ReleaseCachedItems())] *)
Definition RestoreCachedItems (index : Z) : M t unit :=
  let! items := ReleaseCachedItems in
  Restore index items ;;;
  let! s := mget in
  dcheck (IsAttachedToWebView s).

Definition LoadIfNecessary : M t unit :=
  let! s := mget in
  if negb (IsAttachedToWebView s) then RestoreCachedItems (GetCurrentItemIndex s)
  else delegate DelegateLoadIfNecessary.

(** A callback that adds another one to the vector the loop goes over makes
    the iterator of the loop invalid. *)
Definition FinalizeSessionRestore : M t unit :=
  mmodify (with_is_restore_session_in_progress false) ;;;
  mmodify (with_cached_data None) ;;;
  let! s := mget in
  let callbacks := restore_session_completion_callbacks_ s in
  mfor callbacks (fun callback =>
    run_callback callback ;;;
    let! s := mget in
    if decide (length (restore_session_completion_callbacks_ s) = length callbacks) then mreturn tt
    else mfail OutOfRange) ;;;
  mmodify (with_restore_session_completion_callbacks []) ;;;
  LoadIfNecessary.

(** [cached_items.resize(next + 1); cached_items[next] = std::move(pending)] *)
Definition replace_forward (next_item_index : Z) (pending : option ItemRef)
    (cached_items : list (option ItemRef)) : list (option ItemRef) :=
  let n := Z.to_nat next_item_index in
  <[n := pending]> (take (S n) (cached_items ++ replicate (S n) None)).

Definition LoadURLWithParams_body (params : WebLoadParams) : M t unit :=
  let! s := mget in
  if is_restore_session_in_progress_ s && negb (IsRestoreSessionUrl (params_url params))
  then AddRestoreCompletionCallback (LoadURLWithParamsCallback params)
  else
    dcheck (negb (has (params_transition_type params) PAGE_TRANSITION_FORWARD_BACK)) ;;;
    delegate ClearDialogs ;;;
    delegate RecordPageStateInNavigationItem ;;;
    let initiation_type :=
      if params_is_renderer_initiated params then RENDERER_INITIATED else BROWSER_INITIATED in
    AddPendingItem (params_url params) (params_referrer params) (params_transition_type params)
      initiation_type false (params_https_upgrade_type params) ;;;
    let! pending_item := GetPendingItemInCurrentOrRestoredSession in
    match pending_item with
    | Some r =>
        let! last_committed_item := LastCommitted in
        let! last_committed_url :=
          match last_committed_item with
          | Some r => let! item := item_of r in mreturn (NavigationItemImpl.GetVirtualURL item)
          | None => mreturn GURL_null
          end in
        let! item := item_of r in
        let pending_url := NavigationItemImpl.GetURL item in
        mwhen (negb (bool_decide (last_committed_url = pending_url)) &&
               gurl_EqualsIgnoringRef last_committed_url pending_url)
          (update_item r (NavigationItemImpl.SetIsCreatedFromHashChange true)) ;;;
        mwhen (gurl_is_valid (params_virtual_url params))
          (update_item r (NavigationItemImpl.SetVirtualURL (params_virtual_url params))) ;;;
        update_item r (NavigationItemImpl.SetHttpsUpgradeType (params_https_upgrade_type params))
    | None => mreturn tt
    end ;;;
    let! added_item := match pending_item with Some _ => mreturn pending_item | None => LastCommitted end in
    dcheck (bool_decide (is_Some added_item)) ;;;
    let! added := deref added_item in
    mwhen (bool_decide (is_Some (params_extra_headers params)))
      (update_item added (NavigationItemImpl.AddHttpRequestHeaders (params_extra_headers params))) ;;;
    update_item added (NavigationItemImpl.SetHttpsUpgradeType (params_https_upgrade_type params)) ;;;
    mwhen (bool_decide (is_Some (params_post_data params)))
      (let! item := item_of added in
       dcheck (bool_decide (is_Some (NavigationItemImpl.http_request_headers_ item ≫= lookup "Content-Type"))) ;;;
       update_item added (NavigationItemImpl.SetPostData (params_post_data params)) ;;;
       update_item added (NavigationItemImpl.SetShouldSkipRepostFormConfirmation true)) ;;;
    let! s := mget in
    if negb (IsAttachedToWebView s) then
      dcheck (pending_item_index_ s =? -1)%Z ;;;
      if bool_decide (is_Some (pending_item_ s)) && (GetBackForwardListItemCount s >? 0)%Z then
        let! cached_items := ReleaseCachedItems in
        let next_item_index := (GetCurrentItemIndex s + 1)%Z in
        dcheck (next_item_index >? 0)%Z ;;;
        mmodify (with_pending_item None) ;;;
        Restore next_item_index (replace_forward next_item_index (pending_item_ s) cached_items) ;;;
        let! s := mget in
        dcheck (IsAttachedToWebView s)
      else
        ResetToAttached ;;; delegate (LoadCurrentItem initiation_type)
    else delegate (LoadCurrentItem initiation_type).

End Loading.

(** Restoring attaches the manager, so that the load of the session does not
    restore again: two turns are enough. *)
Fixpoint LoadURLWithParams_loop (fuel : nat) (params : WebLoadParams) : M t unit :=
  match fuel with
  | 0 => mfail OutOfFuel
  | S fuel' => LoadURLWithParams_body (LoadURLWithParams_loop fuel') params
  end.

Definition LoadURLWithParams : WebLoadParams -> M t unit := LoadURLWithParams_loop 2.

Abbreviation RestoreSession := (Restore LoadURLWithParams).
Abbreviation LoadPage := (LoadIfNecessary LoadURLWithParams).
Abbreviation Finalize := (FinalizeSessionRestore LoadURLWithParams).
Abbreviation RestoreCached := (RestoreCachedItems LoadURLWithParams).

(** ** Committing *)

Definition OnNavigationItemCommitted : M t unit :=
  let! item := LastCommitted in
  dcheck (bool_decide (is_Some item)) ;;;
  let! r := deref item in
  delegate (DelegateOnNavigationItemCommitted r) ;;;
  let! item := item_of r in
  mwhen (negb (IsRestoreSessionUrl (NavigationItemImpl.GetURL item)))
    (mmodify (with_restored_visible_item None) ;;;
     let! s := mget in
     mwhen (is_restore_session_in_progress_ s) Finalize).

(** The user agent of the item that was visible in the restored session. *)
Definition restored_user_agent : M t (option UserAgent.UserAgentType) :=
  let! s := mget in
  match restored_visible_item_ s with
  | Some r =>
      let! item := item_of r in
      let type := NavigationItemImpl.GetUserAgentType item in
      mreturn (if bool_decide (type = UserAgent.NONE) then None else Some type)
  | None => mreturn None
  end.

Definition OnNavigationStarted (url : GURL) : M t unit :=
  let! s := mget in
  if negb (is_restore_session_in_progress_ s) then mreturn tt
  else if IsRestoreSessionUrl url then let! _ := ExtractTargetURL url in mreturn tt
  else
    let index := GetLastCommittedItemIndexInCurrentOrRestoredSession s in
    dcheck (negb (index =? -1)%Z || (0 =? GetItemCount s)%Z) ;;;
    let! type := restored_user_agent in
    match type with
    | Some type =>
        mwhen (negb (index =? -1)%Z)
          (let! last_committed_item := ItemImplAtIndex (size_t index) in
           let! r := deref last_committed_item in
           on_item r (NavigationItemImpl.SetUserAgentType type))
    | None => mreturn tt
    end ;;;
    Finalize.

(** Whether the navigation that is committed is that of a window opened
    without URL, which WebKit has no item for. *)
Definition is_empty_window_open (s : t) : bool :=
  bool_decide (is_Some (proxy s)) && negb (bool_decide (is_Some (currentItem s))).

Definition set_last_committed_item_index : M t unit :=
  mmodify (fun s => with_last_committed_item_index
    (if bool_decide (is_Some (empty_window_open_item_ s)) then 0%Z else GetCurrentItemIndex s) s).

Definition ResetForCommit (r : ItemRef) : M t unit :=
  update_item r NavigationItemImpl.ResetForCommit ;;;
  let! time := GetSmoothedNow in
  update_item r (NavigationItemImpl.SetTimestamp time).

Definition CommitPendingItem : M t unit :=
  let! s := mget in
  dcheck (IsAttachedToWebView s) ;;;
  if (pending_item_index_ s =? -1)%Z && negb (bool_decide (is_Some (pending_item_ s)))
  then mmodify (with_empty_window_open_item None)
  else
    mwhen (pending_item_index_ s =? -1)%Z
      (let! r := deref (pending_item_ s) in
       ResetForCommit r ;;;
       if is_empty_window_open s then
         dcheck (String.prefix "about:blank" (gurl_spec (proxy_URL s))) ;;;
         dcheck (0 =? Z.of_nat (length (backList s)))%Z ;;;
         dcheck (0 =? Z.of_nat (length (forwardList s)))%Z ;;;
         mmodify (with_empty_window_open_item (Some r))
       else
         mmodify (with_empty_window_open_item None) ;;;
         SetNavigationItemInWKItem (currentItem s) r) ;;;
    mmodify (with_pending_item_index (-1)) ;;;
    mmodify (with_pending_item None) ;;;
    set_last_committed_item_index ;;;
    OnNavigationItemCommitted.

(** The item of the list a committed item is attached to. *)
Definition committed_wk_item (item_url : GURL) (s : t) : option WKItem :=
  if bool_decide (item_url = wk_item_URL (currentItem s)) then currentItem s
  else if bool_decide (is_Some (backItem s)) && bool_decide (item_url = wk_item_URL (backItem s))
  then backItem s
  else if bool_decide (is_Some (forwardItem s)) && bool_decide (item_url = wk_item_URL (forwardItem s))
  then forwardItem s
  else currentItem s.

(** [CommitPendingItem(item)] *)
Definition CommitPendingItem_of (item : option ItemRef) : M t unit :=
  match item with
  | None => CommitPendingItem
  | Some r =>
      let! s := mget in
      dcheck (IsAttachedToWebView s) ;;;
      ResetForCommit r ;;;
      (if is_empty_window_open s then
         dcheck (0 =? Z.of_nat (length (backList s)))%Z ;;;
         dcheck (0 =? Z.of_nat (length (forwardList s)))%Z ;;;
         mmodify (with_empty_window_open_item (Some r))
       else
         mmodify (with_empty_window_open_item None) ;;;
         let! item := item_of r in
         SetNavigationItemInWKItem (committed_wk_item (NavigationItemImpl.GetURL item) s) r) ;;;
      set_last_committed_item_index ;;;
      OnNavigationItemCommitted
  end.

Definition RestoreNativeSession (url : GURL) : M t bool :=
  let! s := mget in
  dcheck (is_restore_session_in_progress_ s) ;;;
  let! targetURL := if IsRestoreSessionUrl url then ExtractTargetURL url else mreturn None in
  if negb (IsRestoreSessionUrl url) || bool_decide (is_Some targetURL) then mreturn false
  else
    let '(from_cache, proxy') := RestoreSessionFromCache (proxy s) in
    mmodify (with_proxy proxy') ;;;
    let! restored := if from_cache then mreturn true else synthesized_restore_Restore in
    if negb restored then mreturn false
    else
      DiscardNonCommittedItems ;;;
      mmodify (fun s => with_last_committed_item_index (GetCurrentItemIndex s) s) ;;;
      let! type := restored_user_agent in
      match type with
      | Some type =>
          let! last_committed_item := LastCommitted in
          match last_committed_item with
          | Some r => on_item r (NavigationItemImpl.SetUserAgentType type)
          | None => mreturn tt
          end
      | None => mreturn tt
      end ;;;
      mmodify (with_restored_visible_item None) ;;;
      Finalize ;;;
      mreturn true.

(** ** Going back and forward *)

(** [base::CheckAdd] on [int]s. *)
Definition GetIndexForOffset (offset : Z) (s : t) : Z :=
  let current_item_index :=
    if (pending_item_index_ s =? -1)%Z
    then if bool_decide (is_Some (empty_window_open_item_ s)) then 0%Z else GetCurrentItemIndex s
    else pending_item_index_ s in
  if in_int (current_item_index + offset) then (current_item_index + offset)%Z else (-1)%Z.

Definition CanGoToOffset (offset : Z) (s : t) : bool :=
  if is_restore_session_in_progress_ s then false
  else if bool_decide (is_Some (empty_window_open_item_ s)) then (offset =? 0)%Z
  else
    let index := GetIndexForOffset offset s in
    (index >=? 0)%Z && (index <? GetItemCount s)%Z.
Definition CanGoBack : t -> bool := CanGoToOffset (-1).
Definition CanGoForward : t -> bool := CanGoToOffset 1.

Definition GoToIndex_from (index : Z) (initiation_type : NavigationInitiationType)
    (has_user_gesture : bool) : M t unit :=
  let! s := mget in
  if (index <? 0)%Z || (index >=? GetItemCount s)%Z then mfail NotReached
  else
    delegate RecordPageStateInNavigationItem ;;;
    delegate ClearDialogs ;;;
    if negb (IsAttachedToWebView s) then RestoreCached index
    else
      DiscardNonCommittedItems ;;;
      let! item := GetItemAtIndex index in
      let! item := deref item in
      update_item item (fun i => NavigationItemImpl.SetTransitionType
        (PageTransition_lor (NavigationItemImpl.transition_type_ i) PAGE_TRANSITION_FORWARD_BACK) i) ;;;
      let! wk_item := GetWKItemAtIndex index in
      match wk_item with
      | Some wk_item =>
          mmodify (with_going_to_back_forward_list_item true) ;;;
          delegate (GoToBackForwardListItem wk_item item initiation_type has_user_gesture) ;;;
          mmodify (with_going_to_back_forward_list_item false)
      | None =>
          let! s := mget in
          dcheck ((index =? 0)%Z && bool_decide (is_Some (empty_window_open_item_ s)))
      end.

Definition GoToIndex (index : Z) : M t unit :=
  let! item := LastCommitted in
  let! on_restore_url :=
    match item with
    | Some r => let! item := item_of r in mreturn (IsRestoreSessionUrl (NavigationItemImpl.GetURL item))
    | None => mreturn false
    end in
  if on_restore_url then mreturn tt else GoToIndex_from index BROWSER_INITIATED true.

Definition GoBack : M t unit := let! s := mget in GoToIndex (GetIndexForOffset (-1) s).
Definition GoForward : M t unit := let! s := mget in GoToIndex (GetIndexForOffset 1 s).

Definition GetBackwardItems : M t (list (option ItemRef)) :=
  let! s := mget in
  if is_restore_session_in_progress_ s then mreturn []
  else mmap (reverse (seqZ 0 (GetCurrentItemIndex s))) GetItemAtIndex.

Definition GetForwardItems : M t (list (option ItemRef)) :=
  let! s := mget in
  if is_restore_session_in_progress_ s then mreturn []
  else
    let first := (GetCurrentItemIndex s + 1)%Z in
    mmap (seqZ first (GetItemCount s - first)) GetItemAtIndex.

(** ** The visible item, and reloading *)

Definition GetVisibleItem : M t (option ItemRef) :=
  let! s := mget in
  if is_restore_session_in_progress_ s || bool_decide (is_Some (restored_visible_item_ s))
  then mreturn (restored_visible_item_ s)
  else
    let! pending_item := GetPendingItemInCurrentOrRestoredSession in
    let! safe_to_show_pending :=
      match pending_item with
      | Some r =>
          let! item := item_of r in
          let! s := mget in
          if bool_decide (NavigationItemImpl.navigation_initiation_type_ item = BROWSER_INITIATED) &&
             (pending_item_index_ s =? -1)%Z
          then let! web_state := of_option (web_state s) in mreturn (web_IsLoading web_state)
          else mreturn false
      | None => mreturn false
      end in
    if safe_to_show_pending then mreturn pending_item
    else
      let! last_committed_item := GetLastCommittedItem in
      match last_committed_item with
      | Some _ => mreturn last_committed_item
      | None =>
          let! result := LastCommitted in
          match result with
          | Some r =>
              let! item := item_of r in
              mreturn (if IsRestoreSessionUrl (NavigationItemImpl.GetURL item) then result else None)
          | None => mreturn None
          end
      end.

Definition Reload (reload_type : ReloadType) : M t unit :=
  let! s := mget in
  if is_restore_session_in_progress_ s then mreturn tt
  else
    let! pending := GetPendingItem in
    let! reload_item := match pending with Some _ => mreturn pending | None => LastCommitted end in
    match reload_item with
    | None => mreturn tt
    | Some r =>
        delegate ClearDialogs ;;;
        match reload_type with
        | ORIGINAL_REQUEST_URL =>
            update_item r (fun item => NavigationItemImpl.SetURL (NavigationItemImpl.GetOriginalRequestURL item) item)
        | NORMAL => mreturn tt
        end ;;;
        let! s := mget in
        if negb (IsAttachedToWebView s) then RestoreCached (GetCurrentItemIndex s)
        else delegate DelegateReload
    end.

Definition ReloadWithUserAgentType (user_agent_type : UserAgent.UserAgentType) : M t unit :=
  dcheck (negb (bool_decide (user_agent_type = UserAgent.NONE))) ;;;
  let! visible := GetVisibleItem in
  let! item_to_reload := match visible with Some _ => mreturn visible | None => GetLastCommittedItem end in
  match item_to_reload with
  | None => mreturn tt
  | Some r =>
      let! item := item_of r in
      let original := NavigationItemImpl.GetOriginalRequestURL item in
      let virtual_url := NavigationItemImpl.GetVirtualURL item in
      let reload_url := if gurl_is_empty original then virtual_url else original in
      let params := mkWebLoadParams reload_url
        (if bool_decide (virtual_url = reload_url) then GURL_null else virtual_url)
        (NavigationItemImpl.GetReferrer item) PAGE_TRANSITION_RELOAD false None None kNone in
      delegate (SetWebStateUserAgent user_agent_type) ;;;
      on_item r (NavigationItemImpl.SetUserAgentType user_agent_type) ;;;
      LoadURLWithParams params
  end.

(** [GetIndexOfItem], of the address of an item *)
Definition index_of (item : ItemRef) (indexes : list Z) : M t Z :=
  foldr (fun index rest =>
    let! found := cache_GetNavigationItemImplAtIndex GetLastCommittedItem index false in
    if bool_decide (found = Some item) then mreturn index else rest) (mreturn (-1)%Z) indexes.
Definition GetIndexOfItem (item : ItemRef) : M t Z :=
  let! s := mget in
  if bool_decide (Some item = empty_window_open_item_ s) then mreturn 0%Z
  else index_of item (seqZ 0 (GetBackForwardListItemCount s)).

(** The loop of [GetLastCommittedItemWithUserAgentType], down from an index. *)
Fixpoint user_agent_loop (indexes : list Z) : M t (option ItemRef) :=
  match indexes with
  | [] => mreturn None
  | index :: indexes =>
      let! item := GetItemAtIndex index in
      let! r := deref item in
      let! item := item_of r in
      if URLNeedsUserAgentType (NavigationItemImpl.GetURL item) then
        dcheck (negb (bool_decide (NavigationItemImpl.GetUserAgentType item = UserAgent.NONE))) ;;;
        mreturn (Some r)
      else user_agent_loop indexes
  end.
Definition GetLastCommittedItemWithUserAgentType : M t (option ItemRef) :=
  let! s := mget in
  user_agent_loop (reverse (seqZ 0 (GetLastCommittedItemIndexInCurrentOrRestoredSession s + 1))).

End Code.
End NavigationManagerImpl.
