(* ===== verification/NavigationManagerProofs.v ===== *)
(** * NavigationManager: the proofs

    The frame of the reading functions, that the fuel of the two recursive
    functions is enough, and the safety properties of the items that are made
    and shown. *)

From stdpp Require Import base tactics option list numbers strings gmap.
From Stdlib Require Import ZArith Lia.
From S2P Require Import Prelude WebTypes WkNavigationUtil NavigationItem.
From S2P Require Import NavigationManagerState NavigationManager.

Module NavigationManagerProofs.
Import NavigationManagerState NavigationManagerImpl WkNavigationUtil.

Section Proofs.
Context `{WebEnv} `{CertificateOps} `{PageTransitionOps} `{ItemEnv}.
Context {NE : NavigationEnv} `{!NativeRestore}.

(** ** What the functions that make and find items leave as it is *)

(** Everything but the heap, the counter of the identifiers, the items attached
    to the list, the clock and the item shown for an untrusted one. *)
Record frame (s s' : t) : Prop := {
  frame_proxy : proxy s' = proxy s;
  frame_web_state : web_state s' = web_state s;
  frame_context : context_pending_item s' = context_pending_item s;
  frame_calls : delegate_calls s' = delegate_calls s;
  frame_rewriters : transient_url_rewriters_ s' = transient_url_rewriters_ s;
  frame_pending : pending_item_ s' = pending_item_ s;
  frame_pending_index : pending_item_index_ s' = pending_item_index_ s;
  frame_committed : last_committed_item_index_ s' = last_committed_item_index_ s;
  frame_empty : empty_window_open_item_ s' = empty_window_open_item_ s;
  frame_attached : attached_to_web_view_ s' = attached_to_web_view_ s;
  frame_cached : cached_items_ s' = cached_items_ s;
  frame_cached_index : cached_current_item_index_ s' = cached_current_item_index_ s;
  frame_restoring : is_restore_session_in_progress_ s' = is_restore_session_in_progress_ s;
  frame_going : going_to_back_forward_list_item_ s' = going_to_back_forward_list_item_ s;
  frame_skip : next_pending_url_should_skip_serialization_ s' =
    next_pending_url_should_skip_serialization_ s;
  frame_visible : restored_visible_item_ s' = restored_visible_item_ s;
  frame_callbacks : restore_session_completion_callbacks_ s' = restore_session_completion_callbacks_ s;
  frame_data : cached_data_ s' = cached_data_ s
}.

#[global] Instance frame_preorder : PreOrder frame.
Proof.
  split; [by intros s; split|]. intros s1 s2 s3 [] []. split; congruence.
Qed.

Lemma frame_item_of r : keeps frame (item_of r).
Proof. through @item_of. Qed.
Lemma frame_deref r : keeps frame (deref r).
Proof. through @deref. Qed.
#[local] Hint Resolve frame_item_of frame_deref : code.
Lemma frame_update_item r f : keeps frame (update_item r f).
Proof. through @update_item. Qed.
Lemma frame_on_item r m : keeps frame (on_item r m).
Proof. through @on_item. Qed.
Lemma frame_make_item i : keeps frame (make_item i).
Proof. through @make_item. Qed.
#[local] Hint Resolve frame_update_item frame_on_item frame_make_item : code.
Lemma frame_make_new_item : keeps frame make_new_item.
Proof. through @make_new_item. Qed.
Lemma frame_GetSmoothedNow : keeps frame GetSmoothedNow.
Proof. through @GetSmoothedNow. Qed.
Lemma frame_SetNavigationItemInWKItem w r : keeps frame (SetNavigationItemInWKItem w r).
Proof. through @SetNavigationItemInWKItem. Qed.
Lemma frame_GetWKItemAtIndex i : keeps frame (GetWKItemAtIndex i).
Proof. through @GetWKItemAtIndex. Qed.
Lemma frame_ExtractTargetURL u : keeps frame (ExtractTargetURL u).
Proof. through @ExtractTargetURL. Qed.
#[local] Hint Resolve frame_make_new_item frame_GetSmoothedNow frame_SetNavigationItemInWKItem
  frame_GetWKItemAtIndex frame_ExtractTargetURL : code.

Section Frames.
Context (g : M t (option ItemRef)) (Hg : keeps frame g).
#[local] Hint Resolve Hg : code.

Lemma frame_Create u r tr i h p l : keeps frame (CreateNavigationItemWithRewriters g u r tr i h p l).
Proof. through @CreateNavigationItemWithRewriters. Qed.
#[local] Hint Resolve frame_Create : code.
Lemma frame_cache_Get i c : keeps frame (cache_GetNavigationItemImplAtIndex g i c).
Proof. through @cache_GetNavigationItemImplAtIndex. Qed.
#[local] Hint Resolve frame_cache_Get : code.
Lemma frame_ItemImplAtIndex i : keeps frame (GetNavigationItemImplAtIndex g i).
Proof. through @GetNavigationItemImplAtIndex. Qed.
Lemma frame_last_committed_web_view_item : keeps frame (last_committed_web_view_item g).
Proof. through @last_committed_web_view_item. Qed.
#[local] Hint Resolve frame_ItemImplAtIndex frame_last_committed_web_view_item : code.
Lemma frame_LastCommitted : keeps frame (GetLastCommittedItemInCurrentOrRestoredSession g).
Proof. through @GetLastCommittedItemInCurrentOrRestoredSession. Qed.
#[local] Hint Resolve frame_LastCommitted : code.
Lemma frame_GetLastCommittedItemImpl : keeps frame (GetLastCommittedItemImpl g).
Proof. through @GetLastCommittedItemImpl. Qed.
End Frames.

Lemma frame_GetLastCommittedItem : keeps frame GetLastCommittedItem.
Proof. unfold GetLastCommittedItem. by repeat apply frame_GetLastCommittedItemImpl. Qed.
#[local] Hint Resolve frame_GetLastCommittedItem frame_Create frame_cache_Get frame_ItemImplAtIndex
  frame_LastCommitted : code.

Lemma frame_GetPending : keeps frame GetPendingItemInCurrentOrRestoredSession.
Proof. through @GetPendingItemInCurrentOrRestoredSession. Qed.
#[local] Hint Resolve frame_GetPending : code.

(** ** Fuel

    The items that are made when they are read are links: no function but
    [LoadURLWithParams] goes round twice. *)

Lemma never_item_of r : never OutOfFuel (item_of r).
Proof. through @item_of. Qed.
Lemma never_deref r : never OutOfFuel (deref r).
Proof. through @deref. Qed.
#[local] Hint Resolve never_item_of never_deref : code.
Lemma never_update_item r f : never OutOfFuel (update_item r f).
Proof. through @update_item. Qed.
Lemma never_on_item r m : never OutOfFuel m -> never OutOfFuel (on_item r m).
Proof.
  intros Hm. unfold on_item. apply never_bind; [apply never_item_of|]. intros item.
  pose proof (Hm item) as Hf. destruct (m item) as [[[] i]|e]; [repeat code_step|].
  apply never_fail. congruence.
Qed.
Lemma never_SetUserAgentType type : never OutOfFuel (NavigationItemImpl.SetUserAgentType type).
Proof. through @NavigationItemImpl.SetUserAgentType. Qed.
#[local] Hint Resolve never_update_item never_on_item never_SetUserAgentType : code.
Lemma never_RestoreStateFromItem item : never OutOfFuel (NavigationItemImpl.RestoreStateFromItem item).
Proof. through @NavigationItemImpl.RestoreStateFromItem. Qed.
Lemma never_make_item i : never OutOfFuel (make_item i).
Proof. through @make_item. Qed.
#[local] Hint Resolve never_RestoreStateFromItem never_make_item : code.
Lemma never_make_new_item : never OutOfFuel make_new_item.
Proof.
  unfold make_new_item, GetUniqueIDInConstructor, next_id. apply never_bind; [done|]. intros s.
  unfold mbind at 1, mget at 1. destruct (_ =? _)%Z; cbn; repeat code_step.
Qed.
Lemma never_GetSmoothedNow : never OutOfFuel GetSmoothedNow.
Proof. through @GetSmoothedNow. Qed.
Lemma never_SetNavigationItemInWKItem w r : never OutOfFuel (SetNavigationItemInWKItem w r).
Proof. through @SetNavigationItemInWKItem. Qed.
Lemma never_GetWKItemAtIndex i : never OutOfFuel (GetWKItemAtIndex i).
Proof. through @GetWKItemAtIndex. Qed.
Lemma never_ExtractTargetURL {S} u : never OutOfFuel (@ExtractTargetURL _ _ S u).
Proof. through @ExtractTargetURL. Qed.
#[local] Hint Resolve never_make_new_item never_GetSmoothedNow never_SetNavigationItemInWKItem
  never_GetWKItemAtIndex never_ExtractTargetURL : code.

Lemma never_Create g u r tr i h p l :
  never OutOfFuel g -> never OutOfFuel (CreateNavigationItemWithRewriters g u r tr i h p l).
Proof. intros Hg. through @CreateNavigationItemWithRewriters. Qed.

Section Links.
Context `{!NavigationEnvLaws NE} (g : M t (option ItemRef)).

Lemma never_Create_link u r i h p l :
  never OutOfFuel (CreateNavigationItemWithRewriters g u r PAGE_TRANSITION_LINK i h p l).
Proof. unfold CreateNavigationItemWithRewriters. rewrite link_is_not_redirect. through @item_of. Qed.
#[local] Hint Resolve never_Create_link : code.
Lemma never_cache_Get i c : never OutOfFuel (cache_GetNavigationItemImplAtIndex g i c).
Proof. through @cache_GetNavigationItemImplAtIndex. Qed.
#[local] Hint Resolve never_cache_Get : code.
Lemma never_ItemImplAtIndex i : never OutOfFuel (GetNavigationItemImplAtIndex g i).
Proof. through @GetNavigationItemImplAtIndex. Qed.
Lemma never_last_committed_web_view_item : never OutOfFuel (last_committed_web_view_item g).
Proof. through @last_committed_web_view_item. Qed.
#[local] Hint Resolve never_ItemImplAtIndex never_last_committed_web_view_item : code.
Lemma never_LastCommitted : never OutOfFuel (GetLastCommittedItemInCurrentOrRestoredSession g).
Proof. through @GetLastCommittedItemInCurrentOrRestoredSession. Qed.
#[local] Hint Resolve never_LastCommitted : code.
Lemma never_GetLastCommittedItemImpl : never OutOfFuel (GetLastCommittedItemImpl g).
Proof. through @GetLastCommittedItemImpl. Qed.
End Links.

Section Fuel.
Context `{!NavigationEnvLaws NE}.

Lemma never_GetLastCommittedItem : never OutOfFuel GetLastCommittedItem.
Proof. apply never_GetLastCommittedItemImpl. Qed.
#[local] Hint Resolve never_GetLastCommittedItem never_Create never_cache_Get never_ItemImplAtIndex
  never_LastCommitted : code.

Lemma never_GetPending : never OutOfFuel GetPendingItemInCurrentOrRestoredSession.
Proof. through @GetPendingItemInCurrentOrRestoredSession. Qed.
#[local] Hint Resolve never_GetPending : code.
Lemma never_Discard : never OutOfFuel DiscardNonCommittedItems.
Proof. through @DiscardNonCommittedItems. Qed.
#[local] Hint Resolve never_Discard : code.
Lemma never_AddPendingItem u r n i p h : never OutOfFuel (AddPendingItem u r n i p h).
Proof. unfold AddPendingItem. through @RemoveTransientURLRewriters. Qed.
Lemma never_RestoreItemState i r : never OutOfFuel (RestoreItemState i r).
Proof. through @RestoreItemState. Qed.
#[local] Hint Resolve never_AddPendingItem never_RestoreItemState : code.
Lemma never_restore_loop i l items : never OutOfFuel (restore_loop i l items).
Proof. revert i. induction items as [|r items IH]; intros i; cbn [restore_loop]; repeat code_step. Qed.
#[local] Hint Resolve never_restore_loop : code.
Lemma never_RestoreItemsState type items : never OutOfFuel (RestoreItemsState type items).
Proof. through @RestoreItemsState. Qed.
Lemma never_session_entry r : never OutOfFuel (session_entry r).
Proof. through @session_entry. Qed.
#[local] Hint Resolve never_RestoreItemsState never_session_entry : code.
Lemma never_synthesized_restore_Init i items : never OutOfFuel (synthesized_restore_Init i items).
Proof. through @synthesized_restore_Init. Qed.
Lemma never_cache_item i : never OutOfFuel (cache_item i).
Proof. through @cache_item. Qed.
#[local] Hint Resolve never_synthesized_restore_Init never_cache_item : code.
Lemma never_RemoveWebView : never OutOfFuel RemoveWebView.
Proof. unfold RemoveWebView, DetachFromWebView. through @cache_DetachFromWebView. Qed.
Lemma never_RewriteItemURLIfNecessary r : never OutOfFuel (RewriteItemURLIfNecessary r).
Proof. through @RewriteItemURLIfNecessary. Qed.
Lemma never_CreateRestoreSessionUrl i items : never OutOfFuel (CreateRestoreSessionUrl (S := t) i items).
Proof. through @CreateRestoreSessionUrl. Qed.
Lemma never_url_and_title r : never OutOfFuel (url_and_title r).
Proof. through @url_and_title. Qed.
#[local] Hint Resolve never_RemoveWebView never_RewriteItemURLIfNecessary never_CreateRestoreSessionUrl
  never_url_and_title : code.

Section Body.
Context (l : WebLoadParams -> M t unit) (Hl : forall params, never OutOfFuel (l params)).
#[local] Hint Resolve Hl : code.

Lemma never_run_callback c : never OutOfFuel (run_callback l c).
Proof. unfold run_callback. through @delegate. Qed.
#[local] Hint Resolve never_run_callback : code.
Lemma never_AddRestoreCompletionCallback c : never OutOfFuel (AddRestoreCompletionCallback l c).
Proof. through @AddRestoreCompletionCallback. Qed.
#[local] Hint Resolve never_AddRestoreCompletionCallback : code.
Lemma never_UnsafeRestore i items : never OutOfFuel (UnsafeRestore l i items).
Proof. through @UnsafeRestore. Qed.
#[local] Hint Resolve never_UnsafeRestore : code.
Lemma never_Restore i items : never OutOfFuel (Restore l i items).
Proof. unfold Restore. through @ResetToAttached. Qed.
#[local] Hint Resolve never_Restore : code.
Lemma never_LoadURLWithParams_body params : never OutOfFuel (LoadURLWithParams_body l params).
Proof. unfold LoadURLWithParams_body, ReleaseCachedItems, ResetToAttached. through @delegate. Qed.
End Body.

End Fuel.

(** ** Whether the manager is attached to a web view *)

Definition attached_same (s s' : t) : Prop := attached_to_web_view_ s' = attached_to_web_view_ s.

#[global] Instance attached_same_preorder : PreOrder attached_same.
Proof. split; [by intros s|]. unfold attached_same. intros s1 s2 s3. congruence. Qed.
Lemma attached_of_frame {A} (m : M t A) : keeps frame m -> keeps attached_same m.
Proof. apply keeps_weaken. intros s s' []. done. Qed.
#[local] Hint Extern 3 (keeps attached_same _) => apply attached_of_frame : code.

Lemma attached_delegate c : keeps attached_same (delegate c).
Proof. through @delegate. Qed.
Lemma attached_Discard : keeps attached_same DiscardNonCommittedItems.
Proof. through @DiscardNonCommittedItems. Qed.
#[local] Hint Resolve frame_on_item frame_update_item frame_make_item frame_item_of frame_deref
  frame_GetLastCommittedItem frame_Create frame_cache_Get frame_SetNavigationItemInWKItem
  frame_ExtractTargetURL attached_delegate attached_Discard : code.
Lemma attached_AddPendingItem u r n i p h : keeps attached_same (AddPendingItem u r n i p h).
Proof. unfold AddPendingItem. through @RemoveTransientURLRewriters. Qed.

End Proofs.
End NavigationManagerProofs.
