(* ===== verification/NavigationManagerTheorems.v ===== *)
(** * NavigationManager: what it guarantees

    Loads and restorations end; the restoration of a session wants a manager
    without history; the items that are made and shown are safe; the indexes
    of the history are in range. *)

From stdpp Require Import base tactics option list numbers strings gmap.
From Stdlib Require Import ZArith Lia.
From S2P Require Import Prelude WebTypes WkNavigationUtil NavigationItem.
From S2P Require Import NavigationManagerState NavigationManager NavigationManagerProofs.

Module NavigationManagerTheorems.
Import NavigationManagerState NavigationManagerImpl WkNavigationUtil NavigationManagerProofs.

#[local] Hint Resolve frame_item_of frame_deref frame_update_item frame_on_item frame_make_item
  frame_make_new_item frame_GetSmoothedNow frame_GetWKItemAtIndex frame_ExtractTargetURL
  frame_GetLastCommittedItem frame_Create frame_cache_Get frame_ItemImplAtIndex frame_LastCommitted
  frame_GetPending attached_delegate attached_Discard attached_AddPendingItem : code.
#[local] Hint Extern 3 (keeps attached_same _) => apply attached_of_frame : code.

Section Theorems.
Context `{WebEnv} `{CertificateOps} `{PageTransitionOps} `{ItemEnv}.
Context {NE : NavigationEnv} `{!NativeRestore}.

(** ** Restoring *)

Lemma attached_RewriteItem r : keeps attached_same (RewriteItemURLIfNecessary r).
Proof. through @RewriteItemURLIfNecessary. Qed.
Lemma attached_Init i items : keeps attached_same (synthesized_restore_Init i items).
Proof. unfold synthesized_restore_Init. through @session_entry. Qed.
Lemma frame_CreateRestoreSessionUrl i items : keeps frame (CreateRestoreSessionUrl i items).
Proof. through @CreateRestoreSessionUrl. Qed.
Lemma frame_url_and_title r : keeps frame (url_and_title r).
Proof. through @url_and_title. Qed.
#[local] Hint Resolve attached_RewriteItem attached_Init frame_CreateRestoreSessionUrl
  frame_url_and_title : code.

Lemma count_nonneg s : (0 <= GetBackForwardListItemCount s)%Z.
Proof.
  unfold GetBackForwardListItemCount. destruct (negb _); [lia|]. destruct (proxy s); [|lia].
  destruct (bool_decide _); lia.
Qed.

(** Detaching keeps the number of items. *)
Lemma RemoveWebView_run s s' :
  attached_to_web_view_ s = true -> RemoveWebView s = Ok (tt, s') ->
  s' = s \/ (attached_to_web_view_ s' = false /\ GetItemCount s' = GetItemCount s).
Proof.
  intros Ha. unfold RemoveWebView. intros (s0 & s1 & [= <- <-] & H')%mbind_ok.
  destruct (proxy s) as [w|] eqn:Ep; [right|left; by injection H'].
  unfold DetachFromWebView, cache_DetachFromWebView in H'.
  rewrite !mbind_assoc in H'. apply mbind_ok in H' as (s0 & s1 & [= <- <-] & H').
  unfold IsAttachedToWebView, mwhen in H'. rewrite Ha in H'.
  rewrite !mbind_assoc in H'. apply mbind_ok in H' as (u & s1 & [= <- <-] & H').
  rewrite !mbind_assoc in H'. apply mbind_ok in H' as (items & s1 & Hm & H').
  assert (keeps frame (mmap (seqZ 0 (GetBackForwardListItemCount s)) cache_item)) as Hk.
  { unfold cache_item. repeat code_step. }
  apply Hk in Hm as Hf. apply length_mmap in Hm. rewrite length_seqZ in Hm.
  cbv [mbind mmodify] in H'. injection H' as <-. split; [done|].
  unfold GetItemCount. cbn. rewrite (frame_empty _ _ Hf). cbn.
  destruct (bool_decide _); [done|]. change (Z.of_nat (length items) = GetBackForwardListItemCount s).
  rewrite Hm. pose proof (count_nonneg s). lia.
Qed.

(** Past the check for an empty history, the manager is attached. *)
Lemma Restore_attached s s1 s2 :
  attached_to_web_view_ s = true -> mwhen (GetItemCount s >? 0)%Z RemoveWebView s = Ok (tt, s1) ->
  dcheck (0 =? GetItemCount s1)%Z s1 = Ok (tt, s2) -> attached_to_web_view_ s1 = true /\ GetItemCount s = 0%Z.
Proof.
  intros Ha E Hc. unfold dcheck in Hc. destruct (Z.eqb_spec 0 (GetItemCount s1)) as [Hc0|]; [|done].
  unfold mwhen in E. destruct (GetItemCount s >? 0)%Z eqn:Eg.
  - apply RemoveWebView_run in E as [->|[_ E]]; [done|lia|done].
  - injection E as <-. done.
Qed.

(** One statement of two functions that only differ in the load they call. *)
Ltac attached_head :=
  apply mbind_eq; intros ? ? ?;
  lazymatch goal with
  | Ha : attached_to_web_view_ ?s = true, E : ?m ?s = Ok (_, ?s') |- _ =>
      assert (keeps attached_same m) as Hkeeps by (repeat first [code_step | done]);
      apply Hkeeps in E; unfold attached_same in E; rewrite Ha in E; clear Ha Hkeeps
  end.

Lemma AddRestoreCompletionCallback_restoring (l : WebLoadParams -> M t unit) c s :
  is_restore_session_in_progress_ s = true ->
  AddRestoreCompletionCallback l c s =
    Ok (tt, with_restore_session_completion_callbacks (restore_session_completion_callbacks_ s ++ [c]) s).
Proof. intros Hr. unfold AddRestoreCompletionCallback, mbind, mget. by rewrite Hr. Qed.

Section Same.
Context (l l' : WebLoadParams -> M t unit).
Context (Hl : forall params s, attached_to_web_view_ s = true -> l params s = l' params s).

(** The load that a restoration makes is that of an attached manager. *)
Lemma UnsafeRestore_eq i items s :
  attached_to_web_view_ s = true -> UnsafeRestore l i items s = UnsafeRestore l' i items s.
Proof.
  intros Ha. unfold UnsafeRestore. do 4 attached_head.
  lazymatch goal with |- (let '(_, _) := ?p in _) _ = _ => destruct p as [url first_index] end.
  do 5 attached_head. apply mbind_eq. intros [] s1 [= <-]. apply mbind_eq. intros [] s2 E.
  assert (is_restore_session_in_progress_ s2 = true /\ attached_to_web_view_ s2 = true) as [Hr2 Ha2].
  { unfold mwhen in E. destruct (_ >? _)%Z; by injection E as <-. }
  rewrite !(mbind_run _ _ _ _ _ (AddRestoreCompletionCallback_restoring _ _ s2 Hr2)).
  rewrite !(mbind_run _ _ _ _ _ (AddRestoreCompletionCallback_restoring _ _ (with_restore_session_completion_callbacks _ s2) Hr2)).
  by apply mbind_eq_head, Hl.
Qed.

Lemma Restore_eq i items s : Restore l i items s = Restore l' i items s.
Proof.
  unfold Restore. apply mbind_eq. intros s0 ? [= <- <-].
  do 3 (apply mbind_eq; intros [] ? [-> _]%dcheck_ok). apply mbind_eq. intros [] s1 E.
  assert (attached_to_web_view_ s1 = true) as Ha.
  { unfold IsAttachedToWebView, mwhen in E. destruct (attached_to_web_view_ s) eqn:Ea; by injection E as <-. }
  clear E. destruct (bool_decide _); [done|]. attached_head. apply mbind_eq. intros s3 ? [= <- <-].
  apply mbind_eq. intros [] s4 E. apply mbind_eq. intros s5 ? [= <- <-].
  apply mbind_eq. intros [] s6 Hc. pose proof (Restore_attached _ _ _ ltac:(eassumption) E Hc) as [Ha4 _].
  apply dcheck_ok in Hc as [-> _]. apply mbind_eq. intros [] ? [-> _]%dcheck_ok.
  apply mbind_eq. intros [] ? [= <-]. by apply UnsafeRestore_eq.
Qed.


Lemma LoadURLWithParams_body_eq params s : LoadURLWithParams_body l params s = LoadURLWithParams_body l' params s.
Proof.
  unfold LoadURLWithParams_body. apply mbind_eq. intros s0 ? [= <- <-].
  destruct (is_restore_session_in_progress_ s && _) eqn:Er.
  { apply andb_true_iff in Er as [Er _]. by rewrite !AddRestoreCompletionCallback_restoring. }
  do 13 (apply mbind_eq; intros ? ? _).
  clear Er. destruct (negb _); [|reflexivity]. apply mbind_eq; intros ? ? _.
  destruct (_ && _); [|reflexivity].
  do 3 (apply mbind_eq; intros ? ? _). by apply mbind_eq_head, Restore_eq.
Qed.
End Same.

(** A manager that is attached loads without restoring. *)
Lemma LoadURLWithParams_body_attached l l' params s :
  attached_to_web_view_ s = true -> LoadURLWithParams_body l params s = LoadURLWithParams_body l' params s.
Proof.
  intros Ha. unfold LoadURLWithParams_body. apply mbind_eq. intros s0 ? [= <- <-].
  destruct (is_restore_session_in_progress_ s && _) eqn:Er.
  { apply andb_true_iff in Er as [Er _]. by rewrite !AddRestoreCompletionCallback_restoring. }
  do 12 attached_head. apply mbind_eq. intros s2 ? [= <- <-].
  unfold IsAttachedToWebView.
  lazymatch goal with E : attached_to_web_view_ _ = true |- _ => rewrite E end. cbn [negb]. reflexivity.
Qed.

Context `{!NavigationEnvLaws NE}.

(** C16: loads end. The load of an URL that is asked for, which can restore the
    cached session and load its first page on the way, returns or fails within
    two nested loads, whatever the state of the manager, and does the same with
    any larger bound; the last committed item that is read on the way is found
    within one nested call. *)
Theorem LoadURLWithParams_terminates fuel params s :
  LoadURLWithParams params s <> Fault OutOfFuel /\
  LoadURLWithParams_loop (2 + fuel) params s = LoadURLWithParams params s /\
  GetLastCommittedItem_loop (1 + fuel) s <> Fault OutOfFuel.
Proof.
  assert (forall n params s, LoadURLWithParams_loop (2 + n) params s =
    LoadURLWithParams_body (LoadURLWithParams_body (fun _ => mreturn tt)) params s) as E.
  { intros n p s0. apply LoadURLWithParams_body_eq. intros. by apply LoadURLWithParams_body_attached. }
  unfold LoadURLWithParams. rewrite (E 0), E. split_and!; [|done|apply never_GetLastCommittedItemImpl].
  by apply never_LoadURLWithParams_body, never_LoadURLWithParams_body.
Qed.

(** What the items of a session are restored into: the manager follows its web
    view, and has no pending item. *)
Definition restored_into (s : t) : t :=
  let s := if IsAttachedToWebView s then s
           else with_attached_to_web_view true (with_cached_current_item_index (-1) (with_cached_items [] s)) in
  with_pending_item_index (-1) (with_pending_item None s).

Lemma Restore_started last_committed_item_index items s :
  is_restore_session_in_progress_ s = false -> (0 <= last_committed_item_index < Z.of_nat (length items))%Z ->
  Restore LoadURLWithParams last_committed_item_index items s =
    (mwhen (GetItemCount (restored_into s) >? 0)%Z RemoveWebView ;;;
     let! s := mget in
     dcheck (0 =? GetItemCount s)%Z ;;;
     dcheck (-1 =? pending_item_index_ s)%Z ;;;
     mmodify (with_last_committed_item_index (-1)) ;;;
     UnsafeRestore LoadURLWithParams last_committed_item_index items) (restored_into s).
Proof.
  intros Hr Hi. unfold Restore. rewrite (mbind_run _ _ s s s), Hr by done. rewrite (mbind_run _ _ s tt s) by done.
  rewrite (mbind_run _ _ s tt s) by (unfold dcheck; by rewrite (proj2 (Z.ltb_lt _ _)) by lia).
  rewrite (mbind_run _ _ s tt s).
  2: { unfold dcheck. rewrite (proj2 (Z.geb_le _ _)) by lia. by rewrite orb_true_r. }
  assert (bool_decide (items = []) = false) as -> by (apply bool_decide_false; intros ->; cbn in Hi; lia).
  unfold restored_into. destruct (IsAttachedToWebView s); done.
Qed.

(** C27: a session is restored only into a manager without history. The call
    fails when a session is being restored, when the index is not one of the
    items, and when there are items to restore and the manager follows, or comes
    to follow, a web view that has items: [RemoveWebView] of CRWWebController then
    removes it and caches the items it had, so that the number of items that is
    checked next is still not 0. Without items to restore, the manager only comes to
    follow its web view; and the items are restored when it has none. A delegate
    that takes the web view away and does not tell the manager, as the one of the
    unit tests, would leave it without items. *)
Theorem Restore_needs_no_history last_committed_item_index items s :
  (is_restore_session_in_progress_ s = true \/
   (Z.of_nat (length items) <= last_committed_item_index)%Z \/
   (items <> [] /\ (last_committed_item_index < 0)%Z) \/
   (items <> [] /\ (0 < GetItemCount (restored_into s))%Z) ->
   exists f, Restore LoadURLWithParams last_committed_item_index items s = Fault f) /\
  (is_restore_session_in_progress_ s = false -> (last_committed_item_index < 0)%Z ->
   Restore LoadURLWithParams last_committed_item_index [] s = mwhen (negb (IsAttachedToWebView s)) ResetToAttached s) /\
  (is_restore_session_in_progress_ s = false -> (0 <= last_committed_item_index < Z.of_nat (length items))%Z ->
   GetItemCount (restored_into s) = 0%Z ->
   Restore LoadURLWithParams last_committed_item_index items s =
     UnsafeRestore LoadURLWithParams last_committed_item_index items (with_last_committed_item_index (-1) (restored_into s))) /\
  (empty_window_open_item_ s = None -> GetItemCount (with_proxy None (restored_into s)) = 0%Z).
Proof.
  assert (attached_to_web_view_ (restored_into s) = true) as Ha.
  { unfold restored_into, IsAttachedToWebView. by destruct (attached_to_web_view_ s) eqn:E. }
  split_and!.
  - intros Hc. destruct (Restore LoadURLWithParams last_committed_item_index items s) as [[[] s']|f] eqn:E; [|by eexists]. exfalso.
    pose proof E as E'. unfold Restore in E'. apply mbind_ok in E' as (s0 & ? & [= <- <-] & E').
    apply mbind_ok in E' as ([] & ? & [-> Hr%negb_true_iff]%dcheck_ok & E').
    apply mbind_ok in E' as ([] & ? & [-> Hi%Z.ltb_lt]%dcheck_ok & E').
    apply mbind_ok in E' as ([] & ? & [-> Hn]%dcheck_ok & _).
    destruct (bool_decide_reflect (items = [])) as [->|He]; [destruct Hc as [|[|[[]|[]]]]; [congruence|lia|done..]|].
    apply Z.geb_le in Hn. rewrite Restore_started in E by (done || lia).
    destruct Hc as [|[|[[_ Hc]|[_ Hc]]]]; [congruence|lia..|].
    apply mbind_ok in E as ([] & s3 & E3 & E). apply mbind_ok in E as (? & ? & [= -> ->] & E).
    apply mbind_ok in E as ([] & s4 & E4 & _). eapply Restore_attached in E3 as [_ E3]; [lia|done|exact E4].
  - intros Hr Hi. unfold Restore. rewrite (mbind_run _ _ s s s), Hr by done. rewrite (mbind_run _ _ s tt s) by done.
    rewrite (mbind_run _ _ s tt s) by (unfold dcheck; by rewrite (proj2 (Z.ltb_lt _ _)) by (cbn; lia)).
    rewrite (mbind_run _ _ s tt s) by done. by destruct (IsAttachedToWebView s).
  - intros Hr Hi Hg. rewrite Restore_started by done. rewrite Hg. cbn [Z.gtb Z.compare mwhen].
    rewrite (mbind_run _ _ _ tt (restored_into s)), (mbind_run _ _ _ _ _ eq_refl) by done.
    rewrite Hg. done.
  - intros He. unfold GetItemCount. cbn [with_proxy empty_window_open_item_].
    replace (empty_window_open_item_ (restored_into s)) with (@None ItemRef).
    2: { unfold restored_into. by destruct (IsAttachedToWebView s). }
    cbn. unfold GetBackForwardListItemCount, IsAttachedToWebView. cbn [with_proxy attached_to_web_view_ proxy]. by rewrite Ha.
Qed.

(** ** The indexes of the history *)

(** the offsets one can go to. An offset leads to an [int], even when the
    sum overflows; outside of a restoration and of a window that was opened
    without URL, one can go to exactly the offsets that lead from the pending
    item, or the current one if none of the history is pending, to an item of
    the history. *)
Theorem CanGoToOffset_range offset s :
  in_int (GetIndexForOffset offset s) = true /\
  (is_restore_session_in_progress_ s = false -> empty_window_open_item_ s = None ->
   (GetItemCount s <= INT_MAX)%Z ->
   let current := if (pending_item_index_ s =? -1)%Z then GetCurrentItemIndex s else pending_item_index_ s in
   CanGoToOffset offset s = true <-> (0 <= current + offset < GetItemCount s)%Z).
Proof.
  unfold CanGoToOffset, GetIndexForOffset. split.
  - destruct (in_int (_ + _)) eqn:E; done.
  - intros Hr He Hn. cbn zeta. rewrite Hr, He. cbn [bool_decide decide_rel].
    rewrite bool_decide_false by (by intros [? [=]]).
    set (current := if (_ =? _)%Z then _ else _). unfold in_int, INT_MAX, INT_MIN in *.
    destruct (((-2 ^ 31 <=? current + offset)%Z && (current + offset <=? 2 ^ 31 - 1)%Z)) eqn:E.
    + rewrite andb_true_iff, Z.geb_le, Z.ltb_lt. lia.
    + apply andb_false_iff in E. rewrite !Z.leb_gt in E. cbn. split; [done|lia].
Qed.

End Theorems.
End NavigationManagerTheorems.

(** ** A manager with two pages *)

Module ExampleManager.
Export ExampleItems.
Import NavigationManagerState NavigationManagerImpl.

#[export] Instance navigation : NavigationEnv := {|
  PAGE_TRANSITION_FORWARD_BACK := Z.shiftl 1 24;
  PAGE_TRANSITION_FORM_SUBMIT := 7%Z;
  PageTransition_lor := Z.lor;
  gurl_EqualsIgnoringRef u v := bool_decide (gurl_set_ref u "" = gurl_set_ref v "");
  gurl_GetContent := gurl_path;
  client_rewriters := [fun u => if gurl_SchemeIs u "about" then (true, ExampleGURL.mk "chrome" (gurl_path u) "")
                                else (false, u)]
|}.

#[export] Instance navigation_laws : NavigationEnvLaws navigation.
Proof. by split. Qed.

#[export] Instance restore : NativeRestore := {|
  off_the_record := false;
  synthesized_restore_enabled := false;
  RestoreSessionFromCache w := (false, w);
  SetSessionStateData _ w := (false, w)
|}.

Definition wk_a : WKItem := mkWKItem 1 url_a [].
Definition wk_b : WKItem := mkWKItem 2 url_b [].

(** The second page is shown, and the first one is behind it. *)
Definition two_pages : t :=
  with_proxy (Some (mkWebView url_b [wk_a] (Some wk_b) [])) (create (Some (mkWebStateView url_b true))).

Lemma CanGoToOffset_range_witness :
  CanGoToOffset (-1) two_pages = true <-> (0 <= GetCurrentItemIndex two_pages + -1 < GetItemCount two_pages)%Z.
Proof.
  apply (proj2 (NavigationManagerTheorems.CanGoToOffset_range (-1) two_pages)); [reflexivity..|].
  vm_compute. discriminate.
Defined.

Lemma Restore_needs_no_history_witness :
  (exists f, Restore LoadURLWithParams 0 [Some 1%positive] two_pages = Fault f) /\
  (Restore LoadURLWithParams (-1) [] two_pages = Ok (tt, two_pages)) /\
  (Restore LoadURLWithParams 0 [Some 1%positive] (create None) =
   UnsafeRestore LoadURLWithParams 0 [Some 1%positive]
     (with_last_committed_item_index (-1) (NavigationManagerTheorems.restored_into (create None)))).
Proof.
  split_and!.
  - apply (proj1 (NavigationManagerTheorems.Restore_needs_no_history 0 [Some 1%positive] two_pages)).
    right. right. right. by vm_compute.
  - apply (proj1 (proj2 (NavigationManagerTheorems.Restore_needs_no_history (-1) [] two_pages))); reflexivity.
  - apply (proj1 (proj2 (proj2 (NavigationManagerTheorems.Restore_needs_no_history 0 [Some 1%positive] (create None)))));
      by vm_compute.
Defined.

(** The load of a page in a manager that was detached restores its cache. *)
Definition detached : t :=
  match DetachFromWebView two_pages with Ok (_, s) => with_proxy None s | Fault _ => two_pages end.

Lemma detached_load :
  match LoadURLWithParams (WebLoadParams_create (ExampleGURL.mk "about" "x" "")) detached with
  | Ok (_, s) => IsAttachedToWebView s && is_restore_session_in_progress_ s = true
  | Fault _ => False
  end.
Proof. vm_compute. reflexivity. Qed.

Lemma LoadURLWithParams_terminates_witness :
  LoadURLWithParams_loop 5 (WebLoadParams_create url_a) detached =
    LoadURLWithParams (WebLoadParams_create url_a) detached.
Proof.
  exact (proj1 (proj2 (NavigationManagerTheorems.LoadURLWithParams_terminates (NE := navigation)
    (NavigationEnvLaws0 := navigation_laws) 3 (WebLoadParams_create url_a) detached))).
Defined.

End ExampleManager.
