(* ===== verification/NavigationManagerSafety.v ===== *)
(** * NavigationManager: the items that are made and shown

    An item that a page asks for never has an URL of the application that the
    page did not ask for, and a navigation that a page started is not shown
    before it is committed. *)

From stdpp Require Import base tactics option list numbers strings gmap.
From Stdlib Require Import ZArith Lia.
From S2P Require Import Prelude WebTypes WkNavigationUtil NavigationItem.
From S2P Require Import NavigationManagerState NavigationManager NavigationManagerProofs.
From S2P Require Import NavigationManagerTheorems.

Module NavigationManagerSafety.
Import NavigationManagerState NavigationManagerImpl WkNavigationUtil NavigationManagerProofs.

Section Safety.
Context `{WebEnv} `{CertificateOps} `{PageTransitionOps} `{ItemEnv}.
Context {NE : NavigationEnv} `{!NativeRestore}.

(** ** The heap of items *)

Lemma item_of_ok r s i s' : item_of r s = Ok (i, s') -> s' = s /\ heap s !! r = Some i.
Proof.
  intros (? & ? & [= <- <-] & E)%mbind_ok. unfold of_option in E. by destruct (heap s !! r); [injection E as <- <-|].
Qed.

Lemma update_item_ok r f s u s' :
  update_item r f s = Ok (u, s') ->
  exists i, heap s !! r = Some i /\ s' = with_heap (<[r := f i]> (heap s)) s.
Proof.
  intros (i & s1 & [-> Hi]%item_of_ok & [= _ <-])%mbind_ok. by exists i.
Qed.

(** The writes to an item that is in the heap, one after the other. *)
Lemma update_item_at r f i s u s' :
  heap s !! r = Some i -> update_item r f s = Ok (u, s') -> heap s' !! r = Some (f i).
Proof.
  intros Hi (i' & Hi' & ->)%update_item_ok. simplify_eq. cbn. apply lookup_insert_eq.
Qed.

Lemma make_item_ok i s r s' :
  make_item i s = Ok (r, s') ->
  heap s !! r = None /\ s' = with_heap (<[r := i]> (heap s)) s.
Proof.
  intros (? & ? & [= <- <-] & (? & ? & [= _ <-] & [= <- <-])%mbind_ok)%mbind_ok.
  split; [|done]. apply not_elem_of_dom, is_fresh.
Qed.

Lemma make_new_item_ok s r s' :
  make_new_item s = Ok (r, s') ->
  heap s !! r = None /\ exists unique_id c,
    s' = with_heap (<[r := NavigationItemImpl.create unique_id]> (heap s)) (with_item_counter c s).
Proof.
  intros (? & ? & [= <- <-] & E)%mbind_ok.
  destruct (GetUniqueIDInConstructor (item_counter s)) as [[unique_id c]|]; [|done].
  apply mbind_ok in E as (? & ? & [= _ <-] & [Hr ->]%make_item_ok). split; [done|]. by exists unique_id, c.
Qed.

(** C22: an item that is made for a page, or for a reload, has an URL of the
    application only if that is the URL that was asked for or the page is one
    of the application itself: no rewriter takes a page of the web to a page of
    the application. The item also has the referrer, the transition, the
    initiation and the upgrade type of the request. *)
Theorem CreateNavigationItemWithRewriters_safe url referrer transition initiation https previous_url
    rewriters s r s' :
  CreateNavigationItemWithRewriters GetLastCommittedItem url referrer transition initiation https
    previous_url rewriters s = Ok (r, s') ->
  exists item, heap s' !! r = Some item /\
    (initiation = RENDERER_INITIATED \/ PageTransitionCoreTypeIs transition PAGE_TRANSITION_RELOAD = true ->
     IsAppSpecificURL (NavigationItemImpl.GetURL item) = true ->
     NavigationItemImpl.GetURL item = url \/ IsAppSpecificURL previous_url = true) /\
    NavigationItemImpl.GetReferrer item = referrer /\
    NavigationItemImpl.transition_type_ item = transition /\
    NavigationItemImpl.navigation_initiation_type_ item = initiation /\
    NavigationItemImpl.https_upgrade_type_ item = https.
Proof.
  unfold CreateNavigationItemWithRewriters. set (p := match rewriters with Some (_ :: _) => _ | _ => _ end).
  destruct p as [rewritten loaded]. set (loaded' := if negb rewritten then _ else loaded).
  set (final := if _ && _ && _ && _ then url else loaded').
  intros (original & s1 & _ & (r0 & s2 & [_ (unique_id & c & ->)]%make_new_item_ok & E)%mbind_ok)%mbind_ok.
  assert (heap (with_heap (<[r0:=NavigationItemImpl.create unique_id]> (heap s1)) (with_item_counter c s1))
    !! r0 = Some (NavigationItemImpl.create unique_id)) as Hi by apply lookup_insert_eq.
  do 6 (apply mbind_ok in E as (? & ? & Eu & E); eapply update_item_at in Hi; [|exact Eu]; clear Eu).
  injection E as <- <-. eexists. split; [exact Hi|]. cbn.
  split; [|by split_and!]. intros Hkind Happ. subst final.
  assert (bool_decide (initiation = RENDERER_INITIATED) ||
          PageTransitionCoreTypeIs transition PAGE_TRANSITION_RELOAD = true) as Hk.
  { rewrite orb_true_iff, bool_decide_eq_true. exact Hkind. }
  rewrite Hk in *. cbn [andb] in *. destruct (bool_decide_reflect (loaded' = url)); [by left|].
  cbn [negb andb] in *. destruct (IsAppSpecificURL loaded') eqn:El; cbn [andb] in *; [|congruence].
  destruct (IsAppSpecificURL previous_url); [by right|by left].
Qed.

(** ** The items of the history *)

(** The manager reaches the item without its pending item: as that of a window
    opened without URL, as the one shown for an untrusted page, in the cache, or
    attached to an item of WebKit. *)
Definition history_ref (s : t) (r : ItemRef) : Prop :=
  empty_window_open_item_ s = Some r \/ last_committed_web_view_item_ s = Some r \/
  Some r ∈ cached_items_ s \/ exists k, holders s !! k = Some r.

(** The items that become reachable are new. *)
Definition grows (s s' : t) : Prop :=
  (forall r, heap s' !! r = None -> heap s !! r = None) /\
  (forall r, history_ref s' r -> history_ref s r \/ heap s !! r = None).

#[local] Instance grows_preorder : PreOrder grows.
Proof. split; [by intros s; split; [|left]|]. intros s1 s2 s3 [] []. split; naive_solver. Qed.

Lemma grows_heap (f : t -> gmap ItemRef NavigationItemImpl.t -> gmap ItemRef NavigationItemImpl.t) s :
  (forall r, f s (heap s) !! r = None -> heap s !! r = None) -> grows s (with_heap (f s (heap s)) s).
Proof. intros Hf. split; [exact Hf|by left]. Qed.

Lemma lookup_insert_None_inv (m : gmap ItemRef NavigationItemImpl.t) r i r' : <[r := i]> m !! r' = None -> m !! r' = None.
Proof. rewrite lookup_insert_None. tauto. Qed.
#[local] Hint Resolve lookup_insert_None_inv : core.

Lemma grows_item_of r : keeps grows (item_of r).
Proof. through @item_of. Qed.
Lemma grows_deref r : keeps grows (deref r).
Proof. through @deref. Qed.
Lemma grows_update_item r f : keeps grows (update_item r f).
Proof. intros s u s' (i & _ & ->)%update_item_ok. apply (grows_heap (fun _ h => <[r := f i]> h)). eauto. Qed.
Lemma grows_make_item i : keeps grows (make_item i).
Proof. intros s r s' [_ ->]%make_item_ok. apply (grows_heap (fun _ h => <[r := i]> h)). eauto. Qed.
Lemma grows_make_new_item : keeps grows make_new_item.
Proof. intros s r s' (_ & u & c & ->)%make_new_item_ok. split; [cbn; eauto|by left]. Qed.
Lemma grows_GetSmoothedNow : keeps grows GetSmoothedNow.
Proof. unfold GetSmoothedNow. repeat first [code_step | by split; [done|left]]. Qed.
Lemma grows_GetWKItemAtIndex i : keeps grows (GetWKItemAtIndex i).
Proof. through @GetWKItemAtIndex. Qed.
Lemma grows_ExtractTargetURL u : keeps grows (ExtractTargetURL u).
Proof. through @ExtractTargetURL. Qed.
#[local] Hint Resolve grows_item_of grows_deref grows_update_item grows_make_item grows_make_new_item
  grows_GetSmoothedNow grows_GetWKItemAtIndex grows_ExtractTargetURL : code.

(** A computation that gives items of the history. *)
Definition gives_history (m : M t (option ItemRef)) : Prop :=
  forall s o s', m s = Ok (o, s') -> grows s s' /\ forall r, o = Some r -> history_ref s' r.

(** One statement of the code, that keeps a relation. *)
Ltac next_keeps R E :=
  let E1 := fresh "E" in
  apply mbind_ok in E as (? & ? & E1 & E);
  lazymatch type of E1 with
  | ?m ?s = Ok (_, ?s') =>
      let Hg := fresh "Hg" in
      assert (R s s') as Hg by (refine ((_ : keeps R m) _ _ _ E1); repeat first [code_step | done])
  end.
Ltac grows_next E := next_keeps grows E.

Section History.
Context (g : M t (option ItemRef)) (Hg : keeps grows g).
#[local] Hint Resolve Hg : code.

Lemma Create_new u rf tr i h p l s r s' :
  CreateNavigationItemWithRewriters g u rf tr i h p l s = Ok (r, s') -> heap s !! r = None.
Proof.
  unfold CreateNavigationItemWithRewriters. destruct (match l with Some (_ :: _) => _ | _ => _ end) as [rw lo].
  intros E. grows_next E. apply mbind_ok in E as (r0 & s2 & [Hr _]%make_new_item_ok & E).
  do 6 (apply mbind_ok in E as (? & ? & _ & E)). injection E as -> ->. by apply Hg0.
Qed.
Lemma grows_Create u rf tr i h p l : keeps grows (CreateNavigationItemWithRewriters g u rf tr i h p l).
Proof. through @CreateNavigationItemWithRewriters. Qed.
#[local] Hint Resolve grows_Create : code.

(** Attaching a new item. *)
Lemma SetNavigationItemInWKItem_ok w r s u s' :
  SetNavigationItemInWKItem w r s = Ok (u, s') ->
  exists wk, w = Some wk /\ s' = with_holders (<[wk_id wk := r]> (holders s)) s.
Proof.
  intros ([] & ? & [-> _]%dcheck_ok & (wk & ? & E & [= _ <-])%mbind_ok)%mbind_ok.
  destruct w as [wk'|]; [|done]. injection E as -> ->. by eexists.
Qed.

Lemma GetWKItemAtIndex_same i s w s' : GetWKItemAtIndex i s = Ok (w, s') -> s' = s.
Proof.
  intros (? & ? & [= <- <-] & ([] & ? & [-> _]%dcheck_ok & E)%mbind_ok)%mbind_ok.
  by destruct (i >=? _)%Z; injection E as _ <-.
Qed.

Lemma attach_grows w r s u s' :
  SetNavigationItemInWKItem w r s = Ok (u, s') -> forall s0, grows s0 s -> heap s0 !! r = None ->
  grows s0 s'.
Proof.
  intros (wk & -> & ->)%SetNavigationItemInWKItem_ok s0 [Hh Hr] Hnew.
  split; [exact Hh|].
  intros r' [|[|[|(k & Hk)]]]; [apply Hr; unfold history_ref; naive_solver..|]. cbn in Hk.
  apply lookup_insert_Some in Hk as [[_ <-]|[_ Hk]]; [by right|]. apply Hr. unfold history_ref. naive_solver.
Qed.

Lemma cache_Get_history i c : gives_history (cache_GetNavigationItemImplAtIndex g i c).
Proof.
  intros s o s' E. unfold cache_GetNavigationItemImplAtIndex in E.
  apply mbind_ok in E as (s0 & ? & [= <- <-] & E).
  destruct (i >=? _)%Z; [by injection E as <- <-|]. destruct (negb _).
  { injection E as <- <-. split; [done|]. intros r Hr. right. right. left.
    unfold zlookup in Hr. destruct (0 <=? i)%Z; [|done].
    destruct (cached_items_ s !! Z.to_nat i) as [o|] eqn:El; [|done]. cbn in Hr. subst o.
    by eapply list_elem_of_lookup_2. }
  apply mbind_ok in E as (w & ? & ->%GetWKItemAtIndex_same & E).
  destruct w as [wk|]; [|by injection E as <- <-].
  destruct (GetNavigationItemFromWKItem (Some wk) s) as [r0|] eqn:Er.
  { injection E as <- <-. split; [done|]. intros ? [= ->]. right. right. right. by eexists. }
  destruct c; [|by injection E as <- <-]. grows_next E.
  apply mbind_ok in E as (r & s2 & E1 & E). pose proof (Create_new _ _ _ _ _ _ _ _ _ _ E1) as Hnew.
  apply grows_Create in E1. do 5 grows_next E.
  apply mbind_ok in E as (u & s3 & Ea & E). apply mbind_ok in E as (? & ? & [= <- <-] & [= <- <-]).
  assert (grows s s3) as Hs.
  { eapply (attach_grows _ _ _ _ _ Ea); [by repeat (etransitivity; [eassumption|])|].
    lazymatch goal with G : grows s ?x, N : heap ?x !! _ = None |- _ => exact (proj1 G _ N) end. }
  split; [exact Hs|]. intros r' Hr'. right. right. right. by eexists.
Qed.

Lemma ItemImplAtIndex_history i : gives_history (GetNavigationItemImplAtIndex g i).
Proof.
  intros s o s' (? & ? & [= <- <-] & E)%mbind_ok.
  destruct (empty_window_open_item_ s) as [r|] eqn:Ee; [|by eapply cache_Get_history].
  injection E as <- <-. split; [done|]. intros r'. destruct (i =? 0)%Z; [|done]. intros [= <-]. by left.
Qed.

(** What is not changed when the untrusted item is filled in. *)
Definition untrusted_same (s s' : t) : Prop :=
  grows s s' /\ last_committed_web_view_item_ s' = last_committed_web_view_item_ s.
#[local] Instance untrusted_same_preorder : PreOrder untrusted_same.
Proof. split; [done|]. intros s1 s2 s3 [] []. split; [by etransitivity|congruence]. Qed.

Lemma untrusted_update r f : keeps untrusted_same (update_item r f).
Proof. intros s u s' E. split; [by eapply grows_update_item|]. by apply update_item_ok in E as (? & _ & ->). Qed.
Lemma untrusted_ExtractTargetURL u : keeps untrusted_same (ExtractTargetURL u).
Proof. through @ExtractTargetURL. Qed.
Lemma untrusted_GetSmoothedNow : keeps untrusted_same GetSmoothedNow.
Proof.
  intros s u s' E. split; [by eapply grows_GetSmoothedNow|]. apply mbind_ok in E as (? & ? & [= <- <-] & E).
  destruct (TimeSmoother.GetSmoothedTime _ _). by injection E as _ <-.
Qed.
#[local] Hint Resolve untrusted_update untrusted_ExtractTargetURL untrusted_GetSmoothedNow : code.

Lemma last_committed_web_view_item_new s r s' :
  last_committed_web_view_item g s = Ok (r, s') -> grows s s' /\ last_committed_web_view_item_ s' = Some r.
Proof.
  intros (? & ? & [= <- <-] & E)%mbind_ok.
  destruct (last_committed_web_view_item_ s) as [r0|] eqn:El; [by injection E as <- <-|].
  apply mbind_ok in E as (r0 & s1 & E1 & E). pose proof (Create_new _ _ _ _ _ _ _ _ _ _ E1) as Hnew.
  apply grows_Create in E1 as [Hh Hr]. apply mbind_ok in E as (? & ? & [= <- <-] & E).
  apply mbind_ok in E as ([] & ? & E2 & [= <- <-]). apply untrusted_update in E2 as [E2 ?]. split; [|done].
  etransitivity; [|exact E2]. split; [exact Hh|]. unfold history_ref in *. cbn. naive_solver.
Qed.

Lemma LastCommitted_history : gives_history (GetLastCommittedItemInCurrentOrRestoredSession g).
Proof.
  intros s o s' (? & ? & [= <- <-] & E)%mbind_ok. destruct (empty_window_open_item_ s) as [r|] eqn:Ee.
  { injection E as <- <-. split; [done|]. intros ? [= <-]. by left. }
  cbv zeta in E. destruct (_ =? -1)%Z; [apply mbind_ok in E as ([] & ? & [-> _]%dcheck_ok & [= <- <-]); done|].
  apply mbind_ok in E as (o1 & s1 & [Hs Ho]%ItemImplAtIndex_history & E).
  destruct o1 as [r|]; [|by injection E as <- <-]. destruct (web_state s) as [w|]; [|by injection E as <- <-].
  apply mbind_ok in E as (i & ? & [-> _]%item_of_ok & E).
  apply mbind_ok in E as (? & ? & [= <- <-] & E). destruct (CanTrustLastCommittedItem i s1); [by injection E as <- <-|].
  apply mbind_ok in E as (r0 & s2 & [Hs2 Hr0]%last_committed_web_view_item_new & E).
  do 5 next_keeps untrusted_same E. injection E as <- <-.
  assert (untrusted_same s2 x8) as [Hs6 Hr6] by (repeat (etransitivity; [eassumption|]); reflexivity).
  split; [by do 2 (etransitivity; [eassumption|])|]. intros ? [= <-]. right. left. congruence.
Qed.

Lemma GetLastCommittedItemImpl_history : gives_history (GetLastCommittedItemImpl g).
Proof.
  intros s o s' (? & ? & [= <- <-] & E)%mbind_ok.
  destruct (is_restore_session_in_progress_ s); [by injection E as <- <-|].
  apply mbind_ok in E as (o1 & s1 & [Hs Ho]%LastCommitted_history & E).
  destruct o1 as [r|]; [|by injection E as <- <-].
  apply mbind_ok in E as (i & ? & [-> _]%item_of_ok & E). injection E as <- <-.
  split; [exact Hs|]. by destruct (IsRestoreSessionUrl _).
Qed.

End History.

Lemma gives_history_grows m : gives_history m -> keeps grows m.
Proof. intros Hm s o s' E. by apply (Hm s o s' E). Qed.
Lemma GetLastCommittedItem_history : gives_history GetLastCommittedItem.
Proof. do 2 (apply GetLastCommittedItemImpl_history, gives_history_grows). done. Qed.
Lemma grows_GetLastCommittedItem : keeps grows GetLastCommittedItem.
Proof. apply gives_history_grows, GetLastCommittedItem_history. Qed.
#[local] Hint Resolve grows_GetLastCommittedItem : core.

(** The part of [GetVisibleItem] that follows the test of the pending item. *)
Lemma visible_committed_history s o s' :
  (let! last_committed_item := GetLastCommittedItem in
   match last_committed_item with
   | Some _ => mreturn last_committed_item
   | None =>
       let! result := GetLastCommittedItemInCurrentOrRestoredSession GetLastCommittedItem in
       match result with
       | Some r =>
           let! item := item_of r in
           mreturn (if IsRestoreSessionUrl (NavigationItemImpl.GetURL item) then result else None)
       | None => mreturn None
       end
   end) s = Ok (o, s') -> grows s s' /\ forall r, o = Some r -> history_ref s' r.
Proof.
  intros (o1 & s1 & [Hs Ho]%GetLastCommittedItem_history & E)%mbind_ok.
  destruct o1 as [r|]; [by injection E as <- <-|].
  apply mbind_ok in E as (o2 & s2 & [Hs2 Ho2]%LastCommitted_history & E); [|done].
  destruct o2 as [r|]; [|injection E as <- <-; split; [by etransitivity|done]].
  apply mbind_ok in E as (i & ? & [-> _]%item_of_ok & [= <- <-]). split; [by etransitivity|].
  by destruct (IsRestoreSessionUrl _).
Qed.

(** C17: an item that is not in the history, such as the one of a navigation
    that has just started, is shown to the user only if the browser started the
    navigation, the navigation is not one to an item of the history, and the
    page is still loading. A page cannot have the URL of a navigation that it
    started shown over its own contents. *)
Theorem GetVisibleItem_safe s r item s' :
  heap s !! r = Some item -> ~ history_ref s r -> restored_visible_item_ s <> Some r ->
  GetVisibleItem s = Ok (Some r, s') ->
  NavigationItemImpl.navigation_initiation_type_ item = BROWSER_INITIATED /\
  pending_item_index_ s = (-1)%Z /\ (pending_item_ s = Some r \/ pending_item_ s = None /\ context_pending_item s = Some r) /\
  (web_IsLoading <$> web_state s) = Some true.
Proof.
  intros Hi Hh Hv (? & ? & [= <- <-] & E)%mbind_ok.
  destruct (_ || _); [injection E as E _; congruence|].
  apply mbind_ok in E as (o & s1 & Ep & E). apply mbind_ok in E as (safe & s2 & Es & E).
  assert (grows s s1 /\ pending_item_index_ s1 = pending_item_index_ s) as [Hs1 Hx].
  { split; [|by apply frame_GetPending in Ep as []]. apply mbind_ok in Ep as (? & ? & [= <- <-] & Ep).
    destruct (_ =? -1)%Z; [by destruct (pending_item_ s); injection Ep as _ <-|].
    by apply ItemImplAtIndex_history in Ep as [? _]. }
  assert (s2 = s1 /\ (safe = true -> exists p i, o = Some p /\ heap s1 !! p = Some i /\
    NavigationItemImpl.navigation_initiation_type_ i = BROWSER_INITIATED /\ pending_item_index_ s1 = (-1)%Z /\
    (web_IsLoading <$> web_state s1) = Some true)) as [-> Hsafe].
  { destruct o as [p|]; [|by injection Es as <- <-].
    apply mbind_ok in Es as (i & ? & [-> Hp]%item_of_ok & Es). apply mbind_ok in Es as (? & ? & [= <- <-] & Es).
    destruct (_ && _) eqn:Ea; [|by injection Es as <- <-]. apply mbind_ok in Es as (w & ? & Ew & [= <- <-]).
    apply andb_true_iff in Ea as [Ea%bool_decide_eq_true ?%Z.eqb_eq]. unfold of_option in Ew.
    destruct (web_state s1); [|done]. injection Ew as <- <-. split; [done|]. intros Hl. exists p, i. cbn. by rewrite Hl. }
  destruct safe.
  - destruct (Hsafe eq_refl) as (p & i & -> & Hp & Hb & Hm & Hl). injection E as -> <-.
    rewrite Hx in Hm. apply mbind_ok in Ep as (? & ? & [= <- <-] & Ep). rewrite Hm in Ep. cbn in Ep.
    destruct (pending_item_ s) as [p|] eqn:Epi; injection Ep as Ep <-; simplify_eq; rewrite ?Ep; naive_solver.
  - exfalso. apply visible_committed_history in E as [Hs' Hr]. specialize (Hr _ eq_refl).
    assert (grows s s') as [_ Hs] by (by etransitivity). destruct (Hs _ Hr); congruence.
Qed.

End Safety.
End NavigationManagerSafety.

Module ExampleSafety.
Import ExampleManager NavigationManagerState NavigationManagerImpl.

(** A page that asks for [about:x] does not get [chrome:x]. *)
Lemma CreateNavigationItemWithRewriters_safe_witness :
  exists r s' item,
    CreateNavigationItemWithRewriters GetLastCommittedItem (ExampleGURL.mk "about" "x" "") Referrer.create
      0%Z RENDERER_INITIATED kNone url_b None two_pages = Ok (r, s') /\ heap s' !! r = Some item /\
    (IsAppSpecificURL (NavigationItemImpl.GetURL item) = true ->
     NavigationItemImpl.GetURL item = ExampleGURL.mk "about" "x" "").
Proof.
  assert (exists r s', CreateNavigationItemWithRewriters GetLastCommittedItem (ExampleGURL.mk "about" "x" "")
    Referrer.create 0%Z RENDERER_INITIATED kNone url_b None two_pages = Ok (r, s')) as (r & s' & E).
  { eexists _, _. vm_compute. reflexivity. }
  destruct (NavigationManagerSafety.CreateNavigationItemWithRewriters_safe _ _ _ _ _ _ _ _ _ _ E)
    as (item & Hi & Hs & _).
  exists r, s', item. split_and!; [exact E|exact Hi|].
  intros Ha. destruct (Hs (or_introl eq_refl) Ha) as [Hu|Hu]; [exact Hu|discriminate Hu].
Defined.

(** A page that the user asked for is shown while it loads. *)
Definition loading : t :=
  match LoadURLWithParams (WebLoadParams_create url_a) two_pages with Ok (_, s) => s | Fault _ => two_pages end.
Definition shown : ItemRef := default 1%positive (pending_item_ loading).
Definition shown_item : NavigationItemImpl.t := default (NavigationItemImpl.create 0) (heap loading !! shown).

Lemma GetVisibleItem_safe_witness :
  GetVisibleItem loading = Ok (Some shown, loading) /\
  NavigationItemImpl.navigation_initiation_type_ shown_item = BROWSER_INITIATED.
Proof.
  assert (GetVisibleItem loading = Ok (Some shown, loading)) as E by (vm_compute; reflexivity).
  split; [exact E|].
  refine (proj1 (NavigationManagerSafety.GetVisibleItem_safe loading shown shown_item loading _ _ _ E)).
  - vm_compute. reflexivity.
  - intros [Hr|[Hr|[Hr|(k & Hr)]]]; [discriminate Hr..| |].
    + vm_compute in Hr. inversion Hr.
    + apply elem_of_map_to_list in Hr. vm_compute in Hr. apply list_elem_of_singleton in Hr. discriminate Hr.
  - vm_compute. discriminate.
Defined.

End ExampleSafety.
