(* ===== verification/FirstUserActionRecorder.v ===== *)
(** * FirstUserActionRecorder

    What the user did first after the application came to the foreground
    (src/chrome/browser/metrics/first_user_action_recorder.{h,cc}): a recorder
    of user actions with one action that is put back in the message queue, and
    the specification it implements, the first event that tells. *)

From stdpp Require Import base tactics option list strings.
From Stdlib Require Import ZArith Lia.
From S2P Require Import Prelude.

Module FirstUserActionRecorder.
Local Open Scope string_scope.

Inductive DeviceFamilyIndex : Type := HANDSET | TABLET.

Inductive FirstUserActionType : Type := NEW_TASK | CONTINUATION | EXPIRATION | START_ON_NTP.

#[global] Instance FirstUserActionType_eq_dec : EqDecision FirstUserActionType.
Proof. solve_decision. Defined.

(** The names of the histograms. *)
Definition by_device (device : DeviceFamilyIndex) (handset tablet : string) : string :=
  match device with HANDSET => handset | TABLET => tablet end.
Definition kFirstUserActionNewTaskHistogramName device :=
  by_device device "FirstUserAction.BackgroundTimeNewTaskHandset" "FirstUserAction.BackgroundTimeNewTaskTablet".
Definition kFirstUserActionContinuationHistogramName device :=
  by_device device "FirstUserAction.BackgroundTimeContinuationHandset"
    "FirstUserAction.BackgroundTimeContinuationTablet".
Definition kFirstUserActionExpirationHistogramName device :=
  by_device device "FirstUserAction.BackgroundTimeExpirationHandset"
    "FirstUserAction.BackgroundTimeExpirationTablet".
Definition kFirstUserActionTypeHistogramName device :=
  by_device device "FirstUserAction.HandsetUserActionType" "FirstUserAction.TabletUserActionType".

Definition kIgnoredActions : list string := [
  "MobileOmniboxUse";
  "MobileFirstUserAction_Continuation";
  "MobileFirstUserAction_Expiration";
  "MobileFirstUserAction_NewTask";
  "MobileMenuCloseAllTabs";
  "MobileMenuCloseAllIncognitoTabs";
  "MobileMenuCloseTab";
  "MobileNewTabOpened";
  "MobileTabClosed";
  "MobileTabStripCloseTab";
  "MobileStackViewCloseTab";
  "MobileToolbarShowMenu";
  "MobileToolbarShowStackView" ].

Definition kRethrownActions : list string := [ "MobileTabSwitched" ].

Definition kNewTaskActions : list string := [
  "MobileMenuAllBookmarks";
  "MobileMenuHistory";
  "MobileMenuNewIncognitoTab";
  "MobileMenuNewTab";
  "MobileMenuRecentTabs";
  "MobileMenuVoiceSearch";
  "MobileBookmarkManagerEntryOpened";
  "MobileRecentTabManagerTabFromOtherDeviceOpened";
  "MobileNTPMostVisited";
  "MobileNTPShowBookmarks";
  "MobileNTPShowMostVisited";
  "MobileNTPShowOpenTabs";
  "MobileNTPShowHistory";
  "MobileNTPShowReadingList";
  "MobileNTPSwitchToBookmarks";
  "MobileNTPSwitchToMostVisited";
  "MobileNTPSwitchToOpenTabs";
  "MobileTabStripNewTab";
  "MobileToolbarNewTab";
  "MobileToolbarStackViewNewTab";
  "MobileToolbarVoiceSearch";
  "OmniboxInputInProgress" ].

Definition kDurationHistogramMin : Z := 5.
Definition kDurationHistogramMax : Z := 48 * 60.
Definition kDurationHistogramBucketCount : Z := 50.

(** A sample of a histogram. *)
Inductive Sample : Type :=
| Enumeration (histogram : string) (type : FirstUserActionType)
| CustomCounts (histogram : string) (sample min max bucket_count : Z).

(** The callback that was put back: its arguments, and which task runs it. *)
Definition Callback : Type := nat * (string * Z).

(** The members; then the tasks posted to the message queue, and the samples
    of the histograms. *)
Record t : Type := mk {
  device_family_ : DeviceFamilyIndex;
  recorded_action_ : bool;
  action_pending_ : bool;
  background_minutes_ : Z;
  rethrow_callback_ : option Callback;
  posted_tasks : list nat;
  samples : list Sample
}.

Definition with_recorded (v : bool) (s : t) : t :=
  mk (device_family_ s) v (action_pending_ s) (background_minutes_ s) (rethrow_callback_ s) (posted_tasks s) (samples s).
Definition with_action_pending (v : bool) (s : t) : t :=
  mk (device_family_ s) (recorded_action_ s) v (background_minutes_ s) (rethrow_callback_ s) (posted_tasks s) (samples s).
Definition with_rethrow_callback (v : option Callback) (s : t) : t :=
  mk (device_family_ s) (recorded_action_ s) (action_pending_ s) (background_minutes_ s) v (posted_tasks s) (samples s).
Definition with_posted_tasks (v : list nat) (s : t) : t :=
  mk (device_family_ s) (recorded_action_ s) (action_pending_ s) (background_minutes_ s) (rethrow_callback_ s) v (samples s).
Definition with_samples (v : list Sample) (s : t) : t :=
  mk (device_family_ s) (recorded_action_ s) (action_pending_ s) (background_minutes_ s) (rethrow_callback_ s) (posted_tasks s) v.

Definition create (is_tablet : bool) (background_minutes : Z) : t :=
  mk (if is_tablet then TABLET else HANDSET) false false background_minutes None [] [].

Definition sample (x : Sample) : M t unit := mmodify (fun s => with_samples (samples s ++ [x])%list s).

(** The C string of a string: up to its first null character. *)
Fixpoint c_str (s : string) : string :=
  match s with
  | EmptyString => EmptyString
  | String a s' => if bool_decide (a = Ascii.zero) then EmptyString else String a (c_str s')
  end.

(** [strcmp] of the C strings. *)
Fixpoint ArrayContainsString (to_search : list string) (to_find : string) : bool :=
  match to_search with
  | [] => false
  | name :: to_search' => if bool_decide (to_find = name) then true else ArrayContainsString to_search' to_find
  end.

Definition known_mobile_action (action_name : string) : bool :=
  String.prefix "Mobile" action_name || ArrayContainsString kNewTaskActions (c_str action_name).

Definition RecordAction (action_type : FirstUserActionType) : M t unit :=
  let! s := mget in
  if recorded_action_ s then mreturn tt
  else
    let device := device_family_ s in
    let duration histogram :=
      sample (CustomCounts histogram (background_minutes_ s) kDurationHistogramMin kDurationHistogramMax
                kDurationHistogramBucketCount) in
    sample (Enumeration (kFirstUserActionTypeHistogramName device) action_type) ;;;
    mmodify (with_recorded true) ;;;
    match action_type with
    | NEW_TASK => duration (kFirstUserActionNewTaskHistogramName device)
    | CONTINUATION => duration (kFirstUserActionContinuationHistogramName device)
    | EXPIRATION => duration (kFirstUserActionExpirationHistogramName device)
    | START_ON_NTP => mreturn tt
    end.

Definition ShouldProcessAction (action_name : string) (action_time : Z) : M t bool :=
  let! s := mget in
  if recorded_action_ s then mreturn false
  else if negb (action_pending_ s) && ArrayContainsString kRethrownActions (c_str action_name) then
    let task := length (posted_tasks s) in
    mmodify (with_rethrow_callback (Some (task, (action_name, action_time)))) ;;;
    mmodify (with_posted_tasks (posted_tasks s ++ [task])%list) ;;;
    mmodify (with_action_pending true) ;;;
    mreturn false
  else
    mreturn (known_mobile_action action_name && negb (ArrayContainsString kIgnoredActions (c_str action_name))).

Definition OnUserAction (action_name : string) (action_time : Z) : M t unit :=
  let! process := ShouldProcessAction action_name action_time in
  if process then
    if ArrayContainsString kNewTaskActions (c_str action_name) then RecordAction NEW_TASK
    else RecordAction CONTINUATION
  else mreturn tt.

Definition Expire : M t unit := mmodify (with_rethrow_callback None) ;;; RecordAction EXPIRATION.
Definition RecordStartOnNTP : M t unit := RecordAction START_ON_NTP.

(** A task of the queue, which does nothing when its callback was cancelled or
    replaced. *)
Definition RunTask (task : nat) : M t unit :=
  let! s := mget in
  match rethrow_callback_ s with
  | Some (task', (action_name, action_time)) =>
      mwhen (bool_decide (task = task')) (OnUserAction action_name action_time)
  | None => mreturn tt
  end.

(** The message loop runs the tasks in order. *)
Definition RunPostedTask : M t unit :=
  let! s := mget in
  match posted_tasks s with
  | [] => mreturn tt
  | task :: tasks => mmodify (with_posted_tasks tasks) ;;; RunTask task
  end.

Inductive Event : Type :=
| UserAction (action_name : string) (action_time : Z)
| PostedTask
| ExpireEvent
| StartOnNTP.

Definition exec (e : Event) : M t unit :=
  match e with
  | UserAction name time => OnUserAction name time
  | PostedTask => RunPostedTask
  | ExpireEvent => Expire
  | StartOnNTP => RecordStartOnNTP
  end.

(** ** The specification *)

(** What an action says of the task of the user. *)
Definition tells (action_name : string) : option FirstUserActionType :=
  if known_mobile_action action_name && negb (ArrayContainsString kIgnoredActions (c_str action_name)) then
    Some (if ArrayContainsString kNewTaskActions (c_str action_name) then NEW_TASK else CONTINUATION)
  else None.

(** A switch of tabs that was put back: none yet, waiting, or done. *)
Inductive Deferred : Type := NotYet | Waiting (action_name : string) | Done.

#[global] Instance Deferred_eq_dec : EqDecision Deferred.
Proof. solve_decision. Defined.

(** The type of the first event that tells. *)
Fixpoint first_action (d : Deferred) (events : list Event) : option FirstUserActionType :=
  match events with
  | [] => None
  | UserAction name _ :: events =>
      match d with
      | NotYet =>
          if ArrayContainsString kRethrownActions (c_str name) then first_action (Waiting name) events
          else match tells name with Some type => Some type | None => first_action d events end
      | _ => match tells name with Some type => Some type | None => first_action d events end
      end
  | PostedTask :: events =>
      match d with
      | Waiting name => match tells name with Some type => Some type | None => first_action Done events end
      | _ => first_action d events
      end
  | ExpireEvent :: _ => Some EXPIRATION
  | StartOnNTP :: _ => Some START_ON_NTP
  end.

(** The samples of a type: the type, and the time in the background. *)
Definition samples_of (device : DeviceFamilyIndex) (minutes : Z) (type : FirstUserActionType) : list Sample :=
  Enumeration (kFirstUserActionTypeHistogramName device) type ::
  match type with
  | NEW_TASK => [CustomCounts (kFirstUserActionNewTaskHistogramName device) minutes 5 2880 50]
  | CONTINUATION => [CustomCounts (kFirstUserActionContinuationHistogramName device) minutes 5 2880 50]
  | EXPIRATION => [CustomCounts (kFirstUserActionExpirationHistogramName device) minutes 5 2880 50]
  | START_ON_NTP => []
  end.

(** ** Proofs *)

Lemma RecordAction_recorded type s : recorded_action_ s = true -> RecordAction type s = Ok (tt, s).
Proof. intros Hr. unfold RecordAction, mbind, mget. by rewrite Hr. Qed.

Lemma RecordAction_first type s :
  recorded_action_ s = false ->
  RecordAction type s =
    Ok (tt, with_samples (samples s ++ samples_of (device_family_ s) (background_minutes_ s) type)%list
              (with_recorded true s)).
Proof.
  intros Hr. unfold RecordAction, mbind, mget. rewrite Hr. unfold samples_of.
  destruct type; cbv [sample mmodify mreturn with_samples with_recorded]; cbn; rewrite <- ?app_assoc; done.
Qed.

(** Nothing is recorded twice. *)
Lemma exec_recorded e s :
  recorded_action_ s = true ->
  exists s', exec e s = Ok (tt, s') /\ recorded_action_ s' = true /\ samples s' = samples s.
Proof.
  intros Hr.
  assert (forall name time s, recorded_action_ s = true -> OnUserAction name time s = Ok (tt, s)) as Ho.
  { intros name time s0 Hr0. unfold OnUserAction, ShouldProcessAction, mbind, mget. by rewrite Hr0. }
  destruct e; cbn [exec].
  - rewrite Ho by done. by eexists.
  - unfold RunPostedTask, mbind at 1, mget at 1. destruct (posted_tasks s) as [|task tasks]; [by eexists|].
    unfold RunTask, mbind, mget, mmodify. cbn. destruct (rethrow_callback_ s) as [(? & ? & ?)|]; [|by eexists].
    unfold mwhen. destruct (bool_decide _); [rewrite Ho by done|]; by eexists.
  - unfold Expire, mbind, mmodify. rewrite RecordAction_recorded by done. by eexists.
  - unfold RecordStartOnNTP. rewrite RecordAction_recorded by done. by eexists.
Qed.

(** The state of the recorder while nothing was recorded. *)
Definition deferred_ok (d : Deferred) (s : t) : Prop :=
  match d with
  | NotYet => action_pending_ s = false /\ posted_tasks s = [] /\ rethrow_callback_ s = None
  | Waiting name => action_pending_ s = true /\
      exists time, posted_tasks s = [0%nat] /\ rethrow_callback_ s = Some (0%nat, (name, time))
  | Done => action_pending_ s = true /\ posted_tasks s = []
  end.

(** What is recorded once an event told. *)
Definition recorded_with (type : FirstUserActionType) (s s' : t) : Prop :=
  recorded_action_ s' = true /\
  samples s' = (samples s ++ samples_of (device_family_ s) (background_minutes_ s) type)%list.

(** An action that is not put back. *)
Lemma OnUserAction_tells name time s :
  recorded_action_ s = false ->
  (action_pending_ s = true \/ ArrayContainsString kRethrownActions (c_str name) = false) ->
  match tells name with
  | Some type => exists s', OnUserAction name time s = Ok (tt, s') /\ recorded_with type s s'
  | None => OnUserAction name time s = Ok (tt, s)
  end.
Proof.
  intros Hr Hd. unfold OnUserAction, ShouldProcessAction, tells, mbind, mget. rewrite Hr.
  assert (negb (action_pending_ s) && ArrayContainsString kRethrownActions (c_str name) = false) as ->.
  { destruct Hd as [-> | ->]; [done|by rewrite andb_false_r]. }
  cbv [mreturn]. destruct (known_mobile_action name && _); [|done].
  destruct (ArrayContainsString kNewTaskActions _); rewrite RecordAction_first by done; by eexists.
Qed.

Lemma deferred_pending d s : deferred_ok d s -> d <> NotYet -> action_pending_ s = true.
Proof. destruct d; [done|by intros [? _]..]. Qed.

(** Once an event told, the others record nothing. *)
Lemma exec_all_recorded events s :
  recorded_action_ s = true ->
  exists s', mfor events exec s = Ok (tt, s') /\ samples s' = samples s.
Proof.
  revert s. induction events as [|e events IH]; intros s Hr; [by eexists|]. cbn [mfor].
  destruct (exec_recorded e s Hr) as (s1 & E1 & Hr1 & Hs1). rewrite (mbind_run _ _ _ _ _ E1).
  destruct (IH s1 Hr1) as (s' & E & Hs'). exists s'. split; [done|congruence].
Qed.

(** One event, while nothing was recorded: it tells, or it is put back or done
    with and the others decide. *)
Definition told_or_deferred (d : Deferred) (e : Event) (s s1 : t) : Prop :=
  (exists type, (forall events, first_action d (e :: events) = Some type) /\ recorded_with type s s1) \/
  (exists d1, (forall events, first_action d (e :: events) = first_action d1 events) /\
     recorded_action_ s1 = false /\ deferred_ok d1 s1 /\ samples s1 = samples s /\
     device_family_ s1 = device_family_ s /\ background_minutes_ s1 = background_minutes_ s).

Lemma action_step d name time s :
  recorded_action_ s = false -> deferred_ok d s ->
  exists s1, OnUserAction name time s = Ok (tt, s1) /\ told_or_deferred d (UserAction name time) s s1.
Proof.
  intros Hr Hd. destruct (decide (d = NotYet /\ ArrayContainsString kRethrownActions (c_str name) = true))
    as [[-> Hn]|Hn].
  - destruct Hd as (Hp & Ht & Hc). eexists. split.
    { unfold OnUserAction, ShouldProcessAction, mbind, mget. rewrite Hr, Hp, Hn. reflexivity. }
    right. exists (Waiting name). split; [intros; cbn [first_action]; by rewrite Hn|].
    cbn. rewrite Ht. split_and!; try done. by eexists.
  - assert (action_pending_ s = true \/ ArrayContainsString kRethrownActions (c_str name) = false) as Hq.
    { destruct (ArrayContainsString kRethrownActions (c_str name)); [left|by right].
      apply (deferred_pending d); [done|]. intros ->. by apply Hn. }
    pose proof (OnUserAction_tells name time s Hr Hq) as Ho.
    assert (forall events, first_action d (UserAction name time :: events) =
      match tells name with Some type => Some type | None => first_action d events end) as Hf.
    { intros events. cbn [first_action]. destruct d; [|done..].
      destruct (ArrayContainsString kRethrownActions (c_str name)); [by destruct Hn|done]. }
    unfold told_or_deferred. setoid_rewrite Hf. destruct (tells name) as [type|].
    + destruct Ho as (s1 & E & Ho). exists s1. split; [done|]. left. by exists type.
    + exists s. split; [done|]. right. by exists d.
Qed.

Lemma event_step d e s :
  recorded_action_ s = false -> deferred_ok d s ->
  exists s1, exec e s = Ok (tt, s1) /\ told_or_deferred d e s s1.
Proof.
  intros Hr Hd. destruct e as [name time| | |]; cbn [exec]; [by apply action_step| | |].
  - unfold RunPostedTask, mbind at 1, mget at 1. destruct d as [|name|].
    + destruct Hd as (Hp & Ht & Hc). rewrite Ht. exists s. split; [done|]. right. exists NotYet. by repeat split.
    + destruct Hd as (Hp & time & Ht & Hc). rewrite Ht.
      set (s0 := with_posted_tasks [] s).
      assert (RunTask 0 s0 = OnUserAction name time s0) as E0.
      { unfold RunTask, mbind, mget. subst s0. cbn. rewrite Hc. done. }
      rewrite (mbind_run _ _ _ tt s0) by done. rewrite E0.
      pose proof (OnUserAction_tells name time s0 Hr (or_introl Hp)) as Ho.
      unfold told_or_deferred. cbn [first_action]. destruct (tells name) as [type|].
      * destruct Ho as (s1 & E & Ho). exists s1. split; [done|]. left. by exists type.
      * exists s0. split; [done|]. right. by exists Done.
    + destruct Hd as (Hp & Ht). rewrite Ht. exists s. split; [done|]. right. by exists Done.
  - eexists. split.
    { unfold Expire. rewrite (mbind_run _ _ _ tt (with_rethrow_callback None s)) by done. by apply RecordAction_first. }
    left. by exists EXPIRATION.
  - eexists. split; [by apply RecordAction_first|]. left. by exists START_ON_NTP.
Qed.

Lemma events_record d events s :
  recorded_action_ s = false -> deferred_ok d s ->
  exists s', mfor events exec s = Ok (tt, s') /\
    samples s' = (samples s ++ match first_action d events with
      | Some type => samples_of (device_family_ s) (background_minutes_ s) type
      | None => []
      end)%list.
Proof.
  revert d s. induction events as [|e events IH]; intros d s Hr Hd.
  { exists s. by rewrite app_nil_r. }
  destruct (event_step d e s Hr Hd) as (s1 & E & [(type & Hf & Hr1 & Hs1)|(d1 & Hf & Hr1 & Hd1 & Hs1 & Hdev & Hmin)]);
    cbn [mfor]; rewrite (mbind_run _ _ _ _ _ E), Hf.
  - destruct (exec_all_recorded events s1 Hr1) as (s' & E' & Hs'). exists s'. split; [done|congruence].
  - destruct (IH d1 s1 Hr1 Hd1) as (s' & E' & Hs'). exists s'. split; [done|]. by rewrite Hs', Hs1, Hdev, Hmin.
Qed.

(** the recorder records the first event that tells what the user does, and
    nothing else. Whatever the actions, the tasks run by the message loop, the
    expiration and the start on the new tab page, in any order, the histograms
    have at most one sample of the type of the first action, that of the
    specification, and the time in the background for it; a switch of tabs only
    counts if nothing told by the time it comes back from the message queue. *)
Theorem FirstUserActionRecorder_records is_tablet minutes events :
  exists s, mfor events exec (create is_tablet minutes) = Ok (tt, s) /\
    samples s = match first_action NotYet events with
                | Some type => samples_of (if is_tablet then TABLET else HANDSET) minutes type
                | None => []
                end.
Proof. by apply (events_record NotYet events (create is_tablet minutes)). Qed.

(** A tab is switched, and then a new one is opened from the menu. *)
Example switch_then_new_tab :
  samples <$> final_state (mfor [UserAction "MobileTabSwitched" 0; UserAction "MobileMenuNewTab" 1; PostedTask]
    exec (create false 7)) =
  Some [Enumeration "FirstUserAction.HandsetUserActionType" NEW_TASK;
        CustomCounts "FirstUserAction.BackgroundTimeNewTaskHandset" 7 5 2880 50].
Proof. reflexivity. Qed.

Example switch_only :
  samples <$> final_state (mfor [UserAction "MobileTabSwitched" 0; PostedTask; UserAction "MobileMenuNewTab" 1]
    exec (create true 7)) =
  Some [Enumeration "FirstUserAction.TabletUserActionType" CONTINUATION;
        CustomCounts "FirstUserAction.BackgroundTimeContinuationTablet" 7 5 2880 50].
Proof. reflexivity. Qed.

End FirstUserActionRecorder.
