(* ===== verification/BaseValues.v ===== *)
(** * Values and preferences of base

    [base::Value], the conversions of strings and the times of base are not
    code of the repository: they are operations with the laws the code relies
    on. A dictionary is used through the keys of its entries, in order. *)

From stdpp Require Import base tactics option list numbers strings gmap sorting.
From Stdlib Require Import ZArith Lia.
From S2P Require Import Prelude WebTypes.

(** [base::Value]: constructors, the dictionary operations, and the readings of
    a value as one of the types. *)
Class ValueOps : Type := {
  Value : Type;
  double : Type;
  value_dict : Value;
  value_string : string -> Value;
  value_int : Z -> Value;
  value_bool : bool -> Value;
  value_double : double -> Value;
  FindKey : Value -> string -> option Value;
  SetKey : Value -> string -> Value -> Value;
  RemoveKey : Value -> string -> Value;
  DictKeys : Value -> list string;
  is_dict : Value -> bool;
  GetIfString : Value -> option string;
  GetIfInt : Value -> option Z;
  GetIfBool : Value -> option bool;
  GetIfDouble : Value -> option double
}.

Section Find.
Context `{ValueOps}.
Definition FindStringKey (d : Value) (k : string) : option string := FindKey d k ≫= GetIfString.
Definition FindIntKey (d : Value) (k : string) : option Z := FindKey d k ≫= GetIfInt.
Definition FindBoolKey (d : Value) (k : string) : option bool := FindKey d k ≫= GetIfBool.
Definition FindDoubleKey (d : Value) (k : string) : option double := FindKey d k ≫= GetIfDouble.
Definition FindDictKey (d : Value) (k : string) : option Value :=
  FindKey d k ≫= fun v => if is_dict v then Some v else None.
End Find.

(** The entries of a dictionary are kept in the order of their keys. *)
Class ValueLaws (V : ValueOps) : Prop := {
  FindKey_dict k : FindKey value_dict k = None;
  FindKey_SetKey d k v k' : is_dict d = true -> FindKey (SetKey d k v) k' = if decide (k = k') then Some v else FindKey d k';
  FindKey_RemoveKey d k k' : is_dict d = true -> FindKey (RemoveKey d k) k' = if decide (k = k') then None else FindKey d k';
  DictKeys_spec d k : is_dict d = true -> k ∈ DictKeys d <-> is_Some (FindKey d k);
  DictKeys_NoDup d : is_dict d = true -> NoDup (DictKeys d);
  is_dict_dict : is_dict value_dict = true;
  is_dict_SetKey d k v : is_dict d = true -> is_dict (SetKey d k v) = true;
  is_dict_RemoveKey d k : is_dict d = true -> is_dict (RemoveKey d k) = true;
  GetIfString_string s : GetIfString (value_string s) = Some s;
  GetIfInt_int z : GetIfInt (value_int z) = Some z;
  GetIfBool_bool b : GetIfBool (value_bool b) = Some b;
  GetIfDouble_double x : GetIfDouble (value_double x) = Some x
}.

(** [UTF16ToUTF8], which fails on nothing, [ASCIIToUTF16], which has a DCHECK
    that the string is ASCII, and [IsStringASCII]. *)
Class StringConversions : Type := {
  UTF16ToUTF8 : u16string -> string;
  ASCIIToUTF16_unchecked : string -> u16string;
  IsStringASCII : string -> bool
}.

Definition u16_is_ascii (s : u16string) : bool := forallb (fun c => (0 <=? c)%Z && (c <? 128)%Z) s.

Class StringConversionsLaws (C : StringConversions) : Prop := {
  ascii_utf8 s : u16_is_ascii s = true -> IsStringASCII (UTF16ToUTF8 s) = true;
  ascii_roundtrip s : u16_is_ascii s = true -> ASCIIToUTF16_unchecked (UTF16ToUTF8 s) = s;
  ascii_u16 s : IsStringASCII s = true -> UTF16ToUTF8 (ASCIIToUTF16_unchecked s) = s;
  utf8_empty : UTF16ToUTF8 [] = EmptyString
}.

Definition ASCIIToUTF16 {S} `{StringConversions} (s : string) : M S u16string :=
  dcheck (IsStringASCII s) ;;; mreturn (ASCIIToUTF16_unchecked s).

(** [std::string]'s order, of its bytes. *)
Fixpoint string_leb (s s' : string) : bool :=
  match s, s' with
  | EmptyString, _ => true
  | String _ _, EmptyString => false
  | String a s, String b s' =>
      (N.ltb (Ascii.N_of_ascii a) (Ascii.N_of_ascii b)) || (bool_decide (a = b) && string_leb s s')
  end.

Definition string_le (s s' : string) : Prop := string_leb s s' = true.

#[export] Instance string_le_dec : RelDecision string_le.
Proof. intros s s'. unfold string_le. apply _. Defined.

Lemma ascii_lt_total a b : (Ascii.N_of_ascii a < Ascii.N_of_ascii b)%N \/ a = b \/ (Ascii.N_of_ascii b < Ascii.N_of_ascii a)%N.
Proof.
  destruct (N.lt_trichotomy (Ascii.N_of_ascii a) (Ascii.N_of_ascii b)) as [|[Hn|]]; [tauto| |tauto].
  right. left. rewrite <- (Ascii.ascii_N_embedding a), <- (Ascii.ascii_N_embedding b). by rewrite Hn.
Qed.

Lemma string_le_cons a s b s' :
  string_le (String a s) (String b s') <->
  (Ascii.N_of_ascii a < Ascii.N_of_ascii b)%N \/ (a = b /\ string_le s s').
Proof.
  unfold string_le. cbn [string_leb]. rewrite orb_true_iff, N.ltb_lt, andb_true_iff, bool_decide_eq_true. done.
Qed.

#[export] Instance string_le_total : Total string_le.
Proof.
  intros s. induction s as [|a s IH]; intros [|b s']; [by left|by left|by right|]. rewrite !string_le_cons.
  destruct (ascii_lt_total a b) as [|[->|]]; [tauto| |tauto]. destruct (IH s'); tauto.
Qed.

#[export] Instance string_le_order : PartialOrder string_le.
Proof.
  split; [split|].
  - intros s. induction s as [|a s IH]; [done|]. rewrite string_le_cons. by right.
  - intros s. induction s as [|a s IH]; intros [|b s'] [|c s'']; try done. rewrite !string_le_cons.
    intros [|[-> ?]] [|[-> ?]]; [left; lia|by left|by left|]. right. split; [done|]. by eapply IH.
  - intros s. induction s as [|a s IH]; intros [|b s']; try done. rewrite !string_le_cons.
    intros [|[-> ?]] [|[? ?]]; [lia|subst; lia|lia|]. f_equal. by apply IH.
Qed.

(** ** Concrete values *)

Module ExampleValues.

(** The entries of a dictionary, without duplicates. *)
#[warnings="-register-all"]
Inductive value : Type :=
| VString (s : string)
| VInt (z : Z)
| VBool (b : bool)
| VDouble (z : Z)
| VDict (entries : list (string * value)).

Fixpoint find_entry (k : string) (l : list (string * value)) : option value :=
  match l with
  | [] => None
  | (k', v) :: l => if bool_decide (k' = k) then Some v else find_entry k l
  end.
Fixpoint remove_entry (k : string) (l : list (string * value)) : list (string * value) :=
  match l with
  | [] => []
  | (k', v) :: l => if bool_decide (k' = k) then remove_entry k l else (k', v) :: remove_entry k l
  end.

#[export] Instance values : ValueOps := {|
  Value := value;
  double := Z;
  value_dict := VDict [];
  value_string := VString;
  value_int := VInt;
  value_bool := VBool;
  value_double := VDouble;
  FindKey v k := match v with VDict l => find_entry k l | _ => None end;
  SetKey v k x := match v with VDict l => VDict ((k, x) :: remove_entry k l) | _ => v end;
  RemoveKey v k := match v with VDict l => VDict (remove_entry k l) | _ => v end;
  DictKeys v := match v with VDict l => l.*1 | _ => [] end;
  is_dict v := match v with VDict l => bool_decide (NoDup l.*1) | _ => false end;
  GetIfString v := match v with VString s => Some s | _ => None end;
  GetIfInt v := match v with VInt z => Some z | _ => None end;
  GetIfBool v := match v with VBool b => Some b | _ => None end;
  GetIfDouble v := match v with VDouble x => Some x | VInt z => Some z | _ => None end
|}.

Lemma find_remove_entry k l k' :
  find_entry k' (remove_entry k l) = if decide (k = k') then None else find_entry k' l.
Proof.
  induction l as [|[k0 v] l IH]; cbn; [by case_decide|].
  destruct (bool_decide_reflect (k0 = k)) as [->|]; [|cbn]; rewrite IH; case_decide; subst;
    repeat case_bool_decide; congruence.
Qed.

Lemma elem_of_remove_entry k l k' : k' ∈ (remove_entry k l).*1 <-> k' ≠ k /\ k' ∈ l.*1.
Proof.
  induction l as [|[k0 v] l IH]; [set_solver|]. cbn [remove_entry].
  destruct (bool_decide_reflect (k0 = k)) as [->|]; cbn; rewrite ?elem_of_cons, IH; set_solver.
Qed.

Lemma NoDup_remove_entry k l : NoDup l.*1 -> NoDup (remove_entry k l).*1.
Proof.
  induction l as [|[k0 v] l IH]; [done|]. cbn. intros [Hn Hl]%NoDup_cons.
  destruct (bool_decide (k0 = k)); [by apply IH|]. cbn. constructor; [|by apply IH].
  rewrite elem_of_remove_entry. tauto.
Qed.

Lemma find_entry_elem k l : k ∈ l.*1 <-> is_Some (find_entry k l).
Proof.
  induction l as [|[k0 v] l IH]; cbn; [split; [by intros ?%elem_of_nil|by intros [? ?]]|].
  rewrite elem_of_cons. destruct (bool_decide_reflect (k0 = k)) as [->|]; [split; [by eexists|by left]|].
  rewrite IH. naive_solver.
Qed.

#[export] Instance values_laws : ValueLaws values.
Proof.
  split; try done.
  - intros [| | | |l] k v k'; cbn; try done. intros _. rewrite find_remove_entry.
    case_bool_decide; by repeat case_decide.
  - intros [| | | |l] k k'; cbn; try done. intros _. apply find_remove_entry.
  - intros [| | | |l] k; cbn; try done. intros _. apply find_entry_elem.
  - intros [| | | |l]; cbn; try done. apply bool_decide_eq_true.
  - intros [| | | |l] k v; cbn; try done. rewrite !bool_decide_eq_true. intros Hn. constructor; [|by apply NoDup_remove_entry].
    rewrite elem_of_remove_entry. tauto.
  - intros [| | | |l] k; cbn; try done. rewrite !bool_decide_eq_true. apply NoDup_remove_entry.
Qed.

(** Only ASCII is converted, another character is a question mark. *)
Definition u16_char (c : Z) : Ascii.ascii := if (0 <=? c)%Z && (c <? 128)%Z then Ascii.ascii_of_N (Z.to_N c) else Ascii.ascii_of_N 255.
Fixpoint to_utf8 (s : u16string) : string :=
  match s with [] => EmptyString | c :: s => String (u16_char c) (to_utf8 s) end.
Fixpoint from_ascii (s : string) : u16string :=
  match s with EmptyString => [] | String a s => Z.of_N (Ascii.N_of_ascii a) :: from_ascii s end.
Fixpoint is_ascii (s : string) : bool :=
  match s with EmptyString => true | String a s => (Ascii.N_of_ascii a <? 128)%N && is_ascii s end.

#[export] Instance strings : StringConversions := {|
  UTF16ToUTF8 := to_utf8; ASCIIToUTF16_unchecked := from_ascii; IsStringASCII := is_ascii
|}.

Lemma u16_char_ascii c : (0 <= c < 128)%Z -> Ascii.N_of_ascii (u16_char c) = Z.to_N c.
Proof.
  intros Hc. unfold u16_char. rewrite (proj2 (andb_true_iff _ _)) by (rewrite Z.leb_le, Z.ltb_lt; lia).
  apply Ascii.N_ascii_embedding. lia.
Qed.

#[export] Instance strings_laws : StringConversionsLaws strings.
Proof.
  split; cbn.
  - intros s. induction s as [|c s IH]; [done|]. cbn. rewrite !andb_true_iff, Z.leb_le, Z.ltb_lt, N.ltb_lt.
    intros [Hc Hs]. rewrite u16_char_ascii by lia. split; [lia|by apply IH].
  - intros s. induction s as [|c s IH]; [done|]. cbn. rewrite !andb_true_iff, Z.leb_le, Z.ltb_lt.
    intros [Hc Hs]. rewrite u16_char_ascii, IH by (done || lia). f_equal. lia.
  - intros s. induction s as [|a s IH]; [done|]. cbn. rewrite andb_true_iff, N.ltb_lt. intros [Ha Hs]. rewrite IH by done.
    f_equal. unfold u16_char. rewrite (proj2 (andb_true_iff _ _)) by (rewrite Z.leb_le, Z.ltb_lt; lia).
    by rewrite N2Z.id, Ascii.ascii_N_embedding.
  - done.
Qed.

End ExampleValues.
