(* ===== verification/BrowserStateInfoCache.v ===== *)
(** * BrowserStateInfoCache

    The attributes of the browser states that are kept in the local state
    (src/chrome/browser/browser_state/browser_state_info_cache.{h,cc}): a
    dictionary of the preferences and the sorted list of its keys. *)

From stdpp Require Import base tactics option list numbers strings gmap sorting.
From Stdlib Require Import ZArith Lia.
From S2P Require Import Prelude WebTypes BaseValues.

Module BrowserStateInfoCache.
Local Open Scope string_scope.

(** [base::FilePath] *)
Class FilePathOps : Type := {
  FilePath : Type;
  FilePath_eq_dec :: EqDecision FilePath;
  DirName : FilePath -> FilePath;
  BaseName : FilePath -> FilePath;
  MaybeAsASCII : FilePath -> string;
  AppendASCII : FilePath -> string -> FilePath
}.

(** A path whose last component is ASCII is its directory and that component. *)
Class FilePathLaws (F : FilePathOps) : Prop := {
  AppendASCII_BaseName p : MaybeAsASCII (BaseName p) <> "" -> AppendASCII (DirName p) (MaybeAsASCII (BaseName p)) = p
}.

Definition kGAIAIdKey : string := "gaia_id".
Definition kIsAuthErrorKey : string := "is_auth_error".
Definition kUserNameKey : string := "user_name".

Section Code.
Context `{V : ValueOps} `{StringConversions} `{FilePathOps}.

(** [BrowserStateInfoCacheObserver] *)
Inductive Notification : Type :=
| OnBrowserStateAdded (path : FilePath)
| OnBrowserStateWasRemoved (path : FilePath).

(** [prefs_], of which the class only uses one dictionary, the other members,
    and the calls to the observers. *)
Record t : Type := mk {
  pref : Value;
  sorted_keys_ : list string;
  user_data_dir_ : FilePath;
  observer_list_ : list positive;
  notifications : list (positive * Notification)
}.

Definition with_pref (v : Value) (s : t) : t :=
  mk v (sorted_keys_ s) (user_data_dir_ s) (observer_list_ s) (notifications s).
Definition with_sorted_keys (v : list string) (s : t) : t :=
  mk (pref s) v (user_data_dir_ s) (observer_list_ s) (notifications s).
Definition with_observer_list (v : list positive) (s : t) : t :=
  mk (pref s) (sorted_keys_ s) (user_data_dir_ s) v (notifications s).
Definition with_notifications (v : list (positive * Notification)) (s : t) : t :=
  mk (pref s) (sorted_keys_ s) (user_data_dir_ s) (observer_list_ s) v.

Definition notify (n : Notification) : M t unit :=
  mmodify (fun s => with_notifications (notifications s ++ ((fun o => (o, n)) <$> observer_list_ s))%list s).

(** [insert] at [std::upper_bound]: before the first key that is greater. *)
Fixpoint insert_key (key : string) (keys : list string) : list string :=
  match keys with
  | [] => [key]
  | k :: keys' => if string_leb k key then k :: insert_key key keys' else key :: k :: keys'
  end.

Definition AddBrowserStateCacheKey (key : string) : M t unit :=
  mmodify (fun s => with_sorted_keys (insert_key key (sorted_keys_ s)) s).

Definition create (pref : Value) (user_data_dir : FilePath) : t :=
  mk pref (foldl (fun keys key => insert_key key keys) [] (DictKeys pref)) user_data_dir [] [].

Definition CacheKeyFromBrowserStatePath (path : FilePath) : M t string :=
  let! s := mget in
  dcheck (bool_decide (user_data_dir_ s = DirName path)) ;;;
  mreturn (MaybeAsASCII (BaseName path)).

Definition AddBrowserState (path : FilePath) (gaia_id : string) (user_name : u16string) : M t unit :=
  let! key := CacheKeyFromBrowserStatePath path in
  let info := SetKey (SetKey value_dict kGAIAIdKey (value_string gaia_id))
                kUserNameKey (value_string (UTF16ToUTF8 user_name)) in
  mmodify (fun s => with_pref (SetKey (pref s) key info) s) ;;;
  AddBrowserStateCacheKey key ;;;
  notify (OnBrowserStateAdded path).

Definition AddObserver (observer : positive) : M t unit :=
  let! s := mget in
  if bool_decide (observer ∈ observer_list_ s) then mfail NotReached
  else mmodify (fun s => with_observer_list (observer_list_ s ++ [observer])%list s).
Definition RemoveObserver (observer : positive) : M t unit :=
  mmodify (fun s => with_observer_list (filter (fun o => o <> observer) (observer_list_ s)) s).

Definition GetNumberOfBrowserStates (s : t) : Z := Z.of_nat (length (sorted_keys_ s)).

(** [std::string::npos] is no index. *)
Fixpoint index_of_key (key : string) (keys : list string) : option nat :=
  match keys with
  | [] => None
  | k :: keys' => if bool_decide (k = key) then Some 0%nat else S <$> index_of_key key keys'
  end.
Definition GetIndexOfBrowserStateWithPath (path : FilePath) : M t (option nat) :=
  let! s := mget in
  if negb (bool_decide (DirName path = user_data_dir_ s)) then mreturn None
  else
    let! search_key := CacheKeyFromBrowserStatePath path in
    mreturn (index_of_key search_key (sorted_keys_ s)).

Definition erase_key (key : string) (keys : list string) : list string :=
  match index_of_key key keys with Some i => erase_at i keys | None => keys end.
Definition RemoveBrowserState (path : FilePath) : M t unit :=
  let! browser_state_index := GetIndexOfBrowserStateWithPath path in
  match browser_state_index with
  | None => mfail NotReached
  | Some _ =>
      let! key := CacheKeyFromBrowserStatePath path in
      mmodify (fun s => with_pref (RemoveKey (pref s) key) s) ;;;
      mmodify (fun s => with_sorted_keys (erase_key key (sorted_keys_ s)) s) ;;;
      notify (OnBrowserStateWasRemoved path)
  end.

(** A null pointer when the entry is not a dictionary. *)
Definition GetInfoForBrowserStateAtIndex (index : nat) : M t Value :=
  let! s := mget in
  dcheck (Z.of_nat index <? GetNumberOfBrowserStates s)%Z ;;;
  let! key := of_option (sorted_keys_ s !! index) in
  of_option (FindDictKey (pref s) key).
Definition SetInfoForBrowserStateAtIndex (index : nat) (info : Value) : M t unit :=
  let! s := mget in
  let! key := of_option (sorted_keys_ s !! index) in
  mmodify (with_pref (SetKey (pref s) key info)).

Definition GetUserNameOfBrowserStateAtIndex (index : nat) : M t u16string :=
  let! value := GetInfoForBrowserStateAtIndex index in
  match FindStringKey value kUserNameKey with
  | Some user_name => ASCIIToUTF16 user_name
  | None => mreturn []
  end.
Definition GetPathOfBrowserStateAtIndex (index : nat) : M t FilePath :=
  let! s := mget in
  let! key := of_option (sorted_keys_ s !! index) in
  mreturn (AppendASCII (user_data_dir_ s) key).
Definition GetGAIAIdOfBrowserStateAtIndex (index : nat) : M t string :=
  let! value := GetInfoForBrowserStateAtIndex index in
  mreturn (default "" (FindStringKey value kGAIAIdKey)).
Definition BrowserStateIsAuthenticatedAtIndex (index : nat) : M t bool :=
  let! gaia_id := GetGAIAIdOfBrowserStateAtIndex index in
  if negb (bool_decide (gaia_id = "")) then mreturn true
  else
    let! user_name := GetUserNameOfBrowserStateAtIndex index in
    mreturn (negb (bool_decide (user_name = []))).
Definition BrowserStateIsAuthErrorAtIndex (index : nat) : M t bool :=
  let! value := GetInfoForBrowserStateAtIndex index in
  mreturn (default false (FindBoolKey value kIsAuthErrorKey)).

Definition SetAuthInfoOfBrowserStateAtIndex (index : nat) (gaia_id : string) (user_name : u16string) : M t unit :=
  let! old_gaia_id := GetGAIAIdOfBrowserStateAtIndex index in
  let! unchanged :=
    if bool_decide (gaia_id = old_gaia_id) then
      let! old_user_name := GetUserNameOfBrowserStateAtIndex index in
      mreturn (bool_decide (user_name = old_user_name))
    else mreturn false in
  if unchanged then mreturn tt
  else
    let! info := GetInfoForBrowserStateAtIndex index in
    SetInfoForBrowserStateAtIndex index
      (SetKey (SetKey info kGAIAIdKey (value_string gaia_id)) kUserNameKey (value_string (UTF16ToUTF8 user_name))).

Definition SetBrowserStateIsAuthErrorAtIndex (index : nat) (value : bool) : M t unit :=
  let! old_value := BrowserStateIsAuthErrorAtIndex index in
  if bool_decide (value = old_value) then mreturn tt
  else
    let! info := GetInfoForBrowserStateAtIndex index in
    SetInfoForBrowserStateAtIndex index (SetKey info kIsAuthErrorKey (value_bool value)).

Definition GetUserDataDir (s : t) : FilePath := user_data_dir_ s.

(** The calls that change the cache. *)
Inductive Op : Type :=
| OpAdd (path : FilePath) (gaia_id : string) (user_name : u16string)
| OpRemove (path : FilePath)
| OpSetAuthInfo (index : nat) (gaia_id : string) (user_name : u16string)
| OpSetIsAuthError (index : nat) (value : bool).

Definition exec (op : Op) : M t unit :=
  match op with
  | OpAdd path gaia_id user_name => AddBrowserState path gaia_id user_name
  | OpRemove path => RemoveBrowserState path
  | OpSetAuthInfo index gaia_id user_name => SetAuthInfoOfBrowserStateAtIndex index gaia_id user_name
  | OpSetIsAuthError index value => SetBrowserStateIsAuthErrorAtIndex index value
  end.

(** ** The specification: a map from keys to attributes *)

Record Attributes : Type := mkAttributes { gaia_id : string; user_name : string; is_auth_error : bool }.

(** What the cache reads in an entry. *)
Definition attributes (info : Value) : Attributes :=
  mkAttributes (default "" (FindStringKey info kGAIAIdKey)) (default "" (FindStringKey info kUserNameKey))
    (default false (FindBoolKey info kIsAuthErrorKey)).

(** The keys of the map, in order. *)
Definition keys_of (m : gmap string Attributes) : list string := merge_sort string_le (elements (dom m)).

Definition path_key (path : FilePath) : string := MaybeAsASCII (BaseName path).

Definition spec_exec (op : Op) (m : gmap string Attributes) : gmap string Attributes :=
  match op with
  | OpAdd path gaia_id user_name => <[path_key path := mkAttributes gaia_id (UTF16ToUTF8 user_name) false]> m
  | OpRemove path => delete (path_key path) m
  | OpSetAuthInfo index gaia_id user_name =>
      match keys_of m !! index with
      | Some key => alter (fun a => mkAttributes gaia_id (UTF16ToUTF8 user_name) (is_auth_error a)) key m
      | None => m
      end
  | OpSetIsAuthError index value =>
      match keys_of m !! index with
      | Some key => alter (fun a => mkAttributes (gaia_id a) (user_name a) value) key m
      | None => m
      end
  end.

(** The calls that are allowed: only new browser states are added and known
    ones removed, in the directory of the user data, indexes are in range and
    the names are ASCII. *)
Definition legal (dir : FilePath) (op : Op) (m : gmap string Attributes) : Prop :=
  match op with
  | OpAdd path _ user_name => DirName path = dir /\ m !! path_key path = None /\ u16_is_ascii user_name = true
  | OpRemove path => DirName path = dir /\ is_Some (m !! path_key path)
  | OpSetAuthInfo index _ user_name => index < size m /\ u16_is_ascii user_name = true
  | OpSetIsAuthError index _ => index < size m
  end.
Fixpoint legal_all (dir : FilePath) (ops : list Op) (m : gmap string Attributes) : Prop :=
  match ops with
  | [] => True
  | op :: ops => legal dir op m /\ legal_all dir ops (spec_exec op m)
  end.

(** The cache holds a map: its list is that of the keys of the map, and the
    dictionary has the attributes. *)
Record holds (s : t) (m : gmap string Attributes) : Prop := {
  holds_dict : is_dict (pref s) = true;
  holds_entries k v : FindKey (pref s) k = Some v -> is_dict v = true;
  holds_names k a : m !! k = Some a -> IsStringASCII (user_name a) = true;
  holds_attributes k : m !! k = attributes <$> FindKey (pref s) k;
  holds_keys : sorted_keys_ s = keys_of m
}.

(** ** The sorted list *)

Lemma keys_of_sorted m : Sorted string_le (keys_of m).
Proof. apply Sorted_merge_sort, _. Qed.
Lemma elem_of_keys_of m k : k ∈ keys_of m <-> is_Some (m !! k).
Proof. unfold keys_of. rewrite merge_sort_Permutation, elem_of_elements, elem_of_dom. done. Qed.
Lemma keys_of_NoDup m : NoDup (keys_of m).
Proof. unfold keys_of. rewrite merge_sort_Permutation. apply NoDup_elements. Qed.
Lemma length_keys_of m : length (keys_of m) = size m.
Proof. unfold keys_of. rewrite merge_sort_Permutation. change (size (dom m) = size m). apply size_dom. Qed.

(** A sorted list without duplicates is determined by its elements. *)
Lemma keys_unique m keys :
  Sorted string_le keys -> NoDup keys -> (forall k, k ∈ keys <-> is_Some (m !! k)) -> keys = keys_of m.
Proof.
  intros Hs Hn He. apply (Sorted_unique string_le); [done|apply keys_of_sorted|].
  apply NoDup_Permutation; [done|apply keys_of_NoDup|]. intros k. by rewrite He, elem_of_keys_of.
Qed.

Lemma insert_key_Permutation key keys : insert_key key keys ≡ₚ key :: keys.
Proof.
  induction keys as [|k keys IH]; [done|]. cbn [insert_key]. destruct (string_leb k key); [|done].
  rewrite IH. apply Permutation_swap.
Qed.

Lemma insert_key_sorted key keys : Sorted string_le keys -> Sorted string_le (insert_key key keys).
Proof.
  induction 1 as [|k keys Hs IH Hk]; [by repeat constructor|]. cbn [insert_key].
  destruct (string_leb k key) eqn:E.
  - constructor; [done|]. destruct keys as [|k' keys]; cbn [insert_key]; [by constructor|].
    inversion_clear Hk. destruct (string_leb k' key); by constructor.
  - constructor; [by constructor|]. constructor. destruct (total string_le key k) as [|Hk']; [done|].
    unfold string_le in Hk'. congruence.
Qed.

Lemma index_of_key_spec key keys i :
  index_of_key key keys = Some i -> keys !! i = Some key.
Proof.
  revert i. induction keys as [|k keys IH]; intros i; [done|]. cbn [index_of_key].
  destruct (bool_decide_reflect (k = key)) as [->|]; [by intros [= <-]|].
  intros (j & Hj & ->)%fmap_Some. by apply IH.
Qed.
Lemma index_of_key_None key keys : index_of_key key keys = None <-> (key ∉ keys).
Proof.
  induction keys as [|k keys IH]; cbn [index_of_key]; [set_solver|].
  destruct (bool_decide_reflect (k = key)); [set_solver|]. rewrite fmap_None, IH. set_solver.
Qed.
Lemma index_of_key_nodup key keys i : NoDup keys -> keys !! i = Some key -> index_of_key key keys = Some i.
Proof.
  intros Hn Hi. destruct (index_of_key key keys) as [j|] eqn:E.
  - apply index_of_key_spec in E. f_equal. by eapply NoDup_lookup.
  - apply index_of_key_None in E. by apply list_elem_of_lookup_2 in Hi.
Qed.

(** ** Reading the cache *)

Section Proofs.
Context `{!ValueLaws V} `{!StringConversionsLaws H} `{!FilePathLaws H0}.
Implicit Types m : gmap string Attributes.

Lemma holds_lookup s m i :
  holds s m -> i < size m ->
  exists key info, sorted_keys_ s !! i = Some key /\ FindKey (pref s) key = Some info /\
    m !! key = Some (attributes info) /\ GetInfoForBrowserStateAtIndex i s = Ok (info, s).
Proof.
  intros Hh Hi. destruct (lookup_lt_is_Some_2 (keys_of m) i) as [key Hk]; [by rewrite length_keys_of|].
  rewrite <- (holds_keys _ _ Hh) in Hk. exists key.
  assert (key ∈ keys_of m) as [a Ha]%elem_of_keys_of.
  { rewrite <- (holds_keys _ _ Hh). by eapply list_elem_of_lookup_2. }
  rewrite (holds_attributes _ _ Hh) in Ha. destruct (FindKey (pref s) key) as [info|] eqn:Ef; [|done].
  exists info. split_and!; [done|done|by rewrite (holds_attributes _ _ Hh), Ef|].
  unfold GetInfoForBrowserStateAtIndex, GetNumberOfBrowserStates, mbind, mget, dcheck, of_option.
  rewrite (proj2 (Z.ltb_lt _ _)) by (apply lookup_lt_Some in Hk; lia). rewrite Hk.
  unfold FindDictKey. rewrite Ef. cbn. by rewrite (holds_entries _ _ Hh _ _ Ef).
Qed.

Lemma GetGAIAId_holds s m i key info :
  GetInfoForBrowserStateAtIndex i s = Ok (info, s) -> m !! key = Some (attributes info) ->
  exists a, m !! key = Some a /\ GetGAIAIdOfBrowserStateAtIndex i s = Ok (gaia_id a, s).
Proof. intros E Hm. exists (attributes info). split; [done|]. unfold GetGAIAIdOfBrowserStateAtIndex. by rewrite (mbind_run _ _ _ _ _ E). Qed.

Lemma GetUserName_holds s m i key info :
  holds s m -> GetInfoForBrowserStateAtIndex i s = Ok (info, s) -> m !! key = Some (attributes info) ->
  GetUserNameOfBrowserStateAtIndex i s = Ok (ASCIIToUTF16_unchecked (user_name (attributes info)), s).
Proof.
  intros Hh E Hm. unfold GetUserNameOfBrowserStateAtIndex. rewrite (mbind_run _ _ _ _ _ E).
  pose proof (holds_names _ _ Hh _ _ Hm) as Ha. cbn in *.
  destruct (FindStringKey info kUserNameKey) as [name|]; cbn in *.
  - unfold ASCIIToUTF16, mbind, dcheck. by rewrite Ha.
  - rewrite <- utf8_empty, ascii_roundtrip by done. done.
Qed.

(** ** Writing *)

Lemma holds_insert s m key info s' :
  holds s m -> is_dict info = true -> IsStringASCII (user_name (attributes info)) = true ->
  pref s' = SetKey (pref s) key info -> sorted_keys_ s' = keys_of (<[key := attributes info]> m) ->
  holds s' (<[key := attributes info]> m).
Proof.
  intros Hh Hi Ha Hp Hk. pose proof (holds_dict _ _ Hh) as Hd. split; rewrite ?Hp; [by apply is_dict_SetKey| | | |done].
  - intros k v. rewrite FindKey_SetKey by done. case_decide; [by intros [= <-]|apply (holds_entries _ _ Hh)].
  - intros k a [[<- <-]|[_ Hk']]%lookup_insert_Some; [done|by eapply holds_names].
  - intros k. rewrite FindKey_SetKey by done. case_decide as E; [subst; by rewrite lookup_insert_eq|].
    rewrite lookup_insert_ne by done. apply (holds_attributes _ _ Hh).
Qed.

Lemma keys_of_insert_known m key a : is_Some (m !! key) -> keys_of (<[key := a]> m) = keys_of m.
Proof. intros Hk. unfold keys_of. by rewrite dom_insert_lookup_L. Qed.

Lemma keys_of_insert_new m key a : m !! key = None -> insert_key key (keys_of m) = keys_of (<[key := a]> m).
Proof.
  intros Hk. apply keys_unique.
  - apply insert_key_sorted, keys_of_sorted.
  - rewrite insert_key_Permutation. constructor; [|apply keys_of_NoDup]. rewrite elem_of_keys_of, Hk. by intros [? ?].
  - intros k. rewrite insert_key_Permutation, elem_of_cons, elem_of_keys_of, lookup_insert_is_Some'. naive_solver.
Qed.

Lemma erase_key_Permutation key keys : key ∈ keys -> key :: erase_key key keys ≡ₚ keys.
Proof.
  intros Hk. unfold erase_key. destruct (index_of_key key keys) as [i|] eqn:E; [|by apply index_of_key_None in E].
  apply index_of_key_spec, split_at in E as (l1 & l2 & -> & <-). rewrite erase_at_split.
  by rewrite Permutation_middle.
Qed.

Lemma erase_at_sorted i (keys : list string) : Sorted string_le keys -> Sorted string_le (erase_at i keys).
Proof.
  intros Hs. apply (Sorted_StronglySorted _) in Hs. apply StronglySorted_Sorted.
  unfold erase_at. revert i. induction Hs as [|k keys Hs IH Hk]; intros i; [destruct i; constructor|].
  destruct i as [|i]; [done|]. cbn. constructor; [apply IH|].
  rewrite Forall_app. split; [by apply Forall_take|]. destruct i; by apply Forall_drop.
Qed.

Lemma keys_of_delete m key : is_Some (m !! key) -> erase_key key (keys_of m) = keys_of (delete key m).
Proof.
  intros Hk. assert (key ∈ keys_of m) as He by by apply elem_of_keys_of.
  pose proof (erase_key_Permutation key _ He) as Hp. pose proof (keys_of_NoDup m) as Hn. rewrite <- Hp in Hn.
  apply NoDup_cons in Hn as [Hn1 Hn2]. apply keys_unique; [|done|].
  - unfold erase_key. destruct (index_of_key _ _); [apply erase_at_sorted|]; apply keys_of_sorted.
  - intros k. assert (k ∈ key :: erase_key key (keys_of m) <-> k ∈ keys_of m) as Hk' by by rewrite Hp.
    rewrite elem_of_cons in Hk'. rewrite lookup_delete_is_Some, <- elem_of_keys_of, <- Hk'. naive_solver.
Qed.

(** ** The calls *)

Lemma CacheKey_run path s : DirName path = user_data_dir_ s -> CacheKeyFromBrowserStatePath path s = Ok (path_key path, s).
Proof.
  intros Hd. unfold CacheKeyFromBrowserStatePath, mbind, mget, dcheck. by rewrite bool_decide_true.
Qed.

Lemma FindStringKey_SetKey d k x k' :
  is_dict d = true -> FindStringKey (SetKey d k (value_string x)) k' = if decide (k = k') then Some x else FindStringKey d k'.
Proof.
  intros Hd. unfold FindStringKey. rewrite FindKey_SetKey by done. case_decide; [|done]. cbn. apply GetIfString_string.
Qed.

(** The attributes after the writes of the cache. *)
Lemma attributes_auth info g n :
  is_dict info = true ->
  attributes (SetKey (SetKey info kGAIAIdKey (value_string g)) kUserNameKey (value_string n)) =
    mkAttributes g n (is_auth_error (attributes info)).
Proof.
  intros Hd. unfold attributes. rewrite !FindStringKey_SetKey by (done || by apply is_dict_SetKey).
  unfold FindBoolKey. rewrite !FindKey_SetKey by (done || by apply is_dict_SetKey). done.
Qed.
Lemma attributes_error info b :
  is_dict info = true ->
  attributes (SetKey info kIsAuthErrorKey (value_bool b)) = mkAttributes (gaia_id (attributes info)) (user_name (attributes info)) b.
Proof.
  intros Hd. unfold attributes, FindStringKey, FindBoolKey. rewrite !FindKey_SetKey by done.
  rewrite !decide_False, decide_True by done. cbn. by rewrite GetIfBool_bool.
Qed.

Lemma alter_insert_eq (f : Attributes -> Attributes) key m a : m !! key = Some a -> alter f key m = <[key := f a]> m.
Proof.
  intros Hk. apply map_eq. intros k. destruct (decide (key = k)) as [<-|].
  - by rewrite lookup_alter_eq, lookup_insert_eq, Hk.
  - by rewrite lookup_alter_ne, lookup_insert_ne.
Qed.

(** Writing the attributes of an index. *)
Lemma SetInfo_holds s m i key info info' a :
  holds s m -> sorted_keys_ s !! i = Some key -> m !! key = Some (attributes info) ->
  is_dict info' = true -> attributes info' = a -> IsStringASCII (user_name a) = true ->
  exists s', SetInfoForBrowserStateAtIndex i info' s = Ok (tt, s') /\ holds s' (<[key := a]> m) /\
    user_data_dir_ s' = user_data_dir_ s.
Proof.
  intros Hh Hk Hm Hi <- Ha. exists (with_pref (SetKey (pref s) key info') s). split_and!; [| |done].
  - unfold SetInfoForBrowserStateAtIndex, mbind, mget. by rewrite Hk.
  - eapply holds_insert; [done..|]. cbn. by rewrite keys_of_insert_known, (holds_keys _ _ Hh) by by rewrite Hm.
Qed.

Lemma insert_same m key a : m !! key = Some a -> m = <[key := a]> m.
Proof. intros Hk. by rewrite insert_id. Qed.

Lemma SetAuthInfo_holds s m i g n :
  holds s m -> legal (user_data_dir_ s) (OpSetAuthInfo i g n) m ->
  exists s', SetAuthInfoOfBrowserStateAtIndex i g n s = Ok (tt, s') /\
    holds s' (spec_exec (OpSetAuthInfo i g n) m) /\ user_data_dir_ s' = user_data_dir_ s.
Proof.
  intros Hh [Hi Hn]. destruct (holds_lookup s m i Hh Hi) as (key & info & Hk & Hf & Hm & Hinfo).
  destruct (GetGAIAId_holds _ _ _ _ _ Hinfo Hm) as (? & [= <-]%(eq_trans (eq_sym Hm)) & Hg).
  pose proof (GetUserName_holds _ _ _ _ _ Hh Hinfo Hm) as Hu.
  cbn [spec_exec]. rewrite <- (holds_keys _ _ Hh), Hk, (alter_insert_eq _ _ _ _ Hm).
  assert (exists b, (if bool_decide (g = gaia_id (attributes info))
    then let! old_user_name := GetUserNameOfBrowserStateAtIndex i in mreturn (bool_decide (n = old_user_name))
    else mreturn false) s = Ok (b, s) /\
    (b = true -> mkAttributes g (UTF16ToUTF8 n) (is_auth_error (attributes info)) = attributes info)) as (b & Eb & Hb).
  { destruct (bool_decide_reflect (g = gaia_id (attributes info))) as [->|]; [|by exists false].
    rewrite (mbind_run _ _ _ _ _ Hu). eexists. split; [done|]. intros ->%bool_decide_eq_true.
    rewrite ascii_u16 by by eapply holds_names. by destruct (attributes info). }
  unfold SetAuthInfoOfBrowserStateAtIndex. rewrite (mbind_run _ _ _ _ _ Hg), (mbind_run _ _ _ _ _ Eb).
  destruct b.
  - exists s. rewrite Hb, insert_id by done. done.
  - rewrite (mbind_run _ _ _ _ _ Hinfo). pose proof (holds_entries _ _ Hh _ _ Hf) as Hd.
    eapply SetInfo_holds; [done..| |by apply attributes_auth|by apply ascii_utf8].
    by do 2 apply is_dict_SetKey.
Qed.

Lemma SetIsAuthError_holds s m i b :
  holds s m -> legal (user_data_dir_ s) (OpSetIsAuthError i b) m ->
  exists s', SetBrowserStateIsAuthErrorAtIndex i b s = Ok (tt, s') /\
    holds s' (spec_exec (OpSetIsAuthError i b) m) /\ user_data_dir_ s' = user_data_dir_ s.
Proof.
  intros Hh Hi. destruct (holds_lookup s m i Hh Hi) as (key & info & Hk & Hf & Hm & Hinfo).
  cbn [spec_exec]. rewrite <- (holds_keys _ _ Hh), Hk, (alter_insert_eq _ _ _ _ Hm).
  unfold SetBrowserStateIsAuthErrorAtIndex, BrowserStateIsAuthErrorAtIndex.
  rewrite mbind_assoc, (mbind_run _ _ _ _ _ Hinfo), mreturn_bind.
  destruct (bool_decide_reflect (b = default false (FindBoolKey info kIsAuthErrorKey))) as [Hb|].
  - exists s. split_and!; [done| |done]. rewrite insert_id; [done|]. by rewrite Hm, Hb.
  - rewrite (mbind_run _ _ _ _ _ Hinfo). pose proof (holds_entries _ _ Hh _ _ Hf) as Hd.
    eapply SetInfo_holds; [done..|by apply is_dict_SetKey|by apply attributes_error|exact (holds_names _ _ Hh _ _ Hm)].
Qed.

Lemma Add_holds s m path g n :
  holds s m -> legal (user_data_dir_ s) (OpAdd path g n) m ->
  exists s', AddBrowserState path g n s = Ok (tt, s') /\ holds s' (spec_exec (OpAdd path g n) m) /\
    user_data_dir_ s' = user_data_dir_ s.
Proof.
  intros Hh (Hd & Hk & Hn). unfold AddBrowserState. rewrite (mbind_run _ _ _ _ _ (CacheKey_run _ _ Hd)).
  eexists. split; [reflexivity|]. cbn [spec_exec]. split; [|done].
  assert (is_dict (SetKey value_dict kGAIAIdKey (value_string g)) = true) as Hd1 by apply is_dict_SetKey, is_dict_dict.
  assert (attributes (SetKey (SetKey value_dict kGAIAIdKey (value_string g)) kUserNameKey (value_string (UTF16ToUTF8 n))) =
    mkAttributes g (UTF16ToUTF8 n) false) as Ha.
  { rewrite attributes_auth by apply is_dict_dict. f_equal. unfold attributes, FindBoolKey. cbn. by rewrite FindKey_dict. }
  rewrite <- Ha. eapply holds_insert; [done|by apply is_dict_SetKey|rewrite Ha; by apply ascii_utf8|done|].
  cbn. rewrite <- keys_of_insert_new by done. by rewrite (holds_keys _ _ Hh).
Qed.

Lemma Remove_holds s m path :
  holds s m -> legal (user_data_dir_ s) (OpRemove path) m ->
  exists s', RemoveBrowserState path s = Ok (tt, s') /\ holds s' (spec_exec (OpRemove path) m) /\
    user_data_dir_ s' = user_data_dir_ s.
Proof.
  intros Hh (Hd & Hk). unfold RemoveBrowserState, GetIndexOfBrowserStateWithPath.
  rewrite mbind_assoc, (mbind_run _ _ _ s s) by done. rewrite bool_decide_true by done. cbn [negb].
  rewrite mbind_assoc, (mbind_run _ _ _ _ _ (CacheKey_run _ _ Hd)), mreturn_bind.
  destruct (index_of_key (path_key path) (sorted_keys_ s)) as [i|] eqn:Ei.
  2:{ apply index_of_key_None in Ei. rewrite (holds_keys _ _ Hh), elem_of_keys_of in Ei. done. }
  rewrite (mbind_run _ _ _ _ _ (CacheKey_run _ _ Hd)). eexists. split; [reflexivity|].
  split; [|done]. cbn [spec_exec]. pose proof (holds_dict _ _ Hh) as Hdict. split; cbn.
  - by apply is_dict_RemoveKey.
  - intros k v. rewrite FindKey_RemoveKey by done. case_decide; [done|apply (holds_entries _ _ Hh)].
  - intros k a [_ Ha]%lookup_delete_Some. by eapply (holds_names _ _ Hh).
  - intros k. rewrite FindKey_RemoveKey by done. case_decide as E; [subst; by rewrite lookup_delete_eq|].
    rewrite lookup_delete_ne by done. apply (holds_attributes _ _ Hh).
  - by rewrite (holds_keys _ _ Hh), keys_of_delete.
Qed.

(** C37: the cache implements a map from the directories of the browser states
    to their attributes. Calls that only add new browser states, remove known
    ones and use indexes that are in range succeed and do what they do on the
    map; the indexes go through the keys of the map in order, the path of an
    index has that index, and the attributes read at it are those of its key. *)
Theorem BrowserStateInfoCache_refines_map ops s m :
  holds s m -> legal_all (user_data_dir_ s) ops m ->
  exists s', mfor ops exec s = Ok (tt, s') /\ holds s' (foldl (fun m op => spec_exec op m) m ops) /\
    forall i key, keys_of (foldl (fun m op => spec_exec op m) m ops) !! i = Some key ->
      exists a, foldl (fun m op => spec_exec op m) m ops !! key = Some a /\
        GetGAIAIdOfBrowserStateAtIndex i s' = Ok (gaia_id a, s') /\
        GetUserNameOfBrowserStateAtIndex i s' = Ok (ASCIIToUTF16_unchecked (user_name a), s') /\
        BrowserStateIsAuthErrorAtIndex i s' = Ok (is_auth_error a, s') /\
        forall path, DirName path = user_data_dir_ s' -> path_key path = key -> key <> "" ->
          GetPathOfBrowserStateAtIndex i s' = Ok (path, s') /\
          GetIndexOfBrowserStateWithPath path s' = Ok (Some i, s').
Proof.
  revert s m. induction ops as [|op ops IH]; intros s m Hh Hl; cbn [foldl mfor].
  - exists s. split_and!; [done..|]. intros i key Hk.
    assert (i < size m) as Hi by (rewrite <- length_keys_of; by eapply lookup_lt_Some).
    destruct (holds_lookup s m i Hh Hi) as (key' & info & Hk' & _ & Hm & Hinfo).
    rewrite (holds_keys _ _ Hh) in Hk'. simplify_eq. exists (attributes info).
    destruct (GetGAIAId_holds _ _ _ _ _ Hinfo Hm) as (? & [= <-]%(eq_trans (eq_sym Hm)) & Hg).
    split_and!; [done|done|by apply (GetUserName_holds _ m _ key)| |].
    { unfold BrowserStateIsAuthErrorAtIndex. by rewrite (mbind_run _ _ _ _ _ Hinfo). }
    intros path Hd <- Hne. rewrite <- (holds_keys _ _ Hh) in Hk.
    split.
    + unfold GetPathOfBrowserStateAtIndex, mbind, mget. rewrite Hk. cbn. rewrite <- Hd.
      unfold path_key in *. by rewrite AppendASCII_BaseName.
    + unfold GetIndexOfBrowserStateWithPath. rewrite (mbind_run _ _ _ s s), bool_decide_true by done. cbn [negb].
      rewrite (mbind_run _ _ _ _ _ (CacheKey_run _ _ Hd)). cbv [mreturn].
      rewrite (index_of_key_nodup _ _ i); [done| |done]. rewrite (holds_keys _ _ Hh). apply keys_of_NoDup.
  - destruct Hl as [Hl Hls].
    assert (exists s1, exec op s = Ok (tt, s1) /\ holds s1 (spec_exec op m) /\ user_data_dir_ s1 = user_data_dir_ s)
      as (s1 & E & Hh1 & Hd1).
    { destruct op; [by apply Add_holds|by apply Remove_holds|by apply SetAuthInfo_holds|by apply SetIsAuthError_holds]. }
    rewrite (mbind_run _ _ _ _ _ E). apply IH; [done|by rewrite Hd1].
Qed.

End Proofs.

(** A cache without entries. *)
Lemma create_holds `{!ValueLaws V} dir : holds (create value_dict dir) ∅.
Proof.
  assert (DictKeys value_dict = []) as Hk.
  { apply elem_of_nil_inv. intros k. rewrite DictKeys_spec, FindKey_dict by apply is_dict_dict. by intros [? ?]. }
  split; cbn; [apply is_dict_dict|by intros k v; rewrite FindKey_dict|done|by intros k; rewrite FindKey_dict|].
  by rewrite Hk.
Qed.

End Code.
End BrowserStateInfoCache.

Module ExampleCache.
Import BrowserStateInfoCache.
Export ExampleValues.

(** A path is its components, the last one first. *)
#[export] Instance paths : FilePathOps := {|
  FilePath := list string;
  DirName p := tail p;
  BaseName p := take 1 p;
  MaybeAsASCII p := match p with s :: _ => if is_ascii s then s else EmptyString | [] => EmptyString end;
  AppendASCII p s := s :: p
|}.

#[export] Instance paths_laws : FilePathLaws paths.
Proof. split. intros [|s p]; cbn; [done|]. by destruct (is_ascii s). Qed.

Local Open Scope string_scope.
Definition dir : FilePath := ["data"].
Definition ops : list Op :=
  [OpAdd ["b"; "data"] "gaia" [65; 66]%Z; OpAdd ["a"; "data"] "" []; OpSetIsAuthError 1 true;
   OpSetAuthInfo 0 "other" [67]%Z; OpRemove ["b"; "data"]].

Lemma BrowserStateInfoCache_refines_map_witness :
  exists s', mfor ops exec (create value_dict dir) = Ok (tt, s') /\
    GetGAIAIdOfBrowserStateAtIndex 0 s' = Ok ("other", s') /\
    GetIndexOfBrowserStateWithPath ["a"; "data"] s' = Ok (Some 0, s').
Proof.
  destruct (BrowserStateInfoCache_refines_map ops (create value_dict dir) ∅) as (s' & E & _ & Hi).
  - apply create_holds.
  - cbn [legal_all ops]. split_and!; try done; vm_compute; eauto.
  - exists s'. split; [exact E|]. destruct (Hi 0 "a" eq_refl) as (a & Ha & Hg & _ & _ & Hp).
    vm_compute in Ha. injection Ha as <-. split; [exact Hg|].
    apply (Hp ["a"; "data"]); [|reflexivity|discriminate].
    vm_compute in E. injection E as <-. reflexivity.
Defined.

(** A browser state that is added again has two indexes, and the second one is
    left without attributes when it is removed. *)
Lemma added_twice :
  match mfor [OpAdd ["a"; "data"] "" []; OpAdd ["a"; "data"] "" []; OpRemove ["a"; "data"]] exec (create value_dict dir) with
  | Ok (_, s) => sorted_keys_ s = ["a"] /\ GetGAIAIdOfBrowserStateAtIndex 0 s = Fault OutOfRange
  | Fault _ => False
  end.
Proof. by vm_compute. Qed.

(** A name that is not ASCII is saved, and cannot be read. *)
Lemma name_not_ascii :
  match exec (OpAdd ["a"; "data"] "" [233]%Z) (create value_dict dir) with
  | Ok (_, s) => GetUserNameOfBrowserStateAtIndex 0 s = Fault DCheckFailed
  | Fault _ => False
  end.
Proof. by vm_compute. Qed.

End ExampleCache.
