(* ===== verification/NotificationPromo.v ===== *)
(** * NotificationPromo

    A promotion of the new tab page, its limits and what is kept of it in the
    local state (src/chrome/browser/notification_promo.{h,cc}). *)

From stdpp Require Import base tactics option list numbers strings pretty.
From Stdlib Require Import ZArith Lia.
From S2P Require Import Prelude WebTypes WkNavigationUtil BaseValues.

Module NotificationPromo.
Local Open Scope string_scope.

(** Doubles, times and conversions of base, and the parameters of the field
    trial, in the order of their names. *)
Class PromoEnv `{ValueOps} : Type := {
  double_zero : double;
  double_eqb : double -> double -> bool;
  ToDoubleT : Z -> double;
  FromDoubleT : double -> Z;
  Time_FromString : string -> option Z;
  StringToInt : string -> option Z;
  NumberToString : Z -> string;
  MergeDictionary : Value -> Value -> Value;
  GetVariationParams : option (list (string * string))
}.

Class PromoEnvLaws `(E : PromoEnv) : Prop := {
  NumberToString_inj : Inj (=) (=) NumberToString;
  is_dict_Merge d : is_dict d = true -> is_dict (MergeDictionary value_dict d) = true;
  FindKey_Merge d k : is_dict d = true -> FindKey (MergeDictionary value_dict d) k = FindKey d k
}.

Definition kPrefPromoFirstViewTime : string := "first_view_time".
Definition kPrefPromoViews : string := "views".
Definition kPrefPromoClosed : string := "closed".

Section Code.
Context `{V : ValueOps} {E : PromoEnv}.

(** The dictionary of [kPrefPromoObject] in the local state, the clock, and the
    members. *)
Record t : Type := mk {
  local_state : Value;
  now : Z;
  promo_text_ : string;
  promo_payload_ : Value;
  start_ : double;
  end_ : double;
  promo_id_ : Z;
  max_views_ : Z;
  max_seconds_ : Z;
  first_view_time_ : double;
  views_ : Z;
  closed_ : bool
}.

Definition create (local_state : Value) (now : Z) : t :=
  mk local_state now "" value_dict double_zero double_zero (-1) 0 0 double_zero 0 false.

Definition with_local_state (v : Value) (s : t) : t :=
  mk v (now s) (promo_text_ s) (promo_payload_ s) (start_ s) (end_ s) (promo_id_ s) (max_views_ s) (max_seconds_ s)
    (first_view_time_ s) (views_ s) (closed_ s).
Definition with_json (text : string) (payload : Value) (start end' : double) (id views seconds : Z) (s : t) : t :=
  mk (local_state s) (now s) text payload start end' id views seconds (first_view_time_ s) (views_ s) (closed_ s).
Definition with_prefs (time : double) (views : Z) (closed : bool) (s : t) : t :=
  mk (local_state s) (now s) (promo_text_ s) (promo_payload_ s) (start_ s) (end_ s) (promo_id_ s) (max_views_ s)
    (max_seconds_ s) time views closed.

(** [if (str && base::Time::FromString(str, &time)) field = time.ToDoubleT();] *)
Definition time_key (promo : Value) (key : string) (old : double) : double :=
  match FindStringKey promo key ≫= Time_FromString with
  | Some time => ToDoubleT time
  | None => old
  end.

Definition InitFromJson (promo : Value) : M t unit :=
  mmodify (fun s => with_json
    (default (promo_text_ s) (FindStringKey promo "promo_text"))
    (default (promo_payload_ s) (FindDictKey promo "payload"))
    (time_key promo "start" (start_ s))
    (time_key promo "end" (end_ s))
    (default (promo_id_ s) (FindIntKey promo "promo_id"))
    (default (max_views_ s) (FindIntKey promo "max_views"))
    (default (max_seconds_ s) (FindIntKey promo "max_seconds")) s).

Definition IsPayloadParam (param_name : string) : bool :=
  negb (bool_decide (param_name ∈ ["start"; "end"; "promo_text"; "max_views"; "max_seconds"; "promo_id"])).

(** The two dictionaries, of the parameters and of the payload. *)
Fixpoint json_of_params (params : list (string * string)) (json payload : Value) : Value * Value :=
  match params with
  | [] => (json, payload)
  | (name, param) :: params =>
      let value := match StringToInt param with
                   | Some converted_number => value_int converted_number
                   | None => value_string param
                   end in
      if IsPayloadParam name then json_of_params params json (SetKey payload name value)
      else json_of_params params (SetKey json name value) payload
  end.

Definition InitFromVariations : M t unit :=
  match GetVariationParams with
  | None => mreturn tt
  | Some params =>
      let '(json, payload) := json_of_params params value_dict value_dict in
      InitFromJson (SetKey json "payload" payload)
  end.

Definition ntp_promo (first_view_time : double) (views : Z) (closed : bool) : Value :=
  SetKey (SetKey (SetKey value_dict kPrefPromoFirstViewTime (value_double first_view_time))
    kPrefPromoViews (value_int views)) kPrefPromoClosed (value_bool closed).

Definition WritePrefs_of (promo_id : Z) (first_view_time : double) (views : Z) (closed : bool) : M t unit :=
  mmodify (fun s => with_local_state
    (SetKey (MergeDictionary value_dict (local_state s)) (NumberToString promo_id)
       (ntp_promo first_view_time views closed)) s).
Definition WritePrefs : M t unit :=
  let! s := mget in WritePrefs_of (promo_id_ s) (first_view_time_ s) (views_ s) (closed_ s).

Definition InitFromPrefs : M t unit :=
  let! s := mget in
  if (promo_id_ s =? -1)%Z then mreturn tt
  else
    match FindDictKey (local_state s) (NumberToString (promo_id_ s)) with
    | None => mreturn tt
    | Some ntp_promo =>
        mmodify (with_prefs (default (first_view_time_ s) (FindDoubleKey ntp_promo kPrefPromoFirstViewTime))
          (default (views_ s) (FindIntKey ntp_promo kPrefPromoViews))
          (default (closed_ s) (FindBoolKey ntp_promo kPrefPromoClosed)))
    end.

Definition MigrateUserPrefs : M t unit := mmodify (with_local_state value_dict).

Definition ExceedsMaxViews (s : t) : bool :=
  if (max_views_ s =? 0)%Z then false else (views_ s >=? max_views_ s)%Z.
Definition ExceedsMaxSeconds (s : t) : bool :=
  if (max_seconds_ s =? 0)%Z || double_eqb (first_view_time_ s) double_zero then false
  else
    let last_view_time := TimeSmoother.time_add (FromDoubleT (first_view_time_ s)) (max_seconds_ s * 1000000) in
    (last_view_time <? now s)%Z.
Definition StartTime (s : t) : double := start_ s.
Definition EndTime (s : t) : double := end_ s.

Definition CanShow (s : t) : bool :=
  negb (closed_ s) && negb (bool_decide (promo_text_ s = "")) && negb (ExceedsMaxViews s) &&
  negb (ExceedsMaxSeconds s) && (FromDoubleT (StartTime s) <? now s)%Z && (FromDoubleT (EndTime s) >? now s)%Z.

Definition HandleClosed : M t unit :=
  let! s := mget in
  mwhen (negb (closed_ s)) (WritePrefs_of (promo_id_ s) (first_view_time_ s) (views_ s) true).

Definition HandleViewed : M t unit :=
  let! s := mget in
  if negb (in_int (views_ s + 1)) then mfail SignedOverflow
  else
    let views := (views_ s + 1)%Z in
    let first_view_time := if double_eqb (first_view_time_ s) double_zero then ToDoubleT (now s)
                           else first_view_time_ s in
    WritePrefs_of (promo_id_ s) first_view_time views (closed_ s).

(** ** The life of a promotion

    Each time the application starts, the promotion is made again from the
    field trial and from the preferences; it can then be viewed or closed. *)

Inductive Visit : Type := Viewed | Closed.

Definition start_promo (promo : Value) (local_state : Value) (now : Z) : M t unit :=
  (fun _ => Ok (tt, create local_state now)) ;;; InitFromJson promo ;;; InitFromPrefs.

(** What is in the local state after a start, and what happens then. *)
Definition visit (promo : Value) (v : Visit) (now : Z) (d : Value) : res Value :=
  match (start_promo promo d now ;;; match v with Viewed => HandleViewed | Closed => HandleClosed end) (create d now) with
  | Ok (_, s) => Ok (local_state s)
  | Fault f => Fault f
  end.
Fixpoint visits (promo : Value) (vs : list (Visit * Z)) (d : Value) : res Value :=
  match vs with
  | [] => Ok d
  | (v, now) :: vs => match visit promo v now d with Ok d => visits promo vs d | Fault f => Fault f end
  end.

#[global] Instance Visit_eq_dec : EqDecision Visit.
Proof. solve_decision. Defined.

Definition views_of (vs : list (Visit * Z)) : Z := Z.of_nat (length (filter (fun v => v.1 = Viewed) vs)).
Definition closed_in (vs : list (Visit * Z)) : bool := existsb (fun v => bool_decide (v.1 = Closed)) vs.

(** ** Proofs *)

Section Proofs.
Context `{!ValueLaws V} `{!PromoEnvLaws E}.
Context (promo : Value) (id : Z) (Hid : FindIntKey promo "promo_id" = Some id) (Hn : id <> (-1)%Z).

(** The preferences have a promotion with so many views. *)
Definition saved (d : Value) (views : Z) (closed : bool) : Prop :=
  is_dict d = true /\
  match FindKey d (NumberToString id) with
  | None => views = 0%Z /\ closed = false
  | Some v => is_dict v = true /\ FindIntKey v kPrefPromoViews = Some views /\ FindBoolKey v kPrefPromoClosed = Some closed
  end.

Lemma ntp_promo_reads time views closed :
  is_dict (ntp_promo time views closed) = true /\
  FindIntKey (ntp_promo time views closed) kPrefPromoViews = Some views /\
  FindBoolKey (ntp_promo time views closed) kPrefPromoClosed = Some closed.
Proof.
  unfold ntp_promo, FindIntKey, FindBoolKey.
  assert (forall d k v, is_dict d = true -> is_dict (SetKey d k v) = true) as Hd by apply is_dict_SetKey.
  split_and!; [by auto using is_dict_dict| |];
    rewrite !FindKey_SetKey by auto using is_dict_dict; cbn; [apply GetIfInt_int|apply GetIfBool_bool].
Qed.

(** What starting the promotion reads. *)
Lemma start_promo_saved d now views closed :
  saved d views closed ->
  exists s, start_promo promo d now (create d now) = Ok (tt, s) /\
    views_ s = views /\ closed_ s = closed /\ promo_id_ s = id /\ local_state s = d /\
    max_views_ s = default 0%Z (FindIntKey promo "max_views").
Proof.
  intros [Hd Hs]. unfold start_promo. rewrite (mbind_run _ _ _ tt (create d now)) by done.
  rewrite (mbind_run (InitFromJson promo) _ _ _ _ eq_refl).
  lazymatch goal with |- context [InitFromPrefs ?s] => set (s0 := s) end.
  assert (promo_id_ s0 = id) as Hi by (cbn; by rewrite Hid).
  unfold InitFromPrefs, mbind, mget. rewrite Hi, (proj2 (Z.eqb_neq id (-1))) by done.
  change (local_state s0) with d. destruct (FindKey d (NumberToString id)) as [v|] eqn:Ef.
  - destruct Hs as (Hv & Hviews & Hclosed). assert (FindDictKey d (NumberToString id) = Some v) as ->.
    { unfold FindDictKey. rewrite Ef. cbn. by rewrite Hv. }
    rewrite Hviews, Hclosed. eexists. by split_and!.
  - destruct Hs as [-> ->]. assert (FindDictKey d (NumberToString id) = None) as -> by (unfold FindDictKey; by rewrite Ef).
    eexists. by split_and!.
Qed.

Lemma WritePrefs_saved s time views closed :
  promo_id_ s = id -> is_dict (local_state s) = true ->
  exists s', WritePrefs_of (promo_id_ s) time views closed s = Ok (tt, s') /\ saved (local_state s') views closed /\
    forall k, k <> NumberToString id -> FindKey (local_state s') k = FindKey (local_state s) k.
Proof.
  intros -> Hd. eexists. split; [reflexivity|]. cbn. pose proof (is_dict_Merge _ Hd) as Hm.
  split; [split; [by apply is_dict_SetKey|]|].
  - rewrite FindKey_SetKey, decide_True by done. apply ntp_promo_reads.
  - intros k Hk. rewrite FindKey_SetKey, decide_False by done. by apply FindKey_Merge.
Qed.

Lemma visit_saved d v clock views closed :
  saved d views closed -> (0 <= views)%Z -> (v = Viewed -> (views + 1 <= INT_MAX)%Z) ->
  exists d', visit promo v clock d = Ok d' /\
    saved d' (match v with Viewed => views + 1 | Closed => views end) (match v with Viewed => closed | Closed => true end) /\
    forall k, k <> NumberToString id -> FindKey d' k = FindKey d k.
Proof.
  intros Hs Hp Hv. destruct (start_promo_saved d clock _ _ Hs) as (s & Es & Hviews & Hclosed & Hpid & Hl & _).
  unfold visit. rewrite (mbind_run _ _ _ _ _ Es). assert (is_dict (local_state s) = true) as Hd by (rewrite Hl; apply Hs).
  destruct v.
  - unfold HandleViewed. rewrite (mbind_run _ _ s s s) by done. rewrite Hviews.
    assert (in_int (views + 1) = true) as ->.
    { apply in_int_spec. specialize (Hv eq_refl). unfold INT_MIN. lia. }
    cbn [negb]. destruct (WritePrefs_saved s (if double_eqb (first_view_time_ s) double_zero
      then ToDoubleT (now s) else first_view_time_ s) (views + 1) (closed_ s) Hpid Hd) as (s' & -> & Hs' & Hk).
    exists (local_state s'). rewrite Hclosed in Hs'. split; [done|]. split; [done|]. by rewrite <- Hl.
  - unfold HandleClosed. rewrite (mbind_run _ _ s s s) by done. rewrite Hclosed, Hviews. destruct closed; cbn [negb mwhen].
    + exists d. split; [cbn; by rewrite Hl|done].
    + destruct (WritePrefs_saved s (first_view_time_ s) views true Hpid Hd) as (s' & -> & Hs' & Hk).
      exists (local_state s'). split; [done|]. split; [done|]. by rewrite <- Hl.
Qed.

Lemma visits_saved vs d views closed :
  saved d views closed -> (0 <= views)%Z -> (views + views_of vs <= INT_MAX)%Z ->
  exists d', visits promo vs d = Ok d' /\ saved d' (views + views_of vs) (closed || closed_in vs) /\
    forall k, k <> NumberToString id -> FindKey d' k = FindKey d k.
Proof.
  revert d views closed. induction vs as [|[v clock] vs IH]; intros d views closed Hs Hp Hm.
  { exists d. unfold views_of, closed_in. cbn. rewrite Z.add_0_r, orb_false_r. done. }
  cbn [visits]. assert (views_of ((v, clock) :: vs) = ((match v with Viewed => 1 | Closed => 0 end) + views_of vs)%Z) as Ev.
  { unfold views_of. rewrite filter_cons. destruct v; cbn [fst]; case_decide; try done. cbn [length]. lia. }
  assert (0 <= views_of vs)%Z by (unfold views_of; lia). rewrite Ev in Hm.
  destruct (visit_saved d v clock views closed Hs Hp) as (d1 & -> & Hs1 & Hk1); [intros ->; lia|].
  edestruct (IH d1 _ _ Hs1) as (d' & E' & Hs' & Hk'); [by destruct v; lia|by destruct v; lia|].
  exists d'. split; [exact E'|]. split.
  - rewrite Ev. unfold closed_in in *. cbn [existsb fst]. destruct v; cbn in Hs' |- *.
    + by rewrite Z.add_assoc.
    + rewrite orb_true_r. done.
  - intros k Hk. by rewrite Hk', Hk1.
Qed.

(** C38: a promotion counts its views and its closing across starts. From
    preferences that do not have it, after any views and closings, each after a
    new start, a start finds the number of its views and whether it was closed;
    it is shown only if it was never closed and, if it has a limit, was viewed
    fewer times than that; the preferences of the other promotions are kept. *)
Theorem NotificationPromo_counts vs d clock :
  is_dict d = true -> FindKey d (NumberToString id) = None -> (views_of vs <= INT_MAX)%Z ->
  exists d' s, visits promo vs d = Ok d' /\ start_promo promo d' clock (create d' clock) = Ok (tt, s) /\
    views_ s = views_of vs /\ closed_ s = closed_in vs /\
    (CanShow s = true -> closed_in vs = false /\ (max_views_ s = 0%Z \/ (views_of vs < max_views_ s)%Z)) /\
    max_views_ s = default 0%Z (FindIntKey promo "max_views") /\
    forall k, k <> NumberToString id -> FindKey d' k = FindKey d k.
Proof.
  intros Hd Hk Hm. destruct (visits_saved vs d 0 false) as (d' & E' & Hs' & Hk'); [|lia|lia|].
  { split; [done|]. by rewrite Hk. }
  destruct (start_promo_saved d' clock _ _ Hs') as (s & Es & Hviews & Hclosed & _ & _ & Hmax).
  exists d', s. split_and!; try done.
  intros (((((Hc & _)%andb_true_iff & Hv)%andb_true_iff & _)%andb_true_iff & _)%andb_true_iff & _)%andb_true_iff.
  cbn in Hclosed, Hviews. split; [rewrite <- Hclosed; by apply negb_true_iff|].
  unfold ExceedsMaxViews in Hv. destruct (Z.eqb_spec (max_views_ s) 0); [by left|right].
  apply negb_true_iff in Hv. rewrite Z.geb_leb, Z.leb_gt in Hv. lia.
Qed.

End Proofs.

End Code.
End NotificationPromo.

Module ExamplePromo.
Import NotificationPromo.
Export ExampleValues.
Local Open Scope string_scope.

(** Times and doubles are microseconds. *)
#[export] Instance promo_env : PromoEnv := {|
  double_zero := 0%Z;
  double_eqb := Z.eqb;
  ToDoubleT t := t;
  FromDoubleT t := t;
  Time_FromString s := if bool_decide (s = "tomorrow") then Some 100%Z else None;
  StringToInt s := if bool_decide (s = "2") then Some 2%Z else None;
  NumberToString z := pretty z;
  MergeDictionary d d' := d';
  GetVariationParams := Some [("max_views", "2"); ("promo_text", "hello")]
|}.

#[export] Instance promo_env_laws : PromoEnvLaws promo_env.
Proof. split; [apply _|done|done]. Qed.

(** Two views at most, of a promotion that ends tomorrow. *)
Definition promo : Value :=
  VDict [("promo_id", VInt 7); ("max_views", VInt 2); ("promo_text", VString "hello"); ("end", VString "tomorrow")].

Definition no_prefs : Value := VDict [].

Lemma NotificationPromo_counts_witness :
  exists d s, visits promo [(Viewed, 10%Z); (Viewed, 20%Z)] no_prefs = Ok d /\
    start_promo promo d 30 (create d 30) = Ok (tt, s) /\ views_ s = 2%Z /\ CanShow s = false.
Proof.
  destruct (NotificationPromo_counts promo 7 eq_refl ltac:(discriminate) [(Viewed, 10%Z); (Viewed, 20%Z)] no_prefs 30
    eq_refl eq_refl ltac:(vm_compute; discriminate)) as (d & s & E & Es & Hv & _ & Hs & Hm & _).
  exists d, s. split_and!; [exact E|exact Es|exact Hv|]. destruct (CanShow s); [|reflexivity].
  destruct (Hs eq_refl) as [_ [H0|H1]]; rewrite Hm in *; [discriminate H0|discriminate H1].
Defined.

(** It is shown before, and two views without a start in between count once. *)
Lemma shown_once :
  CanShow <$> final_state (start_promo promo no_prefs 10 (create no_prefs 10)) = Some true /\
  match (start_promo promo no_prefs 10 ;;; HandleViewed ;;; HandleViewed) (create no_prefs 10) with
  | Ok (_, s) => FindKey (local_state s) "7" ≫= (fun v => FindIntKey v "views") = Some 1%Z
  | Fault _ => False
  end.
Proof. by vm_compute. Qed.

(** The parameters of the field trial. *)
Lemma from_variations :
  match InitFromVariations (create no_prefs 10) with
  | Ok (_, s) => promo_text_ s = "hello" /\ max_views_ s = 2%Z
  | Fault _ => False
  end.
Proof. by vm_compute. Qed.

End ExamplePromo.
