(* ===== verification/WebThread.v ===== *)
(** * Web threads

    The well-known threads, the posting of tasks to them and the executor of
    tasks (src/web/web_thread_impl.{h,cc}, src/web/public/thread/web_thread.h,
    src/web/public/thread/web_task_traits.h), and the physical threads behind
    them (src/web/web_sub_thread.{h,cc}). *)

From stdpp Require Import base tactics option list strings.
From Stdlib Require Import ZArith Lia.
From S2P Require Import Prelude.

Module WebThread.
Local Open Scope string_scope.

Inductive ID : Type := UI | IO | ID_COUNT.
Inductive WebThreadState : Type := UNINITIALIZED | RUNNING | SHUTDOWN.

#[global] Instance ID_eq_dec : EqDecision ID.
Proof. solve_decision. Defined.
#[global] Instance WebThreadState_eq_dec : EqDecision WebThreadState.
Proof. solve_decision. Defined.

Definition index (id : ID) : nat := match id with UI => 0 | IO => 1 | ID_COUNT => 2 end.
Definition id_at (i : nat) : ID := match i with 0 => UI | 1 => IO | _ => ID_COUNT end.

(** [base::SingleThreadTaskRunner] of a thread of the platform, and a task with
    its delay. *)
Record Runner : Type := mkRunner { runner_id : positive; runner_thread : positive }.
Record Task : Type := mkTask { closure : positive; delay : Z; nestable : bool }.

#[global] Instance Runner_eq_dec : EqDecision Runner.
Proof. solve_decision. Defined.

(** [WebTaskTraits]: the extension, and the shutdown behaviour when it is set. *)
Inductive TaskShutdownBehavior : Type := CONTINUE_ON_SHUTDOWN | SKIP_ON_SHUTDOWN | BLOCK_SHUTDOWN.
#[global] Instance TaskShutdownBehavior_eq_dec : EqDecision TaskShutdownBehavior.
Proof. solve_decision. Defined.

Record WebTaskTraitsExtension : Type := mkExtension { web_thread_ : ID; nestable_ : bool }.
Record TaskTraits : Type := mkTraits {
  has_web_extension : bool;
  extension : WebTaskTraitsExtension;
  shutdown_behavior : option TaskShutdownBehavior
}.

Definition web_thread {S} (e : WebTaskTraitsExtension) : M S ID :=
  dcheck (negb (bool_decide (web_thread_ e = ID_COUNT))) ;;; mreturn (web_thread_ e).

(** The eight bytes of the storage of an extension, of which two are used. *)
Definition Serialize (e : WebTaskTraitsExtension) : list Z :=
  [Z.of_nat (index (web_thread_ e)); if nestable_ e then 1 else 0]%Z.
Definition Parse (data : list Z) : option WebTaskTraitsExtension :=
  match data with
  | web_thread :: nestable :: _ => Some (mkExtension (id_at (Z.to_nat web_thread)) (negb (nestable =? 0)%Z))
  | _ => None
  end.

(** The thread the code runs on; whether the globals were made, their lock and
    arrays; the executor; the delegate of the IO thread and the calls to it; and
    the tasks the platform was given, the last one last. *)
Record t : Type := mk {
  current_thread : positive;
  created : bool;
  lock : bool;
  states : list WebThreadState;
  task_runners : list (option Runner);
  g_instance : bool;
  g_io_thread_delegate : option positive;
  delegate_calls : list (positive * bool);
  posted : list (Runner * Task)
}.

Definition init (thread : positive) : t :=
  mk thread false false [UNINITIALIZED; UNINITIALIZED] [None; None] false None [] [].

Definition with_current_thread (v : positive) (s : t) : t :=
  mk v (created s) (lock s) (states s) (task_runners s) (g_instance s) (g_io_thread_delegate s) (delegate_calls s) (posted s).
Definition with_created (v : bool) (s : t) : t :=
  mk (current_thread s) v (lock s) (states s) (task_runners s) (g_instance s) (g_io_thread_delegate s) (delegate_calls s) (posted s).
Definition with_lock (v : bool) (s : t) : t :=
  mk (current_thread s) (created s) v (states s) (task_runners s) (g_instance s) (g_io_thread_delegate s) (delegate_calls s) (posted s).
Definition with_states (v : list WebThreadState) (s : t) : t :=
  mk (current_thread s) (created s) (lock s) v (task_runners s) (g_instance s) (g_io_thread_delegate s) (delegate_calls s) (posted s).
Definition with_task_runners (v : list (option Runner)) (s : t) : t :=
  mk (current_thread s) (created s) (lock s) (states s) v (g_instance s) (g_io_thread_delegate s) (delegate_calls s) (posted s).
Definition with_g_instance (v : bool) (s : t) : t :=
  mk (current_thread s) (created s) (lock s) (states s) (task_runners s) v (g_io_thread_delegate s) (delegate_calls s) (posted s).
Definition with_io_delegate (v : option positive) (s : t) : t :=
  mk (current_thread s) (created s) (lock s) (states s) (task_runners s) (g_instance s) v (delegate_calls s) (posted s).
Definition with_delegate_calls (v : list (positive * bool)) (s : t) : t :=
  mk (current_thread s) (created s) (lock s) (states s) (task_runners s) (g_instance s) (g_io_thread_delegate s) v (posted s).
Definition with_posted (v : list (Runner * Task)) (s : t) : t :=
  mk (current_thread s) (created s) (lock s) (states s) (task_runners s) (g_instance s) (g_io_thread_delegate s) (delegate_calls s) v.

(** [g_globals.Get()] *)
Definition Get : M t unit := mmodify (with_created true).

(** A lock that is taken again by its thread never comes back. *)
Definition Acquire : M t unit :=
  let! s := mget in if lock s then mfail CheckFailed else mmodify (with_lock true).
Definition Release : M t unit := mmodify (with_lock false).
Definition AutoLock {A} (m : M t A) : M t A :=
  Acquire ;;; let! a := m in Release ;;; mreturn a.

Definition check_identifier (identifier : ID) : M t unit :=
  dcheck (index identifier <? index ID_COUNT)%nat.

Definition BelongsToCurrentThread (runner : option Runner) (s : t) : bool :=
  match runner with Some runner => bool_decide (runner_thread runner = current_thread s) | None => false end.

Definition state_of (identifier : ID) : M t WebThreadState :=
  let! s := mget in of_option (states s !! index identifier).
Definition runner_of (identifier : ID) : M t (option Runner) :=
  let! s := mget in of_option (task_runners s !! index identifier).

(** [PostDelayedTask] and [PostNonNestableDelayedTask] of the platform. *)
Definition platform_post (runner : Runner) (task : Task) : M t unit :=
  mmodify (fun s => with_posted (posted s ++ [(runner, task)])%list s).

(** The first thread of the arrays, from an index, that is the current one. *)
Definition GetCurrentThreadIdentifier : M t (option ID) :=
  let! s := mget in
  if negb (created s) then mreturn None
  else
    Get ;;;
    AutoLock (let! s := mget in
              mreturn (id_at ∘ fst <$> list_find (fun runner => BelongsToCurrentThread runner s = true) (task_runners s))).

Definition PostTaskHelper (identifier : ID) (task : Task) : M t bool :=
  check_identifier identifier ;;;
  let! current := GetCurrentThreadIdentifier in
  let target_thread_outlives_current :=
    match current with Some current_thread => (index identifier <=? index current_thread)%nat | None => false end in
  Get ;;;
  mwhen (negb target_thread_outlives_current) Acquire ;;;
  let! state := state_of identifier in
  let accepting_tasks := bool_decide (state = RUNNING) in
  mwhen accepting_tasks
    (let! task_runner := runner_of identifier in
     dcheck (bool_decide (is_Some task_runner)) ;;;
     let! task_runner := of_option task_runner in
     platform_post task_runner task) ;;;
  mwhen (negb target_thread_outlives_current) Release ;;;
  mreturn accepting_tasks.

(** ** WebThreadImpl *)

Definition set_state (identifier : ID) (state : WebThreadState) : M t unit :=
  mmodify (fun s => with_states (<[index identifier := state]> (states s)) s).
Definition set_runner (identifier : ID) (runner : option Runner) : M t unit :=
  mmodify (fun s => with_task_runners (<[index identifier := runner]> (task_runners s)) s).

Definition WebThreadImpl_create (identifier : ID) (task_runner : Runner) : M t unit :=
  Get ;;;
  AutoLock (
    check_identifier identifier ;;;
    let! state := state_of identifier in
    dcheck (bool_decide (state = UNINITIALIZED)) ;;;
    set_state identifier RUNNING ;;;
    let! runner := runner_of identifier in
    dcheck (negb (bool_decide (is_Some runner))) ;;;
    set_runner identifier (Some task_runner)).

Definition WebThreadImpl_destroy (identifier : ID) : M t unit :=
  Get ;;;
  AutoLock (
    let! state := state_of identifier in
    dcheck (bool_decide (state = RUNNING)) ;;;
    set_state identifier SHUTDOWN).

Definition ResetGlobalsForTesting (identifier : ID) : M t unit :=
  Get ;;;
  AutoLock (
    let! state := state_of identifier in
    dcheck (bool_decide (state = SHUTDOWN)) ;;;
    set_state identifier UNINITIALIZED ;;;
    set_runner identifier None).

Definition GetThreadName (thread : ID) : string :=
  match thread with UI => "Web_UIThread" | IO => "Web_IOThread" | ID_COUNT => "Unknown Thread" end.

Definition IsThreadInitialized (identifier : ID) : M t bool :=
  let! s := mget in
  if negb (created s) then mreturn false
  else
    Get ;;;
    AutoLock (
      check_identifier identifier ;;;
      let! state := state_of identifier in
      mreturn (bool_decide (state = RUNNING))).

Definition CurrentlyOn (identifier : ID) : M t bool :=
  Get ;;;
  AutoLock (
    check_identifier identifier ;;;
    let! runner := runner_of identifier in
    let! s := mget in
    mreturn (BelongsToCurrentThread runner s)).

(** The name of the thread of the platform is given. *)
Definition GetDCheckCurrentlyOnErrorMessage (platform_name : string) (expected : ID) : string :=
  let actual_name := if bool_decide (platform_name = "") then "Unknown Thread" else platform_name in
  "Must be called on " ++ GetThreadName expected ++ "; actually called on " ++ actual_name ++ ".".

(** ** WebThreadTaskExecutor

    The runners it gives are those of a thread, by its identifier. *)

Definition CreateTaskExecutor : M t unit :=
  let! s := mget in dcheck (negb (g_instance s)) ;;; mmodify (with_g_instance true).
Definition ResetTaskExecutorForTesting : M t unit :=
  let! s := mget in dcheck (g_instance s) ;;; mmodify (with_g_instance false).
Definition GetInstance : M t unit := let! s := mget in dcheck (g_instance s).

(** [WebThreadTaskRunner] *)
Record WebThreadTaskRunner : Type := mkTaskRunner { id_ : ID }.
Definition PostDelayedTask (runner : WebThreadTaskRunner) (closure : positive) (delay : Z) : M t bool :=
  PostTaskHelper (id_ runner) (mkTask closure delay true).
Definition PostNonNestableDelayedTask (runner : WebThreadTaskRunner) (closure : positive) (delay : Z) : M t bool :=
  PostTaskHelper (id_ runner) (mkTask closure delay false).
Definition RunsTasksInCurrentSequence (runner : WebThreadTaskRunner) : M t bool := CurrentlyOn (id_ runner).

Definition GetTaskRunner (identifier : ID) : M t WebThreadTaskRunner :=
  match identifier with
  | UI | IO => mreturn (mkTaskRunner identifier)
  | ID_COUNT => mfail NotReached
  end.

Definition GetWebThreadIdentifier (traits : TaskTraits) : M t ID :=
  dcheck (has_web_extension traits) ;;;
  let! id := web_thread (extension traits) in
  dcheck (index id <? index ID_COUNT)%nat ;;;
  match shutdown_behavior traits, id with
  | Some behavior, UI => dcheck (bool_decide (SKIP_ON_SHUTDOWN = behavior))
  | Some behavior, IO => dcheck (bool_decide (BLOCK_SHUTDOWN = behavior))
  | _, _ => mreturn tt
  end ;;;
  mreturn id.

Definition executor_PostDelayedTask (traits : TaskTraits) (closure : positive) (delay : Z) : M t bool :=
  let! id := GetWebThreadIdentifier traits in
  PostTaskHelper id (mkTask closure delay (nestable_ (extension traits))).
Definition CreateTaskRunner (traits : TaskTraits) : M t WebThreadTaskRunner :=
  let! id := GetWebThreadIdentifier traits in GetTaskRunner id.
Definition CreateSequencedTaskRunner (traits : TaskTraits) : M t WebThreadTaskRunner :=
  let! id := GetWebThreadIdentifier traits in GetTaskRunner id.
Definition CreateSingleThreadTaskRunner (traits : TaskTraits) (shared : bool) : M t WebThreadTaskRunner :=
  dcheck shared ;;;
  let! id := GetWebThreadIdentifier traits in GetTaskRunner id.

Definition GetUIThreadTaskRunner : M t WebThreadTaskRunner := GetInstance ;;; GetTaskRunner UI.
Definition GetIOThreadTaskRunner : M t WebThreadTaskRunner := GetInstance ;;; GetTaskRunner IO.
Definition GetTaskRunnerForThread (identifier : ID) : M t WebThreadTaskRunner :=
  check_identifier identifier ;;;
  match identifier with
  | UI => GetUIThreadTaskRunner
  | IO => GetIOThreadTaskRunner
  | ID_COUNT => mfail NotReached
  end.

(** [DeleteSoon] posts a task that is not nested; [DeleteOnThread::Destruct]
    tells whether the object is deleted now. *)
Definition DeleteSoon (identifier : ID) (object : positive) : M t bool :=
  let! runner := GetTaskRunnerForThread identifier in PostNonNestableDelayedTask runner object 0.
Definition Destruct (thread : ID) (object : positive) : M t bool :=
  let! here := CurrentlyOn thread in
  if here then mreturn true else let! _ := DeleteSoon thread object in mreturn false.

Definition SetIOThreadDelegate (delegate : option positive) : M t unit :=
  let! initialized := IsThreadInitialized IO in
  dcheck (negb initialized) ;;;
  let! s := mget in
  dcheck (negb (bool_decide (is_Some (g_io_thread_delegate s))) || negb (bool_decide (is_Some delegate))) ;;;
  mmodify (with_io_delegate delegate).

(** ** The life of the identifiers

    The calls that change the globals, by whatever thread runs. *)
Inductive Op : Type :=
| OpSwitchTo (thread : positive)
| OpCreate (identifier : ID) (task_runner : Runner)
| OpDestroy (identifier : ID)
| OpResetGlobals (identifier : ID)
| OpPostTask (identifier : ID) (task : Task)
| OpSetIOThreadDelegate (delegate : option positive)
| OpCreateTaskExecutor
| OpResetTaskExecutor.

Definition exec (op : Op) : M t unit :=
  match op with
  | OpSwitchTo thread => mmodify (with_current_thread thread)
  | OpCreate identifier task_runner => WebThreadImpl_create identifier task_runner
  | OpDestroy identifier => WebThreadImpl_destroy identifier
  | OpResetGlobals identifier => ResetGlobalsForTesting identifier
  | OpPostTask identifier task => let! _ := PostTaskHelper identifier task in mreturn tt
  | OpSetIOThreadDelegate delegate => SetIOThreadDelegate delegate
  | OpCreateTaskExecutor => CreateTaskExecutor
  | OpResetTaskExecutor => ResetTaskExecutorForTesting
  end.

(** A state and its runner. *)
Definition entry_ok (state : WebThreadState) (runner : option Runner) : Prop :=
  match state with UNINITIALIZED => runner = None | RUNNING | SHUTDOWN => is_Some runner end.

(** What a state becomes. *)
Definition next_state (state state' : WebThreadState) : Prop :=
  state' = state \/
  match state with UNINITIALIZED => state' = RUNNING | RUNNING => state' = SHUTDOWN | SHUTDOWN => state' = UNINITIALIZED end.

Inductive globals_ok : t -> Prop :=
| globals_ok_intro thread c ui io ui_runner io_runner i d calls tasks :
    entry_ok ui ui_runner -> entry_ok io io_runner ->
    (c = false -> ui = UNINITIALIZED /\ io = UNINITIALIZED) ->
    globals_ok (mk thread c false [ui; io] [ui_runner; io_runner] i d calls tasks).

Lemma init_ok thread : globals_ok (init thread).
Proof. by constructor. Qed.

(** The thread that is found. *)
Definition current_id (s : t) : option ID :=
  id_at ∘ fst <$> list_find (fun runner => BelongsToCurrentThread runner s = true) (task_runners s).

Lemma GetCurrentThreadIdentifier_run s :
  globals_ok s -> GetCurrentThreadIdentifier s = Ok (if created s then current_id s else None, s).
Proof. intros [thread c ui io ur ir i d calls tasks Hu Hi Hc]. unfold GetCurrentThreadIdentifier. by destruct c. Qed.

(** A task is given to the runner of a thread that runs, and only to it. *)
Lemma PostTaskHelper_run identifier task s :
  globals_ok s -> identifier <> ID_COUNT ->
  exists s', PostTaskHelper identifier task s =
      Ok (bool_decide (states s !! index identifier = Some RUNNING), s') /\ globals_ok s' /\
    states s' = states s /\ task_runners s' = task_runners s /\
    if bool_decide (states s !! index identifier = Some RUNNING) then
      exists runner, task_runners s !! index identifier = Some (Some runner) /\
        posted s' = (posted s ++ [(runner, task)])%list
    else posted s' = posted s.
Proof.
  intros Hs Hid. pose proof (GetCurrentThreadIdentifier_run s Hs) as Hcur.
  destruct Hs as [thread c ui io ur ir i d calls tasks Hu Hi Hc]. unfold PostTaskHelper.
  rewrite (mbind_run _ _ _ tt (mk thread c false [ui; io] [ur; ir] i d calls tasks)) by by destruct identifier.
  rewrite (mbind_run _ _ _ _ _ Hcur). cbn [created] in *.
  set (cur := if c then _ else None). set (out := match cur with Some _ => _ | None => false end).
  clearbody out. destruct identifier; [| |done]; cbn [index lookup list_lookup states task_runners].
  - exists (mk thread true false [ui; io] [ur; ir] i d calls
      (match ui, ur with RUNNING, Some r => tasks ++ [(r, task)] | _, _ => tasks end)%list).
    destruct ui; cbn in Hu; [subst ur|destruct Hu as [r ->]..];
      (split; [by destruct out|split; [by constructor; first [done|eexists]|]]); split_and!; cbn; rewrite ?bool_decide_eq_true_2, ?bool_decide_eq_false_2 by done; by eauto.
  - exists (mk thread true false [ui; io] [ur; ir] i d calls
      (match io, ir with RUNNING, Some r => tasks ++ [(r, task)] | _, _ => tasks end)%list).
    destruct io; cbn in Hi; [subst ir|destruct Hi as [r ->]..];
      (split; [by destruct out|split; [by constructor; first [done|eexists]|]]); split_and!; cbn; rewrite ?bool_decide_eq_true_2, ?bool_decide_eq_false_2 by done; by eauto.
Qed.

(** No identifier but UI and IO has a state. *)
Definition next_states (s s' : t) : Prop :=
  forall i state, states s !! i = Some state -> exists state', states s' !! i = Some state' /\ next_state state state'.

Lemma next_states_2 ui io ui' io' s s' :
  states s = [ui; io] -> states s' = [ui'; io'] -> next_state ui ui' -> next_state io io' -> next_states s s'.
Proof.
  intros E E' Hu Hi j state. rewrite E, E'. destruct j as [|[|j]]; cbn; intros [= <-]; by eexists.
Qed.

Lemma next_states_refl s s' : states s' = states s -> next_states s s'.
Proof. intros E j state Hj. exists state. rewrite E. by split; [|left]. Qed.

(** The calls that change the arrays. *)
Ltac arrays_call identifier :=
  intros E; cbv [WebThreadImpl_create WebThreadImpl_destroy ResetGlobalsForTesting AutoLock Get Acquire Release
    check_identifier state_of runner_of set_state set_runner mbind mget mmodify mreturn dcheck of_option mfail] in E;
  destruct identifier; cbn in E; [| |try done];
  repeat (case_bool_decide; cbn in E; try done); injection E as <-; subst;
  (split; [constructor; cbn in *; first [done | by eexists | naive_solver]
          |eapply next_states_2; [reflexivity..| |]; first [by left | by right]]).

Lemma create_step identifier runner s s' :
  globals_ok s -> WebThreadImpl_create identifier runner s = Ok (tt, s') -> globals_ok s' /\ next_states s s'.
Proof. intros [thread c ui io ur ir i d calls tasks Hu Hi Hc]. arrays_call identifier. Qed.
Lemma destroy_step identifier s s' :
  globals_ok s -> WebThreadImpl_destroy identifier s = Ok (tt, s') -> globals_ok s' /\ next_states s s'.
Proof. intros [thread c ui io ur ir i d calls tasks Hu Hi Hc]. arrays_call identifier. Qed.
Lemma reset_step identifier s s' :
  globals_ok s -> ResetGlobalsForTesting identifier s = Ok (tt, s') -> globals_ok s' /\ next_states s s'.
Proof. intros [thread c ui io ur ir i d calls tasks Hu Hi Hc]. arrays_call identifier. Qed.

Lemma IsThreadInitialized_run identifier s :
  globals_ok s -> identifier <> ID_COUNT ->
  exists s', IsThreadInitialized identifier s = Ok (bool_decide (states s !! index identifier = Some RUNNING), s') /\
    s' = s.
Proof.
  intros [thread c ui io ur ir i d calls tasks Hu Hi Hc] Hid. unfold IsThreadInitialized. destruct c.
  - eexists. split; [|done]. destruct identifier; [by destruct ui|by destruct io|done].
  - destruct (Hc eq_refl) as [-> ->]. eexists. split; [|done]. by destruct identifier.
Qed.

Lemma exec_step op s s' : globals_ok s -> exec op s = Ok (tt, s') -> globals_ok s' /\ next_states s s'.
Proof.
  intros Hs. destruct op as [thread'|identifier runner|identifier|identifier|identifier task|delegate| |]; cbn [exec].
  - intros [= <-]. destruct Hs. by split; [constructor|apply next_states_refl].
  - by apply create_step.
  - by apply destroy_step.
  - by apply reset_step.
  - intros (b & s1 & E & [= <-])%mbind_ok. destruct (decide (identifier = ID_COUNT)) as [->|Hid].
    { by destruct Hs. }
    destruct (PostTaskHelper_run identifier task s Hs Hid) as (s2 & E2 & Hs2 & Hst & _).
    rewrite E2 in E. injection E as _ <-. split; [done|by apply next_states_refl].
  - unfold SetIOThreadDelegate. destruct (IsThreadInitialized_run IO s Hs ltac:(done)) as (s1 & E1 & ->).
    rewrite (mbind_run _ _ _ _ _ E1). intros (? & ? & E & H)%mbind_ok.
    unfold dcheck in E. destruct (negb _); [|done]. injection E as _ <-.
    apply mbind_ok in H as (? & ? & [= <- <-] & H). apply mbind_ok in H as (? & ? & E & [= <-]).
    unfold dcheck in E. destruct (_ || _); [|done]. injection E as _ <-.
    destruct Hs. by split; [constructor|apply next_states_refl].
  - intros (? & ? & [= <- <-] & (? & ? & E & [= <-])%mbind_ok)%mbind_ok. unfold dcheck in E.
    destruct (negb _); [|done]. injection E as _ <-. destruct Hs. by split; [constructor|apply next_states_refl].
  - intros (? & ? & [= <- <-] & (? & ? & E & [= <-])%mbind_ok)%mbind_ok. unfold dcheck in E.
    destruct (g_instance _); [|done]. injection E as _ <-. destruct Hs. by split; [constructor|apply next_states_refl].
Qed.

Lemma exec_all_ok ops s s' : globals_ok s -> mfor ops exec s = Ok (tt, s') -> globals_ok s'.
Proof.
  revert s. induction ops as [|op ops IH]; intros s Hs; [by intros [= <-]|]. cbn [mfor].
  intros ([] & s1 & E & E')%mbind_ok. eapply IH; [|done]. by eapply exec_step.
Qed.

(** C30: after any calls on any threads that return, the lock is free, an
    identifier has a runner exactly once it was started, and its state only goes
    from uninitialized to running, to shutdown, and back by a reset. Posting a
    task to a thread then never fails and never waits for a lock it holds; it
    returns whether the thread is running, and the task is then the last one
    given to the runner of the thread, and otherwise given to none. *)
Theorem WebThread_posts_to_running_threads ops thread s op s' identifier task :
  mfor ops exec (init thread) = Ok (tt, s) -> exec op s = Ok (tt, s') -> identifier <> ID_COUNT ->
  next_states s s' /\ lock s' = false /\
  exists s'', PostTaskHelper identifier task s' =
      Ok (bool_decide (states s' !! index identifier = Some RUNNING), s'') /\
    lock s'' = false /\ states s'' = states s' /\
    if bool_decide (states s' !! index identifier = Some RUNNING) then
      exists runner, task_runners s' !! index identifier = Some (Some runner) /\
        posted s'' = (posted s' ++ [(runner, task)])%list
    else posted s'' = posted s'.
Proof.
  intros Hops Hop Hid. apply exec_all_ok in Hops; [|apply init_ok].
  apply exec_step in Hop as [Hs' Hn]; [|done]. split; [done|]. split; [by destruct Hs'|].
  destruct (PostTaskHelper_run identifier task s' Hs' Hid) as (s'' & E & Hs'' & Hst & _ & Hp).
  exists s''. split_and!; [done|by destruct Hs''|done|done].
Qed.

(** Both threads run. *)
Definition ui_runs : t :=
  mk 1 true false [RUNNING; UNINITIALIZED] [Some (mkRunner 1 1); None] false None [] [].
Definition both_run : t :=
  mk 1 true false [RUNNING; RUNNING] [Some (mkRunner 1 1); Some (mkRunner 2 2)] false None [] [].

Lemma WebThread_posts_to_running_threads_witness :
  exists s'', PostTaskHelper IO (mkTask 5 0 true) both_run = Ok (true, s'') /\
    posted s'' = [(mkRunner 2 2, mkTask 5 0 true)].
Proof.
  destruct (WebThread_posts_to_running_threads [OpCreate UI (mkRunner 1 1)] 1 ui_runs (OpCreate IO (mkRunner 2 2))
    both_run IO (mkTask 5 0 true) eq_refl eq_refl ltac:(discriminate)) as (_ & _ & s'' & Ep & _ & _ & Hp).
  exists s''. split; [exact Ep|]. rewrite bool_decide_eq_true_2 in Hp by reflexivity.
  destruct Hp as (runner & Hr & Hp). injection Hr as <-. exact Hp.
Defined.

(** Traits are read back from their storage. *)
Lemma Parse_Serialize e : Parse (Serialize e) = Some e.
Proof. by destruct e as [[] []]. Qed.

End WebThread.

Module WebSubThread.
Import WebThread.

(** [base::Thread], of which the code uses whether it runs and its runner, then
    the members, and the threads. A thread that was not bound has no checker. *)
Record t : Type := mk {
  running : bool;
  task_runner : Runner;
  blocking_disallowed : bool;
  identifier_ : ID;
  is_blocking_allowed_for_testing_ : bool;
  web_thread_registered : bool;
  web_thread_checker_ : option positive;
  threads : WebThread.t
}.

Definition create (identifier : ID) (runner : Runner) (threads : WebThread.t) : t :=
  mk false runner false identifier false false None threads.

Definition with_running (v : bool) (s : t) : t :=
  mk v (task_runner s) (blocking_disallowed s) (identifier_ s) (is_blocking_allowed_for_testing_ s)
    (web_thread_registered s) (web_thread_checker_ s) (threads s).
Definition with_blocking_disallowed (v : bool) (s : t) : t :=
  mk (running s) (task_runner s) v (identifier_ s) (is_blocking_allowed_for_testing_ s)
    (web_thread_registered s) (web_thread_checker_ s) (threads s).
Definition with_is_blocking_allowed (v : bool) (s : t) : t :=
  mk (running s) (task_runner s) (blocking_disallowed s) (identifier_ s) v
    (web_thread_registered s) (web_thread_checker_ s) (threads s).
Definition with_web_thread_registered (v : bool) (s : t) : t :=
  mk (running s) (task_runner s) (blocking_disallowed s) (identifier_ s) (is_blocking_allowed_for_testing_ s)
    v (web_thread_checker_ s) (threads s).
Definition with_web_thread_checker (v : option positive) (s : t) : t :=
  mk (running s) (task_runner s) (blocking_disallowed s) (identifier_ s) (is_blocking_allowed_for_testing_ s)
    (web_thread_registered s) v (threads s).
Definition with_threads (v : WebThread.t) (s : t) : t :=
  mk (running s) (task_runner s) (blocking_disallowed s) (identifier_ s) (is_blocking_allowed_for_testing_ s)
    (web_thread_registered s) (web_thread_checker_ s) v.

Definition on_threads {A} (m : M WebThread.t A) : M t A := fun s =>
  match m (threads s) with Ok (a, threads) => Ok (a, with_threads threads s) | Fault f => Fault f end.

(** The task [CompleteInitializationOnWebThread] of the thread. *)
Definition complete_initialization_task : Task := mkTask 1 0 true.

Definition RegisterAsWebThread : M t unit :=
  let! s := mget in
  dcheck (running s) ;;;
  dcheck (negb (web_thread_registered s)) ;;;
  on_threads (WebThreadImpl_create (identifier_ s) (task_runner s)) ;;;
  mmodify (with_web_thread_registered true) ;;;
  on_threads (platform_post (task_runner s) complete_initialization_task).

Definition AllowBlockingForTesting : M t unit :=
  let! s := mget in
  dcheck (negb (running s)) ;;; mmodify (with_is_blocking_allowed true).

(** [DCHECK_CALLED_ON_VALID_THREAD] binds a checker that was detached. *)
Definition check_valid_thread : M t unit :=
  let! s := mget in
  match web_thread_checker_ s with
  | None => mmodify (with_web_thread_checker (Some (current_thread (threads s))))
  | Some thread => dcheck (bool_decide (thread = current_thread (threads s)))
  end.

Definition Init : M t unit :=
  check_valid_thread ;;;
  let! s := mget in
  mwhen (negb (is_blocking_allowed_for_testing_ s)) (mmodify (with_blocking_disallowed true)).

(** The loop of the platform, which runs the posted tasks. *)
Definition Run (thread_run : M t unit) : M t unit :=
  check_valid_thread ;;;
  let! s := mget in
  match identifier_ s with
  | UI | IO => thread_run
  | ID_COUNT => mfail NotReached
  end.

Definition call_delegate (is_init : bool) : M t unit :=
  let! s := mget in
  match identifier_ s, g_io_thread_delegate (threads s) with
  | IO, Some delegate =>
      on_threads (mmodify (fun w => with_delegate_calls (delegate_calls w ++ [(delegate, is_init)]) w))
  | _, _ => mreturn tt
  end.

Definition CleanUp : M t unit :=
  check_valid_thread ;;;
  call_delegate false ;;;
  let! s := mget in
  mwhen (web_thread_registered s)
    (on_threads (WebThreadImpl_destroy (identifier_ s)) ;;; mmodify (with_web_thread_registered false)).

Definition CompleteInitializationOnWebThread : M t unit :=
  check_valid_thread ;;; call_delegate true.

(** The life of a thread: it is started, registered by the thread that made
    it, runs its tasks, and cleans up. *)
Definition switch_to (thread : positive) : M t unit :=
  on_threads (mmodify (with_current_thread thread)).

Definition life (main : positive) : M t unit :=
  let! s := mget in
  let thread := runner_thread (task_runner s) in
  mmodify (with_running true) ;;;
  switch_to thread ;;; Init ;;;
  switch_to main ;;; RegisterAsWebThread ;;;
  switch_to thread ;;; Run CompleteInitializationOnWebThread ;;;
  CleanUp ;;;
  mmodify (with_running false) ;;;
  switch_to main.

(** An IO thread runs its whole life without failing: its delegate is called
    once at the beginning and once at the end, and afterwards the identifier is
    shut down but its runner is kept. *)
Lemma io_thread_life main runner delegate threads :
  globals_ok threads -> states threads !! index IO = Some UNINITIALIZED ->
  g_io_thread_delegate threads = Some delegate ->
  exists s', life main (create IO runner threads) = Ok (tt, s') /\
    delegate_calls (WebSubThread.threads s') = delegate_calls threads ++ [(delegate, true); (delegate, false)] /\
    states (WebSubThread.threads s') !! index IO = Some SHUTDOWN /\
    task_runners (WebSubThread.threads s') !! index IO = Some (Some runner) /\
    web_thread_registered s' = false.
Proof.
  intros [thread c ui io ur ir i d calls tasks Hu Hi Hc] Hs Hd. cbn in Hs, Hd. injection Hs as ->. cbn in Hi. subst ir d.
  eexists. split.
  { cbv -[bool_decide app is_Some].
    repeat (first [rewrite bool_decide_true by done | rewrite bool_decide_false by (by intros [? ?])];
      cbv -[bool_decide app is_Some]).
    reflexivity. }
  cbn. rewrite <- app_assoc. by split_and!.
Qed.

End WebSubThread.
