(* ===== verification/ChunkedDataStreamUploader.v ===== *)
(** * ChunkedDataStreamUploader

    The body of a request that is uploaded in chunks
    (src/net/chunked_data_stream_uploader.{h,cc}): reads that the network layer
    makes, and chunks that the stream of the application makes ready. *)

From stdpp Require Import base tactics option list numbers.
From Stdlib Require Import ZArith Lia.
From S2P Require Import Prelude.

Module ChunkedDataStreamUploader.

Definition OK : Z := 0.
Definition ERR_IO_PENDING : Z := -1.
Definition ERR_FAILED : Z := -2.

(** [net::IOBuffer*] *)
Definition IOBuffer : Type := positive.
Definition Byte : Type := Z.

(** What the delegate does: with the length of the buffer, the result of
    [OnRead] and the bytes it wrote. It writes as many bytes as it says. *)
Class Delegate : Type := {
  Source : Type;
  OnRead : Z -> Source -> Z * list Byte * Source
}.
Class DelegateLaws (D : Delegate) : Prop := {
  OnRead_length len s n bytes s' : OnRead len s = (n, bytes, s') ->
    Z.of_nat (length bytes) = Z.max 0 n
}.

(** An answer to a read of the network layer: its buffer, the number of bytes
    and the bytes. *)
Record Answer : Type := mkAnswer { answer_buffer : IOBuffer; answer_result : Z; answer_bytes : list Byte }.

Section Code.
Context `{D : Delegate}.

(** The stream of the delegate, the members, whether the base class was told
    of the final chunk, and the answers of the reads: those returned by
    [ReadInternal], and those of [OnReadCompleted]. *)
Record t : Type := mk {
  source : Source;
  pending_read_buffer_ : option IOBuffer;
  pending_read_buffer_length_ : Z;
  pending_internal_read_ : bool;
  is_final_chunk_ : bool;
  is_front_of_stream_ : bool;
  final_chunk_set : bool;
  answers : list Answer
}.

Definition with_source (v : Source) (s : t) : t :=
  mk v (pending_read_buffer_ s) (pending_read_buffer_length_ s) (pending_internal_read_ s) (is_final_chunk_ s)
    (is_front_of_stream_ s) (final_chunk_set s) (answers s).
Definition with_pending_buffer (v : option IOBuffer) (n : Z) (s : t) : t :=
  mk (source s) v n (pending_internal_read_ s) (is_final_chunk_ s) (is_front_of_stream_ s) (final_chunk_set s) (answers s).
Definition with_pending_internal_read (v : bool) (s : t) : t :=
  mk (source s) (pending_read_buffer_ s) (pending_read_buffer_length_ s) v (is_final_chunk_ s)
    (is_front_of_stream_ s) (final_chunk_set s) (answers s).
Definition with_is_final_chunk (v : bool) (s : t) : t :=
  mk (source s) (pending_read_buffer_ s) (pending_read_buffer_length_ s) (pending_internal_read_ s) v
    (is_front_of_stream_ s) (final_chunk_set s) (answers s).
Definition with_is_front_of_stream (v : bool) (s : t) : t :=
  mk (source s) (pending_read_buffer_ s) (pending_read_buffer_length_ s) (pending_internal_read_ s) (is_final_chunk_ s)
    v (final_chunk_set s) (answers s).
Definition with_final_chunk_set (v : bool) (s : t) : t :=
  mk (source s) (pending_read_buffer_ s) (pending_read_buffer_length_ s) (pending_internal_read_ s) (is_final_chunk_ s)
    (is_front_of_stream_ s) v (answers s).
Definition with_answers (v : list Answer) (s : t) : t :=
  mk (source s) (pending_read_buffer_ s) (pending_read_buffer_length_ s) (pending_internal_read_ s) (is_final_chunk_ s)
    (is_front_of_stream_ s) (final_chunk_set s) v.

Definition create (source : Source) : t := mk source None 0 false false true false [].

Definition answer (a : Answer) : M t unit := mmodify (fun s => with_answers (answers s ++ [a]) s).

Definition InitInternal : M t Z :=
  let! s := mget in if is_front_of_stream_ s then mreturn OK else mreturn ERR_FAILED.

(** The result, and what is in the buffer. *)
Definition Upload : M t (Z * list Byte) :=
  let! s := mget in
  dcheck (bool_decide (is_Some (pending_read_buffer_ s))) ;;;
  let! buffer := of_option (pending_read_buffer_ s) in
  mmodify (with_is_front_of_stream false) ;;;
  let! read :=
    if is_final_chunk_ s then mmodify (with_final_chunk_set true) ;;; mreturn (Some (0%Z, []))
    else
      let '(bytes_read, bytes, source) := OnRead (pending_read_buffer_length_ s) (source s) in
      mmodify (with_source source) ;;;
      if (bytes_read <=? 0)%Z then mmodify (with_pending_internal_read true) ;;; mreturn None
      else mreturn (Some (bytes_read, bytes)) in
  match read with
  | None => mreturn (ERR_IO_PENDING, [])
  | Some (bytes_read, bytes) =>
      mmodify (with_pending_buffer None 0) ;;;
      let! s := mget in
      mwhen (pending_internal_read_ s)
        (mmodify (with_pending_internal_read false) ;;; answer (mkAnswer buffer bytes_read bytes)) ;;;
      mreturn (bytes_read, bytes)
  end.

(** A read that is not pending is answered by its result. *)
Definition ReadInternal (buffer : IOBuffer) (buffer_length : Z) : M t Z :=
  dcheck (buffer_length >? 0)%Z ;;;
  let! s := mget in
  dcheck (negb (bool_decide (is_Some (pending_read_buffer_ s)))) ;;;
  mmodify (with_pending_buffer (Some buffer) buffer_length) ;;;
  let! result := Upload in
  mwhen (negb (result.1 =? ERR_IO_PENDING)%Z) (answer (mkAnswer buffer result.1 result.2)) ;;;
  mreturn result.1.

Definition ResetInternal : M t unit :=
  mmodify (with_pending_buffer None 0) ;;;
  mmodify (with_pending_internal_read false) ;;;
  mmodify (with_is_final_chunk false).

Definition UploadWhenReady (is_final_chunk : bool) : M t unit :=
  mmodify (with_is_final_chunk is_final_chunk) ;;;
  let! s := mget in
  mwhen (pending_internal_read_ s) (let! _ := Upload in mreturn tt).

(** The calls of the network layer and of the application. *)
Inductive Op : Type :=
| OpRead (buffer : IOBuffer) (buffer_length : Z)
| OpReady (is_final_chunk : bool)
| OpReset.

Definition exec (op : Op) : M t unit :=
  match op with
  | OpRead buffer buffer_length => let! _ := ReadInternal buffer buffer_length in mreturn tt
  | OpReady is_final_chunk => UploadWhenReady is_final_chunk
  | OpReset => ResetInternal
  end.

(** ** The specification: at most one read waits for bytes or for the end *)

Record Spec : Type := mkSpec {
  spec_source : Source;
  waiting : option (IOBuffer * Z);
  final : bool;
  spec_answers : list Answer
}.

(** What is tried when there is a read and maybe something to answer it with. *)
Definition try_answer (x : Spec) : Spec :=
  match waiting x with
  | None => x
  | Some (buffer, len) =>
      if final x then mkSpec (spec_source x) None true (spec_answers x ++ [mkAnswer buffer 0 []])
      else
        let '(n, bytes, source) := OnRead len (spec_source x) in
        if (n <=? 0)%Z then mkSpec source (waiting x) false (spec_answers x)
        else mkSpec source None false (spec_answers x ++ [mkAnswer buffer n bytes])
  end.

Definition spec_exec (op : Op) (x : Spec) : Spec :=
  match op with
  | OpRead buffer len => try_answer (mkSpec (spec_source x) (Some (buffer, len)) (final x) (spec_answers x))
  | OpReady f => try_answer (mkSpec (spec_source x) (waiting x) f (spec_answers x))
  | OpReset => mkSpec (spec_source x) None false (spec_answers x)
  end.

(** The network layer reads into a buffer that is not empty, and not while a
    read waits. *)
Definition legal (op : Op) (x : Spec) : Prop :=
  match op with OpRead _ len => (0 < len)%Z /\ waiting x = None | _ => True end.
Fixpoint legal_all (ops : list Op) (x : Spec) : Prop :=
  match ops with
  | [] => True
  | op :: ops => legal op x /\ legal_all ops (spec_exec op x)
  end.

(** The members when no call is running. *)
Definition implements (s : t) (x : Spec) : Prop :=
  source s = spec_source x /\ is_final_chunk_ s = final x /\ answers s = spec_answers x /\
  match waiting x with
  | None => pending_read_buffer_ s = None /\ pending_internal_read_ s = false
  | Some (buffer, len) =>
      pending_read_buffer_ s = Some buffer /\ pending_read_buffer_length_ s = len /\
      pending_internal_read_ s = true
  end.

(** ** Proofs *)

(** [Upload] with a read that waits, or with one that was just made. *)
Lemma Upload_run s x buffer len :
  source s = spec_source x -> is_final_chunk_ s = final x -> answers s = spec_answers x ->
  waiting x = Some (buffer, len) -> pending_read_buffer_ s = Some buffer -> pending_read_buffer_length_ s = len ->
  exists n bytes s', Upload s = Ok ((n, bytes), s') /\ is_front_of_stream_ s' = false /\
    match waiting (try_answer x) with
    | Some _ => n = ERR_IO_PENDING /\ implements s' (try_answer x)
    | None => (0 <= n)%Z /\ spec_answers (try_answer x) = spec_answers x ++ [mkAnswer buffer n bytes] /\
        implements (with_answers (spec_answers (try_answer x)) s') (try_answer x) /\
        answers s' = if pending_internal_read_ s then spec_answers (try_answer x) else spec_answers x
    end.
Proof.
  intros Hs Hf Ha Hw Hb Hl. unfold Upload, try_answer. rewrite Hw.
  unfold mbind, mget, dcheck, of_option, mmodify, mreturn. rewrite Hb, bool_decide_true by done. cbn.
  rewrite Hf, Hl, Hs. destruct (final x) eqn:Ef.
  - cbn. destruct (pending_internal_read_ s) eqn:Ep; cbn; do 3 eexists; (split; [reflexivity|]); cbn;
      rewrite ?Ha; unfold implements; cbn; rewrite ?Ep; by split_and!.
  - destruct (OnRead len (spec_source x)) as [[n bytes] src] eqn:Er. destruct (Z.leb_spec n 0); cbn.
    + do 3 eexists; (split; [reflexivity|]). split; [done|]. split; [done|]. unfold implements. cbn.
      by split_and!.
    + destruct (pending_internal_read_ s) eqn:Ep; cbn; do 3 eexists; (split; [reflexivity|]); cbn;
        rewrite ?Ha; unfold implements; cbn; rewrite ?Ep; (split_and!; by (done || lia)).
Qed.

Lemma exec_implements op s x :
  implements s x -> legal op x ->
  exists s', exec op s = Ok (tt, s') /\ implements s' (spec_exec op x) /\
    is_front_of_stream_ s' = match op with OpRead _ _ => false | OpReset => is_front_of_stream_ s
      | OpReady _ => match waiting x with Some _ => false | None => is_front_of_stream_ s end end.
Proof.
  intros (Hs & Hf & Ha & Hw) Hl. destruct op as [buffer len|f|]; cbn [exec spec_exec].
  - destruct Hl as [Hlen Hnone]. rewrite Hnone in Hw. destruct Hw as [Hb Hp].
    unfold ReadInternal. rewrite mbind_assoc, (mbind_run _ _ s tt s).
    2:{ unfold dcheck. by rewrite (proj2 (Z.gtb_lt _ _)) by lia. }
    rewrite mbind_assoc, (mbind_run _ _ s s s) by done. rewrite Hb, bool_decide_false by by intros [? ?].
    rewrite mbind_assoc, (mbind_run _ _ s tt s) by done.
    rewrite mbind_assoc, (mbind_run _ _ s tt (with_pending_buffer (Some buffer) len s)) by done.
    destruct (Upload_run (with_pending_buffer (Some buffer) len s)
      (mkSpec (spec_source x) (Some (buffer, len)) (final x) (spec_answers x)) buffer len Hs Hf Ha eq_refl eq_refl eq_refl)
      as (n & bytes & s1 & E & Hfront & Hm).
    rewrite mbind_assoc, (mbind_run _ _ _ _ _ E). cbn [fst snd].
    destruct (waiting (try_answer _)) as [w|] eqn:Ew.
    + destruct Hm as [-> Hi]. exists s1. by split_and!.
    + destruct Hm as (Hn & He & Hi & Hans). rewrite (proj2 (Z.eqb_neq n ERR_IO_PENDING)) by (unfold ERR_IO_PENDING; lia).
      cbn [pending_internal_read_ with_pending_buffer spec_answers] in Hans. rewrite Hp in Hans.
      eexists. split; [reflexivity|]. rewrite He in Hi. rewrite Hans. by split.
  - unfold UploadWhenReady. rewrite (mbind_run _ _ s tt (with_is_final_chunk f s)) by done.
    rewrite (mbind_run _ _ _ (with_is_final_chunk f s) (with_is_final_chunk f s)) by done. cbn [pending_internal_read_ with_is_final_chunk].
    destruct (waiting x) as [[buffer len]|] eqn:Ew.
    + destruct Hw as (Hb & Hlen & Hp). rewrite Hp. cbn [mwhen].
      destruct (Upload_run (with_is_final_chunk f s) (mkSpec (spec_source x) (waiting x) f (spec_answers x)) buffer len
        Hs eq_refl Ha Ew Hb Hlen) as (n & bytes & s1 & E & Hfront & Hm).
      rewrite Ew in *. unfold mwhen. rewrite (mbind_run _ _ _ _ _ E). exists s1. split; [done|].
      destruct (waiting (try_answer _)) as [w|]; [by destruct Hm|].
      destruct Hm as (_ & _ & Hi & Hans). change (pending_internal_read_ (with_is_final_chunk f s)) with (pending_internal_read_ s) in Hans.
      rewrite Hp in Hans. rewrite <- Hans in Hi. split; [|done].
      by destruct s1.
    + destruct Hw as (Hb & Hp). rewrite Hp. exists (with_is_final_chunk f s). split; [done|]. split; [|done].
      unfold try_answer, implements. cbn. rewrite ?Ew. cbn. by split_and!.
  - exists (with_is_final_chunk false (with_pending_internal_read false (with_pending_buffer None 0 s))).
    split; [done|]. split; [|done]. unfold implements. cbn. by split_and!.
Qed.

Definition is_read (op : Op) : bool := match op with OpRead _ _ => true | _ => false end.
Definition reads (ops : list Op) : nat := length (filter (fun op => is_read op = true) ops).

(** The buffers of the reads that were made, of the one that waits, and of those
    that waited when the upload was reset. *)
Definition buffers_read (ops : list Op) : list IOBuffer :=
  ops ≫= (fun op => match op with OpRead buffer _ => [buffer] | _ => [] end).
Definition waiting_buffer (x : Spec) : list IOBuffer := match waiting x with Some (buffer, _) => [buffer] | None => [] end.
Definition answered_buffers (x : Spec) : list IOBuffer := answer_buffer <$> spec_answers x.
Fixpoint dropped (ops : list Op) (x : Spec) : list IOBuffer :=
  match ops with
  | [] => []
  | op :: ops => match op with OpReset => waiting_buffer x | _ => [] end ++ dropped ops (spec_exec op x)
  end.

Lemma try_answer_buffers x :
  answered_buffers (try_answer x) ++ waiting_buffer (try_answer x) = answered_buffers x ++ waiting_buffer x.
Proof.
  unfold try_answer, waiting_buffer, answered_buffers. destruct (waiting x) as [[buffer len]|] eqn:Ew; [|by rewrite Ew].
  destruct (final x); [by cbn; rewrite fmap_app, app_nil_r|].
  destruct (OnRead len (spec_source x)) as [[n bytes] src]. destruct (n <=? 0)%Z; cbn; [done|].
  by rewrite fmap_app, app_nil_r.
Qed.

(** The bytes of an answer are as many as it says. *)
Definition answer_sound (a : Answer) : Prop := answer_result a = Z.of_nat (length (answer_bytes a)).

Lemma try_answer_sound `{!DelegateLaws D} x :
  Forall answer_sound (spec_answers x) ->
  Forall answer_sound (spec_answers (try_answer x)).
Proof.
  intros Hf. unfold try_answer. destruct (waiting x) as [[buffer len]|]; [|done].
  destruct (final x); [cbn; apply Forall_app; by repeat constructor|].
  destruct (OnRead len (spec_source x)) as [[n bytes] src] eqn:Er.
  destruct (Z.leb_spec n 0); [done|]. cbn. apply Forall_app. split; [done|]. constructor; [|done]. unfold answer_sound. cbn.
  apply OnRead_length in Er as ->. lia.
Qed.

Abbreviation run_spec := (foldl (fun x op => spec_exec op x)).

Lemma reads_cons op ops : reads (op :: ops) = (if is_read op then 1 else 0) + reads ops.
Proof. unfold reads. rewrite filter_cons. by destruct op. Qed.

Lemma exec_all_implements ops s x :
  implements s x -> legal_all ops x ->
  exists s', mfor ops exec s = Ok (tt, s') /\ implements s' (run_spec x ops) /\
    (0 < reads ops -> is_front_of_stream_ s' = false) /\
    (reads ops = 0 -> waiting x = None -> is_front_of_stream_ s' = is_front_of_stream_ s) /\
    (is_front_of_stream_ s = false -> is_front_of_stream_ s' = false).
Proof.
  revert s x. induction ops as [|op ops IH]; intros s x Hi Hl; cbn [legal_all mfor foldl] in *.
  { exists s. split_and!; try done. unfold reads. cbn. lia. }
  destruct Hl as [Hl Hls]. destruct (exec_implements op s x Hi Hl) as (s1 & E & Hi1 & Hfr).
  rewrite (mbind_run _ _ _ _ _ E). destruct (IH s1 _ Hi1 Hls) as (s' & E' & Hi' & Hpos & Hzero & Hstay).
  exists s'. rewrite reads_cons. split; [done|]. split; [done|]. split_and!.
  - intros Hr'. destruct op; cbn [is_read] in *; [by apply Hstay|apply Hpos; lia..].
  - intros Hr' Hw. destruct op; cbn [is_read] in *; [lia| |]; rewrite Hzero; try lia; try done.
    + by rewrite Hw in Hfr.
    + unfold spec_exec, try_answer. cbn. by rewrite Hw.
  - intros Hs. apply Hstay. rewrite Hfr, Hs. destruct op; [done| |done]. by destruct (waiting x).
Qed.

(** No read is lost, but for those that a reset drops. *)
Lemma spec_all_buffers ops x :
  legal_all ops x ->
  answered_buffers (run_spec x ops) ++ waiting_buffer (run_spec x ops) ++ dropped ops x ≡ₚ
    answered_buffers x ++ waiting_buffer x ++ buffers_read ops.
Proof.
  revert x. induction ops as [|op ops IH]; intros x Hl; cbn [legal_all foldl dropped] in *; [done|]. destruct Hl as [Hl Hls].
  transitivity ((answered_buffers (spec_exec op x) ++ waiting_buffer (spec_exec op x) ++ buffers_read ops) ++
    match op with OpReset => waiting_buffer x | _ => [] end).
  { rewrite <- (IH _ Hls). solve_Permutation. }
  change (buffers_read (op :: ops)) with (match op with OpRead buffer _ => [buffer] | _ => [] end ++ buffers_read ops).
  destruct op as [buffer len|f|]; cbn [spec_exec]; rewrite ?(app_assoc (answered_buffers (try_answer _))), ?try_answer_buffers;
    unfold answered_buffers, waiting_buffer in *; cbn.
  - destruct Hl as [_ ->]. cbn. solve_Permutation.
  - solve_Permutation.
  - destruct (waiting x) as [[buffer len]|]; cbn; solve_Permutation.
Qed.

Lemma dropped_no_reset ops x : OpReset ∉ ops -> dropped ops x = [].
Proof.
  revert x. induction ops as [|op ops IH]; intros x Hn; [done|]. apply not_elem_of_cons in Hn as [Hop Hn].
  cbn [dropped]. rewrite IH by done. by destruct op.
Qed.

Lemma spec_all_sound `{!DelegateLaws D} ops x :
  Forall answer_sound (spec_answers x) -> Forall answer_sound (spec_answers (run_spec x ops)).
Proof.
  revert x. induction ops as [|op ops IH]; intros x Hf; [done|]. cbn [foldl]. apply IH.
  destruct op; cbn [spec_exec]; [by apply try_answer_sound..|done].
Qed.

(** C31: the uploader implements its specification: at most one read waits, and
    a read is answered with bytes of the delegate as soon as there are some, or
    with no byte once the chunk is final. Each read that the network layer may
    make is answered once, by its result or by the callback, or it is the one that
    still waits, or it waited when the upload was reset: then it is never answered.
    An answer has as many bytes as it says; and once a read was made the stream
    cannot be initialised again. *)
Theorem ChunkedDataStreamUploader_implements `{!DelegateLaws D} ops src :
  legal_all ops (mkSpec src None false []) ->
  exists s', mfor ops exec (create src) = Ok (tt, s') /\
    let x := run_spec (mkSpec src None false []) ops in
    implements s' x /\
    (answer_buffer <$> answers s') ++ waiting_buffer x ++ dropped ops (mkSpec src None false []) ≡ₚ buffers_read ops /\
    (OpReset ∉ ops -> dropped ops (mkSpec src None false []) = []) /\
    Forall answer_sound (answers s') /\
    InitInternal s' = Ok (if bool_decide (0 < reads ops) then ERR_FAILED else OK, s').
Proof.
  intros Hl. cbn zeta.
  destruct (exec_all_implements ops (create src) (mkSpec src None false [])) as (s' & E & Hi & Hpos & Hzero & _);
    [by unfold implements; cbn|done|]. exists s'. split; [done|]. split; [done|]. split_and!.
  - destruct Hi as (_ & _ & -> & _). exact (spec_all_buffers ops _ Hl).
  - apply dropped_no_reset.
  - destruct Hi as (_ & _ & -> & _). by apply spec_all_sound.
  - unfold InitInternal, mbind, mget. case_bool_decide; [by rewrite Hpos|]. rewrite Hzero; [done|lia|done].
Qed.

End Code.
End ChunkedDataStreamUploader.

Module ExampleUploader.
Import ChunkedDataStreamUploader.

(** A stream that has chunks of bytes, an empty one when nothing is available. *)
#[export] Instance chunks : Delegate := {|
  Source := list (list Byte);
  OnRead len s :=
    match s with
    | [] => ((-1)%Z, [], [])
    | chunk :: s =>
        let bytes := take (Z.to_nat len) chunk in (Z.of_nat (length bytes), bytes, s)
    end
|}.

#[export] Instance chunks_laws : DelegateLaws chunks.
Proof.
  split. intros len s n bytes s'. destruct s as [|chunk s]; cbn; intros [= <- <- <-]; [done|]. lia.
Qed.

(** A read before there is a chunk, one after, the end; and a read that a reset
    drops. *)
Definition ops : list Op :=
  [OpRead 1%positive 4; OpReady false; OpRead 2%positive 2; OpRead 3%positive 4; OpReady false; OpReady true;
   OpReady false; OpRead 4%positive 4; OpReset; OpReady true].

Definition stream : Source := [[]; [1; 2; 3]; [4; 5]; []; []; []]%Z.

Lemma ChunkedDataStreamUploader_implements_witness :
  exists s', mfor ops exec (create stream) = Ok (tt, s') /\
    answers s' = [mkAnswer 1%positive 3 [1; 2; 3]; mkAnswer 2%positive 2 [4; 5]; mkAnswer 3%positive 0 []]%Z /\
    (answer_buffer <$> answers s') ++ [4%positive] ≡ₚ [1; 2; 3; 4]%positive /\
    InitInternal s' = Ok (ERR_FAILED, s').
Proof.
  destruct (ChunkedDataStreamUploader_implements ops stream) as (s' & E & Hi & Hbuffers & _ & _ & Hinit).
  - vm_compute. by repeat split.
  - exists s'. split; [exact E|]. split; [|split; [exact Hbuffers|exact Hinit]]. destruct Hi as (_ & _ & -> & _). reflexivity.
Defined.

End ExampleUploader.
