(* ===== verification/NetCaches.v ===== *)
(** * Caches of the network layer

    The clearing of the HTTP cache, whose callback comes from one of several
    asynchronous calls (src/net/http_cache_helper.cc), and the cookies that were
    last sent for an URL (src/net/cookies/cookie_cache.{h,cc}). *)

From stdpp Require Import base tactics option list numbers strings gmap sorting.
From Stdlib Require Import ZArith Lia.
From S2P Require Import Prelude WebTypes BaseValues.

Module HttpCacheHelper.

Definition ERR_IO_PENDING : Z := -1.

(** A call of the network layer that takes a callback: it returns a result, or
    [ERR_IO_PENDING], and then runs the callback later with another result. *)
Record Completion : Type := mkCompletion { returned : Z; later : Z }.

(** What the cache does: how [GetBackend] completes and whether it gave a
    backend, and how the deletion of the entries completes. *)
Record HttpCache : Type := mkHttpCache {
  get_backend : Completion;
  has_backend : bool;
  doom_entries : Completion
}.

(** What happens on the two threads, in order: the callback of the client runs
    with an error. *)
Inductive Effect : Type :=
| ClearQuicServerInfo
| DoomEntriesBetween (delete_begin delete_end : Z)
| PostToClient (error : Z).

Definition effect (e : Effect) : M (list Effect) unit := mmodify (fun l => l ++ [e]).

Definition PostCallback (error : Z) : M (list Effect) unit := effect (PostToClient error).

(** Of the two copies of a callback, the network layer runs the first one if it
    returned [ERR_IO_PENDING]; running both is an error of [OnceCallback]. *)
Definition complete (c : Completion) (callback : Z -> M (list Effect) unit) : M (list Effect) unit :=
  mwhen (returned c =? ERR_IO_PENDING)%Z (callback (later c)).

Definition DoomHttpCache (cache : HttpCache) (delete_begin delete_end : Z) (error : Z) : M (list Effect) unit :=
  if has_backend cache then
    effect (DoomEntriesBetween delete_begin delete_end) ;;;
    complete (doom_entries cache) PostCallback ;;;
    let rv := returned (doom_entries cache) in
    mwhen (negb (rv =? ERR_IO_PENDING)%Z) (effect (PostToClient rv))
  else effect (PostToClient error).

Definition ClearHttpCacheOnIOThread (cache : HttpCache) (delete_begin delete_end : Z) : M (list Effect) unit :=
  effect ClearQuicServerInfo ;;;
  complete (get_backend cache) (DoomHttpCache cache delete_begin delete_end) ;;;
  let rv := returned (get_backend cache) in
  mwhen (negb (rv =? ERR_IO_PENDING)%Z) (DoomHttpCache cache delete_begin delete_end rv).

(** [base::Time()] is 0. *)
Definition ClearHttpCache (cache : HttpCache) (delete_begin delete_end : Z) : M (list Effect) unit :=
  dcheck (negb (delete_end =? 0)%Z) ;;; ClearHttpCacheOnIOThread cache delete_begin delete_end.

(** The error that the client gets. *)
Definition result (c : Completion) : Z := if (returned c =? ERR_IO_PENDING)%Z then later c else returned c.

(** The callback of the client is run exactly once, last, with the result of the
    deletion, or that of the backend when there is none. *)
Lemma ClearHttpCache_calls_back_once cache delete_begin delete_end :
  delete_end <> 0%Z ->
  ClearHttpCache cache delete_begin delete_end [] = Ok (tt,
    ClearQuicServerInfo ::
    if has_backend cache then [DoomEntriesBetween delete_begin delete_end; PostToClient (result (doom_entries cache))]
    else [PostToClient (result (get_backend cache))]).
Proof.
  intros He. unfold ClearHttpCache, ClearHttpCacheOnIOThread, DoomHttpCache, complete, result, PostCallback, effect,
    mbind, mmodify, dcheck, mwhen. rewrite (proj2 (Z.eqb_neq _ _) He). cbn.
  destruct (has_backend cache), (returned (get_backend cache) =? ERR_IO_PENDING)%Z,
    (returned (doom_entries cache) =? ERR_IO_PENDING)%Z; done.
Qed.

End HttpCacheHelper.

Module CookieCache.

(** [net::CanonicalCookie], of which the cache uses four attributes; the others
    are kept as they are. *)
Class CookieOps : Type := {
  CanonicalCookie : Type;
  Domain : CanonicalCookie -> string;
  Path : CanonicalCookie -> string;
  Name : CanonicalCookie -> string;
  CookieValue : CanonicalCookie -> string
}.

(** [std::string]'s [operator<] *)
Definition string_ltb (s s' : string) : bool := negb (string_leb s' s).

Section Code.
Context `{CookieOps} `{GURLOps}.
Context `{!Countable GURL}.

Definition CookieComparator (lhs rhs : CanonicalCookie) : bool :=
  if negb (bool_decide (Domain lhs = Domain rhs)) then string_ltb (Domain lhs) (Domain rhs)
  else if negb (bool_decide (Path lhs = Path rhs)) then string_ltb (Path lhs) (Path rhs)
  else if negb (bool_decide (Name lhs = Name rhs)) then string_ltb (Name lhs) (Name rhs)
  else false.

Definition CookieAndValueComparator (lhs rhs : CanonicalCookie) : bool :=
  if negb (bool_decide (Domain lhs = Domain rhs)) then string_ltb (Domain lhs) (Domain rhs)
  else if negb (bool_decide (Path lhs = Path rhs)) then string_ltb (Path lhs) (Path rhs)
  else if negb (bool_decide (Name lhs = Name rhs)) then string_ltb (Name lhs) (Name rhs)
  else if negb (bool_decide (CookieValue lhs = CookieValue rhs)) then string_ltb (CookieValue lhs) (CookieValue rhs)
  else false.

(** [std::set] with [CookieComparator]: a sorted list, in which an element that
    is equivalent to one that is there is not inserted. *)
Abbreviation CookieSet := (list CanonicalCookie).

Fixpoint set_insert (x : CanonicalCookie) (l : CookieSet) : CookieSet :=
  match l with
  | [] => [x]
  | y :: l' =>
      if CookieComparator x y then x :: y :: l'
      else if CookieComparator y x then y :: set_insert x l' else y :: l'
  end.
Definition set_of (cookies : list CanonicalCookie) : CookieSet := foldl (fun l x => set_insert x l) [] cookies.

(** [std::set_difference] of sorted ranges. *)
Fixpoint set_difference (l1 : CookieSet) : CookieSet -> CookieSet :=
  fix difference (l2 : CookieSet) : CookieSet :=
    match l1, l2 with
    | [], _ => []
    | _, [] => l1
    | x :: l1', y :: l2' =>
        if CookieAndValueComparator x y then x :: set_difference l1' l2
        else if CookieAndValueComparator y x then difference l2' else set_difference l1' l2'
    end.

Definition cache : Type := gmap (GURL * string) CookieSet.

(** The optional vectors are given and returned; [operator[]] of the map makes
    an empty set for a new key. *)
Definition Update (url : GURL) (name : string) (new_cookies : list CanonicalCookie)
    (out_removed_cookies out_added_cookies : option (list CanonicalCookie)) :
    M cache (bool * option (list CanonicalCookie) * option (list CanonicalCookie)) :=
  let! cache_ := mget in
  let key := (url, name) in
  let old_set := default [] (cache_ !! key) in
  mmodify (fun cache_ => <[key := old_set]> cache_) ;;;
  let new_set := set_of new_cookies in
  let added_cookies := set_of (set_difference new_set old_set) in
  let removed_cookies := set_of (set_difference old_set new_set) in
  match added_cookies, removed_cookies with
  | [], [] => mreturn (false, out_removed_cookies, out_added_cookies)
  | _, _ =>
      mmodify (fun cache_ => <[key := new_set]> cache_) ;;;
      mreturn (true, (fun v => v ++ removed_cookies) <$> out_removed_cookies,
               (fun v => v ++ added_cookies) <$> out_added_cookies)
  end.

(** ** The order of the cookies *)

Fixpoint tuple_ltb (l l' : list string) : bool :=
  match l, l' with
  | a :: l, b :: l' => if bool_decide (a = b) then tuple_ltb l l' else string_ltb a b
  | _, _ => false
  end.
Definition key3 (c : CanonicalCookie) : list string := [Domain c; Path c; Name c].
Definition key4 (c : CanonicalCookie) : list string := [Domain c; Path c; Name c; CookieValue c].

Lemma CookieComparator_key c c' : CookieComparator c c' = tuple_ltb (key3 c) (key3 c').
Proof. unfold CookieComparator. cbn. by repeat case_bool_decide. Qed.
Lemma CookieAndValueComparator_key c c' : CookieAndValueComparator c c' = tuple_ltb (key4 c) (key4 c').
Proof. unfold CookieAndValueComparator. cbn. by repeat case_bool_decide. Qed.

Lemma string_ltb_spec a b : string_ltb a b = true <-> string_le a b /\ a <> b.
Proof.
  unfold string_ltb. rewrite negb_true_iff. unfold string_le. split.
  - intros Hn. destruct (total string_le a b) as [Hl|Hl]; unfold string_le in Hl; [|congruence]. split; [done|].
    intros ->. congruence.
  - intros [Hl Hne]. destruct (string_leb b a) eqn:E; [|done]. by destruct Hne; apply (anti_symm string_le).
Qed.

Lemma tuple_ltb_irrefl l : tuple_ltb l l = false.
Proof. induction l as [|a l IH]; [done|]. cbn. by rewrite bool_decide_true. Qed.
Lemma tuple_ltb_trans l1 l2 l3 : tuple_ltb l1 l2 = true -> tuple_ltb l2 l3 = true -> tuple_ltb l1 l3 = true.
Proof.
  revert l2 l3. induction l1 as [|a l1 IH]; intros [|b l2] [|c l3]; try done. cbn.
  repeat case_bool_decide; subst; try done; rewrite ?string_ltb_spec; [by apply IH| |].
  - intros [Hx Hne] [Hy _]. by destruct Hne; apply (anti_symm string_le).
  - intros [Hx ?] [Hy ?]. split; [by etransitivity|done].
Qed.
Lemma tuple_ltb_total l1 l2 :
  length l1 = length l2 -> tuple_ltb l1 l2 = false -> tuple_ltb l2 l1 = false -> l1 = l2.
Proof.
  revert l2. induction l1 as [|a l1 IH]; intros [|b l2]; try done. cbn. intros [= Hl].
  repeat case_bool_decide; subst; try done; [intros; f_equal; by apply IH|].
  intros Hx Hy. destruct (total string_le a b) as [Ht|Ht].
  - destruct (string_ltb a b) eqn:E; [done|]. exfalso. apply not_true_iff_false in E. rewrite string_ltb_spec in E. tauto.
  - destruct (string_ltb b a) eqn:E; [done|]. exfalso. apply not_true_iff_false in E. rewrite string_ltb_spec in E.
    apply E. split; [done|congruence].
Qed.

(** ** The sets *)

Definition before3 (c c' : CanonicalCookie) : Prop := CookieComparator c c' = true.
Definition before4 (c c' : CanonicalCookie) : Prop := CookieAndValueComparator c c' = true.

#[local] Instance before3_trans : Transitive before3.
Proof. intros a b c. unfold before3. rewrite !CookieComparator_key. apply tuple_ltb_trans. Qed.
#[local] Instance before4_trans : Transitive before4.
Proof. intros a b c. unfold before4. rewrite !CookieAndValueComparator_key. apply tuple_ltb_trans. Qed.
Lemma before3_before4 c c' : before3 c c' -> before4 c c'.
Proof.
  unfold before3, before4, CookieComparator, CookieAndValueComparator. repeat (destruct (negb _); [done|]). done.
Qed.

Lemma set_insert_sorted x l : StronglySorted before3 l -> StronglySorted before3 (set_insert x l).
Proof.
  intros Hs. induction Hs as [|y l Hs IH Hy]; cbn [set_insert]; [by repeat constructor|].
  destruct (CookieComparator x y) eqn:Exy.
  { constructor; [by constructor|]. constructor; [done|]. eapply Forall_impl; [exact Hy|].
    intros z Hz. by eapply before3_trans. }
  destruct (CookieComparator y x) eqn:Eyx; [|by constructor]. constructor; [done|].
  assert (forall z, z ∈ set_insert x l -> z = x \/ z ∈ l) as Hin.
  { clear. induction l as [|y l IH]; cbn; [set_solver|]. intros z.
    destruct (CookieComparator x y); [set_solver|]. destruct (CookieComparator y x); set_solver. }
  apply Forall_forall. intros z [->|Hz]%Hin; [done|]. rewrite Forall_forall in Hy. by apply Hy.
Qed.
Lemma set_of_sorted cookies : StronglySorted before3 (set_of cookies).
Proof.
  unfold set_of. assert (StronglySorted before3 ([] : CookieSet)) as Hl by constructor. revert Hl.
  generalize ([] : CookieSet). induction cookies as [|x cookies IH]; intros l Hl; [done|]. by apply IH, set_insert_sorted.
Qed.

(** A set that is inserted in order is itself. *)
Lemma set_of_id l : StronglySorted before3 l -> set_of l = l.
Proof.
  unfold set_of. intros Hs. change l with ([] ++ l) at 2.
  assert (forall a, StronglySorted before3 (a ++ l) -> foldl (fun l x => set_insert x l) a l = a ++ l) as H';
    [|by apply (H' [])].
  clear Hs. induction l as [|x l IH]; intros a Hs; cbn [foldl]; [by rewrite app_nil_r|].
  assert (set_insert x a = a ++ [x]) as ->.
  { clear IH. induction a as [|y a IH]; [done|]. cbn in *. apply StronglySorted_inv in Hs as [Hs Hy].
    rewrite Forall_app, Forall_cons in Hy. destruct Hy as (_ & Hyx & _). unfold before3 in Hyx.
    destruct (CookieComparator x y) eqn:E.
    - pose proof (before3_trans _ _ _ E Hyx) as Hr. unfold before3 in Hr. by rewrite CookieComparator_key, tuple_ltb_irrefl in Hr.
    - rewrite Hyx. f_equal. by apply IH. }
  rewrite IH; [by rewrite <- app_assoc|]. by rewrite <- app_assoc.
Qed.

Lemma StronglySorted_4 l : StronglySorted before3 l -> StronglySorted before4 l.
Proof.
  induction 1 as [|x l Hs IH Hx]; constructor; [done|]. eapply Forall_impl; [exact Hx|]. apply before3_before4.
Qed.

Lemma list_filter_iff_in (P Q : CanonicalCookie -> Prop) `{!forall x, Decision (P x)} `{!forall x, Decision (Q x)} (l : CookieSet) :
  (forall x, x ∈ (l : list CanonicalCookie) -> P x <-> Q x) -> filter P (l : list CanonicalCookie) = filter Q (l : list CanonicalCookie).
Proof.
  intros Hpq. induction l as [|x l IH]; [done|]. rewrite !filter_cons, IH by set_solver.
  assert (P x <-> Q x) as Hx by (apply Hpq; set_solver). by repeat case_decide; try tauto.
Qed.

(** The cookies of the first range without one of the same key and value in the
    second one, in order. *)
Lemma set_difference_spec l1 l2 :
  StronglySorted before4 l1 -> StronglySorted before4 l2 ->
  set_difference l1 l2 = filter (fun x => key4 x ∉ key4 <$> (l2 : list CanonicalCookie)) (l1 : list CanonicalCookie).
Proof.
  revert l2. induction l1 as [|x l1 IH1]; intros l2 Hs1 Hs2; [by destruct l2|].
  induction l2 as [|y l2 IH2].
  { change (x :: l1 = filter (fun x => key4 x ∉ []) (x :: l1)). clear. generalize (x :: l1). intros l.
    induction l as [|z l IH]; [done|]. rewrite filter_cons_True by set_solver. by f_equal. }
  pose proof Hs1 as [Hs1' Hx]%StronglySorted_inv. pose proof Hs2 as [Hs2' Hy]%StronglySorted_inv.
  rewrite Forall_forall in Hx, Hy.
  assert (forall c, before4 x c -> key4 x <> key4 c) as Hne.
  { intros c Hc Hk. unfold before4 in Hc. by rewrite CookieAndValueComparator_key, Hk, tuple_ltb_irrefl in Hc. }
  cbn [set_difference]. destruct (CookieAndValueComparator x y) eqn:Exy.
  - rewrite filter_cons_True; [by rewrite IH1|]. cbn. rewrite not_elem_of_cons. split; [by apply Hne|].
    intros (c & Hk & Hc)%list_elem_of_fmap. eapply Hne; [|exact Hk]. by eapply before4_trans, Hy.
  - destruct (CookieAndValueComparator y x) eqn:Eyx.
    + change (set_difference (x :: l1) l2 = filter (fun z => key4 z ∉ key4 <$> y :: l2) (x :: l1)).
      rewrite IH2 by done. apply list_filter_iff_in. intros z Hz. cbn. rewrite not_elem_of_cons.
      assert (before4 y z) as Hyz by (apply elem_of_cons in Hz as [->|Hz]; [done|by eapply before4_trans, Hx]).
      assert (key4 z <> key4 y) as Hzy; [|tauto].
      intros Hk. unfold before4 in Hyz. by rewrite CookieAndValueComparator_key, Hk, tuple_ltb_irrefl in Hyz.
    + assert (key4 x = key4 y) as Hk.
      { rewrite CookieAndValueComparator_key in Exy, Eyx. by apply tuple_ltb_total. }
      rewrite filter_cons_False by (cbn; rewrite Hk; set_solver). rewrite IH1 by done.
      apply list_filter_iff_in. intros z Hz. cbn. rewrite not_elem_of_cons.
      assert (key4 z <> key4 y) as Hzy; [|tauto]. rewrite <- Hk. intros ?. by eapply Hne; [apply Hx|].
Qed.

Lemma StronglySorted_filter (P : CanonicalCookie -> Prop) `{!forall x, Decision (P x)} (l : CookieSet) :
  StronglySorted before3 l -> StronglySorted before3 (filter P l).
Proof.
  induction 1 as [|x l Hs IH Hx]; [constructor|]. rewrite filter_cons. case_decide; [|done].
  constructor; [done|]. rewrite Forall_forall in *. intros y [_ Hy]%list_elem_of_filter. by apply Hx.
Qed.

(** The cookies of a set that are not in another one, with their value. *)
Definition cookies_minus (l1 l2 : CookieSet) : CookieSet :=
  filter (fun x => key4 x ∉ key4 <$> (l2 : list CanonicalCookie)) (l1 : list CanonicalCookie).

Lemma cookies_minus_nil (l1 l2 : CookieSet) :
  cookies_minus l1 l2 = [] <-> forall x, x ∈ (l1 : list CanonicalCookie) -> key4 x ∈ key4 <$> (l2 : list CanonicalCookie).
Proof.
  unfold cookies_minus. split.
  - intros Hn x Hx. destruct (decide (key4 x ∈ key4 <$> l2)) as [|Hd]; [done|].
    assert (x ∈ filter (fun x => key4 x ∉ key4 <$> l2) l1) as Hf by by apply list_elem_of_filter.
    rewrite Hn in Hf. by apply elem_of_nil in Hf.
  - intros Hin. destruct (filter _ l1) as [|x l] eqn:E; [done|].
    assert (x ∈ filter (fun x => key4 x ∉ key4 <$> l2) l1) as [Hn Hx]%list_elem_of_filter by (rewrite E; set_solver).
    by apply Hin in Hx.
Qed.

Definition cache_ok (m : cache) : Prop := forall k l, m !! k = Some l -> StronglySorted before3 l.
Lemma cache_ok_empty : cache_ok ∅.
Proof. intros k l Hk. done. Qed.
Lemma cache_ok_insert (m : cache) k l : cache_ok m -> StronglySorted before3 l -> cache_ok (<[k := l]> m).
Proof. intros Hm Hl k' l' [[_ <-]|[_ Hk]]%lookup_insert_Some; [done|by eapply Hm]. Qed.

(** An update tells whether the cookies of a name that are sent for an URL
    changed, up to attributes other than the domain, path, name and value; gives
    exactly the ones that went and the ones that came, and stores the new ones if
    they changed. The other entries are kept. *)
Theorem Update_correct url name new_cookies (removed added : option (list CanonicalCookie)) (m : cache) :
  cache_ok m ->
  let old_set := default [] (m !! (url, name)) in
  let new_set := set_of new_cookies in
  exists (changed : bool) (m' : cache), cache_ok m' /\
    Update url name new_cookies removed added m =
      Ok ((changed,
           if changed then (fun v : list CanonicalCookie => v ++ cookies_minus old_set new_set) <$> removed else removed,
           if changed then (fun v : list CanonicalCookie => v ++ cookies_minus new_set old_set) <$> added else added), m') /\
    (changed = false <->
      (forall x, x ∈ (new_set : list CanonicalCookie) -> key4 x ∈ key4 <$> (old_set : list CanonicalCookie)) /\
      (forall x, x ∈ (old_set : list CanonicalCookie) -> key4 x ∈ key4 <$> (new_set : list CanonicalCookie))) /\
    m' !! (url, name) = Some (if changed then new_set else old_set) /\
    forall k, k <> (url, name) -> m' !! k = m !! k.
Proof.
  intros Hm old_set new_set.
  assert (StronglySorted before3 old_set) as Ho.
  { subst old_set. destruct (m !! (url, name)) as [l|] eqn:E; [by eapply Hm|constructor]. }
  pose proof (set_of_sorted new_cookies) as Hn. fold new_set in Hn.
  assert (forall l1 l2 : CookieSet, StronglySorted before3 l1 -> StronglySorted before3 l2 ->
    set_of (set_difference l1 l2) = cookies_minus l1 l2) as Hd.
  { intros l1 l2 H1 H2. rewrite set_difference_spec by by apply StronglySorted_4. by apply set_of_id, StronglySorted_filter. }
  unfold Update. rewrite (mbind_run _ _ m m m) by done. fold old_set new_set.
  rewrite (mbind_run _ _ _ tt (<[(url, name) := old_set]> m)) by done. rewrite (Hd _ _ Hn Ho), (Hd _ _ Ho Hn).
  pose proof (cookies_minus_nil new_set old_set) as Hn1. pose proof (cookies_minus_nil old_set new_set) as Hn2.
  destruct (cookies_minus new_set old_set) as [|x xs] eqn:Ea, (cookies_minus old_set new_set) as [|y ys] eqn:Er.
  1: { exists false, (<[(url, name) := old_set]> m). split; [by apply cache_ok_insert|].
       split; [done|]. split; [by rewrite <- Hn1, <- Hn2|]. split; [apply lookup_insert_eq|].
       intros k Hk. by apply lookup_insert_ne. }
  all: exists true, (<[(url, name) := new_set]> (<[(url, name) := old_set]> m)); split; [by apply cache_ok_insert; [apply cache_ok_insert|]|];
    (split; [done|]); (split; [by split; [|intros [?%Hn1 ?%Hn2]]|]); (split; [apply lookup_insert_eq|]);
    intros k Hk; (etransitivity; [by apply lookup_insert_ne|by apply lookup_insert_ne]).
Qed.

End Code.
End CookieCache.

Module ExampleCookies.
Import CookieCache.

Record cookie : Type := mkCookie { domain : string; path : string; name : string; value : string }.
#[export] Instance cookies : CookieOps := {|
  CanonicalCookie := cookie; Domain := domain; Path := path; Name := name; CookieValue := value
|}.

#[export] Instance urls : GURLOps := ExampleGURL.ops.
#[export] Instance urls_countable : Countable GURL.
Proof.
  refine (inj_countable' (A := (string * string * string)%type) (fun u => (ExampleGURL.scheme u, ExampleGURL.path u, ExampleGURL.ref u))
    (fun p => ExampleGURL.mk p.1.1 p.1.2 p.2) _). by intros [].
Defined.

Local Open Scope string_scope.
Definition site : GURL := GURL_parse "https:a.com/".
Definition old_cookies : list CanonicalCookie := [mkCookie "a.com" "/x" "id" "1"; mkCookie "a.com" "/" "id" "0"].
Definition new_cookies : list CanonicalCookie := [mkCookie "a.com" "/x" "id" "2"; mkCookie "a.com" "/" "id" "0"].
Definition filled : cache := <[(site, "id") := set_of old_cookies]> ∅.

(** A cookie that changes its value is removed and added. *)
Lemma Update_correct_witness :
  cache_ok filled /\
  exists m' : cache, cache_ok m' /\
    Update site "id" new_cookies (Some []) None filled = Ok ((true, Some [mkCookie "a.com" "/x" "id" "1"], None), m') /\
    m' !! (site, "id") = Some (set_of new_cookies).
Proof.
  assert (cache_ok filled) as Hf by (apply cache_ok_insert; [apply cache_ok_empty|apply set_of_sorted]).
  split; [exact Hf|].
  destruct (Update_correct site "id" new_cookies (Some []) None filled Hf) as (changed & m' & Hm & E & Hc & Hn & _).
  exists m'. rewrite E, Hn. destruct changed; [split; [exact Hm|split; reflexivity]|].
  destruct Hc as [Hc _]. specialize (Hc eq_refl) as [Hc _]. exfalso.
  assert (key4 (mkCookie "a.com" "/x" "id" "2") ∈ key4 <$> set_of old_cookies) as Hk by (apply Hc; vm_compute; by repeat constructor).
  revert Hk. vm_compute. intros Hk. by repeat (apply elem_of_cons in Hk as [Hk|Hk]; [discriminate|]).
Defined.

End ExampleCookies.
