(* ===== verification/FreFieldTrial.v ===== *)
(** * The field trial of the first run

    The experiment of the first run experience, which puts a new client in a group
    and keeps it there (src/chrome/browser/ui/first_run/fre_field_trial.{h,cc} and
    ios_first_run_field_trials.{h,cc}). Field trials, their parameters and the list of
    features are those of base: interfaces with the laws their documentation states. *)

From stdpp Require Import base tactics option list numbers strings gmap.
From Stdlib Require Import ZArith Lia.
From S2P Require Import Prelude.

(** A trial is known by its name, once the group is chosen by that of the group too. *)
Record FieldTrial : Type := mkFieldTrial { trial_name : string; group_name : string }.
#[export] Instance FieldTrial_eq_dec : EqDecision FieldTrial.
Proof. solve_decision. Defined.

Inductive OverrideState : Type := OVERRIDE_DISABLE_FEATURE | OVERRIDE_ENABLE_FEATURE.
#[export] Instance OverrideState_eq_dec : EqDecision OverrideState.
Proof. solve_decision. Defined.
Definition FieldTrialParams : Type := gmap string string.

(** A feature: its name and its default. *)
Record Feature : Type := mkFeature { feature_name : string; default_state : bool }.

(** [choose_group] is the group of a one-time randomized trial: from the entropy of
    the client, the total probability, the default group and the groups that are
    appended. The parameters of a feature are those of the group of its trial. *)
Class FieldTrialOps : Type := {
  EntropyProvider : Type;
  choose_group : EntropyProvider -> string -> Z -> string -> list (string * Z) -> string;
  ParamAssociator : Type;
  AssociateFieldTrialParams : string -> string -> FieldTrialParams -> ParamAssociator -> bool * ParamAssociator;
  GetFieldTrialParams : ParamAssociator -> FieldTrial -> option FieldTrialParams;
  FeatureList : Type;
  IsFeatureOverriddenFromCommandLine : FeatureList -> string -> bool;
  RegisterFieldTrialOverride : string -> OverrideState -> FieldTrial -> FeatureList -> FeatureList;
  IsEnabled : FeatureList -> Feature -> bool;
  GetFieldTrial : FeatureList -> Feature -> option FieldTrial;
  kNewMobileIdentityConsistencyFRE : Feature
}.

(** The first override of a feature decides; parameters can be associated once. *)
Class FieldTrialLaws `(F : FieldTrialOps) : Prop := {
  choose_group_known e trial total default_group groups :
    (forall name p, (name, p) ∈ groups -> 0 <= p)%Z -> (foldr Z.add 0 (snd <$> groups) <= total)%Z ->
    choose_group e trial total default_group groups ∈ default_group :: (fst <$> groups);
  Associate_new trial group params a : GetFieldTrialParams a (mkFieldTrial trial group) = None ->
    fst (AssociateFieldTrialParams trial group params a) = true /\
    forall t, GetFieldTrialParams (snd (AssociateFieldTrialParams trial group params a)) t =
      if bool_decide (t = mkFieldTrial trial group) then Some params else GetFieldTrialParams a t;
  Register_command_line name state trial l f :
    IsFeatureOverriddenFromCommandLine (RegisterFieldTrialOverride name state trial l) f =
      IsFeatureOverriddenFromCommandLine l f;
  Register_same f state trial l : IsFeatureOverriddenFromCommandLine l (feature_name f) = false -> GetFieldTrial l f = None ->
    IsEnabled (RegisterFieldTrialOverride (feature_name f) state trial l) f = bool_decide (state = OVERRIDE_ENABLE_FEATURE) /\
    GetFieldTrial (RegisterFieldTrialOverride (feature_name f) state trial l) f = Some trial;
  Register_other name state trial l f : feature_name f <> name ->
    IsEnabled (RegisterFieldTrialOverride name state trial l) f = IsEnabled l f /\
    GetFieldTrial (RegisterFieldTrialOverride name state trial l) f = GetFieldTrial l f;
  other_feature : feature_name kNewMobileIdentityConsistencyFRE ∉ ["EnableFREUIModuleIOSV3"; "EnableFREDefaultBrowserPromoScreen"]
}.

(** The channel the application is built for. *)
Inductive Channel : Type := UNKNOWN | CANARY | DEV | BETA | STABLE.

Module FirstRunFieldTrials.
Section Code.
Context `{F : FieldTrialOps}.

Record FirstRunFieldTrialGroup : Type := mkGroup { name_ : string; variation_ : Z; percentage_ : Z }.
Record FirstRunFieldTrialConfig : Type := mkConfig { trial_name_ : string; groups_ : list FirstRunFieldTrialGroup }.

(** The globals of base and the local state, with the IDs that were associated. *)
Record t : Type := mk {
  associator : ParamAssociator;
  feature_list : FeatureList;
  variation_ids : list (string * string * Z);
  local_state : gmap string Z
}.
Definition with_associator (v : ParamAssociator) (s : t) : t := mk v (feature_list s) (variation_ids s) (local_state s).
Definition with_feature_list (v : FeatureList) (s : t) : t := mk (associator s) v (variation_ids s) (local_state s).
Definition with_variation_ids (v : list (string * string * Z)) (s : t) : t :=
  mk (associator s) (feature_list s) v (local_state s).
Definition with_local_state (v : gmap string Z) (s : t) : t := mk (associator s) (feature_list s) (variation_ids s) v.

Definition create (trial_name : string) : FirstRunFieldTrialConfig := mkConfig trial_name [].
Definition AddGroup (name : string) (variation percentage : Z) (config : FirstRunFieldTrialConfig) : FirstRunFieldTrialConfig :=
  mkConfig (trial_name_ config) (groups_ config ++ [mkGroup name variation percentage]).

(** The sum is an [int]. *)
Fixpoint sum_percentages (sum : Z) (groups : list FirstRunFieldTrialGroup) : M t Z :=
  match groups with
  | [] => mreturn sum
  | group :: groups =>
      if in_int (sum + percentage_ group) then sum_percentages (sum + percentage_ group) groups
      else mfail SignedOverflow
  end.
Definition GetTotalProbability (config : FirstRunFieldTrialConfig) : M t Z := sum_percentages 0 (groups_ config).

Definition CreateOneTimeRandomizedTrial (default_group_name : string) (low_entropy_provider : EntropyProvider)
    (config : FirstRunFieldTrialConfig) : M t FieldTrial :=
  let! total := GetTotalProbability config in
  dcheck (total <=? 100)%Z ;;;
  mfor (groups_ config) (fun group =>
    mmodify (fun s => with_variation_ids (variation_ids s ++ [(trial_name_ config, name_ group, variation_ group)]) s)) ;;;
  mreturn (mkFieldTrial (trial_name_ config)
    (choose_group low_entropy_provider (trial_name_ config) 100 default_group_name
       ((fun group => (name_ group, percentage_ group)) <$> groups_ config))).

End Code.
End FirstRunFieldTrials.

Module fre_field_trial.
Import FirstRunFieldTrials.

Inductive NewDefaultBrowserPromoFRE : Type := kFirstRunOnly | kShortDelay | kDefaultDelay | kDisabled.
Inductive NewMobileIdentityConsistencyFRE : Type := kUMADialog | kThreeSteps | kTwoSteps | kOld.

Definition kEnableFREDefaultBrowserPromoScreen : Feature := mkFeature "EnableFREDefaultBrowserPromoScreen" false.
Definition kEnableFREUIModuleIOS : Feature := mkFeature "EnableFREUIModuleIOSV3" true.

Definition kIOSMICeAndDefaultBrowserTrialName : string := "IOSTrialMICeAndDefaultBrowser".
Definition kFREDefaultBrowserPromoParam : string := "variant_default_browser".
Definition kFREDefaultBrowserPromoDefaultDelayParam : string := "variant_default_delay_enabled".
Definition kFREDefaultBrowserPromoFirstRunOnlyParam : string := "variant_fre_only_enabled".
Definition kFREDefaultBrowserPromoShortDelayParam : string := "variant_short_delay_enabled".
Definition kNewMobileIdentityConsistencyFREParam : string := "variant_new_mice_fre".
Definition kNewMobileIdentityConsistencyFREParamUMADialog : string := "umadialog".
Definition kNewMobileIdentityConsistencyFREParamThreeSteps : string := "3steps".
Definition kNewMobileIdentityConsistencyFREParamTwoSteps : string := "2steps".
Definition kTrialGroupMICeAndDefaultBrowserVersionPrefName : string :=
  "fre_refactoring_mice_and_default_browser.trial_version".
Definition kPlaceholderTrialVersion : Z := -1.
Definition kCurrentTrialVersion : Z := 1.

Definition kDefaultGroup : string := "Default".
Definition kControlGroup : string := "Control-V1".
Definition kHoldbackGroup : string := "Disabled-V1".
Definition kFREDefaultBrowserAndSmallDelayBeforeOtherPromosGroup : string :=
  "FREDefaultBrowserAndSmallDelayBeforeOtherPromos-V1".
Definition kFREDefaultBrowserAndDefaultDelayBeforeOtherPromosGroup : string :=
  "FREDefaultBrowserAndDefaultDelayBeforeOtherPromos-V1".
Definition kDefaultBrowserPromoAtFirstRunOnlyGroup : string := "DefaultBrowserPromoAtFirstRunOnly-V1".
Definition kNewMICEFREWithUMADialogSetGroup : string := "NewMobileIdentityConsistencyFREParamUMADialog-V1".
Definition kNewMICEFREWithThreeStepsSetGroup : string := "NewMobileIdentityConsistencyFREParamThreeSteps-V1".
Definition kNewMICEFREWithTwoStepsSetGroup : string := "NewMobileIdentityConsistencyFREParamTwoSteps-V1".

Definition kControlTrialID : Z := 3348210.
Definition kHoldbackTrialID : Z := 3348217.
Definition kFREDefaultBrowserPromoAtFirstRunOnlyID : Z := 3348842.
Definition kFREDefaultBrowserAndDefaultDelayBeforeOtherPromosID : Z := 3348843.
Definition kFREDefaultBrowserAndSmallDelayBeforeOtherPromosID : Z := 3348844.
Definition kNewMICEFREWithUMADialogSetID : Z := 3348845.
Definition kNewMICEFREWithThreeStepsSetID : Z := 3348846.
Definition kNewMICEFREWithTwoStepsSetID : Z := 3348847.

Section Code.
Context `{F : FieldTrialOps}.

(** [FeatureParam<Enum>::Get]: the value of the parameter of the feature, which is that
    of its trial when it is enabled, among the options; or the default. *)
Definition GetFieldTrialParamValueByFeature (feature : Feature) (param : string) (s : t) : option string :=
  if IsEnabled (feature_list s) feature then
    match GetFieldTrial (feature_list s) feature with
    | Some trial =>
        match GetFieldTrialParams (associator s) trial with
        | Some params => (params : gmap string string) !! param
        | None => None
        end
    | None => None
    end
  else None.
Fixpoint option_named {E} (name : string) (options : list (E * string)) (default_value : E) : E :=
  match options with
  | [] => default_value
  | (value, option_name) :: options =>
      if bool_decide (option_name = name) then value else option_named name options default_value
  end.
Definition param_Get {E} (feature : Feature) (param : string) (default_value : E) (options : list (E * string)) (s : t) : E :=
  option_named (default EmptyString (GetFieldTrialParamValueByFeature feature param s)) options default_value.

Definition kNewDefaultBrowserPromoFREOptions : list (NewDefaultBrowserPromoFRE * string) :=
  [(kDefaultDelay, kFREDefaultBrowserPromoDefaultDelayParam); (kFirstRunOnly, kFREDefaultBrowserPromoFirstRunOnlyParam);
   (kShortDelay, kFREDefaultBrowserPromoShortDelayParam)].
Definition kNewDefaultBrowserPromoFREParam : t -> NewDefaultBrowserPromoFRE :=
  param_Get kEnableFREDefaultBrowserPromoScreen kFREDefaultBrowserPromoParam kDefaultDelay kNewDefaultBrowserPromoFREOptions.
Definition kNewMobileIdentityConsistencyFREOptions : list (NewMobileIdentityConsistencyFRE * string) :=
  [(kUMADialog, kNewMobileIdentityConsistencyFREParamUMADialog); (kThreeSteps, kNewMobileIdentityConsistencyFREParamThreeSteps);
   (kTwoSteps, kNewMobileIdentityConsistencyFREParamTwoSteps)].
Definition kkNewMobileIdentityConsistencyFREParam : t -> NewMobileIdentityConsistencyFRE :=
  param_Get kNewMobileIdentityConsistencyFRE kNewMobileIdentityConsistencyFREParam kUMADialog
    kNewMobileIdentityConsistencyFREOptions.

Definition AddGroupToConfig (group_name : string) (group_id : Z) (weight_by_id : gmap Z Z)
    (config : FirstRunFieldTrialConfig) : M t FirstRunFieldTrialConfig :=
  match weight_by_id !! group_id with
  | None => mfail DCheckFailed
  | Some weight => mreturn (AddGroup group_name group_id weight config)
  end.

Definition associate (group_name param value : string) : M t unit :=
  let! s := mget in
  let '(association_result, associator) :=
    AssociateFieldTrialParams kIOSMICeAndDefaultBrowserTrialName group_name {[param := value]} (associator s) in
  mmodify (with_associator associator) ;;;
  dcheck association_result.
Definition AssociateFieldTrialParamsForDefaultBrowserGroup (group_name value : string) : M t unit :=
  associate group_name kFREDefaultBrowserPromoParam value.
Definition AssociateFieldTrialParamsForNewMICEFREGroup (group_name value : string) : M t unit :=
  associate group_name kNewMobileIdentityConsistencyFREParam value.

Definition GetFREDefaultBrowserScreenPromoFRE (s : t) : NewDefaultBrowserPromoFRE :=
  if IsEnabled (feature_list s) kEnableFREUIModuleIOS && IsEnabled (feature_list s) kEnableFREDefaultBrowserPromoScreen
  then kNewDefaultBrowserPromoFREParam s else kDisabled.
Definition GetNewMobileIdentityConsistencyFRE (s : t) : NewMobileIdentityConsistencyFRE :=
  if IsEnabled (feature_list s) kNewMobileIdentityConsistencyFRE then kkNewMobileIdentityConsistencyFREParam s else kOld.

Definition GetGroupWeightsForFREVariations (channel : Channel) : gmap Z Z :=
  let weight_by_id : gmap Z Z := list_to_map
    [(kControlTrialID, 0); (kHoldbackTrialID, 0); (kNewMICEFREWithUMADialogSetID, 0); (kNewMICEFREWithThreeStepsSetID, 0);
     (kNewMICEFREWithTwoStepsSetID, 0); (kFREDefaultBrowserAndDefaultDelayBeforeOtherPromosID, 0);
     (kFREDefaultBrowserAndSmallDelayBeforeOtherPromosID, 0); (kFREDefaultBrowserPromoAtFirstRunOnlyID, 0)]%Z in
  match channel with
  | UNKNOWN | CANARY | DEV | BETA => const 10%Z <$> weight_by_id
  | STABLE => const 8%Z <$> weight_by_id
  end.

(** [RegisterFieldTrialOverride] checks that the feature has no trial yet. *)
Definition Override (feature : Feature) (state : OverrideState) (trial : FieldTrial) : M t unit :=
  let! s := mget in
  dcheck (bool_decide (GetFieldTrial (feature_list s) feature = None)) ;;;
  mmodify (fun s => with_feature_list (RegisterFieldTrialOverride (feature_name feature) state trial (feature_list s)) s).

(** The groups of the trial, in the order in which they are added. *)
Definition trial_groups : list (string * Z) :=
  [(kControlGroup, kControlTrialID); (kHoldbackGroup, kHoldbackTrialID);
   (kNewMICEFREWithUMADialogSetGroup, kNewMICEFREWithUMADialogSetID);
   (kNewMICEFREWithThreeStepsSetGroup, kNewMICEFREWithThreeStepsSetID);
   (kNewMICEFREWithTwoStepsSetGroup, kNewMICEFREWithTwoStepsSetID);
   (kFREDefaultBrowserAndDefaultDelayBeforeOtherPromosGroup, kFREDefaultBrowserAndDefaultDelayBeforeOtherPromosID);
   (kFREDefaultBrowserAndSmallDelayBeforeOtherPromosGroup, kFREDefaultBrowserAndSmallDelayBeforeOtherPromosID);
   (kDefaultBrowserPromoAtFirstRunOnlyGroup, kFREDefaultBrowserPromoAtFirstRunOnlyID)].
Fixpoint add_groups (groups : list (string * Z)) (weight_by_id : gmap Z Z) (config : FirstRunFieldTrialConfig) :
    M t FirstRunFieldTrialConfig :=
  match groups with
  | [] => mreturn config
  | (group, id) :: groups =>
      let! config := AddGroupToConfig group id weight_by_id config in add_groups groups weight_by_id config
  end.

(** What the group of the client enables and disables. *)
Definition override_features (trial : FieldTrial) : M t unit :=
  if bool_decide (group_name trial = kDefaultGroup) then mreturn tt
  else if bool_decide (group_name trial = kControlGroup) then
    Override kEnableFREUIModuleIOS OVERRIDE_ENABLE_FEATURE trial ;;;
    Override kNewMobileIdentityConsistencyFRE OVERRIDE_DISABLE_FEATURE trial ;;;
    Override kEnableFREDefaultBrowserPromoScreen OVERRIDE_DISABLE_FEATURE trial
  else if bool_decide (group_name trial = kHoldbackGroup) then
    Override kEnableFREUIModuleIOS OVERRIDE_DISABLE_FEATURE trial ;;;
    Override kNewMobileIdentityConsistencyFRE OVERRIDE_DISABLE_FEATURE trial ;;;
    Override kEnableFREDefaultBrowserPromoScreen OVERRIDE_DISABLE_FEATURE trial
  else
    Override kEnableFREUIModuleIOS OVERRIDE_ENABLE_FEATURE trial ;;;
    if bool_decide (group_name trial = kFREDefaultBrowserAndSmallDelayBeforeOtherPromosGroup) ||
       bool_decide (group_name trial = kFREDefaultBrowserAndDefaultDelayBeforeOtherPromosGroup) ||
       bool_decide (group_name trial = kDefaultBrowserPromoAtFirstRunOnlyGroup) then
      Override kNewMobileIdentityConsistencyFRE OVERRIDE_DISABLE_FEATURE trial ;;;
      Override kEnableFREDefaultBrowserPromoScreen OVERRIDE_ENABLE_FEATURE trial
    else if bool_decide (group_name trial = kNewMICEFREWithUMADialogSetGroup) ||
            bool_decide (group_name trial = kNewMICEFREWithThreeStepsSetGroup) ||
            bool_decide (group_name trial = kNewMICEFREWithTwoStepsSetGroup) then
      Override kNewMobileIdentityConsistencyFRE OVERRIDE_ENABLE_FEATURE trial ;;;
      Override kEnableFREDefaultBrowserPromoScreen OVERRIDE_DISABLE_FEATURE trial
    else mreturn tt.

Definition CreateNewMICeAndDefaultBrowserFRETrial (weight_by_id : gmap Z Z) (low_entropy_provider : EntropyProvider) : M t Z :=
  let! config := add_groups trial_groups weight_by_id (create kIOSMICeAndDefaultBrowserTrialName) in
  AssociateFieldTrialParamsForNewMICEFREGroup kNewMICEFREWithUMADialogSetGroup
    kNewMobileIdentityConsistencyFREParamUMADialog ;;;
  AssociateFieldTrialParamsForNewMICEFREGroup kNewMICEFREWithThreeStepsSetGroup
    kNewMobileIdentityConsistencyFREParamThreeSteps ;;;
  AssociateFieldTrialParamsForNewMICEFREGroup kNewMICEFREWithTwoStepsSetGroup
    kNewMobileIdentityConsistencyFREParamTwoSteps ;;;
  AssociateFieldTrialParamsForDefaultBrowserGroup kFREDefaultBrowserAndDefaultDelayBeforeOtherPromosGroup
    kFREDefaultBrowserPromoDefaultDelayParam ;;;
  AssociateFieldTrialParamsForDefaultBrowserGroup kFREDefaultBrowserAndSmallDelayBeforeOtherPromosGroup
    kFREDefaultBrowserPromoShortDelayParam ;;;
  AssociateFieldTrialParamsForDefaultBrowserGroup kDefaultBrowserPromoAtFirstRunOnlyGroup
    kFREDefaultBrowserPromoFirstRunOnlyParam ;;;
  let! trial := CreateOneTimeRandomizedTrial kDefaultGroup low_entropy_provider config in
  override_features trial ;;;
  mreturn kCurrentTrialVersion.

(** An integer of the local state; the default is the registered one. *)
Definition RegisterLocalStatePrefs : gmap string Z :=
  {[kTrialGroupMICeAndDefaultBrowserVersionPrefName := kPlaceholderTrialVersion]}.
Definition GetInteger (pref : string) (s : t) : option Z := (local_state s ∪ RegisterLocalStatePrefs) !! pref.

Definition Create (channel : Channel) (is_first_run : bool) (low_entropy_provider : EntropyProvider) : M t unit :=
  let! s := mget in
  if IsFeatureOverriddenFromCommandLine (feature_list s) (feature_name kEnableFREUIModuleIOS) ||
     IsFeatureOverriddenFromCommandLine (feature_list s) (feature_name kEnableFREDefaultBrowserPromoScreen) ||
     IsFeatureOverriddenFromCommandLine (feature_list s) (feature_name kNewMobileIdentityConsistencyFRE)
  then mreturn tt
  else
    let weight_by_id := GetGroupWeightsForFREVariations channel in
    if is_first_run then
      let! trial_version := CreateNewMICeAndDefaultBrowserFRETrial weight_by_id low_entropy_provider in
      mmodify (fun s => with_local_state (<[kTrialGroupMICeAndDefaultBrowserVersionPrefName := trial_version]> (local_state s)) s)
    else
      let! version := of_option (GetInteger kTrialGroupMICeAndDefaultBrowserVersionPrefName s) in
      if (version =? kCurrentTrialVersion)%Z then
        CreateNewMICeAndDefaultBrowserFRETrial weight_by_id low_entropy_provider ;;; mreturn tt
      else mreturn tt.

(** ** The launches of a client *)

(** What the rest of the application reads. *)
Definition reading (s : t) : bool * NewMobileIdentityConsistencyFRE * NewDefaultBrowserPromoFRE :=
  (IsEnabled (feature_list s) kEnableFREUIModuleIOS, GetNewMobileIdentityConsistencyFRE s, GetFREDefaultBrowserScreenPromoFRE s).

(** A launch of the application: whether it is the first run, the features as the command
    line leaves them, and the parameters, which are those of other trials. *)
Record Launch : Type := mkLaunch { first_run : bool; features : FeatureList; parameters : ParamAssociator }.
Definition start (l : Launch) (prefs : gmap string Z) : t := mk (parameters l) (features l) [] prefs.
Definition launch (channel : Channel) (e : EntropyProvider) (l : Launch) :
    M (gmap string Z) (bool * NewMobileIdentityConsistencyFRE * NewDefaultBrowserPromoFRE) := fun prefs =>
  match Create channel (first_run l) e (start l prefs) with
  | Ok (_, s) => Ok (reading s, local_state s)
  | Fault f => Fault f
  end.

Definition fre_features : list Feature :=
  [kEnableFREUIModuleIOS; kEnableFREDefaultBrowserPromoScreen; kNewMobileIdentityConsistencyFRE].
Definition forced (l : Launch) : bool :=
  existsb (fun f => IsFeatureOverriddenFromCommandLine (features l) (feature_name f)) fre_features.
(** The parameters of the groups are not associated yet; and no other trial has these
    features. *)
Definition fresh_parameters (l : Launch) : Prop :=
  forall group, GetFieldTrialParams (parameters l) (mkFieldTrial kIOSMICeAndDefaultBrowserTrialName group) = None.
Definition fresh_features (l : Launch) : Prop := forall f, f ∈ fre_features -> GetFieldTrial (features l) f = None.
(** A launch whose features are forced does not create the trial. *)
Definition fresh_launch (l : Launch) : Prop := forced l = false -> fresh_features l /\ fresh_parameters l.

(** The group of a client, and what it means. *)
Definition group_of (channel : Channel) (e : EntropyProvider) : string :=
  choose_group e kIOSMICeAndDefaultBrowserTrialName 100 kDefaultGroup
    ((fun group => (fst group, default 0%Z (GetGroupWeightsForFREVariations channel !! snd group))) <$> trial_groups).
Definition arms : list (string * (bool * NewMobileIdentityConsistencyFRE * NewDefaultBrowserPromoFRE)) :=
  [(kControlGroup, (true, kOld, kDisabled)); (kHoldbackGroup, (false, kOld, kDisabled));
   (kNewMICEFREWithUMADialogSetGroup, (true, kUMADialog, kDisabled));
   (kNewMICEFREWithThreeStepsSetGroup, (true, kThreeSteps, kDisabled));
   (kNewMICEFREWithTwoStepsSetGroup, (true, kTwoSteps, kDisabled));
   (kFREDefaultBrowserAndDefaultDelayBeforeOtherPromosGroup, (true, kOld, kDefaultDelay));
   (kFREDefaultBrowserAndSmallDelayBeforeOtherPromosGroup, (true, kOld, kShortDelay));
   (kDefaultBrowserPromoAtFirstRunOnlyGroup, (true, kOld, kFirstRunOnly))].
Definition arm (group : string) : option (bool * NewMobileIdentityConsistencyFRE * NewDefaultBrowserPromoFRE) :=
  (list_to_map arms : gmap string _) !! group.

(** The readings of a client that is enrolled, or not yet. *)
Fixpoint expected (channel : Channel) (e : EntropyProvider) (enrolled : bool) (ls : list Launch) :=
  match ls with
  | [] => []
  | l :: ls =>
      let enrolled := enrolled || (first_run l && negb (forced l)) in
      (if enrolled && negb (forced l) then default (reading (start l ∅)) (arm (group_of channel e))
       else reading (start l ∅)) :: expected channel e enrolled ls
  end.
Definition enrolled (prefs : gmap string Z) : bool :=
  bool_decide (prefs !! kTrialGroupMICeAndDefaultBrowserVersionPrefName = Some kCurrentTrialVersion).

(** ** Proofs *)

Context `{!FieldTrialLaws F}.

Lemma associate_run group param value s (l : list (string * FieldTrialParams)) :
  (forall g, GetFieldTrialParams (associator s) (mkFieldTrial kIOSMICeAndDefaultBrowserTrialName g) =
     (list_to_map l : gmap string FieldTrialParams) !! g) ->
  (list_to_map l : gmap string FieldTrialParams) !! group = None ->
  exists a, associate group param value s = Ok (tt, with_associator a s) /\
    forall g, GetFieldTrialParams a (mkFieldTrial kIOSMICeAndDefaultBrowserTrialName g) =
      (list_to_map ((group, {[param := value]}) :: l) : gmap string FieldTrialParams) !! g.
Proof.
  intros Hl Hg. specialize (Hl group) as Hn. rewrite Hg in Hn.
  destruct (Associate_new kIOSMICeAndDefaultBrowserTrialName group {[param := value]} (associator s) Hn) as [Ht Hs].
  unfold associate, mbind, mget, mmodify, dcheck.
  destruct (AssociateFieldTrialParams _ _ _ _) as [b a]. cbn in Ht. subst b. exists a. split; [done|].
  intros g. cbn in Hs. rewrite Hs. cbn. case_bool_decide as E.
  - injection E as ->. by rewrite lookup_insert_eq.
  - rewrite lookup_insert_ne by congruence. apply Hl.
Qed.

(** The parameters of the groups. *)
Definition group_params : list (string * FieldTrialParams) :=
  [(kDefaultBrowserPromoAtFirstRunOnlyGroup, {[kFREDefaultBrowserPromoParam := kFREDefaultBrowserPromoFirstRunOnlyParam]});
   (kFREDefaultBrowserAndSmallDelayBeforeOtherPromosGroup, {[kFREDefaultBrowserPromoParam := kFREDefaultBrowserPromoShortDelayParam]});
   (kFREDefaultBrowserAndDefaultDelayBeforeOtherPromosGroup, {[kFREDefaultBrowserPromoParam := kFREDefaultBrowserPromoDefaultDelayParam]});
   (kNewMICEFREWithTwoStepsSetGroup, {[kNewMobileIdentityConsistencyFREParam := kNewMobileIdentityConsistencyFREParamTwoSteps]});
   (kNewMICEFREWithThreeStepsSetGroup, {[kNewMobileIdentityConsistencyFREParam := kNewMobileIdentityConsistencyFREParamThreeSteps]});
   (kNewMICEFREWithUMADialogSetGroup, {[kNewMobileIdentityConsistencyFREParam := kNewMobileIdentityConsistencyFREParamUMADialog]})].
Definition params_of (group : string) : option FieldTrialParams := (list_to_map group_params : gmap string _) !! group.

Definition config_of (channel : Channel) : FirstRunFieldTrialConfig :=
  mkConfig kIOSMICeAndDefaultBrowserTrialName
    ((fun group => mkGroup (fst group) (snd group) (default 0%Z (GetGroupWeightsForFREVariations channel !! snd group)))
       <$> trial_groups).
Lemma add_groups_run channel s :
  add_groups trial_groups (GetGroupWeightsForFREVariations channel) (create kIOSMICeAndDefaultBrowserTrialName) s =
    Ok (config_of channel, s).
Proof. by destruct channel; vm_compute. Qed.

Lemma associate_ids trial groups s : exists ids,
  mfor groups (fun group => mmodify (fun s =>
    with_variation_ids (variation_ids s ++ [(trial, name_ group, variation_ group)]) s)) s =
  Ok (tt, with_variation_ids ids s).
Proof.
  revert s. induction groups as [|g groups IH]; intros s; [exists (variation_ids s); by destruct s|].
  cbn [mfor]. rewrite (mbind_run _ _ _ _ _ eq_refl). destruct (IH (with_variation_ids (variation_ids s ++ [(trial, name_ g, variation_ g)]) s))
    as [ids ->]. by exists ids.
Qed.

Lemma CreateOneTimeRandomizedTrial_run channel e s : exists ids,
  CreateOneTimeRandomizedTrial kDefaultGroup e (config_of channel) s =
    Ok (mkFieldTrial kIOSMICeAndDefaultBrowserTrialName (group_of channel e), with_variation_ids ids s).
Proof.
  unfold CreateOneTimeRandomizedTrial.
  assert (exists total, GetTotalProbability (config_of channel) s = Ok (total, s) /\ (total <=? 100)%Z = true) as (total & E & Ht).
  { destruct channel; eexists; split; vm_compute; reflexivity. }
  rewrite (mbind_run _ _ _ _ _ E). rewrite (mbind_run _ _ s tt s) by by rewrite Ht.
  destruct (associate_ids (trial_name_ (config_of channel)) (groups_ (config_of channel)) s) as [ids Ei].
  exists ids. rewrite (mbind_run _ _ _ _ _ Ei). unfold mreturn, group_of. do 3 f_equal.
Qed.

Lemma group_of_known channel e : group_of channel e = kDefaultGroup \/ is_Some (arm (group_of channel e)).
Proof.
  assert (group_of channel e ∈ kDefaultGroup :: (fst <$> trial_groups)) as Hg.
  { unfold group_of. change (fst <$> trial_groups) with (fst <$> ((fun group : string * Z =>
      (fst group, default 0%Z (GetGroupWeightsForFREVariations channel !! snd group))) <$> trial_groups)).
    apply choose_group_known; [|by destruct channel]. intros name p Hp.
    assert (Forall (fun np => 0 <= snd np)%Z ((fun group : string * Z =>
      (fst group, default 0%Z (GetGroupWeightsForFREVariations channel !! snd group))) <$> trial_groups)) as Hf
      by (destruct channel; vm_compute; repeat constructor; discriminate).
    rewrite Forall_forall in Hf. exact (Hf _ Hp). }
  apply elem_of_cons in Hg as [Hg|Hg]; [by left|right].
  assert (Forall (fun g => is_Some (arm g)) (fst <$> trial_groups)) as Hf
    by (vm_compute; repeat constructor; by eexists).
  rewrite Forall_forall in Hf. exact (Hf _ Hg).
Qed.

(** The features of the trial after it overrode them. *)
Definition overrides (ui mice promo : OverrideState) (trial : FieldTrial) (l : FeatureList) : FeatureList :=
  RegisterFieldTrialOverride (feature_name kEnableFREDefaultBrowserPromoScreen) promo trial
    (RegisterFieldTrialOverride (feature_name kNewMobileIdentityConsistencyFRE) mice trial
      (RegisterFieldTrialOverride (feature_name kEnableFREUIModuleIOS) ui trial l)).
Definition enables (state : OverrideState) : bool := bool_decide (state = OVERRIDE_ENABLE_FEATURE).

Definition free (l : FeatureList) : Prop :=
  forall f, f ∈ fre_features -> GetFieldTrial l f = None /\ IsFeatureOverriddenFromCommandLine l (feature_name f) = false.

Lemma overrides_spec ui mice promo trial l : free l ->
  let l' := overrides ui mice promo trial l in
  (IsEnabled l' kEnableFREUIModuleIOS = enables ui) /\
  (IsEnabled l' kNewMobileIdentityConsistencyFRE = enables mice /\ GetFieldTrial l' kNewMobileIdentityConsistencyFRE = Some trial) /\
  (IsEnabled l' kEnableFREDefaultBrowserPromoScreen = enables promo /\
   GetFieldTrial l' kEnableFREDefaultBrowserPromoScreen = Some trial).
Proof.
  intros Hl. pose proof other_feature as Hm. apply not_elem_of_cons in Hm as [Hm1 Hm]. apply not_elem_of_cons in Hm as [Hm2 _].
  destruct (Hl kEnableFREUIModuleIOS) as [Tu Cu]; [left|]. destruct (Hl kEnableFREDefaultBrowserPromoScreen) as [Tp Cp]; [right; left|].
  destruct (Hl kNewMobileIdentityConsistencyFRE) as [Tm Cm]; [right; right; left|]. cbv zeta. unfold overrides.
  set (l1 := RegisterFieldTrialOverride (feature_name kEnableFREUIModuleIOS) ui trial l).
  set (l2 := RegisterFieldTrialOverride (feature_name kNewMobileIdentityConsistencyFRE) mice trial l1).
  destruct (Register_same kEnableFREUIModuleIOS ui trial l Cu Tu) as [Eu _]. fold l1 in Eu.
  destruct (Register_other (feature_name kEnableFREUIModuleIOS) ui trial l kNewMobileIdentityConsistencyFRE) as [_ Tm1]; [done|].
  destruct (Register_same kNewMobileIdentityConsistencyFRE mice trial l1) as [Em Hm3];
    [unfold l1; by rewrite Register_command_line|by unfold l1; rewrite Tm1|]. fold l2 in Em, Hm3.
  assert (GetFieldTrial l2 kEnableFREDefaultBrowserPromoScreen = None) as Tp2.
  { destruct (Register_other (feature_name kNewMobileIdentityConsistencyFRE) mice trial l1 kEnableFREDefaultBrowserPromoScreen)
      as [_ E2]; [by apply not_eq_sym|].
    destruct (Register_other (feature_name kEnableFREUIModuleIOS) ui trial l kEnableFREDefaultBrowserPromoScreen) as [_ E1]; [done|].
    exact (eq_trans E2 (eq_trans E1 Tp)). }
  destruct (Register_same kEnableFREDefaultBrowserPromoScreen promo trial l2) as [Ep Hp];
    [unfold l2, l1; by rewrite !Register_command_line|done|].
  destruct (Register_other (feature_name kEnableFREDefaultBrowserPromoScreen) promo trial l2 kNewMobileIdentityConsistencyFRE Hm2) as [Em2 Hm4].
  destruct (Register_other (feature_name kEnableFREDefaultBrowserPromoScreen) promo trial l2 kEnableFREUIModuleIOS) as [Eu2 _]; [done|].
  destruct (Register_other (feature_name kNewMobileIdentityConsistencyFRE) mice trial l1 kEnableFREUIModuleIOS) as [Eu1 _]; [by apply not_eq_sym|].
  fold l2 in Eu1. split_and!; [by rewrite Eu2, Eu1|by rewrite Em2|by rewrite Hm4|done|done].
Qed.

(** What is read of the features and of the parameters of a group. *)
Definition value_of (group param : string) : string :=
  match params_of group with
  | Some params => default EmptyString ((params : gmap string string) !! param)
  | None => EmptyString
  end.
Definition outcome (group : string) (ui mice promo : OverrideState) :
    bool * NewMobileIdentityConsistencyFRE * NewDefaultBrowserPromoFRE :=
  (enables ui,
   if enables mice then option_named (value_of group kNewMobileIdentityConsistencyFREParam)
     kNewMobileIdentityConsistencyFREOptions kUMADialog else kOld,
   if enables ui && enables promo then option_named (value_of group kFREDefaultBrowserPromoParam)
     kNewDefaultBrowserPromoFREOptions kDefaultDelay else kDisabled).

(** What a group does: it overrides the three features. *)
Definition override_all (ui mice promo : OverrideState) (trial : FieldTrial) : M t unit :=
  Override kEnableFREUIModuleIOS ui trial ;;;
  Override kNewMobileIdentityConsistencyFRE mice trial ;;;
  Override kEnableFREDefaultBrowserPromoScreen promo trial.

Lemma arm_outcome group a : arm group = Some a -> exists ui mice promo,
  outcome group ui mice promo = a /\
  override_features (mkFieldTrial kIOSMICeAndDefaultBrowserTrialName group) =
    override_all ui mice promo (mkFieldTrial kIOSMICeAndDefaultBrowserTrialName group).
Proof.
  intros Ha. apply (elem_of_list_to_map_2 (M := gmap string) arms) in Ha.
  assert (Forall (fun ga => exists ui mice promo, outcome ga.1 ui mice promo = ga.2 /\
    override_features (mkFieldTrial kIOSMICeAndDefaultBrowserTrialName ga.1) =
      override_all ui mice promo (mkFieldTrial kIOSMICeAndDefaultBrowserTrialName ga.1)) arms)
    as Hf; [|rewrite Forall_forall in Hf; exact (Hf _ Ha)].
  unfold arms. repeat (apply Forall_cons; split; [cbn [fst snd]|]); [..|constructor].
  - by exists OVERRIDE_ENABLE_FEATURE, OVERRIDE_DISABLE_FEATURE, OVERRIDE_DISABLE_FEATURE.
  - by exists OVERRIDE_DISABLE_FEATURE, OVERRIDE_DISABLE_FEATURE, OVERRIDE_DISABLE_FEATURE.
  - by exists OVERRIDE_ENABLE_FEATURE, OVERRIDE_ENABLE_FEATURE, OVERRIDE_DISABLE_FEATURE.
  - by exists OVERRIDE_ENABLE_FEATURE, OVERRIDE_ENABLE_FEATURE, OVERRIDE_DISABLE_FEATURE.
  - by exists OVERRIDE_ENABLE_FEATURE, OVERRIDE_ENABLE_FEATURE, OVERRIDE_DISABLE_FEATURE.
  - by exists OVERRIDE_ENABLE_FEATURE, OVERRIDE_DISABLE_FEATURE, OVERRIDE_ENABLE_FEATURE.
  - by exists OVERRIDE_ENABLE_FEATURE, OVERRIDE_DISABLE_FEATURE, OVERRIDE_ENABLE_FEATURE.
  - by exists OVERRIDE_ENABLE_FEATURE, OVERRIDE_DISABLE_FEATURE, OVERRIDE_ENABLE_FEATURE.
Qed.

(** One override, when the feature has no trial and when it has one. *)
Lemma Override_run feature state trial s : GetFieldTrial (feature_list s) feature = None ->
  Override feature state trial s =
    Ok (tt, with_feature_list (RegisterFieldTrialOverride (feature_name feature) state trial (feature_list s)) s).
Proof.
  intros Hn. unfold Override. rewrite (mbind_run _ _ s s s), (mbind_run _ _ s tt s); [done| |done].
  unfold dcheck. by rewrite bool_decide_true.
Qed.
Lemma Override_conflict feature state trial s : is_Some (GetFieldTrial (feature_list s) feature) ->
  Override feature state trial s = Fault DCheckFailed.
Proof.
  intros [trial' Ht]. unfold Override. rewrite (mbind_run _ _ s s s) by done. unfold mbind, dcheck.
  by rewrite bool_decide_false by congruence.
Qed.
Lemma GetFieldTrial_other name state trial l f : feature_name f <> name ->
  GetFieldTrial (RegisterFieldTrialOverride name state trial l) f = GetFieldTrial l f.
Proof. intros Hn. by apply Register_other. Qed.

Lemma override_all_run ui mice promo trial s : (forall f, f ∈ fre_features -> GetFieldTrial (feature_list s) f = None) ->
  override_all ui mice promo trial s = Ok (tt, with_feature_list (overrides ui mice promo trial (feature_list s)) s).
Proof.
  intros Hn. pose proof other_feature as Hm. apply not_elem_of_cons in Hm as [Hm1 Hm]. apply not_elem_of_cons in Hm as [Hm2 _].
  unfold override_all. erewrite mbind_run by (apply Override_run, Hn; left). erewrite mbind_run.
  2: { apply Override_run. cbn. rewrite GetFieldTrial_other by done. apply Hn. right. right. left. }
  rewrite Override_run; [done|]. cbn. rewrite !GetFieldTrial_other; [|done|by apply not_eq_sym]. apply Hn. right. left.
Qed.

(** A feature that has another trial cannot be overridden. *)
Lemma override_all_conflict ui mice promo trial s f : f ∈ fre_features -> is_Some (GetFieldTrial (feature_list s) f) ->
  override_all ui mice promo trial s = Fault DCheckFailed.
Proof.
  pose proof other_feature as Hm. apply not_elem_of_cons in Hm as [Hm1 Hm]. apply not_elem_of_cons in Hm as [Hm2 _].
  intros Hf Ht. unfold override_all.
  destruct (GetFieldTrial (feature_list s) kEnableFREUIModuleIOS) eqn:E1.
  { unfold mbind. by rewrite Override_conflict by (by rewrite E1). }
  erewrite mbind_run by by apply Override_run.
  destruct (GetFieldTrial (feature_list s) kNewMobileIdentityConsistencyFRE) eqn:E2.
  { unfold mbind. rewrite Override_conflict; [done|]. cbn. by rewrite GetFieldTrial_other, E2 by done. }
  erewrite mbind_run by (apply Override_run; cbn; by rewrite GetFieldTrial_other by done).
  apply Override_conflict. cbn. rewrite !GetFieldTrial_other; [|done|by apply not_eq_sym].
  unfold fre_features in Hf. rewrite !elem_of_cons, elem_of_nil in Hf. destruct Hf as [->|[->|[->|[]]]]; [|done|].
  - rewrite E1 in Ht. by destruct Ht.
  - rewrite E2 in Ht. by destruct Ht.
Qed.

Lemma reading_outcome group ui mice promo l s : free l ->
  GetFieldTrialParams (associator s) (mkFieldTrial kIOSMICeAndDefaultBrowserTrialName group) = params_of group ->
  feature_list s = overrides ui mice promo (mkFieldTrial kIOSMICeAndDefaultBrowserTrialName group) l ->
  reading s = outcome group ui mice promo.
Proof.
  intros Hl Hp El. destruct (overrides_spec ui mice promo (mkFieldTrial kIOSMICeAndDefaultBrowserTrialName group) l Hl)
    as (Eu & [Em Tm] & [Ep Tp]). rewrite <- El in *.
  unfold reading, outcome, GetNewMobileIdentityConsistencyFRE, GetFREDefaultBrowserScreenPromoFRE,
    kNewDefaultBrowserPromoFREParam, kkNewMobileIdentityConsistencyFREParam, param_Get, GetFieldTrialParamValueByFeature, value_of.
  rewrite Eu, Em, Ep, Tm, Tp, Hp.
  destruct (enables mice), (enables ui), (enables promo); cbn [andb]; by destruct (params_of group).
Qed.

(** The trial is created in any launch: its groups get their parameters, and the
    client its group. *)
Lemma CreateNew_trial channel e s :
  (forall g, GetFieldTrialParams (associator s) (mkFieldTrial kIOSMICeAndDefaultBrowserTrialName g) = None) ->
  exists s', CreateNewMICeAndDefaultBrowserFRETrial (GetGroupWeightsForFREVariations channel) e s =
      (override_features (mkFieldTrial kIOSMICeAndDefaultBrowserTrialName (group_of channel e)) ;;; mreturn kCurrentTrialVersion) s' /\
    feature_list s' = feature_list s /\ local_state s' = local_state s /\
    (forall g, GetFieldTrialParams (associator s') (mkFieldTrial kIOSMICeAndDefaultBrowserTrialName g) = params_of g).
Proof.
  intros H0. unfold CreateNewMICeAndDefaultBrowserFRETrial. rewrite (mbind_run _ _ _ _ _ (add_groups_run channel s)).
  unfold AssociateFieldTrialParamsForNewMICEFREGroup, AssociateFieldTrialParamsForDefaultBrowserGroup.
  edestruct (associate_run kNewMICEFREWithUMADialogSetGroup) with (s := s) (l := @nil (string * FieldTrialParams))
    as (a1 & E1 & H1); [exact H0|done|]. rewrite (mbind_run _ _ _ _ _ E1). clear E1.
  edestruct associate_run with (s := with_associator a1 s) as (a2 & E2 & H2); [exact H1| |rewrite (mbind_run _ _ _ _ _ E2)]; [done|].
  edestruct associate_run with (s := with_associator a2 s) as (a3 & E3 & H3); [exact H2| |erewrite mbind_run by exact E3]; [done|].
  edestruct associate_run with (s := with_associator a3 s) as (a4 & E4 & H4); [exact H3| |erewrite mbind_run by exact E4]; [done|].
  edestruct associate_run with (s := with_associator a4 s) as (a5 & E5 & H5); [exact H4| |erewrite mbind_run by exact E5]; [done|].
  edestruct associate_run with (s := with_associator a5 s) as (a6 & E6 & H6); [exact H5| |erewrite mbind_run by exact E6]; [done|].
  set (s6 := with_associator a6 s). destruct (CreateOneTimeRandomizedTrial_run channel e s6) as [ids E].
  erewrite mbind_run by exact E. exists (with_variation_ids ids s6). split_and!; [done..|exact H6].
Qed.

(** The features are those of the group of the client. *)
Lemma CreateNew_run channel e s : free (feature_list s) ->
  (forall g, GetFieldTrialParams (associator s) (mkFieldTrial kIOSMICeAndDefaultBrowserTrialName g) = None) ->
  exists s', CreateNewMICeAndDefaultBrowserFRETrial (GetGroupWeightsForFREVariations channel) e s = Ok (kCurrentTrialVersion, s') /\
    local_state s' = local_state s /\
    match arm (group_of channel e) with
    | Some a => reading s' = a
    | None => feature_list s' = feature_list s
    end.
Proof.
  intros Hl H0. destruct (CreateNew_trial channel e s H0) as (s1 & -> & El & Ep & Hp).
  destruct (group_of_known channel e) as [Eg|[a Ha]].
  - rewrite Eg. exists s1. by split_and!.
  - rewrite Ha. destruct (arm_outcome _ a Ha) as (ui & mice & promo & <- & Er).
    rewrite Er. erewrite mbind_run by (apply override_all_run; rewrite El; intros f Hf; exact (proj1 (Hl f Hf))).
    eexists. split; [reflexivity|]. split; [done|]. eapply reading_outcome; [exact Hl|done|]. cbn. by rewrite El.
Qed.

(** Another trial that has one of the features is a conflict. *)
Lemma CreateNew_conflict channel e s f : f ∈ fre_features -> is_Some (GetFieldTrial (feature_list s) f) ->
  (forall g, GetFieldTrialParams (associator s) (mkFieldTrial kIOSMICeAndDefaultBrowserTrialName g) = None) ->
  group_of channel e <> kDefaultGroup ->
  CreateNewMICeAndDefaultBrowserFRETrial (GetGroupWeightsForFREVariations channel) e s = Fault DCheckFailed.
Proof.
  intros Hf Ht H0 Hg. destruct (CreateNew_trial channel e s H0) as (s1 & -> & El & _).
  destruct (group_of_known channel e) as [|[a Ha]]; [done|]. destruct (arm_outcome _ a Ha) as (ui & mice & promo & _ & ->).
  unfold mbind. rewrite (override_all_conflict ui mice promo _ s1 f); [done..|by rewrite El].
Qed.

(** Without a trial the parameters do not matter. *)
Lemma reading_no_trial s s' : feature_list s' = feature_list s -> (forall f, f ∈ fre_features -> GetFieldTrial (feature_list s) f = None) ->
  reading s' = reading s.
Proof.
  intros El Hn. unfold reading, GetNewMobileIdentityConsistencyFRE, GetFREDefaultBrowserScreenPromoFRE,
    kNewDefaultBrowserPromoFREParam, kkNewMobileIdentityConsistencyFREParam, param_Get, GetFieldTrialParamValueByFeature.
  rewrite El, (Hn kEnableFREDefaultBrowserPromoScreen), (Hn kNewMobileIdentityConsistencyFRE); [done|right; right; left|right; left].
Qed.

Lemma GetInteger_start l prefs : exists version,
  GetInteger kTrialGroupMICeAndDefaultBrowserVersionPrefName (start l prefs) = Some version /\
  (version =? kCurrentTrialVersion)%Z = enrolled prefs.
Proof.
  unfold GetInteger, enrolled. cbn. destruct (prefs !! kTrialGroupMICeAndDefaultBrowserVersionPrefName) as [v|] eqn:E.
  - exists v. split; [by apply lookup_union_Some_l|]. apply eq_true_iff_eq. rewrite Z.eqb_eq, bool_decide_eq_true. split; congruence.
  - exists kPlaceholderTrialVersion. split; [by rewrite lookup_union_r|done].
Qed.

(** One launch: whether it creates the trial. *)
Definition creates (prefs : gmap string Z) (l : Launch) : bool := (enrolled prefs || first_run l) && negb (forced l).

Lemma forced_free l : forced l = false -> fresh_features l -> free (features l).
Proof.
  intros Ef Hf f Hi. split; [by apply Hf|]. destruct (IsFeatureOverriddenFromCommandLine _ (feature_name f)) eqn:Ec; [|done].
  unfold forced in Ef. rewrite <- Ef. symmetry. apply existsb_exists. exists f. by rewrite <- list_elem_of_In.
Qed.

Lemma Create_run channel e l prefs :
  Create channel (first_run l) e (start l prefs) =
    if forced l then Ok (tt, start l prefs)
    else if first_run l then
      (let! trial_version := CreateNewMICeAndDefaultBrowserFRETrial (GetGroupWeightsForFREVariations channel) e in
       mmodify (fun s => with_local_state (<[kTrialGroupMICeAndDefaultBrowserVersionPrefName := trial_version]> (local_state s)) s)) (start l prefs)
    else if enrolled prefs then
      (CreateNewMICeAndDefaultBrowserFRETrial (GetGroupWeightsForFREVariations channel) e ;;; mreturn tt) (start l prefs)
    else Ok (tt, start l prefs).
Proof.
  unfold Create. rewrite (mbind_run _ _ (start l prefs) (start l prefs) (start l prefs)) by done.
  assert (IsFeatureOverriddenFromCommandLine (feature_list (start l prefs)) (feature_name kEnableFREUIModuleIOS)
    || IsFeatureOverriddenFromCommandLine (feature_list (start l prefs)) (feature_name kEnableFREDefaultBrowserPromoScreen)
    || IsFeatureOverriddenFromCommandLine (feature_list (start l prefs)) (feature_name kNewMobileIdentityConsistencyFRE) = forced l) as ->
    by (unfold forced; cbn; by rewrite orb_false_r, orb_assoc).
  destruct (forced l); [done|]. destruct (first_run l); [done|].
  destruct (GetInteger_start l prefs) as (version & Ev & Eb). rewrite Ev.
  rewrite (mbind_run _ _ (start l prefs) version (start l prefs)), Eb by done. by destruct (enrolled prefs).
Qed.

Lemma launch_run channel e l prefs : fresh_launch l -> exists prefs',
  launch channel e l prefs =
    Ok (if creates prefs l then default (reading (start l ∅)) (arm (group_of channel e)) else reading (start l ∅), prefs') /\
  enrolled prefs' = enrolled prefs || (first_run l && negb (forced l)).
Proof.
  intros Hfresh. unfold launch, creates. rewrite Create_run.
  destruct (forced l) eqn:Ef; [exists prefs; by rewrite !andb_false_r, orb_false_r|]. rewrite !andb_true_r.
  destruct (Hfresh Ef) as [Hf Hp].
  destruct (CreateNew_run channel e (start l prefs) (forced_free l Ef Hf) Hp) as (s' & E & El & Ha).
  assert (reading s' = default (reading (start l ∅)) (arm (group_of channel e))) as Es
    by (destruct (arm _); [done|by apply reading_no_trial]).
  destruct (first_run l).
  - rewrite (mbind_run _ _ _ _ _ E). eexists. split; [unfold mmodify; rewrite orb_true_r, <- Es; reflexivity|].
    rewrite orb_true_r. unfold enrolled. cbn. apply bool_decide_eq_true. by rewrite lookup_insert_eq.
  - rewrite orb_false_r. destruct (enrolled prefs) eqn:Ee; [|by exists prefs].
    rewrite (mbind_run _ _ _ _ _ E). exists prefs. split; [unfold mreturn; by rewrite Es, El|done].
Qed.

Lemma launch_conflict channel e l prefs f : f ∈ fre_features -> is_Some (GetFieldTrial (features l) f) -> fresh_parameters l ->
  group_of channel e <> kDefaultGroup -> creates prefs l = true -> launch channel e l prefs = Fault DCheckFailed.
Proof.
  intros Hf Ht Hp Hg [He Ef%negb_true_iff]%andb_true_iff. unfold launch. rewrite Create_run, Ef.
  pose proof (CreateNew_conflict channel e (start l prefs) f Hf Ht Hp Hg) as E.
  destruct (first_run l); [unfold mbind; by rewrite E|]. rewrite orb_false_r in He. rewrite He. unfold mbind. by rewrite E.
Qed.

(** C39: a client keeps its group, as long as the channel of the application is the same
    and no other trial has the features or the name of this one in a launch that does not
    force one of the features from the command line. In any sequence of such launches none
    fails; a client is enrolled by its first run, unless a feature of the
    experiment was forced in it, and never otherwise. From then on every launch whose features
    are not forced puts it in the same group, so that the application reads exactly the
    features of the arm of that group; all other launches, and the default group, read the features as
    they are without the experiment. And when another trial has one of the features, a
    launch that puts the client in a group other than the default one fails. *)
Theorem launches_keep_group channel e ls prefs : Forall fresh_launch ls ->
  exists prefs', mmap ls (launch channel e) prefs = Ok (expected channel e (enrolled prefs) ls, prefs') /\
  (group_of channel e = kDefaultGroup \/ is_Some (arm (group_of channel e))) /\
  (forall l f, f ∈ fre_features -> is_Some (GetFieldTrial (features l) f) -> fresh_parameters l ->
   group_of channel e <> kDefaultGroup -> creates prefs' l = true -> launch channel e l prefs' = Fault DCheckFailed).
Proof.
  intros Hls. cut (exists prefs', mmap ls (launch channel e) prefs = Ok (expected channel e (enrolled prefs) ls, prefs')).
  { intros [prefs' E]. exists prefs'. split_and!; [done|apply group_of_known|]. intros l f. apply launch_conflict. }
  revert prefs. induction Hls as [|l ls Hl Hls IH]; intros prefs; [by exists prefs|].
  destruct (launch_run channel e l prefs Hl) as (prefs1 & E1 & En). destruct (IH prefs1) as [prefs2 E2].
  exists prefs2. cbn [mmap expected]. rewrite (mbind_run _ _ _ _ _ E1), (mbind_run _ _ _ _ _ E2), En.
  replace (creates prefs l) with ((enrolled prefs || first_run l && negb (forced l)) && negb (forced l)); [done|].
  unfold creates. by destruct (forced l); rewrite ?andb_false_r, ?andb_true_r.
Qed.

End Code.
End fre_field_trial.

(** ** Example *)

Module ExampleFieldTrial.
Import FirstRunFieldTrials fre_field_trial.

(** The entropy of a client is a percentage. *)
Fixpoint choose (percent : Z) (default_group : string) (groups : list (string * Z)) : string :=
  match groups with
  | [] => default_group
  | (name, probability) :: groups => if (percent <? probability)%Z then name else choose (percent - probability) default_group groups
  end.
(** The features that the command line overrides, and the trials of the others. *)
Record Features : Type := mkFeatures { command_line : list string; trials : gmap string (OverrideState * FieldTrial) }.

#[export] Instance trial_ops : FieldTrialOps := {|
  EntropyProvider := Z;
  choose_group e _ _ default_group groups := choose e default_group groups;
  ParamAssociator := list (FieldTrial * FieldTrialParams);
  AssociateFieldTrialParams trial group params a :=
    if existsb (fun p => bool_decide (mkFieldTrial trial group = fst p)) a then (false, a)
    else (true, (mkFieldTrial trial group, params) :: a);
  GetFieldTrialParams a t := snd <$> find (fun p => bool_decide (t = fst p)) a;
  FeatureList := Features;
  IsFeatureOverriddenFromCommandLine l f := bool_decide (f ∈ command_line l);
  RegisterFieldTrialOverride name state trial l :=
    if bool_decide (name ∈ command_line l) then l
    else mkFeatures (command_line l) (<[name := default (state, trial) (trials l !! name)]> (trials l));
  IsEnabled l f := match trials l !! feature_name f with
                   | Some (state, _) => bool_decide (state = OVERRIDE_ENABLE_FEATURE)
                   | None => default_state f
                   end;
  GetFieldTrial l f := snd <$> trials l !! feature_name f;
  kNewMobileIdentityConsistencyFRE := mkFeature "NewMobileIdentityConsistencyFRE" false
|}.

#[export] Instance trial_laws : FieldTrialLaws trial_ops.
Proof.
  split.
  - intros e trial total default_group groups _ _. cbn. revert e.
    induction groups as [|[name p] groups IH]; intros e; cbn; [left|]. destruct (e <? p)%Z; [right; left|].
    specialize (IH (e - p)%Z). apply elem_of_cons in IH as [->|IH]; [left|right; by right].
  - intros trial group params a Hn. cbn in Hn |- *.
    assert (existsb (fun p => bool_decide (mkFieldTrial trial group = fst p)) a = false) as ->.
    { induction a as [|p a IH]; [done|]. cbn in Hn |- *. destruct (bool_decide _); [done|]. by apply IH. }
    split; [done|]. intros t. cbn. by case_bool_decide.
  - intros name state trial l f. cbn. by destruct (bool_decide (name ∈ command_line l)).
  - intros f state trial l Hc Ht. apply bool_decide_eq_false in Hc. cbn in Ht |- *. rewrite bool_decide_false by done. cbn.
    rewrite lookup_insert_eq. destruct (trials l !! feature_name f); done.
  - intros name state trial l f Hn. cbn. case_bool_decide; [done|]. cbn. by rewrite lookup_insert_ne.
  - apply (bool_decide_unpack _). vm_compute. exact I.
Qed.

Definition no_override : Features := mkFeatures [] ∅.
(** Another trial has a feature, which the command line forces or not. *)
Definition other_trial (command_line : list string) : Features :=
  mkFeatures command_line {["EnableFREUIModuleIOSV3" := (OVERRIDE_ENABLE_FEATURE, mkFieldTrial "Other" "Group")]}.
Definition example_launches : list Launch :=
  [mkLaunch true no_override []; mkLaunch false (other_trial ["EnableFREUIModuleIOSV3"]) []; mkLaunch false no_override []].

Definition client : EntropyProvider (FieldTrialOps := trial_ops) := 30%Z.

(** A client whose first run puts it in the group of the three steps; then another
    trial takes a feature. *)
Lemma launches_keep_group_witness : exists prefs',
  mmap example_launches (launch STABLE client) RegisterLocalStatePrefs =
    Ok ([(true, kThreeSteps, kDisabled); (true, kOld, kDisabled); (true, kThreeSteps, kDisabled)], prefs') /\
  launch STABLE client (mkLaunch true (other_trial []) []) prefs' = Fault DCheckFailed.
Proof.
  destruct (launches_keep_group STABLE client example_launches RegisterLocalStatePrefs) as (prefs' & E & _ & Hc).
  { repeat constructor; done. }
  exists prefs'. split; [rewrite E; vm_compute; reflexivity|].
  apply (Hc _ kEnableFREUIModuleIOS); [left|vm_compute; by eexists|intros group; reflexivity|vm_compute; discriminate|].
  unfold creates. rewrite orb_true_r. vm_compute. reflexivity.
Defined.

End ExampleFieldTrial.
