(* ===== verification/PolicyDecisions.v ===== *)
(** * Policy decisions

    The deciders of a WebState and the tracker of their decisions on a request or
    a response (src/web/public/navigation/web_state_policy_decider.h,
    src/web/web_state/web_state_policy_decider.mm,
    src/web/web_state/policy_decision_state_tracker.{h,mm}, and
    [ShouldAllowRequest] and [ShouldAllowResponse] of
    src/web/web_state/web_state_impl_realized_web_state.mm).

    A decider is asked with a callback. It runs it once, before it returns or
    later, or never; the tracker is destroyed with the last copy of
    the callback. [base::BarrierClosure] is not code of the repository: it counts
    down its calls, and runs its closure at zero. *)

From stdpp Require Import base tactics option list numbers.
From Stdlib Require Import ZArith Lia.
From S2P Require Import Prelude.

Module WebStatePolicyDecider.

(** [NSError*] is an identity. *)
Inductive Decision : Type := kAllow | kCancel | kCancelAndDisplayError.
#[export] Instance Decision_eq_dec : EqDecision Decision.
Proof. solve_decision. Defined.
Record PolicyDecision : Type := mkDecision { decision : Decision; error : option positive }.
#[export] Instance PolicyDecision_eq_dec : EqDecision PolicyDecision.
Proof. solve_decision. Defined.

Definition Allow : PolicyDecision := mkDecision kAllow None.
Definition Cancel : PolicyDecision := mkDecision kCancel None.
Definition CancelAndDisplayError (error : option positive) : PolicyDecision := mkDecision kCancelAndDisplayError error.

Definition ShouldAllowNavigation (d : PolicyDecision) : bool := bool_decide (decision d = kAllow).
Definition ShouldCancelNavigation (d : PolicyDecision) : bool := negb (ShouldAllowNavigation d).
Definition ShouldDisplayError (d : PolicyDecision) : bool := bool_decide (decision d = kCancelAndDisplayError).
Definition GetDisplayError (d : PolicyDecision) : option positive := error d.

(** The constructor of a decision is private: it is made by the three functions. *)
Definition well_made (d : PolicyDecision) : Prop := decision d <> kCancelAndDisplayError -> error d = None.

End WebStatePolicyDecider.

Module PolicyDecisionStateTracker.
Import WebStatePolicyDecider.

Inductive DecisionClosure : Type := DoNothing | Barrier (callbacks_left : Z).

(** [callback_] tells whether the callback was not run; [answers] are the
    decisions it was run with. *)
Record t : Type := mk {
  callback_ : bool;
  result_ : PolicyDecision;
  num_decisions_received_ : Z;
  decision_closure_ : DecisionClosure;
  answers : list PolicyDecision
}.
Definition with_result (v : PolicyDecision) (s : t) : t :=
  mk (callback_ s) v (num_decisions_received_ s) (decision_closure_ s) (answers s).
Definition with_num_decisions_received (v : Z) (s : t) : t :=
  mk (callback_ s) (result_ s) v (decision_closure_ s) (answers s).
Definition with_decision_closure (v : DecisionClosure) (s : t) : t :=
  mk (callback_ s) (result_ s) (num_decisions_received_ s) v (answers s).

Definition create : t := mk true Allow 0 DoNothing [].

(** [std::move(callback_).Run(d)]: a null callback cannot be run. *)
Definition run_callback (d : PolicyDecision) : M t unit :=
  let! s := mget in
  check (callback_ s) ;;;
  mmodify (fun s => mk false (result_ s) (num_decisions_received_ s) (decision_closure_ s) (answers s ++ [d])).

Definition DeterminedFinalResult (s : t) : bool := negb (callback_ s).
Definition OnFinalResultDetermined : M t unit := let! s := mget in run_callback (result_ s).

(** [decision_closure_.Run()]; a barrier is not run more often than it counts. *)
Definition run_closure : M t unit :=
  let! s := mget in
  match decision_closure_ s with
  | DoNothing => mreturn tt
  | Barrier n =>
      dcheck (0 <? n)%Z ;;;
      mmodify (with_decision_closure (Barrier (n - 1))) ;;;
      mwhen (n - 1 =? 0)%Z OnFinalResultDetermined
  end.

Definition OnSinglePolicyDecisionReceived (d : PolicyDecision) : M t unit :=
  let! s := mget in
  if DeterminedFinalResult s then mreturn tt
  else if ShouldCancelNavigation d && negb (ShouldDisplayError d) then
    mmodify (with_result d) ;;; OnFinalResultDetermined
  else
    mmodify (fun s => with_num_decisions_received (num_decisions_received_ s + 1) s) ;;;
    mwhen (ShouldDisplayError d && ShouldAllowNavigation (result_ s)) (mmodify (with_result d)) ;;;
    run_closure.

(** [BarrierClosure(0, done)] runs its closure at once. *)
Definition FinishedRequestingDecisions (num_decisions_requested : Z) : M t unit :=
  let! s := mget in
  if DeterminedFinalResult s then mreturn tt
  else
    let n := (num_decisions_requested - num_decisions_received_ s)%Z in
    dcheck (0 <=? n)%Z ;;;
    mwhen (n =? 0)%Z OnFinalResultDetermined ;;;
    mmodify (with_decision_closure (Barrier n)).

(** [~PolicyDecisionStateTracker] *)
Definition destroy : M t unit := let! s := mget in mwhen (callback_ s) (run_callback Cancel).

(** [ShouldAllowRequest], [ShouldAllowResponse]: a decider is what it answers
    before it returns; the loop gives the number of deciders that were asked. *)
Fixpoint request_decisions (policy_deciders : list (option PolicyDecision)) (num_decisions_requested : Z) : M t Z :=
  match policy_deciders with
  | [] => mreturn num_decisions_requested
  | policy_decider :: policy_deciders =>
      match policy_decider with
      | Some d => OnSinglePolicyDecisionReceived d
      | None => mreturn tt
      end ;;;
      let! s := mget in
      if DeterminedFinalResult s then mreturn (num_decisions_requested + 1)%Z
      else request_decisions policy_deciders (num_decisions_requested + 1)
  end.
Definition ShouldAllow (policy_deciders : list (option PolicyDecision)) : M t unit :=
  let! num_decisions_requested := request_decisions policy_deciders 0 in
  FinishedRequestingDecisions num_decisions_requested.

(** [ShouldAllowErrorPageToBeDisplayed] *)
Fixpoint ShouldAllowErrorPageToBeDisplayed (policy_deciders : list bool) : bool :=
  match policy_deciders with
  | [] => true
  | allowed :: policy_deciders => if negb allowed then false else ShouldAllowErrorPageToBeDisplayed policy_deciders
  end.

(** ** The specification *)

(** The decisions of the deciders that are asked: up to the first one that cancels
    at once. *)
Fixpoint asked (policy_deciders : list (option PolicyDecision)) : list (option PolicyDecision) :=
  match policy_deciders with
  | [] => []
  | d :: ds => if bool_decide ((decision <$> d) = Some kCancel) then [d] else d :: asked ds
  end.

Definition cancels (d : PolicyDecision) : bool := bool_decide (decision d = kCancel).
Definition fails (d : PolicyDecision) : bool := bool_decide (decision d = kCancelAndDisplayError).

(** The decision of all of them: the first that cancels, or else the first with an
    error, or else to allow. *)
Definition combined (ds : list PolicyDecision) : PolicyDecision :=
  match find cancels ds with
  | Some d => d
  | None => match find fails ds with Some d => d | None => Allow end
  end.

Lemma find_app {A} (p : A -> bool) (l l' : list A) :
  find p (l ++ l') = match find p l with Some x => Some x | None => find p l' end.
Proof. induction l as [|x l IH]; cbn; [done|]. by destruct (p x). Qed.

Lemma existsb_find_None {A} (p : A -> bool) (l : list A) : existsb p l = false -> find p l = None.
Proof. induction l as [|x l IH]; cbn; [done|]. by destruct (p x). Qed.

(** The tracker before the deciders are all asked, and after: [n] is the number of
    those that were asked. *)
Record receives (closed : option nat) (ds : list PolicyDecision) (s : t) : Prop := {
  receives_running : callback_ s = true;
  receives_answers : answers s = [];
  receives_cancel : existsb cancels ds = false;
  receives_result : result_ s = combined ds;
  receives_count : num_decisions_received_ s = Z.of_nat (length ds);
  receives_closure : match closed with
    | None => decision_closure_ s = DoNothing
    | Some n => (length ds < n)%nat /\ decision_closure_ s = Barrier (Z.of_nat n - Z.of_nat (length ds))
    end
}.
Definition answers_with (d : PolicyDecision) (s : t) : Prop := callback_ s = false /\ answers s = [d].

Lemma combined_snoc ds d : existsb cancels ds = false -> cancels d = false ->
  combined (ds ++ [d]) = if fails d && ShouldAllowNavigation (combined ds) then d else combined ds.
Proof.
  intros Hc%existsb_find_None Hd. unfold combined. rewrite !find_app, Hc. cbn. rewrite Hd.
  destruct (find fails ds) as [e|] eqn:He; [|by destruct (fails d)].
  apply find_some in He as [_ He]. unfold fails, ShouldAllowNavigation in *. apply bool_decide_eq_true in He.
  rewrite He. by rewrite andb_false_r.
Qed.

Lemma OnFinalResultDetermined_run s : callback_ s = true ->
  OnFinalResultDetermined s =
    Ok (tt, mk false (result_ s) (num_decisions_received_ s) (decision_closure_ s) (answers s ++ [result_ s])).
Proof. destruct s as [c ? ? ? ?]. cbn. by intros ->. Qed.

Lemma receive_run closed ds d s : receives closed ds s ->
  exists s', OnSinglePolicyDecisionReceived d s = Ok (tt, s') /\
    if cancels d then answers_with (combined (ds ++ [d])) s'
    else match closed with
         | Some n => if (n =? S (length ds))%nat then answers_with (combined (ds ++ [d])) s' else receives closed (ds ++ [d]) s'
         | None => receives closed (ds ++ [d]) s'
         end.
Proof.
  intros [H1 H2 H3 H4 H5 H6]. unfold OnSinglePolicyDecisionReceived. rewrite (mbind_run _ _ s s s) by done.
  unfold DeterminedFinalResult. rewrite H1. cbn [negb].
  assert (ShouldCancelNavigation d && negb (ShouldDisplayError d) = cancels d) as ->.
  { unfold ShouldCancelNavigation, ShouldDisplayError, ShouldAllowNavigation, cancels. by destruct (decision d). }
  destruct (cancels d) eqn:Ec.
  { rewrite (mbind_run _ _ s tt (with_result d s)), OnFinalResultDetermined_run by done. eexists. split; [done|].
    split; [done|]. cbn. rewrite H2. cbn. f_equal. unfold combined. apply existsb_find_None in H3.
    rewrite find_app, H3. cbn. by rewrite Ec. }
  set (s1 := mk true (combined (ds ++ [d])) (Z.of_nat (length (ds ++ [d]))) (decision_closure_ s) []).
  rewrite (mbind_run _ _ s tt (with_num_decisions_received (num_decisions_received_ s + 1) s)) by done.
  rewrite (mbind_run _ _ _ tt s1).
  2: { subst s1. rewrite H4, combined_snoc, length_app by done. change (ShouldDisplayError d) with (fails d). cbn [length].
       replace (Z.of_nat (length ds + 1)) with (num_decisions_received_ s + 1)%Z by lia. destruct s. cbn in *. subst.
       by destruct (fails d && _). }
  assert (existsb cancels (ds ++ [d]) = false) as Hc by (rewrite existsb_app, H3; cbn; by rewrite Ec).
  unfold run_closure. rewrite (mbind_run _ _ s1 s1 s1) by done. cbn [decision_closure_ s1]. destruct closed as [n|].
  2: { rewrite H6. exists s1. split; [done|]. by split. }
  destruct H6 as [Hn ->]. rewrite (mbind_run _ _ s1 tt s1) by (unfold dcheck; by rewrite (proj2 (Z.ltb_lt _ _)) by lia).
  destruct (Nat.eqb_spec n (S (length ds))) as [->|Hne].
  - replace (Z.of_nat (S (length ds)) - Z.of_nat (length ds) - 1)%Z with 0%Z by lia. eexists. split; [done|]. by split.
  - assert ((Z.of_nat n - Z.of_nat (length ds) - 1 =? 0)%Z = false) as -> by (apply Z.eqb_neq; lia).
    eexists. split; [done|]. split; try done. cbn. rewrite length_app. cbn. split; [lia|]. f_equal. lia.
Qed.

Lemma final_ignores d s : callback_ s = false -> OnSinglePolicyDecisionReceived d s = Ok (tt, s).
Proof. intros Hc. unfold OnSinglePolicyDecisionReceived. rewrite (mbind_run _ _ s s s) by done. unfold DeterminedFinalResult. by rewrite Hc. Qed.

(** The decisions that are made before the deciders return. *)
Fixpoint at_once (l : list (option PolicyDecision)) : list PolicyDecision :=
  match l with
  | [] => []
  | Some d :: l => d :: at_once l
  | None :: l => at_once l
  end.

Definition status (n : nat) (ds : list PolicyDecision) (s : t) : Prop :=
  if existsb cancels ds || (n =? length ds)%nat then answers_with (combined ds) s else receives (Some n) ds s.

Lemma cancels_snoc ds d : existsb cancels (ds ++ [d]) = existsb cancels ds || cancels d.
Proof. rewrite existsb_app. cbn. by rewrite orb_false_r. Qed.

Lemma request_run l : forall ds k s, receives None ds s ->
  exists s', request_decisions l k s = Ok ((k + Z.of_nat (length (asked l)))%Z, s') /\
    if existsb cancels (at_once (asked l)) then answers_with (combined (ds ++ at_once (asked l))) s'
    else receives None (ds ++ at_once (asked l)) s'.
Proof.
  induction l as [|o l IH]; intros ds k s Hr; cbn [request_decisions asked].
  { exists s. cbn. rewrite app_nil_r, Z.add_0_r. done. }
  destruct o as [d|].
  - destruct (receive_run None ds d s Hr) as (s1 & E1 & H1). rewrite (mbind_run _ _ s tt s1), (mbind_run _ _ s1 s1 s1) by done.
    change (bool_decide (decision <$> Some d = Some kCancel)) with (bool_decide (Some (decision d) = Some kCancel)).
    assert (bool_decide (Some (decision d) = Some kCancel) = cancels d) as -> by (unfold cancels; apply bool_decide_ext; split; congruence).
    destruct (cancels d) eqn:Ec.
    + exists s1. unfold DeterminedFinalResult. rewrite (proj1 H1). cbn. by rewrite Ec.
    + unfold DeterminedFinalResult. rewrite (receives_running _ _ _ H1). cbn [negb].
      destruct (IH _ (k + 1)%Z s1 H1) as (s2 & E2 & H2). exists s2. cbn. rewrite Ec, <- app_assoc in *. cbn in *.
      rewrite E2. split; [f_equal; f_equal; lia|done].
  - rewrite (mbind_run _ _ s tt s), (mbind_run _ _ s s s) by done. unfold DeterminedFinalResult. rewrite (receives_running _ _ _ Hr).
    destruct (IH ds (k + 1)%Z s Hr) as (s2 & E2 & H2). exists s2. cbn. rewrite bool_decide_false by done. cbn. rewrite E2. split; [f_equal; f_equal; lia|done].
Qed.

Lemma at_once_length l : length (at_once l) <= length l.
Proof. induction l as [|[d|] l IH]; cbn [at_once length]; lia. Qed.

Lemma ShouldAllow_run l :
  exists s, ShouldAllow l create = Ok (tt, s) /\ status (length (asked l)) (at_once (asked l)) s.
Proof.
  unfold ShouldAllow. destruct (request_run l [] 0%Z create) as (s & E & H); [by split|]. rewrite (mbind_run _ _ _ _ _ E).
  cbn [app] in H. unfold FinishedRequestingDecisions, status. rewrite (mbind_run _ _ s s s) by done.
  destruct (existsb cancels (at_once (asked l))) eqn:Ec; cbn [orb]; unfold DeterminedFinalResult.
  - rewrite (proj1 H). by exists s.
  - rewrite (receives_running _ _ _ H). cbn [negb]. pose proof (at_once_length (asked l)) as Hl. pose proof H as [H1 H2 H3 H4 H5 H6].
    rewrite H5, (mbind_run _ _ s tt s) by (unfold dcheck; by rewrite (proj2 (Z.leb_le _ _)) by lia).
    destruct (Nat.eqb_spec (length (asked l)) (length (at_once (asked l)))) as [He|Hne].
    + rewrite (proj2 (Z.eqb_eq _ _)) by lia. cbn [mwhen]. erewrite mbind_run by by apply OnFinalResultDetermined_run.
      eexists. split; [done|]. split; [done|]. cbn. by rewrite H2, H4.
    + rewrite (proj2 (Z.eqb_neq _ _)) by lia. eexists. split; [done|]. split; try done; cbn; split; [lia|]; f_equal; lia.
Qed.

Lemma later_run n d ds s : length (ds ++ [d]) <= n -> status n ds s ->
  exists s', OnSinglePolicyDecisionReceived d s = Ok (tt, s') /\ status n (ds ++ [d]) s'.
Proof.
  unfold status. rewrite cancels_snoc, length_app, Nat.add_comm. cbn [length Nat.add]. intros Hl.
  destruct (existsb cancels ds) eqn:Ec; cbn [orb].
  { intros [H1 H2]. exists s. rewrite final_ignores by done. split; [done|]. split; [done|]. rewrite H2. f_equal.
    unfold combined. rewrite find_app. destruct (find cancels ds) as [e|] eqn:Ef; [done|].
    apply existsb_exists in Ec as (x & Hx & Hc). pose proof (find_none _ _ Ef x Hx). congruence. }
  rewrite (proj2 (Nat.eqb_neq _ _)) by lia. intros H. destruct (receive_run _ _ d s H) as (s' & E & H'). exists s'. split; [done|].
  by destruct (cancels d).
Qed.

Lemma later_all_run n later : forall ds s, length (ds ++ later) <= n -> status n ds s ->
  exists s', mfor later OnSinglePolicyDecisionReceived s = Ok (tt, s') /\ status n (ds ++ later) s'.
Proof.
  induction later as [|d later IH]; intros ds s Hl Hs; cbn [mfor].
  { exists s. by rewrite app_nil_r. }
  destruct (later_run n d ds s) as (s1 & E1 & H1); [rewrite !length_app in *; cbn in *; lia|done|].
  rewrite (mbind_run _ _ s tt s1) by done. destruct (IH (ds ++ [d]) s1) as (s2 & E2 & H2); [by rewrite <- app_assoc|done|].
  exists s2. by rewrite <- app_assoc in H2.
Qed.

(** C32: The callback of a request is run exactly once. The deciders are asked in
    order, up to the first that cancels at once. As soon as one cancels the answer
    is to cancel; when all those that were asked have decided it is the first
    error that was received, or else to allow; and when the callback is dropped
    before that, it is to cancel. *)
Theorem ShouldAllow_correct policy_deciders later
    (Hlater : length (at_once (asked policy_deciders)) + length later <= length (asked policy_deciders)) :
  let ds := at_once (asked policy_deciders) ++ later in
  let decided := existsb cancels ds || (length (asked policy_deciders) =? length ds)%nat in
  exists s s', (ShouldAllow policy_deciders ;;; mfor later OnSinglePolicyDecisionReceived) create = Ok (tt, s) /\
    answers s = (if decided then [combined ds] else []) /\
    destroy s = Ok (tt, s') /\ answers s' = [if decided then combined ds else Cancel].
Proof.
  intros ds decided. destruct (ShouldAllow_run policy_deciders) as (s0 & E0 & H0).
  destruct (later_all_run _ later _ s0 ltac:(rewrite length_app; exact Hlater) H0) as (s & E & H).
  rewrite (mbind_run _ _ _ _ _ E0). exists s. unfold status in H. fold ds in H. fold decided in H.
  destruct decided.
  - destruct H as [H1 H2]. exists s. unfold destroy. rewrite (mbind_run _ _ s s s) by done. rewrite H1. by split_and!.
  - destruct H as [H1 H2 _ _ _ _]. unfold destroy. rewrite (mbind_run _ _ s s s) by done. rewrite H1. cbn [mwhen].
    unfold run_callback. rewrite (mbind_run _ _ s s s), (mbind_run _ _ s tt s) by (cbn; by rewrite ?H1).
    eexists. split_and!; [done..|]. cbn. by rewrite H2.
Qed.

(** Three deciders: the first allows, the second waits, the third reports an
    error; then the second cancels. *)
Definition example_error : PolicyDecision := CancelAndDisplayError (Some 3%positive).
Definition example_deciders : list (option PolicyDecision) := [Some Allow; None; Some example_error].

Example example_waits : answers <$> final_state (ShouldAllow example_deciders create) = Some [].
Proof. reflexivity. Qed.

Lemma ShouldAllow_correct_witness :
  exists s s', (ShouldAllow example_deciders ;;; mfor [Cancel] OnSinglePolicyDecisionReceived) create = Ok (tt, s) /\
    answers s = [Cancel] /\ destroy s = Ok (tt, s') /\ answers s' = [Cancel].
Proof. apply (ShouldAllow_correct example_deciders [Cancel]). vm_compute. lia. Defined.

End PolicyDecisionStateTracker.
