(* ===== verification/WebFramesManager.v ===== *)
(** * WebFramesManager

    The frames of a WebState that are registered
    (src/web/js_messaging/web_frames_manager_impl.{h,mm}). A [WebFrame*] is an
    identity, with the identifier of the frame and whether it is the main one. *)

From stdpp Require Import base tactics option list strings gmap.
From S2P Require Import Prelude.

Module WebFramesManagerImpl.

Record WebFrame : Type := mkFrame { frame_ref : positive; GetFrameId : string; IsMainFrame : bool }.
#[export] Instance WebFrame_eq_dec : EqDecision WebFrame.
Proof. solve_decision. Defined.

Record t : Type := mk { web_frames_ : gmap string WebFrame; main_web_frame_ : option WebFrame }.
Definition create : t := mk ∅ None.
Definition with_web_frames (v : gmap string WebFrame) (s : t) : t := mk v (main_web_frame_ s).
Definition with_main_web_frame (v : option WebFrame) (s : t) : t := mk (web_frames_ s) v.

Definition AddFrame (frame : WebFrame) : M t bool :=
  dcheck (negb (bool_decide (GetFrameId frame = EmptyString))) ;;;
  let! s := mget in
  if IsMainFrame frame && bool_decide (is_Some (main_web_frame_ s)) then mreturn false
  else
    mwhen (IsMainFrame frame) (mmodify (with_main_web_frame (Some frame))) ;;;
    dcheck (bool_decide (web_frames_ s !! GetFrameId frame = None)) ;;;
    mmodify (fun s => with_web_frames (<[GetFrameId frame := frame]> (web_frames_ s)) s) ;;;
    mreturn true.

Definition RemoveFrameWithId (frame_id : string) : M t unit :=
  dcheck (negb (bool_decide (frame_id = EmptyString))) ;;;
  let! s := mget in
  dcheck (match web_frames_ s !! frame_id with
          | Some frame => negb (IsMainFrame frame) || bool_decide (main_web_frame_ s = Some frame)
          | None => true
          end) ;;;
  if bool_decide (web_frames_ s !! frame_id = None) then mreturn tt
  else
    mwhen (bool_decide (GetFrameId <$> main_web_frame_ s = Some frame_id)) (mmodify (with_main_web_frame None)) ;;;
    mmodify (fun s => with_web_frames (delete frame_id (web_frames_ s)) s).

(** In the order of the addresses in the code. *)
Definition GetAllWebFrames (s : t) : list WebFrame := (map_to_list (web_frames_ s)).*2.
Definition GetMainWebFrame (s : t) : option WebFrame := main_web_frame_ s.
Definition GetFrameWithId {S} (frame_id : string) (s : t) : M S (option WebFrame) :=
  dcheck (negb (bool_decide (frame_id = EmptyString))) ;;; mreturn (web_frames_ s !! frame_id).

(** ** The invariant *)

(** The frames are found by their identifiers, and the main frame is the only
    registered frame that is one. *)
Record wf (s : t) : Prop := {
  wf_id frame_id frame : web_frames_ s !! frame_id = Some frame -> GetFrameId frame = frame_id /\ frame_id <> EmptyString;
  wf_main frame : main_web_frame_ s = Some frame <-> IsMainFrame frame = true /\ web_frames_ s !! GetFrameId frame = Some frame
}.

Lemma no_frames_wf : wf create.
Proof. split; [done|]. intros frame. split; [done|]. by intros [_ ?]. Qed.

Lemma AddFrame_run s frame : wf s -> GetFrameId frame <> EmptyString -> web_frames_ s !! GetFrameId frame = None ->
  exists added s', AddFrame frame s = Ok (added, s') /\ wf s' /\
    added = negb (IsMainFrame frame && bool_decide (is_Some (main_web_frame_ s))) /\
    web_frames_ s' = (if added then <[GetFrameId frame := frame]> (web_frames_ s) else web_frames_ s).
Proof.
  intros [H1 H2] Hid Hnew. unfold AddFrame. rewrite (mbind_run _ _ s tt s) by by rewrite bool_decide_false.
  rewrite (mbind_run _ _ s s s) by done. destruct (IsMainFrame frame && _) eqn:Em; [by exists false, s|].
  set (s1 := if IsMainFrame frame then with_main_web_frame (Some frame) s else s).
  rewrite (mbind_run _ _ s tt s1) by (subst s1; by destruct (IsMainFrame frame)).
  rewrite (mbind_run _ _ s1 tt s1) by by rewrite bool_decide_true.
  exists true, (with_web_frames (<[GetFrameId frame := frame]> (web_frames_ s1)) s1). split; [done|]. assert (web_frames_ s1 = web_frames_ s) as E1 by (subst s1; by destruct (IsMainFrame frame)).
  assert (main_web_frame_ s1 = if IsMainFrame frame then Some frame else main_web_frame_ s) as M1 by (subst s1; by destruct (IsMainFrame frame)).
  clearbody s1. split; [|split; [done|cbn; by rewrite E1]]. split; cbn; rewrite E1.
  - intros id f [[<- <-]|[? ?]]%lookup_insert_Some; [done|by apply H1].
  - intros f. rewrite M1. destruct (IsMainFrame frame) eqn:Ef; cbn in *.
    + apply bool_decide_eq_false in Em. split.
      * intros [= <-]. by rewrite lookup_insert_eq.
      * intros [Hm [[_ ->]|[Hne Hf]]%lookup_insert_Some]; [done|]. destruct Em. exists f. by apply H2.
    + rewrite H2. split; intros [Hm Hf]; (split; [done|]).
      * rewrite lookup_insert_ne; [done|]. intros E. rewrite <- E in Hf. congruence.
      * apply lookup_insert_Some in Hf as [[_ ->]|[_ ?]]; [congruence|done].
Qed.

Lemma RemoveFrame_run s frame : wf s -> web_frames_ s !! GetFrameId frame = Some frame ->
  exists s', RemoveFrameWithId (GetFrameId frame) s = Ok (tt, s') /\ wf s' /\ web_frames_ s' = delete (GetFrameId frame) (web_frames_ s).
Proof.
  intros [H1 H2] Hf. destruct (H1 _ _ Hf) as [_ Hid]. unfold RemoveFrameWithId.
  rewrite (mbind_run _ _ s tt s) by by rewrite bool_decide_false. rewrite (mbind_run _ _ s s s) by done. rewrite Hf.
  rewrite (mbind_run _ _ s tt s).
  2: { destruct (IsMainFrame frame) eqn:Em; [|done]. cbn. by rewrite bool_decide_true by by apply H2. }
  rewrite bool_decide_false by done.
  set (s1 := if bool_decide (GetFrameId <$> main_web_frame_ s = Some (GetFrameId frame)) then with_main_web_frame None s else s).
  rewrite (mbind_run _ _ s tt s1) by (subst s1; by case_bool_decide).
  assert (web_frames_ s1 = web_frames_ s) as E1 by (subst s1; by case_bool_decide).
  assert (main_web_frame_ s1 = if bool_decide (GetFrameId <$> main_web_frame_ s = Some (GetFrameId frame)) then None else main_web_frame_ s) as M1
    by (subst s1; by case_bool_decide).
  clearbody s1. exists (with_web_frames (delete (GetFrameId frame) (web_frames_ s1)) s1). split; [done|]. cbn. rewrite E1. split; [|done]. split; cbn.
  - intros id f [_ ?]%lookup_delete_Some. by apply H1.
  - intros f. rewrite lookup_delete_Some, M1. case_bool_decide as Em; cbn.
    + split; [done|]. intros [Hm [Hne Hf']]. pose proof (proj2 (H2 f) (conj Hm Hf')) as E.
      rewrite E in Em. by injection Em.
    + rewrite H2. split; [|tauto]. intros [Hm Hf']. split_and!; [done| |done]. intros E.
      rewrite (proj2 (H2 f) (conj Hm Hf')) in Em. by destruct Em; cbn; rewrite E.
Qed.

Lemma elem_of_frames s frame : wf s -> frame ∈ GetAllWebFrames s <-> web_frames_ s !! GetFrameId frame = Some frame.
Proof.
  intros [H1 _]. unfold GetAllWebFrames. rewrite list_elem_of_fmap. split.
  - intros ([id f] & -> & Hin%elem_of_map_to_list). cbn. by rewrite (proj1 (H1 _ _ Hin)).
  - intros Hf. exists (GetFrameId frame, frame). split; [done|]. by apply elem_of_map_to_list.
Qed.

Lemma NoDup_frames s : wf s -> NoDup (GetFrameId <$> GetAllWebFrames s).
Proof.
  intros [H1 _]. unfold GetAllWebFrames. rewrite <- list_fmap_compose.
  rewrite (list_fmap_ext _ fst); [apply NoDup_fst_map_to_list|].
  intros i [id f] Hi. cbn. apply (H1 id f). apply elem_of_map_to_list. by eapply list_elem_of_lookup_2.
Qed.

End WebFramesManagerImpl.
