(* ===== verification/CertPolicies.v ===== *)
(** * Certificate policies

    Which bad certificates the user allowed for which hosts: for a browser state
    (src/web/security/cert_policy.cc, certificate_policy_cache.cc)
    and for the session of a WebState, with its archive
    (src/web/session/session_certificate_policy_cache_impl.mm,
    session_certificate_policy_cache_storage_builder.mm,
    crw_session_certificate_policy_cache_storage.mm). *)

From stdpp Require Import base tactics option list numbers strings gmap.
From Stdlib Require Import ZArith Lia.
From S2P Require Import Prelude WebTypes SessionStorage WebThread.

(** X509Certificate, CertStatus and SecTrust (net/, Security.framework), and the
    conversions of the hosts. *)
Class X509Ops `{CertificateOps} : Type := {
  SHA256HashValue : Type;
  #[global] SHA256HashValue_eq_dec :: EqDecision SHA256HashValue;
  #[global] SHA256HashValue_countable :: Countable SHA256HashValue;
  CalculateChainFingerprint256 : X509Certificate -> SHA256HashValue;
  (** [intermediate_buffers().empty()], [CreateFromBuffer(cert_buffer(), {})] *)
  without_intermediates : X509Certificate -> bool;
  leaf_of : X509Certificate -> option X509Certificate;
  (** the bytes of [cert_buffer()], and [CreateFromBytes] *)
  cert_buffer : X509Certificate -> string;
  CreateFromBytes : string -> option X509Certificate;
  IsCertStatusError : Z -> bool;
  SecTrust : Type;
  CFError : Type;
  (** no certificate, or what is made of the first one *)
  trust_leaf : SecTrust -> option (option X509Certificate);
  GetCertFailureStatusFromError : option CFError -> Z;
  NSHost : Type;
  SysUTF8ToNSString : string -> option NSHost;
  SysNSStringToUTF8 : option NSHost -> string
}.

(** The errors of a status (net/cert/cert_status_flags.h, as the code asserts
    them). *)
Definition CERT_STATUS_ALL_ERRORS : Z := 4278255615.
Definition CERT_STATUS_AUTHORITY_INVALID : Z := Z.shiftl 1 2.
Definition CERT_STATUS_INVALID : Z := Z.shiftl 1 7.

Class X509Laws `(X : X509Ops) : Prop := {
  leaf_of_alone : forall c, without_intermediates c = false ->
    exists c', leaf_of c = Some c' /\ without_intermediates c' = true;
  CreateFromBytes_buffer : forall c, without_intermediates c = true -> CreateFromBytes (cert_buffer c) = Some c;
  IsCertStatusError_mask : forall s, IsCertStatusError s = negb (Z.land CERT_STATUS_ALL_ERRORS s =? 0)%Z;
  trust_leaf_alone : forall trust c, trust_leaf trust = Some (Some c) -> without_intermediates c = true;
  failure_status_uint32 : forall e, (0 <= GetCertFailureStatusFromError e < 2 ^ 32)%Z
}.

(** [~x] on 32 bits *)
Definition not_uint32 (x : Z) : Z := (2 ^ 32 - 1 - x)%Z.

Module CertPolicy.

Inductive Judgment : Type := UNKNOWN | ALLOWED | DENIED.
#[global] Instance Judgment_eq_dec : EqDecision Judgment.
Proof. solve_decision. Defined.

Section Code.
Context `{X509Ops}.

(** [allowed_] *)
Definition t : Type := gmap SHA256HashValue Z.

Definition Check_ (cert : X509Certificate) (error : Z) (allowed_ : t) : Judgment :=
  match allowed_ !! CalculateChainFingerprint256 cert with
  | Some allowed =>
      if negb (Z.land allowed error =? 0)%Z &&
         (Z.lxor (not_uint32 (Z.land allowed error)) (not_uint32 error) =? 0)%Z
      then ALLOWED else UNKNOWN
  | None => UNKNOWN
  end.

Definition Allow (cert : X509Certificate) (error : Z) (allowed_ : t) : t :=
  <[CalculateChainFingerprint256 cert := error]> allowed_.

(** The errors are among those that were allowed. *)
Definition covers (allowed error : Z) : Prop := forall i, (0 <= i)%Z -> Z.testbit error i = true -> Z.testbit allowed i = true.

Lemma land_covers allowed error : (0 <= error)%Z -> Z.land allowed error = error <-> covers allowed error.
Proof.
  intros He. split.
  - intros E i Hi Hb. rewrite <- E, Z.land_spec in Hb. by apply andb_true_iff in Hb as [? _].
  - intros Hc. apply Z.bits_inj'. intros i Hi. rewrite Z.land_spec.
    destruct (Z.testbit error i) eqn:Eb; [by rewrite (Hc i)|by rewrite andb_false_r].
Qed.

Lemma Check_spec cert error allowed_ : (0 <= error)%Z ->
  Check_ cert error allowed_ = ALLOWED <->
  error <> 0%Z /\ exists allowed, allowed_ !! CalculateChainFingerprint256 cert = Some allowed /\ covers allowed error.
Proof.
  intros He. unfold Check_. destruct (allowed_ !! _) as [allowed|]; [|split; [done|by intros [_ (? & ? & _)]]].
  assert ((Z.lxor (not_uint32 (Z.land allowed error)) (not_uint32 error) =? 0)%Z = true <-> Z.land allowed error = error) as Hx.
  { rewrite Z.eqb_eq, Z.lxor_eq_0_iff. unfold not_uint32. lia. }
  destruct (negb _ && _) eqn:Eb.
  - apply andb_true_iff in Eb as [Hn%negb_true_iff%Z.eqb_neq Ex%Hx]. split; [|done]. intros _.
    split; [congruence|]. exists allowed. split; [done|]. by apply land_covers.
  - split; [done|]. intros [Hne (a & [= <-] & Hc%land_covers)]; [|done]. rewrite Hc in Eb.
    apply andb_false_iff in Eb as [Eb|Eb]; [by apply negb_false_iff, Z.eqb_eq in Eb|].
    rewrite (proj2 (Z.eqb_eq _ _)) in Eb; [done|]. apply Z.lxor_nilpotent.
Qed.

End Code.
End CertPolicy.

Module CertificatePolicyCache.
Section Code.
Context `{X509Ops}.

(** [cert_policy_for_host_] *)
Definition t : Type := gmap string CertPolicy.t.

Definition on_IO {S} (thread : WebThread.ID) : M S unit := dcheck (bool_decide (thread = WebThread.IO)).

(** [cert_policy_for_host_[host]] makes an empty policy for a new host. *)
Definition AllowCertForHost (thread : WebThread.ID) (cert : X509Certificate) (host : string) (error : Z) : M t unit :=
  on_IO thread ;;;
  mmodify (fun cert_policy_for_host_ =>
    <[host := CertPolicy.Allow cert error (default ∅ (cert_policy_for_host_ !! host))]> cert_policy_for_host_).
Definition QueryPolicy (thread : WebThread.ID) (cert : X509Certificate) (host : string) (error : Z) : M t CertPolicy.Judgment :=
  on_IO thread ;;;
  mmodify (fun cert_policy_for_host_ => <[host := default ∅ (cert_policy_for_host_ !! host)]> cert_policy_for_host_) ;;;
  let! cert_policy_for_host_ := mget in
  mreturn (CertPolicy.Check_ cert error (default ∅ (cert_policy_for_host_ !! host))).
Definition ClearCertificatePolicies (thread : WebThread.ID) : M t unit :=
  on_IO thread ;;; mmodify (fun _ => ∅).

Definition allowed (host : string) (cert : X509Certificate) (s : t) : option Z :=
  s !! host ≫= fun policy => policy !! CalculateChainFingerprint256 cert.

End Code.
End CertificatePolicyCache.

(** ** The certificates of a session *)

Module CRWSessionCertificateStorage.
Import NSCoder.
Section Code.
Context `{X : X509Ops}.

Record t : Type := mk { certificate : X509Certificate; host : string; status : Z }.

(** The objects of an archive, and the numbers in it. *)
Inductive CertObject : Type :=
| DataObject (data : string)
| HostObject (s : NSHost)
| NumberObject (z : Z).

Definition initWithCertificate {S} (cert : X509Certificate) (host : string) (status : Z) : M S t :=
  dcheck (negb (bool_decide (host = EmptyString))) ;;; mreturn (mk cert host status).

(** nil when the values make no certificate. The status is converted to 32 bits. *)
Definition initWithCertData {S} (certData : option string) (hostName : option NSHost) (certStatus : option Z) :
    M S (option t) :=
  let cert := CreateFromBytes (default EmptyString certData) in
  let host := SysNSStringToUTF8 hostName in
  match cert, certStatus with
  | Some cert, Some certStatus =>
      if bool_decide (host = EmptyString) then mreturn None
      else let! s := initWithCertificate cert host (certStatus mod 2 ^ 32) in mreturn (Some s)
  | _, _ => mreturn None
  end.

(** The messages sent to an object of another class raise an exception. *)
Definition as_data {S} (o : option CertObject) : M S (option string) :=
  match o with None => mreturn None | Some (DataObject d) => mreturn (Some d) | Some _ => mfail NSException end.
Definition as_host {S} (o : option CertObject) : M S (option NSHost) :=
  match o with None => mreturn None | Some (HostObject s) => mreturn (Some s) | Some _ => mfail NSException end.
Definition as_number {S} (o : option CertObject) : M S (option Z) :=
  match o with None => mreturn None | Some (NumberObject z) => mreturn (Some z) | Some _ => mfail NSException end.

Definition initWithDeprecatedSerialization {S} (serialization : list CertObject) : M S (option t) :=
  match serialization with
  | [data; host; status] =>
      let! data := as_data (Some data) in
      let! host := as_host (Some host) in
      let! status := as_number (Some status) in
      initWithCertData data host status
  | _ => mreturn None
  end.

Definition initWithCoder : M (NSCoder.t CertObject) (option t) :=
  let! o := decodeObject "CertificateSerializationKey" in
  let! certData := as_data o in
  let! o := decodeObject "HostSerializationKey" in
  let! hostName := as_host o in
  let! o := decodeObject "StatusSerializationKey" in
  let! certStatus := as_number o in
  initWithCertData certData hostName certStatus.

Definition encodeWithCoder (s : t) : M (NSCoder.t CertObject) unit :=
  encodeObject "CertificateSerializationKey" (Some (DataObject (cert_buffer (certificate s)))) ;;;
  encodeObject "HostSerializationKey" (HostObject <$> SysUTF8ToNSString (host s)) ;;;
  encodeObject "StatusSerializationKey" (Some (NumberObject (status s))).

(** nil cannot be in a set. *)
#[export] Instance t_coding : NSCoding t := {|
  SessionStorage.encodeWithCoder := encodeWithCoder;
  SessionStorage.initWithCoder :=
    let! s := initWithCoder in match s with Some s => mreturn s | None => mfail NSException end
|}.

(** A leaf certificate, a host that converts back, a 32-bit status. *)
Record storable (s : t) : Prop := {
  storable_cert : without_intermediates (certificate s) = true;
  storable_host : host s <> EmptyString;
  storable_convert : SysNSStringToUTF8 (SysUTF8ToNSString (host s)) = host s;
  storable_status : (0 <= status s < 2 ^ 32)%Z
}.

Lemma initWithCertData_run {S} s (st : S) `{!X509Laws X} : storable s ->
  initWithCertData (Some (cert_buffer (certificate s))) (SysUTF8ToNSString (host s)) (Some (status s)) st = Ok (Some s, st).
Proof.
  intros [Hc Hh Hu Hs]. unfold initWithCertData. cbn [default]. rewrite Hu, bool_decide_false by done. cbn.
  rewrite CreateFromBytes_buffer by done. cbn. unfold initWithCertificate. rewrite bool_decide_false by done.
  cbn. rewrite Z.mod_small by done. by destruct s.
Qed.

Definition archive_of (s : t) : NSCoder.t CertObject :=
  <["StatusSerializationKey" := CodedObject (Some (NumberObject (status s)))]>
  (<["HostSerializationKey" := CodedObject (HostObject <$> SysUTF8ToNSString (host s))]>
  (<["CertificateSerializationKey" := CodedObject (Some (DataObject (cert_buffer (certificate s))))]> ∅)).

Lemma encode_archive s : encodeWithCoder s ∅ = Ok (tt, archive_of s).
Proof. unfold encodeWithCoder. do 2 encode_step. done. Qed.

Lemma as_host_run {S} (o : option NSHost) (s : S) : as_host (HostObject <$> o) s = Ok (o, s).
Proof. by destruct o. Qed.

Lemma init_archive `{!X509Laws X} s : storable s -> initWithCoder (archive_of s) = Ok (Some s, archive_of s).
Proof.
  intros Hs. unfold initWithCoder, archive_of. decode_step. unfold as_data at 1. rewrite mreturn_bind. decode_step.
  rewrite (mbind_run _ _ _ _ _ (as_host_run _ _)). decode_step. unfold as_number at 1. rewrite mreturn_bind. by apply initWithCertData_run.
Qed.

#[export] Instance t_coding_laws `{!X509Laws X} : NSCodingLaws t storable eq.
Proof.
  intros s Hs. exists (archive_of s). split; [apply encode_archive|]. exists s. split; [|done].
  unfold SessionStorage.initWithCoder, t_coding. by rewrite (mbind_run _ _ _ _ _ (init_archive s Hs)).
Qed.

End Code.
End CRWSessionCertificateStorage.

Module CRWSessionCertificatePolicyCacheStorage.
Import NSCoder.
#[export] Existing Instances CRWSessionCertificateStorage.t_coding CRWSessionCertificateStorage.t_coding_laws.
Section Code.
Context `{X : X509Ops}.
Abbreviation CertStorage := CRWSessionCertificateStorage.t.

(** [certificateStorages]: nil, or a set of objects that are equal when they are
    the same one; its order is not specified. *)
Record t : Type := mk { certificateStorages : option (list CertStorage) }.

Inductive CacheObject : Type :=
| StoragesObject (storages : list (NSCoder.t (Archived (A := CertStorage))))
| DeprecatedObject (serializations : list (list CRWSessionCertificateStorage.CertObject)).

(** Each element is decoded from its archive. *)
Definition unarchive_storage {S} (archive : NSCoder.t (Archived (A := CertStorage))) : M S CertStorage :=
  match SessionStorage.initWithCoder archive with Ok (s, _) => mreturn s | Fault f => mfail f end.
Definition archive_storage {S} (s : CertStorage) : M S (NSCoder.t (Archived (A := CertStorage))) :=
  match SessionStorage.encodeWithCoder s ∅ with Ok (_, archive) => mreturn archive | Fault f => mfail f end.

Definition as_storages (o : option CacheObject) : M (NSCoder.t CacheObject) (option (list CertStorage)) :=
  match o with
  | None => mreturn None
  | Some (StoragesObject storages) => let! l := mmap storages unarchive_storage in mreturn (Some l)
  | Some (DeprecatedObject _) => mfail NSException
  end.
Definition as_deprecated (o : option CacheObject) :
    M (NSCoder.t CacheObject) (list (list CRWSessionCertificateStorage.CertObject)) :=
  match o with
  | None => mreturn []
  | Some (DeprecatedObject l) => mreturn l
  | Some (StoragesObject _) => mfail NSException
  end.

(** The storages that could be made. *)
Fixpoint made {A} (l : list (option A)) : list A :=
  match l with [] => [] | Some a :: l => a :: made l | None :: l => made l end.

Definition initWithCoder : M (NSCoder.t CacheObject) t :=
  let! o := decodeObject "kCertificateStoragesKey" in
  let! certificateStorages := as_storages o in
  match certificateStorages with
  | Some (_ :: _) => mreturn (mk certificateStorages)
  | _ =>
      let! o := decodeObject "allowedCertificates" in
      let! serializations := as_deprecated o in
      let! l := mmap serializations CRWSessionCertificateStorage.initWithDeprecatedSerialization in
      mreturn (mk (Some (made l)))
  end.

Definition encodeWithCoder (s : t) : M (NSCoder.t CacheObject) unit :=
  let! o := match certificateStorages s with
            | Some l => let! archives := mmap l archive_storage in mreturn (Some (StoragesObject archives))
            | None => mreturn None
            end in
  encodeObject "kCertificateStoragesKey" o.

#[export] Instance t_coding : NSCoding t := {|
  SessionStorage.encodeWithCoder := encodeWithCoder;
  SessionStorage.initWithCoder := initWithCoder
|}.

Definition storages (s : t) : list CertStorage := default [] (certificateStorages s).

Lemma archive_storages `{!X509Laws X} (l : list CertStorage) : Forall CRWSessionCertificateStorage.storable l ->
  exists archives, (forall S (s : S), mmap l archive_storage s = Ok (archives, s)) /\
    (forall S (s : S), mmap archives unarchive_storage s = Ok (l, s)) /\ length archives = length l.
Proof.
  induction 1 as [| a l Ha _ (archives & He & Hd & Hl)]; [by exists []|].
  destruct (init_encodeWithCoder a Ha) as (archive & Hea & a' & Hda & ->).
  exists (archive :: archives). cbn [length]. split_and!; [| |by rewrite Hl]; intros S s; cbn [mmap].
  - rewrite (mbind_run _ _ s archive s) by (unfold archive_storage; by rewrite Hea). by rewrite (mbind_run _ _ _ _ _ (He S s)).
  - rewrite (mbind_run _ _ s a s) by (unfold unarchive_storage; by rewrite Hda). by rewrite (mbind_run _ _ _ _ _ (Hd S s)).
Qed.

(** A cache that is archived and read back has the same certificates. *)
#[export] Instance t_coding_laws `{!X509Laws X} :
  NSCodingLaws t (fun s => Forall CRWSessionCertificateStorage.storable (storages s)) (fun s' s => certificateStorages s' = Some (storages s)).
Proof.
  intros [[l|]] Hl; unfold storages in *; cbn [certificateStorages default] in *.
  - destruct (archive_storages l Hl) as (archives & He & Hd & Hlen). eexists. split.
    { unfold SessionStorage.encodeWithCoder, t_coding, encodeWithCoder. cbn [certificateStorages]. rewrite mbind_assoc.
      rewrite (mbind_run _ _ _ _ _ (He _ _)). done. }
    exists (mk (Some l)). split; [|done]. unfold SessionStorage.initWithCoder, t_coding, initWithCoder. decode_step.
    unfold as_storages. rewrite mbind_assoc, (mbind_run _ _ _ _ _ (Hd _ _)). rewrite mreturn_bind.
    destruct l as [|a l]; [|done]. decode_step. done.
  - eexists. split; [done|]. exists (mk (Some [])). split; [|done]. unfold SessionStorage.initWithCoder, t_coding, initWithCoder.
    decode_step. erewrite (mbind_run (as_storages _)) by done. cbv beta iota. decode_step. done.
Qed.

End Code.
End CRWSessionCertificatePolicyCacheStorage.

Module SessionCertificatePolicyCacheImpl.
Section Code.
Context `{X : X509Ops}.
Abbreviation CertStorage := CRWSessionCertificateStorage.t.

(** What is posted to the IO thread: one certificate, or those of a session. *)
Inductive Task : Type :=
| AllowCertForHost (cert : X509Certificate) (host : string) (error : Z)
| AllowCertsForHosts (allowed_certs : list CertStorage).

(** [allowed_certs_]: a message to nil does nothing. It is a set of objects that are
    equal when they are the same one: the list has each of them, in the order in
    which they were added, which only [enumerate] may depend on. The tasks that
    were posted. *)
Record t : Type := mk { allowed_certs_ : option (list CertStorage); posted : list Task }.

Definition create : t := mk (Some []) [].

(** The elements of a set in the order in which it is enumerated, which is not
    specified: [choices] says where each of them comes among those after it. *)
Fixpoint enumerate (choices : list nat) (certs : list CertStorage) : list CertStorage :=
  match certs with
  | [] => []
  | cert :: certs => insert_at (default 0 (head choices)) cert (enumerate (tail choices) certs)
  end.

Lemma enumerate_Permutation choices certs : enumerate choices certs ≡ₚ certs.
Proof. revert choices. induction certs as [|cert certs IH]; intros choices; cbn; [done|]. by rewrite insert_at_Permutation, IH. Qed.

(** Any order is possible. *)
Lemma enumerate_any certs order : order ≡ₚ certs -> exists choices, enumerate choices certs = order.
Proof.
  revert order. induction certs as [|cert certs IH]; intros order Ho; [exists []; symmetry in Ho; by apply Permutation_nil in Ho as ->|].
  destruct (Permutation_vs_cons_inv Ho) as (l1 & l2 & ->). apply symmetry, Permutation_cons_app_inv, symmetry in Ho.
  destruct (IH (l1 ++ l2) Ho) as [choices E]. exists (length l1 :: choices).
  cbn [enumerate head tail default]. rewrite E. apply (insert_at_split l1 l2).
Qed.

Definition on_UI {S} (thread : WebThread.ID) : M S unit := dcheck (bool_decide (thread = WebThread.UI)).
Definition PostTask (task : Task) : M t unit := mmodify (fun s => mk (allowed_certs_ s) (posted s ++ [task])).

Definition UpdateCertificatePolicyCache (thread : WebThread.ID) : M t unit :=
  on_UI thread ;;;
  let! s := mget in
  PostTask (AllowCertsForHosts (default [] (allowed_certs_ s))).

(** The certificate without its intermediates, for the session cache and for the
    controller. *)
Definition leaf_certificate {S} (certificate : X509Certificate) : M S X509Certificate :=
  let! certificate :=
    if negb (without_intermediates certificate) then
      match leaf_of certificate with Some leaf => mreturn leaf | None => mfail DCheckFailed end
    else mreturn certificate in
  dcheck (without_intermediates certificate) ;;;
  mreturn certificate.

Definition RegisterAllowedCertificate (thread : WebThread.ID) (certificate : X509Certificate) (host : string) (status : Z) :
    M t unit :=
  on_UI thread ;;;
  let! certificate := leaf_certificate certificate in
  let! storage := CRWSessionCertificateStorage.initWithCertificate certificate host status in
  mmodify (fun s => mk ((fun l => l ++ [storage]) <$> allowed_certs_ s) (posted s)) ;;;
  PostTask (AllowCertForHost certificate host status).

Definition SetAllowedCerts (allowed_certs : option (list CertStorage)) (s : t) : t := mk allowed_certs (posted s).
Definition GetAllowedCerts (s : t) : option (list CertStorage) := allowed_certs_ s.

(** [SessionCertificatePolicyCacheStorageBuilder]: a set made of nil is empty; the
    certificates of a nil storage are nil. *)
Definition BuildStorage (cache : t) : CRWSessionCertificatePolicyCacheStorage.t :=
  CRWSessionCertificatePolicyCacheStorage.mk (Some (default [] (GetAllowedCerts cache))).
Definition BuildSessionCertificatePolicyCache (cache_storage : option CRWSessionCertificatePolicyCacheStorage.t) : t :=
  SetAllowedCerts (cache_storage ≫= CRWSessionCertificatePolicyCacheStorage.certificateStorages) create.

(** A cache that is saved and restored has the same certificates. *)
Lemma BuildStorage_roundtrip cache :
  default [] (allowed_certs_ (BuildSessionCertificatePolicyCache (Some (BuildStorage cache)))) = default [] (allowed_certs_ cache).
Proof. done. Qed.

(** The leaf certificate of a chain, as the code makes it. *)
Definition leaf (c : X509Certificate) : X509Certificate :=
  if without_intermediates c then c else default c (leaf_of c).

Lemma leaf_alone `{!X509Laws X} c : without_intermediates (leaf c) = true.
Proof.
  unfold leaf. destruct (without_intermediates c) eqn:E; [done|]. by destruct (leaf_of_alone c E) as (c' & -> & ?).
Qed.

Lemma leaf_certificate_run `{!X509Laws X} {S} c (s : S) : leaf_certificate c s = Ok (leaf c, s).
Proof.
  unfold leaf_certificate. rewrite (mbind_run _ _ s (leaf c) s).
  - by rewrite (mbind_run _ _ s tt s) by by rewrite leaf_alone.
  - unfold leaf. destruct (without_intermediates c) eqn:E; [done|]. by destruct (leaf_of_alone c E) as (c' & -> & ?).
Qed.

(** An allowed certificate is added to the session, if it has a set, and allowed
    on the IO thread. *)
Lemma RegisterAllowedCertificate_run `{!X509Laws X} cert host status s : host <> EmptyString ->
  RegisterAllowedCertificate WebThread.UI cert host status s =
    Ok (tt, mk ((fun l => l ++ [CRWSessionCertificateStorage.mk (leaf cert) host status]) <$> allowed_certs_ s)
              (posted s ++ [AllowCertForHost (leaf cert) host status])).
Proof.
  intros Hh. unfold RegisterAllowedCertificate. rewrite (mbind_run _ _ s tt s) by done.
  rewrite (mbind_run _ _ _ _ _ (leaf_certificate_run cert s)). unfold CRWSessionCertificateStorage.initWithCertificate.
  rewrite bool_decide_false by done. done.
Qed.

(** The cache of a session that was saved without one never records anything. *)
Lemma no_storage_forgets `{!X509Laws X} cert host status : host <> EmptyString ->
  exists s, RegisterAllowedCertificate WebThread.UI cert host status (BuildSessionCertificatePolicyCache None) = Ok (tt, s) /\
    CRWSessionCertificatePolicyCacheStorage.certificateStorages (BuildStorage s) = Some [].
Proof. intros Hh. rewrite RegisterAllowedCertificate_run by done. by eexists. Qed.

End Code.
End SessionCertificatePolicyCacheImpl.
