(* ===== verification/CertVerification.v ===== *)
(** * Certificate verification

    What is decided about the certificate of a server, and when
    (src/web/security/crw_cert_verification_controller.mm, and
    [GetSecurityStyleFromTrustResult] of wk_web_view_security_util.mm): a trust
    is evaluated on the thread pool, a rejected one is looked up on the IO thread
    among the certificates the user allowed, and the handlers are run on the main
    thread. The certificates come from the controller, from the session of a
    WebState and from a restored session.

    An event is a call on the UI thread, or a task that runs. The tasks of the IO
    thread and of the main thread run in order; those of the pool in any order.
    What Security.framework answers is part of the event that runs the task. *)

From stdpp Require Import base tactics option list numbers strings gmap.
From Stdlib Require Import ZArith Lia.
From S2P Require Import Prelude WebTypes SessionStorage WebThread CertPolicies.

(** [SecTrustResultType] *)
Inductive SecTrustResultType : Type :=
| kSecTrustResultInvalid
| kSecTrustResultProceed
| kSecTrustResultDeny
| kSecTrustResultUnspecified
| kSecTrustResultRecoverableTrustFailure
| kSecTrustResultFatalTrustFailure
| kSecTrustResultOtherError.
#[global] Instance SecTrustResultType_eq_dec : EqDecision SecTrustResultType.
Proof. solve_decision. Defined.

Definition GetSecurityStyleFromTrustResult (result : SecTrustResultType) : SecurityStyle :=
  match result with
  | kSecTrustResultInvalid => SECURITY_STYLE_UNKNOWN
  | kSecTrustResultProceed | kSecTrustResultUnspecified => SECURITY_STYLE_AUTHENTICATED
  | kSecTrustResultDeny | kSecTrustResultRecoverableTrustFailure
  | kSecTrustResultFatalTrustFailure | kSecTrustResultOtherError => SECURITY_STYLE_AUTHENTICATION_BROKEN
  end.

Module CRWCertVerificationController.

(** [CertAcceptPolicy] *)
Inductive CertAcceptPolicy : Type :=
| NON_RECOVERABLE_ERROR
| RECOVERABLE_ERROR_UNDECIDED_BY_USER
| RECOVERABLE_ERROR_ACCEPTED_BY_USER
| ALLOW.
#[export] Instance CertAcceptPolicy_eq_dec : EqDecision CertAcceptPolicy.
Proof. solve_decision. Defined.

Section Code.
Context `{X : X509Ops}.
Abbreviation Session := SessionCertificatePolicyCacheImpl.t.

(** What [verifyTrust] is given to run: of a decision or of a query; the handlers
    of the callers are identities. *)
Inductive Completion : Type :=
| DecideCompletion (trust : SecTrust) (host : option NSHost) (handler : positive)
| QueryCompletion (handler : positive).

Inductive PoolTask : Type := VerifyTask (trust : SecTrust) (completion : Completion).
Inductive IOTask : Type :=
| SessionTask (task : SessionCertificatePolicyCacheImpl.Task)
| AllowTask (cert : X509Certificate) (host : option NSHost) (status : Z)
| ClearTask
| DecideTask (trustResult : SecTrustResultType) (trustError : option CFError) (trust : SecTrust)
    (host : option NSHost) (handler : positive).
Inductive MainTask : Type :=
| VerifiedTask (trustResult : SecTrustResultType) (trustError : option CFError) (completion : Completion)
| HandlerTask (handler : positive) (policy : CertAcceptPolicy) (status : Z).

(** What a handler is run with. *)
Inductive Answer : Type :=
| Decided (handler : positive) (policy : CertAcceptPolicy) (status : Z)
| Queried (handler : positive) (style : SecurityStyle) (status : Z).

(** The cache of the browser state, the session of the WebState, the tasks of the
    pool, the IO thread and the main thread; the tasks that the pool, with their
    results, and the IO thread ran, and the handlers that were run. *)
Record t : Type := mk {
  cache : CertificatePolicyCache.t;
  session : Session;
  pool : list PoolTask;
  io : list IOTask;
  main : list MainTask;
  pool_done : list (PoolTask * SecTrustResultType);
  io_done : list IOTask;
  answers : list Answer
}.
Definition with_cache (v : CertificatePolicyCache.t) (s : t) : t :=
  mk v (session s) (pool s) (io s) (main s) (pool_done s) (io_done s) (answers s).
Definition with_session (v : Session) (s : t) : t :=
  mk (cache s) v (pool s) (io s) (main s) (pool_done s) (io_done s) (answers s).
Definition with_pool (v : list PoolTask) (s : t) : t :=
  mk (cache s) (session s) v (io s) (main s) (pool_done s) (io_done s) (answers s).
Definition with_io (v : list IOTask) (s : t) : t :=
  mk (cache s) (session s) (pool s) v (main s) (pool_done s) (io_done s) (answers s).
Definition with_main (v : list MainTask) (s : t) : t :=
  mk (cache s) (session s) (pool s) (io s) v (pool_done s) (io_done s) (answers s).
Definition with_pool_done (v : list (PoolTask * SecTrustResultType)) (s : t) : t :=
  mk (cache s) (session s) (pool s) (io s) (main s) v (io_done s) (answers s).
Definition with_io_done (v : list IOTask) (s : t) : t :=
  mk (cache s) (session s) (pool s) (io s) (main s) (pool_done s) v (answers s).
Definition with_answers (v : list Answer) (s : t) : t :=
  mk (cache s) (session s) (pool s) (io s) (main s) (pool_done s) (io_done s) v.

Definition init (session : Session) : t := mk ∅ session [] [] [] [] [] [].

Definition post_pool (task : PoolTask) : M t unit := mmodify (fun s => with_pool (pool s ++ [task]) s).
Definition post_io (task : IOTask) : M t unit := mmodify (fun s => with_io (io s ++ [task]) s).
Definition post_main (task : MainTask) : M t unit := mmodify (fun s => with_main (main s ++ [task]) s).
Definition answer (a : Answer) : M t unit := mmodify (fun s => with_answers (answers s ++ [a]) s).

Definition on_cache {A} (m : M CertificatePolicyCache.t A) : M t A := fun s =>
  match m (cache s) with Ok (a, c) => Ok (a, with_cache c s) | Fault f => Fault f end.

Abbreviation on thread expected := (dcheck (bool_decide (thread = expected))).

(** ** The methods *)

Definition verifyTrust (thread : WebThread.ID) (trust : SecTrust) (completion : Completion) : M t unit :=
  on thread WebThread.UI ;;; post_pool (VerifyTask trust completion).
Definition decideLoadPolicyForTrust (thread : WebThread.ID) (trust : SecTrust) (host : option NSHost) (handler : positive) :
    M t unit :=
  on thread WebThread.UI ;;; verifyTrust thread trust (DecideCompletion trust host handler).
Definition querySSLStatusForTrust (thread : WebThread.ID) (trust : SecTrust) (host : option NSHost) (handler : positive) :
    M t unit :=
  on thread WebThread.UI ;;; verifyTrust thread trust (QueryCompletion handler).
Definition allowCert (thread : WebThread.ID) (cert : X509Certificate) (host : option NSHost) (status : Z) : M t unit :=
  on thread WebThread.UI ;;;
  let! cert := SessionCertificatePolicyCacheImpl.leaf_certificate cert in
  post_io (AllowTask cert host status).

Definition certStatusFromTrustResult (trustResult : SecTrustResultType) (trustError : option CFError) : Z :=
  match trustResult with
  | kSecTrustResultProceed | kSecTrustResultUnspecified => 0
  | kSecTrustResultDeny => CERT_STATUS_AUTHORITY_INVALID
  | _ =>
      let certStatus := GetCertFailureStatusFromError trustError in
      if negb (IsCertStatusError certStatus) then Z.lor certStatus CERT_STATUS_INVALID else certStatus
  end.

Definition loadPolicyForRejectedTrustResult (thread : WebThread.ID) (trustResult : SecTrustResultType) (certStatus : Z)
    (trust : SecTrust) (host : option NSHost) : M t CertAcceptPolicy :=
  on thread WebThread.IO ;;;
  dcheck (negb (bool_decide (SECURITY_STYLE_AUTHENTICATED = GetSecurityStyleFromTrustResult trustResult))) ;;;
  if negb (bool_decide (trustResult = kSecTrustResultRecoverableTrustFailure)) then mreturn NON_RECOVERABLE_ERROR
  else
    match trust_leaf trust with
    | None | Some None => mreturn NON_RECOVERABLE_ERROR
    | Some (Some leafCert) =>
        let! judgment := on_cache (CertificatePolicyCache.QueryPolicy thread leafCert (SysNSStringToUTF8 host) certStatus) in
        mreturn (if bool_decide (judgment = CertPolicy.ALLOWED) then RECOVERABLE_ERROR_ACCEPTED_BY_USER
                 else RECOVERABLE_ERROR_UNDECIDED_BY_USER)
    end.

Definition decideLoadPolicyForRejectedTrustResult (thread : WebThread.ID) (trustResult : SecTrustResultType)
    (trustError : option CFError) (trust : SecTrust) (host : option NSHost) (handler : positive) : M t unit :=
  on thread WebThread.UI ;;; post_io (DecideTask trustResult trustError trust host handler).

(** The completion handlers of [verifyTrust]. *)
Definition run_completion (thread : WebThread.ID) (trustResult : SecTrustResultType) (trustError : option CFError)
    (completion : Completion) : M t unit :=
  match completion with
  | DecideCompletion trust host handler =>
      on thread WebThread.UI ;;;
      if bool_decide (trustResult = kSecTrustResultProceed) || bool_decide (trustResult = kSecTrustResultUnspecified)
      then answer (Decided handler ALLOW 0)
      else decideLoadPolicyForRejectedTrustResult thread trustResult trustError trust host handler
  | QueryCompletion handler =>
      answer (Queried handler (GetSecurityStyleFromTrustResult trustResult) (certStatusFromTrustResult trustResult trustError))
  end.

(** ** The tasks *)

Definition run_pool_task (task : PoolTask) (isTrusted : bool) (trustResult : SecTrustResultType) (trustError : option CFError) :
    M t unit :=
  match task with
  | VerifyTask trust completion =>
      dcheck (Bool.eqb isTrusted (bool_decide (trustResult = kSecTrustResultProceed) ||
                                  bool_decide (trustResult = kSecTrustResultUnspecified))) ;;;
      post_main (VerifiedTask trustResult trustError completion)
  end.

Definition allow_on_IO (cert : X509Certificate) (host : string) (status : Z) : M t unit :=
  on_cache (CertificatePolicyCache.AllowCertForHost WebThread.IO cert host status).
Definition run_io_task (task : IOTask) : M t unit :=
  match task with
  | SessionTask (SessionCertificatePolicyCacheImpl.AllowCertForHost cert host status) => allow_on_IO cert host status
  | SessionTask (SessionCertificatePolicyCacheImpl.AllowCertsForHosts allowed_certs) =>
      mfor allowed_certs (fun cert =>
        allow_on_IO (CRWSessionCertificateStorage.certificate cert) (CRWSessionCertificateStorage.host cert)
          (CRWSessionCertificateStorage.status cert))
  | AllowTask cert host status => allow_on_IO cert (SysNSStringToUTF8 host) status
  | ClearTask => on_cache (CertificatePolicyCache.ClearCertificatePolicies WebThread.IO)
  | DecideTask trustResult trustError trust host handler =>
      let certStatus := certStatusFromTrustResult trustResult trustError in
      let! policy := loadPolicyForRejectedTrustResult WebThread.IO trustResult certStatus trust host in
      post_main (HandlerTask handler policy certStatus)
  end.

(** The task, with its set in the order in which it is enumerated. *)
Definition enumerated (choices : list nat) (task : IOTask) : IOTask :=
  match task with
  | SessionTask (SessionCertificatePolicyCacheImpl.AllowCertsForHosts allowed_certs) =>
      SessionTask (SessionCertificatePolicyCacheImpl.AllowCertsForHosts (SessionCertificatePolicyCacheImpl.enumerate choices allowed_certs))
  | _ => task
  end.

Definition run_main_task (task : MainTask) : M t unit :=
  match task with
  | VerifiedTask trustResult trustError completion => run_completion WebThread.UI trustResult trustError completion
  | HandlerTask handler policy status => answer (Decided handler policy status)
  end.

(** A call on the session of the WebState: its tasks go to the IO thread. *)
Definition on_session (m : M Session unit) : M t unit := fun s =>
  match m (session s) with
  | Ok (_, c) =>
      Ok (tt, with_io (io s ++ (SessionTask <$> SessionCertificatePolicyCacheImpl.posted c))
                (with_session (SessionCertificatePolicyCacheImpl.mk (SessionCertificatePolicyCacheImpl.allowed_certs_ c) []) s))
  | Fault f => Fault f
  end.

(** The calls on the UI thread, and the tasks; there may be none to run. The task of
    a session enumerates its set of certificates in an order that is not specified. *)
Inductive Event : Type :=
| Decide (trust : SecTrust) (host : option NSHost) (handler : positive)
| Query (trust : SecTrust) (host : option NSHost) (handler : positive)
| AllowCert (cert : X509Certificate) (host : option NSHost) (status : Z)
| RegisterAllowed (cert : X509Certificate) (host : string) (status : Z)
| UpdateFromSession
| ClearPolicies
| RunPool (index : nat) (isTrusted : bool) (trustResult : SecTrustResultType) (trustError : option CFError)
| RunIO (choices : list nat)
| RunMain.

Definition step (event : Event) : M t unit :=
  match event with
  | Decide trust host handler => decideLoadPolicyForTrust WebThread.UI trust host handler
  | Query trust host handler => querySSLStatusForTrust WebThread.UI trust host handler
  | AllowCert cert host status => allowCert WebThread.UI cert host status
  | RegisterAllowed cert host status =>
      on_session (SessionCertificatePolicyCacheImpl.RegisterAllowedCertificate WebThread.UI cert host status)
  | UpdateFromSession => on_session (SessionCertificatePolicyCacheImpl.UpdateCertificatePolicyCache WebThread.UI)
  | ClearPolicies => post_io ClearTask
  | RunPool index isTrusted trustResult trustError =>
      let! s := mget in
      match pool s !! index with
      | None => mreturn tt
      | Some task =>
          mmodify (with_pool (delete index (pool s))) ;;;
          run_pool_task task isTrusted trustResult trustError ;;;
          mmodify (fun s => with_pool_done (pool_done s ++ [(task, trustResult)]) s)
      end
  | RunIO choices =>
      let! s := mget in
      match io s with
      | [] => mreturn tt
      | task :: tasks =>
          let task := enumerated choices task in
          mmodify (with_io tasks) ;;; run_io_task task ;;; mmodify (fun s => with_io_done (io_done s ++ [task]) s)
      end
  | RunMain =>
      let! s := mget in
      match main s with
      | [] => mreturn tt
      | task :: tasks => mmodify (with_main tasks) ;;; run_main_task task
      end
  end.

Definition run (events : list Event) : M t unit := mfor events step.

(** ** The specification *)

Definition proceeds (result : SecTrustResultType) : bool :=
  bool_decide (result = kSecTrustResultProceed) || bool_decide (result = kSecTrustResultUnspecified).

(** What the calls may be: the framework says that a trust is trusted when its
    result is one of two, and a host is not empty. *)
Definition legal (event : Event) : bool :=
  match event with
  | RunPool _ isTrusted trustResult _ => Bool.eqb isTrusted (proceeds trustResult)
  | RegisterAllowed _ host _ => negb (bool_decide (host = EmptyString))
  | _ => true
  end.

(** A certificate, a host, and the errors that are allowed. *)
Definition Exception : Type := X509Certificate * string * Z.
Definition of_storage (c : CRWSessionCertificateStorage.t) : Exception :=
  (CRWSessionCertificateStorage.certificate c, CRWSessionCertificateStorage.host c, CRWSessionCertificateStorage.status c).

(** The exceptions the user made: in the restored session, and since. *)
Definition request (event : Event) : list Exception :=
  match event with
  | AllowCert cert host status => [(SessionCertificatePolicyCacheImpl.leaf cert, SysNSStringToUTF8 host, status)]
  | RegisterAllowed cert host status => [(SessionCertificatePolicyCacheImpl.leaf cert, host, status)]
  | _ => []
  end.
Definition requests (restored : Session) (events : list Event) : list Exception :=
  (of_storage <$> default [] (SessionCertificatePolicyCacheImpl.allowed_certs_ restored)) ++ (events ≫= request).

(** The exceptions a task makes, and the errors that are allowed for a certificate
    on a host after some tasks: those of the last exception that was made for it
    since the exceptions were cleared. *)
Definition allows (task : IOTask) : list Exception :=
  match task with
  | SessionTask (SessionCertificatePolicyCacheImpl.AllowCertForHost cert host status) => [(cert, host, status)]
  | SessionTask (SessionCertificatePolicyCacheImpl.AllowCertsForHosts certs) => of_storage <$> certs
  | AllowTask cert host status => [(cert, SysNSStringToUTF8 host, status)]
  | _ => []
  end.
Definition except (host : string) (cert : X509Certificate) (allowed : option Z) (e : Exception) : option Z :=
  let '(c, h, status) := e in
  if bool_decide (h = host) && bool_decide (CalculateChainFingerprint256 c = CalculateChainFingerprint256 cert)
  then Some status else allowed.
Definition after_task (host : string) (cert : X509Certificate) (allowed : option Z) (task : IOTask) : option Z :=
  match task with ClearTask => None | _ => foldl (except host cert) allowed (allows task) end.
Definition allowed_after (tasks : list IOTask) (host : string) (cert : X509Certificate) : option Z :=
  foldl (after_task host cert) None tasks.

(** The decision about a rejected trust: an error that can be recovered from is
    accepted when all of it was allowed. *)
Definition verdict (tasks : list IOTask) (result : SecTrustResultType) (status : Z) (trust : SecTrust) (host : option NSHost) :
    CertAcceptPolicy :=
  match result, mjoin (trust_leaf trust) with
  | kSecTrustResultRecoverableTrustFailure, Some cert =>
      match allowed_after tasks (SysNSStringToUTF8 host) cert with
      | Some allowed => if (Z.land allowed status =? status)%Z then RECOVERABLE_ERROR_ACCEPTED_BY_USER
                        else RECOVERABLE_ERROR_UNDECIDED_BY_USER
      | None => RECOVERABLE_ERROR_UNDECIDED_BY_USER
      end
  | _, _ => NON_RECOVERABLE_ERROR
  end.

(** The handlers that calls were made with, and those that were run or will be. *)
Definition handler_of_event (event : Event) : list positive :=
  match event with Decide _ _ handler | Query _ _ handler => [handler] | _ => [] end.
Definition handler_of_completion (c : Completion) : positive :=
  match c with DecideCompletion _ _ handler | QueryCompletion handler => handler end.
Definition handler_of_pool (task : PoolTask) : positive := match task with VerifyTask _ c => handler_of_completion c end.
Definition handler_of_io (task : IOTask) : list positive := match task with DecideTask _ _ _ _ handler => [handler] | _ => [] end.
Definition handler_of_main (task : MainTask) : positive :=
  match task with VerifiedTask _ _ c => handler_of_completion c | HandlerTask handler _ _ => handler end.
Definition handler_of_answer (a : Answer) : positive := match a with Decided handler _ _ | Queried handler _ _ => handler end.
Definition in_flight (s : t) : list positive :=
  (handler_of_pool <$> pool s) ++ (io s ≫= handler_of_io) ++ (handler_of_main <$> main s).
Definition answered (s : t) : list positive := handler_of_answer <$> answers s.

(** An error is never without errors, so that the user can accept it. *)
Lemma rejected_status `{!X509Laws X} result error : proceeds result = false ->
  (0 < certStatusFromTrustResult result error)%Z.
Proof.
  pose proof (failure_status_uint32 error) as Hu.
  assert (0 < if negb (IsCertStatusError (GetCertFailureStatusFromError error))
              then Z.lor (GetCertFailureStatusFromError error) CERT_STATUS_INVALID else GetCertFailureStatusFromError error)%Z.
  { rewrite IsCertStatusError_mask, negb_involutive. set (c := GetCertFailureStatusFromError error) in *.
    destruct (Z.eqb_spec (Z.land CERT_STATUS_ALL_ERRORS c) 0) as [_|Hn].
    - assert (0 <= Z.lor c CERT_STATUS_INVALID)%Z by (apply Z.lor_nonneg; split; [lia|done]). assert (Z.lor c CERT_STATUS_INVALID <> 0)%Z; [|lia].
      intros [_ E]%Z.lor_eq_0_iff. done.
    - assert (c <> 0%Z) by (intros E; apply Hn; rewrite E; apply Z.land_0_r). lia. }
  destruct result; intros Hp; cbn; done.
Qed.

(** ** The cache of the browser state *)

Definition cache_agrees (history : list IOTask) (c : CertificatePolicyCache.t) : Prop :=
  forall host cert, CertificatePolicyCache.allowed host cert c = allowed_after history host cert.

Lemma allowed_after_snoc history task host cert :
  allowed_after (history ++ [task]) host cert = after_task host cert (allowed_after history host cert) task.
Proof. unfold allowed_after. by rewrite foldl_app. Qed.

(** One exception. *)
Lemma allowed_allow (c : gmap string (gmap SHA256HashValue Z)) cert host status h x :
  CertificatePolicyCache.allowed h x (<[host := CertPolicy.Allow cert status (default ∅ (c !! host))]> c) =
    except h x (CertificatePolicyCache.allowed h x c) (cert, host, status).
Proof.
  unfold CertificatePolicyCache.allowed, except, CertPolicy.Allow, CertificatePolicyCache.t, CertPolicy.t.
  destruct (decide (host = h)) as [->|Hh]; [|by rewrite lookup_insert_ne, bool_decide_false by done].
  rewrite lookup_insert_eq, (bool_decide_true (h = h)) by done. cbn.
  destruct (decide (CalculateChainFingerprint256 cert = CalculateChainFingerprint256 x)) as [E|E].
  - by rewrite (bool_decide_true _ E), E, lookup_insert_eq.
  - rewrite (bool_decide_false _ E), lookup_insert_ne by done. by destruct (c !! h); [|apply lookup_empty].
Qed.

Lemma allow_on_IO_run cert host status s : exists c,
  allow_on_IO cert host status s = Ok (tt, with_cache c s) /\
  forall h x, CertificatePolicyCache.allowed h x c =
    except h x (CertificatePolicyCache.allowed h x (cache s)) (cert, host, status).
Proof. eexists. split; [done|]. intros h x. apply allowed_allow. Qed.

(** A query makes an empty policy, which allows nothing. *)
Lemma allowed_query (c : gmap string (gmap SHA256HashValue Z)) host h x :
  CertificatePolicyCache.allowed h x (<[host := default ∅ (c !! host)]> c) = CertificatePolicyCache.allowed h x c.
Proof.
  unfold CertificatePolicyCache.allowed, CertificatePolicyCache.t, CertPolicy.t.
  destruct (decide (host = h)) as [->|Hh]; [|by rewrite lookup_insert_ne].
  rewrite lookup_insert_eq. by destruct (c !! h); [|apply lookup_empty].
Qed.

(** All of the errors are among those that are allowed. *)
Lemma Check_judgment cert status (policy : gmap SHA256HashValue Z) : (0 < status)%Z ->
  CertPolicy.Check_ cert status policy =
    match policy !! CalculateChainFingerprint256 cert with
    | Some allowed => if (Z.land allowed status =? status)%Z then CertPolicy.ALLOWED else CertPolicy.UNKNOWN
    | None => CertPolicy.UNKNOWN
    end.
Proof.
  intros Hs. unfold CertPolicy.Check_, CertPolicy.t. destruct (policy !! _) as [a|]; [|done].
  destruct (Z.eqb_spec (Z.land a status) status) as [E|E].
  - rewrite E, (proj2 (Z.eqb_neq status 0)), Z.lxor_nilpotent by lia. done.
  - rewrite (proj2 (Z.eqb_neq (Z.lxor _ _) 0)); [by rewrite andb_false_r|]. rewrite Z.lxor_eq_0_iff. unfold not_uint32. lia.
Qed.

(** Those of a session. *)
Lemma allow_all_run certs : forall s, exists c,
  mfor certs (fun cert => allow_on_IO (CRWSessionCertificateStorage.certificate cert) (CRWSessionCertificateStorage.host cert)
    (CRWSessionCertificateStorage.status cert)) s = Ok (tt, with_cache c s) /\
  forall h x, CertificatePolicyCache.allowed h x c =
    foldl (except h x) (CertificatePolicyCache.allowed h x (cache s)) (of_storage <$> certs).
Proof.
  induction certs as [|a certs IH]; intros s; cbn [mfor].
  { exists (cache s). split; [by destruct s|done]. }
  destruct (allow_on_IO_run (CRWSessionCertificateStorage.certificate a) (CRWSessionCertificateStorage.host a)
    (CRWSessionCertificateStorage.status a) s) as (c & E & Hc).
  rewrite (mbind_run _ _ _ _ _ E). destruct (IH (with_cache c s)) as (c' & E' & Hc'). exists c'. split; [done|].
  intros h x. rewrite Hc'. cbn [cache with_cache fmap list_fmap foldl]. by rewrite Hc.
Qed.

Lemma QueryPolicy_run host cert status s : (0 < status)%Z -> exists c,
  on_cache (CertificatePolicyCache.QueryPolicy WebThread.IO cert host status) s =
    Ok (match CertificatePolicyCache.allowed host cert (cache s) with
        | Some allowed => if (Z.land allowed status =? status)%Z then CertPolicy.ALLOWED else CertPolicy.UNKNOWN
        | None => CertPolicy.UNKNOWN
        end, with_cache c s) /\
  forall h x, CertificatePolicyCache.allowed h x c = CertificatePolicyCache.allowed h x (cache s).
Proof.
  intros Hs. eexists. split; [|intros h x; apply allowed_query]. unfold on_cache, CertificatePolicyCache.QueryPolicy.
  rewrite (mbind_run _ _ _ tt (cache s)), (mbind_run _ _ _ _ _ eq_refl), (mbind_run _ _ _ _ _ eq_refl) by done.
  unfold mreturn. do 3 f_equal. rewrite Check_judgment by done. rewrite <- (allowed_query (cache s) host).
  unfold CertificatePolicyCache.allowed at 1, CertificatePolicyCache.t, CertPolicy.t. by rewrite lookup_insert_eq.
Qed.

(** ** The invariant *)

Section Invariant.
Context `{!X509Laws X}.
Context (restored : Session).

(** A decision that was asked for, with the result of the evaluation of its trust;
    and how it was decided, from the tasks the IO thread ran before it. *)
Definition asked (events : list Event) (evaluated : list (PoolTask * SecTrustResultType)) (trust : SecTrust)
    (host : option NSHost) (handler : positive) (result : SecTrustResultType) : Prop :=
  Decide trust host handler ∈ events /\ (VerifyTask trust (DecideCompletion trust host handler), result) ∈ evaluated.
Definition decided (events : list Event) (evaluated : list (PoolTask * SecTrustResultType)) (done_ : list IOTask)
    (handler : positive) (policy : CertAcceptPolicy) (status : Z) : Prop :=
  exists trust host result, asked events evaluated trust host handler result /\
    if proceeds result then policy = ALLOW /\ status = 0%Z
    else exists before after error, done_ = before ++ DecideTask result error trust host handler :: after /\
      status = certStatusFromTrustResult result error /\ policy = verdict before result status trust host.

Definition pool_ok (events : list Event) (task : PoolTask) : Prop :=
  match task with
  | VerifyTask trust (DecideCompletion trust' host handler) => trust' = trust /\ Decide trust host handler ∈ events
  | _ => True
  end.
Definition requested (events : list Event) (task : IOTask) : Prop :=
  forall e, e ∈ allows task -> e ∈ requests restored events.
Definition io_ok (events : list Event) (s : t) (task : IOTask) : Prop :=
  match task with
  | DecideTask result _ trust host handler =>
      proceeds result = false /\ asked events (pool_done s) trust host handler result
  | _ => requested events task
  end.
Definition main_ok (events : list Event) (s : t) (task : MainTask) : Prop :=
  match task with
  | VerifiedTask result _ (DecideCompletion trust host handler) => asked events (pool_done s) trust host handler result
  | VerifiedTask _ _ _ => True
  | HandlerTask handler policy status => decided events (pool_done s) (io_done s) handler policy status
  end.
Definition answer_ok (events : list Event) (s : t) (a : Answer) : Prop :=
  match a with
  | Decided handler policy status => decided events (pool_done s) (io_done s) handler policy status
  | Queried _ _ _ => True
  end.

Record inv (events : list Event) (s : t) : Prop := {
  inv_cache : cache_agrees (io_done s) (cache s);
  inv_session : Forall (fun c => of_storage c ∈ requests restored events)
    (default [] (SessionCertificatePolicyCacheImpl.allowed_certs_ (session s)));
  inv_posted : SessionCertificatePolicyCacheImpl.posted (session s) = [];
  inv_pool : Forall (pool_ok events) (pool s);
  inv_io : Forall (io_ok events s) (io s);
  inv_done : Forall (requested events) (io_done s);
  inv_main : Forall (main_ok events s) (main s);
  inv_answers : Forall (answer_ok events s) (answers s)
}.

(** More events and more tasks that ran. *)
Lemma asked_mono events events' l l' trust host handler result : events ⊆ events' -> l ⊆ l' ->
  asked events l trust host handler result -> asked events' l' trust host handler result.
Proof. intros He Hl [H1 H2]. split; auto. Qed.

Lemma decided_mono events events' l l' d d' handler policy status : events ⊆ events' -> l ⊆ l' -> d `prefix_of` d' ->
  decided events l d handler policy status -> decided events' l' d' handler policy status.
Proof.
  intros He Hl [k ->] (trust & host & result & Ha & Hd). exists trust, host, result. split; [by eapply asked_mono|].
  destruct (proceeds result); [done|]. destruct Hd as (before & after & error & -> & Hs & Hp).
  exists before, (after ++ k), error. split; [by rewrite <- app_assoc|done].
Qed.

Lemma requests_mono events event e : e ∈ requests restored events -> e ∈ requests restored (events ++ [event]).
Proof.
  unfold requests. rewrite bind_app, !elem_of_app. tauto.
Qed.

Record grows (events events' : list Event) (s s' : t) : Prop := {
  grows_events : events ⊆ events';
  grows_requests e : e ∈ requests restored events -> e ∈ requests restored events';
  grows_pool : pool_done s ⊆ pool_done s';
  grows_io : io_done s `prefix_of` io_done s'
}.

Lemma main_ok_mono events events' s s' task : grows events events' s s' -> main_ok events s task -> main_ok events' s' task.
Proof. intros []. destruct task as [result error [trust host handler|]|]; cbn; [by apply asked_mono|done|by apply decided_mono]. Qed.
Lemma answer_ok_mono events events' s s' a : grows events events' s s' -> answer_ok events s a -> answer_ok events' s' a.
Proof. intros []. destruct a; cbn; [by apply decided_mono|done]. Qed.
Lemma requested_mono events events' s s' task : grows events events' s s' -> requested events task -> requested events' task.
Proof. intros [_ Hr _ _] Ht e He. by apply Hr, Ht. Qed.
Lemma io_ok_mono events events' s s' task : grows events events' s s' -> io_ok events s task -> io_ok events' s' task.
Proof.
  intros Hg. destruct task; try by apply requested_mono with (1 := Hg).
  destruct Hg. intros [? ?]. split; [done|by eapply asked_mono].
Qed.
Lemma pool_ok_mono events events' s s' task : grows events events' s s' -> pool_ok events task -> pool_ok events' task.
Proof. intros []. destruct task as [trust [trust' host handler|]]; cbn; [|done]. intros [? ?]. auto. Qed.

Lemma inv_event events event s : inv events s -> inv (events ++ [event]) s.
Proof.
  assert (grows events (events ++ [event]) s s) as Hg.
  { split; [set_solver|apply requests_mono|done..]. }
  intros [H1 H2 H3 H4 H5 H6 H7 H8]. split; [done| |done| | | | |]; try (eapply Forall_impl; [done|]).
  - intros c. apply requests_mono.
  - intros task. by apply pool_ok_mono with (1 := Hg).
  - intros task. by apply io_ok_mono with (1 := Hg).
  - intros task. by apply requested_mono with (1 := Hg).
  - intros task. by apply main_ok_mono with (1 := Hg).
  - intros task. by apply answer_ok_mono with (1 := Hg).
Qed.

(** What posts a task or runs a handler. *)
Lemma inv_post_pool events s task : inv events s -> pool_ok events task -> inv events (with_pool (pool s ++ [task]) s).
Proof. intros [] Ht. split; try done. cbn. by apply Forall_app_2; [|apply Forall_singleton]. Qed.
Lemma inv_post_io events s tasks session' : inv events s -> Forall (requested events) tasks -> Forall (io_ok events s) tasks ->
  Forall (fun c => of_storage c ∈ requests restored events) (default [] (SessionCertificatePolicyCacheImpl.allowed_certs_ session')) ->
  SessionCertificatePolicyCacheImpl.posted session' = [] ->
  inv events (with_io (io s ++ tasks) (with_session session' s)).
Proof. intros [] Hr Ht. split; try done. cbn. by apply Forall_app_2. Qed.

Lemma step_call events event s : inv events s -> event ∈ events ->
  match event with Decide _ _ _ | Query _ _ _ | AllowCert _ _ _ | ClearPolicies => True | _ => False end ->
  (forall e, e ∈ request event -> e ∈ requests restored events) ->
  exists s', step event s = Ok (tt, s') /\ inv events s'.
Proof.
  intros Hi He Hc Hr. destruct event as [trust host handler|trust host handler|cert host status| | | | | |]; try done.
  - eexists. split; [done|]. by apply inv_post_pool.
  - eexists. split; [done|]. by apply inv_post_pool.
  - cbn [step]. unfold allowCert. rewrite (mbind_run _ _ s tt s), (mbind_run _ _ _ _ _ (SessionCertificatePolicyCacheImpl.leaf_certificate_run cert s)) by done.
    eexists. split; [done|]. destruct Hi. split; try done. apply Forall_app_2; [done|]. apply Forall_singleton. exact Hr.
  - eexists. split; [done|]. destruct Hi. split; try done. apply Forall_app_2; [done|]. apply Forall_singleton.
    intros e []%elem_of_nil.
Qed.

Lemma step_session events event s : inv events s -> legal event = true ->
  match event with RegisterAllowed _ _ _ | UpdateFromSession => True | _ => False end ->
  (forall e, e ∈ request event -> e ∈ requests restored events) ->
  exists s', step event s = Ok (tt, s') /\ inv events s'.
Proof.
  intros Hi Hl Hc Hr. destruct event as [| | |cert host status| | | | |]; try done; cbn [step]; unfold on_session.
  - cbn in Hl. apply negb_true_iff, bool_decide_eq_false in Hl.
    rewrite SessionCertificatePolicyCacheImpl.RegisterAllowedCertificate_run by done. eexists. split; [done|].
    cbn [SessionCertificatePolicyCacheImpl.posted SessionCertificatePolicyCacheImpl.allowed_certs_]. rewrite (inv_posted _ _ Hi).
    assert (forall x, x ∈ [(SessionCertificatePolicyCacheImpl.leaf cert, host, status)] -> x ∈ requests restored events) as Hx by exact Hr.
    apply inv_post_io; [done|by apply Forall_singleton..| |done]. cbn. pose proof (inv_session _ _ Hi) as Hs.
    destruct (SessionCertificatePolicyCacheImpl.allowed_certs_ (session s)) as [l|]; cbn in *; [|done].
    apply Forall_app_2; [done|]. apply Forall_singleton, Hx. by left.
  - eexists. split; [done|]. cbn [SessionCertificatePolicyCacheImpl.posted SessionCertificatePolicyCacheImpl.allowed_certs_].
    rewrite (inv_posted _ _ Hi). pose proof (inv_session _ _ Hi) as Hs.
    assert (requested events (SessionTask (SessionCertificatePolicyCacheImpl.AllowCertsForHosts
      (default [] (SessionCertificatePolicyCacheImpl.allowed_certs_ (session s)))))) as Hq.
    { intros e He. cbn in He. apply list_elem_of_fmap in He as (c & -> & Hc'). rewrite Forall_forall in Hs. by apply Hs. }
    apply inv_post_io; [done|by apply Forall_singleton..|done|done].
Qed.

Lemma step_pool events i isTrusted result error s : inv events s -> isTrusted = proceeds result ->
  exists s', step (RunPool i isTrusted result error) s = Ok (tt, s') /\ inv events s'.
Proof.
  intros Hi ->. cbn [step]. rewrite (mbind_run _ _ s s s) by done. destruct (pool s !! i) as [[trust completion]|] eqn:Ei; [|by exists s].
  rewrite (mbind_run _ _ s tt (with_pool (delete i (pool s)) s)) by done. unfold run_pool_task.
  set (s1 := with_pool (delete i (pool s)) s). set (task := VerifyTask trust completion).
  set (s2 := with_main (main s1 ++ [VerifiedTask result error completion]) s1).
  rewrite (mbind_run _ _ s1 tt s2).
  2: { rewrite (mbind_run _ _ s1 tt s1); [done|]. unfold dcheck. fold (proceeds result). by destruct (proceeds result). }
  exists (with_pool_done (pool_done s ++ [(task, result)]) s2). split; [done|].
  assert (grows events events s (with_pool_done (pool_done s ++ [(task, result)]) s2)) as Hg by (split; [done|done|set_solver|done]).
  destruct Hi as [H1 H2 H3 H4 H5 H6 H7 H8]. rewrite Forall_forall in H4.
  assert (pool_ok events task) as Ht by (apply H4; by eapply list_elem_of_lookup_2).
  split; [done..| | | | |].
  - rewrite Forall_forall. intros x Hx. apply H4. cbn in Hx. rewrite (delete_Permutation _ _ _ Ei). by right.
  - eapply Forall_impl; [done|]. intros x. by apply io_ok_mono.
  - done.
  - apply Forall_app_2; [eapply Forall_impl; [done|]; intros x; by apply main_ok_mono|]. apply Forall_singleton.
    destruct completion as [trust' host handler|]; [|done]. destruct Ht as [-> He]. split; [done|]. cbn. set_solver.
  - eapply Forall_impl; [done|]. intros x. by apply answer_ok_mono.
Qed.

(** A task of the IO thread: what it does to the cache, and the handler it posts. *)
Definition handler_posted (history : list IOTask) (task : IOTask) : list MainTask :=
  match task with
  | DecideTask result error trust host handler =>
      let status := certStatusFromTrustResult result error in
      [HandlerTask handler (verdict history result status trust host) status]
  | _ => []
  end.

Lemma decide_run history result error trust host s : proceeds result = false -> cache_agrees history (cache s) -> exists c,
  loadPolicyForRejectedTrustResult WebThread.IO result (certStatusFromTrustResult result error) trust host s =
    Ok (verdict history result (certStatusFromTrustResult result error) trust host, with_cache c s) /\ cache_agrees history c.
Proof.
  intros Hp Hc. unfold loadPolicyForRejectedTrustResult. rewrite (mbind_run _ _ s tt s), (mbind_run _ _ s tt s) by by destruct result.
  unfold verdict. assert (forall p : CertAcceptPolicy, exists c, mreturn p s = Ok (p, with_cache c s) /\ cache_agrees history c) as Hr.
  { intros p. exists (cache s). by destruct s. }
  destruct result; cbn [bool_decide decide_rel negb]; try apply Hr; try done. rewrite bool_decide_true by done. cbn [negb].
  destruct (trust_leaf trust) as [[cert|]|]; cbn [mjoin option_join]; [|apply Hr..].
  destruct (QueryPolicy_run (SysNSStringToUTF8 host) cert
    (certStatusFromTrustResult kSecTrustResultRecoverableTrustFailure error) s) as (c & E & Ha); [by apply rejected_status|].
  exists c. rewrite (mbind_run _ _ _ _ _ E), (Hc (SysNSStringToUTF8 host) cert). split; [|intros h x; by rewrite Ha].
  destruct (allowed_after history (SysNSStringToUTF8 host) cert) as [allowed|]; [|done]. by destruct (_ =? _)%Z.
Qed.

Lemma io_task_run events s task : cache_agrees (io_done s) (cache s) -> io_ok events s task -> exists c,
  run_io_task task s = Ok (tt, with_main (main s ++ handler_posted (io_done s) task) (with_cache c s)) /\
  cache_agrees (io_done s ++ [task]) c.
Proof.
  intros Hc Ht.
  assert (forall cert host status, (forall h x, after_task h x (allowed_after (io_done s) h x) task =
    except h x (allowed_after (io_done s) h x) (cert, host, status)) -> exists c,
    allow_on_IO cert host status s = Ok (tt, with_main (main s ++ []) (with_cache c s)) /\ cache_agrees (io_done s ++ [task]) c) as Hone.
  { intros cert host status Hx. destruct (allow_on_IO_run cert host status s) as (c & E & Ha). exists c.
    rewrite app_nil_r, E. split; [by destruct s|]. intros h x. by rewrite Ha, allowed_after_snoc, Hc, Hx. }
  destruct task as [[cert host status|certs]|cert host status| |result error trust host handler]; cbn [run_io_task handler_posted].
  - by apply Hone.
  - destruct (allow_all_run certs s) as (c & E & Ha). exists c. rewrite E, app_nil_r. split; [by destruct s|].
    intros h x. by rewrite Ha, allowed_after_snoc, Hc.
  - by apply Hone.
  - exists ∅. rewrite app_nil_r. split; [by destruct s|]. intros h x. rewrite allowed_after_snoc.
    unfold CertificatePolicyCache.allowed, CertificatePolicyCache.t, CertPolicy.t. by rewrite lookup_empty.
  - destruct Ht as [Hp _]. destruct (decide_run (io_done s) result error trust host s Hp Hc) as (c & E & Ha). exists c.
    rewrite (mbind_run _ _ _ _ _ E). split; [done|]. intros h x. by rewrite Ha, allowed_after_snoc.
Qed.

Lemma enumerated_ok events choices s task : io_ok events s task -> io_ok events s (enumerated choices task).
Proof.
  destruct task as [[cert host status|certs]|cert host status| |]; try done. intros Ht e He. apply Ht. cbn in *.
  by rewrite SessionCertificatePolicyCacheImpl.enumerate_Permutation in He.
Qed.

Lemma step_io events choices s : inv events s -> exists s', step (RunIO choices) s = Ok (tt, s') /\ inv events s'.
Proof.
  intros Hi. cbn [step]. rewrite (mbind_run _ _ s s s) by done. destruct (io s) as [|task tasks] eqn:Ei; [by exists s|].
  rewrite (mbind_run _ _ s tt (with_io tasks s)) by done. pose proof (inv_io _ _ Hi) as Hio. rewrite Ei in Hio.
  apply Forall_cons in Hio as [Ht%(enumerated_ok events choices) Hts]. revert Ht. generalize (enumerated choices task). clear task Ei. intros task Ht.
  destruct (io_task_run events (with_io tasks s) task) as (c & E & Hc); [apply Hi|done|].
  rewrite (mbind_run _ _ _ _ _ E). eexists. split; [done|]. set (s' := with_io_done _ _).
  assert (grows events events s s') as Hg by (split; [done..|by eexists]).
  destruct Hi as [H1 H2 H3 H4 H5 H6 H7 H8]. split; [done..| | | |]; cbn.
  - eapply Forall_impl; [done|]. intros x. by apply io_ok_mono.
  - apply Forall_app_2; [done|]. apply Forall_singleton. destruct task; try done. intros e []%elem_of_nil.
  - apply Forall_app_2; [eapply Forall_impl; [done|]; intros x; by apply main_ok_mono|].
    destruct task as [| | |result error trust host handler]; try by apply Forall_nil. apply Forall_singleton.
    destruct Ht as [Hp Ha]. exists trust, host, result. split; [done|]. rewrite Hp. by exists (io_done s), [], error.
  - eapply Forall_impl; [done|]. intros x. by apply answer_ok_mono.
Qed.

Lemma inv_main_tasks events s task tasks : inv events s -> main s = task :: tasks ->
  inv events (with_main tasks s) /\ main_ok events s task.
Proof. intros [] Em. rewrite Em in *. apply Forall_cons in inv_main0 as [Ht Hts]. by split. Qed.

Lemma inv_answer events s a : inv events s -> answer_ok events s a -> inv events (with_answers (answers s ++ [a]) s).
Proof. intros [] Ha. split; try done. cbn. by apply Forall_app_2; [|apply Forall_singleton]. Qed.

Lemma step_main events s : inv events s -> exists s', step RunMain s = Ok (tt, s') /\ inv events s'.
Proof.
  intros Hi. cbn [step]. rewrite (mbind_run _ _ s s s) by done. destruct (main s) as [|task tasks] eqn:Em; [by exists s|].
  rewrite (mbind_run _ _ s tt (with_main tasks s)) by done. destruct (inv_main_tasks events s task tasks Hi Em) as [Hi' Ht].
  destruct task as [result error [trust host handler|handler]|handler policy status]; cbn [run_main_task run_completion].
  - rewrite (mbind_run _ _ _ tt (with_main tasks s)) by done. fold (proceeds result). destruct (proceeds result) eqn:Ep.
    + eexists. split; [done|]. apply inv_answer; [done|]. exists trust, host, result. split; [done|]. by rewrite Ep.
    + eexists. split; [done|]. destruct Hi'. split; try done. cbn. apply Forall_app_2; [done|]. by apply Forall_singleton.
  - eexists. split; [done|]. by apply inv_answer.
  - eexists. split; [done|]. by apply inv_answer.
Qed.

Lemma step_run events event s : inv events s -> legal event = true ->
  exists s', step event s = Ok (tt, s') /\ inv (events ++ [event]) s'.
Proof.
  intros Hi%(inv_event events event) Hl.
  assert (forall e, e ∈ request event -> e ∈ requests restored (events ++ [event])) as Hr.
  { intros e He. unfold requests. rewrite bind_app. cbn. rewrite app_nil_r. set_solver. }
  destruct event; try by apply step_session.
  1-4: apply step_call; [done|set_solver|done|done].
  - apply step_pool; [done|]. cbn in Hl. by apply Bool.eqb_prop.
  - by apply step_io.
  - by apply step_main.
Qed.

End Invariant.

(** ** The handlers *)

Definition handlers (s : t) : list positive := in_flight s ++ answered s.

Definition same_tasks (s s' : t) : Prop := pool s' = pool s /\ io s' = io s /\ main s' = main s /\ answers s' = answers s.
#[local] Instance same_tasks_preorder : PreOrder same_tasks.
Proof. split; [by intros s|]. intros s1 s2 s3 (? & ? & ? & ?) (? & ? & ? & ?). repeat split; congruence. Qed.

Lemma keeps_on_cache {A} (m : M CertificatePolicyCache.t A) : keeps same_tasks (on_cache m).
Proof. intros s a s' E. unfold on_cache in E. destruct (m (cache s)) as [[a' c]|]; [|done]. injection E as [= _ <-]. by repeat split. Qed.
#[local] Hint Resolve keeps_on_cache : code.

Lemma keeps_loadPolicy thread result status trust host :
  keeps same_tasks (loadPolicyForRejectedTrustResult thread result status trust host).
Proof. through loadPolicyForRejectedTrustResult. Qed.

Lemma handlers_io task s s' : run_io_task task s = Ok (tt, s') ->
  handlers s' ≡ₚ handlers s ++ handler_of_io task.
Proof.
  assert (forall m : M t unit, keeps same_tasks m -> m s = Ok (tt, s') -> handler_of_io task = [] ->
    handlers s' ≡ₚ handlers s ++ handler_of_io task) as Hk.
  { intros m Hm (Hp & Hio & Hma & Ha)%Hm ->. unfold handlers, in_flight, answered. by rewrite app_nil_r, Hp, Hio, Hma, Ha. }
  destruct task as [[cert host status|certs]|cert host status| |result error trust host handler]; cbn [run_io_task].
  - intros E. eapply Hk; [|exact E|done]. apply keeps_on_cache.
  - intros E. eapply Hk; [|exact E|done]. apply keeps_for; [apply _|]. intros c. apply keeps_on_cache.
  - intros E. eapply Hk; [|exact E|done]. apply keeps_on_cache.
  - intros E. eapply Hk; [|exact E|done]. apply keeps_on_cache.
  - intros (policy & s1 & (Hp & Hio & Hma & Ha)%keeps_loadPolicy & [= <-])%mbind_ok. unfold handlers, in_flight, answered. cbn.
    rewrite Hp, Hio, Hma, Ha, fmap_app. cbn. rewrite !(assoc_L (++)). solve_Permutation.
Qed.

Lemma handler_of_enumerated choices task : handler_of_io (enumerated choices task) = handler_of_io task.
Proof. by destruct task as [[]| | |]. Qed.

Lemma handlers_main task s s' : run_main_task task s = Ok (tt, s') ->
  handlers s' ≡ₚ handlers s ++ [handler_of_main task].
Proof.
  destruct task as [result error [trust host handler|handler]|handler policy status]; cbn [run_main_task run_completion].
  - intros (u & s1 & [= <- <-] & E)%mbind_ok. destruct (_ || _); injection E as [= <-];
      unfold handlers, in_flight, answered; cbn; rewrite ?fmap_app, ?bind_app; cbn; solve_Permutation.
  - intros [= <-]. unfold handlers, in_flight, answered. cbn. rewrite fmap_app. cbn. solve_Permutation.
  - intros [= <-]. unfold handlers, in_flight, answered. cbn. rewrite fmap_app. cbn. solve_Permutation.
Qed.

Lemma handlers_session m s s' : on_session m s = Ok (tt, s') -> handlers s' ≡ₚ handlers s.
Proof.
  unfold on_session. destruct (m (session s)) as [[u c]|]; [|done]. intros [= <-].
  unfold handlers, in_flight, answered. cbn. rewrite bind_app.
  assert (forall l, (SessionTask <$> l) ≫= handler_of_io = []) as -> by (intros l; by induction l). by rewrite app_nil_r.
Qed.

Lemma step_handlers event s s' : step event s = Ok (tt, s') -> handlers s' ≡ₚ handlers s ++ handler_of_event event.
Proof.
  destruct event as [trust host handler|trust host handler|cert host status|cert host status| | |i isTrusted result error| |];
    cbn [step handler_of_event].
  1, 2: intros [= <-]; unfold handlers, in_flight, answered; cbn; rewrite fmap_app; cbn; solve_Permutation.
  - intros (u & s1 & [= <- <-] & (c & s2 & Hs & [= <-])%mbind_ok)%mbind_ok.
    assert (s2 = s) as ->.
    { assert (keeps eq (SessionCertificatePolicyCacheImpl.leaf_certificate (S := t) cert)) as Hk by (through @SessionCertificatePolicyCacheImpl.leaf_certificate).
      symmetry. by eapply Hk. }
    unfold handlers, in_flight, answered. cbn. rewrite bind_app. cbn. by rewrite !app_nil_r.
  - rewrite app_nil_r. by apply handlers_session.
  - rewrite app_nil_r. by apply handlers_session.
  - intros [= <-]. unfold handlers, in_flight, answered. cbn. rewrite bind_app. cbn. by rewrite !app_nil_r.
  - intros (s0 & s0' & [= <- <-] & E)%mbind_ok. rewrite app_nil_r. destruct (pool s !! i) as [[trust completion]|] eqn:Ei.
    2: { by injection E as [= <-]. }
    apply mbind_ok in E as (u & s1 & [= <- <-] & (u' & s2 & E & [= <-])%mbind_ok).
    apply mbind_ok in E as (u1 & s3 & Hd & [= E2]). unfold dcheck in Hd. destruct (Bool.eqb _ _); [|done]. injection Hd as E3. subst s2 s3.
    pose proof (Permutation_map handler_of_pool (delete_Permutation _ _ _ Ei)) as Hp.
    unfold handlers, in_flight, answered. cbn. rewrite Hp, fmap_app. cbn. solve_Permutation.
  - intros (s0 & s0' & [= <- <-] & E)%mbind_ok. rewrite app_nil_r. destruct (io s) as [|task tasks] eqn:Ei; [by injection E as [= <-]|].
    apply mbind_ok in E as (u & s1 & [= <- <-] & ([] & s2 & Hr%handlers_io & [= <-])%mbind_ok).
    change (handlers s2 ≡ₚ handlers s). rewrite Hr, handler_of_enumerated. unfold handlers, in_flight, answered. cbn. rewrite Ei. cbn. solve_Permutation.
  - intros (s0 & s0' & [= <- <-] & E)%mbind_ok. rewrite app_nil_r. destruct (main s) as [|task tasks] eqn:Em; [by injection E as [= <-]|].
    apply mbind_ok in E as (u & s1 & [= <- <-] & Hr%handlers_main).
    rewrite Hr. unfold handlers, in_flight, answered. cbn. rewrite Em. cbn. solve_Permutation.
Qed.

Lemma run_snoc events event s s' : run events s = Ok (tt, s') -> run (events ++ [event]) s = step event s'.
Proof.
  revert s. unfold run. induction events as [|e events IH]; intros s; cbn [mfor app].
  - intros [= <-]. unfold mbind. destruct (step event s) as [[[] s1]|]; done.
  - intros ([] & s1 & E & Hr)%mbind_ok. rewrite (mbind_run _ _ _ _ _ E). by apply IH.
Qed.

Lemma run_inv `{!X509Laws X} restored events : SessionCertificatePolicyCacheImpl.posted restored = [] ->
  Forall (fun event => legal event = true) events ->
  exists s, run events (init restored) = Ok (tt, s) /\ inv restored events s /\ handlers s ≡ₚ events ≫= handler_of_event.
Proof.
  intros Hp. induction events as [|event events IH] using rev_ind; intros Hl.
  - exists (init restored). split_and!; [done| |done]. split; try done; cbn.
    unfold requests. rewrite Forall_forall. intros c Hc. apply elem_of_app. left. by apply list_elem_of_fmap_2.
  - apply Forall_app in Hl as [Hl [He _]%Forall_cons]. destruct (IH Hl) as (s & E & Hi & Hh). rewrite (run_snoc _ _ _ _ E).
    destruct (step_run restored events event s Hi He) as (s' & E' & Hi'). exists s'. split_and!; [done..|].
    rewrite (step_handlers _ _ _ E'), Hh, bind_app. cbn. by rewrite app_nil_r.
Qed.

(** C5: Certificates are verified without a failing DCHECK, whatever the order of
    the calls and tasks, and each handler is run once, or still waits for a task.
    A trust is allowed only when its evaluation said so. A rejected one is
    accepted exactly when the error can be recovered from and all the errors of
    its certificate are among those that were last allowed for it on this host,
    since the exceptions were cleared and before the decision; and nothing is
    allowed that the user did not allow, now or in the restored session. The
    exceptions of a session are allowed in the order in which its set is
    enumerated, which may be any order (each [RunIO] chooses one): when the set has
    several exceptions for a certificate on a host, any of them may be the last
    one, see [enumeration_decides]. *)
Theorem certificate_decisions `{!X509Laws X} restored events
    (Hlegal : Forall (fun event => legal event = true) events) :
  exists s, run events (init (SessionCertificatePolicyCacheImpl.BuildSessionCertificatePolicyCache restored)) = Ok (tt, s) /\
    in_flight s ++ answered s ≡ₚ events ≫= handler_of_event /\
    (forall handler policy status, Decided handler policy status ∈ answers s ->
       exists trust host result, Decide trust host handler ∈ events /\
         (VerifyTask trust (DecideCompletion trust host handler), result) ∈ pool_done s /\
         if proceeds result then policy = ALLOW /\ status = 0%Z
         else exists before after error, io_done s = before ++ DecideTask result error trust host handler :: after /\
           status = certStatusFromTrustResult result error /\ (0 < status)%Z /\ policy = verdict before result status trust host) /\
    (forall task e, task ∈ io_done s -> e ∈ allows task ->
       e ∈ requests (SessionCertificatePolicyCacheImpl.BuildSessionCertificatePolicyCache restored) events).
Proof.
  destruct (run_inv (SessionCertificatePolicyCacheImpl.BuildSessionCertificatePolicyCache restored) events eq_refl Hlegal)
    as (s & E & Hi & Hh). exists s. split_and!; [done|done| |].
  - intros handler policy status Hin. pose proof (inv_answers _ _ _ Hi) as Ha. rewrite Forall_forall in Ha.
    destruct (Ha _ Hin) as (trust & host & result & [H1 H2] & Hd). exists trust, host, result. split_and!; [done..|].
    destruct (proceeds result) eqn:Ep; [done|]. destruct Hd as (before & after & error & H3 & -> & H4).
    exists before, after, error. split_and!; [done..| |done]. by apply rejected_status.
  - intros task e Ht He. pose proof (inv_done _ _ _ Hi) as Hd. rewrite Forall_forall in Hd. by apply (Hd task Ht).
Qed.

End Code.
End CRWCertVerificationController.

(** ** Examples *)

Module ExampleCertificates.
Import CRWCertVerificationController.

(** A certificate is its bytes, and whether it comes without intermediates; a
    trust is its leaf certificate. *)
#[export] Instance certificates : CertificateOps :=
  {| X509Certificate := string * bool; EqualsIncludingChain c c' := bool_decide (c = c') |}.
#[export] Instance x509 : X509Ops := {|
  SHA256HashValue := string;
  CalculateChainFingerprint256 c := c.1;
  without_intermediates c := c.2;
  leaf_of c := Some (c.1, true);
  cert_buffer c := c.1;
  CreateFromBytes s := Some (s, true);
  IsCertStatusError s := negb (Z.land CERT_STATUS_ALL_ERRORS s =? 0)%Z;
  SecTrust := option string;
  CFError := Z;
  trust_leaf trust := match trust with Some s => Some (Some (s, true)) | None => None end;
  GetCertFailureStatusFromError e := (default 0 e mod 2 ^ 32)%Z;
  NSHost := string;
  SysUTF8ToNSString := Some;
  SysNSStringToUTF8 := default EmptyString
|}.
#[export] Instance x509_laws : X509Laws x509.
Proof.
  split.
  - intros c _. by eexists.
  - intros [b []]; [done|]. done.
  - done.
  - intros [s|] c; [|done]. by intros [= <-].
  - intros e. apply Z.mod_pos_bound. done.
Qed.

(** The user accepts a date error on the host h; then the certificate is seen with
    that error, with one more, and on another host. *)
Definition bad : string * bool := ("bad", false).
Definition see (host : string) (error : Z) (handler : positive) : list Event :=
  [Decide (Some "bad") (Some host) handler; RunPool 0 false kSecTrustResultRecoverableTrustFailure (Some (error : CFError));
   RunMain; RunIO []; RunMain].
Definition example_events : list Event :=
  [AllowCert bad (Some "h") 2; RunIO []] ++ see "h" 2 1 ++ see "h" 6 2 ++ see "g" 2 3 ++
  [Decide (Some "bad") (Some "h") 4; ClearPolicies; RunIO []; RunPool 0 false kSecTrustResultRecoverableTrustFailure (Some (2%Z : CFError));
   RunMain; RunIO []; RunMain; Decide (Some "good") (Some "h") 5; RunPool 0 true kSecTrustResultProceed None; RunMain].

Example example_decisions :
  answers <$> final_state (run example_events (init (SessionCertificatePolicyCacheImpl.BuildSessionCertificatePolicyCache None))) =
  Some [Decided 1 RECOVERABLE_ERROR_ACCEPTED_BY_USER 2; Decided 2 RECOVERABLE_ERROR_UNDECIDED_BY_USER 6;
        Decided 3 RECOVERABLE_ERROR_UNDECIDED_BY_USER 2; Decided 4 RECOVERABLE_ERROR_UNDECIDED_BY_USER 2; Decided 5 ALLOW 0].
Proof. vm_compute. reflexivity. Qed.

Lemma certificate_decisions_witness : exists s,
  run example_events (init (SessionCertificatePolicyCacheImpl.BuildSessionCertificatePolicyCache None)) = Ok (tt, s) /\
  in_flight s ++ answered s ≡ₚ [1; 2; 3; 4; 5]%positive.
Proof.
  destruct (certificate_decisions None example_events) as (s & E & Hh & _).
  { apply (bool_decide_unpack _). vm_compute. exact I. }
  exists s. split; [exact E|exact Hh].
Defined.

(** A session that is restored with two exceptions for a certificate on a host:
    the order in which its set is enumerated decides whether the certificate is
    accepted. *)
Definition two_exceptions : CRWSessionCertificatePolicyCacheStorage.t :=
  CRWSessionCertificatePolicyCacheStorage.mk
    (Some [CRWSessionCertificateStorage.mk ("bad", true) "h" 2; CRWSessionCertificateStorage.mk ("bad", true) "h" 6]).
Definition decided_after (choices : list nat) : option (list Answer) :=
  answers <$> final_state (run ([UpdateFromSession; RunIO choices] ++ see "h" 6 1)
    (init (SessionCertificatePolicyCacheImpl.BuildSessionCertificatePolicyCache (Some two_exceptions)))).
Example enumeration_decides :
  decided_after [0%nat] = Some [Decided 1 RECOVERABLE_ERROR_ACCEPTED_BY_USER 6] /\
  decided_after [1%nat] = Some [Decided 1 RECOVERABLE_ERROR_UNDECIDED_BY_USER 6].
Proof. split; vm_compute; reflexivity. Qed.

(** An exception of a session that was saved without a cache is forgotten. *)
Example exception_forgotten :
  (fun s => CRWSessionCertificatePolicyCacheStorage.certificateStorages (SessionCertificatePolicyCacheImpl.BuildStorage (session s))) <$>
    final_state (run [RegisterAllowed bad "h" 2] (init (SessionCertificatePolicyCacheImpl.BuildSessionCertificatePolicyCache None))) =
  Some (Some []).
Proof. vm_compute. reflexivity. Qed.

End ExampleCertificates.
