(* ===== verification/NavigationManagerRestore.v ===== *)
(** * NavigationManager: restoring into a new manager

    A manager that was just made has no web view, no item and nothing pending. A
    session is restored into it without any failure: the manager is then in the middle
    of a restoration, shows the item at the index of the session, and the load of the
    restoration is pending. *)

From stdpp Require Import base tactics option list numbers strings gmap fin_sets.
From Stdlib Require Import ZArith Lia.
From S2P Require Import Prelude WebTypes WkNavigationUtil NavigationItem NavigationManagerState NavigationManager.
From S2P Require Import NavigationManagerProofs.

(** The URL of restore_session.html is valid, whatever its fragment; the empty URL has
    no scheme; a reload is not a move in the history. *)
Class RestoreLaws `{E : WebEnv} {P : PageTransitionOps} `{N : !NavigationEnv} : Prop := {
  restore_url_valid : forall ref, gurl_is_valid (gurl_set_ref WkNavigationUtil.GetRestoreSessionBaseUrl ref) = true;
  null_scheme : gurl_scheme GURL_null = EmptyString;
  reload_is_not_forward_back : PageTransition_land PAGE_TRANSITION_RELOAD PAGE_TRANSITION_FORWARD_BACK = false
}.

Module NavigationManagerRestore.
Import NavigationManagerState NavigationManagerImpl WkNavigationUtil.

Section Proofs.
Context `{G : GURLOps} {WE : WebEnv} `{CertificateOps} `{PageTransitionOps} `{ItemEnv}.
Context {NE : NavigationEnv} `{!NativeRestore}.
Context `{!GURLLaws G} `{!RestoreLaws}.

(** ** Items *)

Lemma item_of_run r item s : heap s !! r = Some item -> item_of r s = Ok (item, s).
Proof. intros E. unfold item_of, mbind, mget. by rewrite E. Qed.
Lemma update_item_run r f item s : heap s !! r = Some item ->
  update_item r f s = Ok (tt, with_heap (<[r := f item]> (heap s)) s).
Proof. intros E. unfold update_item. by rewrite (mbind_run _ _ _ _ _ (item_of_run r item s E)). Qed.

Definition new_ref (s : t) : ItemRef := fresh (dom (heap s) : gset ItemRef).
Lemma new_ref_new s : heap s !! new_ref s = None.
Proof. unfold new_ref. apply (not_elem_of_dom (D := gset ItemRef)). exact (is_fresh (dom (heap s) : gset ItemRef)). Qed.

Lemma make_item_run item s : make_item item s = Ok (new_ref s, with_heap (<[new_ref s := item]> (heap s)) s).
Proof. done. Qed.
Lemma make_new_item_run s : item_counter s <> INT_MAX ->
  make_new_item s = Ok (new_ref s,
    with_heap (<[new_ref s := NavigationItemImpl.create (item_counter s + 1)]> (heap s))
      (with_item_counter (item_counter s + 1) s)).
Proof.
  intros Hc. unfold make_new_item, GetUniqueIDInConstructor, next_id, mbind, mget, mmodify.
  by rewrite (proj2 (Z.eqb_neq _ _) Hc).
Qed.

(** ** A manager without web view *)

Record bare (s : t) : Prop := {
  bare_proxy : proxy s = None;
  bare_attached : attached_to_web_view_ s = true;
  bare_window : empty_window_open_item_ s = None;
  bare_index : pending_item_index_ s = (-1)%Z
}.

Lemma bare_count s : bare s -> GetItemCount s = 0%Z.
Proof.
  intros [Hp Ha Hw _]. unfold GetItemCount, GetBackForwardListItemCount, IsAttachedToWebView. by rewrite Hw, Ha, Hp.
Qed.
Lemma LastCommitted_bare g s : bare s -> GetLastCommittedItemInCurrentOrRestoredSession g s = Ok (None, s).
Proof.
  intros Hb. pose proof (bare_count s Hb) as Hc. destruct Hb as [Hp Ha Hw Hi].
  unfold GetLastCommittedItemInCurrentOrRestoredSession. rewrite (mbind_run _ _ s s s) by done. rewrite Hw.
  assert (GetLastCommittedItemIndexInCurrentOrRestoredSession s = (-1)%Z) as ->.
  { unfold GetLastCommittedItemIndexInCurrentOrRestoredSession, GetCurrentItemIndex, IsAttachedToWebView, currentItem.
    by rewrite Hi, Hw, Ha, Hp. }
  change (-1 =? -1)%Z with true. cbv iota. by rewrite (mbind_run _ _ s tt s) by by rewrite Hc.
Qed.
Lemma GetLastCommittedItem_restoring s : is_restore_session_in_progress_ s = true -> GetLastCommittedItem s = Ok (None, s).
Proof. intros Hr. unfold GetLastCommittedItem. cbn. unfold GetLastCommittedItemImpl, mbind, mget. by rewrite Hr. Qed.

Lemma GetLastCommittedItem_bare s : bare s -> GetLastCommittedItem s = Ok (None, s).
Proof.
  intros Hb. change (GetLastCommittedItemImpl (GetLastCommittedItem_loop 1) s = Ok (None, s)).
  unfold GetLastCommittedItemImpl. rewrite (mbind_run _ _ s s s) by done.
  destruct (is_restore_session_in_progress_ s); [done|]. by rewrite (mbind_run _ _ _ _ _ (LastCommitted_bare _ s Hb)).
Qed.

(** An item that is made during a restoration. *)
Lemma CreateItem_restoring url referrer transition initiation https previous rewriters s :
  is_restore_session_in_progress_ s = true -> item_counter s <> INT_MAX ->
  exists item, CreateNavigationItemWithRewriters GetLastCommittedItem url referrer transition initiation https previous rewriters s =
    Ok (new_ref s, with_heap (<[new_ref s := item]> (heap s)) (with_item_counter (item_counter s + 1) s)).
Proof.
  intros Hr Hc. unfold CreateNavigationItemWithRewriters.
  destruct (match rewriters with Some _ => _ | None => _ end) as [rewritten u]. cbv zeta.
  set (loaded := if _ && _ then url else _).
  rewrite (mbind_run _ _ s loaded s).
  2: { destruct (PageTransition_land _ _); [|done]. by rewrite (mbind_run _ _ _ _ _ (GetLastCommittedItem_restoring s Hr)). }
  rewrite (mbind_run _ _ _ _ _ (make_new_item_run s Hc)). set (r := new_ref s).
  assert (forall (f : NavigationItemImpl.t -> NavigationItemImpl.t) item (k : M t ItemRef),
    mbind (update_item r f) (fun _ => k) (with_heap (<[r := item]> (heap s)) (with_item_counter (item_counter s + 1) s)) =
    k (with_heap (<[r := f item]> (heap s)) (with_item_counter (item_counter s + 1) s))) as Hu.
  { intros f item k. rewrite (mbind_run _ _ _ _ _ (update_item_run r f item _ (lookup_insert_eq _ _ _))). f_equal.
    cbn. by rewrite insert_insert_eq. }
  rewrite !Hu. by eexists.
Qed.

(** ** The load of a restoration *)

Lemma IsRestoreSessionUrl_null : IsRestoreSessionUrl GURL_null = false.
Proof. unfold IsRestoreSessionUrl, gurl_SchemeIsFile, gurl_SchemeIs. by rewrite null_scheme. Qed.

(** During a restoration: the items that were restored are those of [h], [visible] is
    shown, [calls] were made to the delegate. *)
Record restoring (h : gmap ItemRef NavigationItemImpl.t) (visible : option ItemRef) (calls : list DelegateCall) (s : t) :
    Prop := {
  restoring_bare : bare s;
  restoring_progress : is_restore_session_in_progress_ s = true;
  restoring_visible : restored_visible_item_ s = visible;
  restoring_calls : delegate_calls s = calls;
  restoring_heap : forall r item, h !! r = Some item -> heap s !! r = Some item
}.
(** The load is pending: its item is not one of the session. *)
Record loading h visible calls (p : ItemRef) (s : t) : Prop := {
  loading_restoring : restoring h visible calls s;
  loading_pending : pending_item_ s = Some p;
  loading_new : h !! p = None;
  loading_item : is_Some (heap s !! p)
}.

Lemma loading_update h visible calls p f s : loading h visible calls p s ->
  exists s', update_item p f s = Ok (tt, s') /\ loading h visible calls p s'.
Proof.
  intros [[[] Hr Hv Hc Hh] Hp Hn [item Ei]]. eexists. split; [exact (update_item_run p f item s Ei)|].
  split; [split; [by split|done..|]|done..|].
  - intros r i Er. cbn. rewrite lookup_insert_ne; [by apply Hh|]. intros ->. congruence.
  - cbn. rewrite lookup_insert_eq. by eexists.
Qed.
Lemma loading_when h visible calls p b f s : loading h visible calls p s ->
  exists s', mwhen b (update_item p f) s = Ok (tt, s') /\ loading h visible calls p s'.
Proof. intros Hl. destruct b; [by apply loading_update|by exists s]. Qed.
Lemma loading_modify h visible calls p f s : loading h visible calls p s ->
  (forall s, bare s -> bare (f s)) ->
  is_restore_session_in_progress_ (f s) = is_restore_session_in_progress_ s ->
  restored_visible_item_ (f s) = restored_visible_item_ s -> delegate_calls (f s) = delegate_calls s ->
  heap (f s) = heap s -> pending_item_ (f s) = pending_item_ s -> loading h visible calls p (f s).
Proof.
  intros [[Hb Hr Hv Hc Hh] Hp Hn Hi] Hf E1 E2 E3 E4 E5. split; [split; [by apply Hf|congruence..|by rewrite E4]|congruence|done|by rewrite E4].
Qed.

Lemma AddPendingItem_restoring url referrer type initiation post https h visible calls s :
  restoring h visible calls s -> h = heap s -> item_counter s <> INT_MAX ->
  exists p s', AddPendingItem url referrer type initiation post https s = Ok (tt, s') /\ loading h visible calls p s'.
Proof.
  intros [[Hp Ha Hw Hi] Hr Hv Hc _] -> Hn. unfold AddPendingItem.
  set (s1 := with_pending_item_index (-1) (with_pending_item None s)).
  rewrite (mbind_run _ _ s tt s1) by (unfold s1; by destruct s; cbn in *; subst).
  rewrite (mbind_run _ _ s1 tt s1) by done.
  rewrite (mbind_run _ _ _ _ _ (LastCommitted_bare GetLastCommittedItem s1 ltac:(by split))). rewrite mreturn_bind.
  rewrite (mbind_run _ _ s1 s1 s1) by done.
  destruct (CreateItem_restoring url referrer type initiation https GURL_null (Some (transient_url_rewriters_ s1)) s1)
    as [item E]; [done..|]. rewrite (mbind_run _ _ _ _ _ E). clear E. set (p := new_ref s1).
  set (s2 := with_pending_item (Some p) (with_heap (<[p := item]> (heap s1)) (with_item_counter (item_counter s1 + 1) s1))).
  rewrite (mbind_run _ _ _ tt s2) by done.
  assert (loading (heap s) visible calls p s2) as Hl2.
  { split; [split; [by split|done..|]|done|exact (new_ref_new s1)|].
    - intros r i Er. cbn. rewrite lookup_insert_ne; [done|]. intros Epr. rewrite <- Epr in Er.
      pose proof (new_ref_new s1) as Hnew. unfold p in Er. cbn in Hnew, Er. congruence.
    - cbn. rewrite lookup_insert_eq. by eexists. }
  clearbody s2. clear item. set (s3 := with_transient_url_rewriters [] s2).
  assert (loading (heap s) visible calls p s3) as Hl3 by (apply loading_modify; [done|by intros ? []|done..]).
  rewrite (mbind_run _ _ s2 tt s3) by done. clearbody s3. rewrite (mbind_run _ _ s3 s3 s3) by done.
  destruct (loading_when (heap s) visible calls p
    (negb (gurl_is_empty (next_pending_url_should_skip_serialization_ s3)) &&
     bool_decide (url = next_pending_url_should_skip_serialization_ s3)) (NavigationItemImpl.SetShouldSkipSerialization true) s3 Hl3)
    as (s4 & E4 & Hl4). rewrite (mbind_run _ _ _ _ _ E4). set (s5 := with_next_pending_url_should_skip_serialization GURL_null s4).
  assert (loading (heap s) visible calls p s5) as Hl5 by (apply loading_modify; [done|by intros ? []|done..]).
  rewrite (mbind_run _ _ s4 tt s5) by done. exists p, s5. split; [|done].
  (* there is no current item *)
  destruct (loading_restoring _ _ _ _ _ Hl3) as [[Hp3 Ha3 _ _] _ _ _ _]. destruct (loading_item _ _ _ _ _ Hl5) as [item Ei].
  unfold IsAttachedToWebView. rewrite Ha3. cbn [negb]. assert (currentItem s3 = None) as Hcur by (unfold currentItem; by rewrite Hp3).
  rewrite Hcur. cbn [wk_item_URL from_option]. rewrite IsRestoreSessionUrl_null, andb_false_r.
  rewrite mreturn_bind. rewrite (mbind_run _ _ _ _ _ (item_of_run p item s5 Ei)). done.
Qed.

Lemma restoring_delegate h visible calls call s : restoring h visible calls s ->
  delegate call s = Ok (tt, with_delegate_calls (delegate_calls s ++ [call]) s) /\
  restoring h visible (calls ++ [call]) (with_delegate_calls (delegate_calls s ++ [call]) s).
Proof. intros [[] Hr Hv Hc Hh]. split; [done|]. split; [by split|done|done|cbn; by rewrite Hc|done]. Qed.

Lemma GetPendingItem_loading h visible calls p s : loading h visible calls p s ->
  GetPendingItemInCurrentOrRestoredSession s = Ok (Some p, s).
Proof.
  intros [[[_ _ _ Hi] _ _ _ _] Hp _ _]. unfold GetPendingItemInCurrentOrRestoredSession, mbind, mget. by rewrite Hi, Hp.
Qed.

(** Through an assignment to the pending item. *)
Ltac loading_step :=
  lazymatch goal with
  | Hl : loading ?h ?v ?c ?p ?s |- context [mbind (mwhen ?b (update_item ?p ?f)) _ ?s] =>
      let s' := fresh "s" in let E := fresh "E" in let Hl' := fresh "Hl" in
      destruct (loading_when h v c p b f s Hl) as (s' & E & Hl'); rewrite (mbind_run _ _ _ _ _ E); clear E Hl
  end.

Lemma LoadURL_restoring l params h visible calls s :
  restoring h visible calls s -> h = heap s -> item_counter s <> INT_MAX ->
  IsRestoreSessionUrl (params_url params) = true -> params_transition_type params = PAGE_TRANSITION_RELOAD ->
  params_extra_headers params = None -> params_post_data params = None -> params_is_renderer_initiated params = false ->
  exists p s', LoadURLWithParams_body l params s = Ok (tt, s') /\
    loading h visible (calls ++ [ClearDialogs; RecordPageStateInNavigationItem; LoadCurrentItem BROWSER_INITIATED]) p s'.
Proof.
  intros Hs Eh Hc Hu Ht Hx Hd Hb. unfold LoadURLWithParams_body. rewrite (mbind_run _ _ s s s) by done.
  rewrite Hu, andb_false_r, Ht, Hx, Hd, Hb. rewrite (mbind_run _ _ s tt s) by by rewrite reload_is_not_forward_back.
  destruct (restoring_delegate _ _ _ ClearDialogs s Hs) as [E1 Hs1]. rewrite (mbind_run _ _ _ _ _ E1). clear E1.
  set (s1 := with_delegate_calls _ s) in *.
  destruct (restoring_delegate _ _ _ RecordPageStateInNavigationItem s1 Hs1) as [E2 Hs2]. rewrite (mbind_run _ _ _ _ _ E2). clear E2.
  set (s2 := with_delegate_calls _ s1) in *.
  destruct (AddPendingItem_restoring (params_url params) (params_referrer params) PAGE_TRANSITION_RELOAD BROWSER_INITIATED false
    (params_https_upgrade_type params) h visible _ s2 Hs2 Eh Hc) as (p & s3 & E3 & Hl3).
  rewrite (mbind_run _ _ _ _ _ E3). clear E3. clearbody s1 s2.
  rewrite (mbind_run _ _ _ _ _ (GetPendingItem_loading _ _ _ _ _ Hl3)).
  set (calls' := (calls ++ [ClearDialogs]) ++ [RecordPageStateInNavigationItem]) in *.
  lazymatch goal with |- context [mbind ?m _ s3] =>
    assert (exists s4, m s3 = Ok (tt, s4) /\ loading h visible calls' p s4) as (s4 & E4 & Hl4) end.
  { destruct (loading_item _ _ _ _ _ Hl3) as [item Ei].
    rewrite (mbind_run _ _ _ _ _ (LastCommitted_bare GetLastCommittedItem s3 (restoring_bare _ _ _ _ (loading_restoring _ _ _ _ _ Hl3)))).
    rewrite mreturn_bind, (mbind_run _ _ _ _ _ (item_of_run p item s3 Ei)). clear Ei.
    loading_step. loading_step. by apply loading_update. }
  rewrite (mbind_run _ _ _ _ _ E4). clear E4 Hl3. rewrite mreturn_bind.
  rewrite (mbind_run _ _ s4 tt s4) by done. rewrite (mbind_run _ _ s4 p s4) by done.
  rewrite (mbind_run _ _ s4 tt s4) by done. destruct (loading_update _ _ _ _ (NavigationItemImpl.SetHttpsUpgradeType
    (params_https_upgrade_type params)) s4 Hl4) as (s5 & E5 & Hl5). rewrite (mbind_run _ _ _ _ _ E5). clear E5 Hl4.
  rewrite (mbind_run _ _ s5 tt s5) by done. rewrite (mbind_run _ _ s5 s5 s5) by done.
  destruct Hl5 as [Hr5 Hp Hn Hi]. unfold IsAttachedToWebView. rewrite (bare_attached _ (restoring_bare _ _ _ _ Hr5)).
  destruct (restoring_delegate _ _ _ (LoadCurrentItem BROWSER_INITIATED) s5 Hr5) as [E6 Hr6].
  exists p. eexists. split; [exact E6|]. replace (calls ++ [ClearDialogs; _; _]) with (calls' ++ [LoadCurrentItem BROWSER_INITIATED]);
    [by split|]. unfold calls'. by rewrite <- !app_assoc.
Qed.

(** ** Restoring *)

Lemma CreateRestoreSessionUrl_run {S} last (items : list (GURL * u16string)) (s : S) :
  (0 <= last < Z.of_nat (length items))%Z -> exists ref first,
    CreateRestoreSessionUrl last items s = Ok ((gurl_set_ref GetRestoreSessionBaseUrl ref, first), s) /\
    (0 <= first < Z.of_nat (length items))%Z.
Proof.
  intros Hl. unfold CreateRestoreSessionUrl, mbind, dcheck, of_option.
  rewrite (proj2 (Z.leb_le _ _)), (proj2 (Z.ltb_lt _ _)) by lia. cbn [andb].
  pose proof (GetSafeItemRange_bounds last _ Hl) as Hb.
  destruct (GetSafeItemRange last (Z.of_nat (length items))) as [[new_last offset] size].
  destruct Hb as (Hsz & Ho & Hos & Hn & Hnl). rewrite mapM_zlookup by lia.
  eexists _, _. split; [reflexivity|]. lia.
Qed.

Lemma mmap_reads {S A B} (l : list A) (f : A -> M S B) s :
  (forall a, a ∈ l -> exists b, f a s = Ok (b, s)) -> exists bs, mmap l f s = Ok (bs, s).
Proof.
  induction l as [|a l IH]; intros Hf; [by exists []|]. destruct (Hf a) as [b E]; [by left|].
  destruct IH as [bs E']; [intros a' Ha; apply Hf; by right|]. exists (b :: bs). cbn [mmap].
  by rewrite (mbind_run _ _ _ _ _ E), (mbind_run _ _ _ _ _ E').
Qed.

(** The items of a session, once rewritten. *)
Definition rewritten (item : NavigationItemImpl.t) : NavigationItemImpl.t :=
  let '(rewritten, url) := BrowserURLRewriter.RewriteURLIfNecessary (NavigationItemImpl.GetURL item) in
  if rewritten then NavigationItemImpl.SetVirtualURL (NavigationItemImpl.GetURL item) (NavigationItemImpl.SetURL url item)
  else item.

Lemma RewriteItem_run r item s : heap s !! r = Some item ->
  RewriteItemURLIfNecessary r s = Ok (tt, with_heap (<[r := rewritten item]> (heap s)) s).
Proof.
  intros Ei. unfold RewriteItemURLIfNecessary. rewrite (mbind_run _ _ _ _ _ (item_of_run r item s Ei)). unfold rewritten.
  destruct (BrowserURLRewriter.RewriteURLIfNecessary _) as [[] url].
  - cbn [mwhen]. rewrite (mbind_run _ _ _ _ _ (update_item_run r _ item s Ei)).
    rewrite (update_item_run r _ _ _ (lookup_insert_eq _ _ _)). cbn. by rewrite insert_insert_eq.
  - cbn [mwhen]. unfold mreturn. rewrite insert_id by done. by destruct s.
Qed.

(** The loop over the items of a session. *)
Lemma RewriteItems_run refs : forall s, NoDup refs -> (forall r, r ∈ refs -> is_Some (heap s !! r)) ->
  exists h, mfor (Some <$> refs) (fun r => let! r := deref r in RewriteItemURLIfNecessary r) s = Ok (tt, with_heap h s) /\
    (forall r, r ∈ refs -> h !! r = rewritten <$> heap s !! r) /\ (forall r, r ∉ refs -> h !! r = heap s !! r).
Proof.
  induction refs as [|r refs IH]; intros s Hnd Hs.
  { exists (heap s). split_and!; [by destruct s| |done]. by intros r ?%elem_of_nil. }
  apply NoDup_cons in Hnd as [Hni Hnd]. destruct (Hs r) as [item Ei]; [by left|]. cbn [fmap list_fmap mfor].
  set (s1 := with_heap (<[r := rewritten item]> (heap s)) s).
  destruct (IH s1) as (h & E & Hin & Hout); [done| |].
  { intros r' Hr'. cbn. destruct (decide (r = r')) as [<-|]; [rewrite lookup_insert_eq; by eexists|].
    rewrite lookup_insert_ne by done. apply Hs. by right. }
  exists h. split_and!.
  - rewrite (mbind_run _ _ s tt s1); [exact E|]. change (RewriteItemURLIfNecessary r s = Ok (tt, s1)). by apply RewriteItem_run.
  - intros r' [->|Hr']%elem_of_cons.
    + rewrite Hout by done. cbn. by rewrite lookup_insert_eq, Ei.
    + rewrite Hin by done. cbn. rewrite lookup_insert_ne; [done|]. by intros ->.
  - intros r' Hr'. rewrite not_elem_of_cons in Hr'. rewrite Hout by tauto. cbn. rewrite lookup_insert_ne; [done|]. intros ->. tauto.
Qed.

(** A manager that was just made, with the items of a session. *)
Record new_manager (s : t) : Prop := {
  new_bare : bare s;
  new_progress : is_restore_session_in_progress_ s = false;
  new_visible : restored_visible_item_ s = None;
  new_pending : pending_item_ s = None;
  new_context : context_pending_item s = None;
  new_calls : delegate_calls s = []
}.

(** A session that can be restored: its index is one of an item, if there is any. *)
Definition restorable (index count : Z) : Prop :=
  (index < count)%Z /\ (count = 0 \/ 0 <= index)%Z.

Lemma synthesized_Init_run index refs s : (forall r, r ∈ refs -> is_Some (heap s !! r)) ->
  (0 <= index < Z.of_nat (length refs))%Z ->
  exists data, synthesized_restore_Init index (Some <$> refs) s = Ok (tt, with_cached_data data s).
Proof.
  intros Hs Hi. unfold synthesized_restore_Init. destruct synthesized_restore_enabled; cbn [mwhen].
  - rewrite (mbind_run _ _ s tt s).
    2: { unfold dcheck. by rewrite length_fmap, (proj2 (Z.leb_le _ _)), (proj2 (Z.ltb_lt _ _)) by lia. }
    destruct (mmap_reads (Some <$> refs) session_entry s) as [entries E].
    { intros r0 (r & -> & Hr)%list_elem_of_fmap. destruct (Hs r Hr) as [item Ei]. unfold session_entry.
      rewrite (mbind_run _ _ s r s) by done. rewrite (mbind_run _ _ _ _ _ (item_of_run r item s Ei)). by eexists. }
    rewrite (mbind_run _ _ _ _ _ E). by eexists.
  - exists (cached_data_ s). by destruct s.
Qed.

Definition kDelegateCalls : list DelegateCall :=
  [ClearDialogs; RecordPageStateInNavigationItem; LoadCurrentItem BROWSER_INITIATED].

Lemma restoring_callback l h visible calls callback s : restoring h visible calls s ->
  exists s', AddRestoreCompletionCallback l callback s = Ok (tt, s') /\ restoring h visible calls s' /\
    heap s' = heap s /\ item_counter s' = item_counter s.
Proof.
  intros [[] Hr Hv Hc Hh]. unfold AddRestoreCompletionCallback, mbind, mget. rewrite Hr. eexists. split; [reflexivity|].
  by split; [split; [by split|done..]|].
Qed.

Lemma UnsafeRestore_run l index refs s : new_manager s -> NoDup refs -> (forall r, r ∈ refs -> is_Some (heap s !! r)) ->
  (0 <= index < Z.of_nat (length refs))%Z -> item_counter s <> INT_MAX ->
  exists p h s', UnsafeRestore (LoadURLWithParams_body l) index (Some <$> refs) s = Ok (tt, s') /\
    loading h (mjoin (zlookup (Some <$> refs) index)) kDelegateCalls p s' /\
    (forall r, r ∈ refs -> h !! r = rewritten <$> heap s !! r).
Proof.
  intros [Hb Hp Hv Hpe Hcx Hca] Hnd Hs Hi Hc. unfold UnsafeRestore.
  destruct (RewriteItems_run refs s Hnd Hs) as (h & E & Hin & _). rewrite (mbind_run _ _ _ _ _ E). clear E.
  set (s1 := with_heap h s).
  assert (forall r, r ∈ refs -> is_Some (heap s1 !! r)) as Hs1 by (intros r Hr; cbn; rewrite (Hin r Hr), fmap_is_Some; auto).
  destruct (synthesized_Init_run index refs s1 Hs1 Hi) as [data E]. rewrite (mbind_run _ _ _ _ _ E). clear E.
  set (s2 := with_cached_data data s1).
  destruct (mmap_reads (Some <$> refs) url_and_title s2) as [read E].
  { intros r0 (r & -> & Hr)%list_elem_of_fmap. destruct (Hs1 r Hr) as [item Ei]. unfold url_and_title.
    rewrite (mbind_run _ _ s2 r s2) by done. rewrite (mbind_run _ _ _ _ _ (item_of_run r item s2 Ei)). by eexists. }
  rewrite (mbind_run _ _ _ _ _ E). apply length_mmap in E. rewrite length_fmap in E.
  destruct (CreateRestoreSessionUrl_run index read s2) as (ref & first & E' & Hf); [lia|]. rewrite E in Hf.
  rewrite (mbind_run _ _ _ _ _ E'). clear E E'.
  rewrite (mbind_run _ _ s2 tt s2) by (unfold dcheck; by rewrite (proj2 (Z.geb_le _ _)) by lia).
  rewrite (mbind_run _ _ s2 tt s2) by (unfold dcheck; rewrite length_fmap; by rewrite (proj2 (Z.ltb_lt _ _)) by lia).
  rewrite (mbind_run _ _ s2 tt s2) by (unfold dcheck; by rewrite restore_url_valid).
  destruct (proj2 (zlookup_lt_is_Some refs first)) as [f Ef]; [lia|]. assert (f ∈ refs) as Hfr by by eapply zlookup_elem.
  rewrite zlookup_fmap, Ef. rewrite (mbind_run _ _ s2 f s2) by done.
  destruct (Hs1 f Hfr) as [first_item Ei]. rewrite (mbind_run _ _ _ _ _ (item_of_run f first_item s2 Ei)).
  set (s3 := with_is_restore_session_in_progress true s2). rewrite (mbind_run _ _ s2 tt s3) by done.
  set (visible := mjoin (zlookup (Some <$> refs) index)). set (s4 := with_restored_visible_item visible s3).
  rewrite (mbind_run _ _ s3 tt s4) by (unfold mwhen; by rewrite (proj2 (Z.gtb_lt _ _)) by lia).
  assert (restoring h visible [] s4) as Hr4 by (split; [by destruct Hb|done..|done|done]).
  assert (heap s4 = h /\ item_counter s4 <> INT_MAX) as [Eh4 Hc4] by done. clearbody s4. clear s3.
  destruct (restoring_callback (LoadURLWithParams_body l) h visible [] (RestoreItemsStateCallback kBackList
    (take (Z.to_nat index) (Some <$> refs))) s4 Hr4) as (s5 & E5 & Hr5 & Eh5 & Ec5). rewrite (mbind_run _ _ _ _ _ E5). clear E5.
  destruct (restoring_callback (LoadURLWithParams_body l) h visible [] (RestoreItemsStateCallback kForwardList
    (drop (Z.to_nat (index + 1)) (Some <$> refs))) s5 Hr5) as (s6 & E6 & Hr6 & Eh6 & Ec6). rewrite (mbind_run _ _ _ _ _ E6). clear E6.
  lazymatch goal with |- context [LoadURLWithParams_body l ?params] =>
    destruct (LoadURL_restoring l params h visible [] s6 Hr6) as (p & s7 & E7 & Hl7); [congruence|congruence| |done..|] end.
  { apply IsRestoreSessionUrl_set_ref. }
  rewrite (mbind_run _ _ _ _ _ E7). clear E7. rewrite (mbind_run _ _ _ _ _ (GetPendingItem_loading _ _ _ _ _ Hl7)).
  assert (exists item, heap s7 !! f = Some item) as [item Ei7].
  { exists first_item. apply (restoring_heap _ _ _ _ (loading_restoring _ _ _ _ _ Hl7)). exact Ei. }
  rewrite (mbind_run _ _ _ _ _ (item_of_run f item s7 Ei7)).
  destruct (loading_update _ _ _ _ (NavigationItemImpl.SetTitle (NavigationItemImpl.GetTitle item)) s7 Hl7) as (s8 & E8 & Hl8).
  exists p, h, s8. by split_and!.
Qed.

Lemma Restore_run index refs s : new_manager s -> NoDup refs -> (forall r, r ∈ refs -> is_Some (heap s !! r)) ->
  restorable index (Z.of_nat (length refs)) -> item_counter s <> INT_MAX ->
  exists s', Restore LoadURLWithParams index (Some <$> refs) s = Ok (tt, s') /\
    if decide (refs = []) then s' = s
    else exists p h, loading h (mjoin (zlookup (Some <$> refs) index)) kDelegateCalls p s' /\
           (forall r, r ∈ refs -> h !! r = rewritten <$> heap s !! r).
Proof.
  intros Hn Hnd Hs [Hi1 Hi2] Hc. pose proof (bare_count s (new_bare s Hn)) as Hcount.
  pose proof Hn as [[Hp Ha Hw Hx] Hr Hv Hpe Hcx Hca]. unfold Restore. rewrite (mbind_run _ _ s s s) by done.
  rewrite (mbind_run _ _ s tt s) by by rewrite Hr.
  rewrite (mbind_run _ _ s tt s) by (unfold dcheck; by rewrite length_fmap, (proj2 (Z.ltb_lt _ _)) by lia).
  assert (bool_decide (Some <$> refs = []) = bool_decide (refs = [])) as -> by (by destruct refs).
  rewrite (mbind_run _ _ s tt s).
  2: { unfold dcheck. case_bool_decide as Er; [done|]. destruct refs; [done|]. cbn [length] in *.
       by rewrite (proj2 (Z.geb_le _ _)) by lia. }
  rewrite (mbind_run _ _ s tt s) by (unfold mwhen, IsAttachedToWebView; by rewrite Ha).
  destruct (decide (refs = [])) as [->|Hne]; [by exists s|]. rewrite bool_decide_false by done.
  rewrite (mbind_run _ _ s tt s).
  2: { unfold DiscardNonCommittedItems, mbind, mmodify. do 2 f_equal. destruct s; cbn in *. by subst. }
  rewrite (mbind_run _ _ s s s) by done. rewrite (mbind_run _ _ s tt s) by (unfold mwhen; by rewrite Hcount).
  rewrite (mbind_run _ _ s s s) by done. rewrite (mbind_run _ _ s tt s) by by rewrite Hcount.
  rewrite (mbind_run _ _ s tt s) by by rewrite Hx. set (s1 := with_last_committed_item_index (-1) s).
  rewrite (mbind_run _ _ s tt s1) by done.
  destruct (UnsafeRestore_run (LoadURLWithParams_loop 1) index refs s1) as (p & h & s' & E & Hl & Hh);
    [by split; [by split|..]|done|done| |done|by exists s'; split; [exact E|exists p, h]].
  destruct refs; [done|]. cbn [length] in *. lia.
Qed.

End Proofs.
End NavigationManagerRestore.
