(* ===== verification/WebStateImplState.v ===== *)
(** * WebStateImpl: the state

    The members of [WebStateImpl] (src/web/web_state/web_state_impl.{h,mm}) and of
    the two classes that implement it: [SerializedData]
    (web_state_impl_serialized_data.{h,mm}), a saved session that was not used yet,
    and [RealizedWebState] (web_state_impl_realized_web_state.{h,mm}), with the
    navigation manager, the frames and the certificates of the session. Of
    [CRWWebController] (ui/crw_web_controller.mm), which runs the WKWebView, the
    state holds what the WebState reads of it.

    Observers, deciders, delegates and closures are identities; what they are sent
    is recorded in order. *)

From stdpp Require Import base tactics option list numbers strings gmap.
From Stdlib Require Import ZArith Lia SpecFloat.
From S2P Require Import Prelude WebTypes WkNavigationUtil NavigationItem SessionStorage SessionBuilder.
From S2P Require Import NavigationManagerState NavigationManager.
From S2P Require Import WebFramesManager CertPolicies.

(** What is asked of the embedder and of the platform: the favicon candidates, the
    default user agent of an URL, the host of the controller of a WebUI page, if the
    embedder has one for the URL, whether a delegate has a dialog presenter, and the
    random identifiers. *)
Class WebStateClient `{GURLOps} : Type := {
  FaviconURL : Type;
  GetDefaultUserAgent : GURL -> UserAgent.UserAgentType;
  CreateWebUIIOS : GURL -> option string;
  has_dialog_presenter : positive -> bool;
  UUIDString : Z -> string
}.

(** [CFTimeInterval], [double] *)
Definition CFTimeInterval : Type := spec_float.

Module WebStateObserver.

Inductive PageLoadCompletionStatus : Type := SUCCESS | FAILURE.
Inductive Permission : Type := PermissionCamera | PermissionMicrophone.

Section Events.
Context `{WebEnv} `{CertificateOps} `{PageTransitionOps} `{ItemEnv}.
Context `{!NavigationContextImpl.ContextEnv} `{!WebStateClient}.

(** The methods of an observer of the WebState. *)
Inductive Event : Type :=
| WasShown
| WasHidden
| DidStartNavigation (context : NavigationContextImpl.t)
| DidRedirectNavigation (context : NavigationContextImpl.t)
| DidFinishNavigation (context : NavigationContextImpl.t)
| DidStartLoading
| DidStopLoading
| PageLoaded (status : PageLoadCompletionStatus)
| LoadProgressChanged (progress : spec_float)
| DidChangeBackForwardState
| TitleWasSet
| DidChangeVisibleSecurityState
| FaviconUrlUpdated (candidates : list FaviconURL)
| PermissionStateChanged (permission : Permission)
| WebFrameDidBecomeAvailable (frame : WebFramesManagerImpl.WebFrame)
| WebFrameWillBecomeUnavailable (frame : WebFramesManagerImpl.WebFrame)
| RenderProcessGone
| WebStateRealized
| WebStateDestroyed.

End Events.
End WebStateObserver.

Module WebStateImplState.
Export WebStateObserver.

Section State.
Context `{WebEnv} `{CertificateOps} `{PageTransitionOps} `{ItemEnv}.
Context `{!NavigationContextImpl.ContextEnv} `{!WebStateClient} `{!X509Ops}.
Abbreviation Manager := NavigationManagerState.t.
Abbreviation Session := (CRWSessionStorage.t (CertCache := CRWSessionCertificatePolicyCacheStorage.t)).
Abbreviation Favicon := (FaviconStatus.t (Image := Image)).

(** [WebState::CreateParams]; the null time is 0. *)
Record CreateParams : Type := mkParams {
  browser_state : positive;
  created_with_opener : bool;
  params_last_active_time : Z
}.

(** The calls to other objects and the closures that are run, in order. *)
Inductive Effect : Type :=
| Notify (event : Event)
| DeciderWebStateDestroyed (decider : positive)
| DeciderResetWebState (decider : positive)
| DelegateAttach (delegate : positive)
| DelegateDetach (delegate : positive)
| DelegateOpenURL (delegate : positive) (url : GURL)
| DelegateCreateNewWebState (delegate : positive) (url opener_url : GURL) (initiated_by_user : bool)
| DelegateShowRepostFormWarningDialog (delegate closure : positive)
| DelegateOnAuthRequired (delegate closure : positive)
| DelegateCloseWebState (delegate : positive)
| PresenterRunJavaScriptDialog (delegate closure : positive)
| PresenterCancelDialogs (delegate : positive)
| RunClosure (closure : positive)
| RunScriptCommand (closure : positive)
| ItemCommitted (internal : bool)
| RegisterCertificates (browser_state : positive) (task : SessionCertificatePolicyCacheImpl.Task)
| RecordStateInHistory
| LoadRequest (renderer_initiated : bool)
| ReloadPage
| StopLoading
| GoToBackForwardListItem (item : positive)
| CloseMediaPresentations.

(** [CRWWebController]: whether it has a container view, with a live content; the
    web usage, the visibility, the end of its life; whether the load of the current
    URL was started; the URL of the document; what WebKit says of its process, and
    whether the navigation handler has none under way (its state is FINISHED). The
    web view is the one of the navigation manager. *)
Record WebController : Type := mkController {
  container_view : bool;
  content_alive : bool;
  web_usage_enabled_ : bool;
  visible : bool;
  controller_closed : bool;
  load_triggered_ : bool;
  keeps_render_process_alive : bool;
  document_url_ : GURL;
  web_process_crashed : bool;
  navigation_finished : bool;
  estimated_progress : spec_float
}.
Definition with_container_view (v : bool) (s : WebController) : WebController :=
  mkController v (content_alive s) (web_usage_enabled_ s) (visible s) (controller_closed s) (load_triggered_ s)
     (keeps_render_process_alive s) (document_url_ s) (web_process_crashed s) (navigation_finished s)
     (estimated_progress s).
Definition with_content_alive (v : bool) (s : WebController) : WebController :=
  mkController (container_view s) v (web_usage_enabled_ s) (visible s) (controller_closed s) (load_triggered_ s)
     (keeps_render_process_alive s) (document_url_ s) (web_process_crashed s) (navigation_finished s)
     (estimated_progress s).
Definition with_web_usage_enabled (v : bool) (s : WebController) : WebController :=
  mkController (container_view s) (content_alive s) v (visible s) (controller_closed s) (load_triggered_ s)
     (keeps_render_process_alive s) (document_url_ s) (web_process_crashed s) (navigation_finished s)
     (estimated_progress s).
Definition with_visible (v : bool) (s : WebController) : WebController :=
  mkController (container_view s) (content_alive s) (web_usage_enabled_ s) v (controller_closed s)
     (load_triggered_ s) (keeps_render_process_alive s) (document_url_ s) (web_process_crashed s)
     (navigation_finished s) (estimated_progress s).
Definition with_controller_closed (v : bool) (s : WebController) : WebController :=
  mkController (container_view s) (content_alive s) (web_usage_enabled_ s) (visible s) v (load_triggered_ s)
     (keeps_render_process_alive s) (document_url_ s) (web_process_crashed s) (navigation_finished s)
     (estimated_progress s).
Definition with_load_triggered (v : bool) (s : WebController) : WebController :=
  mkController (container_view s) (content_alive s) (web_usage_enabled_ s) (visible s) (controller_closed s) v
     (keeps_render_process_alive s) (document_url_ s) (web_process_crashed s) (navigation_finished s)
     (estimated_progress s).
Definition with_keeps_render_process_alive (v : bool) (s : WebController) : WebController :=
  mkController (container_view s) (content_alive s) (web_usage_enabled_ s) (visible s) (controller_closed s)
     (load_triggered_ s) v (document_url_ s) (web_process_crashed s) (navigation_finished s) (estimated_progress
     s).
Definition with_document_url (v : GURL) (s : WebController) : WebController :=
  mkController (container_view s) (content_alive s) (web_usage_enabled_ s) (visible s) (controller_closed s)
     (load_triggered_ s) (keeps_render_process_alive s) v (web_process_crashed s) (navigation_finished s)
     (estimated_progress s).
Definition with_web_process_crashed (v : bool) (s : WebController) : WebController :=
  mkController (container_view s) (content_alive s) (web_usage_enabled_ s) (visible s) (controller_closed s)
     (load_triggered_ s) (keeps_render_process_alive s) (document_url_ s) v (navigation_finished s)
     (estimated_progress s).
Definition with_navigation_finished (v : bool) (s : WebController) : WebController :=
  mkController (container_view s) (content_alive s) (web_usage_enabled_ s) (visible s) (controller_closed s)
     (load_triggered_ s) (keeps_render_process_alive s) (document_url_ s) (web_process_crashed s) v
     (estimated_progress s).
Definition with_estimated_progress (v : spec_float) (s : WebController) : WebController :=
  mkController (container_view s) (content_alive s) (web_usage_enabled_ s) (visible s) (controller_closed s)
     (load_triggered_ s) (keeps_render_process_alive s) (document_url_ s) (web_process_crashed s)
     (navigation_finished s) v.

(** [initWithWebState:]; the default URL is about:blank. *)
Definition kAboutBlankURL : GURL := GURL_parse "about:blank".
Definition initWithWebState : WebController :=
  mkController false false true false false false false GURL_null false false (S754_zero false).

(** [RealizedWebState]. Its WebUI is the host of its controller; the browser state is
    a member of the navigation manager. *)
Record Realized : Type := mkRealized {
  delegate_ : option positive;
  is_loading_ : bool;
  web_controller_ : WebController;
  navigation_manager_ : Manager;
  manager_browser_state : positive;
  web_frames_manager_ : WebFramesManagerImpl.t;
  certificate_policy_cache_ : option SessionCertificatePolicyCacheImpl.t;
  web_ui_ : option string;
  mime_type_ : string;
  created_with_opener_ : bool;
  last_active_time_ : Z;
  restored_session_storage_ : option Session;
  cached_favicon_urls_ : list FaviconURL;
  running_javascript_dialog_ : bool;
  user_agent_type_ : UserAgent.UserAgentType;
  stable_identifier_ : string
}.
Definition with_delegate (v : option positive) (s : Realized) : Realized :=
  mkRealized v (is_loading_ s) (web_controller_ s) (navigation_manager_ s) (manager_browser_state s)
     (web_frames_manager_ s) (certificate_policy_cache_ s) (web_ui_ s) (mime_type_ s) (created_with_opener_ s)
     (last_active_time_ s) (restored_session_storage_ s) (cached_favicon_urls_ s) (running_javascript_dialog_ s)
     (user_agent_type_ s) (stable_identifier_ s).
Definition with_is_loading (v : bool) (s : Realized) : Realized :=
  mkRealized (delegate_ s) v (web_controller_ s) (navigation_manager_ s) (manager_browser_state s)
     (web_frames_manager_ s) (certificate_policy_cache_ s) (web_ui_ s) (mime_type_ s) (created_with_opener_ s)
     (last_active_time_ s) (restored_session_storage_ s) (cached_favicon_urls_ s) (running_javascript_dialog_ s)
     (user_agent_type_ s) (stable_identifier_ s).
Definition with_web_controller (v : WebController) (s : Realized) : Realized :=
  mkRealized (delegate_ s) (is_loading_ s) v (navigation_manager_ s) (manager_browser_state s)
     (web_frames_manager_ s) (certificate_policy_cache_ s) (web_ui_ s) (mime_type_ s) (created_with_opener_ s)
     (last_active_time_ s) (restored_session_storage_ s) (cached_favicon_urls_ s) (running_javascript_dialog_ s)
     (user_agent_type_ s) (stable_identifier_ s).
Definition with_navigation_manager (v : Manager) (s : Realized) : Realized :=
  mkRealized (delegate_ s) (is_loading_ s) (web_controller_ s) v (manager_browser_state s) (web_frames_manager_
     s) (certificate_policy_cache_ s) (web_ui_ s) (mime_type_ s) (created_with_opener_ s) (last_active_time_ s)
     (restored_session_storage_ s) (cached_favicon_urls_ s) (running_javascript_dialog_ s) (user_agent_type_ s)
     (stable_identifier_ s).
Definition with_manager_browser_state (v : positive) (s : Realized) : Realized :=
  mkRealized (delegate_ s) (is_loading_ s) (web_controller_ s) (navigation_manager_ s) v (web_frames_manager_ s)
     (certificate_policy_cache_ s) (web_ui_ s) (mime_type_ s) (created_with_opener_ s) (last_active_time_ s)
     (restored_session_storage_ s) (cached_favicon_urls_ s) (running_javascript_dialog_ s) (user_agent_type_ s)
     (stable_identifier_ s).
Definition with_web_frames_manager (v : WebFramesManagerImpl.t) (s : Realized) : Realized :=
  mkRealized (delegate_ s) (is_loading_ s) (web_controller_ s) (navigation_manager_ s) (manager_browser_state s)
     v (certificate_policy_cache_ s) (web_ui_ s) (mime_type_ s) (created_with_opener_ s) (last_active_time_ s)
     (restored_session_storage_ s) (cached_favicon_urls_ s) (running_javascript_dialog_ s) (user_agent_type_ s)
     (stable_identifier_ s).
Definition with_certificate_policy_cache (v : option SessionCertificatePolicyCacheImpl.t) (s : Realized) : Realized :=
  mkRealized (delegate_ s) (is_loading_ s) (web_controller_ s) (navigation_manager_ s) (manager_browser_state s)
     (web_frames_manager_ s) v (web_ui_ s) (mime_type_ s) (created_with_opener_ s) (last_active_time_ s)
     (restored_session_storage_ s) (cached_favicon_urls_ s) (running_javascript_dialog_ s) (user_agent_type_ s)
     (stable_identifier_ s).
Definition with_web_ui (v : option string) (s : Realized) : Realized :=
  mkRealized (delegate_ s) (is_loading_ s) (web_controller_ s) (navigation_manager_ s) (manager_browser_state s)
     (web_frames_manager_ s) (certificate_policy_cache_ s) v (mime_type_ s) (created_with_opener_ s)
     (last_active_time_ s) (restored_session_storage_ s) (cached_favicon_urls_ s) (running_javascript_dialog_ s)
     (user_agent_type_ s) (stable_identifier_ s).
Definition with_mime_type (v : string) (s : Realized) : Realized :=
  mkRealized (delegate_ s) (is_loading_ s) (web_controller_ s) (navigation_manager_ s) (manager_browser_state s)
     (web_frames_manager_ s) (certificate_policy_cache_ s) (web_ui_ s) v (created_with_opener_ s)
     (last_active_time_ s) (restored_session_storage_ s) (cached_favicon_urls_ s) (running_javascript_dialog_ s)
     (user_agent_type_ s) (stable_identifier_ s).
Definition with_created_with_opener (v : bool) (s : Realized) : Realized :=
  mkRealized (delegate_ s) (is_loading_ s) (web_controller_ s) (navigation_manager_ s) (manager_browser_state s)
     (web_frames_manager_ s) (certificate_policy_cache_ s) (web_ui_ s) (mime_type_ s) v (last_active_time_ s)
     (restored_session_storage_ s) (cached_favicon_urls_ s) (running_javascript_dialog_ s) (user_agent_type_ s)
     (stable_identifier_ s).
Definition with_last_active_time (v : Z) (s : Realized) : Realized :=
  mkRealized (delegate_ s) (is_loading_ s) (web_controller_ s) (navigation_manager_ s) (manager_browser_state s)
     (web_frames_manager_ s) (certificate_policy_cache_ s) (web_ui_ s) (mime_type_ s) (created_with_opener_ s) v
     (restored_session_storage_ s) (cached_favicon_urls_ s) (running_javascript_dialog_ s) (user_agent_type_ s)
     (stable_identifier_ s).
Definition with_restored_session_storage (v : option Session) (s : Realized) : Realized :=
  mkRealized (delegate_ s) (is_loading_ s) (web_controller_ s) (navigation_manager_ s) (manager_browser_state s)
     (web_frames_manager_ s) (certificate_policy_cache_ s) (web_ui_ s) (mime_type_ s) (created_with_opener_ s)
     (last_active_time_ s) v (cached_favicon_urls_ s) (running_javascript_dialog_ s) (user_agent_type_ s)
     (stable_identifier_ s).
Definition with_cached_favicon_urls (v : list FaviconURL) (s : Realized) : Realized :=
  mkRealized (delegate_ s) (is_loading_ s) (web_controller_ s) (navigation_manager_ s) (manager_browser_state s)
     (web_frames_manager_ s) (certificate_policy_cache_ s) (web_ui_ s) (mime_type_ s) (created_with_opener_ s)
     (last_active_time_ s) (restored_session_storage_ s) v (running_javascript_dialog_ s) (user_agent_type_ s)
     (stable_identifier_ s).
Definition with_running_javascript_dialog (v : bool) (s : Realized) : Realized :=
  mkRealized (delegate_ s) (is_loading_ s) (web_controller_ s) (navigation_manager_ s) (manager_browser_state s)
     (web_frames_manager_ s) (certificate_policy_cache_ s) (web_ui_ s) (mime_type_ s) (created_with_opener_ s)
     (last_active_time_ s) (restored_session_storage_ s) (cached_favicon_urls_ s) v (user_agent_type_ s)
     (stable_identifier_ s).
Definition with_user_agent_type (v : UserAgent.UserAgentType) (s : Realized) : Realized :=
  mkRealized (delegate_ s) (is_loading_ s) (web_controller_ s) (navigation_manager_ s) (manager_browser_state s)
     (web_frames_manager_ s) (certificate_policy_cache_ s) (web_ui_ s) (mime_type_ s) (created_with_opener_ s)
     (last_active_time_ s) (restored_session_storage_ s) (cached_favicon_urls_ s) (running_javascript_dialog_ s)
     v (stable_identifier_ s).
Definition with_stable_identifier (v : string) (s : Realized) : Realized :=
  mkRealized (delegate_ s) (is_loading_ s) (web_controller_ s) (navigation_manager_ s) (manager_browser_state s)
     (web_frames_manager_ s) (certificate_policy_cache_ s) (web_ui_ s) (mime_type_ s) (created_with_opener_ s)
     (last_active_time_ s) (restored_session_storage_ s) (cached_favicon_urls_ s) (running_javascript_dialog_ s)
     (user_agent_type_ s) v.

(** [SerializedData] *)
Record SerializedData : Type := mkSerialized {
  create_params_ : CreateParams;
  session_storage_ : Session;
  favicon_status_ : Favicon
}.
Definition with_session_storage (v : Session) (s : SerializedData) : SerializedData :=
  mkSerialized (create_params_ s) v (favicon_status_ s).
Definition with_favicon_status (v : Favicon) (s : SerializedData) : SerializedData :=
  mkSerialized (create_params_ s) (session_storage_ s) v.

(** The globals that detect that too many WebStates are realized at once. *)
Record OverRealization : Type := mkOverRealization {
  g_last_realized_count : Z;
  g_last_creation_time : CFTimeInterval;
  g_has_reported_once : bool
}.

Definition with_storage_user_data (v : option CRWSessionUserData.t) (s : Session) : Session :=
  CRWSessionStorage.mk (CRWSessionStorage.hasOpener s) (CRWSessionStorage.lastCommittedItemIndex s)
    (CRWSessionStorage.itemStorages s) (CRWSessionStorage.certPolicyCacheStorage s) v (CRWSessionStorage.userAgentType s)
    (CRWSessionStorage.stableIdentifier s) (CRWSessionStorage.lastActiveTime s).

(** [WebStateImpl], its user data manager if it has one, and the rest of the program:
    the counter of the identifiers of items, the clocks, the number of random identifiers that
    were made, the globals, and what was sent. *)
Record t : Type := mk {
  is_being_destroyed_ : bool;
  policy_deciders_ : list positive;
  script_command_callbacks_ : gmap string (list positive);
  pimpl_ : option Realized;
  saved_ : option SerializedData;
  user_data_manager : option SerializableUserDataManagerImpl.t;
  unique_id_counter : Z;
  now : Z;
  media_time : CFTimeInterval;
  uuid_count : Z;
  over_realization : OverRealization;
  log : list Effect
}.
Definition with_is_being_destroyed (v : bool) (s : t) : t :=
  mk v (policy_deciders_ s) (script_command_callbacks_ s) (pimpl_ s) (saved_ s) (user_data_manager s)
     (unique_id_counter s) (now s) (media_time s) (uuid_count s) (over_realization s) (log s).
Definition with_policy_deciders (v : list positive) (s : t) : t :=
  mk (is_being_destroyed_ s) v (script_command_callbacks_ s) (pimpl_ s) (saved_ s) (user_data_manager s)
     (unique_id_counter s) (now s) (media_time s) (uuid_count s) (over_realization s) (log s).
Definition with_script_command_callbacks (v : gmap string (list positive)) (s : t) : t :=
  mk (is_being_destroyed_ s) (policy_deciders_ s) v (pimpl_ s) (saved_ s) (user_data_manager s)
     (unique_id_counter s) (now s) (media_time s) (uuid_count s) (over_realization s) (log s).
Definition with_pimpl (v : option Realized) (s : t) : t :=
  mk (is_being_destroyed_ s) (policy_deciders_ s) (script_command_callbacks_ s) v (saved_ s) (user_data_manager
     s) (unique_id_counter s) (now s) (media_time s) (uuid_count s) (over_realization s) (log s).
Definition with_saved (v : option SerializedData) (s : t) : t :=
  mk (is_being_destroyed_ s) (policy_deciders_ s) (script_command_callbacks_ s) (pimpl_ s) v (user_data_manager
     s) (unique_id_counter s) (now s) (media_time s) (uuid_count s) (over_realization s) (log s).
Definition with_user_data_manager (v : option SerializableUserDataManagerImpl.t) (s : t) : t :=
  mk (is_being_destroyed_ s) (policy_deciders_ s) (script_command_callbacks_ s) (pimpl_ s) (saved_ s) v
     (unique_id_counter s) (now s) (media_time s) (uuid_count s) (over_realization s) (log s).
Definition with_unique_id_counter (v : Z) (s : t) : t :=
  mk (is_being_destroyed_ s) (policy_deciders_ s) (script_command_callbacks_ s) (pimpl_ s) (saved_ s)
     (user_data_manager s) v (now s) (media_time s) (uuid_count s) (over_realization s) (log s).
Definition with_now (v : Z) (s : t) : t :=
  mk (is_being_destroyed_ s) (policy_deciders_ s) (script_command_callbacks_ s) (pimpl_ s) (saved_ s)
     (user_data_manager s) (unique_id_counter s) v (media_time s) (uuid_count s) (over_realization s) (log s).
Definition with_media_time (v : CFTimeInterval) (s : t) : t :=
  mk (is_being_destroyed_ s) (policy_deciders_ s) (script_command_callbacks_ s) (pimpl_ s) (saved_ s)
     (user_data_manager s) (unique_id_counter s) (now s) v (uuid_count s) (over_realization s) (log s).
Definition with_uuid_count (v : Z) (s : t) : t :=
  mk (is_being_destroyed_ s) (policy_deciders_ s) (script_command_callbacks_ s) (pimpl_ s) (saved_ s)
     (user_data_manager s) (unique_id_counter s) (now s) (media_time s) v (over_realization s) (log s).
Definition with_over_realization (v : OverRealization) (s : t) : t :=
  mk (is_being_destroyed_ s) (policy_deciders_ s) (script_command_callbacks_ s) (pimpl_ s) (saved_ s)
     (user_data_manager s) (unique_id_counter s) (now s) (media_time s) (uuid_count s) v (log s).
Definition with_log (v : list Effect) (s : t) : t :=
  mk (is_being_destroyed_ s) (policy_deciders_ s) (script_command_callbacks_ s) (pimpl_ s) (saved_ s)
     (user_data_manager s) (unique_id_counter s) (now s) (media_time s) (uuid_count s) (over_realization s) v.

End State.
End WebStateImplState.
