(* ===== verification/RealizedWebState.v ===== *)
(** * RealizedWebState

    The methods of [WebStateImpl::RealizedWebState]
    (src/web/web_state/web_state_impl_realized_web_state.{h,mm}) and, of
    [CRWWebController] (src/web/web_state/ui/crw_web_controller.mm), what changes the
    members the WebState reads; [SessionStorageBuilder::ExtractSessionState]
    (src/web/navigation/session_storage_builder.mm), which restores a session.

    The calls of the navigation manager to its delegate are made when the method of
    the manager returns. What the controller does with a page (loading it, recording
    its scroll position in the item, running scripts) and what comes back from WebKit
    are calls of their own. *)

From stdpp Require Import base tactics option list numbers strings gmap.
From Stdlib Require Import ZArith Lia SpecFloat.
From S2P Require Import Prelude WebTypes WkNavigationUtil NavigationItem SessionStorage SessionBuilder.
From S2P Require Import NavigationManagerState NavigationManager.
From S2P Require Import WebThread WebFramesManager CertPolicies WebStateImplState.

Module RealizedWebState.
Export WebStateImplState.

Section Code.
Context `{WebEnv} `{CertificateOps} `{PageTransitionOps} `{ItemEnv}.
Context `{!NavigationEnv} `{!NavigationManagerImpl.NativeRestore} `{!NSStringOps} `{!URLConstants}.
Context `{!NavigationContextImpl.ContextEnv} `{!WebStateClient} `{!X509Ops}.

Abbreviation Manager := NavigationManagerState.t.
Abbreviation Session := (CRWSessionStorage.t (CertCache := CRWSessionCertificatePolicyCacheStorage.t)).
Abbreviation Favicon := (FaviconStatus.t (Image := Image)).

(** ** Access to the members *)

Definition effect (e : Effect) : M t unit := mmodify (fun s => with_log (log s ++ [e]) s).
Definition notify (event : Event) : M t unit := effect (Notify event).

Definition realized : M t Realized := let! s := mget in of_option (pimpl_ s).
Definition update_realized (f : Realized -> Realized) : M t unit := mmodify (fun s => with_pimpl (f <$> pimpl_ s) s).
Definition update_controller (f : WebController -> WebController) : M t unit :=
  update_realized (fun r => with_web_controller (f (web_controller_ r)) r).

(** [RealizedWebState(owner)], which is active now: the manager, the controller and the
    rest are set by [Init]. *)
Definition create (time : Z) : Realized :=
  mkRealized None false initWithWebState (NavigationManagerState.create None) 1%positive
    WebFramesManagerImpl.create None None EmptyString false time None [] false UserAgent.AUTOMATIC EmptyString.

(** [SerializableUserDataManager::FromWebState]: of a WebState it makes a manager, of a
    constant one it does not. *)
Definition user_data : M t SerializableUserDataManagerImpl.t :=
  let! s := mget in
  match user_data_manager s with
  | Some manager => mreturn manager
  | None =>
      mmodify (with_user_data_manager (Some SerializableUserDataManagerImpl.create)) ;;;
      mreturn SerializableUserDataManagerImpl.create
  end.
Definition SetUserDataFromSession (data : option CRWSessionUserData.t) : M t unit :=
  let! manager := user_data in
  mmodify (with_user_data_manager (Some (SerializableUserDataManagerImpl.SetUserDataFromSession data manager))).

(** ** Observers *)

Definition SetIsLoading (is_loading : bool) : M t unit :=
  let! r := realized in
  if Bool.eqb is_loading (is_loading_ r) then mreturn tt
  else
    update_realized (with_is_loading is_loading) ;;;
    notify (if is_loading then DidStartLoading else DidStopLoading).

(** An URL observers are told nothing of. *)
Definition internal_navigation (context : NavigationContextImpl.t) : bool :=
  CRWErrorPageHelper.isErrorPageFileURL (NavigationContextImpl.url_ context) ||
  WkNavigationUtil.IsRestoreSessionUrl (NavigationContextImpl.url_ context).

Definition OnNavigationStarted (context : NavigationContextImpl.t) : M t unit :=
  if internal_navigation context then mreturn tt else notify (DidStartNavigation context).
Definition OnNavigationRedirected (context : NavigationContextImpl.t) : M t unit :=
  notify (DidRedirectNavigation context).
Definition OnNavigationFinished (context : NavigationContextImpl.t) : M t unit :=
  if internal_navigation context then mreturn tt
  else
    notify (DidFinishNavigation context) ;;;
    if negb (NavigationContextImpl.is_same_document_ context) then
      update_realized (with_cached_favicon_urls [])
    else
      let! r := realized in
      match cached_favicon_urls_ r with
      | [] => mreturn tt
      | urls => notify (FaviconUrlUpdated urls)
      end.
Definition OnBackForwardStateChanged : M t unit := notify DidChangeBackForwardState.
Definition OnTitleChanged : M t unit := notify TitleWasSet.
Definition OnRenderProcessGone : M t unit := notify RenderProcessGone.
Definition SendChangeLoadProgress (progress : spec_float) : M t unit := notify (LoadProgressChanged progress).
Definition DidChangeVisibleSecurityState : M t unit := notify WebStateObserver.DidChangeVisibleSecurityState.
Definition OnStateChangedForPermission (permission : Permission) : M t unit := notify (PermissionStateChanged permission).
Definition OnPageLoaded (url : GURL) (load_success : bool) : M t unit :=
  if WkNavigationUtil.IsWKInternalUrl url then mreturn tt
  else notify (PageLoaded (if load_success then SUCCESS else FAILURE)).
Definition OnFaviconUrlUpdated (candidates : list FaviconURL) : M t unit :=
  update_realized (with_cached_favicon_urls candidates) ;;; notify (FaviconUrlUpdated candidates).

(** A command is [prefix.name]; [find_first_of] and [substr] are those of strings. *)
Definition OnScriptCommandReceived (command : string) : M t unit :=
  match String.index 0 "." command with
  | None | Some 0 => mreturn tt
  | Some dot_position =>
      let! s := mget in
      match script_command_callbacks_ s !! String.substring 0 dot_position command with
      | None => mreturn tt
      | Some callbacks => mfor callbacks (fun callback => effect (RunScriptCommand callback))
      end
  end.

(** ** Frames *)

(** A call to the manager of frames. *)
Definition on_frames {A} (m : M WebFramesManagerImpl.t A) : M t A :=
  let! r := realized in
  match m (web_frames_manager_ r) with
  | Fault f => mfail f
  | Ok (a, frames) => update_realized (with_web_frames_manager frames) ;;; mreturn a
  end.

Definition NotifyObserversAndRemoveWebFrame (frame : WebFramesManagerImpl.WebFrame) : M t unit :=
  notify (WebFrameWillBecomeUnavailable frame) ;;;
  on_frames (WebFramesManagerImpl.RemoveFrameWithId (WebFramesManagerImpl.GetFrameId frame)).
Definition WebFrameBecameAvailable (frame : WebFramesManagerImpl.WebFrame) : M t unit :=
  let! success := on_frames (WebFramesManagerImpl.AddFrame frame) in
  mwhen success (notify (WebFrameDidBecomeAvailable frame)).
Definition WebFrameBecameUnavailable (frame_id : string) : M t unit :=
  let! r := realized in
  let! frame := WebFramesManagerImpl.GetFrameWithId frame_id (web_frames_manager_ r) in
  match frame with
  | Some frame => NotifyObserversAndRemoveWebFrame frame
  | None => mreturn tt
  end.
Definition RemoveAllWebFrames : M t unit :=
  let! r := realized in
  mfor (WebFramesManagerImpl.GetAllWebFrames (web_frames_manager_ r)) NotifyObserversAndRemoveWebFrame.

(** ** The delegate *)

Definition SetDelegate (delegate : option positive) : M t unit :=
  let! r := realized in
  if bool_decide (delegate = delegate_ r) then mreturn tt
  else
    match delegate_ r with Some old => effect (DelegateDetach old) | None => mreturn tt end ;;;
    update_realized (with_delegate delegate) ;;;
    match delegate with Some new => effect (DelegateAttach new) | None => mreturn tt end.

Definition ClearDialogs : M t unit :=
  let! r := realized in
  match delegate_ r with
  | Some delegate => mwhen (has_dialog_presenter delegate) (effect (PresenterCancelDialogs delegate))
  | None => mreturn tt
  end.
(** The closure of [ShowRepostFormWarningDialog], of [OnAuthRequired] or of a dialog is
    run at once when nobody can be asked. *)
Definition ShowRepostFormWarningDialog (callback : positive) : M t unit :=
  let! r := realized in
  match delegate_ r with
  | Some delegate => effect (DelegateShowRepostFormWarningDialog delegate callback)
  | None => effect (RunClosure callback)
  end.
Definition RunJavaScriptDialog (callback : positive) : M t unit :=
  let! r := realized in
  match delegate_ r with
  | Some delegate =>
      if has_dialog_presenter delegate then
        update_realized (with_running_javascript_dialog true) ;;;
        effect (PresenterRunJavaScriptDialog delegate callback)
      else effect (RunClosure callback)
  | None => effect (RunClosure callback)
  end.
Definition JavaScriptDialogClosed : M t unit := update_realized (with_running_javascript_dialog false).
(** What the presenter runs when the dialog is closed, while the WebState exists. *)
Definition dialog_closed (callback : positive) : M t unit :=
  let! s := mget in
  dcheck (bool_decide (is_Some (pimpl_ s))) ;;;
  JavaScriptDialogClosed ;;;
  effect (RunClosure callback).
Definition CreateNewWebState (url opener_url : GURL) (initiated_by_user : bool) : M t unit :=
  let! r := realized in
  match delegate_ r with
  | Some delegate => effect (DelegateCreateNewWebState delegate url opener_url initiated_by_user)
  | None => mreturn tt
  end.
Definition OnAuthRequired (callback : positive) : M t unit :=
  let! r := realized in
  match delegate_ r with
  | Some delegate => effect (DelegateOnAuthRequired delegate callback)
  | None => effect (RunClosure callback)
  end.
(** DCHECK(Configured()): [Init] makes the controller before anything can be asked of
    the WebState, and it is never nil after it; a [Realized] always has one. *)
Definition OpenURL (url : GURL) : M t unit :=
  let! r := realized in
  match delegate_ r with
  | Some delegate => effect (DelegateOpenURL delegate url)
  | None => mreturn tt
  end.
Definition CloseWebState : M t unit :=
  let! r := realized in
  match delegate_ r with
  | Some delegate => effect (DelegateCloseWebState delegate)
  | None => mreturn tt
  end.

(** ** WebUI, and other members *)

Definition HasWebUI (r : Realized) : bool := bool_decide (is_Some (web_ui_ r)).
Definition ClearWebUI : M t unit := update_realized (with_web_ui None).
Definition CreateWebUI (url : GURL) : M t unit :=
  let! r := realized in
  if bool_decide (web_ui_ r = Some (gurl_host url)) then mreturn tt
  else
    mwhen (HasWebUI r) ClearWebUI ;;;
    update_realized (with_web_ui (CreateWebUIIOS url)).

Definition SetContentsMimeType (mime_type : string) : M t unit := update_realized (with_mime_type mime_type).
Definition SetHasOpener (has_opener : bool) : M t unit := update_realized (with_created_with_opener has_opener).
Definition SetWebStateUserAgent (user_agent_type : UserAgent.UserAgentType) : M t unit :=
  update_realized (with_user_agent_type user_agent_type).
Definition SetSessionCertificatePolicyCache (cache : SessionCertificatePolicyCacheImpl.t) : M t unit :=
  let! r := realized in
  dcheck (negb (bool_decide (is_Some (certificate_policy_cache_ r)))) ;;;
  update_realized (with_certificate_policy_cache (Some cache)).
Definition GetUserAgentForNextNavigation (url : GURL) (r : Realized) : UserAgent.UserAgentType :=
  if bool_decide (user_agent_type_ r = UserAgent.AUTOMATIC) then GetDefaultUserAgent url else user_agent_type_ r.

(** ** CRWWebController *)

Definition recordStateInHistory : M t unit := effect RecordStateInHistory.

Definition loadCurrentURL (renderer_initiated : bool) : M t unit :=
  let! r := realized in
  if negb (container_view (web_controller_ r)) then mreturn tt
  else if negb (web_usage_enabled_ (web_controller_ r)) then mreturn tt
  else update_controller (with_load_triggered true) ;;; effect (LoadRequest renderer_initiated).
Definition ensureContainerViewCreated : M t unit :=
  let! r := realized in
  if container_view (web_controller_ r) then mreturn tt
  else
    dcheck (negb (controller_closed (web_controller_ r))) ;;;
    update_controller (with_container_view true).
Definition loadCurrentURLIfNecessary : M t unit :=
  let! r := realized in
  if web_process_crashed (web_controller_ r) then loadCurrentURL false
  else mwhen (negb (load_triggered_ (web_controller_ r))) (ensureContainerViewCreated ;;; loadCurrentURL false).
Definition setDocumentURL (newURL : GURL) : M t unit :=
  let! r := realized in
  mwhen (negb (bool_decide (newURL = document_url_ (web_controller_ r))) && gurl_is_valid newURL)
    (update_controller (with_document_url newURL)).
(** [loadCancelled] of the navigation handler *)
Definition loadCancelled : M t unit :=
  let! r := realized in
  mwhen (negb (navigation_finished (web_controller_ r)))
    (update_controller (with_navigation_finished true) ;;;
     mwhen (negb (controller_closed (web_controller_ r))) (SetIsLoading false)).

(** ** The navigation manager *)

(** What the manager reads of the WebState. [GetCurrentURL] is asked for when the
    web view has an URL of its own, which is then that of the document. *)
Definition view_of (r : Realized) : NavigationManagerState.WebStateView :=
  NavigationManagerState.mkWebStateView (document_url_ (web_controller_ r)) (is_loading_ r).

(** [item_url] is the URL of the item that was committed. *)
Definition OnNavigationItemCommitted (item_url : GURL) : M t unit :=
  effect (ItemCommitted (WkNavigationUtil.IsWKInternalUrl item_url)) ;;;
  if WkNavigationUtil.IsWKInternalUrl item_url then mreturn tt
  else update_realized (with_restored_session_storage None).

(** [NavigationManagerDelegate] *)
Definition handle_delegate_call (nm : Manager) (call : NavigationManagerState.DelegateCall) : M t unit :=
  match call with
  | NavigationManagerState.ClearDialogs => ClearDialogs
  | NavigationManagerState.RecordPageStateInNavigationItem => recordStateInHistory
  | NavigationManagerState.LoadCurrentItem type => loadCurrentURL (bool_decide (type = RENDERER_INITIATED))
  | NavigationManagerState.DelegateLoadIfNecessary => loadCurrentURLIfNecessary
  | NavigationManagerState.DelegateReload => effect ReloadPage
  | NavigationManagerState.DelegateOnNavigationItemCommitted item =>
      let! item := of_option (NavigationManagerState.heap nm !! item) in
      OnNavigationItemCommitted (NavigationItemImpl.GetURL item)
  | NavigationManagerState.SetWebStateUserAgent type => SetWebStateUserAgent type
  | NavigationManagerState.GoToBackForwardListItem _ item _ _ => effect (GoToBackForwardListItem item) ;;; ClearWebUI
  | NavigationManagerState.RunClosure closure => effect (RunClosure closure)
  end.

(** The manager as a method finds it. *)
Definition manager_at (r : Realized) (s : t) : Manager :=
  NavigationManagerState.with_item_counter (unique_id_counter s)
    (NavigationManagerState.with_now (now s)
      (NavigationManagerState.with_web_state (Some (view_of r))
        (NavigationManagerState.with_delegate_calls [] (navigation_manager_ r)))).

(** A call to the navigation manager. *)
Definition on_manager {A} (m : M Manager A) : M t A :=
  let! r := realized in
  let! s := mget in
  match m (manager_at r s) with
  | Fault f => mfail f
  | Ok (a, nm) =>
      update_realized (with_navigation_manager nm) ;;;
      mmodify (with_unique_id_counter (NavigationManagerState.item_counter nm)) ;;;
      mfor (NavigationManagerState.delegate_calls nm) (handle_delegate_call nm) ;;;
      mreturn a
  end.

(** ** CRWWebController: the web view *)

Definition set_proxy (web_view : option NavigationManagerState.WebView) : M t unit :=
  update_realized (fun r =>
    with_navigation_manager (NavigationManagerState.with_proxy web_view (navigation_manager_ r)) r).

(** [setWebView:]; the web view that is replaced has its frames removed. *)
Definition setWebView (web_view : option NavigationManagerState.WebView) : M t unit :=
  let! r := realized in
  mwhen (bool_decide (is_Some (NavigationManagerState.proxy (navigation_manager_ r)))) RemoveAllWebFrames ;;;
  set_proxy web_view ;;;
  setDocumentURL kAboutBlankURL.

(** The items of the navigations that are removed are released with them. *)
Definition release_pending_items : M t unit :=
  update_realized (fun r =>
    with_navigation_manager (NavigationManagerState.with_context_pending_item None (navigation_manager_ r)) r).

Definition removeWebView : M t unit :=
  let! r := realized in
  match NavigationManagerState.proxy (navigation_manager_ r) with
  | None => mreturn tt
  | Some _ =>
      ClearDialogs ;;;
      on_manager NavigationManagerImpl.DetachFromWebView ;;;
      setWebView None ;;;
      loadCancelled ;;;
      update_controller (with_content_alive false) ;;;
      release_pending_items
  end.

Definition displayWebView : M t unit :=
  let! r := realized in
  if bool_decide (NavigationManagerState.proxy (navigation_manager_ r) = None) || content_alive (web_controller_ r)
  then mreturn tt
  else update_controller (with_content_alive (container_view (web_controller_ r))).

Definition ensureWebViewCreated (web_view : NavigationManagerState.WebView) : M t unit :=
  let! r := realized in
  mwhen (bool_decide (NavigationManagerState.proxy (navigation_manager_ r) = None))
    (ensureContainerViewCreated ;;;
     setWebView (Some web_view) ;;;
     let! r := realized in
     check (web_usage_enabled_ (web_controller_ r))) ;;;
  displayWebView.

Definition setWebUsageEnabled (enabled : bool) : M t unit :=
  let! r := realized in
  if Bool.eqb (web_usage_enabled_ (web_controller_ r)) enabled then mreturn tt
  else
    mwhen (negb enabled) removeWebView ;;;
    update_controller (with_web_usage_enabled enabled) ;;;
    mwhen (negb enabled) (update_controller (with_load_triggered false)).

Definition stopLoading : M t unit :=
  on_manager NavigationManagerImpl.DiscardNonCommittedItems ;;;
  release_pending_items ;;;
  effect StopLoading ;;;
  loadCancelled.

Definition close : M t unit :=
  ClearDialogs ;;;
  let! r := realized in
  dcheck (negb (controller_closed (web_controller_ r))) ;;;
  update_controller (with_controller_closed true) ;;;
  removeWebView ;;;
  update_controller (with_content_alive false) ;;;
  let! r := realized in
  dcheck (bool_decide (NavigationManagerState.proxy (navigation_manager_ r) = None)).

(** ** Visibility and web usage *)

Definition IsVisible (r : Realized) : bool := visible (web_controller_ r).
Definition IsWebUsageEnabled (r : Realized) : bool := web_usage_enabled_ (web_controller_ r).
Definition IsEvicted (r : Realized) : bool :=
  negb (negb (web_process_crashed (web_controller_ r)) && content_alive (web_controller_ r)).
Definition GetLoadingProgress (r : Realized) : spec_float :=
  if NavigationManagerState.is_restore_session_in_progress_ (navigation_manager_ r) then S754_zero false
  else estimated_progress (web_controller_ r).

Definition WasShown : M t unit :=
  let! r := realized in
  if IsVisible r then mreturn tt
  else
    let! s := mget in
    update_realized (with_last_active_time (now s)) ;;;
    update_controller (with_visible true) ;;;
    notify WebStateObserver.WasShown.
Definition WasHidden : M t unit :=
  let! r := realized in
  if negb (IsVisible r) then mreturn tt
  else
    update_controller (with_visible false) ;;;
    mwhen (negb (controller_closed (web_controller_ r))) recordStateInHistory ;;;
    notify WebStateObserver.WasHidden.
Definition DidCoverWebContent : M t unit := update_controller (with_content_alive false) ;;; WasHidden.
Definition DidRevealWebContent : M t unit := displayWebView ;;; WasShown.
Definition SetKeepRenderProcessAlive (keep_alive : bool) : M t unit :=
  update_controller (with_keeps_render_process_alive keep_alive).

(** ** Navigation *)

Definition Stop : M t unit :=
  let! r := realized in
  if NavigationManagerState.is_restore_session_in_progress_ (navigation_manager_ r) then mreturn tt
  else stopLoading.

Definition manager_title : M Manager u16string :=
  let! _ := NavigationManagerImpl.GetLastCommittedItem in
  let! item := NavigationManagerImpl.GetVisibleItem in
  match item with
  | Some r =>
      let! item := NavigationManagerState.item_of r in
      let '(title, item) := NavigationItemImpl.GetTitleForDisplay item in
      NavigationManagerState.update_item r (fun _ => item) ;;;
      mreturn title
  | None => mreturn []
  end.
(** DCHECK(Configured()), as in [OpenURL]. *)
Definition GetTitle : M t u16string := on_manager manager_title.

Definition item_property {A} (default : A) (property : NavigationItemImpl.t -> A)
    (get : M Manager (option positive)) : M Manager A :=
  let! item := get in
  match item with
  | Some r => let! item := NavigationManagerState.item_of r in mreturn (property item)
  | None => mreturn default
  end.
Definition GetVisibleURL : M t GURL :=
  on_manager (item_property GURL_null NavigationItemImpl.GetVirtualURL NavigationManagerImpl.GetVisibleItem).
Definition GetLastCommittedURL : M t GURL :=
  on_manager (item_property GURL_null NavigationItemImpl.GetVirtualURL NavigationManagerImpl.GetLastCommittedItem).
Definition GetFaviconStatus : M t Favicon :=
  on_manager (item_property (FaviconStatus.create empty_image) NavigationItemImpl.favicon_status_
    NavigationManagerImpl.GetLastCommittedItem).
Definition manager_SetFaviconStatus (favicon_status : Favicon) : M Manager unit :=
  let! item := NavigationManagerImpl.GetLastCommittedItem in
  match item with
  | Some r => NavigationManagerState.update_item r (NavigationItemImpl.SetFaviconStatus favicon_status)
  | None => mreturn tt
  end.
Definition SetFaviconStatus (favicon_status : Favicon) : M t unit := on_manager (manager_SetFaviconStatus favicon_status).

(** ** Sessions *)

(** What [SessionStateData] reads before it asks the web view for its data: no item is
    one of a restoration. *)
Definition manager_all_restored : M Manager bool :=
  let! s := mget in
  let! items := mmap (seqZ 0 (NavigationManagerImpl.GetItemCount s)) (fun i =>
    let! item := NavigationManagerImpl.GetItemAtIndex i in
    let! r := NavigationManagerState.deref item in
    NavigationManagerState.item_of r) in
  mreturn (forallb (fun item => negb (WkNavigationUtil.IsRestoreSessionUrl (NavigationItemImpl.GetURL item))) items).
Definition SessionStateData : M t bool := on_manager manager_all_restored.

(** [setSessionStateData:] of the controller: the data is [accepted] on iOS 15 when it
    can be unarchived, [web_view] is the one that is made if there is none, and
    [setInteractionState] what WebKit does with the data. *)
Definition setSessionStateData (accepted : bool) (web_view : NavigationManagerState.WebView)
    (setInteractionState : NavigationManagerState.WebView -> NavigationManagerState.WebView) : M t bool :=
  if negb accepted then mreturn false
  else
    ensureWebViewCreated web_view ;;;
    let! r := realized in
    let! web_view := of_option (NavigationManagerState.proxy (navigation_manager_ r)) in
    dcheck (bool_decide (NavigationManagerState.wv_currentItem web_view = None)) ;;;
    set_proxy (Some (setInteractionState web_view)) ;;;
    mreturn true.

Definition restore_failed_url (i : Z) : M Manager unit :=
  let! item := NavigationManagerImpl.GetItemAtIndex i in
  let! r := NavigationManagerState.deref item in
  let! item := NavigationManagerState.item_of r in
  mwhen (CRWErrorPageHelper.isErrorPageFileURL (NavigationItemImpl.GetURL item))
    (NavigationManagerState.update_item r (NavigationItemImpl.SetVirtualURL
      (CRWErrorPageHelper.failedNavigationURLFromErrorPageFileURL (NavigationItemImpl.GetURL item)))).
Definition manager_restore_failed_urls : M Manager bool :=
  let! s := mget in
  if (NavigationManagerImpl.GetItemCount s =? 0)%Z then mreturn false
  else
    mfor (seqZ 0 (NavigationManagerImpl.GetItemCount s)) restore_failed_url ;;;
    mreturn true.
Definition SetSessionStateData (accepted : bool) (web_view : NavigationManagerState.WebView)
    (setInteractionState : NavigationManagerState.WebView -> NavigationManagerState.WebView) : M t bool :=
  let! state_set := setSessionStateData accepted web_view setInteractionState in
  if negb state_set then mreturn false else on_manager manager_restore_failed_urls.

(** The items of a session, made and rewritten, and their restoration. *)
Definition build_item (storage : CRWNavigationItemStorage.t) : M Manager (option positive) :=
  let! s := mget in
  match NavigationItemStorageBuilder.BuildNavigationItemImpl storage (NavigationManagerState.item_counter s) with
  | Fault f => mfail f
  | Ok (item, counter) =>
      mmodify (NavigationManagerState.with_item_counter counter) ;;;
      let! r := NavigationManagerState.make_item item in
      NavigationManagerImpl.RewriteItemURLIfNecessary r ;;;
      mreturn (Some r)
  end.
Definition restore_items (session : Session) : M Manager unit :=
  let! items := mmap (CRWSessionStorage.itemStorages session) build_item in
  NavigationManagerImpl.Restore NavigationManagerImpl.LoadURLWithParams
    (CRWSessionStorage.lastCommittedItemIndex session) items.

(** [SessionStorageBuilder::ExtractSessionState] *)
Definition ExtractSessionState (session_storage : Session) : M t unit :=
  SetHasOpener (CRWSessionStorage.hasOpener session_storage) ;;;
  on_manager (restore_items session_storage) ;;;
  SetSessionCertificatePolicyCache (SessionCertificatePolicyCacheImpl.BuildSessionCertificatePolicyCache
    (CRWSessionStorage.certPolicyCacheStorage session_storage)) ;;;
  SetUserDataFromSession (CRWSessionStorage.userData session_storage) ;;;
  SetWebStateUserAgent (CRWSessionStorage.userAgentType session_storage).

(** [UpdateCertificatePolicyCache], on the UI thread; the task is for the cache of the
    browser state. *)
Definition UpdateCertificatePolicyCache (browser_state : positive) : M t unit :=
  let! r := realized in
  let! cache := of_option (certificate_policy_cache_ r) in
  match SessionCertificatePolicyCacheImpl.UpdateCertificatePolicyCache WebThread.UI cache with
  | Fault f => mfail f
  | Ok (_, cache') =>
      update_realized (with_certificate_policy_cache (Some cache')) ;;;
      mfor (drop (length (SessionCertificatePolicyCacheImpl.posted cache)) (SessionCertificatePolicyCacheImpl.posted cache'))
        (fun task => effect (RegisterCertificates browser_state task))
  end.

Definition Init_session (params : CreateParams) (session_storage : Session) : M t unit :=
  update_realized (with_restored_session_storage (Some session_storage)) ;;;
  ExtractSessionState session_storage ;;;
  let! r := realized in
  dcheck (bool_decide (is_Some (certificate_policy_cache_ r))) ;;;
  UpdateCertificatePolicyCache (browser_state params) ;;;
  dcheck (negb (bool_decide (CRWSessionStorage.stableIdentifier session_storage = EmptyString))) ;;;
  update_realized (with_stable_identifier (CRWSessionStorage.stableIdentifier session_storage)) ;;;
  update_realized (with_last_active_time (CRWSessionStorage.lastActiveTime session_storage)).
Definition Init_new : M t unit :=
  update_realized (with_certificate_policy_cache (Some SessionCertificatePolicyCacheImpl.create)) ;;;
  let! s := mget in
  update_realized (with_stable_identifier (UUIDString (uuid_count s))) ;;;
  mmodify (with_uuid_count (uuid_count s + 1)).
Definition Init (params : CreateParams) (session_storage : option Session) : M t unit :=
  update_realized (with_created_with_opener (created_with_opener params)) ;;;
  update_realized (with_navigation_manager (NavigationManagerState.create None)) ;;;
  update_realized (with_manager_browser_state (browser_state params)) ;;;
  update_realized (with_web_controller initWithWebState) ;;;
  match session_storage with
  | Some session_storage => Init_session params session_storage
  | None => Init_new
  end ;;;
  mwhen (negb (params_last_active_time params =? 0)%Z)
    (update_realized (with_last_active_time (params_last_active_time params))).

Definition TearDown : M t unit :=
  close ;;;
  ClearWebUI ;;;
  notify WebStateDestroyed ;;;
  let! s := mget in
  mfor (policy_deciders_ s) (fun decider => effect (DeciderWebStateDestroyed decider)) ;;;
  mfor (policy_deciders_ s) (fun decider => effect (DeciderResetWebState decider)) ;;;
  SetDelegate None.

(** What [BuildStorage] reads of the navigation manager. *)
Definition manager_view : M Manager SessionStorageBuilder.NavigationManagerView :=
  let! index := NavigationManagerImpl.GetLastCommittedItemIndex in
  let! s := mget in
  let! items := mmap (seqZ 0 (NavigationManagerImpl.GetItemCount s)) (fun i =>
    let! item := NavigationManagerImpl.GetItemAtIndex i in
    let! r := NavigationManagerState.deref item in
    NavigationManagerState.item_of r) in
  mreturn (SessionStorageBuilder.Build_NavigationManagerView index items).

Definition BuildSessionStorage : M t Session :=
  recordStateInHistory ;;;
  let! r := realized in
  match restored_session_storage_ r with
  | Some session_storage =>
      let! manager := user_data in
      let session_storage :=
        with_storage_user_data (Some (SerializableUserDataManagerImpl.GetUserDataForSession manager)) session_storage in
      update_realized (with_restored_session_storage (Some session_storage)) ;;;
      mreturn session_storage
  | None =>
      let! navigation_manager := on_manager manager_view in
      let! r := realized in
      let! cache := of_option (certificate_policy_cache_ r) in
      let! s := mget in
      SessionStorageBuilder.BuildStorage
        (SessionStorageBuilder.Build_WebStateView (created_with_opener_ r) (last_active_time_ r) (stable_identifier_ r)
          (user_agent_type_ r) (SessionCertificatePolicyCacheImpl.BuildStorage cache) (user_data_manager s))
        navigation_manager
  end.

End Code.
End RealizedWebState.
