(* ===== verification/WebStateImpl.v ===== *)
(** * WebStateImpl

    [SerializedData] (src/web/web_state/web_state_impl_serialized_data.{h,mm}) and
    [WebStateImpl] (src/web/web_state/web_state_impl.{h,mm}). A WebState that is made
    of a saved session is only that session; the first method that needs more than
    the session realizes it. A method that forwards to [RealizedState()] is
    [with_realized], one that asks the realized WebState or the session is
    [forward]. *)

From stdpp Require Import base tactics option list numbers strings gmap.
From Stdlib Require Import ZArith Lia SpecFloat.
From S2P Require Import Prelude WebTypes WkNavigationUtil NavigationItem SessionStorage SessionBuilder.
From S2P Require Import NavigationManagerState NavigationManager.
From S2P Require Import WebFramesManager CertPolicies WebStateImplState RealizedWebState.

(** Detecting that many WebStates are realized at once. *)
Module RealizationCheck.
Import WebStateImplState.
Section Code.
Context `{WebEnv} `{CertificateOps} `{PageTransitionOps} `{ItemEnv}.
Context `{!NavigationContextImpl.ContextEnv} `{!WebStateClient} `{!X509Ops}.

Definition kMaxEvents : Z := 3.
(** 1.0 *)
Definition kWindowSizeInSeconds : CFTimeInterval := S754_finite false 4503599627370496 (-52).

Definition CheckForOverRealization : M t unit :=
  let! s := mget in
  let o := over_realization s in
  if g_has_reported_once o then mreturn tt
  else if SFltb (SFsub 53 1024 (media_time s) (g_last_creation_time o)) kWindowSizeInSeconds then
    let count := size_t (g_last_realized_count o + 1) in
    let reported := (count >=? kMaxEvents)%Z in
    mmodify (with_over_realization (mkOverRealization count (g_last_creation_time o) reported)) ;;;
    if reported then mfail NotReached else mreturn tt
  else mmodify (with_over_realization (mkOverRealization 0 (media_time s) (g_has_reported_once o))).

Definition IgnoreOverRealizationCheck : M t unit :=
  mmodify (fun s => with_over_realization
    (mkOverRealization 0 (g_last_creation_time (over_realization s)) (g_has_reported_once (over_realization s))) s).

End Code.
End RealizationCheck.

Module SerializedDataImpl.
Import WebStateImplState RealizedWebState.
Section Code.
Context `{WebEnv} `{CertificateOps} `{PageTransitionOps} `{ItemEnv}.
Context `{!NavigationContextImpl.ContextEnv} `{!WebStateClient} `{!X509Ops}.
Abbreviation Session := (CRWSessionStorage.t (CertCache := CRWSessionCertificatePolicyCacheStorage.t)).
Abbreviation Favicon := (FaviconStatus.t (Image := Image)).

Definition serialized : M t SerializedData := let! s := mget in of_option (saved_ s).

(** The constructor restores the user data. *)
Definition create (params : CreateParams) (session_storage : Session) : M t SerializedData :=
  mwhen (bool_decide (is_Some (CRWSessionStorage.userData session_storage)))
    (SetUserDataFromSession (CRWSessionStorage.userData session_storage)) ;;;
  mreturn (mkSerialized params session_storage (FaviconStatus.create empty_image)).

Definition TearDown : M t unit :=
  notify WebStateDestroyed ;;;
  let! s := mget in
  mfor (policy_deciders_ s) (fun decider => effect (DeciderWebStateDestroyed decider)) ;;;
  mfor (policy_deciders_ s) (fun decider => effect (DeciderResetWebState decider)).

(** The user data may have changed: the storage is updated. *)
Definition GetSessionStorage : M t Session :=
  let! data := serialized in
  let! s := mget in
  let session :=
    match user_data_manager s with
    | Some manager =>
        with_storage_user_data (Some (SerializableUserDataManagerImpl.GetUserDataForSession manager)) (session_storage_ data)
    | None => session_storage_ data
    end in
  mmodify (with_saved (Some (with_session_storage session data))) ;;;
  mreturn session.

Definition GetLastActiveTime (data : SerializedData) : Z :=
  if negb (params_last_active_time (create_params_ data) =? 0)%Z then params_last_active_time (create_params_ data)
  else CRWSessionStorage.lastActiveTime (session_storage_ data).
Definition GetStableIdentifier : M t string :=
  let! data := serialized in
  dcheck (negb (bool_decide (CRWSessionStorage.stableIdentifier (session_storage_ data) = EmptyString))) ;;;
  mreturn (CRWSessionStorage.stableIdentifier (session_storage_ data)).

(** The index is an [NSInteger]. *)
Definition GetLastCommittedItem (data : SerializedData) : option CRWNavigationItemStorage.t :=
  let index := CRWSessionStorage.lastCommittedItemIndex (session_storage_ data) in
  if (index <? 0)%Z then None
  else if (Z.of_nat (length (CRWSessionStorage.itemStorages (session_storage_ data))) <=? index)%Z then None
  else zlookup (CRWSessionStorage.itemStorages (session_storage_ data)) index.
Definition GetTitle (data : SerializedData) : u16string :=
  match GetLastCommittedItem data with Some item => CRWNavigationItemStorage.title item | None => [] end.
Definition GetLastCommittedURL (data : SerializedData) : GURL :=
  match GetLastCommittedItem data with Some item => CRWNavigationItemStorage.virtualURL item | None => GURL_null end.
Definition GetVisibleURL : SerializedData -> GURL := GetLastCommittedURL.
Definition GetNavigationItemCount (data : SerializedData) : Z :=
  Z.of_nat (length (CRWSessionStorage.itemStorages (session_storage_ data))).
Definition SetFaviconStatus (favicon_status : Favicon) : M t unit :=
  let! data := serialized in
  mmodify (with_saved (Some (with_favicon_status favicon_status data))).

End Code.
End SerializedDataImpl.

Module WebStateImpl.
Export WebStateImplState.
Section Code.
Context `{WebEnv} `{CertificateOps} `{PageTransitionOps} `{ItemEnv}.
Context `{!NavigationEnv} `{!NavigationManagerImpl.NativeRestore} `{!NSStringOps} `{!URLConstants}.
Context `{!NavigationContextImpl.ContextEnv} `{!WebStateClient} `{!X509Ops}.
Abbreviation Manager := NavigationManagerState.t.
Abbreviation Session := (CRWSessionStorage.t (CertCache := CRWSessionCertificatePolicyCacheStorage.t)).
Abbreviation Favicon := (FaviconStatus.t (Image := Image)).

(** ** Creation, destruction, realization *)

(** The WebState before its constructor, in a program with a clock and counters. *)
Definition unborn (unique_id_counter now : Z) (media_time : CFTimeInterval) (uuid_count : Z) (o : OverRealization) : t :=
  mk false [] ∅ None None None unique_id_counter now media_time uuid_count o [].

(** [WebState::Create] and [WebState::CreateWithStorageSession] *)
Definition create (params : CreateParams) (session_storage : option Session) : M t unit :=
  match session_storage with
  | Some session_storage =>
      let! data := SerializedDataImpl.create params session_storage in
      mmodify (with_saved (Some data))
  | None =>
      mmodify (fun s => with_pimpl (Some (RealizedWebState.create (now s))) s) ;;;
      RealizedWebState.Init params None
  end.

(** The destructor; nothing is called on the WebState afterwards. *)
Definition destroy : M t unit :=
  mmodify (with_is_being_destroyed true) ;;;
  let! s := mget in
  match pimpl_ s with
  | Some _ => RealizedWebState.TearDown
  | None =>
      dcheck (bool_decide (is_Some (saved_ s))) ;;;
      SerializedDataImpl.TearDown
  end.

Definition IsRealized (s : t) : bool := bool_decide (is_Some (pimpl_ s)).

Definition ForceRealized : M t unit :=
  let! s := mget in
  dcheck (negb (is_being_destroyed_ s)) ;;;
  match pimpl_ s with
  | Some _ => mreturn tt
  | None =>
      dcheck (bool_decide (is_Some (saved_ s))) ;;;
      let! session_storage := SerializedDataImpl.GetSessionStorage in
      let! data := SerializedDataImpl.serialized in
      mmodify (fun s => with_pimpl (Some (RealizedWebState.create (now s))) s) ;;;
      mmodify (with_saved None) ;;;
      RealizedWebState.Init (create_params_ data) (Some session_storage) ;;;
      RealizedWebState.SetFaviconStatus (favicon_status_ data) ;;;
      RealizedWebState.notify WebStateRealized ;;;
      RealizationCheck.CheckForOverRealization
  end.

Definition RealizedState : M t unit :=
  let! s := mget in
  mwhen (negb (IsRealized s)) ForceRealized ;;;
  let! s := mget in
  dcheck (bool_decide (is_Some (pimpl_ s))).

Definition with_realized {A} (m : M t A) : M t A := RealizedState ;;; m.
Definition forward {A} (realized saved : M t A) : M t A :=
  let! s := mget in if IsRealized s then realized else saved.
(** What the realized WebState has in its members. *)
Definition realized_or {A} (f : Realized -> A) (a : A) (s : t) : A := from_option f a (pimpl_ s).
Definition either {A} (f : Realized -> A) (g : SerializedData -> A) : M t A :=
  forward (let! r := RealizedWebState.realized in mreturn (f r))
          (let! data := SerializedDataImpl.serialized in mreturn (g data)).

(** ** Reading *)

Definition GetNavigationItemCount : M t Z :=
  either (fun r => NavigationManagerImpl.GetItemCount (navigation_manager_ r)) SerializedDataImpl.GetNavigationItemCount.
Definition GetLastActiveTime : M t Z := either last_active_time_ SerializedDataImpl.GetLastActiveTime.
Definition GetBrowserState : M t positive :=
  either manager_browser_state (fun data => browser_state (create_params_ data)).
Definition BuildSessionStorage : M t Session :=
  forward RealizedWebState.BuildSessionStorage SerializedDataImpl.GetSessionStorage.
Definition GetStableIdentifier : M t string :=
  forward (let! r := RealizedWebState.realized in mreturn (stable_identifier_ r)) SerializedDataImpl.GetStableIdentifier.
Definition GetTitle : M t u16string :=
  forward RealizedWebState.GetTitle (let! data := SerializedDataImpl.serialized in mreturn (SerializedDataImpl.GetTitle data)).
Definition GetVisibleURL : M t GURL :=
  forward RealizedWebState.GetVisibleURL
    (let! data := SerializedDataImpl.serialized in mreturn (SerializedDataImpl.GetVisibleURL data)).
Definition GetLastCommittedURL : M t GURL :=
  forward RealizedWebState.GetLastCommittedURL
    (let! data := SerializedDataImpl.serialized in mreturn (SerializedDataImpl.GetLastCommittedURL data)).
Definition GetFaviconStatus : M t Favicon :=
  forward RealizedWebState.GetFaviconStatus (let! data := SerializedDataImpl.serialized in mreturn (favicon_status_ data)).
Definition SetFaviconStatus (favicon_status : Favicon) : M t unit :=
  forward (RealizedWebState.SetFaviconStatus favicon_status) (SerializedDataImpl.SetFaviconStatus favicon_status).

Definition HasWebUI : t -> bool := realized_or RealizedWebState.HasWebUI false.
Definition GetUserAgentForSessionRestoration : t -> UserAgent.UserAgentType := realized_or user_agent_type_ UserAgent.AUTOMATIC.
Definition IsJavaScriptDialogRunning : t -> bool := realized_or running_javascript_dialog_ false.
Definition GetDelegate : t -> option positive := realized_or delegate_ None.
Definition IsWebUsageEnabled : t -> bool := realized_or RealizedWebState.IsWebUsageEnabled true.
Definition GetContentsMimeType : t -> string := realized_or mime_type_ EmptyString.
Definition IsLoading : t -> bool := realized_or is_loading_ false.
Definition GetLoadingProgress : t -> spec_float := realized_or RealizedWebState.GetLoadingProgress (S754_zero false).
Definition IsVisible : t -> bool := realized_or RealizedWebState.IsVisible false.
Definition IsCrashed : t -> bool := realized_or (fun r => web_process_crashed (web_controller_ r)) false.
Definition IsEvicted : t -> bool := realized_or RealizedWebState.IsEvicted true.
Definition HasOpener : t -> bool := realized_or created_with_opener_ false.
Definition CanTakeSnapshot : t -> bool := realized_or (fun r => negb (running_javascript_dialog_ r)) false.
Definition IsBeingDestroyed : t -> bool := is_being_destroyed_.
Definition GetUserAgentForNextNavigation (url : GURL) : M t UserAgent.UserAgentType :=
  with_realized (let! r := RealizedWebState.realized in mreturn (RealizedWebState.GetUserAgentForNextNavigation url r)).
Definition SessionStateData : M t bool := forward RealizedWebState.SessionStateData (mreturn false).

(** ** Deciders and script commands *)

(** A command prefix has no dot and one subscription at a time. *)
Definition AddScriptCommandCallback (callback : positive) (command_prefix : string) : M t unit :=
  dcheck (negb (bool_decide (command_prefix = EmptyString))) ;;;
  dcheck (bool_decide (String.index 0 "." command_prefix = None)) ;;;
  let! s := mget in
  dcheck (bool_decide (default [] (script_command_callbacks_ s !! command_prefix) = [])) ;;;
  mmodify (fun s => with_script_command_callbacks
    (<[command_prefix := default [] (script_command_callbacks_ s !! command_prefix) ++ [callback]]>
       (script_command_callbacks_ s)) s).
(** The end of the subscription removes the callback from its list. *)
Definition end_subscription (callback : positive) (command_prefix : string) : M t unit :=
  mmodify (fun s => with_script_command_callbacks
    (alter (filter (fun c => c <> callback)) command_prefix (script_command_callbacks_ s)) s).
Definition AddPolicyDecider (decider : positive) : M t unit :=
  let! s := mget in
  dcheck (negb (bool_decide (decider ∈ policy_deciders_ s))) ;;;
  mmodify (with_policy_deciders (policy_deciders_ s ++ [decider])).
Definition RemovePolicyDecider (decider : positive) : M t unit :=
  mmodify (fun s => with_policy_deciders (filter (fun d => d <> decider) (policy_deciders_ s)) s).

Definition SetWebUsageEnabled (enabled : bool) : M t unit :=
  let! s := mget in
  mwhen (negb (Bool.eqb (IsWebUsageEnabled s) enabled)) (with_realized (RealizedWebState.setWebUsageEnabled enabled)).
(** [DCHECK(CanTakeSnapshot())] of the realized WebState *)
Definition TakeSnapshot : M t unit :=
  with_realized (let! s := mget in dcheck (CanTakeSnapshot s)).
Definition CloseMediaPresentations : M t unit :=
  let! s := mget in mwhen (IsRealized s) (RealizedWebState.effect WebStateImplState.CloseMediaPresentations).
Definition GetView : M t unit := forward RealizedWebState.ensureContainerViewCreated (mreturn tt).

(** ** Every call

    The methods of the WebState that change it, what its controller does with it, and
    what comes from outside: the web view, and the clocks. [ManagerCall] is any method of
    the navigation manager, which the WebState hands out. *)
Inductive Call : Type :=
| ForceRealizedCall
| OnNavigationStartedCall (context : NavigationContextImpl.t)
| OnNavigationRedirectedCall (context : NavigationContextImpl.t)
| OnNavigationFinishedCall (context : NavigationContextImpl.t)
| OnBackForwardStateChangedCall
| OnTitleChangedCall
| OnRenderProcessGoneCall
| OnScriptCommandReceivedCall (command : string)
| SetIsLoadingCall (is_loading : bool)
| OnPageLoadedCall (url : GURL) (load_success : bool)
| OnFaviconUrlUpdatedCall (candidates : list FaviconURL)
| OnStateChangedForPermissionCall (permission : Permission)
| ManagerCall (method : M Manager unit)
| CreateWebUICall (url : GURL)
| ClearWebUICall
| SetContentsMimeTypeCall (mime_type : string)
| SetUserAgentCall (user_agent : UserAgent.UserAgentType)
| SendChangeLoadProgressCall (progress : spec_float)
| ShowRepostFormWarningDialogCall (callback : positive)
| RunJavaScriptDialogCall (callback : positive)
| DialogClosedCall (callback : positive)
| CreateNewWebStateCall (url opener_url : GURL) (initiated_by_user : bool)
| OnAuthRequiredCall (callback : positive)
| CancelDialogsCall
| WebFrameBecameAvailableCall (frame : WebFramesManagerImpl.WebFrame)
| WebFrameBecameUnavailableCall (frame_id : string)
| RemoveAllWebFramesCall
| SetDelegateCall (delegate : option positive)
| SetWebUsageEnabledCall (enabled : bool)
| GetViewCall
| DidCoverWebContentCall
| DidRevealWebContentCall
| WasShownCall
| WasHiddenCall
| SetKeepRenderProcessAliveCall (keep_alive : bool)
| OpenURLCall (url : GURL)
| StopCall
| BuildSessionStorageCall
| GetTitleCall
| GetFaviconStatusCall
| SetFaviconStatusCall (favicon_status : Favicon)
| DidChangeVisibleSecurityStateCall
| SetHasOpenerCall (has_opener : bool)
| TakeSnapshotCall
| CloseMediaPresentationsCall
| CloseWebStateCall
| SetSessionStateDataCall (accepted : bool) (web_view : NavigationManagerState.WebView)
    (setInteractionState : NavigationManagerState.WebView -> NavigationManagerState.WebView)
| AddScriptCommandCallbackCall (callback : positive) (command_prefix : string)
| EndSubscriptionCall (callback : positive) (command_prefix : string)
| AddPolicyDeciderCall (decider : positive)
| RemovePolicyDeciderCall (decider : positive)
| UserDataCall (data : CRWSessionUserData.t)
| EnsureWebViewCreated (web_view : NavigationManagerState.WebView)
| WebViewChanged (web_view : NavigationManagerState.WebView)
| DocumentURLChanged (url : GURL)
| NavigationStateChanged (finished : bool)
| ProcessStateChanged (crashed : bool)
| EstimatedProgressChanged (progress : spec_float)
| Elapse (now : Z) (media_time : CFTimeInterval) (unique_id_counter : Z).

Definition ignore {A} (m : M t A) : M t unit := m ;;; mreturn tt.
Definition set_user_data (data : CRWSessionUserData.t) : M t unit :=
  RealizedWebState.user_data ;;;
  mmodify (with_user_data_manager (Some (SerializableUserDataManagerImpl.mk data))).
(** The list of the web view changes, if there is one. *)
Definition web_view_changed (web_view : NavigationManagerState.WebView) : M t unit :=
  let! r := RealizedWebState.realized in
  mwhen (bool_decide (is_Some (NavigationManagerState.proxy (navigation_manager_ r))))
    (RealizedWebState.set_proxy (Some web_view)).

(** The controller exists once the WebState is realized. *)
Definition controller_changed (f : WebController -> WebController) : M t unit :=
  RealizedWebState.realized ;;; RealizedWebState.update_controller f.

Definition exec (call : Call) : M t unit :=
  match call with
  | ForceRealizedCall => ForceRealized
  | OnNavigationStartedCall context => with_realized (RealizedWebState.OnNavigationStarted context)
  | OnNavigationRedirectedCall context => with_realized (RealizedWebState.OnNavigationRedirected context)
  | OnNavigationFinishedCall context => with_realized (RealizedWebState.OnNavigationFinished context)
  | OnBackForwardStateChangedCall => with_realized RealizedWebState.OnBackForwardStateChanged
  | OnTitleChangedCall => with_realized RealizedWebState.OnTitleChanged
  | OnRenderProcessGoneCall => with_realized RealizedWebState.OnRenderProcessGone
  | OnScriptCommandReceivedCall command => with_realized (RealizedWebState.OnScriptCommandReceived command)
  | SetIsLoadingCall is_loading => with_realized (RealizedWebState.SetIsLoading is_loading)
  | OnPageLoadedCall url load_success => with_realized (RealizedWebState.OnPageLoaded url load_success)
  | OnFaviconUrlUpdatedCall candidates => with_realized (RealizedWebState.OnFaviconUrlUpdated candidates)
  | OnStateChangedForPermissionCall permission => with_realized (RealizedWebState.OnStateChangedForPermission permission)
  | ManagerCall method => with_realized (RealizedWebState.on_manager method)
  | CreateWebUICall url => with_realized (RealizedWebState.CreateWebUI url)
  | ClearWebUICall => with_realized RealizedWebState.ClearWebUI
  | SetContentsMimeTypeCall mime_type => with_realized (RealizedWebState.SetContentsMimeType mime_type)
  | SetUserAgentCall user_agent => with_realized (RealizedWebState.SetWebStateUserAgent user_agent)
  | SendChangeLoadProgressCall progress => with_realized (RealizedWebState.SendChangeLoadProgress progress)
  | ShowRepostFormWarningDialogCall callback => with_realized (RealizedWebState.ShowRepostFormWarningDialog callback)
  | RunJavaScriptDialogCall callback => with_realized (RealizedWebState.RunJavaScriptDialog callback)
  | DialogClosedCall callback => RealizedWebState.dialog_closed callback
  | CreateNewWebStateCall url opener_url initiated_by_user =>
      with_realized (RealizedWebState.CreateNewWebState url opener_url initiated_by_user)
  | OnAuthRequiredCall callback => with_realized (RealizedWebState.OnAuthRequired callback)
  | CancelDialogsCall => with_realized RealizedWebState.ClearDialogs
  | WebFrameBecameAvailableCall frame => with_realized (RealizedWebState.WebFrameBecameAvailable frame)
  | WebFrameBecameUnavailableCall frame_id => with_realized (RealizedWebState.WebFrameBecameUnavailable frame_id)
  | RemoveAllWebFramesCall => with_realized RealizedWebState.RemoveAllWebFrames
  | SetDelegateCall delegate => with_realized (RealizedWebState.SetDelegate delegate)
  | SetWebUsageEnabledCall enabled => SetWebUsageEnabled enabled
  | GetViewCall => GetView
  | DidCoverWebContentCall => with_realized RealizedWebState.DidCoverWebContent
  | DidRevealWebContentCall => with_realized RealizedWebState.DidRevealWebContent
  | WasShownCall => with_realized RealizedWebState.WasShown
  | WasHiddenCall => with_realized RealizedWebState.WasHidden
  | SetKeepRenderProcessAliveCall keep_alive => with_realized (RealizedWebState.SetKeepRenderProcessAlive keep_alive)
  | OpenURLCall url => with_realized (RealizedWebState.OpenURL url)
  | StopCall => with_realized RealizedWebState.Stop
  | BuildSessionStorageCall => ignore BuildSessionStorage
  | GetTitleCall => ignore GetTitle
  | GetFaviconStatusCall => ignore GetFaviconStatus
  | SetFaviconStatusCall favicon_status => SetFaviconStatus favicon_status
  | DidChangeVisibleSecurityStateCall => with_realized RealizedWebState.DidChangeVisibleSecurityState
  | SetHasOpenerCall has_opener => with_realized (RealizedWebState.SetHasOpener has_opener)
  | TakeSnapshotCall => TakeSnapshot
  | CloseMediaPresentationsCall => CloseMediaPresentations
  | CloseWebStateCall => with_realized RealizedWebState.CloseWebState
  | SetSessionStateDataCall accepted web_view setInteractionState =>
      ignore (with_realized (RealizedWebState.SetSessionStateData accepted web_view setInteractionState))
  | AddScriptCommandCallbackCall callback command_prefix => AddScriptCommandCallback callback command_prefix
  | EndSubscriptionCall callback command_prefix => end_subscription callback command_prefix
  | AddPolicyDeciderCall decider => AddPolicyDecider decider
  | RemovePolicyDeciderCall decider => RemovePolicyDecider decider
  | UserDataCall data => set_user_data data
  | EnsureWebViewCreated web_view => with_realized (RealizedWebState.ensureWebViewCreated web_view)
  | WebViewChanged web_view => web_view_changed web_view
  | DocumentURLChanged url => RealizedWebState.setDocumentURL url
  | NavigationStateChanged finished => controller_changed (with_navigation_finished finished)
  | ProcessStateChanged crashed => controller_changed (with_web_process_crashed crashed)
  | EstimatedProgressChanged progress => controller_changed (with_estimated_progress progress)
  | Elapse now media_time unique_id_counter =>
      mmodify (with_now now) ;;; mmodify (with_media_time media_time) ;;;
      mmodify (with_unique_id_counter unique_id_counter)
  end.

(** The life of a WebState: a WebState that was made, and the calls that returned;
    other WebStates can be realized in between. *)
Inductive reachable (params : CreateParams) (session_storage : option Session) : t -> Prop :=
| reachable_create unique_id_counter now media_time uuid_count o s :
    create params session_storage (unborn unique_id_counter now media_time uuid_count o) = Ok (tt, s) ->
    reachable params session_storage s
| reachable_call call s s' :
    reachable params session_storage s -> exec call s = Ok (tt, s') -> reachable params session_storage s'
| reachable_others o s :
    reachable params session_storage s -> reachable params session_storage (with_over_realization o s).

End Code.
End WebStateImpl.
