(* ===== verification/WebStateImplProofs.v ===== *)
(** * WebStateImpl: what every method keeps

    The observers of a WebState are told of its changes: [watch] is what an observer
    concludes from the calls it receives, and the calls that no observer may
    receive. [lives] relates the states before and after a method: the members that
    never change, those that stay well formed, the observers that stay informed, and
    the saved session, which is kept until an item is committed. *)

From stdpp Require Import base tactics option list numbers strings gmap.
From Stdlib Require Import ZArith Lia SpecFloat.
From S2P Require Import Prelude WebTypes WkNavigationUtil NavigationItem SessionStorage SessionBuilder.
From S2P Require Import NavigationManagerState NavigationManager.
From S2P Require Import WebThread WebFramesManager CertPolicies WebStateImplState RealizedWebState WebStateImpl.

Module WebStateImplProofs.
Export WebStateImplState.
#[export] Existing Instance WebFramesManagerImpl.WebFrame_eq_dec.

Section Watch.
Context `{WebEnv} `{CertificateOps} `{PageTransitionOps} `{ItemEnv}.
Context `{!NavigationEnv} `{!NavigationManagerImpl.NativeRestore} `{!NSStringOps} `{!URLConstants}.
Context `{!NavigationContextImpl.ContextEnv} `{!WebStateClient} `{!X509Ops}.
Abbreviation Manager := NavigationManagerState.t.
Abbreviation Session := (CRWSessionStorage.t (CertCache := CRWSessionCertificatePolicyCacheStorage.t)).
Abbreviation WebFrame := WebFramesManagerImpl.WebFrame.

(** ** Observers *)

(** What an observer concludes: whether the WebState is realized, shown, loading, was
    destroyed, and its frames. *)
Record Watched : Type := mkWatched {
  watched_realized : bool;
  watched_shown : bool;
  watched_loading : bool;
  watched_frames : gmap string WebFrame;
  watched_destroyed : bool
}.

(** The calls come in pairs: shown and hidden, started and stopped, a frame that
    becomes available and unavailable. Before it is realized a WebState only sends that
    it is realized or destroyed, and nothing after that it is destroyed. *)
Definition watch_event (w : Watched) (event : Event) : option Watched :=
  let '(mkWatched realized shown loading frames destroyed) := w in
  if destroyed then None
  else
    match event with
    | WebStateDestroyed => Some (mkWatched realized shown loading frames true)
    | WebStateRealized => if realized then None else Some (mkWatched true shown loading frames false)
    | _ =>
        if negb realized then None
        else
          match event with
          | WasShown => if shown then None else Some (mkWatched true true loading frames false)
          | WasHidden => if shown then Some (mkWatched true false loading frames false) else None
          | DidStartLoading => if loading then None else Some (mkWatched true shown true frames false)
          | DidStopLoading => if loading then Some (mkWatched true shown false frames false) else None
          | WebFrameDidBecomeAvailable frame =>
              if decide (frames !! WebFramesManagerImpl.GetFrameId frame = None)
              then Some (mkWatched true shown loading (<[WebFramesManagerImpl.GetFrameId frame := frame]> frames) false)
              else None
          | WebFrameWillBecomeUnavailable frame =>
              if decide (frames !! WebFramesManagerImpl.GetFrameId frame = Some frame)
              then Some (mkWatched true shown loading (delete (WebFramesManagerImpl.GetFrameId frame) frames) false)
              else None
          | _ => Some w
          end
    end.
Definition watch_effect (w : Watched) (e : Effect) : option Watched :=
  match e with Notify event => watch_event w event | _ => Some w end.
Fixpoint watch (w : Watched) (l : list Effect) : option Watched :=
  match l with
  | [] => Some w
  | e :: l => match watch_effect w e with Some w => watch w l | None => None end
  end.

Lemma watch_app w l l' :
  watch w (l ++ l') = match watch w l with Some w' => watch w' l' | None => None end.
Proof.
  revert w. induction l as [|e l IH]; intros w; [done|]. cbn [watch app]. destruct (watch_effect w e); [apply IH|done].
Qed.

(** ** Before and after a method of a realized WebState *)

Definition seen (r : Realized) : Watched :=
  mkWatched true (visible (web_controller_ r)) (is_loading_ r)
    (WebFramesManagerImpl.web_frames_ (web_frames_manager_ r)) false.

(** The session without the user data, which is not part of it. *)
Definition session_of (r : Realized) : option Session := with_storage_user_data None <$> restored_session_storage_ r.

(** The content is in the container; there is a cache for the certificates. *)
Definition contained (r : Realized) : Prop :=
  content_alive (web_controller_ r) = true -> container_view (web_controller_ r) = true.
Definition certified (r : Realized) : Prop := is_Some (certificate_policy_cache_ r).

(** Each frame is registered under its identifier. *)
Definition frames_wf (r : Realized) : Prop := WebFramesManagerImpl.wf (web_frames_manager_ r).

(** The log extended with [l]. *)
Record method (r r' : Realized) (l : list Effect) : Prop := {
  method_identifier : stable_identifier_ r' = stable_identifier_ r;
  method_browser_state : manager_browser_state r' = manager_browser_state r;
  method_closed : controller_closed (web_controller_ r') = controller_closed (web_controller_ r);
  method_contained : contained r -> contained r';
  method_certified : certified r -> certified r';
  method_frames : WebFramesManagerImpl.wf (web_frames_manager_ r');
  method_seen : watch (seen r) l = Some (seen r');
  method_session : session_of r' = session_of r \/ ItemCommitted false ∈ l
}.

Lemma method_refl r : frames_wf r -> method r r [].
Proof. intros Hw. split; try done. by left. Qed.
Lemma method_trans r1 r2 r3 l l' : method r1 r2 l -> method r2 r3 l' -> method r1 r3 (l ++ l').
Proof.
  intros [I1 B1 C1 W1 X1 F1 S1 K1] [I2 B2 C2 W2 X2 F2 S2 K2]. split; try congruence; [by auto|by auto| |].
  - by rewrite watch_app, S1.
  - rewrite elem_of_app. destruct K1 as [K1|K1], K2 as [K2|K2]; [left; congruence|tauto..].
Qed.

(** A WebState that is realized; [destroy] is not one of the methods. *)
Definition lives (s s' : t) : Prop :=
  is_being_destroyed_ s' = is_being_destroyed_ s /\ saved_ s' = saved_ s /\
  match pimpl_ s, pimpl_ s' with
  | Some r, Some r' => frames_wf r -> exists l, log s' = log s ++ l /\ method r r' l
  | None, None => True
  | _, _ => False
  end.

#[export] Instance lives_preorder : PreOrder lives.
Proof.
  split.
  - intros s. split_and!; [done..|]. destruct (pimpl_ s) as [r|]; [|done].
    intros Hw. exists []. rewrite app_nil_r. split; [done|by apply method_refl].
  - intros s1 s2 s3 (D1 & V1 & P1) (D2 & V2 & P2). split_and!; [congruence..|].
    destruct (pimpl_ s1) as [r1|], (pimpl_ s2) as [r2|], (pimpl_ s3) as [r3|]; try done.
    intros Hw. destruct (P1 Hw) as (l1 & E1 & M1), (P2 (method_frames _ _ _ M1)) as (l2 & E2 & M2). exists (l1 ++ l2).
    rewrite E2, E1, app_assoc. split; [done|by eapply method_trans].
Qed.

(** What the clauses of [method] read. *)
Definition core (r : Realized) :=
  (seen r, web_frames_manager_ r, stable_identifier_ r, manager_browser_state r, session_of r,
   controller_closed (web_controller_ r)).

Lemma core_method r r' : frames_wf r -> core r' = core r -> (contained r -> contained r') ->
  (certified r -> certified r') -> method r r' [].
Proof.
  unfold core. intros Hf Ec Hw Hx. simplify_eq. split; try done; [| |by left].
  - unfold frames_wf in Hf. congruence.
  - cbn [watch]. f_equal. unfold seen. congruence.
Qed.

Lemma lives_update f : (forall r, core (f r) = core r /\ (contained r -> contained (f r)) /\ (certified r -> certified (f r))) ->
  keeps lives (RealizedWebState.update_realized f).
Proof.
  intros Hf. apply keeps_modify. intros s. split_and!; [done..|]. cbn. destruct (pimpl_ s) as [r|]; [|done].
  cbn. intros Hw. exists []. rewrite app_nil_r. split; [done|]. apply core_method; [done|apply Hf..].
Qed.

Lemma lives_update_controller f :
  (forall c, visible (f c) = visible c /\ controller_closed (f c) = controller_closed c /\
     ((content_alive c = true -> container_view c = true) -> content_alive (f c) = true -> container_view (f c) = true)) ->
  keeps lives (RealizedWebState.update_controller f).
Proof.
  intros Hf. apply lives_update. intros r. destruct (Hf (web_controller_ r)) as (Ev & Ec & Hw). split; [|by split].
  unfold core, seen. cbn. by rewrite Ev, Ec.
Qed.

(** What no observer is concerned with. *)
Definition silent (e : Effect) : Prop := forall event, e <> Notify event.

Lemma lives_modify f :
  (forall s, is_being_destroyed_ (f s) = is_being_destroyed_ s /\ saved_ (f s) = saved_ s /\
     pimpl_ (f s) = pimpl_ s /\ log (f s) = log s) ->
  keeps lives (mmodify f).
Proof.
  intros Hf. apply keeps_modify. intros s. destruct (Hf s) as (Ed & Es & Ep & El). split_and!; [done..|].
  rewrite Ep, El. destruct (pimpl_ s) as [r|]; [|done]. intros Hw. exists [].
  rewrite app_nil_r. split; [done|by apply method_refl].
Qed.

(** An effect that leaves the conclusions of an observer as they are. *)
Lemma lives_effect e :
  (forall r, watch_effect (seen r) e = Some (seen r)) -> keeps lives (RealizedWebState.effect e).
Proof.
  intros He. apply keeps_modify. intros s. split_and!; [done..|]. cbn. destruct (pimpl_ s) as [r|]; [|done].
  intros Hw. exists [e]. split; [done|]. split; try done; [|by left]. cbn [watch]. by rewrite He.
Qed.

End Watch.

#[export] Hint Extern 1 (keeps lives (RealizedWebState.effect _)) => apply lives_effect; intros ?; reflexivity : code.
#[export] Hint Extern 1 (keeps lives (RealizedWebState.notify _)) => apply lives_effect; intros ?; reflexivity : code.
#[export] Hint Extern 1 (keeps lives (RealizedWebState.update_controller _)) =>
  apply lives_update_controller; intros ?; split_and!; solve [reflexivity | done | auto] : code.
#[export] Hint Extern 2 (keeps lives (RealizedWebState.update_realized _)) =>
  apply lives_update; intros ?; split_and!; [reflexivity|exact id|first [exact id | intros _; by eexists]] : code.
#[export] Hint Extern 2 (keeps lives (mmodify _)) => apply lives_modify; intros ?; split_and!; reflexivity : code.

(** ** The methods of RealizedWebState *)

Section Methods.
Context `{WebEnv} `{CertificateOps} `{PageTransitionOps} `{ItemEnv}.
Context `{!NavigationEnv} `{!NavigationManagerImpl.NativeRestore} `{!NSStringOps} `{!URLConstants}.
Context `{!NavigationContextImpl.ContextEnv} `{!WebStateClient} `{!X509Ops}.
Import RealizedWebState.
Abbreviation Manager := NavigationManagerState.t.
Abbreviation Session := (CRWSessionStorage.t (CertCache := CRWSessionCertificatePolicyCacheStorage.t)).
Abbreviation WebFrame := WebFramesManagerImpl.WebFrame.

Lemma lives_realized : keeps lives realized.
Proof. through @realized. Qed.
#[local] Hint Resolve lives_realized : code.

Lemma realized_ok s r s' : realized s = Ok (r, s') -> s' = s /\ pimpl_ s = Some r.
Proof.
  unfold realized. intros (s0 & s1 & [= <- <-] & E)%mbind_ok. unfold of_option in E. destruct (pimpl_ s); by simplify_eq.
Qed.
Lemma realized_run s r : pimpl_ s = Some r -> realized s = Ok (r, s).
Proof. intros E. unfold realized. rewrite (mbind_run _ _ s s s) by done. by rewrite E. Qed.

Lemma lives_intro s s' r r' l : pimpl_ s = Some r -> pimpl_ s' = Some r' -> log s' = log s ++ l ->
  is_being_destroyed_ s' = is_being_destroyed_ s -> saved_ s' = saved_ s ->
  (frames_wf r -> method r r' l) -> lives s s'.
Proof. intros E E' El Ed Es Hm. split_and!; [done..|]. rewrite E, E'. intros Hw. exists l. auto. Qed.

(** A member changes, then the observers are told. *)
Lemma lives_update_notify f event s r a s' : pimpl_ s = Some r ->
  (frames_wf r -> method r (f r) [Notify event]) ->
  (update_realized f ;;; notify event) s = Ok (a, s') -> lives s s'.
Proof.
  intros E Hm [= _ <-]. eapply (lives_intro _ _ r (f r)); [done| |done..]. cbn. by rewrite E.
Qed.

Lemma lives_SetIsLoading b : keeps lives (SetIsLoading b).
Proof.
  unfold SetIsLoading. intros s a s' (r & s1 & [-> Er]%realized_ok & E)%mbind_ok.
  destruct (Bool.eqb b (is_loading_ r)) eqn:Eb; [by injection E as _ <-|].
  eapply lives_update_notify; [done| |exact E]. intros Hw. split; try done; [|by left]. unfold seen. cbn. destruct b, (is_loading_ r); done.
Qed.
#[local] Hint Resolve lives_SetIsLoading : code.

Lemma lives_WasShown : keeps lives WasShown.
Proof.
  unfold WasShown. intros s a s' (r & s1 & [-> Er]%realized_ok & E)%mbind_ok.
  destruct (IsVisible r) eqn:Ev; [by injection E as _ <-|]. apply mbind_ok in E as (s0 & s1 & [= <- <-] & E).
  injection E as _ <-. eapply (lives_intro _ _ r); [done|cbn; rewrite Er; reflexivity|reflexivity|done..|].
  intros Hw. split; try done; [|by left]. unfold seen. cbn. unfold IsVisible in Ev. by rewrite Ev.
Qed.
Lemma lives_WasHidden : keeps lives WasHidden.
Proof.
  unfold WasHidden. intros s a s' (r & s1 & [-> Er]%realized_ok & E)%mbind_ok.
  destruct (IsVisible r) eqn:Ev; [|by injection E as _ <-]. cbn [negb] in E. unfold mwhen in E.
  destruct (controller_closed (web_controller_ r)) eqn:Ec; cbn [negb] in E; injection E as _ <-;
    (eapply (lives_intro _ _ r); [done|cbn; rewrite Er; reflexivity|cbn; rewrite <- ?app_assoc; reflexivity|done..|]);
    intros Hw; (split; try done; [|by left]); unfold seen; cbn; unfold IsVisible in Ev; by rewrite Ev.
Qed.
#[local] Hint Resolve lives_WasShown lives_WasHidden : code.

(** A frame is added, then the observers are told; they are told before one is
    removed. *)
Lemma AddFrame_ok frame m added m' : WebFramesManagerImpl.wf m ->
  WebFramesManagerImpl.AddFrame frame m = Ok (added, m') -> WebFramesManagerImpl.wf m' /\
    (if added then WebFramesManagerImpl.web_frames_ m !! WebFramesManagerImpl.GetFrameId frame = None /\
       WebFramesManagerImpl.web_frames_ m' =
         <[WebFramesManagerImpl.GetFrameId frame := frame]> (WebFramesManagerImpl.web_frames_ m)
     else WebFramesManagerImpl.web_frames_ m' = WebFramesManagerImpl.web_frames_ m).
Proof.
  intros Hw E. destruct (decide (WebFramesManagerImpl.GetFrameId frame = EmptyString)) as [Hid|Hid].
  { unfold WebFramesManagerImpl.AddFrame, mbind, dcheck in E. by rewrite bool_decide_true in E. }
  destruct (WebFramesManagerImpl.web_frames_ m !! WebFramesManagerImpl.GetFrameId frame) eqn:Ef.
  - unfold WebFramesManagerImpl.AddFrame in E. apply mbind_ok in E as ([] & m1 & [-> _]%dcheck_ok & E).
    apply mbind_ok in E as (m0 & m1 & [= <- <-] & E). destruct (_ && _); [by injection E as <- <-|].
    apply mbind_ok in E as ([] & m1 & E1 & E). apply mbind_ok in E as ([] & m2 & [-> Hb]%dcheck_ok & E).
    apply bool_decide_eq_true in Hb. congruence.
  - destruct (WebFramesManagerImpl.AddFrame_run m frame Hw Hid Ef) as (added' & m2 & E' & Hw2 & _ & Hf).
    rewrite E' in E. injection E as -> ->. split; [done|]. by destruct added.
Qed.

Lemma on_frames_ok {A} (m : M WebFramesManagerImpl.t A) s r a s' : pimpl_ s = Some r ->
  on_frames m s = Ok (a, s') -> exists frames, m (web_frames_manager_ r) = Ok (a, frames) /\
    s' = with_pimpl (Some (with_web_frames_manager frames r)) s.
Proof.
  intros Er (r0 & s0 & [-> Er0]%realized_ok & E)%mbind_ok. rewrite Er in Er0. injection Er0 as <-.
  destruct (m (web_frames_manager_ r)) as [[b frames]|]; [|done]. injection E as <- <-. exists frames.
  split; [done|]. by rewrite Er.
Qed.

Lemma lives_WebFrameBecameAvailable frame : keeps lives (WebFrameBecameAvailable frame).
Proof.
  unfold WebFrameBecameAvailable. intros s a s' (added & s1 & E1 & E)%mbind_ok.
  assert (exists r, pimpl_ s = Some r) as [r Er].
  { apply mbind_ok in E1 as (r & s0 & [-> Er]%realized_ok & _). by exists r. }
  destruct (on_frames_ok _ _ _ _ _ Er E1) as (frames & Ef & ->).
  unfold mwhen in E. destruct added; injection E as _ <-.
  - eapply (lives_intro _ _ r); [exact Er|reflexivity|reflexivity|done|done|]. intros Hw.
    destruct (AddFrame_ok _ _ _ _ Hw Ef) as (Hw' & Hn & Hi). split; try done; [|by left]. unfold seen. cbn.
    by rewrite decide_True, Hi.
  - eapply (lives_intro _ _ r _ []); [exact Er|reflexivity|by rewrite app_nil_r|done|done|]. intros Hw.
    destruct (AddFrame_ok _ _ _ _ Hw Ef) as (Hw' & Hi). split; try done; [|by left]. unfold seen. cbn. by rewrite Hi.
Qed.

(** A frame that is registered is removed. *)
Lemma NotifyAndRemove_run s r frame : pimpl_ s = Some r -> WebFramesManagerImpl.wf (web_frames_manager_ r) ->
  WebFramesManagerImpl.web_frames_ (web_frames_manager_ r) !! WebFramesManagerImpl.GetFrameId frame = Some frame ->
  exists frames, NotifyObserversAndRemoveWebFrame frame s =
      Ok (tt, with_pimpl (Some (with_web_frames_manager frames r))
                (with_log (log s ++ [Notify (WebFrameWillBecomeUnavailable frame)]) s)) /\
    WebFramesManagerImpl.web_frames_ frames =
      delete (WebFramesManagerImpl.GetFrameId frame) (WebFramesManagerImpl.web_frames_ (web_frames_manager_ r)) /\
    WebFramesManagerImpl.wf frames /\
    method r (with_web_frames_manager frames r) [Notify (WebFrameWillBecomeUnavailable frame)].
Proof.
  intros Er Hw Hf. destruct (WebFramesManagerImpl.RemoveFrame_run _ _ Hw Hf) as (frames & E & Hw' & Hd).
  exists frames. split_and!; [|done..|].
  - unfold NotifyObserversAndRemoveWebFrame. set (s1 := with_log (log s ++ _) s).
    rewrite (mbind_run _ _ s tt s1) by done. unfold on_frames.
    rewrite (mbind_run _ _ _ _ _ (realized_run s1 r Er)). rewrite E.
    rewrite (mbind_run _ _ s1 tt (with_pimpl (Some (with_web_frames_manager frames r)) s1)); [done|].
    unfold update_realized, mmodify. change (pimpl_ s1) with (pimpl_ s). by rewrite Er.
  - split; try done; [|by left]. unfold seen. cbn. by rewrite decide_True, Hd.
Qed.

Lemma lives_WebFrameBecameUnavailable frame_id : keeps lives (WebFrameBecameUnavailable frame_id).
Proof.
  unfold WebFrameBecameUnavailable. intros s a s' (r & s1 & [-> Er]%realized_ok & E)%mbind_ok.
  apply mbind_ok in E as (frame & s1 & Ef & E). apply mbind_ok in Ef as ([] & s2 & [-> _]%dcheck_ok & [= <- <-]).
  destruct (_ !! frame_id) as [frame|] eqn:Ef; [|by injection E as _ <-].
  pose proof E as ([] & s1 & [= <-] & E1)%mbind_ok.
  eapply (on_frames_ok _ _ r) in E1 as (frames & _ & ->); [|exact Er].
  eapply (lives_intro _ _ r); [exact Er|reflexivity|reflexivity|done|done|]. intros Hw.
  destruct (WebFramesManagerImpl.wf_id _ Hw _ _ Ef) as [<- _].
  destruct (NotifyAndRemove_run s r frame Er Hw Ef) as (frames' & E' & _ & _ & Hm).
  rewrite E in E'. by injection E' as _ ->.
Qed.

(** The frames that are left are registered. *)
Lemma RemoveFrames_run l : forall s r, pimpl_ s = Some r -> frames_wf r ->
  NoDup (WebFramesManagerImpl.GetFrameId <$> l) ->
  (forall frame, frame ∈ l -> WebFramesManagerImpl.web_frames_ (web_frames_manager_ r) !!
     WebFramesManagerImpl.GetFrameId frame = Some frame) ->
  exists s' frames, mfor l NotifyObserversAndRemoveWebFrame s = Ok (tt, s') /\ lives s s' /\
    pimpl_ s' = Some (with_web_frames_manager frames r) /\
    s' = with_pimpl (pimpl_ s') (with_log (log s') s).
Proof.
  induction l as [|frame l IH]; intros s r Er Hw Hnd Hl.
  { exists s, (web_frames_manager_ r). split_and!; [done|done|by destruct r|by destruct s]. }
  destruct (NotifyAndRemove_run s r frame Er Hw) as (frames & E & Hd & Hw1 & Hm); [apply Hl; by left|].
  set (s1 := with_pimpl _ _) in E. cbn [mfor]. rewrite (mbind_run _ _ _ _ _ E).
  apply NoDup_cons in Hnd as [Hni Hnd].
  destruct (IH s1 (with_web_frames_manager frames r)) as (s' & frames' & E' & L' & P' & S'); [done..| |].
  { intros f Hf. cbn. rewrite Hd, lookup_delete_ne; [by apply Hl; right|].
    intros Ei. apply Hni. rewrite Ei. by apply list_elem_of_fmap_2. }
  exists s', frames'. split_and!; [exact E'| |exact P'|by rewrite S' at 1].
  etransitivity; [|exact L']. by eapply (lives_intro s s1 r); [exact Er|reflexivity|reflexivity|done|done|].
Qed.

Lemma lives_RemoveAllWebFrames : keeps lives RemoveAllWebFrames.
Proof.
  unfold RemoveAllWebFrames. intros s a s' (r & s1 & [-> Er]%realized_ok & E)%mbind_ok.
  assert (frames_wf r -> lives s s') as Hl.
  { intros Hw. destruct (RemoveFrames_run (WebFramesManagerImpl.GetAllWebFrames (web_frames_manager_ r)) s r Er Hw)
      as (s2 & frames & E2 & Hl & _); [by apply WebFramesManagerImpl.NoDup_frames| |].
    - intros frame. by apply WebFramesManagerImpl.elem_of_frames.
    - rewrite E in E2. by injection E2 as _ ->. }
  assert (is_being_destroyed_ s' = is_being_destroyed_ s /\ saved_ s' = saved_ s /\ is_Some (pimpl_ s')) as (Hd & Hs & [r' Er']).
  { assert (is_Some (pimpl_ s)) as Hr by by exists r. clear Er Hl. revert s E Hr.
    induction (WebFramesManagerImpl.GetAllWebFrames (web_frames_manager_ r)) as [|frame l IH]; intros s E Hr.
    - injection E as _ <-. done.
    - cbn [mfor] in E. apply mbind_ok in E as ([] & s1 & E1 & E). destruct Hr as [r0 Er].
      apply mbind_ok in E1 as ([] & s0 & [= <-] & E1). eapply (on_frames_ok _ _ r0) in E1 as (frames & _ & ->); [|exact Er].
      destruct (IH _ E) as (Hd & Hs & Hp); [by eexists|]. by rewrite Hd, Hs. }
  split_and!; [done..|]. rewrite Er, Er'. intros Hw. destruct (Hl Hw) as (_ & _ & Hm).
  rewrite Er, Er' in Hm. by apply Hm.
Qed.
#[local] Hint Resolve lives_RemoveAllWebFrames : code.

Lemma lives_check b : keeps lives (check b).
Proof. intros s a s'. unfold check. by destruct b; intros [= _ <-]. Qed.
#[local] Hint Resolve lives_check : code.
Lemma lives_ClearDialogs : keeps lives ClearDialogs.
Proof. through @ClearDialogs. Qed.
Lemma lives_ClearWebUI : keeps lives ClearWebUI.
Proof. through @ClearWebUI. Qed.
Lemma lives_recordStateInHistory : keeps lives recordStateInHistory.
Proof. through @recordStateInHistory. Qed.
Lemma lives_SetWebStateUserAgent type : keeps lives (SetWebStateUserAgent type).
Proof. through @SetWebStateUserAgent. Qed.
Lemma lives_ensureContainerViewCreated : keeps lives ensureContainerViewCreated.
Proof. through @ensureContainerViewCreated. Qed.
#[local] Hint Resolve lives_ClearDialogs lives_ClearWebUI lives_recordStateInHistory lives_SetWebStateUserAgent
  lives_ensureContainerViewCreated : code.
Lemma lives_loadCurrentURL b : keeps lives (loadCurrentURL b).
Proof. through @loadCurrentURL. Qed.
#[local] Hint Resolve lives_loadCurrentURL : code.
Lemma lives_loadCurrentURLIfNecessary : keeps lives loadCurrentURLIfNecessary.
Proof. through @loadCurrentURLIfNecessary. Qed.
Lemma lives_setDocumentURL url : keeps lives (setDocumentURL url).
Proof. through @setDocumentURL. Qed.
Lemma lives_loadCancelled : keeps lives loadCancelled.
Proof. through @loadCancelled. Qed.
Lemma lives_set_proxy web_view : keeps lives (set_proxy web_view).
Proof. through @set_proxy. Qed.
Lemma lives_release_pending_items : keeps lives release_pending_items.
Proof. through @release_pending_items. Qed.
#[local] Hint Resolve lives_loadCurrentURLIfNecessary lives_setDocumentURL lives_loadCancelled lives_set_proxy
  lives_release_pending_items : code.

(** The saved session ends with an item that is committed. *)
Lemma lives_OnNavigationItemCommitted url : keeps lives (OnNavigationItemCommitted url).
Proof.
  unfold OnNavigationItemCommitted. destruct (WkNavigationUtil.IsWKInternalUrl url); [repeat first [code_step|done]|].
  intros s a s' ([] & s1 & [= <-] & [= _ <-])%mbind_ok. split_and!; [done..|]. cbn. destruct (pimpl_ s) as [r|]; [|done].
  cbn. intros Hw. exists [ItemCommitted false]. split; [done|]. split; try done. right. by left.
Qed.
#[local] Hint Resolve lives_OnNavigationItemCommitted : code.

Lemma lives_handle_delegate_call nm call : keeps lives (handle_delegate_call nm call).
Proof. through @handle_delegate_call. Qed.
#[local] Hint Resolve lives_handle_delegate_call : code.

Lemma lives_on_manager {A} (m : M Manager A) : keeps lives (on_manager m).
Proof.
  unfold on_manager. repeat first [code_step | done].
Qed.
#[local] Hint Resolve lives_on_manager : code.

Lemma lives_setWebView web_view : keeps lives (setWebView web_view).
Proof. through @setWebView. Qed.
#[local] Hint Resolve lives_setWebView : code.
Lemma lives_removeWebView : keeps lives removeWebView.
Proof. through @removeWebView. Qed.
#[local] Hint Resolve lives_removeWebView : code.

Lemma lives_displayWebView : keeps lives displayWebView.
Proof.
  unfold displayWebView. intros s a s' (r & s1 & [-> Er]%realized_ok & E)%mbind_ok.
  destruct (_ || _); injection E as _ <-; [done|].
  eapply (lives_intro _ _ r _ []); [exact Er|cbn; rewrite Er; reflexivity|by rewrite app_nil_r|done|done|].
  intros Hw. apply core_method; [done..| |done]. intros _ Hc. exact Hc.
Qed.
#[local] Hint Resolve lives_displayWebView : code.
Lemma lives_ensureWebViewCreated web_view : keeps lives (ensureWebViewCreated web_view).
Proof. through @ensureWebViewCreated. Qed.
#[local] Hint Resolve lives_ensureWebViewCreated : code.
Lemma lives_setWebUsageEnabled b : keeps lives (setWebUsageEnabled b).
Proof. through @setWebUsageEnabled. Qed.
#[local] Hint Resolve lives_setWebUsageEnabled : code.
Lemma lives_stopLoading : keeps lives stopLoading.
Proof. through @stopLoading. Qed.
#[local] Hint Resolve lives_stopLoading : code.
Lemma lives_DidCoverWebContent : keeps lives DidCoverWebContent.
Proof. through @DidCoverWebContent. Qed.
#[local] Hint Resolve lives_DidCoverWebContent : code.
Lemma lives_DidRevealWebContent : keeps lives DidRevealWebContent.
Proof. through @DidRevealWebContent. Qed.
#[local] Hint Resolve lives_DidRevealWebContent : code.
Lemma lives_SetKeepRenderProcessAlive b : keeps lives (SetKeepRenderProcessAlive b).
Proof. through @SetKeepRenderProcessAlive. Qed.
#[local] Hint Resolve lives_SetKeepRenderProcessAlive : code.
Lemma lives_Stop : keeps lives Stop.
Proof. through @Stop. Qed.
#[local] Hint Resolve lives_Stop : code.
Lemma lives_GetTitle : keeps lives GetTitle.
Proof. through @GetTitle. Qed.
#[local] Hint Resolve lives_GetTitle : code.
Lemma lives_GetFaviconStatus : keeps lives GetFaviconStatus.
Proof. through @GetFaviconStatus. Qed.
#[local] Hint Resolve lives_GetFaviconStatus : code.
Lemma lives_GetVisibleURL : keeps lives GetVisibleURL.
Proof. through @GetVisibleURL. Qed.
#[local] Hint Resolve lives_GetVisibleURL : code.
Lemma lives_GetLastCommittedURL : keeps lives GetLastCommittedURL.
Proof. through @GetLastCommittedURL. Qed.
#[local] Hint Resolve lives_GetLastCommittedURL : code.
Lemma lives_SetFaviconStatus status : keeps lives (SetFaviconStatus status).
Proof. through @SetFaviconStatus. Qed.
#[local] Hint Resolve lives_SetFaviconStatus : code.
Lemma lives_SessionStateData : keeps lives SessionStateData.
Proof. through @SessionStateData. Qed.
#[local] Hint Resolve lives_SessionStateData : code.
Lemma lives_setSessionStateData accepted web_view set : keeps lives (setSessionStateData accepted web_view set).
Proof. through @setSessionStateData. Qed.
#[local] Hint Resolve lives_setSessionStateData : code.
Lemma lives_SetSessionStateData accepted web_view set : keeps lives (SetSessionStateData accepted web_view set).
Proof. through @SetSessionStateData. Qed.
#[local] Hint Resolve lives_SetSessionStateData : code.
Lemma lives_user_data : keeps lives user_data.
Proof. through @user_data. Qed.
#[local] Hint Resolve lives_user_data : code.
Lemma lives_SetUserDataFromSession data : keeps lives (SetUserDataFromSession data).
Proof. through @SetUserDataFromSession. Qed.
#[local] Hint Resolve lives_SetUserDataFromSession : code.
Lemma lives_SetHasOpener b : keeps lives (SetHasOpener b).
Proof. through @SetHasOpener. Qed.
#[local] Hint Resolve lives_SetHasOpener : code.
Lemma lives_SetSessionCertificatePolicyCache cache : keeps lives (SetSessionCertificatePolicyCache cache).
Proof. through @SetSessionCertificatePolicyCache. Qed.
#[local] Hint Resolve lives_SetSessionCertificatePolicyCache : code.
Lemma lives_UpdateCertificatePolicyCache b : keeps lives (UpdateCertificatePolicyCache b).
Proof. through @UpdateCertificatePolicyCache. Qed.
#[local] Hint Resolve lives_UpdateCertificatePolicyCache : code.
Lemma lives_ExtractSessionState session : keeps lives (ExtractSessionState session).
Proof. through @ExtractSessionState. Qed.
#[local] Hint Resolve lives_ExtractSessionState : code.
Lemma user_data_run s : user_data s =
  Ok (default SerializableUserDataManagerImpl.create (user_data_manager s),
      with_user_data_manager (Some (default SerializableUserDataManagerImpl.create (user_data_manager s))) s).
Proof. unfold user_data, mbind, mget. destruct s as [? ? ? ? ? [m|] ? ? ? ? ? ?]; done. Qed.

(** The session that was restored, with the present user data. *)
Definition with_user_data (s : t) (session : Session) : Session :=
  with_storage_user_data (Some (SerializableUserDataManagerImpl.GetUserDataForSession
    (default SerializableUserDataManagerImpl.create (user_data_manager s)))) session.

Lemma BuildSessionStorage_restored s r session : pimpl_ s = Some r -> restored_session_storage_ r = Some session ->
  exists s', BuildSessionStorage s = Ok (with_user_data s session, s') /\
    pimpl_ s' = Some (with_restored_session_storage (Some (with_user_data s session)) r) /\
    log s' = log s ++ [RecordStateInHistory] /\
    is_being_destroyed_ s' = is_being_destroyed_ s /\ saved_ s' = saved_ s.
Proof.
  intros Er Es. unfold BuildSessionStorage. set (s1 := with_log (log s ++ [RecordStateInHistory]) s).
  rewrite (mbind_run _ _ s tt s1) by done. rewrite (mbind_run _ _ _ _ _ (realized_run s1 r Er)). rewrite Es.
  rewrite (mbind_run _ _ _ _ _ (user_data_run s1)). unfold mbind, update_realized, mmodify, mreturn.
  eexists. split; [reflexivity|]. split_and!; [|done..]. cbn. by rewrite Er.
Qed.

Lemma lives_BuildStorage {C} view nm : keeps lives (SessionStorageBuilder.BuildStorage (CertCache := C) view nm).
Proof. through @SessionStorageBuilder.BuildStorage. Qed.
#[local] Hint Resolve lives_BuildStorage : code.

Lemma lives_BuildSessionStorage : keeps lives BuildSessionStorage.
Proof.
  intros s a s' E. destruct (pimpl_ s) as [r|] eqn:Er.
  - destruct (restored_session_storage_ r) as [session|] eqn:Es.
    + destruct (BuildSessionStorage_restored s r session Er Es) as (s2 & E2 & Hp & Hl & Hd & Hs).
      rewrite E in E2. injection E2 as _ ->. eapply (lives_intro s s2 r); [done..|].
      intros Hw. split; try done. left. unfold session_of. cbn. by rewrite Es.
    + unfold BuildSessionStorage in E. apply mbind_ok in E as ([] & s1 & [= <-] & E).
      transitivity (with_log (log s ++ [RecordStateInHistory]) s); [by apply (lives_recordStateInHistory s tt)|].
      set (s1 := with_log _ s) in *. rewrite (mbind_run _ _ _ _ _ (realized_run s1 r Er)), Es in E.
      revert E. apply (fun m (H : keeps lives m) => H s1 a s'). repeat first [code_step | done].
  - unfold BuildSessionStorage in E. apply mbind_ok in E as ([] & s1 & [= <-] & E).
    apply mbind_ok in E as (r & s1 & [_ Er']%realized_ok & _). cbn in Er'. congruence.
Qed.
#[local] Hint Resolve lives_BuildSessionStorage : code.
Lemma lives_OnNavigationStarted c : keeps lives (OnNavigationStarted c).
Proof. through @OnNavigationStarted. Qed.
#[local] Hint Resolve lives_OnNavigationStarted : code.
Lemma lives_OnNavigationRedirected c : keeps lives (OnNavigationRedirected c).
Proof. through @OnNavigationRedirected. Qed.
#[local] Hint Resolve lives_OnNavigationRedirected : code.
Lemma lives_OnNavigationFinished c : keeps lives (OnNavigationFinished c).
Proof. through @OnNavigationFinished. Qed.
#[local] Hint Resolve lives_OnNavigationFinished : code.
Lemma lives_OnBackForwardStateChanged : keeps lives OnBackForwardStateChanged.
Proof. through @OnBackForwardStateChanged. Qed.
#[local] Hint Resolve lives_OnBackForwardStateChanged : code.
Lemma lives_OnTitleChanged : keeps lives OnTitleChanged.
Proof. through @OnTitleChanged. Qed.
#[local] Hint Resolve lives_OnTitleChanged : code.
Lemma lives_OnRenderProcessGone : keeps lives OnRenderProcessGone.
Proof. through @OnRenderProcessGone. Qed.
#[local] Hint Resolve lives_OnRenderProcessGone : code.
Lemma lives_OnScriptCommandReceived command : keeps lives (OnScriptCommandReceived command).
Proof. through @OnScriptCommandReceived. Qed.
#[local] Hint Resolve lives_OnScriptCommandReceived : code.
Lemma lives_OnPageLoaded url b : keeps lives (OnPageLoaded url b).
Proof. through @OnPageLoaded. Qed.
#[local] Hint Resolve lives_OnPageLoaded : code.
Lemma lives_OnFaviconUrlUpdated candidates : keeps lives (OnFaviconUrlUpdated candidates).
Proof. through @OnFaviconUrlUpdated. Qed.
#[local] Hint Resolve lives_OnFaviconUrlUpdated : code.
Lemma lives_OnStateChangedForPermission permission : keeps lives (OnStateChangedForPermission permission).
Proof. through @OnStateChangedForPermission. Qed.
#[local] Hint Resolve lives_OnStateChangedForPermission : code.
Lemma lives_CreateWebUI url : keeps lives (CreateWebUI url).
Proof. through @CreateWebUI. Qed.
#[local] Hint Resolve lives_CreateWebUI : code.
Lemma lives_SetContentsMimeType type : keeps lives (SetContentsMimeType type).
Proof. through @SetContentsMimeType. Qed.
#[local] Hint Resolve lives_SetContentsMimeType : code.
Lemma lives_SendChangeLoadProgress p : keeps lives (SendChangeLoadProgress p).
Proof. through @SendChangeLoadProgress. Qed.
#[local] Hint Resolve lives_SendChangeLoadProgress : code.
Lemma lives_ShowRepostFormWarningDialog c : keeps lives (ShowRepostFormWarningDialog c).
Proof. through @ShowRepostFormWarningDialog. Qed.
#[local] Hint Resolve lives_ShowRepostFormWarningDialog : code.
Lemma lives_RunJavaScriptDialog c : keeps lives (RunJavaScriptDialog c).
Proof. through @RunJavaScriptDialog. Qed.
#[local] Hint Resolve lives_RunJavaScriptDialog : code.
Lemma lives_JavaScriptDialogClosed : keeps lives JavaScriptDialogClosed.
Proof. through @JavaScriptDialogClosed. Qed.
#[local] Hint Resolve lives_JavaScriptDialogClosed : code.
Lemma lives_dialog_closed c : keeps lives (dialog_closed c).
Proof. through @dialog_closed. Qed.
#[local] Hint Resolve lives_dialog_closed : code.
Lemma lives_CreateNewWebState url opener b : keeps lives (CreateNewWebState url opener b).
Proof. through @CreateNewWebState. Qed.
#[local] Hint Resolve lives_CreateNewWebState : code.
Lemma lives_OnAuthRequired c : keeps lives (OnAuthRequired c).
Proof. through @OnAuthRequired. Qed.
#[local] Hint Resolve lives_OnAuthRequired : code.
Lemma lives_SetDelegate d : keeps lives (SetDelegate d).
Proof. through @SetDelegate. Qed.
#[local] Hint Resolve lives_SetDelegate : code.
Lemma lives_OpenURL url : keeps lives (OpenURL url).
Proof. through @OpenURL. Qed.
#[local] Hint Resolve lives_OpenURL : code.
Lemma lives_CloseWebState : keeps lives CloseWebState.
Proof. through @CloseWebState. Qed.
#[local] Hint Resolve lives_CloseWebState : code.
Lemma lives_DidChangeVisibleSecurityState : keeps lives DidChangeVisibleSecurityState.
Proof. through @DidChangeVisibleSecurityState. Qed.
#[local] Hint Resolve lives_DidChangeVisibleSecurityState : code.

(** ** Realization

    Nothing is sent to the observers while a session is restored. *)

Definition quiet (s s' : t) : Prop := exists l, log s' = log s ++ l /\ Forall silent l.

#[local] Instance quiet_preorder : PreOrder quiet.
Proof.
  split.
  - intros s. exists []. by rewrite app_nil_r.
  - intros s1 s2 s3 (l1 & E1 & H1') (l2 & E2 & H2'). exists (l1 ++ l2). rewrite E2, E1, app_assoc.
    split; [done|by apply Forall_app].
Qed.

Lemma quiet_modify f : (forall s, log (f s) = log s) -> keeps quiet (mmodify f).
Proof. intros Hf. apply keeps_modify. intros s. exists []. by rewrite Hf, app_nil_r. Qed.
Lemma quiet_effect e : silent e -> keeps quiet (effect e).
Proof. intros He. apply keeps_modify. intros s. exists [e]. split; [done|by apply Forall_singleton]. Qed.
#[local] Hint Extern 1 (keeps quiet (effect _)) => apply quiet_effect; discriminate : code.
#[local] Hint Extern 1 (keeps quiet (update_realized _)) => apply quiet_modify; reflexivity : code.
#[local] Hint Extern 1 (keeps quiet (update_controller _)) => apply quiet_modify; reflexivity : code.
#[local] Hint Extern 2 (keeps quiet (mmodify _)) => apply quiet_modify; reflexivity : code.

Lemma quiet_realized : keeps quiet realized.
Proof. through @realized. Qed.
#[local] Hint Resolve quiet_realized : code.
Lemma quiet_ClearDialogs : keeps quiet ClearDialogs.
Proof. through @ClearDialogs. Qed.
#[local] Hint Resolve quiet_ClearDialogs : code.
Lemma quiet_ClearWebUI : keeps quiet ClearWebUI.
Proof. through @ClearWebUI. Qed.
#[local] Hint Resolve quiet_ClearWebUI : code.
Lemma quiet_recordStateInHistory : keeps quiet recordStateInHistory.
Proof. through @recordStateInHistory. Qed.
#[local] Hint Resolve quiet_recordStateInHistory : code.
Lemma quiet_SetWebStateUserAgent type : keeps quiet (SetWebStateUserAgent type).
Proof. through @SetWebStateUserAgent. Qed.
#[local] Hint Resolve quiet_SetWebStateUserAgent : code.
Lemma quiet_ensureContainerViewCreated : keeps quiet ensureContainerViewCreated.
Proof. through @ensureContainerViewCreated. Qed.
#[local] Hint Resolve quiet_ensureContainerViewCreated : code.
Lemma quiet_loadCurrentURL b : keeps quiet (loadCurrentURL b).
Proof. through @loadCurrentURL. Qed.
#[local] Hint Resolve quiet_loadCurrentURL : code.
Lemma quiet_loadCurrentURLIfNecessary : keeps quiet loadCurrentURLIfNecessary.
Proof. through @loadCurrentURLIfNecessary. Qed.
#[local] Hint Resolve quiet_loadCurrentURLIfNecessary : code.
Lemma quiet_OnNavigationItemCommitted url : keeps quiet (OnNavigationItemCommitted url).
Proof. through @OnNavigationItemCommitted. Qed.
#[local] Hint Resolve quiet_OnNavigationItemCommitted : code.
Lemma quiet_handle_delegate_call nm call : keeps quiet (handle_delegate_call nm call).
Proof. through @handle_delegate_call. Qed.
#[local] Hint Resolve quiet_handle_delegate_call : code.
Lemma quiet_on_manager {A} (m : M Manager A) : keeps quiet (on_manager m).
Proof. through @on_manager. Qed.
#[local] Hint Resolve quiet_on_manager : code.
Lemma quiet_user_data : keeps quiet user_data.
Proof. through @user_data. Qed.
#[local] Hint Resolve quiet_user_data : code.
Lemma quiet_SetUserDataFromSession data : keeps quiet (SetUserDataFromSession data).
Proof. through @SetUserDataFromSession. Qed.
#[local] Hint Resolve quiet_SetUserDataFromSession : code.
Lemma quiet_SetHasOpener b : keeps quiet (SetHasOpener b).
Proof. through @SetHasOpener. Qed.
#[local] Hint Resolve quiet_SetHasOpener : code.
Lemma quiet_SetSessionCertificatePolicyCache cache : keeps quiet (SetSessionCertificatePolicyCache cache).
Proof. through @SetSessionCertificatePolicyCache. Qed.
#[local] Hint Resolve quiet_SetSessionCertificatePolicyCache : code.
Lemma quiet_UpdateCertificatePolicyCache b : keeps quiet (UpdateCertificatePolicyCache b).
Proof. through @UpdateCertificatePolicyCache. Qed.
#[local] Hint Resolve quiet_UpdateCertificatePolicyCache : code.
Lemma quiet_ExtractSessionState session : keeps quiet (ExtractSessionState session).
Proof. through @ExtractSessionState. Qed.
#[local] Hint Resolve quiet_ExtractSessionState : code.
Lemma quiet_SetFaviconStatus status : keeps quiet (SetFaviconStatus status).
Proof. through @SetFaviconStatus. Qed.
#[local] Hint Resolve quiet_SetFaviconStatus : code.
Lemma quiet_Init_session params session : keeps quiet (Init_session params session).
Proof. through @Init_session. Qed.
#[local] Hint Resolve quiet_Init_session : code.
Lemma quiet_Init_new : keeps quiet Init_new.
Proof. through @Init_new. Qed.
#[local] Hint Resolve quiet_Init_new : code.
Lemma quiet_Init params session : keeps quiet (Init params session).
Proof. through @Init. Qed.
#[local] Hint Resolve quiet_Init : code.

Lemma quiet_SetDelegate d : keeps quiet (SetDelegate d).
Proof. through @SetDelegate. Qed.
Lemma quiet_effects {A} (f : A -> Effect) l : (forall x, silent (f x)) -> keeps quiet (mfor l (fun x => effect (f x))).
Proof. intros Hf. apply keeps_for; [apply _|]. intros x. by apply quiet_effect. Qed.

Lemma watch_silent w l : Forall silent l -> watch w l = Some w.
Proof. induction 1 as [|e l He _ IH]; [done|]. cbn [watch]. destruct e; try exact IH. by destruct (He event). Qed.

End Methods.

#[export] Hint Resolve lives_realized lives_SetIsLoading lives_WasShown lives_WasHidden
  lives_WebFrameBecameAvailable lives_WebFrameBecameUnavailable lives_RemoveAllWebFrames lives_check
  lives_ClearDialogs lives_ClearWebUI lives_recordStateInHistory lives_SetWebStateUserAgent
  lives_ensureContainerViewCreated lives_loadCurrentURL lives_loadCurrentURLIfNecessary lives_setDocumentURL
  lives_loadCancelled lives_set_proxy lives_release_pending_items lives_OnNavigationItemCommitted
  lives_handle_delegate_call lives_on_manager lives_setWebView lives_removeWebView lives_displayWebView
  lives_ensureWebViewCreated lives_setWebUsageEnabled lives_stopLoading lives_DidCoverWebContent
  lives_DidRevealWebContent lives_SetKeepRenderProcessAlive lives_Stop lives_GetTitle lives_GetFaviconStatus
  lives_GetVisibleURL lives_GetLastCommittedURL lives_SetFaviconStatus lives_SessionStateData
  lives_SetSessionStateData lives_user_data lives_SetUserDataFromSession lives_SetHasOpener
  lives_SetSessionCertificatePolicyCache lives_UpdateCertificatePolicyCache lives_ExtractSessionState
  lives_BuildStorage lives_BuildSessionStorage lives_OnNavigationStarted lives_OnNavigationRedirected
  lives_OnNavigationFinished lives_OnBackForwardStateChanged lives_OnTitleChanged lives_OnRenderProcessGone
  lives_OnScriptCommandReceived lives_OnPageLoaded lives_OnFaviconUrlUpdated lives_OnStateChangedForPermission
  lives_CreateWebUI lives_SetContentsMimeType lives_SendChangeLoadProgress lives_ShowRepostFormWarningDialog
  lives_RunJavaScriptDialog lives_JavaScriptDialogClosed lives_dialog_closed lives_CreateNewWebState
  lives_OnAuthRequired lives_SetDelegate lives_OpenURL lives_CloseWebState lives_DidChangeVisibleSecurityState :
  code.

End WebStateImplProofs.
