(* ===== verification/WebStateImplTheorems.v ===== *)
(** * WebStateImpl: the life of a WebState

    What holds of a WebState after every sequence of calls: it is either a saved
    session or realized, its members are well formed, its observers know its state,
    and the session it was made of is not lost before an item is committed. *)

From stdpp Require Import base tactics option list numbers strings gmap.
From Stdlib Require Import ZArith Lia SpecFloat.
From S2P Require Import Prelude WebTypes WkNavigationUtil NavigationItem SessionStorage SessionBuilder.
From S2P Require Import NavigationManagerState NavigationManager NavigationManagerTheorems.
From S2P Require Import WebThread WebFramesManager CertPolicies WebStateImplState RealizedWebState WebStateImpl.
From S2P Require Import WebStateImplProofs.

Module WebStateImplTheorems.
Export WebStateImplProofs.

Section Life.
Context `{WebEnv} `{CertificateOps} `{PageTransitionOps} `{ItemEnv}.
Context `{!NavigationEnv} `{!NavigationManagerImpl.NativeRestore} `{!NSStringOps} `{!URLConstants}.
Context `{!NavigationContextImpl.ContextEnv} `{!WebStateClient} `{!X509Ops}.
Import WebStateImpl.
Abbreviation Manager := NavigationManagerState.t.
Abbreviation Session := (CRWSessionStorage.t (CertCache := CRWSessionCertificatePolicyCacheStorage.t)).

Section OfOneWebState.
Context (params : CreateParams) (session : option Session).

(** The identifier of the session, or a random one. *)
Definition identified (identifier : string) : Prop :=
  match session with
  | Some session => identifier = CRWSessionStorage.stableIdentifier session
  | None => exists n, identifier = UUIDString n
  end.

Definition new_watch : Watched := mkWatched (bool_decide (session = None)) false false ∅ false.

(** A realized WebState, with what was sent so far, and one that is still saved. *)
Record realized_life (sent : list Effect) (r : Realized) : Prop := {
  life_identifier : identified (stable_identifier_ r);
  life_browser_state : manager_browser_state r = browser_state params;
  life_open : controller_closed (web_controller_ r) = false;
  life_contained : contained r;
  life_certified : certified r;
  life_frames : frames_wf r;
  life_watched : watch new_watch sent = Some (seen r);
  life_session : session_of r = with_storage_user_data None <$> session \/ ItemCommitted false ∈ sent
}.
Record saved_life (sent : list Effect) (data : SerializedData) : Prop := {
  life_params : create_params_ data = params;
  life_saved : Some (with_storage_user_data None (session_storage_ data)) = with_storage_user_data None <$> session;
  life_silent : Forall silent sent
}.
Definition life (s : t) : Prop :=
  is_being_destroyed_ s = false /\
  match pimpl_ s, saved_ s with
  | Some r, None => realized_life (log s) r
  | None, Some data => saved_life (log s) data
  | _, _ => False
  end.

Lemma life_lives s s' r : pimpl_ s = Some r -> life s -> lives s s' -> life s' /\ is_Some (pimpl_ s').
Proof.
  intros Er [Hd Hl] (Ed & Es & Hm). rewrite Er in *. destruct (saved_ s) eqn:Ev; [done|].
  destruct (pimpl_ s') as [r'|] eqn:Er'; [|done]. split; [|by eexists]. split; [congruence|]. rewrite Er', Es.
  destruct Hl as [Li Lb Lo Lc Lt Lf Lw Ls]. destruct (Hm Lf) as (l & El & [Mi Mb Mo Mc Mt Mf Mw Ms]).
  rewrite El. split; try congruence; [by auto|by auto|exact Mf| |].
  - by rewrite watch_app, Lw.
  - rewrite elem_of_app. destruct Ms as [->|?]; tauto.
Qed.

End OfOneWebState.

(** ** Initialization *)

(** What [Init] leaves, besides the history. *)
Record initialized (params : CreateParams) (session : option Session) (l : list Effect) (r : Realized) : Prop := {
  init_identifier : identified session (stable_identifier_ r);
  init_browser_state : manager_browser_state r = browser_state params;
  init_open : controller_closed (web_controller_ r) = false;
  init_contained : contained r;
  init_certified : certified r;
  init_frames : frames_wf r;
  init_seen : seen r = mkWatched true false false ∅ false;
  init_silent : Forall silent l;
  init_session : session_of r = with_storage_user_data None <$> session \/ ItemCommitted false ∈ l
}.

Lemma update_realized_ok f s a s' r : pimpl_ s = Some r ->
  RealizedWebState.update_realized f s = Ok (a, s') -> s' = with_pimpl (Some (f r)) s.
Proof. intros Er [= _ <-]. by rewrite Er. Qed.

(** The members [Init] sets before it looks at the session. *)
Definition init_members (params : CreateParams) (time : Z) : Realized :=
  with_web_controller initWithWebState (with_manager_browser_state (browser_state params)
    (with_navigation_manager (NavigationManagerState.create None)
      (with_created_with_opener (created_with_opener params) (RealizedWebState.create time)))).

(** A method that is silent. *)
Lemma lives_quiet_ok {A} (m : M t A) s r a s' : keeps lives m -> keeps quiet m -> pimpl_ s = Some r -> frames_wf r ->
  m s = Ok (a, s') -> exists r' l, pimpl_ s' = Some r' /\ log s' = log s ++ l /\ method r r' l /\ Forall silent l /\
    seen r' = seen r /\ is_being_destroyed_ s' = is_being_destroyed_ s /\ saved_ s' = saved_ s.
Proof.
  intros Hl Hq Er Hw E. destruct (Hl _ _ _ E) as (Hd & Hs & Hm), (Hq _ _ _ E) as (l & El & Hsl).
  rewrite Er in Hm. destruct (pimpl_ s') as [r'|]; [|done]. destruct (Hm Hw) as (l' & El' & Hm').
  rewrite El in El'. apply app_inv_head in El' as <-. exists r', l. split_and!; try done.
  pose proof (method_seen _ _ _ Hm') as Hw'. rewrite watch_silent in Hw' by done. by apply (inj Some) in Hw'.
Qed.

Lemma update_run f s r : pimpl_ s = Some r ->
  RealizedWebState.update_realized f s = Ok (tt, with_pimpl (Some (f r)) s).
Proof. intros Er. unfold RealizedWebState.update_realized, mmodify. by rewrite Er. Qed.

Lemma Init_session_ok params time session_storage s u s' : pimpl_ s = Some (init_members params time) ->
  RealizedWebState.Init_session params session_storage s = Ok (u, s') -> exists r l, pimpl_ s' = Some r /\
    log s' = log s ++ l /\ initialized params (Some session_storage) l r /\
    is_being_destroyed_ s' = is_being_destroyed_ s /\ saved_ s' = saved_ s.
Proof.
  intros Er E. unfold RealizedWebState.Init_session in E. rewrite (mbind_run _ _ _ _ _ (update_run _ s _ Er)) in E.
  set (r1 := with_restored_session_storage _ _) in E. set (s1 := with_pimpl (Some r1) s) in E.
  apply mbind_ok in E as ([] & s2 & E2 & E).
  destruct (lives_quiet_ok _ s1 r1 tt s2 (lives_ExtractSessionState session_storage)
      (quiet_ExtractSessionState session_storage))
    as (r2 & l2 & Er2 & El2 & M2 & Q2 & S2 & D2 & V2); [done|apply WebFramesManagerImpl.no_frames_wf|exact E2|].
  apply mbind_ok in E as (r & s3 & [-> Er']%realized_ok & E). rewrite Er2 in Er'. injection Er' as <-.
  apply mbind_ok in E as ([] & s3 & [-> Hc%bool_decide_eq_true]%dcheck_ok & E).
  apply mbind_ok in E as ([] & s3 & E3 & E).
  destruct (lives_quiet_ok _ s2 r2 tt s3 (lives_UpdateCertificatePolicyCache (browser_state params))
      (quiet_UpdateCertificatePolicyCache (browser_state params)))
    as (r3 & l3 & Er3 & El3 & M3 & Q3 & S3 & D3 & V3); [done|apply M2|exact E3|].
  apply mbind_ok in E as ([] & s4 & [-> _]%dcheck_ok & E). rewrite (mbind_run _ _ _ _ _ (update_run _ s3 _ Er3)) in E.
  injection E as _ <-. pose proof (method_trans _ _ _ _ _ M2 M3) as M. exists (with_last_active_time (CRWSessionStorage.lastActiveTime session_storage)
    (with_stable_identifier (CRWSessionStorage.stableIdentifier session_storage) r3)), (l2 ++ l3).
  split_and!; [done|cbn; by rewrite El3, El2, app_assoc| |exact (eq_trans D3 D2)|exact (eq_trans V3 V2)].
  split.
  - reflexivity.
  - exact (method_browser_state _ _ _ M).
  - exact (method_closed _ _ _ M).
  - exact (method_contained _ _ _ M ltac:(done)).
  - exact (method_certified _ _ _ M3 Hc).
  - exact (method_frames _ _ _ M).
  - change (seen r3 = mkWatched true false false ∅ false). by rewrite S3, S2.
  - by apply Forall_app.
  - exact (method_session _ _ _ M).
Qed.

Lemma Init_members params time session s : pimpl_ s = Some (RealizedWebState.create time) ->
  RealizedWebState.Init params session s =
    (match session with
     | Some session_storage => RealizedWebState.Init_session params session_storage
     | None => RealizedWebState.Init_new
     end ;;;
     mwhen (negb (params_last_active_time params =? 0)%Z)
       (RealizedWebState.update_realized (with_last_active_time (params_last_active_time params))))
      (with_pimpl (Some (init_members params time)) s).
Proof. intros Er. destruct s. cbn in Er. by subst. Qed.

Lemma Init_ok params time session s u s' : pimpl_ s = Some (RealizedWebState.create time) ->
  RealizedWebState.Init params session s = Ok (u, s') -> exists r l, pimpl_ s' = Some r /\
    log s' = log s ++ l /\ initialized params session l r /\
    is_being_destroyed_ s' = is_being_destroyed_ s /\ saved_ s' = saved_ s.
Proof.
  intros Er E. rewrite (Init_members params time session s Er) in E.
  set (s1 := with_pimpl (Some (init_members params time)) s) in E.
  apply mbind_ok in E as ([] & s2 & E2 & E).
  assert (exists r l, pimpl_ s2 = Some r /\ log s2 = log s1 ++ l /\ initialized params session l r /\
    is_being_destroyed_ s2 = is_being_destroyed_ s1 /\ saved_ s2 = saved_ s1) as (r & l & Er2 & El2 & Hi & Hd & Hs).
  { destruct session as [session_storage|]; [by eapply Init_session_ok|]. injection E2 as <-.
    eexists _, []. split; [reflexivity|]. split_and!; [by rewrite app_nil_r| |done..].
    split; try done; [by eexists|by eexists|apply WebFramesManagerImpl.no_frames_wf|by left]. }
  unfold mwhen in E. destruct (negb _); [|injection E as _ <-; by exists r, l].
  eapply update_realized_ok in E; [|exact Er2]. rewrite E. eexists _, l. split; [reflexivity|]. split_and!; [done| |done..].
  by destruct Hi.
Qed.

Lemma lives_CheckForOverRealization : keeps lives RealizationCheck.CheckForOverRealization.
Proof. through @RealizationCheck.CheckForOverRealization. Qed.

(** The state is that of the globals. *)
Lemma CheckForOverRealization_ok s u s' : RealizationCheck.CheckForOverRealization s = Ok (u, s') ->
  exists o, s' = with_over_realization o s.
Proof.
  unfold RealizationCheck.CheckForOverRealization, mbind, mget, mmodify, mreturn, mfail.
  destruct (g_has_reported_once _); [intros [= _ <-]; exists (over_realization s); by destruct s|].
  destruct (SFltb _ _); [destruct (_ >=? _)%Z; [done|]|]; intros [= _ <-]; by eexists.
Qed.

(** The session as it is saved now. *)
Definition present_session (s : t) (data : SerializedData) : Session :=
  match user_data_manager s with
  | Some manager =>
      with_storage_user_data (Some (SerializableUserDataManagerImpl.GetUserDataForSession manager)) (session_storage_ data)
  | None => session_storage_ data
  end.
Lemma present_session_same s data :
  with_storage_user_data None (present_session s data) = with_storage_user_data None (session_storage_ data).
Proof. unfold present_session. by destruct (user_data_manager s). Qed.

Lemma serialized_run s data : saved_ s = Some data -> SerializedDataImpl.serialized s = Ok (data, s).
Proof. intros Es. unfold SerializedDataImpl.serialized, mbind, mget. by rewrite Es. Qed.

Lemma GetSessionStorage_run s data : saved_ s = Some data ->
  SerializedDataImpl.GetSessionStorage s =
    Ok (present_session s data, with_saved (Some (with_session_storage (present_session s data) data)) s).
Proof.
  intros Es. unfold SerializedDataImpl.GetSessionStorage. by rewrite (mbind_run _ _ _ _ _ (serialized_run s data Es)).
Qed.

(** The WebState with both members, before [Init]. *)
Definition realizing (s : t) : t := with_saved None (with_pimpl (Some (RealizedWebState.create (now s))) s).
Lemma ForceRealized_run s data : is_being_destroyed_ s = false -> pimpl_ s = None -> saved_ s = Some data ->
  ForceRealized s =
    (RealizedWebState.Init (create_params_ data) (Some (present_session s data)) ;;;
     RealizedWebState.SetFaviconStatus (favicon_status_ data) ;;;
     RealizedWebState.notify WebStateRealized ;;;
     RealizationCheck.CheckForOverRealization) (realizing s).
Proof.
  intros Ed Ep Es. unfold ForceRealized. rewrite (mbind_run _ _ s s s) by done.
  rewrite (mbind_run _ _ s tt s) by by rewrite Ed. rewrite Ep.
  rewrite (mbind_run _ _ s tt s) by by rewrite bool_decide_true by by rewrite Es.
  rewrite (mbind_run _ _ _ _ _ (GetSessionStorage_run s data Es)).
  set (s1 := with_saved _ s). by rewrite (mbind_run _ _ s1 (with_session_storage (present_session s data) data) s1).
Qed.

Lemma ForceRealized_life params session s u s' : life params session s -> ForceRealized s = Ok (u, s') ->
  life params session s' /\ is_Some (pimpl_ s').
Proof.
  intros [Hd Hl] E. destruct (pimpl_ s) as [r|] eqn:Ep.
  { unfold ForceRealized in E. apply mbind_ok in E as (s0 & s1 & [= <- <-] & E).
    apply mbind_ok in E as ([] & s1 & [-> _]%dcheck_ok & E). rewrite Ep in E. injection E as _ <-.
    split; [split; [done|by rewrite Ep]|by rewrite Ep]. }
  destruct (saved_ s) as [data|] eqn:Es; [|done]. destruct Hl as [<- Hs Hq].
  rewrite (ForceRealized_run s data Hd Ep Es) in E. apply mbind_ok in E as ([] & s1 & E1 & E).
  destruct (Init_ok _ _ _ (realizing s) _ _ eq_refl E1) as (r1 & l1 & Er1 & El1 & [Ii Ib Io Ic It If Ise Isi Iss] & Ed1 & Ev1).
  apply mbind_ok in E as ([] & s2 & E2 & E).
  destruct (lives_quiet_ok _ s1 r1 tt s2 (lives_SetFaviconStatus (favicon_status_ data)) (quiet_SetFaviconStatus _))
    as (r2 & l2 & Er2 & El2 & [Mi Mb Mo Mc Mt Mf _ Ms] & Q2 & S2 & D2 & V2); [done..|].
  apply mbind_ok in E as ([] & s3 & [= <-] & (o & ->)%CheckForOverRealization_ok). cbn. rewrite Er2. split; [|by eexists].
  split; [cbn; by rewrite D2, Ed1|]. cbn. rewrite Er2, V2, Ev1. cbn.
  rewrite El2, El1. change (log (realizing s)) with (log s).
  destruct session as [s0|]; [|done]. cbn in Hs. apply (inj Some) in Hs.
  split; try congruence; [|by auto|by auto|exact Mf| |].
  - rewrite Mi, Ii. change (CRWSessionStorage.stableIdentifier (with_storage_user_data None (present_session s data)) =
      CRWSessionStorage.stableIdentifier (with_storage_user_data None s0)). by rewrite present_session_same, Hs.
  - rewrite !watch_app, (watch_silent _ _ Hq), (watch_silent _ _ Isi), (watch_silent _ _ Q2). cbn. by rewrite S2, Ise.
  - rewrite !elem_of_app. destruct Ms as [->|]; [|tauto]. destruct Iss as [->|]; [|tauto]. left.
    cbn. by rewrite present_session_same, Hs.
Qed.

(** ** Which of the two is asked *)

Lemma forward_realized {A} (m saved : M t A) s r : pimpl_ s = Some r -> forward m saved s = m s.
Proof. intros Er. unfold forward, IsRealized, mbind, mget. by rewrite Er. Qed.
Lemma forward_saved {A} (m saved : M t A) s : pimpl_ s = None -> forward m saved s = saved s.
Proof. intros Er. unfold forward, IsRealized, mbind, mget. by rewrite Er. Qed.
Lemma either_realized {A} (f : Realized -> A) g s r : pimpl_ s = Some r -> either f g s = Ok (f r, s).
Proof. intros Er. unfold either. rewrite (forward_realized _ _ s r Er). by rewrite (mbind_run _ _ _ _ _ (realized_run s r Er)). Qed.
Lemma either_saved {A} (f : Realized -> A) g s data : pimpl_ s = None -> saved_ s = Some data -> either f g s = Ok (g data, s).
Proof.
  intros Ep Es. unfold either. rewrite forward_saved by done. by rewrite (mbind_run _ _ _ _ _ (serialized_run s data Es)).
Qed.

(** ** Every call *)

Section Calls.
Context (params : CreateParams) (session : option Session).
Abbreviation alive := (life params session).

(** After a call; what is realized remains so. *)
Definition next (s s' : t) : Prop := alive s' /\ (is_Some (pimpl_ s) -> is_Some (pimpl_ s')).

Lemma RealizedState_life s u s' : alive s -> RealizedState s = Ok (u, s') -> alive s' /\ is_Some (pimpl_ s').
Proof.
  intros Hl E. unfold RealizedState in E. apply mbind_ok in E as (s0 & s1 & [= <- <-] & E).
  apply mbind_ok in E as ([] & s1 & E1 & E). apply mbind_ok in E as (s2 & s3 & [= <- <-] & E).
  apply dcheck_ok in E as [-> Hr%bool_decide_eq_true]. split; [|done]. unfold mwhen in E1.
  destruct (negb _); [by eapply ForceRealized_life|by injection E1 as <-].
Qed.

Lemma lives_life {A} (m : M t A) s a s' : keeps lives m -> is_Some (pimpl_ s) -> alive s -> m s = Ok (a, s') -> next s s'.
Proof.
  intros Hm [r Er] Hl E. destruct (life_lives params session s s' r Er Hl (Hm _ _ _ E)) as [Hl' Hr']. by split.
Qed.

Lemma with_realized_life {A} (m : M t A) s a s' : keeps lives m -> alive s -> with_realized m s = Ok (a, s') -> next s s'.
Proof.
  intros Hm Hl ([] & s1 & [Hl1 Hr]%RealizedState_life & E)%mbind_ok; [|done].
  destruct (lives_life m s1 a s' Hm Hr Hl1 E) as [Hl' Hr']. split; auto.
Qed.

(** A method of the realized WebState, or one of the session, which is still saved. *)
Lemma forward_life {A} (m saved : M t A) s a s' : keeps lives m ->
  (forall data, pimpl_ s = None -> saved_ s = Some data -> saved s = Ok (a, s') -> alive s') -> alive s ->
  forward m saved s = Ok (a, s') -> next s s'.
Proof.
  intros Hm Hs Hl E. unfold forward in E. apply mbind_ok in E as (s0 & s1 & [= <- <-] & E). unfold IsRealized in E.
  destruct (pimpl_ s) as [r|] eqn:Er; [eapply lives_life; [exact Hm|by eexists|exact Hl|exact E]|].
  destruct Hl as [_ Hd]. rewrite Er in Hd. destruct (saved_ s) as [data|] eqn:Es; [|done].
  split; [by eapply Hs|]. rewrite Er. by intros [? ?].
Qed.

(** What does not concern the WebState, whether it is realized or not. *)
Lemma life_modify s s' : is_being_destroyed_ s' = is_being_destroyed_ s -> saved_ s' = saved_ s ->
  pimpl_ s' = pimpl_ s -> log s' = log s -> alive s -> next s s'.
Proof. intros Ed Es Ep El [Hd Hl]. split; [split; [congruence|]; by rewrite Ep, Es, El|by rewrite Ep]. Qed.

Lemma saved_life_data s data data' : pimpl_ s = None -> saved_ s = Some data -> create_params_ data' = create_params_ data ->
  with_storage_user_data None (session_storage_ data') = with_storage_user_data None (session_storage_ data) ->
  alive s -> alive (with_saved (Some data') s).
Proof.
  intros Ep Es Ec Ew [Hd Hl]. split; [done|]. cbn. rewrite Ep, Es in *. destruct Hl as [Hp Hs Hq].
  split; [congruence|by rewrite Ew|done].
Qed.

(** What the controller does: there is one. *)
Lemma needs_realized_life {A} (k : Realized -> M t A) s a s' : (forall r, keeps lives (k r)) -> alive s ->
  mbind RealizedWebState.realized k s = Ok (a, s') -> next s s'.
Proof.
  intros Hk Hl E. pose proof E as (r & s1 & [_ Er]%realized_ok & _)%mbind_ok.
  eapply lives_life; [|by eexists|exact Hl|exact E]. apply keeps_bind; [apply _|apply lives_realized|exact Hk].
Qed.

Lemma ignore_ok {A} (m : M t A) s u s' : ignore m s = Ok (u, s') -> exists a, m s = Ok (a, s').
Proof. intros (a & s1 & E & [= _ <-])%mbind_ok. by exists a. Qed.

Lemma exec_life call s s' : alive s -> exec call s = Ok (tt, s') -> next s s'.
Proof.
  intros Hl E. destruct call; cbn [exec] in E;
    try (eapply with_realized_life; [|exact Hl|exact E]; solve [auto with code]);
    try (eapply needs_realized_life; [|exact Hl|exact E]; intros r; cbv beta; solve [repeat code_step]).
  - destruct (ForceRealized_life params session s tt s' Hl E) as [Hl' Hr']. by split.
  - pose proof E as (s0 & s1 & [= <- <-] & ([] & s1 & [-> Hr%bool_decide_eq_true]%dcheck_ok & _)%mbind_ok)%mbind_ok.
    eapply lives_life; [|exact Hr|exact Hl|exact E]. auto with code.
  - unfold SetWebUsageEnabled in E. apply mbind_ok in E as (s0 & s1 & [= <- <-] & E). unfold mwhen in E.
    destruct (negb _); [|by injection E as <-]. eapply with_realized_life; [|exact Hl|exact E]. auto with code.
  - eapply forward_life; [| |exact Hl|exact E]; [auto with code|]. by intros data _ _ [= <-].
  - apply ignore_ok in E as [session' E]. eapply forward_life; [| |exact Hl|exact E]; [auto with code|].
    intros data Ep Es E'. rewrite (GetSessionStorage_run s data Es) in E'. injection E' as _ <-.
    eapply saved_life_data; [done..| |done]. apply present_session_same.
  - apply ignore_ok in E as [title E]. eapply forward_life; [| |exact Hl|exact E]; [auto with code|].
    intros data Ep Es E'. rewrite (mbind_run _ _ _ _ _ (serialized_run s data Es)) in E'. by injection E' as _ <-.
  - apply ignore_ok in E as [favicon E]. eapply forward_life; [| |exact Hl|exact E]; [auto with code|].
    intros data Ep Es E'. rewrite (mbind_run _ _ _ _ _ (serialized_run s data Es)) in E'. by injection E' as _ <-.
  - eapply forward_life; [| |exact Hl|exact E]; [auto with code|].
    intros data Ep Es E'. unfold SerializedDataImpl.SetFaviconStatus in E'.
    rewrite (mbind_run _ _ _ _ _ (serialized_run s data Es)) in E'. injection E' as <-. by eapply saved_life_data.
  - eapply with_realized_life; [|exact Hl|exact E]. repeat first [code_step | done].
  - unfold CloseMediaPresentations in E. apply mbind_ok in E as (s0 & s1 & [= <- <-] & E). unfold mwhen, IsRealized in E.
    destruct (bool_decide_reflect (is_Some (pimpl_ s))) as [Hr|]; [|by injection E as <-].
    eapply lives_life; [|exact Hr|exact Hl|exact E]. auto with code.
  - apply ignore_ok in E as [b E]. eapply with_realized_life; [|exact Hl|exact E]. auto with code.
  - unfold AddScriptCommandCallback in E. apply mbind_ok in E as ([] & s1 & [-> _]%dcheck_ok & E).
    apply mbind_ok in E as ([] & s1 & [-> _]%dcheck_ok & E). apply mbind_ok in E as (s0 & s1 & [= <- <-] & E).
    apply mbind_ok in E as ([] & s1 & [-> _]%dcheck_ok & [= <-]). by apply life_modify.
  - injection E as <-. by apply life_modify.
  - unfold AddPolicyDecider in E. apply mbind_ok in E as (s0 & s1 & [= <- <-] & E).
    apply mbind_ok in E as ([] & s1 & [-> _]%dcheck_ok & [= <-]). by apply life_modify.
  - injection E as <-. by apply life_modify.
  - unfold set_user_data in E. rewrite (mbind_run _ _ _ _ _ (user_data_run s)) in E. injection E as <-. by apply life_modify.
  - injection E as <-. by apply life_modify.
Qed.

Lemma create_life s n now media uuid o :
  create params session (unborn n now media uuid o) = Ok (tt, s) -> alive s.
Proof.
  intros E. destruct session as [session_storage|] eqn:Es; cbn [create] in E.
  - apply mbind_ok in E as (data & s1 & E1 & [= <-]). apply mbind_ok in E1 as ([] & s2 & E2 & [= <- <-]).
    assert (exists m, s2 = with_user_data_manager m (unborn n now media uuid o)) as [m ->].
    { unfold mwhen in E2. case_bool_decide; [|injection E2 as <-; by exists None].
      unfold RealizedWebState.SetUserDataFromSession in E2. rewrite (mbind_run _ _ _ _ _ (user_data_run _)) in E2.
      injection E2 as <-. by eexists. }
    by split.
  - apply mbind_ok in E as ([] & s1 & [= <-] & E).
    destruct (Init_ok params _ None (with_pimpl (Some (RealizedWebState.create now)) (unborn n now media uuid o)) tt s eq_refl E)
      as (r & l & Er & El & [Ii Ib Io Ic It If Ise Isi Iss] & Ed & Ev).
    split; [exact Ed|]. rewrite Er, Ev, El. cbn. split; try done. rewrite watch_silent by done. by rewrite Ise.
Qed.

Lemma reachable_life s : reachable params session s -> alive s.
Proof.
  induction 1 as [n now media uuid o s E|call s s' _ IH E|o s _ IH].
  - by eapply create_life.
  - by eapply exec_life.
  - by apply (life_modify s (with_over_realization o s)).
Qed.

(** ** The end *)

(** A method while the WebState is destroyed. *)
Lemma lives_watched s s' r w : pimpl_ s = Some r -> frames_wf r -> watch w (log s) = Some (seen r) -> lives s s' ->
  exists r', pimpl_ s' = Some r' /\ frames_wf r' /\ watch w (log s') = Some (seen r').
Proof.
  intros Er Hw Hs (_ & _ & Hm). rewrite Er in Hm. destruct (pimpl_ s') as [r'|]; [|done].
  destruct (Hm Hw) as (l & El & M). exists r'. split_and!; [done|exact (method_frames _ _ _ M)|].
  rewrite El, watch_app, Hs. exact (method_seen _ _ _ M).
Qed.

Lemma quiet_watched s s' w w' : quiet s s' -> watch w (log s) = Some w' -> watch w (log s') = Some w'.
Proof. intros (l & El & Hl) Hw. by rewrite El, watch_app, Hw, watch_silent. Qed.

Lemma close_watched s s' r w : pimpl_ s = Some r -> frames_wf r -> watch w (log s) = Some (seen r) ->
  RealizedWebState.close s = Ok (tt, s') -> exists r', pimpl_ s' = Some r' /\ frames_wf r' /\ watch w (log s') = Some (seen r').
Proof.
  intros Er Hw Hs ([] & s1 & E1%lives_ClearDialogs & E)%mbind_ok.
  destruct (lives_watched _ _ _ _ Er Hw Hs E1) as (r1 & Er1 & Hw1 & Hs1).
  apply mbind_ok in E as (r0 & s2 & [-> Er0]%realized_ok & E). rewrite Er1 in Er0. injection Er0 as <-.
  apply mbind_ok in E as ([] & s2 & [-> _]%dcheck_ok & E). apply mbind_ok in E as ([] & s2 & E2 & E).
  eapply update_realized_ok in E2; [|exact Er1]. subst s2. apply mbind_ok in E as ([] & s3 & E3%lives_removeWebView & E).
  eapply lives_watched in E3 as (r3 & Er3 & Hw3 & Hs3); [|reflexivity|exact Hw1|exact Hs1].
  apply mbind_ok in E as ([] & s4 & E4 & E).
  assert (lives s3 s4) as L4 by (revert E4; apply (lives_update_controller (with_content_alive false)); intros c; by split_and!).
  destruct (lives_watched _ _ _ _ Er3 Hw3 Hs3 L4) as (r4 & Er4 & Hw4 & Hs4).
  apply mbind_ok in E as (r0 & s5 & [-> _]%realized_ok & [-> _]%dcheck_ok). by exists r4.
Qed.

(** The observers are told of the end, and of nothing after it. *)
Lemma destroy_watched s s' : alive s -> destroy s = Ok (tt, s') ->
  exists w, watch (new_watch session) (log s') = Some w /\ watched_destroyed w = true.
Proof.
  intros [Hd Hl] ([] & s1 & [= <-] & E)%mbind_ok. set (s1 := with_is_being_destroyed true s) in E.
  apply mbind_ok in E as (s0 & s2 & [= <- <-] & E). change (pimpl_ s1) with (pimpl_ s) in E.
  destruct (pimpl_ s) as [r|] eqn:Er.
  - destruct (saved_ s); [done|]. destruct Hl as [_ _ _ _ _ Lf Lw _]. unfold RealizedWebState.TearDown in E.
    apply mbind_ok in E as ([] & s2 & E2 & E). destruct (close_watched s1 s2 r _ Er Lf Lw E2) as (r2 & Er2 & Hw2 & Hs2).
    apply mbind_ok in E as ([] & s3 & E3%lives_ClearWebUI & E).
    destruct (lives_watched _ _ _ _ Er2 Hw2 Hs2 E3) as (r3 & Er3 & Hw3 & Hs3).
    apply mbind_ok in E as ([] & s4 & [= <-] & E). set (s4 := with_log _ _) in E.
    assert (exists w, watch (new_watch session) (log s4) = Some w /\ watched_destroyed w = true) as (w & Hs4 & Hw4).
    { eexists. split; [subst s4; cbn; rewrite watch_app, Hs3; reflexivity|done]. }
    exists w. split; [|done]. clearbody s4. apply mbind_ok in E as (s5 & s6 & [= <- <-] & E).
    apply mbind_ok in E as ([] & s6 & E6 & E). apply mbind_ok in E as ([] & s7 & E7 & E).
    eapply quiet_watched; [by eapply quiet_SetDelegate|]. eapply quiet_watched; [eapply (quiet_effects DeciderResetWebState); [done|eassumption]|].
    eapply quiet_watched; [eapply (quiet_effects DeciderWebStateDestroyed); [done|eassumption]|done].
  - destruct (saved_ s) as [data|]; [|done]. destruct Hl as [_ _ Lq]. apply mbind_ok in E as ([] & s2 & [-> _]%dcheck_ok & E).
    apply mbind_ok in E as ([] & s4 & [= <-] & E). set (s4 := with_log _ _) in E.
    assert (exists w, watch (new_watch session) (log s4) = Some w /\ watched_destroyed w = true) as (w & Hs4 & Hw4).
    { eexists. split; [subst s4 s1; cbn; rewrite watch_app, watch_silent by done; reflexivity|done]. }
    exists w. split; [|done]. clearbody s4. apply mbind_ok in E as (s5 & s6 & [= <- <-] & E).
    apply mbind_ok in E as ([] & s6 & E6 & E).
    eapply quiet_watched; [eapply (quiet_effects DeciderResetWebState); [done|eassumption]|]. eapply quiet_watched; [eapply (quiet_effects DeciderWebStateDestroyed); [done|eassumption]|done].
Qed.

End Calls.
(** C14: a WebState is well formed after every sequence of calls that return. It is
    either a saved session or realized, never both nor neither, and does not go back;
    a realized one has a certificate cache, frames that are registered under their
    identifiers, at most one main frame, and no content outside of the container; its
    identifier and its browser state are always those it was made with. *)
Theorem reachable_well_formed params session s :
  reachable params session s ->
  is_being_destroyed_ s = false /\
  match pimpl_ s, saved_ s with
  | Some r, None =>
      is_Some (certificate_policy_cache_ r) /\ WebFramesManagerImpl.wf (web_frames_manager_ r) /\
      (content_alive (web_controller_ r) = true -> container_view (web_controller_ r) = true)
  | None, Some data => create_params_ data = params /\ is_Some session
  | _, _ => False
  end /\
  GetBrowserState s = Ok (browser_state params, s) /\
  (forall identifier s', GetStableIdentifier s = Ok (identifier, s') -> identified session identifier /\ s' = s) /\
  (forall call s', exec call s = Ok (tt, s') -> IsRealized s = true -> IsRealized s' = true).
Proof.
  intros Hl%reachable_life. split; [apply Hl|].
  assert (forall call s', exec call s = Ok (tt, s') -> IsRealized s = true -> IsRealized s' = true) as Hn.
  { intros call s' E Hr%bool_decide_eq_true. apply bool_decide_eq_true. by eapply exec_life. }
  destruct Hl as [_ Hl]. unfold GetBrowserState, GetStableIdentifier.
  destruct (pimpl_ s) as [r|] eqn:Er, (saved_ s) as [data|] eqn:Es; try done.
  - destruct Hl as [Li Lb Lo Lc Lt Lf Lw Ls]. rewrite (either_realized _ _ s r Er), (forward_realized _ _ s r Er), <- Lb.
    split_and!; [done..| |done]. intros id s' E. rewrite (mbind_run _ _ _ _ _ (realized_run s r Er)) in E.
    by injection E as <- <-.
  - destruct Hl as [Lp Ls Lq]. rewrite (either_saved _ _ s data Er Es), forward_saved, Lp by done.
    split_and!; [done|by destruct session|done| |done]. intros id s' E. unfold SerializedDataImpl.GetStableIdentifier in E.
    rewrite (mbind_run _ _ _ _ _ (serialized_run s data Es)) in E.
    apply mbind_ok in E as ([] & s1 & [-> _]%dcheck_ok & [= <- <-]). split; [|done].
    destruct session as [s0|]; [|done]. apply (inj Some) in Ls. exact (f_equal CRWSessionStorage.stableIdentifier Ls).
Qed.

(** C3: the observers of a WebState always know its state. After every sequence of calls
    what an observer concludes from the calls it received is whether the WebState is
    realized, visible and loading, and its frames: shown and hidden, started and stopped
    alternate, a frame that becomes unavailable had become available, and nothing but
    its realization or its end is sent before it is realized. When it is destroyed the
    observers are told, and nothing is sent after that. *)
Theorem observers_protocol params session s :
  reachable params session s ->
  watch (new_watch session) (log s) =
    Some (mkWatched (IsRealized s) (IsVisible s) (IsLoading s)
            (realized_or (fun r => WebFramesManagerImpl.web_frames_ (web_frames_manager_ r)) ∅ s) false) /\
  (forall s', destroy s = Ok (tt, s') ->
     exists w, watch (new_watch session) (log s') = Some w /\ watched_destroyed w = true).
Proof.
  intros Hl%reachable_life. split; [|intros s'; by eapply destroy_watched]. destruct Hl as [_ Hl].
  unfold IsRealized, IsVisible, IsLoading, realized_or.
  destruct (pimpl_ s) as [r|], (saved_ s) as [data|]; try done; [exact (life_watched _ _ _ _ Hl)|].
  destruct Hl as [_ Hs Hq]. rewrite watch_silent by done. unfold new_watch. by destruct session.
Qed.

(** C6: a saved session is not lost before a page is committed. As long as no item other
    than one of a restoration was committed, saving the WebState succeeds and gives the
    session it was made of, whatever was called, with the user data it has now. *)
Theorem session_survives params session s :
  reachable params (Some session) s -> ItemCommitted false ∉ log s ->
  exists storage s', BuildSessionStorage s = Ok (storage, s') /\
    with_storage_user_data None storage = with_storage_user_data None session /\
    (forall manager, user_data_manager s = Some manager ->
       CRWSessionStorage.userData storage = Some (SerializableUserDataManagerImpl.GetUserDataForSession manager)).
Proof.
  intros [_ Hl]%reachable_life Hc. unfold BuildSessionStorage, forward, IsRealized. rewrite (mbind_run _ _ s s s) by done.
  destruct (pimpl_ s) as [r|] eqn:Er, (saved_ s) as [data|] eqn:Es; try done.
  - destruct Hl as [_ _ _ _ _ _ _ [Ls|?]]; [|done]. unfold session_of in Ls.
    destruct (restored_session_storage_ r) as [restored|] eqn:Ers; [|done]. cbn in Ls. apply (inj Some) in Ls.
    destruct (BuildSessionStorage_restored s r restored Er Ers) as (s' & E & _).
    exists (with_user_data s restored), s'. split; [exact E|]. split; [exact Ls|].
    intros manager Em. unfold with_user_data. by rewrite Em.
  - destruct Hl as [_ Ls _]. cbn in Ls. apply (inj Some) in Ls. cbn.
    rewrite (GetSessionStorage_run s data Es). eexists _, _. split; [done|].
    rewrite present_session_same. split; [done|]. intros manager Em. unfold present_session. by rewrite Em.
Qed.

End Life.
End WebStateImplTheorems.

(** ** Examples *)

Module ExampleWebState.
Export ExampleManager ExampleSession.
Export WebStateImplState.

#[export] Instance client : WebStateClient := {|
  FaviconURL := string;
  GetDefaultUserAgent _ := UserAgent.MOBILE;
  CreateWebUIIOS u := if gurl_SchemeIs u "chrome" then Some (gurl_host u) else None;
  has_dialog_presenter _ := true;
  UUIDString n := String (Ascii.ascii_of_nat (Z.to_nat (48 + n))) EmptyString
|}.

(** There is one certificate. *)
#[export] Instance one_certificate : X509Ops := {|
  SHA256HashValue := unit;
  CalculateChainFingerprint256 _ := tt;
  without_intermediates _ := true;
  leaf_of := Some;
  cert_buffer _ := EmptyString;
  CreateFromBytes _ := Some tt;
  IsCertStatusError s := negb (s =? 0)%Z;
  SecTrust := unit;
  CFError := Z;
  trust_leaf _ := Some (Some tt);
  GetCertFailureStatusFromError e := default 0%Z e;
  NSHost := string;
  SysUTF8ToNSString := Some;
  SysNSStringToUTF8 := default EmptyString
|}.

Definition params : CreateParams := mkParams 1 false 0.
Definition storage_of (url : GURL) (title : u16string) : CRWNavigationItemStorage.t :=
  CRWNavigationItemStorage.mk url url Referrer.create 12 title PageDisplayState.create true UserAgent.MOBILE None.
Definition session : CRWSessionStorage.t (CertCache := CRWSessionCertificatePolicyCacheStorage.t) :=
  CRWSessionStorage.mk false 1 [storage_of url_a [65]%Z; storage_of url_b [66]%Z] None
    (Some {["OpenerIndex" := NSNumberValue 2]}) UserAgent.DESKTOP "id" 99.

Definition program : t :=
  WebStateImpl.unborn 0 1000 (S754_finite false 4503599627370496 (-45)) 0 (mkOverRealization 0 (S754_zero false) false).
Definition after (m : M t unit) (s : t) : t := match m s with Ok (_, s') => s' | Fault _ => s end.
Definition returns (m : M t unit) (s : t) : bool := match m s with Ok _ => true | Fault _ => false end.
Lemma after_ok m s : returns m s = true -> m s = Ok (tt, after m s).
Proof. unfold returns, after. by destruct (m s) as [[[] s']|]. Qed.

(** A saved tab that is shown, starts to load, and gets two frames. *)
Definition saved_tab : t := after (WebStateImpl.create params (Some session)) program.
Definition main_frame : WebFramesManagerImpl.WebFrame := WebFramesManagerImpl.mkFrame 1 "main" true.
Definition some_calls : list (WebStateImpl.Call) :=
  [WebStateImpl.UserDataCall {["OpenerIndex" := NSNumberValue 3]}; WebStateImpl.AddPolicyDeciderCall 7;
   WebStateImpl.WasShownCall; WebStateImpl.SetIsLoadingCall true; WebStateImpl.WasShownCall;
   WebStateImpl.WebFrameBecameAvailableCall main_frame; WebStateImpl.SetIsLoadingCall false;
   WebStateImpl.GetViewCall; WebStateImpl.OpenURLCall url_a].
Definition used_tab : t := after (mfor some_calls WebStateImpl.exec) saved_tab.

Lemma reachable_calls calls : forall s s', WebStateImpl.reachable params (Some session) s ->
  mfor calls WebStateImpl.exec s = Ok (tt, s') -> WebStateImpl.reachable params (Some session) s'.
Proof.
  induction calls as [|call calls IH]; intros s s' Hs E; [by injection E as <-|].
  apply mbind_ok in E as ([] & s1 & E1 & E). apply (IH s1); [|exact E]. by eapply WebStateImpl.reachable_call.
Qed.

Lemma used_tab_reachable : WebStateImpl.reachable params (Some session) used_tab.
Proof.
  apply (reachable_calls some_calls saved_tab).
  - eapply WebStateImpl.reachable_create. apply after_ok. vm_compute. reflexivity.
  - apply after_ok. vm_compute. reflexivity.
Qed.

Lemma reachable_well_formed_witness :
  WebStateImpl.IsRealized used_tab = true /\ WebStateImpl.GetBrowserState used_tab = Ok (browser_state params, used_tab).
Proof.
  destruct (WebStateImplTheorems.reachable_well_formed params (Some session) used_tab used_tab_reachable)
    as (_ & _ & E & _).
  split; [vm_compute; reflexivity|exact E].
Defined.

Lemma observers_protocol_witness :
  WebStateImplProofs.watch (WebStateImplTheorems.new_watch (Some session)) (log used_tab) =
    Some (WebStateImplProofs.mkWatched true true false {["main" := main_frame]} false).
Proof.
  rewrite (proj1 (WebStateImplTheorems.observers_protocol params (Some session) used_tab used_tab_reachable)).
  vm_compute. reflexivity.
Defined.

Definition commits (e : Effect) : bool := match e with ItemCommitted false => true | _ => false end.
Lemma no_commit (l : list Effect) : existsb commits l = false -> ItemCommitted false ∉ l.
Proof.
  intros E Hc. induction l as [|e l IH]; [by apply elem_of_nil in Hc|]. cbn in E. apply orb_false_iff in E as [Ee E].
  apply elem_of_cons in Hc as [<-|Hc]; [done|]. by apply IH.
Qed.

Lemma session_survives_witness : exists storage s',
  WebStateImpl.BuildSessionStorage used_tab = Ok (storage, s') /\
  CRWSessionStorage.itemStorages storage = CRWSessionStorage.itemStorages session /\
  CRWSessionStorage.userData storage = Some {["OpenerIndex" := NSNumberValue 3]}.
Proof.
  destruct (WebStateImplTheorems.session_survives params session used_tab used_tab_reachable)
    as (storage & s' & E & Hs & Hu).
  { apply no_commit. vm_compute. reflexivity. }
  exists storage, s'. split; [exact E|]. split; [exact (f_equal CRWSessionStorage.itemStorages Hs)|].
  rewrite (Hu (SerializableUserDataManagerImpl.mk {["OpenerIndex" := NSNumberValue 3]})) by (vm_compute; reflexivity).
  vm_compute. reflexivity.
Defined.

End ExampleWebState.
