(* ===== verification/WebStateImplRestore.v ===== *)
(** * WebStateImpl: realization

    A saved session that can be restored is realized without failure, and the realized
    WebState answers as the saved one did. *)

From stdpp Require Import base tactics option list numbers strings gmap.
From Stdlib Require Import ZArith Lia SpecFloat.
From S2P Require Import Prelude WebTypes WkNavigationUtil NavigationItem SessionStorage SessionBuilder.
From S2P Require Import NavigationManagerState NavigationManager NavigationManagerRestore.
From S2P Require Import WebThread WebFramesManager CertPolicies WebStateImplState RealizedWebState WebStateImpl.
From S2P Require Import WebStateImplProofs WebStateImplTheorems.

Module WebStateImplRestore.
Export WebStateImplState.
Import NavigationManagerRestore WebStateImplProofs WebStateImplTheorems.

Section Realization.
Context `{G : GURLOps} {WE : WebEnv} `{CertificateOps} `{PageTransitionOps} `{ItemEnv}.
Context {NE : NavigationEnv} `{!NavigationManagerImpl.NativeRestore} `{!NSStringOps} `{!URLConstants}.
Context `{!NavigationContextImpl.ContextEnv} `{!WebStateClient} `{!X509Ops}.
Context `{!GURLLaws G} `{!RestoreLaws}.
Import RealizedWebState.
Abbreviation Manager := NavigationManagerState.t.
Abbreviation Session := (CRWSessionStorage.t (CertCache := CRWSessionCertificatePolicyCacheStorage.t)).
Abbreviation Storage := CRWNavigationItemStorage.t.

(** ** The items of a session *)

(** The URL that is loaded for a saved item. *)
Definition saved_url (storage : Storage) : GURL :=
  if gurl_SchemeIsHTTPOrHTTPS (CRWNavigationItemStorage.URL storage) then CRWNavigationItemStorage.URL storage
  else CRWNavigationItemStorage.virtualURL storage.

Record built_from (storage : Storage) (item : NavigationItemImpl.t) : Prop := {
  built_title : NavigationItemImpl.title_ item = CRWNavigationItemStorage.title storage;
  built_url : NavigationItemImpl.GetURL item = saved_url storage;
  built_virtual : NavigationItemImpl.GetVirtualURL item = CRWNavigationItemStorage.virtualURL storage
}.

Lemma virtualURL_empty (storage : Storage) : gurl_is_empty (CRWNavigationItemStorage.virtualURL storage) = true ->
  gurl_is_empty (CRWNavigationItemStorage.URL storage) = true.
Proof.
  unfold CRWNavigationItemStorage.virtualURL. case_match; [done|congruence].
Qed.

Lemma BuildNavigationItemImpl_run (storage : Storage) counter : counter <> INT_MAX ->
  exists item, NavigationItemStorageBuilder.BuildNavigationItemImpl storage counter = Ok (item, (counter + 1)%Z) /\
    built_from storage item.
Proof.
  intros Hc. unfold NavigationItemStorageBuilder.BuildNavigationItemImpl, GetUniqueIDInConstructor, next_id, mbind, mget, mmodify.
  rewrite (proj2 (Z.eqb_neq _ _) Hc). cbn beta iota. eexists. split; [reflexivity|].
  split; unfold saved_url; destruct (gurl_SchemeIsHTTPOrHTTPS (CRWNavigationItemStorage.URL storage)) eqn:Eh; try done.
  - unfold NavigationItemImpl.GetVirtualURL. cbn. case_bool_decide as Ev; [rewrite gurl_null_empty; by symmetry|].
    destruct (gurl_is_empty (CRWNavigationItemStorage.virtualURL storage)) eqn:Ee; [|done].
    destruct Ev. by rewrite (gurl_empty_null _ Ee), (gurl_empty_null _ (virtualURL_empty _ Ee)).
  - unfold NavigationItemImpl.GetVirtualURL. cbn. by rewrite gurl_null_empty.
Qed.

(** The items that are made are new, and different from each other. *)
Lemma build_items_run (storages : list Storage) : forall s : Manager,
  (NavigationManagerState.item_counter s + Z.of_nat (length storages) <= INT_MAX)%Z ->
  exists refs h, mmap storages build_item s = Ok (Some <$> refs,
      NavigationManagerState.with_item_counter (NavigationManagerState.item_counter s + Z.of_nat (length storages))
        (NavigationManagerState.with_heap h s)) /\
    NoDup refs /\ (forall r, r ∈ refs -> NavigationManagerState.heap s !! r = None) /\
    (forall r item, NavigationManagerState.heap s !! r = Some item -> h !! r = Some item) /\
    Forall2 (fun storage r => exists item, h !! r = Some (rewritten item) /\ built_from storage item) storages refs.
Proof.
  induction storages as [|storage storages IH]; intros s Hc.
  { exists [], (NavigationManagerState.heap s). split_and!; [|constructor|by intros r ?%elem_of_nil|done|constructor].
    cbn. unfold mreturn. do 2 f_equal. destruct s. cbn. by rewrite Z.add_0_r. }
  cbn [length] in Hc. destruct (BuildNavigationItemImpl_run storage (NavigationManagerState.item_counter s)) as (item & E & Hb); [lia|].
  set (r := new_ref s).
  set (s1 := NavigationManagerState.with_heap (<[r := rewritten item]> (NavigationManagerState.heap s))
    (NavigationManagerState.with_item_counter (NavigationManagerState.item_counter s + 1) s)).
  assert (build_item storage s = Ok (Some r, s1)) as E1.
  { unfold build_item. rewrite (mbind_run _ _ s s s) by done. rewrite E.
    set (s0 := NavigationManagerState.with_item_counter (NavigationManagerState.item_counter s + 1) s).
    rewrite (mbind_run _ _ s tt s0) by done.
    rewrite (mbind_run _ _ _ _ _ (make_item_run item s0)). change (new_ref s0) with r.
    rewrite (mbind_run _ _ _ _ _ (RewriteItem_run r item _ (lookup_insert_eq _ _ _))). cbn. by rewrite insert_insert_eq. }
  destruct (IH s1) as (refs & h & E2 & Hnd & Hnew & Hold & Hf); [cbn; lia|]. cbn [mmap].
  exists (r :: refs), h. split_and!.
  - rewrite (mbind_run _ _ _ _ _ E1), (mbind_run _ _ _ _ _ E2).
    assert (NavigationManagerState.item_counter s1 + Z.of_nat (length storages) =
      NavigationManagerState.item_counter s + Z.of_nat (length (storage :: storages)))%Z as -> by (cbn [length]; cbn; lia).
    done.
  - constructor; [|done]. intros Hr%Hnew. cbn in Hr. by rewrite lookup_insert_eq in Hr.
  - intros r' [->|Hr']%elem_of_cons; [apply new_ref_new|]. apply Hnew in Hr'. cbn in Hr'.
    by apply lookup_insert_None in Hr' as [? _].
  - intros r' i Hi. apply Hold. cbn. rewrite lookup_insert_ne; [done|]. intros <-.
    pose proof (new_ref_new s). unfold r in Hi. congruence.
  - constructor; [|done]. exists item. split; [|done]. apply Hold. cbn. by rewrite lookup_insert_eq.
Qed.

(** The manager of a WebState that was realized. *)
Definition committed (session : Session) : option Storage :=
  zlookup (CRWSessionStorage.itemStorages session) (CRWSessionStorage.lastCommittedItemIndex session).
Record settled (session : Session) (nm : Manager) : Prop := {
  settled_bare : bare nm;
  settled_item :
    match committed session with
    | Some storage =>
        NavigationManagerState.is_restore_session_in_progress_ nm = true /\
        exists r item, NavigationManagerState.restored_visible_item_ nm = Some r /\
          NavigationManagerState.heap nm !! r = Some (rewritten (rewritten item)) /\ built_from storage item
    | None =>
        NavigationManagerState.is_restore_session_in_progress_ nm = false /\
        NavigationManagerState.restored_visible_item_ nm = None /\
        NavigationManagerState.pending_item_ nm = None /\ NavigationManagerState.context_pending_item nm = None
    end
}.

Definition can_restore (session : Session) : Prop :=
  restorable (CRWSessionStorage.lastCommittedItemIndex session)
    (Z.of_nat (length (CRWSessionStorage.itemStorages session))).

Lemma Forall2_zlookup {A B} (P : A -> B -> Prop) l k z a :
  Forall2 P l k -> zlookup l z = Some a -> exists b, zlookup k z = Some b /\ P a b.
Proof.
  intros Hf [Hz Hl]%zlookup_Some. destruct (Forall2_lookup_l _ _ _ _ _ Hf Hl) as (b & Hb & Hp).
  exists b. split; [|done]. apply zlookup_Some. by split.
Qed.

Lemma restore_items_run (session : Session) (nm : Manager) : new_manager nm -> can_restore session ->
  (NavigationManagerState.item_counter nm + Z.of_nat (length (CRWSessionStorage.itemStorages session)) < INT_MAX)%Z ->
  exists nm', restore_items session nm = Ok (tt, nm') /\ settled session nm' /\
    NavigationManagerState.delegate_calls nm' =
      match CRWSessionStorage.itemStorages session with [] => [] | _ => kDelegateCalls end.
Proof.
  intros Hn Hr Hc. unfold restore_items.
  destruct (build_items_run (CRWSessionStorage.itemStorages session) nm) as (refs & h & E & Hnd & _ & _ & Hf); [lia|].
  rewrite (mbind_run _ _ _ _ _ E). set (nm1 := NavigationManagerState.with_item_counter _ _).
  assert (new_manager nm1) as Hn1 by (destruct Hn as [[]]; by split).
  assert (forall r, r ∈ refs -> is_Some (NavigationManagerState.heap nm1 !! r)) as Hs.
  { intros r (i & Hi)%list_elem_of_lookup. destruct (Forall2_lookup_r _ _ _ _ _ Hf Hi) as (st & _ & item & Hh & _). by eexists. }
  pose proof (Forall2_length _ _ _ Hf) as Hlen.
  destruct (Restore_run (CRWSessionStorage.lastCommittedItemIndex session) refs nm1) as (nm' & E' & Hx); [done..| | |].
  { unfold can_restore in Hr. by rewrite Hlen in Hr. }
  { cbn. lia. }
  exists nm'. split; [exact E'|]. unfold can_restore, restorable in Hr. destruct (decide (refs = [])) as [->|Hne].
  - subst nm'. destruct (CRWSessionStorage.itemStorages session) eqn:Ei; [|done]. split; [|apply Hn1]. split; [apply Hn1|].
    unfold committed. rewrite Ei, zlookup_neg by (cbn in Hr; lia). by destruct Hn1.
  - destruct Hx as (p & h' & Hl & Hh). destruct (CRWSessionStorage.itemStorages session) eqn:Ei; [by destruct refs|].
    split; [|by rewrite (restoring_calls _ _ _ _ (loading_restoring _ _ _ _ _ Hl))]. rewrite <- Ei in *.
    split; [apply (loading_restoring _ _ _ _ _ Hl)|]. unfold committed.
    destruct (proj2 (zlookup_lt_is_Some (CRWSessionStorage.itemStorages session) (CRWSessionStorage.lastCommittedItemIndex session)))
      as [st Est]; [rewrite Ei in *; cbn [length] in *; lia|]. rewrite Est.
    destruct (Forall2_zlookup _ _ _ _ _ Hf Est) as (r & Er & item & Hi & Hb).
    destruct (loading_restoring _ _ _ _ _ Hl) as [_ Hp Hv _ Hheap]. split; [done|]. exists r, item.
    rewrite zlookup_fmap, Er in Hv. split; [done|]. split; [|done]. apply Hheap.
    rewrite Hh by (by eapply zlookup_elem). cbn. by rewrite Hi.
Qed.

(** ** Calls to the manager *)

(** A call after which the delegate is not called. *)
Lemma on_manager_run {A} (m : M Manager A) s r a nm : pimpl_ s = Some r -> m (manager_at r s) = Ok (a, nm) ->
  NavigationManagerState.delegate_calls nm = [] ->
  on_manager m s = Ok (a, with_unique_id_counter (NavigationManagerState.item_counter nm)
                            (with_pimpl (Some (with_navigation_manager nm r)) s)).
Proof.
  intros Er Em Ec. unfold on_manager. rewrite (mbind_run _ _ _ _ _ (realized_run s r Er)), (mbind_run _ _ s s s) by done.
  rewrite Em. rewrite (mbind_run _ _ _ _ _ (update_run _ s r Er)), Ec. done.
Qed.
(** The calls of a restoration: no view, nobody to ask. *)
Lemma on_manager_restoring {A} (m : M Manager A) s r a nm : pimpl_ s = Some r -> m (manager_at r s) = Ok (a, nm) ->
  NavigationManagerState.delegate_calls nm = kDelegateCalls -> delegate_ r = None -> container_view (web_controller_ r) = false ->
  on_manager m s = Ok (a, with_log (log s ++ [RecordStateInHistory])
    (with_unique_id_counter (NavigationManagerState.item_counter nm) (with_pimpl (Some (with_navigation_manager nm r)) s))).
Proof.
  intros Er Em Ec Ed Ev. unfold on_manager. rewrite (mbind_run _ _ _ _ _ (realized_run s r Er)), (mbind_run _ _ s s s) by done.
  rewrite Em. rewrite (mbind_run _ _ _ _ _ (update_run _ s r Er)), Ec.
  set (r' := with_navigation_manager nm r). set (s1 := with_unique_id_counter _ _). rewrite (mbind_run _ _ _ tt s1) by done.
  unfold kDelegateCalls. cbn [mfor handle_delegate_call]. rewrite (mbind_run _ _ s1 tt (with_log (log s1 ++ [RecordStateInHistory]) s1)); [done|].
  rewrite (mbind_run _ _ s1 tt s1).
  2: { unfold ClearDialogs. rewrite (mbind_run _ _ _ _ _ (realized_run s1 r' eq_refl)). cbn. by rewrite Ed. }
  set (s2 := with_log _ s1). rewrite (mbind_run _ _ s1 tt s2) by done. rewrite (mbind_run _ _ s2 tt s2); [done|].
  unfold loadCurrentURL. rewrite (mbind_run _ _ _ _ _ (realized_run s2 r' eq_refl)). cbn. by rewrite Ev.
Qed.

(** ** Init *)

Definition restored_user_data (session : Session) (s : t) : SerializableUserDataManagerImpl.t :=
  SerializableUserDataManagerImpl.SetUserDataFromSession (CRWSessionStorage.userData session)
    (default SerializableUserDataManagerImpl.create (user_data_manager s)).

Lemma ExtractSessionState_run session s r : pimpl_ s = Some r -> can_restore session ->
  (unique_id_counter s + Z.of_nat (length (CRWSessionStorage.itemStorages session)) < INT_MAX)%Z ->
  navigation_manager_ r = NavigationManagerState.create None -> delegate_ r = None ->
  container_view (web_controller_ r) = false -> certificate_policy_cache_ r = None ->
  exists nm n l, settled session nm /\ ExtractSessionState session s = Ok (tt,
    with_user_data_manager (Some (restored_user_data session s)) (with_log (log s ++ l) (with_unique_id_counter n (with_pimpl (Some
      (with_user_agent_type (CRWSessionStorage.userAgentType session)
        (with_certificate_policy_cache (Some (SessionCertificatePolicyCacheImpl.BuildSessionCertificatePolicyCache
            (CRWSessionStorage.certPolicyCacheStorage session)))
          (with_navigation_manager nm (with_created_with_opener (CRWSessionStorage.hasOpener session) r))))) s)))).
Proof.
  intros Er Hr Hc En Ed Ev Ecp. unfold ExtractSessionState, SetHasOpener.
  rewrite (mbind_run _ _ _ _ _ (update_run _ s r Er)). set (r1 := with_created_with_opener _ r). set (s1 := with_pimpl (Some r1) s).
  destruct (restore_items_run session (manager_at r1 s1)) as (nm & E & Hs & Hcalls).
  { unfold manager_at. change (navigation_manager_ r1) with (navigation_manager_ r). rewrite En. by split; [split|..]. }
  { done. }
  { exact Hc. }
  assert (exists l, on_manager (restore_items session) s1 = Ok (tt, with_log (log s1 ++ l)
      (with_unique_id_counter (NavigationManagerState.item_counter nm) (with_pimpl (Some (with_navigation_manager nm r1)) s1)))) as [l El].
  { destruct (CRWSessionStorage.itemStorages session).
    - exists []. rewrite (on_manager_run _ s1 r1 tt nm eq_refl E Hcalls), app_nil_r. done.
    - exists [RecordStateInHistory]. by rewrite (on_manager_restoring _ s1 r1 tt nm eq_refl E Hcalls). }
  rewrite (mbind_run _ _ _ _ _ El). set (r2 := with_navigation_manager nm r1). set (s2 := with_log _ _).
  exists nm, (NavigationManagerState.item_counter nm), l. split; [done|].
  set (cache := SessionCertificatePolicyCacheImpl.BuildSessionCertificatePolicyCache _).
  set (r3 := with_certificate_policy_cache (Some cache) r2). rewrite (mbind_run _ _ s2 tt (with_pimpl (Some r3) s2)).
  2: { unfold SetSessionCertificatePolicyCache. rewrite (mbind_run _ _ _ _ _ (realized_run s2 r2 eq_refl)).
       rewrite (mbind_run _ _ s2 tt s2); [done|]. unfold dcheck. cbn. by rewrite Ecp. }
  set (s3 := with_pimpl (Some r3) s2). rewrite (mbind_run _ _ s3 tt (with_user_data_manager (Some (restored_user_data session s)) s3)).
  - done.
  - unfold SetUserDataFromSession. by rewrite (mbind_run _ _ _ _ _ (user_data_run s3)).
Qed.

(** A WebState that was just realized. *)
Record just_realized (params : CreateParams) (session : Session) (r : Realized) : Prop := {
  just_controller : web_controller_ r = initWithWebState;
  just_loading : is_loading_ r = false;
  just_delegate : delegate_ r = None;
  just_web_ui : web_ui_ r = None;
  just_mime_type : mime_type_ r = EmptyString;
  just_dialog : running_javascript_dialog_ r = false;
  just_browser_state : manager_browser_state r = browser_state params;
  just_identifier : stable_identifier_ r = CRWSessionStorage.stableIdentifier session;
  just_time : last_active_time_ r =
    if (params_last_active_time params =? 0)%Z then CRWSessionStorage.lastActiveTime session else params_last_active_time params;
  just_session : restored_session_storage_ r = Some session;
  just_opener : created_with_opener_ r = CRWSessionStorage.hasOpener session;
  just_user_agent : user_agent_type_ r = CRWSessionStorage.userAgentType session;
  just_settled : settled session (navigation_manager_ r)
}.

Lemma effects_run {A} (f : A -> Effect) l : forall s, mfor l (fun x => effect (f x)) s = Ok (tt, with_log (log s ++ (f <$> l)) s).
Proof.
  induction l as [|x l IH]; intros s; [cbn; rewrite app_nil_r; by destruct s|]. cbn [mfor].
  rewrite (mbind_run _ _ s tt (with_log (log s ++ [f x]) s)) by done. rewrite IH. cbn. by rewrite <- app_assoc.
Qed.

Lemma UpdateCertificatePolicyCache_run b s r cache : pimpl_ s = Some r -> certificate_policy_cache_ r = Some cache ->
  exists cache' l, UpdateCertificatePolicyCache b s =
    Ok (tt, with_log (log s ++ l) (with_pimpl (Some (with_certificate_policy_cache (Some cache') r)) s)).
Proof.
  intros Er Ec. unfold UpdateCertificatePolicyCache. rewrite (mbind_run _ _ _ _ _ (realized_run s r Er)), Ec.
  rewrite (mbind_run _ _ s cache s) by done.
  destruct (SessionCertificatePolicyCacheImpl.UpdateCertificatePolicyCache WebThread.UI cache) as [[[] cache']|] eqn:E; [|done].
  rewrite (mbind_run _ _ _ _ _ (update_run _ s r Er)), effects_run. by eexists _, _.
Qed.

(** Nothing else of the state is touched. *)
Definition same_globals (s s' : t) : Prop :=
  is_being_destroyed_ s' = is_being_destroyed_ s /\ saved_ s' = saved_ s /\
  over_realization s' = over_realization s /\ media_time s' = media_time s.

Lemma Init_run params time session s : pimpl_ s = Some (RealizedWebState.create time) -> can_restore session ->
  (unique_id_counter s + Z.of_nat (length (CRWSessionStorage.itemStorages session)) < INT_MAX)%Z ->
  CRWSessionStorage.stableIdentifier session <> EmptyString ->
  exists r s', Init params (Some session) s = Ok (tt, s') /\ pimpl_ s' = Some r /\ just_realized params session r /\
    user_data_manager s' = Some (restored_user_data session s) /\ same_globals s s'.
Proof.
  intros Er Hr Hc Hid. rewrite (Init_members params time (Some session) s Er). set (s1 := with_pimpl _ s).
  unfold Init_session. rewrite !mbind_assoc.
  rewrite (mbind_run _ _ _ _ _ (update_run _ s1 (init_members params time) eq_refl)). set (r1 := with_restored_session_storage _ _).
  set (s2 := with_pimpl (Some r1) s1). rewrite mbind_assoc.
  destruct (ExtractSessionState_run session s2 r1 eq_refl Hr Hc) as (nm & n & l & Hs & E); [done..|].
  rewrite (mbind_run _ _ _ _ _ E). clear E. set (r2 := with_user_agent_type _ _). set (s3 := with_user_data_manager _ _).
  rewrite mbind_assoc, (mbind_run _ _ _ _ _ (realized_run s3 r2 eq_refl)).
  rewrite mbind_assoc, (mbind_run _ _ s3 tt s3) by done.
  destruct (UpdateCertificatePolicyCache_run (browser_state params) s3 r2 _ eq_refl eq_refl) as (cache & l' & E).
  rewrite mbind_assoc, (mbind_run _ _ _ _ _ E). clear E. set (r3 := with_certificate_policy_cache (Some cache) r2). set (s4 := with_log _ _).
  rewrite mbind_assoc, (mbind_run _ _ s4 tt s4) by (unfold dcheck; by rewrite bool_decide_false).
  rewrite mbind_assoc, (mbind_run _ _ _ _ _ (update_run _ s4 r3 eq_refl)). set (r4 := with_stable_identifier _ r3).
  rewrite (mbind_run _ _ _ _ _ (update_run _ (with_pimpl (Some r4) s4) r4 eq_refl)).
  set (r5 := with_last_active_time _ r4). set (s5 := with_pimpl (Some r5) _).
  destruct (params_last_active_time params =? 0)%Z eqn:Et; cbn [negb mwhen].
  - exists r5, s5. split; [done|]. split; [done|]. split; [split; try done; by rewrite Et|by split].
  - eexists _, _. split; [exact (update_run _ s5 r5 eq_refl)|]. split; [done|]. split; [split; try done; by rewrite Et|by split].
Qed.

(** ** What a WebState that was just realized answers *)

(** The item is shown with the URL it was saved with: its URL is not rewritten, or once,
    and then it is the one that was shown. *)
Definition shown_as_saved (storage : Storage) : Prop :=
  let '(rewritten, url) := BrowserURLRewriter.RewriteURLIfNecessary (saved_url storage) in
  rewritten = true ->
  saved_url storage = CRWNavigationItemStorage.virtualURL storage /\ gurl_is_empty (saved_url storage) = false /\
  fst (BrowserURLRewriter.RewriteURLIfNecessary url) = false.

Lemma rewritten_virtual storage item : built_from storage item -> shown_as_saved storage ->
  NavigationItemImpl.GetVirtualURL (rewritten (rewritten item)) = CRWNavigationItemStorage.virtualURL storage.
Proof.
  intros [_ Hu Hv] Hs. unfold rewritten at 2. rewrite Hu. unfold shown_as_saved in Hs.
  destruct (BrowserURLRewriter.RewriteURLIfNecessary (saved_url storage)) as [[] url] eqn:E.
  - destruct (Hs eq_refl) as (Es & He & Ef). unfold rewritten.
    change (NavigationItemImpl.GetURL _) with url. destruct (BrowserURLRewriter.RewriteURLIfNecessary url) as [[] ?]; [done|].
    rewrite <- Es. unfold NavigationItemImpl.GetVirtualURL. cbn. case_bool_decide as Ec; [by rewrite gurl_null_empty|].
    by rewrite He.
  - unfold rewritten. rewrite Hu, E. exact Hv.
Qed.
Lemma rewritten_title item : NavigationItemImpl.title_ (rewritten item) = NavigationItemImpl.title_ item.
Proof. unfold rewritten. by destruct (BrowserURLRewriter.RewriteURLIfNecessary _) as [[] ?]. Qed.

Lemma settled_at session r s : settled session (navigation_manager_ r) -> settled session (manager_at r s).
Proof. intros [[] Hi]. split; [by split|exact Hi]. Qed.

Lemma settled_GetLastCommittedItem session nm : settled session nm ->
  NavigationManagerImpl.GetLastCommittedItem nm = Ok (None, nm).
Proof. intros [Hb _]. by apply GetLastCommittedItem_bare. Qed.

Lemma settled_GetVisibleItem session nm : settled session nm ->
  match committed session with
  | Some storage => exists r item, NavigationManagerImpl.GetVisibleItem nm = Ok (Some r, nm) /\
      NavigationManagerState.heap nm !! r = Some (rewritten (rewritten item)) /\ built_from storage item
  | None => NavigationManagerImpl.GetVisibleItem nm = Ok (None, nm)
  end.
Proof.
  intros [Hb Hi]. unfold NavigationManagerImpl.GetVisibleItem. rewrite (mbind_run _ _ nm nm nm) by done.
  destruct (committed session) as [storage|].
  - destruct Hi as (Hp & r & item & Hv & Hh & Hf). exists r, item. by rewrite Hp, Hv.
  - destruct Hi as (Hp & Hv & Hpe & Hx). rewrite Hp, Hv. cbn [orb]. rewrite bool_decide_false by by intros [].
    assert (NavigationManagerImpl.GetPendingItemInCurrentOrRestoredSession nm = Ok (None, nm)) as E.
    { unfold NavigationManagerImpl.GetPendingItemInCurrentOrRestoredSession, mbind, mget. by rewrite (bare_index _ Hb), Hpe, Hx. }
    rewrite (mbind_run _ _ _ _ _ E), mreturn_bind. rewrite (mbind_run _ _ _ _ _ (GetLastCommittedItem_bare nm Hb)).
    by rewrite (mbind_run _ _ _ _ _ (LastCommitted_bare _ nm Hb)).
Qed.

(** An answer of the manager. *)
Lemma settled_answer {A} (m : M Manager A) s r session a : pimpl_ s = Some r -> settled session (navigation_manager_ r) ->
  (forall nm, settled session nm -> exists nm', m nm = Ok (a, nm') /\
     NavigationManagerState.delegate_calls nm' = NavigationManagerState.delegate_calls nm) ->
  result_of (on_manager m s) = Some a.
Proof.
  intros Er Hs Hm. destruct (Hm (manager_at r s) (settled_at session r s Hs)) as (nm & E & Ec).
  by rewrite (on_manager_run m s r a nm Er E Ec).
Qed.

Lemma settled_last_committed {A} (default : A) property session nm : settled session nm ->
  item_property default property NavigationManagerImpl.GetLastCommittedItem nm = Ok (default, nm).
Proof. intros Hs. unfold item_property. by rewrite (mbind_run _ _ _ _ _ (settled_GetLastCommittedItem session nm Hs)). Qed.

Lemma settled_visible_url session nm : settled session nm ->
  (forall storage, committed session = Some storage -> shown_as_saved storage) ->
  item_property GURL_null NavigationItemImpl.GetVirtualURL NavigationManagerImpl.GetVisibleItem nm =
    Ok (from_option CRWNavigationItemStorage.virtualURL GURL_null (committed session), nm).
Proof.
  intros Hs Hsh. pose proof (settled_GetVisibleItem session nm Hs) as Hv. unfold item_property.
  destruct (committed session) as [storage|]; [|by rewrite (mbind_run _ _ _ _ _ Hv)].
  destruct Hv as (r & item & E & Hh & Hf). rewrite (mbind_run _ _ _ _ _ E), (mbind_run _ _ _ _ _ (item_of_run r _ nm Hh)).
  cbn [from_option]. by rewrite (rewritten_virtual storage item Hf (Hsh storage eq_refl)).
Qed.

Lemma settled_title session nm : settled session nm ->
  (forall storage, committed session = Some storage -> CRWNavigationItemStorage.title storage <> []) ->
  exists nm', manager_title nm = Ok (from_option CRWNavigationItemStorage.title [] (committed session), nm') /\
    NavigationManagerState.delegate_calls nm' = NavigationManagerState.delegate_calls nm.
Proof.
  intros Hs Ht. pose proof (settled_GetVisibleItem session nm Hs) as Hv. unfold manager_title.
  rewrite (mbind_run _ _ _ _ _ (settled_GetLastCommittedItem session nm Hs)).
  destruct (committed session) as [storage|]; [|exists nm; by rewrite (mbind_run _ _ _ _ _ Hv)].
  destruct Hv as (r & item & E & Hh & Hf). rewrite (mbind_run _ _ _ _ _ E), (mbind_run _ _ _ _ _ (item_of_run r _ nm Hh)).
  assert (NavigationItemImpl.title_ (rewritten (rewritten item)) = CRWNavigationItemStorage.title storage) as Et
    by (rewrite !rewritten_title; apply Hf).
  specialize (Ht storage eq_refl). unfold NavigationItemImpl.GetTitleForDisplay. rewrite Et. cbn [from_option].
  destruct (CRWNavigationItemStorage.title storage); [done|].
  rewrite (mbind_run _ _ _ _ _ (update_item_run r _ _ nm Hh)). by eexists.
Qed.

(** ** Realization *)

(** Not too many WebStates were realized in the last second. *)
Definition may_realize (s : t) : bool :=
  let o := over_realization s in
  g_has_reported_once o ||
  negb (SFltb (SFsub 53 1024 (media_time s) (g_last_creation_time o)) RealizationCheck.kWindowSizeInSeconds) ||
  negb (size_t (g_last_realized_count o + 1) >=? RealizationCheck.kMaxEvents)%Z.

Lemma CheckForOverRealization_run s : may_realize s = true ->
  exists o, RealizationCheck.CheckForOverRealization s = Ok (tt, with_over_realization o s).
Proof.
  unfold may_realize, RealizationCheck.CheckForOverRealization, mbind, mget, mmodify.
  destruct (g_has_reported_once _); [exists (over_realization s); by destruct s|].
  destruct (SFltb _ _); [destruct (_ >=? _)%Z; [done|]|]; by eexists.
Qed.

(** A saved WebState whose session can be restored: its index is that of an item, its
    identifier is not empty, and the identifiers of items do not run out. *)
Record restorable_state (s : t) (data : SerializedData) : Prop := {
  restorable_alive : is_being_destroyed_ s = false;
  restorable_saved : pimpl_ s = None /\ saved_ s = Some data;
  restorable_index : can_restore (session_storage_ data);
  restorable_identifier : CRWSessionStorage.stableIdentifier (session_storage_ data) <> EmptyString;
  restorable_counter :
    (unique_id_counter s + Z.of_nat (length (CRWSessionStorage.itemStorages (session_storage_ data))) < INT_MAX)%Z;
  restorable_rate : may_realize s = true
}.

Lemma present_session_eq s data : exists user_data,
  present_session s data = with_storage_user_data user_data (session_storage_ data).
Proof.
  unfold present_session. destruct (user_data_manager s); [by eexists|].
  exists (CRWSessionStorage.userData (session_storage_ data)). by destruct (session_storage_ data).
Qed.

Lemma ForceRealized_just s data : restorable_state s data ->
  exists r s', WebStateImpl.ForceRealized s = Ok (tt, s') /\ pimpl_ s' = Some r /\
    just_realized (create_params_ data) (present_session s data) r /\
    user_data_manager s' = Some (restored_user_data (present_session s data) s).
Proof.
  intros [Hd [Hp Hs] Hr Hid Hc Hm]. rewrite (ForceRealized_run s data Hd Hp Hs).
  destruct (present_session_eq s data) as [user_data Eps].
  destruct (Init_run (create_params_ data) (now s) (present_session s data) (realizing s)) as (r & s1 & E & Er & Hj & Hu & Hg);
    [done|by rewrite Eps|by rewrite Eps|by rewrite Eps|].
  rewrite (mbind_run _ _ _ _ _ E). clear E.
  pose proof (settled_at _ r s1 (just_settled _ _ _ Hj)) as Hset.
  set (r2 := with_navigation_manager (manager_at r s1) r).
  set (s2 := with_unique_id_counter (NavigationManagerState.item_counter (manager_at r s1)) (with_pimpl (Some r2) s1)).
  rewrite (mbind_run _ _ s1 tt s2).
  2: { apply (on_manager_run _ s1 r tt (manager_at r s1) Er); [|done]. unfold manager_SetFaviconStatus.
       by rewrite (mbind_run _ _ _ _ _ (settled_GetLastCommittedItem _ _ Hset)). }
  set (s3 := with_log (log s2 ++ [Notify WebStateRealized]) s2). rewrite (mbind_run _ _ s2 tt s3) by done.
  destruct (CheckForOverRealization_run s3) as [o Eo].
  { destruct Hg as (_ & _ & Ho & Ht). unfold may_realize in *. change (over_realization s3) with (over_realization s1).
    change (media_time s3) with (media_time s1). by rewrite Ho, Ht. }
  exists r2, (with_over_realization o s3). split; [exact Eo|]. split; [done|]. split; [|exact Hu].
  destruct Hj; by split.
Qed.

(** The answers that are members. *)
Definition flags (s : t) :=
  (WebStateImpl.IsLoading s, WebStateImpl.IsVisible s, WebStateImpl.IsCrashed s, WebStateImpl.IsEvicted s,
   WebStateImpl.IsWebUsageEnabled s, WebStateImpl.HasWebUI s, WebStateImpl.IsJavaScriptDialogRunning s,
   WebStateImpl.GetContentsMimeType s, WebStateImpl.GetDelegate s, WebStateImpl.GetLoadingProgress s).

Lemma flags_just params session s r : pimpl_ s = Some r -> just_realized params session r ->
  flags s = (false, false, false, true, true, false, false, EmptyString, None, S754_zero false).
Proof.
  intros Er [Ec El Ed Ew Em Edi _ _ _ _ _ _ [_ _]]. unfold flags, WebStateImpl.IsLoading, WebStateImpl.IsVisible,
    WebStateImpl.IsCrashed, WebStateImpl.IsEvicted, WebStateImpl.IsWebUsageEnabled, WebStateImpl.HasWebUI,
    WebStateImpl.IsJavaScriptDialogRunning, WebStateImpl.GetContentsMimeType, WebStateImpl.GetDelegate,
    WebStateImpl.GetLoadingProgress, WebStateImpl.realized_or.
  rewrite Er. cbn. unfold IsVisible, IsEvicted, IsWebUsageEnabled, HasWebUI, GetLoadingProgress.
  rewrite Ec, El, Ed, Ew, Em, Edi. cbn. by destruct (NavigationManagerState.is_restore_session_in_progress_ _).
Qed.

(** The session with its user data, which is empty rather than absent. *)
Definition with_some_user_data (session : Session) : Session :=
  with_storage_user_data (Some (default CRWSessionUserData.init (CRWSessionStorage.userData session))) session.

Lemma GetLastCommittedItem_committed data :
  SerializedDataImpl.GetLastCommittedItem data = committed (session_storage_ data).
Proof.
  unfold SerializedDataImpl.GetLastCommittedItem, committed. destruct (Z.ltb_spec (CRWSessionStorage.lastCommittedItemIndex (session_storage_ data)) 0).
  - by rewrite zlookup_neg.
  - destruct (Z.leb_spec (Z.of_nat (length (CRWSessionStorage.itemStorages (session_storage_ data))))
      (CRWSessionStorage.lastCommittedItemIndex (session_storage_ data))); [|done].
    rewrite zlookup_nonneg, lookup_ge_None_2 by lia. done.
Qed.
Lemma committed_present s data : committed (present_session s data) = SerializedDataImpl.GetLastCommittedItem data.
Proof. rewrite GetLastCommittedItem_committed. by destruct (present_session_eq s data) as [user_data ->]. Qed.

(** The session that is saved. *)
Lemma just_BuildSessionStorage s data s' r : saved_ s = Some data -> pimpl_ s = None -> pimpl_ s' = Some r ->
  just_realized (create_params_ data) (present_session s data) r ->
  user_data_manager s' = Some (restored_user_data (present_session s data) s) ->
  result_of (WebStateImpl.BuildSessionStorage s') = with_some_user_data <$> result_of (WebStateImpl.BuildSessionStorage s).
Proof.
  intros Es Ep Er Hj Hu. unfold WebStateImpl.BuildSessionStorage.
  rewrite (forward_realized _ _ s' r Er), forward_saved, (GetSessionStorage_run s data Es) by done.
  destruct (BuildSessionStorage_restored s' r _ Er (just_session _ _ _ Hj)) as (s2 & -> & _). cbn. f_equal.
  unfold with_user_data, with_some_user_data. rewrite Hu. cbn. unfold restored_user_data, present_session.
  destruct (user_data_manager s) as [[d]|]; [done|]. cbn. by destruct (CRWSessionStorage.userData (session_storage_ data)).
Qed.

(** C4: using a WebState hardly changes what it says of itself. A saved WebState that
    is not being destroyed, whose saved session can be restored and has an
    identifier, is realized without failure, as long as the counter of the items
    does not overflow and WebStates are not realized faster than the check of
    [ForceRealized] allows. It then answers what it answered before: its identifier,
    its last active time and browser state, the session that is saved (which has
    user data afterwards, empty if it had none), that it is not loading, not
    visible, evicted, without delegate or dialog. The visible URL is the same when
    that of the last committed item is not rewritten ([shown_as_saved]), and the
    title is the same when that item has a title. What does change while the
    session is being restored is the number of items, the last committed URL and
    the favicon, which are then those of an empty WebState. *)
Theorem ForceRealized_transparent s data :
  restorable_state s data ->
  exists s', WebStateImpl.ForceRealized s = Ok (tt, s') /\ WebStateImpl.IsRealized s' = true /\ flags s' = flags s /\
    result_of (WebStateImpl.GetStableIdentifier s') = result_of (WebStateImpl.GetStableIdentifier s) /\
    result_of (WebStateImpl.GetLastActiveTime s') = result_of (WebStateImpl.GetLastActiveTime s) /\
    result_of (WebStateImpl.GetBrowserState s') = result_of (WebStateImpl.GetBrowserState s) /\
    result_of (WebStateImpl.BuildSessionStorage s') =
      with_some_user_data <$> result_of (WebStateImpl.BuildSessionStorage s) /\
    ((forall item, SerializedDataImpl.GetLastCommittedItem data = Some item -> shown_as_saved item) ->
     result_of (WebStateImpl.GetVisibleURL s') = result_of (WebStateImpl.GetVisibleURL s)) /\
    ((forall item, SerializedDataImpl.GetLastCommittedItem data = Some item -> CRWNavigationItemStorage.title item <> []) ->
     result_of (WebStateImpl.GetTitle s') = result_of (WebStateImpl.GetTitle s)) /\
    result_of (WebStateImpl.GetNavigationItemCount s') = Some 0%Z /\
    result_of (WebStateImpl.GetLastCommittedURL s') = Some GURL_null /\
    result_of (WebStateImpl.GetFaviconStatus s') = Some (FaviconStatus.create empty_image).
Proof.
  intros Hr. destruct (ForceRealized_just s data Hr) as (r & s' & E & Er & Hj & Hu). exists s'.
  pose proof (just_settled _ _ _ Hj) as Hset. destruct Hr as [_ [Ep Es] _ Hid _ _].
  assert (flags s' = flags s) as Hflags.
  { rewrite (flags_just _ _ s' r Er Hj). unfold flags, WebStateImpl.IsLoading, WebStateImpl.IsVisible, WebStateImpl.IsCrashed,
      WebStateImpl.IsEvicted, WebStateImpl.IsWebUsageEnabled, WebStateImpl.HasWebUI, WebStateImpl.IsJavaScriptDialogRunning,
      WebStateImpl.GetContentsMimeType, WebStateImpl.GetDelegate, WebStateImpl.GetLoadingProgress, WebStateImpl.realized_or.
    by rewrite Ep. }
  split; [exact E|]. split; [unfold WebStateImpl.IsRealized; by rewrite Er|]. split; [exact Hflags|].
  unfold WebStateImpl.GetStableIdentifier, WebStateImpl.GetLastActiveTime, WebStateImpl.GetBrowserState,
    WebStateImpl.GetVisibleURL, WebStateImpl.GetTitle, WebStateImpl.GetNavigationItemCount, WebStateImpl.GetLastCommittedURL,
    WebStateImpl.GetFaviconStatus.
  rewrite !(either_realized _ _ s' r Er), !(either_saved _ _ s data Ep Es), !(forward_realized _ _ s' r Er), !forward_saved by done.
  rewrite (mbind_run _ _ _ _ _ (realized_run s' r Er)), !(mbind_run _ _ _ _ _ (serialized_run s data Es)).
  split_and!.
  - unfold SerializedDataImpl.GetStableIdentifier. rewrite (mbind_run _ _ _ _ _ (serialized_run s data Es)).
    rewrite (mbind_run _ _ s tt s) by (unfold dcheck; by rewrite bool_decide_false). cbn. rewrite (just_identifier _ _ _ Hj).
    by destruct (present_session_eq s data) as [? ->].
  - cbn. rewrite (just_time _ _ _ Hj). unfold SerializedDataImpl.GetLastActiveTime.
    destruct (present_session_eq s data) as [? ->]. by destruct (_ =? 0)%Z.
  - cbn. by rewrite (just_browser_state _ _ _ Hj).
  - by apply (just_BuildSessionStorage s data s' r).
  - intros Hsh. unfold RealizedWebState.GetVisibleURL. rewrite (settled_answer _ s' r _ (from_option CRWNavigationItemStorage.virtualURL GURL_null
      (SerializedDataImpl.GetLastCommittedItem data)) Er Hset).
    + cbn. unfold SerializedDataImpl.GetVisibleURL, SerializedDataImpl.GetLastCommittedURL.
      by destruct (SerializedDataImpl.GetLastCommittedItem data).
    + intros nm Hnm. exists nm. rewrite <- (committed_present s data) in *. by rewrite (settled_visible_url _ nm Hnm Hsh).
  - intros Ht. unfold RealizedWebState.GetTitle. rewrite (settled_answer _ s' r _ (from_option CRWNavigationItemStorage.title []
      (SerializedDataImpl.GetLastCommittedItem data)) Er Hset).
    + cbn. unfold SerializedDataImpl.GetTitle. by destruct (SerializedDataImpl.GetLastCommittedItem data).
    + intros nm Hnm. rewrite <- (committed_present s data) in *. exact (settled_title _ nm Hnm Ht).
  - cbn. by rewrite (bare_count _ (settled_bare _ _ Hset)).
  - apply (settled_answer _ s' r _ _ Er Hset). intros nm Hnm. exists nm. by rewrite (settled_last_committed _ _ _ nm Hnm).
  - apply (settled_answer _ s' r _ _ Er Hset). intros nm Hnm. exists nm. by rewrite (settled_last_committed _ _ _ nm Hnm).
Qed.

End Realization.
End WebStateImplRestore.

(** ** Example *)

Module ExampleRealization.
Import ExampleWebState.
#[local] Existing Instance ExampleGURL.laws.

#[export] Instance restore_laws : RestoreLaws.
Proof.
  split; [|done..]. intros [|a ref]; [reflexivity|]. apply andb_true_intro. split; [reflexivity|].
  apply bool_decide_eq_true. reflexivity.
Qed.

Definition saved_data : SerializedData := mkSerialized params session (FaviconStatus.create empty_image).

Lemma saved_tab_is : pimpl_ saved_tab = None /\ saved_ saved_tab = Some saved_data.
Proof. split; vm_compute; reflexivity. Qed.
Lemma saved_tab_restorable : WebStateImplRestore.restorable_state saved_tab saved_data.
Proof.
  split; [reflexivity|exact saved_tab_is| |vm_compute; discriminate|vm_compute; reflexivity..].
  unfold WebStateImplRestore.can_restore, NavigationManagerRestore.restorable. cbn. lia.
Qed.

(** The tab that was saved is used; its second page has the title B. *)
Lemma ForceRealized_transparent_witness : exists s',
  WebStateImpl.ForceRealized saved_tab = Ok (tt, s') /\ WebStateImpl.IsRealized s' = true /\
  result_of (WebStateImpl.GetVisibleURL s') = Some url_b /\ result_of (WebStateImpl.GetTitle s') = Some [66]%Z.
Proof.
  destruct (WebStateImplRestore.ForceRealized_transparent saved_tab saved_data)
    as (s' & E & Hr & _ & _ & _ & _ & _ & Hu & Ht & _).
  { exact saved_tab_restorable. }
  exists s'. split; [exact E|]. split; [exact Hr|].
  pose proof (eq_refl : SerializedDataImpl.GetLastCommittedItem saved_data = Some (storage_of url_b [66]%Z)) as Es.
  rewrite Hu, Ht.
  - split; vm_compute; reflexivity.
  - intros item Hi. rewrite Es in Hi. by apply (inj Some) in Hi as <-.
  - intros item Hi. rewrite Es in Hi. apply (inj Some) in Hi as <-. vm_compute. discriminate.
Defined.

End ExampleRealization.
