(* ===== verification/OverlayState.v ===== *)
(** * Overlays: the state

    The overlay requests of the tabs of a window, for one modality
    (src/chrome/browser/overlays, src/chrome/browser/ui/overlays): the requests
    and their callbacks (overlay_request_impl, overlay_callback_manager_impl), a
    queue of requests for each WebState (overlay_request_queue_impl), the
    presenter, which shows the front request of the active WebState
    (overlay_presenter_impl), and the presentation context, which runs the UI
    (overlay_presentation_context_impl, overlay_request_ui_state).

    Requests, queues and WebStates are objects with an identity: a pointer is a
    [positive], and following one to a destroyed object is the fault
    [UseAfterFree]. A raw pointer is compared without being followed. *)

From stdpp Require Import base tactics option list numbers gmap.
From Stdlib Require Import ZArith.
From S2P Require Import Prelude.
From S2P Require Import WebStateListModel.

Module Overlays.

Definition RequestId : Type := positive.
Definition WebState : Type := positive.
Definition ResponseId : Type := positive.

(** [enum class OverlayDismissalReason] *)
Inductive OverlayDismissalReason : Type := kUserInteraction | kHiding | kCancellation.
#[global] Instance OverlayDismissalReason_eq_dec : EqDecision OverlayDismissalReason.
Proof. solve_decision. Defined.

(** [enum UIPresentationCapabilities]: the bits of an [int]. *)
Definition Capabilities : Type := Z.
Definition kNone : Capabilities := 0%Z.
Definition kContained : Capabilities := 1%Z.
Definition kPresented : Capabilities := 2%Z.

(** What the UI and the clients do: whether the coordinator of a request uses a
    child view controller, which requests an observer and which responses a
    callback supports, whether a coordinator that is stopped for a reason
    finishes its dismissal before [stopAnimated:] returns, and whether the view of
    a coordinator still has a superview when its request is reset. *)
Class OverlayEnv : Type := {
  uses_child_view_controller : RequestId -> bool;
  is_request_supported : positive -> RequestId -> bool;
  is_response_supported : positive -> ResponseId -> bool;
  stops_at_once : OverlayDismissalReason -> bool;
  view_has_superview : RequestId -> bool
}.

(** What the coordinators promise when they are stopped without an animation,
    which is how the context hides and cancels a UI: the dismissal is finished,
    and the view is gone, before [stopAnimated:] returns. A dismissal by the user
    finishes when it does. *)
Class FinishAtOnce `{OverlayEnv} : Prop := {
  stopped_at_once reason : reason <> kUserInteraction -> stops_at_once reason = true;
  view_removed request : view_has_superview request = false
}.

(** [OverlayCompletionCallback]: the method of the presenter that is bound to a
    request, or a callback of a client. [OverlayDispatchCallback]: a callback
    with the support that filters its responses. *)
Inductive CompletionCallback : Type :=
| PresenterCompleted
| ClientCallback (callback : positive).
Record DispatchCallback : Type := mkDispatch { callback_ : positive; response_support_ : positive }.

(** [OverlayCallbackManagerImpl] *)
Record CallbackManager : Type := mkCallbackManager {
  completion_response_ : option ResponseId;
  completion_callbacks_ : list CompletionCallback;
  dispatch_callbacks_ : list DispatchCallback
}.

(** [OverlayRequestImpl] *)
Record Request : Type := mkRequest { queue_web_state_ : option WebState; callback_manager_ : CallbackManager }.

(** The cancel handler that a request was given, or the default one, which
    cancels it on the navigations of the WebState. *)
Inductive CancelHandler : Type := DefaultHandler | ClientHandler (handler : positive).
#[global] Instance CancelHandler_eq_dec : EqDecision CancelHandler.
Proof. solve_decision. Defined.

(** [OverlayRequestQueueImpl::OverlayRequestStorage] *)
Record Storage : Type := mkStorage { request : RequestId; cancel_handler : CancelHandler }.

(** The delegate of a queue: the presenter of the window or another one. *)
Inductive Delegate : Type := ThisPresenter | OtherPresenter (presenter : positive).
#[global] Instance Delegate_eq_dec : EqDecision Delegate.
Proof. solve_decision. Defined.

(** [OverlayRequestQueueImpl]: whether the presenter observes it, and the default
    handlers, in the order in which they started to observe the WebState. *)
Record Queue : Type := mkQueue {
  delegate_ : option Delegate;
  observed_ : bool;
  request_storages_ : list Storage;
  navigation_helpers : list RequestId
}.

(** [OverlayRequestUIState]: the base view controller of its coordinator, and the
    queue that the dismissal callback is bound to. *)
Record UIState : Type := mkUIState {
  coordinator_ : option (option positive);
  has_ui_been_presented_ : bool;
  presentation_callback_ : bool;
  dismissal_reason_ : OverlayDismissalReason;
  dismissal_callback_ : option WebState
}.

(** [OverlayPresenterImpl] *)
Record Presenter : Type := mkPresenter {
  presenting_ : bool;
  detached_queue_replaced_delegate_ : bool;
  detached_presenting_request_queue_ : option WebState;
  presented_request_ : option RequestId;
  detaching_presenting_web_state_ : bool;
  removed_request_awaiting_dismissal_ : option RequestId;
  previously_presented_requests_ : gset RequestId;
  active_web_state_ : option WebState;
  presentation_context_ : bool;
  observers_ : list positive
}.

(** [OverlayPresentationContextImpl]: whether the presenter observes it. *)
Record Context : Type := mkContext {
  states_ : gmap RequestId UIState;
  request_ : option RequestId;
  delegate : option positive;
  container_view_controller_ : option positive;
  presentation_context_view_controller_ : option positive;
  ui_disabled_ : bool;
  presentation_capabilities_ : Capabilities;
  context_observed_ : bool;
  window_ : option positive
}.

(** What is done to the outside, in order. *)
Inductive Effect : Type :=
| WillShowOverlay (observer : positive) (request : RequestId) (initial_presentation : bool)
| DidShowOverlay (observer : positive) (request : RequestId)
| DidHideOverlay (observer : positive) (request : RequestId)
| OverlayPresenterDestroyed (observer : positive)
| RunCompletionCallback (callback : positive) (response : option ResponseId)
| RunDispatchCallback (callback : positive) (response : ResponseId)
| RemovedToOther (presenter : positive) (request : RequestId) (cancelled : bool)
| CoordinatorStart (request : RequestId) (animated : bool)
| CoordinatorStop (request : RequestId) (animated : bool)
| UpdatePresentationContext (capabilities : Capabilities).

(** The requests and the queues that are not destroyed, the WebStates that are,
    the WebStateList of the window, and the objects. *)
Record t : Type := mk {
  requests : gmap RequestId Request;
  queues_ : gmap WebState Queue;
  destroyed : gset WebState;
  web_state_list_ : list WebState;
  active : option WebState;
  presenter : Presenter;
  context : Context;
  log : list Effect
}.

Definition with_queue_delegate (v : option Delegate) (q : Queue) : Queue :=
  mkQueue v (observed_ q) (request_storages_ q) (navigation_helpers q).
Definition with_observed (v : bool) (q : Queue) : Queue :=
  mkQueue (delegate_ q) v (request_storages_ q) (navigation_helpers q).
Definition with_request_storages (v : list Storage) (q : Queue) : Queue :=
  mkQueue (delegate_ q) (observed_ q) v (navigation_helpers q).
Definition with_navigation_helpers (v : list RequestId) (q : Queue) : Queue :=
  mkQueue (delegate_ q) (observed_ q) (request_storages_ q) v.

Definition with_coordinator (v : option (option positive)) (u : UIState) : UIState :=
  mkUIState v (has_ui_been_presented_ u) (presentation_callback_ u) (dismissal_reason_ u)
     (dismissal_callback_ u).
Definition with_has_ui_been_presented (v : bool) (u : UIState) : UIState :=
  mkUIState (coordinator_ u) v (presentation_callback_ u) (dismissal_reason_ u)
     (dismissal_callback_ u).
Definition with_presentation_callback (v : bool) (u : UIState) : UIState :=
  mkUIState (coordinator_ u) (has_ui_been_presented_ u) v (dismissal_reason_ u)
     (dismissal_callback_ u).
Definition with_dismissal_reason (v : OverlayDismissalReason) (u : UIState) : UIState :=
  mkUIState (coordinator_ u) (has_ui_been_presented_ u) (presentation_callback_ u) v
     (dismissal_callback_ u).
Definition with_dismissal_callback (v : option WebState) (u : UIState) : UIState :=
  mkUIState (coordinator_ u) (has_ui_been_presented_ u) (presentation_callback_ u)
     (dismissal_reason_ u) v.

Definition with_presenting (v : bool) (p : Presenter) : Presenter :=
  mkPresenter v (detached_queue_replaced_delegate_ p) (detached_presenting_request_queue_ p)
     (presented_request_ p) (detaching_presenting_web_state_ p)
     (removed_request_awaiting_dismissal_ p) (previously_presented_requests_ p)
     (active_web_state_ p) (presentation_context_ p) (observers_ p).
Definition with_detached_queue_replaced_delegate (v : bool) (p : Presenter) : Presenter :=
  mkPresenter (presenting_ p) v (detached_presenting_request_queue_ p) (presented_request_ p)
     (detaching_presenting_web_state_ p) (removed_request_awaiting_dismissal_ p)
     (previously_presented_requests_ p) (active_web_state_ p) (presentation_context_ p)
     (observers_ p).
Definition with_detached_presenting_request_queue (v : option WebState) (p : Presenter) : Presenter :=
  mkPresenter (presenting_ p) (detached_queue_replaced_delegate_ p) v (presented_request_ p)
     (detaching_presenting_web_state_ p) (removed_request_awaiting_dismissal_ p)
     (previously_presented_requests_ p) (active_web_state_ p) (presentation_context_ p)
     (observers_ p).
Definition with_presented_request (v : option RequestId) (p : Presenter) : Presenter :=
  mkPresenter (presenting_ p) (detached_queue_replaced_delegate_ p)
     (detached_presenting_request_queue_ p) v (detaching_presenting_web_state_ p)
     (removed_request_awaiting_dismissal_ p) (previously_presented_requests_ p)
     (active_web_state_ p) (presentation_context_ p) (observers_ p).
Definition with_detaching_presenting_web_state (v : bool) (p : Presenter) : Presenter :=
  mkPresenter (presenting_ p) (detached_queue_replaced_delegate_ p)
     (detached_presenting_request_queue_ p) (presented_request_ p) v
     (removed_request_awaiting_dismissal_ p) (previously_presented_requests_ p)
     (active_web_state_ p) (presentation_context_ p) (observers_ p).
Definition with_removed_request_awaiting_dismissal (v : option RequestId) (p : Presenter) : Presenter :=
  mkPresenter (presenting_ p) (detached_queue_replaced_delegate_ p)
     (detached_presenting_request_queue_ p) (presented_request_ p)
     (detaching_presenting_web_state_ p) v (previously_presented_requests_ p)
     (active_web_state_ p) (presentation_context_ p) (observers_ p).
Definition with_previously_presented_requests (v : gset RequestId) (p : Presenter) : Presenter :=
  mkPresenter (presenting_ p) (detached_queue_replaced_delegate_ p)
     (detached_presenting_request_queue_ p) (presented_request_ p)
     (detaching_presenting_web_state_ p) (removed_request_awaiting_dismissal_ p) v
     (active_web_state_ p) (presentation_context_ p) (observers_ p).
Definition with_active_web_state (v : option WebState) (p : Presenter) : Presenter :=
  mkPresenter (presenting_ p) (detached_queue_replaced_delegate_ p)
     (detached_presenting_request_queue_ p) (presented_request_ p)
     (detaching_presenting_web_state_ p) (removed_request_awaiting_dismissal_ p)
     (previously_presented_requests_ p) v (presentation_context_ p) (observers_ p).
Definition with_presentation_context (v : bool) (p : Presenter) : Presenter :=
  mkPresenter (presenting_ p) (detached_queue_replaced_delegate_ p)
     (detached_presenting_request_queue_ p) (presented_request_ p)
     (detaching_presenting_web_state_ p) (removed_request_awaiting_dismissal_ p)
     (previously_presented_requests_ p) (active_web_state_ p) v (observers_ p).
Definition with_observers (v : list positive) (p : Presenter) : Presenter :=
  mkPresenter (presenting_ p) (detached_queue_replaced_delegate_ p)
     (detached_presenting_request_queue_ p) (presented_request_ p)
     (detaching_presenting_web_state_ p) (removed_request_awaiting_dismissal_ p)
     (previously_presented_requests_ p) (active_web_state_ p) (presentation_context_ p) v.

Definition with_states (v : gmap RequestId UIState) (c : Context) : Context :=
  mkContext v (request_ c) (delegate c) (container_view_controller_ c)
     (presentation_context_view_controller_ c) (ui_disabled_ c)
     (presentation_capabilities_ c) (context_observed_ c) (window_ c).
Definition with_context_request (v : option RequestId) (c : Context) : Context :=
  mkContext (states_ c) v (delegate c) (container_view_controller_ c)
     (presentation_context_view_controller_ c) (ui_disabled_ c)
     (presentation_capabilities_ c) (context_observed_ c) (window_ c).
Definition with_context_delegate (v : option positive) (c : Context) : Context :=
  mkContext (states_ c) (request_ c) v (container_view_controller_ c)
     (presentation_context_view_controller_ c) (ui_disabled_ c)
     (presentation_capabilities_ c) (context_observed_ c) (window_ c).
Definition with_container_view_controller (v : option positive) (c : Context) : Context :=
  mkContext (states_ c) (request_ c) (delegate c) v (presentation_context_view_controller_ c)
     (ui_disabled_ c) (presentation_capabilities_ c) (context_observed_ c) (window_ c).
Definition with_presentation_context_view_controller (v : option positive) (c : Context) : Context :=
  mkContext (states_ c) (request_ c) (delegate c) (container_view_controller_ c) v (ui_disabled_ c)
     (presentation_capabilities_ c) (context_observed_ c) (window_ c).
Definition with_ui_disabled (v : bool) (c : Context) : Context :=
  mkContext (states_ c) (request_ c) (delegate c) (container_view_controller_ c)
     (presentation_context_view_controller_ c) v (presentation_capabilities_ c)
     (context_observed_ c) (window_ c).
Definition with_presentation_capabilities (v : Capabilities) (c : Context) : Context :=
  mkContext (states_ c) (request_ c) (delegate c) (container_view_controller_ c)
     (presentation_context_view_controller_ c) (ui_disabled_ c) v (context_observed_ c)
     (window_ c).
Definition with_context_observed (v : bool) (c : Context) : Context :=
  mkContext (states_ c) (request_ c) (delegate c) (container_view_controller_ c)
     (presentation_context_view_controller_ c) (ui_disabled_ c)
     (presentation_capabilities_ c) v (window_ c).
Definition with_window (v : option positive) (c : Context) : Context :=
  mkContext (states_ c) (request_ c) (delegate c) (container_view_controller_ c)
     (presentation_context_view_controller_ c) (ui_disabled_ c)
     (presentation_capabilities_ c) (context_observed_ c) v.

Definition with_requests (v : gmap RequestId Request) (s : t) : t :=
  mk v (queues_ s) (destroyed s) (web_state_list_ s) (active s) (presenter s) (context s)
     (log s).
Definition with_queues (v : gmap WebState Queue) (s : t) : t :=
  mk (requests s) v (destroyed s) (web_state_list_ s) (active s) (presenter s) (context s)
     (log s).
Definition with_destroyed (v : gset WebState) (s : t) : t :=
  mk (requests s) (queues_ s) v (web_state_list_ s) (active s) (presenter s) (context s)
     (log s).
Definition with_web_state_list (v : list WebState) (s : t) : t :=
  mk (requests s) (queues_ s) (destroyed s) v (active s) (presenter s) (context s) (log s).
Definition with_active (v : option WebState) (s : t) : t :=
  mk (requests s) (queues_ s) (destroyed s) (web_state_list_ s) v (presenter s) (context s)
     (log s).
Definition with_presenter (v : Presenter) (s : t) : t :=
  mk (requests s) (queues_ s) (destroyed s) (web_state_list_ s) (active s) v (context s)
     (log s).
Definition with_context (v : Context) (s : t) : t :=
  mk (requests s) (queues_ s) (destroyed s) (web_state_list_ s) (active s) (presenter s) v
     (log s).
Definition with_log (v : list Effect) (s : t) : t :=
  mk (requests s) (queues_ s) (destroyed s) (web_state_list_ s) (active s) (presenter s)
     (context s) v.

End Overlays.
