(* ===== verification/OverlayOps.v ===== *)
(** * Overlays: the operations

    The methods of the requests, of the callback manager, of the queues, of the
    presenter and of the presentation context, on the state of OverlayState.v,
    and the calls that reach them from outside. A method that another object
    calls back is defined before its caller; where the calls go round
    ([OverlayRequestRemoved] cancels the UI, whose dismissal may pop a request,
    which is not cancelled) the cancelling is an argument. *)

From stdpp Require Import base tactics option list numbers gmap.
From Stdlib Require Import ZArith.
From S2P Require Import Prelude.
From S2P Require Import WebStateListModel.
From S2P Require Import OverlayState.

Module OverlayOps.
Export Overlays.

Definition on_presenter (f : Presenter -> Presenter) : M t unit := mmodify (fun s => with_presenter (f (presenter s)) s).
Definition on_context (f : Context -> Context) : M t unit := mmodify (fun s => with_context (f (context s)) s).
Definition effect (e : Effect) : M t unit := mmodify (fun s => with_log (log s ++ [e]) s).

(** ** Requests and their callbacks *)

Definition get_request (request : RequestId) : M t Request := let! s := mget in deref (requests s !! request).
Definition set_manager (request : RequestId) (m : CallbackManager) : M t unit :=
  mmodify (fun s => with_requests (alter (fun r => mkRequest (queue_web_state_ r) m) request (requests s)) s).
Definition GetQueueWebState (request : RequestId) : M t (option WebState) :=
  let! r := get_request request in mreturn (queue_web_state_ r).

Definition SetCompletionResponse (request : RequestId) (response : option ResponseId) : M t unit :=
  let! r := get_request request in
  set_manager request (mkCallbackManager response (completion_callbacks_ (callback_manager_ r))
    (dispatch_callbacks_ (callback_manager_ r))).
Definition GetCompletionResponse (request : RequestId) : M t (option ResponseId) :=
  let! r := get_request request in mreturn (completion_response_ (callback_manager_ r)).
Definition AddCompletionCallback (request : RequestId) (callback : CompletionCallback) : M t unit :=
  let! r := get_request request in
  set_manager request (mkCallbackManager (completion_response_ (callback_manager_ r))
    (completion_callbacks_ (callback_manager_ r) ++ [callback]) (dispatch_callbacks_ (callback_manager_ r))).
Definition AddDispatchCallback (request : RequestId) (callback : DispatchCallback) : M t unit :=
  let! r := get_request request in
  set_manager request (mkCallbackManager (completion_response_ (callback_manager_ r))
    (completion_callbacks_ (callback_manager_ r)) (dispatch_callbacks_ (callback_manager_ r) ++ [callback])).

Definition OverlayWasCompleted (request : RequestId) : M t unit :=
  on_presenter (fun p => with_previously_presented_requests (previously_presented_requests_ p ∖ {[request]}) p).

Definition ExecuteCompletionCallbacks (request : RequestId) : M t unit :=
  let! r := get_request request in
  mfor (completion_callbacks_ (callback_manager_ r)) (fun callback =>
    let! response := GetCompletionResponse request in
    match callback with
    | PresenterCompleted => OverlayWasCompleted request
    | ClientCallback c => effect (RunCompletionCallback c response)
    end) ;;;
  let! r := get_request request in
  set_manager request (mkCallbackManager (completion_response_ (callback_manager_ r)) [] (dispatch_callbacks_ (callback_manager_ r))).

(** [~OverlayRequestImpl] *)
Definition destroy_request (request : RequestId) : M t unit :=
  ExecuteCompletionCallbacks request ;;;
  let! r := get_request request in
  dcheck (bool_decide (completion_callbacks_ (callback_manager_ r) = [])) ;;;
  mmodify (fun s => with_requests (delete request (requests s)) s).

Section Env.
Context `{OverlayEnv}.

Definition DispatchResponse (request : RequestId) (response : ResponseId) : M t unit :=
  let! r := get_request request in
  mfor (dispatch_callbacks_ (callback_manager_ r)) (fun callback =>
    mwhen (is_response_supported (response_support_ callback) response)
      (effect (RunDispatchCallback (callback_ callback) response))).

(** ** Queues

    The queue of a WebState is made when it is first asked for; the WebState
    must not be destroyed. *)

Definition GetQueueForWebState (web_state : WebState) : M t Queue :=
  let! s := mget in
  match queues_ s !! web_state with
  | Some queue => mreturn queue
  | None =>
      deref (if bool_decide (web_state ∈ destroyed s) then None else Some tt) ;;;
      let queue := mkQueue None false [] [] in
      mmodify (fun s => with_queues (<[web_state := queue]> (queues_ s)) s) ;;;
      mreturn queue
  end.

(** A pointer to a queue: the queue of a WebState that is not destroyed. *)
Definition get_queue (queue : WebState) : M t Queue := let! s := mget in deref (queues_ s !! queue).
Definition set_queue (queue : WebState) (q : Queue) : M t unit :=
  mmodify (fun s => with_queues (<[queue := q]> (queues_ s)) s).

Definition size (q : Queue) : nat := length (request_storages_ q).
Definition GetRequest (queue : WebState) (index : nat) : M t RequestId :=
  let! q := get_queue queue in
  dcheck (index <? size q)%nat ;;;
  let! storage := of_option (request_storages_ q !! index) in mreturn (request storage).
Definition front_request (queue : WebState) : M t (option RequestId) :=
  let! q := get_queue queue in
  if bool_decide (size q = 0) then mreturn None else let! r := GetRequest queue 0 in mreturn (Some r).

Definition GetFrontRequestForWebState (web_state : option WebState) : M t (option RequestId) :=
  match web_state with
  | None => mreturn None
  | Some web_state => GetQueueForWebState web_state ;;; front_request web_state
  end.
Definition GetActiveRequest : M t (option RequestId) :=
  let! s := mget in GetFrontRequestForWebState (active_web_state_ (presenter s)).

(** The observers of the presenter that support a request. *)
Definition notify_observers (request : RequestId) (e : positive -> Effect) : M t unit :=
  let! s := mget in
  mfor (observers_ (presenter s)) (fun observer =>
    get_request request ;;;
    mwhen (is_request_supported observer request) (effect (e observer))).

(** ** The presentation context: showing *)

Definition GetRequestUIState (request : option RequestId) (s : t) : option UIState :=
  request ≫= fun r => states_ (context s) !! r.
Definition set_state (request : RequestId) (u : UIState) : M t unit :=
  on_context (fun c => with_states (<[request := u]> (states_ c)) c).
Definition has_callback (u : UIState) : bool := bool_decide (is_Some (dismissal_callback_ u)).

(** The coordinator class is found from the data of the request. *)
Definition RequestUsesChildViewController (request : RequestId) : M t bool :=
  get_request request ;;; mreturn (uses_child_view_controller request).
Definition GetRequiredPresentationCapabilities (request : RequestId) : M t Capabilities :=
  let! child := RequestUsesChildViewController request in mreturn (if child then kContained else kPresented).
Definition CanShowUIForRequest_with (request : RequestId) (capabilities : Capabilities) : M t bool :=
  let! required := GetRequiredPresentationCapabilities request in
  mreturn (negb (Z.land capabilities required =? 0)%Z).
Definition CanShowUIForRequest (request : RequestId) : M t bool :=
  let! s := mget in CanShowUIForRequest_with request (presentation_capabilities_ (context s)).
Definition GetBaseViewController (request : RequestId) : M t (option positive) :=
  let! child := RequestUsesChildViewController request in
  let! s := mget in
  mreturn (if child then container_view_controller_ (context s) else presentation_context_view_controller_ (context s)).

Definition IsShowingOverlayUI (s : t) : bool :=
  match GetRequestUIState (request_ (context s)) s with Some state => has_callback state | None => false end.

Definition PrepareToShowOverlayUI (request : RequestId) : M t unit :=
  let! can_show := CanShowUIForRequest request in
  if can_show then mreturn tt
  else let! capabilities := GetRequiredPresentationCapabilities request in effect (UpdatePresentationContext capabilities).

Definition OverlayWasPresented (request : RequestId) : M t unit :=
  let! s := mget in
  dcheck (presentation_context_ (presenter s)) ;;;
  dcheck (bool_decide (presented_request_ (presenter s) = Some request)) ;;;
  notify_observers request (fun o => DidShowOverlay o request).

Definition state_OverlayUIWasPresented (request : RequestId) : M t unit :=
  let! s := mget in
  let! u := deref (states_ (context s) !! request) in
  set_state request (with_presentation_callback false (with_has_ui_been_presented true u)) ;;;
  check (presentation_callback_ u) ;;;
  OverlayWasPresented request.

Definition ShowUIForPresentedRequest : M t unit :=
  let! s := mget in
  dcheck (bool_decide (is_Some (request_ (context s)))) ;;;
  let! request := deref (request_ (context s)) in
  let! can_show := CanShowUIForRequest request in
  dcheck can_show ;;;
  let! s := mget in
  let! state := deref (GetRequestUIState (Some request) s) in
  let! base_view_controller := GetBaseViewController request in
  mwhen (negb (bool_decide (coordinator_ state = Some base_view_controller)))
    (set_state request (with_coordinator (Some base_view_controller) state)) ;;;
  effect (CoordinatorStart request (negb (has_ui_been_presented_ state))) ;;;
  state_OverlayUIWasPresented request.

Definition SetRequest (request : option RequestId) : M t unit :=
  let! s := mget in
  if bool_decide (request_ (context s) = request) then mreturn tt
  else
    match request_ (context s) with
    | None => mreturn tt
    | Some old =>
        dcheck (bool_decide (is_Some (GetRequestUIState (Some old) s))) ;;;
        let! state := deref (GetRequestUIState (Some old) s) in
        dcheck (negb (has_callback state)) ;;;
        dcheck (negb (view_has_superview old)) ;;;
        let reason := dismissal_reason_ state in
        mwhen (bool_decide (reason = kUserInteraction) || bool_decide (reason = kCancellation))
          (on_context (fun c => with_states (delete old (states_ c)) c))
    end ;;;
    on_context (with_context_request request) ;;;
    match request with
    | Some r =>
        let! s := mget in
        dcheck (bool_decide (is_Some (GetRequestUIState (Some r) s))) ;;;
        ShowUIForPresentedRequest
    | None => effect (UpdatePresentationContext kNone)
    end.

(** The callbacks are those of the presenter for the request and its queue. *)
Definition OverlayPresentionRequested (request : RequestId) (queue : WebState) : M t unit :=
  let! s := mget in
  let! u := deref (GetRequestUIState (Some request) s) in
  dcheck (negb (presentation_callback_ u)) ;;;
  dcheck (negb (has_callback u)) ;;;
  set_state request (with_dismissal_reason kUserInteraction (with_dismissal_callback (Some queue) (with_presentation_callback true u))).

Definition ShowOverlayUI (request : RequestId) (queue : WebState) : M t unit :=
  let! s := mget in
  dcheck (negb (IsShowingOverlayUI s)) ;;;
  let! can_show := CanShowUIForRequest request in
  dcheck can_show ;;;
  mwhen (negb (bool_decide (is_Some (GetRequestUIState (Some request) s))))
    (set_state request (mkUIState None false false kUserInteraction None)) ;;;
  OverlayPresentionRequested request queue ;;;
  SetRequest (Some request).

(** ** The presenter: showing *)

Definition PresentOverlayForActiveRequest : M t unit :=
  let! s := mget in
  if negb (presentation_context_ (presenter s)) || IsShowingOverlayUI s then mreturn tt
  else
    let! active_request := GetActiveRequest in
    match active_request with
    | None => mreturn tt
    | Some request =>
        let! can_show := CanShowUIForRequest request in
        if negb can_show then PrepareToShowOverlayUI request
        else
          let! s := mget in
          dcheck (negb (presenting_ (presenter s))) ;;;
          on_presenter (fun p => with_presented_request (Some request) (with_presenting true p)) ;;;
          let initial_presentation := bool_decide (request ∉ previously_presented_requests_ (presenter s)) in
          notify_observers request (fun o => WillShowOverlay o request initial_presentation) ;;;
          on_presenter (fun p => with_previously_presented_requests ({[request]} ∪ previously_presented_requests_ p) p) ;;;
          AddCompletionCallback request PresenterCompleted ;;;
          let! s := mget in
          let! web_state := deref (active_web_state_ (presenter s)) in
          GetQueueForWebState web_state ;;;
          ShowOverlayUI request web_state
    end.

(** ** Removal of requests *)

(** [removed_request_awaiting_dismissal_ = r], which destroys the old one. *)
Definition set_removed_request (r : option RequestId) : M t unit :=
  let! s := mget in
  let old := removed_request_awaiting_dismissal_ (presenter s) in
  on_presenter (with_removed_request_awaiting_dismissal r) ;;;
  match old with Some o => destroy_request o | None => mreturn tt end.

Definition OverlayRequestQueueWillReplaceDelegate (queue : WebState) : M t unit :=
  let! s := mget in
  match presented_request_ (presenter s) with
  | None => mreturn tt
  | Some presented =>
      let! front := front_request queue in
      if negb (bool_decide (front = Some presented)) then mreturn tt
      else
        notify_observers presented (fun o => DidHideOverlay o presented) ;;;
        on_presenter (with_presented_request None) ;;;
        on_presenter (with_detached_presenting_request_queue None) ;;;
        on_presenter (with_detached_queue_replaced_delegate true)
  end.

Definition SetDelegate (queue : WebState) (delegate : option Delegate) : M t unit :=
  let! q := get_queue queue in
  if bool_decide (delegate_ q = delegate) then mreturn tt
  else
    mwhen (bool_decide (delegate_ q = Some ThisPresenter)) (OverlayRequestQueueWillReplaceDelegate queue) ;;;
    let! q := get_queue queue in
    set_queue queue (with_queue_delegate delegate q).

Definition OverlayRequestRemoved_with (CancelOverlayUIForRequest : RequestId -> M t unit)
    (queue : WebState) (request : RequestId) (cancelled : bool) : M t unit :=
  let! s := mget in
  let kept := bool_decide (presented_request_ (presenter s) = Some request) in
  mwhen kept
    (set_removed_request (Some request) ;;;
     mwhen (bool_decide (is_Some (detached_presenting_request_queue_ (presenter s))))
       (on_presenter (with_detached_presenting_request_queue None) ;;;
        SetDelegate queue None)) ;;;
  mwhen cancelled (CancelOverlayUIForRequest request) ;;;
  mwhen (negb kept) (destroy_request request).

(** The storage is erased with its cancel handler; without a delegate the request
    is destroyed, and another presenter destroys it when it wants. *)
Definition RemoveRequest_with (CancelOverlayUIForRequest : RequestId -> M t unit)
    (queue : WebState) (index : nat) (cancelled : bool) : M t unit :=
  let! q := get_queue queue in
  dcheck (index <? size q)%nat ;;;
  let! storage := of_option (request_storages_ q !! index) in
  let r := request storage in
  set_queue queue (with_request_storages (erase_at index (request_storages_ q))
    (with_navigation_helpers (filter (fun r' => r' <> r) (navigation_helpers q)) q)) ;;;
  match delegate_ q with
  | Some ThisPresenter => OverlayRequestRemoved_with CancelOverlayUIForRequest queue r cancelled
  | Some (OtherPresenter other) => effect (RemovedToOther other r cancelled) ;;; destroy_request r
  | None => destroy_request r
  end.

(** The front request is not cancelled. *)
Definition PopFrontRequest (queue : WebState) : M t unit := RemoveRequest_with (fun _ => mreturn tt) queue 0 false.

(** ** The presenter: after a dismissal *)

Definition OverlayWasDismissed (request : RequestId) (queue : WebState) (reason : OverlayDismissalReason) : M t unit :=
  let! s := mget in
  if negb (presentation_context_ (presenter s)) then mreturn tt
  else if detached_queue_replaced_delegate_ (presenter s) then
    on_presenter (with_presenting false) ;;;
    on_presenter (with_detached_queue_replaced_delegate false) ;;;
    let! active_request := GetActiveRequest in
    mwhen (bool_decide (is_Some active_request)) PresentOverlayForActiveRequest
  else
    dcheck (bool_decide (presented_request_ (presenter s) = Some request)) ;;;
    mwhen (bool_decide (reason = kUserInteraction) && bool_decide (is_Some (queues_ s !! queue)) &&
           negb (bool_decide (removed_request_awaiting_dismissal_ (presenter s) = Some request)))
      (PopFrontRequest queue ;;;
       let! s := mget in
       dcheck (bool_decide (removed_request_awaiting_dismissal_ (presenter s) = Some request))) ;;;
    on_presenter (with_presenting false) ;;;
    on_presenter (with_presented_request None) ;;;
    on_presenter (with_detached_presenting_request_queue None) ;;;
    notify_observers request (fun o => DidHideOverlay o request) ;;;
    set_removed_request None ;;;
    let! active_request := GetActiveRequest in
    mwhen (negb (bool_decide (active_request = Some request))) PresentOverlayForActiveRequest.

(** ** The presentation context: dismissing *)

Definition state_OverlayUIWasDismissed (request : RequestId) : M t unit :=
  let! s := mget in
  let! u := deref (states_ (context s) !! request) in
  dcheck (has_callback u) ;;;
  let! queue := deref (dismissal_callback_ u) in
  set_state request (with_dismissal_callback None u) ;;;
  OverlayWasDismissed request queue (dismissal_reason_ u).

Definition context_OverlayUIWasDismissed : M t unit :=
  let! s := mget in
  dcheck (bool_decide (is_Some (request_ (context s)))) ;;;
  let! previously_presented_request := deref (request_ (context s)) in
  let! u := deref (GetRequestUIState (Some previously_presented_request) s) in
  dcheck (has_callback u) ;;;
  state_OverlayUIWasDismissed previously_presented_request ;;;
  let! s := mget in
  mwhen (bool_decide (request_ (context s) = Some previously_presented_request)) (SetRequest None).

Definition OverlayUIDidFinishDismissal (request : RequestId) : M t unit :=
  let! s := mget in
  dcheck (bool_decide (request_ (context s) = Some request)) ;;;
  context_OverlayUIWasDismissed.

Definition DismissPresentedUI (reason : OverlayDismissalReason) : M t unit :=
  let! s := mget in
  dcheck (bool_decide (is_Some (GetRequestUIState (request_ (context s)) s))) ;;;
  let! request := deref (request_ (context s)) in
  let! u := deref (GetRequestUIState (Some request) s) in
  dcheck (bool_decide (is_Some (coordinator_ u))) ;;;
  set_state request (with_dismissal_reason reason u) ;;;
  effect (CoordinatorStop request (bool_decide (reason = kUserInteraction))) ;;;
  mwhen (stops_at_once reason) (OverlayUIDidFinishDismissal request).

Definition HideOverlayUI (request : RequestId) : M t unit :=
  let! s := mget in
  dcheck (bool_decide (request_ (context s) = Some request)) ;;;
  let! state := deref (GetRequestUIState (request_ (context s)) s) in
  dcheck (has_callback state) ;;;
  DismissPresentedUI kHiding.

Definition CancelOverlayUI (request : RequestId) : M t unit :=
  let! s := mget in
  match GetRequestUIState (Some request) s with
  | None => mreturn tt
  | Some state =>
      if negb (has_callback state) then on_context (fun c => with_states (delete request (states_ c)) c)
      else DismissPresentedUI kCancellation
  end.

(** ** The presenter: the active WebState *)

Definition CancelOverlayUIForRequest (request : RequestId) : M t unit :=
  let! s := mget in mwhen (presentation_context_ (presenter s)) (CancelOverlayUI request).
Definition CancelOverlayUIForFront (request : option RequestId) : M t unit :=
  match request with Some r => CancelOverlayUIForRequest r | None => mreturn tt end.

Definition SetActiveWebState (web_state : option WebState) (reason : ActiveWebStateChangeReason) : M t unit :=
  let! s := mget in
  if bool_decide (active_web_state_ (presenter s) = web_state) then mreturn tt
  else
    let! previously_active_request :=
      match removed_request_awaiting_dismissal_ (presenter s) with
      | Some r => mreturn (Some r)
      | None => GetActiveRequest
      end in
    let should_cancel_ui := bool_decide (reason = Replaced) || detaching_presenting_web_state_ (presenter s) in
    on_presenter (with_active_web_state web_state) ;;;
    on_presenter (with_detaching_presenting_web_state false) ;;;
    let! s := mget in
    if negb (presentation_context_ (presenter s)) then mreturn tt
    else if negb (presenting_ (presenter s)) then PresentOverlayForActiveRequest
    else
      match previously_active_request with
      | None => mreturn tt
      | Some r => if should_cancel_ui then CancelOverlayUIForRequest r else HideOverlayUI r
      end.

Definition CancelAllOverlayUI : M t unit :=
  let! s := mget in
  mfor (web_state_list_ s) (fun web_state =>
    let! front := GetFrontRequestForWebState (Some web_state) in CancelOverlayUIForFront front).

(** The window has one context: it is set or not. *)
Definition SetPresentationContext (presentation_context : bool) : M t unit :=
  let! s := mget in
  mwhen (presentation_context_ (presenter s))
    (CancelAllOverlayUI ;;; on_context (with_context_observed false)) ;;;
  on_presenter (with_presentation_context presentation_context) ;;;
  on_presenter (fun p => with_previously_presented_requests ∅ (with_presented_request None (with_presenting false p))) ;;;
  mwhen presentation_context
    (on_context (with_context_observed true) ;;; PresentOverlayForActiveRequest).

Definition WebStateAddedToBrowser (web_state : WebState) : M t unit :=
  GetQueueForWebState web_state ;;;
  let! q := get_queue web_state in
  set_queue web_state (with_observed true q) ;;;
  SetDelegate web_state (Some ThisPresenter).

(** [presented_request_ && presented_request_->GetQueueWebState() == web_state] *)
Definition presented_in (web_state : WebState) : M t bool :=
  let! s := mget in
  match presented_request_ (presenter s) with
  | None => mreturn false
  | Some r => let! w := GetQueueWebState r in mreturn (bool_decide (w = Some web_state))
  end.

Definition WebStateRemovedFromBrowser (web_state : WebState) : M t unit :=
  GetQueueForWebState web_state ;;;
  let! q := get_queue web_state in
  set_queue web_state (with_observed false q) ;;;
  let! presented_here := presented_in web_state in
  mwhen (negb presented_here) (SetDelegate web_state None) ;;;
  let! presented_here := presented_in web_state in
  if presented_here then
    GetQueueForWebState web_state ;;; on_presenter (with_detached_presenting_request_queue (Some web_state))
  else let! front := GetFrontRequestForWebState (Some web_state) in CancelOverlayUIForFront front.

(** ** Queues: the public calls *)

Definition OverlayRequestRemoved : WebState -> RequestId -> bool -> M t unit := OverlayRequestRemoved_with CancelOverlayUIForRequest.
Definition RemoveRequest : WebState -> nat -> bool -> M t unit := RemoveRequest_with CancelOverlayUIForRequest.

Definition RequestAddedToQueue (queue : WebState) (request : RequestId) (index : nat) : M t unit :=
  let! active_request := GetActiveRequest in
  if negb (bool_decide (active_request = Some request)) then mreturn tt
  else
    let! s := mget in
    if negb (presenting_ (presenter s)) then PresentOverlayForActiveRequest
    else
      match presented_request_ (presenter s) with
      | None => mreturn tt
      | Some presented =>
          let! q := get_queue queue in
          if (1 <? size q)%nat then
            let! second := GetRequest queue 1 in
            mwhen (bool_decide (second = presented)) (HideOverlayUI presented)
          else mreturn tt
      end.

(** The request was made by [OverlayRequest::Create]; a handler that is null is
    replaced by the default one, which observes the WebState of the queue. *)
Definition CreateRequest (request : RequestId) (callbacks : CallbackManager) : M t unit :=
  mmodify (fun s => with_requests (<[request := mkRequest None callbacks]> (requests s)) s).
Definition InsertRequest (queue : WebState) (index : nat) (request : RequestId) (handler : option positive) : M t unit :=
  let! q := get_queue queue in
  dcheck (index <=? size q)%nat ;;;
  let cancel_handler := match handler with Some h => ClientHandler h | None => DefaultHandler end in
  let helpers := match handler with Some _ => navigation_helpers q | None => navigation_helpers q ++ [request] end in
  mmodify (fun s => with_requests (alter (fun r => mkRequest (Some queue) (callback_manager_ r)) request (requests s)) s) ;;;
  set_queue queue (with_navigation_helpers helpers
    (with_request_storages (insert_at index (mkStorage request cancel_handler) (request_storages_ q)) q)) ;;;
  mwhen (observed_ q)
    (let! r := GetRequest queue index in RequestAddedToQueue queue r index).
Definition AddRequest (queue : WebState) (request : RequestId) (handler : option positive) : M t unit :=
  let! q := get_queue queue in InsertRequest queue (size q) request handler.

(** Fewer requests are left after each turn: the fuel is the size of the queue. *)
Fixpoint CancelAllRequests_loop (fuel : nat) (queue : WebState) : M t unit :=
  let! q := get_queue queue in
  if bool_decide (size q = 0) then mreturn tt
  else
    match fuel with
    | 0 => mfail OutOfFuel
    | S fuel => RemoveRequest queue (size q - 1) true ;;; CancelAllRequests_loop fuel queue
    end.
Definition CancelAllRequests (queue : WebState) : M t unit :=
  let! q := get_queue queue in CancelAllRequests_loop (size q) queue.

Definition CancelRequest (queue : WebState) (request : RequestId) : M t unit :=
  let! q := get_queue queue in
  match first_index (fun storage => bool_decide (OverlayState.Overlays.request storage = request)) (request_storages_ q) with
  | Some index => RemoveRequest queue index true
  | None => mreturn tt
  end.

(** ** Default cancel handlers

    The handlers that observe the WebState cancel their requests, each of them
    unless it was destroyed by a previous one. *)

Definition run_helpers (web_state : WebState) : M t unit :=
  let! s := mget in
  let helpers := match queues_ s !! web_state with Some q => navigation_helpers q | None => [] end in
  mfor helpers (fun r =>
    let! q := get_queue web_state in
    mwhen (bool_decide (r ∈ navigation_helpers q)) (CancelRequest web_state r)).
Definition DidFinishNavigation (web_state : WebState) (has_committed is_same_document : bool) : M t unit :=
  mwhen (has_committed && negb is_same_document) (run_helpers web_state).
Definition RenderProcessGone (web_state : WebState) : M t unit := run_helpers web_state.

(** A WebState tells its observers that it is destroyed, and then destroys its
    queue, whose observers are told first. *)
Definition destroy_web_state (web_state : WebState) : M t unit :=
  run_helpers web_state ;;;
  let! s := mget in
  match queues_ s !! web_state with
  | Some q =>
      set_queue web_state (with_observed false q) ;;;
      CancelAllRequests web_state ;;;
      mmodify (fun s => with_queues (delete web_state (queues_ s)) s)
  | None => mreturn tt
  end ;;;
  mmodify (fun s => with_destroyed ({[web_state]} ∪ destroyed s) s).

(** ** The presenter and the list of WebStates

    The notifications of WebStateList.v that the presenter handles, with the list
    as it is when each of them is sent. *)

Definition set_list (l : list WebState) (a : option WebState) : M t unit :=
  mmodify (fun s => with_active a (with_web_state_list l s)).

(** [WebStateInsertedAt], [WebStateActivatedAt] *)
Definition InsertWebState (web_state : WebState) (index : nat) (activate : bool) : M t unit :=
  let! s := mget in
  set_list (insert_at index web_state (web_state_list_ s)) (if activate then Some web_state else active s) ;;;
  WebStateAddedToBrowser web_state ;;;
  mwhen activate (SetActiveWebState (Some web_state) Inserted).

(** [WebStateReplacedAt], [WebStateActivatedAt] *)
Definition ReplaceWebStateAt (index : nat) (web_state : WebState) : M t unit :=
  let! s := mget in
  let! old := of_option (web_state_list_ s !! index) in
  let new_active := if bool_decide (active s = Some old) then Some web_state else active s in
  set_list (<[index := web_state]> (web_state_list_ s)) new_active ;;;
  WebStateRemovedFromBrowser old ;;;
  WebStateAddedToBrowser web_state ;;;
  SetActiveWebState new_active Replaced.

Definition WillDetachWebStateAt (web_state : WebState) : M t unit :=
  let! presented_here := presented_in web_state in
  on_presenter (with_detaching_presenting_web_state presented_here) ;;;
  WebStateRemovedFromBrowser web_state.

(** [WillDetachWebStateAt], [WebStateActivatedAt]; the list says which WebState is
    the new active one. *)
Definition DetachWebStateAt (index : nat) (new_active : option WebState) : M t unit :=
  let! s := mget in
  let! web_state := of_option (web_state_list_ s !! index) in
  WillDetachWebStateAt web_state ;;;
  let! s := mget in
  set_list (erase_at index (web_state_list_ s)) (if bool_decide (active s = Some web_state) then new_active else active s) ;;;
  mwhen (bool_decide (active s = Some web_state)) (SetActiveWebState new_active Closed).

(** [WebStateActivatedAt] *)
Definition ActivateWebStateAt (index : nat) : M t unit :=
  let! s := mget in
  let! web_state := of_option (web_state_list_ s !! index) in
  set_list (web_state_list_ s) (Some web_state) ;;;
  SetActiveWebState (Some web_state) Activated.

Definition new_presenter : Presenter := mkPresenter false false None None false None ∅ None false [].
Definition new_context : Context := mkContext ∅ None None None None false kNone false None.

(** [OverlayPresenterImpl::OverlayPresenterImpl], then
    [OverlayPresentationContextImpl::OverlayPresentationContextImpl] *)
Definition OverlayPresenterImpl_create : M t unit :=
  mmodify (with_presenter new_presenter) ;;;
  let! s := mget in
  mfor (web_state_list_ s) WebStateAddedToBrowser ;;;
  SetActiveWebState (active s) Activated.
Definition OverlayPresentationContextImpl_create : M t unit :=
  mmodify (with_context new_context) ;;; SetPresentationContext true.

Definition AddObserver (observer : positive) : M t unit :=
  on_presenter (fun p => with_observers (if bool_decide (observer ∈ observers_ p) then observers_ p else observers_ p ++ [observer]) p).
Definition RemoveObserver (observer : positive) : M t unit :=
  on_presenter (fun p => with_observers (filter (fun o => o <> observer) (observers_ p)) p).

Definition BrowserDestroyed : M t unit :=
  SetPresentationContext false ;;;
  SetActiveWebState None Closed ;;;
  let! s := mget in
  mfor (web_state_list_ s) WebStateRemovedFromBrowser ;;;
  let! s := mget in
  dcheck (bool_decide (detached_presenting_request_queue_ (presenter s) = None)) ;;;
  set_removed_request None.
Definition OverlayPresenterImpl_destroy : M t unit :=
  let! s := mget in
  dcheck (negb (presentation_context_ (presenter s))) ;;;
  mfor (observers_ (presenter s)) (fun o => effect (OverlayPresenterDestroyed o)).

(** ** The presentation context: its capabilities *)

Definition OverlayPresentationContextWillChangePresentationCapabilities (capabilities : Capabilities) : M t unit :=
  let! s := mget in
  dcheck (presentation_context_ (presenter s)) ;;;
  match presented_request_ (presenter s) with
  | None => mreturn tt
  | Some r =>
      let! can_show := CanShowUIForRequest_with r capabilities in
      mwhen (negb can_show) (dcheck (presenting_ (presenter s)) ;;; HideOverlayUI r)
  end.
Definition OverlayPresentationContextDidChangePresentationCapabilities : M t unit :=
  let! s := mget in
  dcheck (presentation_context_ (presenter s)) ;;;
  mwhen (negb (presenting_ (presenter s))) PresentOverlayForActiveRequest.
Definition OverlayPresentationContextDidEnableUI : M t unit := OverlayPresentationContextDidChangePresentationCapabilities.
Definition OverlayPresentationContextDidMoveToWindow (window : option positive) : M t unit :=
  let! s := mget in
  dcheck (presentation_context_ (presenter s)) ;;;
  mwhen (negb (presenting_ (presenter s)) && bool_decide (is_Some window)) PresentOverlayForActiveRequest.

Definition ConstructPresentationCapabilities (c : Context) : Capabilities :=
  if ui_disabled_ c then kNone
  else
    let capabilities := if bool_decide (is_Some (container_view_controller_ c)) then Z.lor kNone kContained else kNone in
    if bool_decide (is_Some (presentation_context_view_controller_ c)) then Z.lor capabilities kPresented else capabilities.

Definition when_observed (m : M t unit) : M t unit := let! s := mget in mwhen (context_observed_ (context s)) m.

Definition UpdatePresentationCapabilities : M t unit :=
  let! s := mget in
  let capabilities := ConstructPresentationCapabilities (context s) in
  let capabilities_changed := negb (presentation_capabilities_ (context s) =? capabilities)%Z in
  mwhen capabilities_changed
    (when_observed (OverlayPresentationContextWillChangePresentationCapabilities capabilities)) ;;;
  on_context (with_presentation_capabilities capabilities) ;;;
  mwhen capabilities_changed (when_observed OverlayPresentationContextDidChangePresentationCapabilities).

Definition context_SetDelegate (d : option positive) : M t unit :=
  let! s := mget in
  if bool_decide (delegate (context s) = d) then mreturn tt
  else
    on_context (fun c => with_presentation_context_view_controller None (with_container_view_controller None c)) ;;;
    UpdatePresentationCapabilities ;;;
    on_context (with_context_delegate d) ;;;
    SetPresentationContext (bool_decide (is_Some d)).
Definition SetWindow (window : option positive) : M t unit :=
  let! s := mget in
  if bool_decide (window_ (context s) = window) then mreturn tt
  else
    on_context (with_window window) ;;;
    when_observed (OverlayPresentationContextDidMoveToWindow window).
Definition SetContainerViewController (view_controller : option positive) : M t unit :=
  let! s := mget in
  if bool_decide (container_view_controller_ (context s) = view_controller) then mreturn tt
  else on_context (with_container_view_controller view_controller) ;;; UpdatePresentationCapabilities.
Definition SetPresentationContextViewController (view_controller : option positive) : M t unit :=
  let! s := mget in
  if bool_decide (presentation_context_view_controller_ (context s) = view_controller) then mreturn tt
  else on_context (with_presentation_context_view_controller view_controller) ;;; UpdatePresentationCapabilities.
Definition SetUIDisabled (disabled : bool) : M t unit :=
  let! s := mget in
  if bool_decide (ui_disabled_ (context s) = disabled) then mreturn tt
  else
    on_context (with_ui_disabled disabled) ;;;
    UpdatePresentationCapabilities ;;;
    mwhen (negb disabled) (when_observed OverlayPresentationContextDidEnableUI).

End Env.
End OverlayOps.
