(* ===== verification/OverlayProofs.v ===== *)
(** * Overlays: what a call shows

    The coordinators dismiss their UI at once. The state is then settled between
    the calls: the request that is shown is the front request of the active
    WebState, and it is shown if the context can show it. This file has the
    presentation and the dismissal of a request; OverlayTheorems.v has the
    calls. *)

From stdpp Require Import base tactics option list numbers gmap.
From Stdlib Require Import ZArith Lia.
From S2P Require Import Prelude.
From S2P Require Import WebStateListModel.
From S2P Require Import OverlayState.
From S2P Require Import OverlayOps.

Module OverlayProofs.
Import OverlayOps.

Section Proofs.
Context `{H : OverlayEnv} `{Hfinish : !FinishAtOnce}.
Implicit Types (s : t) (r : RequestId) (ws : WebState).

(** ** What the state says *)

Definition front s ws : option RequestId :=
  match queues_ s !! ws with Some q => request <$> head (request_storages_ q) | None => None end.
Definition active_request s : option RequestId := active_web_state_ (presenter s) ≫= front s.
Definition required r : Capabilities := if uses_child_view_controller r then kContained else kPresented.
Definition can_show r (c : Capabilities) : bool := negb (Z.land c (required r) =? 0)%Z.

(** The requests of the queues are alive, know their WebState and are in one
    place; [x] is the one that is removed and kept until its UI is dismissed. The
    WebStates of the list have a queue that gives its requests to the presenter. *)
Record wf (x : option RequestId) s : Prop := {
  wf_storages ws q st : queues_ s !! ws = Some q -> st ∈ request_storages_ q ->
    queue_web_state_ <$> requests s !! request st = Some (Some ws);
  wf_nodup ws q : queues_ s !! ws = Some q -> NoDup (request <$> request_storages_ q);
  wf_requests r R : requests s !! r = Some R -> x <> Some r ->
    exists ws q, queue_web_state_ R = Some ws /\ queues_ s !! ws = Some q /\ r ∈ request <$> request_storages_ q;
  wf_removed r : x = Some r -> is_Some (requests s !! r) /\
    forall ws q, queues_ s !! ws = Some q -> r ∉ request <$> request_storages_ q;
  wf_destroyed ws : ws ∈ destroyed s -> queues_ s !! ws = None;
  wf_active ws : active_web_state_ (presenter s) = Some ws -> is_Some (queues_ s !! ws);
  wf_replaced : detached_queue_replaced_delegate_ (presenter s) = false;
  wf_observed : context_observed_ (context s) = presentation_context_ (presenter s)
}.

(** What the presentation and the dismissal of a UI leave as it is. *)
Record world s s' : Prop := {
  world_queues : queues_ s' = queues_ s;
  world_shape : queue_web_state_ <$> requests s' = queue_web_state_ <$> requests s;
  world_destroyed : destroyed s' = destroyed s;
  world_list : web_state_list_ s' = web_state_list_ s;
  world_active : active s' = active s;
  world_active_web_state : active_web_state_ (presenter s') = active_web_state_ (presenter s);
  world_context : presentation_context_ (presenter s') = presentation_context_ (presenter s);
  world_replaced : detached_queue_replaced_delegate_ (presenter s') = detached_queue_replaced_delegate_ (presenter s);
  world_detaching : detaching_presenting_web_state_ (presenter s') = detaching_presenting_web_state_ (presenter s);
  world_detached : detached_presenting_request_queue_ (presenter s') = detached_presenting_request_queue_ (presenter s);
  world_awaiting : removed_request_awaiting_dismissal_ (presenter s') = removed_request_awaiting_dismissal_ (presenter s);
  world_capabilities : presentation_capabilities_ (context s') = presentation_capabilities_ (context s);
  world_observed : context_observed_ (context s') = context_observed_ (context s)
}.

#[export] Instance world_preorder : PreOrder world.
Proof. split; [by split|]. intros s1 s2 s3 [] []. split; by etransitivity. Qed.

Lemma world_log s l : world s (with_log l s).
Proof. by split. Qed.

Lemma shape_lookup s s' r : queue_web_state_ <$> requests s' = queue_web_state_ <$> requests s ->
  queue_web_state_ <$> requests s' !! r = queue_web_state_ <$> requests s !! r.
Proof. intros E. rewrite <- !lookup_fmap. by rewrite E. Qed.

Lemma shape_alive s s' r : queue_web_state_ <$> requests s' = queue_web_state_ <$> requests s ->
  is_Some (requests s' !! r) <-> is_Some (requests s !! r).
Proof. intros E. pose proof (shape_lookup s s' r E) as El. rewrite <- (fmap_is_Some queue_web_state_), El. by rewrite fmap_is_Some. Qed.

Lemma wf_world x s s' : wf x s -> world s s' -> wf x s'.
Proof.
  intros Hw Hs. pose proof (world_shape _ _ Hs) as Hsh.
  destruct Hw as [H1 H2 H3 H4 H5 H6 H7 H8], Hs as [Eq _ Ed El Ea Ew Ec Er _ _ _ _ Eo].
  split; rewrite ?Eq, ?Ed, ?Ew, ?Ec, ?Er, ?Eo; try done.
  - intros ws q st Hq Hst. rewrite (shape_lookup s s') by done. eauto.
  - intros r R HR Hx. assert (queue_web_state_ <$> requests s !! r = Some (queue_web_state_ R)) as E.
    { by rewrite <- (shape_lookup s s') by done; rewrite HR. }
    apply fmap_Some in E as (R' & HR' & EW). destruct (H3 r R' HR' Hx) as (ws & q & ? & ? & ?). exists ws, q. by rewrite EW.
  - intros r Hx. rewrite (shape_alive s s') by done. by apply H4.
Qed.

Lemma front_world s s' ws : world s s' -> front s' ws = front s ws.
Proof. intros Hs. unfold front. by rewrite (world_queues _ _ Hs). Qed.
Lemma active_request_world s s' : world s s' -> active_request s' = active_request s.
Proof.
  intros Hs. unfold active_request. rewrite (world_active_web_state _ _ Hs).
  destruct (active_web_state_ (presenter s)) as [ws|]; [|done]. cbn. by apply front_world.
Qed.

Lemma wf_front_alive x s ws r : wf x s -> front s ws = Some r -> is_Some (requests s !! r).
Proof.
  unfold front. intros Hw. destruct (queues_ s !! ws) as [q|] eqn:Eq; [|done].
  destruct (request_storages_ q) as [|st sts] eqn:Es; [done|]. intros [= <-].
  eapply fmap_is_Some. rewrite (wf_storages _ _ Hw ws q st Eq); [eauto|]. rewrite Es. by left.
Qed.
Lemma wf_active_alive x s r : wf x s -> active_request s = Some r -> is_Some (requests s !! r).
Proof.
  intros Hw. unfold active_request. destruct (active_web_state_ (presenter s)) as [ws|]; [|done]. by apply (wf_front_alive x).
Qed.

(** ** Reading *)

Lemma get_request_run s r R : requests s !! r = Some R -> get_request r s = Ok (R, s).
Proof. unfold get_request, mbind, mget, deref. by intros ->. Qed.
Lemma get_queue_run s ws q : queues_ s !! ws = Some q -> get_queue ws s = Ok (q, s).
Proof. unfold get_queue, mbind, mget, deref. by intros ->. Qed.
Lemma GetQueueForWebState_run s ws q : queues_ s !! ws = Some q -> GetQueueForWebState ws s = Ok (q, s).
Proof. unfold GetQueueForWebState, mbind, mget. by intros ->. Qed.

Lemma GetRequest_run s ws q i st : queues_ s !! ws = Some q -> request_storages_ q !! i = Some st ->
  GetRequest ws i s = Ok (request st, s).
Proof.
  intros Hq Hi. unfold GetRequest. rewrite (mbind_run _ _ s q s) by by apply get_queue_run.
  unfold dcheck, mbind, of_option, size. rewrite (proj2 (Nat.ltb_lt _ _)) by by eapply lookup_lt_Some. by rewrite Hi.
Qed.

Lemma front_request_run s ws : is_Some (queues_ s !! ws) -> front_request ws s = Ok (front s ws, s).
Proof.
  intros [q Hq]. unfold front_request, front. rewrite (mbind_run _ _ s q s) by by apply get_queue_run. rewrite Hq. unfold size.
  destruct (request_storages_ q) as [|st sts] eqn:Es; [done|]. rewrite bool_decide_false by done.
  by rewrite (mbind_run _ _ s (request st) s) by (eapply GetRequest_run; [done|by rewrite Es]).
Qed.

Lemma GetFrontRequest_run s ws : is_Some (queues_ s !! ws) -> GetFrontRequestForWebState (Some ws) s = Ok (front s ws, s).
Proof.
  intros [q Hq]. cbn [GetFrontRequestForWebState]. rewrite (mbind_run _ _ s q s) by by apply GetQueueForWebState_run.
  by apply front_request_run; rewrite Hq.
Qed.

Lemma GetActiveRequest_run x s : wf x s -> GetActiveRequest s = Ok (active_request s, s).
Proof.
  intros Hw. unfold GetActiveRequest, active_request. rewrite (mbind_run _ _ s s s) by done.
  destruct (active_web_state_ (presenter s)) as [ws|] eqn:Ea; [|done]. cbn. by apply GetFrontRequest_run, (wf_active _ _ Hw).
Qed.

Lemma CanShow_with_run s r c : is_Some (requests s !! r) -> CanShowUIForRequest_with r c s = Ok (can_show r c, s).
Proof.
  intros [R HR]. unfold CanShowUIForRequest_with, GetRequiredPresentationCapabilities, RequestUsesChildViewController.
  by rewrite !mbind_assoc, (mbind_run _ _ s R s) by by apply get_request_run.
Qed.
Lemma CanShow_run s r : is_Some (requests s !! r) ->
  CanShowUIForRequest r s = Ok (can_show r (presentation_capabilities_ (context s)), s).
Proof. intros. unfold CanShowUIForRequest. rewrite (mbind_run _ _ s s s) by done. by apply CanShow_with_run. Qed.

Lemma notify_observers_run s r e : is_Some (requests s !! r) ->
  exists l, notify_observers r e s = Ok (tt, with_log l s).
Proof.
  intros Hr. unfold notify_observers. rewrite (mbind_run _ _ s s s) by done.
  assert (forall os s', requests s' = requests s -> exists l, mfor os (fun o => get_request r ;;; mwhen (is_request_supported o r) (effect (e o))) s' =
    Ok (tt, with_log l s')) as Hl; [|by apply Hl].
  induction os as [|o os IH]; intros s' Er; cbn [mfor]; [exists (log s'); by destruct s'|].
  destruct Hr as [R HR]. rewrite mbind_assoc, (mbind_run _ _ s' R s') by (apply get_request_run; by rewrite Er).
  destruct (is_request_supported o r); cbn [mwhen]; [|by apply IH].
  unfold effect at 1. rewrite (mbind_run _ _ _ tt (with_log (log s' ++ [e o]) s')) by done.
  destruct (IH (with_log (log s' ++ [e o]) s') Er) as (l & E'). rewrite E'. by exists l.
Qed.

(** ** What is shown *)

(** Only the request of the context has a dismissal callback, and it has a
    coordinator then. *)
Record context_ok (c : Context) : Prop := {
  context_callback r u : states_ c !! r = Some u -> presentation_callback_ u = false /\
    (is_Some (dismissal_callback_ u) -> request_ c = Some r /\ is_Some (coordinator_ u));
  context_request r : request_ c = Some r -> is_Some (states_ c !! r)
}.

Definition no_callback (c : Context) : Prop := forall r u, states_ c !! r = Some u -> dismissal_callback_ u = None.

Definition idle s : Prop :=
  presenting_ (presenter s) = false /\ presented_request_ (presenter s) = None /\ no_callback (context s).

Definition showing_with (reason : OverlayDismissalReason) r s : Prop :=
  presenting_ (presenter s) = true /\ presented_request_ (presenter s) = Some r /\
  presentation_context_ (presenter s) = true /\ request_ (context s) = Some r /\
  exists u ws, states_ (context s) !! r = Some u /\ dismissal_callback_ u = Some ws /\ dismissal_reason_ u = reason /\
    queue_web_state_ <$> requests s !! r = Some (Some ws).
Definition showing : RequestId -> t -> Prop := showing_with kUserInteraction.

(** What showing and hiding leaves of the context. *)
Definition context_frame (c c' : Context) : Prop :=
  delegate c' = delegate c /\ container_view_controller_ c' = container_view_controller_ c /\
  presentation_context_view_controller_ c' = presentation_context_view_controller_ c /\
  ui_disabled_ c' = ui_disabled_ c /\ presentation_capabilities_ c' = presentation_capabilities_ c /\
  context_observed_ c' = context_observed_ c /\ window_ c' = window_ c.

Lemma not_showing s : no_callback (context s) -> IsShowingOverlayUI s = false.
Proof.
  intros Hn. unfold IsShowingOverlayUI, GetRequestUIState. destruct (request_ (context s)) as [r|]; [|done]. cbn.
  destruct (states_ (context s) !! r) as [u|] eqn:Eu; [|done]. unfold has_callback. by rewrite (Hn r u Eu).
Qed.

Definition with_state r (u : UIState) s : t :=
  with_context (with_states (<[r := u]> (states_ (context s))) (context s)) s.

Lemma with_state_twice r u u' s l : with_state r u' (with_log l (with_state r u s)) = with_log l (with_state r u' s).
Proof. destruct s as [? ? ? ? ? ? [] ?]. unfold with_state. cbn. unfold with_context, with_states. cbn. by rewrite insert_insert_eq. Qed.

Lemma with_state_again r u u' s : with_state r u' (with_state r u s) = with_state r u' s.
Proof. destruct s as [? ? ? ? ? ? [] ?]. unfold with_state. cbn. unfold with_context, with_states. cbn. by rewrite insert_insert_eq. Qed.

Lemma state_presented_run s r u :
  is_Some (requests s !! r) -> states_ (context s) !! r = Some u -> presentation_callback_ u = true ->
  presentation_context_ (presenter s) = true -> presented_request_ (presenter s) = Some r ->
  exists l, state_OverlayUIWasPresented r s =
    Ok (tt, with_log l (with_state r (mkUIState (coordinator_ u) true false (dismissal_reason_ u) (dismissal_callback_ u)) s)).
Proof.
  intros Hr Eu Hc Hp Hq. unfold state_OverlayUIWasPresented. rewrite (mbind_run _ _ s s s) by done. rewrite Eu.
  rewrite (mbind_run _ _ s u s) by done.
  set (u' := with_presentation_callback false (with_has_ui_been_presented true u)).
  rewrite (mbind_run _ _ s tt (with_state r u' s)) by done. rewrite Hc.
  rewrite (mbind_run _ _ _ tt (with_state r u' s)) by done. unfold OverlayWasPresented.
  rewrite (mbind_run _ _ (with_state r u' s) (with_state r u' s) (with_state r u' s)) by done. cbn [with_state with_context presenter].
  rewrite Hp, Hq. unfold dcheck. rewrite bool_decide_true by done. cbn [mbind].
  destruct (notify_observers_run (with_state r u' s) r (fun o => DidShowOverlay o r)) as (l & E); [done|]. exists l.
  unfold mbind. rewrite E. by destruct u.
Qed.

Lemma GetBaseViewController_run s r : is_Some (requests s !! r) -> exists base, GetBaseViewController r s = Ok (base, s).
Proof.
  intros [R HR]. unfold GetBaseViewController, RequestUsesChildViewController.
  rewrite !mbind_assoc, (mbind_run _ _ s R s) by by apply get_request_run. by eexists.
Qed.

Lemma ShowUI_run s r u :
  is_Some (requests s !! r) -> request_ (context s) = Some r -> states_ (context s) !! r = Some u ->
  presentation_callback_ u = true -> can_show r (presentation_capabilities_ (context s)) = true ->
  presentation_context_ (presenter s) = true -> presented_request_ (presenter s) = Some r ->
  exists l base, ShowUIForPresentedRequest s =
    Ok (tt, with_log l (with_state r (mkUIState (Some base) true false (dismissal_reason_ u) (dismissal_callback_ u)) s)).
Proof.
  intros Hr Er Eu Hc Hs Hp Hq. unfold ShowUIForPresentedRequest. rewrite (mbind_run _ _ s s s) by done. rewrite Er.
  rewrite (mbind_run _ _ s tt s) by done. rewrite (mbind_run _ _ s r s) by done.
  rewrite (mbind_run _ _ s _ s) by by apply CanShow_run. rewrite Hs. rewrite (mbind_run _ _ s tt s) by done.
  rewrite (mbind_run _ _ s s s) by done. rewrite (mbind_run _ _ s u s) by (unfold GetRequestUIState; cbn; by rewrite Eu).
  destruct (GetBaseViewController_run s r Hr) as (base & Eb). rewrite (mbind_run _ _ s base s) by done.
  set (s1 := if bool_decide (coordinator_ u = Some base) then s else with_state r (with_coordinator (Some base) u) s).
  rewrite (mbind_run _ _ s tt s1) by (subst s1; by case_bool_decide).
  set (s2 := with_log (log s1 ++ [CoordinatorStart r (negb (has_ui_been_presented_ u))]) s1).
  rewrite (mbind_run _ _ s1 tt s2) by done. subst s1 s2. case_bool_decide as Eq.
  - edestruct (state_presented_run (with_log (log s ++ [CoordinatorStart r (negb (has_ui_been_presented_ u))]) s) r u) as (l & E); [done..|].
    exists l, base. rewrite E, Eq. by destruct s.
  - set (s1 := with_state r (with_coordinator (Some base) u) s).
    edestruct (state_presented_run (with_log (log s1 ++ [CoordinatorStart r (negb (has_ui_been_presented_ u))]) s1) r
      (with_coordinator (Some base) u)) as (l & E); [done|apply lookup_insert_eq|done..|].
    exists l, base. rewrite E. subst s1. by rewrite with_state_twice.
Qed.

Lemma OverlayPresentionRequested_run s r ws u :
  states_ (context s) !! r = Some u -> presentation_callback_ u = false -> dismissal_callback_ u = None ->
  OverlayPresentionRequested r ws s =
    Ok (tt, with_state r (mkUIState (coordinator_ u) (has_ui_been_presented_ u) true kUserInteraction (Some ws)) s).
Proof.
  intros Eu Hp Hd. unfold OverlayPresentionRequested. rewrite (mbind_run _ _ s s s) by done.
  rewrite (mbind_run _ _ s u s) by (unfold GetRequestUIState; cbn; by rewrite Eu).
  unfold has_callback. rewrite Hp, Hd. by destruct u.
Qed.

(** The state of the previous request is forgotten unless it was hidden. *)
Definition without_old (c : Context) : Context :=
  match request_ c with
  | Some old =>
      match states_ c !! old with
      | Some u => if bool_decide (dismissal_reason_ u = kHiding) then c else with_states (delete old (states_ c)) c
      | None => c
      end
  | None => c
  end.

Lemma without_old_spec c :
  context_frame c (without_old c) /\ request_ (without_old c) = request_ c /\
  (forall r u, states_ (without_old c) !! r = Some u -> states_ c !! r = Some u) /\
  forall r, request_ c <> Some r -> states_ (without_old c) !! r = states_ c !! r.
Proof.
  unfold without_old. destruct (request_ c) as [old|] eqn:Er; [|by split_and!]. destruct (states_ c !! old) as [u|]; [|by split_and!].
  case_bool_decide; [by split_and!|]. split_and!; [done..|done| |].
  - intros r u' Hu. cbn in Hu. by apply lookup_delete_Some in Hu as [_ Hu].
  - intros r Hr. cbn. rewrite lookup_delete_ne; [done|congruence].
Qed.

Lemma forget_old_run s (k : unit -> M t unit) :
  (forall r, request_ (context s) = Some r -> exists u, states_ (context s) !! r = Some u /\ dismissal_callback_ u = None) ->
  mbind (match request_ (context s) with
    | None => mreturn tt
    | Some old =>
        dcheck (bool_decide (is_Some (GetRequestUIState (Some old) s))) ;;;
        let! state := deref (GetRequestUIState (Some old) s) in
        dcheck (negb (has_callback state)) ;;;
        dcheck (negb (view_has_superview old)) ;;;
        let reason := dismissal_reason_ state in
        mwhen (bool_decide (reason = kUserInteraction) || bool_decide (reason = kCancellation))
          (on_context (fun c => with_states (delete old (states_ c)) c))
    end) k s = k tt (with_context (without_old (context s)) s).
Proof.
  intros Hok. unfold without_old. destruct (request_ (context s)) as [old|] eqn:Er; [|by destruct s].
  destruct (Hok old eq_refl) as (u & Eu & Hu). rewrite Eu.
  assert (GetRequestUIState (Some old) s = Some u) as -> by done.
  unfold mbind, dcheck, deref, has_callback, mwhen. rewrite Hu, view_removed.
  destruct (dismissal_reason_ u); repeat (rewrite bool_decide_true by eauto || rewrite bool_decide_false by done || cbn); by destruct s.
Qed.

Lemma SetRequest_None_run s :
  request_ (context s) <> None ->
  (forall r, request_ (context s) = Some r -> exists u, states_ (context s) !! r = Some u /\ dismissal_callback_ u = None) ->
  exists l, SetRequest None s = Ok (tt, with_log l (with_context (with_context_request None (without_old (context s))) s)).
Proof.
  intros Hr Hok. unfold SetRequest. rewrite (mbind_run _ _ s s s) by done. rewrite bool_decide_false by done.
  rewrite forget_old_run by done. by eexists.
Qed.

Lemma SetRequest_Some_run s r u :
  request_ (context s) <> Some r ->
  (forall r, request_ (context s) = Some r -> exists u, states_ (context s) !! r = Some u /\ dismissal_callback_ u = None) ->
  is_Some (requests s !! r) -> states_ (context s) !! r = Some u ->
  presentation_callback_ u = true -> can_show r (presentation_capabilities_ (context s)) = true ->
  presentation_context_ (presenter s) = true -> presented_request_ (presenter s) = Some r ->
  exists l base, SetRequest (Some r) s =
    Ok (tt, with_log l (with_context (with_states (<[r := mkUIState (Some base) true false (dismissal_reason_ u) (dismissal_callback_ u)]>
      (states_ (without_old (context s)))) (with_context_request (Some r) (without_old (context s)))) s)).
Proof.
  intros Hr Hok Ha Eu Hc Hs Hp Hq. destruct (without_old_spec (context s)) as (Hf & _ & _ & Hst).
  unfold SetRequest. rewrite (mbind_run _ _ s s s) by done. rewrite bool_decide_false by done.
  rewrite forget_old_run by done. set (s1 := with_context (with_context_request (Some r) (without_old (context s))) s).
  rewrite (mbind_run _ _ _ tt s1) by done. rewrite (mbind_run _ _ s1 s1 s1) by done.
  assert (states_ (context s1) !! r = Some u) as Eu1 by (subst s1; cbn; by rewrite Hst).
  rewrite (mbind_run _ _ s1 tt s1) by (unfold GetRequestUIState, dcheck; cbn [option_bind]; cbn; by rewrite Hst, Eu by done).
  destruct (ShowUI_run s1 r u) as (l & base & E); [done..| |done|done|].
  - subst s1. cbn. destruct Hf as (_ & _ & _ & _ & -> & _). done.
  - exists l, base. rewrite E. done.
Qed.

Lemma context_request_no_callback c r :
  context_ok c -> no_callback c -> request_ c = Some r -> exists u, states_ c !! r = Some u /\ dismissal_callback_ u = None.
Proof. intros Hok Hn Hr. destruct (context_request _ Hok r Hr) as [u Hu]. eauto. Qed.

Lemma ShowOverlayUI_run s r ws :
  is_Some (requests s !! r) -> context_ok (context s) -> no_callback (context s) -> request_ (context s) <> Some r ->
  can_show r (presentation_capabilities_ (context s)) = true ->
  presentation_context_ (presenter s) = true -> presented_request_ (presenter s) = Some r ->
  exists l c, ShowOverlayUI r ws s = Ok (tt, with_log l (with_context c s)) /\
    context_frame (context s) c /\ context_ok c /\ request_ c = Some r /\
    exists u, states_ c !! r = Some u /\ dismissal_callback_ u = Some ws /\ dismissal_reason_ u = kUserInteraction.
Proof.
  intros Ha Hok Hn Hr Hs Hp Hq. unfold ShowOverlayUI. rewrite (mbind_run _ _ s s s) by done.
  rewrite (mbind_run _ _ s tt s) by (unfold dcheck; by rewrite not_showing).
  rewrite (mbind_run _ _ s _ s) by by apply CanShow_run. rewrite Hs. rewrite (mbind_run _ _ s tt s) by done.
  set (u := default (mkUIState None false false kUserInteraction None) (states_ (context s) !! r)).
  assert (presentation_callback_ u = false /\ dismissal_callback_ u = None) as [Hu1 Hu2].
  { subst u. destruct (states_ (context s) !! r) as [u|] eqn:Eu; [|done]. cbn. split; [by eapply Hok|by eapply Hn]. }
  assert (exists s1, mwhen (negb (bool_decide (is_Some (GetRequestUIState (Some r) s))))
      (set_state r (mkUIState None false false kUserInteraction None)) s = Ok (tt, s1) /\
      states_ (context s1) !! r = Some u /\ forall v, with_state r v s1 = with_state r v s) as (s1 & E1 & Eu & Hv).
  { unfold GetRequestUIState. cbn. subst u. destruct (states_ (context s) !! r) as [u|] eqn:Eu.
    - exists s. rewrite bool_decide_true by eauto. done.
    - exists (with_state r (mkUIState None false false kUserInteraction None) s).
      rewrite bool_decide_false by (by intros [? ?]). split; [done|]. split; [apply lookup_insert_eq|]. intros v.
      apply with_state_again. }
  rewrite (mbind_run _ _ s tt s1) by done. rewrite (mbind_run _ _ s1 tt _) by by apply OverlayPresentionRequested_run.
  rewrite Hv. set (u1 := mkUIState (coordinator_ u) (has_ui_been_presented_ u) true kUserInteraction (Some ws)).
  set (s2 := with_state r u1 s).
  destruct (SetRequest_Some_run s2 r u1) as (l & base & E); [done| |done|apply lookup_insert_eq|done..|].
  { intros r' Hr'. destruct (context_request_no_callback _ r' Hok Hn Hr') as (u' & Eu' & Hu'). exists u'. split; [|done].
    subst s2. cbn. rewrite lookup_insert_ne; [done|]. intros ->. done. }
  destruct (without_old_spec (context s2)) as (Hf & _ & Hst & Hst').
  rewrite E. eexists l, _. split; [unfold s2; done|]. split; [exact Hf|]. split; [|split; [done|]].
  - split; cbn.
    + intros r' u' [[<- <-]|[Hne Hu']]%lookup_insert_Some; [done|]. apply Hst in Hu'. subst s2. cbn in Hu'.
      rewrite lookup_insert_ne in Hu' by done. split; [by eapply Hok|]. intros Hd. rewrite (Hn _ _ Hu') in Hd. by destruct Hd.
    + intros r' [= <-]. rewrite lookup_insert_eq. eauto.
  - eexists. split; [apply lookup_insert_eq|done].
Qed.

Lemma AddCompletionCallback_run s r c : is_Some (requests s !! r) ->
  exists reqs, AddCompletionCallback r c s = Ok (tt, with_requests reqs s) /\
    queue_web_state_ <$> reqs = queue_web_state_ <$> requests s.
Proof.
  intros [R HR]. unfold AddCompletionCallback. rewrite (mbind_run _ _ s R s) by by apply get_request_run.
  eexists. split; [done|]. apply map_eq. intros r'. rewrite !lookup_fmap. destruct (decide (r' = r)) as [->|Hne].
  - rewrite lookup_alter_eq, HR. done.
  - by rewrite lookup_alter_ne.
Qed.

Lemma wf_front_state x s ws r : wf x s -> front s ws = Some r -> queue_web_state_ <$> requests s !! r = Some (Some ws).
Proof.
  unfold front. intros Hw. destruct (queues_ s !! ws) as [q|] eqn:Eq; [|done].
  destruct (request_storages_ q) as [|st sts] eqn:Es; [done|]. intros [= <-].
  apply (wf_storages _ _ Hw ws q st Eq). rewrite Es. by left.
Qed.

Lemma PrepareToShow_run s r : is_Some (requests s !! r) -> exists l, PrepareToShowOverlayUI r s = Ok (tt, with_log l s).
Proof.
  intros Ha. unfold PrepareToShowOverlayUI. rewrite (mbind_run _ _ s _ s) by by apply CanShow_run.
  destruct (can_show _ _); [exists (log s); by destruct s|]. destruct Ha as [R HR].
  unfold GetRequiredPresentationCapabilities, RequestUsesChildViewController.
  rewrite !mbind_assoc, (mbind_run _ _ s R s) by by apply get_request_run. by eexists.
Qed.

(** The presentation shows the active request if the context can show it, and
    else changes nothing. *)
Definition to_show s : option RequestId :=
  if presentation_context_ (presenter s) then
    match active_request s with
    | Some r => if can_show r (presentation_capabilities_ (context s)) then Some r else None
    | None => None
    end
  else None.

Lemma Present_run x s :
  wf x s -> context_ok (context s) -> idle s -> (active_request s = None \/ request_ (context s) <> active_request s) ->
  exists s', PresentOverlayForActiveRequest s = Ok (tt, s') /\ world s s' /\ context_ok (context s') /\
    match to_show s with
    | Some r => showing r s'
    | None => exists l, s' = with_log l s
    end.
Proof.
  intros Hw Hok (Hi1 & Hi2 & Hi3) Hne. unfold PresentOverlayForActiveRequest, to_show. rewrite (mbind_run _ _ s s s) by done.
  rewrite not_showing, orb_false_r by done. destruct (presentation_context_ (presenter s)) eqn:Ep; cbn [negb].
  2: { exists s. split_and!; [done..|]. exists (log s). by destruct s. }
  rewrite (mbind_run _ _ s _ s) by by eapply GetActiveRequest_run.
  destruct (active_request s) as [r|] eqn:Er.
  2: { exists s. split_and!; [done..|]. exists (log s). by destruct s. }
  destruct Hne as [|Hne]; [done|].
  assert (is_Some (requests s !! r)) as Ha by by eapply wf_active_alive.
  rewrite (mbind_run _ _ s _ s) by by apply CanShow_run.
  destruct (can_show r (presentation_capabilities_ (context s))) eqn:Es; cbn [negb].
  2: { destruct (PrepareToShow_run s r Ha) as (l & E). exists (with_log l s). split_and!; [done|apply world_log|done|by exists l]. }
  rewrite (mbind_run _ _ s s s) by done. rewrite Hi1. rewrite (mbind_run _ _ s tt s) by done.
  set (s1 := with_presenter (with_presented_request (Some r) (with_presenting true (presenter s))) s).
  rewrite (mbind_run _ _ s tt s1) by done.
  edestruct (notify_observers_run s1 r) as (l1 & E1); [done|]. rewrite (mbind_run _ _ s1 tt (with_log l1 s1)) by exact E1. clear E1.
  set (s2 := with_presenter (with_previously_presented_requests ({[r]} ∪ previously_presented_requests_ (presenter s1)) (presenter s1)) (with_log l1 s1)).
  rewrite (mbind_run _ _ (with_log l1 s1) tt s2) by done.
  destruct (AddCompletionCallback_run s2 r PresenterCompleted) as (reqs & E3 & Hreqs); [done|].
  rewrite (mbind_run _ _ s2 tt (with_requests reqs s2)) by done.
  rewrite (mbind_run _ _ _ (with_requests reqs s2) (with_requests reqs s2)) by done.
  unfold active_request in Er. destruct (active_web_state_ (presenter s)) as [ws|] eqn:Ew; [|done]. cbn in Er.
  destruct (wf_active _ _ Hw ws Ew) as [q Hq].
  rewrite (mbind_run _ _ _ ws (with_requests reqs s2)) by (unfold s2; cbn; by rewrite Ew).
  rewrite (mbind_run _ _ _ q (with_requests reqs s2)) by by apply GetQueueForWebState_run.
  assert (queue_web_state_ <$> reqs !! r = Some (Some ws)) as Hrw.
  { rewrite <- lookup_fmap, Hreqs. cbn. rewrite lookup_fmap. by apply (wf_front_state x). }
  destruct (ShowOverlayUI_run (with_requests reqs s2) r ws) as (l & c & E & (Hf1 & Hf2 & Hf3 & Hf4 & Hf5 & Hf6 & Hf7) & Hok' & Hr' & u & Hu & Hd & Hre); try done.
  { cbn. destruct (reqs !! r); [eauto|done]. }
  eexists. split; [exact E|]. split; [by split|]. split; [exact Hok'|]. repeat split; [done..|].
  exists u, ws. by split_and!.
Qed.

End Proofs.
End OverlayProofs.
