(* ===== verification/OverlayDismissal.v ===== *)
(** * Overlays: the dismissal of a UI

    What the dismissal of the UI that is shown does, for each reason, to the
    requests, the queues and what is shown. *)

From stdpp Require Import base tactics option list numbers gmap.
From Stdlib Require Import ZArith Lia.
From S2P Require Import Prelude.
From S2P Require Import WebStateListModel.
From S2P Require Import OverlayState.
From S2P Require Import OverlayOps.
From S2P Require Import OverlayProofs.

Module OverlayDismissal.
Import OverlayOps.
Export OverlayProofs.

(** The requests that are alive, with their WebStates. *)
Abbreviation shape s := (queue_web_state_ <$> requests s).

Section Proofs.
Context `{H : OverlayEnv} `{Hfinish : !FinishAtOnce}.
Implicit Types (s : t) (r : RequestId) (ws : WebState).

(** What no dismissal changes. *)
Record window s s' : Prop := {
  window_destroyed : destroyed s' = destroyed s;
  window_list : web_state_list_ s' = web_state_list_ s;
  window_active : active s' = active s;
  window_active_web_state : active_web_state_ (presenter s') = active_web_state_ (presenter s);
  window_context : presentation_context_ (presenter s') = presentation_context_ (presenter s);
  window_replaced : detached_queue_replaced_delegate_ (presenter s') = detached_queue_replaced_delegate_ (presenter s);
  window_detaching : detaching_presenting_web_state_ (presenter s') = detaching_presenting_web_state_ (presenter s);
  window_capabilities : presentation_capabilities_ (context s') = presentation_capabilities_ (context s);
  window_observed : context_observed_ (context s') = context_observed_ (context s)
}.

#[export] Instance window_preorder : PreOrder window.
Proof. split; [by split|]. intros s1 s2 s3 [] []. split; by etransitivity. Qed.
Lemma world_window s s' : world s s' -> window s s'.
Proof. intros []. by split. Qed.

(** ** Destroying a request *)

Lemma ExecuteCompletionCallbacks_run s r R : requests s !! r = Some R ->
  exists prev l R', ExecuteCompletionCallbacks r s =
    Ok (tt, with_requests (<[r := R']> (requests s)) (with_log l (with_presenter (with_previously_presented_requests prev (presenter s)) s))) /\
    completion_callbacks_ (callback_manager_ R') = [].
Proof.
  intros HR. unfold ExecuteCompletionCallbacks. rewrite (mbind_run _ _ s R s) by by apply get_request_run.
  assert (forall cs s', requests s' = requests s -> exists prev l,
    mfor cs (fun callback => let! response := GetCompletionResponse r in
      match callback with PresenterCompleted => OverlayWasCompleted r | ClientCallback c => effect (RunCompletionCallback c response) end) s' =
    Ok (tt, with_log l (with_presenter (with_previously_presented_requests prev (presenter s')) s'))) as Hl.
  { induction cs as [|c cs IH]; intros s' Es; cbn [mfor].
    { exists (previously_presented_requests_ (presenter s')), (log s'). by destruct s' as [? ? ? ? ? [] ? ?]. }
    unfold GetCompletionResponse in IH |- *. cbv beta. rewrite !mbind_assoc, (mbind_run _ _ s' R s') by (apply get_request_run; by rewrite Es).
    rewrite (mbind_run _ _ s' (completion_response_ (callback_manager_ R)) s') by done.
    destruct c as [|c].
    - set (s1 := with_presenter (with_previously_presented_requests (previously_presented_requests_ (presenter s') ∖ {[r]}) (presenter s')) s').
      rewrite (mbind_run _ _ s' tt s1) by done. destruct (IH s1 Es) as (prev & l & E). rewrite E. by exists prev, l.
    - set (s1 := with_log (log s' ++ [RunCompletionCallback c (completion_response_ (callback_manager_ R))]) s').
      rewrite (mbind_run _ _ s' tt s1) by done. destruct (IH s1 Es) as (prev & l & E). rewrite E. by exists prev, l. }
  destruct (Hl (completion_callbacks_ (callback_manager_ R)) s eq_refl) as (prev & l & E). rewrite (mbind_run _ _ s tt _) by exact E.
  rewrite (mbind_run _ _ _ R (with_log l (with_presenter (with_previously_presented_requests prev (presenter s)) s))) by by apply get_request_run.
  exists prev, l, (mkRequest (queue_web_state_ R) (mkCallbackManager (completion_response_ (callback_manager_ R)) []
    (dispatch_callbacks_ (callback_manager_ R)))). split; [|done].
  unfold set_manager, mmodify. do 2 f_equal. cbn. unfold with_requests. cbn. f_equal. apply map_eq. intros r'.
  destruct (decide (r' = r)) as [->|]; [by rewrite lookup_alter_eq, HR, lookup_insert_eq|by rewrite lookup_alter_ne, lookup_insert_ne].
Qed.

Lemma destroy_request_run s r : is_Some (requests s !! r) ->
  exists prev l, destroy_request r s =
    Ok (tt, with_requests (delete r (requests s)) (with_log l (with_presenter (with_previously_presented_requests prev (presenter s)) s))).
Proof.
  intros [R HR]. unfold destroy_request. destruct (ExecuteCompletionCallbacks_run s r R HR) as (prev & l & R' & E & Hc).
  rewrite (mbind_run _ _ s tt _) by exact E.
  rewrite (mbind_run _ _ _ R' _) by (apply get_request_run, lookup_insert_eq).
  unfold dcheck, mbind. rewrite Hc, bool_decide_true by done. exists prev, l.
  unfold mmodify. cbn. by rewrite delete_insert_eq.
Qed.

Lemma set_removed_request_run s r : is_Some (requests s !! r) -> removed_request_awaiting_dismissal_ (presenter s) = Some r ->
  exists p l, set_removed_request None s = Ok (tt, with_requests (delete r (requests s)) (with_log l (with_presenter p s))) /\
    exists prev, p = with_previously_presented_requests prev (with_removed_request_awaiting_dismissal None (presenter s)).
Proof.
  intros Hr Ha. unfold set_removed_request. rewrite (mbind_run _ _ s s s) by done. rewrite Ha.
  set (s1 := with_presenter (with_removed_request_awaiting_dismissal None (presenter s)) s). rewrite (mbind_run _ _ s tt s1) by done.
  destruct (destroy_request_run s1 r Hr) as (prev & l & E). rewrite E. eexists _, l. split; [done|by eexists].
Qed.

(** The fields that well-formedness reads besides the queues and the requests. *)
Definition wf_fields s s' : Prop :=
  destroyed s' = destroyed s /\ active_web_state_ (presenter s') = active_web_state_ (presenter s) /\
  detached_queue_replaced_delegate_ (presenter s') = detached_queue_replaced_delegate_ (presenter s) /\
  context_observed_ (context s') = presentation_context_ (presenter s').

Lemma wf_destroy s s' r :
  wf (Some r) s -> queues_ s' = queues_ s -> requests s' = delete r (requests s) -> wf_fields s s' -> wf None s'.
Proof.
  intros [H1 H2 H3 H4 H5 H6 H7 H8] Eq Er (Ed & Ea & Ep & Ho). split; rewrite ?Eq, ?Er, ?Ed, ?Ea, ?Ep; try done.
  - intros ws q st Hq Hst. rewrite lookup_delete_ne; [by eapply H1|]. intros Hrr. destruct (H4 r eq_refl) as [_ Hn].
    apply (Hn ws q Hq). rewrite Hrr. by apply list_elem_of_fmap_2.
  - intros r' R [Hne HR]%lookup_delete_Some _. apply (H3 r' R HR). congruence.
Qed.

Lemma wf_same x s s' : wf x s -> queues_ s' = queues_ s -> requests s' = requests s -> wf_fields s s' -> wf x s'.
Proof. intros [] Eq Er (Ed & Ea & Ep & Ho). split; by rewrite ?Eq, ?Er, ?Ed, ?Ea, ?Ep. Qed.

Lemma wf_erase s s' ws q i st q' :
  wf None s -> queues_ s !! ws = Some q -> request_storages_ q !! i = Some st ->
  request_storages_ q' = erase_at i (request_storages_ q) -> queues_ s' = <[ws := q']> (queues_ s) ->
  requests s' = requests s -> wf_fields s s' -> wf (Some (request st)) s'.
Proof.
  intros [H1 H2 H3 H4 H5 H6 H7 H8] Hq Hi Hq' Eq Er (Ed & Ea & Ep & Ho).
  assert (st ∈ request_storages_ q) as Hst by by eapply list_elem_of_lookup_2.
  assert ((request <$> request_storages_ q) !! i = Some (request st)) as Hi' by (rewrite list_lookup_fmap; by rewrite Hi).
  assert (forall ws2 q2, <[ws := q']> (queues_ s) !! ws2 = Some q2 -> exists q0, queues_ s !! ws2 = Some q0 /\
    (forall r, r ∈ request <$> request_storages_ q2 <-> r ∈ request <$> request_storages_ q0 /\ (ws2 = ws -> r <> request st)) /\
    (forall st', st' ∈ request_storages_ q2 -> st' ∈ request_storages_ q0) /\ NoDup (request <$> request_storages_ q2)) as Hqs.
  { intros ws2 q2 [[<- <-]|[Hne Hq2]]%lookup_insert_Some.
    - exists q. split; [done|]. rewrite Hq', erase_at_fmap. split_and!.
      + intros r. rewrite (elem_of_erase_at i (request st)) by (try done; by eapply H2). naive_solver.
      + intros st' Hs'. rewrite (erase_at_Permutation i st) by done. by right.
      + by eapply NoDup_erase_at; [eapply H2|].
    - exists q2. split; [done|]. split; [naive_solver|]. split; [done|]. by eapply H2. }
  split; rewrite ?Eq, ?Er, ?Ed, ?Ea, ?Ep; try done.
  - intros ws2 q2 st2 Hq2 Hs2. destruct (Hqs ws2 q2 Hq2) as (q0 & Hq0 & _ & Hin & _). eapply H1; [done|by apply Hin].
  - intros ws2 q2 Hq2. by destruct (Hqs ws2 q2 Hq2) as (q0 & _ & _ & _ & Hn).
  - intros r R HR Hne. destruct (H3 r R HR) as (ws2 & q2 & HW & Hq2 & Hr); [done|].
    destruct (decide (ws2 = ws)) as [->|Hws].
    + exists ws, q'. rewrite lookup_insert_eq. split_and!; [done..|]. simplify_eq.
      destruct (Hqs ws q') as (q0 & Hq0 & Hiff & _); [apply lookup_insert_eq|]. simplify_eq. apply Hiff. split; [done|congruence].
    + exists ws2, q2. by rewrite lookup_insert_ne.
  - intros r [= <-]. split.
    + eapply fmap_is_Some. rewrite (H1 ws q st Hq Hst). eauto.
    + intros ws2 q2 Hq2 Hr. destruct (Hqs ws2 q2 Hq2) as (q0 & Hq0 & Hiff & _ & _). destruct (proj1 (Hiff _) Hr) as [Hin Hws].
      apply list_elem_of_fmap in Hin as (st' & Hst1 & Hst2). pose proof (H1 ws2 q0 st' Hq0 Hst2) as E1.
      rewrite <- Hst1, (H1 ws q st Hq Hst) in E1. injection E1 as ->. by apply Hws.
  - intros ws2 Hd. specialize (H5 ws2 Hd). rewrite lookup_insert_None. split; [done|]. intros ->. congruence.
  - intros ws2 Ha. rewrite lookup_insert_is_Some. destruct (decide (ws = ws2)); [by left|right; eauto].
Qed.

Definition shape_without (x : option RequestId) s := match x with Some r => delete r (shape s) | None => shape s end.

(** ** After the dismissal

    The end of [OverlayWasDismissed]. *)

Definition after_dismissal r : M t unit :=
  on_presenter (with_presenting false) ;;;
  on_presenter (with_presented_request None) ;;;
  on_presenter (with_detached_presenting_request_queue None) ;;;
  notify_observers r (fun o => DidHideOverlay o r) ;;;
  set_removed_request None ;;;
  let! active_request := GetActiveRequest in
  mwhen (negb (bool_decide (active_request = Some r))) PresentOverlayForActiveRequest.

Lemma to_show_world s s' : world s s' -> to_show s' = to_show s.
Proof.
  intros Hs. unfold to_show. by rewrite (world_context _ _ Hs), (active_request_world _ _ Hs), (world_capabilities _ _ Hs).
Qed.

(** What is shown once the UI of [r] is dismissed. *)
Definition next_shown r s : option RequestId := if bool_decide (active_request s = Some r) then None else to_show s.

Lemma after_dismissal_run x s r :
  wf x s -> (x = None /\ removed_request_awaiting_dismissal_ (presenter s) = None \/
             x = Some r /\ removed_request_awaiting_dismissal_ (presenter s) = Some r) ->
  is_Some (requests s !! r) -> context_ok (context s) -> no_callback (context s) -> request_ (context s) = Some r ->
  exists s', after_dismissal r s = Ok (tt, s') /\ wf None s' /\ window s s' /\ queues_ s' = queues_ s /\
    shape s' = shape_without x s /\
    detached_presenting_request_queue_ (presenter s') = None /\ removed_request_awaiting_dismissal_ (presenter s') = None /\
    context_ok (context s') /\
    match next_shown r s' with Some r' => showing r' s' | None => idle s' /\ context s' = context s end.
Proof.
  intros Hw Hx Ha Hok Hn Hr. unfold after_dismissal.
  set (p := with_detached_presenting_request_queue None (with_presented_request None (with_presenting false (presenter s)))).
  rewrite (mbind_run _ _ s tt (with_presenter (with_presenting false (presenter s)) s)) by done.
  rewrite (mbind_run _ _ _ tt (with_presenter (with_presented_request None (with_presenting false (presenter s))) s)) by done.
  rewrite (mbind_run _ _ _ tt (with_presenter p s)) by done.
  destruct (notify_observers_run (with_presenter p s) r (fun o => DidHideOverlay o r) Ha) as (l & E).
  rewrite (mbind_run _ _ _ tt _) by exact E. set (s1 := with_log l (with_presenter p s)).
  assert (exists s2, set_removed_request None s1 = Ok (tt, s2) /\ wf None s2 /\ window s1 s2 /\ queues_ s2 = queues_ s1 /\
    shape s2 = shape_without x s1 /\ context s2 = context s1 /\ idle s2 /\
    detached_presenting_request_queue_ (presenter s2) = None /\ removed_request_awaiting_dismissal_ (presenter s2) = None)
    as (s2 & E2 & Hw2 & Hwin & Hq2 & Hsh2 & Hc2 & Hi2 & Hd2 & Ha2).
  { destruct Hx as [[-> Hx]|[-> Hx]].
    - exists (with_presenter (with_removed_request_awaiting_dismissal None (presenter s1)) s1). split_and!; try done.
      + unfold set_removed_request. rewrite (mbind_run _ _ s1 s1 s1) by done. by subst s1 p; cbn; rewrite Hx.
      + eapply wf_same; [exact Hw|done..|]. split_and!; try done. apply Hw.
    - destruct (set_removed_request_run s1 r Ha Hx) as (p' & l' & E2 & prev & Ep). exists (with_requests (delete r (requests s1)) (with_log l' (with_presenter p' s1))).
      subst p'. split_and!; try done.
      + eapply wf_destroy; [exact Hw|done..|]. split_and!; try done. apply Hw.
      + apply fmap_delete. }
  rewrite (mbind_run _ _ s1 tt s2) by exact E2. rewrite (mbind_run _ _ s2 _ s2) by by eapply GetActiveRequest_run.
  assert (window s s2) as Hwin' by (etransitivity; [|exact Hwin]; done).
  destruct (decide (active_request s2 = Some r)) as [Ear|Ear].
  { rewrite bool_decide_true by done. exists s2. split_and!; try done; [by rewrite Hc2|]. unfold next_shown. by rewrite bool_decide_true. }
  rewrite bool_decide_false by done. cbn [negb mwhen].
  destruct (Present_run None s2 Hw2) as (s3 & E3 & Hw3 & Hok3 & H3); [by rewrite Hc2|done|right; rewrite Hc2; cbn; congruence|].
  exists s3. split; [exact E3|]. split; [by eapply wf_world|]. split; [etransitivity; [exact Hwin'|by apply world_window]|].
  split; [by rewrite (world_queues _ _ Hw3)|]. split; [by rewrite (world_shape _ _ Hw3)|].
  split; [by rewrite (world_detached _ _ Hw3)|]. split; [by rewrite (world_awaiting _ _ Hw3)|]. split; [done|].
  unfold next_shown. rewrite (active_request_world _ _ Hw3), bool_decide_false by done.
  rewrite (to_show_world _ _ Hw3). destruct (to_show s2); [done|]. destruct H3 as [l3 ->]. done.
Qed.

(** ** Removing a request from a queue *)

Definition queue_without (q : Queue) (i : nat) r : Queue :=
  with_request_storages (erase_at i (request_storages_ q)) (with_navigation_helpers (filter (fun r' => r' <> r) (navigation_helpers q)) q).

Lemma RemoveRequest_presented cancel s ws q i st cancelled :
  queues_ s !! ws = Some q -> request_storages_ q !! i = Some st -> delegate_ q = Some ThisPresenter ->
  presented_request_ (presenter s) = Some (request st) -> removed_request_awaiting_dismissal_ (presenter s) = None ->
  detached_presenting_request_queue_ (presenter s) = None ->
  RemoveRequest_with cancel ws i cancelled s =
    mbind (mwhen cancelled (cancel (request st))) (fun _ => mreturn tt)
      (with_presenter (with_removed_request_awaiting_dismissal (Some (request st)) (presenter s))
        (with_queues (<[ws := queue_without q i (request st)]> (queues_ s)) s)).
Proof.
  intros Hq Hi Hd Hp Ha Hdet. unfold RemoveRequest_with. rewrite (mbind_run _ _ s q s) by by apply get_queue_run.
  assert (i < size q) as Hlt by by eapply lookup_lt_Some. rewrite (mbind_run _ _ s tt s) by (unfold dcheck; by rewrite (proj2 (Nat.ltb_lt _ _))).
  rewrite (mbind_run _ _ s st s) by (by rewrite Hi). cbn zeta. set (s1 := with_queues (<[ws := queue_without q i (request st)]> (queues_ s)) s).
  rewrite (mbind_run _ _ s tt s1) by done. rewrite Hd. unfold OverlayRequestRemoved_with. rewrite (mbind_run _ _ s1 s1 s1) by done.
  cbn zeta. replace (bool_decide (presented_request_ (presenter s1) = Some (request st))) with true by (by rewrite bool_decide_true).
  cbn [mwhen negb]. rewrite mbind_assoc. unfold set_removed_request. rewrite mbind_assoc, (mbind_run _ _ s1 s1 s1) by done.
  cbn zeta. rewrite mbind_assoc. subst s1. cbn [presenter with_queues]. rewrite Ha. rewrite (mbind_run _ _ _ tt _) by done.
  rewrite mreturn_bind, Hdet. by rewrite bool_decide_false by (by intros [? ?]).
Qed.

Lemma RemoveRequest_other cancel s ws q i st cancelled :
  queues_ s !! ws = Some q -> request_storages_ q !! i = Some st -> delegate_ q = Some ThisPresenter ->
  presented_request_ (presenter s) <> Some (request st) ->
  RemoveRequest_with cancel ws i cancelled s =
    mbind (mwhen cancelled (cancel (request st))) (fun _ => destroy_request (request st))
      (with_queues (<[ws := queue_without q i (request st)]> (queues_ s)) s).
Proof.
  intros Hq Hi Hd Hp. unfold RemoveRequest_with. rewrite (mbind_run _ _ s q s) by by apply get_queue_run.
  assert (i < size q) as Hlt by by eapply lookup_lt_Some. rewrite (mbind_run _ _ s tt s) by (unfold dcheck; by rewrite (proj2 (Nat.ltb_lt _ _))).
  rewrite (mbind_run _ _ s st s) by (by rewrite Hi). cbn zeta. set (s1 := with_queues (<[ws := queue_without q i (request st)]> (queues_ s)) s).
  rewrite (mbind_run _ _ s tt s1) by done. rewrite Hd. unfold OverlayRequestRemoved_with. rewrite (mbind_run _ _ s1 s1 s1) by done.
  cbn zeta. replace (bool_decide (presented_request_ (presenter s1) = Some (request st))) with false by (by rewrite bool_decide_false).
  by cbn [mwhen negb].
Qed.

(** ** The end of a dismissal *)

Lemma showing_alive s reason r : showing_with reason r s -> is_Some (requests s !! r).
Proof. intros (_ & _ & _ & _ & u & ws & _ & _ & _ & Hr). destruct (requests s !! r); [eauto|done]. Qed.

(** The state without the callback of the request that is shown. *)
Definition called_back r (u : UIState) s : t := with_state r (with_dismissal_callback None u) s.

Lemma called_back_ok r u s : context_ok (context s) -> request_ (context s) = Some r -> states_ (context s) !! r = Some u ->
  context_ok (context (called_back r u s)) /\ no_callback (context (called_back r u s)).
Proof.
  intros Hok Hr Hu. split; [split|].
  - intros r' u' Hu'. cbn in Hu'. apply lookup_insert_Some in Hu' as [[<- <-]|[Hne Hu']]; [|by eapply Hok]. split; [by eapply (context_callback _ Hok r u)|]. by intros [? ?].
  - intros r' Hr'. cbn. rewrite lookup_insert_is_Some. destruct (decide (r = r')); [by left|]. right. split; [done|]. by eapply Hok.
  - intros r' u' Hu'. cbn in Hu'. apply lookup_insert_Some in Hu' as [[<- <-]|[Hne Hu']]; [done|]. destruct (dismissal_callback_ u') as [ws|] eqn:E; [|done].
    destruct (context_callback _ Hok r' u' Hu') as [_ [Hrr _]]; [by rewrite E|]. congruence.
Qed.

(** How the presenter gets to the end of [OverlayWasDismissed]: the request was
    popped if the user dismissed it. *)
Definition popped (ws : WebState) (reason : OverlayDismissalReason) r s s' : Prop :=
  if bool_decide (reason = kUserInteraction) then
    exists q st, queues_ s !! ws = Some q /\ head (request_storages_ q) = Some st /\ request st = r /\
      queues_ s' = <[ws := queue_without q 0 r]> (queues_ s)
  else queues_ s' = queues_ s.

Lemma OverlayWasDismissed_run x s r ws reason :
  wf x s -> (x = None /\ removed_request_awaiting_dismissal_ (presenter s) = None \/
             x = Some r /\ removed_request_awaiting_dismissal_ (presenter s) = Some r) ->
  presentation_context_ (presenter s) = true -> presented_request_ (presenter s) = Some r ->
  (reason = kUserInteraction -> x = None /\ detached_presenting_request_queue_ (presenter s) = None /\
     exists q, queues_ s !! ws = Some q /\ delegate_ q = Some ThisPresenter /\ front s ws = Some r) ->
  is_Some (requests s !! r) -> context_ok (context s) -> no_callback (context s) -> request_ (context s) = Some r ->
  exists s', OverlayWasDismissed r ws reason s = Ok (tt, s') /\ wf None s' /\ window s s' /\ popped ws reason r s s' /\
    shape s' = shape_without (if bool_decide (reason = kUserInteraction) then Some r else x) s /\
    detached_presenting_request_queue_ (presenter s') = None /\ removed_request_awaiting_dismissal_ (presenter s') = None /\
    context_ok (context s') /\
    match next_shown r s' with Some r' => showing r' s' | None => idle s' /\ context s' = context s end.
Proof.
  intros Hw Hx Hp Hpr Hu Ha Hok Hn Hr. unfold OverlayWasDismissed. rewrite (mbind_run _ _ s s s) by done.
  rewrite Hp, (wf_replaced _ _ Hw). cbn [negb]. rewrite Hpr. rewrite (mbind_run _ _ s tt s) by (unfold dcheck; by rewrite bool_decide_true).
  fold (after_dismissal r). destruct (decide (reason = kUserInteraction)) as [->|Hru].
  - unfold popped. rewrite bool_decide_true by done. destruct (Hu eq_refl) as (-> & Hd & q & Hq & Hdel & Hf).
    destruct Hx as [[_ Hx]|[? _]]; [|done]. rewrite Hx, Hq. rewrite bool_decide_true by eauto. rewrite bool_decide_false by done. cbn [andb negb mwhen].
    unfold front in Hf. rewrite Hq in Hf. destruct (request_storages_ q) as [|st sts] eqn:Es; [done|]. injection Hf as Hst.
    set (s1 := with_presenter (with_removed_request_awaiting_dismissal (Some r) (presenter s)) (with_queues (<[ws := queue_without q 0 r]> (queues_ s)) s)).
    unfold PopFrontRequest. rewrite mbind_assoc, (mbind_run _ _ s tt s1).
    2: { rewrite (RemoveRequest_presented _ s ws q 0 st) by (try done; by rewrite ?Es, ?Hst). by rewrite Hst. }
    rewrite mbind_assoc.
    rewrite (mbind_run _ _ s1 s1 s1) by done. rewrite (mbind_run _ _ s1 tt s1) by (unfold dcheck; by rewrite bool_decide_true).
    assert (wf (Some r) s1) as Hw1.
    { rewrite <- Hst. apply (wf_erase s s1 ws q 0 st (queue_without q 0 r)); try done; [by rewrite Es|]. split_and!; try done. apply Hw. }
    destruct (after_dismissal_run (Some r) s1 r Hw1) as (s' & E & H1 & H2 & H3 & H4); [by right|done..|].
    exists s'. split; [exact E|]. split; [exact H1|]. split; [etransitivity; [|exact H2]; done|]. split.
    { exists q, st. rewrite Es. by split_and!. }
    split; [apply H4|]. destruct H4 as (_ & ? & ? & ? & ?). done.
  - unfold popped. rewrite !bool_decide_false by done. cbn [andb mwhen].
    destruct (after_dismissal_run x s r Hw Hx Ha Hok Hn Hr) as (s' & E & H1 & H2 & H3 & H4 & H5).
    exists s'. split; [exact E|]. by split_and!; try done; apply H5.
Qed.

(** What is shown is the active request, if there is one that the context can
    show; [settled_but r] allows that it is [r] that is not shown. *)
Definition shown_is (o : option RequestId) s : Prop :=
  match o with Some r => showing r s | None => idle s /\ request_ (context s) = None end.

Record dismissed (x : option RequestId) (ws : WebState) (reason : OverlayDismissalReason) r s s' : Prop := {
  dismissed_wf : wf None s';
  dismissed_window : window s s';
  dismissed_popped : popped ws reason r s s';
  dismissed_shape : shape s' = shape_without (if bool_decide (reason = kUserInteraction) then Some r else x) s;
  dismissed_detached : detached_presenting_request_queue_ (presenter s') = None;
  dismissed_awaiting : removed_request_awaiting_dismissal_ (presenter s') = None;
  dismissed_context : context_ok (context s');
  dismissed_shown : shown_is (next_shown r s') s'
}.

Lemma OverlayUIDidFinishDismissal_run x s r reason :
  wf x s -> (x = None /\ removed_request_awaiting_dismissal_ (presenter s) = None \/
             x = Some r /\ removed_request_awaiting_dismissal_ (presenter s) = Some r) ->
  showing_with reason r s -> context_ok (context s) ->
  (reason = kUserInteraction -> x = None /\ detached_presenting_request_queue_ (presenter s) = None /\
     forall ws, queue_web_state_ <$> requests s !! r = Some (Some ws) ->
       exists q, queues_ s !! ws = Some q /\ delegate_ q = Some ThisPresenter /\ front s ws = Some r) ->
  exists s' ws, OverlayUIDidFinishDismissal r s = Ok (tt, s') /\ queue_web_state_ <$> requests s !! r = Some (Some ws) /\
    dismissed x ws reason r s s'.
Proof.
  intros Hw Hx Hs Hok Huser. pose proof (showing_alive _ _ _ Hs) as Ha.
  destruct Hs as (Hp1 & Hp2 & Hp3 & Hr & u & ws & Hu & Hd & Hre & Hws).
  assert (reason = kUserInteraction -> x = None /\ detached_presenting_request_queue_ (presenter s) = None /\
    exists q, queues_ s !! ws = Some q /\ delegate_ q = Some ThisPresenter /\ front s ws = Some r) as Huser'
    by (intros E; destruct (Huser E) as (? & ? & Hall); auto).
  unfold OverlayUIDidFinishDismissal. rewrite (mbind_run _ _ s s s) by done. rewrite Hr.
  rewrite (mbind_run _ _ s tt s) by (unfold dcheck; by rewrite bool_decide_true). unfold context_OverlayUIWasDismissed.
  rewrite (mbind_run _ _ s s s) by done. rewrite Hr. rewrite (mbind_run _ _ s tt s) by done. rewrite (mbind_run _ _ s r s) by done.
  rewrite (mbind_run _ _ s u s) by (unfold GetRequestUIState; cbn; by rewrite Hu). unfold has_callback. rewrite Hd.
  rewrite (mbind_run _ _ s tt s) by done.
  destruct (called_back_ok r u s Hok Hr Hu) as [Hok1 Hn1]. set (s1 := called_back r u s) in *.
  rewrite <- Hre in Huser'.
  destruct (OverlayWasDismissed_run x s1 r ws (dismissal_reason_ u)) as (s2 & E2 & H1 & H2 & H3 & H4 & H5 & H6 & H7 & H8);
    [|exact Hx|exact Hp3|exact Hp2|exact Huser'|exact Ha|exact Hok1|exact Hn1|exact Hr|].
  { eapply wf_same; [exact Hw|done..|]. split_and!; try done. apply Hw. }
  erewrite mbind_run.
  2: { unfold state_OverlayUIWasDismissed. rewrite (mbind_run _ _ s s s) by done. rewrite Hu. rewrite (mbind_run _ _ s u s) by done.
       unfold has_callback. rewrite Hd. rewrite (mbind_run _ _ s tt s) by done. rewrite (mbind_run _ _ s ws s) by done.
       rewrite (mbind_run _ _ s tt s1) by done. exact E2. }
  rewrite (mbind_run _ _ s2 s2 s2) by done. assert (window s s2) as Hwin by (etransitivity; [|exact H2]; done).
  destruct (next_shown r s2) as [r'|] eqn:En.
  - exists s2, ws. rewrite <- Hre. split; [|split; [done|]].
    { destruct H8 as (_ & _ & _ & Hr' & _). rewrite Hr', bool_decide_false; [done|]. intros [= ->]. unfold next_shown, to_show in En.
      case_bool_decide as Ha'; [done|]. destruct (presentation_context_ (presenter s2)); [|done]. destruct (active_request s2); [|done].
      destruct (can_show _ _); congruence. }
    split; try done. by rewrite En.
  - destruct H8 as [Hi Hc]. rewrite Hc. replace (request_ (context s1)) with (Some r) by done. rewrite bool_decide_true by done. cbn [mwhen].
    destruct (SetRequest_None_run s2) as (l & E).
    { rewrite Hc. cbn. by rewrite Hr. }
    { intros r' Hr'. eapply context_request_no_callback; [by rewrite Hc..|done]. }
    destruct (without_old_spec (context s2)) as (Hf & _ & Hst & _). destruct Hf as (? & ? & ? & ? & Hcap & Hobs & ?).
    eexists _, ws. rewrite <- Hre. split; [exact E|]. split; [done|]. set (s3 := with_log _ _).
    assert (active_request s3 = active_request s2) as Har by done.
    split; try done.
    + eapply wf_same; [exact H1|done..|]. split_and!; try done. cbn. rewrite Hobs. apply H1.
    + etransitivity; [exact Hwin|]. by split.
    + split; cbn; [|done]. intros r' u' Hu'. apply Hst in Hu'. split; [by eapply H7|]. intros Hd'.
      destruct Hi as (_ & _ & Hi). rewrite (Hi _ _ Hu') in Hd'. by destruct Hd'.
    + replace (next_shown r s3) with (@None RequestId).
      * split; [|done]. destruct Hi as (Hi1 & Hi2 & Hi3). split_and!; [done..|]. intros r' u' Hu'. by eapply Hi3, Hst.
      * rewrite <- En. unfold next_shown, to_show. rewrite Har. cbn [context s3 with_log with_context with_context_request presentation_capabilities_].
        by rewrite Hcap.
Qed.

(** ** Hiding and cancelling *)

Lemma DismissPresentedUI_run x s r reason :
  wf x s -> (x = None /\ removed_request_awaiting_dismissal_ (presenter s) = None \/
             x = Some r /\ removed_request_awaiting_dismissal_ (presenter s) = Some r) ->
  showing r s -> context_ok (context s) -> reason <> kUserInteraction ->
  exists s' ws, DismissPresentedUI reason s = Ok (tt, s') /\ queue_web_state_ <$> requests s !! r = Some (Some ws) /\
    dismissed x ws reason r s s'.
Proof.
  intros Hw Hx Hs Hok Hne. destruct Hs as (Hp1 & Hp2 & Hp3 & Hr & u & ws & Hu & Hd & _ & Hws).
  destruct (context_callback _ Hok r u Hu) as [Hpc [_ Hco]]; [by rewrite Hd|].
  unfold DismissPresentedUI. rewrite (mbind_run _ _ s s s) by done. rewrite Hr.
  assert (GetRequestUIState (Some r) s = Some u) as Hg by (unfold GetRequestUIState; cbn; by rewrite Hu).
  rewrite (mbind_run _ _ s tt s) by (unfold dcheck; by rewrite Hg, bool_decide_true by eauto).
  rewrite (mbind_run _ _ s r s) by done. rewrite (mbind_run _ _ s u s) by by rewrite Hg.
  rewrite (mbind_run _ _ s tt s) by (unfold dcheck; by rewrite bool_decide_true).
  set (s1 := with_state r (with_dismissal_reason reason u) s). rewrite (mbind_run _ _ s tt s1) by done.
  set (s2 := with_log (log s1 ++ [CoordinatorStop r (bool_decide (reason = kUserInteraction))]) s1).
  rewrite (mbind_run _ _ s1 tt s2) by done. rewrite stopped_at_once by done. cbn [mwhen].
  destruct (OverlayUIDidFinishDismissal_run x s2 r reason) as (s' & ws' & E & Hws' & Hdis); [|exact Hx| | |done|].
  - eapply wf_same; [exact Hw|done..|]. split_and!; try done. apply Hw.
  - repeat split; [done..|]. exists (with_dismissal_reason reason u), ws. split_and!; [|done..]. apply lookup_insert_eq.
  - split; [|intros r' Hr'; cbn; rewrite lookup_insert_is_Some; destruct (decide (r = r')); [by left|right; split; [done|by eapply Hok]]].
    intros r' u' Hu'. cbn in Hu'. apply lookup_insert_Some in Hu' as [[<- <-]|[_ Hu']]; [done|by eapply Hok].
  - exists s', ws'. split; [exact E|]. split; [exact Hws'|]. destruct Hdis. split; try done. by etransitivity; [|exact dismissed_window0].
Qed.

Lemma HideOverlayUI_run s r :
  wf None s -> removed_request_awaiting_dismissal_ (presenter s) = None -> showing r s -> context_ok (context s) ->
  exists s' ws, HideOverlayUI r s = Ok (tt, s') /\ dismissed None ws kHiding r s s'.
Proof.
  intros Hw Ha Hs Hok. destruct (DismissPresentedUI_run None s r kHiding) as (s' & ws & E & _ & Hd); [done|by left|done..|].
  exists s', ws. split; [|done]. destruct Hs as (_ & _ & _ & Hr & u & w & Hu & Hcb & _). unfold HideOverlayUI.
  rewrite (mbind_run _ _ s s s) by done. rewrite Hr. rewrite (mbind_run _ _ s tt s) by (unfold dcheck; by rewrite bool_decide_true).
  rewrite (mbind_run _ _ s u s) by (unfold GetRequestUIState; cbn; by rewrite Hu). unfold has_callback. by rewrite Hcb.
Qed.

Lemma CancelOverlayUI_shown_run x s r :
  wf x s -> (x = None /\ removed_request_awaiting_dismissal_ (presenter s) = None \/
             x = Some r /\ removed_request_awaiting_dismissal_ (presenter s) = Some r) -> showing r s -> context_ok (context s) ->
  exists s' ws, CancelOverlayUI r s = Ok (tt, s') /\ dismissed x ws kCancellation r s s'.
Proof.
  intros Hw Ha Hs Hok. destruct (DismissPresentedUI_run x s r kCancellation) as (s' & ws & E & _ & Hd); [done..|].
  exists s', ws. split; [|done]. destruct Hs as (_ & _ & _ & Hr & u & w & Hu & Hcb & _). unfold CancelOverlayUI.
  rewrite (mbind_run _ _ s s s) by done. unfold GetRequestUIState. cbn. rewrite Hu. unfold has_callback. by rewrite Hcb.
Qed.

(** Cancelling a request that is not shown forgets its state. *)
Lemma CancelOverlayUI_other_run s r :
  context_ok (context s) -> request_ (context s) <> Some r ->
  CancelOverlayUI r s = Ok (tt, with_context (with_states (delete r (states_ (context s))) (context s)) s).
Proof.
  intros Hok Hr. unfold CancelOverlayUI. rewrite (mbind_run _ _ s s s) by done. unfold GetRequestUIState. cbn.
  destruct (states_ (context s) !! r) as [u|] eqn:Hu.
  - unfold has_callback. rewrite bool_decide_false; [done|]. intros Hd. by destruct (context_callback _ Hok r u Hu) as [_ [? _]].
  - rewrite delete_id by done. by destruct s as [? ? ? ? ? ? [] ?].
Qed.

End Proofs.
End OverlayDismissal.
