(* ===== verification/OverlayInvariant.v ===== *)
(** * Overlays: the calls

    Every call keeps the state settled: what is shown is the front request of the
    active WebState. *)

From stdpp Require Import base tactics option list numbers gmap.
From Stdlib Require Import ZArith Lia.
From S2P Require Import Prelude.
From S2P Require Import WebStateListModel.
From S2P Require Import OverlayState.
From S2P Require Import OverlayOps.
From S2P Require Import OverlayProofs.
From S2P Require Import OverlayDismissal.

Module OverlayInvariant.
Import OverlayOps.
Export OverlayDismissal.

Section Proofs.
Context `{H : OverlayEnv} `{Hfinish : !FinishAtOnce}.
Implicit Types (s : t) (r : RequestId) (ws : WebState) (b : bool).

(** The active request is shown when the context can show it. Without [b], it may
    be that nothing is shown. *)
Definition shown b s : Prop := shown_is (to_show s) s \/ b = false /\ shown_is None s.

Definition in_window s ws : Prop :=
  exists q, queues_ s !! ws = Some q /\ delegate_ q = Some ThisPresenter /\ observed_ q = true.

Record Inv b s : Prop := {
  inv_wf : wf None s;
  inv_context : context_ok (context s);
  inv_detached : detached_presenting_request_queue_ (presenter s) = None;
  inv_awaiting : removed_request_awaiting_dismissal_ (presenter s) = None;
  inv_detaching : detaching_presenting_web_state_ (presenter s) = false;
  inv_active : active_web_state_ (presenter s) = active s;
  inv_list ws : ws ∈ web_state_list_ s -> in_window s ws;
  inv_nodup : NoDup (web_state_list_ s);
  inv_active_in ws : active s = Some ws -> ws ∈ web_state_list_ s;
  inv_shown : shown b s
}.

Lemma Inv_mono s b b' : Inv b s -> (b' = true -> b = true) -> Inv b' s.
Proof.
  intros [] Hb. split; try done. destruct inv_shown0 as [?|[-> ?]]; [by left|]. destruct b'; [by specialize (Hb eq_refl)|by right].
Qed.

Lemma to_show_active s r : to_show s = Some r ->
  presentation_context_ (presenter s) = true /\ active_request s = Some r /\
  can_show r (presentation_capabilities_ (context s)) = true.
Proof.
  unfold to_show. destruct (presentation_context_ (presenter s)); [|done]. destruct (active_request s) as [r'|]; [|done].
  destruct (can_show r' _) eqn:E; [|done]. by intros [= ->].
Qed.

Lemma shown_is_showing b s r : shown b s -> presented_request_ (presenter s) = Some r -> showing r s /\ to_show s = Some r.
Proof.
  intros [Hs|[_ [(_ & Hp & _) _]]] Hr; [|congruence]. unfold shown_is in Hs.
  destruct (to_show s) as [r'|]; [|by destruct Hs as [(_ & Hp & _) _]; congruence].
  pose proof Hs as (_ & Hp & _). rewrite Hr in Hp. by injection Hp as <-.
Qed.

Lemma shown_cases b s : shown b s ->
  (exists r, showing r s /\ to_show s = Some r) \/ (shown_is None s /\ (b = true -> to_show s = None)).
Proof.
  intros [Hs|[-> Hs]]; [|by right]. destruct (to_show s) as [r|] eqn:E; [left; by exists r|by right].
Qed.

Lemma active_request_of s r : active_request s = Some r ->
  exists ws, active_web_state_ (presenter s) = Some ws /\ front s ws = Some r.
Proof. unfold active_request. destruct (active_web_state_ (presenter s)) as [ws|]; [|done]. cbn. eauto. Qed.

(** The request that is shown belongs to the active WebState. *)
Lemma shown_in_active x s r : wf x s -> active_request s = Some r ->
  queue_web_state_ <$> requests s !! r = Some (active_web_state_ (presenter s)).
Proof. intros Hw (ws & Ha & Hf)%active_request_of. rewrite Ha. by apply (wf_front_state x). Qed.

(** A request that is not alive is not the front one of a queue. *)
Lemma not_active x s r : wf x s -> shape s !! r = None -> active_request s <> Some r.
Proof. intros Hw Hn Hr. pose proof (shown_in_active x s r Hw Hr) as E. rewrite lookup_fmap in Hn. congruence. Qed.

Lemma next_shown_other s r : active_request s <> Some r -> next_shown r s = to_show s.
Proof. intros Hr. unfold next_shown. by rewrite bool_decide_false. Qed.
Lemma next_shown_same s r : active_request s = Some r -> next_shown r s = None.
Proof. intros Hr. unfold next_shown. by rewrite bool_decide_true. Qed.

(** Presenting when nothing is shown. *)
Lemma present_run x s : wf x s -> context_ok (context s) -> shown_is None s ->
  exists s', PresentOverlayForActiveRequest s = Ok (tt, s') /\ world s s' /\ context_ok (context s') /\ shown_is (to_show s') s'.
Proof.
  intros Hw Hok [Hi Hr]. destruct (Present_run x s Hw Hok Hi) as (s' & E & Hs & Hok' & Hsh).
  { rewrite Hr. destruct (active_request s); [by right|by left]. }
  exists s'. split; [done|]. split; [done|]. split; [done|]. rewrite (to_show_world _ _ Hs).
  destruct (to_show s); [done|]. by destruct Hsh as [l ->].
Qed.

(** ** The active WebState changes *)

Record reactivated (w : option WebState) s s' : Prop := {
  reactivated_wf : wf None s';
  reactivated_context : context_ok (context s');
  reactivated_queues : queues_ s' = queues_ s;
  reactivated_list : web_state_list_ s' = web_state_list_ s;
  reactivated_active : active s' = active s;
  reactivated_destroyed : destroyed s' = destroyed s;
  reactivated_web_state : active_web_state_ (presenter s') = w;
  reactivated_detaching : detaching_presenting_web_state_ (presenter s') = false;
  reactivated_detached : detached_presenting_request_queue_ (presenter s') = None;
  reactivated_awaiting : removed_request_awaiting_dismissal_ (presenter s') = None;
  reactivated_shown : shown_is (to_show s') s'
}.

Lemma SetActiveWebState_run s w reason b :
  wf None s -> context_ok (context s) -> shown b s -> removed_request_awaiting_dismissal_ (presenter s) = None ->
  (shown_is None s -> detached_presenting_request_queue_ (presenter s) = None) ->
  active_web_state_ (presenter s) <> w -> (forall ws, w = Some ws -> is_Some (queues_ s !! ws)) ->
  exists s', SetActiveWebState w reason s = Ok (tt, s') /\ reactivated w s s'.
Proof.
  intros Hw Hok Hsh Ha Hdet Hne Hq. unfold SetActiveWebState. rewrite (mbind_run _ _ s s s) by done.
  rewrite bool_decide_false by done. rewrite Ha. rewrite (mbind_run _ _ s _ s) by by eapply GetActiveRequest_run. cbn zeta.
  set (s1 := with_presenter (with_active_web_state w (presenter s)) s). rewrite (mbind_run _ _ s tt s1) by done.
  set (s2 := with_presenter (with_detaching_presenting_web_state false (presenter s1)) s1). rewrite (mbind_run _ _ s1 tt s2) by done.
  rewrite (mbind_run _ _ s2 s2 s2) by done.
  assert (wf None s2) as Hw2.
  { destruct Hw as [H1 H2 H3 H4 H5 H6 H7 H8]. split; try done. }
  destruct (shown_cases b s Hsh) as [(r & Hs & Hto)|[[Hi Hr] _]].
  - destruct (to_show_active _ _ Hto) as (Hp & Hact & _). pose proof Hs as (Hp1 & Hp2 & _). subst s2 s1. cbn [presenter with_presenter].
    cbn [with_detaching_presenting_web_state with_active_web_state presentation_context_ presenting_]. rewrite Hp, Hp1. cbn [negb]. rewrite Hact.
    set (s2 := with_presenter _ _) in *.
    assert (exists s' ws reason', (if bool_decide (reason = Replaced) || detaching_presenting_web_state_ (presenter s)
      then CancelOverlayUIForRequest r else HideOverlayUI r) s2 = Ok (tt, s') /\ dismissed None ws reason' r s2 s' /\ reason' <> kUserInteraction)
      as (s' & ws & reason' & E & Hd & Hre).
    { destruct (_ || _).
      - destruct (CancelOverlayUI_shown_run None s2 r) as (s' & ws & E & Hd); [done|by left|done|done|]. exists s', ws, kCancellation.
        split; [|done]. unfold CancelOverlayUIForRequest. rewrite (mbind_run _ _ s2 s2 s2) by done. unfold s2. cbn. by rewrite Hp.
      - destruct (HideOverlayUI_run s2 r) as (s' & ws & E & Hd); [done..|]. by exists s', ws, kHiding. }
    exists s'. split; [exact E|]. destruct Hd as [Dw Dwin Dpop Dshape Ddet Dawa Dok Dsh]. destruct Dwin.
    unfold popped in Dpop. rewrite bool_decide_false in Dpop by done.
    split; try done. rewrite next_shown_other in Dsh; [done|]. intros Hact'.
    pose proof (shown_in_active _ _ _ Hw Hact) as E1. pose proof (shown_in_active _ _ _ Dw Hact') as E2.
    rewrite window_active_web_state0 in E2. rewrite bool_decide_false in Dshape by done. cbn [shape_without] in Dshape.
    rewrite (shape_lookup s2 s' r Dshape) in E2. cbn in E2. rewrite E1 in E2. injection E2 as E2. done.
  - destruct (present_run None s2 Hw2 Hok) as (s' & E & Hs' & Hok' & Hsh'); [done|].
    destruct Hi as (Hi1 & Hi2 & Hi3).
    assert (exists s', (if negb (presentation_context_ (presenter s2)) then mreturn tt
      else if negb (presenting_ (presenter s2)) then PresentOverlayForActiveRequest
      else match active_request s with None => mreturn tt
        | Some r => if bool_decide (reason = Replaced) || detaching_presenting_web_state_ (presenter s) then CancelOverlayUIForRequest r else HideOverlayUI r end) s2 =
      Ok (tt, s') /\ world s2 s' /\ context_ok (context s') /\ shown_is (to_show s') s') as (s3 & E3 & Hs3 & Hok3 & Hsh3).
    { replace (presenting_ (presenter s2)) with false by done. cbn [negb]. destruct (presentation_context_ (presenter s2)) eqn:Ep; [by exists s'|].
      exists s2. split; [done|]. split; [done|]. split; [done|]. unfold to_show. rewrite Ep. done. }
    exists s3. split; [exact E3|]. destruct Hs3. split; try done; [by apply (wf_world None s2)| |].
    + rewrite world_detached0. by apply Hdet.
    + by rewrite world_awaiting0.
Qed.

(** ** Requests are removed *)

(** The fields of the window that the removal of requests keeps. *)
Lemma in_window_queue s s' ws q q' ws' :
  queues_ s !! ws = Some q -> queues_ s' = <[ws := q']> (queues_ s) -> delegate_ q' = delegate_ q -> observed_ q' = observed_ q ->
  in_window s ws' -> in_window s' ws'.
Proof.
  intros Hq Eq Hd Ho (q0 & Hq0 & Hd0 & Ho0). unfold in_window. rewrite Eq. destruct (decide (ws = ws')) as [<-|Hne].
  - exists q'. rewrite lookup_insert_eq, Hd, Ho. by simplify_eq.
  - exists q0. by rewrite lookup_insert_ne.
Qed.

Lemma front_erase s s' ws q i r ws' :
  queues_ s !! ws = Some q -> queues_ s' = <[ws := queue_without q i r]> (queues_ s) ->
  (ws' <> ws \/ i <> 0) -> front s' ws' = front s ws'.
Proof.
  intros Hq Eq Hd. unfold front. rewrite Eq. destruct (decide (ws = ws')) as [<-|Hne]; [|by rewrite lookup_insert_ne].
  rewrite lookup_insert_eq, Hq. cbn. destruct Hd as [|Hi]; [done|]. destruct i as [|i]; [done|].
  by destruct (request_storages_ q).
Qed.

Definition settled_after (b : bool) s ws (i : nat) (q : Queue) : bool :=
  b && (bool_decide (active_web_state_ (presenter s) <> Some ws) || bool_decide (i <> 0) ||
        bool_decide (is_Some (presented_request_ (presenter s))) || (size q =? 1)%nat).

Lemma to_show_same_front s s' :
  presentation_context_ (presenter s') = presentation_context_ (presenter s) -> active_request s' = active_request s ->
  presentation_capabilities_ (context s') = presentation_capabilities_ (context s) -> to_show s' = to_show s.
Proof. intros E1 E2 E3. unfold to_show. by rewrite E1, E2, E3. Qed.

(** A request whose UI is not shown is removed: its state may be forgotten. *)
Definition may_forget r (c c' : Context) : Prop :=
  context_frame c c' /\ request_ c' = request_ c /\
  (forall r' u, states_ c' !! r' = Some u -> states_ c !! r' = Some u) /\
  (forall r', r' <> r -> states_ c' !! r' = states_ c !! r').

Lemma may_forget_same r c : may_forget r c c.
Proof. done. Qed.
Lemma may_forget_delete r c : may_forget r c (with_states (delete r (states_ c)) c).
Proof.
  split_and!; try done; cbn.
  - by intros r' u [_ ?]%lookup_delete_Some.
  - intros r' Hne. by rewrite lookup_delete_ne.
Qed.

Lemma removed_Inv s ws q i st b c prev l :
  Inv b s -> queues_ s !! ws = Some q -> request_storages_ q !! i = Some st ->
  presented_request_ (presenter s) <> Some (request st) -> may_forget (request st) (context s) c ->
  Inv (settled_after b s ws i q)
    (with_requests (delete (request st) (requests s)) (with_log l
      (with_presenter (with_previously_presented_requests prev (presenter s))
        (with_context c (with_queues (<[ws := queue_without q i (request st)]> (queues_ s)) s))))).
Proof.
  intros Hinv Hq Hi Hp Hc. set (r := request st) in *. set (s1 := with_queues (<[ws := queue_without q i r]> (queues_ s)) s).
  pose proof (inv_wf _ _ Hinv) as Hw. destruct Hc as ((_ & _ & _ & _ & Hcap & Hobs & _) & Hcr & Hcs & Hcne).
  assert (wf (Some r) s1) as Hw1.
  { apply (wf_erase s s1 ws q i st (queue_without q i r)); try done. split_and!; try done. apply Hw. }
  assert (request_ (context s) <> Some r) as Hr.
  { intros Hr. destruct (shown_cases b s (inv_shown _ _ Hinv)) as [(r' & (_ & Hp' & _ & Hr' & _) & _)|[[_ Hr'] _]]; congruence. }
  set (s' := with_requests _ _).
  assert (wf None s') as Hw'.
  { eapply wf_destroy; [exact Hw1|done..|]. split_and!; try done. cbn. rewrite Hobs. apply Hw. }
  assert (active_web_state_ (presenter s) <> Some ws \/ i <> 0 -> active_request s' = active_request s) as Hfr.
  { intros Hor. unfold active_request. cbn. destruct (active_web_state_ (presenter s)) as [ws'|] eqn:Ea; [|done]. cbn.
    apply (front_erase s s' ws q i r); [done..|]. destruct Hor as [Hor|Hor]; [left; congruence|by right]. }
  split; try done; try apply Hinv.
  - split.
    + intros r' u Hu. apply Hcs in Hu. change (request_ (context s')) with (request_ c). rewrite Hcr. by apply (inv_context _ _ Hinv).
    + intros r' Hr'. change (states_ (context s')) with (states_ c). change (request_ (context s')) with (request_ c) in Hr'. rewrite Hcr in Hr'.
      rewrite Hcne by congruence. by apply (inv_context _ _ Hinv).
  - intros ws' Hws. apply (in_window_queue s s' ws q (queue_without q i r)); [done..|]. by apply (inv_list _ _ Hinv).
  - assert (to_show s' = to_show s \/ active_web_state_ (presenter s) = Some ws /\ i = 0) as Hto.
    { destruct (decide (active_web_state_ (presenter s) = Some ws)); [destruct (decide (i = 0)); [by right|]|];
        left; apply to_show_same_front; try done; apply Hfr; auto. }
    destruct (shown_cases b s (inv_shown _ _ Hinv)) as [(r0 & Hs0 & Hto0)|[[(Hi1 & Hi2 & Hi3) Hi4] Hb]].
    + left. pose proof (to_show_active _ _ Hto0) as (_ & Hact & _). destruct Hs0 as (S1 & S2 & S3 & S4 & u & w & S5 & S6 & S7 & S8).
      assert (r0 <> r) as Hne by congruence.
      destruct Hto as [Hto|[Ha ->]].
      * rewrite Hto, Hto0. split_and!; try done. { cbn. by rewrite Hcr. } exists u, w. split; [cbn; by rewrite Hcne|].
        split; [done|]. split; [done|]. cbn. by rewrite lookup_delete_ne.
      * exfalso. unfold active_request in Hact. rewrite Ha in Hact. cbn in Hact. unfold front in Hact. rewrite Hq in Hact.
        destruct (request_storages_ q); [done|]. cbn in Hi. injection Hi as ->. injection Hact as <-. by apply Hne.
    + assert (shown_is None s') as Hn.
      { split; [|cbn; by rewrite Hcr]. split_and!; [done..|]. intros r' u Hu. by eapply Hi3, Hcs. }
      destruct (settled_after b s ws i q) eqn:Eb; [left|by right].
      apply andb_true_iff in Eb as [-> Eb]. replace (to_show s') with (@None RequestId); [done|].
      destruct Hto as [->|[Ha ->]]; [by rewrite Hb|]. rewrite !orb_true_iff, !bool_decide_eq_true, Hi2 in Eb.
      destruct Eb as [[[Eb|Eb]|[? Eb]]|Eb]; [done..|]. apply Nat.eqb_eq in Eb. unfold size in Eb.
      unfold to_show, active_request. cbn [active_web_state_ presenter s' with_requests with_log with_presenter with_previously_presented_requests
        with_context s1 with_queues]. rewrite Ha. cbn. unfold front. cbn. rewrite lookup_insert_eq. cbn.
      destruct (request_storages_ q) as [|? [|? ?]]; try done. cbn. by destruct (presentation_context_ _).
Qed.

(** ** Cancelling the requests of any queue *)

Record removed s ws q i st (b' : bool) s' : Prop := {
  removed_Inv' : Inv b' s';
  removed_queues : queues_ s' = <[ws := queue_without q i (request st)]> (queues_ s);
  removed_shape : shape s' = delete (request st) (shape s);
  removed_list : web_state_list_ s' = web_state_list_ s;
  removed_active : active s' = active s;
  removed_destroyed : destroyed s' = destroyed s;
  removed_web_state : active_web_state_ (presenter s') = active_web_state_ (presenter s)
}.

Lemma remove_other_run s ws q i st b :
  Inv b s -> queues_ s !! ws = Some q -> request_storages_ q !! i = Some st ->
  presented_request_ (presenter s) <> Some (request st) ->
  exists s', RemoveRequest ws i true s = Ok (tt, s') /\ removed s ws q i st (settled_after b s ws i q) s'.
Proof.
  intros Hinv Hq Hi Hp. set (r := request st) in *.
  set (s1 := with_queues (<[ws := queue_without q i r]> (queues_ s)) s).
  assert (is_Some (requests s !! r)) as Ha.
  { pose proof (wf_storages _ _ (inv_wf _ _ Hinv) ws q st Hq (list_elem_of_lookup_2 _ _ _ Hi)) as E. fold r in E.
    destruct (requests s !! r); [eauto|done]. }
  assert (exists c l, may_forget r (context s) c /\ RemoveRequest ws i true s = destroy_request r (with_log l (with_context c s1))) as (c & l & Hc & E).
  { destruct (delegate_ q) as [[|o]|] eqn:Hd.
    - exists (if presentation_context_ (presenter s) then with_states (delete r (states_ (context s))) (context s) else context s), (log s).
      split; [destruct (presentation_context_ _); [apply may_forget_delete|apply may_forget_same]|].
      unfold RemoveRequest. rewrite (RemoveRequest_other _ s ws q i st true) by done. cbn [mwhen]. erewrite mbind_run; [reflexivity|].
      unfold CancelOverlayUIForRequest. fold r. fold s1. rewrite (mbind_run _ _ s1 s1 s1) by done. cbn [s1 presenter with_queues].
      destruct (presentation_context_ (presenter s)); cbn [mwhen]; [|by destruct s].
      rewrite CancelOverlayUI_other_run; [done|apply Hinv|]. intros Hr.
      destruct (shown_cases b s (inv_shown _ _ Hinv)) as [(r' & (_ & Hp' & _ & Hr' & _) & _)|[[_ Hr'] _]]; cbn in Hr; congruence.
    - exists (context s), (log s ++ [RemovedToOther o r true]). split; [apply may_forget_same|].
      unfold RemoveRequest, RemoveRequest_with. rewrite (mbind_run _ _ s q s) by by apply get_queue_run.
      rewrite (mbind_run _ _ s tt s) by (unfold dcheck; rewrite (proj2 (Nat.ltb_lt _ _)); [done|by eapply lookup_lt_Some]).
      rewrite (mbind_run _ _ s st s) by (by rewrite Hi). cbn zeta. fold r. rewrite (mbind_run _ _ s tt s1) by done. rewrite Hd.
      by rewrite (mbind_run _ _ s1 tt (with_log (log s ++ [RemovedToOther o r true]) (with_context (context s) s1))) by (by destruct s).
    - exists (context s), (log s). split; [apply may_forget_same|].
      unfold RemoveRequest, RemoveRequest_with. rewrite (mbind_run _ _ s q s) by by apply get_queue_run.
      rewrite (mbind_run _ _ s tt s) by (unfold dcheck; rewrite (proj2 (Nat.ltb_lt _ _)); [done|by eapply lookup_lt_Some]).
      rewrite (mbind_run _ _ s st s) by (by rewrite Hi). cbn zeta. fold r. rewrite (mbind_run _ _ s tt s1) by done. rewrite Hd. by destruct s. }
  destruct (destroy_request_run (with_log l (with_context c s1)) r Ha) as (prev & l' & E').
  eexists. split; [rewrite E; exact E'|]. pose proof (removed_Inv s ws q i st b c prev l' Hinv Hq Hi Hp Hc) as HI.
  split; try done. apply fmap_delete.
Qed.

Lemma shape_find s r ws : shape s !! r = Some (Some ws) -> queue_web_state_ <$> requests s !! r = Some (Some ws).
Proof. by rewrite lookup_fmap. Qed.

(** The WebState and the queue of the request that is shown. *)
Lemma shown_place b s r : Inv b s -> presented_request_ (presenter s) = Some r ->
  exists ws q st, active s = Some ws /\ active_web_state_ (presenter s) = Some ws /\ queues_ s !! ws = Some q /\
    delegate_ q = Some ThisPresenter /\ observed_ q = true /\ request_storages_ q !! 0 = Some st /\ request st = r /\
    front s ws = Some r /\ showing r s /\ to_show s = Some r.
Proof.
  intros Hinv Hp. destruct (shown_is_showing b s r (inv_shown _ _ Hinv) Hp) as [Hs Hto].
  destruct (to_show_active _ _ Hto) as (_ & (ws & Hws & Hf)%active_request_of & _).
  pose proof Hws as Ha. rewrite (inv_active _ _ Hinv) in Ha.
  destruct (inv_list _ _ Hinv ws (inv_active_in _ _ Hinv ws Ha)) as (q & Hq & Hd & Ho).
  pose proof Hf as Hf'. unfold front in Hf. rewrite Hq in Hf.
  destruct (request_storages_ q) as [|st sts] eqn:Es; [done|]. injection Hf as Hf. exists ws, q, st. rewrite Es. by split_and!.
Qed.

Lemma remove_shown_run s ws q i st b :
  Inv b s -> queues_ s !! ws = Some q -> request_storages_ q !! i = Some st ->
  presented_request_ (presenter s) = Some (request st) ->
  exists s', RemoveRequest ws i true s = Ok (tt, s') /\ removed s ws q i st true s'.
Proof.
  intros Hinv Hq Hi Hp. pose proof (inv_wf _ _ Hinv) as Hw.
  destruct (shown_place b s _ Hinv Hp) as (ws' & q' & st' & Ha & Haw & Hq' & Hd & Ho & Hi' & Hst' & Hf & Hs & Hto).
  assert (st ∈ request_storages_ q) as Hst by by eapply list_elem_of_lookup_2.
  assert (ws' = ws) as ->.
  { pose proof (wf_storages _ _ Hw ws q st Hq Hst) as E1. pose proof (wf_front_state _ _ _ _ Hw Hf) as E2. congruence. }
  simplify_eq. set (r := request st) in *.
  unfold RemoveRequest. rewrite (RemoveRequest_presented _ s ws q i st true) by (try done; apply Hinv). cbn [mwhen]. fold r.
  set (s1 := with_presenter (with_removed_request_awaiting_dismissal (Some r) (presenter s)) (with_queues (<[ws := queue_without q i r]> (queues_ s)) s)).
  assert (wf (Some r) s1) as Hw1.
  { apply (wf_erase s s1 ws q i st (queue_without q i r)); try done. split_and!; try done. apply Hw. }
  destruct (CancelOverlayUI_shown_run (Some r) s1 r) as (s' & w & E & [Dw Dwin Dpop Dshape Ddet Dawa Dok Dsh]);
    [done|by right|done|apply Hinv|].
  exists s'. split.
  { rewrite (mbind_run _ _ s1 tt s'); [done|]. unfold CancelOverlayUIForRequest. rewrite (mbind_run _ _ s1 s1 s1) by done.
    cbn [s1 presenter with_presenter with_queues presentation_context_ with_removed_request_awaiting_dismissal].
    by rewrite (proj1 (to_show_active _ _ Hto)). }
  unfold popped in Dpop. rewrite bool_decide_false in Dpop by done. rewrite bool_decide_false in Dshape by done.
  destruct Dwin as [W1 W2 W3 W4 W5 W6 W7 W8 W9]. split; try done.
  split; try done; rewrite ?W1, ?W2, ?W3, ?W4, ?W7; try apply Hinv.
  - intros ws' Hws. apply (in_window_queue s s' ws q (queue_without q i r)); [done..|]. by apply (inv_list _ _ Hinv).
  - left. rewrite next_shown_other in Dsh; [done|]. apply (not_active None); [done|]. rewrite Dshape. apply lookup_delete_eq.
Qed.

Lemma RemoveRequest_run s ws q i st b :
  Inv b s -> queues_ s !! ws = Some q -> request_storages_ q !! i = Some st ->
  exists s', RemoveRequest ws i true s = Ok (tt, s') /\ removed s ws q i st (settled_after b s ws i q) s'.
Proof.
  intros Hinv Hq Hi. destruct (decide (presented_request_ (presenter s) = Some (request st))) as [Hp|Hp].
  - destruct (remove_shown_run s ws q i st b) as (s' & E & []); [done..|]. exists s'. split; [done|]. split; try done. by apply (Inv_mono _ true).
  - by apply remove_other_run.
Qed.

Lemma first_index_found {A} (p : A -> bool) (l : list A) i : first_index p l = Some i -> exists x, l !! i = Some x /\ p x = true.
Proof. intros (x & Hx & Hp & _)%first_index_Some. eauto. Qed.

Lemma CancelRequest_run s ws r b :
  Inv b s -> is_Some (queues_ s !! ws) ->
  exists s', CancelRequest ws r s = Ok (tt, s') /\ Inv (b && bool_decide (active s <> Some ws)) s' /\ web_state_list_ s' = web_state_list_ s /\ active s' = active s /\
    is_Some (queues_ s' !! ws) /\ shape s' = (if bool_decide (queue_web_state_ <$> requests s !! r = Some (Some ws)) then delete r (shape s) else shape s) /\
    destroyed s' = destroyed s.
Proof.
  intros Hinv [q Hq]. unfold CancelRequest. rewrite (mbind_run _ _ s q s) by by apply get_queue_run.
  destruct (first_index _ (request_storages_ q)) as [i|] eqn:Ei.
  - destruct (first_index_found _ _ _ Ei) as (st & Hi & Hst%bool_decide_eq_true).
    destruct (RemoveRequest_run s ws q i st b Hinv Hq Hi) as (s' & E & [R1 R2 R3 R4 R5 R6 R7]).
    exists s'. split; [exact E|]. split.
    { eapply Inv_mono; [exact R1|]. unfold settled_after. rewrite (inv_active _ _ Hinv). by intros [-> ->]%andb_true_iff. }
    split_and!; [done..|rewrite R2, lookup_insert_eq; eauto| |done].
    rewrite R3, Hst, bool_decide_true; [done|]. rewrite <- Hst. eapply wf_storages; [apply Hinv|done|by eapply list_elem_of_lookup_2].
  - exists s. split; [done|]. split; [eapply Inv_mono; [exact Hinv|by intros [-> _]%andb_true_iff]|].
    split_and!; [done..|by eauto| |done]. rewrite bool_decide_false; [done|]. intros E.
    apply fmap_Some in E as (R & HR & EW). destruct (wf_requests _ _ (inv_wf _ _ Hinv) r R HR) as (ws' & q' & HW & Hq' & Hin); [done|].
    assert (ws' = ws) as -> by congruence. simplify_eq. apply list_elem_of_fmap in Hin as (st & -> & Hst).
    rewrite first_index_None in Ei. specialize (Ei st Hst). cbn in Ei. by rewrite bool_decide_true in Ei.
Qed.

End Proofs.
End OverlayInvariant.
