(* ===== verification/OverlayCalls.v ===== *)
(** * Overlays: the calls on queues, on the list and on the context

    Each call from outside keeps the invariant of OverlayInvariant.v. *)

From stdpp Require Import base tactics option list numbers gmap.
From Stdlib Require Import ZArith Lia.
From S2P Require Import Prelude.
From S2P Require Import WebStateListModel.
From S2P Require Import OverlayState.
From S2P Require Import OverlayOps.
From S2P Require Import OverlayInvariant.

Module OverlayCalls.
Import OverlayOps.
Export OverlayInvariant.

Section Proofs.
Context `{H : OverlayEnv} `{Hfinish : !FinishAtOnce}.
Implicit Types (s : t) (r : RequestId) (ws : WebState) (b : bool).

(** What a call keeps of the list of WebStates. *)
Definition same_list s s' : Prop :=
  web_state_list_ s' = web_state_list_ s /\ active s' = active s /\ destroyed s' = destroyed s.
#[local] Instance same_list_preorder : PreOrder same_list.
Proof. split; [done|]. intros s1 s2 s3 (E1 & E2 & E3) (? & ? & ?). split_and!; by etransitivity. Qed.

(** ** Cancelling *)

Lemma CancelAllRequests_loop_run n s ws q b :
  Inv b s -> queues_ s !! ws = Some q -> size q = n ->
  exists s' q', CancelAllRequests_loop n ws s = Ok (tt, s') /\ Inv b s' /\ same_list s s' /\
    queues_ s' !! ws = Some q' /\ request_storages_ q' = [].
Proof.
  revert s q. induction n as [|n IH]; intros s q Hinv Hq Hn; cbn [CancelAllRequests_loop];
    rewrite (mbind_run _ _ s q s) by by apply get_queue_run.
  - rewrite bool_decide_true by done. exists s, q. unfold size in Hn. split_and!; try done. by destruct (request_storages_ q).
  - rewrite bool_decide_false by lia.
    destruct (lookup_lt_is_Some_2 (request_storages_ q) (size q - 1)) as [st Hi]; [unfold size in *; lia|].
    destruct (RemoveRequest_run s ws q (size q - 1) st b Hinv Hq Hi) as (s1 & E & [R1 R2 R3 R4 R5 R6 R7]).
    rewrite (mbind_run _ _ s tt s1) by exact E.
    destruct (IH s1 (queue_without q (size q - 1) (request st))) as (s' & q' & E' & HI & Hl & Hq' & Hs').
    + eapply Inv_mono; [exact R1|]. intros ->. unfold settled_after. rewrite Hn.
      rewrite andb_true_iff, !orb_true_iff, !bool_decide_eq_true, Nat.eqb_eq. split; [done|].
      destruct n as [|n]; [by right|left; left; right; lia].
    + rewrite R2. apply lookup_insert_eq.
    + unfold size in *. cbn. rewrite length_erase_at by lia. lia.
    + exists s', q'. split_and!; try done. etransitivity; [|exact Hl]. done.
Qed.

Lemma CancelAllRequests_run s ws b : Inv b s -> is_Some (queues_ s !! ws) ->
  exists s' q', CancelAllRequests ws s = Ok (tt, s') /\ Inv b s' /\ same_list s s' /\ queues_ s' !! ws = Some q' /\ request_storages_ q' = [].
Proof.
  intros Hinv [q Hq]. unfold CancelAllRequests. rewrite (mbind_run _ _ s q s) by by apply get_queue_run.
  by apply (CancelAllRequests_loop_run _ s ws q b).
Qed.

(** The default handlers of a WebState. *)
Lemma run_helpers_run s ws b : Inv b s ->
  exists s', run_helpers ws s = Ok (tt, s') /\ Inv (b && bool_decide (active s <> Some ws)) s' /\ same_list s s' /\
    (queues_ s !! ws = None -> s' = s).
Proof.
  intros Hinv. unfold run_helpers. rewrite (mbind_run _ _ s s s) by done.
  destruct (queues_ s !! ws) as [q|] eqn:Hq.
  2: { exists s. split; [done|]. split; [|done]. eapply Inv_mono; [exact Hinv|]. by intros [-> _]%andb_true_iff. }
  set (b' := b && bool_decide (active s <> Some ws)).
  assert (forall l s1, Inv b' s1 -> is_Some (queues_ s1 !! ws) -> same_list s s1 -> exists s', mfor l (fun r =>
    let! q := get_queue ws in mwhen (bool_decide (r ∈ navigation_helpers q)) (CancelRequest ws r)) s1 = Ok (tt, s') /\
    Inv b' s' /\ same_list s s') as Hl.
  { induction l as [|r l IH]; intros s1 H1 [q1 Hq1] Hs1; cbn [mfor]; [by exists s1|].
    rewrite mbind_assoc, (mbind_run _ _ s1 q1 s1) by by apply get_queue_run.
    case_bool_decide; cbn [mwhen]; [|rewrite mreturn_bind; by apply IH].
    destruct (CancelRequest_run s1 ws r b' H1) as (s2 & E & H2 & Hl2 & Ha2 & Hq2 & _ & Hd2); [eauto|].
    rewrite (mbind_run _ _ s1 tt s2) by exact E. apply IH; [|done|etransitivity; [exact Hs1|done]].
    eapply Inv_mono; [exact H2|]. destruct Hs1 as (_ & -> & _). unfold b'. by intros [-> ->]%andb_true_iff. }
  destruct (Hl (navigation_helpers q) s) as (s' & E & H1 & H2); [|by rewrite Hq|done|by exists s'].
  eapply Inv_mono; [exact Hinv|]. by intros [-> _]%andb_true_iff.
Qed.

(** ** Changes that leave the requests in their queues *)

Definition storages s ws : list Storage := match queues_ s !! ws with Some q => request_storages_ q | None => [] end.

Record same_requests s s' : Prop := {
  same_storages ws : storages s' ws = storages s ws;
  same_queues ws : is_Some (queues_ s !! ws) -> is_Some (queues_ s' !! ws);
  same_destroyed ws : ws ∈ destroyed s' -> queues_ s' !! ws = None;
  same_reqs : requests s' = requests s
}.

Lemma front_storages s ws : front s ws = request <$> head (storages s ws).
Proof. unfold front, storages. by destruct (queues_ s !! ws). Qed.
Lemma front_same s s' ws : same_requests s s' -> front s' ws = front s ws.
Proof. intros Hs. by rewrite !front_storages, (same_storages _ _ Hs). Qed.

Lemma in_storages s ws q st : queues_ s !! ws = Some q -> st ∈ request_storages_ q -> st ∈ storages s ws.
Proof. unfold storages. by intros ->. Qed.
Lemma storages_in s ws st : st ∈ storages s ws -> exists q, queues_ s !! ws = Some q /\ st ∈ request_storages_ q.
Proof. unfold storages. destruct (queues_ s !! ws) as [q|]; [by exists q|]. by intros ?%elem_of_nil. Qed.

Lemma wf_same_requests s s' :
  wf None s -> same_requests s s' -> active_web_state_ (presenter s') = active_web_state_ (presenter s) ->
  detached_queue_replaced_delegate_ (presenter s') = detached_queue_replaced_delegate_ (presenter s) ->
  context_observed_ (context s') = presentation_context_ (presenter s') -> wf None s'.
Proof.
  intros [H1 H2 H3 H4 H5 H6 H7 H8] [Es Eq Ed Er] Ea Ep Ho. split; rewrite ?Er, ?Ea, ?Ep; try done.
  - intros ws q st Hq Hst. pose proof (in_storages _ _ _ _ Hq Hst) as Hin. rewrite Es in Hin.
    apply storages_in in Hin as (q0 & ? & ?). by eapply H1.
  - intros ws q Hq. specialize (Es ws). unfold storages in Es. rewrite Hq in Es. rewrite Es.
    destruct (queues_ s !! ws) as [q0|] eqn:Hq0; [by eapply H2|constructor].
  - intros r R HR Hn. destruct (H3 r R HR Hn) as (ws & q & HW & Hq & Hin). destruct (Eq ws) as [q' Hq']; [by rewrite Hq|].
    exists ws, q'. specialize (Es ws). unfold storages in Es. rewrite Hq, Hq' in Es. by rewrite Es.
  - intros ws Ha. by apply Eq, H6.
Qed.

Lemma context_ok_forget r c c' : context_ok c -> may_forget r c c' -> request_ c <> Some r -> context_ok c'.
Proof.
  intros Hok (_ & Hr & Hs & Hne) Hnr. split.
  - intros r' u Hu. rewrite Hr. by apply Hok, Hs.
  - intros r' Hr'. rewrite Hr in Hr'. rewrite Hne by congruence. by apply Hok.
Qed.

(** What is shown does not change when the active request does not, and the
    request whose state is forgotten is another one. *)
Lemma shown_same b s s' r :
  shown b s -> active_request s' = active_request s -> may_forget r (context s) (context s') -> request_ (context s) <> Some r ->
  presented_request_ (presenter s') = presented_request_ (presenter s) -> presenting_ (presenter s') = presenting_ (presenter s) ->
  presentation_context_ (presenter s') = presentation_context_ (presenter s) ->
  (forall r', presented_request_ (presenter s) = Some r' -> requests s' !! r' = requests s !! r') -> shown b s'.
Proof.
  intros Hs Ha ((_ & _ & _ & _ & Hcap & _) & Hr & Hst & Hne) Hnr Hp1 Hp2 Hp3 Hreq.
  pose proof (to_show_same_front s s' Hp3 Ha Hcap) as Hto.
  destruct (shown_cases b s Hs) as [(r0 & (S1 & S2 & S3 & S4 & u & w & S5 & S6 & S7 & S8) & Hto0)|[Hn Hb]].
  - left. rewrite Hto, Hto0. split_and!; rewrite ?Hp1, ?Hp2, ?Hp3, ?Hr; try done. exists u, w.
    rewrite Hne by congruence. by rewrite (Hreq r0 S2).
  - assert (shown_is None s') as Hn'.
    { destruct Hn as [(N1 & N2 & N3) N4]. split; [|by rewrite Hr]. split_and!; rewrite ?Hp1, ?Hp2; try done.
      intros r' u Hu. by eapply N3, Hst. }
    destruct b; [left; by rewrite Hto, Hb|by right].
Qed.

Lemma active_request_same s s' : (forall ws, front s' ws = front s ws) ->
  active_web_state_ (presenter s') = active_web_state_ (presenter s) -> active_request s' = active_request s.
Proof. intros Hf Ha. unfold active_request. rewrite Ha. destruct (active_web_state_ (presenter s)); [apply Hf|done]. Qed.

(** No pointer has the identity of a request that is not in use. *)
Lemma unused_request (c : Context) : exists r, request_ c <> Some r /\ may_forget r c c.
Proof.
  exists (match request_ c with Some r => Pos.succ r | None => 1%positive end). split; [|done].
  destruct (request_ c); [|done]. intros [= E]. lia.
Qed.

Lemma shown_quiet b s s' :
  shown b s -> active_request s' = active_request s -> context s' = context s -> presenter s' = presenter s ->
  (forall r', presented_request_ (presenter s) = Some r' -> requests s' !! r' = requests s !! r') -> shown b s'.
Proof.
  intros Hs Ha Hc Hp Hr. destruct (unused_request (context s)) as (r & Hn & Hf).
  eapply (shown_same b s s' r); rewrite ?Hc, ?Hp; try done.
Qed.

(** ** The list gets and loses a WebState *)

Lemma same_requests_insert s ws q' :
  (ws ∈ destroyed s -> False) -> wf None s -> request_storages_ q' = storages s ws ->
  same_requests s (with_queues (<[ws := q']> (queues_ s)) s).
Proof.
  intros Hd Hw Hq. split; cbn.
  - intros ws'. unfold storages. cbn. destruct (decide (ws = ws')) as [<-|]; [by rewrite lookup_insert_eq|by rewrite lookup_insert_ne].
  - intros ws' Hs. rewrite lookup_insert_is_Some. destruct (decide (ws = ws')); [by left|by right].
  - intros ws' Hd'. rewrite lookup_insert_ne; [by apply (wf_destroyed _ _ Hw)|]. by intros ->.
  - done.
Qed.

(** A queue is made for a WebState that is not destroyed. *)
Lemma GetQueue_create_run s ws : ws ∉ destroyed s ->
  GetQueueForWebState ws s = Ok (default (mkQueue None false [] []) (queues_ s !! ws),
    match queues_ s !! ws with Some _ => s | None => with_queues (<[ws := mkQueue None false [] []]> (queues_ s)) s end).
Proof.
  intros Hd. unfold GetQueueForWebState. rewrite (mbind_run _ _ s s s) by done. destruct (queues_ s !! ws) as [q|] eqn:Hq; [done|].
  rewrite bool_decide_false by done. done.
Qed.

Lemma WebStateAddedToBrowser_run s ws : ws ∉ destroyed s ->
  exists q', WebStateAddedToBrowser ws s = Ok (tt, with_queues (<[ws := q']> (queues_ s)) s) /\
    request_storages_ q' = storages s ws /\ delegate_ q' = Some ThisPresenter /\ observed_ q' = true.
Proof.
  intros Hd. unfold WebStateAddedToBrowser. set (q := default (mkQueue None false [] []) (queues_ s !! ws)).
  assert (request_storages_ q = storages s ws) as Hst by (unfold q, storages; by destruct (queues_ s !! ws)).
  rewrite (mbind_run _ _ s q _) by by apply GetQueue_create_run. set (s1 := match queues_ s !! ws with Some _ => s | None => _ end).
  assert (queues_ s1 !! ws = Some q) as Hq1 by (subst s1 q; destruct (queues_ s !! ws) eqn:E; [done|apply lookup_insert_eq]).
  assert (forall v, with_queues (<[ws := v]> (queues_ s1)) s1 = with_queues (<[ws := v]> (queues_ s)) s) as Hs1.
  { intros v. subst s1. destruct (queues_ s !! ws); [done|]. cbn. unfold with_queues. cbn. by rewrite insert_insert_eq. }
  rewrite (mbind_run _ _ s1 q s1) by by apply get_queue_run. rewrite (mbind_run _ _ s1 tt (with_queues (<[ws := with_observed true q]> (queues_ s)) s)) by by rewrite <- Hs1.
  set (s2 := with_queues _ s). assert (queues_ s2 !! ws = Some (with_observed true q)) as Hq2 by apply lookup_insert_eq.
  unfold SetDelegate. rewrite (mbind_run _ _ s2 _ s2) by by apply get_queue_run. cbn [with_observed delegate_]. case_bool_decide as Hdel.
  - exists (with_observed true q). by split_and!.
  - rewrite (mbind_run _ _ s2 tt s2) by (cbn; by rewrite ?bool_decide_false by done). rewrite (mbind_run _ _ s2 _ s2) by by apply get_queue_run.
    exists (with_queue_delegate (Some ThisPresenter) (with_observed true q)). split; [|by split_and!].
    unfold set_queue, mmodify. subst s2. unfold with_queues. cbn. by rewrite insert_insert_eq.
Qed.

Definition list_ok s : Prop :=
  (forall ws, ws ∈ web_state_list_ s -> in_window s ws) /\ NoDup (web_state_list_ s) /\
  forall ws, active s = Some ws -> ws ∈ web_state_list_ s.

Lemma Inv_list_ok b s : Inv b s -> list_ok s.
Proof. intros []. by split_and!. Qed.

Lemma Inv_reactivated w s s' : list_ok s -> active s = w -> reactivated w s s' -> Inv true s'.
Proof.
  intros (L1 & L2 & L3) Ha []. split; try done.
  - congruence.
  - intros ws. rewrite reactivated_list0. intros Hws. destruct (L1 ws Hws) as (q & Hq). exists q. by rewrite reactivated_queues0.
  - by rewrite reactivated_list0.
  - intros ws. rewrite reactivated_list0, reactivated_active0. apply L3.
  - by left.
Qed.

(** Activating a WebState of the list. *)
Lemma activate_run s w reason b :
  wf None s -> context_ok (context s) -> shown b s -> removed_request_awaiting_dismissal_ (presenter s) = None ->
  (shown_is None s -> detached_presenting_request_queue_ (presenter s) = None) ->
  active_web_state_ (presenter s) <> w -> list_ok s -> active s = w ->
  exists s', SetActiveWebState w reason s = Ok (tt, s') /\ Inv true s' /\ same_list s s'.
Proof.
  intros Hw Hok Hs Ha Hd Hne Hl Hac. destruct (SetActiveWebState_run s w reason b) as (s' & E & Hr); try done.
  { intros ws ->. destruct Hl as (L1 & _ & L3). destruct (L1 ws (L3 ws Hac)) as (q & Hq & _). by rewrite Hq. }
  exists s'. split; [done|]. split; [by eapply Inv_reactivated|]. by destruct Hr.
Qed.

Lemma destroyed_not_in_list s ws : wf None s -> list_ok s -> ws ∈ web_state_list_ s -> ws ∉ destroyed s.
Proof. intros Hw (L1 & _) Hws Hd. destruct (L1 ws Hws) as (q & Hq & _). by rewrite (wf_destroyed _ _ Hw ws Hd) in Hq. Qed.

Lemma in_window_insert s s' ws q' ws' :
  in_window s ws' -> ws' <> ws -> queues_ s' = <[ws := q']> (queues_ s) -> in_window s' ws'.
Proof. intros (q & Hq & Hr) Hne E. exists q. by rewrite E, lookup_insert_ne. Qed.

Lemma InsertWebState_run s ws i act b :
  Inv b s -> ws ∉ web_state_list_ s -> ws ∉ destroyed s -> i <= length (web_state_list_ s) ->
  exists s', InsertWebState ws i act s = Ok (tt, s') /\ Inv b s'.
Proof.
  intros Hinv Hws Hd Hi. unfold InsertWebState. rewrite (mbind_run _ _ s s s) by done.
  set (s0 := with_active (if act then Some ws else active s) (with_web_state_list (insert_at i ws (web_state_list_ s)) s)).
  rewrite (mbind_run _ _ s tt s0) by done. destruct (WebStateAddedToBrowser_run s0 ws Hd) as (q' & E & Hst & Hdel & Hobs).
  rewrite (mbind_run _ _ s0 tt _) by exact E. set (s1 := with_queues _ s0).
  assert (wf None s0) as Hw0 by (eapply (wf_same None s); [apply Hinv|done..|]; split_and!; try done; apply (inv_wf _ _ Hinv)).
  pose proof (same_requests_insert s0 ws q' Hd Hw0 Hst) as Hsame. fold s1 in Hsame.
  assert (wf None s1) as Hw1.
  { eapply (wf_same_requests s0 s1); try done. apply (inv_wf _ _ Hinv). }
  assert (forall w, front s1 w = front s w) as Hf by (intros w; by apply (front_same s0 s1)).
  assert (shown b s1) as Hs1 by (eapply (shown_quiet b s s1); [apply Hinv|by apply active_request_same|done..]).
  assert (list_ok s1) as Hl1.
  { destruct (Inv_list_ok _ _ Hinv) as (L1 & L2 & L3). split_and!.
    - intros w [->|Hw]%elem_of_insert_at; [exists q'; cbn; by rewrite lookup_insert_eq|]. apply (in_window_insert s s1 ws q'); [by apply L1|by intros ->|done].
    - by apply NoDup_insert_at.
    - intros w Ha. apply elem_of_insert_at. cbn in Ha. destruct act; [left; congruence|right; by apply L3]. }
  destruct act; cbn [mwhen].
  - destruct (activate_run s1 (Some ws) Inserted b) as (s' & E' & HI & _); try done; try apply Hinv.
    + intros _. apply Hinv.
    + cbn. rewrite (inv_active _ _ Hinv). intros Ha. by apply Hws, (inv_active_in _ _ Hinv).
    + exists s'. split; [done|]. by eapply Inv_mono.
  - exists s1. split; [done|]. destruct Hl1 as (L1 & L2 & L3). split; try done; apply Hinv.
Qed.

Lemma ActivateWebStateAt_run s i ws b :
  Inv b s -> web_state_list_ s !! i = Some ws -> exists s', ActivateWebStateAt i s = Ok (tt, s') /\ Inv b s'.
Proof.
  intros Hinv Hi. unfold ActivateWebStateAt. rewrite (mbind_run _ _ s s s) by done. rewrite (mbind_run _ _ s ws s) by by rewrite Hi.
  set (s0 := with_active (Some ws) (with_web_state_list (web_state_list_ s) s)). rewrite (mbind_run _ _ s tt s0) by done.
  assert (ws ∈ web_state_list_ s) as Hws by by eapply list_elem_of_lookup_2.
  destruct (Inv_list_ok _ _ Hinv) as (L1 & L2 & L3).
  assert (wf None s0) as Hw0 by (eapply (wf_same None s); [apply Hinv|done..|]; split_and!; try done; apply (inv_wf _ _ Hinv)).
  assert (shown b s0) as Hs0 by (eapply (shown_quiet b s s0); [apply Hinv|done..]).
  destruct (decide (active_web_state_ (presenter s0) = Some ws)) as [Ha|Ha].
  - exists s0. unfold SetActiveWebState. rewrite (mbind_run _ _ s0 s0 s0) by done. rewrite bool_decide_true by done. split; [done|].
    split; try done; try apply Hinv. by intros w [= <-].
  - destruct (activate_run s0 (Some ws) Activated b) as (s' & E & HI & _); try done; try apply Hinv.
    + intros _. apply Hinv.
    + split_and!; [done..|]. by intros w [= <-].
    + exists s'. split; [done|]. by eapply Inv_mono.
Qed.

(** ** The list loses a WebState *)

Lemma presented_in_run s ws b : shown b s ->
  exists here, presented_in ws s = Ok (here, s) /\
    (if here then exists r, presented_request_ (presenter s) = Some r /\ queue_web_state_ <$> requests s !! r = Some (Some ws)
     else forall r, presented_request_ (presenter s) = Some r -> queue_web_state_ <$> requests s !! r <> Some (Some ws)).
Proof.
  intros Hs. unfold presented_in. rewrite (mbind_run _ _ s s s) by done.
  destruct (presented_request_ (presenter s)) as [r|] eqn:Hp; [|by exists false].
  destruct (shown_is_showing b s r Hs Hp) as [Hsh _]. destruct (showing_alive _ _ _ Hsh) as [R HR].
  unfold GetQueueWebState. rewrite mbind_assoc, (mbind_run _ _ s R s) by by apply get_request_run.
  rewrite mreturn_bind. exists (bool_decide (queue_web_state_ R = Some ws)). split; [done|]. case_bool_decide as HW.
  - exists r. split; [done|]. by rewrite HR, <- HW.
  - intros r' [= <-]. rewrite HR. cbn. congruence.
Qed.

Lemma not_shown_front s ws f b : wf None s -> shown b s -> front s ws = Some f ->
  (forall r, presented_request_ (presenter s) = Some r -> queue_web_state_ <$> requests s !! r <> Some (Some ws)) ->
  request_ (context s) <> Some f.
Proof.
  intros Hw Hs Hf Hn Hr. destruct (shown_cases b s Hs) as [(r & (_ & Hp & _ & Hr' & _) & _)|[[_ Hr'] _]]; [|congruence].
  apply (Hn r Hp). rewrite Hr in Hr'. injection Hr' as <-. by apply (wf_front_state None).
Qed.

Lemma CancelOverlayUIForFront_run s o :
  context_ok (context s) -> (forall f, o = Some f -> request_ (context s) <> Some f) ->
  exists c f, CancelOverlayUIForFront o s = Ok (tt, with_context c s) /\ may_forget f (context s) c /\ request_ (context s) <> Some f.
Proof.
  intros Hok Hf. destruct (unused_request (context s)) as (f0 & Hn0 & Hf0).
  destruct o as [f|]; cbn [CancelOverlayUIForFront]; [|exists (context s), f0; by destruct s].
  unfold CancelOverlayUIForRequest. rewrite (mbind_run _ _ s s s) by done.
  destruct (presentation_context_ (presenter s)); cbn [mwhen]; [|exists (context s), f0; by destruct s].
  rewrite CancelOverlayUI_other_run by auto. eexists _, f. split; [done|]. split; [apply may_forget_delete|auto].
Qed.

(** The presenter lets a WebState go: at once, or after the dismissal of the UI
    of its request. *)
Definition let_go s ws s' : Prop :=
  exists q' c f, request_storages_ q' = storages s ws /\ may_forget f (context s) c /\ request_ (context s) <> Some f /\
    (forall r, presented_request_ (presenter s) = Some r -> queue_web_state_ <$> requests s !! r <> Some (Some ws)) /\
    s' = with_context c (with_queues (<[ws := q']> (queues_ s)) s).
Definition detaches s ws s' : Prop :=
  exists q' r, request_storages_ q' = storages s ws /\ presented_request_ (presenter s) = Some r /\
    queue_web_state_ <$> requests s !! r = Some (Some ws) /\
    s' = with_presenter (with_detached_presenting_request_queue (Some ws) (presenter s)) (with_queues (<[ws := q']> (queues_ s)) s).

Lemma WebStateRemovedFromBrowser_run s ws q b :
  wf None s -> context_ok (context s) -> shown b s -> queues_ s !! ws = Some q ->
  exists s', WebStateRemovedFromBrowser ws s = Ok (tt, s') /\ (let_go s ws s' \/ detaches s ws s').
Proof.
  intros Hw Hok Hs Hq. unfold WebStateRemovedFromBrowser. rewrite (mbind_run _ _ s q s) by by apply GetQueueForWebState_run.
  rewrite (mbind_run _ _ s q s) by by apply get_queue_run.
  set (s1 := with_queues (<[ws := with_observed false q]> (queues_ s)) s). rewrite (mbind_run _ _ s tt s1) by done.
  assert (queues_ s1 !! ws = Some (with_observed false q)) as Hq1 by apply lookup_insert_eq.
  assert (storages s ws = request_storages_ q) as Hst by (unfold storages; by rewrite Hq).
  assert (ws ∉ destroyed s) as Hd by (intros Hd; by rewrite (wf_destroyed _ _ Hw ws Hd) in Hq).
  assert (same_requests s s1) as Hsame by (by apply (same_requests_insert s ws (with_observed false q))).
  assert (wf None s1) as Hw1 by (eapply (wf_same_requests s s1); [done..|apply Hw]).
  assert (active_request s1 = active_request s) as Har by (apply active_request_same; [intros w; by apply front_same|done]).
  assert (shown b s1) as Hs1 by (by apply (shown_quiet b s s1)).
  destruct (presented_in_run s1 ws b Hs1) as ([] & E & Hh); rewrite (mbind_run _ _ s1 _ s1) by exact E; cbn [negb mwhen].
  - rewrite mreturn_bind, (mbind_run _ _ s1 true s1) by exact E. rewrite (mbind_run _ _ s1 _ s1) by by apply GetQueueForWebState_run.
    eexists. split; [done|]. right. destruct Hh as (r & Hr1 & Hr2). by exists (with_observed false q), r.
  - assert (exists q2, SetDelegate ws None s1 = Ok (tt, with_queues (<[ws := q2]> (queues_ s)) s) /\ request_storages_ q2 = request_storages_ q)
      as (q2 & E2 & Hq2).
    { unfold SetDelegate. rewrite (mbind_run _ _ s1 _ s1) by by apply get_queue_run. case_bool_decide.
      { by exists (with_observed false q). }
      exists (with_queue_delegate None (with_observed false q)). split; [|done].
      rewrite (mbind_run _ _ s1 tt s1).
      - rewrite (mbind_run _ _ s1 _ s1) by by apply get_queue_run. unfold set_queue, mmodify, s1, with_queues. cbn. by rewrite insert_insert_eq.
      - case_bool_decide; [|done]. cbn [mwhen]. unfold OverlayRequestQueueWillReplaceDelegate. rewrite (mbind_run _ _ s1 s1 s1) by done.
        destruct (presented_request_ (presenter s1)) as [r|] eqn:Hp; [|done].
        rewrite (mbind_run _ _ s1 _ s1) by (apply front_request_run; by rewrite Hq1). rewrite bool_decide_false; [done|].
        intros Hf. apply (Hh r eq_refl). by apply (wf_front_state None). }
    set (s2 := with_queues (<[ws := q2]> (queues_ s)) s) in *. rewrite (mbind_run _ _ s1 tt s2) by exact E2.
    assert (same_requests s s2) as Hsame2 by (apply (same_requests_insert s ws q2); [done|done|congruence]).
    assert (wf None s2) as Hw2 by (eapply (wf_same_requests s s2); [done..|apply Hw]).
    assert (active_request s2 = active_request s) as Har2 by (apply active_request_same; [intros w; by apply front_same|done]).
    assert (shown b s2) as Hs2 by (by apply (shown_quiet b s s2)).
    destruct (presented_in_run s2 ws b Hs2) as (here & E3 & Hh3). rewrite (mbind_run _ _ s2 _ s2) by exact E3.
    destruct here; [destruct Hh3 as (r & Hr1 & Hr2); by destruct (Hh r Hr1)|].
    assert (queues_ s2 !! ws = Some q2) as Hq22 by apply lookup_insert_eq.
    rewrite (mbind_run _ _ s2 _ s2) by (apply GetFrontRequest_run; by rewrite Hq22).
    destruct (CancelOverlayUIForFront_run s2 (front s2 ws)) as (c & f & E4 & Hf1 & Hf2); [done| |].
    { intros f Hf. by apply (not_shown_front s2 ws f b). }
    eexists. split; [exact E4|]. left. exists q2, c, f. split_and!; try done. congruence.
Qed.

End Proofs.
End OverlayCalls.
