(* ===== verification/OverlayWindow.v ===== *)
(** * Overlays: the list loses WebStates, the context changes

    The remaining calls: WebStates that are detached, replaced, destroyed or given
    to another window, and the changes of the presentation context. *)

From stdpp Require Import base tactics option list numbers gmap.
From Stdlib Require Import ZArith Lia.
From S2P Require Import Prelude.
From S2P Require Import WebStateListModel.
From S2P Require Import OverlayState.
From S2P Require Import OverlayOps.
From S2P Require Import OverlayCalls.

Module OverlayWindow.
Import OverlayOps.
Export OverlayCalls.

Section Proofs.
Context `{H : OverlayEnv} `{Hfinish : !FinishAtOnce}.
Implicit Types (s : t) (r : RequestId) (ws : WebState) (b : bool).

(** What the state keeps when a WebState is let go or detached. *)
Lemma let_go_facts s ws s' b :
  wf None s -> context_ok (context s) -> shown b s -> ws ∉ destroyed s -> let_go s ws s' \/ detaches s ws s' ->
  wf None s' /\ context_ok (context s') /\ shown b s' /\ web_state_list_ s' = web_state_list_ s /\ active s' = active s /\
  destroyed s' = destroyed s /\ requests s' = requests s /\ (exists q', queues_ s' = <[ws := q']> (queues_ s)) /\
  active_web_state_ (presenter s') = active_web_state_ (presenter s) /\
  presented_request_ (presenter s') = presented_request_ (presenter s) /\
  removed_request_awaiting_dismissal_ (presenter s') = removed_request_awaiting_dismissal_ (presenter s) /\
  detaching_presenting_web_state_ (presenter s') = detaching_presenting_web_state_ (presenter s).
Proof.
  intros Hw Hok Hs Hd [(q' & c & f & Hq & Hf & Hn & _ & ->)|(q' & r & Hq & _ & _ & ->)].
  - pose proof (same_requests_insert s ws q' Hd Hw Hq) as Hsame. set (s1 := with_queues _ s) in *. pose proof Hf as ((_ & _ & _ & _ & Hcap & Hobs & _) & _).
    assert (active_request (with_context c s1) = active_request s) as Har by (apply active_request_same; [intros w; by apply (front_same s s1)|done]).
    split_and!; try done; [|by eapply context_ok_forget| |by exists q'].
    + eapply (wf_same_requests s (with_context c s1)); try done; [by destruct Hsame|]. cbn. rewrite Hobs. apply Hw.
    + by apply (shown_same b s _ f).
  - pose proof (same_requests_insert s ws q' Hd Hw Hq) as Hsame. set (s1 := with_queues _ s) in *.
    destruct (unused_request (context s)) as (f & Hn & Hf). set (s2 := with_presenter _ s1).
    assert (active_request s2 = active_request s) as Har by (apply active_request_same; [intros w; by apply (front_same s s1)|done]).
    split_and!; try done; [| |by exists q'].
    + eapply (wf_same_requests s s2); try done; [by destruct Hsame|]. apply Hw.
    + by apply (shown_same b s _ f).
Qed.

Lemma NoDup_erase_ne {A} (l : list A) i x y : NoDup l -> l !! i = Some x -> y ∈ erase_at i l -> y ∈ l /\ y <> x.
Proof. intros Hn Hi. by rewrite (elem_of_erase_at i x). Qed.

Lemma detach_list_ok s ws s2 i na q' :
  list_ok s -> web_state_list_ s !! i = Some ws -> queues_ s2 = <[ws := q']> (queues_ s) ->
  (forall w, na = Some w -> w ∈ erase_at i (web_state_list_ s)) ->
  list_ok (with_active na (with_web_state_list (erase_at i (web_state_list_ s)) s2)).
Proof.
  intros (L1 & L2 & L3) Hi Hq Hna. split_and!; cbn.
  - intros w (Hw & Hne)%(NoDup_erase_ne _ _ ws); [|done..]. apply (in_window_insert s _ ws q'); [by apply L1|done|exact Hq].
  - by eapply NoDup_erase_at.
  - done.
Qed.

Lemma DetachWebStateAt_run s i ws na b :
  Inv b s -> web_state_list_ s !! i = Some ws -> (forall w, na = Some w -> w ∈ erase_at i (web_state_list_ s)) ->
  exists s', DetachWebStateAt i na s = Ok (tt, s') /\ Inv b s'.
Proof.
  intros Hinv Hi Hna. pose proof (Inv_list_ok _ _ Hinv) as Hl. pose proof (list_elem_of_lookup_2 _ _ _ Hi) as Hws.
  pose proof (inv_wf _ _ Hinv) as Hw. destruct (inv_list _ _ Hinv ws Hws) as (q & Hq & _).
  assert (ws ∉ destroyed s) as Hd by by eapply destroyed_not_in_list.
  unfold DetachWebStateAt. rewrite (mbind_run _ _ s s s) by done. rewrite (mbind_run _ _ s ws s) by by rewrite Hi.
  unfold WillDetachWebStateAt. destruct (presented_in_run s ws b (inv_shown _ _ Hinv)) as (here & E1 & Hh).
  rewrite mbind_assoc, (mbind_run _ _ s _ s) by exact E1. set (s1 := with_presenter (with_detaching_presenting_web_state here (presenter s)) s).
  rewrite mbind_assoc, (mbind_run _ _ s tt s1) by done.
  destruct (unused_request (context s)) as (f & Hnf & Hf).
  assert (wf None s1) as Hw1 by (eapply (wf_same None s); [done..|]; split_and!; try done; apply Hw).
  assert (shown b s1) as Hs1 by (eapply (shown_same b s s1 f); try done; apply Hinv).
  destruct (WebStateRemovedFromBrowser_run s1 ws q b Hw1 (inv_context _ _ Hinv) Hs1 Hq) as (s2 & E2 & H2).
  rewrite (mbind_run _ _ s1 tt s2) by exact E2.
  destruct (let_go_facts s1 ws s2 b) as (Hw2 & Hok2 & Hs2 & El & Ea & Ed & Er & (q' & Eq) & Eaw & Ep & Ewa & Edet); [done|apply Hinv|done..|].
  rewrite (mbind_run _ _ s2 s2 s2) by done. rewrite El, Ea.
  set (s3 := with_active (if bool_decide (active s1 = Some ws) then na else active s1) (with_web_state_list (erase_at i (web_state_list_ s1)) s2)).
  rewrite (mbind_run _ _ s2 tt s3) by done.
  assert (wf None s3) as Hw3 by (eapply (wf_same None s2); [done..|]; split_and!; try done; apply Hw2).
  assert (shown b s3) as Hs3 by by apply (shown_quiet b s2 s3).
  assert (list_ok s3) as Hl3.
  { apply (detach_list_ok s ws s2 i _ q'); [done..|]. intros w. case_bool_decide as Hac; [apply Hna|]. intros Hw'.
    rewrite (elem_of_erase_at i ws); [|apply Hinv|done]. split; [by apply (inv_active_in _ _ Hinv)|]. intros ->. by apply Hac. }
  assert (na <> Some ws) as Hna'.
  { intros ->. specialize (Hna ws eq_refl). rewrite (elem_of_erase_at i ws) in Hna; [tauto|apply Hinv|done]. }
  destruct (decide (active s1 = Some ws)) as [Hac|Hac].
  - rewrite (bool_decide_true (active s1 = Some ws)) by done. cbn [mwhen].
    destruct (activate_run s3 na Closed b) as (s' & E & HI & _); try done.
    + cbn. rewrite Ewa. apply Hinv.
    + intros [(_ & Hn & _) _]. destruct H2 as [(? & ? & ? & _ & _ & _ & _ & ->)|(? & r & _ & Hp & _)]; [apply Hinv|].
      cbn in Hn. rewrite Ep in Hn. congruence.
    + cbn. rewrite Eaw. cbn. rewrite (inv_active _ _ Hinv). change (active s) with (active s1). congruence.
    + unfold s3. by rewrite (bool_decide_true (active s1 = Some ws)).
    + exists s'. split; [done|]. by eapply Inv_mono.
  - rewrite (bool_decide_false (active s1 = Some ws)) by done. cbn [mwhen]. exists s3. split; [done|].
    assert (here = false) as ->.
    { destruct here; [|done]. destruct Hh as (r & Hp & HW). destruct (shown_place b s r Hinv Hp) as (ws' & ? & ? & Ha' & _ & _ & _ & _ & _ & _ & Hfr & _).
      apply (wf_front_state None) in Hfr; [|done]. exfalso. apply Hac. change (active s = Some ws). congruence. }
    assert (detached_presenting_request_queue_ (presenter s2) = None) as Hdet2.
    { destruct H2 as [(? & ? & ? & _ & _ & _ & _ & ->)|(? & r & _ & Hp & HW & _)]; [apply Hinv|]. by destruct (Hh r Hp). }
    destruct Hl3 as (L1 & L2 & L3). split; try done.
    + cbn. rewrite Ewa. apply Hinv.
    + cbn. rewrite Eaw, bool_decide_false by done. apply Hinv.
Qed.

(** ** A WebState replaces another one *)

Lemma NoDup_replace {A} (l : list A) i x y : NoDup l -> l !! i = Some x -> y ∉ l -> NoDup (<[i := y]> l).
Proof.
  intros Hn (l1 & l2 & -> & <-)%split_at Hy. rewrite insert_app_r_alt, Nat.sub_diag by lia. cbn.
  rewrite <- Permutation_middle in *. rewrite not_elem_of_cons, not_elem_of_app in Hy. apply NoDup_cons in Hn as [_ Hn].
  constructor; [rewrite elem_of_app; tauto|done].
Qed.

Lemma elem_of_replace {A} (l : list A) i x y z : NoDup l -> l !! i = Some x -> z ∈ <[i := y]> l <-> z = y \/ (z ∈ l /\ z <> x).
Proof.
  intros Hn (l1 & l2 & -> & <-)%split_at. rewrite insert_app_r_alt, Nat.sub_diag by lia. cbn.
  rewrite <- !Permutation_middle in *. apply NoDup_cons in Hn as [Hx _]. rewrite !elem_of_cons, !elem_of_app.
  rewrite elem_of_app in Hx. naive_solver.
Qed.

Lemma ReplaceWebStateAt_run s i old ws b :
  Inv b s -> web_state_list_ s !! i = Some old -> ws ∉ web_state_list_ s -> ws ∉ destroyed s ->
  exists s', ReplaceWebStateAt i ws s = Ok (tt, s') /\ Inv b s'.
Proof.
  intros Hinv Hi Hnl Hnd. destruct (Inv_list_ok _ _ Hinv) as (L1 & L2 & L3). pose proof (list_elem_of_lookup_2 _ _ _ Hi) as Hold.
  pose proof (inv_wf _ _ Hinv) as Hw. destruct (L1 old Hold) as (q & Hq & _).
  assert (old ∉ destroyed s) as Hd by by eapply destroyed_not_in_list; [|apply (Inv_list_ok b)|].
  unfold ReplaceWebStateAt. rewrite (mbind_run _ _ s s s) by done. rewrite (mbind_run _ _ s old s) by by rewrite Hi. cbn zeta.
  set (na := if bool_decide (active s = Some old) then Some ws else active s).
  set (s0 := with_active na (with_web_state_list (<[i := ws]> (web_state_list_ s)) s)). rewrite (mbind_run _ _ s tt s0) by done.
  assert (wf None s0) as Hw0 by (eapply (wf_same None s); [done..|]; split_and!; try done; apply Hw).
  assert (shown b s0) as Hs0 by (apply (shown_quiet b s s0); try done; apply Hinv).
  destruct (WebStateRemovedFromBrowser_run s0 old q b Hw0 (inv_context _ _ Hinv) Hs0 Hq) as (s1 & E1 & H1).
  rewrite (mbind_run _ _ s0 tt s1) by exact E1.
  destruct (let_go_facts s0 old s1 b) as (Hw1 & Hok1 & Hs1 & El & Ea & Ed & Er & (q1 & Eq) & Eaw & Ep & Ewa & Edet); [done|apply Hinv|done..|].
  destruct (WebStateAddedToBrowser_run s1 ws) as (q2 & E2 & Hst & Hdel & Hobs); [by rewrite Ed|].
  rewrite (mbind_run _ _ s1 tt _) by exact E2. set (s2 := with_queues _ s1) in *.
  pose proof (same_requests_insert s1 ws q2 ltac:(by rewrite Ed) Hw1 Hst) as Hsame.
  assert (wf None s2) as Hw2 by (eapply (wf_same_requests s1 s2); try done; apply Hw1).
  assert (shown b s2) as Hs2 by (apply (shown_quiet b s1 s2); try done; apply active_request_same; [intros w; by apply front_same|done]).
  assert (list_ok s2) as Hl2.
  { split_and!; cbn [web_state_list_ active s2 with_queues]; rewrite ?El, ?Ea; cbn.
    - intros w [->|[Hw' Hne]]%(elem_of_replace _ _ old); [|apply (in_window_insert s1 _ ws q2)|done..]; [exists q2; cbn; by rewrite lookup_insert_eq| | |done].
      + apply (in_window_insert s0 _ old q1); [by apply L1|done|done].
      + by intros ->.
    - by apply (NoDup_replace _ i old).
    - intros w Hna. rewrite (elem_of_replace _ i old) by done. subst na. case_bool_decide as Hac; [left; congruence|right].
      split; [by apply L3|]. intros ->. by apply Hac. }
  assert (active_web_state_ (presenter s2) = active s) as Haw by (cbn; rewrite Eaw; apply Hinv).
  assert (removed_request_awaiting_dismissal_ (presenter s2) = None) as Hawa by (cbn; rewrite Ewa; apply Hinv).
  destruct (decide (active s = Some old)) as [Hac|Hac].
  - destruct (activate_run s2 na Replaced b) as (s' & E & HI & _); try done.
    + intros [(_ & Hn & _) _]. destruct H1 as [(? & ? & ? & _ & _ & _ & _ & ->)|(? & r & _ & Hp & _)]; [apply Hinv|].
      cbn in Hn. rewrite Ep in Hn. congruence.
    + rewrite Haw, Hac. subst na. rewrite bool_decide_true by done. intros [= ->]. by apply Hnl.
    + exists s'. split; [done|]. by eapply Inv_mono.
  - assert (na = active s) as Hna by (subst na; by rewrite bool_decide_false).
    exists s2. unfold SetActiveWebState. rewrite (mbind_run _ _ s2 s2 s2) by done. rewrite Haw, Hna, bool_decide_true by done. split; [done|].
    destruct Hl2 as (M1 & M2 & M3). split; try done.
    + destruct H1 as [(? & ? & ? & _ & _ & _ & _ & ->)|(? & r & _ & Hp & HW & _)]; [apply Hinv|].
      destruct (shown_place b s r Hinv Hp) as (ws' & ? & ? & Ha' & _ & _ & _ & _ & _ & _ & Hfr & _).
      apply (wf_front_state None) in Hfr; [|done]. exfalso. apply Hac. rewrite Ha'. cbn in HW. congruence.
    + cbn. rewrite Edet. apply Hinv.
    + rewrite Haw. cbn. by rewrite Ea.
Qed.

End Proofs.
End OverlayWindow.
