(* ===== verification/OverlayRequests.v ===== *)
(** * Overlays: requests that are added, dismissals, and the context

    The calls that show or hide a UI without changing the list of WebStates. *)

From stdpp Require Import base tactics option list numbers gmap.
From Stdlib Require Import ZArith Lia.
From S2P Require Import Prelude.
From S2P Require Import WebStateListModel.
From S2P Require Import OverlayState.
From S2P Require Import OverlayOps.
From S2P Require Import OverlayWindow.

Module OverlayRequests.
Import OverlayOps.
Export OverlayWindow.

Section Proofs.
Context `{H : OverlayEnv} `{Hfinish : !FinishAtOnce}.
Implicit Types (s : t) (r : RequestId) (ws : WebState) (b : bool).

(** The invariant without what is shown. *)
Definition base s : Prop :=
  wf None s /\ list_ok s /\ active_web_state_ (presenter s) = active s /\ detached_presenting_request_queue_ (presenter s) = None /\
  removed_request_awaiting_dismissal_ (presenter s) = None /\ detaching_presenting_web_state_ (presenter s) = false.

Lemma Inv_base b s : Inv b s <-> base s /\ context_ok (context s) /\ shown b s.
Proof.
  split.
  - intros Hi. pose proof (Inv_list_ok _ _ Hi). destruct Hi. by split_and!.
  - intros ((? & (? & ? & ?) & ? & ? & ? & ?) & ? & ?). by split.
Qed.

Lemma list_ok_same s s' : list_ok s -> queues_ s' = queues_ s -> web_state_list_ s' = web_state_list_ s -> active s' = active s -> list_ok s'.
Proof. unfold list_ok, in_window. intros (L1 & L2 & L3) -> -> ->. done. Qed.

Lemma base_world s s' : base s -> world s s' -> base s'.
Proof.
  intros (B1 & B2 & B3 & B4 & B5 & B6) Hs. pose proof (wf_world _ _ _ B1 Hs). destruct Hs.
  split_and!; try congruence. by eapply list_ok_same.
Qed.

Lemma present_Inv s : base s -> context_ok (context s) -> shown_is None s ->
  exists s', PresentOverlayForActiveRequest s = Ok (tt, s') /\ Inv true s'.
Proof.
  intros Hb Hok Hn. destruct (present_run None s) as (s' & E & Hw & Hok' & Hs'); [apply Hb|done..|].
  exists s'. split; [done|]. apply Inv_base. split; [by eapply base_world|]. split; [done|by left].
Qed.

(** The state after a dismissal that removes no request. *)
Lemma dismissed_base s ws reason r s' : base s -> dismissed None ws reason r s s' -> reason <> kUserInteraction ->
  base s' /\ queues_ s' = queues_ s /\ active_request s' = active_request s.
Proof.
  intros (B1 & B2 & B3 & B4 & B5 & B6) [Dw [] Dpop Dshape Ddet Dawa Dok Dsh] Hne. unfold popped in Dpop.
  rewrite bool_decide_false in Dpop by done. split; [|split; [done|]].
  - split_and!; try congruence. by eapply list_ok_same.
  - apply active_request_same; [|done]. intros w. unfold front. by rewrite Dpop.
Qed.

(** The UI that is shown is hidden, and its request is not the active one any
    more, or stays hidden. *)
Lemma hide_run s r : base s -> context_ok (context s) -> showing r s ->
  exists s', HideOverlayUI r s = Ok (tt, s') /\ base s' /\ context_ok (context s') /\ window s s' /\ queues_ s' = queues_ s /\
    if bool_decide (active_request s = Some r) then shown_is None s' else Inv true s'.
Proof.
  intros Hb Hok Hs. destruct (HideOverlayUI_run s r) as (s' & ws & E & Hd); [apply Hb..|done|done|].
  destruct (dismissed_base s ws kHiding r s' Hb Hd) as (Hb' & Hq & Ha); [done|].
  exists s'. split; [done|]. split; [done|]. split; [apply Hd|]. split; [apply Hd|]. split; [done|].
  destruct Hd as [_ _ _ _ _ _ Dok Dsh]. case_bool_decide.
  - rewrite next_shown_same in Dsh by congruence. done.
  - rewrite next_shown_other in Dsh by congruence. apply Inv_base. split; [done|]. split; [done|by left].
Qed.

(** ** A request is added *)

Definition handler_of (handler : option positive) : CancelHandler :=
  match handler with Some h => ClientHandler h | None => DefaultHandler end.

(** The state when the observers of the queue are told. *)
Definition added s ws (q : Queue) (i : nat) r (handler : option positive) (callbacks : CallbackManager) : t :=
  with_queues (<[ws := with_navigation_helpers (match handler with Some _ => navigation_helpers q | None => navigation_helpers q ++ [r] end)
      (with_request_storages (insert_at i (mkStorage r (handler_of handler)) (request_storages_ q)) q)]> (queues_ s))
    (with_requests (<[r := mkRequest (Some ws) callbacks]> (requests s)) s).

Definition AddNewRequest ws (i : nat) r (handler : option positive) (callbacks : CallbackManager) : M t unit :=
  CreateRequest r callbacks ;;; GetQueueForWebState ws ;;; InsertRequest ws i r handler.

Lemma AddNewRequest_eq s ws i r handler callbacks :
  ws ∉ destroyed s -> i <= length (storages s ws) ->
  let q := default (mkQueue None false [] []) (queues_ s !! ws) in
  AddNewRequest ws i r handler callbacks s =
    (if observed_ q then RequestAddedToQueue ws r i else mreturn tt) (added s ws q i r handler callbacks).
Proof.
  intros Hd Hi q. unfold AddNewRequest. set (s1 := with_requests (<[r := mkRequest None callbacks]> (requests s)) s).
  rewrite (mbind_run _ _ s tt s1) by done. set (s2 := match queues_ s1 !! ws with Some _ => s1 | None => with_queues (<[ws := mkQueue None false [] []]> (queues_ s1)) s1 end).
  rewrite (mbind_run _ _ s1 q s2) by by apply GetQueue_create_run.
  assert (storages s ws = request_storages_ q) as Hst by (unfold q, storages; by destruct (queues_ s !! ws)).
  assert (queues_ s2 !! ws = Some q) as Hq2 by (subst s2 q; cbn; destruct (queues_ s !! ws) eqn:E; [done|apply lookup_insert_eq]).
  unfold InsertRequest. rewrite (mbind_run _ _ s2 q s2) by by apply get_queue_run.
  rewrite (mbind_run _ _ s2 tt s2) by (unfold dcheck, size; rewrite (proj2 (Nat.leb_le _ _)); [done|by rewrite <- Hst]). cbn zeta.
  set (s3 := added s ws q i r handler callbacks).
  set (s2' := with_requests (alter (fun R => mkRequest (Some ws) (callback_manager_ R)) r (requests s2)) s2). rewrite (mbind_run _ _ s2 tt s2') by done.
  rewrite (mbind_run _ _ s2' tt s3).
  - destruct (observed_ q); cbn [mwhen]; [|done].
    rewrite (mbind_run _ _ s3 r s3); [done|]. eapply (GetRequest_run _ _ _ _ (mkStorage r (handler_of handler))); [apply lookup_insert_eq|].
    cbn. apply lookup_insert_at_eq. by rewrite <- Hst.
  - assert (alter (fun R => mkRequest (Some ws) (callback_manager_ R)) r (<[r := mkRequest None callbacks]> (requests s)) =
      <[r := mkRequest (Some ws) callbacks]> (requests s)) as E.
    { apply map_eq. intros r'. destruct (decide (r' = r)) as [->|]; [by rewrite lookup_alter_eq, !lookup_insert_eq|by rewrite lookup_alter_ne, !lookup_insert_ne]. }
    unfold set_queue, mmodify, s3, added, handler_of. subst s2' s2. cbn. destruct (queues_ s !! ws); cbn; rewrite E; unfold with_queues, with_requests; cbn;
      rewrite ?insert_insert_eq; by destruct handler.
Qed.

Section Added.
Context (s : t) (ws : WebState) (i : nat) (r : RequestId) (handler : option positive) (callbacks : CallbackManager) (q : Queue).
Hypothesis Hq : q = default (mkQueue None false [] []) (queues_ s !! ws).
Hypothesis Hd : ws ∉ destroyed s.
Hypothesis Hr : requests s !! r = None.
Hypothesis Hi : i <= length (request_storages_ q).

Let s' := added s ws q i r handler callbacks.

Lemma added_storages w : storages s' w = if bool_decide (w = ws) then insert_at i (mkStorage r (handler_of handler)) (request_storages_ q) else storages s w.
Proof.
  unfold storages. cbn. case_bool_decide as Hw; [subst w; by rewrite lookup_insert_eq|by rewrite lookup_insert_ne].
Qed.
Lemma old_storages : request_storages_ q = storages s ws.
Proof. rewrite Hq. unfold storages. by destruct (queues_ s !! ws). Qed.

Lemma wf_alive w st : wf None s -> st ∈ storages s w -> queue_web_state_ <$> requests s !! request st = Some (Some w) /\ request st <> r.
Proof.
  intros Hw (q0 & Hq0 & Hst)%storages_in. pose proof (wf_storages _ _ Hw w q0 st Hq0 Hst) as E. split; [done|].
  intros Hst'. by rewrite Hst', Hr in E.
Qed.

Lemma storages_queue x w : storages x w = [] \/ exists q0, queues_ x !! w = Some q0 /\ storages x w = request_storages_ q0.
Proof. unfold storages. destruct (queues_ x !! w) as [q0|]; [right; by exists q0|by left]. Qed.

Lemma added_wf : wf None s -> wf None s'.
Proof.
  intros Hw. pose proof Hw as [H1 H2 H3 H4 H5 H6 H7 H8].
  assert (forall w st, st ∈ storages s' w -> st = mkStorage r (handler_of handler) /\ w = ws \/ st ∈ storages s w) as Hst.
  { intros w st. rewrite added_storages. case_bool_decide; [subst w|by right]. rewrite elem_of_insert_at, old_storages. intros [->|?]; [by left|by right]. }
  split; try done.
  - intros w q0 st Hq0 Hin. pose proof (in_storages _ _ _ _ Hq0 Hin) as [[-> ->]|Hin']%Hst; [cbn; by rewrite lookup_insert_eq|].
    destruct (wf_alive w st Hw Hin') as [E Hne]. cbn. by rewrite lookup_insert_ne.
  - intros w q0 Hq0. assert (request_storages_ q0 = storages s' w) as -> by (unfold storages; by rewrite Hq0). rewrite added_storages.
    assert (NoDup (request <$> storages s w)) as Hn by (destruct (storages_queue s w) as [->|(q1 & Hq1 & ->)]; [constructor|by eapply H2]).
    case_bool_decide; [subst w|done]. rewrite old_storages, insert_at_fmap. apply NoDup_insert_at; [done|].
    intros (st & Hst1 & Hst2)%list_elem_of_fmap. by destruct (wf_alive ws st Hw Hst2) as [_ Hne].
  - intros r' R. cbn. intros [[<- <-]|[Hne HR]]%lookup_insert_Some _.
    + eexists ws, _. split; [done|]. split; [apply lookup_insert_eq|]. cbn. rewrite insert_at_fmap, elem_of_insert_at. by left.
    + destruct (H3 r' R HR) as (w & q0 & HW & Hq0 & Hin); [done|]. exists w. destruct (decide (ws = w)) as [<-|Hws].
      * eexists. split; [done|]. split; [apply lookup_insert_eq|]. cbn. rewrite insert_at_fmap, elem_of_insert_at. right.
        rewrite old_storages. unfold storages. by rewrite Hq0.
      * exists q0. by rewrite lookup_insert_ne.
  - intros w Hw'. cbn. rewrite lookup_insert_ne; [by apply H5|]. by intros <-.
  - intros w Ha. cbn. rewrite lookup_insert_is_Some. destruct (decide (ws = w)); [by left|right; split; [done|by apply H6]].
Qed.

Lemma added_base : base s -> base s'.
Proof.
  intros (B1 & (L1 & L2 & L3) & B3 & B4 & B5 & B6). split; [by apply added_wf|]. split; [|by split_and!]. split; [|done].
  intros w Hw. destruct (L1 w Hw) as (q0 & Hq0 & Hdel & Hobs). destruct (decide (ws = w)) as [<-|Hne].
  - eexists. split; [apply lookup_insert_eq|]. cbn. by rewrite Hq, Hq0.
  - exists q0. cbn. by rewrite lookup_insert_ne.
Qed.

Lemma added_front w : w <> ws \/ i <> 0 -> front s' w = front s w.
Proof.
  intros Hor. rewrite !front_storages, added_storages. case_bool_decide; [subst w|done]. destruct Hor as [|Hne]; [done|].
  pose proof Hi as Hi'. rewrite old_storages in Hi' |- *. destruct (storages s ws) as [|st sts]; [cbn in Hi'; lia|].
  by destruct i as [|j].
Qed.
Lemma added_front_0 : i = 0 -> front s' ws = Some r.
Proof. intros Hi0. rewrite front_storages, added_storages, bool_decide_true by done. by rewrite Hi0. Qed.

Lemma added_shown b : wf None s -> shown b s -> active_request s' = active_request s -> shown b s'.
Proof.
  intros Hw Hs Ha. apply (shown_quiet b s s'); try done. intros r' Hr'. destruct (shown_is_showing b s r' Hs Hr') as [Hsh _].
  destruct (showing_alive _ _ _ Hsh) as [R HR]. cbn. rewrite lookup_insert_ne; congruence.
Qed.

End Added.

Lemma AddNewRequest_run s ws i r handler callbacks b :
  Inv b s -> ws ∉ destroyed s -> requests s !! r = None -> i <= length (storages s ws) ->
  exists s', AddNewRequest ws i r handler callbacks s = Ok (tt, s') /\ Inv b s'.
Proof.
  intros Hinv Hd Hr Hi. rewrite AddNewRequest_eq by done. cbn zeta. set (q := default _ _). pose proof (proj1 (Inv_base b s) Hinv) as (Hb & Hok & Hs).
  assert (i <= length (request_storages_ q)) as Hi' by (by rewrite (old_storages s ws q eq_refl)).
  pose proof (added_base s ws i r handler callbacks q eq_refl Hd Hr Hb) as Hb'. set (s' := added s ws q i r handler callbacks) in *.
  assert (active_request s' = active_request s -> Inv b s') as Hsame.
  { intros Ha. apply Inv_base. split; [done|]. split; [done|]. apply added_shown; try done. apply Hinv. }
  destruct (decide (active s = Some ws /\ i = 0)) as [[Ha ->]|Hn].
  2: { assert (active_request s' = active_request s) as Har.
       { unfold active_request. cbn. rewrite (inv_active _ _ Hinv). destruct (active s) as [w|]; [|done]. cbn.
         apply added_front; [done..|]. destruct (decide (w = ws)); [right; naive_solver|by left]. }
       exists s'. split; [|by apply Hsame]. destruct (observed_ q); [|done]. unfold RequestAddedToQueue.
       rewrite (mbind_run _ _ s' _ s') by (eapply GetActiveRequest_run, Hb'). rewrite bool_decide_false; [done|]. rewrite Har. intros Ha'.
       destruct (wf_active_alive _ _ _ (inv_wf _ _ Hinv) Ha'); congruence. }
  destruct (inv_list _ _ Hinv ws (inv_active_in _ _ Hinv ws Ha)) as (q0 & Hq0 & Hdel & Hobs).
  assert (q = q0) as Eq by (subst q; by rewrite Hq0). rewrite Eq, Hobs. unfold RequestAddedToQueue.
  assert (active_request s' = Some r) as Har.
  { unfold active_request. cbn. rewrite (inv_active _ _ Hinv), Ha. cbn. by apply added_front_0. }
  rewrite (mbind_run _ _ s' _ s') by (eapply GetActiveRequest_run, Hb'). rewrite Har, bool_decide_true by done. cbn [negb].
  rewrite (mbind_run _ _ s' s' s') by done.
  destruct (shown_cases b s Hs) as [(r0 & Hsh & Hto)|[Hnone _]].
  - destruct (to_show_active _ _ Hto) as (_ & Hact & _). pose proof Hsh as (Hp1 & Hp2 & Hp3 & Hp4 & u & w & Hp5 & Hp6 & Hp7 & Hp8).
    assert (r0 <> r) as Hne by (intros ->; by rewrite Hr in Hp8).
    assert (showing r0 s') as Hsh' by (split_and!; try done; exists u, w; split_and!; try done; cbn; by rewrite lookup_insert_ne).
    destruct (hide_run s' r0 Hb' Hok Hsh') as (s2 & E2 & _ & _ & _ & _ & H2). rewrite bool_decide_false in H2 by congruence.
    exists s2. split; [|by eapply Inv_mono]. change (presenting_ (presenter s')) with (presenting_ (presenter s)). rewrite Hp1. cbn [negb].
    change (presented_request_ (presenter s')) with (presented_request_ (presenter s)). rewrite Hp2.
    unfold active_request in Hact. rewrite (inv_active _ _ Hinv), Ha in Hact. cbn in Hact. unfold front in Hact. rewrite Hq0 in Hact.
    destruct (request_storages_ q0) as [|st sts] eqn:Est; [done|]. injection Hact as Hst.
    assert (exists q', queues_ s' !! ws = Some q' /\ request_storages_ q' = mkStorage r (handler_of handler) :: st :: sts) as (q' & Hq' & Hst').
    { eexists. split; [apply lookup_insert_eq|]. cbn. by rewrite Eq, Est. }
    rewrite (mbind_run _ _ s' q' s') by by apply get_queue_run. unfold size. rewrite Hst'. cbn [length Nat.ltb Nat.leb].
    rewrite (mbind_run _ _ s' (request st) s') by (eapply GetRequest_run; [done|by rewrite Hst']). by rewrite bool_decide_true.
  - change (presenting_ (presenter s')) with (presenting_ (presenter s)). pose proof Hnone as [(-> & _) _]. cbn [negb].
    destruct (present_Inv s' Hb' Hok) as (s2 & E2 & H2); [done|]. exists s2. split; [done|]. by eapply Inv_mono.
Qed.

(** ** The user dismisses the UI that is shown

    The coordinator tells that its dismissal is finished: the user asked for it, or
    the context did earlier, with a coordinator that takes its time. *)

Definition UserDismissal : M t unit :=
  let! s := mget in
  match request_ (context s) with Some r => OverlayUIDidFinishDismissal r | None => mreturn tt end.

Lemma queue_without_base s s' ws q i r : base s -> wf None s' -> window s s' -> queues_ s !! ws = Some q ->
  queues_ s' = <[ws := queue_without q i r]> (queues_ s) -> detached_presenting_request_queue_ (presenter s') = None ->
  removed_request_awaiting_dismissal_ (presenter s') = None -> base s'.
Proof.
  intros (B1 & (L1 & L2 & L3) & B3 & B4 & B5 & B6) Hw [] Hq Eq Hdet Hawa. split_and!; try congruence.
  split_and!; rewrite ?window_list0, ?window_active0; try done.
  intros w Hw'. by eapply in_window_queue; [exact Hq|exact Eq|..|apply L1].
Qed.

Lemma UserDismissal_run s b : Inv b s -> exists s', UserDismissal s = Ok (tt, s') /\ Inv b s'.
Proof.
  intros Hinv. unfold UserDismissal. rewrite (mbind_run _ _ s s s) by done.
  destruct (request_ (context s)) as [r|] eqn:Hr; [|by exists s].
  pose proof (proj1 (Inv_base b s) Hinv) as (Hb & Hok & Hs).
  destruct (shown_cases b s Hs) as [(r0 & Hsh & Hto)|[[_ Hr'] _]]; [|congruence].
  assert (r0 = r) as -> by (destruct Hsh as (_ & _ & _ & Hr0 & _); congruence).
  assert (presented_request_ (presenter s) = Some r) as Hp by (destruct Hsh as (_ & Hp & _); exact Hp).
  destruct (shown_place b s r Hinv Hp) as (ws & q & st & Ha & Haw & Hq & Hdel & Hobs & Hst & Hstr & Hfr & _).
  pose proof (wf_front_state _ _ _ _ (inv_wf _ _ Hinv) Hfr) as Hwr.
  destruct (OverlayUIDidFinishDismissal_run None s r kUserInteraction) as (s' & ws' & E & Hws & [Dw Dwin Dpop Dshape Ddet Dawa Dok Dsh]).
  - apply Hinv.
  - left. split; [done|apply Hinv].
  - done.
  - done.
  - intros _. split; [done|]. split; [apply Hinv|]. intros w Hw. assert (w = ws) as -> by congruence. by exists q.
  - exists s'. split; [done|]. assert (ws' = ws) as -> by congruence. apply (Inv_mono _ true); [|done].
    unfold popped in Dpop. rewrite bool_decide_true in Dpop by done. destruct Dpop as (q' & st' & Hq' & _ & _ & Eq).
    apply Inv_base. split; [by apply (queue_without_base s s' ws q' 0 r)|]. split; [done|]. left.
    rewrite next_shown_other in Dsh; [done|]. apply (not_active None); [done|]. rewrite Dshape, bool_decide_true by done. apply lookup_delete_eq.
Qed.

End Proofs.
End OverlayRequests.
