(* ===== verification/OverlayContext.v ===== *)
(** * Overlays: the presentation context

    The capabilities of the context change, it is set and reset, and the other
    calls that show nothing. *)

From stdpp Require Import base tactics option list numbers gmap.
From Stdlib Require Import ZArith Lia.
From S2P Require Import Prelude.
From S2P Require Import WebStateListModel.
From S2P Require Import OverlayState.
From S2P Require Import OverlayOps.
From S2P Require Import OverlayRequests.

Module OverlayContext.
Import OverlayOps.
Export OverlayRequests.

Section Proofs.
Context `{H : OverlayEnv} `{Hfinish : !FinishAtOnce}.
Implicit Types (s : t) (r : RequestId) (ws : WebState) (b : bool).

Lemma base_same s s' : base s -> queues_ s' = queues_ s -> requests s' = requests s -> destroyed s' = destroyed s ->
  web_state_list_ s' = web_state_list_ s -> active s' = active s ->
  active_web_state_ (presenter s') = active_web_state_ (presenter s) ->
  detached_presenting_request_queue_ (presenter s') = detached_presenting_request_queue_ (presenter s) ->
  removed_request_awaiting_dismissal_ (presenter s') = removed_request_awaiting_dismissal_ (presenter s) ->
  detaching_presenting_web_state_ (presenter s') = detaching_presenting_web_state_ (presenter s) ->
  detached_queue_replaced_delegate_ (presenter s') = detached_queue_replaced_delegate_ (presenter s) ->
  context_observed_ (context s') = presentation_context_ (presenter s') -> base s'.
Proof.
  intros (B1 & B2 & B3 & B4 & B5 & B6) ? ? ? ? ? ? ? ? ? ? ?. split; [by eapply wf_same|].
  split; [by eapply list_ok_same|]. split_and!; congruence.
Qed.

(** Nothing, or the request that should be, is shown. *)
Definition presentable s : Prop := shown_is None s \/ exists r, showing r s /\ to_show s = Some r.

Lemma shown_presentable b s : shown b s -> presentable s.
Proof. intros [Hs|[Hs _]]%shown_cases; [by right|by left]. Qed.

Lemma Inv_presentable s : base s -> context_ok (context s) -> presentable s -> Inv false s.
Proof.
  intros Hb Hok Hp. apply Inv_base. split; [done|]. split; [done|]. destruct Hp as [Hn|(r & Hs & Hto)]; [by right|left; by rewrite Hto].
Qed.

Lemma present_unless_run s : base s -> context_ok (context s) -> presentable s ->
  exists s', mwhen (negb (presenting_ (presenter s))) PresentOverlayForActiveRequest s = Ok (tt, s') /\ Inv true s'.
Proof.
  intros Hb Hok [Hn|(r & Hs & Hto)].
  - pose proof Hn as [(-> & _) _]. by apply present_Inv.
  - pose proof Hs as (-> & _). exists s. split; [done|]. apply Inv_base. split; [done|]. split; [done|]. left. by rewrite Hto.
Qed.

Lemma DidChange_run s : base s -> context_ok (context s) -> presentable s -> presentation_context_ (presenter s) = true ->
  exists s', OverlayPresentationContextDidChangePresentationCapabilities s = Ok (tt, s') /\ Inv true s'.
Proof.
  intros Hb Hok Hp Hc. unfold OverlayPresentationContextDidChangePresentationCapabilities. rewrite (mbind_run _ _ s s s) by done.
  rewrite Hc. rewrite (mbind_run _ _ s tt s) by done. by apply present_unless_run.
Qed.

Lemma base_observed s : base s -> context_observed_ (context s) = presentation_context_ (presenter s).
Proof. intros (B1 & _). apply B1. Qed.

(** What the presenter is told before the change hides what could not be shown. *)
Lemma WillChange_run s c b : base s -> context_ok (context s) -> shown b s -> presentation_context_ (presenter s) = true ->
  exists s', OverlayPresentationContextWillChangePresentationCapabilities c s = Ok (tt, s') /\ base s' /\ context_ok (context s') /\
    window s s' /\ (shown_is None s' \/ exists r, showing r s' /\ active_request s' = Some r /\ can_show r c = true).
Proof.
  intros Hb Hok Hs Hc. unfold OverlayPresentationContextWillChangePresentationCapabilities. rewrite (mbind_run _ _ s s s) by done.
  rewrite Hc. rewrite (mbind_run _ _ s tt s) by done. destruct (presented_request_ (presenter s)) as [r|] eqn:Hp.
  - destruct (shown_is_showing b s r Hs Hp) as [Hsh Hto]. destruct (to_show_active _ _ Hto) as (_ & Hact & _).
    rewrite (mbind_run _ _ s _ s) by (apply CanShow_with_run; by eapply showing_alive). destruct (can_show r c) eqn:Hcan; cbn [negb mwhen].
    + exists s. split_and!; try done; try apply Hb. right. by exists r.
    + pose proof Hsh as (Hp1 & _). rewrite Hp1. rewrite (mbind_run _ _ s tt s) by done.
      destruct (hide_run s r Hb Hok Hsh) as (s' & E & H1 & H2 & H3 & _ & H4). rewrite bool_decide_true in H4 by done.
      exists s'. split_and!; try done. by left.
  - exists s. split_and!; try done; try apply Hb. left. destruct (shown_cases b s Hs) as [(r & (_ & Hp' & _) & _)|[Hn _]]; [congruence|done].
Qed.

Lemma when_observed_run s (m : M t unit) : base s ->
  when_observed m s = (if presentation_context_ (presenter s) then m s else Ok (tt, s)).
Proof.
  intros Hb. unfold when_observed. rewrite (mbind_run _ _ s s s) by done. rewrite (base_observed s Hb). by destruct (presentation_context_ _).
Qed.

Lemma showing_capabilities s r c : showing r s -> showing r (with_context (with_presentation_capabilities c (context s)) s).
Proof. by intros (H1 & H2 & H3 & H4 & H5). Qed.

Lemma UpdatePresentationCapabilities_run s b : Inv b s -> exists s', UpdatePresentationCapabilities s = Ok (tt, s') /\ Inv b s'.
Proof.
  intros Hinv. pose proof (proj1 (Inv_base b s) Hinv) as (Hb & Hok & Hs). unfold UpdatePresentationCapabilities.
  rewrite (mbind_run _ _ s s s) by done. cbn zeta. set (c := ConstructPresentationCapabilities (context s)).
  destruct (Z.eqb_spec (presentation_capabilities_ (context s)) c) as [Hc|Hc]; cbn [negb mwhen].
  { rewrite mreturn_bind, <- Hc. exists s. split; [|done]. unfold on_context. unfold mbind, mmodify, mreturn.
    by destruct s as [? ? ? ? ? ? [] ?]. }
  assert (forall x, base x -> base (with_context (with_presentation_capabilities c (context x)) x)) as Hbc.
  { intros x Hx. eapply base_same; [exact Hx|done..|]. by apply (base_observed x). }
  destruct (presentation_context_ (presenter s)) eqn:Hp.
  - destruct (WillChange_run s c b Hb Hok Hs Hp) as (s1 & E1 & Hb1 & Hok1 & Hw1 & Hs1).
    rewrite (mbind_run _ _ s tt s1) by by rewrite when_observed_run, Hp.
    set (s2 := with_context (with_presentation_capabilities c (context s1)) s1). rewrite (mbind_run _ _ s1 tt s2) by done.
    assert (presentation_context_ (presenter s2) = true) as Hp2 by (cbn; by rewrite (window_context _ _ Hw1)).
    destruct (DidChange_run s2) as (s' & E & HI); [by apply Hbc|destruct Hok1; by split| |done|].
    { destruct Hs1 as [Hn|(r & Hsh & Ha & Hcan)]; [by left|right]. exists r. split; [by apply showing_capabilities|].
      unfold to_show. rewrite Hp2. change (active_request s2) with (active_request s1). rewrite Ha. cbn. by rewrite Hcan. }
    exists s'. split; [by rewrite when_observed_run, Hp2 by by apply Hbc|]. by eapply Inv_mono.
  - rewrite (mbind_run _ _ s tt s) by by rewrite when_observed_run, Hp.
    set (s2 := with_context (with_presentation_capabilities c (context s)) s). rewrite (mbind_run _ _ s tt s2) by done.
    rewrite when_observed_run by by apply Hbc. change (presentation_context_ (presenter s2)) with (presentation_context_ (presenter s)). rewrite Hp.
    exists s2. split; [done|]. apply Inv_base. split; [by apply Hbc|]. split; [destruct Hok; by split|]. left.
    assert (to_show s2 = None) as -> by (unfold to_show; cbn; by rewrite Hp).
    destruct (shown_cases b s Hs) as [(r & _ & Hto)|[Hn _]]; [|done]. destruct (to_show_active _ _ Hto). congruence.
Qed.

(** The fields of the context that say where a UI can be shown. *)
Lemma Inv_context_fields b s c : Inv b s -> states_ c = states_ (context s) -> request_ c = request_ (context s) ->
  presentation_capabilities_ c = presentation_capabilities_ (context s) -> context_observed_ c = context_observed_ (context s) ->
  Inv b (with_context c s).
Proof.
  intros Hinv E1 E2 E3 E4. pose proof (proj1 (Inv_base b s) Hinv) as (Hb & Hok & Hs). set (s' := with_context c s).
  assert (to_show s' = to_show s) as Hto by (apply to_show_same_front; done).
  apply Inv_base. split; [eapply base_same; try done; cbn; rewrite E4; by apply base_observed|].
  split; [destruct Hok; split; cbn; by rewrite E1, E2|].
  destruct Hs as [Hs|[-> Hs]]; [left; rewrite Hto|right; split; [done|]].
  - destruct (to_show s) as [r|].
    + destruct Hs as (H1 & H2 & H3 & H4 & H5). split_and!; cbn; rewrite ?E1, ?E2; done.
    + destruct Hs as [(H1 & H2 & H3) H4]. split; cbn; rewrite ?E2; [|done]. split_and!; try done. unfold no_callback. cbn. by rewrite E1.
  - destruct Hs as [(H1 & H2 & H3) H4]. split; cbn; rewrite ?E2; [|done]. split_and!; try done. unfold no_callback. cbn. by rewrite E1.
Qed.

Lemma SetContainerViewController_run s vc b : Inv b s -> exists s', SetContainerViewController vc s = Ok (tt, s') /\ Inv b s'.
Proof.
  intros Hinv. unfold SetContainerViewController. rewrite (mbind_run _ _ s s s) by done. case_bool_decide; [by exists s|].
  rewrite (mbind_run _ _ s tt (with_context (with_container_view_controller vc (context s)) s)) by done.
  by apply UpdatePresentationCapabilities_run, Inv_context_fields.
Qed.
Lemma SetPresentationContextViewController_run s vc b :
  Inv b s -> exists s', SetPresentationContextViewController vc s = Ok (tt, s') /\ Inv b s'.
Proof.
  intros Hinv. unfold SetPresentationContextViewController. rewrite (mbind_run _ _ s s s) by done. case_bool_decide; [by exists s|].
  rewrite (mbind_run _ _ s tt (with_context (with_presentation_context_view_controller vc (context s)) s)) by done.
  by apply UpdatePresentationCapabilities_run, Inv_context_fields.
Qed.

Lemma SetUIDisabled_run s d b : Inv b s -> exists s', SetUIDisabled d s = Ok (tt, s') /\ Inv b s'.
Proof.
  intros Hinv. unfold SetUIDisabled. rewrite (mbind_run _ _ s s s) by done. case_bool_decide; [by exists s|].
  set (s1 := with_context (with_ui_disabled d (context s)) s). rewrite (mbind_run _ _ s tt s1) by done.
  destruct (UpdatePresentationCapabilities_run s1 b) as (s2 & E2 & H2); [by apply Inv_context_fields|].
  rewrite (mbind_run _ _ s1 tt s2) by done. pose proof (proj1 (Inv_base b s2) H2) as (Hb & Hok & Hs).
  destruct d; cbn [negb mwhen]; [by exists s2|]. rewrite when_observed_run by done.
  destruct (presentation_context_ (presenter s2)) eqn:Hp; [|by exists s2].
  destruct (DidChange_run s2 Hb Hok) as (s3 & E3 & H3); [by eapply shown_presentable|done|]. exists s3. split; [done|]. by eapply Inv_mono.
Qed.

Lemma SetWindow_run s w b : Inv b s -> exists s', SetWindow w s = Ok (tt, s') /\ Inv b s'.
Proof.
  intros Hinv. unfold SetWindow. rewrite (mbind_run _ _ s s s) by done. case_bool_decide; [by exists s|].
  set (s1 := with_context (with_window w (context s)) s). rewrite (mbind_run _ _ s tt s1) by done.
  assert (Inv b s1) as Hinv1 by by apply Inv_context_fields. pose proof (proj1 (Inv_base b s1) Hinv1) as (Hb & Hok & Hs).
  rewrite when_observed_run by done. destruct (presentation_context_ (presenter s1)) eqn:Hp; [|by exists s1].
  unfold OverlayPresentationContextDidMoveToWindow. rewrite (mbind_run _ _ s1 s1 s1) by done. rewrite Hp. rewrite (mbind_run _ _ s1 tt s1) by done.
  destruct (bool_decide (is_Some w)); [rewrite andb_true_r|rewrite andb_false_r; by exists s1].
  destruct (present_unless_run s1 Hb Hok) as (s2 & E2 & H2); [by eapply shown_presentable|]. exists s2. split; [done|]. by eapply Inv_mono.
Qed.

(** ** The context is set and reset *)

Definition cancelled_up_to (todo : list WebState) s : Prop :=
  shown_is None s \/ exists r ws, showing r s /\ active_request s = Some r /\ active_web_state_ (presenter s) = Some ws /\ ws ∈ todo.

Lemma cancel_front_run s ws todo : base s -> context_ok (context s) -> presentation_context_ (presenter s) = true ->
  is_Some (queues_ s !! ws) -> cancelled_up_to (ws :: todo) s ->
  exists s', (let! front := GetFrontRequestForWebState (Some ws) in CancelOverlayUIForFront front) s = Ok (tt, s') /\
    base s' /\ context_ok (context s') /\ window s s' /\ queues_ s' = queues_ s /\ cancelled_up_to todo s'.
Proof.
  intros Hb Hok Hc Hq Hu. rewrite (mbind_run _ _ s _ s) by by apply GetFrontRequest_run.
  assert (forall c f, may_forget f (context s) c -> request_ (context s) <> Some f ->
    base (with_context c s) /\ context_ok c /\ window s (with_context c s)) as Hforget.
  { intros c f Hf Hnf. pose proof Hf as ((_ & _ & _ & _ & Hcap & Hobs & _) & _). split_and!.
    - eapply base_same; try done. cbn. rewrite Hobs. by apply base_observed.
    - by eapply context_ok_forget.
    - by split. }
  destruct Hu as [Hn|(r & w & Hs & Ha & Hw & Hin)].
  { destruct (CancelOverlayUIForFront_run s (front s ws) Hok) as (c & f & E & Hf & Hnf); [destruct Hn as [_ ->]; done|].
    exists (with_context c s). destruct (Hforget c f Hf Hnf) as (? & ? & ?). split_and!; try done. left.
    destruct Hn as [(N1 & N2 & N3) N4], Hf as (_ & Hr & Hst & _). split; [|cbn; by rewrite Hr]. split_and!; try done.
    intros r' u Hu'. by eapply N3, Hst. }
  pose proof Hs as (Hp1 & Hp2 & Hp3 & Hp4 & u & w' & Hp5 & Hp6 & Hp7 & Hp8). pose proof Ha as Ha'.
  unfold active_request in Ha'. rewrite Hw in Ha'. cbn in Ha'. destruct (decide (w = ws)) as [->|Hne].
  - rewrite Ha'. cbn [CancelOverlayUIForFront]. unfold CancelOverlayUIForRequest. rewrite (mbind_run _ _ s s s) by done. rewrite Hc. cbn [mwhen].
    destruct (CancelOverlayUI_shown_run None s r) as (s' & v & E & Hd); [apply Hb|left; split; [done|apply Hb]|done|done|].
    destruct (dismissed_base s v kCancellation r s' Hb Hd) as (Hb' & Hq' & Har); [done|]. exists s'. split_and!; try done; try apply Hd.
    left. destruct Hd as [_ _ _ _ _ _ _ Dsh]. rewrite next_shown_same in Dsh by congruence. done.
  - destruct (CancelOverlayUIForFront_run s (front s ws) Hok) as (c & f & E & Hf & Hnf).
    { intros f Hf Hr. assert (f = r) as -> by congruence. destruct Hb as (Hb & _). pose proof (wf_front_state _ _ _ _ Hb Hf).
      pose proof (wf_front_state _ _ _ _ Hb Ha'). congruence. }
    exists (with_context c s). destruct (Hforget c f Hf Hnf) as (? & ? & ?). split_and!; try done. right. exists r, w.
    destruct Hf as (_ & Hr & Hst & Hne'). split_and!; try done; [|by apply elem_of_cons in Hin as [?|?]].
    split_and!; try done; [cbn; by rewrite Hr|]. exists u, w'. cbn. rewrite Hne' by congruence. done.
Qed.

Lemma CancelAllOverlayUI_run s b : Inv b s -> presentation_context_ (presenter s) = true ->
  exists s', CancelAllOverlayUI s = Ok (tt, s') /\ base s' /\ context_ok (context s') /\ window s s' /\ shown_is None s'.
Proof.
  intros Hinv Hc. pose proof (proj1 (Inv_base b s) Hinv) as (Hb & Hok & Hs). unfold CancelAllOverlayUI. rewrite (mbind_run _ _ s s s) by done.
  assert (forall todo s1, base s1 -> context_ok (context s1) -> presentation_context_ (presenter s1) = true ->
    (forall ws, ws ∈ todo -> is_Some (queues_ s1 !! ws)) -> cancelled_up_to todo s1 ->
    exists s', mfor todo (fun ws => let! front := GetFrontRequestForWebState (Some ws) in CancelOverlayUIForFront front) s1 = Ok (tt, s') /\
      base s' /\ context_ok (context s') /\ window s1 s' /\ shown_is None s') as Hl.
  { induction todo as [|ws todo IH]; intros s1 H1 H2 H3 H4 H5; cbn [mfor].
    - exists s1. split_and!; try done. destruct H5 as [?|(r & ws & _ & _ & _ & []%elem_of_nil)]; done.
    - destruct (cancel_front_run s1 ws todo) as (s2 & E2 & B2 & O2 & W2 & Q2 & U2); [done..|apply H4; left|done|].
      rewrite (mbind_run _ _ s1 tt s2) by exact E2.
      destruct (IH s2) as (s' & E' & ? & ? & ? & ?); try done.
      + by rewrite (window_context _ _ W2).
      + intros w Hw. rewrite Q2. apply H4. by right.
      + exists s'. split_and!; try done. by etransitivity. }
  apply Hl; try done.
  - intros ws Hws. destruct (inv_list _ _ Hinv ws Hws) as (q & -> & _). done.
  - destruct (shown_cases b s Hs) as [(r & Hsh & Hto)|[Hn _]]; [right|by left]. destruct (to_show_active _ _ Hto) as (_ & Ha & _).
    destruct (active_request_of _ _ Ha) as (ws & Hw & _). exists r, ws. split_and!; try done.
    apply (inv_active_in _ _ Hinv). by rewrite <- (inv_active _ _ Hinv).
Qed.

Lemma SetPresentationContext_run s v b : Inv b s -> exists s', SetPresentationContext v s = Ok (tt, s') /\ Inv b s'.
Proof.
  intros Hinv. pose proof (proj1 (Inv_base b s) Hinv) as (Hb & Hok & Hs). unfold SetPresentationContext. rewrite (mbind_run _ _ s s s) by done.
  assert (exists s1, mwhen (presentation_context_ (presenter s)) (CancelAllOverlayUI ;;; on_context (with_context_observed false)) s = Ok (tt, s1) /\
    context_ok (context s1) /\ shown_is None s1 /\ context_observed_ (context s1) = false /\ exists s0 c, base s0 /\ s1 = with_context c s0)
    as (s1 & E1 & Hok1 & Hn1 & Ho1 & s0 & c & Hb0 & ->).
  { destruct (presentation_context_ (presenter s)) eqn:Hp; cbn [mwhen].
    - destruct (CancelAllOverlayUI_run s b Hinv Hp) as (s1 & E1 & B1 & O1 & W1 & N1). rewrite (mbind_run _ _ s tt s1) by done.
      eexists. split; [done|]. split; [destruct O1; by split|]. split; [done|]. split; [done|]. by exists s1, (with_context_observed false (context s1)).
    - exists s. split; [done|]. split; [done|]. split.
      { destruct (shown_cases b s Hs) as [(r & _ & Hto)|[Hn _]]; [|done]. destruct (to_show_active _ _ Hto). congruence. }
      split; [by rewrite (base_observed s Hb)|]. exists s, (context s). split; [done|]. by destruct s. }
  set (s1 := with_context c s0) in *. rewrite (mbind_run _ _ s tt s1) by exact E1.
  set (p := with_previously_presented_requests ∅ (with_presented_request None (with_presenting false (with_presentation_context v (presenter s1))))).
  rewrite (mbind_run _ _ s1 tt (with_presenter (with_presentation_context v (presenter s1)) s1)) by done.
  rewrite (mbind_run _ _ _ tt (with_presenter p s1)) by done.
  set (s2 := if v then with_context (with_context_observed true (context s1)) (with_presenter p s1) else with_presenter p s1).
  assert (base s2) as Hb2 by (subst s2 p s1; destruct v; by apply (base_same s0)).
  assert (context_ok (context s2)) as Hok2 by (subst s2; destruct v; [destruct Hok1; by split|done]).
  assert (shown_is None s2) as Hn2 by (destruct Hn1 as [(_ & _ & N3) N4]; subst s2; by destruct v).
  destruct v; cbn [mwhen].
  - rewrite (mbind_run _ _ (with_presenter p s1) tt s2) by done. destruct (present_Inv s2 Hb2 Hok2 Hn2) as (s' & E & HI).
    exists s'. split; [done|]. by eapply Inv_mono.
  - exists s2. split; [done|]. apply Inv_base. split; [done|]. split; [done|]. left. done.
Qed.

Lemma context_SetDelegate_run s d b : Inv b s -> exists s', context_SetDelegate d s = Ok (tt, s') /\ Inv b s'.
Proof.
  intros Hinv. unfold context_SetDelegate. rewrite (mbind_run _ _ s s s) by done. case_bool_decide; [by exists s|].
  set (s1 := with_context (with_presentation_context_view_controller None (with_container_view_controller None (context s))) s).
  rewrite (mbind_run _ _ s tt s1) by done.
  destruct (UpdatePresentationCapabilities_run s1 b) as (s2 & E2 & H2); [by apply Inv_context_fields|].
  rewrite (mbind_run _ _ s1 tt s2) by done.
  rewrite (mbind_run _ _ s2 tt (with_context (with_context_delegate d (context s2)) s2)) by done.
  by apply SetPresentationContext_run, Inv_context_fields.
Qed.

End Proofs.
End OverlayContext.
