(* ===== verification/OverlayCallsAll.v ===== *)
(** * Overlays: all the calls

    The calls of the rest of the program to the queues, the list of WebStates,
    the requests and the context, what each of them asks of its caller, and that
    each of them keeps the invariant. *)

From stdpp Require Import base tactics option list numbers gmap.
From Stdlib Require Import ZArith Lia.
From S2P Require Import Prelude.
From S2P Require Import WebStateListModel.
From S2P Require Import OverlayState.
From S2P Require Import OverlayOps.
From S2P Require Import OverlayContext.

Module OverlayCallsAll.
Import OverlayOps.
Import OverlayContext.

Section Calls.
Context `{H : OverlayEnv} `{Hfinish : !FinishAtOnce}.
Implicit Types (s : t) (r : RequestId) (ws : WebState) (b : bool).

(** ** WebStates that are not in the window *)

Lemma Inv_queue b s ws q q' : Inv b s -> ws ∉ web_state_list_ s -> queues_ s !! ws = Some q ->
  request_storages_ q' = request_storages_ q -> Inv b (with_queues (<[ws := q']> (queues_ s)) s).
Proof.
  intros Hinv Hws Hq Hst. pose proof (inv_wf _ _ Hinv) as Hw.
  assert (ws ∉ destroyed s) as Hd by (intros Hd; by rewrite (wf_destroyed _ _ Hw ws Hd) in Hq).
  assert (request_storages_ q' = storages s ws) as Hst' by (unfold storages; by rewrite Hq).
  pose proof (same_requests_insert s ws q' Hd Hw Hst') as Hsame. set (s1 := with_queues _ s) in *.
  assert (wf None s1) as Hw1 by (eapply (wf_same_requests s s1); try done; apply Hw).
  split; try done; try apply Hinv.
  - intros w Hw'. apply (in_window_insert s s1 ws q'); [by apply Hinv|by intros ->|done].
  - eapply (shown_quiet b s s1); try done; [apply Hinv|]. apply active_request_same; [intros w; by apply front_same|done].
Qed.

(** Another window takes a WebState. *)
Lemma adopt_run s ws p b : Inv b s -> ws ∉ web_state_list_ s -> is_Some (queues_ s !! ws) ->
  exists s', SetDelegate ws (Some (OtherPresenter p)) s = Ok (tt, s') /\ Inv b s'.
Proof.
  intros Hinv Hws [q Hq]. unfold SetDelegate. rewrite (mbind_run _ _ s q s) by by apply get_queue_run.
  case_bool_decide; [by exists s|].
  assert (OverlayRequestQueueWillReplaceDelegate ws s = Ok (tt, s)) as E.
  { unfold OverlayRequestQueueWillReplaceDelegate. rewrite (mbind_run _ _ s s s) by done.
    destruct (presented_request_ (presenter s)) as [r|] eqn:Hp; [|done].
    rewrite (mbind_run _ _ s _ s) by (apply front_request_run; by rewrite Hq). rewrite bool_decide_false; [done|]. intros Hf.
    destruct (shown_place b s r Hinv Hp) as (ws' & ? & ? & Ha & _ & _ & _ & _ & _ & _ & Hf' & _).
    pose proof (wf_front_state _ _ _ _ (inv_wf _ _ Hinv) Hf). pose proof (wf_front_state _ _ _ _ (inv_wf _ _ Hinv) Hf').
    apply Hws. assert (ws = ws') as -> by congruence. by apply (inv_active_in _ _ Hinv). }
  rewrite (mbind_run _ _ s tt s) by (by case_bool_decide). rewrite (mbind_run _ _ s q s) by by apply get_queue_run.
  eexists. split; [done|]. by apply (Inv_queue b s ws q).
Qed.

Lemma delete_queue_Inv b s ws q : Inv b s -> ws ∉ web_state_list_ s -> queues_ s !! ws = Some q -> request_storages_ q = [] ->
  Inv b (with_destroyed ({[ws]} ∪ destroyed s) (with_queues (delete ws (queues_ s)) s)).
Proof.
  intros Hinv Hws Hq Hst. set (s' := with_destroyed _ _). pose proof (inv_wf _ _ Hinv) as [H1 H2 H3 H4 H5 H6 H7 H8].
  assert (forall w, w <> ws -> front s' w = front s w) as Hf by (intros w Hne; unfold front; cbn; by rewrite lookup_delete_ne).
  assert (active_web_state_ (presenter s) <> Some ws) as Ha.
  { rewrite (inv_active _ _ Hinv). intros Ha. by apply Hws, (inv_active_in _ _ Hinv). }
  split; try done; try apply Hinv.
  - split; try done.
    + intros w q' st Hq'. cbn in Hq'. apply lookup_delete_Some in Hq' as [_ Hq']. by apply H1.
    + intros w q' Hq'. cbn in Hq'. apply lookup_delete_Some in Hq' as [_ Hq']. by eapply H2.
    + intros r R HR Hn. destruct (H3 r R HR Hn) as (w & q' & HW & Hq' & Hin). exists w, q'. split; [done|]. split; [|done].
      cbn. rewrite lookup_delete_ne; [done|]. intros ->. simplify_eq. rewrite Hst in Hin. by apply elem_of_nil in Hin.
    + cbn. intros w [->%elem_of_singleton|Hw]%elem_of_union; [apply lookup_delete_eq|]. cbn. rewrite lookup_delete_None. right. by apply H5.
    + intros w Hw. cbn. rewrite lookup_delete_ne; [by apply H6|]. intros ->. by apply Ha.
  - intros w Hw. destruct (inv_list _ _ Hinv w Hw) as (q' & Hq' & Hr). exists q'. split; [|done]. cbn. rewrite lookup_delete_ne; [done|by intros ->].
  - eapply (shown_quiet b s s'); try done; [apply Hinv|]. unfold active_request. cbn.
    destruct (active_web_state_ (presenter s)) as [w|] eqn:Ew; [|done]. cbn. apply Hf. congruence.
Qed.

Lemma destroyed_Inv b s ws : Inv b s -> queues_ s !! ws = None -> Inv b (with_destroyed ({[ws]} ∪ destroyed s) s).
Proof.
  intros Hinv Hq. pose proof (inv_wf _ _ Hinv) as [H1 H2 H3 H4 H5 H6 H7 H8]. split; try done; try apply Hinv.
  split; try done. cbn. intros w [->%elem_of_singleton|Hw]%elem_of_union; [done|by apply H5].
Qed.

Lemma destroy_web_state_run s ws b : Inv b s -> ws ∉ web_state_list_ s -> exists s', destroy_web_state ws s = Ok (tt, s') /\ Inv b s'.
Proof.
  intros Hinv Hws. unfold destroy_web_state. destruct (run_helpers_run s ws b Hinv) as (s1 & E1 & H1 & (L1 & L2 & L3) & Hsame).
  rewrite (mbind_run _ _ s tt s1) by done. rewrite (mbind_run _ _ s1 s1 s1) by done.
  assert (Inv b s1) as Hinv1.
  { eapply Inv_mono; [exact H1|]. intros ->. rewrite bool_decide_true; [done|]. intros Ha. by apply Hws, (inv_active_in _ _ Hinv). }
  destruct (queues_ s1 !! ws) as [q|] eqn:Hq.
  - rewrite !mbind_assoc. set (s2 := with_queues (<[ws := with_observed false q]> (queues_ s1)) s1). rewrite (mbind_run _ _ s1 tt s2) by done.
    assert (Inv b s2) as Hinv2 by (apply (Inv_queue b s1 ws q); [done|by rewrite L1|done..]).
    destruct (CancelAllRequests_run s2 ws b) as (s3 & q' & E3 & Hinv3 & (M1 & M2 & M3) & Hq' & Hst);
      [done|cbn; rewrite lookup_insert_eq; eauto|].
    rewrite !mbind_assoc, (mbind_run _ _ s2 tt s3) by done. rewrite (mbind_run _ _ s3 tt (with_queues (delete ws (queues_ s3)) s3)) by done.
    eexists. split; [done|]. apply (delete_queue_Inv b s3 ws q'); try done. rewrite M1. cbn. by rewrite L1.
  - rewrite mreturn_bind. eexists. split; [done|]. by apply destroyed_Inv.
Qed.

(** ** Requests and observers *)

Lemma set_manager_Inv b s r m : Inv b s -> exists s', set_manager r m s = Ok (tt, s') /\ Inv b s'.
Proof.
  intros Hinv. eexists. split; [done|]. set (s' := with_requests _ s).
  assert (world s s') as Hs.
  { split; try done. apply map_eq. intros r'. cbn. rewrite !lookup_fmap. destruct (decide (r' = r)) as [->|Hne].
    - rewrite lookup_alter_eq. by destruct (requests s !! r).
    - by rewrite lookup_alter_ne. }
  pose proof (proj1 (Inv_base b s) Hinv) as (Hb & Hok & Hsh). apply Inv_base. split; [by eapply base_world|]. split; [done|].
  pose proof (to_show_world _ _ Hs) as Hto. destruct (shown_cases b s Hsh) as [(r0 & (H1 & H2 & H3 & H4 & u & w & H5 & H6 & H7 & H8) & Hto0)|[Hn Hb']].
  - left. rewrite Hto, Hto0. split_and!; try done. exists u, w. split_and!; try done. by rewrite (shape_lookup s s') by apply Hs.
  - destruct b; [left; by rewrite Hto, Hb'|by right].
Qed.

Lemma get_request_alive s r : is_Some (requests s !! r) -> exists R, get_request r s = Ok (R, s).
Proof. intros [R HR]. exists R. by apply get_request_run. Qed.

Lemma effects_Inv b s l : Inv b s -> Inv b (with_log l s).
Proof.
  intros Hinv. pose proof (proj1 (Inv_base b s) Hinv) as (Hb & Hok & Hs). apply Inv_base.
  split; [eapply base_world; [exact Hb|apply world_log]|]. split; [done|]. by apply (shown_quiet b s).
Qed.

Lemma DispatchResponse_run s r response b : Inv b s -> is_Some (requests s !! r) ->
  exists s', DispatchResponse r response s = Ok (tt, s') /\ Inv b s'.
Proof.
  intros Hinv (R & HR)%get_request_alive. unfold DispatchResponse. rewrite (mbind_run _ _ s R s) by done.
  generalize (dispatch_callbacks_ (callback_manager_ R)). intros l. clear HR. revert s Hinv.
  induction l as [|c l IH]; intros s Hinv; cbn [mfor]; [by exists s|].
  destruct (is_response_supported _ _); cbn [mwhen]; [|rewrite mreturn_bind; by apply IH].
  unfold effect at 1. rewrite (mbind_run _ _ s tt (with_log (log s ++ [RunDispatchCallback (callback_ c) response]) s)) by done.
  by apply IH, effects_Inv.
Qed.

Lemma observers_Inv b s os : Inv b s -> Inv b (with_presenter (with_observers os (presenter s)) s).
Proof.
  intros Hinv. pose proof (proj1 (Inv_base b s) Hinv) as (Hb & Hok & Hs). destruct (unused_request (context s)) as (f & Hn & Hf).
  apply Inv_base. split; [eapply base_world; [exact Hb|by split]|]. split; [done|]. by apply (shown_same b s _ f).
Qed.

(** ** The calls of the rest of the program *)

Inductive Op : Type :=
| OpInsertWebState ws (index : nat) (activate : bool)
| OpReplaceWebStateAt (index : nat) ws
| OpDetachWebStateAt (index : nat) (new_active : option WebState)
| OpActivateWebStateAt (index : nat)
| OpGiveToOther ws (presenter : positive)
| OpDestroyWebState ws
| OpAddRequest ws (index : nat) r (handler : option positive) (callbacks : CallbackManager)
| OpCancelRequest ws r
| OpCancelAllRequests ws
| OpDidFinishNavigation ws (has_committed is_same_document : bool)
| OpRenderProcessGone ws
| OpUserDismissal
| OpSetContainerViewController (view_controller : option positive)
| OpSetPresentationContextViewController (view_controller : option positive)
| OpSetUIDisabled (disabled : bool)
| OpSetWindow (window : option positive)
| OpSetDelegate (delegate : option positive)
| OpAddObserver (observer : positive)
| OpRemoveObserver (observer : positive)
| OpSetCompletionResponse r (response : option ResponseId)
| OpAddCompletionCallback r (callback : CompletionCallback)
| OpAddDispatchCallback r (callback : DispatchCallback)
| OpDispatchResponse r (response : ResponseId).

Definition exec (op : Op) : M t unit :=
  match op with
  | OpInsertWebState ws i act => InsertWebState ws i act
  | OpReplaceWebStateAt i ws => ReplaceWebStateAt i ws
  | OpDetachWebStateAt i na => DetachWebStateAt i na
  | OpActivateWebStateAt i => ActivateWebStateAt i
  | OpGiveToOther ws p => SetDelegate ws (Some (OtherPresenter p))
  | OpDestroyWebState ws => destroy_web_state ws
  | OpAddRequest ws i r handler callbacks => AddNewRequest ws i r handler callbacks
  | OpCancelRequest ws r => CancelRequest ws r
  | OpCancelAllRequests ws => CancelAllRequests ws
  | OpDidFinishNavigation ws c d => DidFinishNavigation ws c d
  | OpRenderProcessGone ws => RenderProcessGone ws
  | OpUserDismissal => UserDismissal
  | OpSetContainerViewController vc => SetContainerViewController vc
  | OpSetPresentationContextViewController vc => SetPresentationContextViewController vc
  | OpSetUIDisabled d => SetUIDisabled d
  | OpSetWindow w => SetWindow w
  | OpSetDelegate d => context_SetDelegate d
  | OpAddObserver o => AddObserver o
  | OpRemoveObserver o => RemoveObserver o
  | OpSetCompletionResponse r response => SetCompletionResponse r response
  | OpAddCompletionCallback r c => AddCompletionCallback r c
  | OpAddDispatchCallback r c => AddDispatchCallback r c
  | OpDispatchResponse r response => DispatchResponse r response
  end.

(** What a call asks of its caller: indexes in range, WebStates and requests that
    are not destroyed, and the new ones new. *)
Definition legal (op : Op) s : Prop :=
  match op with
  | OpInsertWebState ws i _ => (ws ∉ web_state_list_ s) /\ (ws ∉ destroyed s) /\ (i <= length (web_state_list_ s))%nat
  | OpReplaceWebStateAt i ws => (i < length (web_state_list_ s))%nat /\ (ws ∉ web_state_list_ s) /\ (ws ∉ destroyed s)
  | OpDetachWebStateAt i na => (i < length (web_state_list_ s))%nat /\ match na with Some w => w ∈ erase_at i (web_state_list_ s) | None => True end
  | OpActivateWebStateAt i => (i < length (web_state_list_ s))%nat
  | OpGiveToOther ws _ => (ws ∉ web_state_list_ s) /\ is_Some (queues_ s !! ws)
  | OpDestroyWebState ws => (ws ∉ web_state_list_ s)
  | OpAddRequest ws i r _ _ => (ws ∉ destroyed s) /\ (requests s !! r = None) /\ (i <= length (storages s ws))%nat
  | OpCancelRequest ws _ | OpCancelAllRequests ws => is_Some (queues_ s !! ws)
  | OpSetCompletionResponse r _ | OpAddCompletionCallback r _ | OpAddDispatchCallback r _ | OpDispatchResponse r _ => is_Some (requests s !! r)
  | _ => True
  end.

#[export] Instance legal_dec op s : Decision (legal op s).
Proof. destruct op as [| |? []| | | | | | | | | | | | | | | | | | | |]; cbn; apply _. Defined.

(** The calls that may leave the next request of a queue unseen: they cancel a
    request of the active WebState while nothing is shown. *)
Definition may_unsettle (op : Op) s : bool :=
  match op with
  | OpCancelRequest ws _ | OpDidFinishNavigation ws _ _ | OpRenderProcessGone ws => bool_decide (active s = Some ws)
  | _ => false
  end.

Lemma exec_run op s b : Inv b s -> legal op s ->
  exists s', exec op s = Ok (tt, s') /\ Inv (b && negb (may_unsettle op s)) s'.
Proof.
  intros Hinv Hl.
  assert ((exists s', exec op s = Ok (tt, s') /\ Inv b s') -> exists s', exec op s = Ok (tt, s') /\ Inv (b && negb (may_unsettle op s)) s') as Hb.
  { intros (s' & E & HI). exists s'. split; [done|]. eapply Inv_mono; [exact HI|]. by intros [-> _]%andb_true_iff. }
  assert (forall ws, bool_decide (active s <> Some ws) = negb (bool_decide (active s = Some ws))) as Hdec by (intros ws; by rewrite bool_decide_not).
  destruct op; cbn [exec legal may_unsettle] in *;
    lazymatch goal with |- context [active s = Some _] => idtac | _ => apply Hb; clear Hb end.
  - destruct Hl as (? & ? & ?). by apply InsertWebState_run.
  - destruct Hl as (Hi & Hn & Hdes). apply lookup_lt_is_Some_2 in Hi as [old Ho]. by eapply ReplaceWebStateAt_run.
  - destruct Hl as (Hi & Hna). apply lookup_lt_is_Some_2 in Hi as [ws Ho]. 
    eapply DetachWebStateAt_run; [done..|]. by intros w ->.
  - apply lookup_lt_is_Some_2 in Hl as [ws Ho]. by eapply ActivateWebStateAt_run.
  - destruct Hl. by apply adopt_run.
  - by apply destroy_web_state_run.
  - destruct Hl as (? & ? & ?). by apply AddNewRequest_run.
  - destruct (CancelRequest_run s ws r b Hinv Hl) as (s' & E & HI & _). exists s'. split; [done|]. by rewrite <- Hdec.
  - destruct (CancelAllRequests_run s ws b Hinv Hl) as (s' & q' & E & HI & _). by exists s'.
  - unfold DidFinishNavigation. destruct (has_committed && negb is_same_document); cbn [mwhen]; [|exists s; split; [done|]; eapply Inv_mono; [exact Hinv|by intros [-> _]%andb_true_iff]].
    destruct (run_helpers_run s ws b Hinv) as (s' & E & HI & _). exists s'. split; [done|]. by rewrite <- Hdec.
  - destruct (run_helpers_run s ws b Hinv) as (s' & E & HI & _). exists s'. split; [done|]. by rewrite <- Hdec.
  - by apply UserDismissal_run.
  - by apply SetContainerViewController_run.
  - by apply SetPresentationContextViewController_run.
  - by apply SetUIDisabled_run.
  - by apply SetWindow_run.
  - by apply context_SetDelegate_run.
  - eexists. split; [done|]. by apply observers_Inv.
  - eexists. split; [done|]. by apply observers_Inv.
  - apply get_request_alive in Hl as [R HR]. unfold SetCompletionResponse. rewrite (mbind_run _ _ s R s) by done. by apply set_manager_Inv.
  - apply get_request_alive in Hl as [R HR]. unfold AddCompletionCallback. rewrite (mbind_run _ _ s R s) by done. by apply set_manager_Inv.
  - apply get_request_alive in Hl as [R HR]. unfold AddDispatchCallback. rewrite (mbind_run _ _ s R s) by done. by apply set_manager_Inv.
  - by apply DispatchResponse_run.
Qed.

End Calls.
End OverlayCallsAll.
