(* ===== verification/OverlayOwnership.v ===== *)
(** * Overlays: who owns the requests

    A request is created by the program and given to a queue; a queue that
    removes it gives it to the presenter, which destroys it at once, or keeps it
    until its UI is dismissed. The dismissal may take any time: nothing is asked
    of the coordinators here. Every call leaves each request that is alive in one
    queue, or with the presenter, and no request twice. *)

From stdpp Require Import base tactics option list numbers gmap.
From S2P Require Import Prelude.
From S2P Require Import WebStateListModel.
From S2P Require Import OverlayState.
From S2P Require Import OverlayOps.
From S2P Require Import OverlayProofs.
From S2P Require Import OverlayRequests.
From S2P Require Import OverlayCallsAll.

Module OverlayOwnership.
Import OverlayOps OverlayProofs OverlayRequests OverlayCallsAll.

Section Ownership.
Context `{env : OverlayEnv}.
Implicit Types (s : t) (r : RequestId) (ws : WebState) (x : gset RequestId).

Definition awaiting s : option RequestId := removed_request_awaiting_dismissal_ (presenter s).
Definition queued s r : Prop := exists ws q, queues_ s !! ws = Some q /\ r ∈ request <$> request_storages_ q.

(** The requests of [x] are on their way from one owner to another. *)
Record owner x s : Prop := {
  owner_storages ws q st : queues_ s !! ws = Some q -> st ∈ request_storages_ q ->
    queue_web_state_ <$> requests s !! request st = Some (Some ws);
  owner_nodup ws q : queues_ s !! ws = Some q -> NoDup (request <$> request_storages_ q);
  owner_requests r : is_Some (requests s !! r) -> queued s r \/ awaiting s = Some r \/ r ∈ x;
  owner_awaiting r : awaiting s = Some r -> is_Some (requests s !! r) /\ ~ queued s r /\ r ∉ x;
  owner_moving r : r ∈ x -> is_Some (requests s !! r) /\ ~ queued s r;
  owner_destroyed ws : ws ∈ destroyed s -> queues_ s !! ws = None
}.

(** The calls that leave every request with its owner. *)
Definition stays s s' : Prop := forall x, owner x s -> owner x s'.
#[local] Instance stays_preorder : PreOrder stays.
Proof. split; [by intros s x|]. intros s1 s2 s3 H1 H2 x Hx. by apply H2, H1. Qed.

(** What owners depend on. *)
Record same_owners s s' : Prop := {
  same_shape : queue_web_state_ <$> requests s' = queue_web_state_ <$> requests s;
  same_storages : request_storages_ <$> queues_ s' = request_storages_ <$> queues_ s;
  same_awaiting : awaiting s' = awaiting s;
  same_destroyed : destroyed s' = destroyed s
}.
#[local] Instance same_owners_preorder : PreOrder same_owners.
Proof. split; [done|]. intros s1 s2 s3 [] []. split; congruence. Qed.

Lemma lookup_storages s s' ws q' : request_storages_ <$> queues_ s' = request_storages_ <$> queues_ s ->
  queues_ s' !! ws = Some q' -> exists q, queues_ s !! ws = Some q /\ request_storages_ q = request_storages_ q'.
Proof.
  intros E Hq. pose proof (f_equal (.!! ws) E) as E'. cbn in E'. rewrite !lookup_fmap, Hq in E'. cbn in E'.
  destruct (queues_ s !! ws) as [q|]; cbn in E'; [|done]. exists q. split; [done|congruence].
Qed.
Lemma lookup_shape s s' r : queue_web_state_ <$> requests s' = queue_web_state_ <$> requests s ->
  queue_web_state_ <$> requests s' !! r = queue_web_state_ <$> requests s !! r.
Proof. intros E. pose proof (f_equal (.!! r) E) as E'. cbn in E'. by rewrite !lookup_fmap in E'. Qed.
Lemma alive_shape s s' r : queue_web_state_ <$> requests s' = queue_web_state_ <$> requests s ->
  is_Some (requests s' !! r) <-> is_Some (requests s !! r).
Proof. intros E. by rewrite <- !(fmap_is_Some queue_web_state_), (lookup_shape s s'). Qed.

Lemma queued_storages s s' r : request_storages_ <$> queues_ s' = request_storages_ <$> queues_ s -> queued s' r -> queued s r.
Proof. intros E (ws & q' & Hq & Hr). destruct (lookup_storages s s' ws q' E Hq) as (q & Hq0 & Eq). exists ws, q. by rewrite Eq. Qed.

Lemma same_owners_stays s s' : same_owners s s' -> stays s s'.
Proof.
  intros [E1 E2 E3 E4] x [O1 O2 O3 O4 O5 O6]. symmetry in E2. pose proof (fun r => queued_storages s' s r E2) as Q'. symmetry in E2.
  pose proof (fun r => queued_storages s s' r E2) as Q. split.
  - intros ws q st (q0 & Hq & Eq)%(lookup_storages s s') Hst; [|done]. rewrite (lookup_shape s s') by done. eapply O1; [done|by rewrite Eq].
  - intros ws q (q0 & Hq & <-)%(lookup_storages s s'); [by eapply O2|done].
  - intros r Hr. rewrite E3. apply (alive_shape s s') in Hr; [|done]. destruct (O3 r Hr) as [?|[?|?]]; eauto.
  - intros r. rewrite E3, (alive_shape s s') by done. intros (? & Hn & ?)%O4. split_and!; [done| |done]. by intros ?%Q.
  - intros r. rewrite (alive_shape s s') by done. intros (? & Hn)%O5. split; [done|]. by intros ?%Q.
  - intros ws Hws. rewrite E4 in Hws. apply O6 in Hws. destruct (queues_ s' !! ws) as [q|] eqn:Hq; [|done].
    destruct (lookup_storages s s' ws q E2 Hq) as (? & ? & _). congruence.
Qed.

(** ** The steps of the ownership *)

Lemma keeps_deref {A} R `{!PreOrder R} (o : option A) : keeps R (@deref t A o).
Proof. intros s a s'. unfold deref. by destruct o; intros [= _ <-]. Qed.
Lemma keeps_check R `{!PreOrder R} b : keeps R (@check t b).
Proof. intros s a s'. unfold check. by destruct b; intros [= _ <-]. Qed.

#[local] Hint Resolve keeps_deref keeps_check : code.

Lemma effect_same e : keeps same_owners (effect e).
Proof. through effect. Qed.
Lemma on_context_same f : keeps same_owners (on_context f).
Proof. through on_context. Qed.
Lemma on_presenter_same f : (forall p, removed_request_awaiting_dismissal_ (f p) = removed_request_awaiting_dismissal_ p) ->
  keeps same_owners (on_presenter f).
Proof. intros Hf. unfold on_presenter. apply keeps_modify. intros s. split; try done. apply Hf. Qed.
Lemma set_manager_same r m : keeps same_owners (set_manager r m).
Proof.
  apply keeps_modify. intros s. split; try done. apply map_eq. intros r'. cbn. rewrite !lookup_fmap.
  destruct (decide (r' = r)) as [->|?]; [rewrite lookup_alter_eq|by rewrite lookup_alter_ne]. by destruct (requests s !! r).
Qed.
#[local] Hint Resolve effect_same on_context_same set_manager_same : code.
#[local] Hint Extern 2 (keeps same_owners (on_presenter _)) => apply on_presenter_same; done : code.

Lemma get_request_same r : keeps same_owners (get_request r).
Proof. through @get_request. Qed.
#[local] Hint Resolve get_request_same : code.
Lemma ExecuteCompletionCallbacks_same r : keeps same_owners (ExecuteCompletionCallbacks r).
Proof. unfold ExecuteCompletionCallbacks, GetCompletionResponse, OverlayWasCompleted. repeat code_step. Qed.

Lemma destroy_request_ok r s s' u : destroy_request r s = Ok (u, s') ->
  exists s1, same_owners s s1 /\ s' = with_requests (delete r (requests s1)) s1.
Proof.
  unfold destroy_request. intros (u1 & s1 & E1%ExecuteCompletionCallbacks_same & (R & s2 & E2%get_request_same & (u2 & s3 & [-> _]%dcheck_ok & [= _ <-])%mbind_ok)%mbind_ok)%mbind_ok.
  exists s2. split; [|done]. by etransitivity.
Qed.

(** A request on its way is destroyed. *)
Lemma destroy_moving x r s s' u : owner ({[r]} ∪ x) s -> r ∉ x -> destroy_request r s = Ok (u, s') -> owner x s'.
Proof.
  intros Ho Hx (s1 & Hs & ->)%destroy_request_ok. apply (same_owners_stays _ _ Hs) in Ho. clear s Hs. rename s1 into s.
  destruct Ho as [O1 O2 O3 O4 O5 O6]. destruct (O5 r) as [Hr Hq]; [set_solver|].
  assert (forall r', r' <> r -> delete r (requests s) !! r' = requests s !! r') as Hd by (intros; by rewrite lookup_delete_ne).
  split; cbn; try done.
  - intros ws q st Hws Hst. rewrite Hd; [by eapply O1|]. intros <-. apply Hq. exists ws, q. split; [done|]. apply list_elem_of_fmap. eauto.
  - intros r' [Hne Hr']%lookup_delete_is_Some. destruct (O3 r' Hr') as [?|[?|?]]; [by left|by right; left|right; right; set_solver].
  - intros r' (? & ? & ?)%O4. split_and!; [|done|set_solver]. rewrite Hd; [done|]. set_solver.
  - intros r' Hr'. destruct (O5 r') as [? ?]; [set_solver|]. split; [|done]. rewrite Hd; [done|]. by intros ->.
Qed.

(** The presenter keeps a request, or lets go of it. *)
Lemma hold_moving x r s : owner ({[r]} ∪ x) s -> r ∉ x -> awaiting s = None ->
  owner x (with_presenter (with_removed_request_awaiting_dismissal (Some r) (presenter s)) s).
Proof.
  intros [O1 O2 O3 O4 O5 O6] Hx Ha. destruct (O5 r) as [Hr Hq]; [set_solver|]. split; try done.
  - intros r' [?|[?|[->%elem_of_singleton|?]%elem_of_union]]%O3; [by left|congruence|by right; left|by right; right].
  - intros r' [= <-]. done.
  - intros r' Hr'. apply O5. set_solver.
Qed.
Lemma release_awaiting x r s : owner x s -> awaiting s = Some r ->
  owner ({[r]} ∪ x) (with_presenter (with_removed_request_awaiting_dismissal None (presenter s)) s).
Proof.
  intros [O1 O2 O3 O4 O5 O6] Ha. destruct (O4 r Ha) as (Hr & Hq & Hx). split; try done.
  - intros r' [?|[?|?]]%O3; [by left| |]; right; right; set_solver.
  - intros r' [->%elem_of_singleton|?]%elem_of_union; [done|by apply O5].
Qed.

Lemma set_removed_request_None : keeps stays (set_removed_request None).
Proof.
  intros s u s'. unfold set_removed_request. intros (s0 & ? & [= <- <-] & (u1 & s1 & [= _ <-] & E)%mbind_ok)%mbind_ok x Ho.
  destruct (removed_request_awaiting_dismissal_ (presenter s)) as [o|] eqn:Eo.
  - apply (destroy_moving x o _ s' u) in E; [done|by apply release_awaiting|]. by apply (owner_awaiting _ _ Ho).
  - injection E as _ <-. eapply same_owners_stays; [|exact Ho]. by split.
Qed.
Lemma set_removed_request_Some r s s' u x : owner ({[r]} ∪ x) s -> r ∉ x -> set_removed_request (Some r) s = Ok (u, s') -> owner x s'.
Proof.
  unfold set_removed_request. intros Ho Hx (s0 & ? & [= <- <-] & (u1 & s1 & [= _ <-] & E)%mbind_ok)%mbind_ok.
  destruct (removed_request_awaiting_dismissal_ (presenter s)) as [o|] eqn:Eo.
  - destruct (owner_awaiting _ _ Ho o Eo) as (_ & _ & Hn). eapply destroy_moving; [|..|exact E]; [|set_solver].
    apply (release_awaiting _ o) in Ho; [|done]. set (s1 := with_presenter _ s) in *.
    replace ({[o]} ∪ ({[r]} ∪ x)) with ({[r]} ∪ ({[o]} ∪ x)) in Ho by set_solver.
    apply hold_moving in Ho; [exact Ho|set_solver|done].
  - injection E as _ <-. by apply hold_moving.
Qed.

(** A queue gives a request away, or gets one. *)
Lemma queue_gives x s ws q i st q' : owner x s -> queues_ s !! ws = Some q -> request_storages_ q !! i = Some st ->
  request_storages_ q' = erase_at i (request_storages_ q) ->
  (request st ∉ x) /\ owner ({[request st]} ∪ x) (with_queues (<[ws := q']> (queues_ s)) s).
Proof.
  intros [O1 O2 O3 O4 O5 O6] Hq Hi Eq. set (r := request st). set (s' := with_queues _ s).
  assert (queued s r) as Hqr. { exists ws, q. split; [done|]. apply list_elem_of_fmap. exists st. split; [done|]. by eapply list_elem_of_lookup_2. }
  assert (r ∉ x) as Hx by (intros [_ []]%O5; done). split; [done|].
  assert (queue_web_state_ <$> requests s !! r = Some (Some ws)) as Er by (eapply O1; [done|]; by eapply list_elem_of_lookup_2).
  assert (request <$> request_storages_ q' = erase_at i (request <$> request_storages_ q)) as Eq' by (rewrite Eq; apply erase_at_fmap).
  assert (forall r', queued s' r' -> queued s r' /\ r' <> r) as Hsub.
  { intros r' (w & q0 & Hw & Hr'). cbn in Hw. apply lookup_insert_Some in Hw as [[<- <-]|[Hne Hw]].
    - rewrite Eq' in Hr'. apply (elem_of_erase_at i r) in Hr' as [Hr' Hne]; [|by eapply O2|by rewrite list_lookup_fmap, Hi]. split; [|done]. by exists ws, q.
    - split; [by exists w, q0|]. apply list_elem_of_fmap in Hr' as (st' & -> & Hst'). intros E. pose proof (O1 w q0 st' Hw Hst') as E'.
      fold r in E'. rewrite E in E'. congruence. }
  split; try done.
  - intros w q0 st' Hw Hst'. cbn in Hw. apply lookup_insert_Some in Hw as [[<- <-]|[_ Hw]]; [|by eapply O1].
    eapply O1; [exact Hq|]. rewrite (erase_at_Permutation i st _ Hi), <- Eq. by right.
  - intros w q0 Hw. cbn in Hw. apply lookup_insert_Some in Hw as [[<- <-]|[_ Hw]]; [|by eapply O2].
    rewrite Eq'. by eapply (NoDup_erase_at i r); [eapply O2|rewrite list_lookup_fmap, Hi].
  - intros r' Hr'. destruct (decide (r' = r)) as [->|Hne]; [right; right; set_solver|].
    destruct (O3 r' Hr') as [(w & q0 & Hw & Hr0)|[?|?]]; [left|by right; left|right; right; set_solver].
    destruct (decide (w = ws)) as [->|?]; [|exists w, q0; split; [cbn; by rewrite lookup_insert_ne|done]].
    exists ws, q'. split; [apply lookup_insert_eq|]. simplify_eq. rewrite Eq'. apply (elem_of_erase_at i r); [by eapply O2|by rewrite list_lookup_fmap, Hi|done].
  - intros r' Ha. destruct (O4 r' Ha) as (? & Hnq & ?). split_and!; [done|by intros [? _]%Hsub|]. intros [->%elem_of_singleton|?]%elem_of_union; done.
  - intros r' [->%elem_of_singleton|Hr']%elem_of_union; [split; [apply (proj1 (fmap_is_Some queue_web_state_ _)); change (requests s') with (requests s); by rewrite Er|by intros [_ ?]%Hsub]|].
    destruct (O5 r' Hr') as [? Hnq]. split; [done|]. by intros [? _]%Hsub.
  - intros w Hw. cbn. rewrite lookup_insert_ne; [by apply O6|]. intros <-. apply O6 in Hw. congruence.
Qed.

(** A request on its way is put in a queue. *)
Lemma queue_gets x s ws q i st q' : owner ({[request st]} ∪ x) s -> request st ∉ x -> queues_ s !! ws = Some q ->
  queue_web_state_ <$> requests s !! request st = Some (Some ws) ->
  request_storages_ q' = insert_at i st (request_storages_ q) -> owner x (with_queues (<[ws := q']> (queues_ s)) s).
Proof.
  intros [O1 O2 O3 O4 O5 O6] Hx Hq Hst Eq. set (r := request st) in *. set (s' := with_queues _ s).
  destruct (O5 r) as [Hr Hnr]; [set_solver|].
  assert (request <$> request_storages_ q' = insert_at i r (request <$> request_storages_ q)) as Eq' by (rewrite Eq; apply insert_at_fmap).
  assert (forall r', queued s' r' <-> queued s r' \/ r' = r) as Hsub.
  { intros r'. split.
    - intros (w & q0 & Hw & Hr'). cbn in Hw. apply lookup_insert_Some in Hw as [[<- <-]|[Hne Hw]]; [|left; by exists w, q0].
      rewrite Eq' in Hr'. apply elem_of_insert_at in Hr' as [->|Hr']; [by right|]. left. by exists ws, q.
    - intros Hr'. destruct Hr' as [(w & q0 & Hw & Hr')| ->].
      + destruct (decide (w = ws)) as [->|Hne]; [|exists w, q0; split; [cbn; by rewrite lookup_insert_ne|done]].
        exists ws, q'. split; [apply lookup_insert_eq|]. rewrite Eq'. apply elem_of_insert_at. right. congruence.
      + exists ws, q'. split; [apply lookup_insert_eq|]. rewrite Eq'. apply elem_of_insert_at. by left. }
  split; try done.
  - intros w q0 st' Hw Hst'. cbn in Hw. apply lookup_insert_Some in Hw as [[<- <-]|[_ Hw]]; [|by eapply O1].
    rewrite Eq in Hst'. apply elem_of_insert_at in Hst' as [->|Hst']; [done|by eapply O1].
  - intros w q0 Hw. cbn in Hw. apply lookup_insert_Some in Hw as [[<- <-]|[_ Hw]]; [|by eapply O2].
    rewrite Eq'. apply NoDup_insert_at; [by eapply O2|]. intros Hin. apply Hnr. by exists ws, q.
  - intros r' Hr'. rewrite Hsub. destruct (O3 r' Hr') as [?|[?|[->%elem_of_singleton|?]%elem_of_union]]; auto.
  - intros r' Ha. destruct (O4 r' Ha) as (? & Hnq & Hn). split_and!; [done| |set_solver]. intros [?| ->]%Hsub; [done|]. set_solver.
  - intros r' Hr'. destruct (O5 r') as [? Hnq]; [set_solver|]. split; [done|]. by intros [?| ->]%Hsub.
  - intros w Hw. cbn. rewrite lookup_insert_ne; [by apply O6|]. intros <-. apply O6 in Hw. congruence.
Qed.

Lemma create_moving x s r R : owner x s -> requests s !! r = None ->
  (r ∉ x) /\ owner ({[r]} ∪ x) (with_requests (<[r := R]> (requests s)) s).
Proof.
  intros [O1 O2 O3 O4 O5 O6] Hr. assert (r ∉ x) as Hx by (intros [[? ?] _]%O5; congruence). split; [done|].
  assert (forall r', is_Some (requests s !! r') -> is_Some (<[r := R]> (requests s) !! r')) as Hal.
  { intros r' ?. apply lookup_insert_is_Some'. by right. }
  assert (forall r', queued s r' -> is_Some (requests s !! r')) as Hq.
  { intros r' (ws & q & Hq & (st & -> & Hst)%list_elem_of_fmap). apply (proj1 (fmap_is_Some queue_web_state_ _)). rewrite (O1 ws q st Hq Hst). done. }
  split; cbn; try done.
  - intros ws q st Hws Hst. rewrite lookup_insert_ne; [by eapply O1|]. intros ->.
    destruct (Hq (request st)) as [? ?]; [|congruence]. exists ws, q. split; [done|]. apply list_elem_of_fmap. eauto.
  - intros r' [->|[_ Hr']]%lookup_insert_is_Some; [right; right; set_solver|].
    destruct (O3 r' Hr') as [?|[?|?]]; [by left|by right; left|right; right; set_solver].
  - intros r' (? & ? & ?)%O4. split_and!; [auto|done|]. intros [->%elem_of_singleton|?]%elem_of_union; [|done].
    match goal with Ha : is_Some (requests s !! r) |- _ => destruct Ha; congruence end.
  - intros r' [->%elem_of_singleton|?]%elem_of_union.
    + split; [rewrite lookup_insert_eq; eauto|]. intros Hq'. destruct (Hq r Hq'). congruence.
    + destruct (O5 r') as [? ?]; [done|]. split; [auto|done].
Qed.

(** The queue of a WebState is made, and is destroyed when it is empty. *)
Lemma new_queue_stays s ws q : queues_ s !! ws = None -> ws ∉ destroyed s -> request_storages_ q = [] ->
  stays s (with_queues (<[ws := q]> (queues_ s)) s).
Proof.
  intros Hn Hd Hs x [O1 O2 O3 O4 O5 O6]. set (s' := with_queues _ s).
  assert (forall r, queued s' r <-> queued s r) as Hsub.
  { intros r. split; intros (w & q0 & Hw & Hr).
    - cbn in Hw. apply lookup_insert_Some in Hw as [[<- <-]|[_ Hw]]; [rewrite Hs in Hr; by apply elem_of_nil in Hr|by exists w, q0].
    - exists w, q0. split; [|done]. cbn. rewrite lookup_insert_ne; [done|congruence]. }
  split; try done; try (intros r; rewrite Hsub; by auto).
  - intros w q0 st Hw Hst. cbn in Hw. apply lookup_insert_Some in Hw as [[<- <-]|[_ Hw]]; [rewrite Hs in Hst; by apply elem_of_nil in Hst|by eapply O1].
  - intros w q0 Hw. cbn in Hw. apply lookup_insert_Some in Hw as [[<- <-]|[_ Hw]]; [rewrite Hs; constructor|by eapply O2].
  - intros w Hw. cbn. rewrite lookup_insert_ne; [by apply O6|]. by intros <-.
Qed.
Lemma delete_queue_stays s ws : (forall q, queues_ s !! ws = Some q -> request_storages_ q = []) ->
  stays s (with_destroyed ({[ws]} ∪ destroyed s) (with_queues (delete ws (queues_ s)) s)).
Proof.
  intros Hs x [O1 O2 O3 O4 O5 O6]. set (s' := with_destroyed _ _).
  assert (forall r, queued s' r <-> queued s r) as Hsub.
  { intros r. split; intros (w & q0 & Hw & Hr).
    - cbn in Hw. apply lookup_delete_Some in Hw as [_ Hw]. by exists w, q0.
    - exists w, q0. split; [|done]. cbn. rewrite lookup_delete_ne; [done|]. intros <-. rewrite (Hs q0 Hw) in Hr. by apply elem_of_nil in Hr. }
  split; try done; try (intros r; rewrite Hsub; by auto).
  - intros w q0 st Hw Hst. cbn in Hw. apply lookup_delete_Some in Hw as [_ Hw]. by eapply O1.
  - intros w q0 Hw. cbn in Hw. apply lookup_delete_Some in Hw as [_ Hw]. by eapply O2.
  - cbn. intros w [->%elem_of_singleton|Hw]%elem_of_union; [apply lookup_delete_eq|]. rewrite lookup_delete_None. right. by apply O6.
Qed.

(** ** Every call leaves the requests with their owners *)

Lemma same_stays {A} (m : M t A) : keeps same_owners m -> keeps stays m.
Proof. apply keeps_weaken. intros s s'. apply same_owners_stays. Qed.
#[local] Hint Extern 3 (keeps stays (effect _)) => apply same_stays; auto with code : code.
#[local] Hint Extern 3 (keeps stays (on_context _)) => apply same_stays; auto with code : code.
#[local] Hint Extern 3 (keeps stays (on_presenter _)) => apply same_stays; auto with code : code.
#[local] Hint Extern 3 (keeps stays (set_manager _ _)) => apply same_stays; auto with code : code.
#[local] Hint Extern 3 (keeps stays (get_request _)) => apply same_stays; auto with code : code.
#[local] Hint Resolve set_removed_request_None : code.

Lemma set_queue_stays s ws q q' : queues_ s !! ws = Some q -> request_storages_ q' = request_storages_ q ->
  stays s (with_queues (<[ws := q']> (queues_ s)) s).
Proof.
  intros Hq E. apply same_owners_stays. split; try done. apply map_eq. intros w. cbn. rewrite !lookup_fmap.
  destruct (decide (w = ws)) as [->|?]; [by rewrite lookup_insert_eq, Hq; cbn; rewrite E|by rewrite lookup_insert_ne].
Qed.

(** A queue is read and then changed, but for its requests. *)
Lemma update_queue_then {A} ws (f : Queue -> Queue) (k : Queue -> unit -> M t A) :
  (forall q, request_storages_ (f q) = request_storages_ q) -> (forall q u, keeps stays (k q u)) ->
  keeps stays (mbind (get_queue ws) (fun q => mbind (set_queue ws (f q)) (k q))).
Proof.
  intros Hf Hk s a s' (q & s1 & (? & ? & [= <- <-] & E)%mbind_ok & (u & s2 & [= _ <-] & E2)%mbind_ok)%mbind_ok.
  unfold deref in E. destruct (queues_ s !! ws) as [q0|] eqn:Hq; [|done]. injection E as -> <-.
  etransitivity; [eapply (set_queue_stays s ws q (f q)); [done|apply Hf]|]. by eapply Hk.
Qed.
Lemma update_queue ws (f : Queue -> Queue) : (forall q, request_storages_ (f q) = request_storages_ q) ->
  keeps stays (mbind (get_queue ws) (fun q => set_queue ws (f q))).
Proof.
  intros Hf s a s' (q & s1 & (? & ? & [= <- <-] & E)%mbind_ok & [= _ <-])%mbind_ok.
  unfold deref in E. destruct (queues_ s !! ws) as [q0|] eqn:Hq; [|done]. injection E as -> <-. by eapply set_queue_stays.
Qed.

Lemma GetQueueForWebState_stays ws : keeps stays (GetQueueForWebState ws).
Proof.
  intros s q s' (? & ? & [= <- <-] & E)%mbind_ok. destruct (queues_ s !! ws) as [q0|] eqn:Hq; [by injection E as _ <-|].
  apply mbind_ok in E as (u & s1 & Ed & (? & ? & [= _ <-] & [= _ <-])%mbind_ok). unfold deref in Ed.
  case_bool_decide as Hd; [done|]. injection Ed as _ <-. by apply new_queue_stays.
Qed.
Lemma get_queue_stays ws : keeps stays (get_queue ws).
Proof. through @get_queue. Qed.
#[local] Hint Resolve GetQueueForWebState_stays get_queue_stays : code.

Lemma front_request_stays ws : keeps stays (front_request ws).
Proof. unfold front_request, GetRequest. repeat code_step. Qed.
#[local] Hint Resolve front_request_stays : code.
Lemma GetFrontRequestForWebState_stays o : keeps stays (GetFrontRequestForWebState o).
Proof. through GetFrontRequestForWebState. Qed.
#[local] Hint Resolve GetFrontRequestForWebState_stays : code.
Lemma GetActiveRequest_stays : keeps stays GetActiveRequest.
Proof. through GetActiveRequest. Qed.
Lemma notify_observers_stays r e : keeps stays (notify_observers r e).
Proof. through @notify_observers. Qed.
Lemma CanShowUIForRequest_with_stays r c : keeps stays (CanShowUIForRequest_with r c).
Proof. unfold CanShowUIForRequest_with, GetRequiredPresentationCapabilities, RequestUsesChildViewController. repeat code_step. Qed.
Lemma CanShowUIForRequest_stays r : keeps stays (CanShowUIForRequest r).
Proof. unfold CanShowUIForRequest, CanShowUIForRequest_with, GetRequiredPresentationCapabilities, RequestUsesChildViewController. repeat code_step. Qed.
#[local] Hint Resolve GetActiveRequest_stays notify_observers_stays CanShowUIForRequest_stays CanShowUIForRequest_with_stays : code.

Lemma ShowUIForPresentedRequest_stays : keeps stays ShowUIForPresentedRequest.
Proof.
  unfold ShowUIForPresentedRequest, state_OverlayUIWasPresented, OverlayWasPresented, set_state, GetBaseViewController, RequestUsesChildViewController.
  repeat code_step.
Qed.
#[local] Hint Resolve ShowUIForPresentedRequest_stays : code.
Lemma SetRequest_stays o : keeps stays (SetRequest o).
Proof. through @SetRequest. Qed.
#[local] Hint Resolve SetRequest_stays : code.
Lemma ShowOverlayUI_stays r ws : keeps stays (ShowOverlayUI r ws).
Proof. unfold ShowOverlayUI, OverlayPresentionRequested, set_state. repeat code_step. Qed.
Lemma AddCompletionCallback_stays r c : keeps stays (AddCompletionCallback r c).
Proof. through AddCompletionCallback. Qed.
#[local] Hint Resolve ShowOverlayUI_stays AddCompletionCallback_stays : code.
Lemma PresentOverlayForActiveRequest_stays : keeps stays PresentOverlayForActiveRequest.
Proof.
  unfold PresentOverlayForActiveRequest, PrepareToShowOverlayUI, GetRequiredPresentationCapabilities, RequestUsesChildViewController.
  repeat code_step.
Qed.
Lemma SetDelegate_stays ws d : keeps stays (SetDelegate ws d).
Proof.
  unfold SetDelegate, OverlayRequestQueueWillReplaceDelegate. repeat first [by apply (update_queue ws (with_queue_delegate d))|code_step].
Qed.
#[local] Hint Resolve PresentOverlayForActiveRequest_stays SetDelegate_stays : code.

(** The request that a queue gives away is destroyed, or kept by the presenter. *)
Lemma OverlayRequestRemoved_with_ok cancel ws r b x s s' u : (forall r, keeps stays (cancel r)) ->
  owner ({[r]} ∪ x) s -> r ∉ x -> OverlayRequestRemoved_with cancel ws r b s = Ok (u, s') -> owner x s'.
Proof.
  intros Hc Ho Hx (? & ? & [= <- <-] & (u1 & s1 & E1 & (u2 & s2 & E2 & E3)%mbind_ok)%mbind_ok)%mbind_ok.
  assert (forall y, owner y s1 -> owner y s2) as H12 by (destruct b; [by eapply Hc|by injection E2 as _ <-]).
  destruct (bool_decide (presented_request_ (presenter s) = Some r)); cbn [mwhen negb] in E1, E3.
  - injection E3 as _ <-. apply H12. apply mbind_ok in E1 as (u3 & s3 & E1 & E3). eapply set_removed_request_Some in E1; [|exact Ho|done].
    refine ((_ : keeps stays _) _ _ _ E3 _ E1). repeat code_step.
  - injection E1 as _ <-. eapply destroy_moving; [by apply H12|done|exact E3].
Qed.

Lemma RemoveRequest_with_stays cancel ws i b : (forall r, keeps stays (cancel r)) -> keeps stays (RemoveRequest_with cancel ws i b).
Proof.
  intros Hc s u s' (q & s1 & (? & ? & [= <- <-] & E)%mbind_ok & (? & ? & [-> _]%dcheck_ok & (st & ? & E1 & (? & s2 & [= _ <-] & E2)%mbind_ok)%mbind_ok)%mbind_ok)%mbind_ok y Ho.
  unfold deref in E. destruct (queues_ s !! ws) as [q0|] eqn:Hq; [|done]. injection E as -> <-.
  unfold of_option in E1. destruct (request_storages_ q !! i) as [st0|] eqn:Hst; [|done]. injection E1 as -> <-.
  edestruct (queue_gives y s ws q i st) as [Hx Ho']; [done..| |]; [|clear Ho].
  { instantiate (1 := with_request_storages (erase_at i (request_storages_ q))
      (with_navigation_helpers (filter (fun r' => r' <> request st) (navigation_helpers q)) q)). done. }
  destruct (delegate_ q) as [[|p]|].
  - by eapply OverlayRequestRemoved_with_ok.
  - apply mbind_ok in E2 as (u3 & s3 & E2 & E3). eapply destroy_moving; [|done|exact E3].
    by apply (same_stays _ (effect_same _) _ _ _ E2).
  - by eapply destroy_moving.
Qed.

Lemma OverlayWasDismissed_stays r ws reason : keeps stays (OverlayWasDismissed r ws reason).
Proof.
  unfold OverlayWasDismissed, PopFrontRequest. repeat first [code_step | apply RemoveRequest_with_stays].
Qed.
#[local] Hint Resolve OverlayWasDismissed_stays : code.
Lemma OverlayUIDidFinishDismissal_stays r : keeps stays (OverlayUIDidFinishDismissal r).
Proof. unfold OverlayUIDidFinishDismissal, context_OverlayUIWasDismissed, state_OverlayUIWasDismissed, set_state. repeat code_step. Qed.
#[local] Hint Resolve OverlayUIDidFinishDismissal_stays : code.
Lemma DismissPresentedUI_stays reason : keeps stays (DismissPresentedUI reason).
Proof. unfold DismissPresentedUI, set_state. repeat code_step. Qed.
#[local] Hint Resolve DismissPresentedUI_stays : code.
Lemma HideOverlayUI_stays r : keeps stays (HideOverlayUI r).
Proof. through @HideOverlayUI. Qed.
Lemma CancelOverlayUIForRequest_stays r : keeps stays (CancelOverlayUIForRequest r).
Proof. unfold CancelOverlayUIForRequest, CancelOverlayUI. repeat code_step. Qed.
#[local] Hint Resolve HideOverlayUI_stays CancelOverlayUIForRequest_stays : code.
Lemma CancelOverlayUIForFront_stays o : keeps stays (CancelOverlayUIForFront o).
Proof. through @CancelOverlayUIForFront. Qed.
#[local] Hint Resolve CancelOverlayUIForFront_stays : code.
Lemma SetActiveWebState_stays o reason : keeps stays (SetActiveWebState o reason).
Proof. through @SetActiveWebState. Qed.
Lemma SetPresentationContext_stays b : keeps stays (SetPresentationContext b).
Proof. unfold SetPresentationContext, CancelAllOverlayUI. repeat code_step. Qed.
#[local] Hint Resolve SetActiveWebState_stays SetPresentationContext_stays : code.
Lemma WebStateAddedToBrowser_stays ws : keeps stays (WebStateAddedToBrowser ws).
Proof.
  unfold WebStateAddedToBrowser. apply keeps_bind; [apply _|auto with code|intros q0]. apply (update_queue_then ws (with_observed true)); [done|auto with code].
Qed.
Lemma WebStateRemovedFromBrowser_stays ws : keeps stays (WebStateRemovedFromBrowser ws).
Proof.
  unfold WebStateRemovedFromBrowser, presented_in, GetQueueWebState. apply keeps_bind; [apply _|auto with code|intros q0].
  apply (update_queue_then ws (with_observed false)); [done|]. repeat code_step.
Qed.
#[local] Hint Resolve WebStateAddedToBrowser_stays WebStateRemovedFromBrowser_stays : code.
Lemma RemoveRequest_stays ws i b : keeps stays (RemoveRequest ws i b).
Proof. apply RemoveRequest_with_stays. auto with code. Qed.
Lemma RequestAddedToQueue_stays ws r i : keeps stays (RequestAddedToQueue ws r i).
Proof. unfold RequestAddedToQueue, GetRequest. repeat code_step. Qed.
#[local] Hint Resolve RemoveRequest_stays RequestAddedToQueue_stays : code.
Lemma CancelRequest_stays ws r : keeps stays (CancelRequest ws r).
Proof. through @CancelRequest. Qed.
#[local] Hint Resolve CancelRequest_stays : code.
Lemma run_helpers_stays ws : keeps stays (run_helpers ws).
Proof. through @run_helpers. Qed.
#[local] Hint Resolve run_helpers_stays : code.

(** ** The calls of the rest of the program *)

Lemma get_queue_ok ws s q s' : get_queue ws s = Ok (q, s') -> s' = s /\ queues_ s !! ws = Some q.
Proof.
  intros (? & ? & [= <- <-] & E)%mbind_ok. unfold deref in E. by destruct (queues_ s !! ws); simplify_eq.
Qed.
Lemma GetQueueForWebState_ok ws s q s' : GetQueueForWebState ws s = Ok (q, s') -> requests s' = requests s.
Proof.
  intros (? & ? & [= <- <-] & E)%mbind_ok. destruct (queues_ s !! ws) as [q0|] eqn:Hq; [by injection E as _ <-|].
  apply mbind_ok in E as (u & s1 & Ed & (? & ? & [= _ <-] & [= _ <-])%mbind_ok). unfold deref in Ed. case_bool_decide; by simplify_eq.
Qed.

Lemma AddNewRequest_stays ws i r handler callbacks s s' u : requests s !! r = None ->
  AddNewRequest ws i r handler callbacks s = Ok (u, s') -> stays s s'.
Proof.
  intros Hr (? & ? & [= _ <-] & (q0 & s1 & E1 & (q & ? & [-> Hq]%get_queue_ok & (? & ? & [-> _]%dcheck_ok &
    (? & ? & [= _ <-] & (? & ? & [= _ <-] & E)%mbind_ok)%mbind_ok)%mbind_ok)%mbind_ok)%mbind_ok)%mbind_ok y Ho.
  destruct (create_moving y s r (mkRequest None callbacks) Ho Hr) as [Hy Ho']. pose proof (GetQueueForWebState_ok _ _ _ _ E1) as Er.
  apply (GetQueueForWebState_stays _ _ _ _ E1) in Ho'. clear Ho E1.
  match type of E with ?m ?s2 = _ => refine ((_ : keeps stays m) s2 _ _ E _ _); [unfold GetRequest; repeat code_step|] end.
  cbn [requests with_queues with_requests queues_ presenter destroyed]. set (s2 := with_requests _ s1).
  assert (requests s2 = <[r := mkRequest (Some ws) callbacks]> (requests s1)) as Er2.
  { cbn. rewrite Er. cbn. by rewrite alter_insert_eq, insert_insert_eq. }
  apply (queue_gets y s2 ws q i (mkStorage r (match handler with Some h => ClientHandler h | None => DefaultHandler end))); try done.
  - destruct Ho' as [O1 O2 O3 O4 O5 O6]. split; cbn [request]; try done.
    + intros w q1 st Hw Hst. rewrite Er2. rewrite lookup_insert_ne; [by eapply O1|]. intros ->.
      destruct (O5 (request st)) as [_ []]; [set_solver|]. exists w, q1. split; [done|]. apply list_elem_of_fmap. eauto.
    + intros r' Hr'. apply O3. rewrite Er2 in Hr'. apply lookup_insert_is_Some' in Hr' as [<-|Hr']; [|done].
      destruct (O5 r) as [Hal _]; [set_solver|exact Hal].
    + intros r' (Hal & ? & ?)%O4. split_and!; [|done..]. rewrite Er2. apply lookup_insert_is_Some'. by right.
    + intros r' [Hal ?]%O5. split; [|done]. rewrite Er2. apply lookup_insert_is_Some'. by right.
  - rewrite Er2. cbn. by rewrite lookup_insert_eq.
Qed.

(** All the requests of a queue are cancelled, and none is left. *)
Lemma CancelAllRequests_loop_stays fuel ws : keeps stays (CancelAllRequests_loop fuel ws).
Proof. induction fuel as [|fuel IH]; cbn [CancelAllRequests_loop]; repeat code_step. Qed.
Lemma CancelAllRequests_stays ws : keeps stays (CancelAllRequests ws).
Proof.
  unfold CancelAllRequests. apply keeps_bind; [apply _|auto with code|intros q]. apply CancelAllRequests_loop_stays.
Qed.
Lemma CancelAllRequests_empty ws s s' u : CancelAllRequests ws s = Ok (u, s') ->
  forall q, queues_ s' !! ws = Some q -> request_storages_ q = [].
Proof.
  unfold CancelAllRequests. intros (q0 & s0 & _ & E)%mbind_ok. revert s0 E. generalize (size q0). intros fuel.
  induction fuel as [|fuel IH]; cbn [CancelAllRequests_loop]; intros s0 (q & ? & [-> Hq]%get_queue_ok & E)%mbind_ok; case_bool_decide as Hs; [|done| |].
  1, 2: injection E as _ <-; intros q1 Hq1; simplify_eq; by apply length_zero_iff_nil.
  apply mbind_ok in E as (? & s1 & _ & E). by apply (IH s1).
Qed.

Lemma destroy_web_state_stays ws : keeps stays (destroy_web_state ws).
Proof.
  unfold destroy_web_state. intros s u s' (? & s1 & E1 & (? & ? & [= <- <-] & (? & s2 & E2 & [= _ <-])%mbind_ok)%mbind_ok)%mbind_ok.
  etransitivity; [by eapply run_helpers_stays|]. destruct (queues_ s1 !! ws) as [q|] eqn:Hq.
  - apply mbind_ok in E2 as (? & ? & [= _ <-] & (? & s3 & E3 & [= _ <-])%mbind_ok).
    etransitivity; [by apply (set_queue_stays s1 ws q (with_observed false q))|]. etransitivity; [by eapply CancelAllRequests_stays|].
    apply (delete_queue_stays s3 ws). by eapply CancelAllRequests_empty.
  - injection E2 as _ <-. pose proof (delete_queue_stays s1 ws) as Hd. rewrite (delete_id (queues_ s1)) in Hd by done.
    destruct s1. apply Hd. cbn in *. congruence.
Qed.
#[local] Hint Resolve CancelAllRequests_stays destroy_web_state_stays : code.

Lemma list_stays f : (forall s, same_owners s (f s)) -> keeps stays (@mmodify t f).
Proof. intros Hf. apply keeps_modify. intros s. apply same_owners_stays, Hf. Qed.
Lemma when_observed_stays (m : M t unit) : keeps stays m -> keeps stays (when_observed m).
Proof. intros Hm. unfold when_observed. repeat code_step. Qed.

Lemma UpdatePresentationCapabilities_stays : keeps stays UpdatePresentationCapabilities.
Proof.
  unfold UpdatePresentationCapabilities, OverlayPresentationContextWillChangePresentationCapabilities,
    OverlayPresentationContextDidChangePresentationCapabilities.
  repeat first [code_step | apply when_observed_stays].
Qed.
#[local] Hint Resolve UpdatePresentationCapabilities_stays : code.

Lemma exec_stays op s s' u : legal op s -> exec op s = Ok (u, s') -> stays s s'.
Proof.
  intros Hl E. destruct op; cbn [exec legal] in *.
  7: { destruct Hl as (_ & Hr & _). by eapply AddNewRequest_stays. }
  all: refine ((_ : keeps stays _) _ _ _ E); clear E Hl.
  all: unfold InsertWebState, ReplaceWebStateAt, DetachWebStateAt, WillDetachWebStateAt, presented_in, GetQueueWebState, ActivateWebStateAt,
    set_list, DidFinishNavigation, RenderProcessGone, UserDismissal, SetContainerViewController, SetPresentationContextViewController,
    SetUIDisabled, SetWindow, context_SetDelegate, OverlayPresentationContextDidMoveToWindow, OverlayPresentationContextDidEnableUI,
    OverlayPresentationContextDidChangePresentationCapabilities, AddObserver, RemoveObserver, SetCompletionResponse, AddDispatchCallback, DispatchResponse.
  all: repeat first [apply list_stays; intros; by split | code_step | apply when_observed_stays].
Qed.

Lemma create_stays s s' u : presenter s = new_presenter ->
  (OverlayPresenterImpl_create ;;; OverlayPresentationContextImpl_create) s = Ok (u, s') -> stays s s'.
Proof.
  intros Hp (? & s1 & (? & s0 & [= _ <-] & E1)%mbind_ok & E2)%mbind_ok.
  etransitivity; [apply (same_owners_stays s (with_presenter new_presenter s)); split; try done; unfold awaiting; by rewrite Hp|].
  transitivity s1.
  - refine ((_ : keeps stays _) _ _ _ E1). repeat code_step.
  - refine ((_ : keeps stays _) _ _ _ E2). unfold OverlayPresentationContextImpl_create. repeat first [apply list_stays; intros; by split | code_step].
Qed.

Lemma owner_no_requests s : requests s = ∅ -> queues_ s = ∅ -> awaiting s = None -> owner ∅ s.
Proof.
  intros E1 E2 E3. split; rewrite ?E1, ?E2, ?E3; try done.
  - intros r. rewrite lookup_empty. by intros [? ?].
Qed.

(** What the owners say to the program. *)
Lemma owner_alive s r : owner ∅ s -> is_Some (requests s !! r) <-> queued s r \/ awaiting s = Some r.
Proof.
  intros [O1 O2 O3 O4 O5 O6]. split; [intros [?|[?|?%elem_of_empty]]%O3; auto; done|].
  intros [(ws & q & Hq & (st & -> & Hst)%list_elem_of_fmap)|Ha]; [|by apply O4].
  apply (proj1 (fmap_is_Some queue_web_state_ _)). by rewrite (O1 ws q st Hq Hst).
Qed.

End Ownership.
End OverlayOwnership.
