(* ===== verification/OverlayTheorems.v ===== *)
(** * Overlays: what the user sees

    A window is created with its WebStates, and the rest of the program makes any
    legal calls. With coordinators that dismiss their UI at once none of them
    fails, the UI that is shown is that of the front request of the active
    WebState, and it is shown whenever the context can show it, unless a request
    of the active WebState was cancelled. *)

From stdpp Require Import base tactics option list numbers gmap.
From Stdlib Require Import ZArith Lia.
From S2P Require Import Prelude.
From S2P Require Import WebStateListModel.
From S2P Require Import OverlayState.
From S2P Require Import OverlayOps.
From S2P Require Import OverlayProofs.
From S2P Require Import OverlayDismissal.
From S2P Require Import OverlayInvariant.
From S2P Require Import OverlayCalls.
From S2P Require Import OverlayRequests.
From S2P Require Import OverlayContext.
From S2P Require Import OverlayCallsAll.
From S2P Require Import OverlayOwnership.

Module OverlayTheorems.
Import OverlayOps OverlayProofs OverlayDismissal OverlayInvariant OverlayCalls OverlayRequests OverlayContext OverlayCallsAll OverlayOwnership.

Section Window.
Context `{H : OverlayEnv} `{Hfinish : !FinishAtOnce}.
Implicit Types (s : t) (r : RequestId) (ws : WebState) (b : bool).

(** The window with the WebStates of its list, before the presenter exists. *)
Definition new_window (l : list WebState) (a : option WebState) : t := mk ∅ ∅ ∅ l a new_presenter new_context [].
Definition create : M t unit := OverlayPresenterImpl_create ;;; OverlayPresentationContextImpl_create.
Definition run (ops : list Op) : M t unit := create ;;; mfor ops exec.

(** Each call is legal in the state in which it is made. *)
Fixpoint legal_all (ops : list Op) s : Prop :=
  match ops with
  | [] => True
  | op :: ops => legal op s /\ match exec op s with Ok (_, s') => legal_all ops s' | Fault _ => True end
  end.
#[export] Instance legal_all_dec ops s : Decision (legal_all ops s).
Proof. revert s. induction ops as [|op ops IH]; intros s; cbn; [apply _|]. destruct (exec op s) as [[[] s']|]; apply _. Defined.
Definition legal_run (ops : list Op) s : Prop :=
  match create s with Ok (_, s') => legal_all ops s' | Fault _ => True end.

#[export] Instance legal_run_dec ops s : Decision (legal_run ops s).
Proof. unfold legal_run. destruct (create s) as [[[] s']|]; apply _. Defined.

(** Whether a call of the sequence may leave a request unseen. *)
Fixpoint unsettled (ops : list Op) s : bool :=
  match ops with
  | [] => false
  | op :: ops => may_unsettle op s || match exec op s with Ok (_, s') => unsettled ops s' | Fault _ => false end
  end.
Definition unsettled_run (ops : list Op) s : bool :=
  match create s with Ok (_, s') => unsettled ops s' | Fault _ => false end.

(** The UI that the context shows is that of the request that the presenter
    presents, and it is the front request of the active WebState. *)
Definition presents s : Prop :=
  match presented_request_ (presenter s) with
  | None => presenting_ (presenter s) = false /\ IsShowingOverlayUI s = false
  | Some r =>
      presenting_ (presenter s) = true /\ IsShowingOverlayUI s = true /\ request_ (context s) = Some r /\
      (exists ws, active s = Some ws /\ front s ws = Some r /\ queue_web_state_ <$> requests s !! r = Some (Some ws)) /\
      can_show r (presentation_capabilities_ (context s)) = true
  end.

(** A request is alive while it is in the queue of its WebState, or removed and
    kept by the presenter until its UI is dismissed, and not both. *)
Definition owned s : Prop :=
  forall r, (is_Some (requests s !! r) <->
      (exists ws, r ∈ request <$> storages s ws) \/ removed_request_awaiting_dismissal_ (presenter s) = Some r) /\
    (removed_request_awaiting_dismissal_ (presenter s) = Some r -> forall ws, r ∉ request <$> storages s ws).

Lemma add_all_run todo : forall s, destroyed s = ∅ -> (forall ws, storages s ws = []) ->
  exists Q, mfor todo WebStateAddedToBrowser s = Ok (tt, with_queues Q s) /\
    (forall ws, storages (with_queues Q s) ws = []) /\
    forall ws, ws ∈ todo \/ in_window s ws -> in_window (with_queues Q s) ws.
Proof.
  induction todo as [|w todo IH]; intros s Hd Hs; cbn [mfor].
  { exists (queues_ s). destruct s. split_and!; [done..|]. by intros ws [?%elem_of_nil|]. }
  destruct (WebStateAddedToBrowser_run s w) as (q & E & Hq & Hdel & Hobs); [by rewrite Hd|].
  rewrite (mbind_run _ _ s tt (with_queues (<[w := q]> (queues_ s)) s)) by done. set (s1 := with_queues _ s) in *.
  assert (forall ws, in_window s ws -> in_window s1 ws) as Hin.
  { intros ws (q0 & Hq0 & Hr). destruct (decide (ws = w)) as [->|Hne]; [|exists q0; cbn; by rewrite lookup_insert_ne].
    exists q. cbn. by rewrite lookup_insert_eq. }
  destruct (IH s1) as (Q & E1 & HQ & HW); [done| |].
  { intros ws. unfold storages. cbn. destruct (decide (ws = w)) as [->|Hne].
    - rewrite lookup_insert_eq. by rewrite Hq.
    - rewrite lookup_insert_ne by done. apply Hs. }
  exists Q. split; [exact E1|]. split; [exact HQ|]. intros ws Hws. apply HW. destruct Hws as [Hws|?]; [|right; by apply Hin].
  apply elem_of_cons in Hws as [->|?]; [|by left]. right. exists q. split; [|done]. cbn. apply lookup_insert_eq.
Qed.

Lemma create_run l a : NoDup l -> (forall ws, a = Some ws -> ws ∈ l) ->
  exists s, create (new_window l a) = Ok (tt, s) /\ Inv true s.
Proof.
  intros Hnd Ha. set (s0 := new_window l a). unfold create, OverlayPresenterImpl_create.
  rewrite !mbind_assoc. rewrite (mbind_run _ _ s0 tt s0) by done. rewrite !mbind_assoc, (mbind_run _ _ s0 s0 s0) by done.
  destruct (add_all_run l s0) as (Q & E & HQ & HW); [done..|]. rewrite !mbind_assoc, (mbind_run _ _ s0 tt (with_queues Q s0)) by done.
  set (s1 := with_presenter (with_active_web_state a new_presenter) (with_queues Q s0)).
  assert (SetActiveWebState a Activated (with_queues Q s0) = Ok (tt, s1)) as E1.
  { unfold SetActiveWebState. destruct a as [ws|]; [|done]. done. }
  rewrite (mbind_run _ _ _ tt s1) by exact E1. unfold OverlayPresentationContextImpl_create.
  rewrite (mbind_run _ _ s1 tt s1) by done.
  assert (forall ws q, Q !! ws = Some q -> request_storages_ q = []) as Hno.
  { intros ws q Hq. specialize (HQ ws). unfold storages in HQ. cbn in HQ. by rewrite Hq in HQ. }
  destruct (SetPresentationContext_run s1 true true) as (s2 & E2 & HI); [|by exists s2].
  split; try done.
  - split; try done.
    + intros ws q st Hq Hst. rewrite (Hno ws q Hq) in Hst. by apply elem_of_nil in Hst.
    + intros ws q Hq. rewrite (Hno ws q Hq). constructor.
    + cbn. intros ws Hws. destruct (HW ws) as (q & Hq & _); [left; by apply Ha|]. cbn in Hq. by rewrite Hq.
  - intros ws Hws. destruct (HW ws) as (q & Hq); [by left|]. by exists q.
  - left. done.
Qed.

Lemma exec_all_run ops : forall s b, Inv b s -> legal_all ops s ->
  exists s', mfor ops exec s = Ok (tt, s') /\ Inv (b && negb (unsettled ops s)) s'.
Proof.
  induction ops as [|op ops IH]; intros s b Hinv Hl; cbn [mfor legal_all unsettled] in *.
  { exists s. by rewrite andb_true_r. }
  destruct Hl as [Hop Hl]. destruct (exec_run op s b Hinv Hop) as (s1 & E1 & H1). rewrite E1 in Hl |- *.
  rewrite (mbind_run _ _ s tt s1) by done. destruct (IH s1 _ H1 Hl) as (s2 & E2 & H2).
  exists s2. split; [done|]. by rewrite negb_orb, andb_assoc.
Qed.

Lemma run_run l a ops : NoDup l -> (forall ws, a = Some ws -> ws ∈ l) -> legal_run ops (new_window l a) ->
  exists s, run ops (new_window l a) = Ok (tt, s) /\ Inv (negb (unsettled_run ops (new_window l a))) s.
Proof.
  intros Hnd Ha. unfold legal_run, unsettled_run, run. destruct (create_run l a Hnd Ha) as (s0 & E0 & H0). rewrite E0. intros Hl.
  destruct (exec_all_run ops s0 true H0 Hl) as (s & E & HI). exists s. split; [|exact HI]. by rewrite (mbind_run _ _ _ tt s0).
Qed.

Lemma Inv_presents b s : Inv b s -> presents s.
Proof.
  intros Hinv. unfold presents. destruct (shown_cases b s (inv_shown _ _ Hinv)) as [(r & Hsh & Hto)|[[(H1 & H2 & H3) H4] _]].
  - destruct Hsh as (H1 & H2 & H3 & H4 & u & ws & H5 & H6 & H7 & H8). rewrite H2.
    destruct (to_show_active s r Hto) as (_ & Hact & Hcan). split_and!; try done.
    + unfold IsShowingOverlayUI, GetRequestUIState, has_callback. rewrite H4. cbn. rewrite H5. cbn. by rewrite H6.
    + unfold active_request in Hact. rewrite (inv_active _ _ Hinv) in Hact. destruct (active s) as [w|]; [|done]. cbn in Hact.
      exists w. split_and!; [done..|]. eapply wf_front_state; [apply Hinv|done].
  - rewrite H2. split; [done|]. by apply not_showing.
Qed.

Lemma queued_storages_in s r : queued s r <-> exists ws, r ∈ request <$> storages s ws.
Proof.
  split.
  - intros (ws & q & Hq & Hr). exists ws. unfold storages. by rewrite Hq.
  - intros (ws & Hr). unfold storages in Hr. destruct (queues_ s !! ws) as [q|] eqn:Hq; [by exists ws, q|]. by apply elem_of_nil in Hr.
Qed.

Lemma owner_owned s : owner ∅ s -> owned s.
Proof.
  intros Ho r. rewrite (owner_alive s r Ho), <- queued_storages_in. split; [done|].
  intros Ha ws Hr. destruct (owner_awaiting _ _ Ho r Ha) as (_ & Hn & _). apply Hn, queued_storages_in. by exists ws.
Qed.

Lemma run_stays l a ops s : legal_run ops (new_window l a) -> run ops (new_window l a) = Ok (tt, s) -> owner ∅ s.
Proof.
  unfold legal_run, run. intros Hl ([] & s0 & E0 & E)%mbind_ok. rewrite E0 in Hl.
  assert (owner ∅ s0) as H0 by (eapply (create_stays (new_window l a)); [done|exact E0|]; by apply owner_no_requests).
  clear E0. revert s0 H0 Hl E. induction ops as [|op ops IH]; cbn [legal_all mfor]; intros s0 H0 Hl E; [by injection E as <-|].
  destruct Hl as [Hop Hl]. apply mbind_ok in E as ([] & s1 & E1 & E). rewrite E1 in Hl.
  apply (IH s1); [|done..]. by eapply exec_stays.
Qed.

Lemma Inv_settled s ws r : Inv true s -> presentation_context_ (presenter s) = true -> active s = Some ws -> front s ws = Some r ->
  can_show r (presentation_capabilities_ (context s)) = true -> presented_request_ (presenter s) = Some r.
Proof.
  intros Hinv Hc Ha Hf Hcan. assert (to_show s = Some r) as Hto.
  { unfold to_show, active_request. rewrite Hc, (inv_active _ _ Hinv), Ha. cbn. by rewrite Hf, Hcan. }
  destruct (inv_shown _ _ Hinv) as [Hs|[? _]]; [|done]. rewrite Hto in Hs. apply Hs.
Qed.

End Window.



(** C21: Whatever the coordinators do, and whenever their dismissals finish: after
    any legal calls that fail no check, a request is alive exactly while it is in
    the queue of its WebState, or was removed from it and is kept by the presenter
    until its UI is dismissed; it is in one place and once, and a destroyed
    WebState has no queue. No call leaks a request, or leaves one in a queue that
    is destroyed. When the coordinators that are hidden or cancelled finish at
    once the calls fail no check, and no request is kept. *)
Theorem Overlays_requests_owned {Henv : OverlayEnv} l a ops
    (Hnodup : NoDup l) (Hactive : forall ws, a = Some ws -> ws ∈ l) (Hlegal : legal_run ops (new_window l a)) :
  (forall s, run ops (new_window l a) = Ok (tt, s) ->
    owned s /\
    (forall ws, ws ∈ destroyed s -> storages s ws = []) /\
    (forall ws, NoDup (request <$> storages s ws)) /\
    forall ws ws' r, r ∈ request <$> storages s ws -> r ∈ request <$> storages s ws' -> ws = ws') /\
  (FinishAtOnce -> exists s, run ops (new_window l a) = Ok (tt, s) /\ removed_request_awaiting_dismissal_ (presenter s) = None).
Proof.
  split; [|intros Hf; destruct (run_run l a ops Hnodup Hactive Hlegal) as (s & E & HI); exists s; split; [done|apply HI]].
  intros s E. pose proof (run_stays l a ops s Hlegal E) as Ho. destruct Ho as [O1 O2 O3 O4 O5 O6] eqn:Eo. split; [by apply owner_owned|]. clear Eo. split; [|split].
  - intros ws Hws. unfold storages. by rewrite (O6 ws Hws).
  - intros ws. unfold storages. destruct (queues_ s !! ws) as [q|] eqn:Hq; [by eapply O2|constructor].
  - intros ws ws' r (st & -> & (q & Hq & Hst)%storages_in)%list_elem_of_fmap (st' & E' & (q' & Hq' & Hst')%storages_in)%list_elem_of_fmap.
    pose proof (O1 ws q st Hq Hst) as E1. pose proof (O1 ws' q' st' Hq' Hst') as E2. rewrite <- E' in E2. congruence.
Qed.

(** ** Examples *)

Module ExampleOverlays.

(** Coordinators of even requests use a child view controller; an animated or a
    plain dismissal finishes at once, or later. *)
Definition env (at_once : bool) : OverlayEnv :=
  {| uses_child_view_controller r := Z.even (Zpos r); is_request_supported o r := true;
     is_response_supported s r := bool_decide (s = r); stops_at_once _ := at_once; view_has_superview _ := false |}.
#[export] Instance at_once : OverlayEnv := env true.
#[export] Instance at_once_finish : FinishAtOnce.
Proof. by split. Defined.

Definition no_callbacks : CallbackManager := mkCallbackManager None [] [].
Definition show_ui : list Op :=
  [OpSetContainerViewController (Some 7%positive); OpSetPresentationContextViewController (Some 8%positive);
   OpSetWindow (Some 9%positive); OpAddObserver 3%positive].
Definition requests_of_two_tabs : list Op :=
  [OpAddRequest 1%positive 0 10%positive None no_callbacks; OpAddRequest 1%positive 1 11%positive (Some 4%positive) no_callbacks;
   OpAddRequest 2%positive 0 20%positive None no_callbacks; OpAddRequest 1%positive 0 12%positive None no_callbacks].
(** The tab in front changes, the user dismisses, requests are cancelled, tabs
    are detached, adopted, replaced and destroyed. *)
Definition ops : list Op :=
  show_ui ++ requests_of_two_tabs ++
  [OpActivateWebStateAt 1; OpActivateWebStateAt 0; OpUserDismissal; OpInsertWebState 3%positive 2 true;
   OpCancelAllRequests 2%positive; OpActivateWebStateAt 0; OpSetUIDisabled true; OpSetUIDisabled false;
   OpDetachWebStateAt 0 (Some 2%positive); OpGiveToOther 1%positive 5%positive; OpReplaceWebStateAt 0 4%positive;
   OpDestroyWebState 2%positive; OpAddRequest 4%positive 0 40%positive None no_callbacks; OpDestroyWebState 1%positive].



(** The coordinators take their time: the UI of request 10 is hidden for that of
    12, which is in front of it, and after its dismissal 12 is shown and cancelled;
    10 is cancelled while the presenter keeps 12, whose UI is still there. *)
Definition slow_ops : list Op :=
  show_ui ++ requests_of_two_tabs ++ [OpUserDismissal; OpCancelRequest 1%positive 12%positive; OpCancelRequest 1%positive 10%positive].
Lemma Overlays_requests_owned_witness :
  (exists s, run (H := env false) slow_ops (new_window [1; 2]%positive (Some 1%positive)) = Ok (tt, s) /\
     removed_request_awaiting_dismissal_ (presenter s) = Some 12%positive /\ owned s) /\
  (exists s, run ops (new_window [1; 2]%positive (Some 1%positive)) = Ok (tt, s) /\ removed_request_awaiting_dismissal_ (presenter s) = None).
Proof.
  assert (forall ws, Some 1%positive = Some ws -> ws ∈ [1; 2]%positive) as Ha by (intros ws [= <-]; left).
  assert (NoDup [1; 2]%positive) as Hn by (apply (bool_decide_unpack _); vm_compute; exact I). split.
  - assert (legal_run (H := env false) slow_ops (new_window [1; 2]%positive (Some 1%positive))) as Hl by (apply (bool_decide_unpack _); vm_compute; exact I).
    destruct (Overlays_requests_owned (Henv := env false) [1; 2]%positive (Some 1%positive) slow_ops Hn Ha Hl) as [Ho _].
    assert (match run (H := env false) slow_ops (new_window [1; 2]%positive (Some 1%positive)) with
      | Ok (_, s) => removed_request_awaiting_dismissal_ (presenter s) | Fault _ => None end = Some 12%positive) as E by (vm_compute; reflexivity).
    destruct (run (H := env false) slow_ops _) as [[[] s]|]; [|discriminate]. exists s. split; [done|]. split; [done|]. by apply Ho.
  - assert (legal_run ops (new_window [1; 2]%positive (Some 1%positive))) as Hl by (apply (bool_decide_unpack _); vm_compute; exact I).
    apply (Overlays_requests_owned [1; 2]%positive (Some 1%positive) ops Hn Ha Hl). apply _.
Defined.

Definition outcome {A} (m : res (A * t)) : option RequestId + fault :=
  match m with Ok (_, s) => inl (presented_request_ (presenter s)) | Fault f => inr f end.
Definition tabs : t := new_window [1; 2]%positive (Some 1%positive).

(** After the calls the request of the new tab is shown. *)
Example ops_outcome : outcome (run ops tabs) = inl (Some 40%positive).
Proof. vm_compute. reflexivity. Qed.

(** A tab is activated while the UI of the last one is hidden: the presenter asks
    to hide the request of the tab between them, which is not shown. *)
Example slow_dismissal :
  outcome (run (H := env false) (show_ui ++ requests_of_two_tabs ++ [OpActivateWebStateAt 1; OpActivateWebStateAt 0]) tabs) = inr DCheckFailed.
Proof. vm_compute. reflexivity. Qed.

(** The front request cannot be shown, and is cancelled: the next one can be
    shown and is not. *)
Example next_request_unseen :
  outcome (run [OpSetPresentationContextViewController (Some 8%positive); OpAddRequest 1%positive 0 10%positive None no_callbacks;
    OpAddRequest 1%positive 1 11%positive None no_callbacks; OpCancelRequest 1%positive 10%positive] tabs) = inl None.
Proof. vm_compute. reflexivity. Qed.

(** A tab whose request is shown is detached, and its UI is cancelled: its queue
    keeps the presenter as its delegate. *)
Example detached_keeps_delegate :
  match run (show_ui ++ requests_of_two_tabs ++ [OpDetachWebStateAt 0 (Some 2%positive)]) tabs with
  | Ok (_, s) => delegate_ <$> queues_ s !! 1%positive
  | Fault _ => None
  end = Some (Some ThisPresenter).
Proof. vm_compute. reflexivity. Qed.

End ExampleOverlays.
End OverlayTheorems.
